(* ===== verification/_CoqProject ===== *)
-Q . S2P
Prelude.v
Memory.v
Layout.v
Crc32.v
BlockDevice.v
Installer.v
InstallerMbr.v
InstallerGpt.v
LimineHdd.v
Bits.v
Stivale.v
Pmm.v
FrameAlloc.v
PageTable.v
Region.v
Vmm.v
Kheap.v
Printf.v
SpinLock.v
Ustar.v
Vfs.v
Acpi.v
Devices.v
Madt.v
Bitfields.v
IoApic.v
MadtParse.v
Pit.v
Lapic.v
Gdt.v
Idt.v
Keyboard.v
Syscall.v
Proc.v
Elf.v
Tables.v
Program.v
Font.v
Graphics.v
Terminal.v
Boot.v
Start.v
Kernel.v
