(* ===== verification/Prelude.v ===== *)
(** * Vardar-OS: verification library

    Vardar-OS is a small x86-64 kernel started by a stivale2 boot loader.  This
    library models the C code under [src/src/kernel], and the installer of the
    boot loader under [src/limine], function by function and proves what each
    part does, errors included.  Where the code does not do
    what it means to, the theorem states what it does.

    ** The program

    [kernel.c] asks the boot loader for a memory map, a frame buffer and the
    address of the ACPI tables, and then initialises in turn the physical memory
    manager (page frames), ACPI and the interrupt controllers it describes, the
    kernel page table, the interrupt table, the heap, the local APIC, the
    segments, and the other processors; loads a program from a RAM disk into a
    page table of its own; and leaves the screen to a terminal driven by
    keyboard interrupts.  Page tables, MADT arrays, stacks, the heap and
    programs are all built of frames of the physical memory manager.

    [limine-install.c] runs on the host, as part of the build: it finds out how
    the image of the system is partitioned, finds room for the boot loader
    (behind a master boot record, in a partition, or at the ends of the arrays
    of a GUID partition table, which it cuts short) and writes it there, through
    a cache of one block.

    ** Conventions

    Integers are [Z] with the wrap-around of the C type written out ([u8] to
    [u64], [i32]).  Memory is a finite map from addresses to bytes ([Memory]);
    structures in memory are read at the offsets of their fields, statics that
    the code never takes the address of are fields of a record.  A function
    returns an [outcome]: [Done], [Undefined] for undefined behaviour of C
    (over-wide shift, division by zero, signed overflow, index out of a table
    or of the back buffer, call of a null pointer), or [OutOfFuel].  State is
    passed explicitly.

    In the installer a step also may give up: [io] ([BlockDevice]) is a state
    monad over [outcome] with failure, and [main] is written against the class
    [BlockIO], with the cached device and a plain array of bytes as instances.

    Fuel: a loop whose number of turns the arguments bound computes its own
    fuel, and theorems show it is enough ([search_fuel] of [Pmm] is one full
    turn of the rotating search and two more; [heap_fuel] one step per byte of
    the heap; one step per byte to read or write a device; 31 digits in [Convert]; the pages of a range in [MapMultiple] and
    [load_segment]).  A loop whose end depends on memory or on a device (strings,
    tag lists, MADT records, busy waiting) takes the fuel as an argument, and
    its theorem says how much is enough.  Where a loop does not end, a theorem
    says that no fuel is enough.

    Hardware and boot-loader code are parameters: the class [Mmio] for device
    registers, [Ports] for [inportb] and [outportb], with the laws a theorem
    relies on in [IoApicDevice], [LapicDevice] and [PitDevice], each with a
    concrete instance for the witnesses ([LapicDevice] has the laws of the
    processor manuals: reserved bits are left open, and the masks of the local
    vector table cannot be cleared while the local APIC is disabled; the
    theorems on the start of the kernel and of the other processors hold
    whatever the local APIC does, and do without it); driver functions of the file system
    layer are arguments.  The installer's file and the memory it can allocate
    are arguments; a file is its size and bytes.

    ** Files

    - [Prelude]: outcomes, machine integers, bounded loops ([for_range]), the
      tactics [do_bind] and the generic lemmas.
    - [Memory] ([utils/string.c]), [Bits] ([utils/misc.c]), [Bitfields] (C
      bit-fields), [Printf] ([utils/printf.c]), [SpinLock]
      ([utils/spin_lock.c], with processors interleaved by a step relation).
    - [Stivale]: the records of the boot protocol other files use.  [Boot]: all
      layouts and identifiers of [stivale2.h]; the header tags,
      [stivale2_get_tag] and the look-ups of [_start] in [kernel.c].
    - [Pmm] ([memory_management/physical_memory_manager.c]): the bitmap in
      memory and its rotating search.  [FrameAlloc]: the interface
      [FrameAllocator] with [FrameAllocatorLaws], which [Pmm] implements and
      against which page tables, MADT arrays, stacks and programs are proved.
      [Region]: the promise that frames in a row remain free, a second notion
      of availability the same laws hold for.
    - [PageTable] and [Vmm] ([memory_management/virtual_memory_manager.c]): one
      page; ranges and the address space of the kernel.
    - [Kheap] ([memory_management/kheap.c]): the heap, refined to a list of
      blocks.
    - [Ustar] and [Vfs] ([vfs/ustar.c], [vfs/vfs.c]).
    - [Acpi] ([acpi/acpi.c]), [Madt] and [MadtParse] ([acpi/madt.c]).
    - [Devices] ([interrupts/io.c]), [IoApic] ([hal/io_apic.c]), [Pit]
      ([hal/pit.c]), [Lapic] ([hal/lapic.c], [hal/cpu_init.c], [Isr2Handler]).
    - [Gdt] ([gdt/gdt.c]), [Idt] ([interrupts/idt.c]), [Keyboard]
      ([interrupts/keycodes.c], [Isr1Handler]), [Syscall]
      ([interrupts/syscall.c], the stubs of [interrupts/idt_asm.asm]).
    - [Proc] ([proc/proc.c]), [Elf] ([proc/elf.c]); [Tables], the declared
      layouts of ACPI tables, archives and programs, against what is read.
    - [Font] ([graphics/font.c]), [Graphics] ([graphics/graphics_types.c],
      [graphics/graphics_ctx.c]), [Terminal] ([graphics/terminal.c]).
    - [kernel.c]: [Start], the part of [_start] that sets up memory, over [Pmm],
      [Acpi], [MadtParse], [Vmm] and [Kheap]; [Program], the part that takes a
      program from the RAM disk to an address space, over [Ustar], [Kheap] and
      [Elf]; [Kernel], all of [_start] and the keyboard interrupts after it: a
      record [system] of the statics of all components, with one physical
      memory and one set of devices, and an operation per group of calls.

    - [limine/limine-install.c]: [Crc32]; [BlockDevice], the device and its
      cache; [Installer], [main] and its refinement; [InstallerMbr] and
      [InstallerGpt], what it leaves on each kind of device; [LimineHdd], the
      image of [limine/limine-hdd.h] and installing it.  [Layout]: how C lays out
      structures, for these headers, [Boot] and [Tables].

    ** What the theorems show

    - The kernel as a whole: [start_components_spec] (from the tags of the boot
      loader to the loaded program, every call ends and succeeds; the state it
      leaves, component by component, in terms of the memory the boot loader
      left), [program_confined] (what user mode can reach), [start_undefined]
      (starting the screen is undefined on every screen,
      of any size and depth),
      [keyboard_session_spec] (any number of keyboard interrupts), and the
      parts [start_memory_spec] and [start_heap_spec], with weaker hypotheses.
      The hypotheses are records ([machine_ok], [memory_ok], [firmware_ok]) of
      which a concrete machine is an instance.
    - Frames: [InitPmm_spec] (the invariant [pmm_ok] and which frames are
      free), [AllocFirstFrame_spec], [alloc_frames_distinct],
      [FreeFrame_roundtrip], [AllocContiguous_first_fit]; and when the searches
      miss a frame or never end.
    - Address spaces: [MapPage_refines] (a page table is a function from page
      numbers to entries, and [MapPage] updates it at one point),
      [MapPage_translates], [MapPage_isolated], [MapPage_total],
      [InitPageTable_spec] (the kernel's address space is the function
      [boot_map]).
    - Heap: [kalloc_spec], [kfree_spec], [krealloc_forward] (functions on the
      list of blocks), [kalloc_kfree_roundtrip], [init_heap_spec]; and the
      requests, and the size of the kernel's own heap, that break it.
    - Programs: [parse_elf_spec] (the new address space page by page, contents
      of the frames, and that nothing in use changes), [parse_elf_no_magic],
      [run_proc_spec].
    - Interrupts: [ParseMadt_spec], [initialize_ioapic_ints_spec] and the
      changes of single entries, [enable_lapic_spec], [startup_aps_spec],
      [initialize_gdt_spec] (with the loads of the segment registers),
      [InitializeIdt_spec], [keyboard_run_spec] over any sequence of scan codes,
      [syscall_1_prints] (with the segment registers it loses).
    - Screen: [DrawRect_spec], [DrawChar_spec], [double_buffering] (an
      invariant of the relation [draw_step]: all calls whose shapes lie on the
      screen; [unclipped_stale] shows one that does not), [terminal_session]
      over any sequence of keystrokes.
    - Boot: [stivale2_no_padding], [stivale2_get_tag_spec], [kernel_requests].
    - Installer: [main_runs] (whatever the device, it ends, and does through the
      cache what it does on an array; which block is lost when it gives up),
      [main_mbr_spec], [main_partition_spec], [main_gpt_spec] and
      [main_force_spec] (both stages are there, the boot sector leads to them,
      the partition tables and their checksums are right, all else stays),
      [main_mbr_again] (installing again changes nothing), [main_refuses],
      [crc32_spec] (the table against the division), [crc_ref_detects]; and what
      it destroys: [main_loses_table], [main_gpt_clears].
    - Layouts: [packed_layouts], [madt_readers], [elf_readers].
    - Utilities: [memmove_spec] (against a copy of a snapshot), the string
      functions, [Itoa_roundtrip], [Convert_spec], [PrintK_renders] (against
      [numeral], the digits of a number place by place, and a renderer of
      format items), [wait_not_exclusive].

    ** Not modelled

    Messages the kernel prints as it goes, except those a theorem mentions;
    caches, the TLB and memory ordering; interrupts inside functions other than
    the calibration loop.  The other processors do not run: [ap_entry] is a
    definition, but nothing is interleaved with the kernel's start, and the
    stacks they use - below the addresses they are given - belong to nobody.  The kernel's statics, its stack, the back buffer and
    the memory of the screen are not in physical memory but in records of their
    own; of the kernel's image only the three strings that are looked up are
    in it.  The structures of the boot loader are read once: they are in memory
    that stays as it is, but for the entries of the processors, which are
    written after they are read.  [proc/sched.c], [interrupts/key_input.h],
    [interrupts/keycode.h], [vfs/initrd.c] and [acpi/sdt.c] have no code;
    [hal/apic.h] is an unused older header.  Of the installer: its messages,
    failures of the C library other than the end of the device and exhausted
    memory, and the branch of [set_pos] for a [long] of 32 bits.  The boot loader
    itself is machine code, of which only the bytes are known here. *)
From Stdlib Require Export ZArith Lia Bool.
From stdpp Require Export base numbers list gmap.

(** ** Notations *)

Declare Scope c_scope.
Delimit Scope c_scope with c.
#[global] Open Scope Z_scope.

(** Facts about regions of memory, resolved by [eauto with cmem]. *)
Create HintDb cmem.

(** ** Outcomes of C code

    A C function either finishes with a value, runs into undefined behaviour
    (a division by zero, a negative or too wide shift, a signed overflow) or
    has not finished within the fuel it was given. *)

Inductive outcome (A : Type) : Type :=
| Done (a : A)
| Undefined
| OutOfFuel.
Arguments Done {A} a.
Arguments Undefined {A}.
Arguments OutOfFuel {A}.

#[export] Instance outcome_ret : MRet outcome := @Done.
#[export] Instance outcome_bind : MBind outcome := λ A B f o,
  match o with
  | Done a => f a
  | Undefined => Undefined
  | OutOfFuel => OutOfFuel
  end.
#[export] Instance outcome_fmap : FMap outcome := λ A B f o,
  match o with
  | Done a => Done (f a)
  | Undefined => Undefined
  | OutOfFuel => OutOfFuel
  end.

(** [check b] is the side condition of an operation that is undefined
    behaviour when [b] is false. *)
Definition check (b : bool) : outcome () := if b then Done () else Undefined.

Lemma bind_Done_inv {A B} (o : outcome A) (f : A → outcome B) b :
  o ≫= f = Done b → ∃ a, o = Done a ∧ f a = Done b.
Proof. destruct o; simpl; naive_solver. Qed.

Lemma check_true b : b = true → check b = Done ().
Proof. by intros ->. Qed.

(** ** Machine integers *)

Definition u8 (z : Z) : Z := z mod 2 ^ 8.
Definition u16 (z : Z) : Z := z mod 2 ^ 16.
Definition u32 (z : Z) : Z := z mod 2 ^ 32.
Definition u64 (z : Z) : Z := z mod 2 ^ 64.
(** Conversion to [int]: GCC reduces modulo 2^32 into the signed range. *)
Definition i32 (z : Z) : Z := (z + 2 ^ 31) mod 2 ^ 32 - 2 ^ 31.

Definition INT_MAX : Z := 2 ^ 31 - 1.
Definition INT_MIN : Z := - 2 ^ 31.

Lemma u64_small z : 0 ≤ z < 2 ^ 64 → u64 z = z.
Proof. apply Z.mod_small. Qed.
Lemma u32_small z : 0 ≤ z < 2 ^ 32 → u32 z = z.
Proof. apply Z.mod_small. Qed.
Lemma u16_small z : 0 ≤ z < 2 ^ 16 → u16 z = z.
Proof. apply Z.mod_small. Qed.
Lemma u8_small z : 0 ≤ z < 2 ^ 8 → u8 z = z.
Proof. apply Z.mod_small. Qed.
Lemma i32_small z : - 2 ^ 31 ≤ z < 2 ^ 31 → i32 z = z.
Proof. intros. unfold i32. rewrite Z.mod_small; lia. Qed.
Lemma u64_range z : 0 ≤ u64 z < 2 ^ 64.
Proof. apply Z.mod_pos_bound; lia. Qed.
Lemma u32_range z : 0 ≤ u32 z < 2 ^ 32.
Proof. apply Z.mod_pos_bound; lia. Qed.
Lemma u8_range z : 0 ≤ u8 z < 2 ^ 8.
Proof. apply Z.mod_pos_bound; lia. Qed.

(** [dlia] is [lia] that also knows the equations of division and modulo. *)
Ltac dlia := Z.to_euclidean_division_equations; lia.

(** ** Bits *)

Lemma testbit_mod_pow2 z k j :
  0 ≤ k → 0 ≤ j → Z.testbit (z mod 2 ^ k) j = (j <? k) && Z.testbit z j.
Proof.
  intros Hk Hj. destruct (Z.ltb_spec j k); simpl.
  - apply Z.mod_pow2_bits_low; lia.
  - apply Z.mod_pow2_bits_high; lia.
Qed.

Lemma testbit_shiftl_1 k j : 0 ≤ k → Z.testbit (Z.shiftl 1 k) j = (j =? k).
Proof.
  intros Hk. rewrite Z.shiftl_1_l. destruct (Z.eqb_spec j k) as [->|Hne].
  - by apply Z.pow2_bits_true.
  - apply Z.pow2_bits_false; lia.
Qed.

Lemma testbit_above z k j : 0 ≤ z < 2 ^ k → 0 ≤ k ≤ j → Z.testbit z j = false.
Proof.
  intros Hz Hk. rewrite <-(Z.mod_small z (2 ^ k)) by lia.
  apply Z.mod_pow2_bits_high; lia.
Qed.

Lemma land_1_testbit z k : 0 ≤ k → Z.land (Z.shiftr z k) 1 = Z.b2z (Z.testbit z k).
Proof.
  intros Hk. change 1 with (Z.ones 1). rewrite Z.land_ones by lia.
  rewrite Z.testbit_spec', Z.shiftr_div_pow2 by lia. done.
Qed.

(** A number whose low [k] bits are clear and a [k]-bit number combine by
    [lor] as they do by addition. *)
Lemma lor_low a b k : 0 ≤ k → a mod 2 ^ k = 0 → 0 ≤ b < 2 ^ k → Z.lor a b = a + b.
Proof.
  intros Hk Ha Hb. symmetry. apply Z.add_nocarry_lor, Z.bits_inj_0. intros j.
  rewrite Z.land_spec.
  destruct (decide (j < 0)); [by rewrite !Z.testbit_neg_r by lia|].
  destruct (decide (j < k)).
  - assert (Z.testbit a j = false) as ->; [|done].
    rewrite <-(Z.mod_pow2_bits_low a k j), Ha by lia. apply Z.bits_0.
  - by rewrite (testbit_above b k j), andb_false_r by lia.
Qed.

(** Masking with the complement of [k] ones clears the low [k] bits. *)
Lemma land_lnot_ones z k : 0 ≤ k → Z.land z (Z.lnot (Z.ones k)) = z - z mod 2 ^ k.
Proof.
  intros Hk. rewrite <-Z.ldiff_land, Z.ldiff_ones_r by lia.
  rewrite Z.shiftl_mul_pow2, Z.shiftr_div_pow2 by lia.
  pose proof (Z.div_mod z (2 ^ k)) as Hd. lia.
Qed.

Lemma even_land_1 z : Z.land z 1 = z mod 2.
Proof. change 1 with (Z.ones 1). by rewrite Z.land_ones by lia. Qed.

(** A sum that passes the modulus once. *)
Lemma mod_wrap n k x : x = n + k → 0 ≤ k < n → x mod n = k.
Proof.
  intros -> Hk. replace (n + k) with (k + 1 * n) by lia.
  rewrite Z.mod_add by lia. by apply Z.mod_small.
Qed.

(** A bitwise or stays within the width of its arguments. *)
Lemma lor_range a b k : 0 ≤ k → 0 ≤ a < 2 ^ k → 0 ≤ b < 2 ^ k → 0 ≤ Z.lor a b < 2 ^ k.
Proof.
  intros Hk Ha Hb. assert (0 ≤ Z.lor a b) by (apply Z.lor_nonneg; lia). split; [done|].
  assert (Hm : Z.lor a b mod 2 ^ k = Z.lor a b).
  { apply Z.bits_inj'. intros j Hj. rewrite testbit_mod_pow2 by lia.
    destruct (Z.ltb_spec j k); [done|]. simpl.
    by rewrite Z.lor_spec, !(testbit_above _ k) by lia. }
  rewrite <-Hm. apply Z.mod_pos_bound. lia.
Qed.

Lemma lxor_range a b k : 0 ≤ k → 0 ≤ a < 2 ^ k → 0 ≤ b < 2 ^ k → 0 ≤ Z.lxor a b < 2 ^ k.
Proof.
  intros Hk Ha Hb. assert (Hm : Z.lxor a b mod 2 ^ k = Z.lxor a b).
  { apply Z.bits_inj'. intros j Hj. rewrite testbit_mod_pow2 by lia.
    destruct (Z.ltb_spec j k); [done|]. simpl. by rewrite Z.lxor_spec, !(testbit_above _ k) by lia. }
  rewrite <-Hm. apply Z.mod_pos_bound. lia.
Qed.

Lemma land_range a b k : 0 ≤ k → 0 ≤ a < 2 ^ k → 0 ≤ Z.land a b < 2 ^ k.
Proof.
  intros Hk Ha. assert (Hm : Z.land a b mod 2 ^ k = Z.land a b).
  { apply Z.bits_inj'. intros j Hj. rewrite testbit_mod_pow2 by lia.
    destruct (Z.ltb_spec j k); [done|]. simpl. by rewrite Z.land_spec, (testbit_above a k) by lia. }
  rewrite <-Hm. apply Z.mod_pos_bound. lia.
Qed.

(** Masking a 64-bit value with [~(2^k - 1)] clears its low [k] bits. *)
Lemma land_mask_high z k :
  0 ≤ k ≤ 64 → 0 ≤ z < 2 ^ 64 → Z.land z (u64 (Z.lnot (Z.ones k))) = z - z mod 2 ^ k.
Proof.
  intros Hk Hz. rewrite <-land_lnot_ones by lia. apply Z.bits_inj'. intros j Hj.
  rewrite !Z.land_spec. unfold u64. rewrite testbit_mod_pow2 by lia.
  destruct (Z.ltb_spec j 64); [done|]. by rewrite (testbit_above z 64 j) by lia.
Qed.

(** Testing one bit with a mask. *)
Lemma land_bit_test v k : 0 ≤ k → (Z.land v (2 ^ k) =? 0) = negb (Z.testbit v k).
Proof.
  intros Hk. destruct (Z.eqb_spec (Z.land v (2 ^ k)) 0) as [He|Hne].
  - assert (Hf : Z.testbit (Z.land v (2 ^ k)) k = false) by (rewrite He; apply Z.bits_0).
    rewrite Z.land_spec, Z.pow2_bits_true, andb_true_r in Hf by lia. by rewrite Hf.
  - destruct (Z.testbit v k) eqn:Hv; [done|]. destruct Hne. apply Z.bits_inj_0. intros j.
    rewrite Z.land_spec. destruct (decide (j = k)) as [->|]; [by rewrite Hv|].
    by rewrite Z.pow2_bits_false, andb_false_r by lia.
Qed.

(** ** Finite enumeration *)

Lemma forallb_seqZ (P : Z → bool) lo n :
  forallb P (seqZ lo n) = true ↔ ∀ i, lo ≤ i < lo + n → P i = true.
Proof.
  rewrite forallb_forall. split; intros H i Hi.
  - apply H, list_elem_of_In, elem_of_seqZ. lia.
  - apply H. apply list_elem_of_In, elem_of_seqZ in Hi. lia.
Qed.

Lemma seqZ_snoc lo n : 0 ≤ n → seqZ lo (n + 1) = seqZ lo n ++ [lo + n].
Proof.
  intros Hn. by rewrite seqZ_app by lia.
Qed.

#[global] Arguments Z.to_nat : simpl never.
#[global] Arguments u8 : simpl never.
#[global] Arguments u16 : simpl never.
#[global] Arguments u32 : simpl never.
#[global] Arguments u64 : simpl never.
#[global] Arguments i32 : simpl never.

(** Discharge the side condition of the next operation by arithmetic. *)
Ltac do_check := rewrite check_true by (try unfold INT_MAX; try unfold INT_MIN; lia); cbn [mbind outcome_bind].
(** Continue after a call whose outcome has just been rewritten. *)
Ltac do_bind := cbn [mbind outcome_bind].

(** ** Counting loops *)

(** [for (i = lo; i < lo + n; ++i) s = f(i, s)]. *)
Fixpoint for_range {S} (n : nat) (i : Z) (f : Z → S → outcome S) (s : S) : outcome S :=
  match n with
  | O => Done s
  | Datatypes.S n => s ← f i s; for_range n (i + 1) f s
  end.

(** The rule for counting loops: an invariant each turn carries on. *)
Lemma for_range_rule {S} (P : Z → S → Prop) n i (f : Z → S → outcome S) s :
  P i s →
  (∀ j s, i ≤ j < i + Z.of_nat n → P j s → ∃ s', f j s = Done s' ∧ P (j + 1) s') →
  ∃ s', for_range n i f s = Done s' ∧ P (i + Z.of_nat n) s'.
Proof.
  revert i s. induction n as [|n IH]; intros i s Hi Hstep.
  - exists s. split; [done|]. by rewrite Z.add_0_r.
  - destruct (Hstep i s) as (s1 & Hs1 & Hp1); [lia|done|]. cbn [for_range]. rewrite Hs1. cbn [mbind outcome_bind].
    destruct (IH (i + 1) s1 Hp1) as (s2 & Hs2 & Hp2).
    + intros j s' Hj. apply Hstep. lia.
    + exists s2. split; [done|]. by replace (i + Z.of_nat (Datatypes.S n)) with (i + 1 + Z.of_nat n) by lia.
Qed.

(** ** Outcomes that are decided *)

(** Undefined, or done with a result that satisfies [P]; never out of fuel. *)
Definition ends {A} (P : A → Prop) (o : outcome A) : Prop :=
  match o with Done x => P x | Undefined => True | OutOfFuel => False end.

Lemma ends_bind {A B} (P : A → Prop) (Q : B → Prop) (o : outcome A) (f : A → outcome B) :
  ends P o → (∀ x, P x → ends Q (f x)) → ends Q (o ≫= f).
Proof. destruct o as [x| |]; cbn; [|done..]. intros HP Hf. by apply Hf. Qed.

Lemma ends_check (b : bool) : ends (λ _, True) (check b).
Proof. by destruct b. Qed.

Lemma ends_mono {A} (P Q : A → Prop) (o : outcome A) : (∀ x, P x → Q x) → ends P o → ends Q o.
Proof. destruct o; cbn; [auto|done..]. Qed.

(** What ends with no result is undefined. *)
Lemma ends_undefined {A} (o : outcome A) : ends (λ _, False) o → o = Undefined.
Proof. by destruct o. Qed.

Lemma for_range_ends {S} (P : Z → S → Prop) n i (f : Z → S → outcome S) s :
  P i s → (∀ j s, i ≤ j < i + Z.of_nat n → P j s → ends (P (j + 1)) (f j s)) →
  ends (P (i + Z.of_nat n)) (for_range n i f s).
Proof.
  revert i s. induction n as [|n IH]; intros i s Hs Hf; [by rewrite Z.add_0_r|]. cbn [for_range].
  eapply ends_bind; [apply Hf; [lia|done]|]. intros s1 H1.
  replace (i + Z.of_nat (Datatypes.S n)) with (i + 1 + Z.of_nat n) by lia.
  apply IH; [done|]. intros j s2 Hj. apply Hf. lia.
Qed.

(** The same for an invariant that does not depend on the index. *)
Lemma for_range_keeps {S} (P : S → Prop) n i (f : Z → S → outcome S) s :
  P s → (∀ j s, i ≤ j < i + Z.of_nat n → P s → ends P (f j s)) → ends P (for_range n i f s).
Proof. apply (for_range_ends (λ _, P)). Qed.

(** ** Counting *)

Lemma find_ext_in {A} (P Q : A → bool) (l : list A) :
  (∀ x, x ∈ l → P x = Q x) → List.find P l = List.find Q l.
Proof.
  induction l as [|x l IH]; intros HPQ; [done|]. cbn [List.find].
  rewrite HPQ by left. rewrite IH; [done|]. intros y Hy. apply HPQ. by right.
Qed.

(** A filter only depends on the predicate's values on the list. *)
Lemma filter_ext_in {A} (P Q : A → bool) (l : list A) :
  (∀ y, y ∈ l → P y = Q y) → filter P l = filter Q l.
Proof.
  intros H. induction l as [|y l IH]; [done|]. rewrite !filter_cons, IH, (H y); [done|left|].
  intros z Hz. apply H. by right.
Qed.

(** A filter that every element passes keeps the list. *)
Lemma filter_all {A} (P : A → bool) (l : list A) :
  (∀ y, y ∈ l → P y = true) → filter P l = l.
Proof.
  intros H. induction l as [|y l IH]; [done|]. rewrite filter_cons, (H y) by left. simpl.
  f_equal. apply IH. intros z Hz. apply H. by right.
Qed.

(** A filter that no element passes leaves nothing. *)
Lemma filter_none {A} (P : A → bool) (l : list A) :
  (∀ y, y ∈ l → P y = false) → filter P l = [].
Proof.
  intros H. induction l as [|y l IH]; [done|]. rewrite filter_cons, (H y) by left. simpl.
  apply IH. intros z Hz. apply H. by right.
Qed.

(** Removing one element from a decidable predicate lowers the count of a
    duplicate-free list that contains it by one. *)
Lemma filter_remove_one {A} `{EqDecision A} (P Q : A → bool) (l : list A) x :
  NoDup l → x ∈ l → P x = true → (∀ y, y ∈ l → Q y = P y && bool_decide (y ≠ x)) →
  length (filter P l) = S (length (filter Q l)).
Proof.
  intros Hnd. revert x. induction Hnd as [|y l Hy Hnd IH]; intros x Hx HP HQ; [by apply elem_of_nil in Hx|].
  assert (HQl : ∀ z, z ∈ l → Q z = P z && bool_decide (z ≠ x)) by (intros z Hz; apply HQ; by right).
  rewrite !filter_cons, (HQ y) by left. apply elem_of_cons in Hx as [->|Hx].
  - rewrite HP, bool_decide_eq_false_2 by naive_solver. simpl. f_equal. f_equal.
    apply filter_ext_in. intros z Hz. rewrite HQl by done.
    by rewrite bool_decide_eq_true_2, andb_true_r by (intros ->; done).
  - rewrite bool_decide_eq_true_2, andb_true_r by (intros ->; done).
    destruct (P y); simpl; by rewrite (IH x Hx HP HQl).
Qed.

Lemma find_app {A} (f : A → bool) (l1 l2 : list A) :
  List.find f (l1 ++ l2) =
    match List.find f l1 with Some x => Some x | None => List.find f l2 end.
Proof. induction l1 as [|x l1 IH]; [done|]. simpl. by destruct (f x). Qed.
