(* ===== verification/Memory.v ===== *)
(** * Byte-addressed memory and the routines of [src/src/kernel/utils/string.c]

    Memory is a finite map from addresses to bytes; an address the map does
    not hold reads as zero.  Multi-byte accesses are little endian.  The
    routines are [memset], [memmove], [strncmp], [strcmp], [strlen] and
    [strcpy]. *)
From stdpp Require Import base list gmap.
From S2P Require Import Prelude.

Abbreviation mem := (gmap Z Z).

(** ** Accesses *)

Definition ld8 (m : mem) (a : Z) : Z := default 0 (m !! a) mod 2 ^ 8.
Definition st8 (m : mem) (a v : Z) : mem := <[a := v mod 2 ^ 8]> m.

Fixpoint ld (n : nat) (m : mem) (a : Z) : Z :=
  match n with
  | O => 0
  | S n => ld8 m a + 2 ^ 8 * ld n m (a + 1)
  end.

Fixpoint st (n : nat) (m : mem) (a v : Z) : mem :=
  match n with
  | O => m
  | S n => st n (st8 m a v) (a + 1) (v / 2 ^ 8)
  end.

Abbreviation ld16 := (ld 2).
Abbreviation ld32 := (ld 4).
Abbreviation ld64 := (ld 8).
Abbreviation st16 := (st 2).
Abbreviation st32 := (st 4).
Abbreviation st64 := (st 8).

(** ** [memset] and [memmove] *)

(** [while (len-- > 0) *ptr++ = val;] *)
Fixpoint memset (m : mem) (ptr val : Z) (len : nat) : mem :=
  match len with
  | O => m
  | S len => memset (st8 m ptr val) (ptr + 1) val len
  end.

(** [for (size_t i = 0; i < size; i++) dst[i] = src[i];] with [k] bytes left. *)
Fixpoint memmove_up (m : mem) (dst src i : Z) (k : nat) : mem :=
  match k with
  | O => m
  | S k => memmove_up (st8 m (dst + i) (ld8 m (src + i))) dst src (i + 1) k
  end.

(** [for (size_t i = size; i != 0; i--) dst[i-1] = src[i-1];] *)
Fixpoint memmove_down (m : mem) (dst src : Z) (i : nat) : mem :=
  match i with
  | O => m
  | S k => memmove_down (st8 m (dst + Z.of_nat k) (ld8 m (src + Z.of_nat k))) dst src k
  end.

Definition memmove (m : mem) (dst src : Z) (size : nat) : mem :=
  if dst <? src then memmove_up m dst src 0 size else memmove_down m dst src size.

(** ** C strings *)

(** [n] bounds the comparison; the result is the difference of the first
    two bytes, taken as [unsigned char], at which the loop stops. *)
Fixpoint strncmp (m : mem) (s1 s2 : Z) (n : nat) : Z :=
  match n with
  | O => 0
  | S n' =>
      if negb (ld8 m s1 =? 0) && (ld8 m s1 =? ld8 m s2)
      then strncmp m (s1 + 1) (s2 + 1) n'
      else ld8 m s1 - ld8 m s2
  end.

Fixpoint strcmp (fuel : nat) (m : mem) (X Y : Z) : outcome Z :=
  match fuel with
  | O => OutOfFuel
  | S f =>
      if negb (ld8 m X =? 0) && (ld8 m X =? ld8 m Y)
      then strcmp f m (X + 1) (Y + 1)
      else Done (ld8 m X - ld8 m Y)
  end.

(** [count] is an [unsigned int] and wraps at 2^32. *)
Fixpoint strlen_from (fuel : nat) (m : mem) (s count : Z) : outcome Z :=
  match fuel with
  | O => OutOfFuel
  | S f => if ld8 m s =? 0 then Done count else strlen_from f m (s + 1) (u32 (count + 1))
  end.
Definition strlen (fuel : nat) (m : mem) (s : Z) : outcome Z := strlen_from fuel m s 0.

Fixpoint strcpy_loop (fuel : nat) (m : mem) (dst src : Z) : outcome mem :=
  match fuel with
  | O => OutOfFuel
  | S f =>
      if ld8 m src =? 0 then Done (st8 m dst 0)
      else strcpy_loop f (st8 m dst (ld8 m src)) (dst + 1) (src + 1)
  end.

(** [NULL] for a [NULL] destination, and the destination otherwise. *)
Definition strcpy (fuel : nat) (m : mem) (dst src : Z) : outcome (Z * mem) :=
  if dst =? 0 then Done (0, m)
  else m' ← strcpy_loop fuel m dst src; Done (dst, m').

(** ** Another view of the same memory *)

(** Memory with every byte [d] addresses further up. *)
Definition shift_mem (d : Z) (m : mem) : mem := kmap (Z.add d) m.

#[local] Instance add_inj d : Inj (=) (=) (Z.add d).
Proof. intros x y H. lia. Qed.

Lemma ld8_shift_mem d m a : ld8 (shift_mem d m) a = ld8 m (a - d).
Proof.
  unfold ld8, shift_mem. replace a with (d + (a - d)) at 1 by lia. by rewrite (lookup_kmap (Z.add d)).
Qed.

Lemma shift_mem_cancel d m : shift_mem (- d) (shift_mem d m) = m.
Proof.
  apply map_eq. intros a. unfold shift_mem. replace a with (- d + (d + a)) at 1 by lia. by rewrite (lookup_kmap (Z.add (- d))), (lookup_kmap (Z.add d)).
Qed.

(** ** Specification vocabulary *)

(** Two memories that read the same everywhere. *)
Definition mem_eq (m1 m2 : mem) : Prop := ∀ a, ld8 m1 a = ld8 m2 a.

(** [m2] differs from [m1] at most inside [lo, hi). *)
Definition same_outside (lo hi : Z) (m1 m2 : mem) : Prop :=
  ∀ a, ¬ (lo ≤ a < hi) → ld8 m2 a = ld8 m1 a.

Definition same_inside (lo hi : Z) (m1 m2 : mem) : Prop :=
  ∀ a, lo ≤ a < hi → ld8 m2 a = ld8 m1 a.

(** The [n] bytes at [a'] in [m'] are those at [a] in [m]. *)
Definition copied (m : mem) (a : Z) (m' : mem) (a' n : Z) : Prop :=
  ∀ i, 0 ≤ i < n → ld8 m' (a' + i) = ld8 m (a + i).

(** The bytes of [l], none of them zero, lie at [a] and are followed by a
    terminator. *)
Fixpoint cstring (m : mem) (a : Z) (l : list Z) : Prop :=
  match l with
  | [] => ld8 m a = 0
  | c :: l => ld8 m a = c ∧ c ≠ 0 ∧ cstring m (a + 1) l
  end.

(** ** Lemmas on accesses *)

Lemma ld8_range m a : 0 ≤ ld8 m a < 2 ^ 8.
Proof. apply Z.mod_pos_bound; lia. Qed.

Lemma ld8_st8 m a v b : ld8 (st8 m a v) b = if b =? a then v mod 2 ^ 8 else ld8 m b.
Proof.
  unfold ld8, st8. destruct (Z.eqb_spec b a) as [->|Hne].
  - rewrite lookup_insert_eq. simpl. apply Z.mod_mod; lia.
  - by rewrite lookup_insert_ne by done.
Qed.

Lemma ld8_st8_eq m a v : ld8 (st8 m a v) a = v mod 2 ^ 8.
Proof. by rewrite ld8_st8, Z.eqb_refl. Qed.

Lemma ld8_st8_ne m a v b : b ≠ a → ld8 (st8 m a v) b = ld8 m b.
Proof. intros ?. rewrite ld8_st8. by destruct (Z.eqb_spec b a). Qed.

Lemma ld_range n m a : 0 ≤ ld n m a < 2 ^ (8 * Z.of_nat n).
Proof.
  revert a. induction n as [|n IH]; intros a; [simpl; lia|].
  cbn [ld]. specialize (IH (a + 1)). pose proof (ld8_range m a).
  replace (8 * Z.of_nat (S n)) with (8 + 8 * Z.of_nat n) by lia.
  rewrite Z.pow_add_r by lia. nia.
Qed.

Lemma ld32_range m a : 0 ≤ ld32 m a < 2 ^ 32.
Proof. apply (ld_range 4). Qed.
Lemma ld64_range m a : 0 ≤ ld64 m a < 2 ^ 64.
Proof. apply (ld_range 8). Qed.

(** A load only depends on the bytes it covers. *)
Lemma ld_ext n m1 m2 a :
  (∀ b, a ≤ b < a + Z.of_nat n → ld8 m1 b = ld8 m2 b) → ld n m1 a = ld n m2 a.
Proof.
  revert a. induction n as [|n IH]; intros a Heq; [done|].
  cbn [ld]. rewrite Heq by lia. rewrite (IH (a + 1)); [done|].
  intros b Hb. apply Heq. lia.
Qed.

Lemma st_outside n m a v : same_outside a (a + Z.of_nat n) m (st n m a v).
Proof.
  revert m a v. induction n as [|n IH]; intros m a v b Hb; [done|].
  cbn [st]. rewrite IH by lia. apply ld8_st8_ne. lia.
Qed.

Lemma ld_st_same n m a v : ld n (st n m a v) a = v mod 2 ^ (8 * Z.of_nat n).
Proof.
  revert m a v. induction n as [|n IH]; intros m a v.
  { by rewrite Z.mod_1_r. }
  cbn [ld st]. rewrite IH, st_outside, ld8_st8_eq by lia.
  replace (8 * Z.of_nat (S n)) with (8 + 8 * Z.of_nat n) by lia.
  rewrite Z.pow_add_r, Z.rem_mul_r by lia. done.
Qed.

Lemma ld_st_disjoint n k m a b v :
  a + Z.of_nat n ≤ b ∨ b + Z.of_nat k ≤ a → ld n (st k m b v) a = ld n m a.
Proof. intros H. apply ld_ext. intros c Hc. apply st_outside. lia. Qed.

Lemma ld32_st32_same m a v : 0 ≤ v < 2 ^ 32 → ld32 (st32 m a v) a = v.
Proof. intros. rewrite (ld_st_same 4). by apply Z.mod_small. Qed.
Lemma ld64_st64_same m a v : 0 ≤ v < 2 ^ 64 → ld64 (st64 m a v) a = v.
Proof. intros. rewrite (ld_st_same 8). by apply Z.mod_small. Qed.

(** Single bytes of a 32-bit word. *)
Lemma ld32_low_bit m a : Z.land (ld32 m a) 1 = ld8 m a mod 2.
Proof.
  rewrite even_land_1. cbn [ld]. pose proof (ld8_range m a).
  set (r := ld8 m (a + 1) + _). replace (ld8 m a + 2 ^ 8 * r) with (ld8 m a + 128 * r * 2) by lia.
  by rewrite Z.mod_add by lia.
Qed.

Lemma ld32_high_byte m a v : ld32 m a = v → v < 2 ^ 16 → ld8 m (a + 1 + 1) = 0.
Proof.
  intros <- Hv. cbn [ld] in Hv. pose proof (ld8_range m a). pose proof (ld8_range m (a + 1)).
  pose proof (ld8_range m (a + 1 + 1)). pose proof (ld8_range m (a + 1 + 1 + 1)). lia.
Qed.

(** Reading zero bytes gives zero. *)
Lemma ld_zero n m a : (∀ b, a ≤ b < a + Z.of_nat n → ld8 m b = 0) → ld n m a = 0.
Proof.
  revert a. induction n as [|n IH]; intros a Hz; [done|].
  cbn [ld]. rewrite Hz by lia. rewrite (IH (a + 1)); [done|].
  intros b Hb. apply Hz. lia.
Qed.

(** Two adjacent halves of a wider load. *)
Lemma ld_split n k m a :
  ld (n + k) m a = ld n m a + 2 ^ (8 * Z.of_nat n) * ld k m (a + Z.of_nat n).
Proof.
  revert a. induction n as [|n IH]; intros a.
  { cbn [Nat.add ld]. rewrite Z.add_0_r. cbn [Z.of_nat]. lia. }
  cbn [Nat.add ld]. rewrite IH.
  replace (8 * Z.of_nat (S n)) with (8 + 8 * Z.of_nat n) by lia.
  rewrite Z.pow_add_r by lia.
  replace (a + 1 + Z.of_nat n) with (a + Z.of_nat (S n)) by lia. ring.
Qed.

(** ** Lemmas on regions *)

Lemma same_outside_refl lo hi m : same_outside lo hi m m.
Proof. by intros a _. Qed.

Lemma same_outside_trans lo hi m1 m2 m3 :
  same_outside lo hi m1 m2 → same_outside lo hi m2 m3 → same_outside lo hi m1 m3.
Proof. intros H1 H2 a Ha. by rewrite H2, H1. Qed.

Lemma same_outside_mono lo hi lo' hi' m1 m2 :
  same_outside lo hi m1 m2 → lo' ≤ lo → hi ≤ hi' → same_outside lo' hi' m1 m2.
Proof. intros H ?? a Ha. apply H. lia. Qed.

Lemma same_outside_inside lo hi lo' hi' m1 m2 :
  same_outside lo hi m1 m2 → hi ≤ lo' ∨ hi' ≤ lo → same_inside lo' hi' m1 m2.
Proof. intros H ? a Ha. apply H. lia. Qed.

Lemma ld_same_outside n lo hi m1 m2 a :
  same_outside lo hi m1 m2 → a + Z.of_nat n ≤ lo ∨ hi ≤ a → ld n m2 a = ld n m1 a.
Proof. intros H Ha. apply ld_ext. intros b Hb. apply H. lia. Qed.

Lemma st_outside_sub n lo hi m a v :
  lo ≤ a → a + Z.of_nat n ≤ hi → same_outside lo hi m (st n m a v).
Proof. intros. eapply same_outside_mono; [apply st_outside|lia|lia]. Qed.

#[export] Hint Resolve same_outside_refl : cmem.

(** ** [memset] and [memmove] compute what their names say *)

Lemma ld8_memset m ptr val len b :
  ld8 (memset m ptr val len) b =
    if (ptr <=? b) && (b <? ptr + Z.of_nat len) then val mod 2 ^ 8 else ld8 m b.
Proof.
  revert m ptr. induction len as [|len IH]; intros m ptr; cbn [memset].
  { destruct (Z.leb_spec ptr b), (Z.ltb_spec b (ptr + Z.of_nat 0)); simpl; (done || lia). }
  rewrite IH, ld8_st8.
  destruct (Z.leb_spec (ptr + 1) b), (Z.ltb_spec b (ptr + 1 + Z.of_nat len)),
    (Z.leb_spec ptr b), (Z.ltb_spec b (ptr + Z.of_nat (S len))),
    (Z.eqb_spec b ptr); simpl; (done || lia).
Qed.

Lemma memset_outside m ptr val len :
  same_outside ptr (ptr + Z.of_nat len) m (memset m ptr val len).
Proof.
  intros b Hb. rewrite ld8_memset.
  destruct (Z.leb_spec ptr b), (Z.ltb_spec b (ptr + Z.of_nat len)); simpl; (done || lia).
Qed.

Lemma memset_inside m ptr val len b :
  ptr ≤ b < ptr + Z.of_nat len → ld8 (memset m ptr val len) b = val mod 2 ^ 8.
Proof.
  intros Hb. rewrite ld8_memset.
  destruct (Z.leb_spec ptr b), (Z.ltb_spec b (ptr + Z.of_nat len)); simpl; (done || lia).
Qed.

Lemma ld8_memmove_up m dst src i k b :
  dst < src → 0 ≤ i →
  ld8 (memmove_up m dst src i k) b =
    if (dst + i <=? b) && (b <? dst + i + Z.of_nat k) then ld8 m (src + (b - dst))
    else ld8 m b.
Proof.
  intros Hlt. revert m i. induction k as [|k IH]; intros m i Hi; cbn [memmove_up].
  { destruct (Z.leb_spec (dst + i) b), (Z.ltb_spec b (dst + i + Z.of_nat 0));
      simpl; (done || lia). }
  rewrite IH, !ld8_st8 by lia. pose proof (ld8_range m (src + i)).
  rewrite (Z.mod_small (ld8 m (src + i))) by lia.
  destruct (Z.leb_spec (dst + (i + 1)) b), (Z.ltb_spec b (dst + (i + 1) + Z.of_nat k)),
    (Z.leb_spec (dst + i) b), (Z.ltb_spec b (dst + i + Z.of_nat (S k))),
    (Z.eqb_spec b (dst + i)), (Z.eqb_spec (src + (b - dst)) (dst + i));
    simpl; (done || lia || (f_equal; lia)).
Qed.

Lemma ld8_memmove_down m dst src k b :
  src ≤ dst →
  ld8 (memmove_down m dst src k) b =
    if (dst <=? b) && (b <? dst + Z.of_nat k) then ld8 m (src + (b - dst)) else ld8 m b.
Proof.
  intros Hle. revert m. induction k as [|k IH]; intros m; cbn [memmove_down].
  { destruct (Z.leb_spec dst b), (Z.ltb_spec b (dst + Z.of_nat 0)); simpl; (done || lia). }
  rewrite IH, !ld8_st8. pose proof (ld8_range m (src + Z.of_nat k)).
  rewrite (Z.mod_small (ld8 m (src + Z.of_nat k))) by lia.
  destruct (Z.leb_spec dst b), (Z.ltb_spec b (dst + Z.of_nat k)),
    (Z.ltb_spec b (dst + Z.of_nat (S k))), (Z.eqb_spec b (dst + Z.of_nat k)),
    (Z.eqb_spec (src + (b - dst)) (dst + Z.of_nat k));
    simpl; (done || lia || (f_equal; lia)).
Qed.

Lemma ld8_memmove m dst src size b :
  ld8 (memmove m dst src size) b =
    if (dst <=? b) && (b <? dst + Z.of_nat size) then ld8 m (src + (b - dst)) else ld8 m b.
Proof.
  unfold memmove. destruct (Z.ltb_spec dst src).
  - rewrite ld8_memmove_up by lia. by rewrite Z.add_0_r.
  - by apply ld8_memmove_down.
Qed.

Lemma memmove_outside m dst src size :
  same_outside dst (dst + Z.of_nat size) m (memmove m dst src size).
Proof.
  intros b Hb. rewrite ld8_memmove.
  destruct (Z.leb_spec dst b), (Z.ltb_spec b (dst + Z.of_nat size)); simpl; (done || lia).
Qed.

(** ** Reading the same everywhere is respected by every operation *)

#[export] Instance mem_eq_equivalence : Equivalence mem_eq.
Proof.
  split; [by intros m a|by intros m1 m2 H a|]. intros m1 m2 m3 H1 H2 a. by rewrite H1.
Qed.

#[export] Instance ld8_proper : Proper (mem_eq ==> eq ==> eq) ld8.
Proof. intros m1 m2 Hm a ? <-. apply Hm. Qed.

#[export] Instance ld_proper n : Proper (mem_eq ==> eq ==> eq) (ld n).
Proof. intros m1 m2 Hm a ? <-. apply ld_ext. intros b _. apply Hm. Qed.

#[export] Instance st8_proper : Proper (mem_eq ==> eq ==> eq ==> mem_eq) st8.
Proof. intros m1 m2 Hm a ? <- v ? <- b. by rewrite !ld8_st8, (Hm b). Qed.

#[export] Instance st_proper n : Proper (mem_eq ==> eq ==> eq ==> mem_eq) (st n).
Proof.
  induction n as [|n IH]; intros m1 m2 Hm a ? <- v ? <-; [done|].
  cbn [st]. apply IH; [|done|done]. by rewrite Hm.
Qed.

#[export] Instance memset_proper : Proper (mem_eq ==> eq ==> eq ==> eq ==> mem_eq) memset.
Proof.
  intros m1 m2 Hm p ? <- v ? <- n ? <- b. rewrite !ld8_memset, (Hm b). done.
Qed.

#[export] Instance memmove_proper : Proper (mem_eq ==> eq ==> eq ==> eq ==> mem_eq) memmove.
Proof.
  intros m1 m2 Hm d ? <- s ? <- n ? <- b.
  by rewrite !ld8_memmove, (Hm b), (Hm (s + (b - d))).
Qed.

(** ** C strings *)

Lemma cstring_ext m1 m2 a l :
  (∀ b, a ≤ b ≤ a + Z.of_nat (length l) → ld8 m2 b = ld8 m1 b) →
  cstring m1 a l → cstring m2 a l.
Proof.
  revert a. induction l as [|c l IH]; intros a Heq; cbn [cstring length] in *.
  { intros <-. apply Heq. lia. }
  intros (Hc & Hnz & Hl). split_and!; [rewrite Heq by lia; done|done|].
  apply IH; [|done]. intros b Hb. apply Heq. lia.
Qed.

(** ** Copies *)

Lemma copied_sub m a m' a' n o k :
  copied m a m' a' n → 0 ≤ o → o + k ≤ n → copied m (a + o) m' (a' + o) k.
Proof. intros Hc Ho Hk i Hi. rewrite <-!Z.add_assoc. apply Hc. lia. Qed.

Lemma copied_trans m1 a1 m2 a2 m3 a3 n :
  copied m1 a1 m2 a2 n → copied m2 a2 m3 a3 n → copied m1 a1 m3 a3 n.
Proof. intros H12 H23 i Hi. by rewrite H23, H12. Qed.

Lemma ld_copied n m a m' a' : copied m a m' a' (Z.of_nat n) → ld n m' a' = ld n m a.
Proof.
  revert a a'. induction n as [|n IH]; intros a a' Hc; [done|]. cbn [ld].
  rewrite (IH (a + 1) (a' + 1)) by (apply (copied_sub m a m' a' (Z.of_nat (S n)) 1); [done|lia|lia]).
  specialize (Hc 0 ltac:(lia)). rewrite !Z.add_0_r in Hc. by rewrite Hc.
Qed.

Lemma cstring_copied m a m' a' l :
  copied m a m' a' (Z.of_nat (length l) + 1) → cstring m a l → cstring m' a' l.
Proof.
  revert a a'. induction l as [|c l IH]; intros a a' Hc; cbn [cstring length] in *;
    (assert (H0 : ld8 m' a' = ld8 m a) by (specialize (Hc 0 ltac:(lia)); by rewrite !Z.add_0_r in Hc)).
  { by rewrite H0. }
  intros (H1 & Hnz & Hl). rewrite H0. split_and!; [done|done|]. apply (IH (a + 1)); [|done].
  eapply copied_sub; [exact Hc|lia|lia].
Qed.

Lemma strlen_from_spec fuel m s l count :
  cstring m s l → (length l < fuel)%nat → 0 ≤ count →
  count + Z.of_nat (length l) < 2 ^ 32 →
  strlen_from fuel m s count = Done (count + Z.of_nat (length l)).
Proof.
  revert s l count. induction fuel as [|fuel IH]; intros s l count Hs Hf Hc Hb; [lia|].
  destruct l as [|c l]; cbn [cstring length strlen_from] in *.
  { rewrite Hs, Z.eqb_refl. f_equal. lia. }
  destruct Hs as (Hc8 & Hnz & Hl). destruct (Z.eqb_spec (ld8 m s) 0); [congruence|].
  rewrite (IH _ l) by (try rewrite u32_small; (done || lia)).
  rewrite u32_small by lia. f_equal. lia.
Qed.

(** [strlen] of a terminated string shorter than 2^32 returns its length:
    with fuel above that length the loop ends, and the wrapping [unsigned int]
    counter does not lose anything. *)
Theorem strlen_spec fuel m s l :
  cstring m s l → (length l < fuel)%nat → Z.of_nat (length l) < 2 ^ 32 →
  strlen fuel m s = Done (Z.of_nat (length l)).
Proof. intros Hs Hf Hb. apply (strlen_from_spec _ _ _ l 0); (done || lia). Qed.

Lemma strcmp_cstring fuel m X Y l1 l2 :
  cstring m X l1 → cstring m Y l2 → (length l1 < fuel)%nat →
  ∃ r, strcmp fuel m X Y = Done r ∧ (r = 0 ↔ l1 = l2).
Proof.
  revert X Y l1 l2. induction fuel as [|fuel IH]; intros X Y l1 l2 H1 H2 Hf; [lia|].
  cbn [strcmp]. destruct l1 as [|c1 l1]; cbn [cstring length] in *.
  { rewrite H1, Z.eqb_refl. cbn [negb andb]. eexists. split; [done|].
    destruct l2 as [|c2 l2]; cbn [cstring] in H2; [by rewrite H2|].
    destruct H2 as (<- & ? & _). split; [lia|done]. }
  destruct H1 as (<- & Hnz & Hl1).
  destruct (Z.eqb_spec (ld8 m X) 0); [done|]. cbn [negb andb].
  destruct l2 as [|c2 l2]; cbn [cstring] in H2.
  { destruct (Z.eqb_spec (ld8 m X) (ld8 m Y)); [congruence|].
    eexists. split; [done|]. split; [lia|done]. }
  destruct H2 as (<- & Hnz2 & Hl2).
  destruct (Z.eqb_spec (ld8 m X) (ld8 m Y)) as [->|Hne].
  - destruct (IH _ _ _ _ Hl1 Hl2) as (r & -> & Hr); [lia|].
    exists r. split; [done|]. rewrite Hr. split; [by intros ->|by intros [= ->]].
  - eexists. split; [done|]. split; [lia|]. intros [= ?]. lia.
Qed.

(** [strcmp] on two terminated strings always returns, with zero exactly
    when the strings are equal. *)
Theorem strcmp_spec fuel m X Y l1 l2 :
  cstring m X l1 → cstring m Y l2 → (length l1 < fuel)%nat →
  ∃ r, strcmp fuel m X Y = Done r ∧ (r = 0 ↔ l1 = l2).
Proof. apply strcmp_cstring. Qed.

Lemma strncmp_cstring m s1 s2 l1 l2 n :
  cstring m s1 l1 → cstring m s2 l2 →
  (strncmp m s1 s2 n = 0 ↔ take n l1 = take n l2).
Proof.
  revert s1 s2 l1 l2. induction n as [|n IH]; intros s1 s2 l1 l2 H1 H2; [done|].
  cbn [strncmp]. destruct l1 as [|c1 l1]; cbn [cstring] in H1.
  { rewrite H1. cbn. destruct l2 as [|c2 l2]; cbn [cstring] in H2; [by rewrite H2|].
    destruct H2 as (<- & ? & _). split; [lia|done]. }
  destruct H1 as (<- & Hnz & Hl1). destruct (Z.eqb_spec (ld8 m s1) 0); [done|].
  cbn [negb andb]. destruct l2 as [|c2 l2]; cbn [cstring] in H2.
  { destruct (Z.eqb_spec (ld8 m s1) (ld8 m s2)); [congruence|]. split; [lia|done]. }
  destruct H2 as (<- & Hnz2 & Hl2). cbn [take].
  destruct (Z.eqb_spec (ld8 m s1) (ld8 m s2)) as [->|Hne].
  - rewrite (IH _ _ _ _ Hl1 Hl2). split; [by intros ->|by intros [= ->]].
  - split; [lia|]. intros [= ?]. lia.
Qed.

(** [strncmp] with bound [n] is zero exactly when the first [n] bytes of
    the two strings agree; it never looks past the bound. *)
Theorem strncmp_spec m s1 s2 l1 l2 n :
  cstring m s1 l1 → cstring m s2 l2 →
  (strncmp m s1 s2 n = 0 ↔ take n l1 = take n l2).
Proof. apply strncmp_cstring. Qed.

Lemma strcpy_loop_spec fuel m dst src l :
  cstring m src l → (length l < fuel)%nat →
  dst + Z.of_nat (length l) < src ∨ src + Z.of_nat (length l) < dst →
  ∃ m', strcpy_loop fuel m dst src = Done m' ∧ cstring m' dst l ∧
    same_outside dst (dst + Z.of_nat (length l) + 1) m m'.
Proof.
  revert m dst src l. induction fuel as [|fuel IH]; intros m dst src l Hs Hf Hd; [lia|].
  destruct l as [|c l]; cbn [cstring length strcpy_loop] in *.
  { rewrite Hs. cbn. eexists. split_and!; [done|apply ld8_st8_eq|].
    intros b Hb. apply ld8_st8_ne. lia. }
  destruct Hs as (<- & Hnz & Hl). destruct (Z.eqb_spec (ld8 m src) 0); [done|].
  destruct (IH (st8 m dst (ld8 m src)) (dst + 1) (src + 1) l) as (m' & -> & Hc & Ho).
  - eapply cstring_ext; [|exact Hl]. intros b Hb. apply ld8_st8_ne. lia.
  - lia.
  - lia.
  - exists m'. split; [done|]. split; [split_and!; [|done|done]|].
    + rewrite Ho by lia. rewrite ld8_st8_eq. apply Z.mod_small, ld8_range.
    + intros b Hb. rewrite Ho by lia. apply ld8_st8_ne. lia.
Qed.

(** [strcpy] to a non-null destination that does not overlap the source
    returns the destination, leaves a copy of the string there with its
    terminator, and writes nothing else; a [NULL] destination is refused. *)
Theorem strcpy_spec fuel m dst src l :
  cstring m src l → (length l < fuel)%nat →
  dst + Z.of_nat (length l) < src ∨ src + Z.of_nat (length l) < dst →
  if decide (dst = 0) then strcpy fuel m dst src = Done (0, m)
  else ∃ m', strcpy fuel m dst src = Done (dst, m') ∧ cstring m' dst l ∧
         same_outside dst (dst + Z.of_nat (length l) + 1) m m'.
Proof.
  intros Hs Hf Hd. unfold strcpy. case_decide as Hz; [by rewrite Hz|].
  destruct (Z.eqb_spec dst 0); [done|].
  destruct (strcpy_loop_spec fuel m dst src l) as (m' & -> & ? & ?); [done..|].
  eauto.
Qed.

(** [memmove] copies the [size] bytes the source held before the call,
    also when the two ranges overlap, and writes nothing else. *)
Theorem memmove_spec m dst src size b :
  ld8 (memmove m dst src size) b =
    if decide (dst ≤ b < dst + Z.of_nat size) then ld8 m (src + (b - dst)) else ld8 m b.
Proof.
  rewrite ld8_memmove. case_decide;
    destruct (Z.leb_spec dst b), (Z.ltb_spec b (dst + Z.of_nat size)); simpl; (done || lia).
Qed.

(** ** Concrete strings: "AB" at 16, "AB" at 32, "AC" at 48 *)

Definition ex_mem : mem :=
  <[16 := 65]> (<[17 := 66]> (<[32 := 65]> (<[33 := 66]> (<[48 := 65]> {[49 := 67]})))).

Example ex_cstrings :
  cstring ex_mem 16 [65; 66] ∧ cstring ex_mem 32 [65; 66] ∧ cstring ex_mem 48 [65; 67].
Proof. vm_compute. by split_and!. Qed.

Lemma strlen_spec_witness : strlen 3 ex_mem 16 = Done 2.
Proof. apply (strlen_spec 3 ex_mem 16 [65; 66]); [apply ex_cstrings|simpl; lia|done]. Defined.

Lemma strcmp_spec_witness :
  (∃ r, strcmp 3 ex_mem 16 32 = Done r ∧ (r = 0 ↔ [65; 66] = [65; 66])) ∧
  (∃ r, strcmp 3 ex_mem 16 48 = Done r ∧ (r = 0 ↔ [65; 66] = [65; 67])).
Proof.
  split.
  - apply (strcmp_spec 3 ex_mem 16 32 [65; 66] [65; 66]); [apply ex_cstrings|apply ex_cstrings|simpl; lia].
  - apply (strcmp_spec 3 ex_mem 16 48 [65; 66] [65; 67]); [apply ex_cstrings|apply ex_cstrings|simpl; lia].
Defined.

Lemma strncmp_spec_witness :
  (strncmp ex_mem 16 48 1 = 0 ↔ take 1 [65; 66] = take 1 [65; 67]) ∧
  (strncmp ex_mem 16 48 2 = 0 ↔ take 2 [65; 66] = take 2 [65; 67]).
Proof.
  split.
  - apply (strncmp_spec ex_mem 16 48 [65; 66] [65; 67] 1); apply ex_cstrings.
  - apply (strncmp_spec ex_mem 16 48 [65; 66] [65; 67] 2); apply ex_cstrings.
Defined.

Lemma strcpy_spec_witness :
  ∃ m', strcpy 3 ex_mem 64 16 = Done (64, m') ∧ cstring m' 64 [65; 66].
Proof.
  destruct (strcpy_spec 3 ex_mem 64 16 [65; 66]) as (m' & H & Hc & _);
    [apply ex_cstrings|simpl; lia..|].
  exists m'. split; [exact H|exact Hc].
Defined.

#[global] Arguments memset : simpl never.
#[global] Arguments memmove : simpl never.
#[global] Arguments ld : simpl never.
#[global] Arguments st : simpl never.
#[global] Arguments ld8 : simpl never.
#[global] Arguments st8 : simpl never.
