(* ===== verification/Layout.v ===== *)
(** * How the compiler lays out structures

    Offsets, sizes and members of C structures from the lists of their members:
    the rules the structures of [src/src/kernel/stivale2.h] and
    [src/limine/limine-install.c] are laid out by. *)
From Stdlib Require Import String.
From stdpp Require Import base list strings.
From S2P Require Import Prelude Memory.
Open Scope Z_scope.

(** A structure is a list of members: a name, a type and the number of elements,
    0 for the array of unknown length at the end. *)
Inductive ctype :=
| Int (bytes : Z)
| Struct (members : list (string * ctype * Z)).
Definition U8 : ctype := Int 1.
Definition U16 : ctype := Int 2.
Definition U32 : ctype := Int 4.
Definition U64 : ctype := Int 8.

Fixpoint align_of (t : ctype) : Z :=
  match t with
  | Int n => n
  | Struct ms => fold_right (λ '(_, t, _) a, Z.max (align_of t) a) 1 ms
  end.

Definition round_up (a n : Z) : Z := (a + n - 1) / n * n.

(** The compiler places each member at the next multiple of its alignment and
    rounds the size up to that of the structure. *)
Fixpoint sizeof (t : ctype) : Z :=
  match t with
  | Int n => n
  | Struct ms =>
      round_up (fold_left (λ off '(_, t, n), round_up off (align_of t) + sizeof t * n) ms 0) (align_of t)
  end.

Fixpoint offsets_from (off : Z) (ms : list (string * ctype * Z)) : list (string * Z) :=
  match ms with
  | [] => []
  | (name, t, n) :: ms =>
      let off := round_up off (align_of t) in (name, off) :: offsets_from (off + sizeof t * n) ms
  end.
Definition members (t : ctype) : list (string * ctype * Z) := match t with Int _ => [] | Struct ms => ms end.
Definition offsets (t : ctype) : list (string * Z) := offsets_from 0 (members t).

Fixpoint assoc {A} (name : string) (l : list (string * A)) : option A :=
  match l with
  | [] => None
  | (n, a) :: l => if String.eqb n name then Some a else assoc name l
  end.
Definition offset_of (t : ctype) (name : string) : Z := default 0 (assoc name (offsets t)).
Definition member_size (t : ctype) (name : string) : Z :=
  default 0 (sizeof <$> assoc name (map fst (members t))).

(** The member [name] of the structure [t] at [a]. *)
Definition member (t : ctype) (m : mem) (a : Z) (name : string) : Z :=
  ld (Z.to_nat (member_size t name)) m (a + offset_of t name).

(** The members one after the other, and the end of the last. *)
Fixpoint packed_offsets (off : Z) (ms : list (string * ctype * Z)) : list (string * Z) * Z :=
  match ms with
  | [] => ([], off)
  | (name, t, n) :: ms =>
      let '(l, e) := packed_offsets (off + sizeof t * n) ms in ((name, off) :: l, e)
  end.

(** Assigning to a member. *)
Definition set_member (t : ctype) (m : mem) (a : Z) (name : string) (v : Z) : mem :=
  st (Z.to_nat (member_size t name)) m (a + offset_of t name) v.
