(* ===== verification/Crc32.v ===== *)
(** * The checksum of partition tables

    [crc32] of [src/limine/limine-install.c], with its table.  It is the
    remainder computed bit by bit, and tells apart arrays of bytes that differ in
    one byte. *)
From stdpp Require Import base list.
From S2P Require Import Prelude Memory.
Open Scope Z_scope.

(** ** Definitions *)

Definition crc32_table : list Z := [
  0x00000000; 0x77073096; 0xee0e612c; 0x990951ba; 0x076dc419; 0x706af48f; 0xe963a535; 0x9e6495a3;
  0x0edb8832; 0x79dcb8a4; 0xe0d5e91e; 0x97d2d988; 0x09b64c2b; 0x7eb17cbd; 0xe7b82d07; 0x90bf1d91;
  0x1db71064; 0x6ab020f2; 0xf3b97148; 0x84be41de; 0x1adad47d; 0x6ddde4eb; 0xf4d4b551; 0x83d385c7;
  0x136c9856; 0x646ba8c0; 0xfd62f97a; 0x8a65c9ec; 0x14015c4f; 0x63066cd9; 0xfa0f3d63; 0x8d080df5;
  0x3b6e20c8; 0x4c69105e; 0xd56041e4; 0xa2677172; 0x3c03e4d1; 0x4b04d447; 0xd20d85fd; 0xa50ab56b;
  0x35b5a8fa; 0x42b2986c; 0xdbbbc9d6; 0xacbcf940; 0x32d86ce3; 0x45df5c75; 0xdcd60dcf; 0xabd13d59;
  0x26d930ac; 0x51de003a; 0xc8d75180; 0xbfd06116; 0x21b4f4b5; 0x56b3c423; 0xcfba9599; 0xb8bda50f;
  0x2802b89e; 0x5f058808; 0xc60cd9b2; 0xb10be924; 0x2f6f7c87; 0x58684c11; 0xc1611dab; 0xb6662d3d;
  0x76dc4190; 0x01db7106; 0x98d220bc; 0xefd5102a; 0x71b18589; 0x06b6b51f; 0x9fbfe4a5; 0xe8b8d433;
  0x7807c9a2; 0x0f00f934; 0x9609a88e; 0xe10e9818; 0x7f6a0dbb; 0x086d3d2d; 0x91646c97; 0xe6635c01;
  0x6b6b51f4; 0x1c6c6162; 0x856530d8; 0xf262004e; 0x6c0695ed; 0x1b01a57b; 0x8208f4c1; 0xf50fc457;
  0x65b0d9c6; 0x12b7e950; 0x8bbeb8ea; 0xfcb9887c; 0x62dd1ddf; 0x15da2d49; 0x8cd37cf3; 0xfbd44c65;
  0x4db26158; 0x3ab551ce; 0xa3bc0074; 0xd4bb30e2; 0x4adfa541; 0x3dd895d7; 0xa4d1c46d; 0xd3d6f4fb;
  0x4369e96a; 0x346ed9fc; 0xad678846; 0xda60b8d0; 0x44042d73; 0x33031de5; 0xaa0a4c5f; 0xdd0d7cc9;
  0x5005713c; 0x270241aa; 0xbe0b1010; 0xc90c2086; 0x5768b525; 0x206f85b3; 0xb966d409; 0xce61e49f;
  0x5edef90e; 0x29d9c998; 0xb0d09822; 0xc7d7a8b4; 0x59b33d17; 0x2eb40d81; 0xb7bd5c3b; 0xc0ba6cad;
  0xedb88320; 0x9abfb3b6; 0x03b6e20c; 0x74b1d29a; 0xead54739; 0x9dd277af; 0x04db2615; 0x73dc1683;
  0xe3630b12; 0x94643b84; 0x0d6d6a3e; 0x7a6a5aa8; 0xe40ecf0b; 0x9309ff9d; 0x0a00ae27; 0x7d079eb1;
  0xf00f9344; 0x8708a3d2; 0x1e01f268; 0x6906c2fe; 0xf762575d; 0x806567cb; 0x196c3671; 0x6e6b06e7;
  0xfed41b76; 0x89d32be0; 0x10da7a5a; 0x67dd4acc; 0xf9b9df6f; 0x8ebeeff9; 0x17b7be43; 0x60b08ed5;
  0xd6d6a3e8; 0xa1d1937e; 0x38d8c2c4; 0x4fdff252; 0xd1bb67f1; 0xa6bc5767; 0x3fb506dd; 0x48b2364b;
  0xd80d2bda; 0xaf0a1b4c; 0x36034af6; 0x41047a60; 0xdf60efc3; 0xa867df55; 0x316e8eef; 0x4669be79;
  0xcb61b38c; 0xbc66831a; 0x256fd2a0; 0x5268e236; 0xcc0c7795; 0xbb0b4703; 0x220216b9; 0x5505262f;
  0xc5ba3bbe; 0xb2bd0b28; 0x2bb45a92; 0x5cb36a04; 0xc2d7ffa7; 0xb5d0cf31; 0x2cd99e8b; 0x5bdeae1d;
  0x9b64c2b0; 0xec63f226; 0x756aa39c; 0x026d930a; 0x9c0906a9; 0xeb0e363f; 0x72076785; 0x05005713;
  0x95bf4a82; 0xe2b87a14; 0x7bb12bae; 0x0cb61b38; 0x92d28e9b; 0xe5d5be0d; 0x7cdcefb7; 0x0bdbdf21;
  0x86d3d2d4; 0xf1d4e242; 0x68ddb3f8; 0x1fda836e; 0x81be16cd; 0xf6b9265b; 0x6fb077e1; 0x18b74777;
  0x88085ae6; 0xff0f6a70; 0x66063bca; 0x11010b5c; 0x8f659eff; 0xf862ae69; 0x616bffd3; 0x166ccf45;
  0xa00ae278; 0xd70dd2ee; 0x4e048354; 0x3903b3c2; 0xa7672661; 0xd06016f7; 0x4969474d; 0x3e6e77db;
  0xaed16a4a; 0xd9d65adc; 0x40df0b66; 0x37d83bf0; 0xa9bcae53; 0xdebb9ec5; 0x47b2cf7f; 0x30b5ffe9;
  0xbdbdf21c; 0xcabac28a; 0x53b39330; 0x24b4a3a6; 0xbad03605; 0xcdd70693; 0x54de5729; 0x23d967bf;
  0xb3667a2e; 0xc4614ab8; 0x5d681b02; 0x2a6f2b94; 0xb40bbe37; 0xc30c8ea1; 0x5a05df1b; 0x2d02ef8d].

(** One turn of the loop. *)
Definition crc32_step (ret byte : Z) : Z :=
  Z.lxor (Z.shiftr ret 8) (crc32_table !!! Z.to_nat (Z.land (Z.lxor ret byte) 0xff)).

(** The bytes from [stream] on. *)
Fixpoint crc32_loop (m : mem) (stream : Z) (len : nat) (ret : Z) : Z :=
  match len with
  | O => ret
  | S len => crc32_loop m (stream + 1) len (crc32_step ret (ld8 m stream))
  end.

Definition crc32 (m : mem) (stream : Z) (len : nat) : Z :=
  Z.lxor (crc32_loop m stream len 0xffffffff) 0xffffffff.

(** ** The reference *)

(** The lowest bit leaves the register; the polynomial, its bits reversed, is
    subtracted when it was set. *)
Definition crc_bit (r : Z) : Z := if Z.odd r then Z.lxor (Z.shiftr r 1) 0xedb88320 else Z.shiftr r 1.
Definition crc_byte (r byte : Z) : Z := Nat.iter 8 crc_bit (Z.lxor r byte).
Definition crc_ref (l : list Z) : Z := Z.lxor (fold_left crc_byte l 0xffffffff) 0xffffffff.

(** The bytes of memory. *)
Fixpoint bytes_at (m : mem) (a : Z) (n : nat) : list Z :=
  match n with
  | O => []
  | S n => ld8 m a :: bytes_at m (a + 1) n
  end.

(** ** Bits *)

Lemma crc_bit_lxor x y : crc_bit (Z.lxor x y) = Z.lxor (crc_bit x) (crc_bit y).
Proof.
  unfold crc_bit. rewrite <-!Z.bit0_odd, Z.lxor_spec, Z.shiftr_lxor.
  destruct (Z.testbit x 0), (Z.testbit y 0); cbn [xorb]; [|by rewrite !Z.lxor_assoc, ?(Z.lxor_comm _ 0xedb88320)..|done].
  rewrite (Z.lxor_comm (Z.shiftr y 1)), Z.lxor_assoc, <-(Z.lxor_assoc 0xedb88320), Z.lxor_nilpotent.
  by rewrite Z.lxor_0_l.
Qed.

Lemma crc_bits_lxor n x y : Nat.iter n crc_bit (Z.lxor x y) = Z.lxor (Nat.iter n crc_bit x) (Nat.iter n crc_bit y).
Proof. induction n as [|n IH]; [done|]. by rewrite !Nat.iter_succ, IH, crc_bit_lxor. Qed.

(** Clear bits are shifted out. *)
Lemma crc_bits_shift n x : Nat.iter n crc_bit (Z.shiftl x (Z.of_nat n)) = x.
Proof.
  revert x. induction n as [|n IH]; intros x; [by rewrite Z.shiftl_0_r|].
  rewrite Nat.iter_succ_r. rewrite <-(IH x) at 2. f_equal. unfold crc_bit.
  rewrite <-Z.bit0_odd, Z.shiftl_spec_low by lia. rewrite Z.shiftr_shiftl_l by lia. f_equal. lia.
Qed.

Lemma crc_bit_range r : 0 ≤ r < 2 ^ 32 → 0 ≤ crc_bit r < 2 ^ 32.
Proof.
  intros Hr. assert (0 ≤ Z.shiftr r 1 < 2 ^ 32) by (rewrite Z.shiftr_div_pow2 by lia; dlia).
  unfold crc_bit. case_match; [|done]. by apply lxor_range.
Qed.

(** The highest bit tells what left. *)
Lemma crc_bit_inj x y : 0 ≤ x < 2 ^ 32 → 0 ≤ y < 2 ^ 32 → crc_bit x = crc_bit y → x = y.
Proof.
  intros Hx Hy He. assert (Hsh : ∀ z, 0 ≤ z < 2 ^ 32 → Z.testbit (Z.shiftr z 1) 31 = false).
  { intros z Hz. rewrite Z.shiftr_spec by lia. by apply (testbit_above z 32). }
  assert (Htop : ∀ z, 0 ≤ z < 2 ^ 32 → Z.testbit (crc_bit z) 31 = Z.odd z).
  { intros z Hz. unfold crc_bit. destruct (Z.odd z); rewrite ?Z.lxor_spec, Hsh by done; done. }
  assert (Hodd : Z.odd x = Z.odd y) by (by rewrite <-!Htop, He).
  assert (Hhalf : Z.shiftr x 1 = Z.shiftr y 1).
  { unfold crc_bit in He. rewrite Hodd in He. destruct (Z.odd y); [|done].
    apply (f_equal (λ z, Z.lxor z 0xedb88320)) in He.
    by rewrite !Z.lxor_assoc, !Z.lxor_nilpotent, !Z.lxor_0_r in He. }
  rewrite (Z.div2_odd x), (Z.div2_odd y), Hodd. by rewrite !Z.div2_spec, Hhalf.
Qed.

Lemma crc_bits_inj n x y :
  0 ≤ x < 2 ^ 32 → 0 ≤ y < 2 ^ 32 → Nat.iter n crc_bit x = Nat.iter n crc_bit y → x = y.
Proof.
  revert x y. induction n as [|n IH]; intros x y Hx Hy He; [done|]. rewrite !Nat.iter_succ_r in He.
  apply crc_bit_inj; [done..|]. apply IH; [by apply crc_bit_range..|done].
Qed.

(** ** Correctness *)

Lemma crc_byte_range r b : 0 ≤ r < 2 ^ 32 → 0 ≤ b < 2 ^ 8 → 0 ≤ crc_byte r b < 2 ^ 32.
Proof.
  intros Hr Hb. unfold crc_byte. assert (Hx : 0 ≤ Z.lxor r b < 2 ^ 32) by (apply lxor_range; lia).
  revert Hx. generalize (Z.lxor r b) 8%nat. intros x n. induction n as [|n IH]; intros Hx; [done|].
  by apply crc_bit_range, IH.
Qed.

(** The table holds what eight turns make of a byte. *)
Lemma crc32_table_spec b : 0 ≤ b < 256 → crc32_table !!! Z.to_nat b = Nat.iter 8 crc_bit b.
Proof.
  assert (Hall : forallb (λ b, crc32_table !!! Z.to_nat b =? Nat.iter 8 crc_bit b) (seqZ 0 256) = true)
    by (vm_compute; reflexivity).
  intros Hb. apply Z.eqb_eq. exact (proj1 (forallb_seqZ _ 0 256) Hall b Hb).
Qed.

(** A value is its low byte and what is above it. *)
Lemma split_low_byte x : x = Z.lxor (Z.shiftl (Z.shiftr x 8) 8) (Z.land x 0xff).
Proof.
  apply Z.bits_inj'. intros j Hj. change 0xff with (Z.ones 8). rewrite Z.lxor_spec, Z.land_spec, Z.testbit_ones by lia.
  rewrite (proj2 (Z.leb_le 0 j)) by lia. destruct (Z.ltb_spec j 8).
  - rewrite Z.shiftl_spec_low by lia. by destruct (Z.testbit x j).
  - rewrite Z.shiftl_spec, Z.shiftr_spec by lia. replace (j - 8 + 8) with j by lia. by destruct (Z.testbit x j).
Qed.

Lemma crc32_step_spec r b : 0 ≤ r → 0 ≤ b < 2 ^ 8 → crc32_step r b = crc_byte r b.
Proof.
  intros Hr Hb. unfold crc32_step, crc_byte. set (x := Z.lxor r b).
  assert (Hx : Z.shiftr x 8 = Z.shiftr r 8).
  { unfold x. rewrite Z.shiftr_lxor, (Z.shiftr_div_pow2 b 8), (Z.div_small b) by lia. by rewrite Z.lxor_0_r. }
  assert (Hl : 0 ≤ Z.land x 0xff < 256).
  { change 0xff with (Z.ones 8). rewrite Z.land_ones by lia. apply Z.mod_pos_bound. lia. }
  rewrite (split_low_byte x) at 2. rewrite crc_bits_lxor, crc32_table_spec, Hx by done.
  f_equal. symmetry. exact (crc_bits_shift 8 (Z.shiftr r 8)).
Qed.

Lemma crc32_loop_spec n : ∀ m a r,
  0 ≤ r < 2 ^ 32 → crc32_loop m a n r = fold_left crc_byte (bytes_at m a n) r.
Proof.
  induction n as [|n IH]; intros m a r Hr; [done|]. cbn [crc32_loop bytes_at fold_left].
  pose proof (ld8_range m a). rewrite crc32_step_spec, IH by (done || lia || by apply crc_byte_range). done.
Qed.

(** C26: The checksum with the table is the remainder computed bit by bit. *)
Theorem crc32_spec m a n : crc32 m a n = crc_ref (bytes_at m a n).
Proof. unfold crc32, crc_ref. by rewrite crc32_loop_spec by lia. Qed.

Lemma crc32_range m a n : 0 ≤ crc32 m a n < 2 ^ 32.
Proof.
  unfold crc32. apply lxor_range; [lia| |lia]. rewrite crc32_loop_spec by lia.
  assert (Hr : 0 ≤ 0xffffffff < 2 ^ 32) by lia. revert a Hr. generalize 0xffffffff.
  induction n as [|n IH]; intros r a Hr; [done|]. cbn [bytes_at fold_left]. apply IH.
  apply crc_byte_range; [done|apply ld8_range].
Qed.

Lemma crc32_ext m m' a a' n : copied m a m' a' (Z.of_nat n) → crc32 m' a' n = crc32 m a n.
Proof.
  intros Hc. unfold crc32. f_equal. generalize 0xffffffff. revert a a' Hc.
  induction n as [|n IH]; intros a a' Hc r; [done|]. cbn [crc32_loop].
  specialize (Hc 0 ltac:(lia)) as H0. rewrite !Z.add_0_r in H0. rewrite H0. apply IH.
  eapply copied_sub; [exact Hc|lia|lia].
Qed.

Definition byte (b : Z) : Prop := 0 ≤ b < 2 ^ 8.

Lemma crc_fold_inj l r r' :
  Forall byte l → 0 ≤ r < 2 ^ 32 → 0 ≤ r' < 2 ^ 32 → fold_left crc_byte l r = fold_left crc_byte l r' → r = r'.
Proof.
  intros Hl. revert r r'. induction Hl as [|b l Hb Hl IH]; intros r r' Hr Hr' He; [done|]. cbn [fold_left] in He.
  apply IH in He; [|by apply crc_byte_range..].
  apply crc_bits_inj in He; [|apply lxor_range; unfold byte in Hb; lia..].
  apply (f_equal (λ z, Z.lxor z b)) in He. by rewrite !Z.lxor_assoc, !Z.lxor_nilpotent, !Z.lxor_0_r in He.
Qed.

(** A byte that changes changes the checksum. *)
Theorem crc_ref_detects l1 b b' l2 :
  Forall byte (l1 ++ b :: l2) → byte b' → b ≠ b' → crc_ref (l1 ++ b :: l2) ≠ crc_ref (l1 ++ b' :: l2).
Proof.
  intros (Hl1 & [Hb Hl2]%Forall_cons)%Forall_app Hb' Hne He. apply Hne. unfold crc_ref in He.
  apply (f_equal (λ z, Z.lxor z 0xffffffff)) in He. rewrite !Z.lxor_assoc, !Z.lxor_nilpotent, !Z.lxor_0_r in He.
  rewrite !fold_left_app in He. cbn [fold_left] in He.
  set (r := fold_left crc_byte l1 0xffffffff) in He.
  assert (Hr : 0 ≤ r < 2 ^ 32).
  { unfold r. assert (Hr : 0 ≤ 0xffffffff < 2 ^ 32) by lia. revert Hr. generalize 0xffffffff. clear -Hl1.
    induction Hl1 as [|c l Hc Hl IH]; intros z Hz; [done|]. cbn [fold_left]. apply IH. by apply crc_byte_range. }
  apply crc_fold_inj in He; [|done|by apply crc_byte_range..].
  apply crc_bits_inj in He; [|apply lxor_range; unfold byte in *; lia..].
  apply (f_equal (Z.lxor r)) in He. by rewrite <-!Z.lxor_assoc, !Z.lxor_nilpotent, !Z.lxor_0_l in He.
Qed.

(** The check value of the polynomial: "123456789". *)
Example crc32_check : crc_ref [49; 50; 51; 52; 53; 54; 55; 56; 57] = 0xcbf43926.
Proof. vm_compute. reflexivity. Qed.

#[global] Arguments crc32 : simpl never.
