(* ===== verification/BlockDevice.v ===== *)
(** * The block device of the boot loader's installer

    [src/limine/limine-install.c]: [device_init], [device_flush_cache],
    [device_cache_block], [_device_read] and [_device_write] over a file, with
    the one block they cache.  The interface [BlockIO] is what [main] uses of
    them; a second instance is a plain array of bytes, and each operation on the
    device is one on the array ([tracks], [stored]). *)
From stdpp Require Import base list gmap.
From S2P Require Import Prelude Memory.
Open Scope Z_scope.

(** ** Operations that may fail

    [None] is the jump to [cleanup]; what was done before it stays done. *)
Definition io (S A : Type) : Type := S → outcome (option A * S).

#[export] Instance io_ret {S} : MRet (io S) := λ A a s, Done (Some a, s).
#[export] Instance io_bind {S} : MBind (io S) := λ A B f m s,
  '(r, s) ← m s;
  match r with
  | Some a => f a s
  | None => Done (None, s)
  end.

Definition io_fail {S A} : io S A := λ s, Done (None, s).
Definition io_check {S} (b : bool) : io S () := λ s, _ ← check b; Done (Some (), s).

Lemma io_bind_inv {S A B} (m : io S A) (f : A → io S B) s b s' :
  (m ≫= f) s = Done (Some b, s') → ∃ a s1, m s = Done (Some a, s1) ∧ f a s1 = Done (Some b, s').
Proof.
  unfold mbind, io_bind. intros H. destruct (m s) as [[[a|] s1]| |]; try done. by exists a, s1.
Qed.

Lemma io_bind_run {S A B} (m : io S A) (f : A → io S B) s r s1 :
  m s = Done (r, s1) → (m ≫= f) s = match r with Some a => f a s1 | None => Done (None, s1) end.
Proof. intros H. unfold mbind, io_bind. by rewrite H. Qed.

(** What [main] uses: a buffer is memory of its own from address 0 on, and a
    write takes the bytes of the buffer from an offset on. *)
Class BlockIO (S : Type) := {
  device_read : mem → Z → Z → io S mem;
  device_write : mem → Z → Z → Z → io S ();
  device_flush : io S ();
}.

(** ** Copying between objects *)

Fixpoint memcpy (dst : mem) (d : Z) (src : mem) (s : Z) (n : nat) : mem :=
  match n with
  | O => dst
  | S n => memcpy (st8 dst d (ld8 src s)) (d + 1) src (s + 1) n
  end.

(** ** Files *)

Record file := File { f_size : Z; f_data : mem; f_pos : Z }.

Definition rewind (f : file) : file := File (f_size f) (f_data f) 0.

(** [fseek(stream, (long) pos, SEEK_SET)]: [long] has 64 bits, and a negative
    position is refused. *)
Definition set_pos (f : file) (pos : Z) : option file :=
  if pos <? 2 ^ 63 then Some (File (f_size f) (f_data f) pos) else None.

(** One object of [n] bytes, or what is left of the file. *)
Definition fread (buffer : mem) (n : Z) (f : file) : bool * mem * file :=
  let got := Z.max 0 (Z.min n (f_size f - f_pos f)) in
  (got =? n, memcpy buffer 0 (f_data f) (f_pos f) (Z.to_nat got), File (f_size f) (f_data f) (f_pos f + got)).

(** A file grows when it is written past its end. *)
Definition fwrite (buffer : mem) (n : Z) (f : file) : file :=
  File (Z.max (f_size f) (f_pos f + n)) (memcpy (f_data f) (f_pos f) buffer 0 (Z.to_nat n)) (f_pos f + n).

(** ** The device *)

Inductive cache_state_t := CACHE_CLEAN | CACHE_DIRTY.

Record disk := Disk {
  cache_state : cache_state_t;
  cached_block : Z;
  cache : mem;
  device : file;
  block_size : Z;
}.

Definition set_device (s : disk) (f : file) : disk := Disk (cache_state s) (cached_block s) (cache s) f (block_size s).
Definition set_cache (s : disk) (c : mem) : disk := Disk (cache_state s) (cached_block s) c (device s) (block_size s).
Definition set_cache_state (s : disk) (c : cache_state_t) : disk :=
  Disk c (cached_block s) (cache s) (device s) (block_size s).

(** The statics before [main], with the file it opens. *)
Definition disk_opened (f : file) : disk := Disk CACHE_CLEAN 0 ∅ f 0.

Definition guesses : list Z := [512; 2048; 4096].

(** [alloc] tells which sizes [realloc] can serve. *)
Fixpoint device_init_loop (alloc : Z → bool) (l : list Z) : io disk () :=
  match l with
  | [] => io_fail
  | guess :: l => λ s,
      if negb (alloc guess) then Done (None, s)
      else
        let '(ret, c, f) := fread (cache s) guess (rewind (device s)) in
        if ret then Done (Some (), Disk CACHE_CLEAN 0 c f guess)
        else device_init_loop alloc l (set_device (set_cache s c) f)
  end.
Definition device_init (alloc : Z → bool) : io disk () := device_init_loop alloc guesses.

Definition device_flush_cache : io disk () := λ s,
  match cache_state s with
  | CACHE_CLEAN => Done (Some (), s)
  | CACHE_DIRTY =>
      match set_pos (device s) (u64 (cached_block s * block_size s)) with
      | None => Done (None, s)
      | Some f => Done (Some (), set_cache_state (set_device s (fwrite (cache s) (block_size s) f)) CACHE_CLEAN)
      end
  end.

Definition device_cache_block (block : Z) : io disk () := λ s,
  if cached_block s =? block then Done (Some (), s)
  else
    '(r, s) ← (match cache_state s with CACHE_DIRTY => device_flush_cache s | CACHE_CLEAN => Done (Some (), s) end);
    match r with
    | None => Done (None, s)
    | Some _ =>
        match set_pos (device s) (u64 (block * block_size s)) with
        | None => Done (None, s)
        | Some f =>
            let '(ret, c, f) := fread (cache s) (block_size s) f in
            if negb ret then Done (None, set_device (set_cache s c) f)
            else Done (Some (), Disk (cache_state s) block c f (block_size s))
        end
    end.

(** The part of a block that the next turn transfers. *)
Definition chunk_of (bs loc count progress : Z) : Z :=
  let chunk := count - progress in
  let offset := u64 (loc + progress) mod bs in
  if bs - offset <? chunk then bs - offset else chunk.

Fixpoint device_read_loop (fuel : nat) (buffer : mem) (loc count progress : Z) : io disk mem := λ s,
  if progress <? count then
    match fuel with
    | O => OutOfFuel
    | S fuel =>
        _ ← check (negb (block_size s =? 0));
        '(r, s) ← device_cache_block (u64 (loc + progress) / block_size s) s;
        match r with
        | None => Done (None, s)
        | Some _ =>
            let chunk := chunk_of (block_size s) loc count progress in
            let offset := u64 (loc + progress) mod block_size s in
            device_read_loop fuel (memcpy buffer progress (cache s) offset (Z.to_nat chunk))
              loc count (progress + chunk) s
        end
    end
  else Done (Some buffer, s).

(** Each turn transfers at least one byte. *)
Definition _device_read (buffer : mem) (loc count : Z) : io disk mem :=
  device_read_loop (Z.to_nat count) buffer loc count 0.

Fixpoint device_write_loop (fuel : nat) (buffer : mem) (start loc count progress : Z) : io disk () := λ s,
  if progress <? count then
    match fuel with
    | O => OutOfFuel
    | S fuel =>
        _ ← check (negb (block_size s =? 0));
        '(r, s) ← device_cache_block (u64 (loc + progress) / block_size s) s;
        match r with
        | None => Done (None, s)
        | Some _ =>
            let chunk := chunk_of (block_size s) loc count progress in
            let offset := u64 (loc + progress) mod block_size s in
            let c := memcpy (cache s) offset buffer (start + progress) (Z.to_nat chunk) in
            device_write_loop fuel buffer start loc count (progress + chunk)
              (set_cache_state (set_cache s c) CACHE_DIRTY)
        end
    end
  else Done (Some (), s).

Definition _device_write (buffer : mem) (start loc count : Z) : io disk () :=
  device_write_loop (Z.to_nat count) buffer start loc count 0.

#[export] Instance disk_io : BlockIO disk := {
  device_read := _device_read;
  device_write := _device_write;
  device_flush := device_flush_cache;
}.

(** ** The reference: an array of bytes

    Of which those in whole blocks can be reached; a write beyond them still
    writes those before.  [fl_dirty] tells that
    some of it may not have reached the file. *)
Record flat := Flat { fl_size : Z; fl_block : Z; fl_data : mem; fl_dirty : bool }.

Definition fl_limit (t : flat) : Z := fl_size t / fl_block t * fl_block t.
Definition set_data (t : flat) (m : mem) : flat := Flat (fl_size t) (fl_block t) m true.
Definition set_clean (t : flat) : flat := Flat (fl_size t) (fl_block t) (fl_data t) false.
Definition reachable (t : flat) (loc count : Z) : bool := (count <=? 0) || (loc + count <=? fl_limit t).

Definition flat_read (buffer : mem) (loc count : Z) : io flat mem := λ t,
  if reachable t loc count then Done (Some (memcpy buffer 0 (fl_data t) loc (Z.to_nat count)), t) else Done (None, set_clean t).

Definition flat_write (buffer : mem) (start loc count : Z) : io flat () := λ t,
  if reachable t loc count then Done (Some (), set_data t (memcpy (fl_data t) loc buffer start (Z.to_nat count)))
  else Done (None, set_clean (set_data t (memcpy (fl_data t) loc buffer start (Z.to_nat (fl_limit t - loc))))).

#[export] Instance flat_io : BlockIO flat := {
  device_read := flat_read;
  device_write := flat_write;
  device_flush := λ t, Done (Some (), set_clean t);
}.

(** ** The device as an array *)

Definition in_cache (s : disk) (a : Z) : bool :=
  (cached_block s * block_size s <=? a) && (a <? (cached_block s + 1) * block_size s).

(** What is on the device once the cache is written back. *)
Definition view (s : disk) (a : Z) : Z :=
  if in_cache s a then ld8 (cache s) (a - cached_block s * block_size s) else ld8 (f_data (device s)) a.

(** The invariant, and the array the device stands for. *)
Record tracks (s : disk) (t : flat) : Prop := {
  tr_size : fl_size t = f_size (device s) ∧ 0 ≤ f_size (device s) < 2 ^ 63;
  tr_block : 0 < block_size s;
  tr_same_block : fl_block t = block_size s;
  tr_cached : 0 ≤ cached_block s ∧ (cached_block s + 1) * block_size s ≤ fl_limit t;
  tr_clean : cache_state s = CACHE_CLEAN → ∀ a, view s a = ld8 (f_data (device s)) a;
  tr_view : ∀ a, view s a = ld8 (fl_data t) a;
  tr_dirty : fl_dirty t = false → cache_state s = CACHE_CLEAN;
}.

(** The file itself holds the array. *)
Definition stored (s : disk) (t : flat) : Prop :=
  f_size (device s) = fl_size t ∧ mem_eq (f_data (device s)) (fl_data t).

(** It holds the array but for the block in the cache, and all of the array when
    that is clean. *)
Definition abandoned (s : disk) (t : flat) : Prop :=
  f_size (device s) = fl_size t ∧ (fl_dirty t = false → mem_eq (f_data (device s)) (fl_data t)) ∧
  ∃ b, ∀ a, ¬ (b * fl_block t ≤ a < (b + 1) * fl_block t) → ld8 (f_data (device s)) a = ld8 (fl_data t) a.

Lemma stored_abandoned s t : stored s t → abandoned s t.
Proof. intros [Hs Hm]. split_and!; [done|by intros _|]. exists 0. by intros a _. Qed.

(** ** Copies *)

Lemma ld8_memcpy dst d src s n b :
  ld8 (memcpy dst d src s n) b =
    if (d <=? b) && (b <? d + Z.of_nat n) then ld8 src (s + (b - d)) else ld8 dst b.
Proof.
  revert dst d s. induction n as [|n IH]; intros dst d s; cbn [memcpy].
  { destruct (Z.leb_spec d b), (Z.ltb_spec b (d + Z.of_nat 0)); simpl; (done || lia). }
  rewrite IH, ld8_st8. pose proof (ld8_range src s). rewrite (Z.mod_small (ld8 src s)) by lia.
  destruct (Z.leb_spec (d + 1) b), (Z.ltb_spec b (d + 1 + Z.of_nat n)), (Z.leb_spec d b),
    (Z.ltb_spec b (d + Z.of_nat (S n))), (Z.eqb_spec b d); simpl; (done || lia || (f_equal; lia)).
Qed.

Lemma memcpy_in dst d src s n b : d ≤ b < d + Z.of_nat n → ld8 (memcpy dst d src s n) b = ld8 src (s + (b - d)).
Proof. intros Hb. rewrite ld8_memcpy, (proj2 (Z.leb_le _ _)), (proj2 (Z.ltb_lt _ _)) by lia. done. Qed.

Lemma memcpy_out dst d src s n b : ¬ (d ≤ b < d + Z.of_nat n) → ld8 (memcpy dst d src s n) b = ld8 dst b.
Proof. intros Hb. rewrite ld8_memcpy. destruct (Z.leb_spec d b), (Z.ltb_spec b (d + Z.of_nat n)); (done || lia). Qed.

Lemma memcpy_copied dst d src s n : copied src s (memcpy dst d src s n) d (Z.of_nat n).
Proof. intros i Hi. rewrite memcpy_in by lia. f_equal. lia. Qed.

Lemma memcpy_app dst d src s n k :
  memcpy dst d src s (n + k) = memcpy (memcpy dst d src s n) (d + Z.of_nat n) src (s + Z.of_nat n) k.
Proof.
  revert dst d s. induction n as [|n IH]; intros dst d s.
  { cbn [memcpy Nat.add]. by rewrite !Z.add_0_r. }
  cbn [memcpy Nat.add]. rewrite IH. f_equal; lia.
Qed.

Lemma memcpy_ext dst d src src' s s' n : copied src s src' s' (Z.of_nat n) → memcpy dst d src' s' n = memcpy dst d src s n.
Proof.
  revert dst d s s'. induction n as [|n IH]; intros dst d s s' Hc; [done|]. cbn [memcpy].
  rewrite (IH _ _ (s + 1) (s' + 1)) by (eapply copied_sub; [exact Hc|lia|lia]).
  specialize (Hc 0 ltac:(lia)). rewrite !Z.add_0_r in Hc. by rewrite Hc.
Qed.

(** ** The operations on the cache *)

Lemma in_cache_spec s a :
  reflect (cached_block s * block_size s ≤ a < (cached_block s + 1) * block_size s) (in_cache s a).
Proof.
  destruct (in_cache s a) eqn:E; constructor; unfold in_cache in E.
  - apply andb_true_iff in E. lia.
  - apply andb_false_iff in E. lia.
Qed.

Lemma view_in s a : cached_block s * block_size s ≤ a < (cached_block s + 1) * block_size s →
  view s a = ld8 (cache s) (a - cached_block s * block_size s).
Proof. intros Ha. unfold view. by destruct (in_cache_spec s a). Qed.

Lemma view_out s a : ¬ (cached_block s * block_size s ≤ a < (cached_block s + 1) * block_size s) →
  view s a = ld8 (f_data (device s)) a.
Proof. intros Ha. unfold view. by destruct (in_cache_spec s a). Qed.

Lemma tracks_block s t : tracks s t → cached_block s * block_size s < 2 ^ 63 ∧ fl_limit t ≤ fl_size t < 2 ^ 63.
Proof.
  intros [[Hsz Hs] Hb Hl [Hc0 Hc] _ _ _]. unfold fl_limit in *. rewrite Hl, Hsz in *.
  pose proof (Z.mul_div_le (f_size (device s)) (block_size s) Hb). lia.
Qed.

(** Writing the cache back brings the file up to date. *)
Lemma device_flush_cache_spec s t :
  tracks s t → ∃ s', device_flush_cache s = Done (Some (), s') ∧ tracks s' t ∧ stored s' t ∧
    cache_state s' = CACHE_CLEAN ∧ cached_block s' = cached_block s ∧ block_size s' = block_size s.
Proof.
  intros Ht. pose proof (tracks_block s t Ht) as [Hpos Hlim]. pose proof Ht as [[Hsz Hs] Hb Hl [Hc0 Hc] Hcl Hv Hw].
  unfold device_flush_cache. destruct (cache_state s) eqn:Hst.
  - exists s. split_and!; [done|done| |done..]. split; [done|]. intros a. by rewrite <-Hv, Hcl.
  - rewrite u64_small by lia. unfold set_pos. rewrite (proj2 (Z.ltb_lt _ _)) by lia.
    eexists. split; [done|]. set (s' := set_cache_state _ _).
    assert (Hfile : ∀ a, ld8 (f_data (device s')) a = view s a).
    { intros a. cbn. rewrite ld8_memcpy, Z2Nat.id by lia. unfold view, in_cache.
      replace (cached_block s * block_size s + block_size s) with ((cached_block s + 1) * block_size s) by lia.
      destruct (_ && _); [f_equal; lia|done]. }
    assert (Hview : ∀ a, view s' a = view s a).
    { intros a. destruct (in_cache_spec s' a) as [Hin|Hout].
      - rewrite (view_in s') by done. by rewrite (view_in s).
      - by rewrite (view_out s'). }
    assert (Hsize : f_size (device s') = f_size (device s)) by (cbn; dlia).
    split_and!; [|split|done..].
    + split; rewrite ?Hsize; try done; [by intros _ a; rewrite Hview, Hfile|by intros a; rewrite Hview].
    + by rewrite Hsize.
    + intros a. by rewrite Hfile, Hv.
Qed.

Lemma tracks_limit_block s t block : tracks s t → 0 ≤ block →
  (block + 1) * block_size s ≤ fl_limit t ↔ (block + 1) * block_size s ≤ f_size (device s).
Proof.
  intros [[Hsz _] Hb Hl _ _ _ _] Hblock. unfold fl_limit. rewrite Hl, Hsz. pose proof (Z.mul_div_le (f_size (device s)) (block_size s) Hb) as Hle.
  rewrite (Z.mul_comm (f_size _ / _)). split; [lia|]. intros H.
  assert (block + 1 ≤ f_size (device s) / block_size s) by (apply Z.div_le_lower_bound; lia). nia.
Qed.

(** A block is cached when all of it is on the device. *)
Lemma device_cache_block_spec s t block :
  tracks s t → 0 ≤ block → block * block_size s < 2 ^ 64 →
  if decide ((block + 1) * block_size s ≤ fl_limit t)
  then ∃ s', device_cache_block block s = Done (Some (), s') ∧ tracks s' t ∧
         cached_block s' = block ∧ block_size s' = block_size s
  else ∃ s', device_cache_block block s = Done (None, s') ∧ stored s' t.
Proof.
  intros Ht Hblock Hwrap. unfold device_cache_block. destruct (Z.eqb_spec (cached_block s) block) as [<-|Hne].
  { rewrite decide_True by apply Ht. by exists s. }
  assert (∃ s1, (match cache_state s with CACHE_DIRTY => device_flush_cache s | CACHE_CLEAN => Done (Some (), s) end) =
      Done (Some (), s1) ∧ tracks s1 t ∧ stored s1 t ∧ cache_state s1 = CACHE_CLEAN ∧ block_size s1 = block_size s)
    as (s1 & -> & Ht1 & Hs1 & Hcs & Hbs).
  { destruct (device_flush_cache_spec s t Ht) as (s1 & Hf & ? & ? & ? & _ & ?). destruct (cache_state s) eqn:Hst.
    - unfold device_flush_cache in Hf. rewrite Hst in Hf. injection Hf as <-. by exists s.
    - by exists s1. }
  do_bind. rewrite <-Hbs in *. pose proof (tracks_limit_block s1 t block Ht1 Hblock) as Hiff.
  pose proof Ht1 as [[Hsz Hsr] Hb Hl [Hc0 Hc] Hcl Hv _]. rewrite u64_small by lia. unfold set_pos.
  destruct (Z.ltb_spec (block * block_size s1) (2 ^ 63)) as [Hpos|Hpos].
  - unfold fread. cbn [f_size f_pos f_data].
    set (got := Z.max 0 (Z.min (block_size s1) (f_size (device s1) - block * block_size s1))).
    destruct (Z.eqb_spec got (block_size s1)) as [He|He]; cbn [negb].
    + rewrite decide_True by (apply Hiff; lia). eexists. split; [done|]. split_and!; [|done..].
      assert (Hview : ∀ a, view (Disk (cache_state s1) block (memcpy (cache s1) 0 (f_data (device s1))
        (block * block_size s1) (Z.to_nat got)) (File (f_size (device s1)) (f_data (device s1))
        (block * block_size s1 + got)) (block_size s1)) a = ld8 (f_data (device s1)) a).
      { intros a. unfold view, in_cache. cbn. destruct (Z.leb_spec (block * block_size s1) a),
          (Z.ltb_spec a ((block + 1) * block_size s1)); try done. cbn [andb].
        rewrite memcpy_in by lia. f_equal. lia. }
      split; [done|done|done|split; [done|apply Hiff; lia]|intros _; exact Hview| |done].
      intros a. rewrite Hview. by apply Hs1.
    + rewrite decide_False by (rewrite Hiff; lia). eexists. split; [done|]. by split; [apply Hs1|apply Hs1].
  - rewrite decide_False; [by exists s1|]. pose proof (tracks_block s1 t Ht1). nia.
Qed.

(** ** Transfers *)

Lemma tracks_set_dirty s t : tracks s t → tracks s (set_data t (fl_data t)).
Proof. by intros []. Qed.

(** The block of the next byte and the part of it that is transferred. *)
Lemma chunk_spec bs loc count progress :
  0 < bs → 0 ≤ loc + progress < 2 ^ 64 → progress < count →
  let block := u64 (loc + progress) / bs in let chunk := chunk_of bs loc count progress in
  0 ≤ block ∧ block * bs ≤ loc + progress ∧ 0 < chunk ∧ progress + chunk ≤ count ∧
  loc + progress + chunk ≤ (block + 1) * bs ∧ u64 (loc + progress) mod bs = loc + progress - block * bs ∧
  (chunk = count - progress ∨ loc + progress + chunk = (block + 1) * bs).
Proof.
  intros Hb Hloc Hp block chunk. unfold block, chunk, chunk_of. rewrite u64_small by lia.
  pose proof (Z.div_mod (loc + progress) bs ltac:(lia)) as Hd.
  pose proof (Z.mod_pos_bound (loc + progress) bs ltac:(lia)) as Hm.
  pose proof (Z.div_pos (loc + progress) bs ltac:(lia) ltac:(lia)).
  set (q := (loc + progress) / bs) in *. set (r := (loc + progress) mod bs) in *.
  destruct (Z.ltb_spec (bs - r) (count - progress)); split_and!; nia.
Qed.

Lemma reachable_step t loc count progress k :
  0 < k → progress + k ≤ count → loc + progress + k ≤ fl_limit t →
  reachable t (loc + (progress + k)) (count - (progress + k)) = reachable t (loc + progress) (count - progress).
Proof.
  intros Hk Hc Hl. unfold reachable.
  destruct (Z.leb_spec (count - (progress + k)) 0), (Z.leb_spec (count - progress) 0),
    (Z.leb_spec (loc + (progress + k) + (count - (progress + k))) (fl_limit t)),
    (Z.leb_spec (loc + progress + (count - progress)) (fl_limit t)); (done || lia).
Qed.

(** A block that is not all on the device holds no byte that can be reached. *)
Lemma block_unreachable s t block loc count :
  tracks s t → 0 < count → block * block_size s ≤ loc → ¬ (block + 1) * block_size s ≤ fl_limit t →
  reachable t loc count = false ∧ fl_limit t ≤ loc.
Proof.
  intros [_ Hb Hl _ _ _ _] Hc Hloc Hout. unfold reachable, fl_limit in *. rewrite Hl in *. set (k := fl_size _ / _) in *.
  assert (k ≤ block) by nia. assert (k * block_size s ≤ loc) by nia. split; [|done].
  apply orb_false_iff. split; lia.
Qed.

Lemma reachable_all t loc count : count ≤ 0 → reachable t loc count = true.
Proof. intros Hc. unfold reachable. by rewrite (proj2 (Z.leb_le _ _)). Qed.

Lemma device_read_loop_spec fuel : ∀ s t buffer loc count progress,
  tracks s t → 0 ≤ loc < 2 ^ 64 → 0 ≤ progress → progress = 0 ∨ loc + progress ≤ fl_limit t →
  count - progress ≤ Z.of_nat fuel →
  if reachable t (loc + progress) (count - progress)
  then ∃ s', device_read_loop fuel buffer loc count progress s =
      Done (Some (memcpy buffer progress (fl_data t) (loc + progress) (Z.to_nat (count - progress))), s') ∧ tracks s' t
  else ∃ s', device_read_loop fuel buffer loc count progress s = Done (None, s') ∧ stored s' t.
Proof.
  induction fuel as [|fuel IH]; intros s t buffer loc count progress Ht Hloc Hp Hreach Hfuel; cbn [device_read_loop];
    destruct (Z.ltb_spec progress count) as [Hlt|Hge]; try lia.
  1, 3: rewrite reachable_all, (Z2Nat.nonpos (count - progress)) by lia; by exists s.
  pose proof (tracks_block s t Ht) as [_ Hlim]. pose proof (tr_block s t Ht) as Hb.
  destruct (chunk_spec (block_size s) loc count progress Hb) as (H0 & Hlo & Hk & Hkc & Hhi & Hoff & _); [lia..|].
  rewrite check_true by (apply negb_true_iff, Z.eqb_neq; lia). do_bind.
  set (block := u64 (loc + progress) / block_size s) in *.
  pose proof (device_cache_block_spec s t block Ht H0 ltac:(lia)) as Hcb. case_decide as Hin.
  - destruct Hcb as (s1 & -> & Ht1 & Hc1 & Hb1). do_bind. rewrite Hb1.
    set (k := chunk_of (block_size s) loc count progress) in *. rewrite Hoff.
    rewrite (memcpy_ext _ _ (fl_data t) _ (loc + progress)).
    2: { rewrite Z2Nat.id by lia. intros i Hi. rewrite <-(tr_view _ _ Ht1), view_in; rewrite Hc1, Hb1; [f_equal; lia|lia]. }
    specialize (IH s1 t (memcpy buffer progress (fl_data t) (loc + progress) (Z.to_nat k)) loc count (progress + k)
      Ht1 Hloc ltac:(lia) ltac:(lia) ltac:(lia)).
    rewrite reachable_step in IH by lia. case_match; [|exact IH]. destruct IH as (s' & -> & Ht').
    exists s'. split; [|done]. f_equal. f_equal. f_equal.
    replace (Z.to_nat (count - progress)) with (Z.to_nat k + Z.to_nat (count - (progress + k)))%nat by lia.
    rewrite memcpy_app. f_equal; lia.
  - destruct Hcb as (s1 & -> & Hs1). do_bind.
    destruct (block_unreachable s t block (loc + progress) (count - progress)) as [-> _]; [done|lia|lia|done|]. by exists s1.
Qed.

(** Overwriting the part of the array that the cache holds. *)
Lemma tracks_cache_written s t buffer start loc k :
  tracks s t → 0 ≤ k → cached_block s * block_size s ≤ loc → loc + k ≤ (cached_block s + 1) * block_size s →
  tracks (set_cache_state (set_cache s (memcpy (cache s) (loc - cached_block s * block_size s) buffer start (Z.to_nat k)))
      CACHE_DIRTY)
    (set_data t (memcpy (fl_data t) loc buffer start (Z.to_nat k))).
Proof.
  intros [Hsz Hb Hl Hc _ Hv _] Hk Hlo Hhi. split; [done|done|done|done|done| |done]. intros a. cbn [fl_data set_data].
  set (s' := set_cache_state _ _). destruct (in_cache_spec s a) as [Hin|Hout].
  - rewrite (view_in s') by done. cbn. rewrite !ld8_memcpy, <-Hv, (view_in s) by done.
    destruct (Z.leb_spec (loc - cached_block s * block_size s) (a - cached_block s * block_size s)),
      (Z.ltb_spec (a - cached_block s * block_size s) (loc - cached_block s * block_size s + Z.of_nat (Z.to_nat k))),
      (Z.leb_spec loc a), (Z.ltb_spec a (loc + Z.of_nat (Z.to_nat k))); try lia; cbn [andb]; [f_equal; lia|done..].
  - rewrite (view_out s') by done. cbn. rewrite memcpy_out by lia. by rewrite <-Hv, (view_out s).
Qed.

Lemma device_write_loop_spec fuel : ∀ s t buffer start loc count progress,
  tracks s t → 0 ≤ loc < 2 ^ 64 → 0 ≤ progress → progress = 0 ∨ loc + progress ≤ fl_limit t →
  count - progress ≤ Z.of_nat fuel →
  if reachable t (loc + progress) (count - progress)
  then ∃ s', device_write_loop fuel buffer start loc count progress s = Done (Some (), s') ∧
      tracks s' (set_data t (memcpy (fl_data t) (loc + progress) buffer (start + progress) (Z.to_nat (count - progress))))
  else ∃ s', device_write_loop fuel buffer start loc count progress s = Done (None, s') ∧
      stored s' (set_data t (memcpy (fl_data t) (loc + progress) buffer (start + progress)
        (Z.to_nat (fl_limit t - (loc + progress))))).
Proof.
  induction fuel as [|fuel IH]; intros s t buffer start loc count progress Ht Hloc Hp Hreach Hfuel; cbn [device_write_loop];
    destruct (Z.ltb_spec progress count) as [Hlt|Hge]; try lia.
  1, 3: rewrite reachable_all, (Z2Nat.nonpos (count - progress)) by lia; cbn [memcpy]; exists s; split; [done|by apply tracks_set_dirty].
  pose proof (tracks_block s t Ht) as [_ Hlim]. pose proof (tr_block s t Ht) as Hb.
  destruct (chunk_spec (block_size s) loc count progress Hb) as (H0 & Hlo & Hk & Hkc & Hhi & Hoff & _); [lia..|].
  rewrite check_true by (apply negb_true_iff, Z.eqb_neq; lia). do_bind.
  set (block := u64 (loc + progress) / block_size s) in *.
  pose proof (device_cache_block_spec s t block Ht H0 ltac:(lia)) as Hcb. case_decide as Hin.
  - destruct Hcb as (s1 & -> & Ht1 & Hc1 & Hb1). do_bind. rewrite Hb1.
    set (k := chunk_of (block_size s) loc count progress) in *. rewrite Hoff.
    pose proof (tracks_cache_written s1 t buffer (start + progress) (loc + progress) k Ht1) as Ht2.
    rewrite Hc1, Hb1 in Ht2. specialize (Ht2 ltac:(lia) ltac:(lia) ltac:(lia)).
    specialize (IH _ _ buffer start loc count (progress + k) Ht2 Hloc ltac:(lia) ltac:(right; change (fl_limit (set_data t _)) with (fl_limit t); lia) ltac:(lia)).
    change (reachable (set_data t _)) with (reachable t) in IH. rewrite reachable_step in IH by lia. cbn [fl_data set_data] in IH; change (fl_limit (set_data t _)) with (fl_limit t) in IH.
    case_match; destruct IH as (s' & -> & Hs'); exists s'; (split; [done|]).
    + replace (Z.to_nat (count - progress)) with (Z.to_nat k + Z.to_nat (count - (progress + k)))%nat by lia.
      rewrite memcpy_app, !Z2Nat.id by lia. by rewrite <-!Z.add_assoc.
    + replace (Z.to_nat (fl_limit t - (loc + progress)))
        with (Z.to_nat k + Z.to_nat (fl_limit t - (loc + (progress + k))))%nat by lia.
      rewrite memcpy_app, !Z2Nat.id by lia. by rewrite <-!Z.add_assoc.
  - destruct Hcb as (s1 & -> & Hs1). do_bind.
    destruct (block_unreachable s t block (loc + progress) (count - progress)) as [-> Hl]; [done|lia|lia|done|].
    rewrite (Z2Nat.nonpos (fl_limit t - (loc + progress))) by lia. cbn [memcpy]. by exists s1.
Qed.

(** ** Running on the array instead of the device

    [m1] and [m2] take states related by [R] to states related by [Q] with the
    same value, or both fail and the file holds the array but for the cached block. *)
Definition sim {A} (R Q : disk → flat → Prop) (m1 : io disk A) (m2 : io flat A) : Prop :=
  ∀ s t, R s t →
    match m1 s, m2 t with
    | Done (Some a, s'), Done (Some b, t') => a = b ∧ Q s' t'
    | Done (None, s'), Done (None, t') => abandoned s' t'
    | Undefined, Undefined | OutOfFuel, OutOfFuel => True
    | _, _ => False
    end.

Lemma sim_ret {A} (R : disk → flat → Prop) (a : A) : sim R R (mret a) (mret a).
Proof. by intros s t Hst. Qed.

Lemma sim_bind {A B} R M Q (m1 : io disk A) (m2 : io flat A) (f1 : A → io disk B) (f2 : A → io flat B) :
  sim R M m1 m2 → (∀ a, sim M Q (f1 a) (f2 a)) → sim R Q (m1 ≫= f1) (m2 ≫= f2).
Proof.
  intros Hm Hf s t Hst. specialize (Hm s t Hst). unfold mbind, io_bind.
  destruct (m1 s) as [[[a|] s1]| |], (m2 t) as [[[b|] t1]| |]; try done. destruct Hm as [<- HM]. by apply Hf.
Qed.

(** The same when the values of the first step have [P]. *)
Lemma sim_bind_post {A B} (P : A → Prop) R M Q (m1 : io disk A) (m2 : io flat A) (f1 : A → io disk B) (f2 : A → io flat B) :
  sim R M m1 m2 → (∀ t a t', m2 t = Done (Some a, t') → P a) → (∀ a, P a → sim M Q (f1 a) (f2 a)) →
  sim R Q (m1 ≫= f1) (m2 ≫= f2).
Proof.
  intros Hm HP Hf s t Hst. specialize (Hm s t Hst). specialize (HP t). unfold mbind, io_bind.
  destruct (m1 s) as [[[a|] s1]| |], (m2 t) as [[[b|] t1]| |]; try done. destruct Hm as [<- HM].
  apply Hf; [by eapply HP|done].
Qed.

Lemma sim_check (R : disk → flat → Prop) b : sim R R (io_check b) (io_check b).
Proof. intros s t Hst. unfold io_check. by destruct b. Qed.

(** Giving up leaves the cache as it is. *)
Lemma sim_fail {A} : sim tracks tracks (io_fail (A := A)) io_fail.
Proof.
  intros s t Ht. unfold io_fail. pose proof (tr_size _ _ Ht) as [Hsz _]. split_and!; [done| |].
  - intros Hw a. by rewrite <-(tr_view _ _ Ht), (tr_clean _ _ Ht (tr_dirty _ _ Ht Hw)).
  - exists (cached_block s). intros a Ha. rewrite (tr_same_block _ _ Ht) in Ha. by rewrite <-(tr_view _ _ Ht), view_out.
Qed.

Lemma sim_read buffer loc count :
  0 ≤ loc < 2 ^ 64 → sim tracks tracks (device_read buffer loc count) (device_read buffer loc count).
Proof.
  intros Hloc s t Ht. cbn [device_read disk_io flat_io]. unfold _device_read, flat_read.
  pose proof (device_read_loop_spec (Z.to_nat count) s t buffer loc count 0 Ht Hloc ltac:(lia) ltac:(lia) ltac:(lia)) as Hr.
  rewrite Z.add_0_r, Z.sub_0_r in Hr. case_match; destruct Hr as (s' & -> & Hs'); auto using stored_abandoned.
Qed.

Lemma sim_write buffer start loc count :
  0 ≤ loc < 2 ^ 64 → sim tracks tracks (device_write buffer start loc count) (device_write buffer start loc count).
Proof.
  intros Hloc s t Ht. cbn [device_write disk_io flat_io]. unfold _device_write, flat_write.
  pose proof (device_write_loop_spec (Z.to_nat count) s t buffer start loc count 0 Ht Hloc ltac:(lia) ltac:(lia) ltac:(lia)) as Hr.
  rewrite !Z.add_0_r, Z.sub_0_r in Hr. case_match; destruct Hr as (s' & -> & Hs'); auto using stored_abandoned.
Qed.

Lemma sim_flush : sim tracks (λ s t, tracks s t ∧ stored s t) device_flush device_flush.
Proof.
  intros s t Ht. cbn [device_flush disk_io flat_io].
  destruct (device_flush_cache_spec s t Ht) as (s' & -> & Ht' & Hs' & Hcl & _). split_and!; [done| |done].
  destruct Ht'. by split.
Qed.

(** [for (i = lo; i < lo + n; i++)] with what it computes. *)
Fixpoint for_io {S St} (n : nat) (i : Z) (f : Z → St → io S St) (x : St) : io S St :=
  match n with
  | O => mret x
  | Datatypes.S n => x ← f i x; for_io n (i + 1) f x
  end.

Lemma sim_for {St} n : ∀ i (f1 : Z → St → io disk St) (f2 : Z → St → io flat St) x,
  (∀ j x, sim tracks tracks (f1 j x) (f2 j x)) → sim tracks tracks (for_io n i f1 x) (for_io n i f2 x).
Proof.
  induction n as [|n IH]; intros i f1 f2 x Hf; [apply sim_ret|]. cbn [for_io].
  eapply sim_bind; [apply Hf|]. intros y. by apply IH.
Qed.

(** On the array everything ends, and the array stays as long as it is. *)
Definition steady {A} (m : io flat A) : Prop :=
  ∀ t, match m t with
       | Done (_, t') => fl_size t' = fl_size t ∧ fl_block t' = fl_block t
       | Undefined => True
       | OutOfFuel => False
       end.

Lemma steady_ret {A} (a : A) : steady (mret a).
Proof. by intros t. Qed.
Lemma steady_fail {A} : steady (io_fail (A := A)).
Proof. by intros t. Qed.
Lemma steady_check b : steady (io_check b).
Proof. intros t. unfold io_check. by destruct b. Qed.
Lemma steady_read buffer loc count : steady (device_read buffer loc count).
Proof. intros t. cbn. unfold flat_read. by destruct (reachable t loc count). Qed.
Lemma steady_write buffer start loc count : steady (device_write buffer start loc count).
Proof. intros t. cbn. unfold flat_write. by destruct (reachable t loc count). Qed.
Lemma steady_flush : steady device_flush.
Proof. by intros t. Qed.

Lemma steady_bind {A B} (m : io flat A) (f : A → io flat B) : steady m → (∀ a, steady (f a)) → steady (m ≫= f).
Proof.
  intros Hm Hf t. specialize (Hm t). unfold mbind, io_bind. destruct (m t) as [[[a|] t1]| |]; try done.
  specialize (Hf a t1). do_bind. destruct (f a t1) as [[? ?]| |]; try done. destruct Hm, Hf. split; congruence.
Qed.

Lemma steady_for {St} n : ∀ i (f : Z → St → io flat St) x, (∀ j x, steady (f j x)) → steady (for_io n i f x).
Proof.
  induction n as [|n IH]; intros i f x Hf; [apply steady_ret|]. cbn [for_io].
  apply steady_bind; [apply Hf|]. intros y. by apply IH.
Qed.

(** ** Opening the device *)

(** The array the file holds, in blocks of 512 bytes. *)
Definition flat_of (f : file) : flat := Flat (f_size f) 512 (f_data f) false.

(** The first guess is right for every file that has that many bytes; no other
    is ever taken. *)
Lemma device_init_spec alloc f :
  alloc 512 = true → 0 ≤ f_size f < 2 ^ 63 →
  ∃ r s, device_init alloc (disk_opened f) = Done (r, s) ∧
    f_size (device s) = f_size f ∧ f_data (device s) = f_data f ∧
    if 512 <=? f_size f then r = Some () ∧ block_size s = 512 ∧ tracks s (flat_of f) else r = None.
Proof.
  intros Ha Hsz. unfold device_init, guesses. cbn [device_init_loop]. rewrite Ha. cbn [negb].
  unfold fread. cbn [rewind f_size f_pos f_data device disk_opened].
  set (got := Z.max 0 (Z.min 512 (f_size f - 0))). destruct (Z.leb_spec 512 (f_size f)) as [Hle|Hgt].
  - assert (Hgot : got = 512) by lia. rewrite Hgot, Z.eqb_refl. eexists _, _. split; [done|]. split_and!; [done|done|done|done|].
    assert (Hcl : ∀ a, view (Disk CACHE_CLEAN 0 (memcpy (cache (disk_opened f)) 0 (f_data f) 0 (Z.to_nat 512))
      (File (f_size f) (f_data f) (0 + 512)) 512) a = ld8 (f_data f) a).
    { intros a. unfold view. destruct (in_cache_spec (Disk CACHE_CLEAN 0 (memcpy (cache (disk_opened f)) 0 (f_data f) 0
        (Z.to_nat 512)) (File (f_size f) (f_data f) (0 + 512)) 512) a) as [Hin|]; [|done].
      cbn [cached_block block_size cache] in Hin |- *. rewrite memcpy_in by lia. f_equal. lia. }
    split; unfold fl_limit; cbn [fl_size fl_block fl_data fl_dirty flat_of device f_size f_data block_size cached_block cache_state];
      try done; dlia.
  - rewrite (proj2 (Z.eqb_neq got 512)) by lia. cbn [set_device set_cache cache device f_size f_data f_pos rewind].
    destruct (alloc 2048); cbn [negb]; [|by eexists _, _].
    rewrite (proj2 (Z.eqb_neq _ 2048)) by lia. cbn [set_device set_cache cache device f_size f_data f_pos rewind].
    destruct (alloc 4096); cbn [negb]; [|by eexists _, _].
    rewrite (proj2 (Z.eqb_neq _ 4096)) by lia. by eexists _, _.
Qed.

#[global] Arguments memcpy : simpl never.
