(* ===== verification/Installer.v ===== *)
(** * The boot loader's installer

    [main] of [src/limine/limine-install.c], which [make run] applies to the
    image of the system: it looks for a partition table, finds a place for the
    second stage of the boot loader, and writes both stages.  [main] is written
    against [BlockIO]; run on the device with its cache it does what it does on
    an array of bytes ([main_runs]). *)
From Stdlib Require Import String.
From stdpp Require Import base list gmap strings.
From S2P Require Import Prelude Memory Layout Crc32 BlockDevice.
Open Scope Z_scope.

(** ** Data *)

Definition gpt_table_header_fields : ctype := Struct [
  ("signature", U8, 8); ("revision", U32, 1); ("header_size", U32, 1); ("crc32", U32, 1); ("_reserved0", U32, 1);
  ("my_lba", U64, 1); ("alternate_lba", U64, 1); ("first_usable_lba", U64, 1); ("last_usable_lba", U64, 1);
  ("disk_guid", U64, 2); ("partition_entry_lba", U64, 1); ("number_of_partition_entries", U32, 1);
  ("size_of_partition_entry", U32, 1); ("partition_entry_array_crc32", U32, 1)]%string.

Definition gpt_entry_fields : ctype := Struct [
  ("partition_type_guid", U64, 2); ("unique_partition_guid", U64, 2); ("starting_lba", U64, 1);
  ("ending_lba", U64, 1); ("attributes", U64, 1); ("partition_name", U16, 36)]%string.

Definition HEADER : Z := sizeof gpt_table_header_fields.
Definition ENTRY : Z := sizeof gpt_entry_fields.

(** The members [main] reads, of an object at address 0. *)
Definition alternate_lba (h : mem) : Z := member gpt_table_header_fields h 0 "alternate_lba".
Definition partition_entry_lba (h : mem) : Z := member gpt_table_header_fields h 0 "partition_entry_lba".
Definition number_of_partition_entries (h : mem) : Z := member gpt_table_header_fields h 0 "number_of_partition_entries".
Definition size_of_partition_entry (h : mem) : Z := member gpt_table_header_fields h 0 "size_of_partition_entry".
Definition starting_lba (e : mem) : Z := member gpt_entry_fields e 0 "starting_lba".

(** An entry is in use when its GUID is not zero. *)
Definition entry_used (e : mem) : bool :=
  negb (ld64 e (offset_of gpt_entry_fields "unique_partition_guid") =? 0) ||
  negb (ld64 e (offset_of gpt_entry_fields "unique_partition_guid" + 8) =? 0).

Definition EFI_PART : list Z := [0x45; 0x46; 0x49; 0x20; 0x50; 0x41; 0x52; 0x54].
Definition ECH_FS : list Z := [0x5f; 0x45; 0x43; 0x48; 0x5f; 0x46; 0x53; 0x5f].
Definition FAT : list Z := [0x46; 0x41; 0x54].
Definition FORCE_MBR : list Z := [0x2d; 0x2d; 0x66; 0x6f; 0x72; 0x63; 0x65; 0x2d; 0x6d; 0x62; 0x72].

(** [memcmp] with a literal; [strncmp] stops at a zero, which these have none of. *)
Definition starts_with (m : mem) (l : list Z) : bool := bool_decide (bytes_at m 0 (length l) = l).

(** The size of the image in [src/limine/limine-hdd.h]. *)
Definition bootloader_file_size : Z := 22189.
Definition stage2_size : Z := u64 (bootloader_file_size - 512).
Definition stage2_sects : Z := u64 (stage2_size + (512 - 1)) / 512.
Definition stage2_size_a : Z := u16 (stage2_sects / 2 * 512 + (if negb (stage2_sects mod 2 =? 0) then 512 else 0)).
Definition stage2_size_b : Z := u16 (stage2_sects / 2 * 512).

(** [x & ~(lb_size - 1)] *)
Definition align_down (x lb_size : Z) : Z := Z.land x (u64 (Z.lnot (lb_size - 1))).

(** ** Arguments *)

Definition is_space (c : Z) : bool := (c =? 32) || ((9 <=? c) && (c <=? 13)).
Definition is_digit (c : Z) : bool := (48 <=? c) && (c <=? 57).

Fixpoint skip_spaces (l : list Z) : list Z :=
  match l with
  | c :: l' => if is_space c then skip_spaces l' else l
  | [] => []
  end.

Fixpoint digits (l : list Z) (acc : Z) : Z :=
  match l with
  | c :: l => if is_digit c then digits l (10 * acc + (c - 48)) else acc
  | [] => acc
  end.

(** [sscanf(arg, "%u", &n)]: without a number [n] stays uninitialised, and a
    number that is none of [n]'s is undefined as well. *)
Definition sscanf_u32 (l : list Z) : outcome Z :=
  let l := skip_spaces l in
  let '(negative, l) := match l with 45 :: l => (true, l) | 43 :: l => (false, l) | l => (false, l) end in
  match l with
  | c :: _ =>
      let n := digits l 0 in
      _ ← check (is_digit c && (n <? 2 ^ 32) && (negb negative || (n =? 0)));
      Done n
  | [] => Undefined
  end.

Definition io_lift {S A} (o : outcome A) : io S A := λ s, a ← o; Done (Some a, s).

(** ** [main] *)

Section main.
Context {W : Type} `{!BlockIO W}.
Context (bootloader_img : mem).
Context (alloc : Z → bool).

(** Which of the guesses is the size of a logical block. *)
Fixpoint probe_gpt (force_mbr : bool) (lb_guesses : list Z) (gpt_header : mem) : io W (bool * Z * mem) :=
  match lb_guesses with
  | [] => mret (false, 0, gpt_header)
  | guess :: lb_guesses =>
      gpt_header ← device_read gpt_header guess HEADER;
      if starts_with gpt_header EFI_PART then
        if negb force_mbr then mret (true, guess, gpt_header)
        else
          let gpt_header := memset gpt_header 0 0 (Z.to_nat HEADER) in
          _ ← device_write gpt_header 0 guess HEADER;
          mret (false, guess, gpt_header)
      else probe_gpt force_mbr lb_guesses gpt_header
  end.

Definition read_secondary (lb_size : Z) (gpt_header : mem) : io W mem :=
  secondary_gpt_header ← device_read ∅ (u64 (lb_size * alternate_lba gpt_header)) HEADER;
  if starts_with secondary_gpt_header EFI_PART then mret secondary_gpt_header else io_fail.

(** *** The checks on a master boot record

    Each reads [n] bytes to [hint] at [loc]; a value that will not do is
    replaced when the user insists, and else clears [mbr]. *)
Definition check_hint (n : Z) (loc : Z) (bad : mem → bool) (fix_hint : mem → mem) (n_fix : Z) (force_mbr : bool)
    (st : mem * bool) : io W (mem * bool) :=
  let '(hint, mbr) := st in
  hint ← device_read hint loc n;
  if bad hint then
    if negb force_mbr then mret (hint, false)
    else
      let hint := fix_hint hint in
      _ ← device_write hint 0 loc n_fix;
      mret (hint, mbr)
  else mret (hint, mbr).

Definition check_u16 (loc : Z) (bad : Z → bool) (fixed : Z) : bool → mem * bool → io W (mem * bool) :=
  check_hint 2 loc (λ hint, bad (ld16 hint 0)) (λ hint, st16 hint 0 fixed) 2.

(** The status of a partition. *)
Definition check_status (loc : Z) : bool → mem * bool → io W (mem * bool) :=
  check_hint 1 loc (λ hint, negb (ld8 hint 0 =? 0) && negb (ld8 hint 0 =? 0x80))
    (λ hint, st16 hint 0 (if negb (Z.land (ld8 hint 0) 0x80 =? 0) then 0x80 else 0)) 1.

(** The name of a file system. *)
Definition check_magic (loc : Z) (magic : list Z) (zeros : Z) : bool → mem * bool → io W (mem * bool) :=
  check_hint (Z.of_nat (length magic)) loc (λ hintc, starts_with hintc magic)
    (λ hintc, memset hintc 0 0 (Z.to_nat zeros)) zeros.

Definition check_mbr (force_mbr : bool) : io W bool :=
  st ← check_u16 218 (λ hint, negb (hint =? 0)) 0 force_mbr (∅, true);
  st ← check_u16 444 (λ hint, negb (hint =? 0) && negb (hint =? 0x5a5a)) 0 force_mbr st;
  st ← check_u16 510 (λ hint, negb (hint =? 0xaa55)) 0xaa55 force_mbr st;
  st ← check_status 446 force_mbr st;
  st ← check_status 462 force_mbr st;
  st ← check_status 478 force_mbr st;
  '(hint, mbr) ← check_status 494 force_mbr st;
  st ← check_magic 4 ECH_FS 8 force_mbr (∅, mbr);
  '(_, mbr) ← check_magic 54 FAT 5 force_mbr st;
  '(_, mbr) ← check_u16 1080 (λ hint, hint =? 0xef53) 0 force_mbr (hint, mbr);
  mret mbr.

(** *** Where the second stage goes *)

Definition mbr_location : Z * Z := (512, u64 (512 + stage2_size_a)).

(** In a partition of its own. *)
Definition partition_location (lb_size : Z) (gpt_header : mem) (arg : list Z) : io W (Z * Z) :=
  partition_num ← io_lift (sscanf_u32 arg);
  let partition_num := u32 (partition_num - 1) in
  if number_of_partition_entries gpt_header <? partition_num then io_fail
  else
    gpt_entry ← device_read ∅ (u64 (u64 (partition_entry_lba gpt_header * lb_size) + partition_num * ENTRY)) ENTRY;
    if negb (entry_used gpt_entry) then io_fail
    else
      let stage2_loc_a := u64 (starting_lba gpt_entry * lb_size) in
      let stage2_loc_b := u64 (stage2_loc_a + stage2_size_a) in
      mret (stage2_loc_a,
        if negb (Z.land stage2_loc_b (lb_size - 1) =? 0) then align_down (u64 (stage2_loc_b + lb_size)) lb_size
        else stage2_loc_b).

(** The last entry in use, -1 when there is none. *)
Definition max_partition_entry_used (lb_size : Z) (gpt_header : mem) : io W Z :=
  for_io (Z.to_nat (number_of_partition_entries gpt_header)) 0 (λ i max,
    gpt_entry ← device_read ∅ (u64 (u64 (partition_entry_lba gpt_header * lb_size) + i * ENTRY)) ENTRY;
    mret (if entry_used gpt_entry then if max <? i then i else max else max)) (-1).

(** The entries of an array from [first] on, with [n] bytes of zeros allocated. *)
Definition zero_entries (lb_size n first count : Z) (header : mem) : io W () :=
  for_io (Z.to_nat (count - first)) first (λ i _,
    _ ← io_check ((size_of_partition_entry header =? 0) || alloc n && (size_of_partition_entry header <=? n));
    device_write ∅ 0 (u64 (u64 (partition_entry_lba header * lb_size) + u64 (i * size_of_partition_entry header)))
      (size_of_partition_entry header)) ().

(** The new header of an array of partitions, with its checksum. *)
Definition new_header (header : mem) (crc32_partition_array count : Z) : mem :=
  let header := set_member gpt_table_header_fields header 0 "partition_entry_array_crc32" crc32_partition_array in
  let header := set_member gpt_table_header_fields header 0 "number_of_partition_entries" count in
  let header := set_member gpt_table_header_fields header 0 "crc32" 0 in
  set_member gpt_table_header_fields header 0 "crc32" (crc32 header 0 92).

(** At the end of the two arrays of partitions, which become shorter. *)
Definition embed_a (lb_size : Z) (gpt_header : mem) : Z :=
  align_down (u64 (u64 (u64 (partition_entry_lba gpt_header + 32) * lb_size) - stage2_size_a)) lb_size.
Definition embed_b (lb_size : Z) (secondary_gpt_header : mem) : Z :=
  align_down (u64 (u64 (u64 (partition_entry_lba secondary_gpt_header + 32) * lb_size) - stage2_size_b)) lb_size.
Definition new_partition_entry_count (lb_size : Z) (gpt_header : mem) : Z :=
  u64 (u64 (embed_a lb_size gpt_header / lb_size - partition_entry_lba gpt_header) *
       (lb_size / size_of_partition_entry gpt_header)).
(** [(int64_t)] *)
Definition i64 (z : Z) : Z := (z + 2 ^ 63) mod 2 ^ 64 - 2 ^ 63.

Definition embed (lb_size : Z) (gpt_header secondary_gpt_header : mem) : io W (Z * Z) :=
  max ← max_partition_entry_used lb_size gpt_header;
  let size := size_of_partition_entry gpt_header in
  _ ← io_check (negb (size =? 0));
  let stage2_loc_a := embed_a lb_size gpt_header in
  let stage2_loc_b := embed_b lb_size secondary_gpt_header in
  let count := new_partition_entry_count lb_size gpt_header in
  if i64 count <=? max then io_fail
  else
    _ ← zero_entries lb_size size (max + 1) count gpt_header;
    _ ← zero_entries lb_size size (max + 1) count secondary_gpt_header;
    if negb (alloc (u64 (count * size))) then io_fail
    else
      partition_array ← device_read ∅ (u64 (partition_entry_lba gpt_header * lb_size)) (u64 (count * size));
      let crc32_partition_array := crc32 partition_array 0 (Z.to_nat (u64 (count * size))) in
      let gpt_header := new_header gpt_header crc32_partition_array count in
      _ ← device_write gpt_header 0 lb_size HEADER;
      let secondary_gpt_header := new_header secondary_gpt_header crc32_partition_array count in
      _ ← device_write secondary_gpt_header 0 (u64 (lb_size * alternate_lba gpt_header)) HEADER;
      mret (stage2_loc_a, stage2_loc_b).

(** *** Writing *)

Definition write_stages (stage2_loc_a stage2_loc_b : Z) : io W () :=
  timestamp ← device_read ∅ 218 6;
  orig_mbr ← device_read ∅ 440 70;
  _ ← device_write bootloader_img 0 0 512;
  _ ← device_write bootloader_img 512 stage2_loc_a stage2_size_a;
  _ ← device_write bootloader_img (512 + stage2_size_a) stage2_loc_b (u64 (stage2_size - stage2_size_a));
  _ ← device_write (st16 ∅ 0 stage2_size_a) 0 (0x1a4 + 0) 2;
  _ ← device_write (st16 ∅ 0 stage2_size_b) 0 (0x1a4 + 2) 2;
  _ ← device_write (st64 ∅ 0 stage2_loc_a) 0 (0x1a4 + 4) 8;
  _ ← device_write (st64 ∅ 0 stage2_loc_b) 0 (0x1a4 + 12) 8;
  _ ← device_write timestamp 0 218 6;
  _ ← device_write orig_mbr 0 440 70;
  device_flush.

(** [main] once the device is open; [arg] is [argv[2]]. *)
Definition install (arg : option (list Z)) : io W () :=
  let force_mbr := bool_decide (arg = Some FORCE_MBR) in
  '(gpt, lb_size, gpt_header) ← probe_gpt force_mbr [512; 4096] ∅;
  if (gpt : bool) then
    secondary_gpt_header ← read_secondary lb_size gpt_header;
    '(stage2_loc_a, stage2_loc_b) ←
      match arg with
      | Some arg => partition_location lb_size gpt_header arg
      | None => embed lb_size gpt_header secondary_gpt_header
      end;
    write_stages stage2_loc_a stage2_loc_b
  else
    mbr ← check_mbr force_mbr;
    if (mbr : bool) then write_stages mbr_location.1 mbr_location.2 else io_fail.

End main.

(** The exit status, and the device afterwards; [None] cannot be opened. *)
Definition main (bootloader_img : mem) (alloc : Z → bool) (argv : list (list Z)) (dev : option file) :
    outcome (Z * option file) :=
  if Z.of_nat (length argv) <? 2 then Done (1, dev)
  else
    match dev with
    | None => Done (1, None)
    | Some f =>
        '(r, s) ← (_ ← device_init alloc; install bootloader_img alloc (argv !! 2%nat)) (disk_opened f);
        Done (match r with Some _ => 0 | None => 1 end, Some (device s))
    end.

(** ** On an array of bytes *)

Create HintDb installer.
#[export] Hint Resolve sim_ret sim_fail sim_check u64_range : installer.

(** One step of [main] on the device and on the array. *)
Ltac sim_step :=
  lazymatch goal with
  | |- sim _ _ (if ?b then _ else _) _ => destruct b
  | |- sim _ _ (let '(_, _) := ?p in _) _ => destruct p
  | |- sim _ _ (device_read _ _ _) _ => apply sim_read; first [apply u64_range | lia]
  | |- sim _ _ (device_write _ _ _ _) _ => apply sim_write; first [apply u64_range | lia]
  | |- sim _ _ (for_io _ _ _ _) _ => apply sim_for; intros ? ?
  | |- sim _ _ (_ ≫= _) _ => eapply sim_bind; [|intros ?]
  | |- _ => solve [auto with installer]
  end.

Section simulation.
Context (bootloader_img : mem).
Context (alloc : Z → bool).

Lemma sim_lift {A} (R : disk → flat → Prop) (o : outcome A) : sim R R (io_lift o) (io_lift o).
Proof. intros s t Hst. unfold io_lift. by destruct o. Qed.

Lemma probe_gpt_sim force l header :
  Forall (λ g, 0 ≤ g < 2 ^ 64) l → sim tracks tracks (probe_gpt force l header) (probe_gpt force l header).
Proof.
  intros Hl. revert header. induction Hl as [|g l Hg Hl IH]; intros header; cbn [probe_gpt]; [apply sim_ret|].
  repeat sim_step.
Qed.

Lemma check_hint_sim n loc bad fixed n_fix force st : 0 ≤ loc < 2 ^ 64 →
  sim tracks tracks (check_hint n loc bad fixed n_fix force st) (check_hint n loc bad fixed n_fix force st).
Proof. intros Hloc. unfold check_hint. repeat sim_step. Qed.

Lemma check_mbr_sim force : sim tracks tracks (check_mbr force) (check_mbr force).
Proof.
  unfold check_mbr, check_u16, check_status, check_magic.
  repeat first [apply check_hint_sim; lia | sim_step].
Qed.

Lemma partition_location_sim lb header arg :
  sim tracks tracks (partition_location lb header arg) (partition_location lb header arg).
Proof. unfold partition_location. repeat first [apply sim_lift | sim_step]. Qed.

Lemma embed_sim lb header secondary : 0 ≤ lb < 2 ^ 64 →
  sim tracks tracks (embed alloc lb header secondary) (embed alloc lb header secondary).
Proof. intros Hlb. unfold embed, max_partition_entry_used, zero_entries. repeat sim_step. Qed.

Lemma write_stages_sim a b : 0 ≤ a < 2 ^ 64 → 0 ≤ b < 2 ^ 64 →
  sim tracks (λ s t, tracks s t ∧ stored s t) (write_stages bootloader_img a b) (write_stages bootloader_img a b).
Proof. intros Ha Hb. unfold write_stages. repeat first [apply sim_flush | sim_step]. Qed.

(** The locations are of 64 bits, and the size of a block is one of the guesses. *)
Lemma align_down_range x lb : 0 ≤ x < 2 ^ 64 → 0 ≤ align_down x lb < 2 ^ 64.
Proof. intros Hx. by apply land_range. Qed.

Definition u64_pair (l : Z * Z) : Prop := 0 ≤ l.1 < 2 ^ 64 ∧ 0 ≤ l.2 < 2 ^ 64.

Lemma partition_location_range lb header arg (t : flat) l t' :
  partition_location lb header arg t = Done (Some l, t') → u64_pair l.
Proof.
  unfold partition_location. intros (n & t1 & _ & H)%io_bind_inv. case_match; [done|].
  apply io_bind_inv in H as (e & t2 & _ & H). case_match; [done|]. injection H as <- _. split; cbn [fst snd]; [apply u64_range|].
  case_match; [apply align_down_range|]; apply u64_range.
Qed.

Lemma embed_range lb header secondary (t : flat) l t' :
  embed alloc lb header secondary t = Done (Some l, t') → u64_pair l.
Proof.
  unfold embed. intros (n & t1 & _ & H)%io_bind_inv. apply io_bind_inv in H as (? & t2 & _ & H). case_match; [done|].
  apply io_bind_inv in H as (? & t3 & _ & H). apply io_bind_inv in H as (? & t4 & _ & H). case_match; [done|].
  apply io_bind_inv in H as (? & t5 & _ & H). apply io_bind_inv in H as (? & t6 & _ & H).
  apply io_bind_inv in H as (? & t7 & _ & H). injection H as <- _. split; apply align_down_range, u64_range.
Qed.

Lemma probe_gpt_guess force l header (t : flat) lb h t' :
  probe_gpt force l header t = Done (Some (true, lb, h), t') → lb ∈ l.
Proof.
  revert header t. induction l as [|g l IH]; intros header t; cbn [probe_gpt]; [done|].
  intros (h1 & t1 & _ & H)%io_bind_inv. case_match.
  - case_match; [injection H as <- _ _; by left|]. apply io_bind_inv in H as (? & ? & _ & H). done.
  - right. by eapply IH.
Qed.

Lemma install_sim arg :
  sim tracks (λ s t, tracks s t ∧ stored s t) (install bootloader_img alloc arg) (install bootloader_img alloc arg).
Proof.
  unfold install. set (force := bool_decide _).
  apply (sim_bind_post (λ x, x.1.1 = true → 0 ≤ x.1.2 < 2 ^ 64) _ tracks).
  - apply probe_gpt_sim. repeat constructor; lia.
  - intros t [[[] lb] h] t' H; [|done]. intros _. apply probe_gpt_guess in H. cbn [fst snd] in *.
    apply list_elem_of_In in H as [<- | [<- | []]]; lia.
  - intros [[gpt lb] h] Hlb. cbn [fst snd] in Hlb. destruct gpt.
    + specialize (Hlb eq_refl). apply (sim_bind _ tracks); [unfold read_secondary; repeat sim_step|]. intros secondary.
      apply (sim_bind_post u64_pair _ tracks).
      * destruct arg; [apply partition_location_sim|by apply embed_sim].
      * intros t l t' H. destruct arg; [by eapply partition_location_range|by eapply embed_range].
      * intros [a b] [Ha Hb]. by apply write_stages_sim.
    + apply (sim_bind _ tracks); [apply check_mbr_sim|]. intros mbr. destruct mbr.
      * apply write_stages_sim; vm_compute; by split.
      * intros s t Ht. by apply (sim_fail s t Ht).
Qed.

(** *** Termination *)

Lemma sscanf_u32_ends l : sscanf_u32 l ≠ OutOfFuel.
Proof.
  unfold sscanf_u32. destruct (match skip_spaces l with 45 :: _ => _ | _ => _ end) as [negative [|c r]]; [done|].
  unfold check. by destruct (_ && _).
Qed.

Lemma steady_lift l : steady (io_lift (sscanf_u32 l)).
Proof.
  intros t. unfold io_lift. pose proof (sscanf_u32_ends l). by destruct (sscanf_u32 l).
Qed.

Ltac steady_step :=
  lazymatch goal with
  | |- steady (if ?b then _ else _) => destruct b
  | |- steady (let '(_, _) := ?p in _) => destruct p
  | |- steady (match ?x with Some _ => _ | None => _ end) => destruct x
  | |- steady (for_io _ _ _ _) => apply steady_for; intros ? ?
  | |- steady (_ ≫= _) => apply steady_bind; [|intros ?]
  | |- steady (io_lift _) => apply steady_lift
  | |- _ => solve [auto using @steady_ret, @steady_fail, steady_check, steady_read, steady_write, steady_flush]
  end.

Lemma probe_gpt_steady force l header : steady (probe_gpt force l header).
Proof. revert header. induction l as [|g l IH]; intros header; cbn [probe_gpt]; repeat steady_step. Qed.

Lemma install_steady arg : steady (install bootloader_img alloc arg).
Proof.
  unfold install, read_secondary, partition_location, embed, max_partition_entry_used, zero_entries, write_stages,
    check_mbr, check_u16, check_status, check_magic, check_hint.
  repeat first [apply probe_gpt_steady | steady_step].
Qed.

End simulation.

(** Run on a device of at least 512 bytes, the installer does what it does on
    the array of the device's bytes, and ends.  When it succeeds the device
    holds the array.  When it gives up the device holds it but for the one block
    in the cache, and all of it when that is clean. *)
Lemma main_on_array bootloader_img alloc argv f :
  alloc 512 = true → (2 ≤ length argv)%nat → 512 ≤ f_size f < 2 ^ 63 →
  match install bootloader_img alloc (argv !! 2%nat) (flat_of f) with
  | Done (r, t) => ∃ f', main bootloader_img alloc argv (Some f) =
        Done (match r with Some _ => 0 | None => 1 end, Some f') ∧ f_size f' = f_size f ∧
      match r with
      | Some _ => mem_eq (f_data f') (fl_data t)
      | None => (fl_dirty t = false → mem_eq (f_data f') (fl_data t)) ∧
          ∃ b, ∀ a, ¬ (b * 512 ≤ a < (b + 1) * 512) → ld8 (f_data f') a = ld8 (fl_data t) a
      end
  | Undefined => main bootloader_img alloc argv (Some f) = Undefined
  | OutOfFuel => False
  end.
Proof.
  intros Ha Hargs Hsz. unfold main. rewrite (proj2 (Z.ltb_ge _ _)) by lia.
  destruct (device_init_spec alloc f Ha ltac:(lia)) as (r & s & Hinit & _ & _ & Hs).
  rewrite (proj2 (Z.leb_le _ _)) in Hs by lia. destruct Hs as (-> & _ & Ht).
  rewrite (io_bind_run _ _ _ _ _ Hinit).
  pose proof (install_sim bootloader_img alloc (argv !! 2%nat) s (flat_of f) Ht) as Hsim.
  pose proof (install_steady bootloader_img alloc (argv !! 2%nat) (flat_of f)) as Hst.
  destruct (install _ _ _ s) as [[[[]|] s']| |], (install _ _ _ (flat_of f)) as [[[[]|] t]| |]; try done; do_bind;
    destruct Hst as [Hsize Hblock]; eexists; (split; [done|]).
  - destruct Hsim as (_ & _ & [Hfs Hmem]). split; [by rewrite Hfs, Hsize|done].
  - destruct Hsim as (Hfs & Hw & Hb). rewrite Hblock in Hb. split_and!; [by rewrite Hfs, Hsize|done|done].
Qed.

(** What [main] leaves, from what installing does on an array; a device too small
    for a block is refused. *)
Definition main_on_flat (bootloader_img : mem) (alloc : Z → bool) (argv : list (list Z)) (f : file) : outcome (option () * flat) :=
  if (Z.of_nat (length argv) <? 2) || (f_size f <? 512) then Done (None, flat_of f)
  else install bootloader_img alloc (argv !! 2%nat) (flat_of f).

(** C19: Whatever the device holds and the arguments are, the installer ends when
    there is memory for one block, and through its cache does what it does on the array of the device's bytes.  When it succeeds the device holds that array;
    when it gives up the device holds it but for the one block in the cache, and
    all of it when that is clean. *)
Theorem main_runs bootloader_img alloc argv f :
  alloc 512 = true → 0 ≤ f_size f < 2 ^ 63 →
  match main_on_flat bootloader_img alloc argv f with
  | Done (r, t) => ∃ f', main bootloader_img alloc argv (Some f) =
        Done (match r with Some _ => 0 | None => 1 end, Some f') ∧ f_size f' = f_size f ∧
      match r with
      | Some _ => mem_eq (f_data f') (fl_data t)
      | None => (fl_dirty t = false → mem_eq (f_data f') (fl_data t)) ∧
          ∃ b, ∀ a, ¬ (b * 512 ≤ a < (b + 1) * 512) → ld8 (f_data f') a = ld8 (fl_data t) a
      end
  | Undefined => main bootloader_img alloc argv (Some f) = Undefined
  | OutOfFuel => False
  end.
Proof.
  intros Ha Hsz. unfold main_on_flat. destruct (Z.ltb_spec (Z.of_nat (length argv)) 2) as [Hargs|Hargs]; cbn [orb].
  - exists f. unfold main. rewrite (proj2 (Z.ltb_lt _ 2)) by done. split_and!; [done|done|by intros _ x|by exists 0].
  - destruct (Z.ltb_spec (f_size f) 512) as [Hsmall|Hbig]; [|apply main_on_array; [done|lia|lia]].
    unfold main. rewrite (proj2 (Z.ltb_ge _ 2)) by done.
    destruct (device_init_spec alloc f Ha Hsz) as (r & s & Hinit & Hs & Hd & Hr).
    rewrite (proj2 (Z.leb_gt _ _)) in Hr by done. subst r. rewrite (io_bind_run _ _ _ _ _ Hinit).
    exists (device s). split_and!; [done|done|by intros _ x; rewrite Hd|]. exists 0. intros x _. by rewrite Hd.
Qed.

(** A device that holds nothing is left alone. *)
Lemma main_runs_witness : ∃ f',
  main ∅ (λ _, true) [[]; []] (Some (File 8192 ∅ 0)) = Done (1, Some f') ∧ mem_eq (f_data f') ∅.
Proof.
  assert (Hr : main_on_flat ∅ (λ _, true) [[]; []] (File 8192 ∅ 0) = Done (None, Flat 8192 512 ∅ false)) by reflexivity.
  pose proof (main_runs ∅ (λ _, true) [[]; []] (File 8192 ∅ 0) eq_refl ltac:(cbn; lia)) as H. rewrite Hr in H.
  destruct H as (f' & Hm & _ & He & _). exists f'. split; [exact Hm|]. by apply He.
Defined.
