(* ===== verification/InstallerMbr.v ===== *)
(** * Installing with a master boot record

    What [main] of [src/limine/limine-install.c] leaves on a device without a
    GUID partition table: the boot loader and the partition table as it was, or
    nothing new; or, when the device is too small, no partition table. *)
From stdpp Require Import base list gmap.
From S2P Require Import Prelude Memory Layout Crc32 BlockDevice Installer.
Open Scope Z_scope.

(** ** Steps on the array *)

Lemma reachable_le t loc count : loc + count ≤ fl_limit t → reachable t loc count = true.
Proof. intros H. unfold reachable. rewrite (proj2 (Z.leb_le _ (fl_limit t)) H). apply orb_true_r. Qed.

Lemma limit_set_data t m : fl_limit (set_data t m) = fl_limit t.
Proof. done. Qed.

Lemma flat_read_run {A} buffer loc count (f : mem → io flat A) t :
  loc + count ≤ fl_limit t →
  (device_read buffer loc count ≫= f) t = f (memcpy buffer 0 (fl_data t) loc (Z.to_nat count)) t.
Proof. intros Hr. unfold mbind, io_bind. cbn. unfold flat_read. by rewrite reachable_le. Qed.

Lemma flat_write_run {A} buffer start loc count (f : () → io flat A) t :
  loc + count ≤ fl_limit t →
  (device_write buffer start loc count ≫= f) t =
    f () (set_data t (memcpy (fl_data t) loc buffer start (Z.to_nat count))).
Proof. intros Hr. unfold mbind, io_bind. cbn. unfold flat_write. by rewrite reachable_le. Qed.

Lemma flat_write_fails {A} buffer start loc count (f : () → io flat A) t :
  0 < count → fl_limit t < loc + count →
  (device_write buffer start loc count ≫= f) t =
    Done (None, set_clean (set_data t (memcpy (fl_data t) loc buffer start (Z.to_nat (fl_limit t - loc))))).
Proof.
  intros Hc Hl. unfold mbind, io_bind. cbn. unfold flat_write, reachable.
  by rewrite (proj2 (Z.leb_gt count 0)), (proj2 (Z.leb_gt (loc + count) (fl_limit t))) by lia.
Qed.

(** Run the reads and writes that stay on the device. *)
Ltac flat_run1 :=
  first [rewrite flat_read_run by (rewrite ?limit_set_data; lia) | rewrite flat_write_run by (rewrite ?limit_set_data; lia)].
Ltac flat_run := repeat flat_run1.

(** A read object holds what is on the device. *)
Lemma ld_memcpy_0 n buffer m loc k o :
  0 ≤ o → o + Z.of_nat n ≤ Z.of_nat k → ld n (memcpy buffer 0 m loc k) o = ld n m (loc + o).
Proof.
  intros Ho Hk. apply ld_copied. intros i Hi. rewrite memcpy_in by lia. f_equal. lia.
Qed.

Lemma ld8_memcpy_0 buffer m loc k o :
  0 ≤ o < Z.of_nat k → ld8 (memcpy buffer 0 m loc k) o = ld8 m (loc + o).
Proof. intros Ho. rewrite memcpy_in by lia. f_equal. lia. Qed.

Lemma bytes_at_copied m a m' a' n : copied m a m' a' (Z.of_nat n) → bytes_at m' a' n = bytes_at m a n.
Proof.
  revert a a'. induction n as [|n IH]; intros a a' Hc; [done|]. cbn [bytes_at].
  rewrite (IH (a + 1) (a' + 1)) by (eapply copied_sub; [exact Hc|lia|lia]).
  specialize (Hc 0 ltac:(lia)). rewrite !Z.add_0_r in Hc. by rewrite Hc.
Qed.

Lemma bytes_at_app m a n k : bytes_at m a (n + k) = bytes_at m a n ++ bytes_at m (a + Z.of_nat n) k.
Proof.
  revert a. induction n as [|n IH]; intros a; [by rewrite Z.add_0_r|]. cbn [bytes_at Nat.add app].
  rewrite IH. do 3 f_equal. lia.
Qed.

Lemma length_bytes_at m a n : length (bytes_at m a n) = n.
Proof. revert a. induction n as [|n IH]; intros a; [done|]. cbn. by rewrite IH. Qed.

(** ** Both stages *)

Definition stage2_size_c : Z := u64 (stage2_size - stage2_size_a).

Lemma stage_sizes : stage2_size = 21677 ∧ stage2_size_a = 11264 ∧ stage2_size_b = 10752 ∧ stage2_size_c = 10413.
Proof. vm_compute. done. Qed.

(** The boot sector, but for the place of the second stage and what belongs to
    the partition table, and the two halves. *)
Record stages_written (img m : mem) (a b : Z) (m' : mem) : Prop := {
  sw_boot : ∀ x, 0 ≤ x < 420 ∨ 510 ≤ x < 512 → ¬ (218 ≤ x < 224) → ld8 m' x = ld8 img x;
  sw_table : ∀ x, 218 ≤ x < 224 ∨ 440 ≤ x < 510 → ld8 m' x = ld8 m x;
  sw_place : ld16 m' 420 = stage2_size_a ∧ ld16 m' 422 = stage2_size_b ∧ ld64 m' 424 = a ∧ ld64 m' 432 = b;
  sw_first : copied img 512 m' a stage2_size_a;
  sw_second : copied img (512 + stage2_size_a) m' b stage2_size_c;
}.

(** Elsewhere nothing changes. *)
Definition stages_only (m : mem) (a b : Z) (m' : mem) : Prop :=
  ∀ x, ¬ (0 ≤ x < 512) → ¬ (a ≤ x < a + stage2_size_a) → ¬ (b ≤ x < b + stage2_size_c) → ld8 m' x = ld8 m x.

(** Places for the halves: past the boot sector, apart and on the device. *)
Record places_ok (limit a b : Z) : Prop := {
  pl_first : 512 ≤ a ∧ a + stage2_size_a ≤ limit;
  pl_second : 512 ≤ b ∧ b + stage2_size_c ≤ limit;
  pl_apart : a + stage2_size_a ≤ b ∨ b + stage2_size_c ≤ a;
}.

(** Follow a byte through the copies. *)
Ltac past := repeat (rewrite memcpy_out by lia).
Ltac into := past; rewrite memcpy_in by lia.

Lemma write_stages_run img a b (t : flat) :
  places_ok (fl_limit t) a b → fl_limit t < 2 ^ 64 →
  ∃ t', write_stages img a b t = Done (Some (), t') ∧ stages_written img (fl_data t) a b (fl_data t') ∧
    stages_only (fl_data t) a b (fl_data t').
Proof.
  intros [Ha Hb Hab] Hlim. destruct stage_sizes as (Hs & Hsa & Hsb & Hsc). fold stage2_size_c in *.
  unfold write_stages. fold stage2_size_c. rewrite Hsa, Hsb, Hsc in *.
  flat_run. eexists. split; [reflexivity|]. cbn [fl_data set_data set_clean].
  unfold stages_only. split; [split|]; rewrite ?Hsa, ?Hsb, ?Hsc.
  - intros x Hx Hn. into. f_equal. lia.
  - intros x [Hx|Hx]; into; rewrite memcpy_in by lia; f_equal; lia.
  - assert (Hfield : ∀ n v o m1, o + Z.of_nat n ≤ 440 → 420 ≤ o →
      (∀ i, 0 ≤ i < Z.of_nat n → ld8 m1 (o + i) = ld8 (st n ∅ 0 v) (0 + i)) → 0 ≤ v < 2 ^ (8 * Z.of_nat n) →
      ld n m1 o = v).
    { intros n v o m1 _ _ Hc Hv. rewrite (ld_copied n (st n ∅ 0 v) 0) by exact Hc. rewrite ld_st_same. by apply Z.mod_small. }
    split_and!; apply Hfield; try lia; intros i Hi; past;
      [apply (memcpy_copied _ (420 + 0) _ 0 2 i)|apply (memcpy_copied _ (420 + 2) _ 0 2 i)
      |apply (memcpy_copied _ (420 + 4) _ 0 8 i)|apply (memcpy_copied _ (420 + 12) _ 0 8 i)]; lia.
  - intros i Hi. into. f_equal. lia.
  - intros i Hi. into. f_equal. lia.
  - intros x H1 H2 H3. by past.
Qed.

Lemma stages_written_eq img m a b m1 m2 : stages_written img m a b m1 → mem_eq m2 m1 → stages_written img m a b m2.
Proof.
  intros [H1 H2 (H3 & H4 & H5 & H6) H7 H8] He.
  split; [| | rewrite !He; by split_and! | |]; intros x; intros; rewrite (He _); auto.
Qed.

(** Without room for the second half, the boot sector is all the image's. *)
Lemma write_stages_short img a b (t : flat) :
  512 ≤ a → fl_limit t < b + stage2_size_c → 512 ≤ fl_limit t < 2 ^ 63 → 512 ≤ b →
  ∃ t', write_stages img a b t = Done (None, t') ∧ fl_dirty t' = false ∧ copied img 0 (fl_data t') 0 512.
Proof.
  intros Ha Hb Hl Hb'. destruct stage_sizes as (Hs & Hsa & Hsb & Hsc).
  unfold write_stages. fold stage2_size_c. rewrite Hsa, Hsb, Hsc in *. do 3 flat_run1.
  set (t1 := set_data t _). assert (H1 : ∀ i, 0 ≤ i < 512 → ld8 (fl_data t1) i = ld8 img i).
  { intros i Hi. cbn [t1 fl_data set_data]. rewrite memcpy_in by lia. f_equal. lia. }
  assert (Hl1 : fl_limit t1 = fl_limit t) by done. clearbody t1.
  destruct (Z.le_gt_cases (a + 11264) (fl_limit t)) as [Hfit|Hno].
  - flat_run1. rewrite flat_write_fails by (rewrite ?limit_set_data; lia).
    eexists. split; [done|]. split; [done|]. intros i Hi. cbn [fl_data set_data set_clean]. past. by apply H1.
  - rewrite flat_write_fails by lia.
    eexists. split; [done|]. split; [done|]. intros i Hi. cbn [fl_data set_data set_clean]. past. by apply H1.
Qed.

(** What the boot sector leads to: the two halves, one after the other. *)
Definition stage2_of (m : mem) : list Z :=
  bytes_at m (ld64 m 424) (Z.to_nat (ld16 m 420)) ++ bytes_at m (ld64 m 432) (Z.to_nat (ld16 m 422)).

Lemma stages_written_found img m a b m' :
  stages_written img m a b m' →
  take (Z.to_nat stage2_size) (stage2_of m') = bytes_at img 512 (Z.to_nat stage2_size).
Proof.
  intros [_ _ (Ha & Hb & Hla & Hlb) H1 H2]. unfold stage2_of. rewrite Ha, Hb, Hla, Hlb.
  destruct stage_sizes as (Hs & Hsa & Hsb & Hsc). rewrite Hs, Hsb, ?Hsa, Hsc in *.
  replace (Z.to_nat 10752) with (Z.to_nat 10413 + Z.to_nat 339)%nat by lia.
  replace (Z.to_nat 21677) with (Z.to_nat 11264 + Z.to_nat 10413)%nat by lia.
  rewrite !bytes_at_app, !Z2Nat.id, app_assoc by lia.
  rewrite take_app_le by (rewrite length_app, !length_bytes_at; lia).
  rewrite take_ge by (rewrite length_app, !length_bytes_at; lia).
  rewrite (bytes_at_copied img 512 m' a) by (rewrite Z2Nat.id by lia; exact H1).
  by rewrite (bytes_at_copied img (512 + 11264) m' b) by (rewrite Z2Nat.id by lia; exact H2).
Qed.

(** ** What is there *)

Definition status_ok (v : Z) : bool := (v =? 0) || (v =? 0x80).

(** The master boot records [main] installs to. *)
Definition valid_mbr (m : mem) : bool :=
  (ld16 m 218 =? 0) && ((ld16 m 444 =? 0) || (ld16 m 444 =? 0x5a5a)) && (ld16 m 510 =? 0xaa55) &&
  status_ok (ld8 m 446) && status_ok (ld8 m 462) && status_ok (ld8 m 478) && status_ok (ld8 m 494) &&
  negb (bool_decide (bytes_at m 4 8 = ECH_FS)) && negb (bool_decide (bytes_at m 54 3 = FAT)) &&
  negb (ld16 m 1080 =? 0xef53).

(** The size of its blocks, when there is a GUID partition table. *)
Definition gpt_block (m : mem) : option Z :=
  if bool_decide (bytes_at m 512 8 = EFI_PART) then Some 512
  else if bool_decide (bytes_at m 4096 8 = EFI_PART) then Some 4096 else None.

Lemma starts_with_memcpy buffer m loc k l :
  (length l ≤ k)%nat → starts_with (memcpy buffer 0 m loc k) l = bool_decide (bytes_at m loc (length l) = l).
Proof.
  intros Hk. unfold starts_with. rewrite (bytes_at_copied m loc); [done|].
  intros i Hi. rewrite memcpy_in by lia. f_equal. lia.
Qed.

Lemma check_hint_run {A} n loc bad fixed n_fix hint mbr (f : mem * bool → io flat A) t :
  loc + n ≤ fl_limit t →
  let hint' := memcpy hint 0 (fl_data t) loc (Z.to_nat n) in
  (check_hint n loc bad fixed n_fix false (hint, mbr) ≫= f) t = f (hint', mbr && negb (bad hint')) t.
Proof.
  intros Hl hint'. unfold check_hint, mbind, io_bind. cbn [negb].
  pose proof (flat_read_run hint loc n (λ h, if bad h then mret (h, false) else mret (h, mbr)) t Hl) as Hr.
  unfold mbind, io_bind in Hr. rewrite Hr. unfold hint'. by destruct (bad _), mbr.
Qed.

Lemma check_mbr_run (t : flat) : 1082 ≤ fl_limit t → check_mbr false t = Done (Some (valid_mbr (fl_data t)), t).
Proof.
  intros Hl. unfold check_mbr, check_u16, check_status, check_magic.
  do 10 (rewrite check_hint_run by (cbn [length ECH_FS FAT]; lia)). cbv zeta. unfold mret, io_ret. do 3 f_equal.
  rewrite !starts_with_memcpy by (cbn [length ECH_FS FAT]; lia).
  rewrite !ld_memcpy_0, !ld8_memcpy_0 by lia. unfold valid_mbr, status_ok. cbn [length ECH_FS FAT].
  rewrite !Z.add_0_r, !negb_andb, !negb_involutive. cbn [andb]. rewrite ?andb_assoc. reflexivity.
Qed.

Lemma probe_gpt_run (t : flat) :
  4192 ≤ fl_limit t →
  ∃ h, probe_gpt false [512; 4096] ∅ t =
      Done (Some (match gpt_block (fl_data t) with Some lb => (true, lb, h) | None => (false, 0, h) end), t) ∧
    ∀ lb, gpt_block (fl_data t) = Some lb → copied (fl_data t) lb h 0 HEADER.
Proof.
  intros Hl. change HEADER with 96. unfold gpt_block. cbn [probe_gpt]. change HEADER with 96. cbn [negb].
  rewrite flat_read_run, starts_with_memcpy by (cbn [length EFI_PART]; lia). cbn [length EFI_PART].
  case_bool_decide.
  - eexists. split; [done|]. intros lb [= <-]. apply (memcpy_copied _ 0 _ 512 (Z.to_nat 96)).
  - rewrite flat_read_run, starts_with_memcpy by (cbn [length EFI_PART]; lia). cbn [length EFI_PART].
    case_bool_decide; eexists; (split; [done|]); [|done].
    intros lb [= <-]. apply (memcpy_copied _ 0 _ 4096 (Z.to_nat 96)).
Qed.

(** ** Installing *)

Section mbr.
Context (img : mem) (alloc : Z → bool) (argv : list (list Z)) (f : file).
Hypothesis alloc_block : alloc 512 = true.
Hypothesis two_args : (2 ≤ length argv)%nat.
Hypothesis not_forced : argv !! 2%nat ≠ Some FORCE_MBR.
Hypothesis no_gpt : gpt_block (f_data f) = None.

Lemma install_mbr_run :
  4608 ≤ f_size f →
  install img alloc (argv !! 2%nat) (flat_of f) =
    if valid_mbr (f_data f) then write_stages img 512 11776 (flat_of f) else Done (None, flat_of f).
Proof.
  intros Hs. assert (Hl : 4608 ≤ fl_limit (flat_of f)) by (unfold fl_limit; cbn [fl_size fl_block flat_of]; dlia).
  unfold install. rewrite bool_decide_eq_false_2 by done.
  destruct (probe_gpt_run (flat_of f)) as (h & Hp & _); [lia|]. cbn [fl_data flat_of] in Hp. rewrite no_gpt in Hp.
  rewrite (io_bind_run _ _ _ _ _ Hp). pose proof (check_mbr_run (flat_of f) ltac:(lia)) as Hm. cbn [fl_data flat_of] in Hm.
  rewrite (io_bind_run _ _ _ _ _ Hm). change mbr_location.1 with 512. change mbr_location.2 with 11776.
  by destruct (valid_mbr (f_data f)).
Qed.

Lemma main_mbr_run :
  valid_mbr (f_data f) = true → 22528 ≤ f_size f < 2 ^ 63 →
  ∃ f', main img alloc argv (Some f) = Done (0, Some f') ∧ f_size f' = f_size f ∧
    stages_written img (f_data f) 512 11776 (f_data f') ∧ stages_only (f_data f) 512 11776 (f_data f').
Proof.
  intros Hv Hs. pose proof (main_on_array img alloc argv f alloc_block two_args ltac:(lia)) as Hrun.
  rewrite install_mbr_run, Hv in Hrun by lia.
  assert (Hl : 22528 ≤ fl_limit (flat_of f) < 2 ^ 64) by (unfold fl_limit; cbn [fl_size fl_block flat_of]; dlia).
  destruct stage_sizes as (_ & Hsa & _ & Hsc).
  destruct (write_stages_run img 512 11776 (flat_of f)) as (t' & Hw & Hst & Hrest); [split; rewrite ?Hsa, ?Hsc; lia|lia|].
  rewrite Hw in Hrun. destruct Hrun as (f' & Hm & Hsz & Heq). exists f'.
  split_and!; [done|done|by eapply stages_written_eq|]. intros x H1 H2 H3. rewrite (Heq x). by apply Hrest.
Qed.

(** C21: A device with a master boot record and room for both stages gets them, and
    what its boot sector leads to is the second stage.  The partition table and
    all that lies past the stages stay as they were. *)
Theorem main_mbr_spec :
  valid_mbr (f_data f) = true → 22528 ≤ f_size f < 2 ^ 63 →
  ∃ f', main img alloc argv (Some f) = Done (0, Some f') ∧ f_size f' = f_size f ∧
    stages_written img (f_data f) 512 11776 (f_data f') ∧
    (∀ x, 22189 ≤ x → ld8 (f_data f') x = ld8 (f_data f) x) ∧
    take (Z.to_nat stage2_size) (stage2_of (f_data f')) = bytes_at img 512 (Z.to_nat stage2_size).
Proof.
  intros Hv Hs. destruct (main_mbr_run Hv Hs) as (f' & Hm & Hsz & Hst & Hrest). exists f'.
  split_and!; [done..| |by eapply stages_written_found].
  destruct stage_sizes as (_ & Hsa & _ & Hsc). intros x Hx. apply Hrest; rewrite ?Hsa, ?Hsc; lia.
Qed.

(** A device without a partition table is refused, and stays as it was. *)
Theorem main_refuses :
  valid_mbr (f_data f) = false → 4608 ≤ f_size f < 2 ^ 63 →
  ∃ f', main img alloc argv (Some f) = Done (1, Some f') ∧ f_size f' = f_size f ∧ mem_eq (f_data f') (f_data f).
Proof.
  intros Hv Hs. pose proof (main_on_array img alloc argv f alloc_block two_args ltac:(lia)) as Hrun.
  rewrite install_mbr_run, Hv in Hrun by lia. destruct Hrun as (f' & Hm & Hsz & Heq & _). exists f'. auto.
Qed.

(** C24: When the device, of 4608 bytes or more, is too small for the second
    stage (less than 22016), [main] gives up after the boot sector has been
    written and before the partition table has been put back: the whole sector
    is the image's. *)
Theorem main_loses_table :
  valid_mbr (f_data f) = true → 4608 ≤ f_size f < 22016 →
  ∃ f', main img alloc argv (Some f) = Done (1, Some f') ∧ copied img 0 (f_data f') 0 512.
Proof.
  intros Hv Hs. pose proof (main_on_array img alloc argv f alloc_block two_args ltac:(lia)) as Hrun.
  rewrite install_mbr_run, Hv in Hrun by lia.
  destruct (write_stages_short img 512 11776 (flat_of f)) as (t' & Hw & Hd & Hboot).
  - lia.
  - unfold fl_limit; cbn [fl_size fl_block flat_of]. destruct stage_sizes as (_ & _ & _ & ->). dlia.
  - unfold fl_limit; cbn [fl_size fl_block flat_of]. dlia.
  - lia.
  - rewrite Hw in Hrun. destruct Hrun as (f' & Hm & _ & Heq & _). exists f'. split; [done|].
    intros i Hi. rewrite (Heq Hd). by apply Hboot.
Qed.

End mbr.

(** ** When the user insists *)

(** After a check at [loc] what it looks at has [good], and nothing past [k]
    bytes has changed. *)
Definition checked {A} (step : io flat A) (f : mem * bool → io flat A) (mbr : bool) (loc k : Z) (good : mem → Prop)
    (t : flat) : Prop :=
  ∃ hint t', step t = f (hint, mbr) t' ∧ fl_size t' = fl_size t ∧ fl_block t' = fl_block t ∧ good (fl_data t') ∧
    same_outside loc (loc + k) (fl_data t) (fl_data t').

Lemma check_hint_forced {A} n loc bad fixed n_fix hint mbr (f : mem * bool → io flat A) good t :
  0 ≤ n → 0 ≤ n_fix → loc + n ≤ fl_limit t → loc + n_fix ≤ fl_limit t →
  (bad (memcpy hint 0 (fl_data t) loc (Z.to_nat n)) = false → good (fl_data t)) →
  (∀ h, good (memcpy (fl_data t) loc (fixed h) 0 (Z.to_nat n_fix)) ∨ h ≠ memcpy hint 0 (fl_data t) loc (Z.to_nat n)) →
  checked (check_hint n loc bad fixed n_fix true (hint, mbr) ≫= f) f mbr loc n_fix good t.
Proof.
  intros Hn Hf Hl Hl2 Hgood Hfixed. unfold checked, check_hint. cbn [negb]. set (h := memcpy hint 0 _ _ _) in *.
  destruct (bad h) eqn:Hbad.
  - eexists _, _. split.
    + unfold mbind at 1, io_bind at 1. rewrite flat_read_run by lia. fold h. rewrite Hbad, flat_write_run by lia. done.
    + cbn [fl_data fl_size fl_block set_data]. split_and!; [done|done| |].
      * destruct (Hfixed h); [done|congruence].
      * intros x Hx. apply memcpy_out. lia.
  - eexists h, t. split; [|split_and!; [done|done|by apply Hgood|by intros x]].
    unfold mbind at 1, io_bind at 1. rewrite flat_read_run by lia. fold h. by rewrite Hbad.
Qed.

Lemma check_u16_forced {A} loc bad fixed hint mbr (f : mem * bool → io flat A) t :
  loc + 2 ≤ fl_limit t → 0 ≤ fixed < 2 ^ 16 → bad fixed = false →
  checked (check_u16 loc bad fixed true (hint, mbr) ≫= f) f mbr loc 2 (λ m, bad (ld16 m loc) = false) t.
Proof.
  intros Hl Hf Hb. apply check_hint_forced; [lia..| |].
  - rewrite ld_memcpy_0 by lia. by rewrite Z.add_0_r.
  - intros h. left. rewrite (ld_copied 2 (st16 h 0 fixed) 0) by apply (memcpy_copied _ loc _ 0 (Z.to_nat 2)).
    rewrite (ld_st_same 2). by rewrite Z.mod_small.
Qed.

Lemma check_status_forced {A} loc hint mbr (f : mem * bool → io flat A) t :
  loc + 1 ≤ fl_limit t →
  checked (check_status loc true (hint, mbr) ≫= f) f mbr loc 1 (λ m, status_ok (ld8 m loc) = true) t.
Proof.
  intros Hl. apply check_hint_forced; [lia..| |].
  - rewrite ld8_memcpy_0 by lia. rewrite Z.add_0_r. unfold status_ok. by destruct (_ =? 0), (_ =? 0x80).
  - intros h. left. rewrite memcpy_in by lia. rewrite Z.sub_diag, Z.add_0_r.
    destruct (negb _); unfold st; rewrite !ld8_st8; reflexivity.
Qed.

Lemma check_magic_forced {A} loc c magic zeros hint mbr (f : mem * bool → io flat A) t :
  c ≠ 0 → 0 < zeros → Z.of_nat (length (c :: magic)) ≤ zeros → loc + zeros ≤ fl_limit t →
  checked (check_magic loc (c :: magic) zeros true (hint, mbr) ≫= f) f mbr loc zeros
    (λ m, bool_decide (bytes_at m loc (length (c :: magic)) = c :: magic) = false) t.
Proof.
  intros Hc Hz Hlen Hl. apply check_hint_forced; [lia..| |].
  - rewrite starts_with_memcpy by lia. done.
  - intros h. left. apply bool_decide_eq_false. cbn [length bytes_at]. intros [= H _]. apply Hc. rewrite <-H.
    rewrite memcpy_in by lia. rewrite Z.sub_diag. apply memset_inside. lia.
Qed.

(** What the checks may change. *)
Definition in_checks (x : Z) : Prop :=
  4 ≤ x < 12 ∨ 54 ≤ x < 59 ∨ 218 ≤ x < 220 ∨ 444 ≤ x < 447 ∨ x = 462 ∨ x = 478 ∨ x = 494 ∨ 510 ≤ x < 512 ∨ 1080 ≤ x < 1082.

(** The record after some of the checks: what they looked at is [good]. *)
Definition checks_done (t0 : flat) (good : mem → Prop) (t : flat) : Prop :=
  fl_size t = fl_size t0 ∧ fl_block t = fl_block t0 ∧ good (fl_data t) ∧
  ∀ x, ¬ in_checks x → ld8 (fl_data t) x = ld8 (fl_data t0) x.

Lemma checked_next {A} (step : io flat A) f mbr loc k good old t0 t (R : outcome (option A * flat) → Prop) :
  checks_done t0 old t → checked step f mbr loc k good t → (∀ x, loc ≤ x < loc + k → in_checks x) →
  (∀ m m', old m → same_outside loc (loc + k) m m' → old m') →
  (∀ hint t', checks_done t0 (λ m, old m ∧ good m) t' → R (f (hint, mbr) t')) → R (step t).
Proof.
  intros (Hs & Hb & Ho & Hsame) (hint & t' & -> & Hs' & Hb' & Hg & Hout) Hin Hold HR. apply HR.
  split_and!; [by rewrite Hs'|by rewrite Hb'| |done|].
  - by eapply Hold.
  - intros x Hx. rewrite (Hout x), Hsame; [done..|]. intros H. by apply Hx, Hin.
Qed.

Lemma checks_done_limit t0 good t : checks_done t0 good t → fl_limit t = fl_limit t0.
Proof. intros (Hs & Hb & _). unfold fl_limit. by rewrite Hs, Hb. Qed.

Lemma bytes_at_outside lo hi m m' a n :
  same_outside lo hi m m' → a + Z.of_nat n ≤ lo ∨ hi ≤ a → bytes_at m' a n = bytes_at m a n.
Proof. intros Hs Ha. apply bytes_at_copied. intros i Hi. apply Hs. lia. Qed.

(** What a check looks at is apart from what another may change. *)
Ltac apart :=
  intros ? ? ? ?; cbv beta in *; destruct_and?; split_and?; try exact I;
  match goal with
  | Hs : same_outside _ _ _ ?m' |- context [ld ?n ?m' ?a] => by rewrite (ld_same_outside n _ _ _ _ a Hs) by (cbn; lia)
  | Hs : same_outside _ _ _ ?m' |- context [ld8 ?m' ?a] => by rewrite (Hs a) by lia
  | Hs : same_outside _ _ _ ?m' |- context [bytes_at ?m' ?a ?n] => by rewrite (bytes_at_outside _ _ _ _ a n Hs) by (cbn; lia)
  end.

Ltac next_check Hd lem :=
  let hint := fresh "hint" in let t' := fresh "t" in let Hd' := fresh "Hd" in
  pose proof (checks_done_limit _ _ _ Hd);
  eapply (checked_next _ _ _ _ _ _ _ _ _ (λ r, ∃ t', r = Done (Some true, t') ∧ _)); [exact Hd|apply lem; first [done|cbn; lia]|unfold in_checks; lia|apart|];
  clear Hd; intros hint t' Hd'.

(** Then every check passes, and the record is one [main] installs to. *)
Lemma check_mbr_forced (t : flat) : 1082 ≤ fl_limit t →
  ∃ t', check_mbr true t = Done (Some true, t') ∧ checks_done t (λ m, valid_mbr m = true) t'.
Proof.
  intros Hl. assert (Hd : checks_done t (λ _, True) t) by done. unfold check_mbr.
  do 3 (next_check Hd (@check_u16_forced bool); rename Hd0 into Hd).
  do 4 (next_check Hd (@check_status_forced bool); rename Hd0 into Hd).
  do 2 (next_check Hd (@check_magic_forced bool); rename Hd0 into Hd).
  next_check Hd (@check_u16_forced bool).
  eexists. split; [reflexivity|]. destruct Hd0 as (Hs & Hb & Hg & Hsame). split_and!; [done|done| |done].
  cbv beta in Hg. destruct_and? Hg. unfold valid_mbr. change ECH_FS with [95; 69; 67; 72; 95; 70; 83; 95].
  change FAT with [70; 65; 84].
  repeat match goal with H : negb _ && negb _ = false |- _ => rewrite <-negb_orb in H end.
  repeat match goal with H : negb _ = false |- _ => apply negb_false_iff in H end.
  cbn [length] in *. by repeat match goal with H : _ = _ :> bool |- _ => rewrite H; clear H end.
Qed.

(** The header of a GUID partition table is wiped. *)
Definition in_header (m : mem) (x : Z) : Prop :=
  match gpt_block m with Some lb => lb ≤ x < lb + HEADER | None => False end.

Lemma probe_gpt_forced (t : flat) : 4192 ≤ fl_limit t →
  ∃ lb h t', probe_gpt true [512; 4096] ∅ t = Done (Some (false, lb, h), t') ∧ fl_size t' = fl_size t ∧
    fl_block t' = fl_block t ∧ ∀ x, ¬ in_header (fl_data t) x → ld8 (fl_data t') x = ld8 (fl_data t) x.
Proof.
  intros Hl. unfold in_header, gpt_block. cbn [probe_gpt]. change HEADER with 96. cbn [negb].
  rewrite flat_read_run, starts_with_memcpy by (cbn [length EFI_PART]; lia). cbn [length EFI_PART].
  case_bool_decide.
  - rewrite flat_write_run by lia. eexists _, _, _. do 3 (split; [done|]). intros x Hx. apply memcpy_out. lia.
  - rewrite flat_read_run, starts_with_memcpy by (cbn [length EFI_PART]; lia). cbn [length EFI_PART].
    case_bool_decide; [rewrite flat_write_run by lia|]; eexists _, _, _; do 3 (split; [done|]); intros x Hx; [|done].
    apply memcpy_out. lia.
Qed.

(** C22: With [--force-mbr] both stages go wherever a master boot record has them,
    whatever the device held: the table that is put back is the old one after
    the changes that make it pass the checks. *)
Theorem main_force_spec img alloc argv f :
  alloc 512 = true → argv !! 2%nat = Some FORCE_MBR → 22528 ≤ f_size f < 2 ^ 63 →
  ∃ m f', main img alloc argv (Some f) = Done (0, Some f') ∧ f_size f' = f_size f ∧ valid_mbr m = true ∧
    (∀ x, ¬ in_checks x → ¬ in_header (f_data f) x → ld8 m x = ld8 (f_data f) x) ∧
    stages_written img m 512 11776 (f_data f') ∧ ∀ x, 22189 ≤ x → ld8 (f_data f') x = ld8 (f_data f) x.
Proof.
  intros Ha Hforce Hs. assert (Hl : 22528 ≤ fl_limit (flat_of f) < 2 ^ 64) by (unfold fl_limit; cbn [fl_size fl_block flat_of]; dlia).
  assert (Hargs : (2 ≤ length argv)%nat) by (apply lookup_lt_Some in Hforce; lia).
  pose proof (main_on_array img alloc argv f Ha Hargs ltac:(lia)) as Hrun. unfold install in Hrun.
  rewrite bool_decide_eq_true_2 in Hrun by done.
  destruct (probe_gpt_forced (flat_of f)) as (lb & h & t1 & Hp & Hs1 & Hb1 & Hm1); [lia|].
  rewrite (io_bind_run _ _ _ _ _ Hp) in Hrun.
  assert (Hl1 : fl_limit t1 = fl_limit (flat_of f)) by (unfold fl_limit; by rewrite Hs1, Hb1).
  destruct (check_mbr_forced t1) as (t2 & Hc & Hd); [lia|]. rewrite (io_bind_run _ _ _ _ _ Hc) in Hrun.
  pose proof (checks_done_limit _ _ _ Hd) as Hl2. destruct Hd as (_ & _ & Hv & Hm2).
  change mbr_location.1 with 512 in Hrun. change mbr_location.2 with 11776 in Hrun.
  destruct stage_sizes as (_ & Hsa & _ & Hsc).
  destruct (write_stages_run img 512 11776 t2) as (t' & Hw & Hst & Hrest); [split; rewrite ?Hsa, ?Hsc; lia|lia|].
  rewrite Hw in Hrun. destruct Hrun as (f' & Hm & Hsz & Heq). exists (fl_data t2), f'.
  split_and!; [done..| |by eapply stages_written_eq|].
  - intros x H1 H2. by rewrite Hm2, Hm1.
  - intros x Hx. rewrite (Heq x), Hrest by (rewrite ?Hsa, ?Hsc; lia). rewrite Hm2, Hm1; [done| |].
    + cbn [fl_data flat_of]. unfold in_header, gpt_block. change HEADER with 96. repeat case_match; simplify_eq; lia.
    + unfold in_checks. lia.
Qed.

(** ** Concrete devices *)

Definition ex_img : mem := memset ∅ 0 7 (Z.to_nat 22189).
(** A master boot record with one active partition. *)
Definition ex_mbr : mem := st16 (st8 ∅ 446 0x80) 510 0xaa55.
Definition ex_args : list (list Z) := [[]; []].

Lemma main_mbr_spec_witness : ∃ f',
  main ex_img (λ _, true) ex_args (Some (File 32768 ex_mbr 0)) = Done (0, Some f') ∧ ld8 (f_data f') 446 = 0x80.
Proof.
  destruct (main_mbr_spec ex_img (λ _, true) ex_args (File 32768 ex_mbr 0)) as (f' & Hm & _ & Hst & _);
    [reflexivity|cbn; lia|discriminate|vm_compute; reflexivity|vm_compute; reflexivity|cbn; lia|].
  exists f'. split; [exact Hm|]. etrans; [apply (sw_table _ _ _ _ _ Hst); right; lia|vm_compute; reflexivity].
Defined.

(** Even of a device that holds nothing. *)
Lemma main_force_spec_witness : ∃ m f',
  main ex_img (λ _, true) [[]; []; FORCE_MBR] (Some (File 32768 ∅ 0)) = Done (0, Some f') ∧ valid_mbr m = true ∧
  stages_written ex_img m 512 11776 (f_data f').
Proof.
  destruct (main_force_spec ex_img (λ _, true) [[]; []; FORCE_MBR] (File 32768 ∅ 0)) as (m & f' & Hm & _ & Hv & _ & Hst & _);
    [reflexivity|reflexivity|cbn; lia|].
  exists m, f'. split; [exact Hm|]. split; [exact Hv|exact Hst].
Defined.

Lemma main_refuses_witness : ∃ f',
  main ex_img (λ _, true) ex_args (Some (File 32768 ∅ 0)) = Done (1, Some f') ∧ mem_eq (f_data f') ∅.
Proof.
  destruct (main_refuses ex_img (λ _, true) ex_args (File 32768 ∅ 0)) as (f' & Hm & _ & He);
    [reflexivity|cbn; lia|discriminate|vm_compute; reflexivity|vm_compute; reflexivity|cbn; lia|].
  exists f'. split; [exact Hm|exact He].
Defined.

(** The status of the partition was 0x80. *)
Lemma main_loses_table_witness : ∃ f',
  main ex_img (λ _, true) ex_args (Some (File 8192 ex_mbr 0)) = Done (1, Some f') ∧ ld8 (f_data f') 446 = 7.
Proof.
  destruct (main_loses_table ex_img (λ _, true) ex_args (File 8192 ex_mbr 0)) as (f' & Hm & Hc);
    [reflexivity|cbn; lia|discriminate|vm_compute; reflexivity|vm_compute; reflexivity|cbn; lia|].
  exists f'. split; [exact Hm|]. etrans; [apply (Hc 446); lia|vm_compute; reflexivity].
Defined.
