(* ===== verification/InstallerGpt.v ===== *)
(** * Installing with a GUID partition table

    [main] of [src/limine/limine-install.c] on a device with a GUID partition
    table and no partition named: the second stage goes to the ends of the two
    arrays of partitions, which are cut short, and both headers are brought up to
    date.  The theorem is for entries of 128 bytes and arrays in 32 blocks, which
    the code takes for granted; where the blocks are larger than 512 bytes the
    arrays are in fewer, and partitions are overwritten ([main_gpt_clears]). *)
From Stdlib Require Import String.
From stdpp Require Import base list gmap.
From S2P Require Import Prelude Memory Layout Crc32 BlockDevice Installer InstallerMbr.
Open Scope Z_scope.

(** ** Headers *)

Abbreviation header_member m a name := (member gpt_table_header_fields m a name).

(** An object that holds the header has its members. *)
Lemma header_copied m a h : copied m a h 0 HEADER →
  alternate_lba h = header_member m a "alternate_lba" ∧
  partition_entry_lba h = header_member m a "partition_entry_lba" ∧
  number_of_partition_entries h = header_member m a "number_of_partition_entries" ∧
  size_of_partition_entry h = header_member m a "size_of_partition_entry".
Proof.
  change HEADER with 96. intros Hc.
  assert (Hm : ∀ n o, 0 ≤ o → o + Z.of_nat n ≤ 96 → ld n h (0 + o) = ld n m (a + o)).
  { intros n o Ho Hn. apply ld_copied. eapply copied_sub; [exact Hc|lia|lia]. }
  split_and!; apply Hm; vm_compute; discriminate.
Qed.

(** The checksum of a header is that of its bytes with no checksum. *)
Definition header_valid (m : mem) (a : Z) : Prop := ld32 m (a + 16) = crc32 (st32 m (a + 16) 0) a 92.

(** The header at [a] of [m] after its array has been cut to [count] entries. *)
Record header_updated (m : mem) (a count crc : Z) (m' : mem) : Prop := {
  hu_count : header_member m' a "number_of_partition_entries" = count;
  hu_array : header_member m' a "partition_entry_array_crc32" = crc;
  hu_valid : header_valid m' a;
  hu_kept : ∀ o, 0 ≤ o < 96 → ¬ (16 ≤ o < 20) → ¬ (80 ≤ o < 84) → ¬ (88 ≤ o < 92) → ld8 m' (a + o) = ld8 m (a + o);
}.

Lemma header_updated_copied m a count crc h m' a' :
  header_updated m a count crc h → copied h a m' a' HEADER → 
  ∀ m0, (∀ o, 0 ≤ o < 96 → ld8 m0 (a' + o) = ld8 m (a + o)) → header_updated m0 a' count crc m'.
Proof.
  change HEADER with 96. intros [Hn Ha Hv Hk] Hc m0 H0.
  assert (Hm : ∀ n o, 0 ≤ o → o + Z.of_nat n ≤ 96 → ld n m' (a' + o) = ld n h (a + o)).
  { intros n o Ho Hno. apply ld_copied. eapply copied_sub; [exact Hc|lia|lia]. }
  split.
  - rewrite <-Hn. apply Hm; vm_compute; discriminate.
  - rewrite <-Ha. apply Hm; vm_compute; discriminate.
  - unfold header_valid. rewrite (Hm 4%nat 16) by lia. rewrite Hv. symmetry. apply crc32_ext. intros i Hi.
    destruct (decide (16 ≤ i < 20)).
    + assert (Hz : ∀ m b, b ≤ b + (i - 16) < b + 4 → ld8 (st32 m b 0) (b + (i - 16)) = 0).
      { intros m1 b Hb. unfold st. repeat rewrite ld8_st8. repeat case_match; try done. lia. }
      replace (a' + i) with (a' + 16 + (i - 16)) by lia. replace (a + i) with (a + 16 + (i - 16)) by lia.
      by rewrite !Hz by lia.
    + rewrite !(st_outside 4) by lia. apply Hc. lia.
  - intros o Ho H1 H2 H3. rewrite Hc, Hk, H0 by lia. done.
Qed.

Lemma new_header_updated h crc count :
  0 ≤ count < 2 ^ 32 → 0 ≤ crc < 2 ^ 32 → header_updated h 0 count crc (new_header h crc count).
Proof.
  intros Hn Hc. unfold new_header, set_member.
  change (0 + offset_of gpt_table_header_fields "partition_entry_array_crc32") with 88.
  change (0 + offset_of gpt_table_header_fields "number_of_partition_entries") with 80.
  change (0 + offset_of gpt_table_header_fields "crc32") with 16.
  change (Z.to_nat (member_size _ _)) with 4%nat.
  set (h1 := st32 (st32 (st32 h 88 crc) 80 count) 16 0).
  assert (H1 : ∀ n o, o + Z.of_nat n ≤ 16 ∨ 20 ≤ o → ld n (st32 h1 16 (crc32 h1 0 92)) o = ld n h1 o).
  { intros n o Ho. apply ld_st_disjoint. lia. }
  split.
  - change (header_member ?m 0 "number_of_partition_entries") with (ld32 m 80). rewrite H1 by lia. unfold h1.
    rewrite (ld_st_disjoint 4 4) by lia. by apply ld32_st32_same.
  - change (header_member ?m 0 "partition_entry_array_crc32") with (ld32 m 88). rewrite H1 by lia. unfold h1.
    rewrite !(ld_st_disjoint 4 4) by lia. by apply ld32_st32_same.
  - unfold header_valid. rewrite (ld32_st32_same _ (0 + 16)) by apply crc32_range. symmetry. apply crc32_ext. intros i Hi.
    destruct (decide (16 ≤ i < 20)); [|rewrite !(st_outside 4) by lia; done].
    unfold h1. unfold st. repeat rewrite ld8_st8. repeat case_match; try done; lia.
  - intros o Ho H2 H3 H4. rewrite (st_outside 4) by lia. unfold h1. by rewrite !(st_outside 4) by lia.
Qed.

(** ** Loops on the array *)

Lemma for_io_rule {St} (P : Z → St → flat → Prop) n : ∀ i (f : Z → St → io flat St) x t,
  P i x t →
  (∀ j x t, i ≤ j < i + Z.of_nat n → P j x t → ∃ x' t', f j x t = Done (Some x', t') ∧ P (j + 1) x' t') →
  ∃ x' t', for_io n i f x t = Done (Some x', t') ∧ P (i + Z.of_nat n) x' t'.
Proof.
  induction n as [|n IH]; intros i f x t Hi Hstep; cbn [for_io].
  - exists x, t. split; [done|]. by rewrite Z.add_0_r.
  - destruct (Hstep i x t) as (x1 & t1 & Hf & H1); [lia|done|]. rewrite (io_bind_run _ _ _ _ _ Hf).
    destruct (IH (i + 1) f x1 t1 H1) as (x2 & t2 & Hr & H2); [intros j y u Hj; apply Hstep; lia|].
    exists x2, t2. split; [done|]. by replace (i + Z.of_nat (S n)) with (i + 1 + Z.of_nat n) by lia.
Qed.

Lemma for_io_app {S St} n k i (f : Z → St → io S St) x s :
  for_io (n + k) i f x s = (y ← for_io n i f x; for_io k (i + Z.of_nat n) f y) s.
Proof.
  revert i x s. induction n as [|n IH]; intros i x s; cbn [for_io Nat.add].
  - cbn. by rewrite Z.add_0_r.
  - unfold mbind, io_bind. destruct (f i x s) as [[[y|] s1]| |]; try done. do_bind.
    rewrite IH. unfold mbind, io_bind. by replace (i + 1 + Z.of_nat n) with (i + Z.of_nat (Datatypes.S n)) by lia.
Qed.

(** The entry at [a] is in use. *)
Definition used_at (m : mem) (a : Z) : bool := negb (ld64 m (a + 16) =? 0) || negb (ld64 m (a + 24) =? 0).

Lemma entry_used_copied m a e : copied m a e 0 ENTRY → entry_used e = used_at m a.
Proof.
  change ENTRY with 128. intros Hc. unfold entry_used, used_at.
  change (offset_of gpt_entry_fields "unique_partition_guid") with 16.
  assert (Hm : ∀ o, 0 ≤ o ≤ 120 → ld64 e o = ld64 m (a + o)).
  { intros o Ho. change o with (0 + o) at 1. apply ld_copied. eapply copied_sub; [exact Hc|lia|lia]. }
  by rewrite !Hm by lia.
Qed.

(** The last entry in use of [n] from [base] on. *)
Record last_used (m : mem) (base n max : Z) : Prop := {
  lu_range : -1 ≤ max < Z.max n 0;
  lu_used : max = -1 ∨ used_at m (base + max * 128) = true;
  lu_free : ∀ i, max < i < n → used_at m (base + i * 128) = false;
}.

Lemma last_used_unused m base n max k :
  last_used m base n max → 0 ≤ k → (∀ i, k ≤ i < n → used_at m (base + i * 128) = false) → max < k.
Proof.
  intros [Hr [->|Hu] _] Hk Hf; [lia|]. destruct (Z.lt_ge_cases max k) as [|Hge]; [done|].
  rewrite Hf in Hu by lia. done.
Qed.

Section table.
Context (lb : Z) (h : mem) (t : flat) (base : Z).
Hypothesis base_eq : partition_entry_lba h * lb = base.
Hypothesis base_ok : 0 ≤ base.
Hypothesis limit_ok : fl_limit t < 2 ^ 63.

Lemma entry_read {A} i (f : mem → io flat A) :
  0 ≤ i → base + (i + 1) * 128 ≤ fl_limit t →
  (device_read ∅ (u64 (u64 base + i * ENTRY)) ENTRY ≫= f) t =
    f (memcpy ∅ 0 (fl_data t) (base + i * 128) (Z.to_nat 128)) t.
Proof.
  change ENTRY with 128. intros Hi Hl. rewrite (u64_small base), u64_small by lia. by rewrite flat_read_run by lia.
Qed.

Lemma max_partition_entry_used_run :
  let n := number_of_partition_entries h in
  0 ≤ n → base + n * 128 ≤ fl_limit t →
  ∃ max, max_partition_entry_used lb h t = Done (Some max, t) ∧ last_used (fl_data t) base n max.
Proof.
  intros n Hn Hl. unfold max_partition_entry_used. rewrite base_eq. fold n.
  destruct (for_io_rule (λ i max t', t' = t ∧ last_used (fl_data t) base i max) (Z.to_nat n) 0
    (λ i max, gpt_entry ← device_read ∅ (u64 (u64 base + i * ENTRY)) ENTRY;
       mret (if entry_used gpt_entry then if max <? i then i else max else max)) (-1) t) as (max & t' & Hr & -> & Hu).
  - split; [done|]. split; [lia|by left|lia].
  - intros i max ? Hi [-> [Hr Hu Hf]]. rewrite entry_read by lia.
    rewrite (entry_used_copied (fl_data t) (base + i * 128)) by (apply (memcpy_copied _ 0 _ _ (Z.to_nat 128))).
    destruct (used_at (fl_data t) (base + i * 128)) eqn:He.
    + rewrite (proj2 (Z.ltb_lt max i)) by lia. eexists _, t. split; [done|]. split; [done|].
      split; [lia|by right|lia].
    + eexists _, t. split; [done|]. split; [done|]. split; [lia|done|]. intros j Hj.
      destruct (decide (j = i)) as [->|]; [done|]. apply Hf. lia.
  - exists max. split; [exact Hr|]. by rewrite Z2Nat.id in Hu by lia.
Qed.

(** One turn of [zero_entries], with entries of 128 bytes. *)
Definition zero_entry (i : Z) : io flat () := device_write ∅ 0 (u64 (u64 base + u64 (i * 128))) 128.

Lemma zero_entries_loop alloc first count u :
  size_of_partition_entry h = 128 → alloc 128 = true →
  zero_entries alloc lb 128 first count h u = for_io (Z.to_nat (count - first)) first (λ i _, zero_entry i) () u.
Proof.
  intros Hs Ha. unfold zero_entries. rewrite Hs, Ha, base_eq. generalize (Z.to_nat (count - first)) as n.
  intros n. revert first u. induction n as [|n IH]; intros first u; [done|]. cbn [for_io].
  unfold mbind, io_bind, io_check. cbn [check Z.eqb orb andb Z.leb Z.compare Pos.compare Pos.compare_cont]. do_bind.
  unfold zero_entry. destruct (device_write _ _ _ _ u) as [[[y|] u1]| |]; try done.
Qed.

(** Zeros from entry [first] to entry [count]. *)
Definition zeroed (first count : Z) (u : flat) : Prop :=
  fl_limit u = fl_limit t ∧ same_outside (base + first * 128) (base + count * 128) (fl_data t) (fl_data u) ∧
  ∀ x, base + first * 128 ≤ x < base + count * 128 → ld8 (fl_data u) x = 0.

Lemma zero_loop_run first count :
  0 ≤ first ≤ count → base + count * 128 ≤ fl_limit t →
  ∃ u, for_io (Z.to_nat (count - first)) first (λ i _, zero_entry i) () t = Done (Some (), u) ∧ zeroed first count u.
Proof.
  intros Hf Hl.
  destruct (for_io_rule (λ i _, zeroed first i) (Z.to_nat (count - first)) first (λ i _, zero_entry i) () t)
    as ([] & u & Hr & Hz).
  - split_and!; [done|by intros x|lia].
  - intros i [] t1 Hi (Hlim & Ho & Hz). unfold zero_entry.
    rewrite (u64_small base), (u64_small (i * 128)), u64_small by lia.
    cbn [device_write flat_io]. unfold flat_write. rewrite reachable_le by lia. eexists (), _. split; [done|].
    unfold zeroed. cbn [fl_data set_data]. split_and!; [by rewrite limit_set_data| |].
    + intros x Hx. rewrite memcpy_out by lia. apply Ho. lia.
    + intros x Hx. rewrite ld8_memcpy. destruct (Z.leb_spec (base + i * 128) x), (Z.ltb_spec x (base + i * 128 + Z.of_nat (Z.to_nat 128)));
        try lia; cbn [andb]; [done|apply Hz; lia].
  - exists u. replace (first + Z.of_nat (Z.to_nat (count - first))) with count in * by lia. done.
Qed.

Lemma zero_entries_run alloc first count :
  size_of_partition_entry h = 128 → alloc 128 = true → 0 ≤ first ≤ count → base + count * 128 ≤ fl_limit t →
  ∃ u, zero_entries alloc lb 128 first count h t = Done (Some (), u) ∧ zeroed first count u.
Proof. intros Hs Ha Hf Hl. rewrite zero_entries_loop by done. by apply zero_loop_run. Qed.

(** The device ends after entry [last]. *)
Lemma zero_entries_short alloc first last count :
  size_of_partition_entry h = 128 → alloc 128 = true → 0 ≤ first ≤ last → last < count < 2 ^ 32 →
  base + last * 128 = fl_limit t →
  ∃ u, zero_entries alloc lb 128 first count h t = Done (None, u) ∧ fl_dirty u = false ∧ zeroed first last u.
Proof.
  intros Hs Ha Hf Hc Hl. rewrite zero_entries_loop by done.
  destruct (zero_loop_run first last Hf ltac:(lia)) as (u & Hr & Hz).
  replace (Z.to_nat (count - first)) with (Z.to_nat (last - first) + S (Z.to_nat (count - last - 1)))%nat by lia.
  rewrite for_io_app, (io_bind_run _ _ _ _ _ Hr). cbn [for_io].
  replace (first + Z.of_nat (Z.to_nat (last - first))) with last by lia. unfold zero_entry.
  rewrite (u64_small base), (u64_small (last * 128)), u64_small by lia. destruct Hz as (Hlim & Ho & Hz).
  rewrite flat_write_fails by lia. eexists. split; [done|]. split; [done|].
  unfold zeroed. cbn [fl_data set_data set_clean].
  assert (Hn : Z.to_nat (fl_limit u - (base + last * 128)) = 0%nat) by lia. rewrite Hn. by split_and!.
Qed.

End table.

(** ** The two ends *)

(** Blocks left to the two arrays, and entries of the first. *)
Definition blocks_a (lb : Z) : Z := if lb =? 512 then 10 else 29.
Definition blocks_b (lb : Z) : Z := if lb =? 512 then 11 else 29.
Definition embed_count (lb : Z) : Z := blocks_a lb * (lb / 128).

Definition block_ok (lb : Z) : Prop := lb = 512 ∨ lb = 4096.

Lemma align_down_block x lb : block_ok lb → 0 ≤ x < 2 ^ 64 → align_down x lb = x - x mod lb.
Proof.
  intros [-> | ->] Hx.
  - apply (land_mask_high x 9); [lia|done].
  - apply (land_mask_high x 12); [lia|done].
Qed.

Lemma embed_a_spec lb h :
  block_ok lb → 0 ≤ partition_entry_lba h → (partition_entry_lba h + 32) * lb < 2 ^ 63 → size_of_partition_entry h = 128 →
  embed_a lb h = (partition_entry_lba h + blocks_a lb) * lb ∧ new_partition_entry_count lb h = embed_count lb.
Proof.
  intros Hlb H0 H1 Hs. destruct stage_sizes as (_ & Hsa & _ & _).
  assert (Ha : embed_a lb h = (partition_entry_lba h + blocks_a lb) * lb).
  { unfold embed_a. rewrite Hsa. rewrite (u64_small (_ + 32)), (u64_small (_ * lb)), u64_small by (destruct Hlb; subst; lia).
    rewrite align_down_block by first [exact Hlb | destruct Hlb; subst; lia].
    destruct Hlb; subst; unfold blocks_a; cbn [Z.eqb Pos.eqb]; dlia. }
  split; [done|]. unfold new_partition_entry_count. rewrite Ha, Hs, Z.div_mul by (destruct Hlb; lia).
  replace (partition_entry_lba h + blocks_a lb - partition_entry_lba h) with (blocks_a lb) by lia.
  destruct Hlb; subst; vm_compute; done.
Qed.

Lemma embed_b_spec lb sec :
  block_ok lb → 0 ≤ partition_entry_lba sec → (partition_entry_lba sec + 32) * lb < 2 ^ 63 →
  embed_b lb sec = (partition_entry_lba sec + blocks_b lb) * lb.
Proof.
  intros Hlb H0 H1. destruct stage_sizes as (_ & _ & Hsb & _).
  unfold embed_b. rewrite Hsb. rewrite (u64_small (_ + 32)), (u64_small (_ * lb)), u64_small by (destruct Hlb; subst; lia).
  rewrite align_down_block by first [exact Hlb | destruct Hlb; subst; lia].
  destruct Hlb; subst; unfold blocks_b; cbn [Z.eqb Pos.eqb]; dlia.
Qed.

Lemma embed_count_fits lb : block_ok lb →
  0 < embed_count lb ∧ embed_count lb * 128 = blocks_a lb * lb ∧ embed_count lb < 1024 ∧
  blocks_a lb * lb + stage2_size_a ≤ 32 * lb ∧ blocks_a lb * lb ≤ blocks_b lb * lb ∧ blocks_b lb * lb + stage2_size_c ≤ 32 * lb.
Proof. destruct stage_sizes as (_ & -> & _ & ->). intros [-> | ->]; vm_compute; intuition discriminate. Qed.

(** ** The table *)

(** What the installer takes for granted: two arrays of 32 blocks with entries
    of 128 bytes between the headers, and the entries in use among those kept. *)
Record gpt_ok (m : mem) (lb limit : Z) : Prop := {
  go_block : gpt_block m = Some lb;
  go_second : bytes_at m (lb * header_member m lb "alternate_lba") 8 = EFI_PART;
  go_sizes : header_member m lb "size_of_partition_entry" = 128 ∧
    header_member m (lb * header_member m lb "alternate_lba") "size_of_partition_entry" = 128;
  go_first : 2 ≤ header_member m lb "partition_entry_lba";
  go_arrays : header_member m lb "partition_entry_lba" + 32 ≤
    header_member m (lb * header_member m lb "alternate_lba") "partition_entry_lba";
  go_last : header_member m (lb * header_member m lb "alternate_lba") "partition_entry_lba" + 32 ≤
    header_member m lb "alternate_lba";
  go_limit : (header_member m lb "alternate_lba" + 1) * lb ≤ limit < 2 ^ 63;
  go_count : header_member m lb "number_of_partition_entries" * 128 ≤ 32 * lb;
  go_room : ∀ i, embed_count lb ≤ i < header_member m lb "number_of_partition_entries" →
    used_at m (header_member m lb "partition_entry_lba" * lb + i * 128) = false;
}.

(** The array from [base] on keeps its entries up to [max] and gets zeros up to [count]. *)
Definition array_cut (m : mem) (base max count : Z) (m' : mem) : Prop :=
  ∀ x, 0 ≤ x < count * 128 → ld8 m' (base + x) = if x <? (max + 1) * 128 then ld8 m (base + x) else 0.

(** The table once the stage has its place: the checksums are those of what is there. *)
Record table_cut (m : mem) (lb alt first second max count : Z) (m' : mem) : Prop := {
  tc_first : array_cut m (first * lb) max count m';
  tc_second : array_cut m (second * lb) max count m';
  tc_header : header_updated m lb count (crc32 m' (first * lb) (Z.to_nat (count * 128))) m';
  tc_backup : header_updated m (lb * alt) count (crc32 m' (first * lb) (Z.to_nat (count * 128))) m';
}.

(** The bytes of the headers and of the entries kept. *)
Definition in_table (lb alt first second count x : Z) : Prop :=
  lb ≤ x < lb + 96 ∨ lb * alt ≤ x < lb * alt + 96 ∨
  first * lb ≤ x < first * lb + count * 128 ∨ second * lb ≤ x < second * lb + count * 128.

(** The two arrays after the entries from [max + 1] on have been zeroed. *)
Lemma zeroed_cut m m1 base max count :
  -1 ≤ max < count →
  same_outside (base + (max + 1) * 128) (base + count * 128) m m1 →
  (∀ x, base + (max + 1) * 128 ≤ x < base + count * 128 → ld8 m1 x = 0) → array_cut m base max count m1.
Proof.
  intros Hmax Ho Hz x Hx. destruct (Z.ltb_spec x ((max + 1) * 128)); [apply Ho; lia|apply Hz; lia].
Qed.

Lemma array_cut_kept m m1 m2 base max count :
  array_cut m base max count m1 → (∀ x, base ≤ x < base + count * 128 → ld8 m2 x = ld8 m1 x) → array_cut m base max count m2.
Proof. intros Hc Hk x Hx. rewrite Hk by lia. by apply Hc. Qed.

Lemma array_cut_other m0 m m1 base max count :
  array_cut m base max count m1 → (∀ x, base ≤ x < base + count * 128 → ld8 m x = ld8 m0 x) → array_cut m0 base max count m1.
Proof. intros Hc Hk x Hx. rewrite Hc by done. case_match; [apply Hk; lia|done]. Qed.

(** Writing an updated header object. *)
Lemma header_written m0 m h a crc count :
  copied m0 a h 0 HEADER → 0 ≤ count < 2 ^ 32 → 0 ≤ crc < 2 ^ 32 →
  header_updated m0 a count crc (memcpy m a (new_header h crc count) 0 (Z.to_nat HEADER)).
Proof.
  intros Hc Hn Hcrc. eapply header_updated_copied; [by apply new_header_updated|apply (memcpy_copied m a _ 0 (Z.to_nat 96))|].
  intros o Ho. symmetry. by apply (Hc o).
Qed.

Lemma header_updated_kept m a count crc m1 m2 :
  header_updated m a count crc m1 → (∀ x, a ≤ x < a + 96 → ld8 m2 x = ld8 m1 x) → header_updated m a count crc m2.
Proof.
  intros Hu Hk. eapply header_updated_copied; [exact Hu| |done]. intros o Ho. apply Hk. change HEADER with 96 in Ho. lia.
Qed.

Lemma new_header_alternate h crc count :
  0 ≤ count < 2 ^ 32 → 0 ≤ crc < 2 ^ 32 → alternate_lba (new_header h crc count) = alternate_lba h.
Proof.
  intros Hn Hc. pose proof (new_header_updated h crc count Hn Hc) as Hu.
  change (alternate_lba ?x) with (ld64 x 32). apply ld_ext. intros b Hb.
  pose proof (hu_kept _ _ _ _ _ Hu b) as Hk. apply Hk; lia.
Qed.

(** Both headers after the arrays have been cut. *)
Lemma headers_written m mz h sec lb alt first second max count :
  copied m lb h 0 HEADER → copied m (lb * alt) sec 0 HEADER → 0 ≤ count < 2 ^ 32 →
  array_cut m (first * lb) max count mz → array_cut m (second * lb) max count mz →
  lb + 96 ≤ first * lb → first * lb + count * 128 ≤ lb * alt → lb + 96 ≤ second * lb → second * lb + count * 128 ≤ lb * alt →
  lb + 96 ≤ lb * alt →
  let crc := crc32 mz (first * lb) (Z.to_nat (count * 128)) in
  let m' := memcpy (memcpy mz lb (new_header h crc count) 0 (Z.to_nat HEADER))
    (lb * alt) (new_header sec crc count) 0 (Z.to_nat HEADER) in
  table_cut m lb alt first second max count m' ∧
  ∀ x, ¬ (lb ≤ x < lb + 96) → ¬ (lb * alt ≤ x < lb * alt + 96) → ld8 m' x = ld8 mz x.
Proof.
  intros Hh Hsec Hc H1 H2 L1 L2 L3 L4 L5 crc m'. assert (Hcrc : 0 ≤ crc < 2 ^ 32) by apply crc32_range.
  assert (Hk : ∀ x, ¬ (lb ≤ x < lb + 96) → ¬ (lb * alt ≤ x < lb * alt + 96) → ld8 m' x = ld8 mz x).
  { intros x Hx1 Hx2. unfold m'. change HEADER with 96. by rewrite !memcpy_out by lia. }
  assert (Hcrc' : crc32 m' (first * lb) (Z.to_nat (count * 128)) = crc).
  { apply crc32_ext. intros i Hi. apply Hk; lia. }
  split; [split; rewrite ?Hcrc'|exact Hk].
  - apply (array_cut_kept _ mz); [done|]. intros x Hx. apply Hk; lia.
  - apply (array_cut_kept _ mz); [done|]. intros x Hx. apply Hk; lia.
  - eapply header_updated_kept; [by apply header_written|]. intros x Hx. unfold m'. change HEADER with 96.
    by rewrite (memcpy_out _ (lb * alt)) by lia.
  - by apply header_written.
Qed.

(** [embed]: where the halves go, and the table they leave. *)
Lemma embed_run alloc lb h sec (t : flat) :
  let m := fl_data t in let alt := header_member m lb "alternate_lba" in
  let first := header_member m lb "partition_entry_lba" in
  let second := header_member m (lb * alt) "partition_entry_lba" in
  block_ok lb → gpt_ok m lb (fl_limit t) → copied m lb h 0 HEADER → copied m (lb * alt) sec 0 HEADER →
  alloc 128 = true → alloc (embed_count lb * 128) = true →
  ∃ max t', embed alloc lb h sec t =
      Done (Some ((first + blocks_a lb) * lb, (second + blocks_b lb) * lb), t') ∧ fl_limit t' = fl_limit t ∧
    last_used m (first * lb) (header_member m lb "number_of_partition_entries") max ∧
    table_cut m lb alt first second max (embed_count lb) (fl_data t') ∧
    ∀ x, ¬ in_table lb alt first second (embed_count lb) x → ld8 (fl_data t') x = ld8 m x.
Proof.
  intros m alt first second Hlb [_ _ [Hs1 Hs2] Hfirst Harr Hlast [Halt Hlim] Hn Hroom] Hh Hsec Ha1 Ha2.
  fold m alt first second in Hs1, Hs2, Hfirst, Harr, Hlast, Halt, Hn, Hroom.
  destruct (header_copied _ _ _ Hh) as (Hx1 & Hx2 & Hx3 & Hx4). destruct (header_copied _ _ _ Hsec) as (_ & Hy2 & _ & Hy4).
  fold m alt in Hx1, Hx2, Hx3, Hx4, Hy2, Hy4. fold first in Hx2. fold second in Hy2. rewrite Hs1 in Hx4. rewrite Hs2 in Hy4.
  destruct (embed_count_fits lb Hlb) as (Hc0 & Hc1 & Hc2 & _ & _ & _). set (count := embed_count lb) in *.
  assert (Hlb0 : 512 ≤ lb) by (destruct Hlb; lia).
  assert (Horder : 2 * lb ≤ first * lb ∧ first * lb + 32 * lb ≤ second * lb ∧ second * lb + 32 * lb ≤ lb * alt ∧
    lb * alt + lb ≤ fl_limit t) by nia.
  assert (Hcl : count * 128 ≤ 32 * lb) by (rewrite Hc1; destruct Hlb; subst; vm_compute; discriminate).
  destruct (embed_a_spec lb h Hlb) as [Hea Hec]; [rewrite ?Hx2; nia..|exact Hx4|].
  assert (Heb := embed_b_spec lb sec Hlb ltac:(rewrite Hy2; nia) ltac:(rewrite Hy2; nia)).
  set (n := header_member m lb "number_of_partition_entries") in *.
  assert (Hn0 : 0 ≤ n) by apply (ld_range 4).
  unfold embed. rewrite Hx4, Hec, Hea, Heb. fold count.
  destruct (max_partition_entry_used_run lb h t (first * lb)) as (max & Hmax & Hused); rewrite ?Hx2, ?Hx3 in *; [done|lia..|].
  rewrite (io_bind_run _ _ _ _ _ Hmax).
  assert (Hmc : -1 ≤ max < count) by (pose proof (lu_range _ _ _ _ Hused); pose proof (last_used_unused _ _ _ _ count Hused ltac:(lia) Hroom); lia).
  rewrite (io_bind_run _ _ t (Some ()) t) by done.
  assert (i64 count = count) as -> by (unfold i64; rewrite Z.mod_small; lia).
  rewrite (proj2 (Z.leb_gt count max)) by lia.
  destruct (zero_entries_run lb h t (first * lb) ltac:(by rewrite Hx2) ltac:(lia) Hlim alloc (max + 1) count Hx4 Ha1) as (t1 & Hz1 & (Hl1 & Ho1 & Hzz1));
    [lia..|]. rewrite (io_bind_run _ _ _ _ _ Hz1).
  destruct (zero_entries_run lb sec t1 (second * lb) ltac:(by rewrite Hy2) ltac:(lia) ltac:(lia) alloc (max + 1) count Hy4 Ha1) as (t2 & Hz2 & (Hl2 & Ho2 & Hzz2));
    [lia..|]. rewrite (io_bind_run _ _ _ _ _ Hz2).
  rewrite (u64_small (count * 128)), Ha2, ?Hx2, (u64_small (first * lb)) by lia. cbn [negb].
  rewrite flat_read_run by lia.
  assert (Harr_crc : crc32 (memcpy ∅ 0 (fl_data t2) (first * lb) (Z.to_nat (count * 128))) 0 (Z.to_nat (count * 128)) =
    crc32 (fl_data t2) (first * lb) (Z.to_nat (count * 128))) by (apply crc32_ext, memcpy_copied).
  rewrite Harr_crc. set (crc := crc32 (fl_data t2) _ _). pose proof (crc32_range (fl_data t2) (first * lb) (Z.to_nat (count * 128))) as Hcrc.
  fold crc in Hcrc. change HEADER with 96 in *. rewrite flat_write_run by lia. rewrite new_header_alternate by lia.
  rewrite Hx1, (u64_small (lb * alt)) by lia. rewrite flat_write_run by (rewrite limit_set_data; lia).
  rewrite Hy2. eexists max, _. split; [done|]. split; [by rewrite !limit_set_data, Hl2|]. split; [exact Hused|].
  cbn [fl_data set_data]. fold count.
  assert (Hcut1 : array_cut m (first * lb) max count (fl_data t2)).
  { apply (array_cut_kept _ (fl_data t1)); [apply zeroed_cut; [lia|done|done]|]. intros x Hx. apply Ho2. lia. }
  assert (Hcut2 : array_cut m (second * lb) max count (fl_data t2)).
  { apply (array_cut_other _ (fl_data t1)); [apply zeroed_cut; [lia|done|done]|]. intros x Hx. apply Ho1. lia. }
  destruct (headers_written m (fl_data t2) h sec lb alt first second max count Hh Hsec) as [Htc Hk]; [lia|done|done|lia..|].
  split; [exact Htc|]. intros x Hx. unfold in_table in Hx. etrans; [apply Hk; lia|]. rewrite Ho2, Ho1 by lia. done.
Qed.

(** What is elsewhere does not matter to the table. *)
Lemma table_cut_kept m lb alt first second max count m1 m2 :
  0 ≤ count → table_cut m lb alt first second max count m1 →
  (∀ x, in_table lb alt first second count x → ld8 m2 x = ld8 m1 x) → table_cut m lb alt first second max count m2.
Proof.
  unfold in_table. intros Hc [H1 H2 H3 H4] Hk.
  assert (Hcrc : crc32 m2 (first * lb) (Z.to_nat (count * 128)) = crc32 m1 (first * lb) (Z.to_nat (count * 128))).
  { apply crc32_ext. intros i Hi. apply Hk. lia. }
  split; rewrite ?Hcrc.
  - eapply array_cut_kept; [exact H1|]. intros x Hx. apply Hk. lia.
  - eapply array_cut_kept; [exact H2|]. intros x Hx. apply Hk. lia.
  - eapply header_updated_kept; [exact H3|]. intros x Hx. apply Hk. lia.
  - eapply header_updated_kept; [exact H4|]. intros x Hx. apply Hk. lia.
Qed.

(** ** Installing *)

Section gpt.
Context (img : mem) (alloc : Z → bool) (argv : list (list Z)) (f : file) (lb : Z).
Hypothesis alloc_block : alloc 512 = true.
Let m := f_data f.
Let alt := header_member m lb "alternate_lba".
Let first := header_member m lb "partition_entry_lba".
Let second := header_member m (lb * alt) "partition_entry_lba".

Lemma gpt_block_ok m' lb' : gpt_block m' = Some lb' → block_ok lb'.
Proof. unfold gpt_block. repeat case_bool_decide; intros [= <-]; [by left|by right]. Qed.

(** The table is found, and so is its copy. *)
Lemma gpt_found_run :
  gpt_block m = Some lb → bytes_at m (lb * alt) 8 = EFI_PART → 4192 ≤ fl_limit (flat_of f) < 2 ^ 63 →
  lb * alt + 96 ≤ fl_limit (flat_of f) →
  ∃ h sec, copied m lb h 0 HEADER ∧ copied m (lb * alt) sec 0 HEADER ∧
    ∀ arg, arg ≠ Some FORCE_MBR → install img alloc arg (flat_of f) =
      ('(a, b) ← match arg with Some arg => partition_location lb h arg | None => embed alloc lb h sec end;
       write_stages img a b) (flat_of f).
Proof.
  intros Hblock Hsecond Hl Hl2. pose proof (gpt_block_ok _ _ Hblock) as Hlb.
  destruct (probe_gpt_run (flat_of f)) as (h & Hp & Hcopy); [lia|]. cbn [fl_data flat_of] in Hp, Hcopy. fold m in Hp, Hcopy.
  rewrite Hblock in Hp. specialize (Hcopy lb Hblock). destruct (header_copied _ _ _ Hcopy) as (Hx1 & _). fold alt in Hx1.
  pose proof (ld_range 8 m (lb + 32)) as Hralt. change (ld 8 m (lb + 32)) with alt in Hralt.
  assert (∃ sec, read_secondary lb h (flat_of f) = Done (Some sec, flat_of f) ∧ copied m (lb * alt) sec 0 HEADER) as (sec & Hr & Hcopy2).
  { unfold read_secondary. change HEADER with 96.
    rewrite Hx1, u64_small, flat_read_run by (destruct Hlb; subst; lia).
    rewrite starts_with_memcpy by (cbn [length EFI_PART]; lia). cbn [length EFI_PART fl_data flat_of]. fold m.
    rewrite bool_decide_eq_true_2 by done. eexists. split; [done|]. apply (memcpy_copied _ 0 _ _ (Z.to_nat 96)). }
  exists h, sec. split; [done|]. split; [done|]. intros arg Harg. unfold install.
  rewrite (bool_decide_eq_false_2 (arg = Some FORCE_MBR)) by exact Harg.
  rewrite (io_bind_run _ _ _ _ _ Hp). by rewrite (io_bind_run _ _ _ _ _ Hr).
Qed.

(** C20: A device with such a table gets both stages: the halves of the second lie
    after the entries kept, the checksums of both headers are those of what is
    there, and the partitions between the arrays stay as they were. *)
Theorem main_gpt_spec :
  length argv = 2%nat → alloc 128 = true → alloc (embed_count lb * 128) = true →
  512 ≤ f_size f < 2 ^ 63 → gpt_ok m lb (fl_limit (flat_of f)) →
  ∃ f' max, main img alloc argv (Some f) = Done (0, Some f') ∧ f_size f' = f_size f ∧
    last_used m (first * lb) (header_member m lb "number_of_partition_entries") max ∧ max < embed_count lb ∧
    table_cut m lb alt first second max (embed_count lb) (f_data f') ∧
    stages_written img m ((first + blocks_a lb) * lb) ((second + blocks_b lb) * lb) (f_data f') ∧
    take (Z.to_nat stage2_size) (stage2_of (f_data f')) = bytes_at img 512 (Z.to_nat stage2_size) ∧
    ∀ x, (first + 32) * lb ≤ x < second * lb → ld8 (f_data f') x = ld8 m x.
Proof.
  intros Hargs Ha1 Ha2 Hsz Hgo. pose proof (main_on_array img alloc argv f alloc_block ltac:(lia) Hsz) as Hrun.
  replace (argv !! 2%nat) with (@None (list Z)) in Hrun by (symmetry; apply lookup_ge_None_2; lia).
  pose proof Hgo as [Hblock Hsecond _ Hfirst Harr Hlast [Halt Hlim] _ Hroom]. fold alt first in Halt, Hfirst, Harr, Hlast, Hsecond.
  fold second in Harr, Hlast. pose proof (gpt_block_ok _ _ Hblock) as Hlb.
  destruct (embed_count_fits lb Hlb) as (Hc0 & Hc1 & _ & Hfa & Hab & Hfb). destruct stage_sizes as (_ & Hsa & _ & Hsc).
  assert (Hlb0 : 512 ≤ lb) by (destruct Hlb; lia).
  assert (Horder : 2 * lb ≤ first * lb ∧ first * lb + 32 * lb ≤ second * lb ∧ second * lb + 32 * lb ≤ lb * alt ∧
    lb * alt + lb ≤ fl_limit (flat_of f)) by nia.
  destruct (gpt_found_run Hblock Hsecond) as (h & sec & Hcopy & Hcopy2 & Hfound); [lia..|].
  rewrite Hfound in Hrun by discriminate.
  destruct (embed_run alloc lb h sec (flat_of f) Hlb Hgo Hcopy Hcopy2 Ha1 Ha2) as (max & t1 & He & Hl1 & Hused & Hcut & Hout).
  cbn [fl_data flat_of] in He, Hused, Hcut, Hout. fold m alt first second in He, Hused, Hcut, Hout.
  rewrite (io_bind_run _ _ _ _ _ He) in Hrun.
  pose proof (lu_range _ _ _ _ Hused). pose proof (last_used_unused _ _ _ _ (embed_count lb) Hused ltac:(lia) Hroom).
  destruct (write_stages_run img ((first + blocks_a lb) * lb) ((second + blocks_b lb) * lb) t1) as (t2 & Hw & Hst & Honly);
    [split; rewrite ?Hl1; lia|lia|].
  rewrite Hw in Hrun. destruct Hrun as (f' & Hm & Hfs & Heq). exists f', max.
  assert (Hst' : stages_written img m ((first + blocks_a lb) * lb) ((second + blocks_b lb) * lb) (f_data f')).
  { destruct (stages_written_eq _ _ _ _ _ _ Hst Heq) as [S1 S2 S3 S4 S5]. split; [exact S1| |exact S3|exact S4|exact S5]. intros x Hx. rewrite S2 by done.
    apply Hout. unfold in_table. lia. }
  assert (Hfar : ∀ x, in_table lb alt first second (embed_count lb) x ∨ (first + 32) * lb ≤ x < second * lb →
    ld8 (f_data f') x = ld8 (fl_data t1) x).
  { intros x Hx. rewrite (Heq x). unfold in_table in Hx. apply Honly; lia. }
  split_and!; [done|done|done|done| |done|by eapply stages_written_found|].
  - eapply table_cut_kept; [lia|exact Hcut|]. intros x Hx. apply Hfar. by left.
  - intros x Hx. rewrite Hfar by (by right). apply Hout. unfold in_table. lia.
Qed.

(** The second half in a partition: aligned to a block. *)
Definition partition_gap : Z := if lb =? 512 then 11264 else 12288.

Lemma partition_location_run h arg p :
  block_ok lb → copied m lb h 0 HEADER → sscanf_u32 arg = Done p →
  1 ≤ p ≤ header_member m lb "number_of_partition_entries" → 0 ≤ first →
  fl_limit (flat_of f) < 2 ^ 63 → first * lb + p * 128 ≤ fl_limit (flat_of f) →
  let entry := first * lb + (p - 1) * 128 in let start := ld64 m (entry + 32) in
  used_at m entry = true → (start + 8) * lb ≤ fl_limit (flat_of f) →
  partition_location lb h arg (flat_of f) = Done (Some (start * lb, start * lb + partition_gap), flat_of f).
Proof.
  intros Hlb Hcopy Harg Hp Hf Hl Hle entry start Hu Hs. unfold partition_location, io_lift.
  destruct (header_copied _ _ _ Hcopy) as (_ & Hx2 & Hx3 & _). fold first in Hx2.
  rewrite (io_bind_run _ _ (flat_of f) (Some p) (flat_of f)) by (by rewrite Harg).
  pose proof (ld_range 4 m (lb + 80)) as Hrn. change (ld 4 m (lb + 80)) with (header_member m lb "number_of_partition_entries") in Hrn.
  pose proof (ld_range 8 m (entry + 32)) as Hrs. change (ld 8 m (entry + 32)) with start in Hrs.
  rewrite Hx3, Hx2, (u32_small (p - 1)), (proj2 (Z.ltb_ge _ _)) by lia.
  change ENTRY with 128. rewrite (u64_small (first * lb)), u64_small by (destruct Hlb; subst; lia). fold entry.
  rewrite flat_read_run by lia. rewrite (entry_used_copied m entry) by apply (memcpy_copied _ 0 _ _ (Z.to_nat 128)).
  rewrite Hu. cbn [negb]. change (starting_lba ?e) with (ld64 e 32). rewrite ld_memcpy_0 by lia.
  change (ld64 (fl_data (flat_of f)) (entry + 32)) with start. unfold mret, io_ret. do 4 f_equal.
  - destruct Hlb; subst; apply u64_small; lia.
  - destruct stage_sizes as (_ & Hsa & _ & _). rewrite Hsa. rewrite (u64_small (start * lb)), (u64_small (_ + 11264)) by (destruct Hlb; subst; lia).
    destruct Hlb as [Hlb | Hlb]; unfold partition_gap; rewrite Hlb in *; cbn [Z.eqb Pos.eqb].
    + change (512 - 1) with (Z.ones 9). rewrite Z.land_ones by lia. rewrite (proj2 (Z.eqb_eq _ 0)) by dlia. done.
    + change (4096 - 1) with (Z.ones 12). rewrite Z.land_ones by lia. rewrite (proj2 (Z.eqb_neq _ 0)) by dlia.
      rewrite u64_small, align_down_block by (lia || by right). cbn [negb]. dlia.
Qed.

(** C39: Installing to a named GPT partition: on a device with blocks of 512 or
    4096 bytes and both headers of a GPT, with a number from 1 to that of the
    entries as third argument, when the entry - [128 * (p - 1)] bytes into the
    array - lies on the device and is used, and the 44 blocks from its first
    one on do too, [main] succeeds.  The boot sector is then the image's with
    the places of the two halves of the second stage filled in, but for the
    partition table and the time stamp, which are kept; the first half lies at
    the start of the partition and the second at the next block boundary behind
    it, so that what the boot sector names is the second stage; nothing else on
    the device changes.  Whether the partition has those 44 blocks is checked
    neither by the program nor here. *)
Theorem main_partition_spec arg p :
  length argv = 3%nat → argv !! 2%nat = Some arg → sscanf_u32 arg = Done p → arg ≠ FORCE_MBR →
  512 ≤ f_size f < 2 ^ 63 → gpt_block m = Some lb → bytes_at m (lb * alt) 8 = EFI_PART →
  let limit := fl_limit (flat_of f) in
  lb * alt + 96 ≤ limit → 4192 ≤ limit → 1 ≤ p ≤ header_member m lb "number_of_partition_entries" →
  first * lb + p * 128 ≤ limit →
  let entry := first * lb + (p - 1) * 128 in let start := ld64 m (entry + 32) in
  used_at m entry = true → 1 ≤ start → (start + 44) * lb ≤ limit →
  ∃ f', main img alloc argv (Some f) = Done (0, Some f') ∧ f_size f' = f_size f ∧
    stages_written img m (start * lb) (start * lb + partition_gap) (f_data f') ∧
    stages_only m (start * lb) (start * lb + partition_gap) (f_data f') ∧
    take (Z.to_nat stage2_size) (stage2_of (f_data f')) = bytes_at img 512 (Z.to_nat stage2_size).
Proof.
  intros Hargs Harg Hscan Hnf Hsz Hblock Hsecond limit Hl1 Hl2 Hp Hle entry start Hu Hs1 Hs2.
  pose proof (main_on_array img alloc argv f alloc_block ltac:(lia) Hsz) as Hrun. rewrite Harg in Hrun.
  pose proof (gpt_block_ok _ _ Hblock) as Hlb.
  assert (Hlim : limit < 2 ^ 63) by (unfold limit, fl_limit; cbn [fl_size fl_block flat_of]; dlia).
  destruct (gpt_found_run Hblock Hsecond) as (h & sec & Hcopy & _ & Hfound); [fold limit; lia..|].
  rewrite Hfound in Hrun by congruence. pose proof (ld_range 8 m (lb + 72)) as Hrf. change (ld 8 m (lb + 72)) with first in Hrf.
  pose proof (partition_location_run h arg p Hlb Hcopy Hscan Hp ltac:(lia) Hlim Hle Hu) as Hloc. fold entry in Hloc. fold start in Hloc.
  rewrite (io_bind_run _ _ _ _ _ (Hloc ltac:(fold limit; destruct Hlb; subst; lia))) in Hrun.
  destruct stage_sizes as (_ & Hsa & _ & Hsc).
  assert (Hgap : 11264 ≤ partition_gap ∧ partition_gap + 10413 ≤ 44 * lb ∧ 512 ≤ lb).
  { unfold partition_gap. destruct Hlb as [-> | ->]; cbn [Z.eqb Pos.eqb]; lia. }
  assert (Hstart : 512 ≤ start * lb) by nia.
  destruct (write_stages_run img (start * lb) (start * lb + partition_gap) (flat_of f)) as (t2 & Hw & Hst & Honly);
    [fold limit; split; rewrite ?Hsa, ?Hsc; lia|fold limit; lia|].
  rewrite Hw in Hrun. destruct Hrun as (f' & Hm & Hfs & Heq). exists f'.
  pose proof (stages_written_eq _ _ _ _ _ _ Hst Heq) as Hst'. cbn [fl_data flat_of] in Hst'. fold m in Hst'.
  split_and!; [done|done|exact Hst'| |by eapply stages_written_found]. intros x H1 H2 H3. rewrite (Heq x). by apply Honly.
Qed.

(** C25: On a device with blocks of 4096 bytes, whose arrays of 128 entries take four
    blocks each, the new array reaches 25 blocks past the old one: they are
    cleared, partitions or not, and so is the backup header, before the end of
    the device is met and the installation given up. *)
Theorem main_gpt_clears :
  length argv = 2%nat → alloc 128 = true → 512 ≤ f_size f < 2 ^ 63 → lb = 4096 →
  gpt_block m = Some lb → bytes_at m (lb * alt) 8 = EFI_PART →
  header_member m lb "size_of_partition_entry" = 128 →
  header_member m (lb * alt) "size_of_partition_entry" = 128 →
  header_member m lb "number_of_partition_entries" ≤ 128 →
  1 ≤ first → first + 29 ≤ second → second + 4 = alt → (alt + 1) * lb = fl_limit (flat_of f) →
  ∃ f', main img alloc argv (Some f) = Done (1, Some f') ∧
    (∀ x, (first + 4) * lb ≤ x < (first + 29) * lb → ld8 (f_data f') x = 0) ∧
    (∀ x, alt * lb ≤ x < (alt + 1) * lb → ld8 (f_data f') x = 0).
Proof.
  intros Hargs Ha Hsz Hlb4 Hblock Hsecond Hs1 Hs2 Hn Hfirst Hfs Hsa Hlim.
  pose proof (main_on_array img alloc argv f alloc_block ltac:(lia) Hsz) as Hrun.
  replace (argv !! 2%nat) with (@None (list Z)) in Hrun by (symmetry; apply lookup_ge_None_2; lia).
  pose proof (gpt_block_ok _ _ Hblock) as Hlb.
  assert (Hl63 : fl_limit (flat_of f) < 2 ^ 63) by (unfold fl_limit; cbn [fl_size fl_block flat_of]; dlia).
  assert (Hmul : ∀ z, z * lb = 4096 * z) by (intros z; rewrite Hlb4; lia).
  pose proof (Hmul first) as Hmf. pose proof (Hmul second) as Hms. pose proof (Hmul alt) as Hma.
  destruct (gpt_found_run Hblock Hsecond) as (h & sec & Hcopy & Hcopy2 & Hfound); [clear Hmul; lia..|].
  rewrite Hfound in Hrun by discriminate.
  destruct (header_copied _ _ _ Hcopy) as (Hx1 & Hx2 & Hx3 & Hx4).
  destruct (header_copied _ _ _ Hcopy2) as (_ & Hy2 & _ & Hy4). fold first in Hx2. fold second in Hy2.
  rewrite Hs1 in Hx4. rewrite Hs2 in Hy4. set (n := header_member m lb "number_of_partition_entries") in *.
  assert (Hn0 : 0 ≤ n) by apply (ld_range 4). set (t := flat_of f) in *.
  destruct (embed_a_spec lb h Hlb) as [_ Hec]; [rewrite ?Hx2; lia..|exact Hx4|].
  change (fl_data t) with m in *.
  assert (Hcount : embed_count lb = 928) by (rewrite Hlb4; done).
  destruct (max_partition_entry_used_run lb h t (first * lb)) as (max & Hmax & Hused); rewrite ?Hx2, ?Hx3 in *; [done|lia..|].
  fold n in Hused. pose proof (lu_range _ _ _ _ Hused) as Hmr.
  destruct (zero_entries_run lb h t (first * lb) ltac:(by rewrite Hx2) ltac:(lia) Hl63 alloc (max + 1) 928 Hx4 Ha)
    as (t1 & Hz1 & (Hl1 & Ho1 & Hzz1)); [lia..|].
  destruct (zero_entries_short lb sec t1 (second * lb) ltac:(by rewrite Hy2) ltac:(lia) ltac:(lia) alloc (max + 1) 160 928 Hy4 Ha)
    as (t2 & Hz2 & Hd & (Hl2 & Ho2 & Hzz2)); [lia..|].
  assert (He : embed alloc lb h sec t = Done (None, t2)).
  { unfold embed. rewrite (io_bind_run _ _ _ _ _ Hmax), Hx4, Hec, Hcount. rewrite (io_bind_run _ _ t (Some ()) t) by done.
    change (i64 928) with 928. rewrite (proj2 (Z.leb_gt 928 max)) by lia.
    rewrite (io_bind_run _ _ _ _ _ Hz1). by rewrite (io_bind_run _ _ _ _ _ Hz2). }
  rewrite (io_bind_run _ _ _ _ _ He) in Hrun. destruct Hrun as (f' & Hm & _ & Heq & _). specialize (Heq Hd).
  exists f'. split; [done|]. split; intros x Hx; rewrite (Heq x).
  - rewrite Ho2 by lia. apply Hzz1. lia.
  - apply Hzz2. lia.
Qed.

End gpt.

(** ** Concrete devices *)

(** Equations, inequalities and pairs of them between numbers. *)
Ltac by_computation :=
  try lazymatch goal with
  | |- ∃ _, _ => fail
  | |- _ ∧ _ => split; vm_compute; first [reflexivity | discriminate]
  | |- ¬ _ => discriminate
  | |- _ = _ => vm_compute; reflexivity
  | |- _ => vm_compute; discriminate
  end.

Definition ex_header (m : mem) (a alt lba n : Z) : mem :=
  st32 (st32 (st64 (st64 (st64 m a 0x5452415020494645) (a + 32) alt) (a + 72) lba) (a + 80) n) (a + 84) 128.
(** Two headers, and the first entry in use: a partition from block 50 on. *)
Definition ex_gpt (lb last second : Z) : mem :=
  st64 (st64 (ex_header (ex_header ∅ lb last 2 128) (last * lb) 1 second 128) (2 * lb + 16) 77) (2 * lb + 32) 50.

Lemma ex_gpt_ok : gpt_ok (ex_gpt 512 199 167) 512 (200 * 512).
Proof.
  split.
  1, 2: vm_compute; reflexivity.
  1: split; vm_compute; reflexivity.
  1-3, 5: vm_compute; discriminate.
  1: split; [vm_compute; discriminate|vm_compute; reflexivity].
  assert (Hall : forallb (λ i, negb (used_at (ex_gpt 512 199 167) (2 * 512 + i * 128))) (seqZ 40 88) = true)
    by (vm_compute; reflexivity).
  intros i Hi. apply negb_true_iff. apply (proj1 (forallb_seqZ _ 40 88) Hall).
  change (header_member _ _ _) with (ld32 (ex_gpt 512 199 167) 592) in Hi.
  assert (Hn : ld32 (ex_gpt 512 199 167) 592 = 128) by (vm_compute; reflexivity). rewrite Hn in Hi.
  change (embed_count 512) with 40 in Hi. lia.
Qed.

Lemma main_gpt_spec_witness : ∃ f',
  main ex_img (λ _, true) ex_args (Some (File 102400 (ex_gpt 512 199 167) 0)) = Done (0, Some f') ∧
  header_valid (f_data f') 512 ∧ ld64 (f_data f') 424 = 6144.
Proof.
  destruct (main_gpt_spec ex_img (λ _, true) ex_args (File 102400 (ex_gpt 512 199 167) 0) 512)
    as (f' & max & Hm & _ & _ & _ & Hcut & Hst & _); [reflexivity|reflexivity|reflexivity|reflexivity|cbn; lia|exact ex_gpt_ok|].
  exists f'. split; [exact Hm|]. split; [apply (tc_header _ _ _ _ _ _ _ _ Hcut)|].
  etrans; [apply (sw_place _ _ _ _ _ Hst)|vm_compute; reflexivity].
Defined.

(** [limine-install device 1] *)
Lemma main_partition_spec_witness : ∃ f',
  main ex_img (λ _, true) [[]; []; [0x31]] (Some (File 102400 (ex_gpt 512 199 167) 0)) = Done (0, Some f') ∧
  ld64 (f_data f') 424 = 25600.
Proof.
  destruct (main_partition_spec ex_img (λ _, true) [[]; []; [0x31]] (File 102400 (ex_gpt 512 199 167) 0) 512 eq_refl [0x31] 1)
    as (f' & Hm & _ & Hst & _); by_computation.
  exists f'. split; [exact Hm|]. etrans; [apply (sw_place _ _ _ _ _ Hst)|vm_compute; reflexivity].
Defined.

Lemma main_gpt_clears_witness : ∃ f',
  main ex_img (λ _, true) ex_args (Some (File 409600 (ex_gpt 4096 99 95) 0)) = Done (1, Some f') ∧
  ∀ x, 24576 ≤ x < 126976 → ld8 (f_data f') x = 0.
Proof.
  destruct (main_gpt_clears ex_img (λ _, true) ex_args (File 409600 (ex_gpt 4096 99 95) 0) 4096)
    as (f' & Hm & Hz & _); by_computation.
  exists f'. split; [exact Hm|exact Hz].
Defined.
