(* ===== verification/LimineHdd.v ===== *)
(** * The image of the boot loader

    The bytes of [src/limine/limine-hdd.h], which [main] of
    [src/limine/limine-install.c] writes: the boot sector and the second stage.
    Then what the installer relies on of them: the fields it fills in and those
    that belong to the device are zero, and a device with it is one the installer
    takes again. *)
From stdpp Require Import base list gmap.
From S2P Require Import Prelude Memory Layout Crc32 BlockDevice Installer InstallerMbr.
Open Scope Z_scope.

(** ** The bytes

    In decimal, a row per line of the header. *)

Definition limine_hdd_1 : list Z := [
  235; 88; 144; 0; 0; 0; 0; 0; 0; 0; 0; 0;
  0; 0; 0; 0; 0; 0; 0; 0; 0; 0; 0; 0;
  0; 0; 0; 0; 0; 0; 0; 0; 0; 0; 0; 0;
  0; 0; 0; 0; 0; 0; 0; 0; 0; 0; 0; 0;
  0; 0; 0; 0; 0; 0; 0; 0; 0; 0; 0; 0;
  0; 0; 0; 0; 0; 0; 0; 0; 0; 0; 0; 0;
  0; 0; 0; 0; 0; 0; 0; 0; 0; 0; 0; 0;
  0; 0; 0; 0; 0; 0; 250; 252; 234; 97; 124; 0;
  0; 49; 246; 142; 222; 142; 198; 142; 214; 188; 0; 124;
  251; 128; 250; 128; 15; 130; 239; 0; 128; 250; 143; 15;
  135; 231; 0; 180; 65; 187; 170; 85; 205; 19; 15; 130;
  219; 0; 129; 251; 85; 170; 15; 133; 210; 0; 104; 0;
  112; 7; 191; 168; 125; 102; 139; 5; 102; 139; 109; 4;
  49; 219; 102; 49; 201; 139; 77; 252; 232; 57; 0; 15;
  130; 180; 0; 102; 139; 69; 8; 102; 139; 109; 12; 1;
  203; 139; 77; 254; 232; 37; 0; 15; 130; 159; 0; 15;
  1; 22; 72; 125; 250; 15; 32; 192; 15; 186; 232; 0;
  15; 34; 192; 234; 116; 125; 8; 0; 0; 0; 0; 0;
  0; 0; 0; 0; 0; 0; 0; 0; 96; 190; 0; 128;
  199; 4; 16; 0; 199; 68; 2; 1; 0; 137; 92; 4;
  140; 68; 6; 82; 86; 102; 80; 102; 85; 180; 72; 190;
  16; 128; 199; 4; 30; 0; 205; 19; 114; 64; 139; 108;
  24; 137; 200; 102; 193; 233; 16; 137; 202; 49; 201; 247;
  245; 133; 210; 15; 149; 193; 1; 193; 102; 90; 102; 88;
  94; 102; 247; 245; 102; 137; 68; 8; 102; 199; 68; 12;
  0; 0; 0; 0; 90; 180; 66; 248; 205; 19; 114; 14;
  1; 108; 4; 102; 255; 68; 8; 102; 131; 84; 12; 0;
  226; 235; 97; 195; 23; 0; 70; 125; 0; 0; 255; 255;
  0; 0; 0; 154; 207; 0; 255; 255; 0; 0; 0; 146;
  207; 0; 70; 70; 70; 70; 70; 129; 198; 48; 79; 104;
  0; 184; 7; 38; 137; 54; 0; 0; 251; 244; 235; 253;
  184; 16; 0; 0; 0; 142; 216; 142; 192; 142; 224; 142;
  232; 142; 208; 129; 226; 255; 0; 0; 0; 106; 0; 82;
  104; 77; 76; 0; 0; 104; 96; 8; 7; 0; 232; 101;
  130; 6; 0; 0; 0; 0; 0; 0; 0; 0; 0; 0;
  0; 0; 0; 0; 0; 0; 0; 0; 0; 0; 0; 0;
  0; 0; 0; 0; 0; 0; 0; 0; 0; 0; 0; 0;
  0; 0; 0; 0; 0; 0; 0; 0; 0; 0; 0; 0;
  0; 0; 0; 0; 0; 0; 0; 0; 0; 0; 0; 0;
  0; 0; 0; 0; 0; 0; 0; 0; 0; 0; 0; 0;
  0; 0; 0; 0; 0; 0; 0; 0; 0; 0; 0; 0;
  0; 0; 0; 0; 0; 0; 0; 0; 0; 0; 0; 0;
  0; 0; 0; 0; 0; 0; 85; 170; 252; 48; 192; 191;
  92; 8; 7; 0; 185; 92; 8; 7; 0; 129; 233; 92;
  8; 7; 0; 243; 170; 233; 0; 0; 0; 0; 243; 15;
  30; 251; 83; 131; 236; 12; 139; 92; 36; 28; 255; 116;
  36; 24; 255; 116; 36; 24; 104; 0; 128; 0; 0; 15;
  182; 219; 232; 21; 0; 0; 0; 139; 68; 36; 44; 188;
  0; 124; 0; 0; 49; 237; 80; 83; 106; 0; 104; 0;
  128; 0; 0; 195; 243; 15; 30; 251; 87; 86; 83; 139;
  76; 36; 24; 139; 68; 36; 20; 131; 249; 17; 118; 127;
  128; 56; 31; 117; 122; 128; 120; 1; 139; 117; 116; 128;
  120; 2; 8; 117; 110; 138; 88; 3; 246; 195; 224; 117;
  102; 141; 80; 10; 246; 195; 4; 116; 15; 15; 182; 112;
  10; 141; 121; 244; 57; 247; 114; 83; 141; 84; 50; 2;
  246; 195; 8; 116; 15; 137; 214; 41; 198; 57; 206; 115;
  66; 66; 128; 122; 255; 0; 235; 239; 246; 195; 16; 116;
  15; 137; 214; 41; 198; 57; 206; 115; 46; 66; 128; 122;
  255; 0; 235; 239; 128; 227; 2; 116; 3; 131; 194; 2;
  1; 200; 41; 208; 131; 248; 7; 126; 22; 131; 232; 8;
  81; 80; 82; 255; 116; 36; 28; 232; 102; 2; 0; 0;
  131; 196; 16; 133; 192; 116; 5; 184; 253; 255; 255; 255;
  91; 94; 95; 195; 87; 86; 83; 139; 88; 12; 139; 112;
  8; 57; 218; 126; 41; 139; 8; 59; 72; 4; 116; 19;
  141; 121; 1; 137; 56; 15; 182; 57; 137; 217; 211; 231;
  9; 254; 137; 112; 8; 235; 7; 199; 64; 16; 1; 0;
  0; 0; 131; 195; 8; 137; 88; 12; 235; 205; 137; 247;
  137; 209; 41; 211; 137; 88; 12; 211; 239; 131; 203; 255;
  137; 120; 8; 137; 216; 91; 211; 224; 247; 208; 33; 240;
  94; 95; 195; 85; 141; 106; 2; 87; 49; 255; 86; 137;
  214; 83; 49; 219; 81; 137; 193; 186; 1; 0; 0; 0;
  137; 200; 137; 12; 36; 1; 219; 232; 140; 255; 255; 255;
  131; 197; 2; 1; 195; 15; 183; 69; 254; 57; 216; 127;
  9; 139; 12; 36; 1; 199; 41; 195; 235; 217; 141; 68;
  59; 16; 15; 183; 4; 70; 90; 91; 94; 95; 93; 195;
  85; 87; 86; 137; 214; 49; 210; 83; 131; 236; 36; 137;
  12; 36; 59; 20; 36; 116; 23; 128; 60; 22; 0; 116;
  14; 137; 144; 96; 2; 0; 0; 15; 182; 12; 22; 102;
  255; 4; 72; 66; 235; 228; 49; 201; 186; 1; 0; 0;
  0; 49; 219; 15; 183; 60; 88; 57; 215; 118; 7; 187;
  253; 255; 255; 255; 235; 98; 102; 137; 76; 92; 4; 41;
  250; 67; 1; 249; 1; 210; 131; 251; 16; 117; 224; 131;
  249; 1; 118; 4; 133; 210; 117; 223; 49; 219; 131; 249;
  1; 117; 36; 102; 131; 120; 2; 1; 116; 29; 235; 207;
  15; 182; 20; 30; 132; 210; 116; 18; 15; 183; 124; 84;
  4; 141; 111; 1; 102; 137; 92; 120; 32; 102; 137; 108;
  84; 4; 67; 57; 28; 36; 117; 224; 49; 219; 73; 117;
  19; 139; 176; 96; 2; 0; 0; 102; 199; 64; 2; 2;
  0; 141; 86; 1; 102; 137; 80; 34; 131; 196; 36; 137;
  216; 91; 94; 95; 93; 195; 85; 87; 86; 137; 206; 83;
  137; 195; 131; 236; 8; 137; 20; 36; 139; 20; 36; 137;
  216; 232; 245; 254; 255; 255; 139; 107; 16; 133; 237; 15;
  133; 222; 0; 0; 0; 61; 255; 0; 0; 0; 127; 13;
  139; 83; 24; 141; 74; 1; 137; 75; 24; 136; 2; 235;
  215; 61; 0; 1; 0; 0; 15; 132; 196; 0; 0; 0;
  139; 12; 36; 186; 29; 1; 0; 0; 129; 185; 96; 2;
  0; 0; 29; 1; 0; 0; 15; 78; 145; 96; 2; 0;
  0; 57; 208; 15; 143; 158; 0; 0; 0; 131; 190; 96;
  2; 0; 0; 255; 15; 132; 145; 0; 0; 0; 15; 182;
  144; 251; 6; 7; 0; 45; 1; 1; 0; 0; 15; 183;
  188; 0; 32; 8; 7; 0; 49; 192; 133; 210; 116; 7;
  137; 216; 232; 41; 254; 255; 255; 1; 248; 137; 242; 137;
  68; 36; 4; 137; 216; 232; 109; 254; 255; 255; 131; 190;
  96; 2; 0; 0; 29; 186; 29; 0; 0; 0; 15; 78;
  150; 96; 2; 0; 0; 57; 208; 127; 74; 15; 182; 144;
  148; 7; 7; 0; 15; 183; 188; 0; 192; 7; 7; 0;
  49; 192; 133; 210; 116; 7; 137; 216; 232; 231; 253; 255;
  255; 1; 199; 139; 67; 24; 43; 67; 20; 57; 248; 124;
  34; 139; 67; 24; 59; 108; 36; 4; 125; 13; 137; 234;
  41; 250; 138; 20; 16; 136; 20; 40; 69; 235; 234; 3;
  68; 36; 4; 137; 67; 24; 233; 13; 255; 255; 255; 189;
  253; 255; 255; 255; 131; 196; 8; 137; 232; 91; 94; 95;
  93; 195; 243; 15; 30; 251; 85; 87; 86; 83; 129; 236;
  56; 6; 0; 0; 139; 132; 36; 80; 6; 0; 0; 139;
  148; 36; 76; 6; 0; 0; 199; 132; 36; 92; 1; 0;
  0; 0; 0; 0; 0; 199; 132; 36; 96; 1; 0; 0;
  0; 0; 0; 0; 137; 132; 36; 84; 1; 0; 0; 3;
  132; 36; 84; 6; 0; 0; 137; 132; 36; 88; 1; 0;
  0; 199; 132; 36; 100; 1; 0; 0; 0; 0; 0; 0;
  137; 148; 36; 108; 1; 0; 0; 137; 148; 36; 104; 1;
  0; 0; 186; 1; 0; 0; 0; 141; 132; 36; 84; 1;
  0; 0; 232; 57; 253; 255; 255; 186; 2; 0; 0; 0;
  137; 4; 36; 141; 132; 36; 84; 1; 0; 0; 232; 37;
  253; 255; 255; 131; 248; 1; 15; 132; 143; 0; 0; 0;
  131; 248; 2; 15; 132; 94; 1; 0; 0; 133; 192; 15;
  133; 131; 3; 0; 0; 139; 132; 36; 84; 1; 0; 0;
  139; 148; 36; 88; 1; 0; 0; 41; 194; 131; 250; 3;
  15; 142; 106; 3; 0; 0; 102; 139; 72; 2; 15; 183;
  16; 247; 209; 102; 59; 8; 15; 133; 88; 3; 0; 0;
  131; 192; 4; 137; 132; 36; 84; 1; 0; 0; 74; 131;
  250; 255; 116; 40; 139; 140; 36; 84; 1; 0; 0; 141;
  65; 1; 137; 132; 36; 84; 1; 0; 0; 139; 132; 36;
  108; 1; 0; 0; 141; 88; 1; 137; 156; 36; 108; 1;
  0; 0; 138; 9; 136; 8; 235; 210; 199; 132; 36; 92;
  1; 0; 0; 0; 0; 0; 0; 199; 132; 36; 96; 1;
  0; 0; 0; 0; 0; 0; 233; 240; 2; 0; 0; 49;
  192; 102; 199; 132; 68; 112; 1; 0; 0; 0; 0; 64;
  131; 248; 16; 117; 240; 102; 199; 132; 36; 126; 1; 0;
  0; 24; 0; 49; 192; 199; 132; 36; 128; 1; 0; 0;
  152; 0; 112; 0; 141; 144; 0; 1; 0; 0; 102; 137;
  148; 68; 144; 1; 0; 0; 64; 131; 248; 24; 117; 236;
  49; 192; 102; 137; 132; 68; 192; 1; 0; 0; 64; 61;
  144; 0; 0; 0; 117; 240; 199; 132; 36; 224; 2; 0;
  0; 24; 1; 25; 1; 49; 192; 199; 132; 36; 228; 2;
  0; 0; 26; 1; 27; 1; 199; 132; 36; 232; 2; 0;
  0; 28; 1; 29; 1; 199; 132; 36; 236; 2; 0; 0;
  30; 1; 31; 1; 141; 144; 144; 0; 0; 0; 102; 137;
  148; 68; 240; 2; 0; 0; 64; 131; 248; 112; 117; 236].

Definition limine_hdd_2 : list Z := [
  199; 132; 36; 208; 3; 0; 0; 29; 1; 0; 0; 49;
  192; 102; 199; 132; 68; 212; 3; 0; 0; 0; 0; 64;
  131; 248; 16; 117; 240; 102; 199; 132; 36; 222; 3; 0;
  0; 32; 0; 49; 192; 102; 137; 132; 68; 244; 3; 0;
  0; 64; 131; 248; 32; 117; 242; 199; 132; 36; 52; 6;
  0; 0; 29; 0; 0; 0; 233; 250; 1; 0; 0; 186;
  5; 0; 0; 0; 141; 132; 36; 84; 1; 0; 0; 232;
  164; 251; 255; 255; 186; 5; 0; 0; 0; 141; 176; 1;
  1; 0; 0; 141; 132; 36; 84; 1; 0; 0; 232; 141;
  251; 255; 255; 186; 4; 0; 0; 0; 141; 120; 1; 141;
  132; 36; 84; 1; 0; 0; 232; 121; 251; 255; 255; 141;
  88; 4; 129; 254; 30; 1; 0; 0; 15; 135; 226; 1;
  0; 0; 131; 255; 30; 15; 135; 217; 1; 0; 0; 49;
  192; 198; 68; 4; 20; 0; 64; 131; 248; 19; 117; 245;
  49; 237; 57; 235; 118; 31; 186; 3; 0; 0; 0; 141;
  132; 36; 84; 1; 0; 0; 69; 232; 60; 251; 255; 255;
  15; 182; 149; 127; 7; 7; 0; 136; 68; 20; 20; 235;
  221; 49; 192; 102; 199; 132; 68; 112; 1; 0; 0; 0;
  0; 64; 131; 248; 16; 117; 240; 185; 19; 0; 0; 0;
  141; 84; 36; 20; 141; 132; 36; 112; 1; 0; 0; 199;
  132; 36; 208; 3; 0; 0; 255; 255; 255; 255; 232; 149;
  251; 255; 255; 133; 192; 15; 133; 114; 1; 0; 0; 131;
  188; 36; 208; 3; 0; 0; 255; 15; 132; 95; 1; 0;
  0; 49; 219; 141; 44; 62; 57; 235; 15; 131; 168; 0;
  0; 0; 141; 148; 36; 112; 1; 0; 0; 141; 132; 36;
  84; 1; 0; 0; 232; 26; 251; 255; 255; 137; 193; 59;
  132; 36; 208; 3; 0; 0; 15; 143; 48; 1; 0; 0;
  131; 248; 17; 116; 58; 131; 248; 18; 116; 75; 184; 1;
  0; 0; 0; 131; 249; 16; 117; 87; 133; 219; 15; 132;
  20; 1; 0; 0; 15; 182; 76; 28; 19; 186; 2; 0;
  0; 0; 141; 132; 36; 84; 1; 0; 0; 137; 76; 36;
  4; 232; 130; 250; 255; 255; 139; 76; 36; 4; 131; 192;
  3; 235; 44; 186; 3; 0; 0; 0; 141; 132; 36; 84;
  1; 0; 0; 232; 104; 250; 255; 255; 131; 192; 3; 235;
  20; 186; 7; 0; 0; 0; 141; 132; 36; 84; 1; 0;
  0; 232; 82; 250; 255; 255; 131; 192; 11; 49; 201; 41;
  221; 57; 197; 15; 130; 187; 0; 0; 0; 1; 216; 57;
  195; 15; 132; 84; 255; 255; 255; 67; 136; 76; 28; 19;
  235; 241; 128; 188; 36; 20; 1; 0; 0; 0; 15; 132;
  156; 0; 0; 0; 49; 192; 102; 199; 132; 68; 112; 1;
  0; 0; 0; 0; 64; 131; 248; 16; 117; 240; 137; 241;
  141; 84; 36; 20; 141; 132; 36; 112; 1; 0; 0; 199;
  132; 36; 208; 3; 0; 0; 255; 255; 255; 255; 232; 141;
  250; 255; 255; 133; 192; 117; 110; 141; 68; 36; 20; 141;
  20; 48; 49; 192; 102; 199; 132; 68; 212; 3; 0; 0;
  0; 0; 64; 131; 248; 16; 117; 240; 137; 249; 141; 132;
  36; 212; 3; 0; 0; 199; 132; 36; 52; 6; 0; 0;
  255; 255; 255; 255; 232; 87; 250; 255; 255; 133; 192; 117;
  56; 141; 140; 36; 212; 3; 0; 0; 141; 148; 36; 112;
  1; 0; 0; 141; 132; 36; 84; 1; 0; 0; 232; 231;
  250; 255; 255; 133; 192; 117; 26; 131; 60; 36; 0; 15;
  132; 73; 252; 255; 255; 139; 132; 36; 100; 1; 0; 0;
  133; 192; 116; 5; 184; 253; 255; 255; 255; 129; 196; 56;
  6; 0; 0; 91; 94; 95; 93; 195; 0; 0; 0; 0;
  0; 0; 0; 0; 0; 0; 0; 0; 16; 17; 18; 0;
  8; 7; 9; 6; 10; 5; 11; 4; 12; 3; 13; 2;
  14; 1; 15; 0; 0; 0; 0; 0; 1; 1; 2; 2;
  3; 3; 4; 4; 5; 5; 6; 6; 7; 7; 8; 8;
  9; 9; 10; 10; 11; 11; 12; 12; 13; 13; 0; 0;
  0; 0; 0; 0; 0; 0; 0; 0; 0; 0; 0; 0;
  1; 0; 2; 0; 3; 0; 4; 0; 5; 0; 7; 0;
  9; 0; 13; 0; 17; 0; 25; 0; 33; 0; 49; 0;
  65; 0; 97; 0; 129; 0; 193; 0; 1; 1; 129; 1;
  1; 2; 1; 3; 1; 4; 1; 6; 1; 8; 1; 12;
  1; 16; 1; 24; 1; 32; 1; 48; 1; 64; 1; 96;
  0; 0; 0; 0; 0; 0; 0; 0; 1; 1; 1; 1;
  2; 2; 2; 2; 3; 3; 3; 3; 4; 4; 4; 4;
  5; 5; 5; 5; 0; 127; 0; 0; 0; 0; 0; 0;
  3; 0; 4; 0; 5; 0; 6; 0; 7; 0; 8; 0;
  9; 0; 10; 0; 11; 0; 13; 0; 15; 0; 17; 0;
  19; 0; 23; 0; 27; 0; 31; 0; 35; 0; 43; 0;
  51; 0; 59; 0; 67; 0; 83; 0; 99; 0; 115; 0;
  131; 0; 163; 0; 195; 0; 227; 0; 2; 1; 0; 0;
  144; 144; 144; 144; 31; 139; 8; 0; 0; 0; 0; 0;
  2; 3; 173; 188; 13; 120; 20; 213; 213; 56; 62; 147;
  221; 192; 2; 11; 179; 152; 168; 65; 130; 46; 10; 45;
  40; 98; 22; 80; 179; 16; 52; 176; 153; 128; 133; 197;
  77; 150; 77; 168; 16; 98; 36; 89; 146; 0; 73; 154;
  157; 225; 163; 26; 77; 220; 172; 230; 102; 28; 74; 85;
  90; 109; 213; 162; 98; 107; 43; 45; 169; 242; 17; 16;
  112; 243; 209; 108; 16; 170; 107; 136; 18; 33; 197; 168;
  81; 39; 110; 170; 65; 124; 33; 4; 101; 127; 231; 220;
  153; 13; 249; 160; 125; 223; 255; 243; 252; 225; 153; 236;
  253; 56; 247; 220; 115; 207; 61; 247; 220; 115; 206; 189;
  51; 63; 36; 248; 223; 217; 241; 183; 40; 230; 128; 107;
  134; 142; 169; 232; 194; 228; 185; 191; 112; 236; 181; 141;
  94; 134; 249; 250; 150; 114; 134; 137; 99; 106; 205; 12;
  195; 108; 109; 219; 234; 223; 218; 177; 85; 217; 26; 236;
  58; 63; 142; 185; 242; 79; 74; 153; 162; 127; 181; 3;
  224; 26; 56; 54; 186; 19; 126; 57; 118; 108; 55; 253;
  153; 244; 61; 252; 56; 51; 50; 93; 242; 250; 41; 177;
  95; 23; 65; 198; 192; 212; 154; 6; 32; 226; 204; 254;
  41; 151; 185; 155; 253; 95; 87; 65; 157; 197; 191; 53;
  24; 169; 186; 20; 222; 168; 15; 111; 52; 132; 55; 50;
  225; 27; 59; 202; 189; 141; 35; 250; 102; 186; 57; 246;
  186; 206; 114; 252; 185; 177; 187; 156; 51; 55; 148; 31;
  99; 185; 155; 27; 190; 174; 47; 143; 99; 220; 111; 155;
  153; 173; 167; 183; 54; 108; 253; 124; 107; 104; 235; 137;
  169; 225; 48; 195; 100; 101; 175; 94; 217; 176; 141; 254;
  99; 174; 242; 47; 172; 27; 152; 123; 97; 166; 59; 60;
  162; 175; 252; 197; 153; 225; 153; 151; 203; 165; 107; 113;
  176; 228; 218; 203; 64; 82; 32; 26; 211; 81; 21; 48;
  200; 229; 83; 244; 129; 232; 190; 114; 181; 1; 12; 180;
  171; 130; 14; 244; 44; 253; 153; 116; 177; 66; 29; 232;
  215; 206; 138; 255; 60; 200; 13; 21; 116; 144; 253; 21;
  151; 220; 214; 235; 250; 202; 133; 235; 220; 105; 238; 244;
  61; 108; 130; 255; 159; 215; 185; 31; 112; 255; 92; 232;
  178; 64; 42; 164; 115; 91; 252; 125; 119; 225; 160; 187;
  42; 240; 231; 198; 179; 21; 87; 6; 189; 191; 98; 232;
  160; 113; 188; 18; 165; 153; 80; 250; 125; 126; 129; 179;
  180; 84; 125; 150; 208; 233; 72; 87; 190; 94; 195; 50;
  15; 60; 208; 112; 117; 38; 108; 3; 242; 231; 62; 14;
  83; 61; 238; 241; 171; 145; 206; 29; 236; 97; 144; 248;
  91; 31; 31; 66; 252; 247; 161; 31; 85; 4; 213; 48;
  255; 175; 52; 60; 78; 5; 193; 240; 234; 28; 47; 77;
  24; 95; 77; 244; 82; 62; 37; 209; 159; 177; 41; 244;
  103; 210; 82; 175; 198; 167; 135; 31; 255; 207; 124; 218;
  174; 118; 21; 188; 203; 77; 126; 146; 224; 189; 203; 45;
  253; 36; 209; 203; 253; 153; 123; 121; 228; 77; 238; 23;
  221; 89; 238; 108; 247; 106; 228; 147; 123; 165; 123; 5;
  214; 37; 120; 47; 253; 147; 233; 187; 2; 59; 199; 235;
  94; 43; 231; 78; 153; 230; 118; 184; 157; 200; 89; 119;
  134; 59; 211; 237; 114; 191; 112; 227; 8; 110; 7; 247;
  186; 218; 130; 242; 53; 137; 254; 220; 152; 226; 133; 142;
  141; 44; 118; 60; 206; 11; 108; 5; 89; 191; 66; 211;
  0; 49; 234; 255; 199; 252; 151; 127; 42; 71; 220; 219;
  6; 254; 119; 145; 250; 90; 44; 39; 95; 120; 187; 77;
  110; 194; 247; 201; 124; 95; 128; 255; 1; 1; 251; 126;
  224; 216; 184; 66; 67; 126; 21; 176; 229; 216; 85; 153;
  225; 174; 253; 19; 212; 21; 50; 142; 99; 131; 152; 95;
  200; 228; 51; 143; 28; 59; 218; 16; 102; 202; 47; 70;
  65; 127; 119; 51; 230; 207; 7; 174; 71; 16; 87; 195;
  5; 97; 138; 209; 210; 210; 208; 159; 125; 100; 112; 22;
  106; 73; 112; 72; 253; 224; 2; 128; 144; 150; 78; 137;
  245; 29; 21; 70; 145; 241; 129; 5; 122; 68; 62; 164;
  193; 213; 234; 51; 50; 113; 254; 73; 64; 18; 166; 152;
  176; 254; 220; 206; 236; 213; 13; 153; 216; 130; 156; 196;
  26; 40; 51; 157; 251; 11; 9; 102; 15; 131; 180; 94;
  216; 164; 63; 183; 51; 100; 148; 31; 225; 194; 178; 48;
  46; 252; 227; 185; 157; 63; 64; 91; 0; 195; 174; 34;
  232; 254; 248; 249; 152; 234; 69; 225; 91; 83; 195; 220;
  17; 127; 40; 202; 226; 7; 8; 23; 249; 34; 35; 179;
  112; 154; 130; 20; 120; 245; 83; 162; 143; 45; 150; 202;
  12; 139; 37; 209; 180; 88; 178; 199; 157; 219; 89; 24;
  71; 107; 22; 67; 213; 200; 197; 199; 178; 87; 103; 53;
  12; 156; 159; 31; 44; 126; 104; 239; 40; 100; 148; 207;
  82; 97; 57; 244; 231; 89; 165; 101; 80; 62; 74; 169;
  31; 148; 215; 41; 111; 14; 202; 235; 149; 87; 6; 229;
  163; 149; 167; 7; 229; 71; 40; 143; 15; 202; 143; 84].

Definition limine_hdd_3 : list Z := [
  74; 213; 252; 10; 154; 53; 40; 107; 104; 182; 191; 126;
  148; 146; 62; 176; 126; 180; 98; 211; 234; 213; 252; 24;
  101; 246; 160; 188; 81; 185; 101; 80; 126; 172; 18; 51;
  40; 63; 78; 209; 13; 198; 207; 41; 223; 241; 3; 233;
  49; 41; 159; 241; 3; 250; 27; 175; 156; 224; 7; 193;
  95; 163; 212; 15; 130; 143; 81; 222; 28; 148; 143; 85;
  94; 25; 148; 191; 86; 121; 122; 80; 254; 58; 229; 241;
  65; 249; 235; 149; 210; 65; 249; 56; 229; 161; 65; 249;
  9; 74; 250; 160; 252; 13; 202; 194; 65; 249; 137; 202;
  172; 65; 249; 120; 229; 230; 65; 249; 73; 202; 53; 3;
  199; 115; 163; 162; 27; 60; 158; 155; 148; 239; 82; 24;
  6; 69; 135; 124; 116; 208; 20; 13; 138; 201; 253; 173;
  229; 244; 193; 241; 144; 178; 158; 19; 70; 118; 87; 233;
  39; 216; 66; 255; 179; 18; 164; 229; 28; 119; 227; 37;
  215; 65; 148; 111; 139; 159; 124; 145; 153; 33; 219; 63;
  119; 122; 187; 103; 4; 120; 186; 230; 64; 212; 154; 248;
  175; 24; 229; 205; 112; 56; 236; 116; 230; 235; 191; 96;
  152; 52; 197; 233; 2; 73; 108; 52; 129; 26; 30; 105;
  57; 221; 245; 38; 203; 48; 178; 189; 157; 162; 168; 157;
  0; 127; 20; 31; 0; 75; 174; 118; 18; 36; 31; 212;
  117; 197; 213; 117; 196; 141; 106; 230; 246; 189; 87; 247;
  181; 161; 238; 83; 83; 197; 103; 12; 236; 96; 163; 154;
  71; 5; 189; 243; 13; 189; 81; 160; 57; 248; 118; 113;
  70; 93; 199; 8; 111; 183; 209; 235; 215; 59; 148; 229;
  54; 232; 213; 213; 254; 42; 86; 146; 58; 138; 176; 238;
  179; 17; 222; 122; 189; 50; 19; 208; 66; 183; 1; 190;
  149; 46; 198; 243; 150; 211; 18; 223; 106; 229; 219; 185;
  39; 222; 67; 74; 237; 173; 117; 159; 142; 144; 23; 24;
  137; 253; 56; 225; 131; 186; 104; 68; 144; 86; 152; 24;
  22; 141; 14; 229; 86; 149; 98; 201; 126; 220; 231; 127;
  25; 43; 196; 149; 108; 29; 244; 248; 22; 43; 45; 208;
  187; 165; 95; 24; 2; 139; 226; 16; 105; 211; 72; 150;
  212; 147; 58; 119; 93; 147; 1; 41; 255; 44; 110; 212;
  187; 220; 190; 227; 117; 10; 82; 62; 149; 18; 254; 238;
  168; 122; 146; 25; 155; 174; 252; 117; 33; 116; 153; 25;
  75; 22; 25; 72; 29; 183; 191; 73; 249; 245; 101; 74;
  92; 215; 78; 192; 162; 227; 131; 233; 133; 137; 249; 163;
  128; 89; 14; 101; 247; 114; 236; 218; 248; 119; 214; 231;
  151; 248; 96; 97; 34; 151; 114; 86; 165; 45; 255; 243;
  78; 172; 255; 21; 173; 55; 97; 61; 151; 242; 113; 152;
  111; 237; 250; 9; 140; 179; 242; 52; 87; 185; 3; 80;
  58; 28; 249; 51; 1; 13; 12; 66; 249; 151; 83; 227;
  58; 231; 123; 2; 106; 72; 207; 145; 118; 152; 162; 74;
  127; 109; 13; 224; 225; 82; 122; 96; 56; 25; 138; 8;
  216; 180; 177; 144; 69; 177; 201; 56; 30; 253; 20; 133;
  89; 136; 89; 195; 3; 63; 207; 112; 40; 119; 170; 104;
  228; 188; 239; 73; 219; 202; 213; 217; 154; 0; 28; 192;
  217; 163; 211; 95; 86; 3; 211; 191; 74; 226; 77; 146;
  104; 144; 178; 226; 36; 87; 44; 225; 119; 88; 252; 231;
  222; 144; 82; 99; 137; 107; 39; 183; 187; 97; 62; 3;
  59; 241; 198; 113; 105; 105; 249; 247; 127; 129; 234; 91;
  169; 77; 3; 148; 243; 141; 56; 155; 226; 181; 64; 70;
  62; 2; 40; 187; 231; 211; 142; 94; 197; 242; 151; 241;
  143; 92; 230; 63; 48; 10; 119; 144; 0; 95; 99; 98;
  220; 36; 235; 77; 82; 239; 237; 224; 2; 124; 39; 210;
  7; 155; 199; 30; 137; 223; 81; 215; 167; 119; 19; 215;
  62; 201; 181; 147; 240; 181; 180; 219; 17; 196; 117; 232;
  157; 40; 36; 143; 111; 147; 249; 26; 82; 95; 215; 171;
  247; 126; 102; 4; 248; 38; 153; 247; 19; 87; 107; 186;
  3; 215; 107; 122; 47; 157; 128; 243; 124; 51; 43; 222;
  100; 9; 123; 203; 140; 140; 112; 189; 131; 219; 189; 58;
  214; 25; 190; 19; 187; 71; 30; 206; 239; 163; 64; 56;
  248; 222; 43; 131; 199; 113; 59; 43; 186; 123; 161; 143;
  124; 230; 6; 32; 61; 152; 12; 34; 189; 253; 151; 154;
  188; 249; 114; 33; 129; 198; 209; 171; 187; 46; 129; 76;
  6; 185; 253; 223; 1; 9; 100; 111; 60; 20; 187; 137;
  239; 46; 248; 145; 125; 249; 240; 55; 224; 91; 14; 127;
  89; 36; 21; 100; 194; 95; 119; 81; 79; 124; 113; 20;
  72; 158; 67; 171; 87; 104; 213; 222; 249; 175; 3; 166;
  100; 149; 89; 203; 129; 137; 202; 3; 14; 202; 172; 174;
  183; 116; 184; 14; 229; 178; 231; 40; 167; 2; 252; 33;
  102; 49; 195; 0; 19; 40; 13; 78; 119; 192; 135; 68;
  221; 8; 172; 168; 113; 75; 180; 103; 96; 195; 75; 146;
  15; 73; 1; 86; 18; 126; 151; 204; 63; 71; 217; 97;
  187; 160; 177; 99; 7; 203; 249; 22; 1; 86; 137; 223;
  58; 134; 175; 230; 42; 231; 65; 218; 237; 45; 123; 154;
  225; 42; 19; 32; 9; 20; 20; 230; 43; 159; 220; 75;
  187; 39; 13; 106; 71; 1; 155; 137; 74; 144; 142; 219;
  207; 63; 29; 176; 37; 208; 140; 45; 86; 226; 171; 37;
  215; 214; 128; 109; 142; 154; 79; 36; 206; 164; 128; 13;
  187; 14; 159; 247; 61; 2; 127; 245; 194; 188; 242; 195;
  216; 254; 87; 27; 103; 33; 94; 182; 144; 193; 255; 78;
  229; 249; 31; 145; 24; 51; 138; 238; 33; 152; 73; 137;
  50; 162; 201; 102; 100; 137; 205; 144; 76; 104; 46; 100;
  146; 40; 247; 212; 18; 76; 1; 27; 14; 35; 87; 169;
  104; 106; 226; 117; 238; 141; 1; 2; 182; 108; 222; 21;
  1; 11; 248; 28; 97; 52; 141; 129; 103; 190; 85; 26;
  151; 3; 190; 165; 97; 245; 95; 192; 183; 88; 75; 73;
  20; 78; 210; 251; 118; 0; 215; 137; 239; 65; 200; 112;
  187; 109; 177; 84; 164; 185; 39; 119; 178; 40; 157; 116;
  46; 77; 64; 229; 131; 180; 105; 137; 134; 24; 166; 186;
  16; 146; 47; 171; 221; 9; 90; 41; 21; 97; 42; 180;
  190; 245; 116; 58; 182; 23; 33; 78; 11; 241; 37; 208;
  238; 226; 40; 142; 41; 26; 52; 206; 209; 246; 25; 56;
  184; 22; 226; 155; 70; 1; 176; 19; 226; 51; 171; 3;
  214; 86; 8; 217; 30; 11; 249; 115; 111; 104; 75; 67;
  210; 129; 232; 75; 20; 158; 240; 173; 146; 15; 133; 41;
  77; 147; 127; 58; 217; 25; 255; 211; 47; 251; 18; 109;
  42; 252; 68; 226; 59; 211; 195; 179; 185; 125; 141; 142;
  252; 98; 20; 176; 139; 118; 202; 44; 149; 59; 6; 232;
  163; 107; 63; 42; 205; 189; 216; 177; 116; 24; 233; 99;
  247; 226; 72; 199; 31; 198; 145; 233; 182; 35; 89; 222;
  190; 123; 185; 39; 220; 218; 112; 146; 41; 181; 56; 40;
  178; 61; 5; 211; 244; 47; 241; 37; 210; 242; 25; 52;
  157; 68; 211; 8; 121; 27; 45; 159; 184; 29; 75; 200;
  71; 243; 232; 76; 76; 220; 139; 179; 32; 237; 197; 52;
  183; 176; 7; 22; 146; 141; 206; 11; 161; 127; 85; 78;
  64; 17; 18; 24; 166; 211; 228; 61; 140; 127; 71; 17;
  218; 130; 208; 10; 206; 55; 247; 50; 194; 174; 162; 162;
  162; 119; 56; 100; 91; 138; 211; 161; 236; 89; 64; 71;
  87; 233; 23; 244; 77; 182; 100; 246; 101; 92; 94; 150;
  243; 178; 131; 37; 215; 98; 82; 186; 150; 174; 220; 248;
  199; 85; 105; 63; 155; 68; 85; 114; 6; 9; 64; 211;
  207; 212; 166; 178; 67; 231; 237; 99; 55; 154; 147; 133;
  27; 104; 235; 161; 109; 147; 30; 15; 219; 226; 83; 67;
  71; 194; 116; 129; 84; 80; 49; 239; 65; 111; 201; 119;
  199; 15; 176; 254; 243; 190; 167; 234; 132; 170; 18; 210;
  4; 26; 52; 54; 255; 40; 85; 255; 215; 93; 163; 173;
  44; 159; 95; 140; 131; 29; 180; 17; 74; 51; 20; 38;
  82; 106; 241; 251; 78; 11; 143; 73; 206; 56; 201; 22;
  219; 20; 61; 30; 68; 139; 245; 181; 136; 35; 231; 191;
  56; 51; 138; 17; 70; 163; 168; 127; 8; 13; 66; 139;
  143; 236; 40; 3; 197; 16; 78; 155; 222; 147; 54; 161;
  47; 221; 145; 153; 145; 191; 227; 71; 216; 212; 149; 209;
  177; 136; 40; 214; 169; 28; 142; 161; 99; 42; 140; 205;
  207; 90; 10; 123; 75; 227; 103; 48; 231; 59; 84; 177;
  128; 125; 58; 22; 49; 157; 69; 57; 56; 187; 132; 246;
  108; 241; 135; 70; 53; 69; 155; 176; 191; 26; 54; 66;
  253; 21; 101; 232; 237; 78; 146; 178; 12; 18; 104; 204;
  184; 36; 220; 99; 68; 35; 144; 110; 250; 18; 164; 70;
  97; 84; 5; 229; 215; 20; 84; 39; 58; 5; 231; 222;
  0; 73; 76; 115; 160; 153; 117; 236; 187; 112; 184; 102;
  244; 193; 86; 40; 254; 166; 198; 124; 240; 67; 252; 85;
  158; 4; 36; 202; 210; 68; 248; 51; 18; 54; 5; 229;
  73; 85; 11; 95; 104; 2; 181; 16; 22; 175; 3; 218;
  184; 125; 167; 157; 202; 251; 169; 234; 122; 70; 39; 61;
  116; 205; 50; 145; 83; 190; 88; 6; 208; 71; 225; 15;
  45; 123; 25; 255; 148; 111; 30; 203; 8; 35; 149; 103;
  64; 10; 66; 119; 129; 117; 157; 28; 7; 140; 189; 96;
  57; 237; 125; 47; 108; 221; 20; 255; 200; 45; 233; 206;
  240; 38; 3; 183; 111; 17; 108; 250; 247; 164; 70; 204;
  148; 209; 169; 202; 67; 208; 0; 198; 161; 179; 133; 218;
  202; 231; 143; 167; 91; 149; 9; 153; 114; 43; 12; 74;
  105; 255; 25; 133; 44; 159; 111; 162; 21; 227; 96; 215;
  221; 255; 37; 221; 218; 254; 5; 53; 74; 38; 248; 182;
  26; 111; 156; 114; 214; 119; 222; 238; 120; 80; 107; 209;
  224; 166; 176; 24; 2; 8; 139; 6; 101; 45; 221; 235;
  226; 154; 248; 11; 76; 254; 251; 95; 226; 196; 220; 177;
  84; 181; 56; 178; 126; 56; 10; 106; 239; 89; 63; 183].

Definition limine_hdd_4 : list Z := [
  207; 63; 104; 179; 121; 1; 214; 160; 52; 41; 22; 250;
  3; 1; 48; 73; 58; 43; 111; 228; 42; 255; 136; 75;
  114; 165; 49; 212; 13; 148; 29; 65; 149; 4; 12; 77;
  153; 27; 81; 205; 188; 145; 232; 44; 45; 32; 242; 62;
  5; 148; 59; 122; 73; 128; 35; 61; 195; 129; 27; 219;
  151; 192; 225; 106; 90; 14; 122; 54; 137; 21; 110; 184;
  236; 23; 199; 101; 102; 230; 127; 168; 14; 227; 58; 24;
  70; 69; 19; 194; 135; 14; 75; 190; 173; 184; 85; 118;
  27; 45; 168; 108; 29; 202; 231; 86; 84; 230; 250; 159;
  175; 150; 60; 134; 76; 75; 56; 67; 218; 251; 4; 212;
  103; 214; 125; 57; 70; 69; 45; 1; 234; 151; 145; 80;
  192; 76; 40; 197; 196; 102; 148; 120; 3; 137; 3; 35;
  161; 60; 241; 14; 49; 58; 204; 155; 66; 231; 36; 155;
  190; 201; 151; 13; 4; 176; 196; 151; 11; 63; 146; 205;
  0; 250; 21; 18; 242; 139; 72; 22; 192; 86; 51; 73;
  119; 112; 219; 235; 42; 253; 220; 246; 122; 243; 7; 85;
  242; 106; 40; 22; 70; 217; 160; 117; 149; 45; 28; 58;
  211; 164; 99; 164; 195; 216; 64; 122; 17; 219; 251; 194;
  92; 229; 86; 208; 199; 220; 62; 29; 204; 155; 185; 34;
  140; 212; 115; 79; 60; 12; 69; 164; 183; 226; 171; 240;
  72; 134; 153; 202; 0; 161; 236; 165; 174; 51; 184; 14;
  247; 121; 204; 228; 236; 244; 30; 121; 249; 236; 201; 229;
  159; 178; 66; 180; 87; 153; 28; 154; 176; 208; 171; 220;
  28; 138; 41; 255; 165; 142; 229; 246; 253; 44; 74; 252;
  121; 249; 220; 101; 194; 184; 233; 205; 236; 187; 222; 94;
  221; 99; 74; 215; 115; 208; 176; 252; 151; 172; 93; 236;
  246; 118; 69; 115; 149; 4; 53; 116; 125; 180; 188; 55;
  31; 250; 119; 164; 165; 103; 16; 121; 5; 164; 148; 145;
  32; 211; 43; 84; 174; 63; 144; 33; 209; 50; 71; 83;
  229; 88; 132; 98; 148; 84; 96; 109; 40; 25; 60; 85;
  225; 149; 208; 18; 249; 103; 108; 210; 76; 97; 113; 85;
  229; 216; 181; 80; 73; 222; 181; 126; 180; 209; 80; 157;
  18; 51; 57; 105; 158; 216; 9; 54; 2; 148; 101; 100;
  104; 243; 7; 24; 174; 85; 49; 204; 249; 89; 68; 78;
  111; 226; 246; 197; 144; 222; 233; 65; 246; 68; 104; 172;
  165; 37; 84; 87; 254; 200; 152; 201; 243; 196; 191; 135;
  26; 73; 160; 171; 251; 50; 101; 162; 228; 137; 146; 86;
  142; 46; 79; 100; 228; 205; 172; 144; 83; 126; 24; 57;
  206; 136; 215; 165; 165; 133; 247; 34; 239; 194; 123; 145;
  119; 202; 198; 187; 40; 74; 152; 100; 152; 70; 167; 194;
  36; 226; 102; 135; 53; 43; 30; 176; 180; 164; 91; 90;
  156; 233; 25; 42; 36; 78; 240; 95; 64; 194; 212; 169;
  163; 83; 252; 34; 226; 33; 101; 166; 46; 27; 237; 209;
  208; 228; 91; 77; 103; 181; 68; 79; 86; 24; 170; 105;
  102; 144; 194; 128; 173; 236; 11; 201; 110; 0; 67; 186;
  174; 99; 12; 203; 155; 198; 187; 98; 37; 86; 2; 19;
  197; 144; 213; 117; 255; 220; 254; 149; 227; 237; 54; 21;
  26; 113; 173; 156; 186; 147; 210; 118; 148; 42; 75; 114;
  50; 67; 174; 97; 96; 135; 7; 149; 19; 207; 237; 95;
  17; 203; 54; 200; 54; 147; 181; 103; 227; 53; 184; 56;
  47; 225; 226; 188; 119; 17; 133; 15; 45; 144; 98; 172;
  125; 226; 8; 50; 161; 134; 13; 221; 93; 209; 135; 251;
  41; 172; 43; 107; 31; 247; 219; 122; 67; 80; 188; 69;
  114; 234; 65; 115; 198; 65; 179; 42; 254; 171; 252; 89;
  95; 65; 203; 104; 104; 89; 205; 127; 133; 141; 71; 0;
  75; 255; 8; 122; 107; 160; 158; 70; 55; 135; 184; 130;
  146; 9; 118; 215; 234; 40; 112; 27; 64; 50; 43; 163;
  81; 190; 26; 2; 124; 135; 182; 93; 251; 67; 122; 220;
  133; 113; 83; 110; 170; 202; 82; 96; 146; 226; 37; 123;
  135; 148; 213; 201; 237; 75; 138; 90; 204; 237; 60; 6;
  174; 129; 97; 212; 251; 36; 171; 147; 148; 117; 132; 58;
  184; 125; 188; 18; 224; 187; 17; 94; 94; 62; 139; 13;
  240; 212; 57; 7; 31; 7; 26; 78; 146; 236; 138; 148;
  213; 205; 237; 123; 36; 42; 60; 176; 101; 55; 41; 83;
  66; 159; 72; 124; 187; 14; 124; 38; 87; 171; 228; 234;
  150; 141; 255; 160; 198; 10; 175; 112; 127; 13; 158; 232;
  35; 39; 234; 46; 221; 116; 190; 206; 204; 241; 245; 28;
  127; 130; 124; 52; 170; 73; 176; 214; 142; 68; 93; 145;
  165; 0; 52; 184; 64; 143; 77; 135; 38; 216; 211; 17;
  100; 139; 37; 204; 189; 118; 225; 196; 151; 208; 66; 208;
  147; 11; 150; 243; 163; 206; 141; 58; 185; 152; 100; 41;
  164; 172; 59; 116; 92; 226; 143; 75; 98; 55; 109; 217;
  201; 198; 73; 101; 173; 227; 75; 244; 146; 24; 148; 248;
  14; 146; 161; 39; 35; 36; 190; 141; 36; 2; 135; 163;
  44; 126; 111; 227; 140; 126; 102; 145; 247; 193; 49; 236;
  112; 146; 6; 175; 127; 185; 183; 123; 41; 113; 189; 46;
  187; 218; 192; 24; 145; 249; 214; 0; 223; 70; 237; 46;
  190; 93; 253; 233; 80; 127; 40; 207; 168; 158; 70; 182;
  222; 79; 87; 242; 146; 241; 220; 126; 27; 7; 139; 55;
  140; 16; 53; 148; 53; 101; 187; 184; 221; 117; 1; 126;
  143; 202; 98; 48; 250; 235; 122; 111; 34; 252; 33; 96;
  135; 84; 118; 136; 219; 93; 214; 198; 237; 110; 98; 3;
  164; 231; 66; 94; 27; 113; 53; 178; 101; 141; 82; 89;
  39; 1; 187; 191; 249; 66; 94; 7; 183; 251; 34; 219;
  39; 137; 141; 99; 68; 152; 22; 157; 45; 69; 242; 36;
  73; 15; 39; 199; 56; 23; 79; 23; 253; 19; 202; 26;
  189; 124; 13; 235; 117; 237; 97; 66; 41; 64; 59; 208;
  11; 196; 42; 81; 26; 65; 71; 168; 203; 8; 221; 212;
  114; 187; 237; 208; 7; 223; 206; 214; 65; 70; 237; 5;
  240; 115; 251; 108; 227; 89; 123; 163; 100; 239; 228; 118;
  99; 87; 236; 187; 146; 248; 186; 85; 172; 145; 196; 61;
  19; 197; 93; 165; 213; 105; 228; 100; 90; 216; 147; 28;
  246; 36; 113; 251; 151; 112; 23; 62; 165; 164; 164; 131;
  194; 52; 132; 103; 43; 43; 238; 102; 232; 82; 106; 0;
  205; 69; 5; 57; 27; 197; 113; 99; 138; 42; 200; 139;
  29; 133; 250; 252; 234; 175; 208; 171; 51; 40; 219; 250;
  55; 41; 11; 172; 53; 220; 10; 143; 36; 235; 28; 144;
  132; 223; 40; 237; 151; 85; 127; 25; 71; 254; 175; 16;
  207; 76; 138; 199; 108; 57; 125; 197; 135; 83; 229; 153;
  156; 168; 232; 158; 161; 199; 165; 30; 188; 4; 75; 88;
  110; 189; 132; 54; 20; 254; 5; 99; 191; 17; 77; 88;
  239; 195; 6; 72; 30; 160; 250; 210; 230; 152; 7; 123;
  142; 239; 247; 12; 117; 2; 228; 189; 10; 192; 73; 49;
  210; 18; 125; 134; 68; 219; 43; 122; 213; 165; 37; 1;
  24; 5; 53; 69; 218; 160; 247; 208; 173; 178; 220; 9;
  181; 7; 209; 41; 32; 61; 1; 31; 102; 232; 84; 223;
  14; 118; 16; 133; 165; 35; 190; 136; 148; 86; 218; 212;
  17; 219; 165; 237; 8; 198; 237; 95; 24; 203; 214; 91;
  128; 183; 63; 75; 182; 214; 61; 58; 137; 219; 47; 44;
  92; 72; 246; 30; 199; 142; 69; 24; 224; 156; 17; 86;
  154; 17; 71; 39; 227; 122; 48; 145; 184; 80; 12; 8;
  140; 97; 186; 15; 199; 192; 54; 116; 221; 129; 86; 114;
  120; 152; 247; 230; 237; 118; 128; 253; 1; 123; 114; 34;
  186; 27; 56; 7; 202; 71; 84; 201; 152; 129; 26; 61;
  152; 58; 51; 160; 190; 161; 208; 144; 127; 139; 130; 38;
  217; 36; 158; 82; 5; 78; 208; 9; 70; 252; 116; 12;
  223; 33; 182; 195; 74; 27; 195; 119; 115; 219; 113; 155;
  62; 58; 200; 14; 2; 79; 24; 124; 224; 120; 73; 52;
  73; 101; 224; 9; 251; 113; 227; 115; 53; 70; 47; 71;
  53; 1; 182; 56; 204; 203; 190; 242; 15; 89; 180; 145;
  132; 37; 150; 211; 164; 206; 218; 67; 218; 38; 244; 214;
  210; 64; 250; 227; 89; 8; 213; 76; 78; 73; 246; 198;
  233; 61; 19; 250; 72; 131; 21; 17; 248; 39; 124; 144;
  201; 45; 108; 147; 159; 248; 136; 197; 88; 129; 193; 73;
  183; 217; 87; 66; 192; 190; 54; 244; 1; 127; 202; 162;
  183; 6; 206; 55; 224; 78; 134; 21; 227; 228; 184; 221;
  245; 253; 11; 67; 182; 183; 201; 174; 14; 109; 209; 209;
  229; 119; 181; 117; 55; 241; 146; 42; 230; 239; 163; 152;
  187; 84; 49; 119; 193; 122; 225; 59; 217; 32; 56; 143;
  84; 210; 65; 139; 213; 144; 58; 246; 4; 100; 0; 4;
  151; 0; 192; 180; 97; 253; 78; 109; 37; 32; 224; 78;
  226; 218; 195; 242; 123; 72; 239; 168; 30; 33; 222; 250;
  30; 233; 157; 208; 86; 106; 156; 254; 222; 132; 79; 176;
  68; 116; 135; 12; 211; 207; 178; 98; 205; 248; 178; 61;
  82; 89; 163; 213; 238; 167; 35; 159; 16; 240; 232; 36;
  187; 159; 216; 95; 151; 248; 215; 3; 252; 46; 26; 73;
  114; 237; 74; 155; 14; 86; 98; 58; 10; 115; 88; 220;
  19; 22; 107; 96; 216; 225; 132; 9; 174; 70; 101; 218;
  156; 200; 108; 93; 163; 214; 228; 207; 80; 168; 221; 178;
  122; 1; 13; 244; 128; 38; 108; 28; 3; 107; 210; 23;
  166; 91; 146; 127; 12; 223; 168; 206; 213; 96; 125; 14;
  218; 169; 27; 131; 163; 153; 202; 125; 151; 84; 209; 109;
  66; 30; 156; 161; 1; 170; 227; 7; 49; 184; 77; 122;
  21; 223; 69; 100; 141; 176; 12; 20; 33; 183; 223; 17;
  203; 6; 37; 71; 108; 69; 31; 238; 65; 27; 175; 71;
  171; 232; 124; 254; 42; 232; 92; 105; 78; 86; 61; 242;
  29; 56; 27; 139; 77; 85; 207; 180; 66; 34; 61; 92;
  18; 43; 167; 24; 76; 14; 217; 139; 147; 231; 80; 186;
  187; 104; 71; 161; 145; 77; 94; 172; 135; 126; 130; 7].

Definition limine_hdd_5 : list Z := [
  119; 168; 253; 76; 130; 126; 170; 248; 0; 82; 48; 25;
  113; 216; 131; 232; 206; 163; 92; 236; 95; 96; 6; 101;
  99; 75; 38; 239; 77; 191; 236; 253; 166; 220; 234; 73;
  154; 200; 31; 34; 98; 173; 103; 44; 174; 156; 71; 161;
  247; 174; 79; 17; 215; 91; 40; 101; 96; 146; 229; 99;
  240; 33; 45; 67; 121; 12; 58; 211; 38; 158; 198; 193;
  174; 50; 241; 68; 108; 5; 191; 135; 138; 8; 106; 187;
  88; 117; 172; 6; 157; 216; 17; 83; 214; 25; 250; 146;
  219; 231; 164; 42; 152; 124; 0; 90; 141; 52; 63; 79;
  122; 185; 221; 31; 129; 254; 197; 73; 175; 5; 149; 250;
  165; 119; 190; 153; 6; 229; 154; 64; 2; 100; 163; 137;
  188; 207; 249; 158; 0; 180; 7; 17; 119; 197; 101; 134;
  97; 97; 205; 79; 248; 224; 32; 38; 184; 133; 245; 64;
  174; 227; 213; 56; 104; 160; 188; 116; 135; 106; 187; 99;
  235; 244; 244; 204; 12; 92; 136; 225; 59; 49; 231; 36;
  119; 198; 35; 196; 159; 126; 208; 98; 0; 2; 198; 6;
  242; 95; 71; 30; 231; 222; 11; 150; 7; 31; 160; 58;
  34; 190; 162; 1; 135; 235; 160; 131; 197; 160; 193; 31;
  21; 12; 114; 65; 21; 48; 145; 219; 39; 6; 66; 19;
  44; 45; 214; 59; 177; 183; 151; 241; 15; 249; 96; 194;
  69; 207; 179; 176; 99; 156; 12; 109; 69; 141; 208; 51;
  44; 158; 147; 2; 83; 138; 65; 44; 222; 40; 227; 206;
  22; 209; 15; 233; 14; 165; 214; 18; 145; 55; 14; 104;
  33; 13; 249; 31; 34; 207; 63; 215; 225; 220; 44; 227;
  44; 45; 238; 138; 139; 140; 158; 123; 18; 237; 193; 90;
  20; 12; 110; 223; 163; 227; 3; 169; 73; 152; 124; 62;
  144; 154; 140; 204; 184; 112; 145; 164; 166; 224; 138; 76;
  93; 76; 122; 229; 195; 168; 60; 47; 124; 170; 42; 94;
  85; 125; 146; 237; 168; 180; 164; 237; 180; 228; 69; 76;
  115; 187; 51; 18; 185; 221; 171; 231; 176; 39; 46; 184;
  231; 176; 167; 72; 234; 82; 146; 225; 112; 58; 209; 144;
  7; 196; 224; 212; 133; 239; 82; 110; 180; 92; 217; 57;
  102; 34; 159; 44; 93; 64; 217; 125; 106; 160; 38; 144;
  154; 66; 227; 26; 169; 139; 233; 84; 47; 75; 34; 25;
  201; 249; 231; 144; 244; 22; 152; 51; 77; 47; 151; 83;
  233; 27; 160; 151; 183; 159; 7; 98; 16; 31; 149; 174;
  76; 196; 119; 145; 6; 97; 16; 66; 182; 43; 178; 227;
  102; 235; 7; 170; 232; 249; 176; 242; 137; 40; 100; 131;
  195; 44; 103; 41; 242; 83; 38; 152; 104; 198; 122; 76;
  173; 246; 99; 245; 90; 168; 102; 131; 105; 249; 88; 225;
  144; 83; 151; 59; 20; 229; 75; 232; 54; 26; 237; 142;
  163; 164; 135; 36; 77; 81; 138; 126; 80; 87; 31; 118;
  74; 157; 172; 111; 176; 97; 37; 52; 4; 91; 95; 117;
  4; 86; 9; 223; 39; 221; 33; 192; 246; 209; 113; 41;
  18; 182; 9; 106; 41; 52; 114; 15; 99; 166; 58; 54;
  177; 178; 5; 214; 121; 121; 223; 42; 112; 27; 38; 55;
  151; 247; 129; 251; 80; 95; 25; 20; 12; 97; 10; 28;
  250; 80; 85; 161; 220; 190; 173; 184; 246; 228; 223; 96;
  134; 248; 26; 161; 10; 108; 108; 68; 236; 32; 61; 153;
  97; 209; 164; 252; 171; 183; 159; 32; 206; 119; 24; 250;
  120; 25; 69; 82; 162; 178; 30; 240; 29; 215; 58; 38;
  190; 102; 186; 97; 54; 171; 27; 102; 59; 171; 193; 201;
  153; 183; 234; 162; 17; 212; 90; 191; 145; 242; 97; 194;
  215; 48; 156; 189; 56; 126; 216; 200; 29; 144; 201; 84;
  142; 222; 211; 31; 156; 197; 32; 146; 180; 40; 78; 146;
  17; 175; 156; 2; 54; 214; 253; 241; 132; 118; 34; 199;
  142; 188; 66; 88; 120; 47; 142; 1; 169; 187; 87; 165;
  14; 152; 53; 85; 202; 140; 175; 101; 76; 176; 212; 250;
  194; 28; 232; 35; 131; 252; 56; 178; 57; 193; 63; 157;
  146; 198; 6; 186; 86; 211; 72; 9; 162; 224; 246; 57;
  28; 172; 11; 118; 37; 83; 249; 189; 12; 231; 187; 128;
  156; 115; 36; 227; 78; 78; 133; 145; 252; 166; 45; 26;
  75; 244; 18; 147; 73; 62; 32; 245; 164; 71; 153; 115;
  254; 202; 180; 208; 113; 184; 112; 28; 255; 102; 254; 179;
  232; 60; 240; 253; 64; 209; 121; 20; 193; 169; 221; 68;
  33; 202; 55; 27; 24; 225; 62; 144; 30; 185; 76; 105;
  122; 130; 106; 63; 235; 73; 207; 232; 136; 221; 30; 90;
  64; 133; 168; 172; 95; 136; 222; 87; 235; 94; 7; 44;
  161; 169; 108; 176; 162; 9; 151; 123; 26; 93; 238; 142;
  140; 208; 108; 201; 97; 210; 180; 48; 13; 86; 180; 0;
  152; 146; 50; 15; 132; 234; 52; 106; 135; 244; 170; 223;
  224; 46; 235; 245; 199; 129; 10; 238; 117; 132; 247; 226;
  44; 43; 69; 157; 32; 5; 115; 112; 204; 50; 181; 94;
  112; 180; 105; 218; 104; 187; 46; 14; 152; 243; 39; 127;
  164; 30; 111; 254; 183; 136; 245; 155; 185; 87; 139; 128;
  83; 15; 37; 191; 61; 90; 53; 203; 238; 156; 174; 57;
  41; 90; 93; 134; 83; 202; 50; 130; 50; 1; 36; 78;
  101; 55; 23; 177; 217; 198; 147; 44; 35; 17; 13; 114;
  30; 216; 35; 89; 93; 31; 114; 116; 153; 58; 149; 206;
  177; 87; 7; 24; 53; 14; 120; 157; 215; 107; 241; 247;
  31; 188; 104; 86; 198; 52; 212; 83; 101; 198; 194; 120;
  197; 117; 171; 106; 156; 4; 112; 46; 26; 192; 233; 42;
  127; 116; 44; 35; 76; 204; 44; 228; 193; 178; 81; 70;
  221; 171; 197; 185; 56; 95; 61; 176; 163; 235; 111; 44;
  237; 49; 67; 201; 250; 54; 18; 234; 185; 23; 99; 92;
  70; 101; 44; 197; 99; 204; 204; 112; 16; 190; 83; 121;
  252; 91; 77; 196; 184; 74; 116; 160; 193; 244; 15; 216;
  140; 171; 159; 129; 101; 103; 51; 121; 225; 135; 56; 13;
  210; 66; 67; 151; 51; 130; 238; 159; 227; 34; 3; 72;
  67; 182; 37; 67; 185; 242; 246; 244; 129; 24; 139; 185;
  8; 37; 149; 211; 251; 49; 234; 118; 83; 140; 191; 171;
  81; 49; 62; 158; 136; 53; 79; 39; 177; 52; 122; 76;
  156; 113; 93; 99; 35; 29; 212; 27; 35; 29; 44; 195;
  14; 114; 163; 80; 218; 6; 117; 208; 50; 186; 191; 131;
  102; 38; 210; 193; 53; 127; 163; 29; 180; 252; 85; 235;
  96; 185; 138; 26; 245; 176; 45; 174; 107; 55; 163; 97;
  223; 121; 109; 4; 123; 34; 114; 35; 69; 9; 79; 27;
  136; 90; 171; 134; 141; 241; 23; 42; 218; 91; 14; 83;
  180; 5; 135; 53; 78; 204; 9; 45; 165; 120; 94; 232;
  15; 160; 45; 70; 42; 81; 56; 148; 61; 131; 80; 61;
  117; 81; 99; 172; 240; 19; 21; 213; 157; 207; 81; 84;
  83; 119; 104; 20; 226; 42; 4; 10; 3; 54; 122; 38;
  19; 226; 28; 142; 194; 120; 167; 229; 180; 210; 250; 147;
  171; 11; 161; 51; 13; 236; 190; 242; 121; 140; 112; 109;
  57; 204; 148; 56; 49; 61; 61; 236; 137; 13; 123; 12;
  202; 171; 208; 32; 52; 10; 200; 128; 76; 216; 105; 130;
  182; 20; 149; 34; 253; 4; 253; 192; 31; 6; 9; 171;
  228; 50; 72; 118; 163; 83; 18; 227; 164; 44; 83; 249;
  92; 6; 230; 86; 136; 97; 219; 136; 104; 90; 73; 120;
  227; 106; 98; 7; 215; 124; 214; 167; 24; 77; 54; 172;
  148; 22; 26; 87; 103; 133; 59; 6; 74; 99; 60; 74;
  163; 221; 88; 126; 15; 35; 165; 198; 74; 25; 113; 194;
  93; 208; 109; 52; 106; 36; 18; 240; 182; 192; 22; 90;
  241; 21; 211; 131; 17; 40; 140; 240; 167; 165; 91; 90;
  50; 165; 84; 3; 108; 171; 161; 155; 96; 59; 79; 101;
  89; 200; 121; 27; 19; 66; 83; 211; 211; 211; 28; 74;
  254; 79; 25; 230; 231; 43; 195; 27; 227; 194; 27; 99;
  85; 243; 124; 163; 1; 56; 23; 206; 48; 74; 124; 39;
  108; 117; 67; 93; 242; 164; 243; 11; 111; 54; 112; 62;
  212; 39; 184; 185; 75; 229; 43; 162; 232; 172; 74; 191;
  89; 133; 27; 211; 174; 96; 20; 225; 131; 210; 162; 248;
  186; 142; 40; 135; 242; 211; 159; 162; 229; 211; 170; 89;
  68; 4; 92; 91; 190; 213; 186; 40; 158; 123; 226; 5;
  20; 180; 178; 214; 49; 144; 223; 116; 141; 148; 242; 228;
  52; 41; 235; 184; 228; 106; 37; 250; 103; 186; 74; 113;
  175; 88; 252; 189; 244; 4; 34; 150; 94; 90; 69; 207;
  32; 253; 210; 8; 194; 55; 91; 237; 65; 238; 73; 51;
  212; 223; 102; 15; 90; 90; 192; 30; 18; 131; 96; 209;
  243; 193; 77; 143; 89; 90; 104; 154; 184; 14; 57; 234;
  62; 69; 191; 12; 221; 13; 61; 183; 59; 251; 193; 11;
  107; 31; 100; 79; 89; 78; 179; 205; 227; 79; 165; 131;
  155; 209; 9; 198; 124; 179; 146; 73; 69; 57; 14; 70;
  136; 96; 23; 254; 120; 165; 43; 110; 119; 86; 39; 123;
  74; 202; 58; 36; 27; 95; 164; 199; 152; 253; 45; 59;
  28; 184; 255; 79; 199; 217; 108; 5; 190; 128; 121; 42;
  235; 159; 3; 151; 130; 111; 14; 109; 25; 210; 233; 170;
  11; 107; 87; 13; 236; 180; 3; 59; 13; 213; 195; 0;
  217; 83; 214; 122; 206; 251; 18; 221; 70; 59; 210; 211;
  7; 244; 190; 85; 237; 221; 14; 174; 3; 186; 130; 12;
  251; 174; 70; 1; 177; 251; 117; 188; 63; 198; 213; 104;
  67; 247; 181; 25; 136; 120; 30; 69; 156; 111; 214; 35;
  21; 139; 226; 231; 101; 5; 75; 95; 3; 62; 74; 89;
  65; 57; 37; 14; 79; 32; 66; 179; 134; 208; 179; 226;
  194; 218; 21; 17; 122; 128; 122; 52; 241; 145; 120; 202;
  138; 165; 116; 189; 152; 241; 96; 51; 251; 50; 218; 175;
  199; 213; 77; 254; 248; 208; 137; 95; 69; 253; 14; 240;
  174; 158; 147; 92; 70; 98; 127; 1; 45; 82; 215; 161;
  0; 31; 84; 205; 219; 86; 181; 89; 45; 76; 7; 16;
  3; 6; 51; 231; 29; 137; 227; 226; 99; 193; 185; 151].

Definition limine_hdd_6 : list Z := [
  182; 225; 232; 84; 89; 33; 174; 118; 156; 105; 190; 77;
  226; 131; 58; 254; 185; 24; 215; 11; 32; 61; 105; 97;
  177; 61; 44; 182; 129; 144; 246; 253; 11; 54; 138; 172;
  54; 73; 108; 71; 59; 11; 253; 177; 14; 112; 232; 96;
  241; 170; 110; 17; 120; 59; 183; 65; 15; 174; 67; 19;
  93; 173; 183; 101; 213; 76; 20; 247; 144; 147; 36; 171;
  121; 30; 223; 76; 196; 227; 19; 203; 142; 123; 80; 78;
  136; 235; 56; 90; 41; 89; 254; 243; 201; 32; 171; 149;
  179; 169; 195; 134; 219; 150; 4; 155; 7; 184; 77; 175;
  43; 91; 167; 80; 45; 129; 185; 0; 128; 122; 253; 211;
  28; 153; 202; 59; 255; 162; 202; 194; 93; 113; 239; 232;
  115; 242; 38; 163; 48; 202; 225; 200; 231; 66; 176; 172;
  239; 224; 246; 47; 138; 114; 123; 31; 27; 1; 146; 184;
  75; 200; 178; 180; 204; 115; 237; 42; 51; 174; 171; 55;
  90; 87; 141; 52; 110; 210; 45; 12; 125; 43; 47; 12;
  251; 90; 104; 96; 122; 74; 136; 122; 70; 41; 224; 50;
  173; 243; 27; 37; 87; 59; 219; 228; 112; 168; 163; 147;
  82; 245; 96; 191; 26; 212; 128; 70; 144; 253; 0; 92;
  56; 246; 93; 180; 43; 197; 215; 149; 127; 80; 125; 99;
  14; 61; 110; 57; 61; 47; 107; 151; 112; 237; 186; 6;
  35; 120; 165; 150; 22; 73; 63; 194; 138; 30; 105; 169;
  206; 22; 250; 82; 182; 133; 125; 167; 133; 149; 136; 215;
  238; 151; 178; 160; 154; 237; 65; 70; 130; 25; 221; 54;
  189; 110; 194; 9; 244; 101; 185; 253; 171; 245; 228; 140;
  229; 180; 245; 44; 249; 104; 194; 153; 82; 99; 70; 70;
  254; 157; 64; 82; 23; 30; 154; 1; 95; 117; 54; 131;
  147; 242; 62; 214; 25; 174; 193; 233; 200; 84; 186; 38;
  35; 123; 208; 181; 13; 93; 147; 150; 150; 191; 12; 161;
  231; 210; 240; 86; 156; 164; 127; 14; 220; 106; 208; 113;
  226; 113; 144; 21; 233; 87; 170; 140; 54; 95; 248; 19;
  182; 100; 223; 213; 241; 53; 49; 174; 61; 40; 78; 59;
  117; 124; 208; 17; 190; 91; 185; 60; 21; 113; 53; 75;
  174; 227; 44; 31; 28; 239; 194; 133; 210; 245; 213; 143;
  52; 34; 137; 187; 106; 255; 17; 204; 71; 96; 255; 63;
  69; 67; 60; 224; 71; 27; 155; 120; 47; 88; 119; 120;
  176; 37; 45; 4; 181; 93; 9; 10; 125; 250; 249; 133;
  185; 229; 194; 45; 110; 233; 233; 40; 60; 244; 243; 181;
  8; 215; 115; 251; 235; 229; 205; 97; 95; 128; 123; 214;
  239; 246; 246; 153; 185; 223; 214; 79; 14; 86; 241; 94;
  234; 192; 47; 155; 33; 151; 237; 240; 250; 195; 222; 22;
  26; 57; 63; 157; 233; 4; 71; 86; 249; 219; 105; 192;
  184; 44; 94; 130; 42; 144; 37; 223; 102; 232; 128; 250;
  11; 82; 214; 78; 178; 253; 17; 122; 204; 199; 189; 86;
  127; 162; 67; 141; 196; 213; 91; 252; 132; 127; 174; 22;
  35; 215; 243; 224; 151; 174; 61; 215; 11; 146; 235; 133;
  137; 252; 11; 18; 255; 28; 113; 61; 69; 248; 170; 210;
  209; 172; 127; 124; 11; 36; 32; 235; 45; 171; 4; 193;
  223; 86; 78; 229; 255; 89; 132; 23; 198; 113; 251; 83;
  87; 105; 25; 194; 111; 147; 92; 207; 130; 66; 217; 38;
  65; 106; 28; 183; 251; 36; 120; 22; 95; 17; 215; 179;
  108; 214; 179; 229; 101; 94; 172; 23; 231; 74; 148; 14;
  135; 67; 162; 212; 21; 50; 220; 206; 250; 232; 186; 142;
  104; 29; 95; 21; 227; 122; 170; 208; 140; 218; 227; 117;
  71; 154; 242; 199; 41; 200; 43; 36; 3; 164; 167; 230;
  66; 94; 77; 104; 161; 218; 66; 109; 239; 116; 66; 187;
  17; 117; 29; 35; 180; 118; 76; 97; 114; 164; 229; 122;
  108; 89; 6; 75; 231; 5; 201; 142; 141; 143; 115; 187;
  3; 24; 74; 123; 238; 194; 87; 56; 129; 219; 98; 92;
  207; 2; 115; 210; 210; 192; 205; 193; 129; 128; 142; 217;
  139; 19; 1; 106; 102; 214; 20; 180; 134; 190; 175; 97;
  7; 186; 240; 199; 42; 186; 49; 92; 80; 110; 189; 131;
  208; 147; 54; 66; 79; 34; 69; 214; 166; 158; 15; 106;
  71; 194; 120; 11; 80; 174; 89; 1; 51; 119; 238; 53;
  7; 117; 69; 0; 125; 50; 186; 153; 37; 167; 232; 26;
  179; 248; 171; 99; 117; 242; 28; 29; 217; 139; 39; 133;
  149; 45; 66; 60; 120; 15; 194; 245; 85; 219; 16; 40;
  89; 78; 210; 145; 195; 88; 49; 31; 237; 92; 177; 85;
  61; 79; 124; 139; 45; 79; 100; 208; 185; 192; 140; 229;
  180; 214; 225; 118; 236; 80; 89; 125; 49; 114; 126; 175;
  122; 10; 203; 169; 29; 142; 121; 43; 61; 247; 229; 158;
  120; 11; 55; 172; 215; 28; 253; 151; 1; 80; 76; 90;
  194; 123; 233; 153; 246; 7; 225; 189; 136; 203; 1; 124;
  51; 168; 173; 72; 189; 122; 210; 174; 92; 238; 67; 68;
  185; 244; 170; 129; 153; 124; 202; 237; 75; 30; 33; 59;
  88; 175; 223; 52; 181; 7; 141; 230; 227; 130; 169; 162;
  27; 61; 2; 239; 83; 83; 126; 224; 208; 130; 232; 158;
  222; 56; 21; 183; 98; 33; 218; 187; 84; 255; 3; 116;
  185; 148; 6; 197; 50; 64; 215; 135; 233; 65; 169; 178;
  225; 227; 8; 109; 176; 135; 93; 148; 75; 12; 43; 84;
  138; 84; 98; 52; 82; 212; 62; 177; 187; 116; 242; 29;
  228; 104; 203; 95; 208; 131; 185; 56; 21; 143; 202; 207;
  181; 150; 126; 199; 6; 108; 47; 166; 242; 52; 231; 171;
  195; 117; 37; 231; 134; 35; 132; 91; 90; 188; 86; 70;
  98; 132; 184; 52; 12; 238; 208; 249; 82; 59; 84; 74;
  84; 71; 80; 162; 57; 247; 84; 166; 199; 61; 159; 73;
  22; 82; 224; 239; 14; 113; 134; 247; 48; 50; 110; 238;
  166; 9; 131; 154; 224; 162; 5; 135; 227; 184; 229; 116;
  104; 21; 218; 92; 5; 168; 31; 209; 236; 206; 255; 59;
  164; 148; 89; 106; 156; 33; 148; 156; 158; 46; 241; 149;
  104; 3; 168; 163; 82; 42; 39; 1; 81; 148; 253; 210;
  139; 56; 127; 93; 95; 252; 24; 161; 143; 219; 159; 172;
  103; 41; 63; 84; 0; 245; 96; 131; 38; 67; 81; 150;
  211; 176; 54; 6; 97; 154; 59; 137; 138; 101; 36; 178;
  42; 47; 158; 214; 31; 92; 154; 209; 148; 188; 134; 145;
  113; 195; 104; 85; 150; 34; 126; 87; 107; 165; 159; 212;
  9; 244; 190; 73; 7; 104; 201; 14; 33; 182; 138; 111;
  117; 56; 72; 91; 102; 134; 82; 138; 62; 172; 189; 85;
  179; 242; 154; 135; 29; 177; 78; 193; 35; 86; 222; 40;
  59; 245; 68; 7; 226; 235; 80; 165; 88; 141; 5; 40;
  215; 78; 166; 250; 218; 251; 176; 131; 17; 174; 151; 108;
  185; 127; 30; 95; 206; 50; 194; 216; 244; 116; 71; 254;
  103; 168; 64; 15; 170; 225; 220; 123; 116; 170; 111; 102;
  234; 134; 50; 122; 124; 184; 36; 158; 170; 32; 75; 139;
  229; 124; 68; 247; 112; 124; 144; 227; 155; 200; 51; 212;
  212; 57; 69; 188; 168; 92; 101; 47; 174; 158; 204; 76;
  16; 201; 40; 165; 25; 133; 208; 110; 34; 167; 96; 108;
  138; 231; 135; 254; 216; 153; 144; 13; 115; 139; 3; 227;
  59; 228; 183; 219; 0; 94; 184; 9; 230; 152; 156; 114;
  144; 94; 229; 89; 245; 16; 55; 52; 22; 48; 246; 42;
  31; 210; 176; 186; 112; 135; 228; 69; 48; 109; 170; 203;
  133; 219; 233; 84; 79; 242; 190; 141; 206; 244; 220; 141;
  173; 145; 25; 85; 10; 111; 87; 143; 161; 207; 135; 166;
  98; 217; 44; 32; 63; 244; 181; 228; 69; 48; 210; 71;
  188; 212; 174; 111; 83; 20; 176; 191; 137; 247; 193; 40;
  117; 66; 6; 69; 120; 156; 78; 228; 222; 51; 88; 7;
  186; 251; 218; 180; 52; 201; 251; 61; 52; 194; 121; 76;
  87; 54; 77; 164; 216; 97; 183; 68; 199; 194; 169; 172;
  157; 56; 204; 70; 214; 12; 93; 58; 3; 104; 39; 151;
  197; 75; 246; 88; 201; 5; 54; 100; 167; 68; 123; 36;
  89; 177; 21; 13; 56; 24; 146; 5; 133; 104; 202; 129;
  31; 71; 202; 140; 222; 198; 120; 164; 163; 139; 191; 16;
  14; 107; 184; 42; 186; 31; 68; 155; 210; 247; 250; 101;
  122; 44; 59; 96; 34; 105; 44; 250; 103; 55; 169; 241;
  122; 191; 187; 226; 112; 7; 128; 56; 191; 61; 10; 91;
  76; 255; 64; 212; 118; 21; 221; 171; 208; 138; 200; 50;
  12; 67; 96; 84; 70; 13; 67; 32; 78; 85; 239; 121;
  72; 62; 19; 42; 19; 167; 94; 218; 142; 247; 112; 136;
  78; 189; 112; 66; 156; 70; 98; 51; 212; 176; 120; 250;
  220; 63; 96; 208; 17; 150; 243; 48; 232; 165; 104; 186;
  224; 173; 46; 208; 217; 113; 96; 238; 72; 174; 120; 213;
  164; 153; 39; 54; 147; 222; 137; 252; 113; 206; 219; 68;
  77; 45; 3; 26; 86; 14; 131; 148; 172; 167; 27; 122;
  13; 53; 172; 246; 176; 61; 227; 251; 6; 25; 84; 127;
  110; 69; 225; 129; 45; 185; 83; 51; 168; 192; 210; 230;
  59; 166; 159; 5; 227; 109; 194; 37; 188; 6; 200; 215;
  194; 238; 127; 27; 95; 59; 209; 117; 8; 76; 119; 210;
  54; 207; 30; 132; 5; 52; 145; 111; 5; 91; 10; 146;
  89; 173; 146; 11; 26; 181; 59; 212; 192; 112; 171; 100;
  111; 11; 139; 65; 41; 57; 137; 219; 29; 31; 36; 124;
  35; 183; 123; 105; 80; 47; 235; 39; 128; 61; 2; 214;
  17; 160; 186; 48; 229; 132; 206; 181; 75; 199; 215; 198;
  184; 14; 161; 109; 96; 100; 123; 104; 211; 4; 165; 3;
  150; 174; 78; 12; 198; 148; 81; 187; 0; 239; 164; 12;
  185; 218; 112; 149; 147; 130; 93; 147; 144; 185; 241; 50;
  223; 88; 104; 200; 127; 176; 27; 131; 186; 63; 204; 80;
  157; 255; 225; 7; 247; 208; 216; 219; 189; 120; 64; 123;
  163; 178; 126; 120; 251; 67; 106; 123; 220; 240; 193; 104;
  227; 164; 50; 131; 44; 42; 244; 26; 83; 13; 123; 238;
  53; 57; 175; 119; 160; 28; 163; 213; 8; 82; 104; 155].

Definition limine_hdd_7 : list Z := [
  83; 215; 161; 115; 132; 61; 73; 202; 65; 240; 20; 87;
  60; 64; 125; 110; 167; 242; 215; 184; 171; 72; 174; 188;
  29; 175; 225; 128; 133; 211; 73; 231; 9; 227; 18; 131;
  194; 155; 31; 199; 171; 36; 209; 139; 66; 253; 84; 253;
  100; 70; 196; 41; 166; 87; 168; 10; 160; 80; 249; 92;
  13; 115; 116; 253; 1; 101; 79; 189; 190; 179; 157; 94;
  244; 145; 151; 82; 77; 138; 58; 146; 164; 26; 37; 31;
  189; 235; 147; 97; 146; 182; 47; 166; 55; 166; 26; 200;
  50; 176; 251; 63; 32; 171; 13; 114; 82; 20; 248; 73;
  175; 97; 61; 219; 71; 192; 93; 164; 88; 72; 70; 156;
  138; 8; 237; 6; 29; 140; 44; 77; 189; 226; 4; 182;
  212; 118; 188; 107; 4; 150; 20; 57; 5; 182; 148; 142;
  150; 198; 208; 50; 34; 99; 58; 221; 65; 94; 196; 156;
  114; 77; 11; 18; 48; 133; 18; 99; 142; 220; 196; 139;
  211; 174; 113; 145; 79; 160; 119; 110; 231; 49; 32; 162;
  151; 172; 158; 198; 158; 188; 240; 105; 221; 167; 122; 178;
  108; 10; 210; 16; 207; 54; 147; 12; 243; 248; 83; 222;
  247; 129; 246; 25; 36; 35; 97; 208; 61; 5; 203; 81;
  140; 64; 198; 193; 70; 246; 108; 125; 249; 165; 59; 96;
  134; 161; 216; 80; 95; 181; 253; 38; 188; 55; 117; 35;
  158; 235; 227; 46; 31; 160; 148; 169; 145; 201; 200; 237;
  173; 208; 156; 170; 23; 104; 237; 130; 208; 219; 14; 135;
  156; 122; 159; 67; 221; 180; 28; 202; 130; 91; 35; 188;
  205; 173; 80; 27; 162; 255; 73; 135; 5; 124; 197; 130;
  121; 200; 26; 204; 79; 76; 141; 243; 204; 150; 104; 21;
  90; 101; 230; 176; 122; 149; 3; 143; 130; 82; 103; 196;
  100; 36; 128; 93; 149; 154; 140; 174; 96; 12; 42; 173;
  212; 20; 144; 228; 49; 169; 201; 226; 175; 154; 124; 72;
  32; 211; 21; 194; 56; 219; 163; 41; 226; 111; 213; 165;
  110; 133; 186; 167; 96; 48; 219; 253; 137; 169; 139; 197;
  199; 43; 79; 139; 43; 164; 101; 122; 105; 181; 129; 52;
  235; 158; 192; 248; 11; 57; 21; 243; 155; 36; 26; 58;
  11; 59; 129; 227; 104; 182; 238; 15; 226; 172; 162; 192;
  145; 140; 68; 188; 31; 218; 113; 61; 58; 136; 9; 40;
  4; 47; 205; 97; 85; 225; 77; 77; 34; 134; 3; 244;
  46; 227; 10; 189; 197; 15; 219; 241; 245; 210; 19; 20;
  226; 200; 28; 26; 102; 197; 206; 187; 94; 1; 109; 52;
  111; 217; 28; 216; 56; 54; 27; 38; 102; 36; 122; 210;
  212; 201; 163; 142; 167; 65; 90; 157; 164; 206; 169; 180;
  92; 167; 151; 244; 58; 77; 20; 116; 169; 83; 98; 50;
  166; 193; 194; 77; 77; 98; 123; 113; 160; 183; 222; 128;
  246; 4; 5; 164; 173; 73; 175; 183; 142; 245; 158; 160;
  238; 202; 43; 213; 116; 216; 253; 190; 34; 91; 7; 75;
  166; 250; 134; 100; 111; 125; 84; 213; 138; 176; 181; 89;
  60; 183; 82; 51; 29; 85; 221; 70; 248; 118; 234; 67;
  182; 161; 15; 201; 191; 142; 170; 174; 172; 157; 184; 118;
  17; 244; 25; 98; 37; 190; 157; 216; 247; 128; 170; 227;
  246; 103; 26; 44; 104; 253; 140; 30; 120; 180; 118; 69;
  1; 210; 40; 39; 52; 119; 237; 2; 29; 120; 69; 227;
  29; 10; 139; 181; 200; 191; 247; 7; 105; 188; 154; 43;
  26; 175; 17; 53; 222; 33; 234; 85; 214; 222; 198; 251;
  39; 226; 81; 242; 213; 53; 94; 141; 3; 44; 15; 80;
  102; 160; 240; 80; 219; 25; 183; 129; 43; 198; 183; 123;
  187; 162; 84; 162; 154; 241; 252; 59; 57; 94; 117; 168;
  219; 185; 253; 75; 12; 228; 4; 183; 251; 227; 11; 159;
  178; 167; 84; 103; 29; 21; 223; 30; 170; 248; 218; 65;
  241; 125; 21; 55; 80; 241; 205; 81; 57; 54; 216; 176;
  110; 168; 232; 174; 196; 217; 52; 201; 252; 86; 152; 157;
  7; 168; 2; 75; 167; 10; 134; 170; 175; 14; 80; 20;
  94; 170; 40; 126; 252; 169; 38; 204; 98; 76; 53; 31;
  244; 42; 211; 146; 216; 77; 163; 2; 54; 61; 26; 221;
  161; 197; 178; 216; 152; 14; 160; 79; 117; 227; 61; 182;
  150; 126; 80; 4; 192; 75; 163; 161; 159; 58; 160; 118;
  59; 173; 221; 243; 83; 77; 15; 214; 162; 28; 249; 90;
  56; 95; 5; 174; 39; 155; 222; 136; 111; 214; 216; 95;
  170; 230; 127; 207; 237; 47; 123; 94; 242; 232; 171; 108;
  163; 185; 253; 252; 11; 85; 246; 39; 171; 150; 140; 147;
  236; 127; 113; 147; 135; 13; 110; 98; 51; 146; 37; 38;
  239; 101; 179; 24; 45; 217; 223; 12; 129; 111; 107; 223;
  41; 185; 14; 146; 37; 177; 196; 22; 71; 156; 102; 183;
  228; 250; 131; 155; 56; 167; 112; 251; 92; 79; 130; 58;
  144; 141; 81; 128; 227; 15; 96; 243; 46; 153; 6; 30;
  142; 156; 50; 50; 124; 225; 2; 177; 205; 0; 4; 194;
  72; 80; 9; 182; 248; 144; 142; 44; 137; 31; 122; 9;
  132; 156; 0; 187; 78; 114; 232; 189; 125; 38; 225; 1;
  112; 251; 132; 135; 3; 44; 181; 241; 79; 101; 126; 240;
  117; 38; 123; 202; 130; 113; 46; 192; 92; 2; 126; 117;
  73; 92; 38; 177; 183; 186; 3; 252; 151; 224; 157; 126;
  36; 187; 190; 204; 72; 7; 230; 23; 94; 79; 183; 231;
  242; 207; 89; 183; 196; 127; 41; 217; 91; 197; 145; 212;
  66; 15; 141; 116; 215; 41; 64; 181; 159; 176; 161; 116;
  21; 41; 123; 26; 118; 225; 140; 65; 8; 217; 51; 25;
  105; 128; 100; 42; 32; 9; 77; 79; 183; 132; 105; 204;
  134; 219; 239; 128; 90; 7; 237; 78; 158; 243; 59; 10;
  161; 187; 158; 94; 114; 175; 152; 140; 26; 88; 13; 156;
  13; 116; 121; 213; 129; 224; 153; 52; 236; 215; 246; 160;
  183; 215; 136; 47; 73; 29; 249; 22; 52; 151; 183; 215;
  196; 241; 223; 133; 70; 30; 252; 150; 195; 227; 212; 81;
  31; 121; 123; 205; 244; 68; 175; 246; 91; 64; 197; 241;
  245; 163; 154; 188; 151; 216; 141; 121; 214; 51; 165; 57;
  36; 171; 243; 29; 86; 141; 183; 74; 124; 171; 108; 239;
  164; 166; 29; 88; 63; 214; 158; 77; 6; 111; 47; 187;
  81; 183; 40; 244; 57; 70; 220; 245; 120; 142; 2; 210;
  178; 51; 6; 77; 164; 78; 52; 230; 78; 147; 38; 235;
  39; 96; 173; 242; 157; 208; 142; 232; 95; 2; 4; 54;
  192; 163; 94; 214; 251; 66; 130; 149; 144; 8; 6; 247;
  249; 97; 182; 156; 183; 59; 81; 114; 25; 100; 190; 89;
  113; 128; 81; 125; 181; 109; 215; 183; 235; 71; 186; 225;
  209; 219; 195; 46; 163; 50; 237; 71; 122; 169; 247; 71;
  85; 47; 227; 150; 134; 134; 241; 75; 184; 165; 153; 110;
  81; 183; 180; 137; 209; 234; 81; 210; 94; 132; 42; 79;
  74; 184; 67; 4; 207; 14; 211; 161; 46; 203; 105; 239;
  225; 26; 72; 153; 197; 73; 146; 239; 248; 143; 244; 22;
  247; 19; 240; 83; 167; 152; 32; 85; 142; 225; 132; 23;
  215; 163; 121; 191; 29; 225; 45; 97; 157; 11; 92; 24;
  76; 202; 115; 18; 171; 245; 115; 193; 61; 137; 7; 205;
  127; 6; 10; 50; 65; 27; 116; 29; 11; 135; 155; 42;
  231; 99; 150; 186; 38; 214; 164; 59; 196; 25; 3; 234;
  143; 66; 189; 156; 202; 14; 0; 33; 20; 89; 147; 207;
  6; 127; 217; 144; 105; 81; 69; 24; 111; 29; 137; 191;
  87; 75; 24; 110; 191; 111; 15; 118; 118; 248; 43; 224;
  219; 1; 150; 158; 112; 109; 223; 71; 71; 252; 249; 101;
  117; 196; 220; 238; 160; 197; 127; 238; 47; 100; 59; 50;
  204; 119; 154; 171; 148; 49; 2; 170; 14; 138; 219; 239;
  188; 65; 28; 197; 237; 183; 197; 214; 117; 152; 70; 213;
  203; 242; 42; 68; 70; 57; 168; 180; 252; 136; 7; 58;
  192; 224; 202; 31; 240; 74; 184; 15; 155; 115; 187; 125;
  171; 212; 227; 17; 135; 114; 114; 60; 122; 14; 196; 71;
  157; 155; 129; 181; 96; 16; 192; 95; 52; 253; 85; 76;
  168; 61; 148; 74; 234; 187; 210; 198; 141; 113; 104; 121;
  59; 149; 31; 213; 99; 129; 144; 27; 6; 17; 196; 118;
  123; 17; 9; 120; 17; 221; 70; 186; 38; 71; 132; 47;
  156; 39; 180; 9; 183; 187; 201; 161; 172; 165; 253; 173;
  206; 86; 123; 212; 218; 164; 91; 90; 0; 214; 161; 177;
  1; 8; 104; 197; 66; 112; 207; 16; 38; 188; 151; 14;
  228; 60; 189; 238; 106; 14; 248; 146; 52; 25; 144; 40;
  6; 112; 204; 135; 82; 94; 167; 68; 91; 41; 20; 231;
  189; 153; 30; 123; 34; 68; 53; 131; 231; 10; 215; 96;
  126; 47; 230; 203; 31; 29; 195; 113; 190; 255; 1; 60;
  175; 39; 11; 215; 203; 148; 207; 206; 124; 156; 149; 66;
  179; 67; 137; 127; 87; 115; 99; 105; 211; 56; 239; 231;
  55; 173; 59; 61; 86; 126; 248; 92; 69; 88; 135; 147;
  243; 36; 170; 55; 121; 47; 182; 1; 215; 253; 0; 158;
  132; 202; 250; 123; 20; 199; 69; 164; 4; 155; 28; 24;
  129; 69; 142; 113; 114; 202; 141; 189; 138; 245; 74; 113;
  20; 45; 142; 135; 226; 203; 202; 205; 23; 233; 149; 71;
  223; 122; 192; 85; 139; 104; 65; 100; 205; 194; 234; 166;
  202; 232; 78; 156; 115; 85; 156; 210; 210; 28; 42; 109;
  14; 229; 253; 201; 17; 205; 187; 80; 162; 195; 147; 15;
  63; 133; 56; 241; 106; 119; 50; 6; 120; 84; 126; 52;
  157; 123; 205; 45; 109; 142; 117; 75; 37; 55; 184; 201;
  225; 68; 42; 235; 123; 147; 225; 167; 235; 60; 125; 105;
  172; 55; 44; 254; 38; 244; 59; 149; 158; 243; 201; 99;
  12; 156; 15; 237; 139; 38; 223; 58; 148; 36; 203; 233;
  35; 44; 125; 237; 45; 224; 203; 193; 60; 252; 11; 248;
  242; 180; 148; 59; 224; 43; 160; 73; 238; 72; 229; 157;
  255; 250; 81; 189; 83; 145; 52; 83; 28; 95; 9; 122;
  30; 61; 209; 55; 217; 183; 145; 152; 208; 93; 222; 75;
  163; 185; 95; 97; 196; 202; 123; 105; 228; 163; 6; 168].

Definition limine_hdd_8 : list Z := [
  174; 124; 82; 61; 168; 169; 218; 190; 240; 71; 28; 139;
  0; 59; 75; 53; 77; 227; 105; 127; 229; 36; 236; 204;
  150; 26; 250; 35; 12; 22; 147; 133; 99; 208; 53; 199;
  89; 95; 211; 63; 232; 197; 42; 201; 234; 236; 13; 24;
  58; 14; 55; 57; 22; 86; 113; 226; 143; 17; 54; 67;
  1; 140; 221; 151; 220; 95; 0; 251; 42; 168; 42; 95;
  10; 234; 130; 107; 195; 148; 121; 94; 90; 97; 238; 170;
  199; 244; 177; 193; 2; 148; 30; 17; 61; 197; 172; 29;
  235; 157; 86; 15; 145; 203; 15; 211; 229; 42; 220; 35;
  209; 222; 228; 195; 168; 51; 228; 189; 253; 180; 64; 167;
  59; 104; 167; 201; 170; 138; 249; 35; 205; 164; 80; 49;
  125; 29; 254; 158; 123; 173; 235; 89; 122; 43; 106; 59;
  165; 13; 252; 45; 42; 219; 7; 140; 87; 214; 50; 184;
  14; 231; 94; 35; 142; 4; 113; 188; 218; 7; 228; 113;
  81; 7; 201; 162; 4; 110; 191; 188; 167; 31; 33; 24;
  15; 224; 67; 236; 197; 164; 156; 98; 8; 95; 56; 75;
  60; 115; 36; 103; 130; 188; 36; 153; 216; 18; 181; 181;
  255; 17; 10; 158; 221; 64; 22; 36; 169; 215; 251; 134;
  184; 70; 232; 15; 155; 84; 31; 152; 94; 62; 138; 39;
  246; 239; 37; 59; 56; 136; 61; 146; 35; 137; 216; 161;
  170; 7; 92; 98; 41; 235; 123; 73; 52; 18; 64; 147;
  5; 158; 176; 105; 37; 57; 187; 58; 171; 235; 145; 243;
  253; 174; 112; 191; 59; 147; 76; 35; 42; 224; 206; 132;
  198; 160; 59; 83; 152; 226; 84; 62; 29; 115; 197; 151;
  233; 15; 250; 87; 241; 47; 189; 252; 224; 197; 40; 38;
  192; 251; 213; 152; 102; 163; 228; 106; 180; 186; 252; 156;
  247; 37; 144; 189; 117; 188; 63; 206; 91; 27; 252; 91;
  20; 195; 130; 53; 39; 63; 231; 135; 20; 231; 123; 132;
  197; 128; 168; 122; 171; 200; 105; 196; 139; 198; 232; 197;
  130; 169; 85; 99; 117; 237; 226; 42; 247; 169; 183; 141;
  16; 73; 229; 43; 152; 214; 73; 98; 141; 4; 62; 114;
  217; 30; 22; 47; 24; 142; 63; 185; 142; 223; 5; 3;
  59; 36; 85; 53; 2; 62; 105; 27; 98; 165; 118; 97;
  141; 110; 91; 51; 164; 99; 170; 142; 99; 73; 112; 30;
  95; 75; 222; 157; 104; 63; 36; 217; 107; 184; 103; 248;
  63; 204; 179; 215; 74; 246; 61; 144; 47; 157; 1; 191;
  86; 177; 102; 194; 69; 207; 205; 214; 30; 122; 17; 37;
  182; 188; 236; 15; 140; 128; 241; 121; 127; 55; 141; 207;
  239; 140; 199; 203; 39; 53; 208; 167; 6; 49; 2; 33;
  196; 17; 234; 101; 171; 233; 77; 68; 55; 225; 36; 248;
  237; 196; 99; 32; 15; 27; 195; 252; 174; 174; 89; 52;
  34; 190; 103; 12; 95; 195; 85; 62; 142; 210; 85; 246;
  18; 195; 85; 254; 26; 119; 105; 52; 38; 230; 241; 53;
  52; 98; 60; 145; 223; 227; 113; 163; 105; 106; 127; 93;
  218; 70; 201; 47; 167; 228; 55; 145; 147; 21; 77; 8;
  232; 61; 201; 16; 177; 150; 148; 29; 146; 202; 106; 213;
  115; 58; 82; 182; 67; 130; 172; 184; 131; 148; 237; 148;
  202; 118; 78; 239; 33; 127; 199; 38; 64; 29; 57; 128;
  24; 38; 244; 169; 156; 233; 25; 127; 114; 42; 133; 127;
  24; 163; 7; 161; 9; 235; 196; 198; 56; 170; 186; 200;
  39; 97; 123; 99; 216; 238; 175; 104; 122; 29; 223; 159;
  127; 45; 204; 251; 187; 50; 46; 99; 140; 116; 94; 86;
  35; 231; 125; 3; 64; 214; 29; 139; 147; 43; 16; 171;
  247; 128; 54; 91; 53; 156; 143; 6; 224; 29; 70; 41;
  217; 32; 169; 61; 210; 238; 96; 6; 232; 136; 172; 61;
  90; 8; 252; 208; 132; 222; 210; 20; 149; 47; 108; 207;
  17; 12; 118; 142; 239; 179; 54; 189; 67; 47; 146; 157;
  244; 204; 10; 80; 188; 88; 28; 141; 212; 129; 15; 67;
  42; 112; 150; 200; 175; 113; 150; 2; 21; 136; 147; 122;
  103; 102; 137; 63; 52; 134; 175; 21; 227; 144; 112; 169;
  172; 134; 210; 190; 4; 72; 143; 208; 109; 235; 162; 94;
  109; 86; 99; 45; 98; 180; 180; 200; 15; 3; 111; 118;
  205; 115; 237; 242; 136; 210; 10; 189; 148; 72; 92; 181;
  228; 3; 146; 85; 99; 181; 55; 110; 76; 88; 119; 54;
  78; 122; 137; 82; 189; 15; 123; 176; 94; 34; 89; 126;
  114; 110; 98; 22; 88; 251; 181; 156; 77; 172; 225; 22;
  150; 249; 185; 133; 31; 19; 177; 102; 1; 201; 170; 13;
  29; 91; 151; 85; 27; 39; 151; 5; 105; 167; 11; 43;
  26; 232; 164; 156; 129; 197; 219; 164; 177; 16; 146; 1;
  89; 84; 235; 207; 189; 230; 245; 199; 133; 158; 8; 240;
  181; 234; 161; 86; 227; 98; 112; 25; 172; 124; 45; 231;
  197; 151; 114; 214; 217; 107; 227; 164; 231; 145; 141; 42;
  75; 9; 191; 171; 226; 18; 142; 95; 24; 5; 102; 26;
  231; 147; 112; 219; 88; 16; 135; 11; 162; 162; 141; 214;
  215; 204; 123; 94; 129; 132; 40; 72; 127; 111; 166; 124;
  166; 242; 219; 163; 83; 155; 247; 197; 252; 154; 242; 189;
  78; 130; 5; 226; 208; 139; 203; 64; 124; 172; 85; 88;
  37; 218; 48; 172; 115; 150; 92; 210; 45; 54; 196; 172;
  48; 74; 252; 46; 178; 216; 64; 48; 81; 235; 245; 71;
  205; 227; 27; 61; 19; 214; 245; 168; 50; 144; 44; 31;
  65; 38; 86; 52; 249; 41; 43; 67; 159; 73; 188; 63;
  108; 175; 133; 245; 26; 230; 107; 187; 172; 84; 120; 27;
  95; 197; 149; 124; 181; 183; 73; 226; 181; 235; 105; 96;
  26; 226; 165; 211; 74; 60; 204; 43; 159; 191; 2; 95;
  49; 229; 42; 113; 166; 215; 241; 157; 48; 101; 134; 3;
  223; 195; 234; 145; 86; 141; 52; 105; 3; 222; 184; 41;
  94; 118; 134; 15; 140; 249; 55; 200; 117; 159; 126; 211;
  218; 123; 194; 83; 182; 39; 125; 195; 48; 7; 82; 160;
  36; 180; 226; 192; 28; 248; 1; 80; 216; 63; 132; 37;
  155; 110; 56; 176; 145; 102; 89; 108; 153; 84; 113; 41;
  10; 126; 15; 172; 64; 192; 49; 80; 8; 48; 7; 114;
  33; 115; 16; 145; 113; 252; 187; 161; 27; 14; 112; 88;
  23; 115; 192; 140; 63; 198; 3; 211; 241; 39; 250; 128;
  253; 223; 168; 61; 12; 64; 12; 168; 50; 182; 94; 18;
  70; 26; 164; 71; 70; 26; 165; 40; 41; 93; 239; 76;
  203; 204; 96; 155; 198; 159; 204; 204; 0; 107; 211; 7;
  128; 202; 43; 212; 125; 74; 8; 243; 157; 93; 230; 161;
  225; 38; 234; 245; 160; 117; 107; 80; 198; 94; 162; 10;
  94; 186; 22; 25; 68; 76; 84; 254; 154; 162; 245; 48;
  126; 86; 139; 235; 72; 215; 62; 130; 85; 95; 160; 247;
  10; 245; 103; 162; 152; 172; 97; 145; 187; 216; 117; 46;
  35; 190; 116; 33; 199; 155; 72; 86; 199; 60; 190; 67;
  40; 244; 110; 54; 177; 98; 182; 180; 88; 47; 153; 164;
  21; 160; 151; 187; 37; 152; 64; 151; 114; 16; 182; 21;
  102; 30; 252; 82; 149; 225; 234; 38; 246; 206; 210; 187;
  116; 118; 204; 155; 152; 152; 172; 110; 235; 187; 180; 102;
  194; 41; 207; 68; 201; 174; 200; 127; 192; 226; 233; 199;
  200; 39; 82; 86; 167; 188; 103; 54; 3; 235; 140; 125;
  47; 100; 208; 149; 117; 134; 116; 58; 177; 19; 133; 245;
  215; 72; 88; 2; 217; 172; 247; 54; 198; 226; 16; 235;
  245; 204; 192; 9; 94; 138; 163; 67; 151; 187; 13; 239;
  237; 98; 160; 48; 150; 198; 253; 204; 168; 102; 93; 211;
  104; 224; 110; 74; 149; 171; 1; 100; 181; 154; 143; 175;
  226; 235; 213; 181; 202; 85; 150; 162; 29; 42; 214; 130;
  130; 210; 137; 109; 49; 101; 237; 116; 51; 32; 101; 157;
  68; 236; 56; 162; 10; 127; 163; 197; 15; 146; 200; 85;
  222; 135; 193; 135; 71; 77; 229; 101; 245; 80; 191; 71;
  24; 121; 63; 231; 187; 29; 139; 198; 73; 171; 193; 225;
  105; 214; 45; 131; 61; 233; 120; 204; 106; 96; 66; 80;
  42; 67; 39; 123; 94; 89; 135; 84; 214; 58; 177; 172;
  147; 123; 166; 1; 135; 22; 180; 102; 181; 129; 51; 61;
  49; 171; 149; 123; 186; 142; 28; 3; 15; 126; 50; 148;
  182; 91; 237; 109; 19; 179; 142; 35; 204; 199; 228; 146;
  25; 152; 192; 85; 126; 72; 245; 111; 13; 108; 53; 31;
  163; 137; 104; 199; 102; 183; 217; 155; 1; 108; 157; 63;
  142; 156; 137; 70; 194; 70; 189; 167; 174; 21; 225; 167;
  21; 101; 141; 248; 190; 225; 70; 99; 122; 122; 254; 203;
  32; 20; 93; 127; 87; 23; 117; 50; 93; 14; 235; 248;
  198; 56; 218; 64; 114; 197; 169; 231; 206; 146; 253; 16;
  113; 152; 36; 80; 54; 113; 248; 82; 133; 195; 64; 22;
  195; 138; 11; 90; 249; 14; 88; 30; 24; 36; 88; 66;
  153; 48; 31; 145; 110; 122; 3; 76; 74; 73; 220; 35;
  101; 117; 64; 215; 146; 61; 120; 155; 189; 131; 168; 82;
  84; 19; 164; 74; 188; 147; 208; 93; 81; 202; 106; 157;
  152; 213; 73; 106; 232; 74; 175; 162; 250; 241; 57; 212;
  2; 22; 191; 178; 173; 23; 99; 42; 93; 227; 97; 40;
  201; 222; 166; 184; 174; 191; 129; 234; 46; 239; 99; 5;
  216; 179; 118; 169; 123; 214; 254; 127; 211; 61; 171; 231;
  90; 134; 65; 243; 236; 107; 186; 191; 210; 91; 2; 234;
  116; 128; 231; 22; 176; 194; 28; 120; 127; 137; 123; 178;
  11; 180; 235; 155; 180; 207; 131; 180; 183; 179; 164; 87;
  87; 77; 123; 188; 20; 243; 59; 236; 115; 158; 216; 6;
  19; 50; 145; 111; 39; 200; 87; 191; 148; 213; 108; 205;
  194; 87; 38; 40; 155; 249; 61; 96; 40; 38; 150; 151;
  237; 97; 132; 89; 235; 248; 96; 156; 183; 62; 206; 26;
  20; 174; 149; 15; 162; 122; 145; 41; 94; 77; 71; 134;
  58; 97; 206; 64; 125; 47; 33; 147; 144; 138; 174; 255;
  161; 251; 122; 179; 213; 213; 65; 46; 129; 91; 57; 209;
  117; 156; 123; 186; 126; 158; 216; 1; 227; 134; 9; 173].

Definition limine_hdd_9 : list Z := [
  172; 19; 110; 174; 108; 17; 110; 68; 126; 75; 34; 204;
  124; 39; 134; 104; 178; 142; 147; 26; 42; 70; 181; 72;
  106; 232; 118; 210; 11; 196; 1; 101; 146; 189; 29; 200;
  226; 158; 246; 131; 76; 76; 180; 31; 199; 246; 246; 61;
  130; 25; 72; 139; 167; 8; 232; 148; 79; 63; 59; 225;
  210; 64; 94; 134; 54; 66; 7; 165; 0; 83; 36; 185;
  218; 84; 176; 246; 233; 223; 77; 184; 72; 168; 213; 64;
  168; 213; 64; 167; 186; 162; 44; 24; 166; 158; 193; 215;
  212; 102; 11; 74; 201; 166; 117; 159; 196; 201; 153; 172;
  58; 117; 120; 217; 192; 75; 103; 143; 239; 32; 207; 208;
  77; 220; 117; 156; 120; 41; 75; 249; 230; 219; 248; 142;
  137; 8; 64; 113; 62; 131; 56; 195; 124; 99; 151; 231;
  50; 158; 86; 82; 164; 219; 1; 41; 160; 147; 202; 96;
  156; 109; 170; 144; 89; 252; 228; 109; 138; 176; 172; 157;
  188; 165; 110; 238; 181; 228; 109; 138; 185; 236; 16; 121;
  139; 162; 122; 27; 81; 41; 94; 176; 213; 66; 198; 38;
  190; 129; 13; 141; 168; 230; 107; 170; 248; 134; 106; 190;
  225; 170; 42; 27; 13; 210; 231; 112; 163; 174; 248; 28;
  247; 221; 242; 249; 168; 174; 96; 15; 74; 75; 203; 111;
  65; 85; 57; 145; 156; 177; 132; 165; 177; 204; 231; 232;
  238; 76; 152; 143; 42; 100; 227; 56; 88; 2; 61; 170;
  48; 189; 26; 67; 109; 124; 240; 38; 237; 157; 234; 123;
  192; 133; 108; 62; 42; 117; 80; 158; 105; 138; 159; 94;
  208; 78; 144; 236; 157; 224; 77; 143; 171; 168; 195; 10;
  66; 113; 133; 118; 57; 156; 133; 76; 26; 180; 82; 118;
  30; 194; 151; 98; 217; 73; 88; 172; 188; 251; 63; 104;
  190; 118; 82; 82; 73; 243; 16; 98; 103; 104; 215; 162;
  37; 190; 205; 26; 141; 138; 148; 123; 98; 10; 219; 47;
  189; 237; 243; 153; 200; 107; 125; 47; 171; 196; 141; 136;
  65; 57; 110; 87; 183; 182; 117; 98; 91; 156; 252; 184;
  95; 221; 221; 64; 241; 146; 0; 236; 207; 7; 169; 25;
  195; 249; 240; 182; 138; 244; 59; 202; 210; 55; 169; 180;
  103; 117; 144; 11; 4; 86; 221; 25; 110; 255; 164; 113;
  122; 134; 209; 189; 73; 77; 198; 131; 212; 24; 81; 111;
  169; 212; 125; 174; 7; 129; 39; 89; 65; 42; 243; 173;
  165; 139; 222; 166; 234; 24; 138; 142; 129; 172; 150; 38;
  190; 141; 188; 178; 158; 3; 163; 240; 151; 1; 218; 47;
  230; 113; 27; 14; 60; 30; 49; 102; 128; 35; 192; 116;
  239; 137; 48; 81; 87; 22; 93; 87; 220; 254; 177; 227;
  232; 209; 30; 9; 214; 125; 170; 183; 158; 157; 208; 235;
  73; 168; 165; 184; 84; 83; 10; 236; 40; 240; 254; 163;
  17; 102; 157; 189; 61; 14; 221; 104; 61; 190; 119; 192;
  82; 123; 105; 60; 181; 151; 36; 190; 93; 21; 153; 48;
  223; 214; 245; 79; 52; 226; 252; 74; 241; 247; 225; 112;
  237; 242; 36; 157; 58; 95; 83; 213; 187; 93; 183; 227;
  148; 208; 43; 94; 234; 180; 165; 59; 48; 76; 13; 9;
  69; 79; 79; 254; 18; 160; 225; 93; 208; 80; 221; 198;
  152; 97; 7; 45; 120; 176; 70; 239; 140; 77; 29; 40;
  61; 56; 7; 45; 234; 28; 60; 62; 94; 19; 16; 77;
  58; 160; 43; 240; 252; 241; 36; 39; 221; 161; 236; 160;
  247; 234; 18; 142; 94; 121; 197; 76; 123; 43; 149; 55;
  45; 214; 241; 134; 11; 162; 137; 219; 205; 155; 52; 172;
  48; 195; 116; 166; 197; 73; 242; 10; 124; 71; 14; 28;
  86; 85; 123; 17; 88; 86; 60; 134; 82; 193; 188; 10;
  77; 0; 217; 196; 174; 187; 126; 165; 218; 171; 154; 165;
  42; 140; 92; 226; 59; 189; 229; 219; 144; 40; 81; 107;
  73; 82; 109; 37; 190; 85; 167; 26; 153; 174; 182; 24;
  202; 55; 226; 234; 244; 150; 117; 66; 69; 199; 163; 177;
  222; 178; 54; 230; 177; 163; 87; 46; 222; 179; 234; 117;
  43; 88; 214; 97; 241; 248; 109; 96; 23; 137; 205; 19;
  49; 66; 171; 100; 29; 160; 231; 170; 224; 241; 112; 187;
  223; 189; 144; 103; 34; 39; 73; 19; 251; 254; 60; 190;
  21; 195; 204; 109; 101; 166; 80; 37; 176; 227; 186; 111;
  40; 59; 60; 166; 8; 18; 188; 178; 200; 76; 239; 41;
  4; 195; 28; 185; 31; 22; 141; 248; 194; 175; 34; 211;
  107; 194; 51; 194; 98; 123; 33; 147; 161; 84; 29; 160;
  83; 183; 231; 59; 106; 116; 12; 141; 167; 25; 233; 76;
  225; 251; 21; 162; 65; 57; 0; 179; 124; 116; 224; 37;
  87; 181; 206; 160; 252; 51; 220; 95; 81; 123; 185; 12;
  109; 149; 12; 167; 91; 138; 59; 120; 185; 204; 196; 184;
  165; 89; 127; 103; 221; 214; 51; 98; 172; 91; 50; 92;
  248; 192; 77; 12; 110; 9; 10; 175; 113; 91; 131; 220;
  246; 186; 149; 164; 121; 192; 13; 86; 111; 247; 28; 101;
  95; 152; 70; 0; 244; 224; 91; 110; 196; 247; 131; 131;
  218; 251; 193; 223; 179; 83; 240; 253; 96; 135; 204; 7;
  29; 248; 217; 148; 55; 0; 80; 33; 225; 200; 141; 231;
  96; 103; 238; 235; 81; 98; 95; 205; 95; 191; 204; 213;
  82; 65; 154; 98; 133; 190; 206; 7; 73; 189; 86; 246;
  65; 164; 150; 4; 189; 205; 81; 95; 62; 168; 21; 255;
  45; 82; 172; 208; 151; 208; 203; 126; 56; 58; 72; 252;
  12; 116; 252; 177; 225; 57; 190; 242; 111; 129; 197; 172;
  98; 226; 180; 183; 17; 45; 218; 107; 246; 244; 123; 23;
  126; 167; 229; 52; 24; 48; 244; 29; 230; 116; 89; 124;
  29; 201; 132; 73; 53; 43; 244; 157; 182; 56; 58; 138;
  54; 199; 2; 187; 147; 136; 65; 165; 123; 111; 255; 155;
  246; 0; 46; 94; 191; 238; 82; 156; 141; 42; 145; 138;
  0; 170; 14; 60; 44; 63; 247; 154; 56; 142; 76; 122;
  100; 128; 37; 12; 22; 42; 198; 247; 94; 129; 201; 254;
  225; 91; 58; 217; 79; 140; 83; 41; 177; 248; 165; 88;
  223; 42; 144; 225; 38; 253; 63; 42; 241; 86; 190; 59;
  160; 255; 199; 227; 144; 136; 99; 220; 36; 246; 31; 248;
  253; 163; 186; 175; 77; 80; 233; 131; 212; 86; 44; 122;
  2; 18; 201; 222; 94; 179; 216; 196; 177; 147; 14; 121;
  25; 70; 29; 242; 223; 71; 131; 233; 232; 50; 100; 1;
  131; 62; 227; 252; 138; 158; 190; 211; 161; 86; 189; 9;
  85; 220; 62; 222; 144; 117; 254; 59; 82; 207; 237; 107;
  172; 251; 76; 63; 42; 24; 97; 20; 42; 121; 199; 31;
  202; 251; 162; 55; 25; 184; 35; 126; 217; 241; 231; 208;
  100; 217; 241; 206; 149; 252; 209; 208; 120; 121; 113; 208;
  251; 110; 184; 252; 226; 168; 77; 35; 104; 81; 144; 4;
  135; 155; 166; 184; 91; 224; 209; 57; 111; 122; 30; 108;
  64; 52; 0; 179; 58; 233; 203; 108; 58; 135; 242; 107;
  60; 177; 195; 187; 158; 38; 82; 135; 1; 167; 177; 244;
  219; 28; 183; 225; 251; 204; 113; 161; 41; 176; 207; 66;
  43; 110; 247; 25; 188; 55; 212; 128; 239; 249; 169; 203;
  228; 19; 114; 172; 238; 210; 77; 236; 123; 227; 63; 9;
  189; 69; 37; 156; 244; 13; 219; 163; 86; 169; 71; 217;
  82; 22; 244; 189; 131; 158; 102; 239; 84; 79; 179; 171;
  109; 99; 97; 237; 87; 241; 39; 65; 36; 113; 79; 138;
  233; 161; 108; 231; 198; 194; 26; 179; 233; 241; 139; 15;
  218; 187; 56; 131; 95; 94; 164; 38; 107; 179; 21; 141;
  216; 118; 122; 14; 100; 167; 55; 251; 218; 36; 87; 187;
  108; 239; 208; 241; 59; 98; 92; 59; 7; 157; 4; 253;
  117; 47; 190; 186; 134; 198; 6; 189; 171; 97; 102; 209;
  84; 2; 191; 186; 108; 15; 113; 53; 138; 227; 231; 57;
  103; 136; 104; 218; 205; 179; 77; 227; 42; 209; 226; 246;
  62; 60; 133; 9; 216; 240; 32; 133; 17; 175; 211; 40;
  161; 129; 215; 213; 218; 165; 11; 219; 20; 201; 22; 123;
  128; 81; 175; 188; 62; 127; 225; 34; 116; 155; 246; 124;
  186; 35; 236; 153; 19; 246; 36; 40; 247; 96; 119; 244;
  212; 105; 140; 171; 131; 243; 189; 197; 168; 87; 87; 61;
  122; 11; 134; 111; 37; 123; 35; 244; 165; 5; 70; 50;
  184; 221; 75; 244; 23; 214; 232; 217; 119; 213; 23; 177;
  116; 252; 235; 49; 174; 93; 136; 105; 138; 83; 25; 117;
  48; 242; 46; 78; 244; 98; 161; 36; 116; 45; 54; 179;
  153; 169; 187; 98; 155; 6; 150; 43; 177; 205; 8; 141;
  243; 54; 133; 189; 39; 195; 244; 45; 175; 87; 66; 75;
  212; 75; 119; 183; 1; 47; 196; 218; 137; 174; 246; 219;
  48; 180; 113; 136; 124; 48; 17; 227; 27; 176; 145; 233;
  49; 0; 1; 186; 187; 38; 67; 103; 155; 130; 231; 90;
  58; 30; 70; 245; 222; 158; 112; 152; 21; 219; 198; 151;
  181; 99; 68; 254; 101; 208; 67; 77; 252; 73; 182; 154;
  63; 57; 248; 5; 98; 255; 129; 235; 251; 87; 227; 11;
  178; 248; 130; 183; 59; 255; 220; 27; 176; 31; 172; 194;
  29; 7; 88; 145; 129; 231; 236; 234; 219; 136; 241; 133;
  134; 252; 89; 61; 120; 184; 148; 57; 118; 224; 33; 123;
  92; 69; 217; 78; 124; 41; 73; 59; 109; 111; 189; 234;
  105; 251; 192; 142; 14; 27; 213; 35; 244; 57; 244; 214;
  133; 17; 86; 63; 45; 25; 208; 107; 166; 83; 217; 246;
  227; 192; 62; 51; 149; 207; 251; 111; 173; 91; 221; 1;
  223; 41; 26; 140; 151; 247; 158; 162; 223; 233; 193; 67;
  29; 104; 121; 10; 121; 239; 84; 50; 212; 47; 158; 184;
  189; 135; 41; 20; 87; 185; 8; 175; 235; 223; 16; 13;
  138; 226; 112; 44; 61; 78; 6; 90; 223; 38; 224; 6;
  153; 172; 234; 135; 45; 158; 208; 227; 77; 241; 224; 128;
  11; 110; 18; 189; 143; 116; 238; 13; 233; 48; 189; 49;
  182; 189; 21; 48; 113; 59; 47; 140; 170; 251; 114; 20;
  233; 145; 68; 19; 233; 179; 132; 235; 190; 28; 201; 54;
  169; 167; 208; 105; 227; 79; 70; 46; 217; 101; 202; 135].

Definition limine_hdd_10 : list Z := [
  241; 117; 241; 12; 135; 83; 249; 231; 15; 120; 142; 129;
  77; 213; 239; 168; 52; 198; 147; 32; 12; 214; 135; 245;
  133; 38; 135; 76; 47; 249; 57; 20; 241; 45; 42; 127;
  176; 208; 241; 112; 224; 81; 61; 141; 154; 217; 13; 146;
  184; 77; 42; 123; 150; 176; 32; 170; 146; 235; 41; 178;
  64; 143; 193; 182; 5; 134; 106; 155; 177; 106; 1; 8;
  182; 9; 252; 9; 150; 44; 48; 129; 204; 98; 216; 41;
  109; 14; 89; 16; 43; 241; 85; 228; 231; 113; 211; 155;
  200; 130; 4; 242; 139; 196; 9; 39; 229; 189; 63; 224;
  215; 138; 182; 36; 165; 167; 167; 101; 40; 127; 125; 79;
  13; 165; 83; 138; 42; 241; 109; 74; 113; 68; 83; 114;
  50; 19; 26; 7; 127; 89; 121; 115; 10; 165; 242; 220;
  107; 52; 26; 186; 57; 242; 245; 151; 166; 228; 229; 80;
  183; 226; 220; 107; 93; 248; 185; 137; 126; 94; 31; 98;
  41; 175; 191; 190; 132; 65; 94; 58; 29; 200; 114; 252;
  222; 131; 123; 254; 3; 15; 112; 190; 55; 116; 145; 233;
  193; 235; 135; 180; 201; 101; 181; 201; 254; 75; 42; 108;
  5; 157; 30; 215; 95; 56; 223; 99; 0; 75; 143; 173;
  89; 128; 58; 162; 66; 253; 90; 133; 58; 79; 81; 63;
  198; 249; 86; 70; 58; 71; 152; 247; 84; 152; 13; 67;
  96; 238; 30; 8; 115; 70; 133; 185; 111; 8; 76; 204;
  64; 152; 111; 84; 152; 169; 67; 96; 190; 141; 210; 96;
  12; 120; 30; 8; 178; 168; 191; 20; 145; 69; 188; 206;
  145; 169; 52; 252; 93; 123; 55; 129; 171; 108; 136; 192;
  234; 224; 185; 11; 96; 219; 250; 84; 88; 93; 254; 60;
  42; 183; 191; 189; 2; 251; 219; 168; 200; 173; 47; 232;
  59; 81; 79; 251; 254; 115; 223; 64; 110; 56; 191; 229;
  42; 127; 129; 10; 168; 204; 164; 227; 182; 190; 1; 228;
  29; 65; 126; 88; 194; 150; 22; 85; 108; 40; 51; 77;
  153; 32; 93; 170; 76; 42; 5; 125; 17; 25; 3; 44;
  11; 203; 15; 247; 160; 160; 10; 38; 111; 147; 9; 164;
  194; 219; 167; 23; 3; 93; 63; 141; 162; 159; 13; 161;
  31; 151; 161; 139; 208; 114; 30; 4; 91; 71; 182; 227;
  28; 7; 248; 23; 212; 91; 149; 244; 14; 177; 77; 31;
  224; 119; 170; 249; 245; 97; 245; 59; 18; 89; 229; 132;
  126; 134; 7; 229; 78; 189; 198; 107; 139; 197; 16; 254;
  35; 244; 10; 212; 247; 40; 95; 252; 115; 146; 175; 151;
  38; 118; 96; 132; 100; 243; 15; 164; 173; 174; 99; 148;
  245; 194; 163; 201; 209; 56; 83; 233; 233; 212; 206; 52;
  165; 131; 196; 163; 60; 246; 223; 220; 248; 43; 24; 154;
  213; 62; 70; 189; 127; 153; 196; 9; 134; 164; 104; 206;
  183; 5; 149; 194; 139; 122; 40; 76; 13; 237; 183; 180;
  68; 83; 121; 200; 184; 106; 251; 13; 212; 80; 53; 227;
  14; 121; 24; 177; 192; 82; 79; 102; 213; 8; 18; 133;
  32; 31; 203; 123; 219; 145; 174; 40; 137; 14; 7; 246;
  182; 133; 122; 137; 142; 134; 44; 52; 84; 211; 209; 84;
  45; 164; 107; 137; 44; 52; 73; 116; 72; 100; 97; 172;
  165; 69; 242; 97; 255; 234; 5; 118; 203; 233; 192; 162;
  36; 122; 126; 220; 44; 201; 6; 132; 88; 148; 32; 241;
  229; 227; 79; 145; 204; 57; 228; 254; 68; 178; 40; 206;
  233; 204; 236; 146; 213; 151; 231; 44; 45; 105; 105; 96;
  248; 23; 50; 148; 108; 149; 100; 156; 54; 80; 6; 254;
  222; 43; 196; 246; 168; 122; 233; 25; 53; 64; 14; 74;
  115; 47; 37; 119; 36; 240; 159; 244; 145; 139; 100; 17;
  93; 235; 139; 232; 90; 95; 164; 210; 183; 8; 23; 58;
  89; 20; 75; 122; 165; 195; 200; 244; 192; 2; 245; 75;
  80; 91; 18; 36; 25; 121; 31; 88; 72; 137; 36; 63;
  75; 36; 15; 196; 165; 167; 59; 50; 148; 35; 239; 106;
  134; 222; 127; 91; 232; 150; 22; 88; 223; 76; 200; 120;
  240; 50; 222; 200; 140; 62; 248; 163; 26; 72; 35; 193;
  33; 251; 61; 154; 105; 120; 215; 201; 58; 9; 191; 203;
  179; 113; 197; 203; 248; 97; 30; 57; 137; 190; 196; 32;
  233; 159; 43; 223; 156; 204; 8; 177; 94; 127; 74; 90;
  161; 41; 195; 161; 188; 250; 183; 200; 187; 59; 55; 83;
  64; 73; 159; 88; 190; 121; 57; 35; 220; 232; 245; 175;
  72; 167; 16; 21; 17; 8; 113; 116; 4; 34; 20; 109;
  11; 237; 24; 114; 52; 66; 157; 143; 106; 187; 33; 67;
  186; 19; 251; 117; 74; 147; 16; 216; 250; 145; 48; 81;
  210; 63; 35; 149; 25; 173; 155; 13; 226; 216; 196; 197;
  70; 124; 131; 203; 100; 221; 108; 18; 162; 23; 134; 62;
  213; 78; 230; 213; 208; 222; 88; 250; 57; 34; 63; 125;
  139; 76; 109; 92; 39; 140; 149; 98; 189; 56; 150; 89;
  66; 116; 114; 232; 91; 75; 203; 74; 18; 4; 139; 90;
  50; 84; 92; 188; 12; 86; 234; 166; 137; 244; 102; 224;
  207; 89; 18; 183; 178; 234; 215; 126; 36; 142; 201; 106;
  42; 199; 4; 211; 32; 49; 145; 20; 2; 73; 134; 242;
  185; 140; 252; 60; 22; 8; 55; 86; 92; 164; 87; 131;
  199; 67; 203; 133; 36; 174; 250; 129; 112; 21; 173; 8;
  157; 122; 251; 157; 49; 58; 166; 73; 199; 68; 110; 203;
  200; 101; 109; 232; 78; 17; 123; 163; 250; 229; 55; 222;
  79; 191; 181; 198; 55; 106; 46; 236; 168; 32; 236; 164;
  188; 159; 190; 229; 175; 224; 39; 160; 66; 133; 82; 89;
  35; 88; 24; 228; 68; 93; 248; 38; 203; 37; 210; 107;
  185; 72; 206; 144; 247; 223; 190; 6; 0; 166; 55; 77;
  8; 192; 226; 24; 13; 78; 138; 180; 139; 242; 180; 144;
  241; 250; 19; 176; 160; 42; 229; 182; 86; 37; 67; 45;
  68; 179; 14; 47; 139; 202; 43; 195; 96; 83; 188; 231;
  45; 107; 100; 182; 140; 108; 74; 153; 212; 122; 59; 94;
  60; 109; 101; 97; 51; 244; 43; 211; 195; 67; 190; 166;
  36; 151; 157; 36; 239; 81; 90; 121; 63; 9; 146; 119;
  73; 195; 129; 241; 244; 27; 68; 1; 254; 4; 82; 138;
  95; 219; 4; 119; 47; 6; 137; 110; 27; 64; 244; 223;
  241; 210; 193; 207; 11; 49; 16; 87; 56; 58; 195; 73;
  248; 67; 202; 191; 222; 80; 55; 159; 178; 70; 146; 85;
  171; 145; 152; 225; 172; 74; 153; 127; 130; 92; 80; 94;
  129; 202; 3; 244; 51; 167; 246; 70; 250; 222; 96; 45;
  186; 8; 120; 4; 212; 60; 161; 151; 124; 84; 186; 23;
  48; 203; 174; 19; 58; 215; 33; 197; 119; 121; 24; 141;
  167; 201; 123; 7; 192; 32; 97; 84; 66; 27; 233; 225;
  252; 217; 0; 127; 146; 242; 242; 3; 113; 228; 193; 123;
  65; 17; 135; 172; 228; 68; 45; 71; 239; 150; 112; 187;
  206; 233; 73; 0; 108; 245; 186; 111; 244; 213; 79; 219;
  160; 146; 156; 173; 90; 30; 125; 114; 241; 168; 143; 197;
  79; 129; 228; 131; 203; 161; 72; 137; 199; 142; 192; 90;
  138; 77; 132; 34; 101; 28; 85; 176; 73; 195; 172; 96;
  26; 123; 21; 141; 145; 183; 203; 143; 152; 48; 12; 86;
  222; 55; 85; 184; 54; 153; 240; 123; 100; 254; 16; 57;
  167; 188; 74; 79; 24; 247; 144; 51; 161; 79; 42; 91;
  196; 25; 150; 243; 218; 183; 142; 164; 172; 67; 92; 101;
  19; 170; 247; 150; 90; 148; 20; 250; 109; 24; 135; 242;
  97; 34; 75; 47; 81; 188; 13; 53; 213; 14; 88; 174;
  81; 96; 210; 150; 247; 229; 114; 149; 104; 223; 60; 102;
  43; 239; 115; 113; 149; 23; 49; 25; 83; 222; 151; 162;
  5; 76; 251; 156; 66; 65; 215; 77; 120; 116; 221; 183;
  130; 171; 252; 158; 22; 173; 225; 124; 248; 206; 31; 119;
  228; 58; 160; 67; 94; 173; 87; 110; 192; 179; 231; 82;
  252; 160; 94; 159; 8; 69; 234; 9; 23; 98; 41; 225;
  42; 91; 104; 19; 143; 16; 211; 245; 49; 77; 109; 86;
  207; 6; 186; 142; 225; 2; 191; 14; 90; 131; 161; 119;
  211; 193; 76; 228; 100; 156; 116; 143; 188; 218; 224; 11;
  11; 35; 165; 141; 248; 133; 135; 91; 105; 49; 32; 84;
  20; 48; 120; 186; 198; 227; 55; 186; 232; 59; 180; 194;
  77; 242; 207; 88; 98; 63; 84; 109; 28; 153; 92; 85;
  77; 87; 146; 235; 144; 76; 19; 214; 38; 241; 116; 40;
  250; 0; 93; 25; 44; 211; 245; 47; 188; 231; 50; 2;
  122; 121; 62; 52; 158; 246; 102; 57; 26; 154; 38; 141;
  144; 50; 244; 208; 19; 190; 84; 138; 216; 223; 65; 236;
  111; 81; 200; 193; 21; 120; 96; 220; 245; 187; 225; 21;
  161; 145; 26; 46; 122; 247; 162; 107; 51; 64; 28; 188;
  23; 7; 149; 123; 89; 251; 226; 155; 236; 242; 31; 24;
  77; 63; 162; 197; 29; 217; 138; 116; 149; 95; 28; 45;
  38; 165; 129; 49; 98; 2; 55; 116; 236; 56; 252; 114;
  200; 159; 64; 14; 92; 170; 211; 10; 122; 228; 36; 148;
  143; 166; 111; 104; 130; 221; 154; 158; 10; 128; 202; 242;
  63; 81; 209; 6; 127; 253; 141; 208; 168; 242; 127; 142;
  115; 16; 123; 103; 168; 115; 88; 80; 198; 36; 131; 89;
  142; 174; 255; 33; 245; 176; 93; 115; 152; 53; 97; 104;
  138; 222; 222; 23; 69; 195; 0; 178; 104; 194; 251; 213;
  66; 162; 119; 126; 51; 176; 135; 17; 167; 42; 175; 220;
  200; 50; 26; 156; 48; 57; 82; 60; 78; 121; 56; 254;
  74; 49; 125; 191; 119; 117; 79; 228; 194; 254; 91; 40;
  194; 21; 170; 171; 239; 112; 80; 35; 158; 199; 91; 44;
  250; 41; 123; 241; 187; 62; 107; 195; 52; 77; 95; 52;
  78; 137; 26; 248; 1; 46; 225; 230; 202; 211; 160; 167;
  1; 197; 70; 68; 113; 15; 94; 7; 157; 61; 134; 101;
  34; 208; 119; 47; 166; 238; 81; 254; 118; 172; 197; 99;
  23; 229; 218; 63; 246; 159; 64; 195; 98; 200; 242; 42;
  102; 111; 239; 106; 238; 55; 253; 87; 136; 208; 53; 150;
  23; 94; 240; 246; 234; 161; 16; 223; 237; 121; 182; 126].

Definition limine_hdd_11 : list Z := [
  168; 15; 236; 237; 155; 176; 73; 7; 13; 179; 6; 21;
  191; 163; 22; 251; 205; 253; 46; 4; 170; 92; 23; 190;
  84; 84; 109; 212; 201; 241; 81; 149; 71; 133; 17; 85;
  198; 168; 228; 208; 191; 65; 187; 194; 150; 53; 0; 78;
  125; 13; 211; 228; 180; 54; 11; 55; 2; 188; 92; 194;
  86; 199; 235; 96; 100; 134; 170; 85; 179; 194; 164; 39;
  244; 85; 147; 30; 124; 121; 107; 221; 166; 11; 170; 242;
  31; 208; 1; 125; 107; 169; 58; 150; 157; 27; 171; 19;
  140; 220; 139; 244; 83; 23; 41; 76; 56; 52; 10; 150;
  182; 46; 57; 244; 25; 108; 47; 131; 124; 112; 122; 236;
  78; 63; 31; 83; 109; 4; 93; 97; 172; 142; 79; 228;
  142; 212; 57; 20; 11; 110; 233; 77; 220; 145; 6; 188;
  229; 57; 69; 157; 10; 107; 147; 48; 214; 226; 79; 252;
  24; 208; 106; 56; 143; 10; 186; 69; 33; 255; 176; 27;
  1; 78; 122; 15; 0; 28; 108; 35; 219; 96; 109; 19;
  226; 170; 13; 115; 71; 15; 162; 198; 144; 188; 176; 242;
  168; 216; 121; 133; 24; 36; 30; 6; 93; 158; 4; 123;
  17; 144; 121; 97; 192; 229; 2; 220; 188; 241; 147; 162;
  50; 223; 147; 94; 56; 26; 76; 131; 131; 223; 98; 108;
  12; 191; 239; 96; 61; 43; 204; 47; 183; 50; 98; 180;
  247; 146; 78; 156; 77; 191; 96; 100; 109; 58; 66; 3;
  154; 31; 149; 222; 82; 149; 50; 233; 123; 155; 252; 11;
  86; 118; 125; 239; 189; 164; 23; 223; 113; 20; 234; 211;
  81; 148; 74; 255; 168; 189; 232; 19; 210; 121; 155; 195;
  234; 11; 214; 13; 67; 223; 98; 245; 157; 23; 163; 200;
  55; 40; 43; 111; 163; 172; 124; 175; 189; 143; 146; 161;
  151; 110; 244; 181; 8; 217; 154; 188; 213; 30; 42; 143;
  98; 14; 240; 223; 225; 185; 96; 179; 197; 143; 31; 28;
  33; 101; 157; 82; 18; 107; 237; 219; 20; 227; 59; 47;
  220; 68; 130; 183; 241; 157; 142; 140; 244; 252; 102; 170;
  123; 188; 126; 189; 60; 135; 77; 46; 127; 132; 13; 51;
  98; 111; 232; 132; 195; 145; 158; 223; 134; 248; 159; 85;
  241; 251; 78; 11; 122; 208; 180; 207; 5; 120; 67; 71;
  79; 127; 104; 180; 107; 227; 15; 253; 66; 234; 237; 142;
  45; 204; 87; 10; 186; 193; 33; 78; 30; 27; 57; 2;
  4; 247; 116; 164; 234; 158; 58; 229; 178; 160; 183; 123;
  78; 128; 239; 97; 180; 175; 235; 5; 181; 143; 74; 129;
  153; 127; 67; 128; 255; 222; 145; 1; 189; 61; 248; 170;
  246; 58; 97; 217; 247; 203; 50; 232; 203; 132; 223; 34;
  121; 211; 185; 253; 89; 173; 220; 126; 190; 39; 179; 112;
  68; 221; 231; 250; 252; 177; 103; 193; 110; 108; 112; 42;
  79; 191; 22; 49; 136; 198; 57; 157; 249; 177; 103; 105;
  68; 228; 71; 244; 157; 42; 30; 30; 193; 68; 109; 194;
  192; 126; 34; 148; 134; 20; 201; 54; 45; 189; 80; 79;
  26; 184; 253; 254; 252; 165; 80; 82; 23; 50; 1; 34;
  196; 177; 172; 31; 7; 118; 151; 134; 208; 7; 233; 43;
  201; 38; 165; 101; 7; 173; 210; 78; 117; 5; 250; 221;
  135; 66; 0; 80; 30; 187; 164; 125; 115; 181; 119; 229;
  0; 71; 92; 167; 142; 84; 46; 235; 246; 118; 199; 225;
  8; 187; 221; 1; 254; 155; 40; 70; 251; 188; 43; 7;
  125; 167; 59; 10; 127; 161; 248; 118; 224; 198; 245; 157;
  84; 246; 3; 169; 199; 111; 170; 126; 109; 170; 251; 76;
  47; 165; 68; 197; 30; 29; 244; 173; 143; 167; 88; 245;
  182; 159; 136; 183; 79; 136; 175; 28; 148; 43; 204; 253;
  72; 69; 166; 11; 0; 61; 15; 212; 205; 7; 102; 81;
  131; 65; 246; 97; 102; 64; 79; 153; 233; 248; 137; 233;
  27; 118; 68; 188; 36; 223; 87; 244; 70; 25; 126; 128;
  87; 62; 124; 28; 27; 110; 85; 239; 243; 84; 82; 165;
  141; 24; 62; 234; 175; 35; 123; 223; 163; 78; 81; 88;
  140; 117; 40; 39; 241; 211; 11; 125; 117; 97; 61; 232;
  102; 138; 59; 156; 158; 89; 56; 85; 121; 231; 15; 253;
  168; 233; 165; 8; 57; 131; 190; 203; 246; 0; 253; 214;
  170; 250; 229; 97; 29; 75; 150; 196; 30; 168; 166; 4;
  74; 116; 0; 233; 233; 117; 29; 6; 192; 234; 198; 192;
  26; 237; 90; 125; 155; 77; 222; 139; 237; 188; 74; 2;
  84; 124; 41; 211; 87; 156; 28; 202; 106; 236; 184; 167;
  238; 50; 237; 184; 3; 58; 62; 239; 200; 40; 52; 43;
  169; 145; 142; 133; 27; 29; 120; 163; 14; 91; 58; 242;
  9; 206; 203; 87; 23; 181; 5; 212; 229; 197; 29; 122;
  63; 255; 37; 253; 250; 141; 3; 134; 249; 8; 246; 69;
  105; 80; 186; 190; 192; 36; 118; 190; 34; 236; 137; 85;
  246; 117; 225; 197; 197; 199; 46; 107; 23; 25; 109; 6;
  149; 48; 224; 36; 52; 251; 37; 242; 196; 183; 77; 205;
  227; 189; 87; 159; 128; 219; 29; 14; 111; 158; 39; 150;
  4; 39; 218; 226; 56; 239; 63; 212; 15; 72; 30; 70;
  48; 245; 160; 239; 47; 42; 14; 160; 26; 112; 252; 230;
  50; 117; 230; 17; 21; 228; 158; 83; 93; 173; 109; 106;
  53; 190; 58; 136; 97; 139; 155; 149; 226; 151; 34; 195;
  50; 130; 28; 30; 128; 225; 116; 253; 1; 87; 7; 140;
  240; 89; 108; 18; 222; 139; 24; 193; 129; 97; 123; 28;
  202; 226; 87; 232; 213; 194; 103; 213; 207; 89; 177; 77;
  238; 121; 116; 128; 156; 247; 33; 52; 67; 14; 211; 193;
  112; 62; 23; 94; 210; 247; 196; 82; 19; 112; 226; 18;
  32; 20; 95; 105; 200; 204; 116; 228; 31; 71; 102; 29;
  236; 141; 140; 155; 69; 187; 8; 63; 197; 234; 14; 248;
  182; 170; 17; 32; 250; 75; 197; 41; 173; 95; 114; 39;
  43; 199; 94; 236; 95; 111; 233; 233; 249; 150; 239; 232;
  122; 195; 32; 190; 3; 200; 67; 222; 170; 68; 42; 239;
  126; 73; 225; 174; 124; 134; 19; 13; 242; 88; 252; 140;
  52; 60; 139; 150; 185; 152; 13; 103; 116; 231; 221; 211;
  111; 222; 244; 208; 206; 91; 94; 153; 93; 121; 207; 35;
  191; 79; 217; 51; 119; 40; 204; 133; 170; 195; 227; 254;
  156; 51; 63; 176; 236; 72; 69; 247; 71; 198; 77; 150;
  15; 66; 159; 221; 71; 15; 146; 76; 24; 105; 250; 223;
  255; 209; 75; 148; 191; 211; 126; 159; 142; 228; 223; 215;
  242; 239; 171; 64; 191; 51; 171; 191; 79; 107; 56; 125;
  128; 30; 30; 51; 60; 9; 240; 36; 195; 227; 128; 231;
  65; 120; 74; 224; 41; 135; 103; 27; 60; 59; 224; 169;
  129; 199; 15; 79; 16; 158; 14; 120; 122; 224; 97; 158;
  128; 246; 240; 152; 225; 73; 128; 39; 25; 30; 7; 60;
  15; 194; 83; 2; 79; 57; 60; 219; 224; 217; 1; 79;
  13; 60; 126; 120; 130; 240; 116; 192; 211; 3; 207; 242;
  251; 236; 252; 253; 174; 229; 243; 19; 70; 47; 74; 95;
  224; 88; 124; 159; 205; 57; 127; 75; 158; 103; 244; 242;
  197; 188; 157; 207; 94; 184; 192; 182; 100; 81; 250; 253;
  174; 101; 41; 243; 239; 76; 80; 255; 141; 190; 82; 150;
  237; 88; 176; 124; 241; 124; 247; 166; 53; 238; 181; 115;
  239; 184; 227; 142; 226; 18; 225; 142; 226; 210; 181; 51;
  215; 23; 108; 40; 40; 202; 187; 253; 161; 226; 98; 97;
  125; 113; 78; 110; 94; 233; 204; 135; 114; 214; 172; 91;
  91; 90; 44; 22; 229; 14; 108; 237; 92; 254; 243; 165;
  252; 124; 143; 80; 154; 39; 172; 201; 207; 203; 29; 61;
  215; 83; 176; 161; 100; 125; 158; 121; 67; 113; 110; 158;
  121; 77; 113; 145; 187; 96; 237; 232; 37; 124; 250; 50;
  126; 233; 255; 185; 163; 117; 121; 165; 69; 121; 235; 7;
  140; 233; 255; 63; 156; 105; 188; 221; 197; 252; 95; 134;
  248; 95; 128; 84; 2; 152; 21; 169; 124; 58; 147; 185;
  32; 125; 217; 125; 203; 22; 205; 53; 47; 191; 255; 126;
  179; 125; 193; 178; 159; 155; 51; 238; 95; 234; 178; 243;
  206; 201; 76; 74; 129; 103; 157; 57; 175; 180; 180; 184;
  212; 60; 117; 243; 76; 115; 74; 105; 193; 198; 60; 72;
  253; 103; 185; 67; 57; 194; 19; 79; 148; 103; 131; 42;
  174; 12; 234; 67; 148; 52; 116; 227; 240; 91; 75; 119;
  32; 29; 119; 168; 52; 205; 244; 108; 241; 48; 87; 146;
  102; 79; 193; 47; 243; 204; 5; 69; 107; 138; 75; 75;
  243; 214; 8; 51; 71; 15; 172; 123; 72; 44; 88; 159;
  107; 190; 47; 197; 188; 161; 192; 179; 33; 7; 102; 10;
  170; 109; 197; 34; 148; 21; 21; 11; 230; 188; 162; 156;
  135; 128; 189; 11; 102; 37; 152; 215; 67; 11; 102; 244;
  228; 201; 102; 167; 144; 179; 54; 207; 60; 219; 236; 46;
  128; 26; 4; 114; 35; 91; 38; 99; 213; 226; 28; 24;
  201; 150; 98; 17; 166; 162; 164; 32; 47; 215; 60; 160;
  31; 161; 216; 44; 228; 231; 153; 75; 129; 74; 51; 12;
  156; 146; 107; 206; 45; 64; 130; 138; 75; 11; 242; 60;
  230; 98; 55; 98; 40; 46; 202; 131; 20; 5; 45; 201;
  41; 21; 10; 132; 130; 226; 34; 168; 43; 162; 37; 106;
  155; 188; 141; 5; 107; 242; 238; 29; 61; 154; 73; 205;
  1; 10; 114; 17; 51; 242; 223; 236; 81; 233; 154; 201;
  216; 82; 18; 18; 44; 204; 125; 206; 251; 173; 119; 221;
  149; 48; 23; 72; 52; 151; 148; 22; 108; 200; 41; 221;
  98; 222; 88; 188; 94; 220; 144; 7; 40; 60; 107; 74;
  11; 74; 160; 99; 102; 217; 242; 84; 231; 92; 115; 42;
  14; 5; 72; 41; 46; 205; 53; 231; 8; 66; 105; 193;
  67; 162; 0; 28; 131; 142; 69; 193; 83; 144; 75; 73;
  114; 95; 129; 25; 253; 95; 155; 229; 231; 120; 204; 191;
  204; 43; 5; 170; 242; 138; 214; 10; 249; 253; 192; 253;
  212; 150; 230; 1; 181; 3; 208; 153; 221; 165; 197; 27;
  204; 27; 220; 2; 12; 233; 190; 165; 252; 85; 144; 35;
  202; 130; 162; 141; 57; 235; 11; 96; 152; 5; 107; 139].

Definition limine_hdd_12 : list Z := [
  114; 4; 177; 52; 207; 60; 109; 45; 176; 99; 234; 26;
  245; 255; 12; 179; 39; 159; 78; 219; 67; 121; 102; 196;
  50; 125; 242; 240; 142; 215; 230; 9; 255; 219; 48; 64;
  10; 60; 5; 69; 107; 205; 69; 57; 192; 167; 254; 49;
  169; 144; 120; 161; 89; 107; 146; 46; 22; 173; 47; 240;
  8; 230; 146; 226; 130; 34; 129; 78; 110; 132; 83; 56;
  79; 26; 155; 167; 77; 221; 60; 61; 2; 159; 135; 149;
  69; 2; 140; 34; 55; 111; 51; 114; 86; 40; 46; 54;
  63; 84; 176; 182; 159; 202; 82; 13; 227; 127; 100; 122;
  63; 36; 127; 127; 42; 12; 210; 93; 92; 154; 71; 57;
  137; 212; 70; 228; 104; 139; 217; 45; 174; 95; 191; 101;
  230; 204; 153; 255; 129; 235; 72; 221; 66; 199; 194; 72;
  237; 242; 251; 83; 238; 159; 107; 246; 136; 37; 37; 197;
  165; 131; 88; 163; 46; 153; 77; 249; 5; 107; 242; 145;
  34; 148; 114; 75; 194; 172; 57; 230; 135; 182; 8; 160;
  60; 175; 142; 219; 158; 186; 252; 106; 220; 29; 82; 220;
  207; 225; 148; 5; 203; 23; 12; 229; 240; 112; 232; 255;
  15; 210; 136; 77; 97; 94; 204; 255; 157; 141; 253; 208;
  26; 25; 165; 3; 215; 225; 150; 171; 50; 124; 121; 105;
  193; 128; 97; 170; 51; 168; 145; 55; 160; 143; 126; 28;
  163; 153; 251; 150; 165; 172; 248; 223; 132; 47; 66; 214;
  127; 19; 194; 171; 179; 232; 255; 62; 198; 126; 169; 203;
  205; 17; 114; 34; 18; 247; 31; 102; 111; 0; 249; 145;
  149; 150; 183; 89; 192; 198; 27; 114; 214; 22; 172; 97;
  180; 76; 191; 190; 99; 30; 90; 95; 188; 102; 29; 104;
  158; 162; 181; 121; 165; 32; 87; 57; 69; 26; 124; 4;
  18; 4; 212; 172; 194; 92; 105; 3; 85; 179; 230; 154;
  157; 91; 54; 128; 50; 93; 231; 49; 111; 42; 16; 242;
  81; 25; 9; 5; 176; 162; 65; 209; 129; 202; 19; 242;
  61; 131; 112; 222; 149; 96; 94; 147; 159; 83; 234; 49;
  139; 69; 154; 152; 194; 78; 170; 225; 113; 128; 130; 196;
  145; 99; 171; 136; 148; 94; 153; 201; 34; 232; 223; 163;
  246; 20; 105; 128; 44; 2; 93; 44; 228; 109; 160; 26;
  101; 0; 74; 179; 59; 143; 234; 20; 15; 236; 67; 17;
  104; 177; 8; 185; 185; 49; 175; 148; 110; 1; 116; 191;
  242; 168; 227; 136; 64; 240; 69; 160; 160; 183; 68; 186;
  46; 205; 91; 43; 174; 207; 41; 141; 236; 11; 3; 122;
  207; 230; 109; 139; 179; 83; 157; 217; 76; 222; 154; 124;
  183; 103; 238; 0; 21; 166; 177; 26; 20; 223; 130; 229;
  179; 103; 161; 126; 129; 132; 229; 174; 72; 130; 150; 184;
  115; 132; 217; 208; 25; 108; 174; 2; 116; 11; 77; 10;
  128; 157; 48; 121; 84; 5; 78; 205; 157; 62; 154; 89;
  0; 221; 21; 221; 46; 122; 84; 66; 19; 97; 179; 130;
  9; 40; 165; 132; 21; 20; 81; 249; 200; 49; 107; 181;
  30; 224; 14; 112; 122; 38; 179; 176; 127; 219; 70; 161;
  89; 159; 3; 27; 4; 212; 51; 247; 222; 123; 47; 179;
  192; 230; 184; 111; 80; 33; 45; 88; 150; 225; 100; 22;
  130; 160; 108; 200; 219; 0; 236; 101; 248; 212; 193; 48;
  32; 107; 121; 165; 27; 243; 114; 25; 151; 218; 81; 250;
  2; 59; 147; 90; 10; 90; 244; 33; 209; 237; 206; 43;
  165; 240; 116; 255; 66; 48; 216; 192; 60; 204; 18; 106;
  120; 220; 97; 47; 206; 21; 97; 90; 152; 149; 83; 87;
  152; 111; 191; 199; 60; 117; 69; 150; 121; 46; 252; 53;
  155; 147; 166; 122; 168; 10; 189; 103; 52; 99; 167; 125;
  130; 36; 150; 128; 144; 229; 231; 136; 48; 133; 185; 51;
  35; 165; 57; 235; 65; 202; 84; 249; 209; 216; 114; 149;
  42; 15; 72; 134; 7; 179; 155; 128; 68; 91; 113; 209;
  70; 224; 16; 20; 231; 172; 215; 198; 51; 20; 11; 64;
  45; 46; 88; 155; 63; 164; 182; 184; 116; 174; 249; 126;
  145; 10; 157; 198; 6; 198; 82; 207; 48; 39; 235; 24;
  38; 30; 126; 111; 129; 231; 86; 120; 82; 10; 54; 22;
  120; 16; 211; 67; 91; 204; 9; 76; 10; 176; 96; 45;
  179; 204; 126; 31; 179; 16; 86; 218; 58; 186; 101; 48;
  247; 131; 92; 185; 129; 26; 152; 7; 16; 40; 115; 105;
  14; 136; 60; 140; 109; 77; 94; 94; 46; 116; 125; 159;
  182; 2; 139; 75; 214; 128; 97; 7; 24; 144; 99; 84;
  200; 114; 54; 2; 113; 148; 225; 41; 197; 34; 242; 217;
  157; 35; 174; 23; 250; 27; 44; 119; 58; 25; 103; 222;
  218; 13; 145; 165; 90; 2; 34; 141; 107; 18; 108; 150;
  53; 235; 110; 247; 104; 53; 106; 155; 69; 121; 69; 32;
  219; 235; 1; 166; 88; 80; 165; 66; 171; 112; 160; 29;
  161; 38; 55; 39; 222; 77; 169; 42; 193; 106; 102; 193;
  122; 16; 92; 138; 1; 12; 218; 53; 235; 24; 123; 206;
  154; 124; 176; 111; 180; 156; 243; 62; 123; 202; 0; 224;
  140; 130; 82; 65; 4; 162; 60; 148; 169; 64; 213; 26;
  177; 20; 86; 203; 213; 236; 59; 199; 55; 12; 179; 26;
  158; 92; 120; 242; 225; 241; 192; 243; 8; 60; 191; 134;
  103; 7; 60; 123; 225; 193; 11; 217; 245; 240; 251; 30;
  60; 159; 193; 115; 30; 30; 238; 91; 181; 252; 6; 248;
  157; 6; 79; 34; 60; 169; 240; 184; 180; 242; 255; 237;
  201; 5; 184; 229; 160; 21; 55; 228; 20; 109; 49; 243;
  145; 117; 3; 198; 216; 100; 102; 129; 0; 90; 162; 4;
  53; 131; 186; 153; 103; 163; 146; 156; 54; 29; 45; 177;
  146; 205; 121; 84; 154; 29; 11; 210; 151; 227; 42; 101;
  18; 54; 39; 48; 9; 150; 89; 179; 231; 220; 121; 215;
  221; 137; 214; 156; 135; 214; 228; 230; 185; 161; 144; 153;
  86; 4; 155; 241; 116; 102; 226; 202; 217; 150; 13; 142;
  5; 203; 238; 179; 65; 234; 238; 121; 150; 13; 19; 87;
  38; 108; 152; 107; 102; 28; 48; 55; 30; 88; 153; 235;
  242; 182; 168; 90; 24; 52; 66; 17; 166; 128; 195; 226;
  76; 173; 218; 182; 60; 125; 233; 109; 11; 150; 46; 191;
  45; 133; 95; 170; 66; 225; 34; 130; 90; 196; 7; 72;
  232; 196; 10; 165; 57; 107; 242; 230; 142; 102; 204; 230;
  149; 83; 75; 178; 112; 225; 220; 54; 181; 228; 158; 72;
  126; 52; 195; 23; 209; 237; 134; 130; 205; 132; 142; 87;
  240; 168; 23; 4; 16; 106; 85; 224; 233; 252; 69; 196;
  30; 106; 151; 101; 220; 166; 254; 128; 77; 89; 42; 174;
  161; 154; 234; 138; 206; 66; 51; 90; 68; 214; 48; 192;
  9; 51; 200; 49; 21; 117; 220; 93; 138; 215; 231; 50;
  147; 161; 33; 51; 25; 107; 254; 67; 11; 208; 255; 226;
  26; 88; 255; 30; 106; 170; 80; 117; 86; 0; 98; 242;
  75; 212; 235; 130; 91; 40; 25; 184; 51; 21; 151; 228;
  21; 169; 250; 116; 234; 102; 180; 154; 31; 2; 253; 83;
  2; 3; 134; 173; 20; 13; 20; 13; 62; 157; 218; 147;
  234; 210; 215; 138; 156; 168; 139; 74; 81; 1; 130; 248;
  83; 19; 9; 45; 31; 138; 169; 160; 200; 12; 134; 254;
  250; 245; 80; 173; 162; 2; 45; 83; 128; 106; 9; 196;
  122; 106; 174; 106; 225; 76; 159; 97; 206; 45; 222; 84;
  68; 205; 234; 13; 160; 6; 4; 179; 144; 179; 46; 79;
  219; 152; 102; 70; 232; 180; 173; 47; 246; 228; 245; 119;
  28; 244; 50; 76; 118; 182; 152; 91; 176; 49; 183; 96;
  54; 243; 9; 205; 105; 153; 111; 212; 42; 112; 210; 48;
  23; 166; 57; 45; 99; 170; 140; 180; 162; 5; 115; 152;
  219; 135; 20; 204; 204; 5; 151; 128; 73; 168; 212; 208;
  105; 80; 246; 193; 121; 21; 200; 1; 133; 160; 150; 214;
  148; 108; 97; 242; 212; 164; 39; 79; 96; 126; 169; 38;
  55; 192; 78; 198; 60; 125; 37; 13; 206; 90; 201; 150;
  108; 116; 235; 54; 229; 148; 230; 122; 152; 151; 6; 84;
  81; 108; 47; 107; 216; 54; 148; 48; 71; 250; 147; 51;
  243; 126; 1; 107; 154; 241; 95; 41; 160; 176; 13; 253;
  61; 207; 158; 37; 20; 223; 53; 135; 121; 127; 72; 193;
  204; 18; 11; 211; 58; 180; 12; 157; 86; 128; 237; 26;
  6; 59; 139; 233; 185; 26; 236; 236; 89; 52; 154; 80;
  154; 83; 224; 201; 203; 238; 87; 52; 217; 9; 52; 190;
  48; 180; 212; 66; 35; 14; 67; 75; 103; 209; 24; 196;
  208; 210; 217; 52; 42; 49; 180; 116; 14; 141; 83; 12;
  45; 189; 147; 70; 46; 134; 150; 222; 69; 99; 25; 67;
  75; 239; 166; 209; 141; 161; 165; 137; 52; 222; 49; 180;
  212; 74; 35; 32; 195; 70; 145; 64; 131; 34; 195; 138;
  45; 52; 78; 50; 172; 120; 22; 13; 157; 12; 43; 158;
  77; 163; 41; 195; 138; 231; 208; 0; 203; 176; 226; 59;
  105; 204; 101; 88; 241; 93; 52; 12; 51; 172; 248; 110;
  26; 153; 25; 86; 156; 72; 131; 53; 195; 138; 173; 52;
  126; 51; 108; 86; 18; 104; 72; 103; 88; 177; 133; 70;
  121; 134; 21; 207; 162; 129; 159; 97; 197; 179; 105; 44;
  104; 88; 241; 28; 26; 30; 26; 86; 124; 39; 141; 24;
  13; 43; 190; 139; 6; 145; 134; 21; 223; 77; 227; 74;
  195; 138; 19; 105; 168; 105; 88; 177; 149; 70; 159; 134;
  73; 89; 2; 13; 72; 13; 43; 182; 48; 151; 161; 152;
  70; 106; 96; 69; 123; 74; 232; 86; 195; 220; 252; 100;
  164; 12; 149; 32; 115; 11; 129; 237; 170; 192; 179; 142;
  86; 102; 123; 168; 141; 235; 97; 204; 213; 90; 233; 26;
  40; 22; 242; 178; 169; 111; 194; 20; 111; 133; 45; 20;
  131; 1; 179; 179; 81; 187; 50; 183; 255; 138; 97; 168;
  65; 200; 220; 183; 141; 97; 10; 60; 197; 24; 23; 200;
  166; 74; 63; 187; 95; 73; 51; 242; 128; 58; 218; 37;
  126; 249; 53; 82; 64; 73; 242; 14; 40; 88; 131; 186;
  143; 121; 1; 74; 138; 4; 183; 39; 27; 156; 155; 108;
  212; 174; 217; 170; 3; 146; 141; 78; 11; 115; 253; 179].

Definition limine_hdd_13 : list Z := [
  3; 106; 139; 192; 118; 205; 6; 39; 55; 27; 93; 151;
  236; 188; 245; 121; 104; 71; 96; 196; 200; 35; 128; 1;
  82; 50; 19; 236; 164; 237; 87; 71; 198; 124; 245; 27;
  173; 162; 64; 0; 131; 37; 50; 204; 108; 109; 175; 102;
  206; 252; 86; 171; 30; 58; 34; 252; 202; 42; 173; 160;
  212; 127; 245; 252; 128; 92; 118; 191; 159; 192; 244; 252;
  94; 43; 167; 131; 198; 79; 178; 170; 200; 232; 0; 23;
  64; 86; 163; 104; 173; 88; 144; 203; 252; 30; 243; 20;
  240; 47; 175; 64; 74; 5; 250; 6; 147; 180; 143; 233;
  175; 106; 41; 216; 95; 152; 191; 64; 70; 155; 23; 106;
  62; 102; 131; 249; 202; 188; 250; 26; 240; 176; 8; 148;
  153; 74; 212; 119; 127; 98; 168; 47; 65; 123; 160; 229;
  51; 49; 236; 3; 220; 248; 203; 159; 181; 26; 200; 131;
  188; 32; 189; 96; 199; 45; 216; 5; 83; 171; 186; 21;
  217; 66; 241; 224; 22; 219; 118; 105; 45; 40; 125; 248;
  245; 91; 154; 83; 105; 196; 111; 226; 210; 44; 237; 118;
  117; 36; 55; 148; 101; 191; 255; 219; 0; 122; 232; 136;
  241; 107; 189; 212; 109; 81; 91; 26; 106; 34; 217; 161;
  77; 83; 251; 107; 250; 219; 254; 238; 10; 48; 37; 226;
  120; 127; 158; 146; 248; 254; 91; 140; 234; 220; 100; 175;
  119; 23; 225; 174; 245; 5; 20; 208; 217; 89; 179; 30;
  77; 252; 82; 232; 35; 167; 160; 136; 209; 237; 141; 192;
  161; 56; 103; 107; 142; 16; 19; 191; 111; 8; 52; 134;
  145; 40; 147; 191; 128; 154; 53; 96; 155; 230; 13; 65;
  244; 210; 254; 8; 162; 161; 196; 31; 238; 175; 81; 87;
  219; 225; 72; 150; 14; 186; 160; 63; 171; 142; 227; 57;
  200; 123; 114; 208; 112; 193; 149; 172; 138; 225; 32; 81;
  126; 24; 28; 130; 146; 82; 176; 243; 179; 113; 75; 5;
  138; 54; 129; 87; 128; 108; 209; 178; 59; 181; 108; 105;
  206; 166; 72; 209; 97; 40; 194; 132; 38; 9; 238; 98;
  102; 85; 131; 186; 35; 67; 153; 42; 63; 212; 73; 96;
  102; 6; 96; 112; 224; 192; 96; 67; 181; 130; 57; 29;
  64; 161; 42; 232; 71; 255; 139; 163; 208; 253; 134; 13;
  192; 144; 188; 60; 166; 238; 40; 157; 210; 43; 224; 217;
  194; 150; 18; 20; 73; 24; 60; 88; 100; 223; 188; 123;
  181; 106; 102; 244; 177; 33; 197; 204; 45; 80; 146; 51;
  75; 211; 27; 76; 150; 150; 83; 3; 164; 76; 15; 5;
  71; 149; 198; 140; 63; 174; 17; 131; 142; 40; 243; 251;
  72; 174; 32; 87; 96; 62; 135; 12; 88; 199; 170; 228;
  10; 204; 101; 90; 39; 96; 22; 74; 153; 9; 255; 68;
  101; 182; 182; 64; 136; 212; 175; 248; 39; 234; 177; 82;
  161; 88; 44; 96; 90; 32; 61; 192; 18; 103; 254; 240;
  62; 112; 176; 68; 184; 34; 107; 134; 32; 140; 25; 22;
  2; 150; 48; 245; 31; 246; 67; 35; 192; 67; 91; 84;
  152; 123; 62; 26; 90; 188; 166; 24; 21; 204; 99; 195;
  202; 31; 42; 40; 246; 100; 231; 98; 96; 154; 217; 253;
  17; 206; 101; 17; 138; 80; 233; 160; 73; 62; 163; 85;
  0; 137; 131; 202; 99; 78; 170; 229; 5; 131; 74; 15;
  107; 165; 226; 224; 226; 156; 54; 181; 120; 243; 160; 210;
  54; 40; 221; 72; 5; 136; 25; 113; 90; 19; 37; 102;
  50; 166; 64; 234; 214; 48; 161; 211; 168; 136; 213; 82;
  166; 29; 211; 30; 48; 101; 243; 152; 73; 144; 6; 110;
  149; 148; 128; 191; 61; 135; 166; 209; 223; 45; 101; 150;
  180; 83; 70; 226; 18; 243; 168; 73; 186; 220; 118; 105;
  197; 96; 225; 181; 107; 201; 28; 216; 89; 32; 123; 231;
  191; 52; 40; 72; 23; 168; 233; 245; 176; 44; 202; 255;
  133; 19; 6; 28; 42; 17; 192; 163; 251; 246; 95; 17;
  33; 247; 244; 59; 33; 204; 182; 51; 12; 26; 249; 192;
  192; 162; 220; 108; 149; 167; 204; 159; 180; 50; 186; 25;
  253; 250; 19; 85; 244; 209; 141; 201; 166; 33; 131; 82;
  85; 220; 219; 161; 2; 237; 106; 117; 5; 134; 181; 175;
  105; 209; 127; 255; 15; 69; 135; 79; 36; 160; 125; 0;
  0].

(** [_binary_limine_hdd_bin_data] *)
Definition limine_hdd : list Z :=
  limine_hdd_1 ++ limine_hdd_2 ++ limine_hdd_3 ++ limine_hdd_4 ++ limine_hdd_5 ++ limine_hdd_6 ++ limine_hdd_7 ++ limine_hdd_8 ++ limine_hdd_9 ++ limine_hdd_10 ++ limine_hdd_11 ++ limine_hdd_12 ++ limine_hdd_13.

(** ** In memory *)

Fixpoint object_of (a : Z) (l : list Z) : mem :=
  match l with
  | [] => ∅
  | b :: l => st8 (object_of (a + 1) l) a b
  end.

Lemma ld8_object_of a l x : a ≤ x < a + Z.of_nat (length l) → ld8 (object_of a l) x = (l !!! Z.to_nat (x - a)) mod 2 ^ 8.
Proof.
  revert a. induction l as [|b l IH]; intros a Hx; cbn [length object_of] in *; [lia|]. rewrite ld8_st8. destruct (Z.eqb_spec x a) as [->|].
  - by rewrite Z.sub_diag.
  - rewrite IH by lia. by replace (Z.to_nat (x - a)) with (S (Z.to_nat (x - (a + 1)))) by lia.
Qed.

Definition limine_image : mem := object_of 0 limine_hdd.

(** The size the installer takes is that of the image. *)
Lemma limine_hdd_size : Z.of_nat (length limine_hdd) = bootloader_file_size.
Proof. vm_compute. reflexivity. Qed.

Lemma limine_image_byte x : 0 ≤ x < 22189 → ld8 limine_image x = (limine_hdd !!! Z.to_nat x) mod 2 ^ 8.
Proof.
  intros Hx. unfold limine_image. rewrite ld8_object_of by (rewrite limine_hdd_size; exact Hx). by rewrite Z.sub_0_r.
Qed.

Lemma limine_image_bytes a n :
  0 ≤ a → a + Z.of_nat n ≤ 22189 →
  bytes_at limine_image a n = map (λ b, b mod 2 ^ 8) (take n (drop (Z.to_nat a) limine_hdd)).
Proof.
  revert a. induction n as [|n IH]; intros a Ha Hn; [done|]. cbn [bytes_at].
  rewrite limine_image_byte, IH by lia. pose proof limine_hdd_size as Hsize. change bootloader_file_size with 22189 in Hsize.
  destruct (lookup_lt_is_Some_2 limine_hdd (Z.to_nat a) ltac:(lia)) as [b Hb].
  rewrite (drop_S _ _ _ Hb), (list_lookup_total_correct _ _ _ Hb). cbn [take map]. do 3 f_equal. by replace (Z.to_nat (a + 1)) with (S (Z.to_nat a)) by lia.
Qed.

Lemma ld16_bytes m a : ld16 m a = match bytes_at m a 2 with [v; w] => v + 2 ^ 8 * (w + 2 ^ 8 * 0) | _ => 0 end.
Proof. done. Qed.

(** The fields of the boot sector the installer fills in, or keeps from the
    device, are zero. *)
Lemma limine_image_boot_sector :
  bytes_at limine_image 218 6 = replicate 6 0 ∧ bytes_at limine_image 420 90 = replicate 90 0.
Proof. rewrite !limine_image_bytes by lia. vm_compute. done. Qed.

(** The signature is there, and no file system or partition table where the
    installer looks for one. *)
Record loader_image_ok (img : mem) : Prop := {
  im_signature : ld16 img 510 = 0xaa55;
  im_ech : bytes_at img 4 8 ≠ ECH_FS;
  im_fat : bytes_at img 54 3 ≠ FAT;
  im_ext : ld16 img 1080 ≠ 0xef53;
  im_gpt : bytes_at img 512 8 ≠ EFI_PART ∧ bytes_at img 4096 8 ≠ EFI_PART;
}.

Lemma limine_image_ok : loader_image_ok limine_image.
Proof.
  split; rewrite ?ld16_bytes, !limine_image_bytes by lia; vm_compute; [reflexivity|discriminate..|split; discriminate].
Qed.

#[local] Opaque limine_hdd limine_image.

(** ** Installing it twice *)

Lemma stages_written_image img m m' x :
  stages_written img m 512 11776 m' → 0 ≤ x < 420 ∨ 510 ≤ x < 22189 → ¬ (218 ≤ x < 224) → ld8 m' x = ld8 img x.
Proof.
  intros [Hboot _ _ H1 H2] Hx Hn. destruct stage_sizes as (_ & Hsa & _ & Hsc). rewrite Hsa in H1, H2. rewrite Hsc in H2.
  destruct (decide (x < 512)); [apply Hboot; lia|]. destruct (decide (x < 11776)).
  - specialize (H1 (x - 512) ltac:(lia)). by replace (512 + (x - 512)) with x in H1 by lia.
  - specialize (H2 (x - 11776) ltac:(lia)). change (512 + 11264) with 11776 in H2.
    by replace (11776 + (x - 11776)) with x in H2 by lia.
Qed.

Lemma ld_bytes n m m' a : ld n m a = ld n m' a → ∀ x, a ≤ x < a + Z.of_nat n → ld8 m x = ld8 m' x.
Proof.
  revert a. induction n as [|n IH]; intros a He x Hx; [lia|].
  change (ld8 m a + 2 ^ 8 * ld n m (a + 1) = ld8 m' a + 2 ^ 8 * ld n m' (a + 1)) in He.
  pose proof (ld8_range m a) as R1. pose proof (ld8_range m' a) as R2. change (2 ^ 8) with 256 in *.
  assert (ld8 m a = ld8 m' a ∧ ld n m (a + 1) = ld n m' (a + 1)) as [H8 Hr] by lia.
  destruct (decide (x = a)) as [->|]; [done|]. eapply IH; [exact Hr|lia].
Qed.

(** A second installation leaves what is there. *)
Lemma stages_written_twice img m m1 m2 :
  stages_written img m 512 11776 m1 → stages_written img m1 512 11776 m2 →
  stages_only m1 512 11776 m2 → ∀ x, 0 ≤ x → ld8 m2 x = ld8 m1 x.
Proof.
  intros H1 H2 Honly x Hx. destruct stage_sizes as (_ & Hsa & _ & Hsc).
  destruct (decide (218 ≤ x < 224 ∨ 440 ≤ x < 510)) as [|Hn]; [by apply (sw_table _ _ _ _ _ H2)|].
  destruct (decide (420 ≤ x < 440)).
  - destruct (sw_place _ _ _ _ _ H1) as (A1 & A2 & A3 & A4). destruct (sw_place _ _ _ _ _ H2) as (B1 & B2 & B3 & B4).
    rewrite <-A1 in B1. rewrite <-A2 in B2. rewrite <-A3 in B3. rewrite <-A4 in B4.
    destruct (decide (x < 422)); [by apply (ld_bytes _ _ _ _ B1); lia|].
    destruct (decide (x < 424)); [by apply (ld_bytes _ _ _ _ B2); lia|].
    destruct (decide (x < 432)); [by apply (ld_bytes _ _ _ _ B3); lia|by apply (ld_bytes _ _ _ _ B4); lia].
  - destruct (decide (x < 22189)).
    + rewrite (stages_written_image _ _ _ x H2), (stages_written_image _ _ _ x H1) by lia. done.
    + apply Honly; rewrite ?Hsa, ?Hsc; lia.
Qed.

Lemma bytes_at_same m m' a n : (∀ x, a ≤ x < a + Z.of_nat n → ld8 m' x = ld8 m x) → bytes_at m' a n = bytes_at m a n.
Proof. intros H. apply bytes_at_copied. intros i Hi. apply H. lia. Qed.

(** What the installer leaves is a master boot record it installs to. *)
Lemma installed_valid img m m' :
  loader_image_ok img → stages_written img m 512 11776 m' → valid_mbr m = true → valid_mbr m' = true ∧ gpt_block m' = None.
Proof.
  intros [Hsig L1 L2 L3 [L4 L5]] Hst Hv.
  assert (Hi : ∀ a n, 0 ≤ a → a + Z.of_nat n ≤ 218 ∨ 510 ≤ a → a + Z.of_nat n ≤ 22189 → bytes_at m' a n = bytes_at img a n).
  { intros a n Ha Hr Hn. apply bytes_at_same. intros x Hx. eapply stages_written_image; [exact Hst|lia..]. }
  assert (Hi16 : ∀ a, 510 ≤ a → a + 2 ≤ 22189 → ld16 m' a = ld16 img a) by (intros; rewrite !ld16_bytes; by rewrite Hi by lia).
  assert (Ht : ∀ a, 218 ≤ a → a + 2 ≤ 224 ∨ 440 ≤ a → a + 2 ≤ 510 → ld16 m' a = ld16 m a).
  { intros a H1 H2 H3. apply ld_ext. intros x Hx. apply (sw_table _ _ _ _ _ Hst). lia. }
  assert (Hs : ∀ x, 440 ≤ x < 510 → ld8 m' x = ld8 m x) by (intros x Hx; apply (sw_table _ _ _ _ _ Hst); by right).
  split.
  - unfold valid_mbr in *. rewrite (Ht 218), (Ht 444), (Hi16 510), (Hi16 1080), !Hs, !Hi, Hsig by lia.
    rewrite (bool_decide_eq_false_2 _ L1), (bool_decide_eq_false_2 _ L2), (proj2 (Z.eqb_neq _ _) L3).
    rewrite !andb_true_iff in Hv. destruct_and? Hv. by repeat match goal with H : _ = true |- _ => rewrite H; clear H end.
  - unfold gpt_block. rewrite !Hi by lia. by rewrite !bool_decide_eq_false_2.
Qed.

(** C23: Installed on a device with a master boot record, the boot loader can be
    installed again, and nothing changes. *)
Theorem main_mbr_again alloc argv f :
  alloc 512 = true → (2 ≤ length argv)%nat → argv !! 2%nat ≠ Some FORCE_MBR → gpt_block (f_data f) = None →
  valid_mbr (f_data f) = true → 22528 ≤ f_size f < 2 ^ 63 →
  ∃ f1 f2, main limine_image alloc argv (Some f) = Done (0, Some f1) ∧
    main limine_image alloc argv (Some f1) = Done (0, Some f2) ∧ f_size f2 = f_size f ∧
    ∀ x, 0 ≤ x → ld8 (f_data f2) x = ld8 (f_data f1) x.
Proof.
  intros Ha Hargs Hforce Hgpt Hv Hs.
  destruct (main_mbr_run limine_image alloc argv f Ha Hargs Hforce Hgpt Hv Hs) as (f1 & Hm1 & Hs1 & Hst1 & _).
  destruct (installed_valid _ _ _ limine_image_ok Hst1 Hv) as [Hv1 Hgpt1].
  destruct (main_mbr_run limine_image alloc argv f1 Ha Hargs Hforce Hgpt1 Hv1) as (f2 & Hm2 & Hs2 & Hst2 & Honly); [by rewrite Hs1|].
  exists f1, f2. split_and!; [done|done|by rewrite Hs2|]. by eapply stages_written_twice.
Qed.

(** On the record of one active partition. *)
Lemma main_mbr_again_witness : ∃ f1 f2,
  main limine_image (λ _, true) ex_args (Some (File 32768 ex_mbr 0)) = Done (0, Some f1) ∧
  main limine_image (λ _, true) ex_args (Some f1) = Done (0, Some f2).
Proof.
  destruct (main_mbr_again (λ _, true) ex_args (File 32768 ex_mbr 0)) as (f1 & f2 & Hm1 & Hm2 & _);
    [reflexivity|cbn; lia|discriminate|vm_compute; reflexivity|vm_compute; reflexivity|cbn; lia|].
  exists f1, f2. split; [exact Hm1|exact Hm2].
Defined.
