(* ===== verification/Bits.v ===== *)
(** * Bit and number utilities: [src/src/kernel/utils/misc.c]

    [SetNthBit], [ClearNthBit] and [GetNthBit] on 64-bit words,
    [RoundToNearestMultiple], and the decimal printer [Itoa] with the in-place
    [Reverse] it uses. *)
From stdpp Require Import base list gmap.
From S2P Require Import Prelude Memory.

(** ** Definitions *)

(** [*(num) |= (1 << n)]: the shifted constant is an [int], so the shift is
    undefined from 32 on and the result is sign extended to 64 bits. *)
Definition SetNthBit (num n : Z) : outcome Z :=
  _ ← check (n <? 32);
  Done (Z.lor num (u64 (i32 (Z.shiftl 1 n)))).

(** [*(num) &= ~(1UL << n)] *)
Definition ClearNthBit (num n : Z) : outcome Z :=
  _ ← check (n <? 64);
  Done (Z.land num (u64 (Z.lnot (u64 (Z.shiftl 1 n))))).

(** [(num >> n) & 1] *)
Definition GetNthBit (num n : Z) : outcome Z :=
  _ ← check (n <? 64);
  Done (Z.land (Z.shiftr num n) 1).

(** [((num + multiple - 1) & ~(multiple - 1))] with a 64-bit [num] and a
    32-bit [multiple]: the complement is taken at 32 bits. *)
Definition RoundToNearestMultiple (num multiple : Z) : Z :=
  Z.land (u64 (num + multiple - 1)) (u32 (Z.lnot (u32 (multiple - 1)))).

(** The swap loop of [Reverse]. *)
Fixpoint reverse_loop (fuel : nat) (m : mem) (str start en : Z) : outcome mem :=
  match fuel with
  | O => OutOfFuel
  | S f =>
      if start <? en then
        let temp := ld8 m (str + start) in
        let m := st8 m (str + start) (ld8 m (str + en)) in
        let m := st8 m (str + en) temp in
        reverse_loop f m str (start + 1) (en - 1)
      else Done m
  end.
Definition Reverse (m : mem) (str length : Z) : outcome mem :=
  reverse_loop (Z.to_nat length + 1) m str 0 (length - 1).

(** The digit loop of [Itoa]: the memory and the index after the last digit. *)
Fixpoint itoa_digits (fuel : nat) (m : mem) (buff i n : Z) : outcome (mem * Z) :=
  match fuel with
  | O => OutOfFuel
  | S f =>
      if n =? 0 then Done (m, i)
      else
        let rem := Z.rem n 10 in
        let c := if 9 <? rem then rem - 10 + 97 else rem + 48 in
        itoa_digits f (st8 m (buff + i) c) buff (i + 1) (Z.quot n 10)
  end.

(** Ten decimal digits hold every positive [int]. *)
Definition itoa_fuel : nat := 11.

Definition Itoa (m : mem) (n buff : Z) : outcome mem :=
  if n =? 0 then Done (st8 (st8 m buff 48) (buff + 1) 0)
  else
    let isNegative := n <? 0 in
    _ ← check (negb (isNegative && (n =? INT_MIN)));
    let n := if isNegative then - n else n in
    '(m, i) ← itoa_digits itoa_fuel m buff 0 n;
    let '(m, i) := if isNegative then (st8 m (buff + i) 45, i + 1) else (m, i) in
    let m := st8 m (buff + i) 0 in
    Reverse m buff i.

(** ** Specification vocabulary *)

(** The bytes of [l] lie at [a]. *)
Definition bytes_at (m : mem) (a : Z) (l : list Z) : Prop :=
  ∀ i c, l !! i = Some c → ld8 m (a + Z.of_nat i) = c.

(** The number a decimal string denotes. *)
Definition atoi_digits (l : list Z) : Z := foldl (λ acc c, 10 * acc + (c - 48)) 0 l.
Definition atoi (l : list Z) : Z :=
  match l with
  | c :: l' => if c =? 45 then - atoi_digits l' else atoi_digits l
  | [] => 0
  end.

(** ** Single bits *)

(** For a position below 31, [SetNthBit] sets that bit and no other. *)
Theorem SetNthBit_spec num n j :
  0 ≤ num < 2 ^ 64 → 0 ≤ n < 31 → 0 ≤ j →
  ∃ r, SetNthBit num n = Done r ∧ 0 ≤ r < 2 ^ 64 ∧
    Z.testbit r j = (j =? n) || Z.testbit num j.
Proof.
  intros Hnum Hn Hj. unfold SetNthBit. rewrite check_true by (apply Z.ltb_lt; lia).
  simpl. eexists. split; [done|].
  assert (Hs : 0 ≤ Z.shiftl 1 n < 2 ^ 31).
  { rewrite Z.shiftl_1_l. split; [apply Z.pow_nonneg; lia|apply Z.pow_lt_mono_r; lia]. }
  rewrite i32_small, u64_small by lia. split.
  - split; [apply Z.lor_nonneg; lia|].
    destruct (decide (Z.lor num (Z.shiftl 1 n) = 0)) as [->|Hnz]; [lia|].
    apply Z.log2_lt_pow2; [pose proof (Z.lor_nonneg num (Z.shiftl 1 n)); lia|].
    rewrite Z.log2_lor by lia. apply Z.max_lub_lt; [|rewrite Z.shiftl_1_l, Z.log2_pow2; lia].
    destruct (decide (num = 0)) as [->|]; [simpl; lia|]. apply Z.log2_lt_pow2; lia.
  - rewrite Z.lor_spec, testbit_shiftl_1 by lia. apply orb_comm.
Qed.

(** From position 32 on [SetNthBit] shifts an [int] out of range, although
    its callers index a 64-bit word with it; at 31 it also sets every higher
    bit. *)
Theorem SetNthBit_int_shift num n :
  (32 ≤ n → SetNthBit num n = Undefined) ∧
  SetNthBit num 31 = Done (Z.lor num (2 ^ 64 - 2 ^ 31)).
Proof.
  split; [|done]. intros Hn. unfold SetNthBit, check.
  by replace (n <? 32) with false by (symmetry; apply Z.ltb_ge; lia).
Qed.

(** [ClearNthBit] clears exactly the bit it is given, for every position
    of the word. *)
Theorem ClearNthBit_spec num n j :
  0 ≤ num < 2 ^ 64 → 0 ≤ n < 64 → 0 ≤ j →
  ∃ r, ClearNthBit num n = Done r ∧ Z.testbit r j = negb (j =? n) && Z.testbit num j.
Proof.
  intros Hnum Hn Hj. unfold ClearNthBit. rewrite check_true by (apply Z.ltb_lt; lia).
  simpl. eexists. split; [done|].
  assert (Hs : 0 ≤ Z.shiftl 1 n < 2 ^ 64).
  { rewrite Z.shiftl_1_l. split; [apply Z.pow_nonneg; lia|apply Z.pow_lt_mono_r; lia]. }
  rewrite (u64_small (Z.shiftl 1 n)) by lia. unfold u64.
  rewrite Z.land_spec, testbit_mod_pow2, Z.lnot_spec, testbit_shiftl_1 by lia.
  destruct (Z.ltb_spec j 64); simpl; [by rewrite andb_comm|].
  by rewrite (testbit_above num 64 j), !andb_false_r by lia.
Qed.

Lemma GetNthBit_spec num n : 0 ≤ n < 64 → GetNthBit num n = Done (Z.b2z (Z.testbit num n)).
Proof.
  intros Hn. unfold GetNthBit. rewrite check_true by (apply Z.ltb_lt; lia).
  simpl. by rewrite land_1_testbit by lia.
Qed.

(** ** Rounding *)

Lemma RoundToNearestMultiple_pow2 num k :
  0 ≤ k < 32 → 0 ≤ num → num + 2 ^ k - 1 < 2 ^ 64 →
  RoundToNearestMultiple num (2 ^ k) = ((num + 2 ^ k - 1) / 2 ^ k * 2 ^ k) mod 2 ^ 32.
Proof.
  intros Hk Hnum Hb. unfold RoundToNearestMultiple.
  assert (H2 : 0 < 2 ^ k < 2 ^ 32).
  { split; [apply Z.pow_pos_nonneg; lia|apply Z.pow_lt_mono_r; lia]. }
  rewrite (u32_small (2 ^ k - 1)), u64_small by lia.
  replace (2 ^ k - 1) with (Z.ones k) by (rewrite Z.ones_equiv; lia).
  unfold u32. rewrite <-Z.land_ones, Z.land_assoc, land_lnot_ones, Z.land_ones by lia.
  f_equal. pose proof (Z.div_mod (num + 2 ^ k - 1) (2 ^ k)). lia.
Qed.

(** For a power of two and an argument that stays below 2^32,
    [RoundToNearestMultiple] is the least multiple that is not below the
    argument. *)
Theorem RoundToNearestMultiple_least num k :
  0 ≤ k < 32 → 0 ≤ num → num + 2 ^ k - 1 < 2 ^ 32 →
  let r := RoundToNearestMultiple num (2 ^ k) in
  r mod 2 ^ k = 0 ∧ num ≤ r < num + 2 ^ k.
Proof.
  intros Hk Hnum Hb. cbv zeta.
  assert (H2 : 0 < 2 ^ k < 2 ^ 32).
  { split; [apply Z.pow_pos_nonneg; lia|apply Z.pow_lt_mono_r; lia]. }
  rewrite RoundToNearestMultiple_pow2 by lia.
  set (x := num + 2 ^ k - 1) in *.
  pose proof (Z.div_mod x (2 ^ k)). pose proof (Z.mod_pos_bound x (2 ^ k)).
  assert (0 ≤ x / 2 ^ k) by (apply Z.div_pos; lia).
  rewrite (Z.mod_small _ (2 ^ 32)) by nia. rewrite Z.mod_mul by lia. lia.
Qed.

(** [RoundToNearestMultiple] takes a 64-bit argument but its mask is only
    32 bits wide: rounding any page-aligned multiple of 4 GiB gives zero. *)
Theorem RoundToNearestMultiple_truncates q :
  0 ≤ q < 2 ^ 31 → RoundToNearestMultiple (q * 2 ^ 32) 4096 = 0.
Proof.
  intros Hq. change 4096 with (2 ^ 12). rewrite RoundToNearestMultiple_pow2 by lia.
  replace ((q * 2 ^ 32 + 2 ^ 12 - 1) / 2 ^ 12) with (q * 2 ^ 20) by dlia.
  replace (q * 2 ^ 20 * 2 ^ 12) with (q * 2 ^ 32) by lia. apply Z.mod_mul. lia.
Qed.

(** ** [Reverse] *)

Lemma reverse_loop_spec fuel m str start en :
  start ≤ en + 1 → en + 1 - start ≤ 2 * Z.of_nat fuel - 1 →
  ∃ m', reverse_loop fuel m str start en = Done m' ∧
    ∀ b, ld8 m' b = if (str + start <=? b) && (b <=? str + en)
                    then ld8 m (str + start + (str + en - b)) else ld8 m b.
Proof.
  revert m start en. induction fuel as [|fuel IH]; intros m start en Hs Hf.
  { lia. }
  cbn [reverse_loop]. destruct (Z.ltb_spec start en).
  2: { eexists. split; [done|]. intros b.
       destruct (Z.leb_spec (str + start) b), (Z.leb_spec b (str + en)); simpl;
         (done || (f_equal; lia)). }
  edestruct IH as (m' & -> & Hm'); [| |eexists; split; [done|]]; [lia..|].
  intros b. rewrite Hm', !ld8_st8.
  rewrite !(Z.mod_small (ld8 _ _)) by apply ld8_range.
  destruct (Z.leb_spec (str + (start + 1)) b), (Z.leb_spec b (str + (en - 1))),
    (Z.leb_spec (str + start) b), (Z.leb_spec b (str + en)),
    (Z.eqb_spec b (str + en)), (Z.eqb_spec b (str + start)); simpl;
    repeat match goal with |- context [?x =? ?y] => destruct (Z.eqb_spec x y) end;
    (done || lia || (f_equal; lia)).
Qed.

Lemma bytes_at_ext m1 m2 a l :
  (∀ b, a ≤ b < a + Z.of_nat (length l) → ld8 m2 b = ld8 m1 b) →
  bytes_at m1 a l → bytes_at m2 a l.
Proof.
  intros Heq Hl i c Hi. rewrite Heq; [by apply Hl|]. apply lookup_lt_Some in Hi. lia.
Qed.

Lemma bytes_at_snoc m a l c :
  bytes_at m a l → ld8 m (a + Z.of_nat (length l)) = c → bytes_at m a (l ++ [c]).
Proof.
  intros Hl Hc i c' Hi. apply lookup_app_Some in Hi as [Hi|[Hge Hi]]; [by apply Hl|].
  apply list_lookup_singleton_Some in Hi as [? <-].
  by replace i with (length l) by lia.
Qed.

Lemma bytes_at_cstring m a l :
  bytes_at m a l → Forall (λ c, c ≠ 0) l → ld8 m (a + Z.of_nat (length l)) = 0 →
  cstring m a l.
Proof.
  revert a. induction l as [|c l IH]; intros a Hl Hnz Hend; cbn [cstring length] in *.
  { by rewrite Z.add_0_r in Hend. }
  inversion_clear Hnz. split_and!; [|done|].
  - specialize (Hl O c eq_refl). by rewrite Z.add_0_r in Hl.
  - apply IH; [|done|].
    + intros i c' Hi. replace (a + 1 + Z.of_nat i) with (a + Z.of_nat (S i)) by lia. by apply Hl.
    + by replace (a + 1 + Z.of_nat (length l)) with (a + Z.of_nat (S (length l))) by lia.
Qed.

(** [Reverse] reverses the bytes of a buffer in place, terminates, and
    writes nothing outside the buffer. *)
Lemma Reverse_spec m a l :
  bytes_at m a l →
  ∃ m', Reverse m a (Z.of_nat (length l)) = Done m' ∧ bytes_at m' a (reverse l) ∧
    same_outside a (a + Z.of_nat (length l)) m m'.
Proof.
  intros Hl. unfold Reverse.
  edestruct (reverse_loop_spec (Z.to_nat (Z.of_nat (length l)) + 1) m a 0
    (Z.of_nat (length l) - 1)) as (m' & -> & Hm'); [lia..|].
  exists m'. split_and!; [done| |].
  - intros i c Hi. pose proof (lookup_lt_Some _ _ _ Hi) as Hlt. rewrite length_reverse in Hlt.
    rewrite reverse_lookup in Hi by done. apply Hl in Hi. rewrite Hm'.
    destruct (Z.leb_spec (a + 0) (a + Z.of_nat i)),
      (Z.leb_spec (a + Z.of_nat i) (a + (Z.of_nat (length l) - 1))); [|lia..].
    simpl. rewrite <-Hi. f_equal. lia.
  - intros b Hb. rewrite Hm'.
    destruct (Z.leb_spec (a + 0) b), (Z.leb_spec b (a + (Z.of_nat (length l) - 1)));
      simpl; (done || lia).
Qed.

(** ** [Itoa] *)

(** The value of a digit list with the least significant digit first. *)
Definition lsb_value (l : list Z) : Z := foldr (λ c acc, (c - 48) + 10 * acc) 0 l.

Lemma atoi_digits_reverse l : atoi_digits (reverse l) = lsb_value l.
Proof.
  unfold atoi_digits, lsb_value.
  induction l as [|c l IH]; [done|].
  rewrite reverse_cons, foldl_app. simpl. rewrite IH. lia.
Qed.

Definition is_digit (c : Z) : Prop := 48 ≤ c ≤ 57.

Lemma itoa_digits_spec fuel m buff i n :
  0 ≤ n < 10 ^ (Z.of_nat fuel - 1) → (0 < fuel)%nat →
  ∃ m' l, itoa_digits fuel m buff i n = Done (m', i + Z.of_nat (length l)) ∧
    bytes_at m' (buff + i) l ∧ Forall is_digit l ∧ lsb_value l = n ∧
    (length l < fuel)%nat ∧ (l = [] ↔ n = 0) ∧
    same_outside (buff + i) (buff + i + Z.of_nat (length l)) m m'.
Proof.
  revert m i n. induction fuel as [|fuel IH]; intros m i n Hn Hf; [lia|].
  cbn [itoa_digits]. destruct (Z.eqb_spec n 0) as [->|Hnz].
  { exists m, []. rewrite Z.add_0_r. split_and!; (done || lia || constructor || auto with cmem). }
  assert (Hq : Z.quot n 10 = n / 10) by (apply Z.quot_div_nonneg; lia).
  assert (Hr : Z.rem n 10 = n mod 10) by (apply Z.rem_mod_nonneg; lia).
  rewrite Hq, Hr. pose proof (Z.mod_pos_bound n 10).
  destruct (Z.ltb_spec 9 (n mod 10)); [lia|].
  destruct fuel as [|fuel]; [simpl in Hn; lia|].
  edestruct (IH (st8 m (buff + i) (n mod 10 + 48)) (i + 1) (n / 10))
    as (m' & l & -> & Hl & Hd & Hv & Hlen & _ & Ho); [|lia|].
  { replace (Z.of_nat (S (S fuel)) - 1) with (Z.succ (Z.of_nat (S fuel) - 1)) in Hn by lia.
    rewrite Z.pow_succ_r in Hn by lia. split; [apply Z.div_pos; lia|].
    apply Z.div_lt_upper_bound; lia. }
  exists m', ((n mod 10 + 48) :: l). cbn [length]. split_and!.
  - do 2 f_equal. lia.
  - intros [|j] c; simpl; [intros [= <-]|intros Hj].
    + rewrite Z.add_0_r, Ho, ld8_st8_eq by lia. apply Z.mod_small. lia.
    + replace (buff + i + Z.of_nat (S j)) with (buff + (i + 1) + Z.of_nat j) by lia. by apply Hl.
  - constructor; [unfold is_digit; lia|done].
  - change (n mod 10 + 48 - 48 + 10 * lsb_value l = n). rewrite Hv. dlia.
  - lia.
  - by split.
  - intros b Hb. rewrite Ho, ld8_st8_ne by lia. done.
Qed.

Lemma atoi_no_sign l : Forall is_digit l → atoi l = atoi_digits l.
Proof.
  intros Hl. destruct l as [|c l]; [done|]. inversion_clear Hl as [|?? Hc _].
  unfold atoi, is_digit in *. by destruct (Z.eqb_spec c 45); [lia|].
Qed.

(** The tail of [Itoa]: terminate the buffer and reverse it. *)
Lemma itoa_finish m buff l :
  bytes_at m buff l → Forall (λ c, c ≠ 0) l →
  ∃ m', Reverse (st8 m (buff + Z.of_nat (length l)) 0) buff (Z.of_nat (length l)) = Done m' ∧
    cstring m' buff (reverse l) ∧
    same_outside buff (buff + Z.of_nat (length l) + 1) m m'.
Proof.
  intros Hl Hnz.
  destruct (Reverse_spec (st8 m (buff + Z.of_nat (length l)) 0) buff l) as (m' & -> & Hb & Ho).
  { eapply bytes_at_ext; [|done]. intros b ?. apply ld8_st8_ne. lia. }
  exists m'. split_and!; [done| |].
  - apply bytes_at_cstring; [done|by apply Forall_reverse|].
    rewrite length_reverse, Ho by lia. apply ld8_st8_eq.
  - intros b Hb'. rewrite Ho by lia. apply ld8_st8_ne. lia.
Qed.

(** [Itoa] terminates for every [int] but [INT_MIN] and leaves in the
    buffer a terminated decimal string of at most eleven characters that
    denotes its argument; it writes nothing outside that string. *)
Theorem Itoa_roundtrip m n buff :
  INT_MIN < n ≤ INT_MAX →
  ∃ m' l, Itoa m n buff = Done m' ∧ cstring m' buff l ∧ atoi l = n ∧
    (length l ≤ 11)%nat ∧ same_outside buff (buff + Z.of_nat (length l) + 1) m m'.
Proof.
  unfold INT_MIN, INT_MAX. intros Hn. unfold Itoa. destruct (Z.eqb_spec n 0) as [->|Hnz].
  { exists (st8 (st8 m buff 48) (buff + 1) 0), [48]. split_and!; [done| |done|simpl; lia|].
    - simpl. rewrite ld8_st8_ne, ld8_st8_eq, ld8_st8_eq by lia. done.
    - intros b Hb. simpl in Hb. by rewrite !ld8_st8_ne by lia. }
  assert (Hdn : ∀ l, Forall is_digit l → Forall (λ c, c ≠ 0) l).
  { intros l Hl. eapply Forall_impl; [exact Hl|]. unfold is_digit. lia. }
  rewrite check_true by (unfold INT_MIN; destruct (Z.ltb_spec n 0), (Z.eqb_spec n (-2 ^ 31));
    simpl; (done || lia)).
  destruct (itoa_digits_spec itoa_fuel m buff 0 (Z.abs n)) as
    (m1 & l & Hrun & Hb & Hd & Hv & Hlen & Hnil & Ho); [unfold itoa_fuel; simpl; lia|unfold itoa_fuel; lia|].
  rewrite Z.add_0_r in Hb, Ho. unfold itoa_fuel in Hlen.
  destruct (Z.ltb_spec n 0); cbn [mbind outcome_bind].
  - replace (- n) with (Z.abs n) by lia. rewrite Hrun. cbn [mbind outcome_bind].
    rewrite Z.add_0_l.
    destruct (itoa_finish (st8 m1 (buff + Z.of_nat (length l)) 45) buff (l ++ [45])) as (m' & Hr & Hc & Ho').
    { apply bytes_at_snoc; [|by rewrite ld8_st8_eq].
      eapply bytes_at_ext; [|done]. intros b ?. apply ld8_st8_ne. lia. }
    { apply Forall_app. split; [by apply Hdn|by repeat constructor]. }
    rewrite length_app in Hr, Ho'. simpl in Hr, Ho'.
    replace (Z.of_nat (length l + 1)) with (Z.of_nat (length l) + 1) in Hr, Ho' by lia.
    exists m', (reverse (l ++ [45])). rewrite Hr, length_reverse, length_app. simpl.
    split_and!; [done|done| |lia|].
    + rewrite reverse_snoc. simpl. rewrite atoi_digits_reverse, Hv. lia.
    + intros b Hb'. rewrite Ho', ld8_st8_ne, Ho by lia. done.
  - replace (itoa_digits itoa_fuel m buff 0 n) with (itoa_digits itoa_fuel m buff 0 (Z.abs n))
      by (f_equal; lia).
    rewrite Hrun. cbn [mbind outcome_bind]. rewrite Z.add_0_l.
    destruct (itoa_finish m1 buff l) as (m' & Hr & Hc & Ho'); [done|by apply Hdn|].
    exists m', (reverse l). rewrite Hr, length_reverse. split_and!; [done|done| |lia|].
    + rewrite atoi_no_sign, atoi_digits_reverse, Hv by (by apply Forall_reverse). lia.
    + intros b Hb'. rewrite Ho', Ho by lia. done.
Qed.

(** ** Concrete inputs *)

Lemma SetNthBit_spec_witness :
  ∃ r, SetNthBit 1 4 = Done r ∧ 0 ≤ r < 2 ^ 64 ∧ Z.testbit r 4 = true.
Proof. by apply (SetNthBit_spec 1 4 4). Defined.

Lemma SetNthBit_int_shift_witness : SetNthBit 0 40 = Undefined.
Proof. apply (proj1 (SetNthBit_int_shift 0 40)). lia. Defined.

Lemma ClearNthBit_spec_witness :
  ∃ r, ClearNthBit (2 ^ 63) 63 = Done r ∧ Z.testbit r 63 = false.
Proof. by apply (ClearNthBit_spec (2 ^ 63) 63 63). Defined.

Lemma RoundToNearestMultiple_least_witness :
  RoundToNearestMultiple 5000 (2 ^ 12) mod 2 ^ 12 = 0 ∧
  5000 ≤ RoundToNearestMultiple 5000 (2 ^ 12) < 5000 + 2 ^ 12.
Proof. by apply (RoundToNearestMultiple_least 5000 12). Defined.

Lemma RoundToNearestMultiple_truncates_witness : RoundToNearestMultiple (3 * 2 ^ 32) 4096 = 0.
Proof. by apply RoundToNearestMultiple_truncates. Defined.

Lemma Itoa_roundtrip_witness :
  ∃ m' l, Itoa ∅ (-2147483647) 100 = Done m' ∧ cstring m' 100 l ∧ atoi l = -2147483647.
Proof.
  destruct (Itoa_roundtrip ∅ (-2147483647) 100) as (m' & l & H & Hc & Ha & _); [done|].
  by exists m', l.
Defined.
