(* ===== verification/Stivale.v ===== *)
(** * Boot information: the parts of [src/src/kernel/stivale2.h] the kernel reads

    The boot loader hands over structures of fixed-width fields; a trailing
    array becomes a list. *)
From S2P Require Import Prelude.

(** [struct stivale2_mmap_entry] *)
Record stivale2_mmap_entry := MmapEntry {
  mm_base : Z;
  mm_length : Z;
  mm_type : Z;
}.

Definition STIVALE2_MMAP_USABLE : Z := 1.
Definition STIVALE2_MMAP_RESERVED : Z := 2.
Definition STIVALE2_MMAP_ACPI_RECLAIMABLE : Z := 3.
Definition STIVALE2_MMAP_ACPI_NVS : Z := 4.
Definition STIVALE2_MMAP_BAD_MEMORY : Z := 5.
Definition STIVALE2_MMAP_BOOTLOADER_RECLAIMABLE : Z := 0x1000.
Definition STIVALE2_MMAP_KERNEL_AND_MODULES : Z := 0x1001.
Definition STIVALE2_MMAP_FRAMEBUFFER : Z := 0x1002.

(** [struct stivale2_pmr] *)
Record stivale2_pmr := Pmr {
  pmr_base : Z;
  pmr_length : Z;
  pmr_permissions : Z;
}.

(** [struct stivale2_struct_tag_kernel_base_address] *)
Record stivale2_struct_tag_kernel_base_address := KernelBaseAddress {
  physical_base_address : Z;
  virtual_base_address : Z;
}.
