(* ===== verification/Pmm.v ===== *)
(** * Physical memory manager: [src/src/kernel/memory_management/physical_memory_manager.c]

    The manager keeps one bit per page frame in a bitmap that itself lies in
    physical memory, and a rotating index [last_used].  The state is the static
    [PHYS_MEMORY_MAP] together with physical memory, because allocating a
    frame both changes the bitmap and zeroes the frame. *)
From stdpp Require Import base list gmap sorting.
From S2P Require Import Prelude Memory Bits Stivale.

(** ** State *)

(** [mem_size], [max_blocks] and [used_blocks] are declared by the structure
    and never read or written. *)
Record MemMap := {
  num_entries : Z;
  last_used : Z;
  bitmap_size : Z;
  bitmap : Z;
  mem_size : Z;
  max_blocks : Z;
  uppermost_addr : Z;
  used_blocks : Z;
}.

Record pmm := Pmm { PHYS_MEMORY_MAP : MemMap; pmm_mem : mem }.

Definition FRAME_SIZE : Z := 4096.
Definition USABLE_PAGE : Z := 1.

Definition set_last_used (w : pmm) (i : Z) : pmm :=
  let p := PHYS_MEMORY_MAP w in
  Pmm {| num_entries := num_entries p; last_used := i; bitmap_size := bitmap_size p;
         bitmap := bitmap p; mem_size := mem_size p; max_blocks := max_blocks p;
         uppermost_addr := uppermost_addr p; used_blocks := used_blocks p |} (pmm_mem w).
Definition set_pmm_mem (w : pmm) (m : mem) : pmm := Pmm (PHYS_MEMORY_MAP w) m.

(** ** The bitmap *)

(** A negative index would shift by a negative amount. *)
Definition SetPageUsed (w : pmm) (index : Z) : outcome pmm :=
  _ ← check (0 <=? Z.rem index 8);
  let bmp_entry_byte := bitmap (PHYS_MEMORY_MAP w) + Z.quot index 8 in
  let m := pmm_mem w in
  Done (set_pmm_mem w
    (st8 m bmp_entry_byte (Z.lor (ld8 m bmp_entry_byte) (Z.shiftl 1 (Z.rem index 8))))).

Definition SetPageFree (w : pmm) (index : Z) : outcome pmm :=
  _ ← check (0 <=? Z.rem index 8);
  let bmp_entry_byte := bitmap (PHYS_MEMORY_MAP w) + Z.quot index 8 in
  let m := pmm_mem w in
  Done (set_pmm_mem w
    (st8 m bmp_entry_byte (Z.land (ld8 m bmp_entry_byte) (Z.lnot (Z.shiftl 1 (Z.rem index 8)))))).

Definition PageIsUsed (w : pmm) (index : Z) : outcome bool :=
  _ ← check (0 <=? Z.rem index 8);
  let bmp_entry_byte := ld8 (pmm_mem w) (bitmap (PHYS_MEMORY_MAP w) + Z.quot index 8) in
  Done (negb (Z.land (Z.shiftr bmp_entry_byte (Z.rem index 8)) 1 =? 0)).

(** ** Allocation of one frame *)

(** [i = (i + 1) % num_entries]: the addition is on [int], the remainder on
    64-bit unsigned integers, and the result is stored in an [int]. *)
Definition next_index (w : pmm) (i : Z) : outcome Z :=
  _ ← check (i <? INT_MAX);
  _ ← check (negb (num_entries (PHYS_MEMORY_MAP w) =? 0));
  Done (i32 (u64 (i + 1) mod num_entries (PHYS_MEMORY_MAP w))).

Fixpoint alloc_first_loop (fuel : nat) (w : pmm) (i : Z) : outcome (Z * pmm) :=
  match fuel with
  | O => OutOfFuel
  | S f =>
      if u64 i =? last_used (PHYS_MEMORY_MAP w) then Done (0, w)
      else
        page_used ← PageIsUsed w i;
        if negb page_used then
          w ← SetPageUsed w i;
          let w := set_last_used w (u64 i) in
          let frame := u64 (u64 i * FRAME_SIZE) in
          Done (frame, set_pmm_mem w (memset (pmm_mem w) frame 0 (Z.to_nat FRAME_SIZE)))
        else
          i ← next_index w i;
          alloc_first_loop f w i
  end.

(** The search looks at indices below [num_entries] (and at most one above):
    after [num_entries + 2] iterations it repeats itself. *)
Definition search_fuel (w : pmm) : nat := Z.to_nat (num_entries (PHYS_MEMORY_MAP w) + 2).

Definition AllocFirstFrame (w : pmm) : outcome (Z * pmm) :=
  alloc_first_loop (search_fuel w) w (i32 (u64 (last_used (PHYS_MEMORY_MAP w) + 1))).

(** ** Allocation of a contiguous region *)

(** The scan [for(tail = head; (tail - head) <= num_pages; ++tail)]: the value
    of [tail] when the loop ends and whether it met no used page. *)
Fixpoint scan_chunk (fuel : nat) (w : pmm) (head tail num_pages : Z) : outcome (bool * Z) :=
  match fuel with
  | O => OutOfFuel
  | S f =>
      if u64 (tail - head) <=? num_pages then
        page_used ← PageIsUsed w tail;
        if (page_used : bool) then Done (false, tail)
        else
          _ ← check (tail <? INT_MAX);
          scan_chunk f w head (tail + 1) num_pages
      else Done (true, tail)
  end.

(** [for(int i = head; i <= tail; ++i) SetPageUsed(i);] *)
Fixpoint mark_range (fuel : nat) (w : pmm) (i tail : Z) : outcome pmm :=
  match fuel with
  | O => OutOfFuel
  | S f =>
      if i <=? tail then
        w ← SetPageUsed w i;
        _ ← check (i <? INT_MAX);
        mark_range f w (i + 1) tail
      else Done w
  end.

Fixpoint alloc_contiguous_loop (fuel : nat) (w : pmm) (head num_pages : Z) :
    outcome (Z * pmm) :=
  match fuel with
  | O => OutOfFuel
  | S f =>
      if head =? last_used (PHYS_MEMORY_MAP w) then Done (0, w)
      else
        '(found_chunk, tail) ← scan_chunk (Z.to_nat num_pages + 2) w head (i32 head) num_pages;
        if (found_chunk : bool) then
          w ← mark_range (Z.to_nat (tail - i32 head) + 2) w (i32 head) tail;
          let frame := u64 (head * FRAME_SIZE) in
          let w := set_pmm_mem w
            (memset (pmm_mem w) frame 0 (Z.to_nat (u64 (FRAME_SIZE * num_pages)))) in
          Done (frame, set_last_used w (u64 (head + num_pages)))
        else
          let head := u64 tail in
          _ ← check (negb (num_entries (PHYS_MEMORY_MAP w) =? 0));
          alloc_contiguous_loop f w (u64 (head + 1) mod num_entries (PHYS_MEMORY_MAP w)) num_pages
  end.

Definition AllocContiguous (w : pmm) (size : Z) : outcome (Z * pmm) :=
  let num_pages := size / FRAME_SIZE + (if 0 <? size mod FRAME_SIZE then 1 else 0) in
  alloc_contiguous_loop (search_fuel w) w (u64 (last_used (PHYS_MEMORY_MAP w) + 1)) num_pages.

(** ** Freeing and counting *)

Definition FreeFrame (w : pmm) (frame : Z) : outcome pmm :=
  let w := set_pmm_mem w (memset (pmm_mem w) frame 0 (Z.to_nat FRAME_SIZE)) in
  SetPageFree w (i32 (frame / FRAME_SIZE)).

Fixpoint num_free_loop (fuel : nat) (w : pmm) (i free_frames : Z) : outcome Z :=
  match fuel with
  | O => OutOfFuel
  | S f =>
      if u64 i <? num_entries (PHYS_MEMORY_MAP w) then
        page_used ← PageIsUsed w i;
        _ ← check (i <? INT_MAX);
        num_free_loop f w (i + 1) (free_frames + Z.b2z (negb page_used))
      else Done free_frames
  end.
Definition NumFreeFrames (w : pmm) : outcome Z := num_free_loop (search_fuel w) w 0 0.

(** ** Initialization from the boot memory map *)

Definition is_usable (e : stivale2_mmap_entry) : bool := mm_type e =? USABLE_PAGE.

(** The loop of [UppermostUsableAddr] runs from the last entry to the first. *)
Fixpoint uppermost_loop (l : list stivale2_mmap_entry) : Z :=
  match l with
  | [] => 0
  | page_frame :: l =>
      if is_usable page_frame then u64 (mm_base page_frame + mm_length page_frame - 1)
      else uppermost_loop l
  end.
Definition UppermostUsableAddr (memmap : list stivale2_mmap_entry) : Z :=
  uppermost_loop (reverse memmap).

Fixpoint find_entry_loop (l : list stivale2_mmap_entry) (minimum_num_bytes i : Z) : Z :=
  match l with
  | [] => -1
  | page_frame :: l =>
      if (minimum_num_bytes <=? mm_length page_frame) && is_usable page_frame then i
      else find_entry_loop l minimum_num_bytes (i + 1)
  end.
Definition FindMemEntryBySize (memmap : list stivale2_mmap_entry) (minimum_num_bytes : Z) : Z :=
  find_entry_loop memmap minimum_num_bytes 0.

(** [for(int i = starting_page; i < ending_page; ++i) SetPageFree(i);] *)
Fixpoint free_pages (fuel : nat) (w : pmm) (i ending_page : Z) : outcome pmm :=
  match fuel with
  | O => OutOfFuel
  | S f =>
      if u64 i <? ending_page then
        w ← SetPageFree w i;
        _ ← check (i <? INT_MAX);
        free_pages f w (i + 1) ending_page
      else Done w
  end.

(** The loop over the entries of the memory map; [i] is the index of the
    first remaining one. *)
Fixpoint init_entries (w : pmm) (l : list stivale2_mmap_entry) (i bmp_ind : Z) : outcome pmm :=
  match l with
  | [] => Done w
  | mmap_entry :: l =>
      w ← (if is_usable mmap_entry && negb (i =? bmp_ind) then
             let starting_page := mm_base mmap_entry / FRAME_SIZE in
             let ending_page := u64 (starting_page + mm_length mmap_entry / FRAME_SIZE) in
             w ← free_pages (Z.to_nat (ending_page - starting_page) + 1) w (i32 starting_page)
                   ending_page;
             Done (if last_used (PHYS_MEMORY_MAP w) =? 0
                   then set_last_used w (u64 (starting_page - 1)) else w)
           else Done w);
      init_entries w l (i + 1) bmp_ind
  end.

(** The size of the bitmap: one bit per frame, rounded down to bytes and then
    up to whole frames, at 32 bits. *)
Definition bitmap_bytes (uppermost_usable_addr : Z) : Z :=
  let bitmap_size := u32 (uppermost_usable_addr / FRAME_SIZE / 8) in
  u32 (RoundToNearestMultiple bitmap_size FRAME_SIZE).

Definition InitPmm (w : pmm) (memmap : list stivale2_mmap_entry) : outcome (bool * pmm) :=
  let uppermost_usable_addr := UppermostUsableAddr memmap in
  let rounded := bitmap_bytes uppermost_usable_addr in
  let map_with base := {|
    num_entries := uppermost_usable_addr / FRAME_SIZE;
    last_used := last_used (PHYS_MEMORY_MAP w);
    bitmap_size := rounded;
    bitmap := base;
    mem_size := mem_size (PHYS_MEMORY_MAP w);
    max_blocks := max_blocks (PHYS_MEMORY_MAP w);
    uppermost_addr := uppermost_usable_addr;
    used_blocks := used_blocks (PHYS_MEMORY_MAP w) |} in
  let bmp_ind := FindMemEntryBySize memmap rounded in
  if bmp_ind =? -1
  then Done (false, Pmm (map_with (bitmap (PHYS_MEMORY_MAP w))) (pmm_mem w))
  else
    let base := match memmap !! Z.to_nat bmp_ind with Some e => mm_base e | None => 0 end in
    let w := Pmm (map_with base) (memset (pmm_mem w) base (-1) (Z.to_nat rounded)) in
    w ← init_entries w memmap 0 bmp_ind;
    Done (true, w).

(** ** Specification vocabulary *)

Section vocabulary.
Context (w : pmm).
Let map := PHYS_MEMORY_MAP w.

(** The bit of frame [i]. *)
Definition used (i : Z) : bool :=
  Z.testbit (ld8 (pmm_mem w) (bitmap map + i / 8)) (i mod 8).

Definition is_free (i : Z) : bool := negb (used i).

(** Frame [i] shares an address with the bitmap. *)
Definition in_bitmap (i : Z) : Prop :=
  i * FRAME_SIZE < bitmap map + bitmap_size map ∧ bitmap map < (i + 1) * FRAME_SIZE.

(** The invariant of the manager: the indices are small enough for [int], the
    bitmap covers every index a search can reach, and frame zero, the frame
    above the last one and the frames that hold the bitmap are marked used. *)
Record pmm_ok : Prop := {
  ok_entries : 3 ≤ num_entries map < 2 ^ 30;
  ok_last : 0 ≤ last_used map ≤ num_entries map;
  ok_base : 0 ≤ bitmap map;
  ok_cover : num_entries map + 2 ≤ 8 * bitmap_size map;
  ok_zero : used 0 = true;
  ok_top : used (num_entries map + 1) = true;
  ok_self : ∀ i, 0 ≤ i < num_entries map + 2 → in_bitmap i → used i = true;
}.

(** The indices [AllocFirstFrame] looks at, in order. *)
Definition candidates : list Z :=
  let n := num_entries map in let last := last_used map in
  if last + 1 <? n then seqZ (last + 1) (n - 1 - last) ++ seqZ 0 last
  else if last + 1 =? n then n :: seqZ 1 (n - 2)
  else (n + 1) :: seqZ 2 (n - 2) ++ [0; 1].

Definition first_free (l : list Z) : option Z := List.find is_free l.

(** The number of free frames below [num_entries]. *)
Definition count_free : Z := Z.of_nat (length (filter is_free (seqZ 0 (num_entries map)))).

End vocabulary.

(** The bitmap with the bit of frame [i] set to [b]. *)
Definition mark (w : pmm) (i : Z) (b : bool) : pmm :=
  let p := bitmap (PHYS_MEMORY_MAP w) + i / 8 in
  let v := ld8 (pmm_mem w) p in
  set_pmm_mem w (st8 (pmm_mem w) p
    (if b then Z.lor v (Z.shiftl 1 (i mod 8)) else Z.land v (Z.lnot (Z.shiftl 1 (i mod 8))))).

(** The state after frame [i] has been handed out: marked, remembered as
    [last_used], and zeroed. *)
Definition take_frame (w : pmm) (i : Z) : pmm :=
  let w := set_last_used (mark w i true) i in
  set_pmm_mem w (memset (pmm_mem w) (i * FRAME_SIZE) 0 (Z.to_nat FRAME_SIZE)).

(** ** The bitmap operations *)

Lemma rem_quot_nonneg i : 0 ≤ i → Z.rem i 8 = i mod 8 ∧ Z.quot i 8 = i / 8.
Proof. intros. split; [apply Z.rem_mod_nonneg|apply Z.quot_div_nonneg]; lia. Qed.

Lemma PageIsUsed_used w i : 0 ≤ i → PageIsUsed w i = Done (used w i).
Proof.
  intros Hi. unfold PageIsUsed, used. destruct (rem_quot_nonneg i Hi) as [-> ->].
  pose proof (Z.mod_pos_bound i 8). rewrite check_true by (apply Z.leb_le; lia).
  simpl. rewrite land_1_testbit by lia. by destruct (Z.testbit _ _).
Qed.

Lemma SetPageUsed_mark w i : 0 ≤ i → SetPageUsed w i = Done (mark w i true).
Proof.
  intros Hi. unfold SetPageUsed, mark. destruct (rem_quot_nonneg i Hi) as [-> ->].
  pose proof (Z.mod_pos_bound i 8). by rewrite check_true by (apply Z.leb_le; lia).
Qed.

Lemma SetPageFree_mark w i : 0 ≤ i → SetPageFree w i = Done (mark w i false).
Proof.
  intros Hi. unfold SetPageFree, mark. destruct (rem_quot_nonneg i Hi) as [-> ->].
  pose proof (Z.mod_pos_bound i 8). by rewrite check_true by (apply Z.leb_le; lia).
Qed.

(** Setting or clearing the bit of a frame changes that bit and no other. *)
Lemma used_mark w i b j :
  0 ≤ i → 0 ≤ j → used (mark w i b) j = if j =? i then b else used w j.
Proof.
  intros Hi Hj. unfold used, mark. simpl. rewrite ld8_st8.
  set (base := bitmap _). pose proof (Z.mod_pos_bound i 8). pose proof (Z.mod_pos_bound j 8).
  destruct (Z.eqb_spec (base + j / 8) (base + i / 8)) as [Heq|Hne].
  - rewrite testbit_mod_pow2 by lia. destruct (Z.ltb_spec (j mod 8) 8); [simpl|lia].
    replace (base + i / 8) with (base + j / 8) by lia.
    destruct (Z.eqb_spec j i) as [->|Hji].
    + destruct b; rewrite ?Z.lor_spec, ?Z.land_spec, ?Z.lnot_spec, testbit_shiftl_1, Z.eqb_refl by lia.
      * apply orb_true_r.
      * apply andb_false_r.
    + assert ((j mod 8 =? i mod 8) = false) as Hm by (apply Z.eqb_neq; dlia).
      destruct b; rewrite ?Z.lor_spec, ?Z.land_spec, ?Z.lnot_spec, testbit_shiftl_1, Hm by lia.
      * apply orb_false_r.
      * apply andb_true_r.
  - destruct (Z.eqb_spec j i) as [->|]; [done|done].
Qed.

(** [used] only reads one byte. *)
Lemma used_ext w1 w2 i :
  bitmap (PHYS_MEMORY_MAP w1) = bitmap (PHYS_MEMORY_MAP w2) →
  ld8 (pmm_mem w1) (bitmap (PHYS_MEMORY_MAP w2) + i / 8) =
    ld8 (pmm_mem w2) (bitmap (PHYS_MEMORY_MAP w2) + i / 8) →
  used w1 i = used w2 i.
Proof. intros Hb Hm. unfold used. by rewrite Hb, Hm. Qed.

Lemma mark_outside w i b :
  same_outside (bitmap (PHYS_MEMORY_MAP w) + i / 8) (bitmap (PHYS_MEMORY_MAP w) + i / 8 + 1)
    (pmm_mem w) (pmm_mem (mark w i b)).
Proof. intros a Ha. apply ld8_st8_ne. lia. Qed.

Lemma bitmap_byte w i :
  pmm_ok w → 0 ≤ i < num_entries (PHYS_MEMORY_MAP w) + 2 →
  0 ≤ i / 8 < bitmap_size (PHYS_MEMORY_MAP w).
Proof.
  intros Hok Hi. pose proof (ok_cover w Hok).
  split; [apply Z.div_pos; lia|apply Z.div_lt_upper_bound; lia].
Qed.

(** A free frame does not touch the bitmap. *)
Lemma free_not_in_bitmap w i a :
  pmm_ok w → 0 ≤ i < num_entries (PHYS_MEMORY_MAP w) + 2 → used w i = false →
  bitmap (PHYS_MEMORY_MAP w) ≤ a < bitmap (PHYS_MEMORY_MAP w) + bitmap_size (PHYS_MEMORY_MAP w) →
  ¬ (i * FRAME_SIZE ≤ a < (i + 1) * FRAME_SIZE).
Proof.
  intros Hok Hi Hfree Ha Hin. pose proof (ok_self w Hok i Hi) as Hself.
  unfold in_bitmap in Hself. rewrite Hself in Hfree; [done|]. lia.
Qed.

Lemma used_take_frame w i j :
  pmm_ok w → 0 ≤ i < num_entries (PHYS_MEMORY_MAP w) + 2 → used w i = false →
  0 ≤ j < num_entries (PHYS_MEMORY_MAP w) + 2 →
  used (take_frame w i) j = (j =? i) || used w j.
Proof.
  intros Hok Hi Hfree Hj.
  transitivity (used (mark w i true) j).
  2: { rewrite used_mark by lia. by destruct (j =? i). }
  apply used_ext; [done|]. simpl. apply memset_outside.
  pose proof (bitmap_byte w j Hok Hj).
  pose proof (free_not_in_bitmap w i (bitmap (PHYS_MEMORY_MAP w) + j / 8) Hok Hi Hfree).
  unfold FRAME_SIZE in *. lia.
Qed.

(** ** The search of [AllocFirstFrame] *)

Lemma next_index_mod w i :
  pmm_ok w → 0 ≤ i < num_entries (PHYS_MEMORY_MAP w) + 2 →
  next_index w i = Done ((i + 1) mod num_entries (PHYS_MEMORY_MAP w)).
Proof.
  intros Hok Hi. pose proof (ok_entries w Hok). unfold next_index. do 2 do_check.
  pose proof (Z.mod_pos_bound (i + 1) (num_entries (PHYS_MEMORY_MAP w))).
  rewrite u64_small, i32_small by lia. done.
Qed.

(** [l] is the sequence of indices the loop passes from [i] to [e]. *)
Fixpoint path (n i : Z) (l : list Z) (e : Z) : Prop :=
  match l with
  | [] => i = e
  | x :: l => x = i ∧ path n ((i + 1) mod n) l e
  end.

Lemma path_app n i l1 m l2 e : path n i l1 m → path n m l2 e → path n i (l1 ++ l2) e.
Proof.
  revert i. induction l1 as [|x l1 IH]; intros i; simpl; [by intros ->|].
  intros [-> H1] H2. split; [done|]. by apply IH.
Qed.

Lemma path_seqZ n i k : 0 ≤ i < n → 0 ≤ k → i + k ≤ n → path n i (seqZ i k) ((i + k) mod n).
Proof.
  intros Hi Hk. revert i Hi. pattern k. apply natlike_ind; [| |done].
  { intros i Hi Hn. simpl. rewrite Z.add_0_r, Z.mod_small; lia. }
  intros x Hx IH i Hi Hn. rewrite seqZ_cons by lia. rewrite Z.pred_succ. simpl. split; [done|].
  replace (i + Z.succ x) with (Z.succ i + x) by lia. destruct (decide (i + 1 = n)) as [He|Hne].
  - replace x with 0 by lia. simpl. f_equal. lia.
  - rewrite (Z.mod_small (i + 1)) by lia. apply IH; lia.
Qed.

(** The loop over a path of indices other than [last_used] finds the first
    free one of them, or arrives at the end of the path. *)
Lemma alloc_first_loop_path w f i l e :
  pmm_ok w → path (num_entries (PHYS_MEMORY_MAP w)) i l e →
  Forall (λ x, 0 ≤ x < num_entries (PHYS_MEMORY_MAP w) + 2 ∧ x ≠ last_used (PHYS_MEMORY_MAP w)) l →
  alloc_first_loop (length l + f) w i =
    match first_free w l with
    | Some j => Done (j * FRAME_SIZE, take_frame w j)
    | None => alloc_first_loop f w e
    end.
Proof.
  intros Hok. revert i. induction l as [|x l IH]; intros i; simpl; [by intros ->|].
  intros [-> Hp] [[Hi Hne] Hl]%Forall_cons. pose proof (ok_entries w Hok).
  rewrite u64_small by lia. destruct (Z.eqb_spec i (last_used (PHYS_MEMORY_MAP w))); [done|].
  rewrite PageIsUsed_used by lia. simpl. change (is_free w i) with (negb (used w i)).
  destruct (used w i) eqn:Hu; simpl.
  - rewrite next_index_mod by done. simpl. by apply IH.
  - rewrite SetPageUsed_mark by lia. simpl. unfold take_frame.
    rewrite u64_small by (unfold FRAME_SIZE; lia). done.
Qed.

Lemma candidates_path w :
  pmm_ok w →
  let n := num_entries (PHYS_MEMORY_MAP w) in let last := last_used (PHYS_MEMORY_MAP w) in
  path n (last + 1) (candidates w) (if last <? n then last else 2).
Proof.
  intros Hok. pose proof (ok_entries w Hok). pose proof (ok_last w Hok). cbv zeta.
  unfold candidates. set (n := num_entries _) in *. set (last := last_used _) in *.
  destruct (Z.ltb_spec (last + 1) n), (Z.ltb_spec last n); [|lia| |].
  - eapply path_app; [apply path_seqZ; lia|].
    replace (last + 1 + (n - 1 - last)) with n by lia. rewrite Z.mod_same by lia.
    replace last with ((0 + last) mod n) at 2 by (rewrite Z.mod_small; lia).
    apply path_seqZ; lia.
  - destruct (Z.eqb_spec (last + 1) n) as [He|]; [|lia]. simpl. split; [lia|].
    replace ((last + 1 + 1) mod n) with 1 by (symmetry; apply mod_wrap; lia).
    replace last with ((1 + (n - 2)) mod n) by (rewrite Z.mod_small; lia).
    apply path_seqZ; lia.
  - destruct (Z.eqb_spec (last + 1) n); [lia|]. simpl. split; [lia|].
    replace ((last + 1 + 1) mod n) with 2 by (symmetry; apply mod_wrap; lia).
    eapply path_app; [apply path_seqZ; lia|].
    replace (2 + (n - 2)) with n by lia. rewrite Z.mod_same by lia.
    simpl. rewrite !Z.mod_small by lia. done.
Qed.

Lemma candidates_range w :
  pmm_ok w →
  Forall (λ x, 0 ≤ x < num_entries (PHYS_MEMORY_MAP w) + 2 ∧ x ≠ last_used (PHYS_MEMORY_MAP w))
    (candidates w).
Proof.
  intros Hok. pose proof (ok_entries w Hok). pose proof (ok_last w Hok).
  apply Forall_forall. intros x. unfold candidates. case_match; [|case_match].
  - rewrite elem_of_app, !elem_of_seqZ. lia.
  - rewrite elem_of_cons, elem_of_seqZ. lia.
  - rewrite elem_of_cons, elem_of_app, elem_of_seqZ, !elem_of_cons, elem_of_nil. lia.
Qed.

Lemma candidates_length w :
  pmm_ok w →
  Z.of_nat (length (candidates w)) =
    if last_used (PHYS_MEMORY_MAP w) <? num_entries (PHYS_MEMORY_MAP w)
    then num_entries (PHYS_MEMORY_MAP w) - 1 else num_entries (PHYS_MEMORY_MAP w) + 1.
Proof.
  intros Hok. pose proof (ok_entries w Hok). pose proof (ok_last w Hok).
  unfold candidates. repeat case_match; simpl; rewrite ?length_app, ?length_seqZ; simpl; lia.
Qed.

Lemma first_free_Some w l j : first_free w l = Some j → j ∈ l ∧ used w j = false.
Proof.
  intros [Hin Hf]%find_some. split; [by apply list_elem_of_In|].
  unfold is_free in Hf. by destruct (used w j).
Qed.

Lemma first_free_None w l : first_free w l = None ↔ ∀ x, x ∈ l → used w x = true.
Proof.
  unfold first_free, is_free. split.
  - intros Hn x Hx. eapply find_none in Hn; [|by apply list_elem_of_In]. by destruct (used w x).
  - intros Hall. destruct (List.find _ _) as [x|] eqn:Hx; [|done].
    apply find_some in Hx as [Hin Hf]. rewrite Hall in Hf; [done|by apply list_elem_of_In].
Qed.

(** [AllocFirstFrame] in closed form.  When the last frame of memory has been
    handed out ([last_used = num_entries]) and nothing else is free, the loop
    has not ended within its fuel. *)
Lemma AllocFirstFrame_closed w :
  pmm_ok w →
  AllocFirstFrame w =
    match first_free w (candidates w) with
    | Some i => Done (i * FRAME_SIZE, take_frame w i)
    | None => if last_used (PHYS_MEMORY_MAP w) <? num_entries (PHYS_MEMORY_MAP w)
              then Done (0, w) else OutOfFuel
    end.
Proof.
  intros Hok. unfold AllocFirstFrame, search_fuel.
  pose proof (ok_entries w Hok). pose proof (ok_last w Hok).
  rewrite u64_small, i32_small by lia.
  pose proof (candidates_path w Hok) as Hp. pose proof (candidates_length w Hok) as Hlen.
  cbv zeta in Hp. revert Hp Hlen.
  destruct (Z.ltb_spec (last_used (PHYS_MEMORY_MAP w)) (num_entries (PHYS_MEMORY_MAP w)));
    intros Hp Hlen.
  - replace (Z.to_nat (num_entries (PHYS_MEMORY_MAP w) + 2)) with (length (candidates w) + 3)%nat by lia.
    rewrite (alloc_first_loop_path _ _ _ _ _ Hok Hp (candidates_range w Hok)).
    destruct (first_free w (candidates w)); [done|]. simpl.
    rewrite u64_small, Z.eqb_refl by lia. done.
  - replace (Z.to_nat (num_entries (PHYS_MEMORY_MAP w) + 2)) with (length (candidates w) + 1)%nat by lia.
    rewrite (alloc_first_loop_path _ _ _ _ _ Hok Hp (candidates_range w Hok)).
    destruct (first_free w (candidates w)) eqn:Hff; [done|]. cbn [alloc_first_loop].
    rewrite (u64_small 2) by lia.
    destruct (Z.eqb_spec 2 (last_used (PHYS_MEMORY_MAP w))); [lia|].
    rewrite PageIsUsed_used by lia. do_bind.
    replace (used w 2) with true; [cbn [negb]; by rewrite next_index_mod by (done || lia)|].
    symmetry. apply (proj1 (first_free_None w (candidates w)) Hff).
    unfold candidates. repeat case_match; try lia.
    rewrite elem_of_cons, elem_of_app, elem_of_seqZ, elem_of_cons. lia.
Qed.

(** ** The effect of handing out a frame *)

Lemma pmm_ok_take_frame w i :
  pmm_ok w → 0 ≤ i ≤ num_entries (PHYS_MEMORY_MAP w) → used w i = false → pmm_ok (take_frame w i).
Proof.
  intros Hok Hi Hfree. pose proof Hok as [He Hl Hb Hc Hz Ht Hs].
  assert (Hu : ∀ j, 0 ≤ j < num_entries (PHYS_MEMORY_MAP w) + 2 → used w j = true →
    used (take_frame w i) j = true).
  { intros j Hj Huj. rewrite used_take_frame, Huj by (done || lia). apply orb_true_r. }
  split; simpl; [done|lia|done|done| | |].
  - apply Hu; [lia|done].
  - apply Hu; [lia|done].
  - intros j Hj Hin. apply Hu; [done|]. by apply Hs.
Qed.

Lemma take_frame_zeroed w i a :
  i * FRAME_SIZE ≤ a < (i + 1) * FRAME_SIZE → ld8 (pmm_mem (take_frame w i)) a = 0.
Proof. intros Ha. unfold take_frame. simpl. apply memset_inside. unfold FRAME_SIZE in *. lia. Qed.

Lemma take_frame_other w i a :
  pmm_ok w → 0 ≤ i < num_entries (PHYS_MEMORY_MAP w) + 2 →
  ¬ (i * FRAME_SIZE ≤ a < (i + 1) * FRAME_SIZE) →
  ¬ (bitmap (PHYS_MEMORY_MAP w) ≤ a <
       bitmap (PHYS_MEMORY_MAP w) + bitmap_size (PHYS_MEMORY_MAP w)) →
  ld8 (pmm_mem (take_frame w i)) a = ld8 (pmm_mem w) a.
Proof.
  intros Hok Hi Ha Hb. unfold take_frame. simpl.
  rewrite memset_outside by (unfold FRAME_SIZE in *; lia).
  apply (mark_outside w i true). pose proof (bitmap_byte w i Hok Hi). lia.
Qed.

(** A frame the search finds is a real one: not frame zero, and not above the
    last frame of memory. *)
Lemma first_free_range w i :
  pmm_ok w → first_free w (candidates w) = Some i →
  1 ≤ i ≤ num_entries (PHYS_MEMORY_MAP w) ∧ used w i = false.
Proof.
  intros Hok [Hin Hu]%first_free_Some. split; [|done].
  pose proof (candidates_range w Hok) as Hr. rewrite Forall_forall in Hr.
  specialize (Hr i Hin) as [Hr _]. pose proof (ok_zero w Hok). pose proof (ok_top w Hok).
  destruct (decide (i = 0)) as [->|]; [congruence|].
  destruct (decide (i = num_entries (PHYS_MEMORY_MAP w) + 1)) as [->|]; [congruence|]. lia.
Qed.

(** Every frame below [num_entries] but [last_used] and frame zero is looked at. *)
Lemma candidates_complete w j :
  pmm_ok w → 1 ≤ j < num_entries (PHYS_MEMORY_MAP w) → j ≠ last_used (PHYS_MEMORY_MAP w) →
  j ∈ candidates w.
Proof.
  intros Hok Hj Hne. pose proof (ok_entries w Hok). pose proof (ok_last w Hok).
  unfold candidates. repeat case_match.
  - rewrite elem_of_app, !elem_of_seqZ. lia.
  - rewrite elem_of_cons, elem_of_seqZ. lia.
  - rewrite elem_of_cons, elem_of_app, elem_of_seqZ, !elem_of_cons. lia.
Qed.

Lemma count_free_take_frame w i :
  pmm_ok w → 0 ≤ i ≤ num_entries (PHYS_MEMORY_MAP w) → used w i = false →
  count_free w = count_free (take_frame w i) + Z.b2z (i <? num_entries (PHYS_MEMORY_MAP w)).
Proof.
  intros Hok Hi Hu. unfold count_free. simpl.
  assert (Hf : ∀ j, j ∈ seqZ 0 (num_entries (PHYS_MEMORY_MAP w)) →
    is_free (take_frame w i) j = is_free w j && bool_decide (j ≠ i)).
  { intros j [Hj ?]%elem_of_seqZ. unfold is_free. rewrite used_take_frame by (done || lia).
    destruct (Z.eqb_spec j i) as [->|?].
    - by rewrite bool_decide_eq_false_2, andb_false_r by (intros ?; congruence).
    - by rewrite bool_decide_eq_true_2, andb_true_r by done. }
  destruct (Z.ltb_spec i (num_entries (PHYS_MEMORY_MAP w))); simpl Z.b2z.
  - rewrite (filter_remove_one (is_free w) (is_free (take_frame w i)) _ i); [lia| | | |done].
    + apply NoDup_seqZ.
    + apply elem_of_seqZ. lia.
    + unfold is_free. by rewrite Hu.
  - rewrite (filter_ext_in (is_free w) (is_free (take_frame w i))); [lia|].
    intros j Hj. rewrite Hf by done. apply elem_of_seqZ in Hj.
    by rewrite bool_decide_eq_true_2, andb_true_r by lia.
Qed.

(** Two free frames are enough for the search to find one that is not
    [last_used]. *)
Lemma first_free_avail w :
  pmm_ok w → 2 ≤ count_free w → ∃ i, first_free w (candidates w) = Some i.
Proof.
  intros Hok Hc. destruct (first_free w (candidates w)) as [i|] eqn:Hff; [eauto|exfalso].
  pose proof (proj1 (first_free_None w (candidates w)) Hff) as Hall.
  assert (Hsub : filter (is_free w) (seqZ 0 (num_entries (PHYS_MEMORY_MAP w))) ⊆+
    [last_used (PHYS_MEMORY_MAP w)]).
  { apply NoDup_submseteq; [apply NoDup_filter, NoDup_seqZ|].
    intros j [Hf Hj%elem_of_seqZ]%list_elem_of_filter. apply list_elem_of_singleton.
    unfold is_free in Hf. destruct (decide (j = last_used (PHYS_MEMORY_MAP w))) as [|Hne]; [done|].
    destruct (decide (j = 0)) as [->|]; [by rewrite (ok_zero w Hok) in Hf|].
    rewrite Hall in Hf; [done|]. apply candidates_complete; (done || lia). }
  apply submseteq_length in Hsub. simpl in Hsub. unfold count_free in Hc. lia.
Qed.

(** A run of free frames bounds the number of free frames from below. *)
Lemma count_free_run w i c :
  0 ≤ i → 0 ≤ c → i + c ≤ num_entries (PHYS_MEMORY_MAP w) →
  (∀ j, i ≤ j < i + c → used w j = false) → c ≤ count_free w.
Proof.
  intros Hi Hc Hn Hfree. unfold count_free.
  assert (Hsub : seqZ i c ⊆+ filter (is_free w) (seqZ 0 (num_entries (PHYS_MEMORY_MAP w)))).
  { apply NoDup_submseteq; [apply NoDup_seqZ|]. intros j Hj%elem_of_seqZ.
    apply list_elem_of_filter. split; [|apply elem_of_seqZ; lia].
    unfold is_free. by rewrite Hfree by lia. }
  apply submseteq_length in Hsub. rewrite length_seqZ in Hsub. lia.
Qed.

(** ** Properties of allocation *)

(** Above the last entry the search never comes back to [last_used]. *)
Lemma alloc_first_stuck w :
  pmm_ok w → last_used (PHYS_MEMORY_MAP w) = num_entries (PHYS_MEMORY_MAP w) →
  (∀ j, 0 ≤ j < num_entries (PHYS_MEMORY_MAP w) → used w j = true) →
  ∀ fuel, alloc_first_loop fuel w (i32 (u64 (last_used (PHYS_MEMORY_MAP w) + 1))) = OutOfFuel.
Proof.
  intros Hok Hlast Hall. pose proof (ok_entries w Hok). set (n := num_entries _) in *.
  assert (Hloop : ∀ fuel i, 0 ≤ i < n + 2 → i ≠ n → alloc_first_loop fuel w i = OutOfFuel).
  { intros fuel. induction fuel as [|fuel IH]; intros i Hi Hne; [done|]. cbn [alloc_first_loop].
    rewrite (u64_small i), Hlast by lia. destruct (Z.eqb_spec i n); [done|].
    rewrite PageIsUsed_used by lia. do_bind.
    assert (used w i = true) as ->.
    { destruct (decide (i = n + 1)) as [->|]; [apply (ok_top w Hok)|apply Hall; lia]. }
    cbn [negb]. rewrite next_index_mod by done. do_bind.
    pose proof (Z.mod_pos_bound (i + 1) n). apply IH; fold n; lia. }
  intros fuel. apply Hloop; rewrite u64_small, i32_small by lia; lia.
Qed.

(** A search that starts above the last entry looks at every frame but it. *)
Lemma candidates_wrapped w j :
  last_used (PHYS_MEMORY_MAP w) = num_entries (PHYS_MEMORY_MAP w) →
  0 ≤ j < num_entries (PHYS_MEMORY_MAP w) → j ∈ candidates w.
Proof.
  intros Hl Hj. unfold candidates. rewrite Hl.
  destruct (Z.ltb_spec (num_entries (PHYS_MEMORY_MAP w) + 1) (num_entries (PHYS_MEMORY_MAP w))); [lia|].
  destruct (Z.eqb_spec (num_entries (PHYS_MEMORY_MAP w) + 1) (num_entries (PHYS_MEMORY_MAP w))); [lia|].
  rewrite elem_of_cons, elem_of_app, elem_of_seqZ, !elem_of_cons. lia.
Qed.

(** C9: [AllocFirstFrame] computes the first free index of its search order
    (rotating up from [last_used + 1], then from zero) and hands out exactly
    that frame.  A frame that is handed out was free, is a real frame other
    than frame zero, is marked used and zeroed; every other bit and every
    address outside the frame and the bitmap is unchanged, and the manager's
    invariant still holds.  If the search order has no free index the answer
    is [NULL], provided that [last_used] is below [num_entries]; once the frame
    above the last entry has been handed out, [last_used = num_entries], the
    loop then never ends, however much fuel it is given. *)
Theorem AllocFirstFrame_spec w :
  pmm_ok w →
  match first_free w (candidates w) with
  | None =>
      if last_used (PHYS_MEMORY_MAP w) <? num_entries (PHYS_MEMORY_MAP w) then AllocFirstFrame w = Done (0, w)
      else ∀ fuel, alloc_first_loop fuel w (i32 (u64 (last_used (PHYS_MEMORY_MAP w) + 1))) = OutOfFuel
  | Some i =>
      ∃ w', AllocFirstFrame w = Done (i * FRAME_SIZE, w') ∧ pmm_ok w' ∧
        used w i = false ∧ 1 ≤ i ≤ num_entries (PHYS_MEMORY_MAP w) ∧
        last_used (PHYS_MEMORY_MAP w') = i ∧
        (∀ j, 0 ≤ j < num_entries (PHYS_MEMORY_MAP w) + 2 → used w' j = (j =? i) || used w j) ∧
        (∀ a, i * FRAME_SIZE ≤ a < (i + 1) * FRAME_SIZE → ld8 (pmm_mem w') a = 0) ∧
        (∀ a, ¬ (i * FRAME_SIZE ≤ a < (i + 1) * FRAME_SIZE) →
           ¬ (bitmap (PHYS_MEMORY_MAP w) ≤ a <
                bitmap (PHYS_MEMORY_MAP w) + bitmap_size (PHYS_MEMORY_MAP w)) →
           ld8 (pmm_mem w') a = ld8 (pmm_mem w) a)
  end.
Proof.
  intros Hok. pose proof (AllocFirstFrame_closed w Hok) as Hc.
  destruct (first_free w (candidates w)) as [i|] eqn:Hff.
  - destruct (first_free_range w i Hok Hff) as [Hi Hu].
    exists (take_frame w i). split_and!; [done| |done|lia|lia|done| | |].
    + apply pmm_ok_take_frame; (done || lia).
    + intros j Hj. apply used_take_frame; (done || lia).
    + apply take_frame_zeroed.
    + intros a. apply take_frame_other; (done || lia).
  - destruct (Z.ltb_spec (last_used (PHYS_MEMORY_MAP w)) (num_entries (PHYS_MEMORY_MAP w))); [done|].
    pose proof (ok_last w Hok). assert (Hl : last_used (PHYS_MEMORY_MAP w) = num_entries (PHYS_MEMORY_MAP w)) by lia.
    apply alloc_first_stuck; [done|done|]. intros j Hj. unfold first_free in Hff.
    pose proof (find_none _ _ Hff j (proj1 (list_elem_of_In _ _) (candidates_wrapped w j Hl Hj))) as Hn.
    unfold is_free in Hn. by destruct (used w j).
Qed.

(** Allocation succeeds whenever at least two frames are free (one of them
    may be [last_used], which the search never looks at), and the count of free
    frames drops by at most one. *)
Theorem AllocFirstFrame_total w :
  pmm_ok w → 2 ≤ count_free w →
  ∃ frame w', AllocFirstFrame w = Done (frame, w') ∧ frame ≠ 0 ∧
    count_free w - 1 ≤ count_free w' ≤ count_free w.
Proof.
  intros Hok Hc. destruct (first_free_avail w Hok Hc) as [i Hff].
  destruct (first_free_range w i Hok Hff) as [Hi Hu].
  exists (i * FRAME_SIZE), (take_frame w i). rewrite AllocFirstFrame_closed, Hff by done.
  split_and!; [done|unfold FRAME_SIZE; lia|..];
    rewrite (count_free_take_frame w i) by (done || lia);
    destruct (i <? num_entries (PHYS_MEMORY_MAP w)); simpl; lia.
Qed.

(** [AllocFirstFrame] answers [NULL] although a frame is free, when that
    frame is [last_used]: a frame that is freed right after it was allocated
    cannot be allocated again while nothing else is free. *)
Theorem AllocFirstFrame_skips_last w :
  pmm_ok w → last_used (PHYS_MEMORY_MAP w) < num_entries (PHYS_MEMORY_MAP w) →
  (∀ j, 0 ≤ j ≤ num_entries (PHYS_MEMORY_MAP w) → j ≠ last_used (PHYS_MEMORY_MAP w) →
     used w j = true) →
  used w (last_used (PHYS_MEMORY_MAP w)) = false →
  AllocFirstFrame w = Done (0, w) ∧ ∃ j, 0 ≤ j < num_entries (PHYS_MEMORY_MAP w) ∧ used w j = false.
Proof.
  intros Hok Hlt Hall Hfree. pose proof (ok_last w Hok). split; [|eexists; split; [|done]; lia].
  rewrite AllocFirstFrame_closed by done.
  assert (first_free w (candidates w) = None) as ->.
  { apply first_free_None. intros x Hx. pose proof (candidates_range w Hok) as Hr.
    rewrite Forall_forall in Hr. destruct (Hr x Hx).
    destruct (decide (x = num_entries (PHYS_MEMORY_MAP w) + 1)) as [->|]; [apply (ok_top w Hok)|].
    apply Hall; lia. }
  by rewrite (proj2 (Z.ltb_lt _ _) Hlt).
Qed.

(** Once the last frame of memory has been handed out ([last_used =
    num_entries], an index the rotating search never returns to), a further
    [AllocFirstFrame] on exhausted memory never ends: no amount of fuel is
    enough. *)
Theorem AllocFirstFrame_diverges w :
  pmm_ok w → last_used (PHYS_MEMORY_MAP w) = num_entries (PHYS_MEMORY_MAP w) →
  (∀ j, 0 ≤ j ≤ num_entries (PHYS_MEMORY_MAP w) → used w j = true) →
  ∀ fuel, alloc_first_loop fuel w (i32 (u64 (last_used (PHYS_MEMORY_MAP w) + 1))) = OutOfFuel.
Proof. intros Hok Hlast Hall. apply alloc_first_stuck; [done|done|]. intros j Hj. apply Hall. lia. Qed.

(** [k] allocations in a row. *)
Fixpoint alloc_frames (k : nat) (w : pmm) : outcome (list Z * pmm) :=
  match k with
  | O => Done ([], w)
  | S k =>
      '(frame, w) ← AllocFirstFrame w;
      '(frames, w) ← alloc_frames k w;
      Done (frame :: frames, w)
  end.

Lemma alloc_frames_spec k w :
  pmm_ok w → Z.of_nat k + 1 ≤ count_free w →
  ∃ frames w', alloc_frames k w = Done (frames, w') ∧ length frames = k ∧ pmm_ok w' ∧
    num_entries (PHYS_MEMORY_MAP w') = num_entries (PHYS_MEMORY_MAP w) ∧
    (∀ j, 0 ≤ j < num_entries (PHYS_MEMORY_MAP w) + 2 → used w j = true → used w' j = true) ∧
    NoDup frames ∧
    (∀ f, f ∈ frames → ∃ i, f = i * FRAME_SIZE ∧ 1 ≤ i ≤ num_entries (PHYS_MEMORY_MAP w) ∧
       used w i = false ∧ used w' i = true).
Proof.
  revert w. induction k as [|k IH]; intros w Hok Hc.
  { exists [], w. split_and!; [done..|constructor|]. intros f Hf. by apply elem_of_nil in Hf. }
  destruct (first_free_avail w Hok) as [i Hff]; [lia|].
  destruct (first_free_range w i Hok Hff) as [Hi Hu].
  assert (Hok1 : pmm_ok (take_frame w i)) by (apply pmm_ok_take_frame; (done || lia)).
  pose proof (count_free_take_frame w i Hok ltac:(lia) Hu) as Hcount.
  destruct (IH (take_frame w i) Hok1) as (fs & w' & Hrun & Hlen & Hok' & Hn & Hmono & Hnd & Hfs).
  { assert (Z.b2z (i <? num_entries (PHYS_MEMORY_MAP w)) ≤ 1) by (by destruct (_ <? _)). lia. }
  change (num_entries (PHYS_MEMORY_MAP (take_frame w i)))
    with (num_entries (PHYS_MEMORY_MAP w)) in Hn, Hmono, Hfs.
  assert (Htake : ∀ j, 0 ≤ j < num_entries (PHYS_MEMORY_MAP w) + 2 →
    used (take_frame w i) j = (j =? i) || used w j).
  { intros j Hj. apply used_take_frame; (done || lia). }
  exists (i * FRAME_SIZE :: fs), w'. cbn [alloc_frames].
  rewrite AllocFirstFrame_closed, Hff by done. do_bind. rewrite Hrun. do_bind.
  split_and!; [done|simpl; congruence|done|done| | |].
  - intros j Hj Huj. apply Hmono; [done|]. rewrite Htake, Huj by done. apply orb_true_r.
  - constructor; [|done]. intros Hin. destruct (Hfs _ Hin) as (j & Heq & Hj & Huj & _).
    unfold FRAME_SIZE in Heq. replace j with i in Huj by lia.
    rewrite Htake, Z.eqb_refl in Huj by lia. done.
  - intros f [->|Hin]%elem_of_cons.
    + exists i. split_and!; [done|lia|lia|done|]. apply Hmono; [lia|].
      rewrite Htake, Z.eqb_refl by lia. done.
    + destruct (Hfs _ Hin) as (j & -> & Hj & Huj & Huj'). exists j.
      split_and!; [done|lia|lia| |done]. rewrite Htake in Huj by lia.
      by apply orb_false_iff in Huj as [_ ?].
Qed.

(** C10: allocating [k] frames in a row, with at least [k + 1] free to begin
    with, terminates, never answers [NULL] and never hands out the same frame
    twice; every frame handed out was free at the start and is in use at the
    end. *)
Theorem alloc_frames_distinct k w :
  pmm_ok w → Z.of_nat k + 1 ≤ count_free w →
  ∃ frames w', alloc_frames k w = Done (frames, w') ∧ length frames = k ∧ pmm_ok w' ∧
    NoDup frames ∧ (0 ∉ frames) ∧
    (∀ f, f ∈ frames → ∃ i, f = i * FRAME_SIZE ∧ used w i = false ∧ used w' i = true).
Proof.
  intros Hok Hc. destruct (alloc_frames_spec k w Hok Hc)
    as (fs & w' & Hrun & Hlen & Hok' & _ & _ & Hnd & Hfs).
  exists fs, w'. split_and!; [done..| |].
  - intros Hin. destruct (Hfs _ Hin) as (i & Heq & Hi & _). unfold FRAME_SIZE in Heq. lia.
  - intros f Hin. destruct (Hfs f Hin) as (i & ? & _ & ? & ?). eauto.
Qed.

(** ** Freeing and counting *)

(** What [FreeFrame] does to a frame that is not part of the bitmap. *)
Lemma FreeFrame_spec w i :
  pmm_ok w → 1 ≤ i ≤ num_entries (PHYS_MEMORY_MAP w) → ¬ in_bitmap w i →
  ∃ w', FreeFrame w (i * FRAME_SIZE) = Done w' ∧ pmm_ok w' ∧
    (∀ j, 0 ≤ j < num_entries (PHYS_MEMORY_MAP w) + 2 →
       used w' j = if j =? i then false else used w j) ∧
    PHYS_MEMORY_MAP w' = PHYS_MEMORY_MAP w ∧
    (∀ a, i * FRAME_SIZE ≤ a < (i + 1) * FRAME_SIZE → ld8 (pmm_mem w') a = 0).
Proof.
  intros Hok Hi Hin. pose proof (ok_entries w Hok). unfold FreeFrame.
  unfold FRAME_SIZE at 3. rewrite Z.div_mul, i32_small by (unfold FRAME_SIZE; lia).
  set (w0 := set_pmm_mem w _). rewrite SetPageFree_mark by lia.
  assert (Hout : ∀ j, 0 ≤ j < num_entries (PHYS_MEMORY_MAP w) + 2 →
    ¬ (i * FRAME_SIZE ≤ bitmap (PHYS_MEMORY_MAP w) + j / 8 < (i + 1) * FRAME_SIZE)).
  { intros j Hj. pose proof (bitmap_byte w j Hok Hj). unfold in_bitmap, FRAME_SIZE in *. lia. }
  assert (Hu : ∀ j, 0 ≤ j < num_entries (PHYS_MEMORY_MAP w) + 2 →
    used (mark w0 i false) j = if j =? i then false else used w j).
  { intros j Hj. rewrite used_mark by lia. destruct (j =? i); [done|].
    apply used_ext; [done|]. simpl. apply memset_outside. specialize (Hout j Hj).
    unfold FRAME_SIZE in *. lia. }
  exists (mark w0 i false). split_and!; [done| |done|done|].
  - split; simpl; try apply Hok.
    + rewrite Hu by lia. destruct (Z.eqb_spec 0 i); [lia|]. apply (ok_zero w Hok).
    + rewrite Hu by lia. destruct (Z.eqb_spec (num_entries (PHYS_MEMORY_MAP w) + 1) i); [lia|].
      apply (ok_top w Hok).
    + intros j Hj Hjb. rewrite Hu by done. destruct (Z.eqb_spec j i) as [->|]; [done|].
      by apply (ok_self w Hok).
  - intros a Ha. rewrite (mark_outside w0 i false).
    + apply memset_inside. unfold FRAME_SIZE in *. lia.
    + specialize (Hout i ltac:(lia)). simpl. lia.
Qed.

(** A frame handed out by the search is not part of the bitmap. *)
Lemma free_frame_not_bitmap w i :
  pmm_ok w → 0 ≤ i < num_entries (PHYS_MEMORY_MAP w) + 2 → used w i = false → ¬ in_bitmap w i.
Proof. intros Hok Hi Hu Hin. by rewrite (ok_self w Hok i Hi Hin) in Hu. Qed.

(** Freeing the frame that was just allocated restores the bitmap and the
    count of free frames and keeps the invariant; the frame is zeroed again. *)
Theorem FreeFrame_roundtrip w frame w1 :
  pmm_ok w → AllocFirstFrame w = Done (frame, w1) → frame ≠ 0 →
  ∃ w2, FreeFrame w1 frame = Done w2 ∧ pmm_ok w2 ∧
    (∀ j, 0 ≤ j < num_entries (PHYS_MEMORY_MAP w) + 2 → used w2 j = used w j) ∧
    count_free w2 = count_free w ∧
    (∀ a, frame ≤ a < frame + FRAME_SIZE → ld8 (pmm_mem w2) a = 0).
Proof.
  intros Hok Halloc Hnz. rewrite AllocFirstFrame_closed in Halloc by done.
  destruct (first_free w (candidates w)) as [i|] eqn:Hff.
  2: { by case_match; simplify_eq. }
  destruct (first_free_range w i Hok Hff) as [Hi Hu]. injection Halloc as <- <-.
  assert (Hok1 : pmm_ok (take_frame w i)) by (apply pmm_ok_take_frame; [done|lia|done]).
  destruct (FreeFrame_spec (take_frame w i) i Hok1) as (w2 & Hrun & Hok2 & Hu2 & Hmap & Hz).
  { done. }
  { apply (free_frame_not_bitmap w); (done || lia). }
  change (num_entries (PHYS_MEMORY_MAP (take_frame w i)))
    with (num_entries (PHYS_MEMORY_MAP w)) in Hu2.
  assert (Hall : ∀ j, 0 ≤ j < num_entries (PHYS_MEMORY_MAP w) + 2 → used w2 j = used w j).
  { intros j Hj. rewrite Hu2, used_take_frame by (done || lia).
    by destruct (Z.eqb_spec j i) as [->|]. }
  exists w2. split_and!; [done..| |].
  - unfold count_free. rewrite Hmap. simpl.
    rewrite (filter_ext_in (is_free w2) (is_free w)); [done|].
    intros j [? ?]%elem_of_seqZ. unfold is_free. by rewrite Hall by lia.
  - intros a Ha. apply Hz. unfold FRAME_SIZE in *. lia.
Qed.

Lemma num_free_loop_spec w fuel i acc :
  pmm_ok w → 0 ≤ i ≤ num_entries (PHYS_MEMORY_MAP w) →
  num_entries (PHYS_MEMORY_MAP w) - i < Z.of_nat fuel →
  num_free_loop fuel w i acc =
    Done (acc + Z.of_nat (length (filter (is_free w) (seqZ i (num_entries (PHYS_MEMORY_MAP w) - i))))).
Proof.
  intros Hok. pose proof (ok_entries w Hok). set (n := num_entries _) in *.
  revert i acc. induction fuel as [|fuel IH]; intros i acc Hi Hf; [lia|]. cbn [num_free_loop].
  fold n. rewrite u64_small by lia. destruct (Z.ltb_spec i n).
  - rewrite PageIsUsed_used by lia. do_bind. do_check. rewrite IH by lia.
    rewrite (seqZ_cons i) by lia. rewrite filter_cons. replace (Z.pred (n - i)) with (n - (i + 1)) by lia.
    replace (Z.succ i) with (i + 1) by lia.
    change (is_free w i) with (negb (used w i)). f_equal. destruct (used w i); simpl; lia.
  - replace (n - i) with 0 by lia. simpl. f_equal. lia.
Qed.

(** [NumFreeFrames] terminates and returns the number of clear bits below
    [num_entries]. *)
Theorem NumFreeFrames_count w : pmm_ok w → NumFreeFrames w = Done (count_free w).
Proof.
  intros Hok. pose proof (ok_entries w Hok). unfold NumFreeFrames, search_fuel.
  rewrite num_free_loop_spec by (done || lia). unfold count_free.
  by rewrite Z.sub_0_r, Z.add_0_l.
Qed.

(** ** Contiguous allocation *)

Lemma scan_chunk_spec w fuel head tail np :
  0 ≤ head ≤ tail → tail ≤ head + np + 1 → head + np + 1 < 2 ^ 31 - 1 → 0 ≤ np →
  head + np + 1 - tail < Z.of_nat fuel →
  scan_chunk fuel w head tail np =
    Done (match List.find (used w) (seqZ tail (head + np + 1 - tail)) with
          | Some t => (false, t)
          | None => (true, head + np + 1)
          end).
Proof.
  revert tail. induction fuel as [|fuel IH]; intros tail Ht Hle Hb Hnp Hf; [lia|].
  cbn [scan_chunk]. rewrite u64_small by lia. destruct (Z.leb_spec (tail - head) np).
  - rewrite PageIsUsed_used by lia. do_bind. rewrite (seqZ_cons tail) by lia. cbn [List.find].
    destruct (used w tail); [done|]. do_check. rewrite IH by lia.
    by replace (head + np + 1 - (tail + 1)) with (Z.pred (head + np + 1 - tail)) by lia.
  - replace tail with (head + np + 1) by lia. by rewrite Z.sub_diag.
Qed.

Lemma mark_range_spec w fuel i tail :
  0 ≤ i → i ≤ tail + 1 → tail < 2 ^ 31 - 1 → tail + 1 - i < Z.of_nat fuel →
  ∃ w', mark_range fuel w i tail = Done w' ∧ PHYS_MEMORY_MAP w' = PHYS_MEMORY_MAP w ∧
    (∀ j, 0 ≤ j → used w' j = ((i <=? j) && (j <=? tail)) || used w j) ∧
    same_outside (bitmap (PHYS_MEMORY_MAP w) + i / 8) (bitmap (PHYS_MEMORY_MAP w) + tail / 8 + 1)
      (pmm_mem w) (pmm_mem w').
Proof.
  revert w i. induction fuel as [|fuel IH]; intros w i Hi Hle Hb Hf; [lia|]. cbn [mark_range].
  destruct (Z.leb_spec i tail).
  - rewrite SetPageUsed_mark by lia. do_bind. do_check.
    destruct (IH (mark w i true) (i + 1)) as (w' & Hrun & Hmap & Hu & Ho); [lia..|].
    exists w'. split_and!; [done|done| |].
    + intros j Hj. rewrite Hu, used_mark by lia.
      destruct (Z.leb_spec (i + 1) j), (Z.leb_spec i j), (Z.leb_spec j tail), (Z.eqb_spec j i);
        simpl; (done || lia).
    + intros a Ha. rewrite Ho by (simpl; dlia). apply mark_outside. dlia.
  - exists w. split_and!; [done|done| |apply same_outside_refl].
    intros j Hj. destruct (Z.leb_spec i j), (Z.leb_spec j tail); simpl; (done || lia).
Qed.

(** Two maps that agree on everything but [last_used]. *)
Definition same_map_but_last (p q : MemMap) : Prop :=
  num_entries p = num_entries q ∧ bitmap p = bitmap q ∧ bitmap_size p = bitmap_size q.

(** The number of frames that hold [size] bytes. *)
Definition pages_for (size : Z) : Z :=
  size / FRAME_SIZE + (if 0 <? size mod FRAME_SIZE then 1 else 0).

(** [w'] is the result of handing out [np] frames from frame [h] on: the bits
    [h] to [h + np + 1] are set, which is two more than were asked for. *)
Record contiguous_taken (w : pmm) (h np : Z) (w' : pmm) : Prop := {
  ct_free : ∀ j, h ≤ j ≤ h + np → used w j = false;
  ct_used : ∀ j, 0 ≤ j < num_entries (PHYS_MEMORY_MAP w) + 2 →
    used w' j = ((h <=? j) && (j <=? h + np + 1)) || used w j;
  ct_zero : ∀ a, h * FRAME_SIZE ≤ a < (h + np) * FRAME_SIZE → ld8 (pmm_mem w') a = 0;
  ct_other : ∀ a, ¬ (h * FRAME_SIZE ≤ a < (h + np) * FRAME_SIZE) →
    ¬ (bitmap (PHYS_MEMORY_MAP w) ≤ a <
         bitmap (PHYS_MEMORY_MAP w) + bitmap_size (PHYS_MEMORY_MAP w)) →
    ld8 (pmm_mem w') a = ld8 (pmm_mem w) a;
  ct_map : same_map_but_last (PHYS_MEMORY_MAP w') (PHYS_MEMORY_MAP w);
  ct_last : last_used (PHYS_MEMORY_MAP w') = h + np;
  ct_ok : pmm_ok w';
}.

(** One successful iteration of the outer loop. *)
Lemma contiguous_step f w h np :
  pmm_ok w → 0 ≤ h ≤ num_entries (PHYS_MEMORY_MAP w) + 1 → h ≠ last_used (PHYS_MEMORY_MAP w) →
  0 < np < 2 ^ 29 →
  List.find (used w) (seqZ h (np + 1)) = None →
  ∃ w', alloc_contiguous_loop (S f) w h np = Done (h * FRAME_SIZE, w') ∧ contiguous_taken w h np w'.
Proof.
  intros Hok Hh Hne Hnp Hfind. pose proof (ok_entries w Hok). cbn [alloc_contiguous_loop].
  destruct (Z.eqb_spec h (last_used (PHYS_MEMORY_MAP w))); [done|].
  assert (Hfree : ∀ j, h ≤ j ≤ h + np → used w j = false).
  { intros j Hj. eapply (find_none _ _ Hfind), list_elem_of_In, elem_of_seqZ. lia. }
  assert (Hhn : h + np ≤ num_entries (PHYS_MEMORY_MAP w)).
  { destruct (decide (h + np ≤ num_entries (PHYS_MEMORY_MAP w))); [done|].
    pose proof (ok_top w Hok) as Ht. rewrite Hfree in Ht; [done|lia]. }
  rewrite i32_small, scan_chunk_spec by lia.
  replace (h + np + 1 - h) with (np + 1) by lia. rewrite Hfind. do_bind.
  destruct (mark_range_spec w (Z.to_nat (h + np + 1 - h) + 2) h (h + np + 1))
    as (w1 & -> & Hmap & Hu & Ho); [lia..|]. do_bind.
  rewrite (u64_small (h * FRAME_SIZE)), (u64_small (FRAME_SIZE * np)), (u64_small (h + np))
    by (unfold FRAME_SIZE; lia).
  eexists. split; [done|].
  assert (Hout : ∀ j, 0 ≤ j < num_entries (PHYS_MEMORY_MAP w) + 2 →
    ¬ (h * FRAME_SIZE ≤ bitmap (PHYS_MEMORY_MAP w) + j / 8 < (h + np) * FRAME_SIZE)).
  { intros j Hj Hin. pose proof (bitmap_byte w j Hok Hj).
    set (a := bitmap _ + j / 8) in *. unfold FRAME_SIZE in Hin.
    assert (h ≤ a / 4096 < h + np) as Ha.
    { split; [apply Z.div_le_lower_bound; lia|apply Z.div_lt_upper_bound; lia]. }
    apply (free_not_in_bitmap w (a / 4096) a Hok); [lia|apply Hfree; lia|lia|].
    unfold FRAME_SIZE. pose proof (Z.div_mod a 4096). pose proof (Z.mod_pos_bound a 4096). lia. }
  set (w2 := set_last_used _ _).
  assert (Hu2 : ∀ j, 0 ≤ j < num_entries (PHYS_MEMORY_MAP w) + 2 →
    used w2 j = ((h <=? j) && (j <=? h + np + 1)) || used w j).
  { intros j Hj. rewrite <-Hu by lia. apply used_ext; [done|]. simpl. rewrite Hmap.
    apply memset_outside. specialize (Hout j Hj). unfold FRAME_SIZE in *. lia. }
  split; [done|done| | | |done|].
  - intros a Ha. simpl. apply memset_inside. unfold FRAME_SIZE in *. lia.
  - intros a Ha Hb. simpl. rewrite memset_outside by (unfold FRAME_SIZE in *; lia). apply Ho.
    pose proof (bitmap_byte w h Hok ltac:(lia)). pose proof (bitmap_byte w (h + np + 1) Hok ltac:(lia)). lia.
  - simpl. by rewrite Hmap.
  - pose proof (ok_entries w Hok). split; simpl; rewrite ?Hmap; try apply Hok.
    + lia.
    + rewrite Hu2, (ok_zero w Hok) by lia. apply orb_true_r.
    + rewrite Hu2, (ok_top w Hok) by lia. apply orb_true_r.
    + unfold in_bitmap. simpl. rewrite Hmap. intros j Hj Hin. rewrite Hu2 by done.
      rewrite (ok_self w Hok j Hj Hin). apply orb_true_r.
Qed.

(** One failing iteration: the search resumes above the used page it met. *)
Lemma contiguous_skip f w h np t :
  pmm_ok w → 0 ≤ h ≤ num_entries (PHYS_MEMORY_MAP w) + 1 → h ≠ last_used (PHYS_MEMORY_MAP w) →
  0 < np < 2 ^ 29 →
  List.find (used w) (seqZ h (np + 1)) = Some t →
  h ≤ t ≤ num_entries (PHYS_MEMORY_MAP w) + 1 ∧
  alloc_contiguous_loop (S f) w h np =
    alloc_contiguous_loop f w ((t + 1) mod num_entries (PHYS_MEMORY_MAP w)) np.
Proof.
  intros Hok Hh Hne Hnp Hfind. pose proof (ok_entries w Hok).
  pose proof (find_some _ _ Hfind) as [Hin _]. apply list_elem_of_In, elem_of_seqZ in Hin.
  assert (Ht : h ≤ t ≤ num_entries (PHYS_MEMORY_MAP w) + 1).
  { split; [lia|]. destruct (decide (t ≤ num_entries (PHYS_MEMORY_MAP w) + 1)); [done|exfalso].
    assert (seqZ h (np + 1) = seqZ h (num_entries (PHYS_MEMORY_MAP w) + 1 - h) ++
      seqZ (num_entries (PHYS_MEMORY_MAP w) + 1) (np - (num_entries (PHYS_MEMORY_MAP w) - h))) as Hs.
    { replace (np + 1) with ((num_entries (PHYS_MEMORY_MAP w) + 1 - h) +
        (np - (num_entries (PHYS_MEMORY_MAP w) - h))) by lia.
      rewrite seqZ_app by lia. by replace (h + (num_entries (PHYS_MEMORY_MAP w) + 1 - h))
        with (num_entries (PHYS_MEMORY_MAP w) + 1) by lia. }
    rewrite Hs, (seqZ_cons (num_entries (PHYS_MEMORY_MAP w) + 1)), find_app in Hfind by lia.
    destruct (List.find (used w) (seqZ h _)) as [t'|] eqn:Ht'.
    - injection Hfind as ->. apply find_some in Ht' as [Hin' _].
      apply list_elem_of_In, elem_of_seqZ in Hin'. lia.
    - cbn [List.find] in Hfind. rewrite (ok_top w Hok) in Hfind. injection Hfind as <-. lia. }
  split; [done|]. cbn [alloc_contiguous_loop].
  destruct (Z.eqb_spec h (last_used (PHYS_MEMORY_MAP w))); [done|].
  rewrite i32_small, scan_chunk_spec by lia.
  replace (h + np + 1 - h) with (np + 1) by lia. rewrite Hfind. do_bind. do_check.
  by rewrite (u64_small t), (u64_small (t + 1)) by lia.
Qed.

Lemma AllocContiguous_start w size :
  pmm_ok w → AllocContiguous w size =
    alloc_contiguous_loop (search_fuel w) w (last_used (PHYS_MEMORY_MAP w) + 1) (pages_for size).
Proof.
  intros Hok. pose proof (ok_entries w Hok). pose proof (ok_last w Hok).
  unfold AllocContiguous. by rewrite u64_small by lia.
Qed.

Lemma alloc_contiguous_loop_sound f w h np frame w' :
  pmm_ok w → 0 ≤ h ≤ num_entries (PHYS_MEMORY_MAP w) + 1 →
  0 < np < 2 ^ 29 →
  alloc_contiguous_loop f w h np = Done (frame, w') →
  (frame = 0 ∧ w' = w) ∨ ∃ h', frame = h' * FRAME_SIZE ∧ contiguous_taken w h' np w'.
Proof.
  intros Hok Hh Hnp. pose proof (ok_entries w Hok). revert h Hh.
  induction f as [|f IH]; intros h Hh Hrun; [done|].
  destruct (decide (h = last_used (PHYS_MEMORY_MAP w))) as [->|Hne].
  { cbn [alloc_contiguous_loop] in Hrun. rewrite Z.eqb_refl in Hrun.
    injection Hrun as <- <-. by left. }
  destruct (List.find (used w) (seqZ h (np + 1))) as [t|] eqn:Hfind.
  - destruct (contiguous_skip f w h np t) as [Ht Heq]; [done..|]. rewrite Heq in Hrun.
    eapply IH; [|done]. pose proof (Z.mod_pos_bound (t + 1) (num_entries (PHYS_MEMORY_MAP w))). lia.
  - destruct (contiguous_step f w h np) as (w1 & Heq & Ht); [done..|].
    rewrite Heq in Hrun. injection Hrun as <- <-. eauto.
Qed.

(** Whatever [AllocContiguous] hands out was entirely free: the region is
    zeroed, the invariant holds afterwards, and no bit is cleared.  The bits it
    sets are those of the region and the two frames after it. *)
Theorem AllocContiguous_sound w size frame w' :
  pmm_ok w → 0 < size < 2 ^ 40 →
  AllocContiguous w size = Done (frame, w') → frame ≠ 0 →
  ∃ h, frame = h * FRAME_SIZE ∧ contiguous_taken w h (pages_for size) w' ∧
    (∀ a, frame ≤ a < frame + size → ld8 (pmm_mem w') a = 0).
Proof.
  intros Hok Hs Hrun Hnz. pose proof (ok_entries w Hok). pose proof (ok_last w Hok).
  assert (Hp : 0 < pages_for size < 2 ^ 29 ∧ size ≤ pages_for size * FRAME_SIZE).
  { unfold pages_for, FRAME_SIZE. destruct (Z.ltb_spec 0 (size mod 4096)); dlia. }
  rewrite AllocContiguous_start in Hrun by done.
  apply alloc_contiguous_loop_sound in Hrun as [[-> _]|(h & -> & Ht)]; [done| |done|lia..].
  exists h. split_and!; [done|done|]. intros a Ha. apply (ct_zero _ _ _ _ Ht). lia.
Qed.

(** A run of free frames: [np] of them from [h] on, and one more. *)
Definition is_run (w : pmm) (np h : Z) : bool := forallb (is_free w) (seqZ h (np + 1)).
(** The first run above [last_used]. *)
Definition first_run (w : pmm) (np : Z) : option Z :=
  let last := last_used (PHYS_MEMORY_MAP w) in
  List.find (is_run w np) (seqZ (last + 1) (num_entries (PHYS_MEMORY_MAP w) - last)).

Lemma is_run_true w np h : is_run w np h = true ↔ ∀ j, h ≤ j ≤ h + np → used w j = false.
Proof.
  unfold is_run. rewrite forallb_forall. split.
  - intros Hall j Hj. specialize (Hall j). unfold is_free in Hall. apply negb_true_iff, Hall.
    apply list_elem_of_In, elem_of_seqZ. lia.
  - intros Hall j [? ?]%list_elem_of_In%elem_of_seqZ. unfold is_free. by rewrite Hall by lia.
Qed.

Lemma is_run_find w np h : is_run w np h = true ↔ List.find (used w) (seqZ h (np + 1)) = None.
Proof.
  rewrite is_run_true. split.
  - intros Hall. destruct (List.find _ _) as [t|] eqn:Hf; [|done].
    apply find_some in Hf as [Hin Hu]. apply list_elem_of_In, elem_of_seqZ in Hin.
    by rewrite Hall in Hu by lia.
  - intros Hf j Hj. eapply (find_none _ _ Hf), list_elem_of_In, elem_of_seqZ. lia.
Qed.

(** Nothing up to [t] is what is looked for. *)
Lemma find_seqZ_skip (P : Z → bool) h m t :
  h ≤ t < h + m → (∀ x, h ≤ x ≤ t → P x = false) →
  List.find P (seqZ h m) = List.find P (seqZ (t + 1) (h + m - (t + 1))).
Proof.
  intros Ht HP. replace m with ((t + 1 - h) + (h + m - (t + 1))) at 1 by lia.
  rewrite seqZ_app by lia. rewrite find_app. replace (h + (t + 1 - h)) with (t + 1) by lia.
  destruct (List.find P (seqZ h (t + 1 - h))) as [x|] eqn:Hf; [|done].
  apply find_some in Hf as [Hin Hx]. apply list_elem_of_In, elem_of_seqZ in Hin.
  by rewrite HP in Hx by lia.
Qed.

(** The search meets every run above [last_used], since a failing chunk only
    skips heads whose own chunk has the used frame in it. *)
Lemma contiguous_loop_first f w np a : ∀ h,
  pmm_ok w → 0 < np < 2 ^ 29 →
  last_used (PHYS_MEMORY_MAP w) < h → a - h < Z.of_nat f →
  List.find (is_run w np) (seqZ h (num_entries (PHYS_MEMORY_MAP w) + 1 - h)) = Some a →
  ∃ w', alloc_contiguous_loop f w h np = Done (a * FRAME_SIZE, w') ∧ contiguous_taken w a np w'.
Proof.
  induction f as [|f IH]; intros h Hok Hnp Hh Hf Hfind; pose proof (ok_entries w Hok);
    pose proof (ok_last w Hok); set (n := num_entries (PHYS_MEMORY_MAP w)) in *;
    pose proof (find_some _ _ Hfind) as [Hin Ha]; apply list_elem_of_In, elem_of_seqZ in Hin; [lia|].
  assert (Han : a + np ≤ n).
  { destruct (decide (a + np ≤ n)); [done|]. pose proof (ok_top w Hok) as Ht. fold n in Ht.
    rewrite (proj1 (is_run_true w np a) Ha) in Ht by lia. done. }
  destruct (List.find (used w) (seqZ h (np + 1))) as [t|] eqn:Hchunk.
  - destruct (contiguous_skip f w h np t Hok ltac:(fold n; lia) ltac:(lia) Hnp Hchunk) as [_ ->].
    pose proof (find_some _ _ Hchunk) as [Ht Hut]. apply list_elem_of_In, elem_of_seqZ in Ht.
    assert (Hno : ∀ x, h ≤ x ≤ t → is_run w np x = false).
    { intros x Hx. destruct (is_run w np x) eqn:Hr; [|done].
      by rewrite (proj1 (is_run_true w np x) Hr t) in Hut by lia. }
    assert (Hta : t < a).
    { destruct (decide (t < a)); [done|]. by rewrite Hno in Ha by lia. }
    rewrite (find_seqZ_skip _ _ _ t) in Hfind by (done || lia). fold n.
    rewrite Z.mod_small by lia. apply IH; [done|done|lia|lia|].
    fold n. by replace (n + 1 - (t + 1)) with (h + (n + 1 - h) - (t + 1)) by lia.
  - pose proof (proj2 (is_run_find w np h) Hchunk) as Hr.
    rewrite seqZ_cons in Hfind by lia. cbn [List.find] in Hfind. rewrite Hr in Hfind.
    injection Hfind as ->. apply contiguous_step; (done || (fold n; lia)).
Qed.

Lemma first_run_range w np h :
  pmm_ok w → 0 ≤ np → first_run w np = Some h →
  last_used (PHYS_MEMORY_MAP w) < h ∧ h + np ≤ num_entries (PHYS_MEMORY_MAP w).
Proof.
  intros Hok Hnp Hf. pose proof (find_some _ _ Hf) as [Hin Hr].
  apply list_elem_of_In, elem_of_seqZ in Hin. split; [lia|].
  destruct (decide (h + np ≤ num_entries (PHYS_MEMORY_MAP w))); [done|].
  pose proof (ok_top w Hok) as Ht. by rewrite (proj1 (is_run_true w np h) Hr) in Ht by lia.
Qed.

Lemma AllocContiguous_finds w size h :
  pmm_ok w → 0 < size < 2 ^ 40 →
  first_run w (pages_for size) = Some h →
  ∃ w', AllocContiguous w size = Done (h * FRAME_SIZE, w') ∧
    contiguous_taken w h (pages_for size) w'.
Proof.
  intros Hok Hs Hf. pose proof (ok_last w Hok). pose proof (ok_entries w Hok).
  assert (Hp : 0 < pages_for size < 2 ^ 29).
  { unfold pages_for, FRAME_SIZE. destruct (Z.ltb_spec 0 (size mod 4096)); dlia. }
  unfold first_run in Hf. pose proof (find_some _ _ Hf) as [Hin _].
  apply list_elem_of_In, elem_of_seqZ in Hin.
  rewrite AllocContiguous_start by done. apply contiguous_loop_first; [done|done|lia|unfold search_fuel; lia|].
  by replace (num_entries (PHYS_MEMORY_MAP w) + 1 - (last_used (PHYS_MEMORY_MAP w) + 1))
    with (num_entries (PHYS_MEMORY_MAP w) - last_used (PHYS_MEMORY_MAP w)) by lia.
Qed.

(** First fit.  When a run of free frames, one more than [size] needs,
    lies above [last_used], [AllocContiguous] terminates and hands out the
    first such run, zeroed; [last_used] moves to the frame after the region,
    and memory elsewhere but in the bitmap is as it was. *)
Theorem AllocContiguous_first_fit w size h :
  pmm_ok w → 0 < size < 2 ^ 40 →
  first_run w (pages_for size) = Some h →
  ∃ w', AllocContiguous w size = Done (h * FRAME_SIZE, w') ∧
    contiguous_taken w h (pages_for size) w'.
Proof. apply AllocContiguous_finds. Qed.

(** In particular, when the frames right above [last_used] are free, the
    region that starts there. *)
Theorem AllocContiguous_next_fit w size :
  pmm_ok w → 0 < size < 2 ^ 40 →
  (∀ j, last_used (PHYS_MEMORY_MAP w) < j ≤ last_used (PHYS_MEMORY_MAP w) + 1 + pages_for size →
     used w j = false) →
  ∃ w', AllocContiguous w size = Done ((last_used (PHYS_MEMORY_MAP w) + 1) * FRAME_SIZE, w') ∧
    contiguous_taken w (last_used (PHYS_MEMORY_MAP w) + 1) (pages_for size) w'.
Proof.
  intros Hok Hs Hfree. pose proof (ok_last w Hok). pose proof (ok_entries w Hok).
  assert (Hp : 0 < pages_for size < 2 ^ 29).
  { unfold pages_for, FRAME_SIZE. destruct (Z.ltb_spec 0 (size mod 4096)); dlia. }
  rewrite AllocContiguous_start by done. unfold search_fuel.
  replace (Z.to_nat (num_entries (PHYS_MEMORY_MAP w) + 2))
    with (S (Z.to_nat (num_entries (PHYS_MEMORY_MAP w) + 1))) by lia.
  apply contiguous_step; [done|lia|lia|lia|].
  destruct (List.find _ _) as [t|] eqn:Hfind; [|done]. apply find_some in Hfind as [Hin Hu].
  apply list_elem_of_In, elem_of_seqZ in Hin. rewrite Hfree in Hu; [done|lia].
Qed.

(** [AllocContiguous] can fail to terminate.  A failing chunk moves [head]
    to the used page it met and then one further, so [head] steps over a used
    [last_used] without being equal to it; when no chunk is large enough the
    loop then never ends. *)
Theorem AllocContiguous_diverges w np :
  pmm_ok w → 0 < np < 2 ^ 29 →
  3 ≤ last_used (PHYS_MEMORY_MAP w) < num_entries (PHYS_MEMORY_MAP w) →
  used w (last_used (PHYS_MEMORY_MAP w) - 1) = false →
  (∀ h, 0 ≤ h ≤ num_entries (PHYS_MEMORY_MAP w) → ∃ j, h ≤ j ≤ h + np ∧ used w j = true) →
  ∀ fuel, alloc_contiguous_loop fuel w (last_used (PHYS_MEMORY_MAP w) + 1) np = OutOfFuel.
Proof.
  intros Hok Hnp Hlast Hprev Hall. pose proof (ok_entries w Hok). set (n := num_entries _) in *.
  set (last := last_used _) in *.
  assert (Hloop : ∀ fuel h, 0 ≤ h ≤ n → h ≠ last → alloc_contiguous_loop fuel w h np = OutOfFuel).
  { intros fuel. induction fuel as [|fuel IH]; intros h Hh Hne; [done|].
    destruct (List.find (used w) (seqZ h (np + 1))) as [t|] eqn:Hfind.
    2: { destruct (Hall h Hh) as (j & Hj & Hu).
         rewrite (find_none _ _ Hfind) in Hu; [done|apply list_elem_of_In, elem_of_seqZ; lia]. }
    destruct (contiguous_skip fuel w h np t) as [Ht ->]; [done|fold n; lia|done|done|done|].
    fold n in Ht. pose proof (find_some _ _ Hfind) as [_ Hut].
    assert (t ≠ last - 1) by (intros ->; congruence). fold n.
    apply IH; [pose proof (Z.mod_pos_bound (t + 1) n); lia|].
    destruct (decide (t + 1 < n)); [rewrite Z.mod_small by lia; lia|].
    rewrite (mod_wrap n (t + 1 - n)) by lia. lia. }
  intros fuel. apply Hloop; lia.
Qed.

(** ** Initialization *)

(** Frame [j] belongs to a usable entry of the list other than the one that
    holds the bitmap; [i] is the index of the first entry of the list. *)
Fixpoint entry_frees (l : list stivale2_mmap_entry) (i bmp_ind j : Z) : bool :=
  match l with
  | [] => false
  | e :: l =>
      (is_usable e && negb (i =? bmp_ind) &&
       (mm_base e / FRAME_SIZE <=? j) && (j <? (mm_base e + mm_length e) / FRAME_SIZE))
      || entry_frees l (i + 1) bmp_ind j
  end.

(** What the boot protocol promises of the memory map: entries in ascending
    order without overlap; usable ones page aligned, above the first page. *)
Record memmap_ok (memmap : list stivale2_mmap_entry) : Prop := {
  mo_sorted : StronglySorted (λ a b, mm_base a + mm_length a ≤ mm_base b) memmap;
  mo_length : ∀ e, e ∈ memmap → 0 ≤ mm_length e;
  mo_usable : ∀ e, e ∈ memmap → is_usable e = true →
    FRAME_SIZE ≤ mm_base e ∧ 0 < mm_length e ∧ mm_base e mod FRAME_SIZE = 0 ∧
    mm_length e mod FRAME_SIZE = 0 ∧ mm_base e + mm_length e ≤ 2 ^ 42;
}.

Lemma uppermost_top memmap e :
  memmap_ok memmap → e ∈ memmap → is_usable e = true →
  mm_base e + mm_length e ≤ UppermostUsableAddr memmap + 1.
Proof.
  unfold UppermostUsableAddr. induction memmap as [|e' l IH] using rev_ind; intros Hok Hin Hus.
  { by apply elem_of_nil in Hin. }
  destruct Hok as [Hs Hlen Hu]. apply StronglySorted_app in Hs as (Hs1 & Hs2 & _).
  rewrite reverse_snoc. cbn [uppermost_loop].
  assert (Hl : memmap_ok l).
  { split; [done| |]; intros e0 He0; [apply Hlen|apply Hu]; apply elem_of_app; by left. }
  assert (He' : e' ∈ l ++ [e']) by (apply elem_of_app; right; by apply list_elem_of_singleton).
  apply elem_of_app in Hin as [Hin|Hin%list_elem_of_singleton].
  - destruct (is_usable e') eqn:Hus'; [|by apply IH].
    destruct (Hu e' He' Hus') as (? & ? & _ & _ & ?).
    assert (mm_base e + mm_length e ≤ mm_base e') by (apply Hs1; [done|left]).
    rewrite u64_small by (unfold FRAME_SIZE in *; lia). lia.
  - subst e. rewrite Hus. destruct (Hu e' He' Hus) as (? & ? & _ & _ & ?).
    rewrite u64_small by (unfold FRAME_SIZE in *; lia). lia.
Qed.

Lemma find_entry_loop_spec l minimum i :
  find_entry_loop l minimum i ≠ -1 → 0 ≤ i →
  ∃ k e, find_entry_loop l minimum i = i + Z.of_nat k ∧ l !! k = Some e ∧
    is_usable e = true ∧ minimum ≤ mm_length e.
Proof.
  revert i. induction l as [|e l IH]; intros i; simpl; [done|].
  destruct (Z.leb_spec minimum (mm_length e)), (is_usable e) eqn:Hus; simpl; intros Hne Hi;
    try (destruct (IH (i + 1)) as (k & e' & Heq & Hk & ? & ?); [done|lia|];
         exists (S k), e'; split_and!; [lia|done|done|done]).
  exists O, e. split_and!; [lia|done|done|done].
Qed.

Lemma free_pages_spec w fuel i ending :
  0 ≤ i → i ≤ ending → ending < 2 ^ 31 - 1 → ending - i < Z.of_nat fuel →
  ∃ w', free_pages fuel w i ending = Done w' ∧ PHYS_MEMORY_MAP w' = PHYS_MEMORY_MAP w ∧
    (∀ j, 0 ≤ j → used w' j = negb ((i <=? j) && (j <? ending)) && used w j) ∧
    same_outside (bitmap (PHYS_MEMORY_MAP w)) (bitmap (PHYS_MEMORY_MAP w) + ending / 8 + 1)
      (pmm_mem w) (pmm_mem w').
Proof.
  revert w i. induction fuel as [|fuel IH]; intros w i Hi Hle Hb Hf; [lia|]. cbn [free_pages].
  rewrite u64_small by lia. destruct (Z.ltb_spec i ending).
  - rewrite SetPageFree_mark by lia. do_bind. do_check.
    destruct (IH (mark w i false) (i + 1)) as (w' & Hrun & Hmap & Hu & Ho); [lia..|].
    exists w'. split_and!; [done|done| |].
    + intros j Hj. rewrite Hu, used_mark by lia.
      destruct (Z.leb_spec (i + 1) j), (Z.leb_spec i j), (Z.ltb_spec j ending), (Z.eqb_spec j i);
        simpl; (done || lia).
    + eapply same_outside_trans; [|exact Ho].
      eapply same_outside_mono; [apply mark_outside|dlia..].
  - exists w. split_and!; [done|done| |apply same_outside_refl]. intros j Hj.
    destruct (Z.leb_spec i j), (Z.ltb_spec j ending); simpl; (done || lia).
Qed.

(** From [w] to [w'] memory has changed at most in the bitmap. *)
Definition bitmap_only (w w' : pmm) : Prop :=
  same_outside (bitmap (PHYS_MEMORY_MAP w))
    (bitmap (PHYS_MEMORY_MAP w) + bitmap_size (PHYS_MEMORY_MAP w)) (pmm_mem w) (pmm_mem w').

(** The entry at [k] is freed, and does not begin at the first page. *)
Definition freed_above_first (l : list stivale2_mmap_entry) (k : nat) (e : stivale2_mmap_entry) : Prop :=
  l !! k = Some e ∧ is_usable e = true ∧ FRAME_SIZE < mm_base e.

Lemma init_entries_spec n l w i bmp_ind :
  (∀ e, e ∈ l → is_usable e = true →
     FRAME_SIZE ≤ mm_base e ∧ 0 < mm_length e ∧ mm_base e mod FRAME_SIZE = 0 ∧
     mm_length e mod FRAME_SIZE = 0 ∧ mm_base e + mm_length e ≤ (n + 1) * FRAME_SIZE) →
  StronglySorted (λ a b, mm_base a + mm_length a ≤ mm_base b) l →
  n < 2 ^ 30 → 0 ≤ last_used (PHYS_MEMORY_MAP w) ≤ n →
  n + 2 ≤ 8 * bitmap_size (PHYS_MEMORY_MAP w) →
  ∃ w', init_entries w l i bmp_ind = Done w' ∧
    same_map_but_last (PHYS_MEMORY_MAP w') (PHYS_MEMORY_MAP w) ∧
    0 ≤ last_used (PHYS_MEMORY_MAP w') ≤ n ∧
    (∀ j, 0 ≤ j → used w' j = negb (entry_frees l i bmp_ind j) && used w j) ∧
    bitmap_only w w' ∧
    (last_used (PHYS_MEMORY_MAP w) ≠ 0 → last_used (PHYS_MEMORY_MAP w') = last_used (PHYS_MEMORY_MAP w)) ∧
    (∀ k e, freed_above_first l k e → i + Z.of_nat k ≠ bmp_ind →
       last_used (PHYS_MEMORY_MAP w) = 0 ∨ last_used (PHYS_MEMORY_MAP w) < mm_base e / FRAME_SIZE →
       last_used (PHYS_MEMORY_MAP w') < mm_base e / FRAME_SIZE).
Proof.
  unfold bitmap_only. revert w i.
  induction l as [|e l IH]; intros w i Hl Hsort Hn Hlast Hc; cbn [init_entries entry_frees].
  { exists w. split_and!; first [done|lia|apply same_outside_refl|by intros k e [? _]]. }
  assert (Hl' : ∀ e', e' ∈ l → e' ∈ e :: l) by (intros ? ?; by right).
  pose proof (λ e' (He' : e' ∈ l), Hl e' (Hl' e' He')) as Hrest.
  apply StronglySorted_inv in Hsort as [Hsort Hhead]. rewrite Forall_forall in Hhead.
  destruct (is_usable e && negb (i =? bmp_ind)) eqn:Hsel; do_bind.
  2: { destruct (IH w (i + 1) Hrest Hsort Hn Hlast Hc) as (w' & ? & ? & ? & ? & ? & ? & Habove).
       exists w'. split_and!; try done; try lia. intros [|k] x (Hk & Hux & Hb) Hi.
       - injection Hk as ->. rewrite Hux in Hsel. apply negb_false_iff, Z.eqb_eq in Hsel. lia.
       - apply (Habove k); [done|lia]. }
  apply andb_true_iff in Hsel as [Hus _].
  destruct (Hl e ltac:(left) Hus) as (Hb & Hlen & Hbm & Hlm & Hend). unfold FRAME_SIZE in *.
  set (s := mm_base e / 4096) in *. set (k := mm_length e / 4096) in *.
  assert (Hsk : 1 ≤ s ∧ 0 < k ∧ s + k ≤ n + 1 ∧ (mm_base e + mm_length e) / 4096 = s + k) by dlia.
  destruct Hsk as (Hs & Hk & Hske & Hdiv).
  rewrite (u64_small (s + k)), i32_small by lia.
  destruct (free_pages_spec w (Z.to_nat (s + k - s) + 1) s (s + k)) as (w1 & -> & Hmap & Hu1 & Ho1); [lia..|].
  do_bind. rewrite Hmap, (u64_small (s - 1)) by lia.
  set (w2 := if last_used (PHYS_MEMORY_MAP w) =? 0 then set_last_used w1 (s - 1) else w1).
  assert (H2 : same_map_but_last (PHYS_MEMORY_MAP w2) (PHYS_MEMORY_MAP w) ∧
    0 ≤ last_used (PHYS_MEMORY_MAP w2) ≤ n ∧ (∀ j, used w2 j = used w1 j) ∧ pmm_mem w2 = pmm_mem w1).
  { unfold w2. case_match; simpl; rewrite ?Hmap; repeat split; (done || lia). }
  assert (Hl2 : last_used (PHYS_MEMORY_MAP w2) =
    if last_used (PHYS_MEMORY_MAP w) =? 0 then s - 1 else last_used (PHYS_MEMORY_MAP w)).
  { unfold w2. case_match; [done|]. by rewrite Hmap. }
  destruct H2 as (Hsame & Hlast2 & Hu2 & Hm2). pose proof Hsame as (_ & Hbmp & Hsz). clearbody w2.
  destruct (IH w2 (i + 1) Hrest Hsort Hn Hlast2 ltac:(lia)) as (w' & Hrun & Hsame' & Hlast' & Hu' & Ho' & Hkeep & Habove).
  exists w'. split_and!; [done| |lia|lia| | | |].
  - unfold same_map_but_last in *. destruct Hsame as (? & ? & ?), Hsame' as (? & ? & ?).
    split_and!; congruence.
  - intros j Hj. rewrite Hu', Hu2, Hu1, Hdiv by done. simpl.
    destruct (entry_frees l (i + 1) bmp_ind j), (s <=? j), (j <? s + k), (used w j); done.
  - rewrite Hbmp, Hsz, Hm2 in Ho'. eapply same_outside_trans; [|exact Ho'].
    eapply same_outside_mono; [exact Ho1|dlia..].
  - intros Hne. rewrite (proj2 (Z.eqb_neq _ 0) Hne) in Hl2. rewrite Hkeep; lia.
  - intros [|j] x (Hj & Hux & Hbx) Hij Hor; simpl in Hj.
    + injection Hj as <-. unfold FRAME_SIZE in Hbx. fold s in Hor |- *. assert (2 ≤ s) by dlia.
      destruct (Z.eqb_spec (last_used (PHYS_MEMORY_MAP w)) 0); rewrite Hkeep; lia.
    + apply (Habove j); [done|lia|]. pose proof (Hhead x (list_elem_of_lookup_2 _ _ _ Hj)).
      destruct (Z.eqb_spec (last_used (PHYS_MEMORY_MAP w)) 0); [right; dlia|lia].
Qed.

Lemma entry_frees_spec l i bmp_ind j :
  (∀ e, e ∈ l → is_usable e = true →
     mm_base e mod FRAME_SIZE = 0 ∧ mm_length e mod FRAME_SIZE = 0) →
  entry_frees l i bmp_ind j = true ↔
  ∃ k e, l !! k = Some e ∧ is_usable e = true ∧ i + Z.of_nat k ≠ bmp_ind ∧
    mm_base e ≤ j * FRAME_SIZE < mm_base e + mm_length e.
Proof.
  revert i. induction l as [|e l IH]; intros i Hal; cbn [entry_frees].
  { split; [done|]. by intros (k & e & ? & _). }
  rewrite orb_true_iff, IH by (intros e' He'; apply Hal; by right).
  rewrite !andb_true_iff, negb_true_iff, Z.eqb_neq, Z.leb_le, Z.ltb_lt.
  split.
  - intros [(((Hus & Hi) & Hb) & Hl)|(k & e' & ? & ? & ? & ?)].
    + exists O, e. split_and!; [done|done|lia|..];
        destruct (Hal e ltac:(left) Hus); unfold FRAME_SIZE in *; dlia.
    + exists (S k), e'. split_and!; [done|done|lia|lia|lia].
  - intros ([|k] & e' & Hk & Hus & Hi & Hb); simpl in Hk.
    + injection Hk as <-. left. destruct (Hal e ltac:(left) Hus).
      unfold FRAME_SIZE in *. split_and!; [done|lia|dlia|dlia].
    + right. exists k, e'. split_and!; [done|done|lia|lia|lia].
Qed.

(** The usable entry that holds the bitmap shares no frame with the others. *)
Lemma sorted_disjoint memmap k1 k2 e1 e2 :
  memmap_ok memmap → memmap !! k1 = Some e1 → memmap !! k2 = Some e2 → k1 ≠ k2 →
  mm_base e1 + mm_length e1 ≤ mm_base e2 ∨ mm_base e2 + mm_length e2 ≤ mm_base e1.
Proof.
  assert (Hlt : ∀ a b x y, memmap_ok memmap → memmap !! a = Some x → memmap !! b = Some y →
    (a < b)%nat → mm_base x + mm_length x ≤ mm_base y).
  { intros a b x y [Hs _ _] Ha Hb Hab. rewrite <-(take_drop b memmap) in Hs.
    apply StronglySorted_app in Hs as (Hs & _ & _). apply Hs.
    - apply list_elem_of_lookup. exists a. by rewrite lookup_take_lt.
    - apply list_elem_of_lookup. exists O. rewrite lookup_drop. by rewrite Nat.add_0_r. }
  intros Hok H1 H2 Hne. destruct (decide (k1 < k2)%nat).
  - left. by eapply (Hlt k1 k2).
  - right. eapply (Hlt k2 k1); [done..|lia].
Qed.

Lemma bitmap_bytes_cover top :
  let n := top / FRAME_SIZE in
  3 ≤ n < 2 ^ 30 → 8 ≤ n mod 32768 ≤ 32766 → n + 2 ≤ 8 * bitmap_bytes top.
Proof.
  cbv zeta. set (n := top / FRAME_SIZE). intros Hn Hm. unfold bitmap_bytes. fold n.
  rewrite (u32_small (n / 8)) by dlia. change FRAME_SIZE with (2 ^ 12).
  rewrite RoundToNearestMultiple_pow2 by dlia. change (2 ^ 12) with 4096.
  rewrite (Z.mod_small ((n / 8 + 4096 - 1) / 4096 * 4096)) by dlia.
  rewrite u32_small by dlia. dlia.
Qed.

Lemma used_all_ones map m base len j :
  bitmap map = base → 0 ≤ j < 8 * Z.of_nat len →
  used (Pmm map (memset m base (-1) len)) j = true.
Proof.
  intros <- Hj. unfold used. simpl. rewrite memset_inside by dlia.
  change ((-1) mod 2 ^ 8) with (Z.ones 8). pose proof (Z.mod_pos_bound j 8).
  apply Z.ones_spec_low. lia.
Qed.

Lemma InitPmm_establishes w memmap :
  memmap_ok memmap → last_used (PHYS_MEMORY_MAP w) = 0 →
  let top := UppermostUsableAddr memmap in let n := top / FRAME_SIZE in
  3 ≤ n < 2 ^ 30 → 8 ≤ n mod 32768 ≤ 32766 →
  FindMemEntryBySize memmap (bitmap_bytes top) ≠ -1 →
  ∃ w' b eb, InitPmm w memmap = Done (true, w') ∧ pmm_ok w' ∧
    num_entries (PHYS_MEMORY_MAP w') = n ∧
    FindMemEntryBySize memmap (bitmap_bytes top) = Z.of_nat b ∧
    memmap !! b = Some eb ∧ is_usable eb = true ∧ bitmap_size (PHYS_MEMORY_MAP w') ≤ mm_length eb ∧
    bitmap (PHYS_MEMORY_MAP w') = mm_base eb ∧
    same_outside (bitmap (PHYS_MEMORY_MAP w'))
      (bitmap (PHYS_MEMORY_MAP w') + bitmap_size (PHYS_MEMORY_MAP w')) (pmm_mem w) (pmm_mem w') ∧
    (∀ j, 0 ≤ j < n + 2 →
       used w' j = false ↔
       ∃ k e, memmap !! k = Some e ∧ is_usable e = true ∧ k ≠ b ∧
         mm_base e ≤ j * FRAME_SIZE < mm_base e + mm_length e) ∧
    (∀ k e, freed_above_first memmap k e → k ≠ b →
       last_used (PHYS_MEMORY_MAP w') < mm_base e / FRAME_SIZE).
Proof.
  intros Hok Hlast top n Hn Hm Hfind.
  pose proof (bitmap_bytes_cover top Hn Hm) as Hcover. fold n in Hcover.
  destruct (find_entry_loop_spec _ _ 0 Hfind ltac:(lia)) as (b & eb & Hb & Hkb & Hus & Hlen).
  rewrite Z.add_0_l in Hb.
  assert (Hin : ∀ k e, memmap !! k = Some e → e ∈ memmap).
  { intros k e Hk. apply list_elem_of_lookup. eauto. }
  destruct (mo_usable _ Hok eb (Hin _ _ Hkb) Hus) as (Hbase & _ & Hbmod & _ & _).
  unfold InitPmm. fold top. fold (FindMemEntryBySize memmap (bitmap_bytes top)) in Hb.
  rewrite Hb. destruct (Z.eqb_spec (Z.of_nat b) (-1)); [lia|]. rewrite Nat2Z.id, Hkb. fold n.
  set (w0 := Pmm _ _).
  destruct (init_entries_spec n memmap w0 0 (Z.of_nat b)) as (w' & -> & (Hne & Hbmp & Hsz) & Hl & Hu & Ho & _ & Habove).
  { intros e He Huse. destruct (mo_usable _ Hok e He Huse) as (? & ? & ? & ? & ?).
    split_and!; [done..|]. pose proof (uppermost_top memmap e Hok He Huse). fold top in H.
    unfold n, FRAME_SIZE. dlia. }
  { apply Hok. }
  { lia. }
  { simpl. lia. }
  { exact Hcover. }
  do_bind. exists w', b, eb. simpl in Hne, Hbmp, Hsz.
  assert (Hfr : ∀ j, 0 ≤ j < n + 2 → used w' j = negb (entry_frees memmap 0 (Z.of_nat b) j)).
  { intros j Hj. rewrite Hu by lia. unfold w0. rewrite used_all_ones by (done || lia). apply andb_true_r. }
  assert (Hchar : ∀ j, 0 ≤ j < n + 2 → (used w' j = false ↔
    ∃ k e, memmap !! k = Some e ∧ is_usable e = true ∧ k ≠ b ∧
      mm_base e ≤ j * FRAME_SIZE < mm_base e + mm_length e)).
  { intros j Hj. rewrite Hfr, negb_false_iff, entry_frees_spec by
      (done || (intros e He Huse; destruct (mo_usable _ Hok e He Huse) as (_ & _ & ? & ? & _); done)).
    split; intros (k & e & ? & ? & ? & ?); exists k, e; split_and!; (done || lia). }
  split_and!; [done| |done|done|done|done|lia|done| |done|].
  3: { intros k e Hk Hkb'. apply (Habove k e Hk); [lia|by left]. }
  2: { rewrite Hbmp, Hsz. eapply same_outside_trans; [|exact Ho]. intros a Ha. apply memset_outside.
       simpl in Ha. lia. }
  assert (Htrue : ∀ j, 0 ≤ j < n + 2 → (∀ k e, memmap !! k = Some e → is_usable e = true → k ≠ b →
    mm_base e ≤ j * FRAME_SIZE < mm_base e + mm_length e → False) → used w' j = true).
  { intros j Hj Hno. destruct (used w' j) eqn:Hj'; [done|exfalso].
    apply Hchar in Hj' as (k & e & ? & ? & ? & ?); [|done]. eauto. }
  split; rewrite ?Hne, ?Hsz, ?Hbmp; [lia|lia| |lia| | |].
  - unfold FRAME_SIZE in Hbase. lia.
  - apply Htrue; [lia|]. intros k e Hk Huse _ Hr.
    destruct (mo_usable _ Hok e (Hin _ _ Hk) Huse) as (? & _). unfold FRAME_SIZE in *. lia.
  - apply Htrue; [lia|]. intros k e Hk Huse _ Hr.
    pose proof (uppermost_top memmap e Hok (Hin _ _ Hk) Huse) as Ht. fold top in Ht.
    unfold n, FRAME_SIZE in *. dlia.
  - intros j Hj Hjb. apply Htrue; [done|]. intros k e Hk Huse Hkne Hr.
    unfold in_bitmap in Hjb. rewrite Hbmp, Hsz in Hjb.
    destruct (sorted_disjoint memmap k b e eb Hok Hk Hkb Hkne); unfold FRAME_SIZE in *; dlia.
Qed.

(** C8: on a memory map that keeps the promises of the boot protocol and has
    room for the bitmap, [InitPmm] succeeds, establishes the invariant of the
    manager, and leaves free exactly the frames of the usable entries other than
    the one it put the bitmap in, the first that is large enough; memory
    changes nowhere but in the bitmap, and the search for a frame begins below
    every entry that was freed, except one at the first page.  The bound on the number of frames
    modulo 32768 is what makes the rounded-down bitmap large enough. *)
Theorem InitPmm_spec w memmap :
  memmap_ok memmap → last_used (PHYS_MEMORY_MAP w) = 0 →
  let top := UppermostUsableAddr memmap in let n := top / FRAME_SIZE in
  3 ≤ n < 2 ^ 30 → 8 ≤ n mod 32768 ≤ 32766 →
  FindMemEntryBySize memmap (bitmap_bytes top) ≠ -1 →
  ∃ w' b eb, InitPmm w memmap = Done (true, w') ∧ pmm_ok w' ∧
    num_entries (PHYS_MEMORY_MAP w') = n ∧
    FindMemEntryBySize memmap (bitmap_bytes top) = Z.of_nat b ∧
    memmap !! b = Some eb ∧ is_usable eb = true ∧ bitmap_size (PHYS_MEMORY_MAP w') ≤ mm_length eb ∧
    bitmap (PHYS_MEMORY_MAP w') = mm_base eb ∧
    same_outside (bitmap (PHYS_MEMORY_MAP w'))
      (bitmap (PHYS_MEMORY_MAP w') + bitmap_size (PHYS_MEMORY_MAP w')) (pmm_mem w) (pmm_mem w') ∧
    (∀ j, 0 ≤ j < n + 2 →
       used w' j = false ↔
       ∃ k e, memmap !! k = Some e ∧ is_usable e = true ∧ k ≠ b ∧
         mm_base e ≤ j * FRAME_SIZE < mm_base e + mm_length e) ∧
    (∀ k e, freed_above_first memmap k e → k ≠ b →
       last_used (PHYS_MEMORY_MAP w') < mm_base e / FRAME_SIZE).
Proof. apply InitPmm_establishes. Qed.

(** For [32768 * q] up to [32768 * q + 7] frames the bitmap is one byte too
    short: it covers [32768 * q] frames, so the bit of the top frame lies in
    the byte after the memory [InitPmm] set aside. *)
Theorem bitmap_bytes_short top q r :
  top / FRAME_SIZE = 32768 * q + r → 1 ≤ q < 2 ^ 15 → 0 ≤ r < 8 →
  8 * bitmap_bytes top = 32768 * q ∧ bitmap_bytes top ≤ (top / FRAME_SIZE) / 8.
Proof.
  intros Hn Hq Hr. unfold bitmap_bytes. rewrite Hn.
  rewrite (u32_small ((32768 * q + r) / 8)) by dlia. change FRAME_SIZE with (2 ^ 12).
  rewrite RoundToNearestMultiple_pow2 by dlia. change (2 ^ 12) with 4096.
  replace ((32768 * q + r) / 8) with (4096 * q) by dlia.
  replace ((4096 * q + 4096 - 1) / 4096 * 4096) with (4096 * q) by dlia.
  rewrite (Z.mod_small (4096 * q)), u32_small by lia. lia.
Qed.

(** ** Deciding the invariant *)

Definition in_bitmapb (w : pmm) (i : Z) : bool :=
  (i * FRAME_SIZE <? bitmap (PHYS_MEMORY_MAP w) + bitmap_size (PHYS_MEMORY_MAP w)) &&
  (bitmap (PHYS_MEMORY_MAP w) <? (i + 1) * FRAME_SIZE).

Definition pmm_okb (w : pmm) : bool :=
  let p := PHYS_MEMORY_MAP w in
  (3 <=? num_entries p) && (num_entries p <? 2 ^ 30) && (0 <=? last_used p) &&
  (last_used p <=? num_entries p) && (0 <=? bitmap p) &&
  (num_entries p + 2 <=? 8 * bitmap_size p) && used w 0 && used w (num_entries p + 1) &&
  forallb (λ i, negb (in_bitmapb w i) || used w i) (seqZ 0 (num_entries p + 2)).

Lemma pmm_okb_sound w : pmm_okb w = true → pmm_ok w.
Proof.
  unfold pmm_okb. rewrite !andb_true_iff, forallb_seqZ, !Z.leb_le, !Z.ltb_lt.
  intros ((((((((? & ?) & ?) & ?) & ?) & ?) & ?) & ?) & Hs). split; try done.
  intros i Hi [Hlo Hhi]. specialize (Hs i Hi). unfold in_bitmapb in Hs.
  rewrite (proj2 (Z.ltb_lt _ _) Hlo), (proj2 (Z.ltb_lt _ _) Hhi) in Hs. done.
Qed.

(** ** Concrete states *)

(** Seven frames; the bitmap lies in frame 3 and holds [bits]. *)
Definition ex_pmm (last bits : Z) : pmm :=
  Pmm {| num_entries := 6; last_used := last; bitmap_size := 4096; bitmap := 12288;
         mem_size := 0; max_blocks := 0; uppermost_addr := 28671; used_blocks := 0 |}
      {[12288 := bits]}.

Example ex_pmm_ok : pmm_ok (ex_pmm 0 0x89).
Proof. apply pmm_okb_sound. vm_compute. done. Qed.

Lemma AllocFirstFrame_spec_witness :
  ∃ w', AllocFirstFrame (ex_pmm 0 0x89) = Done (4096, w') ∧ pmm_ok w'.
Proof.
  pose proof (AllocFirstFrame_spec (ex_pmm 0 0x89) ex_pmm_ok) as H.
  replace (first_free (ex_pmm 0 0x89) (candidates (ex_pmm 0 0x89))) with (Some 1) in H
    by (vm_compute; done).
  destruct H as (w' & H1 & H2 & _). exact (ex_intro _ w' (conj H1 H2)).
Defined.

Lemma AllocFirstFrame_total_witness :
  ∃ frame w', AllocFirstFrame (ex_pmm 0 0x89) = Done (frame, w') ∧ frame ≠ 0.
Proof.
  destruct (AllocFirstFrame_total (ex_pmm 0 0x89) ex_pmm_ok) as (f & w' & H1 & H2 & _).
  { vm_compute. done. }
  exact (ex_intro _ f (ex_intro _ w' (conj H1 H2))).
Defined.

Lemma AllocFirstFrame_skips_last_witness :
  AllocFirstFrame (ex_pmm 2 0xfb) = Done (0, ex_pmm 2 0xfb) ∧ used (ex_pmm 2 0xfb) 2 = false.
Proof.
  destruct (AllocFirstFrame_skips_last (ex_pmm 2 0xfb)) as [H _].
  - apply pmm_okb_sound. vm_compute. done.
  - done.
  - intros j Hj Hne. simpl in Hj, Hne.
    assert (j = 0 ∨ j = 1 ∨ j = 3 ∨ j = 4 ∨ j = 5 ∨ j = 6) as Hc by lia.
    destruct Hc as [->|[->|[->|[->|[->| ->]]]]]; done.
  - done.
  - split; [exact H|done].
Defined.

Lemma AllocFirstFrame_diverges_witness :
  alloc_first_loop 1000 (ex_pmm 6 0xff) (i32 (u64 7)) = OutOfFuel.
Proof.
  apply (AllocFirstFrame_diverges (ex_pmm 6 0xff)).
  - apply pmm_okb_sound. vm_compute. done.
  - done.
  - intros j Hj. simpl in Hj.
    assert (j = 0 ∨ j = 1 ∨ j = 2 ∨ j = 3 ∨ j = 4 ∨ j = 5 ∨ j = 6) as Hc by lia.
    destruct Hc as [->|[->|[->|[->|[->|[->| ->]]]]]]; done.
Defined.

Lemma alloc_frames_distinct_witness :
  ∃ frames w', alloc_frames 3 (ex_pmm 0 0x89) = Done (frames, w') ∧ NoDup frames.
Proof.
  destruct (alloc_frames_distinct 3 (ex_pmm 0 0x89) ex_pmm_ok) as (fs & w' & H & _ & _ & Hn & _).
  { vm_compute. done. }
  exact (ex_intro _ fs (ex_intro _ w' (conj H Hn))).
Defined.

Lemma FreeFrame_roundtrip_witness :
  ∃ w1 w2, AllocFirstFrame (ex_pmm 0 0x89) = Done (4096, w1) ∧ FreeFrame w1 4096 = Done w2 ∧
    count_free w2 = 4.
Proof.
  assert (∃ w1, AllocFirstFrame (ex_pmm 0 0x89) = Done (4096, w1)) as (w1 & Ha).
  { exists (take_frame (ex_pmm 0 0x89) 1). rewrite AllocFirstFrame_closed by apply ex_pmm_ok.
    by replace (first_free (ex_pmm 0 0x89) (candidates (ex_pmm 0 0x89))) with (Some 1)
      by (vm_compute; done). }
  destruct (FreeFrame_roundtrip (ex_pmm 0 0x89) 4096 w1 ex_pmm_ok Ha) as (w2 & H & _ & _ & Hc & _).
  { done. }
  exists w1, w2. split; [exact Ha|split; [exact H|]]. rewrite Hc. vm_compute. done.
Defined.

Lemma NumFreeFrames_count_witness : NumFreeFrames (ex_pmm 0 0x89) = Done 4.
Proof. rewrite (NumFreeFrames_count (ex_pmm 0 0x89) ex_pmm_ok). vm_compute. done. Defined.

Example ex_pmm3_ok : pmm_ok (ex_pmm 3 0x89).
Proof. apply pmm_okb_sound. vm_compute. done. Qed.

Lemma AllocContiguous_sound_witness :
  ∃ w', AllocContiguous (ex_pmm 3 0x89) 4096 = Done (16384, w') ∧
    ∀ a, 16384 ≤ a < 16384 + 4096 → ld8 (pmm_mem w') a = 0.
Proof.
  assert (∃ w', AllocContiguous (ex_pmm 3 0x89) 4096 = Done (16384, w')) as (w' & Hrun).
  { rewrite AllocContiguous_start by apply ex_pmm3_ok.
    destruct (contiguous_step 7 (ex_pmm 3 0x89) 4 1 ex_pmm3_ok) as (w' & H & _); [done..|].
    exists w'. exact H. }
  destruct (AllocContiguous_sound (ex_pmm 3 0x89) 4096 16384 w' ex_pmm3_ok) as (h & _ & _ & Hz);
    [done|exact Hrun|done|]. exists w'. split; [exact Hrun|exact Hz].
Defined.

(** Frames 1 and 3 are used: the region starts at frame 4. *)
Lemma AllocContiguous_first_fit_witness :
  ∃ w', AllocContiguous (ex_pmm 0 0x8b) 4096 = Done (16384, w') ∧ pmm_ok w'.
Proof.
  destruct (AllocContiguous_first_fit (ex_pmm 0 0x8b) 4096 4) as (w' & H & Hct).
  - apply pmm_okb_sound. vm_compute. done.
  - done.
  - vm_compute. done.
  - exists w'. split; [exact H|apply (ct_ok _ _ _ _ Hct)].
Defined.

Lemma AllocContiguous_next_fit_witness :
  ∃ w', AllocContiguous (ex_pmm 3 0x89) 4096 = Done (16384, w') ∧ pmm_ok w'.
Proof.
  destruct (AllocContiguous_next_fit (ex_pmm 3 0x89) 4096 ex_pmm3_ok) as (w' & H & Hct).
  - done.
  - intros j Hj. change (3 < j ≤ 3 + 1 + 1) in Hj. assert (j = 4 ∨ j = 5) as [-> | ->] by lia; done.
  - exists w'. split; [exact H|apply (ct_ok _ _ _ _ Hct)].
Defined.

Lemma AllocContiguous_diverges_witness :
  alloc_contiguous_loop 1000 (ex_pmm 3 0x89) 4 5 = OutOfFuel.
Proof.
  apply (AllocContiguous_diverges (ex_pmm 3 0x89) 5 ex_pmm3_ok); [done|done|done|].
  intros h Hh. simpl in Hh. destruct (decide (h ≤ 3)).
  - exists 3. split; [lia|done].
  - exists 7. split; [lia|done].
Defined.

Definition ex_memmap : list stivale2_mmap_entry :=
  [MmapEntry 4096 4096 1; MmapEntry 8192 40960 1; MmapEntry 49152 4096 2].

Example ex_memmap_ok : memmap_ok ex_memmap.
Proof.
  split.
  - repeat constructor; simpl; lia.
  - intros e He. repeat (apply elem_of_cons in He as [->|He]; [simpl; lia|]).
    by apply elem_of_nil in He.
  - intros e He. repeat (apply elem_of_cons in He as [->|He]; [done|]).
    by apply elem_of_nil in He.
Qed.

Lemma InitPmm_spec_witness :
  ∃ w', InitPmm (ex_pmm 0 0) ex_memmap = Done (true, w') ∧ pmm_ok w' ∧
    num_entries (PHYS_MEMORY_MAP w') = 11.
Proof.
  destruct (InitPmm_spec (ex_pmm 0 0) ex_memmap ex_memmap_ok) as (w' & b & eb & H1 & H2 & H3 & _);
    [done|done|done|done|]. exact (ex_intro _ w' (conj H1 (conj H2 H3))).
Defined.

Lemma bitmap_bytes_short_witness : 8 * bitmap_bytes (32768 * 4096) = 32768.
Proof. apply (bitmap_bytes_short (32768 * 4096) 1 0); [done|lia|lia]. Defined.
