(* ===== verification/FrameAlloc.v ===== *)
(** * The interface between frame allocation and page tables

    The virtual memory manager only asks one thing of the physical memory
    manager: a zeroed page frame nobody else uses.  [FrameAllocator] lists the
    operations it relies on and [FrameAllocatorLaws] what they promise; the
    page-table theorems are proved against the laws, and the physical memory
    manager discharges them at the end of this file. *)
From stdpp Require Import base list gmap.
From S2P Require Import Prelude Memory Pmm.

(** [fa_client w f]: the frame at address [f] has been handed out, so its
    contents belong to whoever asked for it.  [fa_avail w k]: the next [k]
    allocations will succeed. *)
Class FrameAllocator (W : Type) := {
  fa_alloc : W → outcome (Z * W);
  fa_mem : W → mem;
  fa_write : mem → W → W;
  fa_ok : W → Prop;
  fa_client : W → Z → Prop;
  fa_avail : W → nat → Prop;
}.

(** What a successful allocation gives. *)
Record fresh_frame `{FrameAllocator W} (w : W) (f : Z) (w' : W) : Prop := {
  ff_ok : fa_ok w';
  ff_aligned : f mod 4096 = 0;
  ff_range : 0 < f < 2 ^ 52;
  ff_new : ¬ fa_client w f;
  ff_client : fa_client w' f;
  ff_kept : ∀ g, fa_client w g → fa_client w' g;
  ff_zero : ∀ a, f ≤ a < f + 4096 → ld8 (fa_mem w') a = 0;
  ff_frame : ∀ g a, fa_client w g → g ≤ a < g + 4096 → ld8 (fa_mem w') a = ld8 (fa_mem w) a;
}.

Class FrameAllocatorLaws (W : Type) `{FrameAllocator W} := {
  fa_mem_write m w : fa_mem (fa_write m w) = m;
  fa_client_aligned w g : fa_ok w → fa_client w g → g mod 4096 = 0 ∧ 0 < g < 2 ^ 52;
  fa_write_ok m w g :
    fa_ok w → fa_client w g → same_outside g (g + 4096) (fa_mem w) m →
    fa_ok (fa_write m w) ∧
    (∀ h, fa_client (fa_write m w) h ↔ fa_client w h) ∧
    (∀ k, fa_avail w k → fa_avail (fa_write m w) k);
  fa_alloc_result w f w' :
    fa_ok w → fa_alloc w = Done (f, w') → (f = 0 ∧ w' = w) ∨ (f ≠ 0 ∧ fresh_frame w f w');
  fa_alloc_avail w k :
    fa_ok w → fa_avail w (S k) →
    ∃ f w', fa_alloc w = Done (f, w') ∧ f ≠ 0 ∧ fa_avail w' k;
  fa_avail_S w k : fa_avail w (S k) → fa_avail w k;
}.

(** Two frames handed out are the same frame or do not overlap. *)
Lemma client_disjoint `{FrameAllocatorLaws W} (w : W) g h :
  fa_ok w → fa_client w g → fa_client w h → g ≠ h → g + 4096 ≤ h ∨ h + 4096 ≤ g.
Proof.
  intros Hok [Hg _]%fa_client_aligned [Hh _]%fa_client_aligned Hne; [dlia|done..].
Qed.

(** ** Several allocations *)

(** Memory in frames handed out before is as it was. *)
Definition keeps_clients `{FrameAllocator W} (w0 w : W) : Prop :=
  ∀ g a, fa_client w0 g → g ≤ a < g + 4096 → ld8 (fa_mem w) a = ld8 (fa_mem w0) a.

Section allocations.
Context `{FrameAllocatorLaws W}.

Lemma alloc_step (w : W) k :
  fa_ok w → fa_avail w (S k) →
  ∃ f w', fa_alloc w = Done (f, w') ∧ fresh_frame w f w' ∧ fa_avail w' k.
Proof.
  intros Hok Hav. destruct (fa_alloc_avail w k Hok Hav) as (f & w' & Hf & Hnz & Hav').
  exists f, w'. split_and!; [done| |done].
  by destruct (fa_alloc_result w f w' Hok Hf) as [[? _]|[_ ?]].
Qed.

(** Several allocations in a row. *)
Inductive fresh_frames : W → list Z → W → Prop :=
| fresh_nil w : fa_ok w → fresh_frames w [] w
| fresh_cons w f w' fs w'' :
    fresh_frame w f w' → fresh_frames w' fs w'' → fresh_frames w (f :: fs) w''.

Lemma fresh_frames_spec w fs w' :
  fresh_frames w fs w' →
  fa_ok w' ∧ NoDup fs ∧ (∀ g, fa_client w g → fa_client w' g) ∧
  (∀ f, f ∈ fs → fa_client w' f ∧ ¬ fa_client w f) ∧ keeps_clients w w'.
Proof.
  induction 1 as [w Hok|w f w' fs w'' Hf _ (Hok & Hnd & Hold & Hnew & Hk)].
  { split_and!; [done|constructor|done|by intros f ?%elem_of_nil|by intros g a]. }
  split_and!; [done| | | |].
  - constructor; [|done]. intros Hin. apply (Hnew f Hin). by apply ff_client in Hf.
  - intros g Hg. by apply Hold, (ff_kept _ _ _ Hf).
  - intros g [->|Hg]%elem_of_cons; [split; [apply Hold, Hf|apply Hf]|].
    split; [by apply Hnew|]. intros Hc. apply (Hnew g Hg). by apply (ff_kept _ _ _ Hf).
  - intros g a Hg Ha. rewrite <-(ff_frame _ _ _ Hf g a) by done. apply (Hk g); [|done].
    by apply (ff_kept _ _ _ Hf).
Qed.

End allocations.

(** ** The physical memory manager is a frame allocator *)

(** A frame the manager will not hand out: marked, or above the memory it
    manages, where the firmware's tables may lie; the frames of the bitmap are
    the manager's own. *)
Definition pmm_client (w : pmm) (f : Z) : Prop :=
  ∃ i, f = i * FRAME_SIZE ∧ 1 ≤ i < 2 ^ 40 ∧
    (i ≤ num_entries (PHYS_MEMORY_MAP w) → used w i = true) ∧ ¬ in_bitmap w i.

#[export] Instance pmm_FrameAllocator : FrameAllocator pmm := {
  fa_alloc := AllocFirstFrame;
  fa_mem := pmm_mem;
  fa_write m w := set_pmm_mem w m;
  fa_ok := pmm_ok;
  fa_client := pmm_client;
  fa_avail w k := Z.of_nat k + 1 ≤ count_free w;
}.

(** The bytes of the bitmap are in [m] what they are in [w]. *)
Definition bitmap_kept (w : pmm) (m : mem) : Prop :=
  ∀ a, bitmap (PHYS_MEMORY_MAP w) ≤ a < bitmap (PHYS_MEMORY_MAP w) + bitmap_size (PHYS_MEMORY_MAP w) →
    ld8 m a = ld8 (pmm_mem w) a.

(** Writing inside frames that are not part of the bitmap. *)
Lemma frames_not_bitmap w m i n :
  (∀ j, i ≤ j < i + n → ¬ in_bitmap w j) →
  same_outside (i * FRAME_SIZE) ((i + n) * FRAME_SIZE) (pmm_mem w) m → bitmap_kept w m.
Proof.
  intros Hj Hm a Ha. apply Hm. intros Hr. unfold FRAME_SIZE in Hr.
  apply (Hj (a / 4096)); [dlia|]. unfold in_bitmap, FRAME_SIZE. dlia.
Qed.

Lemma client_frame_kept w m g :
  pmm_client w g → same_outside g (g + 4096) (pmm_mem w) m → bitmap_kept w m.
Proof.
  intros (i & -> & _ & _ & Hnb) Hm. apply (frames_not_bitmap w m i 1); [by intros j ?; replace j with i by lia|].
  by replace ((i + 1) * FRAME_SIZE) with (i * FRAME_SIZE + 4096) by (unfold FRAME_SIZE; lia).
Qed.

Section kept_bitmap.
Context (w : pmm) (m : mem) (Hok : pmm_ok w) (Hm : bitmap_kept w m).

(** Every bit the search can look at is left alone. *)
Lemma used_kept j : 0 ≤ j < num_entries (PHYS_MEMORY_MAP w) + 2 → used (set_pmm_mem w m) j = used w j.
Proof. intros Hj. apply used_ext; [done|]. simpl. apply Hm. pose proof (bitmap_byte w j Hok Hj). lia. Qed.

Lemma count_free_kept : count_free (set_pmm_mem w m) = count_free w.
Proof.
  unfold count_free. simpl. rewrite (filter_ext_in (is_free (set_pmm_mem w m)) (is_free w)); [done|].
  intros j [? ?]%elem_of_seqZ. unfold is_free. f_equal. apply used_kept. lia.
Qed.

Lemma pmm_ok_kept : pmm_ok (set_pmm_mem w m).
Proof.
  pose proof (ok_entries w Hok). split; simpl; [apply Hok..| | |].
  - rewrite used_kept by lia. apply (ok_zero w Hok).
  - rewrite used_kept by lia. apply (ok_top w Hok).
  - intros j Hj Hjb. rewrite used_kept by done. by apply (ok_self w Hok).
Qed.

Lemma client_kept g : pmm_client (set_pmm_mem w m) g ↔ pmm_client w g.
Proof.
  split; intros (j & -> & Hj & Huj & Hjb); exists j; simpl in *; split_and!; try done; try lia; intros Hjn.
  - rewrite <-used_kept by lia. by apply Huj.
  - rewrite used_kept by lia. by apply Huj.
Qed.

End kept_bitmap.

Lemma pmm_fresh_frame w i :
  pmm_ok w → 1 ≤ i ≤ num_entries (PHYS_MEMORY_MAP w) → used w i = false →
  fresh_frame w (i * FRAME_SIZE) (take_frame w i).
Proof.
  intros Hok Hi Hu. pose proof (ok_entries w Hok).
  assert (Hnb : ¬ in_bitmap w i) by (apply free_frame_not_bitmap; [done|lia|done]).
  assert (Ht : ∀ j, 0 ≤ j < num_entries (PHYS_MEMORY_MAP w) + 2 →
    used (take_frame w i) j = (j =? i) || used w j).
  { intros j Hj. apply used_take_frame; [done|lia|done|done]. }
  split.
  - apply pmm_ok_take_frame; [done|lia|done].
  - unfold FRAME_SIZE. apply Z.mod_mul. lia.
  - unfold FRAME_SIZE. lia.
  - intros (j & Heq & _ & Huj & _). unfold FRAME_SIZE in Heq.
    replace j with i in Huj by lia. rewrite Huj in Hu by lia. done.
  - exists i. split_and!; [done|lia|lia| |exact Hnb]. intros _. by rewrite Ht, Z.eqb_refl by lia.
  - intros g (j & -> & Hj & Huj & Hjb). exists j. split_and!; [done|lia|lia| |exact Hjb].
    simpl. intros Hjn. rewrite Ht, Huj by lia. apply orb_true_r.
  - intros a Ha. apply take_frame_zeroed. unfold FRAME_SIZE in *. lia.
  - intros g a (j & -> & Hj & Huj & Hjb) Ha.
    assert (j ≠ i) by (intros ->; rewrite Huj in Hu by lia; done).
    apply take_frame_other; [done|lia|unfold FRAME_SIZE in *; lia|].
    unfold in_bitmap, FRAME_SIZE in *. lia.
Qed.

(** A contiguous region is made of frames nobody had, and nobody's contents
    change. *)
Lemma contiguous_clients w h np w' :
  pmm_ok w → 0 < np → 0 ≤ h → h + np ≤ num_entries (PHYS_MEMORY_MAP w) →
  contiguous_taken w h np w' →
  (∀ g, pmm_client w g → pmm_client w' g) ∧ keeps_clients w w' ∧
  (∀ i, h ≤ i < h + np → pmm_client w' (i * FRAME_SIZE) ∧ ¬ pmm_client w (i * FRAME_SIZE)).
Proof.
  intros Hok Hnp Hh Hle Ht. pose proof (ok_entries w Hok).
  destruct (ct_map _ _ _ _ Ht) as (Hn & Hb & Hs).
  assert (Hin : ∀ i, in_bitmap w' i ↔ in_bitmap w i) by (intros i; unfold in_bitmap; by rewrite Hb, Hs).
  assert (Hfree : ∀ i, h ≤ i ≤ h + np → used w i = false) by apply Ht.
  assert (Hh1 : 1 ≤ h).
  { destruct (decide (h = 0)) as [->|]; [|lia]. pose proof (ok_zero w Hok) as Hz.
    by rewrite Hfree in Hz by lia. }
  split_and!.
  - intros g (i & -> & Hi & Hu & Hnb). exists i. rewrite Hn. split_and!; [done|lia|lia| |by rewrite Hin].
    intros Hin'. rewrite (ct_used _ _ _ _ Ht), Hu by lia. apply orb_true_r.
  - intros g a (i & -> & Hi & Hu & Hnb) Ha. change (ld8 (pmm_mem w') a = ld8 (pmm_mem w) a).
    unfold in_bitmap, FRAME_SIZE in *.
    apply (ct_other _ _ _ _ Ht); unfold FRAME_SIZE; [|lia]. intros Hr.
    assert (h ≤ i < h + np) as Hi' by lia. rewrite Hfree in Hu by lia. discriminate Hu; lia.
  - intros i Hi. split.
    + exists i. split_and!; [done|lia|lia| |].
      * intros _. rewrite (ct_used _ _ _ _ Ht) by lia. by rewrite !(proj2 (Z.leb_le _ _)) by lia.
      * rewrite Hin. apply free_frame_not_bitmap; [done|lia|apply Hfree; lia].
    + intros (j & Heq & _ & Hu & _). unfold FRAME_SIZE in Heq. replace j with i in Hu by lia.
      rewrite Hfree in Hu by lia. discriminate Hu; lia.
Qed.

#[export] Instance pmm_FrameAllocatorLaws : FrameAllocatorLaws pmm.
Proof.
  split.
  - done.
  - intros w g Hok (i & -> & Hi & Hu & _). pose proof (ok_entries w Hok).
    unfold FRAME_SIZE. split; [apply Z.mod_mul; lia|lia].
  - intros m w g Hok Hg Hm. pose proof (client_frame_kept w m g Hg Hm) as Hk.
    split_and!; [by apply pmm_ok_kept|by apply client_kept|].
    intros k Hav. cbn in *. by rewrite count_free_kept.
  - intros w f w' Hok Hr. change (AllocFirstFrame w = Done (f, w')) in Hr.
    rewrite AllocFirstFrame_closed in Hr by exact Hok.
    destruct (first_free w (candidates w)) as [i|] eqn:Hff.
    + injection Hr as <- <-. destruct (first_free_range w i Hok Hff) as [? ?].
      right. split; [unfold FRAME_SIZE; lia|]. apply pmm_fresh_frame; [done|lia|done].
    + destruct (last_used _ <? _) in Hr; [|discriminate Hr]. injection Hr as <- <-. by left.
  - intros w k Hok Hk. change (Z.of_nat (S k) + 1 ≤ count_free w) in Hk.
    destruct (first_free_avail w) as (i & Hff); [done|lia|].
    destruct (first_free_range w i Hok Hff) as [Hi Hu].
    exists (i * FRAME_SIZE), (take_frame w i). split_and!.
    + change (fa_alloc w) with (AllocFirstFrame w). by rewrite AllocFirstFrame_closed, Hff.
    + unfold FRAME_SIZE. lia.
    + change (Z.of_nat k + 1 ≤ count_free (take_frame w i)).
      pose proof (count_free_take_frame w i Hok ltac:(lia) Hu) as Hc.
      destruct (i <? num_entries (PHYS_MEMORY_MAP w)); simpl Z.b2z in Hc; lia.
  - intros w k Hk. cbn in *. lia.
Qed.

(** ** A machine with all its memory free *)

(** 256 GiB of memory; the bitmap lies above it, and only the bits of frame
    zero and of the first frame past the end are set. *)
Definition blank_pmm : pmm :=
  Pmm {| num_entries := 2 ^ 26 - 1; last_used := 0; bitmap_size := 2 ^ 23 + 4096;
         bitmap := 2 ^ 40; mem_size := 0; max_blocks := 0; uppermost_addr := 2 ^ 38 - 1;
         used_blocks := 0 |}
      {[2 ^ 40 := 1; 2 ^ 40 + 2 ^ 23 := 1]}.

Lemma blank_used j : 1 ≤ j < 2 ^ 26 → used blank_pmm j = false.
Proof.
  intros Hj. unfold used. cbn [PHYS_MEMORY_MAP pmm_mem bitmap blank_pmm].
  unfold ld8. destruct (decide (j < 8)).
  - replace (j / 8) with 0 by dlia. rewrite Z.add_0_r, lookup_insert_eq.
    apply (testbit_above 1 1); dlia.
  - rewrite lookup_insert_ne, lookup_singleton_ne by dlia. apply Z.bits_0.
Qed.

Lemma blank_ok : fa_ok blank_pmm.
Proof.
  change (pmm_ok blank_pmm). split; cbn [PHYS_MEMORY_MAP blank_pmm num_entries last_used bitmap bitmap_size]; try lia.
  - vm_compute. done.
  - vm_compute. done.
  - intros i Hi [_ Hlo]. cbn in Hlo. unfold FRAME_SIZE in Hlo. lia.
Qed.

Lemma blank_avail k : (Z.of_nat k < 2 ^ 26 - 3) → fa_avail blank_pmm k.
Proof.
  intros Hk. change (Z.of_nat k + 1 ≤ count_free blank_pmm). unfold count_free.
  change (num_entries (PHYS_MEMORY_MAP blank_pmm)) with (1 + (2 ^ 26 - 2)).
  rewrite seqZ_app by lia. rewrite filter_app, length_app.
  enough (length (filter (is_free blank_pmm) (seqZ (0 + 1) (2 ^ 26 - 2))) = Z.to_nat (2 ^ 26 - 2)) as ->
    by lia.
  rewrite (filter_all (is_free blank_pmm)); [apply length_seqZ|].
  intros j [? ?]%elem_of_seqZ. unfold is_free. by rewrite blank_used by lia.
Qed.

Lemma blank_contiguous size :
  0 < size < 2 ^ 30 → ∃ w', AllocContiguous blank_pmm size = Done (4096, w').
Proof.
  intros Hs. pose proof blank_ok as Hok. change (pmm_ok blank_pmm) in Hok.
  assert (Hp : 0 < pages_for size < 2 ^ 19).
  { unfold pages_for, FRAME_SIZE. destruct (Z.ltb_spec 0 (size mod 4096)); dlia. }
  rewrite AllocContiguous_start by done. change (last_used (PHYS_MEMORY_MAP blank_pmm) + 1) with 1.
  unfold search_fuel.
  replace (Z.to_nat (num_entries (PHYS_MEMORY_MAP blank_pmm) + 2)) with (S (Z.to_nat (2 ^ 26)))
    by (change (num_entries (PHYS_MEMORY_MAP blank_pmm)) with (2 ^ 26 - 1); lia).
  destruct (contiguous_step (Z.to_nat (2 ^ 26)) blank_pmm 1 (pages_for size) Hok) as (w' & H & _).
  - change (num_entries (PHYS_MEMORY_MAP blank_pmm)) with (2 ^ 26 - 1). lia.
  - change (last_used (PHYS_MEMORY_MAP blank_pmm)) with 0. lia.
  - lia.
  - destruct (List.find _ _) as [t|] eqn:Hf; [|done]. apply find_some in Hf as [Hin Hu].
    apply list_elem_of_In, elem_of_seqZ in Hin. rewrite blank_used in Hu by lia. done.
  - exists w'. exact H.
Qed.
