(* ===== verification/PageTable.v ===== *)
(** * Page tables

    [src/src/kernel/memory_management/virtual_memory_manager.c]: the four-level
    tables, from looking up one entry to mapping, unmapping and remapping one
    page.  The page tables live in frames handed out by any
    [FrameAllocator]; the theorems read a page table as a function from page
    numbers to entries ([pages]) and show that the operations are updates of
    that function which disturb no other frame. *)
From stdpp Require Import base list gmap.
From S2P Require Import Prelude Memory Pmm FrameAlloc.

(** ** Constants *)

Definition KERNEL_DATA : Z := 0xffff800000000000.
Definition KERNEL_CODE : Z := 0xffffffff80000000.

Definition PRESENT : Z := 1.
Definition READ_WRITABLE : Z := Z.shiftl 1 1.
Definition USER_ACCESSIBLE : Z := Z.shiftl 1 2.
Definition WRITE_THROUGH : Z := Z.shiftl 1 3.
Definition CACHE_DISABLED : Z := Z.shiftl 1 4.
Definition ACCESSED : Z := Z.shiftl 1 5.
Definition DIRTY : Z := Z.shiftl 1 6.
Definition PAGE_ATTRIBUTE_TABLE : Z := Z.shiftl 1 7.
Definition GLOBAL : Z := Z.shiftl 1 8.
Definition EXECUTABLE : Z := u64 (Z.lnot (Z.shiftl 1 62)).
Definition KERNEL_PAGE : Z := Z.lor PRESENT READ_WRITABLE.
Definition USER_PAGE : Z := Z.lor (Z.lor PRESENT READ_WRITABLE) USER_ACCESSIBLE.

Definition LOG2_ENTRIES_PER_TABLE : Z := 9.
Definition LOG2_FRAME_SIZE : Z := 12.
Definition MAX_PAGE_IND : Z := 0x1FF.

Definition V_ADDR_INDEX (vaddr level : Z) : Z :=
  Z.land (Z.shiftr vaddr (LOG2_FRAME_SIZE + LOG2_ENTRIES_PER_TABLE * (level - 1))) MAX_PAGE_IND.

(** The [int] mask [~(511)], sign-extended to 64 bits. *)
Definition NOT_511 : Z := u64 (Z.lnot 511).

(** ** Lookup *)

Definition GetPageFlag (page flag : Z) : bool := negb (Z.land page flag =? 0).

(** [NULL] is 0. *)
Definition GetPageTable (m : mem) (parent index : Z) : Z :=
  let e := ld64 m (parent + 8 * index) in
  if GetPageFlag e PRESENT then Z.land e NOT_511 else 0.

(** The descent of [GetPage] and [VAddrToPAddr]: [for (i = 4; i > 1; --i)],
    with [k = i - 1] levels left. *)
Fixpoint descend (k : nat) (m : mem) (parent_table vaddr : Z) : option Z :=
  match k with
  | O => Some parent_table
  | S k' =>
      let tab_index := V_ADDR_INDEX vaddr (Z.of_nat k + 1) in
      let child_table := GetPageTable m parent_table tab_index in
      if child_table =? 0 then None else descend k' m child_table vaddr
  end.

(** The address of the entry of [vaddr], or [NULL]. *)
Definition GetPage (m : mem) (page_table_root vaddr : Z) : Z :=
  match descend 3 m page_table_root vaddr with
  | Some parent_table => parent_table + 8 * V_ADDR_INDEX vaddr 1
  | None => 0
  end.

Definition VAddrToPAddr (m : mem) (table vaddr : Z) : Z :=
  match descend 3 m table vaddr with
  | Some child_table => Z.land (ld64 m (child_table + 8 * V_ADDR_INDEX vaddr 1)) NOT_511
  | None => 0
  end.

(** ** Creation *)

Section operations.
Context {W : Type} `{FrameAllocator W}.

Definition GetOrCreatePageTable (w : W) (parent index flags : Z) : outcome (Z * W) :=
  let e := ld64 (fa_mem w) (parent + 8 * index) in
  if GetPageFlag e PRESENT then Done (Z.land e NOT_511, w)
  else
    '(free_frame, w) ← fa_alloc w;
    if free_frame =? 0 then Done (0, w)
    else Done (free_frame,
               fa_write (st64 (fa_mem w) (parent + 8 * index) (Z.lor free_frame flags)) w).

Fixpoint create_descend (k : nat) (w : W) (parent_table vaddr flags : Z) : outcome (option Z * W) :=
  match k with
  | O => Done (Some parent_table, w)
  | S k' =>
      let tab_index := V_ADDR_INDEX vaddr (Z.of_nat k + 1) in
      '(child_table, w) ← GetOrCreatePageTable w parent_table tab_index flags;
      if child_table =? 0 then Done (None, w) else create_descend k' w child_table vaddr flags
  end.

Definition CreatePage (w : W) (page_table_root vaddr flags : Z) : outcome (Z * W) :=
  '(parent_table, w) ← create_descend 3 w page_table_root vaddr flags;
  match parent_table with
  | Some parent_table => Done (parent_table + 8 * V_ADDR_INDEX vaddr 1, w)
  | None => Done (0, w)
  end.

Definition MapPage (w : W) (page_table_root vaddr paddr flags : Z) : outcome (bool * W) :=
  '(page_table_entry, w) ← CreatePage w page_table_root vaddr flags;
  if page_table_entry =? 0 then Done (false, w)
  else Done (true, fa_write (st64 (fa_mem w) page_table_entry (Z.lor paddr flags)) w).

(** The machine a page table is used on: the frames and their allocator, and
    the addresses whose cached translation has been dropped by [invlpg], the
    latest first. *)
Record machine := Machine { frames : W; invlpg : list Z }.

Definition set_frames (s : machine) (w : W) : machine := Machine w (invlpg s).

Definition UnmapPage (s : machine) (page_table_root vaddr : Z) : bool * machine :=
  let page_table_entry := GetPage (fa_mem (frames s)) page_table_root vaddr in
  if page_table_entry =? 0 then (false, s)
  else (true, Machine (fa_write (st64 (fa_mem (frames s)) page_table_entry 0) (frames s))
                      (vaddr :: invlpg s)).

Definition RemapPage (s : machine) (page_table_root former_vaddr new_vaddr flags : Z) :
    outcome (bool * machine) :=
  let paddr := VAddrToPAddr (fa_mem (frames s)) page_table_root former_vaddr in
  let '(unmap_code, s) := UnmapPage s page_table_root former_vaddr in
  '(map_code, w) ← MapPage (frames s) page_table_root former_vaddr paddr flags;
  Done (unmap_code && map_code, set_frames s w).

End operations.
Arguments machine : clear implicits.

(** ** A page table as a tree of frames *)

Definition index (i : Z) : Prop := 0 ≤ i < 512.

(** The table reached from [t] by a path of indices. *)
Fixpoint walk (m : mem) (t : Z) (p : list Z) : option Z :=
  match p with
  | [] => Some t
  | i :: p => let c := GetPageTable m t i in if c =? 0 then None else walk m c p
  end.

(** The upper three indices of an address. *)
Definition path (v : Z) : list Z := [V_ADDR_INDEX v 4; V_ADDR_INDEX v 3; V_ADDR_INDEX v 2].

(** The number of the page [v] lies in: bits 12 to 47 of the address. *)
Definition page_no (v : Z) : Z := (v / 4096) mod 2 ^ 36.

(** The entry for page [n]; an entry in a table that does not exist is 0. *)
Definition pages (m : mem) (root n : Z) : Z :=
  match walk m root (path (n * 4096)) with
  | Some t => ld64 m (t + 8 * V_ADDR_INDEX (n * 4096) 1)
  | None => 0
  end.

(** How many of the [k] tables on the way down to the page of [v] do not exist
    yet. *)
Fixpoint missing (k : nat) (m : mem) (t v : Z) : nat :=
  match k with
  | O => O
  | S k' =>
      let c := GetPageTable m t (V_ADDR_INDEX v (Z.of_nat k + 1)) in
      if c =? 0 then k else missing k' m c v
  end.

(** The tables needed for the pages below [n], in address order: one per 512
    pages, one per 512 of these, and one per 512 of these again. *)
Definition tables_before (n : Z) : Z := n / 512 + n / 2 ^ 18 + n / 2 ^ 27.

Section wellformed.
Context {W : Type} `{FrameAllocator W}.

Definition short (p : list Z) : Prop := (length p ≤ 3)%nat ∧ Forall index p.

(** The tables form a tree of frames that belong to the page table, and a
    table that is marked present is there. *)
Record pt_ok (w : W) (root : Z) : Prop := {
  pt_world : fa_ok w;
  pt_tables : ∀ p t, short p → walk (fa_mem w) root p = Some t → fa_client w t;
  pt_tree : ∀ p q t, short p → short q →
    walk (fa_mem w) root p = Some t → walk (fa_mem w) root q = Some t → p = q;
  pt_present : ∀ p t i, short p → (length p ≤ 2)%nat → index i →
    walk (fa_mem w) root p = Some t →
    GetPageFlag (ld64 (fa_mem w) (t + 8 * i)) PRESENT = true →
    GetPageTable (fa_mem w) t i ≠ 0;
}.

(** [f] is one of the frames of the page table. *)
Definition is_table (w : W) (root f : Z) : Prop :=
  ∃ p, short p ∧ walk (fa_mem w) root p = Some f.

(** What growing or editing a page table leaves alone: frames stay with their
    owners, frames outside the tables keep their contents, and the table is
    only joined by new frames. *)
Record pt_step (root : Z) (w w' : W) : Prop := {
  ps_client : ∀ g, fa_client w g → fa_client w' g;
  ps_frames : ∀ g a, fa_client w g → ¬ is_table w root g → g ≤ a < g + 4096 →
    ld8 (fa_mem w') a = ld8 (fa_mem w) a;
  ps_walk : ∀ p t, short p → walk (fa_mem w) root p = Some t → walk (fa_mem w') root p = Some t;
  ps_new : ∀ g, is_table w' root g → is_table w root g ∨ ¬ fa_client w g;
}.

End wellformed.

(** ** Indices *)

Lemma V_ADDR_INDEX_div v l :
  1 ≤ l → V_ADDR_INDEX v l = (v / 2 ^ (12 + 9 * (l - 1))) mod 512.
Proof.
  intros Hl. unfold V_ADDR_INDEX, LOG2_FRAME_SIZE, LOG2_ENTRIES_PER_TABLE, MAX_PAGE_IND.
  change 0x1FF with (Z.ones 9). rewrite Z.land_ones, Z.shiftr_div_pow2 by lia. done.
Qed.

Lemma V_ADDR_INDEX_index v l : 1 ≤ l → index (V_ADDR_INDEX v l).
Proof. intros Hl. rewrite V_ADDR_INDEX_div by done. unfold index. dlia. Qed.

Lemma path_short v : short (path v).
Proof. split; [simpl; lia|]. unfold path. repeat constructor; apply V_ADDR_INDEX_index; lia. Qed.

(** The four indices are the digits of the page number in base 512. *)
Lemma page_no_digits v :
  page_no v = ((V_ADDR_INDEX v 4 * 512 + V_ADDR_INDEX v 3) * 512 + V_ADDR_INDEX v 2) * 512
              + V_ADDR_INDEX v 1.
Proof.
  unfold page_no. rewrite !V_ADDR_INDEX_div by lia.
  change (2 ^ (12 + 9 * (4 - 1))) with (4096 * 512 * 512 * 512).
  change (2 ^ (12 + 9 * (3 - 1))) with (4096 * 512 * 512).
  change (2 ^ (12 + 9 * (2 - 1))) with (4096 * 512). change (2 ^ (12 + 9 * (1 - 1))) with 4096.
  rewrite <-!Z.div_div by lia. set (n := v / 4096). change (2 ^ 36) with (512 * 512 * 512 * 512).
  clearbody n. clear v. dlia.
Qed.

Lemma page_no_range v : 0 ≤ page_no v < 2 ^ 36.
Proof. apply Z.mod_pos_bound. lia. Qed.

Lemma page_no_indices v1 v2 :
  page_no v1 = page_no v2 ↔ path v1 = path v2 ∧ V_ADDR_INDEX v1 1 = V_ADDR_INDEX v2 1.
Proof.
  rewrite !page_no_digits. split.
  - intros Heq. unfold path. cut (V_ADDR_INDEX v1 4 = V_ADDR_INDEX v2 4 ∧ V_ADDR_INDEX v1 3 = V_ADDR_INDEX v2 3
      ∧ V_ADDR_INDEX v1 2 = V_ADDR_INDEX v2 2 ∧ V_ADDR_INDEX v1 1 = V_ADDR_INDEX v2 1);
      [intros (-> & -> & -> & ->); done|].
    pose proof (V_ADDR_INDEX_index v1 1). pose proof (V_ADDR_INDEX_index v2 1).
    pose proof (V_ADDR_INDEX_index v1 2). pose proof (V_ADDR_INDEX_index v2 2).
    pose proof (V_ADDR_INDEX_index v1 3). pose proof (V_ADDR_INDEX_index v2 3).
    pose proof (V_ADDR_INDEX_index v1 4). pose proof (V_ADDR_INDEX_index v2 4).
    unfold index in *. lia.
  - unfold path. intros [[= -> -> ->] ->]. done.
Qed.

Lemma page_no_canon n : 0 ≤ n < 2 ^ 36 → page_no (n * 4096) = n.
Proof. intros Hn. unfold page_no. rewrite Z.div_mul by lia. by apply Z.mod_small. Qed.

(** The entry for the page of an address is the one its own indices lead to. *)
Lemma pages_page_no m root v :
  pages m root (page_no v) =
    match walk m root (path v) with
    | Some t => ld64 m (t + 8 * V_ADDR_INDEX v 1)
    | None => 0
    end.
Proof.
  unfold pages. destruct (proj1 (page_no_indices (page_no v * 4096) v)) as [-> ->]; [|done].
  apply page_no_canon, page_no_range.
Qed.

Lemma descend_walk m root v : descend 3 m root v = walk m root (path v).
Proof. done. Qed.

(** ** Entries *)

Lemma mask_511 e : 0 ≤ e < 2 ^ 64 → Z.land e NOT_511 = e - e mod 512.
Proof. intros He. unfold NOT_511. change 511 with (Z.ones 9). by rewrite land_mask_high by lia. Qed.

Lemma GetPageFlag_PRESENT e : GetPageFlag e PRESENT = Z.odd e.
Proof.
  unfold GetPageFlag, PRESENT. rewrite even_land_1, Zmod_odd. by destruct (Z.odd e).
Qed.

(** An entry: a page-aligned address and the flags of its low bits. *)
Lemma lor_flags a flags : a mod 512 = 0 → 0 ≤ flags < 512 → Z.lor a flags = a + flags.
Proof. intros Ha Hf. by apply (lor_low a flags 9). Qed.

Lemma GetPageTable_entry m t i a flags :
  ld64 m (t + 8 * i) = Z.lor a flags → a mod 512 = 0 → 0 ≤ flags < 512 → Z.odd flags = true →
  GetPageTable m t i = a.
Proof.
  intros He Ha Hf Hodd. unfold GetPageTable. rewrite GetPageFlag_PRESENT.
  rewrite mask_511 by apply ld64_range. rewrite He, lor_flags by done.
  assert (Z.odd (a + flags) = true) as ->.
  { rewrite Z.odd_add, Hodd. assert (Z.odd a = false) as ->; [|done].
    rewrite <-Z.negb_even. apply negb_false_iff, Z.even_spec. exists (256 * (a / 512)). dlia. }
  dlia.
Qed.

Lemma GetPageTable_zero m t i : ld64 m (t + 8 * i) = 0 → GetPageTable m t i = 0.
Proof. intros He. unfold GetPageTable. by rewrite He. Qed.

(** ** Walks *)

Lemma walk_app m t p q :
  walk m t (p ++ q) = match walk m t p with Some s => walk m s q | None => None end.
Proof.
  revert t. induction p as [|i p IH]; intros t; [done|]. cbn [walk app].
  destruct (_ =? 0); [done|apply IH].
Qed.

Lemma walk_snoc m t p i :
  walk m t (p ++ [i]) =
    match walk m t p with
    | Some s => let c := GetPageTable m s i in if c =? 0 then None else Some c
    | None => None
    end.
Proof. by rewrite walk_app. Qed.

Lemma short_app p q : short (p ++ q) → short p.
Proof. unfold short. rewrite length_app, Forall_app. intuition lia. Qed.

Lemma short_snoc p i : (length p ≤ 2)%nat → short p → index i → short (p ++ [i]).
Proof. intros Hl [_ Hp] Hi. split; [rewrite length_app; simpl; lia|]. apply Forall_app; auto. Qed.

Lemma short_snoc_inv p i : short (p ++ [i]) → (length p ≤ 2)%nat ∧ short p ∧ index i.
Proof.
  unfold short. rewrite length_app, Forall_app, Forall_singleton. simpl. intuition lia.
Qed.

(** A walk only depends on the entries it passes. *)
Lemma walk_ext m m' t p :
  (∀ q i r s, p = q ++ i :: r → walk m t q = Some s → ld64 m' (s + 8 * i) = ld64 m (s + 8 * i)) →
  walk m' t p = walk m t p.
Proof.
  induction p as [|i p IH] using rev_ind; intros Heq; [done|].
  rewrite !walk_snoc, IH.
  - destruct (walk m t p) as [s|] eqn:Hw; [|done]. unfold GetPageTable.
    by rewrite (Heq p i [] s).
  - intros q j r s -> Hs. eapply (Heq q j (r ++ [i])); [|done]. by rewrite <-app_assoc.
Qed.

Section lemmas.
Context {W : Type} `{FrameAllocatorLaws W}.
Implicit Types (w : W) (root : Z).

(** *** One slot of one table *)

Lemma slot_disjoint w root p q s t i j :
  pt_ok w root → short p → short q → index i → index j →
  walk (fa_mem w) root p = Some s → walk (fa_mem w) root q = Some t → (p, i) ≠ (q, j) →
  s + 8 * i + 8 ≤ t + 8 * j ∨ t + 8 * j + 8 ≤ s + 8 * i.
Proof.
  intros Hok Hp Hq Hi Hj Hs Ht Hne. unfold index in *. destruct (decide (p = q)) as [->|Hpq].
  - assert (s = t) as -> by congruence. assert (i ≠ j) by congruence. lia.
  - destruct (client_disjoint w s t) as [?|?];
      [apply Hok|by apply (pt_tables w root Hok p)|by apply (pt_tables w root Hok q)| |lia|lia].
    intros ->. apply Hpq. by apply (pt_tree w root Hok p q t).
Qed.

(** A slot lies in its table. *)
Lemma slot_outside m t i e : index i → same_outside t (t + 4096) m (st64 m (t + 8 * i) e).
Proof. unfold index. intros Hi. apply st_outside_sub; lia. Qed.

(** Writing the slot [i] of the table at [p] leaves every other entry alone. *)
Lemma other_entries w root p t i e q s j :
  pt_ok w root → short p → short q → index i → index j →
  walk (fa_mem w) root p = Some t → walk (fa_mem w) root q = Some s → (q, j) ≠ (p, i) →
  ld64 (st64 (fa_mem w) (t + 8 * i) e) (s + 8 * j) = ld64 (fa_mem w) (s + 8 * j).
Proof.
  intros Hok Hp Hq Hi Hj Ht Hs Hne. apply ld_st_disjoint.
  destruct (slot_disjoint w root q p s t j i) as [?|?]; (done || lia).
Qed.

(** *** Writing a leaf entry *)

Section leaf.
Context (w : W) (root : Z) (p : list Z) (t i e : Z) (Hok : pt_ok w root) (Hp : short p) (Hlen : length p = 3%nat)
  (Hi : index i) (Ht : walk (fa_mem w) root p = Some t).
Let w' := fa_write (st64 (fa_mem w) (t + 8 * i) e) w.

Lemma leaf_mem : fa_mem w' = st64 (fa_mem w) (t + 8 * i) e.
Proof. apply fa_mem_write. Qed.

Lemma leaf_write :
  fa_ok w' ∧ (∀ h, fa_client w' h ↔ fa_client w h) ∧ (∀ k, fa_avail w k → fa_avail w' k).
Proof.
  apply (fa_write_ok _ w t); [apply Hok|by apply (pt_tables w root Hok p)|by apply slot_outside].
Qed.

Lemma leaf_walk q : short q → walk (fa_mem w') root q = walk (fa_mem w) root q.
Proof.
  intros Hq. apply walk_ext. intros q' j r s -> Hs. rewrite leaf_mem.
  assert (short (q' ++ [j])) as (Hl & ? & ?)%short_snoc_inv.
  { apply (short_app _ r). by rewrite <-app_assoc. }
  eapply (other_entries w root p t i); [done..|]. intros [= -> ->]. lia.
Qed.

Lemma leaf_ok : pt_ok w' root.
Proof.
  destruct leaf_write as (Hw & Hc & _). split; [done|..].
  - intros q s Hq. rewrite leaf_walk by done. intros Hs. apply Hc. by apply (pt_tables w root Hok q).
  - intros q1 q2 s H1 H2. rewrite !leaf_walk by done. by apply pt_tree.
  - intros q s j Hq Hl Hj. rewrite leaf_walk by done. intros Hs.
    assert (Hsame : ld64 (fa_mem w') (s + 8 * j) = ld64 (fa_mem w) (s + 8 * j)).
    { rewrite leaf_mem. eapply (other_entries w root p t i); [done..|]. intros [= -> ->]. lia. }
    unfold GetPageTable. rewrite Hsame. by apply (pt_present w root Hok q).
Qed.

Lemma leaf_step : pt_step root w w'.
Proof.
  destruct leaf_write as (Hw & Hc & _). split.
  - intros g. apply Hc.
  - intros g a Hg Hnt Ha. rewrite leaf_mem. apply (slot_outside (fa_mem w) t i e Hi).
    destruct (client_disjoint w g t) as [?|?]; [apply Hok|done|by apply (pt_tables w root Hok p)| |lia|lia].
    intros ->. apply Hnt. by exists p.
  - intros q s Hq. by rewrite leaf_walk by done.
  - intros g (q & Hq & Hs). left. exists q. by rewrite leaf_walk in Hs by done.
Qed.

Lemma leaf_pages v :
  p = path v → i = V_ADDR_INDEX v 1 → 0 ≤ e < 2 ^ 64 →
  ∀ n, 0 ≤ n < 2 ^ 36 →
    pages (fa_mem w') root n = if n =? page_no v then e else pages (fa_mem w) root n.
Proof.
  intros Hpv Hiv He n Hn. rewrite <-(page_no_canon n Hn), !pages_page_no.
  rewrite leaf_walk by apply path_short.
  destruct (Z.eqb_spec (page_no (n * 4096)) (page_no v)) as [Heq|Hne].
  - apply page_no_indices in Heq as [-> ->]. rewrite <-Hpv, <-Hiv, Ht, leaf_mem.
    by apply ld64_st64_same.
  - destruct (walk (fa_mem w) root (path (n * 4096))) as [s|] eqn:Hs; [|done].
    rewrite leaf_mem. apply (other_entries w root p t i e (path (n * 4096)) s);
      [done|done|apply path_short|done|apply V_ADDR_INDEX_index; lia|done|done|].
    intros [= Hx Hy]. apply Hne, page_no_indices. by rewrite <-Hpv, <-Hiv, Hx, Hy.
Qed.

End leaf.
(** *** Linking a new table *)

Lemma fresh_entries w root f w1 q s j :
  pt_ok w root → fresh_frame w f w1 → short q → index j → walk (fa_mem w) root q = Some s →
  ld64 (fa_mem w1) (s + 8 * j) = ld64 (fa_mem w) (s + 8 * j).
Proof.
  intros Hok Hf Hq Hj Hs. apply ld_ext. intros b Hb. unfold index in Hj.
  apply (ff_frame w f w1 Hf s); [by apply (pt_tables w root Hok q)|lia].
Qed.

Section link.
Context (w : W) (root : Z) (p : list Z) (t i flags f : Z) (w1 : W) (Hok : pt_ok w root)
  (Hp : short p) (Hlen : (length p ≤ 2)%nat) (Hi : index i)
  (Ht : walk (fa_mem w) root p = Some t)
  (Habs : GetPageFlag (ld64 (fa_mem w) (t + 8 * i)) PRESENT = false)
  (Hf : fresh_frame w f w1) (Hflags : 0 ≤ flags < 512) (Hodd : Z.odd flags = true).
Let w2 := fa_write (st64 (fa_mem w1) (t + 8 * i) (Z.lor f flags)) w1.

Lemma link_mem : fa_mem w2 = st64 (fa_mem w1) (t + 8 * i) (Z.lor f flags).
Proof. apply fa_mem_write. Qed.

Lemma link_client g : fa_client w g → fa_client w1 g.
Proof. apply (ff_kept w f w1 Hf). Qed.

Lemma link_write :
  fa_ok w2 ∧ (∀ h, fa_client w2 h ↔ fa_client w1 h) ∧ (∀ k, fa_avail w1 k → fa_avail w2 k).
Proof.
  apply (fa_write_ok _ w1 t); [apply Hf|apply link_client; by apply (pt_tables w root Hok p)|].
  by apply slot_outside.
Qed.

(** The entries of the tables there were, but for the new link. *)
Lemma link_entries q s j :
  short q → index j → walk (fa_mem w) root q = Some s → (q, j) ≠ (p, i) →
  ld64 (fa_mem w2) (s + 8 * j) = ld64 (fa_mem w) (s + 8 * j).
Proof.
  intros Hq Hj Hs Hne. rewrite link_mem, ld_st_disjoint.
  - by apply (fresh_entries w root f w1 q).
  - destruct (slot_disjoint w root q p s t j i) as [?|?]; (done || lia).
Qed.

Lemma link_entry : ld64 (fa_mem w2) (t + 8 * i) = Z.lor f flags.
Proof.
  rewrite link_mem. apply ld64_st64_same. pose proof (ff_range w f w1 Hf).
  apply lor_range; lia.
Qed.

Lemma link_child : GetPageTable (fa_mem w2) t i = f.
Proof.
  apply (GetPageTable_entry _ _ _ _ flags); [apply link_entry| |done..].
  pose proof (ff_aligned w f w1 Hf). dlia.
Qed.

(** The new table is empty. *)
Lemma link_empty j : index j → ld64 (fa_mem w2) (f + 8 * j) = 0.
Proof.
  intros Hj. pose proof (ff_new w f w1 Hf) as Hnew. rewrite link_mem.
  assert (Hct : fa_client w t) by (by apply (pt_tables w root Hok p)).
  assert (f ≠ t) by (by intros ->). unfold index in *.
  rewrite ld_st_disjoint.
  - apply ld_zero. intros b Hb. apply (ff_zero w f w1 Hf). lia.
  - destruct (client_disjoint w1 f t) as [?|?];
      [apply Hf|apply Hf|by apply link_client|done|lia|lia].
Qed.

Lemma link_walk q :
  short q → ¬ (p ++ [i]) `prefix_of` q → walk (fa_mem w2) root q = walk (fa_mem w) root q.
Proof.
  intros Hq Hnp. apply walk_ext. intros q' j r s -> Hs.
  assert (short (q' ++ [j])) as (Hl & ? & ?)%short_snoc_inv.
  { apply (short_app _ r). by rewrite <-app_assoc. }
  apply (link_entries q'); [done..|]. intros [= -> ->]. apply Hnp.
  exists r. by rewrite <-app_assoc.
Qed.

Lemma link_walk_below r :
  short (p ++ [i] ++ r) →
  walk (fa_mem w2) root (p ++ [i] ++ r) = match r with [] => Some f | _ => None end ∧
  walk (fa_mem w) root (p ++ [i] ++ r) = None.
Proof.
  intros Hq. assert (Hwp : walk (fa_mem w2) root p = Some t).
  { rewrite link_walk; [done..|]. intros [r' Hr]. apply (f_equal length) in Hr.
    rewrite !length_app in Hr. simpl in Hr. lia. }
  rewrite !walk_app, Hwp, Ht. cbn [walk app]. rewrite link_child. pose proof (ff_range w f w1 Hf).
  assert (Hz : GetPageTable (fa_mem w) t i = 0) by (unfold GetPageTable; by rewrite Habs).
  rewrite Hz. split; [|done]. destruct (Z.eqb_spec f 0); [lia|].
  destruct r as [|j r]; [done|]. cbn [walk]. rewrite GetPageTable_zero; [done|]. apply link_empty.
  destruct Hq as [_ [_ [_ Hq]%Forall_app]%Forall_app]. by apply Forall_cons in Hq as [? _].
Qed.

(** Every walk of the new tree: an old one, or the new table. *)
Lemma link_walk_inv q s :
  short q → walk (fa_mem w2) root q = Some s →
  (walk (fa_mem w) root q = Some s ∧ fa_client w s) ∨ (q = p ++ [i] ∧ s = f).
Proof.
  intros Hq Hs. destruct (decide ((p ++ [i]) `prefix_of` q)) as [[r ->]|Hnp].
  - rewrite <-app_assoc in *. destruct (link_walk_below r Hq) as [Hw _].
    rewrite Hw in Hs. right. destruct r; [|done]. injection Hs as <-. done.
  - rewrite link_walk in Hs by done. left. split; [done|]. by apply (pt_tables w root Hok q).
Qed.

Lemma link_new : walk (fa_mem w2) root (p ++ [i]) = Some f.
Proof. apply (link_walk_below []). by apply short_snoc. Qed.

Lemma link_step : pt_step root w w2.
Proof.
  destruct link_write as (Hw & Hc & _). split.
  - intros g Hg. by apply Hc, link_client.
  - intros g a Hg Hnt Ha. rewrite link_mem.
    rewrite (slot_outside (fa_mem w1) t i (Z.lor f flags) Hi).
    + by apply (ff_frame w f w1 Hf g).
    + assert (fa_client w t) by (by apply (pt_tables w root Hok p)).
      destruct (client_disjoint w g t) as [?|?]; [apply Hok|done|done| |lia|lia].
      intros ->. apply Hnt. by exists p.
  - intros q s Hq Hs. rewrite link_walk; [done..|]. intros [r ->].
    rewrite <-app_assoc in *. destruct (link_walk_below r Hq) as [_ Hn]. congruence.
  - intros g (q & Hq & Hs). apply link_walk_inv in Hs as [[Hs _]|[-> ->]]; [|right; apply Hf|done].
    left. by exists q.
Qed.

Lemma link_ok : pt_ok w2 root.
Proof.
  destruct link_write as (Hw & Hc & _). split; [done|..].
  - intros q s Hq Hs. apply Hc. apply link_walk_inv in Hs as [[_ Hs]|[_ ->]]; [|apply Hf|done].
    by apply link_client.
  - intros q1 q2 s H1 H2 Hs1 Hs2. pose proof (ff_new w f w1 Hf) as Hnew.
    apply link_walk_inv in Hs1 as [[Hs1 Hc1]|[-> ->]]; [|apply link_walk_inv in Hs2|done].
    + apply link_walk_inv in Hs2 as [[Hs2 Hc2]|[-> ->]]; [by apply (pt_tree w root Hok q1 q2 s)|done|done].
    + destruct Hs2 as [[Hs2 Hc2]|[-> _]]; done.
    + done.
  - intros q s j Hq Hl Hj Hs Hpres. apply link_walk_inv in Hs as [[Hs Hcs]|[-> ->]]; [| |done].
    + destruct (decide ((q, j) = (p, i))) as [[= -> ->]|Hne].
      * replace s with t by congruence. rewrite link_child. pose proof (ff_range w f w1 Hf). lia.
      * rewrite (link_entries q s j) in Hpres by done. unfold GetPageTable.
        rewrite (link_entries q s j) by done. by apply (pt_present w root Hok q s j).
    + by rewrite link_empty in Hpres.
Qed.

Lemma link_pages n : 0 ≤ n < 2 ^ 36 → pages (fa_mem w2) root n = pages (fa_mem w) root n.
Proof.
  intros Hn. unfold pages. pose proof (path_short (n * 4096)) as Hq.
  assert (Hidx : index (V_ADDR_INDEX (n * 4096) 1)) by (apply V_ADDR_INDEX_index; lia).
  destruct (decide ((p ++ [i]) `prefix_of` path (n * 4096))) as [[r Hr]|Hnp].
  - rewrite Hr, <-app_assoc in *. destruct (link_walk_below r Hq) as [-> ->].
    destruct r; [by apply link_empty|done].
  - rewrite link_walk by done.
    destruct (walk (fa_mem w) root (path (n * 4096))) as [s|] eqn:Hs; [|done].
    apply (link_entries (path (n * 4096))); [done..|]. intros [= Hx _]. subst p.
    simpl in Hlen. lia.
Qed.

End link.
(** *** Steps compose *)

Lemma pt_step_refl root w : pt_step root w w.
Proof. split; [done|done|done|]. by left. Qed.

Lemma pt_step_trans root w1 w2 w3 : pt_step root w1 w2 → pt_step root w2 w3 → pt_step root w1 w3.
Proof.
  intros [C1 F1 W1 N1] [C2 F2 W2 N2]. split.
  - intros g Hg. by apply C2, C1.
  - intros g a Hg Hnt Ha. rewrite (F2 g a), (F1 g a); [done..|by apply C1| |done].
    intros [?|?]%N1; [done|]. done.
  - intros p t Hp Ht. by apply W2, W1.
  - intros g [Hg|Hg]%N2; [by apply N1|]. right. intros ?. by apply Hg, C1.
Qed.

Definition same_pages (root : Z) (w w' : W) : Prop :=
  ∀ n, 0 ≤ n < 2 ^ 36 → pages (fa_mem w') root n = pages (fa_mem w) root n.

Definition flags_ok (flags : Z) : Prop := 0 ≤ flags < 512 ∧ Z.odd flags = true.

(** *** Descending with creation *)

Lemma GetOrCreatePageTable_sound w root p t i flags c w' :
  pt_ok w root → short p → (length p ≤ 2)%nat → index i → walk (fa_mem w) root p = Some t →
  flags_ok flags → GetOrCreatePageTable w t i flags = Done (c, w') →
  pt_ok w' root ∧ pt_step root w w' ∧ same_pages root w w' ∧
  (c ≠ 0 → walk (fa_mem w') root (p ++ [i]) = Some c).
Proof.
  intros Hok Hp Hl Hi Ht [Hf Hodd] Hr. unfold GetOrCreatePageTable in Hr.
  destruct (GetPageFlag _ _) eqn:Hfl.
  - injection Hr as <- <-. split_and!; [done|apply pt_step_refl|done|]. intros Hc.
    rewrite walk_snoc, Ht. unfold GetPageTable. rewrite Hfl. by destruct (Z.eqb_spec (Z.land (ld64 (fa_mem w) (t + 8 * i)) NOT_511) 0).
  - apply bind_Done_inv in Hr as ([f w1] & Ha & Hr).
    destruct (fa_alloc_result w f w1 (pt_world w root Hok) Ha) as [[-> ->]|[Hf0 Hfresh]].
    + injection Hr as <- <-. split_and!; [done|apply pt_step_refl|done|done].
    + rewrite (proj2 (Z.eqb_neq f 0) Hf0) in Hr. injection Hr as <- <-. split_and!.
      * by apply (link_ok w root p).
      * by apply (link_step w root p).
      * intros n Hn. by apply (link_pages w root p).
      * intros _. by apply (link_new w root p).
Qed.

Lemma GetOrCreatePageTable_avail w root p t i flags n :
  pt_ok w root → short p → (length p ≤ 2)%nat → index i → walk (fa_mem w) root p = Some t →
  fa_avail w (S n) →
  ∃ c w', GetOrCreatePageTable w t i flags = Done (c, w') ∧ c ≠ 0 ∧ fa_avail w' n.
Proof.
  intros Hok Hp Hl Hi Ht Ha. unfold GetOrCreatePageTable.
  destruct (GetPageFlag _ _) eqn:Hfl.
  - eexists _, w. split; [done|]. split; [|by apply fa_avail_S].
    pose proof (pt_present w root Hok p t i Hp Hl Hi Ht Hfl) as Hpr.
    unfold GetPageTable in Hpr. by rewrite Hfl in Hpr.
  - destruct (fa_alloc_avail w n) as (f & w1 & Hal & Hf0 & Hn); [apply Hok|done|].
    rewrite Hal. do_bind. rewrite (proj2 (Z.eqb_neq f 0) Hf0). eexists _, _. split; [done|].
    split; [done|].
    destruct (fa_alloc_result w f w1) as [[? ?]|[_ Hfr]]; [apply Hok|done|done|].
    apply (fa_write_ok _ w1 t); [apply Hfr| |by apply slot_outside|done].
    apply (ff_kept w f w1 Hfr). by apply (pt_tables w root Hok p).
Qed.

(** The last [k] of the three upper indices. *)
Fixpoint below (k : nat) (v : Z) : list Z :=
  match k with
  | O => []
  | S k' => V_ADDR_INDEX v (Z.of_nat k + 1) :: below k' v
  end.

Lemma create_descend_sound k v flags r w' : flags_ok flags → ∀ w root p t,
  pt_ok w root → short p → (length p + k = 3)%nat → walk (fa_mem w) root p = Some t →
  create_descend k w t v flags = Done (r, w') →
  pt_ok w' root ∧ pt_step root w w' ∧ same_pages root w w' ∧
  (∀ s, r = Some s → walk (fa_mem w') root (p ++ below k v) = Some s).
Proof.
  intros Hfl. induction k as [|k IH]; intros w root p t Hok Hp Hlen Ht Hr.
  - injection Hr as <- <-. split_and!; [done|apply pt_step_refl|done|].
    intros s [= <-]. cbn [below]. by rewrite app_nil_r.
  - cbn [create_descend] in Hr. apply bind_Done_inv in Hr as ([c w1] & Hc & Hr).
    assert (Hi : index (V_ADDR_INDEX v (Z.of_nat (S k) + 1))) by (apply V_ADDR_INDEX_index; lia).
    apply (GetOrCreatePageTable_sound w root p) in Hc as (Hok1 & Hs1 & Hp1 & Hw1);
      [|done|done|lia|done..].
    destruct (Z.eqb_spec c 0) as [->|Hc].
    { injection Hr as <- <-. by split_and!. }
    apply (IH w1 root (p ++ [V_ADDR_INDEX v (Z.of_nat (S k) + 1)])) in Hr as (Hok2 & Hs2 & Hp2 & Hw2);
      [|done|apply short_snoc; [lia|done|done]|rewrite length_app; simpl; lia|by apply Hw1].
    split_and!; [done|by eapply pt_step_trans|intros n Hn; by rewrite Hp2, Hp1|].
    intros s Hs. rewrite <-(Hw2 s Hs), <-app_assoc. done.
Qed.

Lemma create_descend_avail k v flags n : flags_ok flags → ∀ w root p t,
  pt_ok w root → short p → (length p + k = 3)%nat → walk (fa_mem w) root p = Some t →
  fa_avail w (k + n) →
  ∃ s w', create_descend k w t v flags = Done (Some s, w') ∧ fa_avail w' n.
Proof.
  intros Hfl. induction k as [|k IH]; intros w root p t Hok Hp Hlen Ht Ha.
  - by exists t, w.
  - cbn [create_descend].
    assert (Hi : index (V_ADDR_INDEX v (Z.of_nat (S k) + 1))) by (apply V_ADDR_INDEX_index; lia).
    destruct (GetOrCreatePageTable_avail w root p t (V_ADDR_INDEX v (Z.of_nat (S k) + 1)) flags (k + n))
      as (c & w1 & Hc & Hc0 & Ha1); [done|done|lia|done..|].
    rewrite Hc. do_bind. rewrite (proj2 (Z.eqb_neq c 0) Hc0).
    apply (GetOrCreatePageTable_sound w root p) in Hc as (Hok1 & _ & _ & Hw1); [|done|done|lia|done..].
    apply (IH w1 root (p ++ [V_ADDR_INDEX v (Z.of_nat (S k) + 1)]));
      [done|apply short_snoc; [lia|done|done]|rewrite length_app; simpl; lia|by apply Hw1|done].
Qed.

(** A frame per missing table is enough. *)
Lemma create_descend_missing k v flags n : flags_ok flags → ∀ w root p t,
  pt_ok w root → short p → (length p + k = 3)%nat → walk (fa_mem w) root p = Some t →
  fa_avail w (missing k (fa_mem w) t v + n) →
  ∃ s w', create_descend k w t v flags = Done (Some s, w') ∧ fa_avail w' n.
Proof.
  intros Hfl. induction k as [|k IH]; intros w root p t Hok Hp Hlen Ht Ha; [by exists t, w|].
  assert (Hi : index (V_ADDR_INDEX v (Z.of_nat (S k) + 1))) by (apply V_ADDR_INDEX_index; lia).
  cbn [missing] in Ha. destruct (Z.eqb_spec (GetPageTable (fa_mem w) t (V_ADDR_INDEX v (Z.of_nat (S k) + 1))) 0)
    as [_|Hc]; [by apply (create_descend_avail (S k) v flags n Hfl w root p t)|].
  set (i := V_ADDR_INDEX v (Z.of_nat (S k) + 1)) in *. pose proof Hc as Hc'. unfold GetPageTable in Hc'.
  cbn [create_descend]. fold i. unfold GetOrCreatePageTable.
  destruct (GetPageFlag (ld64 (fa_mem w) (t + 8 * i)) PRESENT) eqn:Hpr; [|done]. do_bind.
  rewrite (proj2 (Z.eqb_neq _ 0) Hc').
  assert (Hchild : GetPageTable (fa_mem w) t i = Z.land (ld64 (fa_mem w) (t + 8 * i)) NOT_511)
    by (unfold GetPageTable; by rewrite Hpr).
  rewrite <-Hchild in Hc' |- *.
  apply (IH w root (p ++ [i])); [done|apply short_snoc; [lia|done|done]|rewrite length_app; simpl; lia| |done].
  rewrite walk_snoc, Ht. cbn zeta. by rewrite (proj2 (Z.eqb_neq _ 0) Hc').
Qed.

Lemma missing_le k m t v : (missing k m t v ≤ k)%nat.
Proof.
  revert t. induction k as [|k IH]; intros t; [done|]. cbn [missing].
  destruct (_ =? 0); [done|]. etrans; [apply IH|lia].
Qed.

Lemma missing_walk m root v t : walk m root (path v) = Some t → missing 3 m root v = 0%nat.
Proof.
  unfold path. cbn [walk missing]. change (Z.of_nat 3 + 1) with 4. change (Z.of_nat 2 + 1) with 3.
  change (Z.of_nat 1 + 1) with 2. by repeat destruct (_ =? 0).
Qed.

(** After the page of [a] has its tables, the next page lacks only those that
    begin with it. *)
Lemma missing_next m root a t :
  walk m root (path (u64 a)) = Some t →
  (missing 3 m root (u64 (a + 4096)) ≤ Z.to_nat (tables_before (a / 4096 + 1) - tables_before (a / 4096)))%nat.
Proof.
  assert (Hidx : ∀ x l, 2 ≤ l ≤ 4 → V_ADDR_INDEX (u64 x) l = (x / 4096 / 512 ^ (l - 1)) mod 512).
  { intros x l Hl. rewrite V_ADDR_INDEX_div by lia. unfold u64. rewrite Z.div_div by lia.
    assert (2 ^ (12 + 9 * (l - 1)) = 4096 * 512 ^ (l - 1)) as ->.
    { change 512 with (2 ^ 9) at 1. change 4096 with (2 ^ 12). rewrite <-Z.pow_mul_r, <-Z.pow_add_r by lia. done. }
    change (2 ^ 64) with (4096 * 512 ^ 5 * 128).
    assert (l = 2 ∨ l = 3 ∨ l = 4) as [->|[->| ->]] by lia; cbn -[Z.modulo Z.div]; dlia. }
  intros Hw. unfold path in Hw. cbn [walk] in Hw. cbn [missing].
  change (Z.of_nat 3 + 1) with 4. change (Z.of_nat 2 + 1) with 3. change (Z.of_nat 1 + 1) with 2.
  rewrite !Hidx in Hw |- * by lia. replace ((a + 4096) / 4096) with (a / 4096 + 1) by dlia.
  set (n := a / 4096) in *. clearbody n. unfold tables_before.
  change (512 ^ (4 - 1)) with (2 ^ 27) in *. change (512 ^ (3 - 1)) with (2 ^ 18) in *.
  change (512 ^ (2 - 1)) with 512 in *.
  assert (H1 : n / 512 ≤ (n + 1) / 512 ≤ n / 512 + 1) by dlia.
  assert (H2 : n / 2 ^ 18 ≤ (n + 1) / 2 ^ 18 ≤ n / 2 ^ 18 + 1) by dlia.
  assert (H3 : n / 2 ^ 27 ≤ (n + 1) / 2 ^ 27 ≤ n / 2 ^ 27 + 1) by dlia.
  assert (H12 : (n + 1) / 512 = n / 512 → (n + 1) / 2 ^ 18 = n / 2 ^ 18) by dlia.
  assert (H23 : (n + 1) / 2 ^ 18 = n / 2 ^ 18 → (n + 1) / 2 ^ 27 = n / 2 ^ 27) by dlia.
  destruct (decide ((n + 1) / 2 ^ 27 = n / 2 ^ 27)) as [E3|N3].
  - rewrite E3. destruct (_ =? 0); [done|].
    destruct (decide ((n + 1) / 2 ^ 18 = n / 2 ^ 18)) as [E2|N2].
    + rewrite E2. destruct (_ =? 0); [done|].
      destruct (decide ((n + 1) / 512 = n / 512)) as [E1|N1].
      * rewrite E1. destruct (_ =? 0); [done|]. lia.
      * repeat destruct (_ =? 0); first [done|lia].
    + repeat destruct (_ =? 0); first [done|lia].
  - repeat destruct (_ =? 0); first [done|lia].
Qed.

(** *** One page *)

Lemma table_positive w root p t : pt_ok w root → short p → walk (fa_mem w) root p = Some t → 0 < t.
Proof.
  intros Hok Hp Ht. apply (fa_client_aligned w t); [apply Hok|].
  by apply (pt_tables w root Hok p).
Qed.

Lemma short_nil : short [].
Proof. split; [simpl; lia|done]. Qed.

Lemma entry_nonzero w root v t :
  pt_ok w root → walk (fa_mem w) root (path v) = Some t → (t + 8 * V_ADDR_INDEX v 1 =? 0) = false.
Proof.
  intros Hok Ht. apply Z.eqb_neq. pose proof (table_positive w root _ t Hok (path_short v) Ht).
  pose proof (V_ADDR_INDEX_index v 1 ltac:(lia)). unfold index in *. lia.
Qed.

Lemma MapPage_result w root v paddr flags b w' :
  pt_ok w root → flags_ok flags → 0 ≤ paddr < 2 ^ 64 →
  MapPage w root v paddr flags = Done (b, w') →
  pt_ok w' root ∧ pt_step root w w' ∧
  ∀ n, 0 ≤ n < 2 ^ 36 →
    pages (fa_mem w') root n =
      if b && (n =? page_no v) then Z.lor paddr flags else pages (fa_mem w) root n.
Proof.
  intros Hok Hfl Hpa Hr. unfold MapPage, CreatePage in Hr.
  apply bind_Done_inv in Hr as ([e w1] & Hc & Hr).
  apply bind_Done_inv in Hc as ([r w2] & Hc & He).
  apply (create_descend_sound 3 v flags r w2 Hfl w root []) in Hc as (Hok2 & Hs2 & Hp2 & Hw2);
    [|done|apply short_nil|done|done].
  destruct r as [t|].
  - injection He as <- <-. specialize (Hw2 t eq_refl). change ([] ++ below 3 v) with (path v) in Hw2.
    rewrite (entry_nonzero w2 root v t) in Hr by done. injection Hr as <- <-.
    assert (Hi : index (V_ADDR_INDEX v 1)) by (apply V_ADDR_INDEX_index; lia).
    split_and!.
    + apply (leaf_ok w2 root (path v)); (done || apply path_short).
    + apply (pt_step_trans root w w2); [done|].
      apply (leaf_step w2 root (path v)); (done || apply path_short).
    + intros n Hn. rewrite (leaf_pages w2 root (path v) t _ _ Hok2 (path_short v) eq_refl Hi Hw2 v);
        [|done|done|apply lor_range; destruct Hfl; lia|done].
      cbn [andb]. destruct (n =? page_no v); [done|by apply Hp2].
  - injection He as <- <-. injection Hr as <- <-. split_and!; [done|done|]. intros n Hn. by apply Hp2.
Qed.

Lemma MapPage_missing w root v paddr flags n :
  pt_ok w root → flags_ok flags → fa_avail w (missing 3 (fa_mem w) root v + n) →
  ∃ w' t, MapPage w root v paddr flags = Done (true, w') ∧ fa_avail w' n ∧
    walk (fa_mem w') root (path v) = Some t.
Proof.
  intros Hok Hfl Ha. unfold MapPage, CreatePage.
  destruct (create_descend_missing 3 v flags n Hfl w root [] root) as (t & w1 & Hc & Ha1);
    [done|apply short_nil|done|done|done|].
  rewrite Hc. do_bind.
  apply (create_descend_sound 3 v flags _ w1 Hfl w root []) in Hc as (Hok1 & _ & _ & Hw1);
    [|done|apply short_nil|done|done].
  specialize (Hw1 t eq_refl). change ([] ++ below 3 v) with (path v) in Hw1.
  rewrite (entry_nonzero w1 root v t) by done. eexists _, t. split; [done|]. split.
  - apply (leaf_write w1 root (path v)); [done|apply path_short|apply V_ADDR_INDEX_index; lia|done|done].
  - rewrite (leaf_walk w1 root (path v)); [done|done|apply path_short|done|apply V_ADDR_INDEX_index; lia|done|apply path_short].
Qed.

Lemma avail_le w j k : (k ≤ j)%nat → fa_avail w j → fa_avail w k.
Proof.
  intros Hle. replace j with ((j - k) + k)%nat by lia. generalize (j - k)%nat as d.
  intros d. induction d as [|d IH]; [done|]. intros Hd. by apply IH, fa_avail_S.
Qed.

Lemma MapPage_avail w root v paddr flags n :
  pt_ok w root → flags_ok flags → fa_avail w (3 + n) →
  ∃ w', MapPage w root v paddr flags = Done (true, w') ∧ fa_avail w' n.
Proof.
  intros Hok Hfl Ha. destruct (MapPage_missing w root v paddr flags n Hok Hfl) as (w' & t & ? & ? & _).
  - eapply avail_le, Ha. pose proof (missing_le 3 (fa_mem w) root v). lia.
  - by exists w'.
Qed.

(** Reading the mapping back. *)
Lemma VAddrToPAddr_pages m root v :
  VAddrToPAddr m root v = pages m root (page_no v) - pages m root (page_no v) mod 512.
Proof.
  unfold VAddrToPAddr. rewrite descend_walk, pages_page_no.
  destruct (walk m root (path v)); [|done]. apply mask_511, ld64_range.
Qed.

Lemma UnmapPage_result s root v :
  pt_ok (frames s) root →
  let '(b, s') := UnmapPage s root v in
  b = negb (GetPage (fa_mem (frames s)) root v =? 0) ∧
  invlpg s' = (if b then [v] else []) ++ invlpg s ∧
  pt_ok (frames s') root ∧ pt_step root (frames s) (frames s') ∧
  (∀ k, fa_avail (frames s) k → fa_avail (frames s') k) ∧
  ∀ n, 0 ≤ n < 2 ^ 36 →
    pages (fa_mem (frames s')) root n =
      if n =? page_no v then 0 else pages (fa_mem (frames s)) root n.
Proof.
  intros Hok. unfold UnmapPage, GetPage. rewrite descend_walk.
  destruct (walk (fa_mem (frames s)) root (path v)) as [t|] eqn:Ht.
  - rewrite (entry_nonzero (frames s) root v t) by done. cbn [negb frames invlpg].
    assert (Hi : index (V_ADDR_INDEX v 1)) by (apply V_ADDR_INDEX_index; lia).
    split_and!; [done|done|..].
    + apply (leaf_ok (frames s) root (path v)); (done || apply path_short).
    + apply (leaf_step (frames s) root (path v)); (done || apply path_short).
    + apply (leaf_write (frames s) root (path v)); (done || apply path_short).
    + intros n Hn. rewrite (leaf_pages (frames s) root (path v) t _ _ Hok (path_short v) eq_refl Hi Ht v);
        done || lia.
  - cbn. split_and!; [done|done|done|apply pt_step_refl|done|].
    intros n Hn. destruct (Z.eqb_spec n (page_no v)) as [->|]; [|done].
    by rewrite pages_page_no, Ht.
Qed.

(** *** A new page table *)

Lemma fresh_walk w f w1 p : fresh_frame w f w1 → short p →
  walk (fa_mem w1) f p = match p with [] => Some f | _ => None end.
Proof.
  intros Hf [_ Hp]. destruct p as [|i p]; [done|]. apply Forall_cons in Hp as [Hi _].
  cbn [walk]. rewrite GetPageTable_zero; [done|]. apply ld_zero. unfold index in Hi.
  intros b Hb. apply (ff_zero w f w1 Hf). lia.
Qed.

(** A frame that has just been handed out is an empty page table. *)
Lemma pt_ok_fresh w f w1 : fresh_frame w f w1 →
  pt_ok w1 f ∧ (∀ n, pages (fa_mem w1) f n = 0) ∧ (∀ g, is_table w1 f g → g = f).
Proof.
  intros Hf. split_and!.
  - split; [apply Hf|..].
    + intros p t Hp. rewrite (fresh_walk w f w1) by done. destruct p; [|done]. intros [= <-].
      apply Hf.
    + intros p q t Hp Hq. rewrite !(fresh_walk w f w1) by done. by destruct p, q.
    + intros p t i Hp _ Hi. rewrite (fresh_walk w f w1) by done. destruct p; [|done].
      intros [= <-]. rewrite (ld_zero 8); [done|]. unfold index in Hi.
      intros b Hb. apply (ff_zero w f w1 Hf). lia.
  - intros n. unfold pages. by rewrite (fresh_walk w f w1) by (done || apply path_short).
  - intros g (p & Hp & Hg). rewrite (fresh_walk w f w1) in Hg by done. destruct p; [|done].
    by injection Hg.
Qed.

(** Whatever keeps the frames of a page table to it and their contents keeps
    the page table. *)
Lemma tables_kept root w w' :
  pt_ok w root → fa_ok w' → (∀ g, fa_client w g → fa_client w' g) →
  (∀ g a, is_table w root g → g ≤ a < g + 4096 → ld8 (fa_mem w') a = ld8 (fa_mem w) a) →
  pt_ok w' root ∧ same_pages root w w' ∧ (∀ f, is_table w' root f → is_table w root f).
Proof.
  intros Hok Hw' Hkept Hsame.
  assert (Hent : ∀ q s j, short q → index j → walk (fa_mem w) root q = Some s →
    ld64 (fa_mem w') (s + 8 * j) = ld64 (fa_mem w) (s + 8 * j)).
  { intros q s j Hq Hj Hw. apply ld_ext. intros b Hb. unfold index in Hj.
    apply (Hsame s); [by exists q|lia]. }
  assert (Hwalk : ∀ q, short q → walk (fa_mem w') root q = walk (fa_mem w) root q).
  { intros q Hq. apply walk_ext. intros q' j r s -> Hw.
    assert (short (q' ++ [j])) as (Hl & ? & ?)%short_snoc_inv.
    { apply (short_app _ r). by rewrite <-app_assoc. }
    by apply (Hent q'). }
  split_and!.
  - split; [done|..].
    + intros p t Hp. rewrite Hwalk by done. intros Ht. by apply Hkept, (pt_tables w root Hok p).
    + intros p q t Hp Hq. rewrite !Hwalk by done. by apply pt_tree.
    + intros p t i Hp Hl Hi. rewrite Hwalk by done. intros Ht. unfold GetPageTable.
      rewrite (Hent p) by done. by apply (pt_present w root Hok p).
  - intros n Hn. unfold pages. rewrite Hwalk by apply path_short.
    destruct (walk (fa_mem w) root _) as [s|] eqn:Hw; [|done].
    apply (Hent (path (n * 4096))); [apply path_short|apply V_ADDR_INDEX_index; lia|done].
  - intros f (p & Hp & Hf). rewrite Hwalk in Hf by done. by exists p.
Qed.

Lemma is_table_client w root f : pt_ok w root → is_table w root f → fa_client w f.
Proof. intros Hok (p & Hp & Hf). by apply (pt_tables w root Hok p). Qed.

(** A step of one page table leaves a page table with other frames alone. *)
Lemma pt_step_other root1 root2 w w' :
  pt_ok w root2 → fa_ok w' → pt_step root1 w w' →
  (∀ f, is_table w root2 f → ¬ is_table w root1 f) →
  pt_ok w' root2 ∧ same_pages root2 w w' ∧ (∀ f, is_table w' root2 f → ¬ is_table w' root1 f).
Proof.
  intros Hok Hw' Hs Hdis.
  destruct (tables_kept root2 w w') as (Hok' & Hp & Ht); [done|done|apply Hs| |].
  { intros g a Hg. apply (ps_frames root1 w w' Hs); [by eapply is_table_client|by apply Hdis]. }
  split_and!; [done|done|]. intros f Hf%Ht Hf1.
  destruct (ps_new root1 w w' Hs f Hf1) as [?|Hn]; [by apply (Hdis f)|].
  apply Hn. by eapply is_table_client.
Qed.

(** So does handing out a frame, which becomes a second page table. *)
Lemma pt_ok_alloc root w f w1 :
  pt_ok w root → fresh_frame w f w1 →
  pt_ok w1 root ∧ pt_ok w1 f ∧ (∀ g, is_table w1 f g → ¬ is_table w1 root g).
Proof.
  intros Hok Hf. destruct (pt_ok_fresh w f w1 Hf) as (Hokf & _ & Htf).
  destruct (tables_kept root w w1) as (Hok' & Hp & Ht); [done|apply Hf|apply Hf| |].
  { intros g a Hg. apply (ff_frame w f w1 Hf g). by eapply is_table_client. }
  split_and!; [done|done|]. intros g ->%Htf Hg%Ht. apply (ff_new w f w1 Hf).
  by eapply is_table_client.
Qed.

Lemma pages_range m root n : 0 ≤ pages m root n < 2 ^ 64.
Proof. unfold pages. destruct (walk m root _); [apply ld64_range|lia]. Qed.

(** A page with an entry has a bottom-level table. *)
Lemma GetPage_mapped w root v :
  pt_ok w root → pages (fa_mem w) root (page_no v) ≠ 0 →
  negb (GetPage (fa_mem w) root v =? 0) = true.
Proof.
  intros Hok. rewrite pages_page_no. unfold GetPage. rewrite descend_walk.
  destruct (walk (fa_mem w) root (path v)) as [t|] eqn:Ht; [|done].
  by rewrite (entry_nonzero w root v t).
Qed.

(** ** Properties *)

(** C6: mapping a page is an insertion.  Whatever [MapPage] returns, the page
    table is still a well-formed tree; read as a function from page numbers to
    entries it has changed at the page of [v] only, to [paddr | flags], and
    only if the call reports success; and no frame outside the tables has been
    written. *)
Theorem MapPage_refines w root v paddr flags b w' :
  pt_ok w root → flags_ok flags → 0 ≤ paddr < 2 ^ 64 →
  MapPage w root v paddr flags = Done (b, w') →
  pt_ok w' root ∧
  (∀ n, 0 ≤ n < 2 ^ 36 →
    pages (fa_mem w') root n =
      if b && (n =? page_no v) then Z.lor paddr flags else pages (fa_mem w) root n) ∧
  (∀ g a, fa_client w g → ¬ is_table w root g → g ≤ a < g + 4096 →
    ld8 (fa_mem w') a = ld8 (fa_mem w) a).
Proof.
  intros Hok Hfl Hpa Hr. destruct (MapPage_result w root v paddr flags b w' Hok Hfl Hpa Hr)
    as (Hok' & Hs & Hp).
  split_and!; [done|done|apply (ps_frames root w w' Hs)].
Qed.

(** A mapping is found again: after a successful [MapPage], every address
    of the page of [v] translates to [paddr], and an address of any other page
    translates to what it did before. *)
Theorem MapPage_translates w root v paddr flags w' v' :
  pt_ok w root → flags_ok flags → 0 ≤ paddr < 2 ^ 64 → paddr mod 4096 = 0 →
  MapPage w root v paddr flags = Done (true, w') →
  VAddrToPAddr (fa_mem w') root v' =
    if page_no v' =? page_no v then paddr else VAddrToPAddr (fa_mem w) root v'.
Proof.
  intros Hok Hfl Hpa Hal Hr. destruct (MapPage_result w root v paddr flags true w' Hok Hfl Hpa Hr)
    as (_ & _ & Hp).
  rewrite !VAddrToPAddr_pages, (Hp (page_no v')) by apply page_no_range. cbn [andb].
  destruct (page_no v' =? page_no v); [|done]. destruct Hfl as [Hfl _].
  rewrite lor_flags by (done || dlia). dlia.
Qed.

(** [MapPage] terminates and succeeds when the allocator can serve one
    request for every upper table of the page that does not exist yet: at most
    three, and none for a page mapped before; afterwards none is missing. *)
Theorem MapPage_total w root v paddr flags :
  pt_ok w root → flags_ok flags → fa_avail w (missing 3 (fa_mem w) root v) →
  ∃ w', MapPage w root v paddr flags = Done (true, w') ∧ missing 3 (fa_mem w') root v = 0%nat ∧
    (missing 3 (fa_mem w) root v ≤ 3)%nat ∧
    (pages (fa_mem w) root (page_no v) ≠ 0 → missing 3 (fa_mem w) root v = 0%nat).
Proof.
  intros Hok Hfl Ha. destruct (MapPage_missing w root v paddr flags 0 Hok Hfl) as (w' & t & Hr & _ & Hw);
    [by rewrite Nat.add_0_r|].
  exists w'. split_and!; [done|by eapply missing_walk|apply missing_le|].
  rewrite pages_page_no. destruct (walk (fa_mem w) root (path v)) as [t'|] eqn:Hw'; [|done].
  intros _. by eapply missing_walk.
Qed.

(** C7: address spaces are isolated: mapping a page in one page table leaves
    another one, with which it shares no frame, well formed and with the same
    entries, and the two still share no frame. *)
Theorem MapPage_isolated w root1 root2 v paddr flags b w' :
  pt_ok w root1 → pt_ok w root2 → (∀ f, is_table w root2 f → ¬ is_table w root1 f) →
  flags_ok flags → 0 ≤ paddr < 2 ^ 64 → MapPage w root1 v paddr flags = Done (b, w') →
  pt_ok w' root2 ∧ same_pages root2 w w' ∧ (∀ f, is_table w' root2 f → ¬ is_table w' root1 f).
Proof.
  intros Hok1 Hok2 Hdis Hfl Hpa Hr.
  destruct (MapPage_result w root1 v paddr flags b w' Hok1 Hfl Hpa Hr) as (Hok' & Hs & _).
  apply (pt_step_other root1 root2 w w' Hok2); [apply Hok'|done|done].
Qed.

(** [UnmapPage] clears the entry of the page, changes no other one, and
    drops the cached translation exactly when it reports success, which is
    when the page has a bottom-level table (mapped or not). *)
Theorem UnmapPage_spec s root v :
  pt_ok (frames s) root →
  let '(b, s') := UnmapPage s root v in
  b = negb (GetPage (fa_mem (frames s)) root v =? 0) ∧
  invlpg s' = (if b then [v] else []) ++ invlpg s ∧
  pt_ok (frames s') root ∧
  VAddrToPAddr (fa_mem (frames s')) root v = 0 ∧
  ∀ n, 0 ≤ n < 2 ^ 36 →
    pages (fa_mem (frames s')) root n =
      if n =? page_no v then 0 else pages (fa_mem (frames s)) root n.
Proof.
  intros Hok. pose proof (UnmapPage_result s root v Hok) as Hr.
  destruct (UnmapPage s root v) as [b s']. destruct Hr as (Hb & Hinv & Hok' & _ & _ & Hp).
  split_and!; [done|done|done| |done].
  rewrite VAddrToPAddr_pages, Hp, Z.eqb_refl by apply page_no_range. done.
Qed.

(** [RemapPage] never looks at [new_vaddr]: given a mapped page and three
    free frames it succeeds, and the page of [former_vaddr] stays mapped to the
    physical address it had, with the new flags, while every other page, that
    of [new_vaddr] included, keeps its entry. *)
Theorem RemapPage_stays s root former_vaddr new_vaddr flags :
  pt_ok (frames s) root → flags_ok flags → fa_avail (frames s) 3 →
  pages (fa_mem (frames s)) root (page_no former_vaddr) ≠ 0 →
  ∃ s', RemapPage s root former_vaddr new_vaddr flags = Done (true, s') ∧
    pt_ok (frames s') root ∧ invlpg s' = former_vaddr :: invlpg s ∧
    (∀ n, 0 ≤ n < 2 ^ 36 →
      pages (fa_mem (frames s')) root n =
        if n =? page_no former_vaddr
        then Z.lor (VAddrToPAddr (fa_mem (frames s)) root former_vaddr) flags
        else pages (fa_mem (frames s)) root n).
Proof.
  intros Hok Hfl Ha Hmapped. unfold RemapPage.
  pose proof (UnmapPage_result s root former_vaddr Hok) as Hu.
  destruct (UnmapPage s root former_vaddr) as [b1 s1].
  destruct Hu as (Hb & Hinv & Hok1 & _ & Ha1 & Hp1).
  assert (b1 = true) as -> by (rewrite Hb; by apply GetPage_mapped).
  set (paddr := VAddrToPAddr (fa_mem (frames s)) root former_vaddr).
  destruct (MapPage_avail (frames s1) root former_vaddr paddr flags 0) as (w2 & Hm & _);
    [done|done|by apply Ha1|].
  rewrite Hm. do_bind. eexists. split; [done|].
  apply MapPage_result in Hm as (Hok2 & _ & Hp2); [|done|done|].
  - split_and!; [done|done|]. intros n Hn. cbn [set_frames frames].
    rewrite Hp2 by done. cbn [andb].
    destruct (n =? page_no former_vaddr) eqn:Hn'; [done|]. rewrite Hp1 by done. by rewrite Hn'.
  - subst paddr. rewrite VAddrToPAddr_pages.
    pose proof (pages_range (fa_mem (frames s)) root (page_no former_vaddr)). dlia.
Qed.

End lemmas.

(** ** A page table on the physical memory manager *)

(** On a machine with all its memory free, two page tables can be allocated. *)
Lemma ex_two_tables : ∃ (r1 r2 : Z) (w : pmm),
  pt_ok w r1 ∧ pt_ok w r2 ∧ (∀ f, is_table w r2 f → ¬ is_table w r1 f) ∧ fa_avail w 6.
Proof.
  destruct (fa_alloc_avail blank_pmm 7 blank_ok) as (r1 & w1 & Ha1 & Hr1 & Hav1);
    [apply blank_avail; lia|].
  destruct (fa_alloc_result _ _ _ blank_ok Ha1) as [[? ?]|[_ Hf1]]; [done|].
  destruct (pt_ok_fresh _ _ _ Hf1) as (Hok1 & _ & _).
  destruct (fa_alloc_avail w1 6 (ff_ok _ _ _ Hf1)) as (r2 & w2 & Ha2 & Hr2 & Hav2); [done|].
  destruct (fa_alloc_result _ _ _ (ff_ok _ _ _ Hf1) Ha2) as [[? ?]|[_ Hf2]]; [done|].
  destruct (pt_ok_alloc r1 w1 r2 w2 Hok1 Hf2) as (? & ? & ?).
  by exists r1, r2, w2.
Qed.

Lemma user_flags : flags_ok USER_PAGE.
Proof. split; [vm_compute; by split|done]. Qed.

Lemma MapPage_total_witness : ∃ (w : pmm) root w',
  MapPage w root 0x400000 0x5000 USER_PAGE = Done (true, w') ∧ missing 3 (fa_mem w') root 0x400000 = 0%nat.
Proof.
  destruct ex_two_tables as (r1 & r2 & w & Hok & _ & _ & Ha). exists w, r1.
  destruct (MapPage_total w r1 0x400000 0x5000 USER_PAGE) as (w' & H1 & H2 & _); [exact Hok|exact user_flags| |].
  - refine (avail_le w 6 _ _ Ha). transitivity 3%nat; [exact (missing_le _ _ _ _)|lia].
  - exists w'. exact (conj H1 H2).
Defined.

Lemma MapPage_refines_witness : ∃ (w : pmm) root w',
  pt_ok w' root ∧ pages (fa_mem w') root 0x400 = 0x5007 ∧
  pages (fa_mem w') root 0x401 = pages (fa_mem w) root 0x401.
Proof.
  destruct ex_two_tables as (r1 & r2 & w & Hok & _ & _ & Ha). exists w, r1.
  destruct (MapPage_avail w r1 0x400000 0x5000 USER_PAGE 3 Hok user_flags Ha) as (w' & Hr & _).
  destruct (MapPage_refines w r1 0x400000 0x5000 USER_PAGE true w' Hok user_flags ltac:(lia) Hr)
    as (Hok' & Hp & _).
  exists w'. split; [exact Hok'|].
  split; [exact (Hp 0x400 ltac:(lia))|exact (Hp 0x401 ltac:(lia))].
Defined.

Lemma MapPage_translates_witness : ∃ (w w' : pmm) root,
  VAddrToPAddr (fa_mem w') root 0x400123 = 0x5000.
Proof.
  destruct ex_two_tables as (r1 & r2 & w & Hok & _ & _ & Ha).
  destruct (MapPage_avail w r1 0x400000 0x5000 USER_PAGE 3 Hok user_flags Ha) as (w' & Hr & _).
  exists w, w', r1.
  exact (MapPage_translates w r1 0x400000 0x5000 USER_PAGE w' 0x400123 Hok user_flags
           ltac:(lia) eq_refl Hr).
Defined.

Lemma MapPage_isolated_witness : ∃ (w w' : pmm) root1 root2,
  MapPage w root1 0x400000 0x5000 USER_PAGE = Done (true, w') ∧ pt_ok w' root2 ∧
  same_pages root2 w w'.
Proof.
  destruct ex_two_tables as (r1 & r2 & w & Hok1 & Hok2 & Hdis & Ha).
  destruct (MapPage_avail w r1 0x400000 0x5000 USER_PAGE 3 Hok1 user_flags Ha) as (w' & Hr & _).
  exists w, w', r1, r2. split; [exact Hr|].
  destruct (MapPage_isolated w r1 r2 0x400000 0x5000 USER_PAGE true w' Hok1 Hok2 Hdis user_flags
              ltac:(lia) Hr) as (H1 & H2 & _).
  split; [exact H1|exact H2].
Defined.

Lemma UnmapPage_spec_witness : ∃ (w : pmm) root,
  let '(b, s') := UnmapPage (Machine w []) root 0x400000 in
  VAddrToPAddr (fa_mem (frames s')) root 0x400000 = 0.
Proof.
  destruct ex_two_tables as (r1 & r2 & w & Hok & _). exists w, r1.
  pose proof (UnmapPage_spec (Machine w []) r1 0x400000 Hok) as H.
  destruct (UnmapPage (Machine w []) r1 0x400000) as [b s'].
  destruct H as (_ & _ & _ & H & _). exact H.
Defined.

(** Mapping a page and remapping it: the page stays where it was. *)
Lemma RemapPage_stays_witness : ∃ (w w' : pmm) (s' : machine pmm) root,
  MapPage w root 0x400000 0x5000 USER_PAGE = Done (true, w') ∧
  RemapPage (Machine w' []) root 0x400000 0x800000 KERNEL_PAGE = Done (true, s') ∧
  pages (fa_mem (frames s')) root 0x400 = 0x5003 ∧
  pages (fa_mem (frames s')) root 0x800 = pages (fa_mem w') root 0x800.
Proof.
  destruct ex_two_tables as (r1 & r2 & w & Hok & _ & _ & Ha).
  destruct (MapPage_avail w r1 0x400000 0x5000 USER_PAGE 3 Hok user_flags Ha) as (w' & Hr & Ha').
  destruct (MapPage_result w r1 0x400000 0x5000 USER_PAGE true w' Hok user_flags ltac:(lia) Hr)
    as (Hok' & _ & Hp).
  destruct (RemapPage_stays (Machine w' []) r1 0x400000 0x800000 KERNEL_PAGE Hok')
    as (s' & Hr' & _ & _ & Hp').
  { split; [vm_compute; split; [discriminate|reflexivity]|reflexivity]. }
  { exact Ha'. }
  { cbn [frames]. change (page_no 0x400000) with 0x400. rewrite (Hp 0x400) by lia. discriminate. }
  exists w, w', s', r1. split; [exact Hr|]. split; [exact Hr'|]. split.
  - rewrite Hp' by lia. cbn [frames]. rewrite VAddrToPAddr_pages.
    change (page_no 0x400000) with 0x400. rewrite (Hp 0x400) by lia. reflexivity.
  - exact (Hp' 0x800 ltac:(lia)).
Defined.
