(* ===== verification/Region.v ===== *)
(** * Frames that lie together

    The count of free frames says that single allocations succeed; a contiguous
    region needs free frames next to each other above [last_used].  Every
    availability that survives single allocations makes the physical memory
    manager a frame allocator of its own ([with_avail]), so that what is proved
    against the interface holds for regions too. *)
From stdpp Require Import base list gmap.
From S2P Require Import Prelude Memory Pmm FrameAlloc PageTable.

(** ** Other availabilities *)

(** What an availability has to satisfy: it only depends on the bitmap, and an
    allocation uses up at most one frame. *)
Record availability (P : pmm → nat → Prop) : Prop := {
  av_write w m k : pmm_ok w → bitmap_kept w m → P w k → P (set_pmm_mem w m) k;
  av_alloc w k :
    pmm_ok w → P w (S k) →
    ∃ i, first_free w (candidates w) = Some i ∧ P (take_frame w i) k;
  av_S w k : P w (S k) → P w k;
}.

(** The same operations and the same invariant. *)
Definition with_avail (P : pmm → nat → Prop) : FrameAllocator pmm := {|
  fa_alloc := AllocFirstFrame;
  fa_mem := pmm_mem;
  fa_write m w := set_pmm_mem w m;
  fa_ok := pmm_ok;
  fa_client := pmm_client;
  fa_avail := P;
|}.

(** Facts that do not mention the availability move between the two. *)
Lemma fresh_frame_avail P w f w' : fresh_frame w f w' ↔ @fresh_frame pmm (with_avail P) w f w'.
Proof. split; intros []; by split. Qed.

Lemma pt_ok_avail P w root : pt_ok w root ↔ @pt_ok pmm (with_avail P) w root.
Proof. split; intros []; by split. Qed.

Lemma with_avail_laws P : availability P → @FrameAllocatorLaws pmm (with_avail P).
Proof.
  intros [Hwrite Halloc HS]. split.
  - exact (@fa_mem_write pmm pmm_FrameAllocator _).
  - exact (@fa_client_aligned pmm pmm_FrameAllocator _).
  - intros m w g Hok Hg Hm. pose proof (client_frame_kept w m g Hg Hm) as Hk.
    split_and!; [by apply pmm_ok_kept|by apply client_kept|]. intros k Hav. by apply Hwrite.
  - intros w f w' Hok Ha. destruct (@fa_alloc_result pmm pmm_FrameAllocator _ w f w' Hok Ha) as [?|[? Hf]]; [by left|right].
    split; [done|]. by apply fresh_frame_avail.
  - intros w k Hok Hk. destruct (Halloc w k Hok Hk) as (i & Hi & Hav).
    destruct (first_free_range w i Hok Hi) as [? _].
    exists (i * FRAME_SIZE), (take_frame w i). split_and!; [|unfold FRAME_SIZE; lia|exact Hav].
    change (AllocFirstFrame w = Done (i * FRAME_SIZE, take_frame w i)).
    by rewrite AllocFirstFrame_closed, Hi.
  - exact HS.
Qed.

(** The count of free frames is the availability of the interface's own
    instance. *)
Definition count_avail (w : pmm) (k : nat) : Prop := Z.of_nat k + 1 ≤ count_free w.

Lemma count_availability : availability count_avail.
Proof.
  split.
  - intros w m k Hok Hm Hk. unfold count_avail. by rewrite count_free_kept.
  - intros w k Hok Hk. unfold count_avail in *.
    destruct (first_free_avail w) as (i & Hi); [done|lia|].
    destruct (first_free_range w i Hok Hi) as [? Hu]. exists i. split; [done|].
    pose proof (count_free_take_frame w i Hok ltac:(lia) Hu) as Hc.
    destruct (i <? num_entries (PHYS_MEMORY_MAP w)); simpl Z.b2z in Hc; lia.
  - intros w k. unfold count_avail. lia.
Qed.

(** ** Free frames in a row *)

(** [k] free frames in a row above [last_used] and below frame [top]. *)
Definition free_above (top : Z) (w : pmm) (k : nat) : Prop :=
  ∃ a, last_used (PHYS_MEMORY_MAP w) < a ∧
    a + Z.of_nat k ≤ top ∧ a + Z.of_nat k ≤ num_entries (PHYS_MEMORY_MAP w) ∧
    ∀ j, a ≤ j < a + Z.of_nat k → used w j = false.

Lemma free_above_le top w k k' : free_above top w k → (k' ≤ k)%nat → free_above top w k'.
Proof. intros (a & ? & ? & ? & Hf) Hk. exists a. split_and!; [lia..|]. intros j Hj. apply Hf. lia. Qed.

(** One frame more is enough for the count. *)
Lemma free_above_avail top w k : pmm_ok w → free_above top w (S k) → fa_avail w k.
Proof.
  intros Hok (a & Ha & _ & Hn & Hf). pose proof (ok_last w Hok).
  pose proof (count_free_run w a (Z.of_nat (S k)) ltac:(lia) ltac:(lia) Hn Hf).
  change (Z.of_nat k + 1 ≤ count_free w). lia.
Qed.

(** The search looks at the frames above [last_used] first, in order. *)
Lemma first_free_above w a :
  last_used (PHYS_MEMORY_MAP w) < a < num_entries (PHYS_MEMORY_MAP w) → used w a = false →
  ∃ i, first_free w (candidates w) = Some i ∧ last_used (PHYS_MEMORY_MAP w) < i ≤ a.
Proof.
  intros Ha Hu. set (last := last_used (PHYS_MEMORY_MAP w)) in *.
  set (n := num_entries (PHYS_MEMORY_MAP w)) in *.
  assert (Hc : candidates w = seqZ (last + 1) (a - last) ++ seqZ (a + 1) (n - 1 - a) ++ seqZ 0 last).
  { unfold candidates. fold last n. rewrite (proj2 (Z.ltb_lt _ _)) by lia.
    replace (n - 1 - last) with ((a - last) + (n - 1 - a)) by lia. rewrite seqZ_app by lia.
    rewrite <-app_assoc. by replace (last + 1 + (a - last)) with (a + 1) by lia. }
  unfold first_free. rewrite Hc, find_app.
  destruct (List.find (is_free w) (seqZ (last + 1) (a - last))) as [i|] eqn:Hi.
  - exists i. split; [done|]. apply find_some in Hi as [Hin%list_elem_of_In%elem_of_seqZ _]. lia.
  - exfalso. assert (Hin : In a (seqZ (last + 1) (a - last))) by (apply list_elem_of_In, elem_of_seqZ; lia).
    pose proof (find_none _ _ Hi a Hin) as Hn. unfold is_free in Hn. by rewrite Hu in Hn.
Qed.

Lemma free_above_availability top : availability (free_above top).
Proof.
  split.
  - intros w m k Hok Hm (a & Ha & Ht & Hn & Hf). pose proof (ok_last w Hok).
    exists a. split_and!; [done..|]. intros j Hj. cbn [PHYS_MEMORY_MAP set_pmm_mem] in *.
    rewrite used_kept by (done || lia). by apply Hf.
  - intros w k Hok (a & Ha & Ht & Hn & Hf). pose proof (ok_last w Hok).
    destruct (first_free_above w a) as (i & Hi & Hia); [lia|apply Hf; lia|].
    exists i. split; [done|]. destruct (first_free_range w i Hok Hi) as [Hi1 Hiu].
    exists (a + 1). cbn [last_used num_entries PHYS_MEMORY_MAP take_frame set_pmm_mem set_last_used mark].
    split_and!; [lia..|]. intros j Hj.
    rewrite used_take_frame by (done || lia). rewrite (proj2 (Z.eqb_neq j i)) by lia. apply Hf. lia.
  - intros w k Hk. by eapply free_above_le; [|apply Nat.le_succ_diag_r].
Qed.

Definition free_above_laws top : @FrameAllocatorLaws pmm (with_avail (free_above top)) :=
  with_avail_laws _ (free_above_availability top).

(** [AllocContiguous] finds a region among them, and uses up two frames more
    than it was asked for. *)
Lemma free_above_run top w np k :
  pmm_ok w → 0 < np → free_above top w (Z.to_nat np + 2 + k) →
  ∃ b, first_run w np = Some b ∧ last_used (PHYS_MEMORY_MAP w) < b ∧ b + np < top ∧
    ∀ w', contiguous_taken w b np w' → free_above top w' k.
Proof.
  intros Hok Hnp (a & Ha & Ht & Hn & Hf). pose proof (ok_last w Hok). pose proof (ok_entries w Hok).
  set (last := last_used (PHYS_MEMORY_MAP w)) in *. set (n := num_entries (PHYS_MEMORY_MAP w)) in *.
  assert (Hrun : is_run w np a = true) by (apply is_run_true; intros j Hj; apply Hf; lia).
  assert (Hb : ∃ b, first_run w np = Some b ∧ b ≤ a).
  { unfold first_run. fold last n. replace (n - last) with ((a - last) + (n - a)) by lia.
    rewrite seqZ_app, find_app by lia.
    destruct (List.find (is_run w np) (seqZ (last + 1) (a - last))) as [b|] eqn:Hb.
    - exists b. split; [done|]. apply find_some in Hb as [Hin%list_elem_of_In%elem_of_seqZ _]. lia.
    - exfalso. assert (Hin : In a (seqZ (last + 1) (a - last))) by (apply list_elem_of_In, elem_of_seqZ; lia).
      pose proof (find_none _ _ Hb a Hin) as Hno. by rewrite Hrun in Hno. }
  destruct Hb as (b & Hb & Hba). exists b.
  pose proof (first_run_range w np b Hok ltac:(lia) Hb) as [Hb1 Hb2]. fold last in Hb1.
  split_and!; [done|done|lia|]. intros w' Hc. exists (a + np + 2).
  destruct (ct_map _ _ _ _ Hc) as (Hnn & _ & _). rewrite Hnn, (ct_last _ _ _ _ Hc). fold n.
  split_and!; [lia..|]. intros j Hj. rewrite (ct_used _ _ _ _ Hc) by lia.
  rewrite (proj2 (Z.leb_gt j (b + np + 1))), andb_false_r by lia. apply Hf. lia.
Qed.
