(* ===== verification/Vmm.v ===== *)
(** * The kernel's address space

    The rest of [src/src/kernel/memory_management/virtual_memory_manager.c]:
    ranges of pages, the mappings the kernel starts with and the operations on
    the kernel's own page table.  [boot_map] is the specification of the
    initial address space, a function from page numbers to entries that never
    mentions a table; [InitPageTable] builds a page table that implements it. *)
From stdpp Require Import base list gmap.
From S2P Require Import Prelude Memory Stivale Pmm FrameAlloc PageTable.

(** ** State *)

(** What the manager prints, and the loader of programs on top of it. *)
Inductive vm_message :=
| FailedMapping (addr vaddr : Z)
| TestedMapping (success : bool) (phys virt : Z)
| NoElfMagic.

Record vmm (W : Type) := Vmm {
  vm : machine W;
  KERNEL_PAGE_TABLE_ROOT : Z;
  BASE_ADDR : stivale2_struct_tag_kernel_base_address;
  PMRs : list stivale2_pmr;
  MMAP : list stivale2_mmap_entry;
  cr3 : Z;
  console : list vm_message;
}.
Arguments Vmm {W}.
Arguments vm {W}.
Arguments KERNEL_PAGE_TABLE_ROOT {W}.
Arguments BASE_ADDR {W}.
Arguments PMRs {W}.
Arguments MMAP {W}.
Arguments cr3 {W}.
Arguments console {W}.

Definition set_vm {W} (s : vmm W) (v : machine W) : vmm W :=
  Vmm v (KERNEL_PAGE_TABLE_ROOT s) (BASE_ADDR s) (PMRs s) (MMAP s) (cr3 s) (console s).
Definition set_world {W} (s : vmm W) (w : W) : vmm W := set_vm s (set_frames (vm s) w).
Definition print {W} (s : vmm W) (msg : vm_message) : vmm W :=
  Vmm (vm s) (KERNEL_PAGE_TABLE_ROOT s) (BASE_ADDR s) (PMRs s) (MMAP s) (cr3 s) (msg :: console s).
Definition world {W} (s : vmm W) : W := frames (vm s).

(** ** Operations *)

Section operations.
Context {W : Type} `{FrameAllocator W}.
Implicit Types (s : vmm W).

(** [for (addr = base; addr < bound; addr += FRAME_SIZE)]. *)
Fixpoint map_multiple_loop (fuel : nat) s (page_table_root addr bound offset flags : Z) :
    outcome (bool * vmm W) :=
  match fuel with
  | O => OutOfFuel
  | S f =>
      if addr <? bound then
        let vaddr := u64 (addr + offset) in
        '(success, w) ← MapPage (world s) page_table_root vaddr addr flags;
        if negb (success : bool) then Done (false, print (set_world s w) (FailedMapping addr vaddr))
        else map_multiple_loop f (set_world s w) page_table_root (u64 (addr + FRAME_SIZE)) bound
               offset flags
      else Done (true, s)
  end.

(** The pages from [base] up to [bound]. *)
Definition range_pages (base bound : Z) : nat := Z.to_nat ((bound - base + 4095) / 4096).

Definition MapMultiple s (page_table_root base bound offset flags : Z) : outcome (bool * vmm W) :=
  map_multiple_loop (S (range_pages base bound)) s page_table_root base bound offset flags.

Definition MapMultipleKernel s (base bound offset flags : Z) : outcome (bool * vmm W) :=
  MapMultiple s (KERNEL_PAGE_TABLE_ROOT s) base bound offset flags.

Definition GetKernelPage s (vaddr : Z) : Z :=
  GetPage (fa_mem (world s)) (KERNEL_PAGE_TABLE_ROOT s) vaddr.

Definition MapKernelPage s (vaddr paddr flags : Z) : outcome (bool * vmm W) :=
  '(b, w) ← MapPage (world s) (KERNEL_PAGE_TABLE_ROOT s) vaddr paddr flags;
  Done (b, set_world s w).

Definition UnmapKernelPage s (vaddr : Z) : bool * vmm W :=
  let '(b, v) := UnmapPage (vm s) (KERNEL_PAGE_TABLE_ROOT s) vaddr in (b, set_vm s v).

Definition KernelVAddrToPAddr s (vaddr : Z) : Z :=
  VAddrToPAddr (fa_mem (world s)) (KERNEL_PAGE_TABLE_ROOT s) vaddr.

Definition RemapKernelPage s (former_vaddr new_vaddr flags : Z) : outcome (bool * vmm W) :=
  let paddr := KernelVAddrToPAddr s former_vaddr in
  let '(unmap_code, s) := UnmapKernelPage s former_vaddr in
  '(map_code, s) ← MapKernelPage s former_vaddr paddr flags;
  Done (unmap_code && map_code, s).

(** [! pml1[pml1_entry] & PRESENT] negates first: it tests that the entry is
    zero. *)
Definition AssertKernelMapping s (phys_addr virt_addr : Z) : bool :=
  let m := fa_mem (world s) in
  if KERNEL_PAGE_TABLE_ROOT s =? 0 then false
  else
    let entry k := Z.shiftr (Z.land virt_addr (Z.shiftl 0x1ff k)) k in
    let pml3 := GetPageTable m (KERNEL_PAGE_TABLE_ROOT s) (entry 39) in
    if pml3 =? 0 then false
    else
      let pml2 := GetPageTable m pml3 (entry 30) in
      if pml2 =? 0 then false
      else
        let pml1 := GetPageTable m pml2 (entry 21) in
        if pml1 =? 0 then false
        else
          let e := ld64 m (pml1 + 8 * entry 12) in
          if negb (Z.land (if e =? 0 then 1 else 0) PRESENT =? 0) then false
          else Z.land e NOT_511 =? phys_addr.

Definition TestKernelMapping s (phys_addr virt_addr : Z) : vmm W :=
  print s (TestedMapping (AssertKernelMapping s phys_addr virt_addr) phys_addr virt_addr).

(** The loop over the protected memory ranges. *)
Fixpoint map_pmrs s (page_table_root : Z) (pmrs : list stivale2_pmr) (success : bool) :
    outcome (bool * vmm W) :=
  match pmrs with
  | [] => Done (success, s)
  | pmr :: pmrs =>
      let virt := pmr_base pmr in
      let phys := u64 (physical_base_address (BASE_ADDR s)
                       + (pmr_base pmr - virtual_base_address (BASE_ADDR s))) in
      let len := pmr_length pmr in
      let offset := u64 (virt - phys) in
      '(b, s) ← MapMultiple s page_table_root phys (u64 (phys + len)) offset KERNEL_PAGE;
      let s := TestKernelMapping s phys (u64 (phys + offset)) in
      map_pmrs s page_table_root pmrs (success && b)
  end.

(** [KERNEL_PAGE & EXECUTABLE] as the [uint16_t] the callee takes. *)
Definition EXECUTABLE_FLAGS : Z := u16 (Z.land KERNEL_PAGE EXECUTABLE).

(** The loop over the memory map. *)
Fixpoint map_entries s (page_table_root : Z) (memmap : list stivale2_mmap_entry) (success : bool) :
    outcome (bool * vmm W) :=
  match memmap with
  | [] => Done (success, s)
  | e :: memmap =>
      let base := mm_base e in
      let bound := u64 (base + mm_length e) in
      s ← (if (mm_type e =? STIVALE2_MMAP_FRAMEBUFFER) || (mm_type e =? STIVALE2_MMAP_BOOTLOADER_RECLAIMABLE)
           then '(_, s) ← MapMultiple s page_table_root base bound 0 EXECUTABLE_FLAGS; Done s
           else Done s);
      s ← (if mm_type e =? STIVALE2_MMAP_FRAMEBUFFER
           then '(_, s) ← MapMultiple s page_table_root base bound KERNEL_DATA EXECUTABLE_FLAGS; Done s
           else Done s);
      if bound <=? 0x100000000 then map_entries s page_table_root memmap success
      else
        '(b1, s) ← MapMultiple s page_table_root base bound 0 KERNEL_PAGE;
        '(b2, s) ← MapMultiple s page_table_root base bound KERNEL_DATA KERNEL_PAGE;
        map_entries s page_table_root memmap (success && b1 && b2)
  end.

Definition MapKernelPmrs s (page_table_root : Z) : outcome (bool * vmm W) :=
  '(_, s) ← MapMultiple s page_table_root 0x1000 0x100000000 KERNEL_DATA KERNEL_PAGE;
  '(success, s) ← map_pmrs s page_table_root (PMRs s) true;
  map_entries s page_table_root (MMAP s) success.

Definition InitPageTable s (memmap : list stivale2_mmap_entry)
    (kern_base_addr : stivale2_struct_tag_kernel_base_address) (pmrs : list stivale2_pmr) :
    outcome (bool * vmm W) :=
  '(root, w) ← fa_alloc (world s);
  let s := Vmm (set_frames (vm s) w) root kern_base_addr pmrs memmap (cr3 s) (console s) in
  if root =? 0 then Done (false, s)
  else
    '(b1, s) ← MapKernelPmrs s (KERNEL_PAGE_TABLE_ROOT s);
    '(b2, s) ← MapMultipleKernel s 0x1000 0x100000000 0 KERNEL_PAGE;
    '(b3, s) ← MapMultipleKernel s 0x1000 0x100000000 KERNEL_DATA KERNEL_PAGE;
    Done (b1 && b2 && b3,
          Vmm (vm s) (KERNEL_PAGE_TABLE_ROOT s) (BASE_ADDR s) (PMRs s) (MMAP s)
              (KERNEL_PAGE_TABLE_ROOT s) (console s)).

(** [PrintPageAttrs]: the eight attributes it prints, [None] for the page that
    has not been mapped. *)
Definition PageAttrs s (page_table_root virt_addr : Z) : option (list bool) :=
  let page := GetPage (fa_mem (world s)) page_table_root virt_addr in
  if page =? 0 then None
  else
    let e := ld64 (fa_mem (world s)) page in
    Some (map (GetPageFlag e)
      [PRESENT; READ_WRITABLE; USER_ACCESSIBLE; WRITE_THROUGH; CACHE_DISABLED; ACCESSED; DIRTY;
       PAGE_ATTRIBUTE_TABLE]).

Definition KernelPageAttrs s (virt_addr : Z) : option (list bool) :=
  PageAttrs s (KERNEL_PAGE_TABLE_ROOT s) virt_addr.

End operations.

(** ** Specification *)

(** The entry of page [n] after mapping [base, bound) at [offset], when it was
    [e]: page [n] is the [k]-th page after the first one, and belongs to the
    range if the [k]-th frame does. *)
Definition map_range (base bound offset flags n e : Z) : Z :=
  let k := (n - page_no (base + offset)) mod 2 ^ 36 in
  let a := base + 4096 * k in
  if a <? bound then Z.lor a flags else e.

(** The physical address a protected memory range was loaded at. *)
Definition pmr_phys (kern : stivale2_struct_tag_kernel_base_address) (pmr : stivale2_pmr) : Z :=
  u64 (physical_base_address kern + (pmr_base pmr - virtual_base_address kern)).

Definition pmr_map kern (n e : Z) (pmr : stivale2_pmr) : Z :=
  map_range (pmr_phys kern pmr) (u64 (pmr_phys kern pmr + pmr_length pmr))
    (u64 (pmr_base pmr - pmr_phys kern pmr)) KERNEL_PAGE n e.

Definition direct_mapped (e : stivale2_mmap_entry) : bool :=
  (mm_type e =? STIVALE2_MMAP_FRAMEBUFFER) || (mm_type e =? STIVALE2_MMAP_BOOTLOADER_RECLAIMABLE).
Definition mm_bound (e : stivale2_mmap_entry) : Z := u64 (mm_base e + mm_length e).

Definition entry_map (n e : Z) (ent : stivale2_mmap_entry) : Z :=
  let range offset e := map_range (mm_base ent) (mm_bound ent) offset KERNEL_PAGE n e in
  let e := if direct_mapped ent then range 0 e else e in
  let e := if mm_type ent =? STIVALE2_MMAP_FRAMEBUFFER then range KERNEL_DATA e else e in
  if mm_bound ent <=? 0x100000000 then e else range KERNEL_DATA (range 0 e).

(** The initial address space. *)
Definition boot_map kern (pmrs : list stivale2_pmr) (memmap : list stivale2_mmap_entry) (n : Z) : Z :=
  let low offset e := map_range 0x1000 0x100000000 offset KERNEL_PAGE n e in
  low KERNEL_DATA (low 0
    (fold_left (entry_map n) memmap (fold_left (pmr_map kern n) pmrs (low KERNEL_DATA 0)))).

(** A range whose end can be passed without wrapping around, and no longer
    than the address space. *)
Definition range_ok (base bound : Z) : Prop :=
  0 ≤ base ∧ bound ≤ 2 ^ 64 - 4096 ∧ bound - base ≤ 2 ^ 48.

Definition pmr_ok kern (pmr : stivale2_pmr) : Prop :=
  range_ok (pmr_phys kern pmr) (u64 (pmr_phys kern pmr + pmr_length pmr)).
Definition entry_ok (e : stivale2_mmap_entry) : Prop := range_ok (mm_base e) (mm_bound e).

(** Frames that are enough for a range: three for its first page, and then the
    tables that begin with one of the others. *)
Definition range_cost (base bound : Z) : nat :=
  let p := Z.of_nat (range_pages base bound) in
  Z.to_nat (3 + (p + 510) / 512 + (p + (2 ^ 18 - 2)) / 2 ^ 18 + (p + (2 ^ 27 - 2)) / 2 ^ 27).
Strategy 1000 [range_cost].
Definition pmr_cost kern (pmr : stivale2_pmr) : nat :=
  range_cost (pmr_phys kern pmr) (u64 (pmr_phys kern pmr + pmr_length pmr)).
Definition entry_cost (e : stivale2_mmap_entry) : nat :=
  let c := range_cost (mm_base e) (mm_bound e) in c + (c + (c + c)).
Abbreviation low_cost := (range_cost 0x1000 0x100000000).

(** Enough for [MapKernelPmrs] and [k] more, and for the whole of
    [InitPageTable] and [k] more. *)
Definition kernel_cost kern (pmrs : list stivale2_pmr) (memmap : list stivale2_mmap_entry) (k : nat) : nat :=
  low_cost + (sum_list (map (pmr_cost kern) pmrs) + (sum_list (map entry_cost memmap) + k)).
Definition boot_cost_and kern (pmrs : list stivale2_pmr) (memmap : list stivale2_mmap_entry) (k : nat) : nat :=
  S (kernel_cost kern pmrs memmap (low_cost + (low_cost + k))).
Definition boot_cost kern (pmrs : list stivale2_pmr) (memmap : list stivale2_mmap_entry) : nat :=
  boot_cost_and kern pmrs memmap 0.

Lemma page_no_u64 x : page_no (u64 x) = page_no x.
Proof.
  unfold page_no, u64. change (2 ^ 64) with (4096 * (2 ^ 36 * 2 ^ 16)).
  rewrite Z.rem_mul_r by lia. rewrite (Z.mul_comm 4096), Z.div_add by lia.
  rewrite (Z.div_small (x mod 4096)) by dlia. rewrite Z.add_0_l. rewrite Z.rem_mul_r by lia.
  rewrite (Z.mul_comm (2 ^ 36)), Z.mod_add by lia. by rewrite Z.mod_mod by lia.
Qed.

Lemma page_no_next x : page_no (x + 4096) = (page_no x + 1) mod 2 ^ 36.
Proof.
  unfold page_no. replace (x + 4096) with (x + 1 * 4096) by lia. rewrite Z.div_add by lia.
  by rewrite Zplus_mod_idemp_l.
Qed.

(** Mapping the first page and then the rest is mapping the range. *)
Lemma map_range_step base bound offset flags n e :
  base < bound → bound - base ≤ 2 ^ 48 → 0 ≤ n < 2 ^ 36 →
  map_range (base + 4096) bound offset flags n
    (if n =? page_no (base + offset) then Z.lor base flags else e) =
  map_range base bound offset flags n e.
Proof.
  intros Hb Hlen Hn. unfold map_range.
  replace (base + 4096 + offset) with (base + offset + 4096) by lia. rewrite page_no_next.
  pose proof (page_no_range (base + offset)) as Hp. set (p := page_no (base + offset)) in *.
  rewrite Zminus_mod_idemp_r.
  destruct (Z.eqb_spec n p) as [->|Hne].
  - replace (p - (p + 1)) with (-1) by lia. rewrite Z.sub_diag, Z.mod_0_l by lia.
    change (-1 mod 2 ^ 36) with (2 ^ 36 - 1). rewrite Z.mul_0_r, Z.add_0_r.
    rewrite (proj2 (Z.ltb_lt base bound)) by lia.
    destruct (Z.ltb_spec (base + 4096 + 4096 * (2 ^ 36 - 1)) bound); [lia|done].
  - replace (n - (p + 1)) with (n - p - 1) by lia.
    assert (Hk : (n - p - 1) mod 2 ^ 36 = (n - p) mod 2 ^ 36 - 1) by dlia.
    rewrite Hk. replace (base + 4096 + 4096 * ((n - p) mod 2 ^ 36 - 1))
      with (base + 4096 * ((n - p) mod 2 ^ 36)) by lia. done.
Qed.

Lemma map_range_empty base bound offset flags n e :
  bound ≤ base → map_range base bound offset flags n e = e.
Proof.
  intros Hb. unfold map_range. pose proof (Z.mod_pos_bound (n - page_no (base + offset)) (2 ^ 36)).
  destruct (Z.ltb_spec (base + 4096 * ((n - page_no (base + offset)) mod 2 ^ 36)) bound); [lia|done].
Qed.

(** *** Where a range lies *)

Lemma page_no_KERNEL_DATA a : 0 ≤ a < 2 ^ 47 → page_no (a + KERNEL_DATA) = a / 4096 + 2 ^ 35.
Proof.
  intros Ha. unfold page_no, KERNEL_DATA.
  replace (a + 0xffff800000000000) with (a + 0xffff800000000 * 4096) by lia.
  rewrite Z.div_add by lia. change 0xffff800000000 with (2 ^ 35 + 0xffff * 2 ^ 36).
  rewrite Z.add_assoc, Z.mod_add by lia. apply Z.mod_small. dlia.
Qed.

Lemma page_no_low a : 0 ≤ a < 2 ^ 48 → page_no a = a / 4096.
Proof. intros Ha. unfold page_no. apply Z.mod_small. dlia. Qed.

(** A page of the first 4 GiB, at its own address and in the higher half. *)
Lemma map_range_low offset a e :
  offset = 0 ∨ offset = KERNEL_DATA → 0x1000 ≤ a < 0x100000000 →
  map_range 0x1000 0x100000000 offset KERNEL_PAGE (page_no (a + offset)) e =
    Z.lor (a - a mod 4096) KERNEL_PAGE.
Proof.
  intros Ho Ha. unfold map_range.
  assert (Hk : (page_no (a + offset) - page_no (0x1000 + offset)) mod 2 ^ 36 = a / 4096 - 1).
  { assert (page_no (a + offset) - page_no (0x1000 + offset) = a / 4096 - 1) as ->.
    { destruct Ho as [-> | ->]; [rewrite !Z.add_0_r, !page_no_low by lia; dlia|].
      rewrite !page_no_KERNEL_DATA by lia. dlia. }
    apply Z.mod_small. dlia. }
  rewrite Hk. replace (0x1000 + 4096 * (a / 4096 - 1)) with (a - a mod 4096) by dlia.
  destruct (Z.ltb_spec (a - a mod 4096) 0x100000000); [done|dlia].
Qed.

(** A page of the higher half is not one of the identity mapped ones. *)
Lemma map_range_high a e :
  0x1000 ≤ a < 0x100000000 →
  map_range 0x1000 0x100000000 KERNEL_DATA KERNEL_PAGE (page_no a) e = e.
Proof.
  intros Ha. unfold map_range. rewrite page_no_KERNEL_DATA, page_no_low by lia.
  change (0x1000 / 4096) with 1.
  replace (a / 4096 - (1 + 2 ^ 35)) with ((a / 4096 - 1 + 2 ^ 35) + (-1) * 2 ^ 36) by lia.
  rewrite Z.mod_add by lia. rewrite Z.mod_small by dlia.
  destruct (Z.ltb_spec (0x1000 + 4096 * (a / 4096 - 1 + 2 ^ 35)) 0x100000000); [dlia|done].
Qed.

(** The top 2 GiB are out of reach of ranges of physical memory below 2^46. *)
Lemma map_range_code base bound offset flags n e :
  offset = 0 ∨ offset = KERNEL_DATA → 0 ≤ base → bound ≤ 2 ^ 46 → page_no KERNEL_CODE ≤ n < 2 ^ 36 →
  map_range base bound offset flags n e = e.
Proof.
  intros Ho Hb Hbd Hn. change (page_no KERNEL_CODE) with (2 ^ 36 - 2 ^ 19) in Hn.
  destruct (decide (bound ≤ base)) as [|Hlt]; [by apply map_range_empty|].
  unfold map_range. destruct Ho as [-> | ->].
  - rewrite Z.add_0_r, page_no_low by lia. rewrite Z.mod_small by dlia.
    destruct (Z.ltb_spec (base + 4096 * (n - base / 4096)) bound); [dlia|done].
  - rewrite page_no_KERNEL_DATA by lia. rewrite Z.mod_small by dlia.
    destruct (Z.ltb_spec (base + 4096 * (n - (base / 4096 + 2 ^ 35))) bound); [dlia|done].
Qed.

Lemma boot_map_low kern pmrs memmap a :
  0x1000 ≤ a < 0x100000000 →
  boot_map kern pmrs memmap (page_no a) = Z.lor (a - a mod 4096) KERNEL_PAGE ∧
  boot_map kern pmrs memmap (page_no (a + KERNEL_DATA)) = Z.lor (a - a mod 4096) KERNEL_PAGE.
Proof.
  intros Ha. unfold boot_map. split.
  - rewrite map_range_high by done. rewrite <-(Z.add_0_r a) at 1. apply map_range_low; auto.
  - apply map_range_low; auto.
Qed.

(** The page [n] of kernel code comes from the last segment that covers it. *)
Lemma boot_map_code kern l1 pmr l2 memmap n :
  page_no KERNEL_CODE ≤ n < 2 ^ 36 →
  Forall (λ e, 0 ≤ mm_base e ∧ mm_bound e ≤ 2 ^ 46) memmap →
  Forall (λ q, ∀ e, pmr_map kern n e q = e) l2 →
  boot_map kern (l1 ++ pmr :: l2) memmap n = pmr_map kern n (boot_map kern l1 [] n) pmr.
Proof.
  intros Hn Hmm Hl2. unfold boot_map. cbn [fold_left].
  rewrite !(map_range_code 0x1000) by (auto; lia).
  assert (Hent : ∀ e, fold_left (entry_map n) memmap e = e).
  { induction Hmm as [|ent memmap [Hb Hbd] Hmm IH]; intros e; [done|]. cbn [fold_left]. rewrite IH.
    unfold entry_map. rewrite !map_range_code by auto. by repeat case_match. }
  rewrite Hent, fold_left_app. cbn [fold_left].
  assert (Hrest : ∀ e, fold_left (pmr_map kern n) l2 e = e).
  { induction Hl2 as [|q l2 Hq Hl2 IH]; intros e; [done|]. cbn [fold_left]. by rewrite Hq, IH. }
  apply Hrest.
Qed.

Section correctness.
Context {W : Type} `{FrameAllocatorLaws W}.
Implicit Types (s : vmm W) (w : W).

(** From [s] to [s'] the page table at [root] has changed by [F], and [k]
    more frames are left. *)
Record maps (root : Z) (F : Z → Z → Z) (k : nat) s s' : Prop := {
  maps_ok : pt_ok (world s') root;
  maps_step : pt_step root (world s) (world s');
  maps_pages : ∀ n, 0 ≤ n < 2 ^ 36 →
    pages (fa_mem (world s')) root n = F n (pages (fa_mem (world s)) root n);
  maps_avail : fa_avail (world s') k;
  maps_root : KERNEL_PAGE_TABLE_ROOT s' = KERNEL_PAGE_TABLE_ROOT s;
  maps_base : BASE_ADDR s' = BASE_ADDR s;
  maps_pmrs : PMRs s' = PMRs s;
  maps_mmap : MMAP s' = MMAP s;
  maps_cr3 : cr3 s' = cr3 s;
  maps_invlpg : invlpg (vm s') = invlpg (vm s);
}.

Lemma maps_refl root k s : pt_ok (world s) root → fa_avail (world s) k →
  maps root (λ _ e, e) k s s.
Proof. intros. split; try done. apply pt_step_refl. Qed.

Lemma maps_trans root F1 F2 k1 k2 s1 s2 s3 :
  maps root F1 k1 s1 s2 → maps root F2 k2 s2 s3 → maps root (λ n e, F2 n (F1 n e)) k2 s1 s3.
Proof.
  intros M1 M2. split.
  - apply M2.
  - apply (pt_step_trans root (world s1) (world s2)); [apply M1|apply M2].
  - intros n Hn. by rewrite (maps_pages _ _ _ _ _ M2), (maps_pages _ _ _ _ _ M1).
  - apply M2.
  - etrans; [apply M2|apply M1].
  - etrans; [apply M2|apply M1].
  - etrans; [apply M2|apply M1].
  - etrans; [apply M2|apply M1].
  - etrans; [apply M2|apply M1].
  - etrans; [apply M2|apply M1].
Qed.

Lemma maps_ext root F G k s s' :
  (∀ n e, 0 ≤ n < 2 ^ 36 → F n e = G n e) → maps root F k s s' → maps root G k s s'.
Proof.
  intros HFG [? ? Hp ? ? ? ? ? ? ?]. split; try done. intros n Hn. by rewrite Hp, HFG.
Qed.

(** *** Ranges *)

Lemma tables_before_mono x y : x ≤ y → tables_before x ≤ tables_before y.
Proof.
  intros Hxy. unfold tables_before.
  pose proof (Z.div_le_mono x y 512 ltac:(lia) Hxy). pose proof (Z.div_le_mono x y (2 ^ 18) ltac:(lia) Hxy).
  pose proof (Z.div_le_mono x y (2 ^ 27) ltac:(lia) Hxy). lia.
Qed.

Lemma tables_before_diff n q :
  0 ≤ q →
  tables_before (n + q) - tables_before n ≤
    (q + 511) / 512 + (q + (2 ^ 18 - 1)) / 2 ^ 18 + (q + (2 ^ 27 - 1)) / 2 ^ 27.
Proof. intros Hq. unfold tables_before. dlia. Qed.

(** The tables that mapping [p] pages from the address [a] on creates. *)
Definition tables_needed (m : mem) (root a : Z) (p : nat) : nat :=
  match p with
  | O => O
  | S p => missing 3 m root (u64 a)
           + Z.to_nat (tables_before (a / 4096 + Z.of_nat p) - tables_before (a / 4096))
  end.

Lemma tables_needed_next m root a p t :
  walk m root (path (u64 a)) = Some t →
  (tables_needed m root (a + 4096) p ≤
     Z.to_nat (tables_before (a / 4096 + Z.of_nat p) - tables_before (a / 4096)))%nat.
Proof.
  intros Ht. destruct p as [|p]; cbn [tables_needed]; [lia|].
  pose proof (missing_next m root a t Ht) as Hm. replace ((a + 4096) / 4096) with (a / 4096 + 1) by dlia.
  pose proof (tables_before_mono (a / 4096) (a / 4096 + 1) ltac:(lia)).
  pose proof (tables_before_mono (a / 4096 + 1) (a / 4096 + 1 + Z.of_nat p) ltac:(lia)).
  replace (a / 4096 + Z.of_nat (S p)) with (a / 4096 + 1 + Z.of_nat p) by lia. lia.
Qed.

Lemma range_cost_enough m root base bound offset :
  (tables_needed m root (base + offset) (range_pages base bound) ≤ range_cost base bound)%nat.
Proof.
  unfold range_cost. destruct (range_pages base bound) as [|p]; cbn [tables_needed]; [lia|].
  pose proof (missing_le 3 m root (u64 (base + offset))).
  pose proof (tables_before_diff ((base + offset) / 4096) (Z.of_nat p) ltac:(lia)).
  replace (Z.of_nat (S p) + 510) with (Z.of_nat p + 511) by lia.
  replace (Z.of_nat (S p) + (2 ^ 18 - 2)) with (Z.of_nat p + (2 ^ 18 - 1)) by lia.
  replace (Z.of_nat (S p) + (2 ^ 27 - 2)) with (Z.of_nat p + (2 ^ 27 - 1)) by lia.
  pose proof (Z.div_pos (Z.of_nat p + (2 ^ 18 - 1)) (2 ^ 18)). pose proof (Z.div_pos (Z.of_nat p + (2 ^ 27 - 1)) (2 ^ 27)).
  dlia.
Qed.

Lemma map_multiple_loop_spec p root flags offset bound k : flags_ok flags → ∀ s addr,
  pt_ok (world s) root → range_ok addr bound → range_pages addr bound = p →
  fa_avail (world s) (tables_needed (fa_mem (world s)) root (addr + offset) p + k) →
  ∃ s', map_multiple_loop (S p) s root addr bound offset flags = Done (true, s') ∧
    maps root (map_range addr bound offset flags) k s s'.
Proof.
  intros Hfl. induction p as [|p IH]; intros s addr Hok (Hr1 & Hr2 & Hr3) Hp Ha;
    unfold range_pages in Hp.
  - cbn [map_multiple_loop]. destruct (Z.ltb_spec addr bound); [dlia|]. exists s. split; [done|].
    eapply maps_ext; [|by apply (maps_refl root k)].
    intros n e Hn. by rewrite map_range_empty.
  - remember (S p) as fuel eqn:Hfuel. cbn [map_multiple_loop].
    destruct (Z.ltb_spec addr bound) as [Hlt|]; [|dlia].
    rewrite Hfuel in Ha. cbn [tables_needed] in Ha. rewrite <-Nat.add_assoc in Ha.
    destruct (MapPage_missing (world s) root (u64 (addr + offset)) addr flags _ Hok Hfl Ha)
      as (w1 & t & Hm & Ha1 & Ht).
    rewrite Hm. do_bind. cbn [negb]. apply MapPage_result in Hm as (Hok1 & Hs1 & Hp1); [|done|done|lia].
    unfold FRAME_SIZE. rewrite u64_small by lia. subst fuel.
    destruct (IH (set_world s w1) (addr + 4096)) as (s' & Hs' & Hm');
      [done|unfold range_ok in *; lia|unfold range_pages; dlia| |].
    { eapply avail_le, Ha1. replace (addr + 4096 + offset) with (addr + offset + 4096) by lia.
      apply Nat.add_le_mono_r. by apply (tables_needed_next _ _ _ _ t). }
    exists s'. split; [done|].
    eassert (M1 : maps root (λ n e, if n =? page_no (addr + offset) then Z.lor addr flags else e)
                   _ s (set_world s w1)).
    { split; try done. intros n Hn. cbn [set_world set_vm world vm frames set_frames].
      rewrite Hp1 by done. cbn [andb]. by rewrite page_no_u64. }
    eapply maps_ext; [|apply (maps_trans root _ _ _ _ _ _ _ M1 Hm')].
    intros n e Hn. by apply map_range_step.
Qed.

Lemma MapMultiple_maps s root base bound offset flags k :
  pt_ok (world s) root → flags_ok flags → range_ok base bound →
  fa_avail (world s) (range_cost base bound + k) →
  ∃ s', MapMultiple s root base bound offset flags = Done (true, s') ∧
    maps root (map_range base bound offset flags) k s s'.
Proof.
  intros Hok Hfl Hr Ha. apply map_multiple_loop_spec; [done..|]. eapply avail_le, Ha.
  apply Nat.add_le_mono_r, range_cost_enough.
Qed.

Lemma maps_print root F k s s' msg : maps root F k s s' → maps root F k s (print s' msg).
Proof. intros M. split; apply M. Qed.

Lemma kernel_flags : flags_ok KERNEL_PAGE.
Proof. split; [vm_compute; by split|done]. Qed.

Lemma EXECUTABLE_FLAGS_KERNEL : EXECUTABLE_FLAGS = KERNEL_PAGE.
Proof. done. Qed.

(** *** The boot sequence *)

Lemma map_pmrs_maps root kern pmrs k : ∀ s,
  BASE_ADDR s = kern → pt_ok (world s) root → Forall (pmr_ok kern) pmrs →
  fa_avail (world s) (sum_list (map (pmr_cost kern) pmrs) + k) →
  ∃ s', map_pmrs s root pmrs true = Done (true, s') ∧
    maps root (λ n e, fold_left (pmr_map kern n) pmrs e) k s s'.
Proof.
  induction pmrs as [|pmr pmrs IH]; intros s Hb Hok Hall Ha.
  - exists s. split; [done|]. by apply maps_refl.
  - apply Forall_cons in Hall as [Hpmr Hall]. cbn [map_pmrs]. rewrite Hb.
    fold (pmr_phys kern pmr). simpl in Ha. rewrite <-Nat.add_assoc in Ha.
    edestruct (MapMultiple_maps s root) as (s1 & H1 & M1);
      [done|apply kernel_flags|apply Hpmr|exact Ha|].
    rewrite H1. do_bind. rewrite andb_true_l.
    eapply maps_print in M1 as M1'.
    destruct (IH (TestKernelMapping s1 (pmr_phys kern pmr)
                    (u64 (pmr_phys kern pmr + u64 (pmr_base pmr - pmr_phys kern pmr)))))
      as (s2 & H2 & M2).
    + etrans; [apply M1|done].
    + apply M1.
    + done.
    + apply M1.
    + exists s2. split; [exact H2|].
      apply (maps_trans root _ _ _ _ _ _ _ M1' M2).
Qed.

Lemma avail_less w j k : fa_avail w (j + k) → fa_avail w k.
Proof. apply avail_le. lia. Qed.

(** A range that is only mapped under a condition, its result ignored. *)
Lemma map_if_maps (c : bool) s root base bound offset flags k :
  pt_ok (world s) root → flags_ok flags → range_ok base bound →
  fa_avail (world s) (range_cost base bound + k) →
  ∃ s', (if c then '(_, s) ← MapMultiple s root base bound offset flags; Done s else Done s) = Done s' ∧
    maps root (λ n e, if c then map_range base bound offset flags n e else e) k s s'.
Proof.
  intros Hok Hfl Hr Ha. destruct c.
  - destruct (MapMultiple_maps s root base bound offset flags k) as (s' & H1 & M); [done..|].
    rewrite H1. by exists s'.
  - exists s. split; [done|]. apply maps_refl; [done|]. by eapply avail_less.
Qed.

Lemma map_entries_maps root memmap k : ∀ s,
  pt_ok (world s) root → Forall entry_ok memmap →
  fa_avail (world s) (sum_list (map entry_cost memmap) + k) →
  ∃ s', map_entries s root memmap true = Done (true, s') ∧
    maps root (λ n e, fold_left (entry_map n) memmap e) k s s'.
Proof.
  induction memmap as [|ent memmap IH]; intros s Hok Hall Ha.
  - exists s. split; [done|]. by apply maps_refl.
  - apply Forall_cons in Hall as [Hent Hall]. cbn [map_entries]. fold (mm_bound ent).
    fold (direct_mapped ent). rewrite EXECUTABLE_FLAGS_KERNEL.
    change (sum_list (map entry_cost (ent :: memmap)))
      with (entry_cost ent + sum_list (map entry_cost memmap))%nat in Ha.
    unfold entry_cost in Ha at 1. rewrite <-!Nat.add_assoc in Ha. pose proof kernel_flags as Hfl.
    destruct (map_if_maps (direct_mapped ent) s root (mm_base ent) (mm_bound ent) 0 KERNEL_PAGE _
      Hok Hfl Hent Ha) as (s1 & -> & M1). do_bind.
    destruct (map_if_maps (mm_type ent =? STIVALE2_MMAP_FRAMEBUFFER) s1 root (mm_base ent) (mm_bound ent)
      KERNEL_DATA KERNEL_PAGE _ (maps_ok _ _ _ _ _ M1) Hfl Hent (maps_avail _ _ _ _ _ M1))
      as (s2 & -> & M2). do_bind.
    pose proof (maps_trans root _ _ _ _ _ _ _ M1 M2) as M12.
    destruct (mm_bound ent <=? 0x100000000) eqn:Hlow.
    + destruct (IH s2) as (s' & H' & M'); [apply M2|done|do 2 eapply avail_less; apply M2|].
      exists s'. split; [done|].
      eapply maps_ext; [|apply (maps_trans root _ _ _ _ _ _ _ M12 M')].
      intros n e Hn. cbn [fold_left]. unfold entry_map at 3. by rewrite Hlow.
    + destruct (MapMultiple_maps s2 root (mm_base ent) (mm_bound ent) 0 KERNEL_PAGE _
        (maps_ok _ _ _ _ _ M2) Hfl Hent (maps_avail _ _ _ _ _ M2)) as (s3 & -> & M3). do_bind.
      destruct (MapMultiple_maps s3 root (mm_base ent) (mm_bound ent) KERNEL_DATA KERNEL_PAGE _
        (maps_ok _ _ _ _ _ M3) Hfl Hent (maps_avail _ _ _ _ _ M3)) as (s4 & -> & M4). do_bind.
      destruct (IH s4) as (s' & H' & M'); [apply M4|done|apply M4|].
      exists s'. split; [done|].
      pose proof (maps_trans root _ _ _ _ _ _ _ M12 M3) as M123.
      pose proof (maps_trans root _ _ _ _ _ _ _ M123 M4) as M1234.
      eapply maps_ext; [|apply (maps_trans root _ _ _ _ _ _ _ M1234 M')].
      intros n e Hn. cbn [fold_left]. unfold entry_map at 3. by rewrite Hlow.
Qed.

Lemma low_ok : range_ok 0x1000 0x100000000.
Proof. unfold range_ok. lia. Qed.

(** What [MapKernelPmrs] does to the entry [e] of page [n]. *)
Definition kernel_map kern (pmrs : list stivale2_pmr) (memmap : list stivale2_mmap_entry) (n e : Z) : Z :=
  fold_left (entry_map n) memmap
    (fold_left (pmr_map kern n) pmrs (map_range 0x1000 0x100000000 KERNEL_DATA KERNEL_PAGE n e)).

Lemma MapKernelPmrs_maps s root k :
  pt_ok (world s) root → Forall (pmr_ok (BASE_ADDR s)) (PMRs s) → Forall entry_ok (MMAP s) →
  fa_avail (world s) (kernel_cost (BASE_ADDR s) (PMRs s) (MMAP s) k) →
  ∃ s', MapKernelPmrs s root = Done (true, s') ∧
    maps root (kernel_map (BASE_ADDR s) (PMRs s) (MMAP s)) k s s'.
Proof.
  intros Hok Hpm Hen Ha. unfold MapKernelPmrs. unfold kernel_cost in Ha.
  destruct (MapMultiple_maps s root 0x1000 0x100000000 KERNEL_DATA KERNEL_PAGE _ Hok kernel_flags low_ok Ha)
    as (s2 & -> & M2). do_bind.
  rewrite (maps_pmrs _ _ _ _ _ M2).
  destruct (map_pmrs_maps root (BASE_ADDR s) (PMRs s) _ s2 (maps_base _ _ _ _ _ M2)
    (maps_ok _ _ _ _ _ M2) Hpm (maps_avail _ _ _ _ _ M2)) as (s3 & -> & M3). do_bind.
  rewrite (maps_mmap _ _ _ _ _ M3), (maps_mmap _ _ _ _ _ M2).
  destruct (map_entries_maps root (MMAP s) _ s3 (maps_ok _ _ _ _ _ M3) Hen (maps_avail _ _ _ _ _ M3))
    as (s4 & -> & M4).
  eexists. split; [done|].
  exact (maps_trans root _ _ _ _ _ _ _ (maps_trans root _ _ _ _ _ _ _ M2 M3) M4).
Qed.

(** The state after [InitPageTable] has stored its arguments and its root. *)
Definition booting s w root kern pmrs memmap : vmm W :=
  Vmm (set_frames (vm s) w) root kern pmrs memmap (cr3 s) (console s).

Lemma InitPageTable_builds s memmap kern pmrs k :
  fa_ok (world s) → Forall (pmr_ok kern) pmrs → Forall entry_ok memmap →
  fa_avail (world s) (boot_cost_and kern pmrs memmap k) →
  ∃ s', InitPageTable s memmap kern pmrs = Done (true, s') ∧
    pt_ok (world s') (cr3 s') ∧ KERNEL_PAGE_TABLE_ROOT s' = cr3 s' ∧
    (∀ f, is_table (world s') (cr3 s') f → ¬ fa_client (world s) f) ∧
    (∀ n, 0 ≤ n < 2 ^ 36 → pages (fa_mem (world s')) (cr3 s') n = boot_map kern pmrs memmap n) ∧
    fa_avail (world s') k ∧ (∀ g, fa_client (world s) g → fa_client (world s') g) ∧
    keeps_clients (world s) (world s') ∧
    PMRs s' = pmrs ∧ BASE_ADDR s' = kern ∧ MMAP s' = memmap.
Proof.
  intros Hw Hpm Hen Ha. unfold InitPageTable. pose proof kernel_flags as Hfl.
  destruct (fa_alloc_avail _ _ Hw Ha) as (root & w1 & Hal & Hr0 & Ha1). rewrite Hal. do_bind.
  destruct (fa_alloc_result _ _ _ Hw Hal) as [[? _]|[_ Hf]]; [done|].
  destruct (pt_ok_fresh _ _ _ Hf) as (Hok & Hz & Hroot).
  rewrite (proj2 (Z.eqb_neq root 0) Hr0).
  change (Vmm (set_frames (vm s) w1) root kern pmrs memmap (cr3 s) (console s))
    with (booting s w1 root kern pmrs memmap).
  set (s1 := booting s w1 root kern pmrs memmap).
  change (KERNEL_PAGE_TABLE_ROOT s1) with root.
  assert (Hk : fa_avail (world s1) (kernel_cost kern pmrs memmap (low_cost + (low_cost + k))))
    by exact Ha1.
  destruct (MapKernelPmrs_maps s1 root _ Hok Hpm Hen Hk) as (s4 & -> & M24).
  do_bind. unfold MapMultipleKernel.
  rewrite (maps_root _ _ _ _ _ M24). change (KERNEL_PAGE_TABLE_ROOT s1) with root.
  destruct (MapMultiple_maps s4 root 0x1000 0x100000000 0 KERNEL_PAGE _ (maps_ok _ _ _ _ _ M24) Hfl low_ok
    (maps_avail _ _ _ _ _ M24)) as (s5 & -> & M5). do_bind.
  pose proof (maps_trans root _ _ _ _ _ _ _ M24 M5) as M25.
  rewrite (maps_root _ _ _ _ _ M25). change (KERNEL_PAGE_TABLE_ROOT s1) with root.
  destruct (MapMultiple_maps s5 root 0x1000 0x100000000 KERNEL_DATA KERNEL_PAGE _ (maps_ok _ _ _ _ _ M5)
    Hfl low_ok (maps_avail _ _ _ _ _ M5)) as (s6 & -> & M6). do_bind.
  pose proof (maps_trans root _ _ _ _ _ _ _ M25 M6) as M.
  eexists. split; [done|]. cbn [cr3 KERNEL_PAGE_TABLE_ROOT world vm].
  rewrite (maps_root _ _ _ _ _ M). change (KERNEL_PAGE_TABLE_ROOT s1) with root.
  pose proof (maps_step _ _ _ _ _ M) as Hst.
  split_and!; [apply M|done| | |exact (maps_avail _ _ _ _ _ M)| | |apply M|apply M|apply M].
  - intros f Hist Hc. destruct (ps_new _ _ _ Hst f Hist) as [->%Hroot|Hn]; [by apply (ff_new _ _ _ Hf)|].
    by apply Hn, (ff_kept _ _ _ Hf).
  - intros n Hn. etrans; [exact (maps_pages _ _ _ _ _ M n Hn)|].
    change (fa_mem (world s1)) with (fa_mem w1). by rewrite Hz.
  - intros g Hg. apply (ps_client _ _ _ Hst). by apply (ff_kept _ _ _ Hf).
  - intros g a Hg Ha'. rewrite <-(ff_frame _ _ _ Hf g a Hg Ha').
    apply (ps_frames _ _ _ Hst g); [by apply (ff_kept _ _ _ Hf)| |done].
    intros ->%Hroot. by apply (ff_new _ _ _ Hf).
Qed.

(** *** Translations *)

Lemma kernel_entry_paddr a : (a - a mod 512) = a → Z.lor a KERNEL_PAGE - Z.lor a KERNEL_PAGE mod 512 = a.
Proof.
  intros Ha. change KERNEL_PAGE with 3. rewrite lor_flags by dlia. dlia.
Qed.

Lemma page_no_add_u64 a x : page_no (a + u64 x) = page_no (a + x).
Proof.
  rewrite <-(page_no_u64 (a + u64 x)), <-(page_no_u64 (a + x)). f_equal. unfold u64.
  apply Zplus_mod_idemp_r.
Qed.

(** An address of a range of whole pages falls on its own frame. *)
Lemma map_range_hit base bound offset flags a e :
  base mod 4096 = 0 → offset mod 4096 = 0 → base ≤ a < bound → bound - base ≤ 2 ^ 48 →
  map_range base bound offset flags (page_no (a + offset)) e = Z.lor (a - a mod 4096) flags.
Proof.
  intros Hb Ho Ha Hlen. unfold map_range, page_no. rewrite <-Zminus_mod.
  replace ((a + offset) / 4096 - (base + offset) / 4096) with ((a - base) / 4096) by dlia.
  rewrite Z.mod_small by dlia. replace (base + 4096 * ((a - base) / 4096)) with (a - a mod 4096) by dlia.
  destruct (Z.ltb_spec (a - a mod 4096) bound); [done|dlia].
Qed.

(** ** Properties *)

(** Given a free frame for each table it may have to create (three and one per
    512 pages or part of it, and so on upwards), [MapMultiple] terminates and maps the
    whole range: afterwards every address [a] of [base, bound), moved by
    [offset], translates to [a]'s frame, and the entry of every page outside
    the range is what it was. *)
Theorem MapMultiple_spec s root base bound offset flags :
  pt_ok (world s) root → flags_ok flags → range_ok base bound →
  base mod 4096 = 0 → offset mod 4096 = 0 →
  fa_avail (world s) (range_cost base bound) →
  ∃ s', MapMultiple s root base bound offset flags = Done (true, s') ∧
    pt_ok (world s') root ∧
    (∀ a, base ≤ a < bound →
      VAddrToPAddr (fa_mem (world s')) root (u64 (a + offset)) = a - a mod 4096) ∧
    (∀ n, 0 ≤ n < 2 ^ 36 → (∀ a, base ≤ a < bound → page_no (a + offset) ≠ n) →
      pages (fa_mem (world s')) root n = pages (fa_mem (world s)) root n).
Proof.
  intros Hok Hfl Hr Hb Ho Ha. rewrite <-(Nat.add_0_r (range_cost base bound)) in Ha.
  destruct (MapMultiple_maps s root base bound offset flags 0) as (s' & H1 & M); [done..|].
  destruct Hr as (Hr1 & Hr2 & Hr3). exists s'. split_and!; [done|apply M|..].
  - intros a Hin. rewrite VAddrToPAddr_pages, page_no_u64, (maps_pages _ _ _ _ _ M) by apply page_no_range.
    rewrite map_range_hit by done. destruct Hfl as [Hfl _]. rewrite lor_flags by (done || dlia). dlia.
  - intros n Hn Hout. rewrite (maps_pages _ _ _ _ _ M) by done. unfold map_range.
    set (k := (n - page_no (base + offset)) mod 2 ^ 36).
    destruct (Z.ltb_spec (base + 4096 * k) bound) as [Hlt|]; [exfalso|done].
    assert (Hk : 0 ≤ k) by (apply Z.mod_pos_bound; lia).
    apply (Hout (base + 4096 * k)); [lia|]. unfold page_no in *.
    replace ((base + 4096 * k + offset) / 4096) with ((base + offset) / 4096 + k) by dlia.
    rewrite Zplus_mod. subst k. rewrite Zmod_mod, <-Zplus_mod.
    rewrite Zplus_mod, Zminus_mod, Zmod_mod, <-Zminus_mod, <-Zplus_mod.
    replace ((base + offset) / 4096 + (n - (base + offset) / 4096)) with n by lia.
    by apply Z.mod_small.
Qed.

(** C4: [InitPageTable] builds the initial address space.  With enough frames
    it terminates, succeeds and loads the root of a well-formed page table
    into CR3; its entries are those of [boot_map]; in particular every address
    from 0x1000 to 4 GiB translates to itself, and to the same physical
    address from [KERNEL_DATA] up.  Frames handed out before keep their
    contents.  (The documentation in [virtual_memory_manager.h] promises
    something else: 2 GiB of kernel data, where 4 GiB are mapped, 2 GiB of
    kernel code, where only the protected memory ranges are, and an identity
    map that begins at 0.) *)
Theorem InitPageTable_spec s memmap kern pmrs :
  fa_ok (world s) → Forall (pmr_ok kern) pmrs → Forall entry_ok memmap →
  fa_avail (world s) (boot_cost kern pmrs memmap) →
  ∃ s', InitPageTable s memmap kern pmrs = Done (true, s') ∧
    pt_ok (world s') (cr3 s') ∧ KERNEL_PAGE_TABLE_ROOT s' = cr3 s' ∧
    (∀ f, is_table (world s') (cr3 s') f → ¬ fa_client (world s) f) ∧
    (∀ n, 0 ≤ n < 2 ^ 36 →
      pages (fa_mem (world s')) (cr3 s') n = boot_map kern pmrs memmap n) ∧
    keeps_clients (world s) (world s') ∧
    (∀ a, 0x1000 ≤ a < 0x100000000 →
      KernelVAddrToPAddr s' a = a - a mod 4096 ∧
      KernelVAddrToPAddr s' (a + KERNEL_DATA) = a - a mod 4096).
Proof.
  intros Hw Hp He Ha. destruct (InitPageTable_builds s memmap kern pmrs 0 Hw Hp He Ha)
    as (s' & H1 & H2 & H3 & H4 & H5 & _ & H6 & H7 & _).
  exists s'. split_and!; [done..|]. intros a Hr. unfold KernelVAddrToPAddr. rewrite H3.
  rewrite !VAddrToPAddr_pages, !H5 by apply page_no_range.
  destruct (boot_map_low kern pmrs memmap a Hr) as [-> ->].
  split; apply kernel_entry_paddr; dlia.
Qed.

(** The kernel's own code is mapped: after [InitPageTable], an address of a
    protected memory range above [KERNEL_CODE] translates to the same offset
    from the kernel's physical base, provided no later range covers the page
    and physical memory ends below 2^46. *)
Theorem InitPageTable_kernel_code s memmap kern l1 pmr l2 a :
  fa_ok (world s) → Forall (pmr_ok kern) (l1 ++ pmr :: l2) → Forall entry_ok memmap →
  fa_avail (world s) (boot_cost kern (l1 ++ pmr :: l2) memmap) →
  Forall (λ e, 0 ≤ mm_base e ∧ mm_bound e ≤ 2 ^ 46) memmap →
  0 ≤ virtual_base_address kern ≤ pmr_base pmr → KERNEL_CODE ≤ a →
  pmr_base pmr ≤ a < pmr_base pmr + pmr_length pmr → a < 2 ^ 64 →
  0 ≤ physical_base_address kern →
  physical_base_address kern + (pmr_base pmr - virtual_base_address kern) + pmr_length pmr < 2 ^ 64 →
  physical_base_address kern mod 4096 = 0 → virtual_base_address kern mod 4096 = 0 →
  pmr_base pmr mod 4096 = 0 →
  Forall (λ q, ∀ e, pmr_map kern (page_no a) e q = e) l2 →
  ∃ s', InitPageTable s memmap kern (l1 ++ pmr :: l2) = Done (true, s') ∧
    KernelVAddrToPAddr s' a =
      physical_base_address kern + (a - a mod 4096 - virtual_base_address kern).
Proof.
  intros Hw Hp He Hav Hmm Hvb Hcode Hin Ha Hpb Hlen Hpa Hva Hba Hl2.
  destruct (InitPageTable_builds s memmap kern (l1 ++ pmr :: l2) 0 Hw Hp He Hav)
    as (s' & H1 & H2 & H3 & H4 & H5 & _).
  exists s'. split; [done|]. unfold KernelVAddrToPAddr. rewrite H3.
  rewrite VAddrToPAddr_pages, H5 by apply page_no_range.
  assert (Hn : page_no KERNEL_CODE ≤ page_no a < 2 ^ 36).
  { split; [|apply page_no_range]. change (page_no KERNEL_CODE) with (2 ^ 36 - 2 ^ 19).
    unfold KERNEL_CODE, page_no in *. dlia. }
  rewrite boot_map_code by done. unfold pmr_map.
  assert (Hphys : pmr_phys kern pmr =
    physical_base_address kern + (pmr_base pmr - virtual_base_address kern)).
  { apply u64_small. lia. }
  assert (Hok : pmr_ok kern pmr) by (rewrite Forall_app, Forall_cons in Hp; tauto).
  unfold pmr_ok, range_ok in Hok. rewrite u64_small in Hok |- * by lia.
  set (offset := u64 (pmr_base pmr - pmr_phys kern pmr)) in *.
  set (a' := pmr_phys kern pmr + (a - pmr_base pmr)).
  assert (Ha' : page_no a = page_no (a' + offset)).
  { subst offset. rewrite page_no_add_u64. f_equal. lia. }
  rewrite Ha', map_range_hit.
  - rewrite kernel_entry_paddr by dlia. subst a'. rewrite Hphys. dlia.
  - rewrite Hphys. dlia.
  - subst offset. unfold u64. change (2 ^ 64) with (4096 * 2 ^ 52). rewrite Z.rem_mul_r by lia.
    rewrite (Z.mul_comm 4096), Z.mod_add by lia. rewrite Z.mod_mod by lia. dlia.
  - lia.
  - lia.
Qed.

(** [AssertKernelMapping] is true exactly when the page has an entry other
    than 0 whose address is the one asked for: the entry's present bit is
    never tested. *)
Theorem AssertKernelMapping_spec s phys_addr virt_addr :
  pt_ok (world s) (KERNEL_PAGE_TABLE_ROOT s) → 0 ≤ virt_addr →
  AssertKernelMapping s phys_addr virt_addr = true ↔
  pages (fa_mem (world s)) (KERNEL_PAGE_TABLE_ROOT s) (page_no virt_addr) ≠ 0 ∧
  KernelVAddrToPAddr s virt_addr = phys_addr.
Proof.
  intros Hok Hv. unfold AssertKernelMapping, KernelVAddrToPAddr.
  assert (Hidx : ∀ k, 0 ≤ k → Z.shiftr (Z.land virt_addr (Z.shiftl 0x1ff k)) k =
                          V_ADDR_INDEX virt_addr ((k - 12) / 9 + 1) ∨ (k - 12) mod 9 ≠ 0).
  { intros k Hk. destruct (decide ((k - 12) mod 9 = 0)) as [Hm|]; [left|by right].
    unfold V_ADDR_INDEX, LOG2_FRAME_SIZE, LOG2_ENTRIES_PER_TABLE, MAX_PAGE_IND.
    replace (12 + 9 * ((k - 12) / 9 + 1 - 1)) with k by dlia.
    rewrite Z.shiftr_land. f_equal. rewrite Z.shiftr_shiftl_l by lia. by rewrite Z.sub_diag. }
  destruct (Hidx 39 ltac:(lia)) as [->|Hx]; [|by destruct Hx].
  destruct (Hidx 30 ltac:(lia)) as [->|Hx]; [|by destruct Hx].
  destruct (Hidx 21 ltac:(lia)) as [->|Hx]; [|by destruct Hx].
  destruct (Hidx 12 ltac:(lia)) as [->|Hx]; [|by destruct Hx].
  change ((39 - 12) / 9 + 1) with 4. change ((30 - 12) / 9 + 1) with 3.
  change ((21 - 12) / 9 + 1) with 2. change ((12 - 12) / 9 + 1) with 1.
  pose proof (table_positive _ _ [] _ Hok short_nil eq_refl) as Hroot.
  destruct (Z.eqb_spec (KERNEL_PAGE_TABLE_ROOT s) 0); [lia|].
  rewrite pages_page_no. unfold VAddrToPAddr. rewrite descend_walk. unfold path.
  cbn [walk]. destruct (_ =? 0); [by intuition discriminate|].
  destruct (_ =? 0); [by intuition discriminate|].
  destruct (_ =? 0); [by intuition discriminate|]. 
  destruct (Z.eqb_spec (ld64 (fa_mem (world s)) (GetPageTable (fa_mem (world s))
    (GetPageTable (fa_mem (world s)) (GetPageTable (fa_mem (world s)) (KERNEL_PAGE_TABLE_ROOT s)
      (V_ADDR_INDEX virt_addr 4)) (V_ADDR_INDEX virt_addr 3)) (V_ADDR_INDEX virt_addr 2)
     + 8 * V_ADDR_INDEX virt_addr 1)) 0) as [->|Hne].
  - cbn. split; [discriminate|]. by intros [? _].
  - replace (negb (Z.land 0 PRESENT =? 0)) with false by done. rewrite Z.eqb_eq. by intuition.
Qed.

End correctness.

(** ** A kernel on a machine with 256 GiB of free memory *)

Definition ex_vmm (w : pmm) (root : Z) : vmm pmm :=
  Vmm (Machine w []) root (KernelBaseAddress 0 0) [] [] 0 [].
Definition ex_kern : stivale2_struct_tag_kernel_base_address :=
  KernelBaseAddress 0x200000 0xffffffff80000000.
Definition ex_pmrs : list stivale2_pmr :=
  [Pmr 0xffffffff80000000 0x5000 5; Pmr 0xffffffff80005000 0x2000 6].
(** Usable memory and a framebuffer above 4 GiB. *)
Definition ex_boot_memmap : list stivale2_mmap_entry :=
  [MmapEntry 0x1000 0x7fff0000 1; MmapEntry 0x200000000 0x300000 0x1002].

Lemma ex_boot_ok :
  Forall (pmr_ok ex_kern) ex_pmrs ∧ Forall entry_ok ex_boot_memmap ∧
  fa_avail blank_pmm (boot_cost ex_kern ex_pmrs ex_boot_memmap).
Proof.
  split_and!.
  - repeat constructor; vm_compute; discriminate.
  - repeat constructor; vm_compute; discriminate.
  - apply blank_avail. vm_compute. reflexivity.
Qed.

Lemma MapMultiple_spec_witness : ∃ (s s' : vmm pmm) root,
  MapMultiple s root 0x1000 0x3000 0x100000 USER_PAGE = Done (true, s') ∧
  VAddrToPAddr (fa_mem (world s')) root (u64 (0x2fff + 0x100000)) = 0x2000.
Proof.
  destruct ex_two_tables as (r1 & r2 & w & Hok & _ & _ & Ha).
  destruct (MapMultiple_spec (ex_vmm w 0) r1 0x1000 0x3000 0x100000 USER_PAGE Hok user_flags)
    as (s' & H1 & _ & H2 & _).
  { unfold range_ok. lia. }
  { reflexivity. }
  { reflexivity. }
  { exact Ha. }
  exists (ex_vmm w 0), s', r1. split; [exact H1|]. exact (H2 0x2fff ltac:(lia)).
Defined.

Lemma InitPageTable_spec_witness : ∃ s' : vmm pmm,
  InitPageTable (ex_vmm blank_pmm 0) ex_boot_memmap ex_kern ex_pmrs = Done (true, s') ∧
  KernelVAddrToPAddr s' 0xb8000 = 0xb8000 ∧ KernelVAddrToPAddr s' 0xffff8000000b8000 = 0xb8000.
Proof.
  destruct ex_boot_ok as (Hp & He & Ha).
  destruct (InitPageTable_spec (ex_vmm blank_pmm 0) ex_boot_memmap ex_kern ex_pmrs blank_ok Hp He Ha)
    as (s' & H1 & _ & _ & _ & _ & _ & H2).
  exists s'. split; [exact H1|]. exact (H2 0xb8000 ltac:(lia)).
Defined.

Lemma InitPageTable_kernel_code_witness : ∃ s' : vmm pmm,
  InitPageTable (ex_vmm blank_pmm 0) ex_boot_memmap ex_kern ex_pmrs = Done (true, s') ∧
  KernelVAddrToPAddr s' 0xffffffff80001234 = 0x201000.
Proof.
  destruct ex_boot_ok as (Hp & He & Ha).
  destruct (InitPageTable_kernel_code (ex_vmm blank_pmm 0) ex_boot_memmap ex_kern
    [] (Pmr 0xffffffff80000000 0x5000 5) [Pmr 0xffffffff80005000 0x2000 6] 0xffffffff80001234
    blank_ok Hp He Ha) as (s' & H1 & H2).
  2-10: (vm_compute; repeat split; discriminate || reflexivity).
  - repeat constructor; vm_compute; discriminate.
  - constructor; [intros e; reflexivity|constructor].
  - exists s'. split; [exact H1|]. rewrite H2. reflexivity.
Defined.

Lemma AssertKernelMapping_spec_witness : ∃ s' : vmm pmm,
  AssertKernelMapping s' 0xb8000 0xb8000 = true.
Proof.
  destruct ex_boot_ok as (Hp & He & Ha).
  destruct (InitPageTable_builds (ex_vmm blank_pmm 0) ex_boot_memmap ex_kern ex_pmrs 0 blank_ok Hp He Ha)
    as (s' & _ & H2 & H3 & _ & H5 & _).
  exists s'. rewrite <-H3 in H2. apply (AssertKernelMapping_spec s' 0xb8000 0xb8000 H2); [lia|].
  destruct (boot_map_low ex_kern ex_pmrs ex_boot_memmap 0xb8000 ltac:(lia)) as [Hb _].
  unfold KernelVAddrToPAddr. rewrite VAddrToPAddr_pages, H3, H5, Hb by (apply page_no_range).
  split; [discriminate|reflexivity].
Defined.
