(* ===== verification/Kheap.v ===== *)
(** * The kernel heap

    [src/src/kernel/memory_management/kheap.c]: a first-fit allocator whose
    blocks carry a boundary tag (size and allocation bit) at both ends.
    Pointers are the addresses the kernel uses, and [heap_mem] is memory as
    the kernel sees it at those addresses.  [layout] reads the memory as a
    list of blocks; the operations are shown to be functions on that list. *)
From stdpp Require Import base list gmap.
From S2P Require Import Prelude Memory Stivale Pmm FrameAlloc PageTable Vmm.

(** ** State *)

Record heap := Heap { HEAP_START : Z; HEAP_SIZE : Z; heap_mem : mem }.

Definition set_heap_mem (h : heap) (m : mem) : heap := Heap (HEAP_START h) (HEAP_SIZE h) m.
(** [*(uint32_t* ) p = v;] *)
Definition store (h : heap) (p v : Z) : heap := set_heap_mem h (st32 (heap_mem h) p v).
Definition load (h : heap) (p : Z) : Z := ld32 (heap_mem h) p.

Definition HEADER_SIZE : Z := 4.
Definition FOOTER_SIZE : Z := 4.
Definition MDATA_SIZE : Z := 4 * 2.
Definition SIZE_MASK : Z := 0xFFFE.

Definition block_size (h : heap) (tag : Z) : Z := Z.land (load h tag) SIZE_MASK.
Definition allocated (h : heap) (tag : Z) : bool := negb (Z.land (load h tag) 1 =? 0).
Definition NULL : Z := 0.

(** [((size + 1) >> 1) << 1] *)
Definition round_even (size : Z) : Z := u64 (Z.shiftl (Z.shiftr (u64 (size + 1)) 1) 1).

(** ** Boundary tags *)

Definition footer_from_header (h : heap) (header : Z) : Z :=
  if header =? NULL then NULL else header + HEADER_SIZE + block_size h header.

Definition header_from_footer (h : heap) (footer : Z) : Z :=
  if footer =? NULL then NULL else footer - block_size h footer - HEADER_SIZE.

Definition next_header (h : heap) (header : Z) : Z :=
  let next_header := header + HEADER_SIZE + block_size h header + FOOTER_SIZE in
  if next_header =? HEAP_START h + HEAP_SIZE h then NULL else next_header.

Definition prev_footer (h : heap) (footer : Z) : Z :=
  if footer - block_size h footer - HEADER_SIZE =? HEAP_START h then NULL
  else footer - block_size h footer - HEADER_SIZE - FOOTER_SIZE.

Definition merge_size (h : heap) (block1 block2 : Z) : Z :=
  block_size h block1 + block_size h block2 + MDATA_SIZE.

Definition threeway_merge_size (h : heap) (front middle back : Z) : Z :=
  block_size h front + block_size h middle + block_size h back + MDATA_SIZE * 2.

Definition heap_pos (h : heap) (pos : Z) : Z := pos - HEAP_START h.

(** ** Splitting and merging *)

Definition split_block (h : heap) (block alloc_size : Z) : Z * heap :=
  let outer_header := block in
  let size := block_size h outer_header in
  if size <? alloc_size then (NULL, h)
  else
    let outer_footer := footer_from_header h outer_header in
    let h := store h outer_header (Z.lor alloc_size 1) in
    let inner_header := next_header h outer_header in
    let inner_footer := footer_from_header h outer_header in
    let h := store h inner_footer (load h outer_header) in
    if alloc_size =? size then (outer_header, h)
    else if size <? alloc_size + MDATA_SIZE then
      let h := store h outer_header (Z.lor size 1) in
      let h := store h inner_footer (load h outer_header) in
      (outer_header, h)
    else
      let h := store h inner_header (size - alloc_size - MDATA_SIZE) in
      let h := store h outer_footer (load h inner_header) in
      (outer_header, h).

Definition merge_block (h : heap) (first_block second_block : Z) : Z * heap :=
  let second_block_footer := footer_from_header h second_block in
  if negb (next_header h first_block =? second_block) then (NULL, h)
  else
    let h := store h first_block
      (Z.lor (merge_size h first_block second_block) (Z.land (load h first_block) 1)) in
    let h := store h second_block_footer (load h first_block) in
    (first_block, h).

Definition heap_memset (h : heap) (p val len : Z) : heap :=
  set_heap_mem h (memset (heap_mem h) p val (Z.to_nat len)).
Definition heap_memmove (h : heap) (dst src len : Z) : heap :=
  set_heap_mem h (memmove (heap_mem h) dst src (Z.to_nat len)).

Definition merge_forward (h : heap) (first_block second_block size : Z) : Z * heap :=
  let second_block_size := block_size h second_block in
  let '(new_block, h) := merge_block h first_block second_block in
  let h := heap_memset h second_block 0 (second_block_size + HEADER_SIZE) in
  split_block h new_block size.

Definition merge_backward (h : heap) (first_block second_block size : Z) : Z * heap :=
  let second_block_size := block_size h second_block in
  let h := heap_memmove h (first_block + HEADER_SIZE) (second_block + HEADER_SIZE)
             second_block_size in
  let '(new_block, h) := merge_block h first_block second_block in
  let h := heap_memset h second_block 0 (second_block_size + HEADER_SIZE) in
  split_block h new_block size.

Definition threeway_merge (h : heap) (front middle back size : Z) : Z * heap :=
  let back_footer := footer_from_header h back in
  let middle_size := block_size h middle in
  let h := store h front (Z.lor (threeway_merge_size h front middle back) 1) in
  let h := store h back_footer (load h front) in
  let h := heap_memmove h middle front middle_size in
  let size_to_zero := u64 (back_footer - (front + middle_size)) in
  let h := heap_memset h (front + middle_size) 0 size_to_zero in
  split_block h front size.

(** ** Allocation *)

(** The search of [kalloc]: the first free block larger than [size], or the
    end of the heap. *)
Fixpoint kalloc_find (fuel : nat) (h : heap) (heap_ptr size : Z) : outcome Z :=
  match fuel with
  | O => OutOfFuel
  | S f =>
      if (heap_ptr <? HEAP_START h + HEAP_SIZE h) &&
         (allocated h heap_ptr || (load h heap_ptr <=? size))
      then kalloc_find f h (heap_ptr + (block_size h heap_ptr + HEADER_SIZE + FOOTER_SIZE)) size
      else Done heap_ptr
  end.

(** Every step passes the eight bytes of a block's tags at least. *)
Definition heap_fuel (h : heap) : nat := S (Z.to_nat (HEAP_SIZE h)).

Definition kalloc (h : heap) (size : Z) : outcome (Z * heap) :=
  heap_ptr ← kalloc_find (heap_fuel h) h (HEAP_START h) size;
  if heap_ptr <? HEAP_START h + HEAP_SIZE h then
    let new_size := round_even size in
    let '(_, h) := split_block h heap_ptr new_size in
    let h := heap_memset h (heap_ptr + HEADER_SIZE) 0 new_size in
    Done (heap_ptr + HEADER_SIZE, h)
  else Done (NULL, h).

Definition kfree (h : heap) (allocation : Z) : heap :=
  let header := allocation - HEADER_SIZE in
  let h := store h header (Z.land (load h header) SIZE_MASK) in
  let footer := allocation + load h header in
  let h := store h footer (Z.land (load h footer) SIZE_MASK) in
  let next_block_header := next_header h header in
  let prev_block_footer := prev_footer h footer in
  let h := if negb (next_block_header =? NULL) && negb (allocated h next_block_header)
           then snd (merge_block h header next_block_header) else h in
  if negb (prev_block_footer =? NULL) && negb (allocated h prev_block_footer)
  then snd (merge_block h (header_from_footer h prev_block_footer) header)
  else h.

Definition krealloc (h : heap) (allocation size : Z) : outcome (Z * heap) :=
  let size := round_even size in
  let header := allocation - HEADER_SIZE in
  let footer := allocation + block_size h header in
  let next_block := next_header h header in
  let prev_block_footer := prev_footer h footer in
  let curr_block := header in
  let prev_block := header_from_footer h prev_block_footer in
  let old_size := block_size h header in
  if negb (next_block =? NULL) && negb (allocated h next_block) &&
     (size <=? merge_size h curr_block next_block) then
    let '(b, h) := merge_forward h curr_block next_block size in Done (b + HEADER_SIZE, h)
  else if negb (prev_block =? NULL) && negb (allocated h prev_block_footer) &&
          (size <=? merge_size h prev_block curr_block) then
    let '(b, h) := merge_backward h prev_block curr_block size in Done (b + HEADER_SIZE, h)
  else if negb (prev_block =? NULL) && negb (next_block =? NULL) &&
          negb (allocated h prev_block_footer) && negb (allocated h next_block) &&
          (size <=? threeway_merge_size h prev_block curr_block next_block) then
    let '(b, h) := threeway_merge h prev_block curr_block next_block size in
    Done (b + HEADER_SIZE, h)
  else
    '(new_allocation, h) ← kalloc h size;
    if new_allocation =? NULL then Done (NULL, h)
    else
      let h := heap_memmove h (new_allocation + HEADER_SIZE) (allocation + HEADER_SIZE) old_size in
      Done (new_allocation + HEADER_SIZE, kfree h allocation).

(** ** Set-up *)

(** The kernel's pointers to physical memory lead to the higher half. *)
Definition higher_half (m : mem) : mem := shift_mem KERNEL_DATA m.
Definition lower_half (m : mem) : mem := shift_mem (- KERNEL_DATA) m.

(** The tags are written to physical memory. *)
Definition init_heap (w : pmm) (heap_size : Z) : outcome (heap * pmm) :=
  '(frame, w) ← AllocContiguous w heap_size;
  let h := Heap (u64 (frame + KERNEL_DATA)) heap_size (higher_half (pmm_mem w)) in
  let heap_header := HEAP_START h in
  let h := store h heap_header (heap_size - MDATA_SIZE) in
  let heap_footer := HEAP_START h + HEADER_SIZE + load h heap_header in
  let h := store h heap_footer (load h heap_header) in
  Done (h, set_pmm_mem w (lower_half (heap_mem h))).

(** The size of the heap in bytes, rounded up to whole pages. *)
Definition num_heap_pages (h : heap) : Z :=
  Z.shiftl (Z.shiftr (HEAP_SIZE h + Z.shiftl 1 LOG2_FRAME_SIZE - 1) LOG2_FRAME_SIZE) LOG2_FRAME_SIZE.

Definition map_heap {W} `{FrameAllocator W} (h : heap) (s : vmm W) (page_table_root : Z) :
    outcome (vmm W) :=
  let heap_paddr := KernelVAddrToPAddr s (HEAP_START h) in
  '(_, s) ← MapMultiple s page_table_root heap_paddr (u64 (heap_paddr + num_heap_pages h)) KERNEL_DATA
              KERNEL_PAGE;
  Done s.

(** The lines [print_allocations] prints: position, allocation bit, size of
    the header, position of the footer, size of the footer. *)
Fixpoint print_allocations (fuel : nat) (h : heap) (heap_ptr : Z) : outcome (list (Z * bool * Z * Z * Z)) :=
  match fuel with
  | O => OutOfFuel
  | S f =>
      if heap_ptr <? HEAP_START h + HEAP_SIZE h then
        let heap_footer := footer_from_header h heap_ptr in
        rest ← print_allocations f h (heap_ptr + (block_size h heap_ptr + HEADER_SIZE + FOOTER_SIZE));
        Done ((heap_pos h heap_ptr, allocated h heap_ptr, block_size h heap_ptr,
               heap_pos h heap_footer, block_size h heap_footer) :: rest)
      else Done []
  end.

(** ** The heap as a list of blocks *)

(** A block: the size of its body and whether it is allocated. *)
Abbreviation block := (Z * bool)%type.

Definition tag_of (b : block) : Z := fst b + Z.b2z (snd b).

(** [bs] lie one after the other from [p] on, each between two equal tags. *)
Fixpoint layout (m : mem) (p : Z) (bs : list block) : Prop :=
  match bs with
  | [] => True
  | b :: bs =>
      0 ≤ fst b ∧ fst b mod 2 = 0 ∧ ld32 m p = tag_of b ∧ ld32 m (p + 4 + fst b) = tag_of b ∧
      layout m (p + (fst b + 8)) bs
  end.

Fixpoint span (bs : list block) : Z :=
  match bs with
  | [] => 0
  | b :: bs => (fst b + 8) + span bs
  end.

(** The blocks fill the heap, and their sizes fit [SIZE_MASK]. *)
Record heap_ok (h : heap) (bs : list block) : Prop := {
  heap_layout : layout (heap_mem h) (HEAP_START h) bs;
  heap_span : span bs = HEAP_SIZE h;
  heap_limit : HEAP_SIZE h ≤ 0x10000;
  heap_start : 0 < HEAP_START h;
}.

Lemma span_app bs1 bs2 : span (bs1 ++ bs2) = span bs1 + span bs2.
Proof. induction bs1 as [|b bs1 IH]; simpl; lia. Qed.

Lemma layout_app m p bs1 bs2 :
  layout m p (bs1 ++ bs2) ↔ layout m p bs1 ∧ layout m (p + span bs1) bs2.
Proof.
  revert p. induction bs1 as [|b bs1 IH]; intros p; cbn [app layout span].
  - rewrite Z.add_0_r. tauto.
  - rewrite IH. replace (p + (fst b + 8) + span bs1) with (p + (fst b + 8 + span bs1)) by lia. tauto.
Qed.

Lemma layout_span m p bs : layout m p bs → 0 ≤ span bs ∧ (span bs = 0 → bs = []).
Proof.
  revert p. induction bs as [|b bs IH]; intros p; cbn [layout span]; [done|].
  intros (H1 & _ & _ & _ & Hr). destruct (IH _ Hr). split; [lia|]. lia.
Qed.

(** The layout only depends on the bytes it spans. *)
Lemma layout_ext m1 m2 p bs :
  (∀ a, p ≤ a < p + span bs → ld8 m2 a = ld8 m1 a) → layout m1 p bs → layout m2 p bs.
Proof.
  revert p. induction bs as [|b bs IH]; intros p Heq; [done|]. cbn [layout span] in *.
  intros (H1 & H2 & H3 & H4 & Hr). destruct (layout_span _ _ _ Hr) as [Hs _].
  split_and!; [done|done|rewrite <-H3|rewrite <-H4|].
  - apply ld_ext. intros a Ha. apply Heq. lia.
  - apply ld_ext. intros a Ha. apply Heq. lia.
  - apply IH; [|done]. intros a Ha. apply Heq. lia.
Qed.

(** *** Tags *)

Lemma land_SIZE_MASK z : 0 ≤ z < 2 ^ 16 → Z.land z SIZE_MASK = z - z mod 2.
Proof.
  intros Hz. unfold SIZE_MASK. change 0xFFFE with (Z.land (Z.ones 16) (Z.lnot (Z.ones 1))).
  rewrite Z.land_assoc, Z.land_ones, Z.mod_small by lia. by apply (land_lnot_ones z 1).
Qed.

Lemma tag_bits b : 0 ≤ fst b < 2 ^ 16 - 1 → fst b mod 2 = 0 →
  Z.land (tag_of b) SIZE_MASK = fst b ∧ negb (Z.land (tag_of b) 1 =? 0) = snd b.
Proof.
  intros Hb He. destruct b as [sz [|]]; unfold tag_of; cbn [fst snd Z.b2z] in *;
    rewrite land_SIZE_MASK, even_land_1 by dlia; (split; [dlia|]).
  - by replace ((sz + 1) mod 2) with 1 by dlia.
  - by replace ((sz + 0) mod 2) with 0 by dlia.
Qed.

Lemma tag_range b : 0 ≤ fst b < 2 ^ 16 → 0 ≤ tag_of b < 2 ^ 32.
Proof. destruct b as [sz [|]]; unfold tag_of; cbn [fst snd Z.b2z]; lia. Qed.

Lemma lor_1_tag sz : sz mod 2 = 0 → Z.lor sz 1 = tag_of (sz, true).
Proof. intros He. by apply (lor_low sz 1 1). Qed.

(** *** Looking at one block of the heap *)

Section at_block.
Context (h : heap) (l1 : list block) (b : block) (l2 : list block).
Context (Hok : heap_ok h (l1 ++ b :: l2)).
Let p := HEAP_START h + span l1.

Lemma block_layout : layout (heap_mem h) p (b :: l2).
Proof. pose proof (heap_layout _ _ Hok) as Hl. by apply layout_app in Hl as [_ Hl]. Qed.

Lemma block_bounds :
  0 ≤ span l1 ∧ 0 ≤ span l2 ∧ 0 ≤ fst b < 2 ^ 16 - 1 ∧ fst b mod 2 = 0 ∧ 0 < p ∧
  p + (fst b + 8) + span l2 = HEAP_START h + HEAP_SIZE h.
Proof.
  pose proof (heap_span _ _ Hok) as Hs. pose proof (heap_limit _ _ Hok). pose proof (heap_start _ _ Hok).
  rewrite span_app in Hs. cbn [span] in Hs.
  pose proof (heap_layout _ _ Hok) as Hl. apply layout_app in Hl as [Hl1 Hl2].
  destruct (layout_span _ _ _ Hl1). cbn [layout] in Hl2. destruct Hl2 as (? & ? & _ & _ & Hl2).
  destruct (layout_span _ _ _ Hl2). subst p. split_and!; lia.
Qed.

Lemma block_header : load h p = tag_of b.
Proof. by destruct block_layout as (_ & _ & ? & _). Qed.
Lemma block_footer : load h (p + 4 + fst b) = tag_of b.
Proof. by destruct block_layout as (_ & _ & _ & ? & _). Qed.

Lemma block_size_header : block_size h p = fst b.
Proof. unfold block_size. rewrite block_header. apply tag_bits; apply block_bounds. Qed.
Lemma block_size_footer : block_size h (p + 4 + fst b) = fst b.
Proof. unfold block_size. rewrite block_footer. apply tag_bits; apply block_bounds. Qed.
Lemma block_allocated : allocated h p = snd b.
Proof. unfold allocated. rewrite block_header. apply tag_bits; apply block_bounds. Qed.
Lemma block_allocated_footer : allocated h (p + 4 + fst b) = snd b.
Proof. unfold allocated. rewrite block_footer. apply tag_bits; apply block_bounds. Qed.

Lemma block_next :
  next_header h p = match l2 with [] => NULL | _ => p + (fst b + 8) end.
Proof.
  unfold next_header. rewrite block_size_header. unfold HEADER_SIZE, FOOTER_SIZE.
  pose proof block_bounds as (_ & Hs2 & _ & _ & _ & He). pose proof block_layout as Hbl.
  replace (p + 4 + fst b + 4) with (p + (fst b + 8)) by lia.
  destruct l2 as [|b2 l2']; [cbn [span] in He; by rewrite (proj2 (Z.eqb_eq _ _)) by lia|].
  destruct (Z.eqb_spec (p + (fst b + 8)) (HEAP_START h + HEAP_SIZE h)) as [Heq|]; [|done].
  destruct Hbl as (_ & _ & _ & _ & Hl). destruct (layout_span _ _ _ Hl) as [_ Hn].
  discriminate Hn. lia.
Qed.

Lemma block_prev_footer :
  prev_footer h (p + 4 + fst b) = match l1 with [] => NULL | _ => p - 4 end.
Proof.
  unfold prev_footer. rewrite block_size_footer. unfold HEADER_SIZE, FOOTER_SIZE.
  replace (p + 4 + fst b - fst b - 4) with p by lia.
  destruct l1 as [|b1 l1'] eqn:Hl1.
  - subst p. cbn [span]. by rewrite Z.add_0_r, Z.eqb_refl.
  - destruct (Z.eqb_spec p (HEAP_START h)) as [Heq|]; [|done].
    pose proof (heap_layout _ _ Hok) as Hl. apply layout_app in Hl as [Hl _].
    destruct (layout_span _ _ _ Hl) as [_ Hn]. discriminate Hn. subst p. lia.
Qed.

End at_block.

(** Replacing some blocks by others that take the same room. *)
Lemma heap_edit h l1 old new l2 m' :
  heap_ok h (l1 ++ old ++ l2) → span new = span old →
  same_outside (HEAP_START h + span l1) (HEAP_START h + span l1 + span old) (heap_mem h) m' →
  layout m' (HEAP_START h + span l1) new →
  heap_ok (set_heap_mem h m') (l1 ++ new ++ l2).
Proof.
  intros [Hl Hs Hlim Hst] Hspan Hm Hnew. rewrite !layout_app in Hl. destruct Hl as (Hl1 & Hold & Hl2).
  destruct (layout_span _ _ _ Hl1), (layout_span _ _ _ Hold).
  split; cbn [set_heap_mem heap_mem HEAP_START HEAP_SIZE]; [|by rewrite <-Hs, !span_app, Hspan|done|done].
  rewrite !layout_app. split_and!; [|done|].
  - eapply layout_ext; [|done]. intros a Ha. apply Hm. lia.
  - rewrite Hspan. eapply layout_ext; [|done]. intros a Ha. apply Hm. lia.
Qed.

(** *** Stores *)

Lemma load_store_same h p v : 0 ≤ v < 2 ^ 32 → load (store h p v) p = v.
Proof. apply ld32_st32_same. Qed.
Lemma load_store_other h p q v : p + 4 ≤ q ∨ q + 4 ≤ p → load (store h p v) q = load h q.
Proof. intros Hd. apply (ld_st_disjoint 4 4). simpl. lia. Qed.
Lemma load_range h p : 0 ≤ load h p < 2 ^ 32.
Proof. apply ld32_range. Qed.
Lemma store_outside h p v : same_outside p (p + 4) (heap_mem h) (heap_mem (store h p v)).
Proof. apply (st_outside 4). Qed.
Lemma store_byte h p v a : a < p ∨ p + 4 ≤ a → ld8 (heap_mem (store h p v)) a = ld8 (heap_mem h) a.
Proof. intros Ha. apply store_outside. lia. Qed.

(** The value of a load from a heap that has just been stored to. *)
Ltac heap_load :=
  repeat first [rewrite load_store_same by lia | rewrite load_store_other by lia].

(** A byte no store covers. *)
Ltac heap_byte := repeat rewrite store_byte by lia.

(** *** Splitting *)

(** The blocks [split_block] makes of a block of [sz] bytes. *)
Definition split_blocks (alloc_size sz : Z) : list block :=
  if alloc_size =? sz then [(sz, true)]
  else [(alloc_size, true); (sz - alloc_size - 8, false)].

Lemma split_block_spec h l1 sz a l2 alloc :
  heap_ok h (l1 ++ (sz, a) :: l2) → 0 ≤ alloc → alloc mod 2 = 0 → alloc = sz ∨ alloc + 8 ≤ sz →
  let p := HEAP_START h + span l1 in
  ∃ m', split_block h p alloc = (p, set_heap_mem h m') ∧
    heap_ok (set_heap_mem h m') (l1 ++ split_blocks alloc sz ++ l2) ∧
    same_outside p (p + 8 + sz) (heap_mem h) m' ∧
    (∀ x, p + 4 ≤ x < p + 4 + alloc → ld8 m' x = ld8 (heap_mem h) x).
Proof.
  intros Hok Ha0 Heven Hfit p.
  pose proof (block_bounds h l1 (sz, a) l2 Hok) as (_ & Hs2 & Hsz & Hsze & Hp & Hend).
  pose proof (block_size_header h l1 (sz, a) l2 Hok) as Hsize. cbn [fst snd] in *. fold p in Hsize, Hp, Hend.
  set (T := Z.lor alloc 1). assert (HT : T = tag_of (alloc, true)) by (by apply lor_1_tag).
  assert (HTr : 0 ≤ T < 2 ^ 16) by (rewrite HT; unfold tag_of; cbn; lia).
  assert (Hsz1 : block_size (store h p T) p = alloc).
  { unfold block_size. rewrite load_store_same, HT by lia. apply (tag_bits (alloc, true)); cbn; lia. }
  unfold split_block, footer_from_header, next_header, NULL, HEADER_SIZE, FOOTER_SIZE, MDATA_SIZE.
  fold T. rewrite Hsize, (proj2 (Z.eqb_neq p 0)) by lia. rewrite !Hsz1.
  destruct (Z.ltb_spec sz alloc); [lia|].
  replace (load (store h p T) p) with T by (by rewrite load_store_same by lia).
  unfold split_blocks. destruct (Z.eqb_spec alloc sz) as [->|Hne].
  - set (h2 := store (store h p T) (p + 4 + sz) T).
    exists (heap_mem h2). split; [done|].
    assert (Hout : same_outside p (p + 8 + sz) (heap_mem h) (heap_mem h2)).
    { intros x Hx. unfold h2. by heap_byte. }
    split_and!; [|done|].
    + apply (heap_edit h l1 [(sz, a)] [(sz, true)] l2); [done|done| |].
      * cbn [span fst]. fold p. eapply same_outside_mono; [done|lia|lia].
      * fold p. cbn [layout fst]. unfold h2. rewrite <-HT.
        change (ld32 (heap_mem ?x) ?y) with (load x y). heap_load. by split_and!.
    + intros x Hx. unfold h2. by heap_byte.
  - destruct (Z.ltb_spec sz (alloc + 4 * 2)); [lia|].
    cbn [HEAP_START HEAP_SIZE store set_heap_mem].
    rewrite (proj2 (Z.eqb_neq (p + 4 + alloc + 4) _)) by lia.
    set (r := sz - alloc - 4 * 2).
    set (h2 := store (store h p T) (p + 4 + alloc) T).
    set (h3 := store h2 (p + 4 + alloc + 4) r).
    replace (load h3 (p + 4 + alloc + 4)) with r by (unfold h3; rewrite load_store_same by lia; done).
    set (h4 := store h3 (p + 4 + sz) r).
    exists (heap_mem h4). split; [done|].
    assert (Hout : same_outside p (p + 8 + sz) (heap_mem h) (heap_mem h4)).
    { intros x Hx. unfold h4, h3, h2. by heap_byte. }
    split_and!; [|done|].
    + apply (heap_edit h l1 [(sz, a)] [(alloc, true); (sz - alloc - 8, false)] l2); [done|cbn; lia| |].
      * cbn [span fst]. fold p. eapply same_outside_mono; [done|lia|lia].
      * fold p. cbn [layout fst]. rewrite <-HT. change (tag_of (sz - alloc - 8, false)) with (r + 0).
        change (ld32 (heap_mem ?x) ?y) with (load x y). unfold h4, h3, h2.
        replace (p + (alloc + 8)) with (p + 4 + alloc + 4) by lia.
        replace (p + 4 + alloc + 4 + 4 + (sz - alloc - 8)) with (p + 4 + sz) by lia.
        heap_load. split_and!; try done; try lia; try dlia.
    + intros x Hx. unfold h4, h3, h2. by heap_byte.
Qed.

(** *** Searching *)

(** A block [kalloc] passes over. *)
Definition unfit (size : Z) (b : block) : bool := snd b || (fst b <=? size).

Lemma block_unfit h l1 b l2 size :
  heap_ok h (l1 ++ b :: l2) → let p := HEAP_START h + span l1 in
  allocated h p || (load h p <=? size) = unfit size b.
Proof.
  intros Hok p. unfold p. rewrite (block_allocated h l1 b l2), (block_header h l1 b l2) by done.
  unfold unfit, tag_of. by destruct b as [sz [|]]; cbn; [|rewrite Z.add_0_r].
Qed.

Lemma kalloc_find_skip h size l1 : ∀ l0 l2 f,
  heap_ok h (l0 ++ l1 ++ l2) → Forall (λ b, unfit size b = true) l1 →
  kalloc_find (length l1 + f) h (HEAP_START h + span l0) size =
  kalloc_find f h (HEAP_START h + span l0 + span l1) size.
Proof.
  induction l1 as [|b l1 IH]; intros l0 l2 f Hok Hun.
  - cbn [length span Nat.add]. by rewrite Z.add_0_r.
  - apply Forall_cons in Hun as [Hb Hun]. cbn [length Nat.add kalloc_find].
    rewrite (block_unfit h l0 b (l1 ++ l2)), Hb by done.
    pose proof (block_bounds h l0 b (l1 ++ l2) Hok) as (_ & ? & ? & _ & _ & ?).
    destruct (Z.ltb_spec (HEAP_START h + span l0) (HEAP_START h + HEAP_SIZE h)); [|lia].
    cbn [andb]. rewrite (block_size_header h l0 b (l1 ++ l2)) by done.
    unfold HEADER_SIZE, FOOTER_SIZE. specialize (IH (l0 ++ [b]) l2 f).
    rewrite span_app, <-app_assoc in IH. cbn [span app] in IH |- *.
    replace (HEAP_START h + span l0 + (fst b + 4 + 4)) with (HEAP_START h + (span l0 + (fst b + 8 + 0))) by lia.
    rewrite IH by done. f_equal. lia.
Qed.

(** There are no more blocks than the fuel of the search. *)
Lemma span_length bs : Forall (λ b, 0 ≤ fst b) bs → 8 * Z.of_nat (length bs) ≤ span bs.
Proof. induction 1; cbn [length span]; lia. Qed.

Lemma layout_sizes m p bs : layout m p bs → Forall (λ b, 0 ≤ fst b) bs.
Proof.
  revert p. induction bs as [|b bs IH]; intros p; [done|]. cbn [layout].
  intros (? & _ & _ & _ & Hl). constructor; eauto.
Qed.

Lemma first_fit size bs :
  Forall (λ b, unfit size b = true) bs ∨
  ∃ l1 b l2, bs = l1 ++ b :: l2 ∧ Forall (λ b, unfit size b = true) l1 ∧ unfit size b = false.
Proof.
  induction bs as [|b bs [IH|(l1 & b' & l2 & -> & ? & ?)]]; [by left|..];
    (destruct (unfit size b) eqn:Hb; [|right; eexists [], b, _; by split_and!]).
  - left. by constructor.
  - right. exists (b :: l1), b', l2. split_and!; [done|by constructor|done].
Qed.

Lemma kalloc_find_spec h bs size :
  heap_ok h bs →
  (∃ l1 sz l2, bs = l1 ++ (sz, false) :: l2 ∧ Forall (λ b, unfit size b = true) l1 ∧ size < sz ∧
     kalloc_find (heap_fuel h) h (HEAP_START h) size = Done (HEAP_START h + span l1)) ∨
  (Forall (λ b, unfit size b = true) bs ∧
     kalloc_find (heap_fuel h) h (HEAP_START h) size = Done (HEAP_START h + HEAP_SIZE h)).
Proof.
  intros Hok. pose proof (span_length bs (layout_sizes _ _ _ (heap_layout _ _ Hok))) as Hlen.
  rewrite (heap_span _ _ Hok) in Hlen. unfold heap_fuel.
  destruct (first_fit size bs) as [Hall|(l1 & b & l2 & -> & Hun & Hfit)].
  - right. split; [done|].
    replace (S (Z.to_nat (HEAP_SIZE h))) with (length bs + (S (Z.to_nat (HEAP_SIZE h)) - length bs))%nat by lia.
    pose proof (kalloc_find_skip h size bs [] [] (S (Z.to_nat (HEAP_SIZE h)) - length bs)) as Hskip.
    cbn [span app] in Hskip. rewrite app_nil_r, Z.add_0_r in Hskip. rewrite Hskip by done.
    rewrite (heap_span _ _ Hok).
    destruct (S (Z.to_nat (HEAP_SIZE h)) - length bs)%nat eqn:Hf; [lia|]. cbn [kalloc_find].
    by rewrite Z.ltb_irrefl.
  - left.
    destruct b as [sz a]. unfold unfit in Hfit. cbn [fst snd] in Hfit.
    apply orb_false_iff in Hfit as [-> Hfit%Z.leb_gt]. exists l1, sz, l2. split_and!; [done|done|done|].
    pose proof (kalloc_find_skip h size l1 [] ((sz, false) :: l2)
      (S (Z.to_nat (HEAP_SIZE h)) - length l1)) as Hskip.
    cbn [span app] in Hskip. rewrite Z.add_0_r in Hskip. rewrite length_app in Hlen. cbn [length] in Hlen.
    replace (S (Z.to_nat (HEAP_SIZE h))) with (length l1 + (S (Z.to_nat (HEAP_SIZE h)) - length l1))%nat by lia.
    rewrite Hskip by done.
    destruct (S (Z.to_nat (HEAP_SIZE h)) - length l1)%nat eqn:Hf; [lia|]. cbn [kalloc_find].
    rewrite (block_unfit h l1 (sz, false) l2) by done. unfold unfit. cbn [fst snd orb].
    destruct (Z.leb_spec sz size); [lia|]. by rewrite andb_false_r.
Qed.

(** *** Allocating *)

Lemma round_even_spec size : 0 ≤ size < 2 ^ 64 - 1 → round_even size = size + size mod 2.
Proof.
  intros Hs. unfold round_even. rewrite (u64_small (size + 1)) by lia.
  rewrite Z.shiftl_mul_pow2, Z.shiftr_div_pow2 by lia. change (2 ^ 1) with 2.
  rewrite u64_small by dlia. dlia.
Qed.

Lemma kalloc_fits h l1 sz l2 size :
  heap_ok h (l1 ++ (sz, false) :: l2) → Forall (λ b, unfit size b = true) l1 → 0 ≤ size < sz →
  kalloc_find (heap_fuel h) h (HEAP_START h) size = Done (HEAP_START h + span l1) →
  sz = size + size mod 2 ∨ size + size mod 2 + 8 ≤ sz →
  let p := HEAP_START h + span l1 in
  ∃ m', kalloc h size = Done (p + 4, set_heap_mem h m') ∧
    heap_ok (set_heap_mem h m') (l1 ++ split_blocks (size + size mod 2) sz ++ l2) ∧
    same_outside p (p + 8 + sz) (heap_mem h) m' ∧
    (∀ x, p + 4 ≤ x < p + 4 + (size + size mod 2) → ld8 m' x = 0).
Proof.
  intros Hok Hun Hs Hfind Hslack p.
  pose proof (block_bounds h l1 (sz, false) l2 Hok) as (? & Hs2 & Hsz & Hsze & Hp & Hend).
  cbn [fst] in *. unfold kalloc. rewrite Hfind. do_bind.
  rewrite (proj2 (Z.ltb_lt _ _)) by lia. rewrite round_even_spec by lia.
  assert (Heven : (size + size mod 2) mod 2 = 0 ∧ 0 ≤ size + size mod 2 ≤ sz) by dlia.
  set (alloc := size + size mod 2) in *. destruct Heven as [Heven Hle].
  destruct (split_block_spec h l1 sz false l2 alloc) as (m1 & Hsplit & Hok1 & Hout1 & _);
    [done|lia|done|lia|].
  rewrite Hsplit. fold p in Hout1 |- *. unfold HEADER_SIZE, heap_memset.
  cbn [heap_mem set_heap_mem HEAP_START HEAP_SIZE].
  set (m2 := memset m1 (p + 4) 0 (Z.to_nat alloc)).
  assert (Hout2 : same_outside (p + 4) (p + 4 + alloc) m1 m2).
  { intros x Hx. apply memset_outside. lia. }
  exists m2. split; [done|].
  assert (Hout : same_outside p (p + 8 + sz) (heap_mem h) m2).
  { eapply same_outside_trans; [done|]. eapply same_outside_mono; [done|lia|lia]. }
  split_and!; [|done|].
  - apply (heap_edit h l1 [(sz, false)] (split_blocks alloc sz) l2); [done| | |].
    + unfold split_blocks. destruct (alloc =? sz); cbn; lia.
    + cbn [span fst]. eapply same_outside_mono; [done|fold p; lia|fold p; lia].
    + pose proof (heap_layout _ _ Hok1) as Hl. apply layout_app in Hl as [_ Hl].
      apply layout_app in Hl as [Hl _]. revert Hl. cbn [set_heap_mem heap_mem HEAP_START]. fold p.
      unfold split_blocks. destruct (Z.eqb_spec alloc sz) as [Heq|Hne]; cbn [layout fst].
      * rewrite !(ld_same_outside 4 (p + 4) (p + 4 + alloc) m1 m2) by (done || lia). done.
      * rewrite !(ld_same_outside 4 (p + 4) (p + 4 + alloc) m1 m2) by (done || lia). done.
  - intros x Hx. apply memset_inside. lia.
Qed.

(** The first-fit rule on lists of blocks: the new blocks, and where the new
    body lies in the heap. *)
Fixpoint alloc_blocks (size : Z) (bs : list block) : option (list block * Z) :=
  match bs with
  | [] => None
  | b :: bs =>
      if unfit size b then '(bs, off) ← alloc_blocks size bs; Some (b :: bs, (fst b + 8) + off)
      else Some (split_blocks (size + size mod 2) (fst b) ++ bs, 4)
  end.

Lemma alloc_blocks_none size bs :
  Forall (λ b, unfit size b = true) bs → alloc_blocks size bs = None.
Proof. induction 1 as [|b bs Hb _ IH]; [done|]. cbn [alloc_blocks]. by rewrite Hb, IH. Qed.

Lemma alloc_blocks_some size l1 b l2 :
  Forall (λ b, unfit size b = true) l1 → unfit size b = false →
  alloc_blocks size (l1 ++ b :: l2) =
    Some (l1 ++ split_blocks (size + size mod 2) (fst b) ++ l2, span l1 + 4).
Proof.
  induction 1 as [|b1 l1 Hb1 _ IH]; intros Hb; cbn [app alloc_blocks span]; [by rewrite Hb|].
  rewrite Hb1, IH by done. cbn. do 2 f_equal. lia.
Qed.

Lemma alloc_blocks_full size bs :
  alloc_blocks size bs = None → ∀ sz, (sz, false) ∈ bs → sz ≤ size.
Proof.
  induction bs as [|b bs IH]; intros Hnone sz; [by intros ?%elem_of_nil|]. cbn [alloc_blocks] in Hnone.
  destruct (unfit size b) eqn:Hun; [|done]. destruct (alloc_blocks size bs) as [[bs' off]|]; [done|].
  intros [Hb|Hin]%elem_of_cons; [|by apply IH]. unfold unfit in Hun. rewrite <-Hb in Hun. cbn in Hun. lia.
Qed.

(** *** Merging *)

Lemma merge_block_spec h l1 s1 a s2 l2 :
  heap_ok h (l1 ++ (s1, a) :: (s2, false) :: l2) →
  let p := HEAP_START h + span l1 in
  ∃ m', merge_block h p (p + (s1 + 8)) = (p, set_heap_mem h m') ∧
    heap_ok (set_heap_mem h m') (l1 ++ (s1 + s2 + 8, a) :: l2) ∧
    (∀ x, (x < p ∨ p + 4 ≤ x) → (x < p + 12 + s1 + s2 ∨ p + 16 + s1 + s2 ≤ x) →
       ld8 m' x = ld8 (heap_mem h) x).
Proof.
  intros Hok p.
  pose proof (block_bounds h l1 (s1, a) ((s2, false) :: l2) Hok) as (_ & _ & Hs1 & He1 & Hp & Hend).
  assert (Hok2 : heap_ok h ((l1 ++ [(s1, a)]) ++ (s2, false) :: l2)) by (by rewrite <-app_assoc).
  pose proof (block_bounds h (l1 ++ [(s1, a)]) (s2, false) l2 Hok2) as (_ & Hs & Hs2 & He2 & _ & Hend2).
  pose proof (block_size_header h (l1 ++ [(s1, a)]) (s2, false) l2 Hok2) as Hz2.
  pose proof (block_size_header h l1 (s1, a) ((s2, false) :: l2) Hok) as Hz1.
  pose proof (block_next h l1 (s1, a) ((s2, false) :: l2) Hok) as Hnext.
  pose proof (block_header h l1 (s1, a) ((s2, false) :: l2) Hok) as Hh1.
  rewrite span_app in Hz2, Hend2. cbn [span fst] in *. fold p in Hz1, Hnext, Hp, Hend, Hh1.
  replace (HEAP_START h + (span l1 + (s1 + 8 + 0))) with (p + (s1 + 8)) in Hz2, Hend2 by lia.
  pose proof (heap_limit _ _ Hok) as Hlim. pose proof (heap_start _ _ Hok) as Hst.
  unfold merge_block, footer_from_header, merge_size, NULL, HEADER_SIZE, MDATA_SIZE.
  rewrite Hnext, Z.eqb_refl, (proj2 (Z.eqb_neq (p + (s1 + 8)) 0)), Hz1, Hz2, Hh1 by lia. cbn [negb].
  set (t := Z.lor (s1 + s2 + 4 * 2) (Z.land (tag_of (s1, a)) 1)).
  assert (Ht : t = tag_of (s1 + s2 + 8, a)).
  { unfold t, tag_of. cbn [fst snd]. rewrite even_land_1. rewrite (lor_low _ _ 1); [|lia|dlia|dlia].
    destruct a; cbn [Z.b2z]; dlia. }
  assert (Htr : 0 ≤ t < 2 ^ 32).
  { rewrite Ht. destruct (layout_span _ _ _ (heap_layout _ _ Hok)). 
    unfold tag_of. destruct a; cbn [fst snd Z.b2z]; lia. }
  replace (load (store h p t) p) with t by (by rewrite load_store_same by lia).
  set (h2 := store (store h p t) (p + (s1 + 8) + 4 + s2) t).
  exists (heap_mem h2). split; [done|]. split.
  - apply (heap_edit h l1 [(s1, a); (s2, false)] [(s1 + s2 + 8, a)] l2); [done|cbn; lia| |].
    + cbn [span fst]. fold p. intros x Hx. unfold h2. by heap_byte.
    + fold p. cbn [layout fst]. change (ld32 (heap_mem ?x) ?y) with (load x y).
      unfold h2. replace (p + 4 + (s1 + s2 + 8)) with (p + (s1 + 8) + 4 + s2) by lia.
      heap_load. rewrite Ht. split_and!; [lia|dlia|done|done|done].
  - intros x Hx1 Hx2. unfold h2. by heap_byte.
Qed.

(** *** Freeing *)

(** The list of blocks after freeing a block of [sz] bytes between [l1] and
    [l2]: it is merged with a free block on either side. *)
Definition merge_next (sz : Z) (l2 : list block) : Z * list block :=
  match l2 with
  | (s2, false) :: l2 => (sz + s2 + 8, l2)
  | _ => (sz, l2)
  end.

(** [r1] is the list of the blocks before, the nearest first. *)
Definition coalesce (r1 : list block) (sz : Z) (l2 : list block) : list block :=
  let '(sz, l2) := merge_next sz l2 in
  match r1 with
  | (s1, false) :: r1 => rev r1 ++ (s1 + sz + 8, false) :: l2
  | _ => rev r1 ++ (sz, false) :: l2
  end.

Lemma span_merge_next sz l2 : fst (merge_next sz l2) + span (snd (merge_next sz l2)) = sz + span l2.
Proof. destruct l2 as [|[s2 [|]] l2]; cbn; lia. Qed.

(** Clearing the allocation bits of a block. *)
Lemma clear_block h l1 sz a l2 :
  heap_ok h (l1 ++ (sz, a) :: l2) →
  let p := HEAP_START h + span l1 in
  let h1 := store h p (Z.land (load h p) SIZE_MASK) in
  let h2 := store h1 (p + 4 + sz) (Z.land (load h1 (p + 4 + sz)) SIZE_MASK) in
  load h1 p = sz ∧ heap_ok h2 (l1 ++ (sz, false) :: l2) ∧
  (∀ x, (x < p ∨ p + 4 ≤ x) → (x < p + 4 + sz ∨ p + 8 + sz ≤ x) →
     ld8 (heap_mem h2) x = ld8 (heap_mem h) x).
Proof.
  intros Hok p h1 h2.
  pose proof (block_bounds h l1 (sz, a) l2 Hok) as (_ & Hs & Hsz & He & Hp & Hend).
  assert (Hv : Z.land (load h p) SIZE_MASK = sz) by apply (block_size_header h l1 (sz, a) l2 Hok).
  assert (Hf : Z.land (load h (p + 4 + sz)) SIZE_MASK = sz)
    by apply (block_size_footer h l1 (sz, a) l2 Hok).
  cbn [fst] in *. fold p in Hp, Hend. subst h2 h1. rewrite !Hv.
  assert (Hl : load (store h p sz) (p + 4 + sz) = load h (p + 4 + sz)) by (by heap_load).
  rewrite Hl, Hf. split_and!.
  - by heap_load.
  - apply (heap_edit h l1 [(sz, a)] [(sz, false)] l2
      (heap_mem (store (store h p sz) (p + 4 + sz) sz))); [done|done| |].
    + cbn [span fst]. fold p. intros x Hx. by heap_byte.
    + fold p. cbn [layout fst]. change (ld32 (heap_mem ?x) ?y) with (load x y). unfold tag_of.
      cbn [fst snd Z.b2z]. rewrite Z.add_0_r. heap_load. split_and!; try done; lia.
  - intros x Hx1 Hx2. by heap_byte.
Qed.

Lemma merge_next_spec h l1 sz l2 :
  heap_ok h (l1 ++ (sz, false) :: l2) →
  let p := HEAP_START h + span l1 in
  let next := next_header h p in
  ∃ m', (if negb (next =? NULL) && negb (allocated h next) then snd (merge_block h p next) else h)
          = set_heap_mem h m' ∧
    heap_ok (set_heap_mem h m')
      (l1 ++ (fst (merge_next sz l2), false) :: snd (merge_next sz l2)) ∧
    (∀ x, (x < p ∨ p + 4 ≤ x) →
       (x < p + 4 + fst (merge_next sz l2) ∨ p + 8 + fst (merge_next sz l2) ≤ x) →
       ld8 m' x = ld8 (heap_mem h) x).
Proof.
  intros Hok p next.
  pose proof (block_bounds h l1 (sz, false) l2 Hok) as (_ & Hs & Hsz & He & Hp & Hend).
  subst next. unfold p. rewrite (block_next h l1 (sz, false) l2 Hok). cbn [fst] in *.
  assert (Hnone : ∃ m', h = set_heap_mem h m' ∧ heap_ok (set_heap_mem h m') (l1 ++ (sz, false) :: l2) ∧
    ∀ x, ld8 m' x = ld8 (heap_mem h) x) by (exists (heap_mem h); by destruct h).
  destruct l2 as [|[s2 a2] l2].
  { destruct Hnone as (m' & H1 & H2 & H3). exists m'. by split_and!. }
  assert (Hok2 : heap_ok h ((l1 ++ [(sz, false)]) ++ (s2, a2) :: l2)) by (by rewrite <-app_assoc).
  pose proof (block_allocated h (l1 ++ [(sz, false)]) (s2, a2) l2 Hok2) as Hal.
  rewrite span_app in Hal. cbn [span fst snd] in Hal.
  replace (HEAP_START h + (span l1 + (sz + 8 + 0))) with (HEAP_START h + span l1 + (sz + 8)) in Hal by lia.
  rewrite Hal. rewrite (proj2 (Z.eqb_neq _ NULL)) by (unfold NULL; lia).
  destruct a2; cbn [negb andb merge_next fst snd].
  - destruct Hnone as (m' & H1 & H2 & H3). exists m'. by split_and!.
  - destruct (merge_block_spec h l1 sz false s2 l2 Hok) as (m' & Hm & Hok' & Hb).
    exists m'. rewrite Hm. split_and!; [done|done|]. intros x Hx1 Hx2. apply Hb; unfold p in *; lia.
Qed.

(** [x] is an address of the body of an allocated block of [bs], which starts
    at [p]. *)
Fixpoint in_body (p : Z) (bs : list block) (x : Z) : Prop :=
  match bs with
  | [] => False
  | (c, a) :: bs => (a = true ∧ p + 4 ≤ x < p + 4 + c) ∨ in_body (p + (c + 8)) bs x
  end.

Lemma in_body_app p bs1 bs2 x :
  in_body p (bs1 ++ bs2) x ↔ in_body p bs1 x ∨ in_body (p + span bs1) bs2 x.
Proof.
  revert p. induction bs1 as [|[c a] bs1 IH]; intros p; cbn [app in_body span fst].
  - rewrite Z.add_0_r. tauto.
  - rewrite IH. replace (p + (c + 8) + span bs1) with (p + (c + 8 + span bs1)) by lia. tauto.
Qed.

Lemma in_body_range m p bs x : layout m p bs → in_body p bs x → p ≤ x < p + span bs.
Proof.
  revert p. induction bs as [|[c a] bs IH]; intros p; cbn [layout in_body span fst]; [done|].
  intros (? & _ & _ & _ & Hl). destruct (layout_span _ _ _ Hl).
  intros [[_ ?]|Hx]; [lia|]. specialize (IH _ Hl Hx). lia.
Qed.

(** The block grows over the free block after it, and over no body. *)
Lemma merge_next_far m p sz l2 x :
  layout m (p + (sz + 8)) l2 → in_body (p + (sz + 8)) l2 x → p + 8 + fst (merge_next sz l2) ≤ x.
Proof.
  intros Hl Hx. destruct l2 as [|[s2 [|]] l2]; cbn [merge_next fst]; [done|..].
  - pose proof (in_body_range _ _ _ _ Hl Hx). lia.
  - cbn [in_body layout fst] in Hx, Hl. destruct Hx as [[? _]|Hx]; [done|].
    destruct Hl as (_ & _ & _ & _ & Hl). pose proof (in_body_range _ _ _ _ Hl Hx). lia.
Qed.

Lemma merge_next_grows m p sz l2 : layout m p l2 → sz ≤ fst (merge_next sz l2).
Proof. intros Hl. destruct l2 as [|[s2 [|]] l2]; cbn [merge_next fst]; [lia..|]. cbn [layout fst] in Hl. lia. Qed.

(** [kfree] but for the block before: the block is free, and merged with the next. *)
Lemma kfree_next h r1 sz l2 :
  heap_ok h (rev r1 ++ (sz, true) :: l2) →
  let p := HEAP_START h + span (rev r1) in
  ∃ m,
    (let h2 := set_heap_mem h m in
     let prev_block_footer := match rev r1 with [] => NULL | _ => p - 4 end in
     kfree h (p + 4) =
       if negb (prev_block_footer =? NULL) && negb (allocated h2 prev_block_footer)
       then snd (merge_block h2 (header_from_footer h2 prev_block_footer) p) else h2) ∧
    heap_ok (set_heap_mem h m) (rev r1 ++ (fst (merge_next sz l2), false) :: snd (merge_next sz l2)) ∧
    (∀ x, x < p ∨ p + 8 + fst (merge_next sz l2) ≤ x → ld8 m x = ld8 (heap_mem h) x).
Proof.
  intros Hok p. pose proof (block_bounds _ _ _ _ Hok) as (_ & _ & Hsz & _). cbn [fst] in Hsz.
  pose proof (heap_layout _ _ Hok) as Hlay. apply layout_app in Hlay as [_ Hlay2].
  cbn [layout fst] in Hlay2. destruct Hlay2 as (_ & _ & _ & _ & Hlay2).
  pose proof (merge_next_grows _ _ sz _ Hlay2) as Hgrow.
  destruct (clear_block h (rev r1) sz true l2 Hok) as (Hl & Hok2 & Hb2). cbv zeta in Hl, Hok2, Hb2.
  fold p in Hl, Hok2, Hb2. unfold kfree, HEADER_SIZE. replace (p + 4 - 4) with p by lia.
  rewrite Hl. set (h2 := store (store h p _) (p + 4 + sz) _) in *.
  pose proof (block_prev_footer h2 (rev r1) (sz, false) l2 Hok2) as Hpf. cbn [fst] in Hpf.
  change (HEAP_START h2) with (HEAP_START h) in Hpf. fold p in Hpf. rewrite Hpf.
  destruct (merge_next_spec h2 (rev r1) sz l2 Hok2) as (m3 & Hm3 & Hok3 & Hb3).
  cbv zeta in Hm3, Hb3. change (HEAP_START h2) with (HEAP_START h) in Hm3, Hb3. fold p in Hm3, Hb3.
  rewrite Hm3. exists m3. split_and!; [done|exact Hok3|]. intros x Hx. rewrite Hb3, Hb2 by lia. done.
Qed.

(** [kfree] of an allocated block.  No other block's body changes. *)
Lemma kfree_result h r1 sz l2 :
  heap_ok h (rev r1 ++ (sz, true) :: l2) →
  let p := HEAP_START h + span (rev r1) in
  ∃ m', kfree h (p + 4) = set_heap_mem h m' ∧ heap_ok (set_heap_mem h m') (coalesce r1 sz l2) ∧
    (∀ x, in_body (HEAP_START h) (rev r1) x ∨ in_body (p + (sz + 8)) l2 x →
       ld8 m' x = ld8 (heap_mem h) x).
Proof.
  intros Hok p. destruct (kfree_next h r1 sz l2 Hok) as (m & Hf & Hok2 & Hkeep). cbv zeta in Hf, Hkeep. fold p in Hf, Hkeep.
  rewrite Hf. clear Hf. pose proof (heap_layout _ _ Hok) as Hlay. apply layout_app in Hlay as [Hlay1 Hlay2].
  cbn [layout fst] in Hlay2. destruct Hlay2 as (_ & _ & _ & _ & Hlay2).
  assert (Hfar := fun x => merge_next_far _ _ _ _ x Hlay2). fold p in Hfar.
  pose proof (merge_next_grows _ _ sz _ Hlay2) as Hgrow.
  pose proof (block_bounds _ _ _ _ Hok) as (_ & _ & Hsz & _). cbn [fst] in Hsz.
  assert (Hnear : ∀ x, in_body (HEAP_START h) (rev r1) x → x < p).
  { intros x Hx. pose proof (in_body_range _ _ _ _ Hlay1 Hx). lia. }
  assert (Hall : ∀ x, in_body (HEAP_START h) (rev r1) x ∨ in_body (p + (sz + 8)) l2 x → ld8 m x = ld8 (heap_mem h) x).
  { intros x [Hx|Hx]; apply Hkeep; [left; by apply Hnear|right; by apply Hfar]. }
  unfold coalesce. destruct (merge_next sz l2) as [sz' l2']. cbn [fst snd] in *.
  destruct r1 as [|[s1 a1] r1]; [by exists m|]. cbn [rev] in *.
  assert (Hpd : p = HEAP_START h + span (rev r1) + (s1 + 8)) by (subst p; rewrite span_app; cbn; lia).
  clearbody p. rewrite <-app_assoc in Hok2. cbn [app] in Hok2.
  destruct (rev r1 ++ [(s1, a1)]) eqn:Hne; [by destruct (rev r1)|]. rewrite <-Hne in *. clear Hne.
  pose proof (block_bounds _ _ _ _ Hok2) as (_ & _ & Hs1 & _ & Hp1 & _).
  pose proof (block_allocated_footer _ _ _ _ Hok2) as Haf. pose proof (block_size_footer _ _ _ _ Hok2) as Hsf.
  cbn [fst snd set_heap_mem HEAP_START] in Hs1, Hp1, Haf, Hsf.
  replace (p - 4) with (HEAP_START h + span (rev r1) + 4 + s1) by lia.
  rewrite (proj2 (Z.eqb_neq _ NULL)), Haf by (unfold NULL; lia).
  destruct a1; cbn [negb andb]; [by exists m; rewrite <-app_assoc|].
  unfold header_from_footer. rewrite (proj2 (Z.eqb_neq _ NULL)), Hsf by (unfold NULL; lia). unfold HEADER_SIZE.
  replace (HEAP_START h + span (rev r1) + 4 + s1 - s1 - 4) with (HEAP_START h + span (rev r1)) by lia.
  destruct (merge_block_spec _ _ _ _ _ _ Hok2) as (m' & Hm & Hok' & Hb4).
  cbn [set_heap_mem HEAP_START heap_mem] in Hm, Hb4. rewrite <-Hpd in Hm. rewrite Hm. exists m'.
  split_and!; [done|exact Hok'|]. intros x Hx. rewrite <-Hall by exact Hx.
  assert (x < HEAP_START h + span (rev r1) ∨ p + 8 + sz' ≤ x); [|apply Hb4; lia].
  destruct Hx as [Hx|Hx]; [left|right; by apply Hfar].
  apply in_body_app in Hx as [Hx|Hx]; [|by destruct Hx as [[? _]|?]].
  apply layout_app in Hlay1 as [Hlay1 _]. pose proof (in_body_range _ _ _ _ Hlay1 Hx). lia.
Qed.

(** *** Sizes in multiples of eight *)

(** As long as every request is a multiple of eight bytes, so are the blocks,
    and a block that is too large can always be split. *)
Definition aligned (bs : list block) : Prop := Forall (λ b, fst b mod 8 = 0) bs.

Lemma aligned_split alloc sz :
  alloc mod 8 = 0 → sz mod 8 = 0 → aligned (split_blocks alloc sz).
Proof.
  intros Ha Hs. unfold split_blocks, aligned. destruct (_ =? _); repeat constructor; cbn [fst]; dlia.
Qed.

Lemma aligned_coalesce r1 sz l2 :
  aligned (rev r1 ++ (sz, true) :: l2) → aligned (coalesce r1 sz l2).
Proof.
  unfold aligned. rewrite Forall_app, Forall_cons. intros (H1 & Hsz & H2). cbn [fst] in Hsz.
  assert (Hm : fst (merge_next sz l2) mod 8 = 0 ∧ aligned (snd (merge_next sz l2))).
  { destruct l2 as [|[s2 [|]] l2]; cbn [merge_next fst snd]; [done..|].
    apply Forall_cons in H2 as [Hs2 H2]. cbn [fst] in Hs2. split; [dlia|done]. }
  unfold coalesce. destruct (merge_next sz l2) as [sz' l2']. destruct Hm as [Hsz' Hl2'].
  cbn [fst snd] in *.
  destruct r1 as [|[s1 [|]] r1]; cbn [rev] in *; [|apply Forall_app; auto|].
  - constructor; [done|]. done.
  - apply Forall_app in H1 as [H1 [Hs1 _]%Forall_cons]. cbn [fst] in Hs1.
    apply Forall_app; split; [done|]. constructor; [cbn [fst]; dlia|done].
Qed.

(** The bodies of a block and of those around it do not meet. *)
Lemma in_body_free m p l1 sz l2 x :
  layout m p (l1 ++ (sz, false) :: l2) → in_body p (l1 ++ (sz, false) :: l2) x →
  x < p + span l1 ∨ p + span l1 + 8 + sz ≤ x.
Proof.
  rewrite layout_app, in_body_app. cbn [layout in_body fst]. intros (H1 & _ & _ & _ & _ & H2) [Hx|[[? _]|Hx]].
  - left. apply (in_body_range _ _ _ _ H1 Hx).
  - done.
  - right. pose proof (in_body_range _ _ _ _ H2 Hx). lia.
Qed.

(** The first block that is large enough is used up, or leaves enough for
    another block: a request that leaves 2, 4 or 6 bytes breaks the heap, see
    [kalloc_slack]. *)
Definition splits (size : Z) (bs : list block) : Prop :=
  match List.find (λ b, negb (unfit size b)) bs with
  | Some b => fst b = size + size mod 2 ∨ size + size mod 2 + 8 ≤ fst b
  | None => True
  end.

Lemma splits_first size l1 sz l2 :
  Forall (λ b, unfit size b = true) l1 → size < sz → splits size (l1 ++ (sz, false) :: l2) →
  sz = size + size mod 2 ∨ size + size mod 2 + 8 ≤ sz.
Proof.
  intros Hun Hsz. unfold splits. induction Hun as [|b l1 Hb _ IH]; cbn [app List.find].
  - unfold unfit at 1. cbn [fst snd orb]. by rewrite (proj2 (Z.leb_gt _ _) Hsz).
  - by rewrite Hb.
Qed.

(** Requests and blocks of multiples of eight bytes always split. *)
Lemma aligned_splits size bs : aligned bs → size mod 8 = 0 → splits size bs.
Proof.
  intros Hal Hs8. unfold splits. destruct (List.find _ bs) as [[sz a]|] eqn:Hf; [|done].
  apply find_some in Hf as [Hin Hfit]. apply list_elem_of_In in Hin.
  pose proof (proj1 (Forall_forall _ _) Hal _ Hin) as Hsz8. unfold unfit in Hfit. cbn [fst snd] in *. dlia.
Qed.

Lemma kalloc_outcome h bs size :
  heap_ok h bs → 0 ≤ size → splits size bs →
  match alloc_blocks size bs with
  | None => kalloc h size = Done (NULL, h)
  | Some (bs', off) => ∃ l1 sz l2 m',
      bs = l1 ++ (sz, false) :: l2 ∧ bs' = l1 ++ split_blocks (size + size mod 2) sz ++ l2 ∧ off = span l1 + 4 ∧
      size < sz ∧ (sz = size + size mod 2 ∨ size + size mod 2 + 8 ≤ sz) ∧
      kalloc h size = Done (HEAP_START h + off, set_heap_mem h m') ∧
      heap_ok (set_heap_mem h m') bs' ∧
      same_outside (HEAP_START h + span l1) (HEAP_START h + span l1 + 8 + sz) (heap_mem h) m' ∧
      (∀ x, HEAP_START h + off ≤ x < HEAP_START h + off + (size + size mod 2) → ld8 m' x = 0)
  end.
Proof.
  intros Hok Hs0 Hsp.
  destruct (kalloc_find_spec h bs size Hok) as [(l1 & sz & l2 & -> & Hun & Hsz & Hfind)|[Hun Hfind]].
  - rewrite alloc_blocks_some; [|done|unfold unfit; cbn [fst snd orb]; by apply Z.leb_gt].
    pose proof (splits_first size l1 sz l2 Hun Hsz Hsp) as Hslack.
    destruct (kalloc_fits h l1 sz l2 size) as (m' & Hk & Hok' & Hout & Hzero); [done|done|lia|done|done|].
    cbn [fst] in *. exists l1, sz, l2, m'. rewrite !Z.add_assoc in *. split_and!; try done.
  - rewrite alloc_blocks_none by done. unfold kalloc. rewrite Hfind. do_bind.
    by rewrite Z.ltb_irrefl.
Qed.

Lemma kalloc_result h bs size :
  heap_ok h bs → aligned bs → 0 ≤ size → size mod 8 = 0 →
  match alloc_blocks size bs with
  | None => kalloc h size = Done (NULL, h)
  | Some (bs', off) => ∃ l1 sz l2 m',
      bs = l1 ++ (sz, false) :: l2 ∧ bs' = l1 ++ split_blocks size sz ++ l2 ∧ off = span l1 + 4 ∧
      size < sz ∧ sz mod 8 = 0 ∧
      kalloc h size = Done (HEAP_START h + off, set_heap_mem h m') ∧
      heap_ok (set_heap_mem h m') bs' ∧
      same_outside (HEAP_START h + span l1) (HEAP_START h + span l1 + 8 + sz) (heap_mem h) m' ∧
      (∀ x, HEAP_START h + off ≤ x < HEAP_START h + off + size → ld8 m' x = 0)
  end.
Proof.
  intros Hok Hal Hs0 Hs8. pose proof (kalloc_outcome h bs size Hok Hs0 (aligned_splits _ _ Hal Hs8)) as Hr.
  destruct (alloc_blocks size bs) as [[bs' off]|]; [|done].
  destruct Hr as (l1 & sz & l2 & m' & -> & Hbs' & Hoff & Hsz & _ & Hrest).
  assert (Hs2 : size mod 2 = 0) by dlia. rewrite Hs2, !Z.add_0_r in *.
  unfold aligned in Hal. rewrite Forall_app, Forall_cons in Hal.
  exists l1, sz, l2, m'. split_and!; first [done|apply Hal|apply Hrest].
Qed.

(** *** Reallocating *)

(** Writing inside a body moves no block. *)
Lemma body_write h l1 c a l2 m' :
  heap_ok h (l1 ++ (c, a) :: l2) → let p := HEAP_START h + span l1 in
  same_outside (p + 4) (p + 4 + c) (heap_mem h) m' →
  heap_ok (set_heap_mem h m') (l1 ++ (c, a) :: l2).
Proof.
  intros Hok p Hm. pose proof (block_bounds _ _ _ _ Hok) as (_ & _ & Hc & He & _ & _).
  apply (heap_edit h l1 [(c, a)] [(c, a)] l2); [done|done| |].
  - cbn [span fst] in *. eapply same_outside_mono; [done|fold p; lia|fold p; lia].
  - pose proof (heap_layout _ _ Hok) as Hl. apply layout_app in Hl as [_ Hl]. fold p in Hl |- *.
    cbn [layout fst] in Hl, Hc, He |- *. destruct Hl as (? & ? & Ht1 & Ht2 & _).
    rewrite !(ld_same_outside 4 _ _ _ _ _ Hm) by lia. by split_and!.
Qed.

Lemma app_cons_split {A} (x y : A) l1 l2 k1 k2 :
  l1 ++ x :: l2 = k1 ++ y :: k2 → x ≠ y →
  (∃ k, k1 = l1 ++ x :: k ∧ l2 = k ++ y :: k2) ∨ (∃ k, l1 = k1 ++ y :: k ∧ k2 = k ++ x :: l2).
Proof.
  revert k1. induction l1 as [|a l1 IH]; intros [|b k1] Heq Hne; cbn [app] in Heq.
  - congruence.
  - injection Heq as -> ->. left. by exists k1.
  - injection Heq as -> <-. right. by exists l1.
  - injection Heq as -> Heq. destruct (IH k1 Heq Hne) as [(k & -> & ->)|(k & -> & ->)];
      [left|right]; by exists k.
Qed.

(** The neighbours of a block, as [krealloc] looks at them. *)
Section neighbours.
Context (h : heap) (r1 : list block) (b : block) (l2 : list block).
Context (Hok : heap_ok h (rev r1 ++ b :: l2)).
Let p := HEAP_START h + span (rev r1).

Lemma next_not_free :
  match l2 with (_, false) :: _ => False | _ => True end →
  negb (next_header h p =? NULL) && negb (allocated h (next_header h p)) = false.
Proof.
  intros Hn. unfold p. rewrite (block_next h (rev r1) b l2 Hok).
  destruct l2 as [|[s2 [|]] l2']; [done| |done].
  assert (Hok2 : heap_ok h ((rev r1 ++ [b]) ++ (s2, true) :: l2')) by (by rewrite <-app_assoc).
  pose proof (block_allocated h _ (s2, true) l2' Hok2) as Hal. rewrite span_app in Hal.
  cbn [span snd] in Hal.
  replace (HEAP_START h + (span (rev r1) + (fst b + 8 + 0))) with (HEAP_START h + span (rev r1) + (fst b + 8))
    in Hal by lia.
  rewrite Hal. apply andb_false_r.
Qed.

Lemma prev_not_free :
  match r1 with (_, false) :: _ => False | _ => True end →
  let pf := prev_footer h (p + 4 + fst b) in
  negb (header_from_footer h pf =? NULL) && negb (allocated h pf) = false.
Proof.
  intros Hn pf. unfold pf, p. rewrite (block_prev_footer h (rev r1) b l2 Hok).
  destruct r1 as [|[s1 [|]] r1']; [done| |done]. cbn [rev] in *.
  assert (Hok1 : heap_ok h (rev r1' ++ (s1, true) :: b :: l2)) by (by rewrite <-app_assoc in Hok).
  destruct (rev r1' ++ [(s1, true)]) eqn:Hne; [by destruct (rev r1')|]. rewrite <-Hne.
  rewrite span_app. cbn [span fst].
  replace (HEAP_START h + (span (rev r1') + (s1 + 8 + 0)) - 4) with (HEAP_START h + span (rev r1') + 4 + s1) by lia.
  pose proof (block_allocated_footer h (rev r1') (s1, true) _ Hok1) as Hal. cbn [fst] in Hal. rewrite Hal. apply andb_false_r.
Qed.

End neighbours.

(** ** Properties *)

(** C11: [kalloc] is first fit on the list of blocks, on a well-formed heap of at
    most 64 KiB and for a request that the chosen block can serve without
    waste: after rounding up to an even number of bytes it uses the block up,
    or leaves at least 8 bytes ([splits]; so all requests do while requests and
    blocks are multiples of 8 bytes, [aligned_splits]).  [kalloc] then returns
    [NULL] only when no free block is larger than the request; otherwise it
    takes the first one that is, splits off what is left as a free block, and
    returns a zeroed body that lies in the heap and meets no body allocated
    before; no body allocated before changes.  A request that leaves 2, 4 or 6
    bytes breaks the heap ([kalloc_slack]), and the kernel's own heap of
    0x20000 bytes is not well formed ([init_heap_truncates]). *)
Theorem kalloc_spec h bs size :
  heap_ok h bs → 0 ≤ size → splits size bs →
  match alloc_blocks size bs with
  | None => kalloc h size = Done (NULL, h) ∧ ∀ sz, (sz, false) ∈ bs → sz ≤ size
  | Some (bs', off) => ∃ h',
      kalloc h size = Done (HEAP_START h + off, h') ∧ heap_ok h' bs' ∧
      (aligned bs → size mod 8 = 0 → aligned bs') ∧
      HEAP_START h' = HEAP_START h ∧
      (∀ x, in_body (HEAP_START h) bs x → ld8 (heap_mem h') x = ld8 (heap_mem h) x) ∧
      (∀ x, HEAP_START h + off ≤ x < HEAP_START h + off + (size + size mod 2) →
        HEAP_START h ≤ x < HEAP_START h + HEAP_SIZE h ∧ ld8 (heap_mem h') x = 0 ∧
        ¬ in_body (HEAP_START h) bs x ∧ in_body (HEAP_START h) bs' x)
  end.
Proof.
  intros Hok Hs0 Hsp. pose proof (kalloc_outcome h bs size Hok Hs0 Hsp) as Hr.
  destruct (alloc_blocks size bs) as [[bs' off]|] eqn:Halloc.
  2: { split; [done|]. intros sz Hin. exact (alloc_blocks_full size bs Halloc sz Hin). }
  destruct Hr as (l1 & sz & l2 & m' & -> & -> & -> & Hsz & Hslack & Hk & Hok' & Hout & Hzero).
  pose proof (block_bounds h l1 (sz, false) l2 Hok) as (? & ? & _ & _ & _ & Hend). cbn [fst] in Hend.
  exists (set_heap_mem h m'). split_and!; [done|done| |done|..].
  - intros Hal Hs8. unfold aligned in Hal |- *. rewrite Forall_app, Forall_cons in Hal. rewrite !Forall_app.
    split_and!; [apply Hal|apply aligned_split; [dlia|apply Hal]|apply Hal].
  - intros x Hx. apply Hout. pose proof (in_body_free _ _ _ _ _ _ (heap_layout _ _ Hok) Hx). lia.
  - intros x Hx. split_and!; [lia|lia|by apply Hzero| |].
    + intros Hb. pose proof (in_body_free _ _ _ _ _ _ (heap_layout _ _ Hok) Hb). lia.
    + rewrite !in_body_app. right. left. unfold split_blocks.
      destruct (Z.eqb_spec (size + size mod 2) sz); cbn [in_body]; left; (split; [done|]); lia.
Qed.

(** C12: [kfree] of an allocated block marks it free and merges it with the
    free block before it and the one after it, if there are any; every other
    allocated body keeps its contents and its place. *)
Theorem kfree_spec h r1 sz l2 :
  heap_ok h (rev r1 ++ (sz, true) :: l2) →
  let p := HEAP_START h + span (rev r1) in
  let h' := kfree h (p + HEADER_SIZE) in
  heap_ok h' (coalesce r1 sz l2) ∧ HEAP_START h' = HEAP_START h ∧
  (aligned (rev r1 ++ (sz, true) :: l2) → aligned (coalesce r1 sz l2)) ∧
  (∀ x, in_body (HEAP_START h) (rev r1) x ∨ in_body (p + (sz + 8)) l2 x →
    ld8 (heap_mem h') x = ld8 (heap_mem h) x).
Proof.
  intros Hok p h'. destruct (kfree_result h r1 sz l2 Hok) as (m' & Hk & Hok' & Hb).
  subst h'. unfold HEADER_SIZE. fold p in Hk. rewrite Hk.
  split_and!; [done|done|apply aligned_coalesce|done].
Qed.

(** Two free blocks are never next to each other. *)
Definition coalesced (bs : list block) : Prop :=
  ∀ l1 s1 s2 l2, bs ≠ l1 ++ (s1, false) :: (s2, false) :: l2.

(** C13: Allocating and freeing again gives back the same heap: on a well-formed
    heap of at most 64 KiB in which no two free blocks are neighbours, and for
    a request that leaves no waste ([splits], see C11: with 2, 4 or 6 bytes over
    the heap is broken), [kfree] of what [kalloc] returned merges the block
    exactly as it was. *)
Theorem kalloc_kfree_roundtrip h bs size q h1 :
  heap_ok h bs → coalesced bs → 0 ≤ size → splits size bs →
  kalloc h size = Done (q, h1) → q ≠ NULL → heap_ok (kfree h1 q) bs.
Proof.
  intros Hok Hco Hs0 Hsp Hk Hq. pose proof (kalloc_outcome h bs size Hok Hs0 Hsp) as Hr.
  destruct (alloc_blocks size bs) as [[bs' off]|]; [|congruence].
  destruct Hr as (l1 & sz & l2 & m' & -> & -> & -> & Hsz & Hslack & Hk' & Hok' & _).
  rewrite Hk' in Hk. injection Hk as <- <-. set (h1 := set_heap_mem h m') in *.
  rewrite <-(rev_involutive l1) in Hok', Hco |- *. set (r1 := rev l1) in *.
  assert (Hr1 : match r1 with (s1, false) :: _ => False | _ => True end).
  { destruct r1 as [|[s1 [|]] r1'] eqn:Hr1; [done|done|]. apply (Hco (rev r1') s1 sz l2).
    cbn [rev]. by rewrite <-app_assoc. }
  assert (Hl2 : match l2 with (s2, false) :: _ => False | _ => True end).
  { destruct l2 as [|[s2 [|]] l2']; [done|done|]. by apply (Hco (rev r1) sz s2 l2'). }
  replace (HEAP_START h + (span (rev r1) + 4)) with (HEAP_START h1 + span (rev r1) + 4) by (unfold h1; cbn; lia).
  unfold split_blocks in Hok'. destruct (Z.eqb_spec (size + size mod 2) sz) as [Heq|Hne]; cbn [app] in Hok'.
  - destruct (kfree_result h1 r1 sz l2 Hok') as (m2 & -> & Hok2 & _).
    revert Hok2. unfold coalesce. destruct l2 as [|[s2 [|]] l2']; [..|done]; cbn [merge_next];
      by destruct r1 as [|[s1 [|]] r1'].
  - destruct (kfree_result h1 r1 (size + size mod 2) ((sz - (size + size mod 2) - 8, false) :: l2) Hok')
      as (m2 & -> & Hok2 & _).
    revert Hok2. unfold coalesce. cbn [merge_next].
    replace (size + size mod 2 + (sz - (size + size mod 2) - 8) + 8) with sz by lia.
    by destruct r1 as [|[s1 [|]] r1'].
Qed.

(** A request that leaves two, four or six bytes of the block over breaks
    the heap: [kalloc] hands out the whole block but never writes its footer,
    whose allocation bit still says that the block is free. *)
Theorem kalloc_slack h l1 sz l2 size :
  heap_ok h (l1 ++ (sz, false) :: l2) → Forall (λ b, unfit size b = true) l1 → 0 ≤ size < sz →
  0 < sz - round_even size < 8 →
  let p := HEAP_START h + span l1 in
  ∃ h', kalloc h size = Done (p + HEADER_SIZE, h') ∧
    load h' p = sz + 1 ∧ allocated h' (p + HEADER_SIZE + sz) = false.
Proof.
  intros Hok Hun Hs Hslack p.
  pose proof (block_bounds h l1 (sz, false) l2 Hok) as (? & Hs2 & Hsz & Hsze & Hp & Hend).
  pose proof (block_size_header h l1 (sz, false) l2 Hok) as Hsize.
  pose proof (block_footer h l1 (sz, false) l2 Hok) as Hfoot. cbn [fst] in *. fold p in Hp, Hend, Hsize, Hfoot.
  destruct (kalloc_find_spec h _ size Hok) as [(l1' & sz' & l2' & Heq & Hun' & Hsz' & Hfind)|[Hall _]].
  2: { apply Forall_app in Hall as [_ [Hf _]%Forall_cons]. unfold unfit in Hf. cbn in Hf. lia. }
  assert (l1' = l1) as ->.
  { clear -Heq Hun Hun' Hs Hsz'. revert l1' Heq Hun'. induction Hun as [|b l1 Hb Hun IH]; intros [|b' l1'] Heq Hun'.
    - done.
    - injection Heq as <- _. apply Forall_cons in Hun' as [Hu _]. unfold unfit in Hu. cbn in Hu. lia.
    - injection Heq as -> _. unfold unfit in Hb. cbn in Hb. lia.
    - injection Heq as <- Heq. f_equal. apply IH; [done|]. by apply Forall_cons in Hun' as [_ ?]. }
  rewrite round_even_spec in Hslack by lia. set (alloc := size + size mod 2) in *.
  assert (Heven : alloc mod 2 = 0 ∧ 0 ≤ alloc) by (unfold alloc; dlia). destruct Heven as [Heven Ha0].
  unfold kalloc. rewrite Hfind. do_bind. fold p. rewrite (proj2 (Z.ltb_lt _ _)) by lia.
  rewrite round_even_spec by lia. fold alloc.
  assert (HT : Z.lor alloc 1 = alloc + 1) by (rewrite lor_1_tag by done; done).
  assert (HTs : Z.lor sz 1 = sz + 1) by (rewrite lor_1_tag by done; done).
  assert (Hsz1 : block_size (store h p (alloc + 1)) p = alloc).
  { unfold block_size. rewrite load_store_same by lia. apply (tag_bits (alloc, true)); cbn; lia. }
  unfold split_block, footer_from_header, next_header, HEADER_SIZE, FOOTER_SIZE, MDATA_SIZE.
  rewrite Hsize, HT, HTs. unfold NULL. rewrite (proj2 (Z.eqb_neq p 0)) by lia. rewrite !Hsz1.
  destruct (Z.ltb_spec sz alloc); [lia|]. destruct (Z.eqb_spec alloc sz); [lia|].
  destruct (Z.ltb_spec sz (alloc + 4 * 2)); [|lia].
  set (h3 := store (store (store h p (alloc + 1)) (p + 4 + alloc) _) p (sz + 1)).
  assert (Hl3 : load h3 p = sz + 1) by (unfold h3; by rewrite load_store_same by lia).
  rewrite Hl3. set (h4 := store h3 (p + 4 + alloc) (sz + 1)).
  eexists. split; [done|]. unfold heap_memset, load, allocated. cbn [heap_mem set_heap_mem].
  split.
  - rewrite (ld_same_outside 4 (p + 4) (p + 4 + alloc) (heap_mem h4)); [|intros x Hx; apply memset_outside; lia|lia].
    change (load h4 p = sz + 1). unfold h4. by rewrite load_store_other, Hl3 by lia.
  - unfold load. cbn [heap_mem set_heap_mem].
    rewrite (ld_same_outside 4 (p + 4) (p + 4 + alloc) (heap_mem h4)); [|intros x Hx; apply memset_outside; lia|lia].
    apply negb_false_iff, Z.eqb_eq. rewrite ld32_low_bit.
    destruct (decide (sz - alloc = 2)) as [Hd|Hd].
    + assert (Hl4 : load h4 (p + 4 + alloc) = sz + 1) by (unfold h4; by rewrite load_store_same by lia).
      replace (p + 4 + sz) with (p + 4 + alloc + 1 + 1) by lia.
      rewrite (ld32_high_byte (heap_mem h4) (p + 4 + alloc) (sz + 1)); [done|done|lia].
    + unfold h4, h3. rewrite !store_byte by dlia. rewrite <-ld32_low_bit.
      change (Z.land (load h (p + 4 + sz)) 1 = 0). rewrite Hfoot, even_land_1. unfold tag_of. cbn.
      by rewrite Z.add_0_r.
Qed.

(** Growing into the free block behind: when the block after an allocated
    one is free and large enough, [krealloc] returns the same pointer, the
    block has the new size and the contents it had, and what is left of the
    free block stays free. *)
Theorem krealloc_forward h r1 sz s2 l2 size :
  heap_ok h (rev r1 ++ (sz, true) :: (s2, false) :: l2) → 0 ≤ size ≤ sz + s2 + 8 →
  size mod 2 = 0 → size = sz + s2 + 8 ∨ size + 8 ≤ sz + s2 + 8 →
  let p := HEAP_START h + span (rev r1) + HEADER_SIZE in
  ∃ h', krealloc h p size = Done (p, h') ∧
    heap_ok h' (rev r1 ++ split_blocks size (sz + s2 + 8) ++ l2) ∧
    (∀ x, p ≤ x < p + sz → x < p + size → ld8 (heap_mem h') x = ld8 (heap_mem h) x).
Proof.
  intros Hok Hs He Hfit. set (b := HEAP_START h + span (rev r1)). intros p.
  pose proof (block_bounds _ _ _ _ Hok) as (? & ? & Hsz & Hsze & Hb & Hend). fold b in Hb, Hend.
  assert (Hok2 : heap_ok h ((rev r1 ++ [(sz, true)]) ++ (s2, false) :: l2)) by (by rewrite <-app_assoc).
  pose proof (block_bounds _ _ _ _ Hok2) as (_ & _ & Hs2 & Hs2e & _ & _).
  pose proof (block_allocated _ _ _ _ Hok2) as Hal. pose proof (block_size_header _ _ _ _ Hok2) as Hz2.
  rewrite span_app in Hal, Hz2. cbn [span snd fst] in *.
  replace (HEAP_START h + (span (rev r1) + (sz + 8 + 0))) with (b + (sz + 8)) in Hal, Hz2 by (unfold b; lia).
  pose proof (heap_limit _ _ Hok) as Hlim. pose proof (heap_span _ _ Hok) as Hspan.
  unfold krealloc. rewrite round_even_spec by lia. rewrite He, Z.add_0_r.
  subst p. unfold HEADER_SIZE. replace (b + 4 - 4) with b by lia.
  pose proof (block_next _ _ _ _ Hok) as Hn. cbn [fst] in Hn. fold b in Hn. rewrite Hn.
  rewrite Hal, (proj2 (Z.eqb_neq (b + (sz + 8)) NULL)) by (unfold NULL; lia). cbn [negb andb].
  unfold merge_size. rewrite Hz2. pose proof (block_size_header _ _ _ _ Hok) as Hz1. fold b in Hz1.
  rewrite Hz1. cbn [fst]. unfold MDATA_SIZE. destruct (Z.leb_spec size (sz + s2 + 4 * 2)); [|lia].
  unfold merge_forward. rewrite Hz2.
  destruct (merge_block_spec h (rev r1) sz true s2 l2 Hok) as (m1 & Hm & Hok1 & Hb1).
  cbv zeta in Hm, Hb1. fold b in Hm, Hb1. rewrite Hm. unfold heap_memset. cbn [heap_mem set_heap_mem].
  set (m2 := memset m1 (b + (sz + 8)) 0 (Z.to_nat (s2 + HEADER_SIZE))).
  change (set_heap_mem (set_heap_mem h m1) m2) with (set_heap_mem h m2).
  assert (Hout2 : same_outside (b + (sz + 8)) (b + sz + s2 + 12) m1 m2).
  { intros x Hx. apply memset_outside. unfold HEADER_SIZE. lia. }
  assert (Hok2' : heap_ok (set_heap_mem h m2) (rev r1 ++ (sz + s2 + 8, true) :: l2)).
  { apply (body_write _ _ _ _ _ m2 Hok1). cbn [set_heap_mem heap_mem HEAP_START]. fold b.
    eapply same_outside_mono; [exact Hout2|lia|lia]. }
  destruct (split_block_spec _ _ _ _ _ size Hok2') as (m3 & Hsp & Hok3 & _ & Hbody); [lia|done|done|].
  cbn [set_heap_mem heap_mem HEAP_START] in Hsp, Hbody. fold b in Hsp, Hbody. rewrite Hsp.
  eexists. split; [done|]. split; [exact Hok3|]. cbn [set_heap_mem heap_mem].
  intros x Hx1 Hx2. rewrite Hbody, Hout2, Hb1 by lia. done.
Qed.

(** When neither neighbour is free, [krealloc] takes a new block. *)
Lemma krealloc_moves h r1 sz l2 size :
  heap_ok h (rev r1 ++ (sz, true) :: l2) →
  match l2 with (_, false) :: _ => False | _ => True end →
  match r1 with (_, false) :: _ => False | _ => True end →
  size mod 2 = 0 → 0 ≤ size < 2 ^ 63 →
  let p := HEAP_START h + span (rev r1) + HEADER_SIZE in
  krealloc h p size =
    ('(new_allocation, h) ← kalloc h size;
     if new_allocation =? NULL then Done (NULL, h)
     else
       let h := heap_memmove h (new_allocation + HEADER_SIZE) (p + HEADER_SIZE) sz in
       Done (new_allocation + HEADER_SIZE, kfree h p)).
Proof.
  intros Hok Hnext Hprev Hs2 Hs p. set (b := HEAP_START h + span (rev r1)) in p.
  pose proof (block_size_header _ _ _ _ Hok) as Hz1. fold b in Hz1. cbn [fst] in Hz1.
  unfold krealloc. rewrite round_even_spec, Hs2, Z.add_0_r by lia.
  subst p. unfold HEADER_SIZE. replace (b + 4 - 4) with b by lia.
  pose proof (next_not_free h r1 (sz, true) l2 Hok Hnext) as Hn. cbv zeta in Hn. fold b in Hn.
  pose proof (prev_not_free h r1 (sz, true) l2 Hok Hprev) as Hp. cbv zeta in Hp. fold b in Hp.
  cbn [fst] in Hp. rewrite Hz1, Hn. cbn [andb].
  match type of Hp with ?A && ?C = false => destruct A, C end; [discriminate Hp|..];
    destruct (negb (next_header h b =? NULL)); done.
Qed.

Lemma span_split_blocks size fz : span (split_blocks size fz) = fz + 8.
Proof. unfold split_blocks. destruct (_ =? _); cbn [span fst]; lia. Qed.

(** Freeing another block leaves a block just taken as it is. *)
Lemma kfree_keeps_new h k1 fz k2 r1 sz l2 size :
  rev r1 ++ (sz, true) :: l2 = k1 ++ (fz, false) :: k2 → size < fz →
  heap_ok h (k1 ++ split_blocks size fz ++ k2) →
  let q := HEAP_START h + (span k1 + 4) in
  ∃ m', kfree h (HEAP_START h + span (rev r1) + 4) = set_heap_mem h m' ∧
    ∀ x, q ≤ x < q + size → ld8 m' x = ld8 (heap_mem h) x.
Proof.
  intros Heq Hfit Hok q. pose proof (span_split_blocks size fz) as Hspan.
  assert (Hnew : ∃ c, split_blocks size fz = (size, true) :: c).
  { unfold split_blocks. destruct (Z.eqb_spec size fz); [lia|]. by eexists. }
  destruct Hnew as (c & Hc). rewrite Hc in Hok, Hspan. cbn [span fst app] in Hok, Hspan.
  destruct (app_cons_split _ _ _ _ _ _ Heq) as [(k & -> & ->)|(k & Hr1 & ->)]; [done|..].
  - rewrite <-app_assoc in Hok. cbn [app] in Hok. destruct (kfree_result _ _ _ _ Hok) as (m' & Hf & _ & Hbody).
    exists m'. split; [exact Hf|]. intros x Hx. apply Hbody. right. rewrite in_body_app. right. left. split; [done|].
    unfold q in Hx. rewrite span_app in Hx. cbn [span fst] in Hx. lia.
  - set (r1' := rev (k1 ++ (size, true) :: c ++ k)).
    assert (Hr1' : rev r1' = k1 ++ (size, true) :: c ++ k) by apply rev_involutive.
    replace (k1 ++ (size, true) :: c ++ k ++ (sz, true) :: l2) with (rev r1' ++ (sz, true) :: l2) in Hok
      by (rewrite Hr1', <-app_assoc; cbn [app]; by rewrite <-app_assoc).
    destruct (kfree_result _ _ _ _ Hok) as (m' & Hf & _ & Hbody).
    replace (span (rev r1')) with (span (rev r1)) in Hf
      by (rewrite Hr1', Hr1, !span_app; cbn [span fst]; rewrite span_app; lia).
    exists m'. split; [exact Hf|]. intros x Hx. apply Hbody. left. rewrite Hr1', in_body_app. right. left.
    split; [done|]. unfold q in Hx. lia.
Qed.

(** When neither neighbour is free, [krealloc] returns a pointer four bytes
    into the new body, and copies from four bytes into the old one: at the
    pointer it returns, byte [i] is what byte [i + 4] was. *)
Theorem krealloc_shift h r1 sz l2 size :
  let bs := rev r1 ++ (sz, true) :: l2 in
  heap_ok h bs → aligned bs →
  match l2 with (_, false) :: _ => False | _ => True end →
  match r1 with (_, false) :: _ => False | _ => True end →
  size mod 8 = 0 → sz + 8 ≤ size → size < 2 ^ 63 →
  let p := HEAP_START h + span (rev r1) + HEADER_SIZE in
  match alloc_blocks size bs with
  | None => krealloc h p size = Done (NULL, h)
  | Some (bs', off) => ∃ h',
      krealloc h p size = Done (HEAP_START h + off + HEADER_SIZE, h') ∧
      (∀ i, 0 ≤ i < sz - 4 →
        ld8 (heap_mem h') (HEAP_START h + off + HEADER_SIZE + i) = ld8 (heap_mem h) (p + 4 + i))
  end.
Proof.
  intros bs Hok Hal Hnext Hprev Hs8 Hgrow Hs64 p. set (b := HEAP_START h + span (rev r1)) in p.
  pose proof (block_bounds _ _ _ _ Hok) as (? & ? & Hsz & _ & Hb & Hend). cbn [fst] in *. fold b in Hb, Hend.
  pose proof (krealloc_moves h r1 sz l2 size Hok Hnext Hprev ltac:(dlia) ltac:(lia)) as Hkr. cbv zeta in Hkr.
  fold b in Hkr. change (b + HEADER_SIZE) with p in Hkr. rewrite Hkr. clear Hkr.
  pose proof (kalloc_result h bs size Hok Hal ltac:(lia) Hs8) as Hr.
  destruct (alloc_blocks size bs) as [[bs' off]|]; [|by rewrite Hr].
  destruct Hr as (k1 & fz & k2 & m1 & Heq & -> & -> & Hfz & _ & Hk & Hok1 & Hout & _).
  rewrite Hk. do_bind. set (q := HEAP_START h + (span k1 + 4)) in *.
  pose proof (block_bounds h k1 (fz, false) k2 ltac:(by rewrite <-Heq)) as (? & ? & Hfzr & _ & Hq & _). cbn [fst] in Hfzr.
  rewrite (proj2 (Z.eqb_neq q NULL)) by (unfold q, NULL; lia).
  set (m2 := memmove m1 (q + HEADER_SIZE) (p + HEADER_SIZE) (Z.to_nat sz)).
  unfold heap_memmove. cbn [heap_mem set_heap_mem].
  change (set_heap_mem (set_heap_mem h m1) _) with (set_heap_mem h m2).
  assert (Hok2 : heap_ok (set_heap_mem h m2) (k1 ++ split_blocks size fz ++ k2)).
  { unfold split_blocks in Hok1 |- *. destruct (Z.eqb_spec size fz); [lia|].
    apply (body_write _ _ _ _ _ m2 Hok1). cbn [set_heap_mem heap_mem HEAP_START].
    eapply same_outside_mono; [apply memmove_outside|unfold q, HEADER_SIZE; lia|unfold q, HEADER_SIZE; lia]. }
  destruct (kfree_keeps_new _ _ _ _ r1 sz l2 _ Heq Hfz Hok2) as (m' & Hf & Hbody).
  cbn [set_heap_mem HEAP_START heap_mem] in Hf, Hbody. fold q in Hbody. fold b in Hf.
  change (b + 4) with p in Hf. change (set_heap_mem _ m2) with (set_heap_mem h m2) in Hf.
  eexists. split; [rewrite Hf; unfold q, HEADER_SIZE; by f_equal|].
  cbn [set_heap_mem heap_mem]. intros i Hi. rewrite Hbody by (unfold q, HEADER_SIZE; lia).
  unfold m2. rewrite ld8_memmove. unfold HEADER_SIZE, q.
  rewrite (proj2 (Z.leb_le _ _)), (proj2 (Z.ltb_lt _ _)) by lia. cbn [andb].
  replace (p + 4 + (HEAP_START h + (span k1 + 4) + 4 + i - (HEAP_START h + (span k1 + 4) + 4)))
    with (p + 4 + i) by lia.
  apply Hout.
  assert (Hin : in_body (HEAP_START h) (k1 ++ (fz, false) :: k2) (p + 4 + i)).
  { rewrite <-Heq. unfold bs. rewrite in_body_app. right. cbn [in_body]. left. split; [done|].
    unfold p, b, HEADER_SIZE. lia. }
  pose proof (in_body_free (heap_mem h) _ _ _ _ _ ltac:(rewrite <-Heq; apply (heap_layout _ _ Hok)) Hin).
  lia.
Qed.

(** *** The heap and physical memory *)

(** The size mask keeps 16 bits but the lowest. *)
Lemma truncated_size v : v mod 2 = 0 → Z.land v SIZE_MASK = v mod 0x10000.
Proof.
  intros Hv. unfold SIZE_MASK. change 0xFFFE with (Z.land (Z.ones 16) (Z.lnot (Z.ones 1))).
  rewrite Z.land_assoc, Z.land_ones, (land_lnot_ones _ 1) by lia. change (2 ^ 16) with 0x10000. dlia.
Qed.

Lemma higher_lower m : higher_half (lower_half m) = m.
Proof. unfold higher_half, lower_half. apply (shift_mem_cancel (- KERNEL_DATA)). Qed.

Lemma lower_higher m : lower_half (higher_half m) = m.
Proof. apply shift_mem_cancel. Qed.

Lemma ld8_higher_half m a : ld8 (higher_half m) (a + KERNEL_DATA) = ld8 m a.
Proof. unfold higher_half. rewrite ld8_shift_mem. f_equal. lia. Qed.

(** A change of the heap's memory inside [lo, hi), in physical memory. *)
Lemma lower_half_outside lo hi m m' :
  same_outside lo hi (higher_half m) m' →
  same_outside (lo - KERNEL_DATA) (hi - KERNEL_DATA) m (lower_half m').
Proof.
  intros Hm a Ha. unfold lower_half. rewrite ld8_shift_mem, Hm by lia.
  unfold higher_half. rewrite ld8_shift_mem. f_equal. lia.
Qed.

(** What [init_heap] leaves of the frames [AllocContiguous] found. *)
Record heap_placed (w : pmm) (frame heap_size : Z) (h : heap) (w' : pmm) : Prop := {
  hp_start : HEAP_START h = frame + KERNEL_DATA;
  hp_size : HEAP_SIZE h = heap_size;
  hp_header : load h (HEAP_START h) = heap_size - 8;
  hp_footer : load h (HEAP_START h + heap_size - 4) = heap_size - 8;
  hp_map : w' = set_pmm_mem w (lower_half (heap_mem h));
  hp_mem : same_outside frame (frame + heap_size) (pmm_mem w) (pmm_mem w');
}.

Lemma init_heap_places w heap_size frame w' :
  AllocContiguous w heap_size = Done (frame, w') → 0 ≤ frame < 2 ^ 46 → 8 ≤ heap_size < 2 ^ 32 →
  ∃ h w'', init_heap w heap_size = Done (h, w'') ∧ heap_placed w' frame heap_size h w''.
Proof.
  intros Ha Hf Hs. set (p := frame + KERNEL_DATA). set (v := heap_size - MDATA_SIZE).
  assert (Hv : v = heap_size - 8) by done.
  set (h0 := Heap p heap_size (higher_half (pmm_mem w'))). set (h1 := store h0 p v).
  assert (Hl : load h1 p = v) by (apply load_store_same; lia).
  set (h := store h1 (p + HEADER_SIZE + v) v).
  exists h, (set_pmm_mem w' (lower_half (heap_mem h))). split.
  { unfold init_heap. rewrite Ha. do_bind. rewrite u64_small by (unfold KERNEL_DATA; lia).
    change (Done (store h1 (p + HEADER_SIZE + load h1 p) (load h1 p),
      set_pmm_mem w' (lower_half (heap_mem (store h1 (p + HEADER_SIZE + load h1 p) (load h1 p))))) =
      Done (h, set_pmm_mem w' (lower_half (heap_mem h)))). by rewrite Hl. }
  split; [done|done| | |done|].
  - change (HEAP_START h) with p. unfold h. by rewrite load_store_other, Hl by (unfold HEADER_SIZE; lia).
  - change (HEAP_START h) with p. replace (p + heap_size - 4) with (p + HEADER_SIZE + v) by (unfold HEADER_SIZE; lia).
    rewrite <-Hv. apply load_store_same. lia.
  - replace frame with (p - KERNEL_DATA) by lia.
    replace (p - KERNEL_DATA + heap_size) with (p + heap_size - KERNEL_DATA) by lia. apply lower_half_outside.
    eapply same_outside_trans; [eapply (same_outside_mono p (p + 4)); [apply (store_outside h0)|lia..]|].
    eapply same_outside_mono; [apply (store_outside h1)|unfold HEADER_SIZE; lia..].
Qed.

(** The first allocation of the heap the kernel asks for returns the start of
    its only block, whatever its size below that of the block; the block is
    split like one of 64 KiB, or not at all if it should be larger. *)
Lemma kalloc_fresh h len :
  0 < HEAP_START h → HEAP_SIZE h = 0x20000 → load h (HEAP_START h) = 0x20000 - 8 → 0 ≤ len < 0x20000 - 8 →
  ∃ m, kalloc h len = Done (HEAP_START h + 4, set_heap_mem h m) ∧
    same_outside (HEAP_START h) (HEAP_START h + 0x20000) (heap_mem h) m.
Proof.
  intros Hp Hsz Hl Hlen. set (p := HEAP_START h) in *.
  assert (Hbs : block_size h p = 0xFFF8) by (unfold block_size; by rewrite Hl).
  unfold kalloc, heap_fuel. generalize (Z.to_nat (HEAP_SIZE h)) as fuel. intros fuel. cbn [kalloc_find]. fold p. rewrite Hsz.
  unfold allocated. rewrite Hl. change (negb (Z.land (0x20000 - 8) 1 =? 0)) with false. cbn [orb].
  rewrite (proj2 (Z.leb_gt _ _)), andb_false_r by lia. do_bind.
  rewrite (proj2 (Z.ltb_lt p (p + 0x20000))) by lia.
  rewrite round_even_spec by lia. set (a := len + len mod 2).
  assert (Ha : 0 ≤ a ≤ 0x20000 - 8 ∧ a mod 2 = 0) by (unfold a; dlia).
  assert (Hsplit : ∃ m, snd (split_block h p a) = set_heap_mem h m ∧ same_outside p (p + 0x20000) (heap_mem h) m).
  { assert (Hstore : ∀ m q v, p ≤ q → q + 4 ≤ p + 0x20000 → same_outside p (p + 0x20000) (heap_mem h) m →
      same_outside p (p + 0x20000) (heap_mem h) (heap_mem (store (set_heap_mem h m) q v))).
    { intros m q v H1 H2 Hm. eapply same_outside_trans; [exact Hm|]. by apply (st_outside_sub 4). }
    assert (Hbs1 : a ≤ 0xFFF8 → block_size (store h p (Z.lor a 1)) p = a).
    { intros Hale. unfold block_size. rewrite lor_1_tag by apply Ha.
      rewrite load_store_same by (unfold tag_of; cbn; lia).
      unfold tag_of. cbn [fst snd Z.b2z]. rewrite land_SIZE_MASK by lia. dlia. }
    unfold split_block. rewrite Hbs. destruct (Z.ltb_spec 0xFFF8 a) as [|Hale].
    { exists (heap_mem h). split; [by destruct h|apply same_outside_refl]. }
    specialize (Hbs1 Hale). unfold footer_from_header, next_header. rewrite Hbs.
    rewrite (proj2 (Z.eqb_neq p NULL)) by (unfold NULL; lia). rewrite Hbs1.
    change (HEAP_START (store h p (Z.lor a 1))) with p. change (HEAP_SIZE (store h p (Z.lor a 1))) with (HEAP_SIZE h).
    rewrite Hsz. unfold HEADER_SIZE, FOOTER_SIZE, MDATA_SIZE.
    rewrite (proj2 (Z.eqb_neq _ (p + 0x20000))) by lia.
    assert (Hrefl : same_outside p (p + 0x20000) (heap_mem h) (heap_mem h)) by apply same_outside_refl.
    destruct (a =? 0xFFF8); [|destruct (Z.ltb_spec 0xFFF8 (a + 4 * 2))]; cbn [snd];
      (eexists; split; [reflexivity|]); repeat (apply (Hstore _ _ _); [lia|lia|]); exact Hrefl. }
  destruct Hsplit as (m & Hm & Hout). destruct (split_block h p a) as [x h'] eqn:Hs. cbn [snd] in Hm. subst h'.
  eexists. split; [done|]. eapply same_outside_trans; [exact Hout|].
  eapply same_outside_mono; [apply memset_outside|unfold HEADER_SIZE; lia..].
Qed.

(** A heap of at most 64 KiB starts as one free block that fills it; of
    physical memory only the heap's own has been written. *)
Theorem init_heap_spec w heap_size frame w' :
  AllocContiguous w heap_size = Done (frame, w') → 0 ≤ frame < 2 ^ 46 →
  8 ≤ heap_size ≤ 0x10000 → heap_size mod 2 = 0 →
  ∃ h w'', init_heap w heap_size = Done (h, w'') ∧ HEAP_START h = frame + KERNEL_DATA ∧
    heap_ok h [(heap_size - 8, false)] ∧
    w'' = set_pmm_mem w' (lower_half (heap_mem h)) ∧
    same_outside frame (frame + heap_size) (pmm_mem w') (pmm_mem w'').
Proof.
  intros Ha Hf Hs He. destruct (init_heap_places w heap_size frame w' Ha Hf ltac:(lia)) as (h & w'' & Hrun & Hp).
  exists h, w''. split_and!; [done|apply Hp| |apply Hp|apply Hp]. destruct Hp as [Hst Hsz Hh Hft _ _].
  split; [|rewrite Hsz; cbn; lia|lia|rewrite Hst; unfold KERNEL_DATA; lia].
  cbn [layout fst snd]. change (ld32 (heap_mem h)) with (load h). unfold tag_of. cbn [fst snd Z.b2z].
  rewrite Z.add_0_r, Hh. replace (HEAP_START h + 4 + (heap_size - 8)) with (HEAP_START h + heap_size - 4) by lia.
  rewrite Hft. split_and!; [lia|dlia|done|done|done].
Qed.

(** C40: A larger heap is cut short: the size mask keeps 16 bits, so the block
    after the first one is looked for at the wrong place.  With the 0x20000
    bytes the kernel asks for, it is 64 KiB from the start. *)
Theorem init_heap_truncates w heap_size frame w' :
  AllocContiguous w heap_size = Done (frame, w') → 0 ≤ frame < 2 ^ 46 →
  0x10008 ≤ heap_size < 2 ^ 32 → heap_size mod 2 = 0 →
  ∃ h w'', init_heap w heap_size = Done (h, w'') ∧
    block_size h (HEAP_START h) = (heap_size - 8) mod 0x10000 ∧
    next_header h (HEAP_START h) = HEAP_START h + 8 + (heap_size - 8) mod 0x10000 ∧
    next_header h (HEAP_START h) < HEAP_START h + HEAP_SIZE h.
Proof.
  intros Ha Hf Hs He. destruct (init_heap_places w heap_size frame w' Ha Hf ltac:(lia)) as (h & w'' & Hrun & Hp).
  exists h, w''. destruct Hp as [Hst Hsz Hh _ _ _].
  assert (Hb : block_size h (HEAP_START h) = (heap_size - 8) mod 0x10000).
  { unfold block_size. rewrite Hh. apply truncated_size. dlia. }
  assert (Hn : next_header h (HEAP_START h) = HEAP_START h + 8 + (heap_size - 8) mod 0x10000).
  { unfold next_header. rewrite Hb, Hsz. unfold HEADER_SIZE, FOOTER_SIZE. rewrite (proj2 (Z.eqb_neq _ _)) by dlia. lia. }
  split_and!; [done|done|done|]. rewrite Hn, Hsz. dlia.
Qed.

(** ** What [print_allocations] shows *)

(** The lines for a list of blocks. *)
Fixpoint block_lines (pos : Z) (bs : list block) : list (Z * bool * Z * Z * Z) :=
  match bs with
  | [] => []
  | (sz, a) :: bs => (pos, a, sz, pos + 4 + sz, sz) :: block_lines (pos + (sz + 8)) bs
  end.

Lemma print_allocations_lines h l2 : ∀ l1 f,
  heap_ok h (l1 ++ l2) → (length l2 < f)%nat →
  print_allocations f h (HEAP_START h + span l1) = Done (block_lines (span l1) l2).
Proof.
  induction l2 as [|[sz a] l2 IH]; intros l1 f Hok Hf; (destruct f as [|f]; [lia|]);
    cbn [print_allocations block_lines length] in *.
  - pose proof (heap_span _ _ Hok) as Hs. rewrite app_nil_r in Hs. rewrite Hs. by rewrite Z.ltb_irrefl.
  - pose proof (block_bounds _ _ _ _ Hok) as (? & ? & ? & ? & Hp & ?).
    pose proof (block_size_header _ _ _ _ Hok) as Hh. pose proof (block_size_footer _ _ _ _ Hok) as Hft.
    pose proof (block_allocated _ _ _ _ Hok) as Ha. cbn [fst snd] in *.
    rewrite (proj2 (Z.ltb_lt _ _)) by lia.
    unfold footer_from_header, NULL, HEADER_SIZE, FOOTER_SIZE, heap_pos.
    rewrite (proj2 (Z.eqb_neq _ 0)) by lia. rewrite Hh, Ha, Hft.
    specialize (IH (l1 ++ [(sz, a)]) f). rewrite <-app_assoc, span_app in IH. cbn [app span fst] in IH.
    replace (HEAP_START h + span l1 + (sz + 4 + 4)) with (HEAP_START h + (span l1 + (sz + 8 + 0))) by lia.
    rewrite IH by (done || lia). do_bind. do 2 f_equal; [|f_equal; lia].
    repeat (f_equal; try lia).
Qed.

(** [print_allocations] terminates and lists exactly the blocks of the
    heap, in order. *)
Theorem print_allocations_spec h bs :
  heap_ok h bs →
  print_allocations (heap_fuel h) h (HEAP_START h) = Done (block_lines 0 bs).
Proof.
  intros Hok. pose proof (span_length bs (layout_sizes _ _ _ (heap_layout _ _ Hok))) as Hl.
  rewrite (heap_span _ _ Hok) in Hl. rewrite <-(Z.add_0_r (HEAP_START h)).
  apply (print_allocations_lines h bs []); [done|]. unfold heap_fuel. lia.
Qed.

(** ** Concrete heaps *)

(** Writing the tags of a list of blocks. *)
Fixpoint write_tags (h : heap) (p : Z) (bs : list block) : heap :=
  match bs with
  | [] => h
  | b :: bs => write_tags (store (store h p (tag_of b)) (p + 4 + fst b) (tag_of b)) (p + (fst b + 8)) bs
  end.

Definition ex_heap (bs : list block) : heap := write_tags (Heap 4096 (span bs) ∅) 4096 bs.

Fixpoint layoutb (m : mem) (p : Z) (bs : list block) : bool :=
  match bs with
  | [] => true
  | b :: bs =>
      (0 <=? fst b) && (fst b mod 2 =? 0) && (ld32 m p =? tag_of b) && (ld32 m (p + 4 + fst b) =? tag_of b) &&
      layoutb m (p + (fst b + 8)) bs
  end.

Definition heap_okb (h : heap) (bs : list block) : bool :=
  layoutb (heap_mem h) (HEAP_START h) bs && (span bs =? HEAP_SIZE h) && (HEAP_SIZE h <=? 0x10000) &&
  (0 <? HEAP_START h).

Lemma layoutb_sound m p bs : layoutb m p bs = true → layout m p bs.
Proof.
  revert p. induction bs as [|b bs IH]; intros p; [done|]. cbn [layoutb layout].
  rewrite !andb_true_iff, !Z.eqb_eq, Z.leb_le. intros ((((? & ?) & ?) & ?) & ?). by split_and!; auto.
Qed.

Lemma heap_okb_sound h bs : heap_okb h bs = true → heap_ok h bs.
Proof.
  unfold heap_okb. rewrite !andb_true_iff, Z.eqb_eq, Z.leb_le, Z.ltb_lt.
  intros (((? & ?) & ?) & ?). split; [by apply layoutb_sound|done..].
Qed.

Definition ex_blocks : list block := [(16, true); (32, false); (8, true); (24, false)].

Example ex_heap_ok : heap_ok (ex_heap ex_blocks) ex_blocks.
Proof. apply heap_okb_sound. vm_compute. reflexivity. Qed.

Lemma kalloc_spec_witness : ∃ h',
  kalloc (ex_heap ex_blocks) 8 = Done (4096 + 28, h') ∧
  heap_ok h' [(16, true); (8, true); (16, false); (8, true); (24, false)].
Proof.
  destruct (kalloc_spec (ex_heap ex_blocks) ex_blocks 8 ex_heap_ok) as (h' & H1 & H2 & _).
  - lia.
  - vm_compute. right. discriminate.
  - exists h'. split; [exact H1|exact H2].
Defined.

Lemma kfree_spec_witness :
  heap_ok (kfree (ex_heap ex_blocks) (4096 + 64 + HEADER_SIZE)) [(16, true); (32 + (8 + 24 + 8) + 8, false)].
Proof.
  exact (proj1 (kfree_spec (ex_heap ex_blocks) [(32, false); (16, true)] 8 [(24, false)] ex_heap_ok)).
Defined.

Lemma kalloc_kfree_roundtrip_witness : ∃ q h1,
  kalloc (ex_heap ex_blocks) 8 = Done (q, h1) ∧ heap_ok (kfree h1 q) ex_blocks.
Proof.
  destruct (kalloc_result (ex_heap ex_blocks) ex_blocks 8 ex_heap_ok) as
    (l1 & sz & l2 & m' & _ & _ & _ & _ & _ & Hk & _); [repeat constructor|lia|reflexivity|].
  eexists _, _. split; [exact Hk|].
  apply (kalloc_kfree_roundtrip _ ex_blocks 8 _ _ ex_heap_ok) in Hk; [exact Hk| |lia|vm_compute; right; discriminate|discriminate].
  intros k1 s1 s2 k2. unfold ex_blocks.
  destruct k1 as [|? [|? [|? [|? [|? ?]]]]]; discriminate.
Defined.

(** Two bytes of slack, and what they lead to: see [kalloc_slack_overwrites]. *)
Lemma kalloc_slack_witness : ∃ h',
  kalloc (ex_heap [(16, false); (16, true); (32, false)]) 14 = Done (4100, h') ∧ allocated h' 4116 = false.
Proof.
  destruct (kalloc_slack (ex_heap [(16, false); (16, true); (32, false)]) [] 16 [(16, true); (32, false)] 14)
    as (h' & H1 & _ & H2).
  - apply heap_okb_sound. vm_compute. reflexivity.
  - constructor.
  - lia.
  - vm_compute. split; reflexivity.
  - exists h'. split; [exact H1|exact H2].
Defined.

(** Freeing the block that follows then writes into the body that was handed
    out: its last four bytes change from zero. *)
Example kalloc_slack_overwrites : ∃ h',
  kalloc (ex_heap [(16, false); (16, true); (32, false)]) 14 = Done (4100, h') ∧
  load h' 4110 = 0 ∧ load (kfree h' 4124) 4110 ≠ 0.
Proof. eexists. split; [vm_compute; reflexivity|]. split; vm_compute; [reflexivity|discriminate]. Qed.

Lemma krealloc_forward_witness : ∃ h',
  krealloc (ex_heap ex_blocks) 4100 24 = Done (4100, h') ∧
  heap_ok h' [(24, true); (24, false); (8, true); (24, false)].
Proof.
  destruct (krealloc_forward (ex_heap ex_blocks) [] 16 32 [(8, true); (24, false)] 24 ex_heap_ok)
    as (h' & H1 & H2 & _).
  - lia.
  - reflexivity.
  - right. lia.
  - exists h'. split; [exact H1|exact H2].
Defined.

Definition ex_full : list block := [(16, true); (8, true); (40, false)].

Lemma krealloc_shift_witness : ∃ h',
  krealloc (ex_heap ex_full) 4100 24 = Done (4140 + 4, h').
Proof.
  destruct (krealloc_shift (ex_heap ex_full) [] 16 [(8, true); (40, false)] 24) as (h' & H1 & _).
  - apply heap_okb_sound. vm_compute. reflexivity.
  - repeat constructor.
  - exact I.
  - exact I.
  - reflexivity.
  - lia.
  - lia.
  - exists h'. exact H1.
Defined.

(** [threeway_merge] copies the wrong way: the body that grows loses its
    contents. *)
Example threeway_merge_loses :
  let h := ex_heap [(16, false); (16, true); (16, false)] in
  let h := store h 4124 77 in
  ∃ h', krealloc h 4124 48 = Done (4100, h') ∧ load h 4124 = 77 ∧ load h' 4100 ≠ 77.
Proof. eexists. split; [vm_compute; reflexivity|]. split; vm_compute; [reflexivity|discriminate]. Qed.

Lemma print_allocations_spec_witness :
  print_allocations (heap_fuel (ex_heap ex_full)) (ex_heap ex_full) 4096 =
    Done [(0, true, 16, 20, 16); (24, true, 8, 36, 8); (40, false, 40, 84, 40)].
Proof.
  apply (print_allocations_spec (ex_heap ex_full) ex_full). apply heap_okb_sound. vm_compute. reflexivity.
Defined.

Lemma init_heap_spec_witness : ∃ h w',
  init_heap blank_pmm 0x8000 = Done (h, w') ∧ heap_ok h [(0x7ff8, false)].
Proof.
  destruct (blank_contiguous 0x8000 ltac:(lia)) as (w' & Ha).
  destruct (init_heap_spec blank_pmm 0x8000 4096 w' Ha) as (h & w'' & H1 & _ & H2 & _).
  - lia.
  - lia.
  - reflexivity.
  - exists h, w''. split; [exact H1|exact H2].
Defined.

(** The heap the kernel asks for. *)
Lemma init_heap_truncates_witness : ∃ h w',
  init_heap blank_pmm 0x20000 = Done (h, w') ∧ block_size h (HEAP_START h) = 0xfff8.
Proof.
  destruct (blank_contiguous 0x20000 ltac:(lia)) as (w' & Ha).
  destruct (init_heap_truncates blank_pmm 0x20000 4096 w' Ha) as (h & w'' & H1 & H2 & _).
  - lia.
  - lia.
  - reflexivity.
  - exists h, w''. split; [exact H1|exact H2].
Defined.
