(* ===== verification/Printf.v ===== *)
(** * Formatted output

    [src/src/kernel/utils/printf.c].  Strings are lists of character codes
    without their terminator; what is handed to [term_write] is the list of
    its calls.  [numeral] writes a number by its digits, place by place, and
    [render] says what a format string should print; [PrintK] does so for the
    formats in which text separates the conversions. *)
From Stdlib Require Import String Ascii.
From stdpp Require Import base list.
From S2P Require Import Prelude.
Open Scope Z_scope.

Definition chars (s : string) : list Z :=
  map (λ a, Z.of_N (N_of_ascii a)) (list_ascii_of_string s).
Definition char (a : ascii) : Z := Z.of_N (N_of_ascii a).

Definition PERCENT : Z := 37.

(** ** [Convert] *)

Definition hex_digits : list Z := chars "0123456789ABCDEF".

(** The loop of [Convert] with [room] bytes left before the start of the
    buffer; the string built so far is [ptr].  Writing before the buffer,
    dividing by zero and reading past the digits are undefined. *)
Fixpoint convert_loop (room : nat) (num base : Z) (ptr : list Z) : outcome (list Z) :=
  match room with
  | O => Undefined
  | S room =>
      _ ← check (negb (base =? 0));
      match hex_digits !! Z.to_nat (num mod base) with
      | None => Undefined
      | Some d =>
          let ptr := d :: ptr in
          let num := num / base in
          if negb (num =? 0) then convert_loop room num base ptr else Done ptr
      end
  end.

(** [buffer[32]] holds 31 digits and the terminator. *)
Definition Convert (num base : Z) : outcome (list Z) := convert_loop 31 num base [].

(** ** [PrintK] *)

(** The variadic arguments. *)
Inductive printk_arg :=
| IntArg (n : Z)
| StrArg (s : list Z).

(** What one conversion hands to [term_write], and the arguments left.  An
    argument that is missing or of the other type is undefined; a character
    that is no conversion prints nothing and takes no argument. *)
Definition convert_arg (data_type : Z) (args : list printk_arg) :
    outcome (list (list Z) * list printk_arg) :=
  let number base :=
    match args with
    | IntArg n :: args => s ← Convert (u64 n) base; Done ([s], args)
    | _ => Undefined
    end in
  if data_type =? char "c" then
    match args with
    | IntArg n :: args => Done ([[u8 n]], args)
    | _ => Undefined
    end
  else if data_type =? char "d" then number 10
  else if data_type =? char "o" then number 8
  else if data_type =? char "h" then number 16
  else if data_type =? char "s" then
    match args with
    | StrArg s :: args => Done ([s], args)
    | _ => Undefined
    end
  else Done ([], args).

(** The two nested loops.  [first] is true where the outer loop has just come
    round: the inner loop prints that character before it looks for a ['%'].
    A ['%'] at the end makes the outer loop step over the terminator. *)
Fixpoint printk_loop (str : list Z) (first : bool) (args : list printk_arg) :
    outcome (list (list Z)) :=
  match str with
  | [] => Done []
  | c :: str' =>
      if (c =? PERCENT) && negb first then
        match str' with
        | [] => Undefined
        | data_type :: str'' =>
            '(out, args) ← convert_arg data_type args;
            rest ← printk_loop str'' true args;
            Done (out ++ rest)
        end
      else
        rest ← printk_loop str' false args;
        Done ([c] :: rest)
  end.

(** [IN_USE] is the lock: a second caller waits for ever. *)
Definition PrintK (IN_USE : bool) (str : list Z) (args : list printk_arg) :
    outcome (list (list Z) * bool) :=
  if IN_USE then OutOfFuel
  else out ← printk_loop str true args; Done (out, false).

(** ** Specification of [Convert] *)

(** The number a string of digits of a base up to 16 denotes. *)
Definition digit_value (c : Z) : Z := if c <? 58 then c - 48 else c - 55.
Definition digits_value (base : Z) (l : list Z) : Z :=
  fold_left (λ acc c, acc * base + digit_value c) l 0.

Definition is_hex_digit (base c : Z) : Prop :=
  (48 ≤ c < 58 ∨ 65 ≤ c < 71) ∧ 0 ≤ digit_value c < base.

Lemma hex_digit_lookup base d :
  0 ≤ d < base → base ≤ 16 →
  ∃ c, hex_digits !! Z.to_nat d = Some c ∧ digit_value c = d ∧ is_hex_digit base c.
Proof.
  intros Hd Hb. unfold is_hex_digit.
  assert (H : forallb (λ d, match hex_digits !! Z.to_nat d with
    | Some c => (digit_value c =? d) && (((48 <=? c) && (c <? 58)) || ((65 <=? c) && (c <? 71)))
    | None => false end) (seqZ 0 16) = true) by (vm_compute; reflexivity).
  rewrite forallb_seqZ in H. specialize (H d ltac:(lia)).
  destruct (hex_digits !! Z.to_nat d) as [c|]; [|done].
  apply andb_true_iff in H as [Hv%Z.eqb_eq Hr]. exists c. split_and!; [done|done| |lia|lia].
  rewrite orb_true_iff, !andb_true_iff, !Z.leb_le, !Z.ltb_lt in Hr. lia.
Qed.

Lemma digits_value_app base l1 l2 :
  digits_value base (l1 ++ l2) =
    fold_left (λ acc c, acc * base + digit_value c) l2 (digits_value base l1).
Proof. unfold digits_value. apply fold_left_app. Qed.

Lemma fold_digits_acc base l acc :
  fold_left (λ acc c, acc * base + digit_value c) l acc =
    acc * base ^ Z.of_nat (length l) + digits_value base l.
Proof.
  unfold digits_value. revert acc. induction l as [|c l IH]; intros acc; cbn [fold_left length].
  - rewrite Z.pow_0_r. lia.
  - rewrite IH, (IH (0 * base + digit_value c)).
    rewrite Nat2Z.inj_succ, Z.pow_succ_r by lia. ring.
Qed.

(** With enough room the loop puts the digits of [num] in front of [ptr]. *)
Lemma convert_loop_spec base : 2 ≤ base ≤ 16 → ∀ k room num ptr,
  0 ≤ num < base ^ Z.of_nat k → (0 < k ≤ room)%nat →
  ∃ l, convert_loop room num base ptr = Done (l ++ ptr) ∧ digits_value base l = num ∧
    Forall (is_hex_digit base) l ∧ (0 < length l ≤ k)%nat ∧
    (num ≠ 0 → head l ≠ Some 48) ∧ (num = 0 → l = [48]).
Proof.
  intros Hb. induction k as [|k IH]; intros room num ptr Hn Hr; [lia|].
  destruct room as [|room]; [lia|]. cbn [convert_loop].
  rewrite check_true by (by apply negb_true_iff, Z.eqb_neq; lia). do_bind.
  destruct (hex_digit_lookup base (num mod base)) as (c & -> & Hv & Hc); [apply Z.mod_pos_bound; lia|lia|].
  destruct (Z.eqb_spec (num / base) 0) as [Hz|Hz]; cbn [negb].
  - exists [c]. apply Z.div_small_iff in Hz; [|lia]. rewrite Z.mod_small in Hv by lia.
    split_and!; [done| |by constructor|cbn; lia|cbn; lia| |].
    + unfold digits_value. cbn. lia.
    + intros Hnz [= ->]. by vm_compute in Hv.
    + intros ->. unfold is_hex_digit, digit_value in *. f_equal.
      destruct (Z.ltb_spec c 58); lia.
  - assert (Hlt : 0 ≤ num / base < base ^ Z.of_nat k).
    { rewrite Nat2Z.inj_succ, Z.pow_succ_r in Hn by lia. split; [apply Z.div_pos; lia|].
      apply Z.div_lt_upper_bound; lia. }
    destruct (IH room (num / base) (c :: ptr) Hlt) as (l & Hrun & Hlv & Hl & Hlen & Hhd & _).
    { destruct k as [|k]; [cbn in Hlt; lia|lia]. }
    exists (l ++ [c]). rewrite Hrun, <-app_assoc. split_and!; [done| |..].
    + rewrite digits_value_app, Hlv. cbn [fold_left]. rewrite Hv.
      rewrite (Z.mul_comm (num / base)). symmetry. apply Z.div_mod. lia.
    + apply Forall_app. auto.
    + rewrite length_app. cbn. lia.
    + rewrite length_app. cbn. lia.
    + intros _. specialize (Hhd Hz). by destruct l.
    + intros ->. by rewrite Z.div_0_l in Hz by lia.
Qed.

Lemma convert_result num base :
  0 ≤ num < 2 ^ 64 → 5 ≤ base ≤ 16 →
  ∃ l, Convert num base = Done l ∧ digits_value base l = num ∧ Forall (is_hex_digit base) l ∧
    (0 < length l ≤ 28)%nat ∧ (num ≠ 0 → head l ≠ Some 48) ∧ (num = 0 → l = [48]).
Proof.
  intros Hn Hb. destruct (convert_loop_spec base ltac:(lia) 28 31 num []) as (l & H); [|lia|].
  - assert (5 ^ 28 ≤ base ^ 28) by (apply Z.pow_le_mono_l; lia). change (Z.of_nat 28) with 28. lia.
  - exists l. rewrite app_nil_r in H. exact H.
Qed.

(** [Convert] is correct and stays in its buffer for every 64-bit number
    and every base from 5 to 16: it ends with the canonical string of digits
    that denotes the number, of at most 28 characters. *)
Theorem Convert_spec num base :
  0 ≤ num < 2 ^ 64 → 5 ≤ base ≤ 16 →
  ∃ l, Convert num base = Done l ∧ digits_value base l = num ∧ Forall (is_hex_digit base) l ∧
    (0 < length l ≤ 28)%nat ∧ (num ≠ 0 → head l ≠ Some 48) ∧ (num = 0 → l = [48]).
Proof. apply convert_result. Qed.

(** ** Numerals *)

(** The digits, and the number of places of [n] in a base: one, and one more
    for each of the powers up to the 63rd that [n] reaches. *)
Definition digit (d : Z) : Z := if d <? 10 then 48 + d else 55 + d.
Definition places (base n : Z) : nat := S (length (filter (λ i, base ^ i <=? n) (seqZ 1 63))).

(** The digit at each place, the highest first. *)
Definition numeral (base n : Z) : list Z :=
  map (λ i, digit ((n / base ^ i) mod base)) (rev (seqZ 0 (Z.of_nat (places base n)))).

Lemma hex_digits_digit d : 0 ≤ d < 16 → hex_digits !! Z.to_nat d = Some (digit d).
Proof.
  intros Hd. assert (H : forallb (λ d, bool_decide (hex_digits !! Z.to_nat d = Some (digit d))) (seqZ 0 16) = true)
    by (vm_compute; reflexivity).
  rewrite forallb_seqZ in H. specialize (H d ltac:(lia)). by apply bool_decide_eq_true in H.
Qed.

Lemma convert_loop_places base : 2 ≤ base ≤ 16 → ∀ k room num ptr,
  0 ≤ num < base ^ Z.of_nat (S k) → k = 0%nat ∨ base ^ Z.of_nat k ≤ num → (k < room)%nat →
  convert_loop room num base ptr =
    Done (map (λ i, digit ((num / base ^ i) mod base)) (rev (seqZ 0 (Z.of_nat (S k)))) ++ ptr).
Proof.
  intros Hb. induction k as [|k IH]; intros room num ptr Hn Hlow Hroom;
    (destruct room as [|room]; [lia|]); cbn [convert_loop];
    rewrite check_true by (by apply negb_true_iff, Z.eqb_neq; lia); do_bind;
    pose proof (Z.mod_pos_bound num base ltac:(lia)); rewrite hex_digits_digit by lia.
  - change (Z.of_nat 1) with 1 in Hn. rewrite Z.pow_1_r in Hn. rewrite (Z.div_small num base) by lia.
    change (rev (seqZ 0 (Z.of_nat 1))) with [0]. cbn. by rewrite Z.pow_0_r, Z.div_1_r.
  - destruct Hlow as [|Hlow]; [done|].
    assert (H1 : 0 ≤ num / base < base ^ Z.of_nat (S k)).
    { rewrite Nat2Z.inj_succ, Z.pow_succ_r in Hn by lia. split; [apply Z.div_pos; lia|].
      apply Z.div_lt_upper_bound; lia. }
    assert (H2 : base ^ Z.of_nat k ≤ num / base).
    { rewrite Nat2Z.inj_succ, Z.pow_succ_r in Hlow by lia. apply Z.div_le_lower_bound; lia. }
    pose proof (Z.pow_pos_nonneg base (Z.of_nat k) ltac:(lia) ltac:(lia)).
    rewrite (proj2 (Z.eqb_neq (num / base) 0)) by lia. cbn [negb].
    rewrite (IH room (num / base)) by (done || lia || by right). f_equal.
    rewrite (Nat2Z.inj_succ (S k)), (seqZ_cons 0 (Z.succ (Z.of_nat (S k)))) by lia. rewrite Z.pred_succ. cbn [rev].
    rewrite map_app, <-app_assoc. cbn [map app]. rewrite Z.pow_0_r, Z.div_1_r. f_equal.
    rewrite !map_rev. f_equal.
    change (seqZ (Z.succ 0)) with (seqZ 1). rewrite <-(fmap_add_seqZ 1 0). rewrite map_map. apply map_ext_in.
    intros i Hi%list_elem_of_In%elem_of_seqZ. rewrite Z.pow_add_r, Z.pow_1_r, Z.div_div by lia. done.
Qed.

(** The number of places of a number. *)
Lemma places_of base n k :
  2 ≤ base → (k < 64)%nat → n < base ^ Z.of_nat (S k) → k = 0%nat ∨ base ^ Z.of_nat k ≤ n →
  places base n = S k.
Proof.
  intros Hb Hk Hlt Hlow. unfold places. f_equal.
  replace 63 with (Z.of_nat k + (63 - Z.of_nat k)) by lia. rewrite seqZ_app by lia.
  rewrite filter_app, length_app, filter_all.
  - rewrite length_seqZ, Nat2Z.id. enough (filter (λ i, base ^ i <=? n) (seqZ (1 + Z.of_nat k) (63 - Z.of_nat k)) = [])
      as -> by (cbn; lia).
    apply filter_none. intros i Hi%elem_of_seqZ.
    assert (base ^ Z.of_nat (S k) ≤ base ^ i) by (apply Z.pow_le_mono_r; lia). lia.
  - intros i Hi%elem_of_seqZ. destruct Hlow as [->|Hlow]; [lia|].
    assert (base ^ i ≤ base ^ Z.of_nat k) by (apply Z.pow_le_mono_r; lia). lia.
Qed.

Lemma places_exist base n m :
  0 ≤ n < base ^ Z.of_nat (S m) →
  ∃ k, (k ≤ m)%nat ∧ n < base ^ Z.of_nat (S k) ∧ (k = 0%nat ∨ base ^ Z.of_nat k ≤ n).
Proof.
  induction m as [|m IH]; intros Hn; [exists 0%nat; split_and!; [lia|lia|by left]|].
  destruct (decide (n < base ^ Z.of_nat (S m))) as [Hlt|Hge].
  - destruct IH as (k & Hk & H1 & H2); [lia|]. exists k. split_and!; [lia|done|done].
  - exists (S m). split_and!; [lia|lia|right; lia].
Qed.

Lemma Convert_numeral base n : 0 ≤ n < 2 ^ 64 → 5 ≤ base ≤ 16 → Convert n base = Done (numeral base n).
Proof.
  intros Hn Hb. destruct (places_exist base n 27) as (k & Hk & H1 & H2).
  { assert (5 ^ 28 ≤ base ^ 28) by (apply Z.pow_le_mono_l; lia). change (Z.of_nat 28) with 28. lia. }
  unfold Convert, numeral. rewrite (convert_loop_places base ltac:(lia) k) by (done || lia).
  by rewrite (places_of base n k), app_nil_r by (done || lia).
Qed.

(** ** Specification of [PrintK] *)

(** A format: text, and conversions. *)
Inductive item :=
| Text (s : list Z)
| Conv (data_type : Z).

Definition format_of (items : list item) : list Z :=
  flat_map (λ i, match i with Text s => s | Conv t => [PERCENT; t] end) items.

(** What a conversion is meant to print, and the arguments it leaves: [%d],
    [%o] and [%h] an unsigned 64-bit number in base 10, 8 and 16, [%c] the
    character with the code of the number, [%s] the string.  Other letters
    print nothing; an argument that is missing or of the other kind is
    undefined. *)
Definition conversion (t : Z) (args : list printk_arg) : outcome (list Z * list printk_arg) :=
  let base := if t =? 100 then 10 else if t =? 111 then 8 else if t =? 104 then 16 else 0 in
  match args with
  | IntArg n :: args =>
      if negb (base =? 0) then Done (numeral base (n mod 2 ^ 64), args)
      else if t =? 99 then Done ([n mod 256], args)
      else if t =? 115 then Undefined
      else Done ([], IntArg n :: args)
  | StrArg str :: args =>
      if t =? 115 then Done (str, args)
      else if negb (base =? 0) || (t =? 99) then Undefined
      else Done ([], StrArg str :: args)
  | [] => if negb (base =? 0) || (t =? 99) || (t =? 115) then Undefined else Done ([], [])
  end.

(** What a format is meant to print. *)
Fixpoint render (items : list item) (args : list printk_arg) : outcome (list Z) :=
  match items with
  | [] => Done []
  | Text s :: items => rest ← render items args; Done (s ++ rest)
  | Conv t :: items =>
      '(out, args) ← conversion t args;
      rest ← render items args;
      Done (out ++ rest)
  end.

Lemma convert_arg_conversion t args :
  ('(out, args) ← convert_arg t args; Done (concat out, args)) = conversion t args.
Proof.
  assert (Hnum : ∀ base, 5 ≤ base ≤ 16 → ∀ args,
    ('(out, args) ← match args with
                    | IntArg n :: args => s ← Convert (u64 n) base; Done ([s], args)
                    | _ => Undefined end; Done (concat out, args)) =
    match args with IntArg n :: args => Done (numeral base (n mod 2 ^ 64), args) | _ => Undefined end).
  { intros base Hb [|[n|str] l]; [done| |done]. rewrite Convert_numeral by (done || apply u64_range).
    do_bind. cbn [concat]. by rewrite app_nil_r. }
  unfold convert_arg, conversion. change (char "c") with 99. change (char "d") with 100. change (char "o") with 111.
  change (char "h") with 104. change (char "s") with 115.
  destruct (Z.eqb_spec t 99) as [->|]; [by destruct args as [|[v|str] l]|].
  destruct (Z.eqb_spec t 100) as [->|]; [rewrite Hnum by lia; by destruct args as [|[v|str] l]|].
  destruct (Z.eqb_spec t 111) as [->|]; [rewrite Hnum by lia; by destruct args as [|[v|str] l]|].
  destruct (Z.eqb_spec t 104) as [->|]; [rewrite Hnum by lia; by destruct args as [|[v|str] l]|].
  destruct (Z.eqb_spec t 115) as [->|]; destruct args as [|[v|str] l]; try done.
  do_bind. cbn [concat]. by rewrite app_nil_r.
Qed.

(** Every conversion comes right after some text: [ready] is true where a
    conversion may come. *)
Fixpoint separated (ready : bool) (items : list item) : Prop :=
  match items with
  | [] => True
  | Text s :: items => s ≠ [] ∧ Forall (λ c, c ≠ PERCENT) s ∧ separated true items
  | Conv t :: items => ready = true ∧ separated false items
  end.

Lemma printk_text s str first args :
  s ≠ [] → Forall (λ c, c ≠ PERCENT) s →
  printk_loop (s ++ str) first args =
    (rest ← printk_loop str false args; Done (map (λ c, [c]) s ++ rest)).
Proof.
  intros Hne Hs. revert first Hne. induction Hs as [|c s Hc Hs IH]; intros first Hne; [done|].
  cbn [app printk_loop map]. rewrite (proj2 (Z.eqb_neq c PERCENT) Hc). cbn [andb].
  destruct s as [|c' s]; [done|]. rewrite IH by done.
  destruct (printk_loop str false args); done.
Qed.

(** What a call prints, and the lock after it. *)
Definition printed (o : outcome (list (list Z) * bool)) : outcome (list Z * bool) :=
  '(out, lock) ← o; Done (concat out, lock).

Lemma PrintK_printed str args :
  printed (PrintK false str args) = (out ← @concat Z <$> printk_loop str true args; Done (out, false)).
Proof. unfold printed, PrintK. by destruct (printk_loop str true args). Qed.

Lemma concat_singletons (s : list Z) : concat (map (λ c, [c]) s) = s.
Proof. induction s as [|c s IH]; [done|]. cbn. by rewrite IH. Qed.

Lemma printk_render items : ∀ ready args,
  separated ready items →
  (@concat Z <$> printk_loop (format_of items) (negb ready) args) = render items args.
Proof.
  induction items as [|[s|t] items IH]; intros ready args Hsep; [done|..].
  - destruct Hsep as (Hne & Hs & Hsep). cbn [format_of flat_map render].
    rewrite printk_text by done. rewrite <-(IH true args Hsep). cbn [negb]. fold (format_of items).
    destruct (printk_loop (format_of items) false args); try done.
    cbn. by rewrite concat_app, concat_singletons.
  - destruct Hsep as [-> Hsep]. cbn [format_of flat_map render app negb printk_loop].
    rewrite Z.eqb_refl. cbn [andb negb]. fold (format_of items).
    rewrite <-convert_arg_conversion. destruct (convert_arg t args) as [[out args']| |]; [|done..]. do_bind.
    rewrite <-(IH false args' Hsep). cbn [negb].
    destruct (printk_loop (format_of items) true args'); try done. cbn. by rewrite concat_app.
Qed.

(** C36: For a format that begins with text and has text between conversions,
    [PrintK] prints the text as it is and for each conversion its next
    argument: [%d], [%o] and [%h] the number - as an unsigned one of 64 bits,
    also when it was negative - by its digits in base 10, 8 and 16, without
    leading zeros, [%c] the character, [%s] the string, other letters nothing;
    a missing argument or one of the wrong kind is undefined.  The lock is free
    again. *)
Theorem PrintK_renders items args :
  separated false items →
  printed (PrintK false (format_of items) args) = (out ← render items args; Done (out, false)).
Proof. intros Hsep. by rewrite PrintK_printed, (printk_render items false). Qed.

(** A conversion at the very start of the format, or right after another
    one, is not recognised: the two characters are printed as they are, up to
    the next text conversion, and the argument is left for that one. *)
Theorem PrintK_leading_conversion t s items args :
  t ≠ PERCENT → Forall (λ c, c ≠ PERCENT) s → separated true items →
  printed (PrintK false (PERCENT :: t :: s ++ format_of items) args) =
    (rest ← render items args; Done (PERCENT :: t :: s ++ rest, false)).
Proof.
  intros Ht Hs Hsep. rewrite PrintK_printed.
  change (printk_loop (PERCENT :: t :: s ++ format_of items) true args)
    with (rest ← printk_loop ((t :: s) ++ format_of items) false args; Done ([PERCENT] :: rest)).
  rewrite printk_text by (done || by constructor).
  rewrite <-(printk_render items true args Hsep). cbn [negb].
  destruct (printk_loop (format_of items) false args); try done.
  cbn. by rewrite concat_app, concat_singletons.
Qed.

(** [PrintK] waits for ever while the lock is taken, reads past the end of
    a format that ends in ['%'], and otherwise always ends with the lock
    released, on the early return too. *)
Theorem PrintK_lock IN_USE str args :
  (IN_USE = true → PrintK IN_USE str args = OutOfFuel) ∧
  (∀ out l, PrintK IN_USE str args = Done (out, l) → l = false) ∧
  (∀ c s, Forall (λ c, c ≠ PERCENT) s → PrintK false (c :: s ++ [PERCENT]) args = Undefined).
Proof.
  split_and!.
  - by intros ->.
  - unfold PrintK. destruct IN_USE; [done|]. intros out l H.
    apply bind_Done_inv in H as (o & _ & Heq). by injection Heq as _ <-.
  - intros c s Hs. unfold PrintK. cbn [printk_loop]. rewrite andb_false_r.
    assert (Hz : printk_loop (s ++ [PERCENT]) false args = Undefined).
    { destruct s as [|c' s]; [done|]. rewrite printk_text by done. done. }
    by rewrite Hz.
Qed.

(** ** Concrete formats *)

Lemma Convert_spec_witness : ∃ l, Convert 255 16 = Done l ∧ digits_value 16 l = 255.
Proof.
  destruct (Convert_spec 255 16) as (l & H1 & H2 & _); [lia|lia|]. exists l. split; [exact H1|exact H2].
Defined.

Example Convert_hex : Convert 0xBEEF 16 = Done (chars "BEEF"). Proof. reflexivity. Qed.
(** A negative [int] is printed as a 64-bit number. *)
Example PrintK_negative :
  (@concat Z <$> printk_loop (chars "x=%d") true [IntArg (-1)]) = Done (chars "x=18446744073709551615").
Proof. vm_compute. reflexivity. Qed.

Lemma PrintK_renders_witness :
  printed (PrintK false (chars "Reading kern_file %s: %d.") [StrArg (chars "a.txt"); IntArg 42])
    = Done (chars "Reading kern_file a.txt: 42.", false).
Proof.
  apply (PrintK_renders [Text (chars "Reading kern_file "); Conv (char "s"); Text (chars ": ");
    Conv (char "d"); Text (chars ".")]).
  cbn [separated]. split_and!; try done; vm_compute; repeat constructor; discriminate.
Defined.

(** The format of [PrintPageAttrs] begins with a conversion. *)
Lemma PrintK_leading_conversion_witness :
  printed (PrintK false (chars "%h: %s") [IntArg 4096]) = Undefined ∧
  printed (PrintK false (chars "%h: %s") [StrArg (chars "P")]) = Done (chars "%h: P", false).
Proof.
  split.
  - exact (PrintK_leading_conversion (char "h") (chars ": ") [Conv (char "s")] [IntArg 4096]
      ltac:(discriminate) ltac:(repeat constructor; discriminate) (conj eq_refl I)).
  - exact (PrintK_leading_conversion (char "h") (chars ": ") [Conv (char "s")] [StrArg (chars "P")]
      ltac:(discriminate) ltac:(repeat constructor; discriminate) (conj eq_refl I)).
Defined.
