(* ===== verification/SpinLock.v ===== *)
(** * The spin lock

    [src/src/kernel/utils/spin_lock.c].  [wait] reads the lock in one step and
    sets it in another; [cpu_step] interleaves any number of processors that
    run [wait], a critical section and [release] in a loop. *)
From stdpp Require Import base list.
From S2P Require Import Prelude.

(** ** The functions *)

(** One processor alone: nothing will change the lock while it spins. *)
Definition wait (spin_lock : bool) : outcome bool := if spin_lock then OutOfFuel else Done true.
Definition release (spin_lock : bool) : bool := false.

(** ** Interleaving *)

(** Where a processor is: about to evaluate [*spin_lock], about to execute
    [*spin_lock = true], or between [wait] and [release]. *)
Inductive pc := Testing | Setting | Critical.

#[export] Instance pc_eq_dec : EqDecision pc.
Proof. solve_decision. Defined.

Record cpus := Cpus { spin_lock : bool; pcs : list pc }.

Inductive cpu_step : cpus → cpus → Prop :=
| step_spin i ps : ps !! i = Some Testing → cpu_step (Cpus true ps) (Cpus true ps)
| step_test i ps : ps !! i = Some Testing →
    cpu_step (Cpus false ps) (Cpus false (<[i := Setting]> ps))
| step_set i l ps : ps !! i = Some Setting → cpu_step (Cpus l ps) (Cpus true (<[i := Critical]> ps))
| step_release i l ps : ps !! i = Some Critical →
    cpu_step (Cpus l ps) (Cpus (release l) (<[i := Testing]> ps)).

Definition start (n : nat) : cpus := Cpus false (replicate n Testing).

(** The same program with the test and the assignment in one step. *)
Inductive atomic_step : cpus → cpus → Prop :=
| atomic_wait i ps : ps !! i = Some Testing →
    atomic_step (Cpus false ps) (Cpus true (<[i := Critical]> ps))
| atomic_release i l ps : ps !! i = Some Critical →
    atomic_step (Cpus l ps) (Cpus (release l) (<[i := Testing]> ps)).

(** At most one processor is between [wait] and [release]. *)
Definition exclusive (s : cpus) : Prop :=
  ∀ i j, pcs s !! i = Some Critical → pcs s !! j = Some Critical → i = j.

(** ** Properties *)

(** [wait] does not give mutual exclusion on two processors: there is an
    interleaving in which both read the lock before either sets it, and both
    enter. *)
Theorem wait_not_exclusive : ∃ s, rtc cpu_step (start 2) s ∧ ¬ exclusive s.
Proof.
  exists (Cpus true [Critical; Critical]). split.
  - eapply rtc_l; [apply (step_test 0); reflexivity|]. cbn.
    eapply rtc_l; [apply (step_test 1); reflexivity|]. cbn.
    eapply rtc_l; [apply (step_set 0); reflexivity|]. cbn.
    eapply rtc_l; [apply (step_set 1); reflexivity|]. cbn. apply rtc_refl.
  - intros H. specialize (H 0%nat 1%nat eq_refl eq_refl). discriminate.
Qed.

(** The invariant of the one-step lock: held exactly by the processor that is
    inside. *)
Definition lock_ok (s : cpus) : Prop :=
  exclusive s ∧ (∀ i, pcs s !! i ≠ Some Setting) ∧
  (spin_lock s = false → ∀ i, pcs s !! i ≠ Some Critical).

Lemma lock_ok_step s s' : lock_ok s → atomic_step s s' → lock_ok s'.
Proof.
  intros (Hex & Hset & Hfree) Hstep.
  destruct Hstep as [i ps Hi|i l ps Hi]; cbn [pcs spin_lock] in *;
    assert (Hlt : (i < length ps)%nat) by (by eapply lookup_lt_Some).
  - split_and!; cbn [pcs spin_lock]; [|intros j|done].
    + intros j k. cbn [pcs]. rewrite !list_lookup_insert_Some.
      intros [(-> & _)|(Hj & Hjc)] [(-> & _)|(Hk & Hkc)]; [done|by destruct (Hfree eq_refl k)|
        by destruct (Hfree eq_refl j)|by destruct (Hfree eq_refl j)].
    + rewrite list_lookup_insert_Some. intros [(_ & ? & _)|[_ ?]]; [done|by apply (Hset j)].
  - assert (Hnone : ∀ j, <[i := Testing]> ps !! j ≠ Some Critical).
    { intros j. rewrite list_lookup_insert_Some. intros [(_ & ? & _)|(Hne & Hj)]; [done|].
      apply Hne. by apply Hex. }
    split_and!; cbn [pcs spin_lock].
    + intros j k Hj. by destruct (Hnone j).
    + intros j. rewrite list_lookup_insert_Some. intros [(_ & ? & _)|[_ ?]]; [done|by apply (Hset j)].
    + intros _. apply Hnone.
Qed.

(** With the test and the assignment in one step the lock is exclusive, in
    every reachable state of any number of processors. *)
Theorem atomic_wait_exclusive n s : rtc atomic_step (start n) s → exclusive s.
Proof.
  intros Hr. cut (lock_ok s); [by intros [? _]|]. remember (start n) as s0 eqn:Hs0.
  assert (lock_ok s0) as Hok.
  { subst s0. split_and!; cbn [start pcs spin_lock].
    - intros i j Hi. by apply lookup_replicate in Hi as [? _].
    - intros i Hi. by apply lookup_replicate in Hi as [? _].
    - intros _ i Hi. by apply lookup_replicate in Hi as [? _]. }
  clear Hs0. induction Hr as [s|s1 s2 s3 Hstep _ IH]; [done|]. apply IH. by eapply lock_ok_step.
Qed.

Lemma atomic_wait_exclusive_witness : exclusive (Cpus true [Critical; Testing]).
Proof.
  apply (atomic_wait_exclusive 2). eapply rtc_l; [|apply rtc_refl].
  apply (atomic_wait 0 [Testing; Testing]). reflexivity.
Defined.
