(* ===== verification/Ustar.v ===== *)
(** * The initial RAM disk

    [src/src/kernel/vfs/ustar.c].  The archive and the heap are in the same
    memory; an entry is a 512-byte header, found by the field offsets of [ustar_entry_t]. *)
From Stdlib Require Import String.
From stdpp Require Import base list gmap.
From S2P Require Import Prelude Memory Stivale Pmm FrameAlloc PageTable Vmm Kheap Printf.
Open Scope Z_scope.

(** ** Layout of a header *)

Definition BLOCK_SIZE : Z := 512.

Record ustar_fields := {
  off_name : Z; off_mode : Z; off_uid : Z; off_gid : Z; off_size : Z; off_mtime : Z;
  off_checksum : Z; off_filetype : Z; off_link_name : Z; off_signature : Z; off_version : Z;
  off_owner : Z; off_group : Z; off_device_major : Z; off_device_minor : Z; off_prefix : Z;
  sizeof_entry : Z;
}.

(** The offsets of the packed structure. *)
Definition ustar_entry_t : ustar_fields := {|
  off_name := 0; off_mode := 100; off_uid := 108; off_gid := 116; off_size := 124;
  off_mtime := 136; off_checksum := 148; off_filetype := 156; off_link_name := 157;
  off_signature := 257; off_version := 263; off_owner := 265; off_group := 297;
  off_device_major := 329; off_device_minor := 337; off_prefix := 345; sizeof_entry := 512;
|}.

Inductive ustar_filetype_t :=
| USTAR_REGULAR | USTAR_HARDLINK | USTAR_SYMLINK | USTAR_CHAR_DEV | USTAR_BLOCK_DEV | USTAR_DIR
| USTAR_PIPE.

Definition filetype_code (t : ustar_filetype_t) : Z :=
  match t with
  | USTAR_REGULAR => 0x30 | USTAR_HARDLINK => 0x31 | USTAR_SYMLINK => 0x32 | USTAR_CHAR_DEV => 0x33
  | USTAR_BLOCK_DEV => 0x34 | USTAR_DIR => 0x35 | USTAR_PIPE => 0x36
  end.

Definition field (p : Z) (off : ustar_fields → Z) : Z := p + off ustar_entry_t.

(** ** Reading headers *)

(** [char] is signed. *)
Definition schar (z : Z) : Z := if z <? 128 then z else z - 256.

(** An overflow of the [int] [n] is undefined. *)
Fixpoint oct2bin (m : mem) (c : Z) (size : nat) (n : Z) : outcome Z :=
  match size with
  | O => Done n
  | S size =>
      let n := n * 8 in
      _ ← check ((INT_MIN <=? n) && (n <=? INT_MAX));
      let n := n + (schar (ld8 m c) - 48) in
      _ ← check ((INT_MIN <=? n) && (n <=? INT_MAX));
      oct2bin m (c + 1) size n
  end.

(** [strncmp] against a string literal, the characters of [lit]. *)
Fixpoint strncmp_lit (m : mem) (s : Z) (lit : list Z) (n : nat) : Z :=
  match n with
  | O => 0
  | S n' =>
      let c := default 0 (head lit) in
      if negb (ld8 m s =? 0) && (ld8 m s =? c) then strncmp_lit m (s + 1) (tail lit) n'
      else ld8 m s - c
  end.

(** [! strncmp(ustar_ptr->signature, "ustar", 5)] *)
Definition has_signature (m : mem) (ustar_ptr : Z) : bool :=
  strncmp_lit m (field ustar_ptr off_signature) (chars "ustar") 5 =? 0.

Definition entry_len (m : mem) (ustar_ptr : Z) : outcome Z :=
  n ← oct2bin m (field ustar_ptr off_size) 11 0; Done (u64 n).

(** How far the loops move on from a header of a file of [len] bytes. *)
Definition num_blocks (len : Z) : Z :=
  if len mod BLOCK_SIZE =? 0 then len / BLOCK_SIZE else len / BLOCK_SIZE + 1.
Definition next_entry (ustar_ptr len : Z) : Z :=
  ustar_ptr + sizeof_entry ustar_entry_t * (if 0 <? num_blocks len then num_blocks len else 1).

(** ** Operations *)

(** The modules the boot loader passed: a count at offset 16 and entries of
    144 bytes from offset 24, each with its string at offset 16. *)
Fixpoint find_module (k : nat) (fuel : nat) (m : mem) (module ustar_name : Z) : outcome Z :=
  match k with
  | O => Done NULL
  | S k =>
      r ← strcmp fuel m (module + 16) ustar_name;
      if r =? 0 then Done (ld64 m module) else find_module k fuel m (module + 144) ustar_name
  end.

Definition ustar_from_module (fuel : nat) (m : mem) (mods ustar_name : Z) : outcome Z :=
  find_module (Z.to_nat (ld64 m (mods + 16))) fuel m (mods + 24) ustar_name.

(** [fuel] bounds the headers visited and the strings read. *)
Fixpoint ustar_read (fuel : nat) (h : heap) (ustar_ptr filename : Z) : outcome (Z * heap) :=
  match fuel with
  | O => OutOfFuel
  | S f =>
      let m := heap_mem h in
      if has_signature m ustar_ptr then
        len ← entry_len m ustar_ptr;
        name_len ← strlen fuel m (field ustar_ptr off_name);
        if strncmp m (field ustar_ptr off_name) filename (Z.to_nat (u32 (name_len + 1))) =? 0 then
          '(p, h) ← kalloc h len;
          let res := p + 1 in
          Done (res, heap_memmove h res (ustar_ptr + sizeof_entry ustar_entry_t) len)
        else ustar_read f h (next_entry ustar_ptr len) filename
      else Done (NULL, h)
  end.

(** The state of the loop of [ustar_readdir]. *)
Record readdir_state := ReaddirState {
  found_dir : bool;
  results : Z;
  num_results : Z;
  arr_size : Z;
}.

Definition sizeof_ptr : Z := 8.

(** One matching entry that is no directory: the array grows if
    [num_results++ > arr_size], and the copy is stored at the incremented
    index. *)
Definition readdir_store (h : heap) (s : readdir_state) (ustar_ptr : Z) :
    outcome (readdir_state * heap) :=
  let grow := arr_size s <? num_results s in
  let s := ReaddirState (found_dir s) (results s) (u64 (num_results s + 1)) (arr_size s) in
  '(s, h) ← (if grow then
               let arr_size := u64 (arr_size s * 2) in
               '(results, h) ← krealloc h (results s) (u64 (arr_size * sizeof_ptr));
               Done (ReaddirState (found_dir s) results (num_results s) arr_size, h)
             else Done (s, h));
  '(p, h) ← kalloc h (sizeof_entry ustar_entry_t);
  let slot := results s + sizeof_ptr * num_results s in
  let h := set_heap_mem h (st64 (heap_mem h) slot p) in
  let h := heap_memmove h (ld64 (heap_mem h) slot) ustar_ptr (sizeof_entry ustar_entry_t) in
  Done (s, h).

Fixpoint readdir_loop (fuel : nat) (h : heap) (s : readdir_state) (ustar_ptr dirname : Z) :
    outcome (readdir_state * heap) :=
  match fuel with
  | O => OutOfFuel
  | S f =>
      let m := heap_mem h in
      if has_signature m ustar_ptr then
        len ← entry_len m ustar_ptr;
        dir_len ← strlen fuel m dirname;
        '(s, h) ← (if strncmp m (field ustar_ptr off_name) dirname (Z.to_nat (u32 (dir_len + 1))) =? 0 then
                     if ld8 m (field ustar_ptr off_filetype) =? filetype_code USTAR_DIR
                     then Done (ReaddirState true (results s) (num_results s) (arr_size s), h)
                     else readdir_store h s ustar_ptr
                   else Done (s, h));
        readdir_loop f h s (next_entry ustar_ptr len) dirname
      else Done (s, h)
  end.

Definition ustar_readdir (fuel : nat) (h : heap) (ustar dirname : Z) : outcome (Z * heap) :=
  '(p, h) ← kalloc h sizeof_ptr;
  '(s, h) ← readdir_loop fuel h (ReaddirState false p 0 1) ustar dirname;
  Done (if found_dir s then results s else NULL, h).

(** ** Sizes *)

(** [n] in [k] octal digits. *)
Fixpoint octal (k : nat) (n : Z) : list Z :=
  match k with
  | O => []
  | S k => (48 + (n / 8 ^ Z.of_nat k) mod 8) :: octal k n
  end.

(** The bytes of [l] are at [a]. *)
Fixpoint bytes_at (m : mem) (a : Z) (l : list Z) : Prop :=
  match l with
  | [] => True
  | c :: l => ld8 m a = c ∧ bytes_at m (a + 1) l
  end.

Lemma oct2bin_octal m n k : ∀ c acc,
  bytes_at m c (octal k n) → 0 ≤ acc →
  oct2bin m c k acc =
    if acc * 8 ^ Z.of_nat k + n mod 8 ^ Z.of_nat k <=? INT_MAX
    then Done (acc * 8 ^ Z.of_nat k + n mod 8 ^ Z.of_nat k) else
    if (k =? 0)%nat then Done acc else Undefined.
Proof.
  induction k as [|k IH]; intros c acc Hb Hacc.
  { cbn. rewrite Z.mod_1_r, Z.mul_1_r, Z.add_0_r. by destruct (acc <=? INT_MAX). }
  cbn [octal bytes_at] in Hb. destruct Hb as [Hc Hb]. cbn [oct2bin]. rewrite Hc.
  set (d := (n / 8 ^ Z.of_nat k) mod 8). assert (Hd : 0 ≤ d < 8) by (apply Z.mod_pos_bound; lia).
  assert (Hs : schar (48 + d) - 48 = d) by (unfold schar; destruct (Z.ltb_spec (48 + d) 128); lia).
  rewrite Hs. assert (H8 : 0 < 8 ^ Z.of_nat k) by (apply Z.pow_pos_nonneg; lia).
  assert (Hsplit : n mod 8 ^ Z.of_nat (S k) = d * 8 ^ Z.of_nat k + n mod 8 ^ Z.of_nat k).
  { rewrite Nat2Z.inj_succ, Z.pow_succ_r by lia. rewrite (Z.mul_comm 8), Z.rem_mul_r by lia.
    unfold d. lia. }
  rewrite Hsplit, Nat2Z.inj_succ, Z.pow_succ_r by lia.
  replace (acc * (8 * 8 ^ Z.of_nat k) + (d * 8 ^ Z.of_nat k + n mod 8 ^ Z.of_nat k))
    with ((acc * 8 + d) * 8 ^ Z.of_nat k + n mod 8 ^ Z.of_nat k) by ring.
  pose proof (Z.mod_pos_bound n (8 ^ Z.of_nat k) H8) as Hm.
  unfold check. destruct (Z.leb_spec INT_MIN (acc * 8)); [|unfold INT_MIN in *; lia]. cbn [andb].
  destruct (Z.leb_spec (acc * 8) INT_MAX); do_bind.
  - destruct (Z.leb_spec INT_MIN (acc * 8 + d)); [|unfold INT_MIN in *; lia]. cbn [andb].
    destruct (Z.leb_spec (acc * 8 + d) INT_MAX); do_bind.
    + rewrite IH by (done || lia).
      destruct (Z.leb_spec ((acc * 8 + d) * 8 ^ Z.of_nat k + n mod 8 ^ Z.of_nat k) INT_MAX); [done|].
      destruct k; [|done]. cbn [Z.of_nat Z.pow] in *. rewrite Z.mod_1_r in *. lia.
    + destruct (Z.leb_spec ((acc * 8 + d) * 8 ^ Z.of_nat k + n mod 8 ^ Z.of_nat k) INT_MAX); [nia|done].
  - destruct (Z.leb_spec ((acc * 8 + d) * 8 ^ Z.of_nat k + n mod 8 ^ Z.of_nat k) INT_MAX); [nia|done].
Qed.

(** [oct2bin] reads back every size below 2 GiB from its eleven octal
    digits, and overflows its [int] on every larger one the field can hold. *)
Theorem oct2bin_roundtrip m c n :
  0 ≤ n < 8 ^ 11 → bytes_at m c (octal 11 n) →
  oct2bin m c 11 0 = if n <? 2 ^ 31 then Done n else Undefined.
Proof.
  intros Hn Hb. rewrite (oct2bin_octal m n 11 c 0) by (done || lia).
  rewrite Z.mul_0_l, Z.add_0_l. change (8 ^ Z.of_nat 11) with (8 ^ 11). rewrite Z.mod_small by lia.
  unfold INT_MAX. destruct (Z.leb_spec n (2 ^ 31 - 1)), (Z.ltb_spec n (2 ^ 31)); (done || lia).
Qed.

(** ** Entries *)

(** The header of a file at [p]. *)
Record entry_at (m : mem) (p : Z) (name : list Z) (len : Z) : Prop := {
  entry_signature : has_signature m p = true;
  entry_length : entry_len m p = Done len;
  entry_name : cstring m p name;
  entry_name_short : Z.of_nat (length name) < 2 ^ 31;
}.

Lemma take_eq_name {A} (l1 l2 : list A) : take (S (length l1)) l1 = take (S (length l1)) l2 ↔ l1 = l2.
Proof.
  split; [|by intros ->]. rewrite (take_ge l1) by lia. intros Heq.
  assert (Hl : length (take (S (length l1)) l2) = length l1) by (by rewrite <-Heq).
  rewrite length_take in Hl. rewrite take_ge in Heq by lia. done.
Qed.

Lemma ustar_read_step f h p filename name fname len :
  entry_at (heap_mem h) p name len → cstring (heap_mem h) filename fname → (length name ≤ f)%nat →
  ustar_read (S f) h p filename =
    if decide (name = fname) then
      '(q, h) ← kalloc h len; Done (q + 1, heap_memmove h (q + 1) (p + 512) len)
    else ustar_read f h (next_entry p len) filename.
Proof.
  intros [Hsig Hlen Hname Hshort] Hfile Hf. cbn [ustar_read]. rewrite Hsig, Hlen. do_bind.
  assert (Hp : field p off_name = p) by (unfold field; cbn; lia). rewrite Hp.
  unfold strlen. rewrite (strlen_from_spec _ _ _ name) by (done || lia). do_bind.
  rewrite Z.add_0_l, u32_small by lia.
  replace (Z.to_nat (Z.of_nat (length name) + 1)) with (S (length name)) by lia.
  pose proof (strncmp_cstring _ _ _ _ _ (S (length name)) Hname Hfile) as Hcmp.
  rewrite take_eq_name in Hcmp.
  destruct (Z.eqb_spec (strncmp (heap_mem h) p filename (S (length name))) 0) as [Heq|Hne].
  - rewrite decide_True by (by apply Hcmp). done.
  - by rewrite decide_False by (intros ?; by apply Hne, Hcmp).
Qed.

(** Empty files (directories among them) one after the other from [p] on. *)
Fixpoint empty_entries (m : mem) (p : Z) (names : list (list Z)) : Prop :=
  match names with
  | [] => True
  | name :: names => entry_at m p name 0 ∧ empty_entries m (p + 512) names
  end.

Lemma ustar_read_skip h filename fname names : ∀ p f,
  empty_entries (heap_mem h) p names → cstring (heap_mem h) filename fname → fname ∉ names →
  Forall (λ name, (length name ≤ f)%nat) names →
  ustar_read (length names + f) h p filename =
    ustar_read f h (p + 512 * Z.of_nat (length names)) filename.
Proof.
  induction names as [|name names IH]; intros p f He Hfile Hnin Hlen.
  { cbn. by rewrite Z.add_0_r. }
  destruct He as [He Hes]. apply Forall_cons in Hlen as [Hl Hlen].
  apply not_elem_of_cons in Hnin as [Hne Hnin]. cbn [length Nat.add].
  rewrite (ustar_read_step _ h p filename name fname 0) by (done || lia).
  rewrite decide_False by done. unfold next_entry. cbn [sizeof_entry ustar_entry_t].
  change (if 0 <? num_blocks 0 then num_blocks 0 else 1) with 1. rewrite Z.mul_1_r, IH by done.
  f_equal. lia.
Qed.

(** A file that only empty entries precede, when its size can be allocated. *)
Lemma ustar_read_copies h ustar names name len filename f q h' :
  let p := ustar + 512 * Z.of_nat (length names) in
  empty_entries (heap_mem h) ustar names → entry_at (heap_mem h) p name len →
  cstring (heap_mem h) filename name → name ∉ names →
  Forall (λ name, (length name ≤ S f)%nat) names → (length name ≤ f)%nat → kalloc h len = Done (q, h') →
  ustar_read (length names + S f) h ustar filename =
    Done (q + 1, heap_memmove h' (q + 1) (p + 512) len).
Proof.
  intros p He Hent Hfile Hnin Hlens Hlen Hk.
  rewrite (ustar_read_skip h filename name names ustar (S f)) by done. fold p.
  rewrite (ustar_read_step f h p filename name name len), decide_True by done. rewrite Hk. done.
Qed.

(** *** Copies of an archive *)

Lemma strncmp_lit_copied m a m' a' lit n :
  copied m a m' a' (Z.of_nat n) → strncmp_lit m' a' lit n = strncmp_lit m a lit n.
Proof.
  revert a a' lit. induction n as [|n IH]; intros a a' lit Hc; [done|]. cbn [strncmp_lit].
  rewrite (IH (a + 1) (a' + 1)) by (apply (copied_sub m a m' a' (Z.of_nat (S n)) 1); [done|lia|lia]).
  specialize (Hc 0 ltac:(lia)). rewrite !Z.add_0_r in Hc. by rewrite Hc.
Qed.

Lemma oct2bin_copied m a m' a' n acc :
  copied m a m' a' (Z.of_nat n) → oct2bin m' a' n acc = oct2bin m a n acc.
Proof.
  revert a a' acc. induction n as [|n IH]; intros a a' acc Hc; [done|]. cbn [oct2bin].
  assert (H0 : ld8 m' a' = ld8 m a) by (specialize (Hc 0 ltac:(lia)); by rewrite !Z.add_0_r in Hc).
  rewrite H0. destruct (check _); [cbn [mbind outcome_bind]|done..]. destruct (check _); [cbn [mbind outcome_bind]|done..].
  apply IH. apply (copied_sub m a m' a' (Z.of_nat (S n)) 1); [done|lia|lia].
Qed.

(** A header and, if it is short, the name in it. *)
Lemma entry_at_copied m p m' p' name len :
  copied m p m' p' 512 → (length name < 512)%nat → entry_at m p name len → entry_at m' p' name len.
Proof.
  intros Hc Hn [Hsig Hlen Hname Hshort]. split; [| | |done].
  - unfold has_signature, field in *. rewrite (strncmp_lit_copied m (p + off_signature ustar_entry_t)); [done|].
    apply (copied_sub m p m' p' 512); [done|vm_compute; discriminate..].
  - unfold entry_len, field in *. rewrite (oct2bin_copied m (p + off_size ustar_entry_t)); [done|].
    apply (copied_sub m p m' p' 512); [done|vm_compute; discriminate..].
  - eapply cstring_copied; [|exact Hname]. intros i Hi. apply Hc. lia.
Qed.

Lemma empty_entries_copied m m' names : ∀ p p',
  copied m p m' p' (512 * Z.of_nat (length names)) → Forall (λ name, length name < 512)%nat names →
  empty_entries m p names → empty_entries m' p' names.
Proof.
  induction names as [|name names IH]; intros p p' Hc Hn He; [done|]. destruct He as [He Hes].
  apply Forall_cons in Hn as [Hn1 Hn]. cbn [length] in Hc. split.
  - apply (entry_at_copied m p); [|done|done]. intros i Hi. apply Hc. lia.
  - apply (IH (p + 512)); [|done|done]. eapply copied_sub; [exact Hc|lia|lia].
Qed.

(** ** Properties *)

(** C37: [ustar_read] finds a file that only empty entries precede, when its
    data - of any length but 0 - can be allocated on a well-formed heap of at
    most 64 KiB: there is a block for it, and [kalloc] wastes none of it
    ([splits], see C11).  It returns a copy of the data that starts one byte
    into the block it allocated, so that the last byte of a file of even length
    has overwritten the first byte of that block's footer; that of a file of odd
    length lies in the byte [kalloc] rounded up to.  (The kernel's own heap is
    larger than 64 KiB and not well formed: what [ustar_read] does there for
    the first allocation is part of C1.) *)
Theorem ustar_read_finds h bs ustar names name len filename f bs' off :
  heap_ok h bs → splits len bs →
  let p := ustar + 512 * Z.of_nat (length names) in
  empty_entries (heap_mem h) ustar names → entry_at (heap_mem h) p name len →
  cstring (heap_mem h) filename name → name ∉ names →
  Forall (λ name, (length name ≤ S f)%nat) names → (length name ≤ f)%nat →
  0 < len → alloc_blocks len bs = Some (bs', off) →
  p + 512 + len ≤ HEAP_START h ∨ HEAP_START h + HEAP_SIZE h ≤ p + 512 →
  let body := HEAP_START h + off in
  ∃ h' h1, kalloc h len = Done (body, h1) ∧ heap_ok h1 bs' ∧
    ustar_read (length names + S f) h ustar filename = Done (body + 1, h') ∧
    (∀ i, 0 ≤ i < len → ld8 (heap_mem h') (body + 1 + i) = ld8 (heap_mem h) (p + 512 + i)) ∧
    let footer := body + (len + len mod 2) in
    ld8 (heap_mem h') footer =
      if Z.even len then ld8 (heap_mem h) (p + 512 + len - 1) else ld8 (heap_mem h1) footer.
Proof.
  intros Hok Hsp p He Hent Hfile Hnin Hlens Hlen Hl0 Hsome Hdis body.
  pose proof (kalloc_outcome h bs len Hok ltac:(lia) Hsp) as Hk. rewrite Hsome in Hk.
  destruct Hk as (l1 & sz & l2 & m' & -> & _ & Hoff & Hsz & _ & Hk & Hok' & Hout & _).
  pose proof (block_bounds _ _ _ _ Hok) as (? & ? & _ & _ & _ & Hend). cbn [fst] in Hend.
  rewrite (ustar_read_copies h ustar names name len filename f _ _ He Hent Hfile Hnin Hlens Hlen Hk). fold p body.
  eexists _, _. split; [exact Hk|]. split; [exact Hok'|]. split; [done|].
  cbn [heap_memmove heap_mem set_heap_mem].
  assert (Hcopy : ∀ i, 0 ≤ i < len →
    ld8 (memmove m' (body + 1) (p + 512) (Z.to_nat len)) (body + 1 + i) = ld8 (heap_mem h) (p + 512 + i)).
  { intros i Hi. rewrite ld8_memmove.
    rewrite (proj2 (Z.leb_le _ _)), (proj2 (Z.ltb_lt _ _)) by lia. cbn [andb].
    replace (p + 512 + (body + 1 + i - (body + 1))) with (p + 512 + i) by lia. apply Hout. lia. }
  split; [exact Hcopy|]. cbv zeta. rewrite Zmod_even. destruct (Z.even len).
  - specialize (Hcopy (len - 1) ltac:(lia)).
    replace (body + 1 + (len - 1)) with (body + (len + 0)) in Hcopy by lia. rewrite Hcopy. f_equal. lia.
  - rewrite ld8_memmove. rewrite (proj2 (Z.ltb_ge (body + (len + 1)) _)) by lia. by rewrite andb_false_r.
Qed.

(** The loop moves on by the blocks of the data alone, not those of the
    header and the data: after a file that is not empty it looks for a header
    in the last block of that file's data.  If there is none, everything that
    follows is missed. *)
Theorem ustar_read_misses h ustar name len filename fname f :
  entry_at (heap_mem h) ustar name len → cstring (heap_mem h) filename fname → name ≠ fname →
  (length name ≤ S f)%nat → 0 < len →
  let last_block := ustar + 512 + 512 * ((len - 1) / 512) in
  has_signature (heap_mem h) last_block = false →
  ustar_read (S (S f)) h ustar filename = Done (NULL, h).
Proof.
  intros He Hfile Hne Hlen Hl last_block Hsig.
  rewrite (ustar_read_step (S f) h ustar filename name fname len), decide_False by done.
  assert (Hn : next_entry ustar len = last_block).
  { unfold next_entry, num_blocks, BLOCK_SIZE, last_block. cbn [sizeof_entry ustar_entry_t].
    destruct (Z.eqb_spec (len mod 512) 0).
    - destruct (Z.ltb_spec 0 (len / 512)); dlia.
    - destruct (Z.ltb_spec 0 (len / 512 + 1)); dlia. }
  rewrite Hn. cbn [ustar_read]. by rewrite Hsig.
Qed.

(** [ustar_from_module] returns the start of the first module whose string
    is the name, and [NULL] if there is none. *)
Theorem ustar_from_module_spec fuel m mods ustar_name name strings :
  cstring m ustar_name name → (∀ i s, strings !! i = Some s →
    cstring m (mods + 24 + 144 * Z.of_nat i + 16) s ∧ (length s < fuel)%nat) →
  ld64 m (mods + 16) = Z.of_nat (length strings) →
  ustar_from_module fuel m mods ustar_name =
    Done (match list_find (λ s, s = name) strings with
          | Some (i, _) => ld64 m (mods + 24 + 144 * Z.of_nat i)
          | None => NULL
          end).
Proof.
  intros Hname Hs Hcount. unfold ustar_from_module. rewrite Hcount, Nat2Z.id. clear Hcount.
  set (b := mods + 24) in *. clearbody b. revert b Hs.
  induction strings as [|s strings IH]; intros b Hs; [done|]. cbn [length find_module list_find].
  destruct (Hs 0%nat s eq_refl) as [Hc Hl].
  replace (b + 144 * Z.of_nat 0 + 16) with (b + 16) in Hc by lia.
  destruct (strcmp_cstring fuel m (b + 16) ustar_name s name Hc Hname Hl) as (r & -> & Hr). do_bind.
  destruct (Z.eqb_spec r 0) as [Hr0|Hr0].
  - rewrite decide_True by (by apply Hr). by rewrite Z.mul_0_r, Z.add_0_r.
  - rewrite decide_False by (intros ?; by apply Hr0, Hr). rewrite IH.
    + destruct (list_find (λ s, s = name) strings) as [[i ?]|]; [|done]. cbn. do 2 f_equal. lia.
    + intros i s' Hi. destruct (Hs (S i) s' Hi) as [Hc' Hl']. split; [|done].
      by replace (b + 144 + 144 * Z.of_nat i + 16) with (b + 144 * Z.of_nat (S i) + 16) by lia.
Qed.

(** ** A concrete archive *)

Fixpoint write_bytes (m : mem) (a : Z) (l : list Z) : mem :=
  match l with
  | [] => m
  | c :: l => write_bytes (st8 m a c) (a + 1) l
  end.

Definition write_entry (m : mem) (p : Z) (name : string) (len : Z) : mem :=
  write_bytes (write_bytes (write_bytes m p (chars name)) (field p off_size) (octal 11 len))
    (field p off_signature) (chars "ustar").

(** Two directories and the file [a], 16 bytes; at 100 and 110 the names to
    look for. *)
Definition ex_archive (m : mem) : mem :=
  let m := write_entry m 0x10000 "." 0 in
  let m := write_entry m 0x10200 "d" 0 in
  let m := write_entry m 0x10400 "a" 16 in
  let m := write_bytes m 0x10600 (seqZ 1 16) in
  let m := write_entry m 0x10800 "b" 8 in
  write_bytes (write_bytes m 100 (chars "a")) 110 (chars "b").

Definition ex_fs : heap := let h := ex_heap [(64, false)] in set_heap_mem h (ex_archive (heap_mem h)).

Lemma ex_fs_ok : heap_ok ex_fs [(64, false)].
Proof. apply heap_okb_sound. vm_compute. reflexivity. Qed.

Lemma ex_entry p name len :
  (p, name, len) ∈ [(0x10000, "."%string, 0); (0x10200, "d"%string, 0); (0x10400, "a"%string, 16)] →
  entry_at (heap_mem ex_fs) p (chars name) len.
Proof.
  rewrite !elem_of_cons, elem_of_nil.
  intros [[= -> -> ->]|[[= -> -> ->]|[[= -> -> ->]|[]]]];
    (split; vm_compute; try reflexivity; repeat split; discriminate).
Qed.

Lemma oct2bin_roundtrip_witness :
  oct2bin (heap_mem ex_fs) (field 0x10400 off_size) 11 0 = Done 16.
Proof. apply (oct2bin_roundtrip _ _ 16); [lia|]. vm_compute. repeat split. Defined.

Lemma ustar_read_finds_witness : ∃ h',
  ustar_read 5 ex_fs 0x10000 100 = Done (4101, h') ∧ ld8 (heap_mem h') 4101 = 1 ∧
  ld8 (heap_mem h') 4116 = 16.
Proof.
  destruct (ustar_read_finds ex_fs [(64, false)] 0x10000 [chars "."; chars "d"] (chars "a") 16 100 2
    [(16, true); (40, false)] 4 ex_fs_ok) as (h' & h1 & _ & _ & H1 & H2 & H3).
  - vm_compute. right. discriminate.
  - cbn [empty_entries]. split_and!; [apply (ex_entry _ "." _)|apply (ex_entry _ "d" _)|done];
      rewrite !elem_of_cons; auto.
  - apply (ex_entry _ "a" _). rewrite !elem_of_cons. auto.
  - vm_compute. repeat split. discriminate.
  - rewrite !elem_of_cons, elem_of_nil. intros [H|[H|[]]]; vm_compute in H; discriminate H.
  - repeat constructor.
  - cbn. lia.
  - lia.
  - reflexivity.
  - right. vm_compute. discriminate.
  - exists h'. split; [exact H1|]. split.
    + etrans; [exact (H2 0 ltac:(lia))|]. vm_compute. reflexivity.
    + etrans; [exact H3|]. vm_compute. reflexivity.
Defined.

(** [b] follows [a], and is not found. *)
Lemma ustar_read_misses_witness : ustar_read 3 ex_fs 0x10400 110 = Done (NULL, ex_fs).
Proof.
  apply (ustar_read_misses ex_fs 0x10400 (chars "a") 16 110 (chars "b") 1).
  - apply (ex_entry _ "a" _). rewrite !elem_of_cons. auto.
  - vm_compute. repeat split. discriminate.
  - discriminate.
  - cbn. lia.
  - lia.
  - vm_compute. reflexivity.
Defined.

Lemma ustar_from_module_spec_witness :
  let m := write_bytes (write_bytes (st64 (st64 ∅ 16 2) 168 0x5000) 40 (chars "x")) 184 (chars "initrd") in
  let m := write_bytes m 1000 (chars "initrd") in
  ustar_from_module 10 m 0 1000 = Done 0x5000.
Proof.
  intros m0 m. apply (ustar_from_module_spec 10 m 0 1000 (chars "initrd") [chars "x"; chars "initrd"]).
  - vm_compute. repeat split; discriminate.
  - intros [|[|i]] s; [| |discriminate]; intros [= <-]; (split; [vm_compute; repeat split; discriminate|cbn; lia]).
  - vm_compute. reflexivity.
Defined.
