(* ===== verification/Vfs.v ===== *)
(** * The file system layer

    [src/src/kernel/vfs/vfs.c]: calls through the function pointers of a node.
    The functions a driver installs are not part of the repository: [call_rw]
    and its companions run the function at an address, on whatever state the
    drivers share. *)
From stdpp Require Import base list.
From S2P Require Import Prelude.

Inductive fs_filetype_t :=
| FS_REGULAR | FS_HARDLINK | FS_SYMLINK | FS_CHAR_DEV | FS_BLOCK_DEV | FS_DIRECTORY | FS_PIPE.

Definition fs_filetype_code (t : fs_filetype_t) : Z :=
  match t with
  | FS_REGULAR => 0 | FS_HARDLINK => 1 | FS_SYMLINK => 2 | FS_CHAR_DEV => 3 | FS_BLOCK_DEV => 4
  | FS_DIRECTORY => 5 | FS_PIPE => 6
  end.

(** A function pointer is an address; 0 is [NULL]. *)
Record fs_node_t := FsNode {
  fs_name : list Z;
  fs_mask : Z; fs_uid : Z; fs_gid : Z;
  fs_flags : Z;
  fs_inode : Z; fs_length : Z; fs_impl : Z;
  fs_read : Z; fs_write : Z; fs_open : Z; fs_close : Z; fs_readdir : Z; fs_finddir : Z;
  fs_ptr : Z;
}.

(** What the functions behind the pointers do to the drivers' state. *)
Class FsDriver (S : Type) := {
  call_rw : Z → fs_node_t → Z → Z → Z → S → Z * S;
  call_node : Z → fs_node_t → S → S;
  call_readdir : Z → fs_node_t → Z → S → Z * S;
  call_finddir : Z → fs_node_t → Z → S → Z * S;
}.

Section operations.
Context {S : Type} `{FsDriver S}.

Definition read_fs (node : fs_node_t) (offset size buffer : Z) (s : S) : Z * S :=
  if negb (fs_read node =? 0) then call_rw (fs_read node) node offset size buffer s else (0, s).

Definition write_fs (node : fs_node_t) (offset size buffer : Z) (s : S) : Z * S :=
  if negb (fs_write node =? 0) then call_rw (fs_write node) node offset size buffer s else (0, s).

(** [read] and [write] are ignored. *)
Definition open_fs (node : fs_node_t) (read write : Z) (s : S) : S :=
  if negb (fs_open node =? 0) then call_node (fs_open node) node s else s.

Definition close_fs (node : fs_node_t) (s : S) : S :=
  if negb (fs_close node =? 0) then call_node (fs_close node) node s else s.

Definition is_directory (node : fs_node_t) : bool :=
  Z.land (fs_flags node) 7 =? fs_filetype_code FS_DIRECTORY.

Definition readdir_fs (node : fs_node_t) (index : Z) (s : S) : Z * S :=
  if is_directory node && negb (fs_readdir node =? 0)
  then call_readdir (fs_readdir node) node index s else (0, s).

Definition finddir_fs (node : fs_node_t) (name : Z) (s : S) : Z * S :=
  if is_directory node && negb (fs_finddir node =? 0)
  then call_finddir (fs_finddir node) node name s else (0, s).

End operations.

(** A driver that records the pointers it was called through. *)
#[export] Instance call_log : FsDriver (list Z) := {
  call_rw f _ _ _ _ s := (1, f :: s);
  call_node f _ s := f :: s;
  call_readdir f _ _ s := (1, f :: s);
  call_finddir f _ _ s := (1, f :: s);
}.

(** No operation calls through a [NULL] pointer, and a directory operation
    on anything but a directory calls nothing: with the driver that records
    the pointers it was called through, the record only grows by the node's
    own non-null pointer of that operation. *)
Theorem vfs_calls node a b c s :
  let called f s' := s' = s ∨ (s' = f :: s ∧ f ≠ 0) in
  called (fs_read node) (snd (read_fs node a b c s)) ∧
  called (fs_write node) (snd (write_fs node a b c s)) ∧
  called (fs_open node) (open_fs node a b s) ∧
  called (fs_close node) (close_fs node s) ∧
  called (fs_readdir node) (snd (readdir_fs node a s)) ∧
  called (fs_finddir node) (snd (finddir_fs node a s)) ∧
  (fs_flags node mod 8 ≠ 5 → readdir_fs node a s = (0, s) ∧ finddir_fs node a s = (0, s)).
Proof.
  assert (Hdir : is_directory node = (fs_flags node mod 8 =? 5)).
  { unfold is_directory. change 7 with (Z.ones 3). by rewrite Z.land_ones by lia. }
  intros called. unfold called, read_fs, write_fs, open_fs, close_fs, readdir_fs, finddir_fs.
  rewrite Hdir.
  split_and!.
  7: { intros Hne. by rewrite (proj2 (Z.eqb_neq _ _) Hne). }
  all: match goal with |- context [negb (?f =? 0)] => destruct (Z.eqb_spec f 0) end;
    cbn [negb andb]; rewrite ?andb_false_r, ?andb_true_r; repeat case_match; cbn; auto.
Qed.
