(* ===== verification/Acpi.v ===== *)
(** * ACPI tables

    [src/src/kernel/acpi/acpi.c]: the root pointer, the root table and the
    lookup of a table by its signature, all read from memory. *)
From stdpp Require Import base list gmap.
From S2P Require Import Prelude Memory.

(** ** Layouts *)

Definition RSDP_V1_DESC_SIZE : Z := 20.
Definition RSDP_V2_DESC_SIZE : Z := 36.
Definition ACPI_VERSION_1 : Z := 0.
Definition ACPI_VERSION_2 : Z := 2.

(** The offsets of [RsdpDescriptor] and [SdtHeader]. *)
Record rsdp_layout := {
  rsdp_signature : Z; rsdp_checksum : Z; rsdp_oemid : Z; rsdp_revision : Z; rsdp_rsdt_addr : Z;
  rsdp_length : Z; rsdp_xsdt_addr : Z; rsdp_extended_checksum : Z; rsdp_reserved : Z;
}.
Definition RsdpDescriptor : rsdp_layout := {|
  rsdp_signature := 0; rsdp_checksum := 8; rsdp_oemid := 9; rsdp_revision := 15;
  rsdp_rsdt_addr := 16; rsdp_length := 20; rsdp_xsdt_addr := 24; rsdp_extended_checksum := 32;
  rsdp_reserved := 33;
|}.

Record sdt_layout := {
  sdt_signature : Z; sdt_length : Z; sdt_revision : Z; sdt_checksum : Z; sdt_oemid : Z;
  sdt_oem_table : Z; sdt_oem_revision : Z; sdt_creator_id : Z; sdt_creator_revision : Z;
  sizeof_SdtHeader : Z;
}.
Definition SdtHeader : sdt_layout := {|
  sdt_signature := 0; sdt_length := 4; sdt_revision := 8; sdt_checksum := 9; sdt_oemid := 10;
  sdt_oem_table := 16; sdt_oem_revision := 24; sdt_creator_id := 28; sdt_creator_revision := 32;
  sizeof_SdtHeader := 36;
|}.

(** ** State *)

(** [RSDP_TABLE] is a copy, the bytes of the structure; of the copied header
    of the root table only the length is read. *)
Record acpi := Acpi {
  RSDP_TABLE : list Z;
  head_length : Z;
  head_next : Z;
  uses_xsdt : bool;
}.

(** Little-endian field of [n] bytes of a copied structure. *)
Fixpoint le_field (bytes : list Z) (off : nat) (n : nat) : Z :=
  match n with
  | O => 0
  | S n => default 0 (bytes !! off) + 2 ^ 8 * le_field bytes (S off) n
  end.

(** [n] bytes of memory. *)
Fixpoint copy_bytes (m : mem) (a : Z) (n : nat) : list Z :=
  match n with
  | O => []
  | S n => ld8 m a :: copy_bytes m (a + 1) n
  end.

Definition rsdp_field (s : acpi) (off : rsdp_layout → Z) (n : nat) : Z :=
  le_field (RSDP_TABLE s) (Z.to_nat (off RsdpDescriptor)) n.

(** ** Checksums *)

(** [for (...) checksum += bytes[i];], overflow of the [int] undefined. *)
Fixpoint sum_bytes (m : mem) (a : Z) (n : nat) (checksum : Z) : outcome Z :=
  match n with
  | O => Done checksum
  | S n =>
      let checksum := checksum + ld8 m a in
      _ ← check (checksum <=? INT_MAX);
      sum_bytes m (a + 1) n checksum
  end.

Definition ValidateSdtChecksum (m : mem) (sdt len : Z) : outcome bool :=
  checksum ← sum_bytes m sdt (Z.to_nat len) 0; Done (Z.land checksum 0xff =? 0).

(** The root pointer's bytes are few enough for [int]. *)
Definition sum_list_Z (l : list Z) : Z := fold_right Z.add 0 l.

Definition ValidateRsdpChecksum (s : acpi) : bool :=
  let bytes := RSDP_TABLE s in
  let checksum := sum_list_Z (take (Z.to_nat RSDP_V1_DESC_SIZE) bytes) in
  let v1_valid := Z.land checksum 0xff =? 0 in
  if rsdp_field s rsdp_revision 1 =? ACPI_VERSION_1 then v1_valid
  else
    let checksum :=
      checksum + sum_list_Z (take (Z.to_nat (RSDP_V2_DESC_SIZE - RSDP_V1_DESC_SIZE))
                               (drop (Z.to_nat RSDP_V1_DESC_SIZE) bytes)) in
    let v2_valid := Z.land checksum 0xff =? 0 in
    v1_valid && v2_valid.

(** ** Operations *)

Definition InitRsdp (m : mem) (s : acpi) (rsdp : Z) : bool * acpi :=
  let s := Acpi (copy_bytes m rsdp (Z.to_nat RSDP_V2_DESC_SIZE)) (head_length s) (head_next s)
             (uses_xsdt s) in
  (ValidateRsdpChecksum s, s).

(** The length of a table, converted to the [int] the checksum takes. *)
Definition table_length (m : mem) (sdt : Z) : Z := ld32 m (sdt + sdt_length SdtHeader).

Definition InitSdt (m : mem) (s : acpi) : outcome (bool * acpi) :=
  let xsdt := ACPI_VERSION_2 <=? rsdp_field s rsdp_revision 1 in
  let tab := if xsdt then rsdp_field s rsdp_xsdt_addr 8 else rsdp_field s rsdp_rsdt_addr 4 in
  validated ← ValidateSdtChecksum m tab (i32 (table_length m tab));
  Done (validated,
        Acpi (RSDP_TABLE s) (table_length m tab) (tab + sizeof_SdtHeader SdtHeader) xsdt).

(** The result of [InitSdt] is ignored. *)
Definition InitAcpi (m : mem) (s : acpi) (rsdp : Z) : outcome (Z * acpi) :=
  let '(ok, s) := InitRsdp m s rsdp in
  if negb ok then Done (-1, s)
  else '(_, s) ← InitSdt m s; Done (0, s).

(** [strncmp(sdt->signature, table_id, 4) == 0], the identifier a string in
    memory. *)
Definition signature_matches (m : mem) (sdt table_id : Z) : bool :=
  strncmp m (sdt + sdt_signature SdtHeader) table_id 4 =? 0.

Definition entry_size (s : acpi) : Z := if uses_xsdt s then 8 else 4.

Definition sdt_entry (m : mem) (s : acpi) (i : Z) : Z :=
  if uses_xsdt s then ld64 m (head_next s + 8 * i) else ld32 m (head_next s + 4 * i).

(** [num_entries], a [size_t] difference converted to [int]. *)
Definition num_sdt_entries (s : acpi) : Z :=
  i32 (u64 (head_length s - sizeof_SdtHeader SdtHeader) / entry_size s).

(** [k] entries from index [i] on are left. *)
Fixpoint find_table_loop (k : nat) (m : mem) (s : acpi) (table_id i : Z) : outcome Z :=
  match k with
  | O => Done 0
  | S k =>
      let sdt := sdt_entry m s i in
      let signatures_match := signature_matches m sdt table_id in
      valid_checksum ← ValidateSdtChecksum m sdt (i32 (table_length m sdt));
      if signatures_match && valid_checksum then Done sdt
      else find_table_loop k m s table_id (i + 1)
  end.

Definition FindTable (m : mem) (s : acpi) (table_id : Z) : outcome Z :=
  find_table_loop (Z.to_nat (num_sdt_entries s)) m s table_id 0.

(** ** Specification *)

(** The sum of the [n] bytes at [a]. *)
Definition byte_sum (m : mem) (a : Z) (n : nat) : Z := sum_list_Z (copy_bytes m a n).

Lemma byte_sum_range m a n : 0 ≤ byte_sum m a n ≤ 255 * Z.of_nat n.
Proof.
  unfold byte_sum. revert a. induction n as [|n IH]; intros a; cbn [copy_bytes sum_list_Z fold_right]; [lia|].
  specialize (IH (a + 1)). pose proof (ld8_range m a). unfold sum_list_Z in IH. lia.
Qed.

Lemma sum_bytes_spec m n : ∀ a acc,
  0 ≤ acc → acc + byte_sum m a n ≤ INT_MAX → sum_bytes m a n acc = Done (acc + byte_sum m a n).
Proof.
  induction n as [|n IH]; intros a acc Hacc Hle; cbn [sum_bytes].
  { unfold byte_sum. cbn. f_equal. lia. }
  change (byte_sum m a (S n)) with (ld8 m a + byte_sum m (a + 1) n) in *.
  pose proof (byte_sum_range m (a + 1) n). pose proof (ld8_range m a).
  rewrite check_true by (apply Z.leb_le; lia). do_bind.
  rewrite IH by lia. f_equal. lia.
Qed.

Lemma land_ff z : Z.land z 0xff = z mod 256.
Proof. change 0xff with (Z.ones 8). by rewrite Z.land_ones by lia. Qed.

(** What the root pointer at [rsdp] says: its revision, whether its checksums
    are right, and where the root table is. *)
Definition rsdp_rev (m : mem) (rsdp : Z) : Z := ld8 m (rsdp + 15).
Definition rsdp_valid (m : mem) (rsdp : Z) : bool :=
  (byte_sum m rsdp 20 mod 256 =? 0) &&
  ((rsdp_rev m rsdp =? 0) || (byte_sum m rsdp 36 mod 256 =? 0)).
Definition root_table (m : mem) (rsdp : Z) : Z :=
  if 2 <=? rsdp_rev m rsdp then ld64 m (rsdp + 24) else ld32 m (rsdp + 16).

(** A table whose bytes sum to zero modulo 256. *)
Definition checksum_ok (m : mem) (sdt : Z) : bool :=
  byte_sum m sdt (Z.to_nat (table_length m sdt)) mod 256 =? 0.

Lemma ValidateSdtChecksum_spec m sdt len :
  len < 2 ^ 23 → ValidateSdtChecksum m sdt len = Done (byte_sum m sdt (Z.to_nat len) mod 256 =? 0).
Proof.
  intros Hlen. unfold ValidateSdtChecksum. pose proof (byte_sum_range m sdt (Z.to_nat len)).
  rewrite sum_bytes_spec by (unfold INT_MAX; lia). do_bind. by rewrite Z.add_0_l, land_ff.
Qed.

(** The tables the root table lists. *)
Definition sdt_entries (m : mem) (s : acpi) : list Z :=
  map (sdt_entry m s) (seqZ 0 (num_sdt_entries s)).

Lemma find_table_loop_spec m s table_id k : ∀ i,
  Forall (λ sdt, table_length m sdt < 2 ^ 23) (map (sdt_entry m s) (seqZ i (Z.of_nat k))) →
  find_table_loop k m s table_id i =
    Done (default 0 (List.find (λ sdt, signature_matches m sdt table_id && checksum_ok m sdt)
                       (map (sdt_entry m s) (seqZ i (Z.of_nat k))))).
Proof.
  induction k as [|k IH]; intros i Hlen; [done|]. rewrite Nat2Z.inj_succ in *.
  rewrite seqZ_cons in Hlen |- * by lia. cbn [map find_table_loop List.find] in *.
  apply Forall_cons in Hlen as [Hl Hlen]. rewrite Z.pred_succ in *.
  pose proof (ld32_range m (sdt_entry m s i + sdt_length SdtHeader)).
  rewrite i32_small by (unfold table_length in *; lia).
  rewrite ValidateSdtChecksum_spec by done. do_bind. fold (checksum_ok m (sdt_entry m s i)).
  destruct (signature_matches m (sdt_entry m s i) table_id && checksum_ok m (sdt_entry m s i)); [done|].
  apply (IH (i + 1)). by rewrite Z.add_1_r.
Qed.

Lemma copy_bytes_lookup m n : ∀ a k, (k < n)%nat →
  copy_bytes m a n !! k = Some (ld8 m (a + Z.of_nat k)).
Proof.
  induction n as [|n IH]; intros a k Hk; [lia|]. destruct k as [|k]; cbn [copy_bytes lookup list_lookup].
  - by rewrite Z.add_0_r.
  - change (copy_bytes m (a + 1) n !! k = Some (ld8 m (a + Z.of_nat (S k)))). rewrite IH by lia.
    do 2 f_equal. lia.
Qed.

(** A field of a copy is what memory holds at that offset. *)
Lemma le_field_copy m a len n : ∀ off,
  (off + n ≤ len)%nat → le_field (copy_bytes m a len) off n = ld n m (a + Z.of_nat off).
Proof.
  induction n as [|n IH]; intros off Hoff; [done|]. cbn [le_field ld].
  rewrite copy_bytes_lookup, IH by lia. cbn [default]. unfold id.
  change (ld (S n) m (a + Z.of_nat off))
    with (ld8 m (a + Z.of_nat off) + 2 ^ 8 * ld n m (a + Z.of_nat off + 1)).
  by replace (a + Z.of_nat off + 1) with (a + Z.of_nat (S off)) by lia.
Qed.

Lemma copy_bytes_take m n : ∀ a k, (k ≤ n)%nat → take k (copy_bytes m a n) = copy_bytes m a k.
Proof.
  induction n as [|n IH]; intros a [|k] Hk; [done|lia|done|]. cbn [copy_bytes take]. by rewrite IH by lia.
Qed.

Lemma sum_take_drop k l : sum_list_Z (take k l) + sum_list_Z (drop k l) = sum_list_Z l.
Proof.
  unfold sum_list_Z. revert l. induction k as [|k IH]; intros [|x l]; cbn [take drop fold_right]; try lia.
  specialize (IH l). lia.
Qed.

Lemma ValidateRsdpChecksum_copy m s rsdp :
  RSDP_TABLE s = copy_bytes m rsdp 36 →
  ValidateRsdpChecksum s =
    rsdp_valid m rsdp.
Proof.
  intros Hb. unfold ValidateRsdpChecksum, rsdp_field. rewrite Hb.
  change (Z.to_nat (rsdp_revision RsdpDescriptor)) with 15%nat. rewrite le_field_copy by lia.
  change (Z.to_nat RSDP_V1_DESC_SIZE) with 20%nat.
  change (Z.to_nat (RSDP_V2_DESC_SIZE - RSDP_V1_DESC_SIZE)) with 16%nat.
  rewrite (take_ge (drop 20 _)) by (rewrite length_drop; assert (length (copy_bytes m rsdp 36) = 36%nat) by done; lia).
  rewrite sum_take_drop, copy_bytes_take by lia. rewrite !land_ff. unfold ACPI_VERSION_1.
  replace (ld 1 m (rsdp + Z.of_nat 15)) with (ld8 m (rsdp + 15)) by (change (Z.of_nat 15) with 15; unfold ld; lia).
  fold (byte_sum m rsdp 20). fold (byte_sum m rsdp 36). unfold rsdp_valid, rsdp_rev.
  destruct (ld8 m (rsdp + 15) =? 0); cbn [orb]; [by rewrite andb_true_r|done].
Qed.

(** ** Properties *)

(** [FindTable] returns the first listed table that has the signature and
    whose bytes sum to zero modulo 256, and [NULL] if there is none; the loop
    ends and no checksum overflows, for tables below 8 MiB. *)
Theorem FindTable_spec m s table_id :
  Forall (λ sdt, table_length m sdt < 2 ^ 23) (sdt_entries m s) →
  FindTable m s table_id =
    Done (default 0 (List.find (λ sdt, signature_matches m sdt table_id && checksum_ok m sdt)
                       (sdt_entries m s))).
Proof.
  intros Hlen. unfold FindTable, sdt_entries in *.
  destruct (Z.leb_spec 0 (num_sdt_entries s)) as [Hn|Hn].
  - rewrite <-(Z2Nat.id (num_sdt_entries s)) in Hlen |- * by lia.
    rewrite Nat2Z.id. by apply find_table_loop_spec.
  - replace (Z.to_nat (num_sdt_entries s)) with 0%nat by lia.
    unfold seqZ. replace (Z.to_nat (num_sdt_entries s)) with 0%nat by lia. done.
Qed.

(** [InitAcpi] fails exactly when the root pointer's checksum is wrong: 20
    bytes of it for version 1, and both 20 and 36 bytes for later versions.
    The root table's own checksum does not matter: with a root table whose
    bytes do not sum to zero it reports success all the same. *)
Theorem InitAcpi_spec m s rsdp :
  table_length m (root_table m rsdp) < 2 ^ 23 →
  ∃ s', InitAcpi m s rsdp = Done (if rsdp_valid m rsdp then 0 else -1, s') ∧
    (rsdp_valid m rsdp = true →
       head_next s' = root_table m rsdp + 36 ∧
       head_length s' = table_length m (root_table m rsdp) ∧
       uses_xsdt s' = (2 <=? rsdp_rev m rsdp)).
Proof.
  unfold rsdp_valid, root_table. set (rev := rsdp_rev m rsdp).
  set (root := if 2 <=? rev then _ else _). set (ok := _ && _).
  intros Hlen. unfold InitAcpi, InitRsdp.
  set (s1 := Acpi (copy_bytes m rsdp (Z.to_nat RSDP_V2_DESC_SIZE)) (head_length s) (head_next s) (uses_xsdt s)).
  assert (Hf : ∀ off n, (off + n ≤ 36)%nat → le_field (RSDP_TABLE s1) off n = ld n m (rsdp + Z.of_nat off)).
  { intros off n Hoff. by apply le_field_copy. }
  rewrite (ValidateRsdpChecksum_copy m s1 rsdp) by done. unfold rsdp_valid. fold rev ok.
  destruct ok; cbn [negb]; [|by exists s1].
  unfold InitSdt, rsdp_field, ACPI_VERSION_2.
  change (Z.to_nat (rsdp_revision RsdpDescriptor)) with 15%nat.
  change (Z.to_nat (rsdp_xsdt_addr RsdpDescriptor)) with 24%nat.
  change (Z.to_nat (rsdp_rsdt_addr RsdpDescriptor)) with 16%nat.
  rewrite !Hf by lia.
  replace (ld 1 m (rsdp + Z.of_nat 15)) with rev by (unfold rev, rsdp_rev; change (Z.of_nat 15) with 15; unfold ld; lia).
  change (if 2 <=? rev then _ else _) with root.
  pose proof (ld32_range m (root + sdt_length SdtHeader)).
  rewrite i32_small by (unfold table_length in *; lia).
  rewrite ValidateSdtChecksum_spec by done. do_bind. eexists. split; [done|]. intros _. done.
Qed.

(** ** Tables outside the memory that changes *)

(** [n] bytes at [a] of the addresses [A]. *)
Definition spans (A : Z → Prop) (a n : Z) : Prop := ∀ b, a ≤ b < a + n → A b.

Lemma spans_sub (A : Z → Prop) a n b k : spans A a n → a ≤ b → b + k ≤ a + n → spans A b k.
Proof. intros H Ha Hb c Hc. apply H. lia. Qed.

(** The state in which the root table of [rsdp] has been found, and the tables
    it lists. *)
Definition found_root (m : mem) (rsdp : Z) : acpi :=
  Acpi [] (table_length m (root_table m rsdp)) (root_table m rsdp + 36) (2 <=? rsdp_rev m rsdp).
Definition listed_tables (m : mem) (rsdp : Z) : list Z := sdt_entries m (found_root m rsdp).

(** A whole table at [t]. *)
Definition table_at (A : Z → Prop) (m : mem) (t : Z) : Prop :=
  36 ≤ table_length m t < 2 ^ 23 ∧ spans A t (table_length m t).

Definition is_table_named (m : mem) (table_id t : Z) : bool :=
  signature_matches m t table_id && checksum_ok m t.

(** A right root pointer to whole tables, [madt] the first of them with the
    identifier at [table_id]. *)
Record tables_ok (A : Z → Prop) (m : mem) (rsdp table_id madt : Z) : Prop := {
  to_rsdp : spans A rsdp 36;
  to_valid : rsdp_valid m rsdp = true;
  to_root : table_at A m (root_table m rsdp);
  to_listed : Forall (table_at A m) (listed_tables m rsdp);
  to_name : spans A table_id 4;
  to_madt : List.find (is_table_named m table_id) (listed_tables m rsdp) = Some madt;
}.

(** Initialization and the look-up find the table. *)
Lemma InitAcpi_FindTable A m s rsdp table_id madt :
  tables_ok A m rsdp table_id madt →
  ∃ s', InitAcpi m s rsdp = Done (0, s') ∧ FindTable m s' table_id = Done madt.
Proof.
  intros Ht. destruct (InitAcpi_spec m s rsdp) as (s' & Hi & Hs); [apply (to_root _ _ _ _ _ Ht)|].
  rewrite (to_valid _ _ _ _ _ Ht) in Hi, Hs. destruct (Hs eq_refl) as (Hn & Hl & Hx).
  assert (Hsd : sdt_entries m s' = listed_tables m rsdp).
  { unfold listed_tables, sdt_entries, num_sdt_entries, sdt_entry, entry_size.
    by rewrite Hn, Hl, Hx. }
  exists s'. split; [done|]. rewrite FindTable_spec.
  - rewrite Hsd. fold (is_table_named m table_id). by rewrite (to_madt _ _ _ _ _ Ht).
  - rewrite Hsd. eapply Forall_impl; [apply Ht|]. by intros t [[_ ?] _].
Qed.

(** The table that is found is one of those listed. *)
Lemma found_table_at A m rsdp table_id madt : tables_ok A m rsdp table_id madt → table_at A m madt.
Proof.
  intros Ht. pose proof (to_listed _ _ _ _ _ Ht) as Hl. rewrite Forall_forall in Hl. apply Hl.
  apply list_elem_of_In. by apply (find_some _ _ (to_madt _ _ _ _ _ Ht)).
Qed.

(** Two memories that agree on [A] hold the same tables there. *)
Section agreement.
Context (A : Z → Prop) (m m' : mem) (Hagree : ∀ a, A a → ld8 m' a = ld8 m a).

Lemma ld_agree n a : spans A a (Z.of_nat n) → ld n m' a = ld n m a.
Proof. intros Ha. apply ld_ext. intros b Hb. by apply Hagree, Ha. Qed.

Lemma byte_sum_agree n : ∀ a, spans A a (Z.of_nat n) → byte_sum m' a n = byte_sum m a n.
Proof.
  unfold byte_sum. induction n as [|n IH]; intros a Ha; [done|].
  cbn [copy_bytes sum_list_Z fold_right] in *. unfold sum_list_Z in IH.
  rewrite (Hagree a), IH; [done|eapply spans_sub; [exact Ha|lia..]|apply Ha; lia].
Qed.

Lemma strncmp_agree n : ∀ s1 s2,
  spans A s1 (Z.of_nat n) → spans A s2 (Z.of_nat n) → strncmp m' s1 s2 n = strncmp m s1 s2 n.
Proof.
  induction n as [|n IH]; intros s1 s2 H1 H2; [done|]. cbn [strncmp].
  rewrite (Hagree s1), (Hagree s2) by (first [apply H1; lia|apply H2; lia]).
  rewrite IH; [done|eapply spans_sub; [exact H1|lia..]|eapply spans_sub; [exact H2|lia..]].
Qed.

Lemma rsdp_rev_agree rsdp : spans A rsdp 36 → rsdp_rev m' rsdp = rsdp_rev m rsdp.
Proof. intros Hr. apply Hagree, Hr. lia. Qed.

Lemma rsdp_agree rsdp :
  spans A rsdp 36 →
  rsdp_valid m' rsdp = rsdp_valid m rsdp ∧ root_table m' rsdp = root_table m rsdp.
Proof.
  intros Hr. unfold rsdp_valid, root_table. rewrite rsdp_rev_agree by done.
  rewrite !byte_sum_agree by (eapply spans_sub; [exact Hr|lia..]).
  rewrite !ld_agree by (eapply spans_sub; [exact Hr|lia..]). done.
Qed.

Lemma table_length_agree t : table_at A m t → table_length m' t = table_length m t.
Proof.
  intros [Hl Ht]. apply ld_agree. eapply spans_sub; [exact Ht|cbn; lia..].
Qed.

Lemma table_at_agree t : table_at A m t → table_at A m' t.
Proof. intros Ht. unfold table_at. by rewrite table_length_agree. Qed.

Lemma is_table_named_agree table_id t :
  table_at A m t → spans A table_id 4 →
  is_table_named m' table_id t = is_table_named m table_id t.
Proof.
  intros Ht Hn. pose proof Ht as [Hl Hs]. unfold is_table_named, signature_matches, checksum_ok.
  rewrite table_length_agree by done. rewrite byte_sum_agree by (eapply spans_sub; [exact Hs|lia..]).
  rewrite strncmp_agree; [done|eapply spans_sub; [exact Hs|cbn; lia..]|done].
Qed.

(** The entries of the root table lie in it. *)
Lemma listed_tables_agree rsdp :
  spans A rsdp 36 → table_at A m (root_table m rsdp) → listed_tables m' rsdp = listed_tables m rsdp.
Proof.
  intros Hr Ht. pose proof Ht as [Hl Hs]. unfold listed_tables.
  assert (found_root m' rsdp = found_root m rsdp) as ->.
  { unfold found_root. destruct (rsdp_agree rsdp Hr) as [_ ->].
    by rewrite table_length_agree, rsdp_rev_agree by done. }
  unfold sdt_entries. apply map_ext_in. intros i [Hi Hn]%list_elem_of_In%elem_of_seqZ.
  unfold num_sdt_entries, sdt_entry, entry_size in *. cbn [found_root uses_xsdt head_length head_next sizeof_SdtHeader SdtHeader] in *.
  set (len := table_length m (root_table m rsdp)) in *. rewrite (u64_small (len - 36)) in Hn by lia.
  destruct (2 <=? rsdp_rev m rsdp); (rewrite i32_small in Hn by dlia);
    apply ld_agree; (eapply spans_sub; [exact Hs|dlia..]).
Qed.

Lemma tables_ok_agree rsdp table_id madt :
  tables_ok A m rsdp table_id madt → tables_ok A m' rsdp table_id madt.
Proof.
  intros [Hr Hv Ht Hl Hn Hm]. destruct (rsdp_agree rsdp Hr) as [Hv' Hroot].
  split; rewrite ?Hv', ?Hroot, ?listed_tables_agree by done; try done.
  - by apply table_at_agree.
  - eapply Forall_impl; [exact Hl|]. apply table_at_agree.
  - rewrite <-Hm. apply find_ext_in. intros t Hin. apply is_table_named_agree; [|done].
    rewrite Forall_forall in Hl. by apply Hl.
Qed.

End agreement.

(** ** Concrete tables *)

(** A version 2 root pointer at 0x100, the XSDT at 0x200 with two tables, [A]
    at 0x300 with a wrong checksum and [A] at 0x340 with a right one. *)
Definition ex_acpi_mem : mem :=
  let m := st8 ∅ 0x10f 2 in
  let m := st64 m (0x100 + 24) 0x200 in
  let m := st8 (st8 m (0x100 + 8) (256 - 2)) (0x100 + 32) (256 - 2) in
  let m := st8 m (0x200 + 4) 52 in
  let m := st64 (st64 m (0x200 + 36) 0x300) (0x200 + 44) 0x340 in
  let m := st8 (st8 m 0x300 65) 0x304 36 in
  let m := st8 (st8 (st8 m 0x340 65) 0x344 36) 0x349 (256 - 65 - 36) in
  st8 m 0x400 65.

Definition ex_acpi : acpi := Acpi [] 52 (0x200 + 36) true.

Lemma FindTable_spec_witness : FindTable ex_acpi_mem ex_acpi 0x400 = Done 0x340.
Proof.
  rewrite (FindTable_spec ex_acpi_mem ex_acpi 0x400); [vm_compute; reflexivity|].
  change (sdt_entries ex_acpi_mem ex_acpi) with [sdt_entry ex_acpi_mem ex_acpi 0; sdt_entry ex_acpi_mem ex_acpi 1].
  repeat constructor.
Defined.

(** The XSDT's own checksum is wrong. *)
Lemma InitAcpi_spec_witness : ∃ s',
  InitAcpi ex_acpi_mem (Acpi [] 0 0 false) 0x100 = Done (0, s') ∧ head_next s' = 0x200 + 36 ∧
  checksum_ok ex_acpi_mem 0x200 = false.
Proof.
  destruct (InitAcpi_spec ex_acpi_mem (Acpi [] 0 0 false) 0x100) as (s' & H1 & H2).
  - vm_compute. reflexivity.
  - exists s'. split; [exact H1|]. split; [|vm_compute; reflexivity].
    exact (proj1 (H2 ltac:(vm_compute; reflexivity))).
Defined.
