(* ===== verification/Devices.v ===== *)
(** * Device registers

    What the drivers rely on: 32-bit memory-mapped registers, and the I/O
    ports behind [inportb] and [outportb] of [src/src/kernel/interrupts/io.c].
    The devices are not part of the repository, so their state [D] and its
    reactions are parameters. *)
From stdpp Require Import base list.
From S2P Require Import Prelude.

(** Reading may change a device: it returns the device it leaves. *)
Class Mmio (D : Type) := {
  mmio_read : Z → D → Z * D;
  mmio_write : Z → Z → D → D;
}.

Class Ports (D : Type) := {
  inportb : Z → D → Z * D;
  outportb : Z → Z → D → D;
}.

(** [io_wait] writes to port 0x80. *)
Definition io_wait `{Ports D} (d : D) : D := outportb 0x80 0 d.
