(* ===== verification/Madt.v ===== *)
(** * The multiple APIC description table: what is kept of it

    The data and the look-ups of [src/src/kernel/acpi/madt.c].  The records are
    copied into one array per type; [smp_info_t] holds the arrays' addresses
    and counts.  A pointer to a record is its address, 0 is [NULL]. *)
From stdpp Require Import base list gmap.
From S2P Require Import Prelude Memory.

(** ** Layouts *)

Definition MADT_RECORDS_OFFSET : Z := 0x2C.

Inductive record_type :=
| PROCESSOR_LOCAL_APIC | IO_APIC | INTERRUPT_SOURCE_OVERRIDE | NON_MASKABLE_INTERRUPT_SOURCE
| LOCAL_NON_MASKABLE_INTERRUPT | LOCAL_APIC_ADDRESS_OVERRIDE | PROCESSOR_LOCAL_X2_APIC.

Definition type_code (t : record_type) : Z :=
  match t with
  | PROCESSOR_LOCAL_APIC => 0 | IO_APIC => 1 | INTERRUPT_SOURCE_OVERRIDE => 2
  | NON_MASKABLE_INTERRUPT_SOURCE => 3 | LOCAL_NON_MASKABLE_INTERRUPT => 4
  | LOCAL_APIC_ADDRESS_OVERRIDE => 5 | PROCESSOR_LOCAL_X2_APIC => 9
  end.

Definition DEFAULT_LAPIC_ADDR : Z := 0xFEE00000.

(** Packed sizes and offsets; each record begins with the two bytes of
    [MadtRecordHeader]. *)
Definition sizeof_ProcessorLocalApic : Z := 8.
Definition sizeof_IoApicRecord : Z := 12.
Definition sizeof_IntSourceOverrideRecord : Z := 10.
Definition sizeof_NmiSourceRecord : Z := 10.
Definition sizeof_NmiRecord : Z := 6.

Definition io_apic_addr (m : mem) (r : Z) : Z := ld32 m (r + 4).
Definition io_apic_gsib (m : mem) (r : Z) : Z := ld32 m (r + 8).
Definition iso_irq_source (m : mem) (r : Z) : Z := ld8 m (r + 3).
Definition iso_gsi (m : mem) (r : Z) : Z := ld32 m (r + 4).
Definition iso_flags (m : mem) (r : Z) : Z := ld16 m (r + 8).
Definition nmi_source_flags (m : mem) (r : Z) : Z := ld16 m (r + 4).
Definition nmi_source_gsi (m : mem) (r : Z) : Z := ld32 m (r + 6).
Definition nmi_processor_id (m : mem) (r : Z) : Z := ld8 m (r + 2).
Definition nmi_flags (m : mem) (r : Z) : Z := ld16 m (r + 3).
Definition nmi_lint (m : mem) (r : Z) : bool := negb (ld8 m (r + 5) =? 0).
Definition override_lapic_addr (m : mem) (r : Z) : Z := ld64 m (r + 4).

(** ** State *)

Record smp_info_t := SmpInfo {
  num_io_apics : Z; io_apics : Z;
  num_lapics : Z; lapics : Z;
  num_isos : Z; isos : Z;
  num_nmi_sources : Z; nmi_sources : Z;
  num_nmis : Z; nmis : Z;
  lapic_addr : Z;
}.

(** [SMP_INFO] before [ParseMadt]. *)
Definition SMP_INFO_initial : smp_info_t := SmpInfo 0 0 0 0 0 0 0 0 0 0 DEFAULT_LAPIC_ADDR.

Definition get_smp_info (s : smp_info_t) : smp_info_t := s.

(** ** Look-ups *)

(** Indices are [uint8_t]. *)
Definition get_io_apic (s : smp_info_t) (idx : Z) : Z :=
  if num_io_apics s <=? u8 idx then 0 else io_apics s + sizeof_IoApicRecord * u8 idx.

Definition get_lapic (s : smp_info_t) (idx : Z) : Z :=
  if num_lapics s <=? u8 idx then 0 else lapics s + sizeof_ProcessorLocalApic * u8 idx.

(** [num_nmis - 1] wraps around when there are none. *)
Definition get_nmi_record (s : smp_info_t) (idx : Z) : Z :=
  if u64 (num_nmis s - 1) <? u8 idx then 0 else nmis s + sizeof_NmiRecord * u8 idx.

(** The first of [k] records from [r] on that [p] holds of. *)
Fixpoint find_record (k : nat) (p : Z → bool) (r size : Z) : Z :=
  match k with
  | O => 0
  | S k => if p r then r else find_record k p (r + size) size
  end.

Definition gsi_from_irq (m : mem) (s : smp_info_t) (irq : Z) : Z :=
  let r := find_record (Z.to_nat (num_isos s)) (λ r, iso_irq_source m r =? irq) (isos s)
             sizeof_IntSourceOverrideRecord in
  if r =? 0 then irq else iso_gsi m r.

Definition gsi_get_iso (m : mem) (s : smp_info_t) (gsi : Z) : Z :=
  find_record (Z.to_nat (num_isos s)) (λ r, iso_gsi m r =? gsi) (isos s)
    sizeof_IntSourceOverrideRecord.

Definition gsi_get_nmi_source (m : mem) (s : smp_info_t) (gsi : Z) : Z :=
  find_record (Z.to_nat (num_nmi_sources s)) (λ r, nmi_source_gsi m r =? gsi) (nmi_sources s)
    sizeof_NmiSourceRecord.

Definition get_iso_from_irq (m : mem) (s : smp_info_t) (irq : Z) : Z :=
  gsi_get_iso m s (gsi_from_irq m s irq).

(** [k] I/O APICs from index [i] on are left. *)
Fixpoint find_apic_loop (k : nat) (m : mem) (s : smp_info_t) (gsi i apic_ind max_gsib : Z) : Z :=
  match k with
  | O => apic_ind
  | S k =>
      let apic_gsib := io_apic_gsib m (io_apics s + sizeof_IoApicRecord * i) in
      if (apic_gsib <=? gsi) && (max_gsib <=? apic_gsib)
      then find_apic_loop k m s gsi (i + 1) i apic_gsib
      else find_apic_loop k m s gsi (i + 1) apic_ind max_gsib
  end.

Definition find_apic_from_gsi (m : mem) (s : smp_info_t) (gsi : Z) : Z :=
  find_apic_loop (Z.to_nat (num_io_apics s)) m s gsi 0 (-1) 0.

(** ** Properties of the look-ups *)

(** The addresses of the records of an array. *)
Definition records (base size n : Z) : list Z := map (λ i, base + size * i) (seqZ 0 n).

Lemma find_record_spec p size k : ∀ base i,
  find_record k p (base + size * i) size =
    default 0 (List.find p (map (λ i, base + size * i) (seqZ i (Z.of_nat k)))).
Proof.
  induction k as [|k IH]; intros base i; [done|]. rewrite Nat2Z.inj_succ, seqZ_cons by lia.
  cbn [find_record map List.find]. destruct (p (base + size * i)); [done|].
  rewrite Z.pred_succ, <-Z.add_1_r. rewrite <-IH. f_equal. lia.
Qed.

Lemma find_record_records p base size n :
  0 ≤ n → find_record (Z.to_nat n) p base size = default 0 (List.find p (records base size n)).
Proof.
  intros Hn. pose proof (find_record_spec p size (Z.to_nat n) base 0) as H.
  rewrite Z.mul_0_r, Z.add_0_r, Z2Nat.id in H by lia. exact H.
Qed.

(** An IRQ goes to the global system interrupt of the first interrupt
    source override that names it, and is identity mapped if there is none. *)
Theorem gsi_from_irq_spec m s irq :
  0 ≤ num_isos s → 0 < isos s →
  gsi_from_irq m s irq =
    match List.find (λ r, iso_irq_source m r =? irq)
            (records (isos s) sizeof_IntSourceOverrideRecord (num_isos s)) with
    | Some r => iso_gsi m r
    | None => irq
    end.
Proof.
  intros Hn Hb. unfold gsi_from_irq. rewrite find_record_records by done.
  destruct (List.find _ _) as [r|] eqn:Hf; cbn [default]; [|done].
  apply find_some in Hf as [Hin _]. unfold records in Hin.
  apply list_elem_of_In, list_elem_of_fmap in Hin as (i & -> & Hi%elem_of_seqZ).
  unfold id, sizeof_IntSourceOverrideRecord. by rewrite (proj2 (Z.eqb_neq _ _)) by lia.
Qed.

(** The interrupt base of the [j]-th I/O APIC. *)
Definition gsib_of (m : mem) (s : smp_info_t) (j : Z) : Z :=
  io_apic_gsib m (io_apics s + sizeof_IoApicRecord * j).

Lemma find_apic_loop_spec m s gsi k : ∀ i ind mx,
  let gsib := gsib_of m s in
  let r := find_apic_loop k m s gsi i ind mx in
  (r = ind ∧ ∀ j, i ≤ j < i + Z.of_nat k → ¬ (gsib j ≤ gsi ∧ mx ≤ gsib j)) ∨
  (i ≤ r < i + Z.of_nat k ∧ mx ≤ gsib r ≤ gsi ∧
     ∀ j, i ≤ j < i + Z.of_nat k → gsib j ≤ gsi → gsib j ≤ gsib r ∧ (gsib j = gsib r → j ≤ r)).
Proof.
  induction k as [|k IH]; intros i ind mx gsib r; [left; split; [done|lia]|].
  subst r. cbn [find_apic_loop]. fold (gsib_of m s i). subst gsib.
  destruct (Z.leb_spec (gsib_of m s i) gsi); cbn [andb]; [destruct (Z.leb_spec mx (gsib_of m s i)); cbn [andb]|].
  - right. destruct (IH (i + 1) i (gsib_of m s i)) as [[-> Hnone]|(Hr & Hg & Hmax)].
    + split_and!; [lia|lia|lia|lia|]. intros j Hj Hjg. destruct (decide (j = i)) as [->|]; [lia|].
      specialize (Hnone j ltac:(lia)). lia.
    + split_and!; [lia|lia|lia|lia|]. intros j Hj Hjg. destruct (decide (j = i)) as [->|]; [lia|].
      apply Hmax; lia.
  - destruct (IH (i + 1) ind mx) as [[-> Hnone]|(Hr & Hg & Hmax)]; [left|right].
    + split; [done|]. intros j Hj. destruct (decide (j = i)) as [->|]; [lia|]. apply Hnone. lia.
    + split_and!; [lia|lia|lia|lia|]. intros j Hj Hjg. destruct (decide (j = i)) as [->|]; [lia|].
      apply Hmax; lia.
  - destruct (IH (i + 1) ind mx) as [[-> Hnone]|(Hr & Hg & Hmax)]; [left|right].
    + split; [done|]. intros j Hj. destruct (decide (j = i)) as [->|]; [lia|]. apply Hnone. lia.
    + split_and!; [lia|lia|lia|lia|]. intros j Hj Hjg. destruct (decide (j = i)) as [->|]; [lia|].
      apply Hmax; lia.
Qed.

(** [find_apic_from_gsi] returns the I/O APIC with the largest base that is
    not above the interrupt, the last one if there are several, and -1 when
    every base is above it. *)
Theorem find_apic_from_gsi_spec m s gsi :
  0 ≤ num_io_apics s →
  let gsib := gsib_of m s in
  let r := find_apic_from_gsi m s gsi in
  (r = -1 ∧ ∀ j, 0 ≤ j < num_io_apics s → gsi < gsib j) ∨
  (0 ≤ r < num_io_apics s ∧ gsib r ≤ gsi ∧
     ∀ j, 0 ≤ j < num_io_apics s → gsib j ≤ gsi → gsib j ≤ gsib r ∧ (gsib j = gsib r → j ≤ r)).
Proof.
  intros Hn gsib r. subst r. unfold find_apic_from_gsi.
  pose proof (find_apic_loop_spec m s gsi (Z.to_nat (num_io_apics s)) 0 (-1) 0) as H.
  cbv zeta in H. rewrite Z.add_0_l, Z2Nat.id in H by lia.
  destruct H as [[Hr Hnone]|(Hr & Hg & Hmax)]; [left|right].
  - split; [done|]. intros j Hj. specialize (Hnone j Hj).
    pose proof (ld32_range m (io_apics s + sizeof_IoApicRecord * j + 8)).
    unfold gsib, gsib_of, io_apic_gsib in *. lia.
  - split_and!; [lia|lia|apply Hg|]. intros j Hj Hjg. by apply Hmax.
Qed.

(** [get_nmi_record] refuses an index past the last record, unless there
    are no records at all: then it returns a pointer for every index. *)
Theorem get_nmi_record_spec s idx :
  0 ≤ num_nmis s < 2 ^ 63 → 0 < nmis s → 0 ≤ idx < 256 →
  (get_nmi_record s idx = 0 ↔ 0 < num_nmis s ≤ idx).
Proof.
  intros Hn Hb Hi. unfold get_nmi_record, sizeof_NmiRecord. rewrite u8_small by lia.
  destruct (decide (num_nmis s = 0)) as [->|Hnz].
  - change (u64 (0 - 1)) with (2 ^ 64 - 1). rewrite (proj2 (Z.ltb_ge _ _)) by lia. lia.
  - rewrite u64_small by lia. destruct (Z.ltb_spec (num_nmis s - 1) idx); lia.
Qed.
