(* ===== verification/Bitfields.v ===== *)
(** * C bit-fields

    A structure of bit-fields is an integer; a field is a range of its bits,
    the first one lowest, as GCC lays them out on x86-64. *)
From S2P Require Import Prelude.

(** The [w] bits of [e] from bit [lo] on. *)
Definition get_bits (e lo w : Z) : Z := Z.land (Z.shiftr e lo) (Z.ones w).

(** [e] with those bits replaced by the low bits of [v]. *)
Definition set_bits (e lo w v : Z) : Z :=
  Z.lor (Z.ldiff e (Z.shiftl (Z.ones w) lo)) (Z.shiftl (Z.land v (Z.ones w)) lo).

Lemma testbit_ones w j : 0 ≤ w → Z.testbit (Z.ones w) j = (0 <=? j) && (j <? w).
Proof.
  intros Hw. destruct (Z.leb_spec 0 j); cbn [andb]; [|by apply Z.testbit_neg_r].
  destruct (Z.ltb_spec j w); [by apply Z.ones_spec_low|by apply Z.ones_spec_high].
Qed.

Lemma get_bits_testbit e lo w j :
  0 ≤ lo → 0 ≤ w → 0 ≤ j → Z.testbit (get_bits e lo w) j = (j <? w) && Z.testbit e (j + lo).
Proof.
  intros. unfold get_bits. rewrite Z.land_spec, Z.shiftr_spec, testbit_ones by lia.
  destruct (Z.leb_spec 0 j); [|lia]. cbn [andb]. apply andb_comm.
Qed.

Lemma set_bits_testbit e lo w v j :
  0 ≤ lo → 0 ≤ w → 0 ≤ j →
  Z.testbit (set_bits e lo w v) j =
    if (lo <=? j) && (j <? lo + w) then Z.testbit v (j - lo) else Z.testbit e j.
Proof.
  intros Hlo Hw Hj. unfold set_bits. rewrite Z.lor_spec, Z.ldiff_spec, !Z.shiftl_spec, Z.land_spec, testbit_ones by lia.
  destruct (Z.leb_spec lo j) as [Hle|Hlt]; cbn [andb].
  - rewrite (proj2 (Z.leb_le 0 (j - lo))) by lia. cbn [andb].
    destruct (Z.ltb_spec (j - lo) w), (Z.ltb_spec j (lo + w)); try lia; cbn [negb];
      rewrite ?andb_false_r, ?andb_true_r, ?orb_false_l, ?orb_false_r; done.
  - rewrite (proj2 (Z.leb_gt 0 (j - lo))) by lia. cbn [andb negb].
    by rewrite andb_false_r, andb_true_r, orb_false_r.
Qed.

(** A field reads what was written to it. *)
Lemma get_set_same e lo w v : 0 ≤ lo → 0 ≤ w → get_bits (set_bits e lo w v) lo w = v mod 2 ^ w.
Proof.
  intros. apply Z.bits_inj'. intros j Hj. rewrite get_bits_testbit, set_bits_testbit, testbit_mod_pow2 by lia.
  destruct (Z.ltb_spec j w); [|done]. cbn [andb].
  rewrite (proj2 (Z.leb_le _ _)), (proj2 (Z.ltb_lt _ _)) by lia. cbn [andb]. f_equal. lia.
Qed.

(** Writing one field leaves the others alone. *)
Lemma get_set_other e lo w v lo' w' :
  0 ≤ lo → 0 ≤ w → 0 ≤ lo' → 0 ≤ w' → lo' + w' ≤ lo ∨ lo + w ≤ lo' →
  get_bits (set_bits e lo w v) lo' w' = get_bits e lo' w'.
Proof.
  intros. apply Z.bits_inj'. intros j Hj. rewrite !get_bits_testbit, set_bits_testbit by lia.
  destruct (Z.ltb_spec j w'); [|done]. cbn [andb].
  destruct (Z.leb_spec lo (j + lo')), (Z.ltb_spec (j + lo') (lo + w)); cbn [andb]; (done || lia).
Qed.

Lemma get_bits_ext e1 e2 lo w :
  0 ≤ lo → 0 ≤ w → (∀ j, lo ≤ j < lo + w → Z.testbit e1 j = Z.testbit e2 j) →
  get_bits e1 lo w = get_bits e2 lo w.
Proof.
  intros Hlo Hw Heq. apply Z.bits_inj'. intros j Hj. rewrite !get_bits_testbit by lia.
  destruct (Z.ltb_spec j w); [|done]. by rewrite Heq by lia.
Qed.

Lemma get_bits_range e lo w : 0 ≤ w → 0 ≤ get_bits e lo w < 2 ^ w.
Proof.
  intros Hw. unfold get_bits. rewrite Z.land_ones by lia. apply Z.mod_pos_bound. lia.
Qed.

Lemma get_bits_div e lo w : 0 ≤ lo → 0 ≤ w → get_bits e lo w = (e / 2 ^ lo) mod 2 ^ w.
Proof. intros. unfold get_bits. by rewrite Z.land_ones, Z.shiftr_div_pow2 by lia. Qed.

Lemma set_bits_range e lo w v n :
  0 ≤ lo → 0 ≤ w → lo + w ≤ n → 0 ≤ e < 2 ^ n → 0 ≤ set_bits e lo w v < 2 ^ n.
Proof.
  intros Hlo Hw Hn He. assert (Hm : set_bits e lo w v mod 2 ^ n = set_bits e lo w v).
  { apply Z.bits_inj'. intros j Hj. rewrite testbit_mod_pow2 by lia.
    destruct (Z.ltb_spec j n); [done|]. cbn [andb]. rewrite set_bits_testbit by lia.
    destruct (Z.leb_spec lo j), (Z.ltb_spec j (lo + w)); cbn [andb]; try lia;
      by rewrite (testbit_above e n) by lia. }
  rewrite <-Hm. apply Z.mod_pos_bound. lia.
Qed.
