(* ===== verification/IoApic.v ===== *)
(** * The I/O APICs

    [src/src/kernel/hal/io_apic.c]: the redirection entries, registration and
    initialisation of an I/O APIC, and routing of interrupts.  The registers
    are reached through [Mmio]; the laws of [IoApicDevice] say what the
    theorems rely on of the hardware. *)
From stdpp Require Import base list gmap.
From S2P Require Import Prelude Memory Bitfields Devices Madt.

(** ** Constants and data *)

Definition MAX_IOAPICS : nat := 16.
Definition IOAPIC_ID_SHIFT : Z := 24.
Definition IOAPIC_ID_MASK : Z := Z.shiftl 0xF IOAPIC_ID_SHIFT.
Definition IOAPIC_VERSION_MASK : Z := 0xFF.
Definition IOAPIC_MAX_RED_SHIFT : Z := 16.
Definition IOAPIC_MAX_RED_MASK : Z := Z.shiftl 0xFF IOAPIC_MAX_RED_SHIFT.
Definition MAX_ISA_IRQ : Z := 16.

Definition IOAPIC_ID : Z := 0.
Definition IOAPIC_VER : Z := 1.

(** The fields of [ioredtbl_t], a 64-bit union: first bit and width. *)
Record bitfield := Field { first_bit : Z; width : Z }.
Definition vector := Field 0 8.
Definition delivery_mode := Field 8 3.
Definition destination_mode := Field 11 1.
Definition delivery_status := Field 12 1.
Definition polarity := Field 13 1.
Definition remote_irr_pending := Field 14 1.
Definition trigger_mode := Field 15 1.
Definition mask := Field 16 1.
Definition destination := Field 56 8.

Definition get (f : bitfield) (entry : Z) : Z := get_bits entry (first_bit f) (width f).
Definition set (f : bitfield) (v entry : Z) : Z := set_bits entry (first_bit f) (width f) v.

Definition lower_dword (entry : Z) : Z := u32 entry.
Definition upper_dword (entry : Z) : Z := u32 (entry / 2 ^ 32).

Inductive pin_polarity_t := ACTIVE_HIGH | ACTIVE_LOW.
Definition polarity_code (p : pin_polarity_t) : Z :=
  match p with ACTIVE_HIGH => 0 | ACTIVE_LOW => 1 end.
Inductive trigger_mode_t := EDGE_SENSITIVE | LEVEL_SENSITIVE.
Definition trigger_code (t : trigger_mode_t) : Z :=
  match t with EDGE_SENSITIVE => 0 | LEVEL_SENSITIVE => 1 end.

(** [ICR_NMI] and [ICR_STARTUP] have the same code. *)
Inductive icr_delivery_t := ICR_FIXED | ICR_LOW | ICR_SMI | ICR_NMI | ICR_INIT | ICR_STARTUP.
Definition delivery_code (m : icr_delivery_t) : Z :=
  match m with
  | ICR_FIXED => 0 | ICR_LOW => 1 | ICR_SMI => 2 | ICR_NMI => 4 | ICR_INIT => 5 | ICR_STARTUP => 4
  end.
Inductive dest_mode_t := IOAPIC_PHYSICAL | IOAPIC_LOGICAL.
Definition dest_mode_code (d : dest_mode_t) : Z :=
  match d with IOAPIC_PHYSICAL => 0 | IOAPIC_LOGICAL => 1 end.

Record int_attr_t := IntAttr { attrs : Z; attr_gsi : Z; attr_irq : Z; attr_ioapic_ind : Z }.

Record ioapic_t := Ioapic {
  present : bool;
  ioregsel : Z;
  iowin : Z;
  min_gsi : Z;
  num_pins : Z;
  has_eoi : bool;
  apic_id : Z;
}.

(** ** State *)

(** The tables of the file and the devices. *)
Record apics (D : Type) := Apics {
  IOAPICS : list ioapic_t;
  VECTOR_ATTRS : list int_attr_t;
  dev : D;
}.
Arguments Apics {D}.
Arguments IOAPICS {D}.
Arguments VECTOR_ATTRS {D}.
Arguments dev {D}.

Definition set_dev {D} (s : apics D) (d : D) : apics D := Apics (IOAPICS s) (VECTOR_ATTRS s) d.

(** ** Registers *)

Section registers.
Context {D : Type} `{Mmio D}.

Definition ioapic_read (d : D) (ioapic : ioapic_t) (offset : Z) : Z * D :=
  mmio_read (iowin ioapic) (mmio_write (ioregsel ioapic) (u8 offset) d).

Definition ioapic_write (d : D) (ioapic : ioapic_t) (offset val : Z) : D :=
  mmio_write (iowin ioapic) (u32 val) (mmio_write (ioregsel ioapic) (u8 offset) d).

Definition pin_of (ioapic : ioapic_t) (gsi : Z) : Z := u32 (gsi - min_gsi ioapic).

Definition ioapic_write_entry (d : D) (ioapic : ioapic_t) (gsi entry : Z) : D :=
  let pin := pin_of ioapic gsi in
  let d := ioapic_write d ioapic (0x10 + pin * 2) (lower_dword entry) in
  ioapic_write d ioapic (0x11 + pin * 2) (upper_dword entry).

(** The upper half is shifted by 31 in 32 bits before it is widened. *)
Definition ioapic_read_entry (d : D) (ioapic : ioapic_t) (gsi : Z) : Z * D :=
  let pin := pin_of ioapic gsi in
  let '(lower, d) := ioapic_read d ioapic (0x10 + pin * 2) in
  let '(upper, d) := ioapic_read d ioapic (0x11 + pin * 2) in
  (Z.lor lower (u32 (Z.shiftl upper 31)), d).

(** ** Routing *)

(** The index of the first present I/O APIC that has the interrupt. *)
Definition serves (gsi : Z) (ioapic : ioapic_t) : bool :=
  present ioapic && (min_gsi ioapic <=? gsi) &&
  (gsi <=? u32 (min_gsi ioapic + num_pins ioapic - 1)).

Definition ioapic_from_gsi (s : apics D) (gsi : Z) : option ioapic_t :=
  List.find (serves gsi) (take MAX_IOAPICS (IOAPICS s)).

Definition ioapic_route_irq (s : apics D) (m : mem) (smp : smp_info_t)
    (irq rec_lapic_id vec : Z) (masked : bool) : bool * apics D :=
  let gsi := gsi_from_irq m smp irq in
  match ioapic_from_gsi s gsi with
  | None => (false, s)
  | Some ioapic =>
      let '(entry, d) := ioapic_read_entry (dev s) ioapic gsi in
      let entry := set vector vec entry in
      let entry := set polarity (polarity_code ACTIVE_HIGH) entry in
      let entry := set delivery_mode (delivery_code ICR_FIXED) entry in
      let entry := set trigger_mode (trigger_code EDGE_SENSITIVE) entry in
      let entry := set destination rec_lapic_id entry in
      let entry := set mask (Z.b2z masked) entry in
      (true, set_dev s (ioapic_write_entry d ioapic gsi entry))
  end.

Definition ioapic_route_irq_to_bsp (s : apics D) (m : mem) (smp : smp_info_t) (bsp_lapic_id : Z)
    (irq vec : Z) (masked : bool) : bool * apics D :=
  ioapic_route_irq s m smp irq bsp_lapic_id vec masked.

(** [junk] is what the uninitialised local holds. *)
Definition ioapic_set_smi_gsi (s : apics D) (junk gsi : Z) : bool * apics D :=
  match ioapic_from_gsi s gsi with
  | None => (false, s)
  | Some ioapic =>
      let entry := set vector 0 junk in
      let entry := set delivery_mode (delivery_code ICR_SMI) entry in
      let entry := set polarity (polarity_code ACTIVE_HIGH) entry in
      let entry := set trigger_mode (trigger_code EDGE_SENSITIVE) entry in
      let entry := set mask 0 entry in
      (true, set_dev s (ioapic_write_entry (dev s) ioapic gsi entry))
  end.

(** The result of [ioapic_from_gsi] is not tested. *)
Definition vector_from_gsi (s : apics D) (gsi : Z) : outcome (Z * apics D) :=
  match ioapic_from_gsi s gsi with
  | None => Undefined
  | Some ioapic =>
      let '(entry, d) := ioapic_read_entry (dev s) ioapic gsi in
      Done (get vector entry, set_dev s d)
  end.

Definition default_attr : int_attr_t := IntAttr 0 0 0 0.

(** [entry_to_fill] is not [NULL]: the entry is the second result. *)
Definition int_attrs_from_vector (s : apics D) (vec : Z) : option Z * apics D :=
  let gsi := attr_gsi (nth (Z.to_nat vec) (VECTOR_ATTRS s) default_attr) in
  match ioapic_from_gsi s gsi with
  | None => (None, s)
  | Some ioapic =>
      let '(entry, d) := ioapic_read_entry (dev s) ioapic gsi in (Some entry, set_dev s d)
  end.

(** The common part of the setters below: one field is written back if it
    differs. *)
Definition update_field (s : apics D) (ioapic : ioapic_t) (gsi : Z) (f : bitfield) (v : Z)
    (current_entry : Z) : apics D :=
  if negb (get f current_entry =? v)
  then set_dev s (ioapic_write_entry (dev s) ioapic gsi (set f v current_entry)) else s.

Definition ioapic_set_gsi_mask (s : apics D) (gsi : Z) (masked : bool) : bool * apics D :=
  match ioapic_from_gsi s gsi with
  | None => (false, s)
  | Some ioapic =>
      let '(current_entry, d) := ioapic_read_entry (dev s) ioapic gsi in
      (true, update_field (set_dev s d) ioapic gsi mask (Z.b2z masked) current_entry)
  end.

Definition set_vector_gsi (l : list int_attr_t) (vec gsi : Z) : list int_attr_t :=
  let a := nth (Z.to_nat vec) l default_attr in
  <[Z.to_nat vec := IntAttr (attrs a) gsi (attr_irq a) (attr_ioapic_ind a)]> l.

Definition ioapic_set_gsi_vector (s : apics D) (gsi vec : Z) : bool * apics D :=
  let valid_vector := (15 <? vec) && (vec <? 256) in
  match ioapic_from_gsi s gsi with
  | None => (false, s)
  | Some ioapic =>
      if negb valid_vector then (false, s)
      else
        let '(current_entry, d) := ioapic_read_entry (dev s) ioapic gsi in
        let s := set_dev s d in
        if negb (get vector current_entry =? vec) then
          let s := set_dev s (ioapic_write_entry (dev s) ioapic gsi (set vector vec current_entry)) in
          (true, Apics (IOAPICS s) (set_vector_gsi (VECTOR_ATTRS s) vec gsi) (dev s))
        else (true, s)
  end.

Definition ioapic_set_gsi_trigger_mode (s : apics D) (gsi : Z) (t : trigger_mode_t) : bool * apics D :=
  if (gsi =? 0) && negb (trigger_code t =? trigger_code LEVEL_SENSITIVE) then (false, s)
  else
    match ioapic_from_gsi s gsi with
    | None => (false, s)
    | Some ioapic =>
        let '(current_entry, d) := ioapic_read_entry (dev s) ioapic gsi in
        let s := set_dev s d in
        let nmi_or_smi := (get delivery_mode current_entry =? delivery_code ICR_NMI) ||
                          (get delivery_mode current_entry =? delivery_code ICR_SMI) in
        if nmi_or_smi && negb (trigger_code t =? trigger_code EDGE_SENSITIVE) then (false, s)
        else (true, update_field s ioapic gsi trigger_mode (trigger_code t) current_entry)
    end.

Definition ioapic_set_gsi_polarity (s : apics D) (gsi : Z) (p : pin_polarity_t) : bool * apics D :=
  match ioapic_from_gsi s gsi with
  | None => (false, s)
  | Some ioapic =>
      let '(current_entry, d) := ioapic_read_entry (dev s) ioapic gsi in
      let s := set_dev s d in
      if (get delivery_mode current_entry =? delivery_code ICR_SMI) &&
         negb (polarity_code p =? polarity_code ACTIVE_HIGH) then (false, s)
      else (true, update_field s ioapic gsi polarity (polarity_code p) current_entry)
  end.

Definition ioapic_reroute_gsi (s : apics D) (gsi lapic_id : Z) : bool * apics D :=
  match ioapic_from_gsi s gsi with
  | None => (false, s)
  | Some ioapic =>
      let '(current_entry, d) := ioapic_read_entry (dev s) ioapic gsi in
      (true, update_field (set_dev s d) ioapic gsi destination lapic_id current_entry)
  end.

Definition mask_irq (s : apics D) (m : mem) (smp : smp_info_t) (irq : Z) : apics D :=
  snd (ioapic_set_gsi_mask s (gsi_from_irq m smp irq) true).

Definition unmask_irq (s : apics D) (m : mem) (smp : smp_info_t) (irq : Z) : apics D :=
  snd (ioapic_set_gsi_mask s (gsi_from_irq m smp irq) false).

(** ** Initialisation *)

Definition get_pin_polarity (flags : Z) : pin_polarity_t :=
  if negb (Z.land flags 2 =? 0) then ACTIVE_HIGH else ACTIVE_LOW.

Definition get_trigger_mode (flags : Z) : trigger_mode_t :=
  if negb (Z.land flags 8 =? 0) then LEVEL_SENSITIVE else EDGE_SENSITIVE.

Definition make_entry (junk vec : Z) (del : icr_delivery_t) (pol : pin_polarity_t)
    (trig : trigger_mode_t) (masked : Z) : Z :=
  set mask masked (set trigger_mode (trigger_code trig)
    (set polarity (polarity_code pol) (set delivery_mode (delivery_code del) (set vector vec junk)))).

(** The branches on the kind of interrupt; [junk] is the uninitialised entry. *)
Definition initial_entry (m : mem) (smp : smp_info_t) (gsi junk : Z) : Z :=
  if gsi <? MAX_ISA_IRQ then
    make_entry junk (gsi + 0x20) ICR_FIXED ACTIVE_HIGH EDGE_SENSITIVE 1
  else
    let iso_info := gsi_get_iso m smp gsi in
    if negb (iso_info =? 0) then
      make_entry junk (iso_irq_source m iso_info + 0x20) ICR_FIXED
        (get_pin_polarity (iso_flags m iso_info)) (get_trigger_mode (iso_flags m iso_info)) 1
    else
      let nmi_info := gsi_get_nmi_source m smp gsi in
      if negb (nmi_info =? 0) then
        make_entry junk (gsi + 0x20) ICR_NMI (get_pin_polarity (nmi_source_flags m nmi_info))
          (get_trigger_mode (nmi_source_flags m nmi_info)) 0
      else make_entry junk (gsi + 0x20) ICR_FIXED ACTIVE_HIGH LEVEL_SENSITIVE 1.

(** One interrupt. *)
Definition init_one (s : apics D) (m : mem) (smp : smp_info_t) (bsp_lapic_id : Z) (ioapic : ioapic_t)
    (gsi junk : Z) : apics D :=
  if gsi =? 0 then s
  else
    let entry := initial_entry m smp gsi junk in
    let entry := set destination_mode (dest_mode_code IOAPIC_PHYSICAL) entry in
    let vec := get vector entry in
    let attr := IntAttr entry gsi (u8 (vec - 0x20)) (apic_id ioapic) in
    let entry := set destination bsp_lapic_id entry in
    Apics (IOAPICS s) (<[Z.to_nat vec := attr]> (VECTOR_ATTRS s))
      (ioapic_write_entry (dev s) ioapic gsi entry).

(** [k] interrupts from [gsi] on are left. *)
Fixpoint init_loop (k : nat) (s : apics D) (m : mem) (smp : smp_info_t) (bsp_lapic_id : Z)
    (ioapic : ioapic_t) (gsi : Z) (junk : Z → Z) : apics D :=
  match k with
  | O => s
  | S k =>
      init_loop k (init_one s m smp bsp_lapic_id ioapic gsi (junk gsi)) m smp bsp_lapic_id ioapic
        (gsi + 1) junk
  end.

(** For bases below 2^31 - 256, where the [int] counter is exact. *)
Definition initialize_ioapic_ints (s : apics D) (m : mem) (smp : smp_info_t) (bsp_lapic_id : Z)
    (ioapic : ioapic_t) (junk : Z → Z) : apics D :=
  init_loop (Z.to_nat (num_pins ioapic)) s m smp bsp_lapic_id ioapic (min_gsi ioapic) junk.

Definition register_ioapic (s : apics D) (m : mem) (smp : smp_info_t) (bsp_lapic_id : Z)
    (ioapic_record : Z) (junk : Z → Z) : apics D :=
  let addr := io_apic_addr m ioapic_record in
  let ioapic := Ioapic true addr (addr + 0x10) (io_apic_gsib m ioapic_record) 0 false 0 in
  let '(ioapic_id_reg, d) := ioapic_read (dev s) ioapic IOAPIC_ID in
  let id := Z.shiftr (Z.land ioapic_id_reg IOAPIC_ID_MASK) IOAPIC_ID_SHIFT in
  let '(ioapic_ver_reg, d) := ioapic_read d ioapic IOAPIC_VER in
  let pins := u8 (Z.shiftr (Z.land ioapic_ver_reg IOAPIC_MAX_RED_MASK) IOAPIC_MAX_RED_SHIFT + 1) in
  let eoi := 0x20 <=? Z.land ioapic_ver_reg IOAPIC_VERSION_MASK in
  let ioapic := Ioapic true addr (addr + 0x10) (io_apic_gsib m ioapic_record) pins eoi id in
  let s := Apics (<[Z.to_nat id := ioapic]> (IOAPICS s)) (VECTOR_ATTRS s) d in
  initialize_ioapic_ints s m smp bsp_lapic_id ioapic junk.

End registers.

(** ** The device

    [reg d base idx] is the register [idx] of the chip at [base].  Reading one
    through the select and window registers changes nothing; writing one of
    the redirection registers sets the bits software may write and leaves the
    other registers alone.  Chips sit at multiples of 1 KiB. *)

(** Bits of a redirection entry that software writes: all but the reserved
    ones, the delivery status and the remote IRR. *)
Definition writable (j : Z) : bool :=
  ((0 <=? j) && (j <? 12)) || (j =? 13) || (j =? 15) || (j =? 16) || ((56 <=? j) && (j <? 64)).

Class IoApicDevice (D : Type) `{Mmio D} := {
  reg : D → Z → Z → Z;
  reg_range d base idx : 0 ≤ reg d base idx < 2 ^ 32;
  read_reg d base idx :
    base mod 0x400 = 0 → 0 ≤ idx < 256 →
    ∃ d', mmio_read (base + 0x10) (mmio_write base idx d) = (reg d base idx, d') ∧
          ∀ b i, reg d' b i = reg d b i;
  write_reg d base idx v :
    base mod 0x400 = 0 → 0x10 ≤ idx < 256 → 0 ≤ v < 2 ^ 32 →
    let d' := mmio_write (base + 0x10) v (mmio_write base idx d) in
    (∀ j, 0 ≤ j < 32 → writable (j + 32 * (idx mod 2)) = true →
       Z.testbit (reg d' base idx) j = Z.testbit v j) ∧
    (∀ b i, b ≠ base ∨ i ≠ idx → reg d' b i = reg d b i);
}.

(** The redirection entry of a pin, as the chip at [base] holds it. *)
Definition pin_entry `{IoApicDevice D} (d : D) (base pin : Z) : Z :=
  Z.lor (reg d base (0x10 + pin * 2)) (Z.shiftl (reg d base (0x11 + pin * 2)) 32).

(** A chip the operations can be used with. *)
Record chip (io : ioapic_t) : Prop := {
  chip_aligned : ioregsel io mod 0x400 = 0;
  chip_window : iowin io = ioregsel io + 0x10;
  chip_pins : 1 ≤ num_pins io ≤ 120;
  chip_gsi : 0 ≤ min_gsi io < 2 ^ 32 - 256;
}.

Section device_lemmas.
Context `{IoApicDevice D}.
Implicit Types (d : D) (io : ioapic_t).

Lemma pin_entry_testbit d base pin j :
  0 ≤ j → Z.testbit (pin_entry d base pin) j =
    if j <? 32 then Z.testbit (reg d base (0x10 + pin * 2)) j
    else Z.testbit (reg d base (0x11 + pin * 2)) (j - 32).
Proof.
  intros Hj. unfold pin_entry. rewrite Z.lor_spec, Z.shiftl_spec by lia.
  destruct (Z.ltb_spec j 32).
  - rewrite (Z.testbit_neg_r _ (j - 32)) by lia. apply orb_false_r.
  - pose proof (reg_range d base (0x10 + pin * 2)). by rewrite (testbit_above _ 32 j) by lia.
Qed.

Lemma pin_of_served io gsi :
  chip io → min_gsi io ≤ gsi < min_gsi io + num_pins io → pin_of io gsi = gsi - min_gsi io.
Proof. intros [] ?. unfold pin_of. apply u32_small. lia. Qed.

(** Reading an entry gives its low half only: of the upper half, bit 0 comes
    back as bit 31, and the destination as 0. *)
Lemma read_entry_spec d io gsi :
  chip io → min_gsi io ≤ gsi < min_gsi io + num_pins io →
  ∃ e d', ioapic_read_entry d io gsi = (e, d') ∧
    (∀ b i, reg d' b i = reg d b i) ∧ 0 ≤ e < 2 ^ 32 ∧
    (∀ j, 0 ≤ j < 31 → Z.testbit e j = Z.testbit (pin_entry d (ioregsel io) (gsi - min_gsi io)) j).
Proof.
  intros Hc Hg. unfold ioapic_read_entry, ioapic_read. rewrite pin_of_served by done.
  destruct Hc as [Ha Hw Hp _]. rewrite Hw. set (pin := gsi - min_gsi io).
  assert (Hpin : 0 ≤ pin < 120) by (unfold pin; lia).
  rewrite !u8_small by lia.
  destruct (read_reg d (ioregsel io) (0x10 + pin * 2)) as (d1 & -> & H1); [done|lia|].
  destruct (read_reg d1 (ioregsel io) (0x11 + pin * 2)) as (d2 & -> & H2); [done|lia|].
  eexists _, d2. split; [done|]. split; [intros b i; by rewrite H2, H1|]. split.
  - apply lor_range; [lia|apply reg_range|apply u32_range].
  - intros j Hj. rewrite pin_entry_testbit, (proj2 (Z.ltb_lt j 32)) by lia.
    rewrite Z.lor_spec. unfold u32. rewrite testbit_mod_pow2, (Z.shiftl_spec_low _ _ j) by lia.
    by rewrite andb_false_r, orb_false_r.
Qed.

(** Writing an entry sets every bit software may write and leaves all other
    entries of all chips alone. *)
Lemma write_entry_spec d io gsi e :
  chip io → min_gsi io ≤ gsi < min_gsi io + num_pins io →
  let d' := ioapic_write_entry d io gsi e in
  let pin := gsi - min_gsi io in
  (∀ j, writable j = true → Z.testbit (pin_entry d' (ioregsel io) pin) j = Z.testbit e j) ∧
  (∀ b i, b ≠ ioregsel io ∨ (i ≠ 0x10 + pin * 2 ∧ i ≠ 0x11 + pin * 2) → reg d' b i = reg d b i).
Proof.
  intros Hc Hg d' pin. unfold d', ioapic_write_entry, ioapic_write. rewrite pin_of_served by done.
  destruct Hc as [Ha Hw Hp _]. fold pin. rewrite Hw.
  assert (Hpin : 0 ≤ pin < 120) by (unfold pin; lia).
  rewrite !(u8_small (_ + pin * 2)) by lia. rewrite !(u32_small (_ _)) by apply u32_range.
  set (d1 := mmio_write (ioregsel io + 0x10) (lower_dword e) _).
  destruct (write_reg d (ioregsel io) (0x10 + pin * 2) (lower_dword e)) as [L1 O1];
    [done|lia|apply u32_range|].
  destruct (write_reg d1 (ioregsel io) (0x11 + pin * 2) (upper_dword e)) as [L2 O2];
    [done|lia|apply u32_range|]. fold d1 in L1, O1.
  split.
  - intros j Hj. assert (0 ≤ j < 64) by (unfold writable in Hj; lia).
    rewrite pin_entry_testbit by lia. destruct (Z.ltb_spec j 32).
    + rewrite O2 by (right; lia). rewrite L1; [|lia|].
      * unfold lower_dword, u32. by rewrite testbit_mod_pow2, (proj2 (Z.ltb_lt j 32)) by lia.
      * replace (16 + pin * 2) with (pin * 2 + 8 * 2) by lia. rewrite <-Z.mul_add_distr_r, Z.mod_mul by lia.
        by rewrite Z.mul_0_r, Z.add_0_r.
    + rewrite L2; [|lia|].
      * unfold upper_dword, u32. rewrite testbit_mod_pow2, (proj2 (Z.ltb_lt (j - 32) 32)) by lia.
        cbn [andb]. rewrite <-Z.shiftr_div_pow2, Z.shiftr_spec by lia. f_equal. lia.
      * replace (17 + pin * 2) with (1 + (pin + 8) * 2) by lia. rewrite Z.mod_add by lia.
        change (1 mod 2) with 1. rewrite Z.mul_1_r. by rewrite Z.sub_add.
  - intros b i Hbi. rewrite O2 by lia. apply O1. lia.
Qed.

(** Fields of software-writable bits. *)
Definition writable_field (f : bitfield) : Prop :=
  0 ≤ first_bit f ∧ 0 ≤ width f ∧ ∀ j, first_bit f ≤ j < first_bit f + width f → writable j = true.

Lemma get_ext f e1 e2 :
  writable_field f → (∀ j, writable j = true → Z.testbit e1 j = Z.testbit e2 j) → get f e1 = get f e2.
Proof. intros (Hf & Hw & Hj) Heq. apply get_bits_ext; [done..|]. intros j Hin. apply Heq, Hj, Hin. Qed.

End device_lemmas.

Lemma writable_fields :
  Forall writable_field [vector; delivery_mode; destination_mode; polarity; trigger_mode; mask; destination].
Proof. repeat constructor; cbn; try lia; intros j Hj; unfold writable; lia. Qed.

(** Fields after writes to fields. *)
Ltac fields :=
  unfold get, set;
  cbn [first_bit width vector delivery_mode destination_mode polarity trigger_mode mask destination];
  repeat first [rewrite get_set_same by lia | rewrite get_set_other by lia].

(** Read the fields of a pin just written through the entry written. *)
Ltac pin_fields Hbits :=
  pose proof writable_fields as Hfields; rewrite !Forall_cons in Hfields;
  destruct Hfields as (?&?&?&?&?&?&?&_);
  repeat match goal with |- context [get ?f (pin_entry ?d ?b ?p)] =>
    rewrite (get_ext f (pin_entry d b p) _ ltac:(assumption) Hbits) end; fields.

(** The fields of the low half that the code sets. *)
Definition low_fields : list bitfield :=
  [vector; delivery_mode; destination_mode; polarity; trigger_mode; mask].

#[export] Instance pin_polarity_dec : EqDecision pin_polarity_t.
Proof. solve_decision. Defined.
#[export] Instance trigger_mode_dec : EqDecision trigger_mode_t.
Proof. solve_decision. Defined.

Section routing.
Context `{IoApicDevice D}.
Implicit Types (s : apics D) (io : ioapic_t).

Lemma serves_chip io gsi :
  chip io → 0 ≤ gsi < 2 ^ 32 →
  serves gsi io = true → min_gsi io ≤ gsi < min_gsi io + num_pins io.
Proof.
  intros [_ _ Hp Hg] Hr Hs. unfold serves in Hs.
  rewrite (u32_small (min_gsi io + num_pins io - 1)) in Hs by lia. lia.
Qed.

(** The chip an interrupt belongs to: the first present one that has it. *)
Lemma ioapic_from_gsi_serves s gsi io :
  ioapic_from_gsi s gsi = Some io →
  ∃ i, (i < MAX_IOAPICS)%nat ∧ IOAPICS s !! i = Some io ∧ serves gsi io = true ∧
       ∀ k io', (k < i)%nat → IOAPICS s !! k = Some io' → serves gsi io' = false.
Proof.
  unfold ioapic_from_gsi. intros Hf.
  assert (Hgen : ∀ l : list ioapic_t, List.find (serves gsi) l = Some io →
    ∃ i, l !! i = Some io ∧ serves gsi io = true ∧
         ∀ k io', (k < i)%nat → l !! k = Some io' → serves gsi io' = false).
  { clear Hf. induction l as [|x l IH]; cbn [List.find]; [done|].
    destruct (serves gsi x) eqn:Hx; intros Hl.
    - injection Hl as ->. exists 0%nat. split_and!; [done|done|lia].
    - destruct (IH Hl) as (i & Hi & Hs & Hn). exists (S i). split_and!; [done|done|].
      intros [|k] io' Hk Hk'; [by injection Hk' as <-|]. apply (Hn k); [lia|done]. }
  destruct (Hgen _ Hf) as (i & Hi & Hs & Hn). apply lookup_take_Some in Hi as [Hi Hlt].
  exists i. split_and!; [done..|]. intros k io' Hk Hk'. apply (Hn k); [done|].
  rewrite lookup_take_lt by lia. done.
Qed.

(** What an operation on one pin leaves alone: the tables, and the registers
    of every other pin. *)
Definition only_pin (io : ioapic_t) (gsi : Z) s s' : Prop :=
  IOAPICS s' = IOAPICS s ∧ VECTOR_ATTRS s' = VECTOR_ATTRS s ∧
  ∀ b i, b ≠ ioregsel io ∨ (i ≠ 0x10 + (gsi - min_gsi io) * 2 ∧ i ≠ 0x11 + (gsi - min_gsi io) * 2) →
         reg (dev s') b i = reg (dev s) b i.

Definition entry_of s io gsi : Z := pin_entry (dev s) (ioregsel io) (gsi - min_gsi io).

Lemma from_gsi_range s gsi io :
  ioapic_from_gsi s gsi = Some io → chip io → 0 ≤ gsi < 2 ^ 32 →
  min_gsi io ≤ gsi < min_gsi io + num_pins io.
Proof.
  intros Hf Hc Hg. destruct (ioapic_from_gsi_serves _ _ _ Hf) as (_ & _ & _ & Hs & _).
  by apply serves_chip.
Qed.

Lemma only_pin_read s io gsi d :
  (∀ b i, reg d b i = reg (dev s) b i) → only_pin io gsi s (set_dev s d).
Proof. intros Hd. split_and!; [done..|]. intros b i _. apply Hd. Qed.

Lemma only_pin_refl s io gsi : only_pin io gsi s s.
Proof. by split_and!. Qed.

Lemma read_entry_regs s io gsi e d :
  chip io → min_gsi io ≤ gsi < min_gsi io + num_pins io →
  ioapic_read_entry (dev s) io gsi = (e, d) → ∀ b i, reg d b i = reg (dev s) b i.
Proof.
  intros Hc Hs He. destruct (read_entry_spec (dev s) io gsi Hc Hs) as (e' & d' & He' & Hd & _).
  rewrite He in He'. by injection He' as <- <-.
Qed.

Lemma only_pin_write s d io gsi e :
  (∀ b i, reg d b i = reg (dev s) b i) → chip io → min_gsi io ≤ gsi < min_gsi io + num_pins io →
  only_pin io gsi s (set_dev s (ioapic_write_entry d io gsi e)).
Proof.
  intros Hd Hc Hs. split_and!; [done..|]. intros b i Hbi. cbn [dev set_dev].
  rewrite (proj2 (write_entry_spec d io gsi e Hc Hs)) by done. apply Hd.
Qed.

(** Fields of the low half, below bit 31. *)
Definition low_field (f : bitfield) : Prop :=
  0 ≤ first_bit f ∧ 0 ≤ width f ∧ first_bit f + width f ≤ 31.

Lemma get_low_field f e1 e2 :
  low_field f → (∀ j, 0 ≤ j < 31 → Z.testbit e1 j = Z.testbit e2 j) → get f e1 = get f e2.
Proof. intros (?&?&?) Heq. apply get_bits_ext; [done..|]. intros j Hj. apply Heq. lia. Qed.

(** A number of 32 bits has no destination. *)
Lemma destination_low e : 0 ≤ e < 2 ^ 32 → get destination e = 0.
Proof.
  intros He. unfold get. cbn. rewrite get_bits_div by lia. rewrite (Z.div_small e) by lia. done.
Qed.

(** C29: Routing an IRQ fails and changes nothing when no I/O APIC has its global
    system interrupt.  Otherwise it succeeds; the pin's entry then has the
    vector, destination and mask asked for, fixed delivery, active high and
    edge triggered, with the destination mode it had, and no other register
    changes. *)
Theorem ioapic_route_irq_spec s m smp irq lapic_id vec masked :
  let gsi := gsi_from_irq m smp irq in
  (∀ io, ioapic_from_gsi s gsi = Some io → chip io) → 0 ≤ gsi < 2 ^ 32 →
  0 ≤ vec < 256 → 0 ≤ lapic_id < 256 →
  match ioapic_from_gsi s gsi, ioapic_route_irq s m smp irq lapic_id vec masked with
  | None, (ok, s') => ok = false ∧ s' = s
  | Some io, (ok, s') =>
      let e := entry_of s' io gsi in
      ok = true ∧ only_pin io gsi s s' ∧
      get vector e = vec ∧ get destination e = lapic_id ∧ get mask e = Z.b2z masked ∧
      get delivery_mode e = 0 ∧ get polarity e = 0 ∧ get trigger_mode e = 0 ∧
      get destination_mode e = get destination_mode (entry_of s io gsi)
  end.
Proof.
  intros gsi Hc Hg Hv Hl. unfold ioapic_route_irq. fold gsi.
  destruct (ioapic_from_gsi s gsi) as [io|] eqn:Hf; [|done].
  specialize (Hc io eq_refl). pose proof (from_gsi_range _ _ _ Hf Hc Hg) as Hs.
  destruct (read_entry_spec (dev s) io gsi Hc Hs) as (e0 & d1 & -> & Hd1 & _ & Hlow).
  edestruct (write_entry_spec d1 io gsi) as [Hbits Hoth]; [done..|].
  split; [done|]. split; [by apply (only_pin_write s d1)|].
  unfold entry_of. cbn [dev set_dev].
  rewrite <-(get_low_field destination_mode e0 _ ltac:(unfold low_field; cbn; lia) Hlow).
  pin_fields Hbits. rewrite !Z.mod_small by (destruct masked; cbn; lia). done.
Qed.

(** Distinct fields do not overlap. *)
Lemma fields_disjoint f g :
  f ∈ low_fields → g ∈ low_fields → g ≠ f →
  first_bit g + width g ≤ first_bit f ∨ first_bit f + width f ≤ first_bit g.
Proof.
  unfold low_fields. rewrite !elem_of_cons, !elem_of_nil. intros Hf Hg Hne.
  destruct_or! Hf; try done; subst f; destruct_or! Hg; try done; subst g; try done; cbn; lia.
Qed.

Lemma low_fields_ok f : f ∈ low_fields → low_field f ∧ writable_field f.
Proof.
  unfold low_fields. rewrite !elem_of_cons, !elem_of_nil. intros Hf.
  destruct_or! Hf; try done; subst f; unfold low_field, writable_field, writable; cbn;
    split_and!; try lia; intros; lia.
Qed.

(** What the setters do to an entry: [f] gets the value [v], the other fields of
    the low half are kept, and the destination is lost if [f] changes. *)
Definition field_updated (f : bitfield) (v e e' : Z) : Prop :=
  get f e' = v ∧ (∀ g, g ∈ low_fields → g ≠ f → get g e' = get g e) ∧
  get destination e' = if get f e =? v then get destination e else 0.

(** The common step of the setters: the entry is read without its upper half
    and written back if the field differs. *)
Lemma update_field_spec s io gsi f v :
  chip io → min_gsi io ≤ gsi < min_gsi io + num_pins io →
  f ∈ low_fields → 0 ≤ v < 2 ^ width f →
  ∃ e d, ioapic_read_entry (dev s) io gsi = (e, d) ∧
    only_pin io gsi s (set_dev s d) ∧
    (∀ g, g ∈ low_fields → get g e = get g (entry_of s io gsi)) ∧
    let s' := update_field (set_dev s d) io gsi f v e in
    only_pin io gsi s s' ∧ field_updated f v (entry_of s io gsi) (entry_of s' io gsi).
Proof.
  intros Hc Hs Hf Hv. destruct (low_fields_ok f Hf) as [(Hf1 & Hf2 & Hf3) Hfw].
  destruct (read_entry_spec (dev s) io gsi Hc Hs) as (e & d & He & Hd & Hr & Hlow).
  assert (Hget : ∀ g, g ∈ low_fields → get g e = get g (entry_of s io gsi)).
  { intros g Hg. apply get_low_field; [by apply low_fields_ok|done]. }
  exists e, d. split_and!; [done|by apply only_pin_read|done|]. unfold update_field. rewrite (Hget f Hf).
  destruct (Z.eqb_spec (get f (entry_of s io gsi)) v) as [Heq|Hne]; cbn [negb].
  - assert (Hsame : entry_of (set_dev s d) io gsi = entry_of s io gsi).
    { unfold entry_of, pin_entry. cbn [dev set_dev]. by rewrite !Hd. }
    split; [by apply only_pin_read|]. unfold field_updated. rewrite Hsame, Heq, Z.eqb_refl. done.
  - edestruct (write_entry_spec d io gsi) as [Hbits _]; [done..|].
    split; [by apply (only_pin_write s d)|]. unfold field_updated.
    rewrite (proj2 (Z.eqb_neq _ _) Hne). unfold entry_of at 1 2 4. cbn [dev set_dev].
    split; [|split].
    + rewrite (get_ext f _ _ Hfw Hbits). unfold get, set. rewrite get_set_same by lia.
      by apply Z.mod_small.
    + intros g Hg Hgf. destruct (low_fields_ok g Hg) as [(Hg1 & Hg2 & Hg3) Hgw].
      rewrite (get_ext g _ _ Hgw Hbits), <-Hget by done. unfold get, set.
      apply get_set_other; [lia..|]. by apply fields_disjoint.
    + pose proof writable_fields as Hw. rewrite !Forall_cons in Hw. destruct Hw as (_&_&_&_&_&_&Hw&_).
      rewrite (get_ext destination _ _ Hw Hbits). unfold get, set. rewrite get_set_other by (cbn; lia).
      by apply destination_low.
Qed.

(** Setting the mask of an interrupt touches no other pin and gives the
    mask; but when the mask changes, the interrupt is also sent to local APIC 0,
    whatever its destination was, because the entry is read without its upper
    half. *)
Theorem ioapic_set_gsi_mask_spec s gsi masked :
  (∀ io, ioapic_from_gsi s gsi = Some io → chip io) → 0 ≤ gsi < 2 ^ 32 →
  match ioapic_from_gsi s gsi, ioapic_set_gsi_mask s gsi masked with
  | None, (ok, s') => ok = false ∧ s' = s
  | Some io, (ok, s') =>
      ok = true ∧ only_pin io gsi s s' ∧
      field_updated mask (Z.b2z masked) (entry_of s io gsi) (entry_of s' io gsi)
  end.
Proof.
  intros Hc Hg. unfold ioapic_set_gsi_mask.
  destruct (ioapic_from_gsi s gsi) as [io|] eqn:Hf; [|done]. specialize (Hc io eq_refl).
  destruct (update_field_spec s io gsi mask (Z.b2z masked)) as (e & d & -> & _ & _ & Hu);
    [done|by apply (from_gsi_range s)|unfold low_fields; set_solver|destruct masked; cbn; lia|].
  split; [done|exact Hu].
Qed.

(** The polarity and the trigger mode are set the same way, with the
    refusals the kinds of interrupt call for: an SMI must be active high, an
    NMI or SMI edge triggered, and interrupt 0 level triggered; a refusal
    changes no register. *)
Theorem ioapic_set_gsi_pin_spec s gsi p t :
  (∀ io, ioapic_from_gsi s gsi = Some io → chip io) → 0 ≤ gsi < 2 ^ 32 →
  match ioapic_from_gsi s gsi, ioapic_set_gsi_polarity s gsi p, ioapic_set_gsi_trigger_mode s gsi t with
  | None, (ok1, s1), (ok2, s2) => ok1 = false ∧ s1 = s ∧ ok2 = false ∧ s2 = s
  | Some io, (ok1, s1), (ok2, s2) =>
      let e := entry_of s io gsi in
      let del := get delivery_mode e in
      ok1 = negb ((del =? 2) && bool_decide (p = ACTIVE_LOW)) ∧
      only_pin io gsi s s1 ∧
      (if ok1 then field_updated polarity (polarity_code p) e (entry_of s1 io gsi)
       else entry_of s1 io gsi = e) ∧
      ok2 = negb (((gsi =? 0) && bool_decide (t = EDGE_SENSITIVE)) ||
                  (((del =? 4) || (del =? 2)) && bool_decide (t = LEVEL_SENSITIVE))) ∧
      only_pin io gsi s s2 ∧
      (if ok2 then field_updated trigger_mode (trigger_code t) e (entry_of s2 io gsi)
       else entry_of s2 io gsi = e)
  end.
Proof.
  intros Hc Hg. unfold ioapic_set_gsi_polarity, ioapic_set_gsi_trigger_mode.
  destruct (ioapic_from_gsi s gsi) as [io|] eqn:Hf; [specialize (Hc io eq_refl)|by destruct (_ && _)].
  pose proof (from_gsi_range s gsi io Hf Hc Hg) as Hs.
  destruct (update_field_spec s io gsi polarity (polarity_code p)) as (e & d & He & Hd & Hget & Hp);
    [done..|unfold low_fields; set_solver|destruct p; cbn; lia|].
  destruct (update_field_spec s io gsi trigger_mode (trigger_code t)) as (e' & d' & He' & _ & _ & Ht);
    [done..|unfold low_fields; set_solver|destruct t; cbn; lia|].
  rewrite He in He'. injection He' as <- <-. rewrite He.
  assert (Hsame : entry_of (set_dev s d) io gsi = entry_of s io gsi).
  { unfold entry_of, pin_entry. cbn [dev set_dev]. by rewrite !(read_entry_regs s io gsi e d). }
  rewrite (Hget delivery_mode) by (unfold low_fields; set_solver).
  generalize (get delivery_mode (entry_of s io gsi)). intros del. cbn zeta in *.
  destruct Hp as [Hp1 Hp2], Ht as [Ht1 Ht2].
  pose proof (only_pin_refl s io gsi) as Hrefl.
  destruct p, t, (gsi =? 0), (del =? 2) eqn:E2, (del =? 4) eqn:E4;
    cbn [polarity_code trigger_code delivery_code] in *; rewrite ?E2, ?E4; cbn; split_and!; done.
Qed.

(** Rerouting an interrupt to a local APIC other than 0 sends it there and
    keeps everything else; rerouting it to local APIC 0 does nothing, whatever
    its destination is, because the entry read always has destination 0. *)
Theorem ioapic_reroute_gsi_spec s gsi lapic_id :
  (∀ io, ioapic_from_gsi s gsi = Some io → chip io) → 0 ≤ gsi < 2 ^ 32 → 0 ≤ lapic_id < 256 →
  match ioapic_from_gsi s gsi, ioapic_reroute_gsi s gsi lapic_id with
  | None, (ok, s') => ok = false ∧ s' = s
  | Some io, (ok, s') =>
      ok = true ∧ only_pin io gsi s s' ∧
      (∀ g, g ∈ low_fields → get g (entry_of s' io gsi) = get g (entry_of s io gsi)) ∧
      get destination (entry_of s' io gsi) =
        if lapic_id =? 0 then get destination (entry_of s io gsi) else lapic_id
  end.
Proof.
  intros Hc Hg Hl. unfold ioapic_reroute_gsi.
  destruct (ioapic_from_gsi s gsi) as [io|] eqn:Hf; [specialize (Hc io eq_refl)|done].
  pose proof (from_gsi_range s gsi io Hf Hc Hg) as Hs.
  destruct (read_entry_spec (dev s) io gsi Hc Hs) as (e & d & -> & Hd & Hr & Hlow).
  split; [done|]. unfold update_field. rewrite (destination_low e Hr), (Z.eqb_sym 0).
  destruct (Z.eqb_spec lapic_id 0) as [->|Hne]; cbn [negb].
  - split; [by apply only_pin_read|]. unfold entry_of, pin_entry. cbn [dev set_dev]. by rewrite !Hd.
  - edestruct (write_entry_spec d io gsi) as [Hbits _]; [done..|].
    split; [by apply (only_pin_write s d)|]. unfold entry_of at 1 3. cbn [dev set_dev]. split.
    + intros g Hin. destruct (low_fields_ok g Hin) as [Hlf Hgw].
      rewrite (get_ext g _ _ Hgw Hbits). destruct Hlf as (Hg1 & Hg2 & Hg3). unfold get, set.
      rewrite get_set_other by (cbn; lia). apply (get_low_field g); [done|exact Hlow].
    + pin_fields Hbits. apply Z.mod_small. cbn. lia.
Qed.

(** ** Initialisation *)

(** How a global system interrupt is set up: its vector; whether it is
    delivered as a non-maskable interrupt; whether the pin is active low and
    level-triggered; and whether it starts masked. *)
Record pin_config := PinConfig {
  cfg_vector : Z; cfg_nmi : bool; cfg_low : bool; cfg_level : bool; cfg_masked : bool;
}.

(** The flags of a record, read the way the kernel does: bit 1 is active high,
    bit 3 is level-triggered. *)
Definition low_flag (flags : Z) : bool := negb (Z.testbit flags 1).
Definition level_flag (flags : Z) : bool := Z.testbit flags 3.

(** The first record of an array that a predicate holds of; one at the null
    address counts as none. *)
Definition first_record (p : Z → bool) (l : list Z) : option Z :=
  match List.find p l with Some r => if r =? 0 then None else Some r | None => None end.
Definition override_of (m : mem) (smp : smp_info_t) (gsi : Z) : option Z :=
  first_record (λ r, iso_gsi m r =? gsi) (records (isos smp) sizeof_IntSourceOverrideRecord (num_isos smp)).
Definition nmi_source_of (m : mem) (smp : smp_info_t) (gsi : Z) : option Z :=
  first_record (λ r, nmi_source_gsi m r =? gsi) (records (nmi_sources smp) sizeof_NmiSourceRecord (num_nmi_sources smp)).

(** Interrupts below 16 are edge-triggered and active high on their own vectors,
    whatever the overrides say; above them an interrupt source override, or a
    non-maskable interrupt source, or a level-triggered PCI interrupt.  Only
    the non-maskable sources start unmasked. *)
Definition pin_config_of (m : mem) (smp : smp_info_t) (gsi : Z) : pin_config :=
  if gsi <? 16 then PinConfig (gsi + 0x20) false false false true
  else
    match override_of m smp gsi, nmi_source_of m smp gsi with
    | Some iso, _ =>
        PinConfig ((iso_irq_source m iso + 0x20) mod 256) false (low_flag (iso_flags m iso))
          (level_flag (iso_flags m iso)) true
    | None, Some nmi =>
        PinConfig ((gsi + 0x20) mod 256) true (low_flag (nmi_source_flags m nmi))
          (level_flag (nmi_source_flags m nmi)) false
    | None, None => PinConfig ((gsi + 0x20) mod 256) false false true true
    end.

(** An entry set up that way and sent to [lapic], read by the fields of the
    redirection table: delivery mode 4 is for non-maskable interrupts, polarity
    1 is active low, trigger mode 1 is level. *)
Definition configured (c : pin_config) (lapic e : Z) : Prop :=
  get vector e = cfg_vector c ∧ get delivery_mode e = (if cfg_nmi c then 4 else 0) ∧
  get polarity e = Z.b2z (cfg_low c) ∧ get trigger_mode e = Z.b2z (cfg_level c) ∧
  get mask e = Z.b2z (cfg_masked c) ∧ get destination_mode e = 0 ∧ get destination e = lapic.

Lemma configured_ext c l e1 e2 :
  (∀ j, writable j = true → Z.testbit e1 j = Z.testbit e2 j) →
  configured c l e2 → configured c l e1.
Proof.
  intros Hbits. pose proof writable_fields as Hw. rewrite !Forall_cons in Hw.
  destruct Hw as (?&?&?&?&?&?&?&_). unfold configured.
  rewrite !(get_ext _ e1 e2) by done. done.
Qed.

Lemma make_entry_fields junk vec (nmi low level masked : bool) l del pol trig :
  0 ≤ l < 256 → delivery_code del = (if nmi then 4 else 0) → polarity_code pol = Z.b2z low →
  trigger_code trig = Z.b2z level →
  configured (PinConfig (vec mod 256) nmi low level masked) l
    (set destination l (set destination_mode 0 (make_entry junk vec del pol trig (Z.b2z masked)))) ∧
  get vector (set destination_mode 0 (make_entry junk vec del pol trig (Z.b2z masked))) = vec mod 256.
Proof.
  intros Hl Hdel Hpol Htrig. unfold configured, make_entry. cbn [cfg_vector cfg_nmi cfg_low cfg_level cfg_masked].
  rewrite Hdel, Hpol, Htrig. fields. rewrite (Z.mod_small l) by (cbn; lia).
  split_and!; try done; by destruct nmi, low, level, masked.
Qed.

Lemma low_flag_code flags : polarity_code (get_pin_polarity flags) = Z.b2z (low_flag flags).
Proof.
  unfold get_pin_polarity, low_flag. change 2 with (2 ^ 1). rewrite land_bit_test by lia.
  by destruct (Z.testbit flags 1).
Qed.

Lemma level_flag_code flags : trigger_code (get_trigger_mode flags) = Z.b2z (level_flag flags).
Proof.
  unfold get_trigger_mode, level_flag. change 8 with (2 ^ 3). rewrite land_bit_test by lia.
  by destruct (Z.testbit flags 3).
Qed.

Lemma first_record_found p base size n :
  first_record p (records base size n) =
    let r := find_record (Z.to_nat n) p base size in if r =? 0 then None else Some r.
Proof.
  cbv zeta. unfold first_record. destruct (decide (0 ≤ n)) as [Hn|Hn].
  - rewrite find_record_records by done. by destruct (List.find _ _) as [r|].
  - unfold records. by rewrite Z2Nat.nonpos, seqZ_nil by lia.
Qed.

Lemma initial_entry_fields m smp gsi junk l :
  0 ≤ gsi → 0 ≤ l < 256 →
  configured (pin_config_of m smp gsi) l
    (set destination l (set destination_mode 0 (initial_entry m smp gsi junk))) ∧
  get vector (set destination_mode 0 (initial_entry m smp gsi junk)) = cfg_vector (pin_config_of m smp gsi).
Proof.
  intros Hg Hl. unfold initial_entry, pin_config_of, override_of, nmi_source_of, MAX_ISA_IRQ.
  rewrite !first_record_found. fold (gsi_get_iso m smp gsi) (gsi_get_nmi_source m smp gsi).
  destruct (Z.ltb_spec gsi 16) as [Hlt|].
  - pose proof (make_entry_fields junk (gsi + 0x20) false false false true l ICR_FIXED ACTIVE_HIGH EDGE_SENSITIVE Hl) as Hm.
    rewrite (Z.mod_small (gsi + 0x20)) in Hm by lia. by apply Hm.
  - cbv zeta. destruct (gsi_get_iso m smp gsi =? 0); cbn [negb];
      [destruct (gsi_get_nmi_source m smp gsi =? 0); cbn [negb]|].
    + by apply (make_entry_fields junk _ false false true true).
    + apply (make_entry_fields junk _ true _ _ false); [done..|apply low_flag_code|apply level_flag_code].
    + apply (make_entry_fields junk _ false _ _ true); [done..|apply low_flag_code|apply level_flag_code].
Qed.

Lemma cfg_vector_range m smp gsi : 0 ≤ gsi → 0 ≤ cfg_vector (pin_config_of m smp gsi) < 256.
Proof.
  intros Hg. unfold pin_config_of. destruct (Z.ltb_spec gsi 16); [cbn; lia|].
  destruct (override_of _ _ _); [|destruct (nmi_source_of _ _ _)]; by apply Z.mod_pos_bound.
Qed.

(** What the pins [lo .. hi) of a chip look like, and what is unchanged. *)
Definition pins_set_up (io : ioapic_t) (m : mem) (smp : smp_info_t) (l lo hi : Z) s s' : Prop :=
  IOAPICS s' = IOAPICS s ∧ length (VECTOR_ATTRS s') = length (VECTOR_ATTRS s) ∧
  (∀ gsi, lo ≤ gsi < hi → gsi ≠ 0 → configured (pin_config_of m smp gsi) l (entry_of s' io gsi)) ∧
  (∀ b i, b ≠ ioregsel io ∨ (∀ gsi, lo ≤ gsi < hi → gsi ≠ 0 →
      i ≠ 0x10 + (gsi - min_gsi io) * 2 ∧ i ≠ 0x11 + (gsi - min_gsi io) * 2) →
      reg (dev s') b i = reg (dev s) b i) ∧
  (∀ gsi, lo ≤ gsi < hi → gsi ≠ 0 →
     (∀ gsi', gsi < gsi' < hi → cfg_vector (pin_config_of m smp gsi') ≠ cfg_vector (pin_config_of m smp gsi)) →
     ∃ a, VECTOR_ATTRS s' !! Z.to_nat (cfg_vector (pin_config_of m smp gsi)) = Some a ∧
          attr_gsi a = gsi ∧ attr_ioapic_ind a = apic_id io ∧
          attr_irq a = u8 (cfg_vector (pin_config_of m smp gsi) - 0x20)) ∧
  (∀ v, (∀ gsi, lo ≤ gsi < hi → gsi ≠ 0 → Z.to_nat (cfg_vector (pin_config_of m smp gsi)) ≠ v) →
     VECTOR_ATTRS s' !! v = VECTOR_ATTRS s !! v).

Lemma init_one_spec s m smp l io gsi junk :
  chip io → 0 ≤ l < 256 → min_gsi io ≤ gsi < min_gsi io + num_pins io →
  length (VECTOR_ATTRS s) = 256%nat →
  pins_set_up io m smp l gsi (gsi + 1) s (init_one s m smp l io gsi junk).
Proof.
  intros Hc Hl Hs Hlen. assert (0 ≤ gsi) by (destruct Hc; lia). unfold init_one.
  destruct (Z.eqb_spec gsi 0) as [->|Hne].
  { split_and!; try done; intros g ? ?; lia. }
  destruct (initial_entry_fields m smp gsi junk l) as [Hcfg Hvec]; [lia|done|].
  cbn zeta. change (dest_mode_code IOAPIC_PHYSICAL) with 0. rewrite Hvec.
  pose proof (cfg_vector_range m smp gsi ltac:(lia)) as Hvr.
  edestruct (write_entry_spec (dev s) io gsi) as [Hbits Hoth]; [done..|].
  split_and!; cbn [IOAPICS VECTOR_ATTRS dev]; [done|by rewrite length_insert|..].
  - intros g Hg _. assert (g = gsi) as -> by lia. eapply configured_ext; [exact Hbits|exact Hcfg].
  - intros b i Hbi. apply Hoth. destruct Hbi as [|Hbi]; [by left|right; apply Hbi; lia].
  - intros g Hg _ _. assert (g = gsi) as -> by lia. eexists.
    rewrite list_lookup_insert_eq by lia. done.
  - intros v Hv. apply list_lookup_insert_ne. apply Hv; lia.
Qed.

Lemma pins_set_up_trans io m smp l lo mid hi s s' s'' :
  lo ≤ mid ≤ hi → 0 ≤ lo →
  pins_set_up io m smp l lo mid s s' → pins_set_up io m smp l mid hi s' s'' →
  pins_set_up io m smp l lo hi s s''.
Proof.
  intros Hm Hlo (A1 & A2 & A3 & A4 & A5 & A6) (B1 & B2 & B3 & B4 & B5 & B6).
  split_and!; [congruence..| | | |].
  - intros gsi Hg Hne. destruct (decide (mid ≤ gsi)); [apply B3; lia|].
    replace (entry_of s'' io gsi) with (entry_of s' io gsi); [apply A3; lia|].
    unfold entry_of, pin_entry. rewrite !B4; [done|right; intros; lia..].
  - intros b i Hbi. rewrite B4, A4; [done|..]; (destruct Hbi as [|Hbi]; [by left|]); right;
      intros g ? ?; apply Hbi; lia.
  - intros gsi Hg Hne Hlast. destruct (decide (mid ≤ gsi)).
    + apply B5; [lia|done|]. intros g ?. apply Hlast. lia.
    + destruct (A5 gsi) as (a & Ha & Hrest); [lia|done|intros g ?; apply Hlast; lia|].
      exists a. split; [|done]. rewrite B6; [done|]. intros g Hg' Hg0 Heq.
      apply (Hlast g); [lia|]. pose proof (cfg_vector_range m smp g). pose proof (cfg_vector_range m smp gsi). lia.
  - intros v Hv. rewrite B6, A6; [done|..]; intros g ? ?; apply Hv; lia.
Qed.

Lemma init_loop_spec m smp l io junk k : ∀ s gsi,
  chip io → 0 ≤ l < 256 → length (VECTOR_ATTRS s) = 256%nat →
  min_gsi io ≤ gsi → gsi + Z.of_nat k ≤ min_gsi io + num_pins io →
  pins_set_up io m smp l gsi (gsi + Z.of_nat k) s (init_loop k s m smp l io gsi junk).
Proof.
  induction k as [|k IH]; intros s gsi Hc Hl Hlen Hlo Hhi; cbn [init_loop].
  { split_and!; try done; intros; lia. }
  pose proof (init_one_spec s m smp l io gsi (junk gsi) Hc Hl ltac:(lia) Hlen) as H1.
  eapply (pins_set_up_trans _ _ _ _ _ (gsi + 1)); [lia|destruct Hc; lia|exact H1|].
  replace (gsi + Z.of_nat (S k)) with (gsi + 1 + Z.of_nat k) by lia.
  apply IH; [done..| |lia|lia]. destruct H1 as (_ & -> & _). done.
Qed.

(** C28: Initialisation sets up every pin of the chip but that of interrupt 0,
    physically addressed to the bootstrap processor: the interrupts from 1 to
    15 edge-triggered, active high and masked on their own vectors, whatever
    the MADT's overrides say; those above by the first override for them (the
    vector its source plus 0x20, polarity and trigger mode its flags' bits 1
    and 3, masked), else by the first non-maskable source (not masked), else
    level-triggered, active high and masked.  The table [VECTOR_ATTRS] names,
    for every vector, the last interrupt on it; interrupt 0's pin, the other
    registers and the other chips are not touched. *)
Theorem initialize_ioapic_ints_spec s m smp l io junk :
  chip io → 0 ≤ l < 256 → length (VECTOR_ATTRS s) = 256%nat →
  pins_set_up io m smp l (min_gsi io) (min_gsi io + num_pins io) s
    (initialize_ioapic_ints s m smp l io junk).
Proof.
  intros Hc Hl Hlen. unfold initialize_ioapic_ints.
  pose proof (init_loop_spec m smp l io junk (Z.to_nat (num_pins io)) s (min_gsi io) Hc Hl Hlen) as H1.
  destruct Hc. rewrite Z2Nat.id in H1 by lia. apply H1; lia.
Qed.

End routing.

(** ** A concrete device

    Chips that keep every register as it is written. *)
Definition chips : Type := Z → Z * (Z → Z).

Definition fupd {A} (f : Z → A) (k : Z) (v : A) : Z → A := λ i, if i =? k then v else f i.

#[export] Instance chips_mmio : Mmio chips := {
  mmio_read a d := (u32 (snd (d (a - a mod 0x400)) (fst (d (a - a mod 0x400)))), d);
  mmio_write a v d :=
    let base := a - a mod 0x400 in
    let '(sel, regs) := d base in
    if a mod 0x400 =? 0 then fupd d base (v, regs) else fupd d base (sel, fupd regs sel v);
}.

#[export] Program Instance chips_device : IoApicDevice chips := {
  reg d base idx := u32 (snd (d base) idx);
}.
Next Obligation. intros. apply u32_range. Qed.
Next Obligation.
  intros d base idx Ha Hi. cbn [mmio_read mmio_write chips_mmio].
  rewrite Ha, Z.sub_0_r, Z.eqb_refl. destruct (d base) as [sel regs] eqn:Hd.
  assert ((base + 16) mod 0x400 = 16) as -> by dlia. rewrite Z.add_simpl_r.
  eexists. unfold fupd. rewrite Z.eqb_refl. cbn [fst snd].
  split; [done|]. intros b i. cbn beta. destruct (Z.eqb_spec b base) as [->|]; [|done]. by rewrite Hd.
Qed.
Next Obligation.
  intros d base idx v Ha Hi Hv. cbn [mmio_read mmio_write chips_mmio].
  rewrite Ha, Z.sub_0_r, Z.eqb_refl. destruct (d base) as [sel regs] eqn:Hd.
  assert ((base + 16) mod 0x400 = 16) as -> by dlia. rewrite Z.add_simpl_r. cbn zeta.
  unfold fupd. rewrite !Z.eqb_refl. change (16 =? 0) with false. cbn beta iota. split.
  - intros j _ _. rewrite !Z.eqb_refl. cbn [snd]. rewrite Z.eqb_refl. by rewrite u32_small by lia.
  - intros b i Hbi. cbn beta. destruct (Z.eqb_spec b base) as [->|]; [|done]. cbn [snd]. rewrite Hd. cbn [snd].
    by rewrite (proj2 (Z.eqb_neq i idx)) by lia.
Qed.

(** One chip with 24 pins; interrupt 1 goes to processor 3. *)
Definition example_ioapic : ioapic_t := Ioapic true 0xFEC00000 0xFEC00010 0 24 true 0.
Definition example_apics : apics chips :=
  Apics [example_ioapic] (repeat default_attr 256)
    (λ _, (0, fupd (fupd (λ _, 0) 0x12 0x21) 0x13 0x03000000)).

Lemma example_chip : chip example_ioapic.
Proof. split; first [by vm_compute|cbn; lia]. Qed.

Lemma example_served gsi io :
  ioapic_from_gsi example_apics gsi = Some io → chip io.
Proof.
  intros Hf. destruct (ioapic_from_gsi_serves _ _ _ Hf) as ([|[|i]] & _ & Hi & _); [|done..].
  injection Hi as <-. exact example_chip.
Qed.

(** IRQ 1 is routed to processor 5 on vector 0x31. *)
Lemma ioapic_route_irq_spec_witness :
  let s' := snd (ioapic_route_irq example_apics ∅ SMP_INFO_initial 1 5 0x31 false) in
  get vector (entry_of s' example_ioapic 1) = 0x31 ∧ get destination (entry_of s' example_ioapic 1) = 5.
Proof.
  pose proof (ioapic_route_irq_spec example_apics ∅ SMP_INFO_initial 1 5 0x31 false (example_served 1)
    ltac:(change (gsi_from_irq ∅ SMP_INFO_initial 1) with 1; lia) ltac:(lia) ltac:(lia)) as Hspec.
  destruct Hspec as (_ & _ & Hv & Hd & _). split; [exact Hv|exact Hd].
Defined.

(** Masking IRQ 1 also moves it from processor 3 to processor 0. *)
Lemma ioapic_set_gsi_mask_spec_witness :
  get destination (entry_of example_apics example_ioapic 1) = 3 ∧
  get destination (entry_of (snd (ioapic_set_gsi_mask example_apics 1 true)) example_ioapic 1) = 0.
Proof.
  pose proof (ioapic_set_gsi_mask_spec example_apics 1 true (example_served 1) ltac:(lia)) as Hspec.
  destruct Hspec as (_ & _ & _ & _ & Hd). split; [vm_compute; reflexivity|exact Hd].
Defined.

Lemma ioapic_set_gsi_pin_spec_witness :
  fst (ioapic_set_gsi_polarity example_apics 1 ACTIVE_LOW) = true ∧
  get polarity (entry_of (snd (ioapic_set_gsi_polarity example_apics 1 ACTIVE_LOW)) example_ioapic 1) = 1.
Proof.
  pose proof (ioapic_set_gsi_pin_spec example_apics 1 ACTIVE_LOW LEVEL_SENSITIVE (example_served 1)
    ltac:(lia)) as Hspec.
  destruct Hspec as (Hok & _ & Hp & _). split; [exact Hok|exact (proj1 Hp)].
Defined.

(** Rerouting to processor 0 leaves IRQ 1 at processor 3. *)
Lemma ioapic_reroute_gsi_spec_witness :
  get destination (entry_of (snd (ioapic_reroute_gsi example_apics 1 0)) example_ioapic 1) = 3.
Proof.
  pose proof (ioapic_reroute_gsi_spec example_apics 1 0 (example_served 1) ltac:(lia) ltac:(lia)) as Hspec.
  destruct Hspec as (_ & _ & _ & Hd). exact Hd.
Defined.

Lemma initialize_ioapic_ints_spec_witness :
  configured (PinConfig 0x22 false false false true) 4
    (entry_of (initialize_ioapic_ints example_apics ∅ SMP_INFO_initial 4 example_ioapic (λ _, 0xFFFFFFFF))
       example_ioapic 2).
Proof.
  pose proof (initialize_ioapic_ints_spec example_apics ∅ SMP_INFO_initial 4 example_ioapic
    (λ _, 0xFFFFFFFF) example_chip ltac:(lia) eq_refl) as Hspec.
  destruct Hspec as (_ & _ & Hpins & _). exact (Hpins 2 ltac:(cbn; lia) ltac:(lia)).
Defined.
