(* ===== verification/MadtParse.v ===== *)
(** * Parsing the multiple APIC description table

    [ParseMadt] of [src/src/kernel/acpi/madt.c]: five page frames hold the
    records of the table, one array per type; each I/O APIC is registered when
    its record is met. *)
From stdpp Require Import base list gmap.
From S2P Require Import Prelude Memory FrameAlloc Acpi Devices Madt IoApic.

(** ** State *)

Record machine (W D : Type) := Machine { frames : W; smp : smp_info_t; chips : apics D }.
Arguments Machine {W D}.
Arguments frames {W D}.
Arguments smp {W D}.
Arguments chips {W D}.

(** The kinds of record that are kept. *)
Definition array_kinds : list record_type :=
  [IO_APIC; PROCESSOR_LOCAL_APIC; INTERRUPT_SOURCE_OVERRIDE; NON_MASKABLE_INTERRUPT_SOURCE;
   LOCAL_NON_MASKABLE_INTERRUPT].

Definition decode_type (code : Z) : option record_type :=
  if code =? 0 then Some PROCESSOR_LOCAL_APIC else if code =? 1 then Some IO_APIC
  else if code =? 2 then Some INTERRUPT_SOURCE_OVERRIDE
  else if code =? 3 then Some NON_MASKABLE_INTERRUPT_SOURCE
  else if code =? 4 then Some LOCAL_NON_MASKABLE_INTERRUPT
  else if code =? 5 then Some LOCAL_APIC_ADDRESS_OVERRIDE
  else if code =? 9 then Some PROCESSOR_LOCAL_X2_APIC else None.

Definition array_base (s : smp_info_t) (t : record_type) : Z :=
  match t with
  | IO_APIC => io_apics s | PROCESSOR_LOCAL_APIC => lapics s | INTERRUPT_SOURCE_OVERRIDE => isos s
  | NON_MASKABLE_INTERRUPT_SOURCE => nmi_sources s | LOCAL_NON_MASKABLE_INTERRUPT => nmis s
  | _ => 0
  end.

Definition array_count (s : smp_info_t) (t : record_type) : Z :=
  match t with
  | IO_APIC => num_io_apics s | PROCESSOR_LOCAL_APIC => num_lapics s
  | INTERRUPT_SOURCE_OVERRIDE => num_isos s
  | NON_MASKABLE_INTERRUPT_SOURCE => num_nmi_sources s | LOCAL_NON_MASKABLE_INTERRUPT => num_nmis s
  | _ => 0
  end.

Definition record_size (t : record_type) : nat :=
  match t with
  | IO_APIC => Z.to_nat sizeof_IoApicRecord | PROCESSOR_LOCAL_APIC => Z.to_nat sizeof_ProcessorLocalApic
  | INTERRUPT_SOURCE_OVERRIDE => Z.to_nat sizeof_IntSourceOverrideRecord
  | NON_MASKABLE_INTERRUPT_SOURCE => Z.to_nat sizeof_NmiSourceRecord
  | LOCAL_NON_MASKABLE_INTERRUPT => Z.to_nat sizeof_NmiRecord
  | _ => 0
  end.

(** The counter of a kind, one up ([size_t]). *)
Definition count_one (s : smp_info_t) (t : record_type) : smp_info_t :=
  let '(SmpInfo a a' b b' c c' d d' e e' l) := s in
  match t with
  | IO_APIC => SmpInfo (u64 (a + 1)) a' b b' c c' d d' e e' l
  | PROCESSOR_LOCAL_APIC => SmpInfo a a' (u64 (b + 1)) b' c c' d d' e e' l
  | INTERRUPT_SOURCE_OVERRIDE => SmpInfo a a' b b' (u64 (c + 1)) c' d d' e e' l
  | NON_MASKABLE_INTERRUPT_SOURCE => SmpInfo a a' b b' c c' (u64 (d + 1)) d' e e' l
  | LOCAL_NON_MASKABLE_INTERRUPT => SmpInfo a a' b b' c c' d d' (u64 (e + 1)) e' l
  | _ => s
  end.

Definition set_lapic_addr (s : smp_info_t) (l : Z) : smp_info_t :=
  SmpInfo (num_io_apics s) (io_apics s) (num_lapics s) (lapics s) (num_isos s) (isos s)
    (num_nmi_sources s) (nmi_sources s) (num_nmis s) (nmis s) l.

(** ** Operations *)

Section parse.
Context `{FrameAllocator W} {D : Type} `{Mmio D}.
(** The local APIC of the bootstrap processor, and what the uninitialised
    redirection entries hold. *)
Context (bsp_lapic_id : Z) (junk : Z → Z).

(** [array[count++] = *record]. *)
Definition push_record (st : machine W D) (t : record_type) (record : Z) : machine W D :=
  let s := smp st in
  let dst := array_base s t + Z.of_nat (record_size t) * array_count s t in
  Machine (fa_write (memmove (fa_mem (frames st)) dst record (record_size t)) (frames st))
    (count_one s t) (chips st).

(** The [switch]. *)
Definition parse_record (st : machine W D) (record : Z) : machine W D :=
  let m := fa_mem (frames st) in
  match decode_type (ld8 m record) with
  | Some LOCAL_APIC_ADDRESS_OVERRIDE =>
      Machine (frames st) (set_lapic_addr (smp st) (override_lapic_addr m record)) (chips st)
  | Some PROCESSOR_LOCAL_X2_APIC | None => st
  | Some IO_APIC =>
      let st := push_record st IO_APIC record in
      Machine (frames st) (smp st)
        (register_ioapic (chips st) (fa_mem (frames st)) (smp st) bsp_lapic_id record junk)
  | Some t => push_record st t record
  end.

(** [for(i = ...; MADT_RECORDS_OFFSET + i < madt_len; i += record_len)]; [off] is
    [MADT_RECORDS_OFFSET + i], an [int].  The address and the length of the
    record are read before the [switch]. *)
Fixpoint parse_loop (fuel : nat) (st : machine W D) (madt madt_len off : Z) : outcome (machine W D) :=
  match fuel with
  | O => OutOfFuel
  | S fuel =>
      if off <? madt_len then
        let record := madt + off in
        let record_len := ld8 (fa_mem (frames st)) (record + 1) in
        parse_loop fuel (parse_record st record) madt madt_len (off + record_len)
      else Done st
  end.

(** A null pointer is dereferenced when there is no table. *)
Definition ParseMadt (fuel : nat) (acpi_state : acpi) (apic_string : Z) (st : machine W D)
    : outcome (machine W D) :=
  madt ← FindTable (fa_mem (frames st)) acpi_state apic_string;
  _ ← check (negb (madt =? 0));
  let madt_len := i32 (table_length (fa_mem (frames st)) madt) in
  '(f1, w) ← fa_alloc (frames st);
  '(f2, w) ← fa_alloc w;
  '(f3, w) ← fa_alloc w;
  '(f4, w) ← fa_alloc w;
  '(f5, w) ← fa_alloc w;
  let s := smp st in
  let s := SmpInfo (num_io_apics s) f1 (num_lapics s) f2 (num_isos s) f3
             (num_nmi_sources s) f4 (num_nmis s) f5 (lapic_addr s) in
  parse_loop fuel (Machine w s (chips st)) madt madt_len MADT_RECORDS_OFFSET.

End parse.

(** ** Specification *)

#[export] Instance record_type_dec : EqDecision record_type.
Proof. solve_decision. Defined.

(** The addresses of the records of a table, from offset [off] on; every
    record met has a length. *)
Inductive madt_records (m : mem) (madt len : Z) : Z → list Z → Prop :=
| records_end off : len ≤ off → madt_records m madt len off []
| records_next off rs :
    off < len → 0 < ld8 m (madt + off + 1) →
    madt_records m madt len (off + ld8 m (madt + off + 1)) rs →
    madt_records m madt len off (madt + off :: rs).

(** The records of one kind, in the table's order. *)
Definition of_kind (m : mem) (t : record_type) (rs : list Z) : list Z :=
  filter (λ r, bool_decide (decode_type (ld8 m r) = Some t)) rs.

(** The address of the local APICs: the last override wins. *)
Definition last_lapic_addr (m : mem) (addr : Z) (rs : list Z) : Z :=
  fold_left (λ a r, if bool_decide (decode_type (ld8 m r) = Some LOCAL_APIC_ADDRESS_OVERRIDE)
                    then override_lapic_addr m r else a) rs addr.

(** The arrays hold exactly the records [rs] of the table in [m0]. *)
Definition holds_records (m0 m : mem) (s : smp_info_t) (rs : list Z) : Prop :=
  ∀ t, t ∈ array_kinds →
    array_count s t = Z.of_nat (length (of_kind m0 t rs)) ∧
    ∀ k r, of_kind m0 t rs !! k = Some r → ∀ o, 0 ≤ o < Z.of_nat (record_size t) →
      ld8 m (array_base s t + Z.of_nat (record_size t) * Z.of_nat k + o) = ld8 m0 (r + o).

(** A record lies in frames of [w0]. *)
Definition record_kept `{FrameAllocator W} (w0 : W) (r : Z) : Prop :=
  ∀ a, r ≤ a < r + 12 → ∃ g, fa_client w0 g ∧ g ≤ a < g + 4096.

(** *** Records outside the memory that changes *)

Section agreement.
Context (A : Z → Prop) (m m' : mem) (Hagree : ∀ a, A a → ld8 m' a = ld8 m a).
Context (rs : list Z) (Hrs : Forall (λ r, spans A r 12) rs).

Lemma record_type_agree r : r ∈ rs → ld8 m' r = ld8 m r.
Proof. intros Hr. rewrite Forall_forall in Hrs. apply Hagree, (Hrs r Hr). lia. Qed.

Lemma of_kind_agree t : of_kind m' t rs = of_kind m t rs.
Proof. apply filter_ext_in. intros r Hr. by rewrite record_type_agree. Qed.

Lemma last_lapic_agree addr : last_lapic_addr m' addr rs = last_lapic_addr m addr rs.
Proof.
  unfold last_lapic_addr. revert addr. pose proof Hrs as Hspans.
  induction Hspans as [|r rs' Hr Hspans IH]; intros addr; [done|]. cbn [fold_left].
  rewrite (Hagree r) by (apply Hr; lia). unfold override_lapic_addr.
  rewrite (ld_agree A m m' Hagree 8 (r + 4)) by (eapply spans_sub; [exact Hr|lia..]).
  by apply IH.
Qed.

(** What has been copied from the one memory is what the other holds. *)
Lemma holds_records_agree mf s : holds_records m' mf s rs → holds_records m mf s rs.
Proof.
  intros Hh t Ht. destruct (Hh t Ht) as [Hc Hr]. rewrite of_kind_agree in Hc, Hr. split; [done|].
  intros k r Hk o Ho. rewrite (Hr k r Hk o Ho). apply Hagree.
  assert (Hin : r ∈ rs).
  { apply list_elem_of_lookup_2, list_elem_of_filter in Hk as [_ ?]. done. }
  rewrite Forall_forall in Hrs. apply (Hrs r Hin).
  assert (record_size t ≤ 12)%nat by (destruct t; vm_compute; lia). lia.
Qed.

End agreement.

Lemma madt_records_agree (A : Z → Prop) m m' madt len off rs :
  (∀ a, A a → ld8 m' a = ld8 m a) → Forall (λ r, spans A r 12) rs →
  madt_records m madt len off rs → madt_records m' madt len off rs.
Proof.
  intros Hagree Hrs. induction 1 as [off Hend|off rs Hlt Hlen _ IH]; [by constructor|].
  apply Forall_cons in Hrs as [Hr Hrs].
  assert (Hb : ld8 m' (madt + off + 1) = ld8 m (madt + off + 1)) by (apply Hagree, Hr; lia).
  constructor; rewrite ?Hb; [done|done|by apply IH].
Qed.

(** The arrays stay what they are while their frames are kept. *)
Lemma holds_records_kept m0 m m' s rs :
  holds_records m0 m s rs →
  (∀ t, t ∈ array_kinds → Z.of_nat (record_size t) * array_count s t ≤ 4096 ∧
     ∀ a, array_base s t ≤ a < array_base s t + 4096 → ld8 m' a = ld8 m a) →
  holds_records m0 m' s rs.
Proof.
  intros Hh Hk t Ht. destruct (Hh t Ht) as [Hc Hr], (Hk t Ht) as [Hf Hsame]. split; [done|].
  intros k r Hkr o Ho. rewrite Hsame; [by apply (Hr k)|]. apply lookup_lt_Some in Hkr. nia.
Qed.

Section parse_proofs.
Context `{FrameAllocatorLaws W} {D : Type} `{Mmio D}.
Context (bsp_lapic_id : Z) (junk : Z → Z).
(** The machine before [ParseMadt], the frames it allocates, and how many it
    leaves for later. *)
Context (w0 : W) (addr0 : Z) (B : record_type → Z) (K : nat).
Notation m0 := (fa_mem w0).
Implicit Types st : machine W D.

(** The invariant of the loop, when the records [rs] have been read. *)
Record parsed st (rs : list Z) : Prop := {
  p_ok : fa_ok (frames st);
  p_avail : fa_avail (frames st) K;
  p_base t : t ∈ array_kinds → array_base (smp st) t = B t;
  p_client t : t ∈ array_kinds → fa_client (frames st) (B t);
  p_new t : t ∈ array_kinds → ¬ fa_client w0 (B t);
  p_distinct t t' : t ∈ array_kinds → t' ∈ array_kinds → t ≠ t' → B t ≠ B t';
  p_old g : fa_client w0 g → fa_client (frames st) g;
  p_keeps : keeps_clients w0 (frames st);
  p_holds : holds_records m0 (fa_mem (frames st)) (smp st) rs;
  p_fits t : t ∈ array_kinds → Z.of_nat (record_size t) * Z.of_nat (length (of_kind m0 t rs)) ≤ 4096;
  p_lapic : lapic_addr (smp st) = last_lapic_addr m0 addr0 rs;
}.

Lemma record_byte st rs r o :
  parsed st rs → record_kept w0 r → 0 ≤ o < 12 → ld8 (fa_mem (frames st)) (r + o) = ld8 m0 (r + o).
Proof.
  intros Hp Hr Ho. destruct (Hr (r + o) ltac:(lia)) as (g & Hg & Ha). by apply (p_keeps st rs Hp g).
Qed.

Lemma record_ld st rs r n o :
  parsed st rs → record_kept w0 r → 0 ≤ o → o + Z.of_nat n ≤ 12 →
  ld n (fa_mem (frames st)) (r + o) = ld n m0 (r + o).
Proof.
  intros Hp Hr Ho Hn. apply ld_ext. intros b Hb.
  replace b with (r + (b - r)) by lia. apply (record_byte st rs); (done || lia).
Qed.

Lemma of_kind_snoc t rs r :
  of_kind m0 t (rs ++ [r]) =
    of_kind m0 t rs ++ (if bool_decide (decode_type (ld8 m0 r) = Some t) then [r] else []).
Proof.
  unfold of_kind. rewrite filter_app, filter_cons, filter_nil.
  by destruct (bool_decide _).
Qed.

Lemma last_lapic_snoc rs r :
  last_lapic_addr m0 addr0 (rs ++ [r]) =
    if bool_decide (decode_type (ld8 m0 r) = Some LOCAL_APIC_ADDRESS_OVERRIDE)
    then override_lapic_addr m0 r else last_lapic_addr m0 addr0 rs.
Proof. unfold last_lapic_addr. by rewrite fold_left_app. Qed.

(** A record that is not kept leaves the arrays' description true. *)
Lemma holds_skip m s rs r :
  (∀ t, t ∈ array_kinds → decode_type (ld8 m0 r) ≠ Some t) →
  holds_records m0 m s rs → holds_records m0 m s (rs ++ [r]).
Proof.
  intros Hr Hh t Ht. rewrite of_kind_snoc, bool_decide_eq_false_2, app_nil_r by auto. by apply Hh.
Qed.

Lemma array_base_count s t t' : array_base (count_one s t) t' = array_base s t'.
Proof. by destruct s, t, t'. Qed.

Lemma lapic_addr_count s t : lapic_addr (count_one s t) = lapic_addr s.
Proof. by destruct s, t. Qed.

Lemma array_count_count s t t' :
  t ∈ array_kinds → array_count (count_one s t) t' = if decide (t = t') then u64 (array_count s t' + 1) else array_count s t'.
Proof. unfold array_kinds. intros Ht. destruct s, t; try (by set_solver); by destruct t'. Qed.

Lemma record_size_pos t : t ∈ array_kinds → (6 ≤ record_size t ≤ 12)%nat.
Proof. unfold array_kinds. destruct t; try (by set_solver); vm_compute; lia. Qed.

(** Writing to an array leaves the other page frames as they are. *)
Lemma array_page_kept st rs t m' g a :
  parsed st rs → t ∈ array_kinds → same_outside (B t) (B t + 4096) (fa_mem (frames st)) m' →
  fa_client (frames st) g → g ≠ B t → g ≤ a < g + 4096 → ld8 m' a = ld8 (fa_mem (frames st)) a.
Proof.
  intros Hp Ht Hpage Hg Hne Ha. apply Hpage. destruct (client_disjoint (frames st) g (B t)); try done; try lia.
  - apply (p_ok _ _ Hp).
  - by apply (p_client _ _ Hp).
Qed.

(** The record at the end of its array, after those already there. *)
Lemma record_appended st rs r t :
  parsed st rs → record_kept w0 r → t ∈ array_kinds →
  let n := length (of_kind m0 t rs) in let dst := B t + Z.of_nat (record_size t) * Z.of_nat n in
  let m' := memmove (fa_mem (frames st)) dst r (record_size t) in
  ∀ k r', (of_kind m0 t rs ++ [r]) !! k = Some r' → ∀ o, 0 ≤ o < Z.of_nat (record_size t) →
    ld8 m' (B t + Z.of_nat (record_size t) * Z.of_nat k + o) = ld8 m0 (r' + o).
Proof.
  intros Hp Hr Ht n dst m' k r' Hr' o Ho. destruct (p_holds st rs Hp t Ht) as [_ Hin].
  rewrite (p_base _ _ Hp t Ht) in Hin. apply lookup_app_Some in Hr' as [Hr'|[Hlen Hr']].
  - rewrite <-(Hin k r') by done. apply lookup_lt_Some in Hr'. fold n in Hr'.
    apply (memmove_outside (fa_mem (frames st)) dst r (record_size t)). unfold dst. nia.
  - apply list_lookup_singleton_Some in Hr' as [Hk0 <-].
    assert (k = n) as -> by lia. fold dst. unfold m'. rewrite ld8_memmove.
    destruct (Z.leb_spec dst (dst + o)), (Z.ltb_spec (dst + o) (dst + Z.of_nat (record_size t))); try lia.
    cbn [andb]. rewrite <-(record_byte st rs r o) by (done || (pose proof (record_size_pos t Ht); lia)). f_equal. lia.
Qed.

(** A kept record is appended to the array of its kind. *)
Lemma push_record_spec st rs r t :
  parsed st rs → record_kept w0 r → t ∈ array_kinds → decode_type (ld8 m0 r) = Some t →
  Z.of_nat (record_size t) * (Z.of_nat (length (of_kind m0 t rs)) + 1) ≤ 4096 →
  parsed (push_record st t r) (rs ++ [r]).
Proof.
  intros Hp Hr Ht Hk Hfit. pose proof (record_size_pos t Ht) as Hsz.
  destruct (p_holds st rs Hp t Ht) as [Hcnt _].
  set (n := Z.of_nat (length (of_kind m0 t rs))) in *.
  set (dst := B t + Z.of_nat (record_size t) * n).
  set (m' := memmove (fa_mem (frames st)) dst r (record_size t)).
  assert (Hout : same_outside dst (dst + Z.of_nat (record_size t)) (fa_mem (frames st)) m')
    by apply memmove_outside.
  assert (Hpage : same_outside (B t) (B t + 4096) (fa_mem (frames st)) m').
  { eapply same_outside_mono; [exact Hout|unfold dst; lia..]. }
  destruct (fa_write_ok m' (frames st) (B t) (p_ok _ _ Hp) (p_client _ _ Hp t Ht) Hpage) as (Hok & Hcl & Hav).
  assert (Heq : push_record st t r = Machine (fa_write m' (frames st)) (count_one (smp st) t) (chips st)).
  { unfold push_record. by rewrite (p_base _ _ Hp t Ht), Hcnt. }
  rewrite Heq. split; cbn [frames smp]; rewrite ?fa_mem_write.
  - done.
  - apply Hav, Hp.
  - intros t' Ht'. rewrite array_base_count. by apply (p_base _ _ Hp).
  - intros t' Ht'. apply Hcl. by apply (p_client _ _ Hp).
  - apply (p_new _ _ Hp).
  - apply (p_distinct _ _ Hp).
  - intros g Hg. apply Hcl. by apply (p_old _ _ Hp).
  - intros g a Hg Ha. rewrite fa_mem_write. rewrite <-(p_keeps _ _ Hp g a) by done.
    apply (array_page_kept st rs t m' g); try done; [by apply (p_old _ _ Hp)|intros ->; by apply (p_new _ _ Hp t)].
  - intros t' Ht'. rewrite of_kind_snoc, array_count_count, array_base_count by done.
    destruct (p_holds st rs Hp t' Ht') as [Hcnt' Hin]. rewrite (p_base _ _ Hp t' Ht') in Hin |- *.
    destruct (decide (t = t')) as [<-|Hne].
    + rewrite bool_decide_eq_true_2, length_app by done. rewrite Hcnt. cbn [length].
      split; [rewrite u64_small; lia|]. by apply (record_appended st rs).
    + rewrite bool_decide_eq_false_2, app_nil_r by congruence. split; [done|].
      intros k r' Hr' o Ho. rewrite <-(Hin k r') by done.
      pose proof (p_fits _ _ Hp t' Ht'). apply lookup_lt_Some in Hr'.
      apply (array_page_kept st rs t m' (B t')); try done; [by apply (p_client _ _ Hp)| |nia].
      intros Heqb. by apply (p_distinct _ _ Hp t' t).
  - intros t' Ht'. rewrite of_kind_snoc. pose proof (p_fits _ _ Hp t' Ht').
    destruct (bool_decide_reflect (decode_type (ld8 m0 r) = Some t')) as [Hk'|]; [|by rewrite app_nil_r].
    rewrite Hk in Hk'. injection Hk' as <-. rewrite length_app. cbn [length]. lia.
  - rewrite lapic_addr_count, (p_lapic _ _ Hp), last_lapic_snoc, bool_decide_eq_false_2; [done|].
    rewrite Hk. intros [=->]. unfold array_kinds in Ht. set_solver.
Qed.

Definition fits (rs : list Z) : Prop :=
  ∀ t, t ∈ array_kinds → Z.of_nat (record_size t) * Z.of_nat (length (of_kind m0 t rs)) ≤ 4096.

Lemma fits_prefix rs rs' : fits (rs ++ rs') → fits rs.
Proof.
  intros Hf t Ht. specialize (Hf t Ht). unfold of_kind in *. rewrite filter_app, length_app in Hf. nia.
Qed.

(** The state of the I/O APICs is no part of the invariant. *)
Lemma parsed_chips w s c c' rs : parsed (Machine w s c) rs → parsed (Machine w s c') rs.
Proof. intros []. by split. Qed.

Lemma parsed_skip st rs r :
  parsed st rs → (∀ t, t ∈ array_kinds → decode_type (ld8 m0 r) ≠ Some t) →
  decode_type (ld8 m0 r) ≠ Some LOCAL_APIC_ADDRESS_OVERRIDE → parsed st (rs ++ [r]).
Proof.
  intros Hp Hr Hl. split; try by apply Hp.
  - apply holds_skip; [done|apply Hp].
  - intros t Ht. rewrite of_kind_snoc, bool_decide_eq_false_2, app_nil_r by auto. by apply Hp.
  - rewrite last_lapic_snoc, bool_decide_eq_false_2 by done. apply Hp.
Qed.

Lemma parsed_lapic st rs r :
  parsed st rs → record_kept w0 r → decode_type (ld8 m0 r) = Some LOCAL_APIC_ADDRESS_OVERRIDE →
  parsed (Machine (frames st) (set_lapic_addr (smp st) (override_lapic_addr (fa_mem (frames st)) r)) (chips st))
    (rs ++ [r]).
Proof.
  intros Hp Hr Hk.
  assert (Hno : ∀ t, t ∈ array_kinds → decode_type (ld8 m0 r) ≠ Some t).
  { intros t Ht. rewrite Hk. intros [= <-]. unfold array_kinds in Ht. set_solver. }
  split; try by (intros t; by destruct t; apply Hp).
  all: try by apply Hp.
  - assert (Hh : holds_records m0 (fa_mem (frames st)) (smp st) (rs ++ [r]))
      by (apply holds_skip; [done|apply Hp]).
    intros t Ht. specialize (Hh t Ht). by destruct t.
  - intros t Ht. rewrite of_kind_snoc, bool_decide_eq_false_2, app_nil_r by auto. by apply Hp.
  - rewrite last_lapic_snoc, bool_decide_eq_true_2 by done. cbn [smp lapic_addr set_lapic_addr].
    apply (record_ld st rs); (done || lia).
Qed.

Lemma parse_record_spec st rs r :
  parsed st rs → record_kept w0 r → fits (rs ++ [r]) →
  parsed (parse_record bsp_lapic_id junk st r) (rs ++ [r]).
Proof.
  intros Hp Hr Hfit. unfold parse_record.
  assert (Hty : ld8 (fa_mem (frames st)) r = ld8 m0 r).
  { pose proof (record_byte st rs r 0 Hp Hr ltac:(lia)) as Hb. by rewrite Z.add_0_r in Hb. }
  rewrite Hty.
  assert (Hpush : ∀ t, t ∈ array_kinds → decode_type (ld8 m0 r) = Some t → parsed (push_record st t r) (rs ++ [r])).
  { intros t Ht Hk. apply push_record_spec; [done..|]. specialize (Hfit t Ht).
    rewrite of_kind_snoc, bool_decide_eq_true_2, length_app in Hfit by done. cbn [length] in Hfit. lia. }
  unfold array_kinds in Hpush.
  destruct (decode_type (ld8 m0 r)) as [[]|] eqn:Hk; try (by apply Hpush; [set_solver|]).
  - eapply parsed_chips, Hpush; [set_solver|done].
  - by apply parsed_lapic.
  - apply parsed_skip; [done|intros t Ht; rewrite Hk; unfold array_kinds in Ht; set_solver|congruence].
  - apply parsed_skip; [done|intros t Ht; by rewrite Hk|congruence].
Qed.

(** The loop reads the records that are left. *)
Lemma parse_loop_spec madt len rs' : ∀ fuel st rs off,
  madt_records m0 madt len off rs' → parsed st rs → Forall (record_kept w0) rs' → fits (rs ++ rs') →
  (length rs' < fuel)%nat →
  ∃ st', parse_loop bsp_lapic_id junk fuel st madt len off = Done st' ∧ parsed st' (rs ++ rs').
Proof.
  induction rs' as [|r rs' IH]; intros fuel st rs off Hrec Hp Hk Hfit Hfuel;
    (destruct fuel as [|fuel]; [cbn in Hfuel; lia|]); cbn [parse_loop];
    inversion Hrec as [off' Hend|off' rs'' Hlt Hlen Hrest]; subst.
  - rewrite (proj2 (Z.ltb_ge _ _)) by lia. exists st. by rewrite app_nil_r.
  - apply Forall_cons in Hk as [Hkr Hk]. rewrite (proj2 (Z.ltb_lt _ _)) by lia.
    rewrite (record_byte st rs) by (done || lia).
    rewrite cons_middle, (assoc_L (++)) in Hfit |- *.
    apply IH; [done| |done|done|cbn in Hfuel; lia].
    apply parse_record_spec; [done..|]. by eapply fits_prefix.
Qed.

End parse_proofs.

(** ** Properties *)

Section parse_properties.
Context `{FrameAllocatorLaws W} {D : Type} `{Mmio D}.
Context (bsp_lapic_id : Z) (junk : Z → Z).

(** What [ParseMadt] leaves of the records [rs] of the table, with [k] frames
    to spare. *)
Record madt_parsed (w0 : W) (rs : list Z) (k : nat) (st' : machine W D) : Prop := {
  mp_records : holds_records (fa_mem w0) (fa_mem (frames st')) (smp st') rs;
  mp_lapic : lapic_addr (smp st') = last_lapic_addr (fa_mem w0) DEFAULT_LAPIC_ADDR rs;
  mp_arrays : ∀ t, t ∈ array_kinds →
    fa_client (frames st') (array_base (smp st') t) ∧ ¬ fa_client w0 (array_base (smp st') t) ∧
    Z.of_nat (record_size t) * array_count (smp st') t ≤ 4096;
  mp_ok : fa_ok (frames st');
  mp_avail : fa_avail (frames st') k;
  mp_clients : ∀ g, fa_client w0 g → fa_client (frames st') g;
  mp_kept : keeps_clients w0 (frames st');
}.

Lemma ParseMadt_parses fuel acpi_state apic_string (st : machine W D) madt rs k :
  let w0 := frames st in
  let m := fa_mem w0 in
  smp st = SMP_INFO_initial → fa_ok w0 → fa_avail w0 (5 + k) →
  FindTable m acpi_state apic_string = Done madt → madt ≠ 0 → table_length m madt < 2 ^ 31 →
  madt_records m madt (table_length m madt) MADT_RECORDS_OFFSET rs →
  Forall (record_kept w0) rs → fits w0 rs → (length rs < fuel)%nat →
  ∃ st', ParseMadt bsp_lapic_id junk fuel acpi_state apic_string st = Done st' ∧ madt_parsed w0 rs k st'.
Proof.
  intros w0 m Hsmp Hok Hav Hfind Hnz Hlen Hrec Hkept Hfit Hfuel. unfold ParseMadt.
  fold w0 m. rewrite Hfind. do_bind. rewrite check_true by (rewrite (proj2 (Z.eqb_neq _ _)); done). do_bind.
  pose proof (ld32_range m (madt + sdt_length SdtHeader)).
  rewrite i32_small by (unfold table_length in *; lia).
  destruct (alloc_step w0 (4 + k) Hok Hav) as (f1 & w1 & -> & F1 & A1). do_bind.
  destruct (alloc_step w1 (3 + k) (ff_ok _ _ _ F1) A1) as (f2 & w2 & -> & F2 & A2). do_bind.
  destruct (alloc_step w2 (2 + k) (ff_ok _ _ _ F2) A2) as (f3 & w3 & -> & F3 & A3). do_bind.
  destruct (alloc_step w3 (1 + k) (ff_ok _ _ _ F3) A3) as (f4 & w4 & -> & F4 & A4). do_bind.
  destruct (alloc_step w4 k (ff_ok _ _ _ F4) A4) as (f5 & w5 & -> & F5 & A5). do_bind.
  destruct (fresh_frames_spec w0 [f1; f2; f3; f4; f5] w5) as (Hok5 & Hnd & Hold & Hnew & Hkeep).
  { repeat (econstructor; [eassumption|]). constructor. by apply ff_ok in F5. }
  rewrite Hsmp. cbn [SMP_INFO_initial num_io_apics num_lapics num_isos num_nmi_sources num_nmis lapic_addr].
  set (s0 := SmpInfo 0 f1 0 f2 0 f3 0 f4 0 f5 DEFAULT_LAPIC_ADDR).
  assert (Hp : parsed w0 DEFAULT_LAPIC_ADDR (array_base s0) k (Machine w5 s0 (chips st)) []).
  { assert (Hin : ∀ t, t ∈ array_kinds → array_base s0 t ∈ [f1; f2; f3; f4; f5]).
    { unfold array_kinds. intros [] Ht; try (exfalso; set_solver +Ht); cbn; set_solver +. }
    split; cbn [frames smp]; try done.
    - intros t Ht. by apply Hnew, Hin.
    - intros t Ht. by apply Hnew, Hin.
    - rewrite !NoDup_cons, !not_elem_of_cons in Hnd. clear -Hnd. unfold array_kinds.
      intros [] [] Ht Ht' Hne; try done; try (exfalso; set_solver +Ht Ht'); cbn; naive_solver congruence.
    - intros t Ht. split; [by destruct t|intros j r Hr; by destruct j].
    - intros t _. cbn. lia. }
  destruct (parse_loop_spec bsp_lapic_id junk w0 DEFAULT_LAPIC_ADDR (array_base s0) k madt
    (table_length m madt) rs fuel (Machine w5 s0 (chips st)) [] MADT_RECORDS_OFFSET) as (st' & Hst & Hp'); try done.
  exists st'. split; [done|]. split; try apply Hp'.
  intros t Ht. destruct (p_holds _ _ _ _ _ _ Hp' t Ht) as [-> _].
  rewrite (p_base _ _ _ _ _ _ Hp' t Ht). split_and!; by apply Hp'.
Qed.

(** C27: For a table whose records all have a length and fit the five arrays of
    a page each, [ParseMadt] ends, and each array holds exactly the records of
    its kind in the table's order, with its count, in a frame of its own; the
    address of the local APICs is the last override's, or the default; frames
    handed out before are not touched, and five are used. *)
Theorem ParseMadt_spec fuel acpi_state apic_string (st : machine W D) madt rs k :
  let w0 := frames st in
  let m := fa_mem w0 in
  smp st = SMP_INFO_initial → fa_ok w0 → fa_avail w0 (5 + k) →
  FindTable m acpi_state apic_string = Done madt → madt ≠ 0 → table_length m madt < 2 ^ 31 →
  madt_records m madt (table_length m madt) MADT_RECORDS_OFFSET rs →
  Forall (record_kept w0) rs → fits w0 rs → (length rs < fuel)%nat →
  ∃ st', ParseMadt bsp_lapic_id junk fuel acpi_state apic_string st = Done st' ∧ madt_parsed w0 rs k st'.
Proof. apply ParseMadt_parses. Qed.

(** A record of length 0 is read for ever. *)
Lemma parse_loop_stuck fuel : ∀ (st : machine W D) madt len off,
  off < len → ld8 (fa_mem (frames st)) (madt + off + 1) = 0 →
  decode_type (ld8 (fa_mem (frames st)) (madt + off)) = None →
  parse_loop bsp_lapic_id junk fuel st madt len off = OutOfFuel.
Proof.
  induction fuel as [|fuel IH]; intros st madt len off Hlt Hlen Hty; [done|]. cbn [parse_loop].
  rewrite (proj2 (Z.ltb_lt _ _) Hlt), Hlen, Z.add_0_r. apply IH; [done|..].
  all: unfold parse_record; by rewrite Hty.
Qed.

End parse_properties.

(** ** A concrete table *)

Definition write_bytes (m : mem) (a : Z) (l : list Z) : mem :=
  fold_left (λ m '(i, b), st8 m (a + i) b) (zip (seqZ 0 (Z.of_nat (length l))) l) m.

Lemma write_bytes_outside m a l lo hi :
  lo ≤ a → a + Z.of_nat (length l) ≤ hi → same_outside lo hi m (write_bytes m a l).
Proof.
  intros Hlo Hhi. unfold write_bytes.
  assert (Hgen : ∀ k, (0 ≤ k) → a + k + Z.of_nat (length l) ≤ hi →
    same_outside lo hi m (fold_left (λ m '(i, b), st8 m (a + i) b) (zip (seqZ k (Z.of_nat (length l))) l) m)).
  { clear Hhi. revert m. induction l as [|b l IH]; intros m k Hk Hi; [by intros x|].
    cbn [length] in *. rewrite Nat2Z.inj_succ, seqZ_cons, Z.pred_succ by lia. cbn [zip_with fold_left].
    intros x Hx. rewrite <-Z.add_1_r. rewrite (IH _ (k + 1) ltac:(lia) ltac:(lia)) by done.
    rewrite ld8_st8_ne; [done|lia]. }
  apply Hgen; lia.
Qed.

(** A header, then a local APIC, an I/O APIC and an NMI on LINT 1. *)
Definition ex_madt_bytes : list Z :=
  [65; 80; 73; 67; 70; 0; 0; 0; 0; 188] ++ repeat 0 34 ++
  [0; 8; 0; 3; 1; 0; 0; 0] ++
  [1; 12; 0; 0; 0; 0; 192; 254; 0; 0; 0; 0] ++
  [4; 6; 255; 0; 0; 1].

(** The table lies in frame 1, with the list of tables and the identifier
    behind it. *)
Definition ex_madt_mem : mem :=
  let m := write_bytes (Pmm.pmm_mem (Pmm.take_frame blank_pmm 1)) 0x1000 ex_madt_bytes in
  let m := write_bytes m 0x1800 [0; 16; 0; 0; 0; 0; 0; 0] in
  write_bytes m 0x1900 [65; 80; 73; 67; 0].
Definition ex_madt_pmm : Pmm.pmm := fa_write ex_madt_mem (Pmm.take_frame blank_pmm 1).

Definition ex_madt_acpi : acpi := Acpi [] 44 0x1800 true.
Definition ex_madt_machine : machine Pmm.pmm IoApic.chips :=
  Machine ex_madt_pmm SMP_INFO_initial example_apics.

Example ex_madt_found : FindTable (fa_mem ex_madt_pmm) ex_madt_acpi 0x1900 = Done 0x1000.
Proof. vm_compute. reflexivity. Qed.

Lemma ex_madt_ok : fa_ok ex_madt_pmm ∧ fa_client ex_madt_pmm 0x1000 ∧ fa_avail ex_madt_pmm 5.
Proof.
  pose proof blank_ok as Hok. change (Pmm.pmm_ok blank_pmm) in Hok.
  assert (Hu : Pmm.used blank_pmm 1 = false) by (apply blank_used; lia).
  pose proof (pmm_fresh_frame blank_pmm 1 Hok ltac:(cbn; lia) Hu) as Hf.
  destruct (fa_write_ok ex_madt_mem (Pmm.take_frame blank_pmm 1) 0x1000) as (H1 & H2 & H3).
  - exact (ff_ok _ _ _ Hf).
  - exact (ff_client _ _ _ Hf).
  - unfold ex_madt_mem. cbv zeta.
    eapply same_outside_trans; [|apply write_bytes_outside; [lia|vm_compute; discriminate]].
    eapply same_outside_trans; apply write_bytes_outside; (lia || vm_compute; discriminate).
  - split_and!; [exact H1| |].
    + apply H2. exact (ff_client _ _ _ Hf).
    + apply H3. unfold fa_avail, pmm_FrameAllocator.
      pose proof (Pmm.count_free_take_frame blank_pmm 1 Hok ltac:(cbn; lia) Hu) as Hc.
      pose proof (blank_avail 7 ltac:(lia)) as Hb. unfold fa_avail, pmm_FrameAllocator in Hb.
      change (1 <? Pmm.num_entries (Pmm.PHYS_MEMORY_MAP blank_pmm)) with true in Hc. cbn [Z.b2z] in Hc.
      lia.
Qed.

Lemma ParseMadt_spec_witness : ∃ st',
  ParseMadt 0 (λ _, 0) 4 ex_madt_acpi 0x1900 ex_madt_machine = Done st' ∧
  num_lapics (smp st') = 1 ∧ num_nmis (smp st') = 1 ∧
  ld8 (fa_mem (frames st')) (lapics (smp st') + 3) = 3.
Proof.
  destruct ex_madt_ok as (Hok & Hcl & Hav).
  destruct (ParseMadt_spec 0 (λ _, 0) 4 ex_madt_acpi 0x1900 ex_madt_machine 0x1000 [0x102C; 0x1034; 0x1040] 0)
    as (st' & Hst & [Hh _ _ _ _ _ _]).
  - reflexivity.
  - exact Hok.
  - exact Hav.
  - exact ex_madt_found.
  - discriminate.
  - vm_compute. reflexivity.
  - repeat (econstructor; [vm_compute; reflexivity|vm_compute; reflexivity|]). constructor.
    vm_compute. discriminate.
  - repeat constructor; intros a Ha; exists 0x1000; (split; [exact Hcl|lia]).
  - intros t Ht. unfold array_kinds in Ht.
    destruct t; try (exfalso; set_solver +Ht); vm_compute; discriminate.
  - cbn; lia.
  - exists st'. split; [exact Hst|].
    destruct (Hh PROCESSOR_LOCAL_APIC) as [H1 H2]; [unfold array_kinds; set_solver +|].
    destruct (Hh LOCAL_NON_MASKABLE_INTERRUPT) as [H3 _]; [unfold array_kinds; set_solver +|].
    cbn [array_count array_base] in H1, H2, H3.
    split; [rewrite H1; vm_compute; reflexivity|]. split; [rewrite H3; vm_compute; reflexivity|].
    assert (Hat : of_kind (fa_mem (frames ex_madt_machine)) PROCESSOR_LOCAL_APIC [0x102C; 0x1034; 0x1040] !! 0%nat
      = Some 0x102C) by (vm_compute; reflexivity).
    specialize (H2 0%nat 0x102C Hat 3 ltac:(vm_compute; intuition discriminate)).
    rewrite Z.mul_0_r, Z.add_0_r in H2. rewrite H2. vm_compute. reflexivity.
Defined.
