(* ===== verification/Pit.v ===== *)
(** * The programmable interval timer

    [src/src/kernel/hal/pit.c]: the command byte, the rate of channel 0 and
    reading its count, through the I/O ports of [Devices]. *)
From stdpp Require Import base list.
From S2P Require Import Prelude Bitfields Devices.

(** ** Constants and data *)

Definition DEFAULT_PIT_HZ : Z := 1193180.
Definition PIT_CHAN0_DATA : Z := 0x40.
Definition PIT_COMMAND : Z := 0x43.

Inductive pit_op_mode_t :=
| INT_TERMINAL_COUNT | RETRIG_ONE_SHOT | RATE_GENERATOR | SQUARE_WAVE_GENERATOR
| SOFTWARE_STROBE | HARDWARE_STROBE.
Definition op_mode_code (m : pit_op_mode_t) : Z :=
  match m with
  | INT_TERMINAL_COUNT => 0 | RETRIG_ONE_SHOT => 1 | RATE_GENERATOR => 2
  | SQUARE_WAVE_GENERATOR => 3 | SOFTWARE_STROBE => 4 | HARDWARE_STROBE => 5
  end.

Inductive pit_access_mode_t := PIT_LATCH | PIT_LOBYTE_ONLY | PIT_HIBYTE_ONLY | PIT_LO_AND_HI_BYTES.
Definition access_mode_code (m : pit_access_mode_t) : Z :=
  match m with PIT_LATCH => 0 | PIT_LOBYTE_ONLY => 1 | PIT_HIBYTE_ONLY => 2 | PIT_LO_AND_HI_BYTES => 3 end.

Inductive pit_binary_mode_t := PIT_BINARY | PIT_BCD.
Definition binary_mode_code (m : pit_binary_mode_t) : Z :=
  match m with PIT_BINARY => 0 | PIT_BCD => 1 end.

(** [pit_command_t]; the fields from the lowest bit on have 1, 3, 2 and 2 bits. *)
Record pit_command_t := PitCommand {
  binary_mode : Z; operating_mode : Z; access_mode : Z; channel : Z;
}.

(** The byte a command structure is in memory. *)
Definition command_byte (c : pit_command_t) : Z :=
  set_bits (set_bits (set_bits (set_bits 0 0 1 (binary_mode c)) 1 3 (operating_mode c))
    4 2 (access_mode c)) 6 2 (channel c).

(** ** State and operations *)

(** [TIMER_HANDLER] is a function pointer; [None] is the initial [NULL]. *)
Record pit (D H : Type) := Pit { TIMER_HANDLER : option H; ports : D }.
Arguments Pit {D H}.
Arguments TIMER_HANDLER {D H}.
Arguments ports {D H}.

Section pit.
Context {D H : Type} `{Ports D}.

Definition send_pit_command (d : D) (command : pit_command_t) : D :=
  outportb PIT_COMMAND (command_byte command) d.

(** Division by zero when [hz] is 0. *)
Definition set_pit_periodic (d : D) (hz : Z) : outcome D :=
  let reset_com := PitCommand (binary_mode_code PIT_BINARY) (op_mode_code RATE_GENERATOR)
                     (access_mode_code PIT_LO_AND_HI_BYTES) 0 in
  let d := send_pit_command d reset_com in
  _ ← check (negb (hz =? 0));
  let reset_value := u16 (Z.quot DEFAULT_PIT_HZ hz) in
  let reset_lower := u8 reset_value in
  let reset_upper := u8 (Z.shiftr reset_value 8) in
  let d := outportb PIT_CHAN0_DATA reset_lower d in
  Done (outportb PIT_CHAN0_DATA reset_upper d).

Definition read_pit_count (d : D) : Z * D :=
  let read_cnt := PitCommand (binary_mode_code PIT_BINARY) 0 (access_mode_code PIT_LATCH) 0 in
  let d := send_pit_command d read_cnt in
  let '(count, d) := inportb PIT_CHAN0_DATA d in
  let '(high, d) := inportb PIT_CHAN0_DATA d in
  (Z.lor count (Z.shiftl high 8), d).

Definition register_pit_handler (s : pit D H) (handler : H) : pit D H := Pit (Some handler) (ports s).
Definition get_timer_handler (s : pit D H) : option H := TIMER_HANDLER s.

End pit.

(** ** The device

    What the driver relies on of channel 0: the command 0x34 makes the two
    bytes that follow, low byte first, the reload value of the rate generator;
    the command 0x00 latches the count, which is then read low byte first. *)
Class PitDevice (D : Type) `{Ports D} := {
  reload : D → Z;
  count : D → Z;
  count_range d : 0 ≤ count d < 2 ^ 16;
  pit_reload d lo hi :
    0 ≤ lo < 256 → 0 ≤ hi < 256 →
    reload (outportb 0x40 hi (outportb 0x40 lo (outportb 0x43 0x34 d))) = lo + 256 * hi;
  pit_latch d :
    ∃ d' d'', inportb 0x40 (outportb 0x43 0 d) = (count d mod 256, d') ∧
      inportb 0x40 d' = (count d / 256, d'');
}.

(** ** Properties *)

Section pit_proofs.
Context `{PitDevice D}.
Implicit Types d : D.

(** [set_pit_periodic] divides by zero for a rate of 0; from 19 Hz on the
    reload value is the one that comes closest to the rate from above, so the
    rate obtained is at least the rate asked for; below 19 Hz the reload value
    does not fit 16 bits and only its low half is used. *)
Theorem set_pit_periodic_spec d hz :
  0 ≤ hz < 2 ^ 16 →
  if hz =? 0 then set_pit_periodic d hz = Undefined
  else ∃ d', set_pit_periodic d hz = Done d' ∧
    if 19 <=? hz then reload d' * hz ≤ DEFAULT_PIT_HZ < (reload d' + 1) * hz
    else reload d' = DEFAULT_PIT_HZ / hz mod 2 ^ 16 ∧ reload d' < DEFAULT_PIT_HZ / hz.
Proof.
  intros Hhz. destruct (Z.eqb_spec hz 0) as [->|Hne]; [done|]. unfold set_pit_periodic.
  rewrite check_true by (rewrite (proj2 (Z.eqb_neq _ _)); done). do_bind. eexists. split; [done|].
  unfold send_pit_command. change (command_byte _) with 0x34.
  rewrite Z.quot_div_nonneg by (unfold DEFAULT_PIT_HZ; lia).
  assert (Hr : 0 ≤ u16 (DEFAULT_PIT_HZ / hz) < 2 ^ 16) by (apply Z.mod_pos_bound; lia).
  unfold PIT_CHAN0_DATA, PIT_COMMAND. rewrite pit_reload by apply u8_range.
  rewrite Z.shiftr_div_pow2, (u8_small (_ / _)) by dlia.
  assert (Hsum : u8 (u16 (DEFAULT_PIT_HZ / hz)) + 256 * (u16 (DEFAULT_PIT_HZ / hz) / 2 ^ 8) =
                 u16 (DEFAULT_PIT_HZ / hz)) by (unfold u8; dlia).
  rewrite Hsum. destruct (Z.leb_spec 19 hz).
  - rewrite u16_small; unfold DEFAULT_PIT_HZ in *; dlia.
  - split; [done|]. assert (2 ^ 16 ≤ DEFAULT_PIT_HZ / hz); [|lia].
    apply Z.div_le_lower_bound; unfold DEFAULT_PIT_HZ; lia.
Qed.

(** [read_pit_count] returns the 16-bit count the command latched. *)
Theorem read_pit_count_spec d : fst (read_pit_count d) = count d.
Proof.
  unfold read_pit_count, send_pit_command. change (command_byte _) with 0.
  destruct (pit_latch d) as (d1 & d2 & E1 & E2). unfold PIT_CHAN0_DATA, PIT_COMMAND. rewrite E1, E2.
  cbn [fst]. pose proof (count_range d). rewrite Z.lor_comm, (lor_low _ _ 8).
  - rewrite Z.shiftl_mul_pow2 by lia. dlia.
  - lia.
  - rewrite Z.shiftl_mul_pow2 by lia. apply Z.mod_mul. lia.
  - apply Z.mod_pos_bound. lia.
Qed.

(** Every field of a command is where the device expects it. *)
Lemma command_byte_fields c :
  get_bits (command_byte c) 0 1 = binary_mode c mod 2 ∧
  get_bits (command_byte c) 1 3 = operating_mode c mod 8 ∧
  get_bits (command_byte c) 4 2 = access_mode c mod 4 ∧
  get_bits (command_byte c) 6 2 = channel c mod 4.
Proof.
  unfold command_byte. repeat split;
    repeat first [rewrite get_set_same by lia|rewrite get_set_other by lia]; done.
Qed.

End pit_proofs.

(** ** A concrete device

    The bytes still expected or latched, the reload value and the count. *)
Record toy_pit := ToyPit { toy_mode : Z; toy_bytes : list Z; toy_reload : Z; toy_count : Z }.

#[export] Instance toy_ports : Ports toy_pit := {
  inportb p d :=
    match toy_bytes d with
    | b :: l => (b, ToyPit (toy_mode d) l (toy_reload d) (toy_count d))
    | [] => (0, d)
    end;
  outportb p v d :=
    if p =? 0x43 then
      ToyPit v (if v =? 0 then [toy_count d mod 2 ^ 16 mod 256; toy_count d mod 2 ^ 16 / 256] else [])
        (toy_reload d) (toy_count d)
    else match toy_bytes d with
         | [] => ToyPit (toy_mode d) [v] (toy_reload d) (toy_count d)
         | lo :: _ => ToyPit (toy_mode d) [] (lo + 256 * v) (toy_count d)
         end;
}.

#[export] Program Instance toy_pit_device : PitDevice toy_pit := {
  reload := toy_reload;
  count d := toy_count d mod 2 ^ 16;
}.
Next Obligation. intros. apply Z.mod_pos_bound. lia. Qed.
Next Obligation. done. Qed.
Next Obligation. intros d. eexists _, _. done. Qed.

Lemma set_pit_periodic_spec_witness :
  ∃ d', set_pit_periodic (ToyPit 0 [] 0 0) 10 = Done d' ∧ reload d' = 53782 ∧
        DEFAULT_PIT_HZ / 10 = 119318.
Proof.
  destruct (set_pit_periodic_spec (ToyPit 0 [] 0 0) 10 ltac:(lia)) as (d' & H1 & H2 & _).
  exists d'. split; [exact H1|]. split; [exact H2|reflexivity].
Defined.
