(* ===== verification/Lapic.v ===== *)
(** * The local APIC

    [src/src/kernel/hal/lapic.c]: enabling, non-maskable interrupts, end of
    interrupt, inter-processor interrupts and the calibration of the timer, and
    the start of the other processors in [src/src/kernel/hal/cpu_init.c]. *)
From stdpp Require Import base list gmap.
From S2P Require Import Prelude Memory FrameAlloc Bitfields Devices Madt IoApic Pit SpinLock.

(** ** Constants and data *)

Definition ALL_LAPICS : Z := 0xFF.
Definition NMI_INT_VECTOR : Z := 0xFF.

(** [lapic_reg_t] *)
Definition LAPIC_ID_REG : Z := 0x020.
Definition LAPIC_VERSION_REG : Z := 0x030.
Definition LAPIC_EOI_REG : Z := 0x0B0.
Definition LAPIC_SPURIOUS_INT_REG : Z := 0x0F0.
Definition LAPIC_ICR0_REG : Z := 0x300.
Definition LAPIC_ICR1_REG : Z := 0x310.
Definition LAPIC_TIMER_REG : Z := 0x320.
Definition LAPIC_LINT0_REG : Z := 0x350.
Definition LAPIC_LINT1_REG : Z := 0x360.
Definition LAPIC_INIT_COUNT_REG : Z := 0x380.
Definition LAPIC_CURRENT_COUNT_REG : Z := 0x390.
Definition LAPIC_DIVIDE_CONFIG_REG : Z := 0x3E0.

Inductive lvt_delivery_t := LVT_FIXED | LVT_SMI | LVT_NMI | LVT_INIT | LVT_EXTERNAL.
Definition lvt_delivery_code (m : lvt_delivery_t) : Z :=
  match m with LVT_FIXED => 0 | LVT_SMI => 1 | LVT_NMI => 4 | LVT_INIT => 5 | LVT_EXTERNAL => 7 end.

Inductive timer_mode_t := ONE_SHOT | PERIODIC | TSC_DEADLINE.
Definition timer_mode_code (m : timer_mode_t) : Z :=
  match m with ONE_SHOT => 0 | PERIODIC => 1 | TSC_DEADLINE => 2 end.

(** The fields of [lvt_entry_t]. *)
Definition lvt_vector := Field 0 8.
Definition lvt_delivery_mode := Field 8 3.
Definition lvt_pin_polarity := Field 13 1.
Definition lvt_trigger_mode := Field 15 1.
Definition lvt_mask := Field 16 1.
Definition lvt_timer_mode := Field 17 2.

(** [ipi_t], of which only the two halves are used. *)
Record ipi_t := Ipi { ipi_lower_dword : Z; ipi_upper_dword : Z }.

(** ** State *)

Record lapic (D : Type) := Lapic {
  LAPIC_BASE : Z;
  LAPIC_TIMER_HZs : list Z;
  PIT_COUNT : Z;
  PIT_COUNT_LOCK : bool;
  lapic_dev : D;
}.
Arguments Lapic {D}.
Arguments LAPIC_BASE {D}.
Arguments LAPIC_TIMER_HZs {D}.
Arguments PIT_COUNT {D}.
Arguments PIT_COUNT_LOCK {D}.
Arguments lapic_dev {D}.

Definition set_lapic_dev {D} (s : lapic D) (d : D) : lapic D :=
  Lapic (LAPIC_BASE s) (LAPIC_TIMER_HZs s) (PIT_COUNT s) (PIT_COUNT_LOCK s) d.
Definition set_lapic_base {D} (s : lapic D) (b : Z) : lapic D :=
  Lapic b (LAPIC_TIMER_HZs s) (PIT_COUNT s) (PIT_COUNT_LOCK s) (lapic_dev s).
Definition set_pit_count {D} (s : lapic D) (n : Z) : lapic D :=
  Lapic (LAPIC_BASE s) (LAPIC_TIMER_HZs s) n (PIT_COUNT_LOCK s) (lapic_dev s).
Definition set_lock {D} (s : lapic D) (l : bool) : lapic D :=
  Lapic (LAPIC_BASE s) (LAPIC_TIMER_HZs s) (PIT_COUNT s) l (lapic_dev s).
Definition set_timer_hz {D} (s : lapic D) (id hz : Z) : lapic D :=
  Lapic (LAPIC_BASE s) (<[Z.to_nat id := u16 hz]> (LAPIC_TIMER_HZs s)) (PIT_COUNT s) (PIT_COUNT_LOCK s)
    (lapic_dev s).

(** ** Operations *)

Section lapic_operations.
Context {D : Type} `{Mmio D}.
Implicit Types s : lapic D.

Definition lapic_write s (lapic_reg val : Z) : lapic D :=
  set_lapic_dev s (mmio_write (LAPIC_BASE s + lapic_reg) (u32 val) (lapic_dev s)).

Definition lapic_read s (lapic_reg : Z) : Z * lapic D :=
  let '(v, d) := mmio_read (LAPIC_BASE s + lapic_reg) (lapic_dev s) in (v, set_lapic_dev s d).

Definition get_lapic_id s : Z * lapic D :=
  let '(id_register, s) := lapic_read s LAPIC_ID_REG in (u8 (Z.shiftr id_register 24), s).

Definition get_lapic_version s : Z * lapic D :=
  let '(v, s) := lapic_read s LAPIC_VERSION_REG in (u8 v, s).

(** [junk] is what the uninitialised entry holds. *)
Definition nmi_entry (m : mem) (nmi_record junk : Z) : Z :=
  let nmi := set lvt_vector NMI_INT_VECTOR junk in
  let nmi := set lvt_mask 0 nmi in
  let nmi := set lvt_delivery_mode (lvt_delivery_code LVT_NMI) nmi in
  let nmi := set lvt_pin_polarity
    (polarity_code (if negb (Z.land (nmi_flags m nmi_record) 2 =? 0) then ACTIVE_HIGH else ACTIVE_LOW)) nmi in
  set lvt_trigger_mode
    (trigger_code (if negb (Z.land (nmi_flags m nmi_record) 8 =? 0) then LEVEL_SENSITIVE else EDGE_SENSITIVE)) nmi.

Definition enable_nmi s (m : mem) (nmi_record junk : Z) : lapic D :=
  let lapic_id := nmi_processor_id m nmi_record in
  let '(id, s) := get_lapic_id s in
  if negb (id =? lapic_id) && negb (lapic_id =? ALL_LAPICS) then s
  else
    let lint_reg := if nmi_lint m nmi_record then LAPIC_LINT0_REG else LAPIC_LINT1_REG in
    lapic_write s lint_reg (nmi_entry m nmi_record junk).

(** [for(int i = 0; (nmi = get_nmi_record(i)); ++i)] *)
Fixpoint nmi_loop (fuel : nat) s (m : mem) (smp : smp_info_t) (junk i : Z) : outcome (lapic D) :=
  match fuel with
  | O => OutOfFuel
  | S fuel =>
      let nmi := get_nmi_record smp i in
      if nmi =? 0 then Done s
      else
        let s := enable_nmi s m nmi junk in
        _ ← check (i <? INT_MAX);
        nmi_loop fuel s m smp junk (i + 1)
  end.

Definition enable_lapic (fuel : nat) s (m : mem) (smp : smp_info_t) (junk : Z) : outcome (lapic D) :=
  let s := set_lapic_base s (lapic_addr smp) in
  s ← nmi_loop fuel s m smp junk 0;
  let '(current_val, s) := lapic_read s LAPIC_SPURIOUS_INT_REG in
  let enabled := Z.lor current_val (Z.shiftl 1 8) in
  Done (lapic_write s LAPIC_SPURIOUS_INT_REG enabled).

Definition disable_lapic s (smp : smp_info_t) : lapic D :=
  let s := set_lapic_base s (lapic_addr smp) in
  let '(current_val, s) := lapic_read s LAPIC_SPURIOUS_INT_REG in
  let enabled := Z.lor current_val (Z.shiftl 0 8) in
  lapic_write s LAPIC_SPURIOUS_INT_REG enabled.

Definition eoi_is_broadcast s : bool * lapic D :=
  let '(v, s) := lapic_read s LAPIC_SPURIOUS_INT_REG in (Z.land v (Z.shiftl 1 12) =? 0, s).

Definition set_eoi_broadcast s (enabled : bool) : lapic D :=
  let '(b, s) := eoi_is_broadcast s in
  if Bool.eqb b enabled then s
  else
    let '(spurious_reg, s) := lapic_read s LAPIC_SPURIOUS_INT_REG in
    lapic_write s LAPIC_SPURIOUS_INT_REG (Z.lor spurious_reg (Z.shiftl (Z.b2z (negb enabled)) 12)).

Definition send_ipi s (ipi : ipi_t) : lapic D :=
  let s := lapic_write s LAPIC_ICR1_REG (ipi_upper_dword ipi) in
  lapic_write s LAPIC_ICR0_REG (ipi_lower_dword ipi).

(** [end_of_interrupt] of [io_apic.c] ignores its arguments. *)
Definition end_of_interrupt s (broadcast : bool) (vec : Z) : lapic D := lapic_write s LAPIC_EOI_REG 0.

(** [Isr2Handler] of [idt.c], the timer interrupt; [None] is the [NULL] before
    a handler is registered. *)
Definition Isr2Handler s (timer_handler : option (lapic D → lapic D)) : lapic D :=
  let s := match timer_handler with Some handler => handler s | None => s end in
  end_of_interrupt s false 0x22.

(** ** Timer calibration *)

(** The interrupt handler registered for the PIT. *)
Definition pit_increment s : lapic D := set_pit_count s (u32 (PIT_COUNT s + 1)).

(** [while(PIT_COUNT < total_pit_tics);]: between two tests of the condition
    [ticks] interrupts are handled; time also passes for the devices. *)
Fixpoint busy_wait (fuel : nat) s (ticks : nat → nat * (D → D)) (total : Z) : outcome (lapic D) :=
  match fuel with
  | O => OutOfFuel
  | S fuel =>
      if PIT_COUNT s <? total then
        let '(n, pass) := ticks fuel in
        let s := Nat.iter n (λ s, Isr2Handler s (Some pit_increment)) s in
        busy_wait fuel (set_lapic_dev s (pass (lapic_dev s))) ticks total
      else Done s
  end.

(** The LVT entry written first. *)
Definition timer_lvt (current vec : Z) : Z :=
  set lvt_timer_mode (timer_mode_code ONE_SHOT) (set lvt_mask 1
    (set lvt_delivery_mode (lvt_delivery_code LVT_FIXED) (set lvt_vector vec current))).

(** [(total_lapic_tics / total_pit_tics) * pit_rate_hz], in 32 bits. *)
Definition timer_hz (init_lapic_count final_lapic_count : Z) : Z :=
  let total_lapic_tics := u32 (u32 (init_lapic_count - final_lapic_count) * 8) in
  u32 (total_lapic_tics / 100 * 1000).

(** Masking interrupts around the writes has no effect on this state.  The
    PIT's ports are reached through the same devices. *)
Definition lapic_timer_init `{Ports D} (fuel : nat) s (ticks : nat → nat * (D → D)) (vec : Z)
    : outcome (lapic D) :=
  let '(current, s) := lapic_read s LAPIC_TIMER_REG in
  let s := lapic_write s LAPIC_TIMER_REG (timer_lvt current vec) in
  let s := lapic_write s LAPIC_DIVIDE_CONFIG_REG 2 in
  let s := lapic_write s LAPIC_INIT_COUNT_REG 0xFFFFFFFF in
  lock ← wait (PIT_COUNT_LOCK s);
  let s := set_pit_count (set_lock s lock) 0 in
  let '(init_lapic_count, s) := lapic_read s LAPIC_CURRENT_COUNT_REG in
  d ← set_pit_periodic (lapic_dev s) 1000;
  s ← busy_wait fuel (set_lapic_dev s d) ticks 100;
  let '(final_lapic_count, s) := lapic_read s LAPIC_CURRENT_COUNT_REG in
  let s := set_lock s (release (PIT_COUNT_LOCK s)) in
  let '(lapic_id, s) := get_lapic_id s in
  Done (set_timer_hz s lapic_id (timer_hz init_lapic_count final_lapic_count)).

End lapic_operations.

(** ** The other processors *)

(** [struct stivale2_smp_info] *)
Record stivale2_smp_info := Smp {
  processor_id : Z; smp_lapic_id : Z; target_stack : Z; goto_address : Z; extra_argument : Z;
}.

(** The loop of [startup_aps]; [ap_entry] is the address of that function. *)
Fixpoint startup_loop `{FrameAllocator W} (w : W) (l : list stivale2_smp_info) (bsp_lapic_id ap_entry : Z)
    : outcome (list stivale2_smp_info * W) :=
  match l with
  | [] => Done ([], w)
  | c :: l =>
      '(c, w) ← (if negb (smp_lapic_id c =? bsp_lapic_id) then
                   '(stack, w) ← fa_alloc w;
                   Done (Smp (processor_id c) (smp_lapic_id c) stack ap_entry (extra_argument c), w)
                 else Done (c, w));
      '(l, w) ← startup_loop w l bsp_lapic_id ap_entry;
      Done (c :: l, w)
  end.

(** [ap_entry], where the other processors start; its output is left out. *)
Definition ap_entry `{Mmio D, !Ports D} (fuel : nat) (s : lapic D) (m : mem) (smp : smp_info_t) (junk : Z)
    (ticks : nat → nat * (D → D)) : outcome (lapic D) :=
  s ← enable_lapic fuel s m smp junk;
  lapic_timer_init fuel s ticks 0xFF.

(** [startup_aps]: the state of the local APIC, [bsp_lapic_id], the entries of
    the processors and the frames it leaves; [ap] is the address of
    [ap_entry]. *)
Definition startup_aps `{Mmio D, !Ports D, FrameAllocator W} (fuel : nat) (s : lapic D) (w : W) (m : mem)
    (smp : smp_info_t) (junk : Z) (ticks : nat → nat * (D → D)) (cpu_info_bsp : Z) (l : list stivale2_smp_info)
    (ap : Z) : outcome (lapic D * Z * list stivale2_smp_info * W) :=
  s ← enable_lapic fuel s m smp junk;
  s ← lapic_timer_init fuel s ticks 0xFF;
  '(l, w) ← startup_loop w l cpu_info_bsp ap;
  Done (s, u8 cpu_info_bsp, l, w).

(** [get_bsp_lapic_id], on the state [startup_aps] leaves. *)
Definition get_bsp_lapic_id (bsp_lapic_id : Z) : Z := bsp_lapic_id.

(** Membership of a constant in a list of constants. *)
Ltac in_list :=
  lazymatch goal with |- ?P => refine (bool_decide_unpack P _); vm_compute; exact I end.

(** ** What holds whatever the device does *)

(** What no operation but the calibration changes. *)
Definition same_lapic {D} (s s' : lapic D) : Prop :=
  LAPIC_BASE s' = LAPIC_BASE s ∧ LAPIC_TIMER_HZs s' = LAPIC_TIMER_HZs s ∧ PIT_COUNT s' = PIT_COUNT s ∧
  PIT_COUNT_LOCK s' = PIT_COUNT_LOCK s.

Lemma same_lapic_trans {D} (s1 s2 s3 : lapic D) : same_lapic s1 s2 → same_lapic s2 s3 → same_lapic s1 s3.
Proof. unfold same_lapic. intros (?&?&?&?) (?&?&?&?). split_and!; congruence. Qed.

Section any_device.
Context `{Mmio D}.
Implicit Types s : lapic D.

Lemma enable_nmi_same s m r junk : same_lapic s (enable_nmi s m r junk).
Proof.
  unfold enable_nmi, get_lapic_id, lapic_read. destruct (mmio_read _ (lapic_dev s)) as [v d].
  by destruct (negb _ && negb _).
Qed.

Lemma nmi_loop_ends m smp junk k : ∀ fuel s i,
  0 < nmis smp → 0 ≤ i → i + Z.of_nat k = num_nmis smp → 1 ≤ num_nmis smp ≤ 255 → (k < fuel)%nat →
  ∃ s', nmi_loop fuel s m smp junk i = Done s' ∧ same_lapic s s'.
Proof.
  induction k as [|k IH]; intros fuel s i Hn Hi Hk Hnum Hfuel;
    (destruct fuel as [|fuel]; [lia|]); cbn [nmi_loop]; unfold get_nmi_record;
    rewrite u64_small, u8_small by lia.
  - rewrite (proj2 (Z.ltb_lt _ _)) by lia. by exists s.
  - rewrite (proj2 (Z.ltb_ge _ _)) by lia. unfold sizeof_NmiRecord at 1.
    rewrite (proj2 (Z.eqb_neq _ _)) by lia. rewrite check_true by (unfold INT_MAX; lia). do_bind.
    edestruct (IH fuel (enable_nmi s m (nmis smp + sizeof_NmiRecord * i) junk) (i + 1))
      as (s' & -> & Hs); [done|lia|lia|done|lia|].
    exists s'. split; [done|]. eapply same_lapic_trans; [apply enable_nmi_same|exact Hs].
Qed.

Lemma enable_lapic_ends fuel s m smp junk :
  0 < nmis smp → 1 ≤ num_nmis smp ≤ 255 → num_nmis smp < Z.of_nat fuel →
  ∃ s', enable_lapic fuel s m smp junk = Done s' ∧ same_lapic (set_lapic_base s (lapic_addr smp)) s'.
Proof.
  intros Hn Hnum Hfuel. unfold enable_lapic.
  destruct (nmi_loop_ends m smp junk (Z.to_nat (num_nmis smp)) fuel (set_lapic_base s (lapic_addr smp)) 0)
    as (s1 & -> & Hs); [done|lia..|]. do_bind.
  unfold lapic_read. destruct (mmio_read _ (lapic_dev s1)) as [v d]. by eexists.
Qed.

(** Without NMI records, or with 256 or more, [enable_lapic] never ends:
    [get_nmi_record] has a record for every index. *)
Theorem enable_lapic_diverges fuel s m smp junk :
  0 < nmis smp → num_nmis smp = 0 ∨ 256 ≤ num_nmis smp ≤ 2 ^ 63 →
  ∀ s', enable_lapic fuel s m smp junk ≠ Done s'.
Proof.
  intros Hb Hn s'. unfold enable_lapic. generalize (set_lapic_base s (lapic_addr smp)) as s0. intros s0.
  assert (Hloop : ∀ fuel s0 i s1, nmi_loop fuel s0 m smp junk i ≠ Done s1).
  { clear -Hb Hn. intros fuel. induction fuel as [|fuel IH]; intros s0 i s1; [done|]. cbn [nmi_loop].
    assert (Hnz : get_nmi_record smp i ≠ 0).
    { unfold get_nmi_record, sizeof_NmiRecord. pose proof (u8_range i).
      assert (255 ≤ u64 (num_nmis smp - 1)).
      { destruct Hn as [->|Hn]; [vm_compute; discriminate|rewrite u64_small by lia; lia]. }
      rewrite (proj2 (Z.ltb_ge _ _)) by lia. lia. }
    rewrite (proj2 (Z.eqb_neq _ _) Hnz). unfold check. destruct (i <? INT_MAX); [|done]. apply IH. }
  specialize (Hloop fuel s0 0). destruct (nmi_loop fuel s0 m smp junk 0) as [s1| |]; [|done..].
  by destruct (Hloop s1).
Qed.

End any_device.

(** ** The device

    [lreg d base r] is what a read of the register [r] of the local APIC mapped
    at [base] returns.  The laws are those of the processor manuals: the bits
    listed by [lapic_writable] keep what is written, the others are left open
    (reserved, or set by the device itself); while bit 8 of the spurious
    interrupt register is clear the masks of the local vector table cannot be
    cleared, and clearing that bit sets them. *)
Definition lvt_regs : list Z := [LAPIC_TIMER_REG; LAPIC_LINT0_REG; LAPIC_LINT1_REG].
Definition plain_regs : list Z := LAPIC_ID_REG :: LAPIC_SPURIOUS_INT_REG :: lvt_regs.

(** Level-triggered interrupts, bit 15, are for LINT0 only; bit 12 of the
    spurious interrupt register is there if the suppression of broadcasts is. *)
Definition lapic_writable (suppression : bool) (r j : Z) : bool :=
  if r =? LAPIC_SPURIOUS_INT_REG then ((0 <=? j) && (j <? 9)) || (suppression && (j =? 12))
  else if r =? LAPIC_TIMER_REG then ((0 <=? j) && (j <? 8)) || (j =? 16) || (j =? 17)
  else if r =? LAPIC_LINT0_REG then ((0 <=? j) && (j <? 11)) || (j =? 13) || (j =? 15) || (j =? 16)
  else if r =? LAPIC_LINT1_REG then ((0 <=? j) && (j <? 11)) || (j =? 13) || (j =? 16)
  else false.

(** The bits that only change when software writes; the identifier's never. *)
Definition settled (suppression : bool) (r j : Z) : bool :=
  lapic_writable suppression r j || ((r =? LAPIC_ID_REG) && (24 <=? j) && (j <? 32)).

(** The mask, bit 16 of an entry of the local vector table. *)
Definition is_mask (r j : Z) : bool := bool_decide (r ∈ lvt_regs) && (j =? 16).

Class LapicDevice (D : Type) `{Mmio D} := {
  lreg : D → Z → Z → Z;
  suppression : bool;
  lapic_read_reg d base r :
    base mod 4096 = 0 → r ∈ plain_regs →
    ∃ d', mmio_read (base + r) d = (lreg d base r, d') ∧
      ∀ r' j, r' ∈ plain_regs → settled suppression r' j = true →
        Z.testbit (lreg d' base r') j = Z.testbit (lreg d base r') j;
  lapic_write_lvt d base r v :
    base mod 4096 = 0 → r ∈ lvt_regs → 0 ≤ v < 2 ^ 32 →
    let d' := mmio_write (base + r) v d in
    let disabled := negb (Z.testbit (lreg d base LAPIC_SPURIOUS_INT_REG) 8) in
    ∀ r' j, r' ∈ plain_regs → settled suppression r' j = true →
      Z.testbit (lreg d' base r') j =
        if r' =? r then Z.testbit v j || ((j =? 16) && disabled) else Z.testbit (lreg d base r') j;
  lapic_write_spurious d base v :
    base mod 4096 = 0 → 0 ≤ v < 2 ^ 32 →
    let d' := mmio_write (base + LAPIC_SPURIOUS_INT_REG) v d in
    ∀ r' j, r' ∈ plain_regs → settled suppression r' j = true →
      Z.testbit (lreg d' base r') j =
        if r' =? LAPIC_SPURIOUS_INT_REG then Z.testbit v j
        else Z.testbit (lreg d base r') j || (is_mask r' j && negb (Z.testbit v 8));
}.

Section lapic_proofs.
Context `{LapicDevice D}.
Implicit Types s : lapic D.

(** The register of the local APIC in use, and its settled bits. *)
Definition lreg_of s (r : Z) : Z := lreg (lapic_dev s) (LAPIC_BASE s) r.
Definition is_settled (r j : Z) : Prop := r ∈ plain_regs ∧ settled suppression r j = true.
Definition lbit s (r j : Z) : bool := Z.testbit (lreg_of s r) j.

(** The local APIC is enabled by software. *)
Definition sw_enabled s : bool := lbit s LAPIC_SPURIOUS_INT_REG 8.

Lemma settled_range b r j : settled b r j = true → 0 ≤ j < 32.
Proof.
  unfold settled, lapic_writable.
  repeat match goal with |- context [r =? ?c] => destruct (r =? c) end; destruct b; cbn; lia.
Qed.

Lemma spurious_settled j :
  0 ≤ j < 9 ∨ (suppression = true ∧ j = 12) → is_settled LAPIC_SPURIOUS_INT_REG j.
Proof. intros Hj. split; [in_list|]. unfold settled, lapic_writable. cbn. destruct suppression; cbn in *; lia. Qed.

Lemma lapic_read_spec s r :
  LAPIC_BASE s mod 4096 = 0 → r ∈ plain_regs →
  ∃ s', lapic_read s r = (lreg_of s r, s') ∧ same_lapic s s' ∧
        ∀ r' j, is_settled r' j → lbit s' r' j = lbit s r' j.
Proof.
  intros Hb Hr. unfold lapic_read.
  destruct (lapic_read_reg (lapic_dev s) (LAPIC_BASE s) r Hb Hr) as (d' & -> & Hd).
  eexists. split_and!; [done..|]. intros r' j [H1 H2]. by apply Hd.
Qed.

Lemma testbit_u32 v j : 0 ≤ j < 32 → Z.testbit (u32 v) j = Z.testbit v j.
Proof. intros. unfold u32. by rewrite testbit_mod_pow2, (proj2 (Z.ltb_lt j 32)) by lia. Qed.

Lemma lapic_write_lvt_spec s r v r' j :
  LAPIC_BASE s mod 4096 = 0 → r ∈ lvt_regs → is_settled r' j →
  lbit (lapic_write s r v) r' j =
    if r' =? r then Z.testbit v j || ((j =? 16) && negb (sw_enabled s)) else lbit s r' j.
Proof.
  intros Hb Hr [H1 H2]. unfold lbit at 1, lreg_of, lapic_write. cbn [set_lapic_dev lapic_dev LAPIC_BASE].
  rewrite (lapic_write_lvt (lapic_dev s)) by first [done|apply u32_range].
  destruct (r' =? r); [|done]. by rewrite testbit_u32 by by eapply settled_range.
Qed.

Lemma lapic_write_spurious_spec s v r' j :
  LAPIC_BASE s mod 4096 = 0 → is_settled r' j →
  lbit (lapic_write s LAPIC_SPURIOUS_INT_REG v) r' j =
    if r' =? LAPIC_SPURIOUS_INT_REG then Z.testbit v j
    else lbit s r' j || (is_mask r' j && negb (Z.testbit v 8)).
Proof.
  intros Hb [H1 H2]. unfold lbit, lreg_of, lapic_write. cbn [set_lapic_dev lapic_dev LAPIC_BASE].
  rewrite (lapic_write_spurious (lapic_dev s)) by first [done|apply u32_range].
  rewrite !testbit_u32 by first [lia|by eapply settled_range]. done.
Qed.

(** Reading the spurious interrupt register and writing back a function of it. *)
Lemma spurious_update_spec s (f : Z → Z) :
  LAPIC_BASE s mod 4096 = 0 →
  ∃ s', lapic_read s LAPIC_SPURIOUS_INT_REG = (lreg_of s LAPIC_SPURIOUS_INT_REG, s') ∧
    let v := f (lreg_of s LAPIC_SPURIOUS_INT_REG) in
    let s'' := lapic_write s' LAPIC_SPURIOUS_INT_REG v in
    same_lapic s s'' ∧
    ∀ r j, is_settled r j → lbit s'' r j =
      if r =? LAPIC_SPURIOUS_INT_REG then Z.testbit v j else lbit s r j || (is_mask r j && negb (Z.testbit v 8)).
Proof.
  intros Hb. destruct (lapic_read_spec s LAPIC_SPURIOUS_INT_REG Hb) as (s' & He & Hs & Hsame); [in_list|].
  exists s'. split; [done|]. split; [exact Hs|]. intros r j Hj.
  rewrite lapic_write_spurious_spec by first [done|by rewrite (proj1 Hs)]. by rewrite Hsame.
Qed.

(** [disable_lapic] writes back the register it read: the enable bit, bit 8
    of the spurious interrupt register, keeps its value, so a local APIC that
    is enabled stays enabled, its interrupts masked or not as they were. *)
Theorem disable_lapic_spec s smp :
  lapic_addr smp mod 4096 = 0 →
  let s0 := set_lapic_base s (lapic_addr smp) in
  let s' := disable_lapic s smp in
  ∀ r j, is_settled r j → lbit s' r j = lbit s0 r j || (is_mask r j && negb (sw_enabled s0)).
Proof.
  intros Hb s0 s' r j Hr. unfold s', disable_lapic. fold s0.
  destruct (spurious_update_spec s0 (λ v, Z.lor v (Z.shiftl 0 8)) Hb) as (s1 & -> & _ & Hj).
  rewrite Hj by done. rewrite Z.shiftl_0_l, Z.lor_0_r.
  destruct (Z.eqb_spec r LAPIC_SPURIOUS_INT_REG) as [->|Hne]; [|done].
  change (is_mask LAPIC_SPURIOUS_INT_REG j) with false. by rewrite orb_false_r.
Qed.

(** [set_eoi_broadcast] can suppress the broadcast of the end of interrupt
    but not bring it back: afterwards bit 12 is set if it was set before or the
    caller asked for no broadcast. *)
Theorem set_eoi_broadcast_spec s enabled :
  LAPIC_BASE s mod 4096 = 0 → suppression = true →
  let s' := set_eoi_broadcast s enabled in
  lbit s' LAPIC_SPURIOUS_INT_REG 12 = lbit s LAPIC_SPURIOUS_INT_REG 12 || negb enabled ∧
  ∀ j, 0 ≤ j < 9 → lbit s' LAPIC_SPURIOUS_INT_REG j = lbit s LAPIC_SPURIOUS_INT_REG j.
Proof.
  intros Hb Hsup s'. unfold s', set_eoi_broadcast, eoi_is_broadcast.
  assert (H12 : is_settled LAPIC_SPURIOUS_INT_REG 12) by (apply spurious_settled; auto).
  destruct (lapic_read_spec s LAPIC_SPURIOUS_INT_REG Hb) as (s1 & -> & Hs1 & Hsame); [in_list|].
  change (Z.shiftl 1 12) with (2 ^ 12). rewrite land_bit_test by lia. fold (lbit s LAPIC_SPURIOUS_INT_REG 12).
  destruct (Bool.eqb_spec (negb (lbit s LAPIC_SPURIOUS_INT_REG 12)) enabled) as [He|He].
  { rewrite <-He. split; [rewrite Hsame by done; by destruct (lbit s _ 12)|].
    intros j Hj. apply Hsame, spurious_settled. by left. }
  destruct (spurious_update_spec s1 (λ v, Z.lor v (Z.shiftl (Z.b2z (negb enabled)) 12))) as (s2 & -> & _ & Hj);
    [by rewrite (proj1 Hs1)|].
  split.
  - rewrite Hj, Z.eqb_refl, Z.lor_spec, Z.shiftl_spec by first [done|lia].
    fold (lbit s1 LAPIC_SPURIOUS_INT_REG 12). rewrite Hsame by done. by destruct enabled.
  - intros j Hlow. assert (Hst : is_settled LAPIC_SPURIOUS_INT_REG j) by (apply spurious_settled; by left).
    rewrite Hj, Z.eqb_refl, Z.lor_spec by done. fold (lbit s1 LAPIC_SPURIOUS_INT_REG j). rewrite Hsame by done.
    rewrite Z.shiftl_spec by lia. by rewrite (Z.testbit_neg_r _ (j - 12)), orb_false_r by lia.
Qed.

(** ** Non-maskable interrupts *)

Definition lint_reg (lint : bool) : Z := if lint then LAPIC_LINT0_REG else LAPIC_LINT1_REG.

Lemma lint_reg_lvt lint : lint_reg lint ∈ lvt_regs.
Proof. destruct lint; in_list. Qed.

Lemma lint_reg_plain lint : lint_reg lint ∈ plain_regs.
Proof. destruct lint; in_list. Qed.

Lemma lint_reg_inj l l' : (lint_reg l =? lint_reg l') = Bool.eqb l l'.
Proof. by destruct l, l'. Qed.

(** The record that decides what a local interrupt pin does: the last one for
    this processor, or for all, that names the pin. *)
Definition deciding (m : mem) (id : Z) (lint : bool) (rs : list Z) : option Z :=
  last (filter (λ r, ((id =? nmi_processor_id m r) || (nmi_processor_id m r =? ALL_LAPICS)) &&
                     Bool.eqb (nmi_lint m r) lint) rs).

(** The pin's register: the record's entry, the mask set if the local APIC
    is not enabled; or what it was. *)
Definition lint_decided (m : mem) (junk id : Z) (rs : list Z) s s' (lint : bool) : Prop :=
  ∀ j, is_settled (lint_reg lint) j →
    lbit s' (lint_reg lint) j =
      match deciding m id lint rs with
      | Some r => Z.testbit (nmi_entry m r junk) j || ((j =? 16) && negb (sw_enabled s))
      | None => lbit s (lint_reg lint) j
      end.

Definition id_of s : Z := u8 (Z.shiftr (lreg_of s LAPIC_ID_REG) 24).

(** What the loop over the records guarantees. *)
Definition nmis_enabled (m : mem) (junk : Z) (rs : list Z) s s' : Prop :=
  same_lapic s s' ∧
  (∀ r j, is_settled r j → (∀ lint, r ≠ lint_reg lint) → lbit s' r j = lbit s r j) ∧
  ∀ lint, lint_decided m junk (id_of s) rs s s' lint.

Lemma id_of_settled s s' :
  (∀ j, is_settled LAPIC_ID_REG j → lbit s' LAPIC_ID_REG j = lbit s LAPIC_ID_REG j) → id_of s' = id_of s.
Proof.
  intros Hs. unfold id_of, u8. apply Z.bits_inj'. intros j Hj. rewrite !testbit_mod_pow2, !Z.shiftr_spec by lia.
  destruct (Z.ltb_spec j 8); [|done]. cbn [andb]. apply Hs. split; [in_list|].
  unfold settled. cbn. lia.
Qed.

Lemma enable_nmi_spec s m r junk :
  LAPIC_BASE s mod 4096 = 0 → nmis_enabled m junk [r] s (enable_nmi s m r junk).
Proof.
  intros Hb. split; [apply enable_nmi_same|]. unfold enable_nmi, get_lapic_id.
  destruct (lapic_read_spec s LAPIC_ID_REG Hb) as (s1 & -> & Hs1 & Hsame); [in_list|].
  fold (id_of s). rewrite <-negb_orb. unfold lint_decided, deciding.
  destruct ((id_of s =? nmi_processor_id m r) || (nmi_processor_id m r =? ALL_LAPICS)) eqn:Happ; cbn [negb].
  - fold (lint_reg (nmi_lint m r)).
    assert (Hw : ∀ r' j, is_settled r' j → lbit (lapic_write s1 (lint_reg (nmi_lint m r)) (nmi_entry m r junk)) r' j =
      if r' =? lint_reg (nmi_lint m r) then Z.testbit (nmi_entry m r junk) j || ((j =? 16) && negb (sw_enabled s))
      else lbit s r' j).
    { intros r' j Hj. rewrite lapic_write_lvt_spec by first [done|by rewrite (proj1 Hs1)|apply lint_reg_lvt].
      unfold sw_enabled. by rewrite !Hsame by first [done|apply spurious_settled; left; lia]. }
    split.
    + intros r' j Hr' Hne. by rewrite Hw, (proj2 (Z.eqb_neq _ _)) by done.
    + intros lint j Hj. rewrite Hw, lint_reg_inj, filter_cons, Happ by done. cbn [andb].
      by destruct (nmi_lint m r), lint.
  - split; [intros r' j Hj _; by apply Hsame|].
    intros lint j Hj. rewrite filter_cons, Happ. cbn [andb]. cbn. by apply Hsame.
Qed.

Lemma other_settled s s' m junk rs r j :
  nmis_enabled m junk rs s s' → is_settled r j → r = LAPIC_ID_REG ∨ r = LAPIC_SPURIOUS_INT_REG →
  lbit s' r j = lbit s r j.
Proof. intros (_ & Hr & _) Hj Hor. apply Hr; [done|]. intros []; by destruct Hor as [->| ->]. Qed.

Lemma nmis_enabled_trans m junk rs1 rs2 s1 s2 s3 :
  nmis_enabled m junk rs1 s1 s2 → nmis_enabled m junk rs2 s2 s3 → nmis_enabled m junk (rs1 ++ rs2) s1 s3.
Proof.
  intros A B. pose proof A as (A1 & A2 & A3). pose proof B as (B1 & B2 & B3).
  split; [by eapply same_lapic_trans|]. split.
  { intros r j Hj Hr. by rewrite B2, A2. }
  assert (Hid : id_of s2 = id_of s1) by (apply id_of_settled; intros; eapply other_settled; eauto).
  assert (Hen : sw_enabled s2 = sw_enabled s1)
    by (eapply other_settled; [exact A|apply spurious_settled; left; lia|by right]).
  unfold lint_decided in A3, B3. rewrite Hid, Hen in B3. intros lint j Hj. rewrite (B3 lint j Hj). unfold deciding.
  rewrite filter_app, last_app. destruct (last (filter _ rs2)); [done|]. by apply A3.
Qed.

Lemma nmi_loop_spec m smp junk k : ∀ fuel s i,
  LAPIC_BASE s mod 4096 = 0 → 0 < nmis smp → 0 ≤ i → i + Z.of_nat k = num_nmis smp → num_nmis smp ≤ 255 →
  1 ≤ num_nmis smp → (k < fuel)%nat →
  ∃ s', nmi_loop fuel s m smp junk i = Done s' ∧
    nmis_enabled m junk (map (λ i, nmis smp + sizeof_NmiRecord * i) (seqZ i (Z.of_nat k))) s s'.
Proof.
  induction k as [|k IH]; intros fuel s i Hb Hn Hi Hk Hmax Hmin Hfuel;
    (destruct fuel as [|fuel]; [lia|]); cbn [nmi_loop]; unfold get_nmi_record;
    rewrite u64_small, u8_small by lia.
  - rewrite (proj2 (Z.ltb_lt _ _)) by lia. cbn. exists s. by split_and!.
  - rewrite (proj2 (Z.ltb_ge _ _)) by lia. unfold sizeof_NmiRecord at 1.
    rewrite (proj2 (Z.eqb_neq _ _)) by lia. rewrite check_true by (unfold INT_MAX; lia). do_bind.
    fold sizeof_NmiRecord. set (r := nmis smp + sizeof_NmiRecord * i).
    pose proof (enable_nmi_spec s m r junk Hb) as H1.
    destruct (IH fuel (enable_nmi s m r junk) (i + 1)) as (s' & -> & H2); [|done|lia|lia|done|done|lia|].
    { destruct H1 as ((-> & _) & _). done. }
    exists s'. split; [done|]. rewrite Nat2Z.inj_succ, seqZ_cons by lia. cbn [map]. fold r.
    rewrite Z.pred_succ. apply (nmis_enabled_trans m junk [r] _ _ _ _ H1). by rewrite <-Z.add_1_r in *.
Qed.

(** An entry of a non-maskable interrupt; LINT1 is edge-triggered whatever is
    written. *)
Definition nmi_configured (m : mem) (lint masked : bool) (r e : Z) : Prop :=
  get lvt_vector e = 0xFF ∧ get lvt_delivery_mode e = 4 ∧ get lvt_mask e = Z.b2z masked ∧
  get lvt_pin_polarity e = (if Z.testbit (nmi_flags m r) 1 then 0 else 1) ∧
  (lint = true → get lvt_trigger_mode e = Z.b2z (Z.testbit (nmi_flags m r) 3)).

Lemma nmi_entry_configured m r junk e lint masked :
  (∀ j, is_settled (lint_reg lint) j → Z.testbit e j = Z.testbit (nmi_entry m r junk) j || ((j =? 16) && masked)) →
  nmi_configured m lint masked r e.
Proof.
  intros Hbits.
  assert (Hst : ∀ j, 0 ≤ j < 11 ∨ j = 13 ∨ (lint = true ∧ j = 15) ∨ j = 16 → is_settled (lint_reg lint) j).
  { intros j Hj. split; [apply lint_reg_plain|]. unfold settled, lapic_writable. destruct lint; cbn; lia. }
  assert (Hext : ∀ f, 0 ≤ first_bit f → 0 ≤ width f →
    (∀ j, first_bit f ≤ j < first_bit f + width f → j ≠ 16 ∧ (0 ≤ j < 11 ∨ j = 13 ∨ (lint = true ∧ j = 15))) →
    get f e = get f (nmi_entry m r junk)).
  { intros f H1 H2 H3. apply get_bits_ext; [done..|]. intros j Hj. destruct (H3 j Hj) as [Hne Hj'].
    rewrite Hbits by (apply Hst; tauto). by rewrite (proj2 (Z.eqb_neq _ _)), orb_false_r by done. }
  assert (Hmask : get lvt_mask e = Z.b2z (Z.testbit e 16)).
  { unfold get, get_bits. cbn [first_bit width lvt_mask]. change (Z.ones 1) with 1. by rewrite land_1_testbit by lia. }
  assert (Hzero : Z.testbit (nmi_entry m r junk) 16 = false).
  { unfold nmi_entry, set. cbn [first_bit width lvt_vector lvt_delivery_mode lvt_pin_polarity lvt_trigger_mode lvt_mask].
    rewrite !set_bits_testbit by lia. done. }
  unfold nmi_configured. rewrite Hmask, (Hbits 16), Hzero by (apply Hst; lia).
  rewrite (Hext lvt_vector), (Hext lvt_delivery_mode), (Hext lvt_pin_polarity) by (cbn; intros; lia).
  split_and!; [..|intros ->; rewrite (Hext lvt_trigger_mode) by (cbn; intros; lia)];
    try done; unfold nmi_entry;
    change (Z.land (nmi_flags m r) 2) with (Z.land (nmi_flags m r) (2 ^ 1));
    change (Z.land (nmi_flags m r) 8) with (Z.land (nmi_flags m r) (2 ^ 3)); rewrite !land_bit_test by lia;
    unfold get, set; cbn [first_bit width lvt_vector lvt_delivery_mode lvt_pin_polarity lvt_trigger_mode lvt_mask];
    repeat first [rewrite get_set_same by lia|rewrite get_set_other by lia];
    by destruct (Z.testbit (nmi_flags m r) 1), (Z.testbit (nmi_flags m r) 3).
Qed.

(** With 1 to 255 NMI records [enable_lapic] ends; each of the two interrupt
    pins a record for this processor names is set to deliver non-maskable
    interrupts as the last such record says, a pin no record names is left
    alone, and the local APIC is enabled.  But the pins are written first: if
    the local APIC was not enabled before the call, their masks stay set, and
    no non-maskable interrupt is delivered. *)
Theorem enable_lapic_spec fuel s m smp junk :
  let s0 := set_lapic_base s (lapic_addr smp) in
  let rs := records (nmis smp) sizeof_NmiRecord (num_nmis smp) in
  lapic_addr smp mod 4096 = 0 → 0 < nmis smp → 1 ≤ num_nmis smp ≤ 255 → num_nmis smp < Z.of_nat fuel →
  ∃ s', enable_lapic fuel s m smp junk = Done s' ∧ same_lapic s0 s' ∧
    (∀ j, is_settled LAPIC_SPURIOUS_INT_REG j →
       lbit s' LAPIC_SPURIOUS_INT_REG j = (j =? 8) || lbit s0 LAPIC_SPURIOUS_INT_REG j) ∧
    ∀ lint, match deciding m (id_of s0) lint rs with
            | Some r => nmi_configured m lint (negb (sw_enabled s0)) r (lreg_of s' (lint_reg lint))
            | None => ∀ j, is_settled (lint_reg lint) j → lbit s' (lint_reg lint) j = lbit s0 (lint_reg lint) j
            end.
Proof.
  intros s0 rs Hb Hn Hnum Hfuel. unfold enable_lapic. fold s0.
  destruct (nmi_loop_spec m smp junk (Z.to_nat (num_nmis smp)) fuel s0 0) as (s1 & -> & Hs1);
    [done|done|lia|lia|lia|lia|lia|]. do_bind. rewrite Z2Nat.id in Hs1 by lia.
  fold (records (nmis smp) sizeof_NmiRecord (num_nmis smp)) rs in Hs1. pose proof Hs1 as (Hs & _ & Hl).
  assert (Hb1 : LAPIC_BASE s1 mod 4096 = 0) by (by rewrite (proj1 Hs)).
  destruct (spurious_update_spec s1 (λ v, Z.lor v (Z.shiftl 1 8)) Hb1) as (s2 & -> & Hs' & Hj).
  eexists. split; [done|]. split; [by eapply same_lapic_trans|]. split.
  - intros j Hw. rewrite Hj, Z.eqb_refl, Z.lor_spec, testbit_shiftl_1 by first [done|lia].
    rewrite orb_comm. f_equal. eapply other_settled; [exact Hs1|done|by right].
  - assert (Hpin : ∀ lint j, is_settled (lint_reg lint) j → lbit (lapic_write s2 LAPIC_SPURIOUS_INT_REG
      (Z.lor (lreg_of s1 LAPIC_SPURIOUS_INT_REG) (Z.shiftl 1 8))) (lint_reg lint) j = lbit s1 (lint_reg lint) j).
    { intros lint j Hset. rewrite Hj, (proj2 (Z.eqb_neq _ _)) by first [done|by destruct lint].
      rewrite Z.lor_spec, testbit_shiftl_1 by lia. by rewrite Z.eqb_refl, orb_true_r, andb_false_r, orb_false_r. }
    intros lint. specialize (Hl lint). unfold lint_decided in Hl.
    destruct (deciding m (id_of s0) lint rs).
    + apply (nmi_entry_configured _ _ junk). intros j Hset. fold (lbit s1 (lint_reg lint) j).
      rewrite <-Hl by done. by apply Hpin.
    + intros j Hset. rewrite Hpin by done. by apply Hl.
Qed.

End lapic_proofs.

(** ** The other processors *)

Section startup.
Context `{FrameAllocatorLaws W}.

Definition is_ap (bsp_lapic_id : Z) (c : stivale2_smp_info) : bool := negb (smp_lapic_id c =? bsp_lapic_id).

(** An entry before and after. *)
Definition started (bsp_lapic_id ap_entry : Z) (c c' : stivale2_smp_info) : Prop :=
  processor_id c' = processor_id c ∧ smp_lapic_id c' = smp_lapic_id c ∧
  extra_argument c' = extra_argument c ∧
  if is_ap bsp_lapic_id c then goto_address c' = ap_entry ∧ target_stack c' ≠ 0
  else c' = c.

Lemma startup_loop_frames k (w : W) l bsp ap :
  fa_ok w → fa_avail w (length (filter (is_ap bsp) l) + k) →
  ∃ l' w', startup_loop w l bsp ap = Done (l', w') ∧ Forall2 (started bsp ap) l l' ∧
    fresh_frames w (map target_stack (filter (is_ap bsp) l')) w' ∧ fa_avail w' k.
Proof.
  revert w. induction l as [|c l IH]; intros w Hok Hav; cbn [startup_loop].
  { exists [], w. by repeat constructor. }
  rewrite filter_cons in Hav. fold (is_ap bsp c). destruct (is_ap bsp c) eqn:Hap.
  - cbn [length] in Hav. destruct (alloc_step w _ Hok Hav) as (f & w1 & -> & Hf & Hav1). do_bind.
    destruct (IH w1 (ff_ok _ _ _ Hf) Hav1) as (l' & w' & -> & Hl & Hfr & Hk). do_bind.
    eexists _, w'. split; [done|]. split_and!; [|..|done].
    + constructor; [|done]. unfold started. rewrite Hap. split_and!; try done. cbn.
      pose proof (ff_range _ _ _ Hf). lia.
    + set (c' := Smp (processor_id c) (smp_lapic_id c) f ap (extra_argument c)).
      assert (Hap' : is_ap bsp c' = true) by exact Hap.
      rewrite filter_cons, Hap'. cbn [Is_true map target_stack]. by econstructor.
  - do_bind. destruct (IH w Hok Hav) as (l' & w' & -> & Hl & Hfr & Hk). do_bind.
    exists (c :: l'), w'. split; [done|]. split_and!; [|..|done].
    + constructor; [|done]. unfold started. by rewrite Hap.
    + by rewrite filter_cons, Hap.
Qed.

End startup.

(** ** Calibration ends when interrupts arrive *)

Section calibration.
Context `{Mmio D, !Ports D}.
Implicit Types s : lapic D.

(** Between two looks at the counter at least one timer interrupt, and no
    absurd number of them. *)
Definition ticking (ticks : nat → nat * (D → D)) : Prop := ∀ k, (1 ≤ fst (ticks k) ≤ 1000)%nat.

(** What calibration leaves alone; the counter is handled separately. *)
Definition same_base s s' : Prop :=
  LAPIC_BASE s' = LAPIC_BASE s ∧ PIT_COUNT_LOCK s' = PIT_COUNT_LOCK s ∧
  length (LAPIC_TIMER_HZs s') = length (LAPIC_TIMER_HZs s).

Lemma interrupts_count n s :
  let s' := Nat.iter n (λ s, Isr2Handler s (Some pit_increment)) s in
  0 ≤ PIT_COUNT s → PIT_COUNT s + Z.of_nat n < 2 ^ 32 →
  same_base s s' ∧ PIT_COUNT s' = PIT_COUNT s + Z.of_nat n.
Proof.
  induction n as [|n IH]; intros s' Hs Hn; [cbn; split_and!; [done..|lia]|].
  destruct IH as [Hb Hc]; [lia..|]. subst s'. rewrite Nat.iter_succ.
  destruct Hb as (? & ? & ?). split; [by split_and!|].
  change (u32 (PIT_COUNT (Nat.iter n (λ s, Isr2Handler s (Some pit_increment)) s) + 1) = PIT_COUNT s + Z.of_nat (S n)).
  rewrite Hc, u32_small; lia.
Qed.

Lemma busy_wait_ends ticks fuel : ∀ s,
  ticking ticks → 0 ≤ PIT_COUNT s ≤ 2000 → Z.max 0 (100 - PIT_COUNT s) < Z.of_nat fuel →
  ∃ s', busy_wait fuel s ticks 100 = Done s' ∧ same_base s s' ∧ 100 ≤ PIT_COUNT s'.
Proof.
  induction fuel as [|fuel IH]; intros s Ht Hc Hf; [lia|]. cbn [busy_wait].
  destruct (Z.ltb_spec (PIT_COUNT s) 100); [|by exists s].
  pose proof (Ht fuel) as Hn. destruct (ticks fuel) as [n pass]. cbn [fst] in Hn.
  destruct (interrupts_count n s) as ((? & ? & ?) & Hcn); [lia..|].
  generalize dependent (Nat.iter n (λ s, Isr2Handler s (Some pit_increment)) s). intros s1 ? ? ? Hcn.
  destruct (IH (set_lapic_dev s1 (pass (lapic_dev s1))) Ht) as (s' & -> & (? & ? & ?) & Hd); [cbn; lia..|].
  exists s'. unfold same_base. split_and!; [done|..|done]; cbn in *; congruence.
Qed.

(** Without interrupts the counter stays where it is. *)
Lemma busy_wait_stuck ticks fuel : ∀ s,
  (∀ k, fst (ticks k) = 0%nat) → PIT_COUNT s < 100 → busy_wait fuel s ticks 100 = OutOfFuel.
Proof.
  induction fuel as [|fuel IH]; intros s Ht Hc; [done|]. cbn [busy_wait].
  rewrite (proj2 (Z.ltb_lt _ _)) by done. pose proof (Ht fuel) as Hn.
  destruct (ticks fuel) as [n pass]. cbn [fst] in Hn. subst n. by apply IH.
Qed.

(** [lapic_timer_init] up to the busy wait, whose counter starts at 0. *)
Lemma timer_init_waits fuel s ticks vec :
  PIT_COUNT_LOCK s = false →
  ∃ s1, LAPIC_BASE s1 = LAPIC_BASE s ∧ PIT_COUNT_LOCK s1 = true ∧ PIT_COUNT s1 = 0 ∧
    length (LAPIC_TIMER_HZs s1) = length (LAPIC_TIMER_HZs s) ∧
    match busy_wait fuel s1 ticks 100 with
    | Done s2 => ∃ s', lapic_timer_init fuel s ticks vec = Done s' ∧ PIT_COUNT s' = PIT_COUNT s2 ∧
        LAPIC_BASE s' = LAPIC_BASE s2 ∧ PIT_COUNT_LOCK s' = false ∧
        length (LAPIC_TIMER_HZs s') = length (LAPIC_TIMER_HZs s2)
    | Undefined => lapic_timer_init fuel s ticks vec = Undefined
    | OutOfFuel => lapic_timer_init fuel s ticks vec = OutOfFuel
    end.
Proof.
  intros Hl. unfold lapic_timer_init, lapic_read.
  destruct (mmio_read _ (lapic_dev s)) as [v1 d1]. unfold lapic_write. cbn.
  rewrite Hl. cbn [wait]. do_bind. cbn.
  destruct (mmio_read _ _) as [v2 d2]. cbn.
  match goal with |- context [busy_wait fuel ?x ticks 100] => exists x end.
  split_and!; [done..|]. destruct (busy_wait fuel _ ticks 100) as [s2| |]; [|done..].
  do_bind. destruct (mmio_read _ _) as [v3 d3]. unfold get_lapic_id, lapic_read.
  destruct (mmio_read _ _) as [v4 d4]. eexists. split; [done|]. cbn. by rewrite length_insert.
Qed.

(** Calibration ends while timer interrupts arrive; it never does when none
    arrives, or when the lock is held. *)
Lemma lapic_timer_init_spec fuel s ticks vec :
  (PIT_COUNT_LOCK s = false → ticking ticks → (100 < fuel)%nat →
    ∃ s', lapic_timer_init fuel s ticks vec = Done s' ∧ LAPIC_BASE s' = LAPIC_BASE s ∧
      PIT_COUNT_LOCK s' = false ∧ 100 ≤ PIT_COUNT s' ∧
      length (LAPIC_TIMER_HZs s') = length (LAPIC_TIMER_HZs s)) ∧
  (PIT_COUNT_LOCK s = true ∨ (∀ k, fst (ticks k) = 0%nat) →
    lapic_timer_init fuel s ticks vec = OutOfFuel).
Proof.
  split.
  - intros Hl Ht Hf. destruct (timer_init_waits fuel s ticks vec Hl) as (s1 & Hb1 & _ & Hc1 & Hh1 & Hw).
    destruct (busy_wait_ends ticks fuel s1 Ht) as (s2 & Hs2 & (Hb2 & _ & Hh2) & Hc2); [lia..|].
    rewrite Hs2 in Hw. destruct Hw as (s' & Hs' & Hc & Hb & Hlock & Hh).
    exists s'. split_and!; first [congruence|lia].
  - intros Hor. destruct (PIT_COUNT_LOCK s) eqn:Hl.
    + unfold lapic_timer_init, lapic_read. destruct (mmio_read _ (lapic_dev s)) as [v d]. cbn. by rewrite Hl.
    + destruct Hor as [|Ht]; [done|].
      destruct (timer_init_waits fuel s ticks vec Hl) as (s1 & _ & _ & Hc1 & _ & Hw).
      by rewrite (busy_wait_stuck ticks fuel s1 Ht) in Hw by lia.
Qed.

(** What [startup_aps] leaves. *)
Record aps_started `{FrameAllocator W} (w : W) smp bsp ap (l l' : list stivale2_smp_info) s' (w' : W) : Prop := {
  as_base : LAPIC_BASE s' = lapic_addr smp;
  as_lock : PIT_COUNT_LOCK s' = false;
  as_count : 100 ≤ PIT_COUNT s';
  as_processors : Forall2 (started bsp ap) l l';
  as_distinct : NoDup (map target_stack (filter (is_ap bsp) l'));
  as_stacks : ∀ f, f ∈ map target_stack (filter (is_ap bsp) l') → fa_client w' f ∧ ¬ fa_client w f;
  as_ok : fa_ok w';
  as_clients : ∀ g, fa_client w g → fa_client w' g;
  as_kept : keeps_clients w w';
}.

Lemma startup_aps_runs `{FrameAllocatorLaws W} k fuel s (w : W) m smp junk ticks bsp l ap :
  0 < nmis smp → 1 ≤ num_nmis smp ≤ 255 → PIT_COUNT_LOCK s = false →
  (255 < fuel)%nat → ticking ticks → fa_ok w → fa_avail w (length (filter (is_ap bsp) l) + k) →
  ∃ s' l' w', startup_aps fuel s w m smp junk ticks bsp l ap = Done (s', u8 bsp, l', w') ∧
    aps_started w smp bsp ap l l' s' w' ∧ fa_avail w' k.
Proof.
  intros Hn Hnum Hl Hf Ht Hok Hav.
  destruct (enable_lapic_ends fuel s m smp junk) as (s1 & He & Hsame); [done..|lia|].
  unfold startup_aps. rewrite He. do_bind. destruct Hsame as (Hb1 & _ & _ & Hl1). cbn in Hb1, Hl1.
  rewrite Hl in Hl1. destruct (lapic_timer_init_spec fuel s1 ticks 0xFF) as [Hends _].
  destruct Hends as (s2 & -> & Hb2 & Hl2 & Hc2 & _); [done..|lia|]. do_bind.
  destruct (startup_loop_frames k w l bsp ap Hok Hav) as (l' & w' & -> & Hst & Hfr & Hk). do_bind.
  destruct (fresh_frames_spec w _ w' Hfr) as (? & ? & ? & ? & ?).
  exists s2, l', w'. split; [done|]. split; [|done]. split; first [congruence|done].
Qed.

(** C30: Starting the other processors: with 1 to 255 NMI records, a free frame
    per processor and a timer that interrupts, [startup_aps] ends, whatever
    the local APIC does; the lock is free again, the counter has reached 100,
    and every entry but the bootstrap processor's has [ap_entry] as its
    [goto_address] and the lowest address of a new frame as its
    [target_stack]: the frames so named are all different, none was handed out
    before, and the frames handed out before keep their contents.  (The stack
    itself is what the processor pushes below that address: it is not in that
    frame but in the one before, which is no one's in particular.)  Without
    timer interrupts [startup_aps] never ends. *)
Theorem startup_aps_spec `{FrameAllocatorLaws W} fuel s (w : W) m smp junk ticks bsp l ap :
  0 < nmis smp → 1 ≤ num_nmis smp ≤ 255 → PIT_COUNT_LOCK s = false →
  (255 < fuel)%nat →
  (ticking ticks → fa_ok w → fa_avail w (length (filter (is_ap bsp) l)) →
    ∃ s' l' w', startup_aps fuel s w m smp junk ticks bsp l ap = Done (s', u8 bsp, l', w') ∧
      LAPIC_BASE s' = lapic_addr smp ∧ PIT_COUNT_LOCK s' = false ∧ 100 ≤ PIT_COUNT s' ∧
      Forall2 (started bsp ap) l l' ∧
      let stacks := map target_stack (filter (is_ap bsp) l') in
      NoDup stacks ∧ (∀ f, f ∈ stacks → fa_client w' f ∧ ¬ fa_client w f) ∧ keeps_clients w w') ∧
  ((∀ k, fst (ticks k) = 0%nat) → startup_aps fuel s w m smp junk ticks bsp l ap = OutOfFuel).
Proof.
  intros Hn Hnum Hl Hf. split.
  - intros Ht Hok Hav. rewrite <-(Nat.add_0_r (length _)) in Hav.
    destruct (startup_aps_runs 0 fuel s w m smp junk ticks bsp l ap) as (s' & l' & w' & Hrun & [] & _); [done..|].
    by exists s', l', w'.
  - intros Ht. destruct (enable_lapic_ends fuel s m smp junk) as (s1 & He & _); [done..|lia|].
    unfold startup_aps. rewrite He. do_bind.
    destruct (lapic_timer_init_spec fuel s1 ticks 0xFF) as [_ Hstuck]. by rewrite Hstuck by by right.
Qed.

End calibration.

(** ** Concrete devices *)

(** Local APICs whose registers keep every bit written, but for the masks: they
    are set while the local APIC is disabled. *)
Definition register_of (a : Z) : Z := a mod 4096.
Definition masked (v : Z) : Z := Z.lor v (2 ^ 16).

Definition registers_write (a v : Z) (d : Z → Z) : Z → Z :=
  let base := a - register_of a in
  if register_of a =? LAPIC_SPURIOUS_INT_REG then
    if Z.testbit v 8 then fupd d a v
    else λ x, if x =? a then v
              else if bool_decide (x - base ∈ lvt_regs) then masked (d x) else d x
  else if bool_decide (register_of a ∈ lvt_regs) then
    fupd d a (if Z.testbit (d (base + LAPIC_SPURIOUS_INT_REG)) 8 then v else masked v)
  else fupd d a v.

#[export] Instance registers_mmio : Mmio (Z → Z) := {
  mmio_read a d := (u32 (d a), d);
  mmio_write := registers_write;
}.

Lemma plain_regs_range r : r ∈ plain_regs → 0 ≤ r < 4096.
Proof.
  assert (Hall : Forall (λ r, 0 ≤ r < 4096) plain_regs)
    by (unfold plain_regs, lvt_regs; rewrite !Forall_cons, Forall_nil; split_and!; done).
  intros Hr. by apply (proj1 (Forall_forall _ _) Hall).
Qed.

Lemma register_of_plain base r : base mod 4096 = 0 → r ∈ plain_regs → register_of (base + r) = r.
Proof. intros Hb Hr%plain_regs_range. unfold register_of. by rewrite Z.add_mod, Hb, Z.add_0_l, Z.mod_mod, Z.mod_small by lia. Qed.

Lemma lvt_regs_plain r : r ∈ lvt_regs → r ∈ plain_regs ∧ r ≠ LAPIC_SPURIOUS_INT_REG.
Proof.
  unfold lvt_regs. rewrite !elem_of_cons, elem_of_nil. intros Hr.
  destruct_or! Hr; try done; subst r; (split; [in_list|done]).
Qed.

Lemma masked_testbit v j : 0 ≤ j → Z.testbit (masked v) j = Z.testbit v j || (j =? 16).
Proof. intros. unfold masked. rewrite Z.lor_spec, Z.pow2_bits_eqb by lia. f_equal. by rewrite Z.eqb_sym. Qed.

#[export] Program Instance registers_lapic : LapicDevice (Z → Z) := {
  lreg d base r := u32 (d (base + r));
  suppression := true;
}.
Next Obligation. intros d base r _ _. by exists d. Qed.
Next Obligation.
  intros d base r v Hb Hr Hv d' disabled r' j Hr' Hj. subst d' disabled. cbn [mmio_write registers_mmio].
  pose proof (lvt_regs_plain r Hr) as [Hp Hne]. pose proof (settled_range _ _ _ Hj) as Hrange.
  rewrite !testbit_u32 by lia. unfold registers_write.
  rewrite register_of_plain, (proj2 (Z.eqb_neq _ _)), bool_decide_eq_true_2 by done.
  replace (base + r - r) with base by lia. unfold fupd.
  destruct (Z.eqb_spec r' r) as [->|Hne']; [|by rewrite (proj2 (Z.eqb_neq _ _)) by lia].
  rewrite Z.eqb_refl. destruct (Z.testbit (d (base + LAPIC_SPURIOUS_INT_REG)) 8); cbn [negb];
    [by rewrite andb_false_r, orb_false_r|]. by rewrite masked_testbit, andb_true_r by lia.
Qed.
Next Obligation.
  intros d base v Hb Hv d' r' j Hr' Hj. subst d'. cbn [mmio_write registers_mmio].
  pose proof (settled_range _ _ _ Hj) as Hrange. rewrite !testbit_u32 by lia. unfold registers_write.
  rewrite register_of_plain, Z.eqb_refl by first [done|in_list].
  replace (base + LAPIC_SPURIOUS_INT_REG - LAPIC_SPURIOUS_INT_REG) with base by lia.
  destruct (Z.testbit v 8); cbn [negb]; unfold fupd; cbn beta;
    (destruct (Z.eqb_spec r' LAPIC_SPURIOUS_INT_REG) as [->|Hne];
      [by rewrite Z.eqb_refl|rewrite (proj2 (Z.eqb_neq (base + r') _)) by lia]).
  - by rewrite andb_false_r, orb_false_r.
  - unfold is_mask. rewrite andb_true_r. replace (base + r' - base) with r' by lia.
    case_bool_decide; cbn [andb]; [by rewrite masked_testbit by lia|by rewrite orb_false_r].
Qed.

(** An enabled local APIC, and one NMI record for all processors on the pin
    with the number 1. *)
Definition ex_lapic : lapic (Z → Z) :=
  Lapic 0xFEE00000 (repeat 0 256) 0 false (fupd (λ _, 0) (0xFEE00000 + LAPIC_SPURIOUS_INT_REG) 0x1FF).
Definition ex_lapic_smp (n : Z) : smp_info_t := SmpInfo 0 0 0 0 0 0 0 0 n 0x2000 0xFEE00000.
Definition ex_nmi_mem : mem := st8 (st8 ∅ 0x2002 0xFF) 0x2005 1.

Lemma disable_lapic_spec_witness :
  sw_enabled (disable_lapic ex_lapic (ex_lapic_smp 0)) = true.
Proof.
  unfold sw_enabled.
  rewrite (disable_lapic_spec ex_lapic (ex_lapic_smp 0) eq_refl LAPIC_SPURIOUS_INT_REG 8);
    [vm_compute; reflexivity|apply spurious_settled; left; lia].
Defined.

(** Suppressed, then asked for again: still suppressed. *)
Lemma set_eoi_broadcast_spec_witness :
  let s := set_eoi_broadcast ex_lapic false in
  fst (eoi_is_broadcast s) = false ∧ lbit (set_eoi_broadcast s true) LAPIC_SPURIOUS_INT_REG 12 = true.
Proof.
  intros s. split; [vm_compute; reflexivity|].
  destruct (set_eoi_broadcast_spec s true) as [Hb _]; [reflexivity..|]. rewrite Hb. vm_compute. reflexivity.
Defined.

(** The same local APIC before it is enabled. *)
Definition ex_lapic_off : lapic (Z → Z) :=
  Lapic 0xFEE00000 (repeat 0 256) 0 false (fupd (λ _, 0) (0xFEE00000 + LAPIC_SPURIOUS_INT_REG) 0xFF).

(** The pin with number 1 is programmed through the register of LINT0; it stays
    masked if the local APIC was not enabled before. *)
Lemma enable_lapic_spec_witness :
  ∀ l, l = ex_lapic ∨ l = ex_lapic_off → ∃ s',
    enable_lapic 2 l ex_nmi_mem (ex_lapic_smp 1) 0xFFFFFFFF = Done s' ∧
    get lvt_delivery_mode (lreg_of s' LAPIC_LINT0_REG) = 4 ∧
    get lvt_mask (lreg_of s' LAPIC_LINT0_REG) = Z.b2z (negb (sw_enabled l)).
Proof.
  intros l Hl. destruct (enable_lapic_spec 2 l ex_nmi_mem (ex_lapic_smp 1) 0xFFFFFFFF) as (s' & H1 & _ & _ & H2);
    [reflexivity|cbn; lia..|].
  exists s'. split; [exact H1|]. specialize (H2 true).
  destruct Hl as [->| ->];
    match type of H2 with match ?x with _ => _ end =>
      assert (Hd : x = Some 0x2000) by (vm_compute; reflexivity); rewrite Hd in H2; destruct H2 as (_ & A & B & _) end;
    split; [exact A|exact B|exact A|exact B].
Defined.

Lemma enable_lapic_diverges_witness :
  enable_lapic 1000 ex_lapic ex_nmi_mem (ex_lapic_smp 0) 0 ≠ Done ex_lapic.
Proof. apply enable_lapic_diverges; [reflexivity|left; reflexivity]. Defined.

#[export] Instance registers_ports : Ports (Z → Z) := {
  inportb port d := (0, d);
  outportb port v d := d;
}.

(** Two processors on a machine with all its memory free, whose timer
    interrupts fifty times between two looks; and one whose timer is dead. *)
Lemma startup_aps_spec_witness :
  let start := λ n, startup_aps 256 ex_lapic blank_pmm ex_nmi_mem (ex_lapic_smp 1) 0 (λ _, (n, id)) 0
    [Smp 0 0 0 0 0; Smp 1 1 0 0 0] 0x80001000 in
  (∃ s' c1 c2 w', start 50%nat = Done (s', 0, [c1; c2], w') ∧ c1 = Smp 0 0 0 0 0 ∧ goto_address c2 = 0x80001000) ∧
  start 0%nat = OutOfFuel.
Proof.
  split.
  - destruct (startup_aps_spec 256 ex_lapic blank_pmm ex_nmi_mem (ex_lapic_smp 1) 0 (λ _, (50%nat, id)) 0
      [Smp 0 0 0 0 0; Smp 1 1 0 0 0] 0x80001000) as (H & _); [reflexivity|cbn; lia..|].
    destruct H as (s' & l' & w' & H1 & _ & _ & _ & H2 & _);
      [intros k; cbn; lia|exact blank_ok|exact (blank_avail 1 eq_refl)|].
    inversion H2 as [|? c1 ? l1 Hc1 H3]; subst. inversion H3 as [|? c2 ? l2 Hc2 H4]; subst.
    inversion H4; subst. exists s', c1, c2, w'. split; [exact H1|].
    destruct Hc1 as (_ & _ & _ & Hc1). destruct Hc2 as (_ & _ & _ & Hc2 & _). split; [exact Hc1|exact Hc2].
  - apply (startup_aps_spec 256 ex_lapic blank_pmm ex_nmi_mem (ex_lapic_smp 1) 0 (λ _, (0%nat, id)) 0
      [Smp 0 0 0 0 0; Smp 1 1 0 0 0] 0x80001000); [reflexivity|cbn; lia..|reflexivity].
Defined.

(** A clock of 100 MHz, counted down for 100 ms by 8: 1250000 ticks.  The
    frequency does not fit the 16 bits it is kept in. *)
Example timer_hz_truncated :
  timer_hz 0xFFFFFFFF (0xFFFFFFFF - 1250000) = 100000000 ∧ u16 100000000 = 57600.
Proof. vm_compute. done. Qed.
