(* ===== verification/Gdt.v ===== *)
(** * Segment descriptors and the task state segment

    [src/src/kernel/gdt/gdt.c]: the global descriptor table, the descriptor of
    the task state segment and the task state segments of the processors. *)
From stdpp Require Import base list.
From S2P Require Import Prelude Bitfields SpinLock.

(** ** Data *)

Definition KERN_CS_SEGSEL : Z := 0x28.
Definition KERN_DS_SEGSEL : Z := 0x30.
Definition USER_CS_SEGSEL : Z := 0x3B.
Definition USER_DS_SEGSEL : Z := 0x43.

Record gdt_entry_t := GdtEntry {
  limit : Z; base_low : Z; base_mid : Z; access : Z; limit_and_flags : Z; base_high : Z;
}.

Record tss_entry_t := TssEntry {
  tss_length : Z; tss_base_low : Z; tss_base_mid : Z; tss_flags1 : Z; tss_flags2 : Z;
  tss_base_high : Z; tss_base_byte2 : Z; tss_reserved : Z;
}.

Record tss_t := Tss {
  reserved0 : Z; RSP0 : Z; RSP1 : Z; RSP2 : Z; reserved1 : Z; reserved2 : Z;
  IST1 : Z; IST2 : Z; IST3 : Z; IST4 : Z; IST5 : Z; IST6 : Z; IST7 : Z;
  reserved3 : Z; reserved4 : Z; IOBP : Z;
}.
Definition sizeof_tss_t : Z := 104.

Record gdt_t := Gdt { segments : list gdt_entry_t; tss : tss_entry_t }.
Definition sizeof_gdt_t : Z := 9 * 8 + 16.

Record gdt_descriptor_t := GdtDescriptor { desc_limit : Z; desc_base : Z }.

(** The segment registers, by the selectors they hold. *)
Inductive segreg := SEG_CS | SEG_DS | SEG_ES | SEG_FS | SEG_GS | SEG_SS.

#[export] Instance segreg_dec : EqDecision segreg.
Proof. solve_decision. Defined.

Definition segregs := segreg → Z.
Definition set_segreg (f : segregs) (r : segreg) (sel : Z) : segregs := λ r', if decide (r' = r) then sel else f r'.

(** The statics of the file, and the registers that [load_gdt] and [ltr] load. *)
Record gdt_state := GdtState {
  LTR_LOCK : bool;
  GDT : gdt_t;
  GDT_DESC : gdt_descriptor_t;
  TSS : list tss_t;
  gdtr : option gdt_descriptor_t;
  tr : option Z;
  segs : segregs;
}.

(** ** What the processor makes of it *)

(** A descriptor as the 64 bits it is in memory. *)
Definition descriptor (e : gdt_entry_t) : Z :=
  limit e + 2 ^ 16 * base_low e + 2 ^ 32 * base_mid e + 2 ^ 40 * access e +
  2 ^ 48 * limit_and_flags e + 2 ^ 56 * base_high e.

(** The 128 bits of a system descriptor. *)
Definition tss_descriptor (e : tss_entry_t) : Z :=
  tss_length e + 2 ^ 16 * tss_base_low e + 2 ^ 32 * tss_base_mid e + 2 ^ 40 * tss_flags1 e +
  2 ^ 48 * tss_flags2 e + 2 ^ 56 * tss_base_high e + 2 ^ 64 * tss_base_byte2 e +
  2 ^ 96 * tss_reserved e.

(** Fields of a code or data descriptor. *)
Definition seg_present (d : Z) : bool := Z.testbit d 47.
Definition seg_dpl (d : Z) : Z := get_bits d 45 2.
Definition seg_code_or_data (d : Z) : bool := Z.testbit d 44.
Definition seg_executable (d : Z) : bool := Z.testbit d 43.
Definition seg_writable (d : Z) : bool := Z.testbit d 41.
Definition seg_long (d : Z) : bool := Z.testbit d 53.

(** Fields of a system descriptor. *)
Definition sys_base (d : Z) : Z :=
  get_bits d 16 24 + 2 ^ 24 * get_bits d 56 8 + 2 ^ 32 * get_bits d 64 32.
Definition sys_limit (d : Z) : Z := get_bits d 0 16 + 2 ^ 16 * get_bits d 48 4.
Definition sys_type (d : Z) : Z := get_bits d 40 4.

(** The index and the privilege level of a selector. *)
Definition selector_index (sel : Z) : nat := Z.to_nat (sel / 8).
Definition selector_rpl (sel : Z) : Z := sel mod 4.

(** ** Operations

    [gdt_addr] and [tss_addr] are the addresses of the statics [GDT] and
    [TSS]; [lapic_id] is what [get_lapic_id] returns. *)

Definition set_tss_entry (base flags access : Z) : tss_entry_t := {|
  tss_length := 104;
  tss_base_low := Z.land base 0xFFFF;
  tss_base_mid := Z.land (Z.shiftr base 16) 0xFF;
  tss_flags1 := access;
  tss_flags2 := flags;
  tss_base_high := Z.land (Z.shiftr base 24) 0xFF;
  tss_base_byte2 := u32 (Z.shiftr base 32);
  tss_reserved := 0;
|}.

(** [memset] to zero, then [RSP0] and [IST1]. *)
Definition fresh_tss (stack : Z) : tss_t := Tss 0 stack 0 0 0 0 0 0 0 0 0 0 0 0 0 0.

Definition init_tss (s : gdt_state) (tss_addr lapic_id stack : Z) : outcome gdt_state :=
  _ ← wait (LTR_LOCK s);
  let entry := set_tss_entry (u64 (tss_addr + sizeof_tss_t * lapic_id)) 0x20 0x89 in
  Done (GdtState (release true) (Gdt (segments (GDT s)) entry) (GDT_DESC s)
          (<[Z.to_nat lapic_id := fresh_tss stack]> (TSS s)) (gdtr s) (tr s) (segs s)).

Definition load_tss (s : gdt_state) (tss_selector : Z) : outcome gdt_state :=
  _ ← wait (LTR_LOCK s);
  Done (GdtState (release true) (GDT s) (GDT_DESC s) (TSS s) (gdtr s) (Some tss_selector) (segs s)).

(** The nine descriptors, in the order of the assignments. *)
Definition gdt_segments : list gdt_entry_t := [
  GdtEntry 0 0 0 0 0 0;
  GdtEntry 0xffff 0 0 0x9A 0x80 0;
  GdtEntry 0xffff 0 0 0x9A 0x80 0;
  GdtEntry 0xffff 0 0 0x9A 0xCF 0;
  GdtEntry 0xffff 0 0 0x92 0xCF 0;
  GdtEntry 0 0 0 0x9A 0xA2 0;
  GdtEntry 0 0 0 0x92 0xA0 0;
  GdtEntry 0 0 0 0xFA 0x20 0;
  GdtEntry 0 0 0 0xF2 0 0
].

(** [mov ax, sel] and the five moves to segment registers, of [gdt_asm.asm] and
    of [isr80]. *)
Definition load_data_segments (sel : Z) (f : segregs) : segregs :=
  fold_left (λ f r, set_segreg f r sel) [SEG_DS; SEG_FS; SEG_GS; SEG_SS; SEG_ES] f.

(** What a selector must name to be loaded: a present segment of its privilege,
    64-bit code for [cs] and writable data for the others. *)
Definition loadable (g : gdt_t) (code : bool) (sel : Z) : bool :=
  match segments g !! selector_index sel with
  | Some e =>
      let d := descriptor e in
      seg_present d && seg_code_or_data d && Bool.eqb (seg_executable d) code && (seg_dpl d =? selector_rpl sel) &&
      (if code then seg_long d else seg_writable d)
  | None => false
  end.

(** [load_gdt] of [gdt_asm.asm]: [lgdt], the far return that loads [cs], and
    the data segments.  A selector that cannot be loaded is a fault. *)
Definition load_gdt (s : gdt_state) : outcome gdt_state :=
  _ ← check (loadable (GDT s) true 0x28);
  let f := set_segreg (segs s) SEG_CS 0x28 in
  _ ← check (loadable (GDT s) false 0x30);
  Done (GdtState (LTR_LOCK s) (GDT s) (GDT_DESC s) (TSS s) (Some (GDT_DESC s)) (tr s) (load_data_segments 0x30 f)).

Definition initialize_gdt (s : gdt_state) (gdt_addr tss_addr lapic_id stack : Z) : outcome gdt_state :=
  let s := GdtState (LTR_LOCK s) (Gdt gdt_segments (tss (GDT s))) (GDT_DESC s) (TSS s) (gdtr s) (tr s) (segs s) in
  s ← init_tss s tss_addr lapic_id stack;
  let desc := GdtDescriptor (sizeof_gdt_t - 1) gdt_addr in
  s ← load_gdt (GdtState (LTR_LOCK s) (GDT s) desc (TSS s) (gdtr s) (tr s) (segs s));
  load_tss s 0x48.

(** ** Properties *)

Lemma set_tss_entry_descriptor base flags acc :
  tss_descriptor (set_tss_entry base flags acc) =
    104 + 2 ^ 16 * (base mod 2 ^ 16) + 2 ^ 32 * (base / 2 ^ 16 mod 2 ^ 8) + 2 ^ 40 * acc +
    2 ^ 48 * flags + 2 ^ 56 * (base / 2 ^ 24 mod 2 ^ 8) + 2 ^ 64 * (base / 2 ^ 32 mod 2 ^ 32).
Proof.
  unfold tss_descriptor, set_tss_entry. cbn [tss_length tss_base_low tss_base_mid
    tss_flags1 tss_flags2 tss_base_high tss_base_byte2 tss_reserved].
  change 0xFFFF with (Z.ones 16). change 0xFF with (Z.ones 8).
  rewrite !Z.land_ones, !Z.shiftr_div_pow2 by lia. unfold u32. lia.
Qed.

(** The processor reads back the base, the type and the limit that
    [set_tss_entry] splits over the descriptor. *)
Lemma set_tss_entry_fields base flags acc :
  0 ≤ base < 2 ^ 64 → 0 ≤ flags < 256 → 0 ≤ acc < 256 →
  let d := tss_descriptor (set_tss_entry base flags acc) in
  sys_base d = base ∧ sys_type d = acc mod 16 ∧ sys_limit d = 104 + 2 ^ 16 * (flags mod 16).
Proof.
  intros Hb Hf Ha d. unfold sys_base, sys_type, sys_limit. rewrite !get_bits_div by lia.
  unfold d. rewrite set_tss_entry_descriptor. clear d.
  assert (Hsum : base = base mod 2 ^ 16 + 2 ^ 16 * (base / 2 ^ 16 mod 2 ^ 8) +
    2 ^ 24 * (base / 2 ^ 24 mod 2 ^ 8) + 2 ^ 32 * (base / 2 ^ 32 mod 2 ^ 32)) by dlia.
  assert (0 ≤ base mod 2 ^ 16 < 2 ^ 16 ∧ 0 ≤ base / 2 ^ 16 mod 2 ^ 8 < 2 ^ 8 ∧
    0 ≤ base / 2 ^ 24 mod 2 ^ 8 < 2 ^ 8 ∧ 0 ≤ base / 2 ^ 32 mod 2 ^ 32 < 2 ^ 32) as Hr
    by (split_and!; apply Z.mod_pos_bound; lia).
  revert Hsum Hr. generalize (base mod 2 ^ 16) (base / 2 ^ 16 mod 2 ^ 8) (base / 2 ^ 24 mod 2 ^ 8)
    (base / 2 ^ 32 mod 2 ^ 32). intros x0 x1 x2 x3 Hsum Hr.
  split_and!; dlia.
Qed.

(** The table that is loaded: the selectors the kernel uses name present code
    and data segments, 64-bit code, privilege 0 for the kernel and 3 for users,
    writable data; the task register names the last descriptor, an available
    task state segment, the one of the processor [id], with [RSP0] the stack.  The
    segment registers hold the kernel's selectors. *)
Record segments_loaded (gdt_addr tss_addr id stack : Z) (s : gdt_state) : Prop := {
  sl_lock : LTR_LOCK s = false;
  sl_gdtr : gdtr s = Some (GdtDescriptor 87 gdt_addr);
  sl_tr : tr s = Some 0x48;
  sl_cs : segs s SEG_CS = KERN_CS_SEGSEL;
  sl_data : ∀ r, r ≠ SEG_CS → segs s r = KERN_DS_SEGSEL;
  sl_segments : ∀ sel, sel ∈ [KERN_CS_SEGSEL; KERN_DS_SEGSEL; USER_CS_SEGSEL; USER_DS_SEGSEL] →
    ∃ e, segments (GDT s) !! selector_index sel = Some e ∧
      seg_present (descriptor e) = true ∧ seg_code_or_data (descriptor e) = true ∧
      seg_dpl (descriptor e) = selector_rpl sel ∧
      seg_executable (descriptor e) = bool_decide (sel = KERN_CS_SEGSEL ∨ sel = USER_CS_SEGSEL) ∧
      (seg_executable (descriptor e) = true → seg_long (descriptor e) = true) ∧
      seg_writable (descriptor e) = true;
  sl_last : length (segments (GDT s)) = selector_index 0x48;
  sl_tss : let d := tss_descriptor (tss (GDT s)) in
    sys_base d = tss_addr + sizeof_tss_t * id ∧ sys_type d = 9 ∧ sys_limit d = 104;
  sl_stack : TSS s !! Z.to_nat id = Some (fresh_tss stack);
}.

Lemma initialize_gdt_loads s gdt_addr tss_addr id stack :
  LTR_LOCK s = false → 0 ≤ tss_addr → tss_addr + sizeof_tss_t * 256 ≤ 2 ^ 64 → 0 ≤ id < 256 →
  length (TSS s) = 256%nat →
  ∃ s', initialize_gdt s gdt_addr tss_addr id stack = Done s' ∧ segments_loaded gdt_addr tss_addr id stack s'.
Proof.
  intros Hlock Ht0 Ht1 Hid Hlen. unfold initialize_gdt, init_tss, load_tss. cbn [LTR_LOCK]. rewrite Hlock.
  cbn [wait]. do_bind. cbn [LTR_LOCK release]. unfold load_gdt.
  change (loadable _ true 0x28) with true. change (loadable _ false 0x30) with true. cbn [check]. do_bind.
  cbn [LTR_LOCK wait]. do_bind. eexists. split; [done|].
  unfold sizeof_tss_t in *. rewrite u64_small by lia.
  split; cbn [LTR_LOCK gdtr tr GDT segments tss TSS segs]; try done.
  - by intros [].
  - intros sel. rewrite !elem_of_cons, elem_of_nil. intros Hsel.
    destruct_or! Hsel; try done; subst sel; eexists; (split; [reflexivity|]); vm_compute; done.
  - apply (set_tss_entry_fields (tss_addr + 104 * id) 0x20 0x89); lia.
  - by rewrite list_lookup_insert_eq by lia.
Qed.

(** C31: [initialize_gdt] ends if the lock is free and loads a table in which the
    selectors the kernel uses name what they should: present code and data
    segments, 64-bit code, privilege 0 for the kernel and 3 for users, writable
    data; and a task state segment of the processor, available, at its address,
    with [RSP0] the stack it was given.  The loads of the segment registers
    do not fault: [cs] holds the kernel's code segment, the others its data
    segment.  The lock is free again. *)
Theorem initialize_gdt_spec s gdt_addr tss_addr id stack :
  LTR_LOCK s = false → 0 ≤ tss_addr → tss_addr + sizeof_tss_t * 256 ≤ 2 ^ 64 → 0 ≤ id < 256 →
  length (TSS s) = 256%nat →
  ∃ s', initialize_gdt s gdt_addr tss_addr id stack = Done s' ∧ segments_loaded gdt_addr tss_addr id stack s'.
Proof. apply initialize_gdt_loads. Qed.

(** The table's own comment calls descriptor 2 a data segment; it is a code
    segment. *)
Example segment_2_is_code :
  ∃ e, gdt_segments !! 2%nat = Some e ∧ seg_executable (descriptor e) = true.
Proof. eexists. split; [reflexivity|]. vm_compute. done. Qed.

(** ** Returning to a user program

    [iretq] to the outer privilege level [cpl] loads [cs] and [ss] from the
    stack, and clears each of the other segment registers that names a segment
    of a more privileged level. *)
Definition returned_segment (g : gdt_t) (cpl sel : Z) : Z :=
  match segments g !! selector_index sel with
  | Some e => if seg_dpl (descriptor e) <? cpl then 0 else sel
  | None => 0
  end.

(** The kernel's data selector does not survive the return to a user program;
    the user's would. *)
Lemma returned_data_segments g :
  segments g = gdt_segments →
  returned_segment g 3 KERN_DS_SEGSEL = 0 ∧ returned_segment g 3 USER_DS_SEGSEL = USER_DS_SEGSEL.
Proof. intros Hg. unfold returned_segment. rewrite Hg. by vm_compute. Qed.

(** ** The I/O permission bitmap

    At privilege 3 with I/O privilege level 0 the processor allows an access to
    a byte port if the bit of the port is clear in the bitmap that begins at
    the 16-bit offset at byte 102 of the task state segment, and the bit lies
    within the segment. *)
Definition iopb_offset (t : tss_t) : Z := IOBP t / 2 ^ 16.

(** The bytes of a task state segment. *)
Definition le_bytes (n : nat) (v : Z) : list Z := map (λ i, (v / 2 ^ (8 * Z.of_nat i)) mod 256) (seq 0 n).

Definition tss_bytes (t : tss_t) : list Z :=
  le_bytes 4 (reserved0 t) ++ le_bytes 8 (RSP0 t) ++ le_bytes 8 (RSP1 t) ++ le_bytes 8 (RSP2 t) ++
  le_bytes 4 (reserved1 t) ++ le_bytes 4 (reserved2 t) ++
  le_bytes 8 (IST1 t) ++ le_bytes 8 (IST2 t) ++ le_bytes 8 (IST3 t) ++ le_bytes 8 (IST4 t) ++
  le_bytes 8 (IST5 t) ++ le_bytes 8 (IST6 t) ++ le_bytes 8 (IST7 t) ++
  le_bytes 4 (reserved3 t) ++ le_bytes 4 (reserved4 t) ++ le_bytes 4 (IOBP t).

Definition port_allowed (t : tss_t) (tss_limit port : Z) : bool :=
  let byte := iopb_offset t + port / 8 in
  (byte + 1 <=? tss_limit) &&
  negb (Z.testbit (default 255 (tss_bytes t !! Z.to_nat byte)) (port mod 8)).

(** A task state segment as [init_tss] leaves it lets user programs at every
    port below 824 but those whose bits are bits of the kernel's stack pointer
    (32 to 95): the bitmap's offset is 0, so the processor reads the segment
    itself as the bitmap. *)
Theorem init_tss_ports stack port :
  0 ≤ port < 824 → port < 32 ∨ 96 ≤ port → port_allowed (fresh_tss stack) 104 port = true.
Proof.
  intros Hp Hs. unfold port_allowed.
  change (iopb_offset (fresh_tss stack)) with 0. rewrite Z.add_0_l.
  assert (Hq : 0 ≤ port / 8 < 103 ∧ (port / 8 < 4 ∨ 12 ≤ port / 8)) by dlia.
  rewrite (proj2 (Z.leb_le _ _)) by lia. cbn [andb].
  assert (Hb : tss_bytes (fresh_tss stack) !! Z.to_nat (port / 8) = Some 0).
  { unfold tss_bytes, fresh_tss. cbn [reserved0 RSP0 RSP1 RSP2 reserved1 reserved2 IST1 IST2 IST3 IST4 IST5 IST6
      IST7 reserved3 reserved4 IOBP].
    set (l := le_bytes 8 stack). assert (Hl : length l = 8%nat) by done.
    destruct Hq as [Hq [Hlt|Hge]].
    - rewrite lookup_app_l by (change (length (le_bytes 4 0)) with 4%nat; lia).
      change (le_bytes 4 0) with (replicate 4 0). apply lookup_replicate. split; [done|lia].
    - rewrite lookup_app_r by (change (length (le_bytes 4 0)) with 4%nat; lia).
      change (length (le_bytes 4 0)) with 4%nat. rewrite lookup_app_r by lia. rewrite Hl.
      match goal with |- ?r !! _ = _ => change r with (replicate 92 0) end.
      apply lookup_replicate. split; [done|lia]. }
  rewrite Hb. cbn [default]. by rewrite Z.bits_0.
Qed.

(** ** Witnesses *)

Definition ex_gdt : gdt_state :=
  GdtState false (Gdt [] (TssEntry 0 0 0 0 0 0 0 0)) (GdtDescriptor 0 0)
    (repeat (fresh_tss 0) 256) None None (λ _, 0).

Lemma initialize_gdt_spec_witness : ∃ s',
  initialize_gdt ex_gdt 0xFFFFFFFF80010000 0xFFFFFFFF80020000 3 0x8000 = Done s' ∧
  sys_base (tss_descriptor (tss (GDT s'))) = 0xFFFFFFFF80020000 + 3 * 104 ∧ LTR_LOCK s' = false.
Proof.
  destruct (initialize_gdt_spec ex_gdt 0xFFFFFFFF80010000 0xFFFFFFFF80020000 3 0x8000)
    as (s' & H1 & H2); [reflexivity|lia|unfold sizeof_tss_t; lia|lia|reflexivity|].
  exists s'. split; [exact H1|]. split; [apply (sl_tss _ _ _ _ _ H2)|apply (sl_lock _ _ _ _ _ H2)].
Defined.

(** The keyboard controller's port 0x60 is among them. *)
Lemma init_tss_ports_witness : port_allowed (fresh_tss 0xFFFFFFFF80008000) 104 0x60 = true.
Proof. apply init_tss_ports; [lia|right; lia]. Defined.
