(* ===== verification/Idt.v ===== *)
(** * The interrupt descriptor table

    [src/src/kernel/interrupts/idt.c]: the gates, their initialisation and the
    legacy interrupt controllers.  The keyboard handler is in [Keyboard], the
    system calls are in [Syscall]. *)
From stdpp Require Import base list.
From S2P Require Import Prelude Bitfields Devices Gdt.

(** ** Constants and data *)

Definition LOW_ISR_OFFSET (isr : Z) : Z := Z.land isr 0xFFFF.
Definition MID_ISR_OFFSET (isr : Z) : Z := Z.land (Z.shiftr isr 16) 0xFFFF.
Definition HIGH_ISR_OFFSET (isr : Z) : Z := Z.land (Z.shiftr isr 32) 0xFFFFFFFF.

Definition MASTER_PIC_COMMAND : Z := 0x20.
Definition MASTER_PIC_DATA : Z := 0x21.
Definition SLAVE_PIC_COMMAND : Z := 0xa0.
Definition SLAVE_PIC_DATA : Z := 0xa1.
Definition ICW1 : Z := 0x10.
Definition ICW1_ICW4 : Z := 0x01.
Definition ICW4_X86 : Z := 0x01.
Definition INTERRUPT_GATE : Z := 0x8E.
Definition TRAP_GATE : Z := 0x8F.
Definition TASK_GATE : Z := 0x85.
Definition USER_MODE_INT : Z := 0x60.

Record IdtEntry := Gate {
  handler_low : Z; segment : Z; ist : Z; attributes : Z; handler_mid : Z; handler_high : Z;
  gate_reserved : Z;
}.
Definition sizeof_IdtEntry : Z := 16.

Record IdtDescriptor := IdtDesc { bounds : Z; base : Z }.

(** [IDT], and what [lidt] loads. *)
Record idt_state := IdtState { IDT : list IdtEntry; idtr : option IdtDescriptor }.

(** ** Operations *)

Definition make_gate (isr flags : Z) : IdtEntry := {|
  handler_low := LOW_ISR_OFFSET isr;
  handler_mid := MID_ISR_OFFSET isr;
  handler_high := HIGH_ISR_OFFSET isr;
  segment := 0x28;
  ist := 0;
  attributes := flags;
  gate_reserved := 0;
|}.

Definition SetIdtEntry (s : idt_state) (vector isr flags : Z) : idt_state :=
  IdtState (<[Z.to_nat vector := make_gate isr flags]> (IDT s)) (idtr s).

Section pic.
Context {D : Type} `{Ports D}.

(** [isr1], [isr2] and [isr80] are the addresses of the assembly stubs,
    [idt_addr] is that of [IDT].  The system calls are registered by
    [Syscall.init_syscalls]. *)
Definition InitializeIdt (s : idt_state) (d : D) (isr1 isr2 isr80 idt_addr : Z) : idt_state * D :=
  let s := SetIdtEntry s 0x21 isr1 INTERRUPT_GATE in
  let s := SetIdtEntry s 0x22 isr2 INTERRUPT_GATE in
  let s := SetIdtEntry s 0x80 isr80 (Z.lor INTERRUPT_GATE USER_MODE_INT) in
  let d := outportb SLAVE_PIC_DATA 0xFF d in
  let d := outportb MASTER_PIC_DATA 0xFF d in
  (IdtState (IDT s) (Some (IdtDesc (256 * sizeof_IdtEntry - 1) idt_addr)), d).

(** The last argument of [outportb] is a byte. *)
Definition RemapPic (d : D) (master_offset slave_offset : Z) : D :=
  let '(master_int_mask, d) := inportb MASTER_PIC_DATA d in
  let '(slave_int_mask, d) := inportb SLAVE_PIC_DATA d in
  let d := outportb MASTER_PIC_COMMAND (Z.lor ICW1 ICW1_ICW4) d in
  let d := outportb SLAVE_PIC_COMMAND (Z.lor ICW1 ICW1_ICW4) d in
  let d := outportb MASTER_PIC_DATA (u8 master_offset) d in
  let d := outportb SLAVE_PIC_DATA (u8 slave_offset) d in
  let d := outportb MASTER_PIC_DATA 4 d in
  let d := outportb SLAVE_PIC_DATA 2 d in
  let d := outportb MASTER_PIC_DATA ICW4_X86 d in
  let d := outportb SLAVE_PIC_DATA ICW4_X86 d in
  let d := outportb MASTER_PIC_DATA master_int_mask d in
  outportb SLAVE_PIC_DATA slave_int_mask d.

End pic.

(** ** What the processor makes of a gate *)

Definition gate_handler (g : IdtEntry) : Z :=
  handler_low g + 2 ^ 16 * handler_mid g + 2 ^ 32 * handler_high g.
Definition gate_present (g : IdtEntry) : bool := Z.testbit (attributes g) 7.
Definition gate_dpl (g : IdtEntry) : Z := get_bits (attributes g) 5 2.
Definition gate_type (g : IdtEntry) : Z := get_bits (attributes g) 0 4.

(** Software may raise a vector with [int] if the gate is present and its
    privilege level is not below the caller's. *)
Definition int_allowed (s : idt_state) (cpl vector : Z) : bool :=
  match IDT s !! Z.to_nat vector with
  | Some g => gate_present g && (cpl <=? gate_dpl g)
  | None => false
  end.

Lemma make_gate_handler isr flags : 0 ≤ isr < 2 ^ 64 → gate_handler (make_gate isr flags) = isr.
Proof.
  intros Hisr. unfold gate_handler, make_gate. cbn [handler_low handler_mid handler_high].
  unfold LOW_ISR_OFFSET, MID_ISR_OFFSET, HIGH_ISR_OFFSET.
  change 0xFFFF with (Z.ones 16). change 0xFFFFFFFF with (Z.ones 32).
  rewrite !Z.land_ones, !Z.shiftr_div_pow2 by lia. dlia.
Qed.

(** ** The interrupt controllers

    What [RemapPic] relies on of a pair of 8259A controllers: after the command
    0x11 the next three bytes on the data port are the vector offset, the
    cascade wiring and the mode; any other byte on the data port is the mask,
    and reading the data port gives the mask. *)
Record pic := Pic { pic_offset : Z; pic_mask : Z; pic_words : Z }.

Definition pic_command (v : Z) (p : pic) : pic :=
  if v =? 0x11 then Pic (pic_offset p) (pic_mask p) 3 else p.

Definition pic_data (v : Z) (p : pic) : pic :=
  if pic_words p =? 3 then Pic v (pic_mask p) 2
  else if 0 <? pic_words p then Pic (pic_offset p) (pic_mask p) (pic_words p - 1)
  else Pic (pic_offset p) v 0.

#[export] Instance pics : Ports (pic * pic) := {
  inportb port d := (if port =? MASTER_PIC_DATA then pic_mask (fst d) else pic_mask (snd d), d);
  outportb port v d :=
    let '(m, s) := d in
    if port =? MASTER_PIC_COMMAND then (pic_command v m, s)
    else if port =? MASTER_PIC_DATA then (pic_data v m, s)
    else if port =? SLAVE_PIC_COMMAND then (m, pic_command v s)
    else if port =? SLAVE_PIC_DATA then (m, pic_data v s)
    else (m, s);
}.

(** ** Properties *)

(** The gates: the three vectors lead to their stubs through present interrupt
    gates of the kernel's code segment, of which user programs may raise 0x80
    alone; the others are those of [s]; and the table of 256 is loaded. *)
Record gates_installed (s : idt_state) (isr1 isr2 isr80 addr : Z) (s' : idt_state) : Prop := {
  gi_gates : ∀ v isr, (v, isr) ∈ [(0x21, isr1); (0x22, isr2); (0x80, isr80)] →
    ∃ g, IDT s' !! Z.to_nat v = Some g ∧ gate_handler g = isr ∧ gate_present g = true ∧
      gate_type g = 14 ∧ segment g = KERN_CS_SEGSEL ∧ int_allowed s' 3 v = bool_decide (v = 0x80);
  gi_others : ∀ v, 0 ≤ v → v ∉ [0x21; 0x22; 0x80] → IDT s' !! Z.to_nat v = IDT s !! Z.to_nat v;
  gi_length : length (IDT s') = 256%nat;
  gi_idtr : idtr s' = Some (IdtDesc 4095 addr);
}.

(** Whatever the devices are. *)
Lemma InitializeIdt_installs {D} `{Ports D} s (d : D) isr1 isr2 isr80 addr :
  length (IDT s) = 256%nat → 0 ≤ isr1 < 2 ^ 64 → 0 ≤ isr2 < 2 ^ 64 → 0 ≤ isr80 < 2 ^ 64 →
  gates_installed s isr1 isr2 isr80 addr (InitializeIdt s d isr1 isr2 isr80 addr).1.
Proof.
  intros Hlen H1 H2 H80. unfold InitializeIdt, SetIdtEntry. cbn [IDT idtr fst].
  change (Z.to_nat 33) with 33%nat. change (Z.to_nat 34) with 34%nat. change (Z.to_nat 128) with 128%nat.
  split; cbn [IDT idtr]; [| |by rewrite !length_insert|done].
  - intros v isr. rewrite !elem_of_cons, elem_of_nil. intros Hv.
    destruct_or! Hv; try done; injection Hv as -> ->.
    all: unfold int_allowed; cbn [IDT].
    1: change (Z.to_nat 33) with 33%nat. 2: change (Z.to_nat 34) with 34%nat.
    3: change (Z.to_nat 128) with 128%nat.
    all: rewrite ?(list_lookup_insert_ne _ 128), ?(list_lookup_insert_ne _ 34) by lia.
    all: rewrite list_lookup_insert_eq by (rewrite ?length_insert; lia).
    all: eexists; split; [done|]; split; [by apply make_gate_handler|].
    all: by vm_compute.
  - intros v Hv0 Hv. rewrite !not_elem_of_cons in Hv.
    by rewrite !list_lookup_insert_ne by lia.
Qed.

(** C32: After [InitializeIdt] the three vectors lead to their stubs through
    present interrupt gates of the kernel's code segment; user programs may
    raise 0x80 and neither of the other two; every other gate is as it was; the
    table of 256 gates is loaded, and both legacy controllers, if idle, mask
    every line. *)
Theorem InitializeIdt_spec s m sl isr1 isr2 isr80 addr :
  length (IDT s) = 256%nat →
  0 ≤ isr1 < 2 ^ 64 → 0 ≤ isr2 < 2 ^ 64 → 0 ≤ isr80 < 2 ^ 64 → pic_words m = 0 → pic_words sl = 0 →
  let '(s', d') := InitializeIdt s (m, sl) isr1 isr2 isr80 addr in
  gates_installed s isr1 isr2 isr80 addr s' ∧ pic_mask (fst d') = 0xFF ∧ pic_mask (snd d') = 0xFF.
Proof.
  intros Hlen H1 H2 H80 Hm Hsl.
  pose proof (InitializeIdt_installs s (m, sl) isr1 isr2 isr80 addr Hlen H1 H2 H80) as Hg.
  destruct (InitializeIdt s (m, sl) isr1 isr2 isr80 addr) as [s' d'] eqn:Heq. split; [done|].
  unfold InitializeIdt in Heq. injection Heq as _ <-. cbn [outportb pics]. unfold pic_data. cbn. by rewrite Hm, Hsl.
Qed.

(** [RemapPic] moves the two controllers to the vector offsets it is given,
    ends with both initialised, and keeps their masks. *)
Theorem RemapPic_spec m sl mo so :
  0 ≤ mo < 256 → 0 ≤ so < 256 →
  RemapPic (m, sl) mo so = (Pic mo (pic_mask m) 0, Pic so (pic_mask sl) 0).
Proof.
  intros Hmo Hso. unfold RemapPic. cbn [inportb pics outportb]. rewrite !u8_small by lia. done.
Qed.

(** ** Witnesses *)

Definition ex_idt : idt_state := IdtState (repeat (make_gate 0 0) 256) None.

Lemma InitializeIdt_spec_witness :
  let '(s', d') := InitializeIdt ex_idt (Pic 8 0 0, Pic 0x70 0 0) 0x80001000 0x80002000 0xFFFFFFFF80003000 0x9000 in
  int_allowed s' 3 0x80 = true ∧ int_allowed s' 3 0x21 = false.
Proof.
  pose proof (InitializeIdt_spec ex_idt (Pic 8 0 0) (Pic 0x70 0 0) 0x80001000 0x80002000 0xFFFFFFFF80003000 0x9000
    eq_refl ltac:(lia) ltac:(lia) ltac:(lia) eq_refl eq_refl) as Hspec.
  destruct (InitializeIdt ex_idt _ _ _ _ _) as [s' d']. destruct Hspec as [[Hv _ _ _] _].
  destruct (Hv 0x80 0xFFFFFFFF80003000) as (_ & _ & _ & _ & _ & _ & H1); [by repeat constructor|].
  destruct (Hv 0x21 0x80001000) as (_ & _ & _ & _ & _ & _ & H2); [by repeat constructor|].
  split; [exact H1|exact H2].
Defined.

Lemma RemapPic_spec_witness :
  RemapPic (Pic 8 0xAB 0, Pic 0x70 0xCD 2) 0x20 0x28 = (Pic 0x20 0xAB 0, Pic 0x28 0xCD 0).
Proof. apply (RemapPic_spec (Pic 8 0xAB 0) (Pic 0x70 0xCD 2) 0x20 0x28); lia. Defined.
