(* ===== verification/Keyboard.v ===== *)
(** * The keyboard

    [src/src/kernel/interrupts/keycodes.c] and the handlers of [idt.c]: the
    tables of characters, the state of the keys and what the keystroke consumer
    is told. *)
From Stdlib Require Import String.
From stdpp Require Import base list.
From S2P Require Import Prelude Printf.
Open Scope Z_scope.

(** ** Constants and data *)

Definition BACKSPACE_PRESSED : Z := 0x0E.
Definition BACKSPACE_RELEASED : Z := 0x8E.
Definition ENTER_PRESSED : Z := 0x1C.
Definition ENTER_RELEASED : Z := 0x9C.
Definition LEFT_SHIFT_PRESSED : Z := 0x2A.
Definition LEFT_SHIFT_RELEASED : Z := 0xAA.
Definition RIGHT_SHIFT_PRESSED : Z := 0x36.
Definition RIGHT_SHIFT_RELEASED : Z := 0xB6.
Definition CTRL_PRESSED : Z := 0x1E.
Definition CTRL_RELEASED : Z := 0x9E.

Record KeyInfo := KeyState { shift : bool; backspace : bool; ctrl : bool; enter : bool; scancode : Z }.

(** [KEY_INFO], a static, before the first key. *)
Definition no_keys : KeyInfo := KeyState false false false false 0.

(** The two tables; what the initialisers leave out is 0.  The quotation marks,
    the grave accent, the backslash and their companions are written as codes. *)
Definition LOWERCASE_CHARS_BY_SCANCODE : list Z :=
  [0; 0] ++ chars "1234567890-=" ++ [0] ++
  [0] ++ chars "qwertyuiop[]" ++ [0; 0] ++
  chars "asdfghjkl;" ++ [39; 96; 0; 92] ++
  chars "zxcvbnm,./" ++ [0; 0; 0; 32; 0] ++ repeat 0 69.

Definition UPPERCASE_CHARS_BY_SCANCODE : list Z :=
  [0; 0] ++ chars "!@#$%^&*()_+" ++ [0] ++
  [0] ++ chars "QWERTYUIOP{}" ++ [0; 0] ++
  chars "ASDFGHJKL:" ++ [34; 126; 0; 124] ++
  chars "ZXCVBNM<>?" ++ [0; 0; 0; 32; 0] ++ repeat 0 69.

(** ** Operations *)

(** An index past the end of the table is undefined. *)
Definition CharFromScancode (key_info : KeyInfo) : outcome Z :=
  let table := if shift key_info then UPPERCASE_CHARS_BY_SCANCODE else LOWERCASE_CHARS_BY_SCANCODE in
  match table !! Z.to_nat (scancode key_info) with
  | Some c => Done c
  | None => Undefined
  end.

(** [KEY_INFO] and [KEYSTROKE_CONSUMER]; [None] is [NULL]. *)
Record keyboard (C : Type) := Keyboard { KEY_INFO : KeyInfo; KEYSTROKE_CONSUMER : option C }.
Arguments Keyboard {C}.
Arguments KEY_INFO {C}.
Arguments KEYSTROKE_CONSUMER {C}.

Definition GetKeystrokeConsumer {C} (k : keyboard C) : option C := KEYSTROKE_CONSUMER k.
Definition SetKeystrokeConsumer {C} (k : keyboard C) (ksc : C) : keyboard C := Keyboard (KEY_INFO k) (Some ksc).

Definition set_shift (k : KeyInfo) (b : bool) : KeyInfo :=
  KeyState b (backspace k) (ctrl k) (enter k) (scancode k).
Definition set_backspace (k : KeyInfo) (b : bool) : KeyInfo :=
  KeyState (shift k) b (ctrl k) (enter k) (scancode k).
Definition set_ctrl (k : KeyInfo) (b : bool) : KeyInfo :=
  KeyState (shift k) (backspace k) b (enter k) (scancode k).
Definition set_enter (k : KeyInfo) (b : bool) : KeyInfo :=
  KeyState (shift k) (backspace k) (ctrl k) b (scancode k).
Definition set_scancode (k : KeyInfo) (c : Z) : KeyInfo :=
  KeyState (shift k) (backspace k) (ctrl k) (enter k) c.

(** The [switch] of [Isr1Handler]. *)
Definition key_event (k : KeyInfo) (byte : Z) : KeyInfo :=
  let k := set_scancode k byte in
  if byte =? BACKSPACE_PRESSED then set_backspace k true
  else if byte =? BACKSPACE_RELEASED then set_backspace k false
  else if byte =? ENTER_PRESSED then set_enter k true
  else if byte =? ENTER_RELEASED then set_enter k false
  else if (byte =? LEFT_SHIFT_PRESSED) || (byte =? RIGHT_SHIFT_PRESSED) then set_shift k true
  else if (byte =? LEFT_SHIFT_RELEASED) || (byte =? RIGHT_SHIFT_RELEASED) then
    set_scancode (set_shift k false) 0
  else if byte =? CTRL_PRESSED then set_ctrl k true
  else if byte =? CTRL_RELEASED then set_ctrl k false
  else k.

(** [Isr1Handler], given the byte read from port 0x60: the state after it and
    the call it makes, of which consumer with which key state.  A null consumer
    is called all the same.  The end of interrupt is [Lapic.end_of_interrupt]. *)
Definition Isr1Handler {C} (k : keyboard C) (byte : Z) : outcome (option (C * KeyInfo) * keyboard C) :=
  let info := key_event (KEY_INFO k) byte in
  let k := Keyboard info (KEYSTROKE_CONSUMER k) in
  if scancode info <? 0x80 then
    match GetKeystrokeConsumer k with
    | Some ks_consumer => Done (Some (ks_consumer, info), k)
    | None => Undefined
    end
  else Done (None, k).

(** A sequence of keyboard interrupts, and the calls they make. *)
Fixpoint keyboard_run {C} (k : keyboard C) (bytes : list Z) : outcome (list (C * KeyInfo) * keyboard C) :=
  match bytes with
  | [] => Done ([], k)
  | byte :: bytes =>
      '(call, k) ← Isr1Handler k byte;
      '(calls, k) ← keyboard_run k bytes;
      Done (option_list call ++ calls, k)
  end.

(** ** Specification *)

(** A flag is what the last of its make and break codes says. *)
Definition last_says (makes breaks : list Z) (initial : bool) (bytes : list Z) : bool :=
  fold_left (λ b byte, if bool_decide (byte ∈ makes) then true
                       else if bool_decide (byte ∈ breaks) then false else b) bytes initial.

Definition shift_codes : list Z := [LEFT_SHIFT_RELEASED; RIGHT_SHIFT_RELEASED].

(** The bytes the consumer hears about: make codes, and the two break codes of
    the shift keys. *)
Definition heard (byte : Z) : bool := (byte <? 0x80) || bool_decide (byte ∈ shift_codes).

Lemma key_event_flags k byte :
  shift (key_event k byte) = last_says [0x2A; 0x36] [0xAA; 0xB6] (shift k) [byte] ∧
  backspace (key_event k byte) = last_says [0x0E] [0x8E] (backspace k) [byte] ∧
  enter (key_event k byte) = last_says [0x1C] [0x9C] (enter k) [byte] ∧
  ctrl (key_event k byte) = last_says [0x1E] [0x9E] (ctrl k) [byte] ∧
  scancode (key_event k byte) = if bool_decide (byte ∈ shift_codes) then 0 else byte.
Proof.
  unfold key_event, last_says, shift_codes. cbn [fold_left].
  unfold BACKSPACE_PRESSED, BACKSPACE_RELEASED, ENTER_PRESSED, ENTER_RELEASED, LEFT_SHIFT_PRESSED,
    LEFT_SHIFT_RELEASED, RIGHT_SHIFT_PRESSED, RIGHT_SHIFT_RELEASED, CTRL_PRESSED, CTRL_RELEASED.
  destruct (decide (byte ∈ [0x0E; 0x8E; 0x1C; 0x9C; 0x2A; 0x36; 0xAA; 0xB6; 0x1E; 0x9E])) as [Hin|Hout].
  - rewrite !elem_of_cons, elem_of_nil in Hin. destruct_or! Hin; try done; subst byte; vm_compute; done.
  - rewrite !not_elem_of_cons in Hout. destruct Hout as (?&?&?&?&?&?&?&?&?&?&_).
    rewrite !bool_decide_eq_false_2 by (rewrite ?not_elem_of_cons; split_and?; (done || apply not_elem_of_nil)).
    by rewrite !(proj2 (Z.eqb_neq byte _)) by done.
Qed.

Lemma Isr1Handler_spec {C} (k : keyboard C) ksc byte :
  KEYSTROKE_CONSUMER k = Some ksc → 0 ≤ byte < 256 →
  Isr1Handler k byte =
    Done (if heard byte then Some (ksc, key_event (KEY_INFO k) byte) else None,
          Keyboard (key_event (KEY_INFO k) byte) (Some ksc)).
Proof.
  intros Hk Hb. unfold Isr1Handler, GetKeystrokeConsumer. cbn [KEYSTROKE_CONSUMER]. rewrite Hk.
  destruct (key_event_flags (KEY_INFO k) byte) as (_ & _ & _ & _ & ->). unfold heard.
  destruct (bool_decide_reflect (byte ∈ shift_codes)) as [Hin|]; [by rewrite orb_true_r|].
  rewrite orb_false_r. by destruct (byte <? 0x80).
Qed.

(** ** Properties *)

(** C34: After any sequence of bytes, each flag is what the last make or break
    code of its key says (both shift keys share one flag); the consumer has
    been called once per make code, in order, and once more with scancode 0
    for every release of a shift key. *)
Theorem keyboard_run_spec {C} (ksc : C) bytes : ∀ k,
  KEYSTROKE_CONSUMER k = Some ksc → Forall (λ b, 0 ≤ b < 256) bytes →
  ∃ calls k', keyboard_run k bytes = Done (calls, k') ∧
    shift (KEY_INFO k') = last_says [0x2A; 0x36] [0xAA; 0xB6] (shift (KEY_INFO k)) bytes ∧
    backspace (KEY_INFO k') = last_says [0x0E] [0x8E] (backspace (KEY_INFO k)) bytes ∧
    enter (KEY_INFO k') = last_says [0x1C] [0x9C] (enter (KEY_INFO k)) bytes ∧
    ctrl (KEY_INFO k') = last_says [0x1E] [0x9E] (ctrl (KEY_INFO k)) bytes ∧
    map fst calls = map (λ _, ksc) (filter heard bytes) ∧
    map (scancode ∘ snd) calls =
      map (λ b, if bool_decide (b ∈ shift_codes) then 0 else b) (filter heard bytes).
Proof.
  induction bytes as [|byte bytes IH]; intros k Hk Hb.
  { exists [], k. by split_and!. }
  apply Forall_cons in Hb as [Hb0 Hb]. cbn [keyboard_run]. rewrite (Isr1Handler_spec k ksc) by done. do_bind.
  set (k1 := Keyboard (key_event (KEY_INFO k) byte) (Some ksc)).
  destruct (IH k1 eq_refl Hb) as (calls & k' & -> & Hs & Hbk & He & Hc & Hf & Hsc). do_bind.
  destruct (key_event_flags (KEY_INFO k) byte) as (Es & Ebk & Ee & Ec & Esc).
  eexists _, k'. split; [done|]. rewrite Hs, Hbk, He, Hc. cbn [KEY_INFO k1]. rewrite Es, Ebk, Ee, Ec.
  split_and!; [done..| |]; rewrite filter_cons, map_app; destruct (heard byte); cbn [option_list Is_true map app fst];
    rewrite ?Hf, ?Hsc; try done.
  cbn. by rewrite Esc.
Qed.

(** Every printing character has a key: the lower-case table and, with
    shift, the upper-case table together give all of ASCII from space to
    tilde, and no other character but 0. *)
Theorem CharFromScancode_complete c :
  32 ≤ c < 127 ↔
  c ≠ 0 ∧ ∃ sh sc, 0 ≤ sc < 128 ∧ CharFromScancode (KeyState sh false false false sc) = Done c.
Proof.
  split.
  - intros Hc. split; [lia|].
    assert (Hall : forallb (λ c, existsb (λ sc,
      bool_decide (LOWERCASE_CHARS_BY_SCANCODE !! Z.to_nat sc = Some c) ||
      bool_decide (UPPERCASE_CHARS_BY_SCANCODE !! Z.to_nat sc = Some c)) (seqZ 0 128)) (seqZ 32 95) = true)
      by (vm_compute; reflexivity).
    rewrite forallb_seqZ in Hall. specialize (Hall c ltac:(lia)).
    apply existsb_exists in Hall as (sc & Hsc & Hor). apply list_elem_of_In, elem_of_seqZ in Hsc.
    apply orb_true_iff in Hor as [Hl|Hu].
    + apply bool_decide_eq_true in Hl. exists false, sc. split; [lia|]. unfold CharFromScancode. cbn [shift scancode]. by rewrite Hl.
    + apply bool_decide_eq_true in Hu. exists true, sc. split; [lia|]. unfold CharFromScancode. cbn [shift scancode]. by rewrite Hu.
  - intros (Hnz & sh & sc & Hsc & Hc).
    assert (Hall : forallb (λ sc, forallb (λ sh,
      match CharFromScancode (KeyState sh false false false sc) with
      | Done c => (c =? 0) || ((32 <=? c) && (c <? 127)) | _ => false end) [false; true]) (seqZ 0 128) = true)
      by (vm_compute; reflexivity).
    rewrite forallb_seqZ in Hall. specialize (Hall sc ltac:(lia)). rewrite forallb_forall in Hall.
    specialize (Hall sh ltac:(destruct sh; cbn; auto)). rewrite Hc in Hall. lia.
Qed.

(** The code taken for the control key is the key of the letter A: pressing
    A sets the control flag, and the control key itself does not. *)
Theorem ctrl_is_a k :
  CharFromScancode (KeyState false false false false CTRL_PRESSED) = Done 97 ∧
  ctrl (key_event k 0x1E) = true ∧ ctrl (key_event k 0x1D) = ctrl k.
Proof. split_and!; [vm_compute; reflexivity|done|done]. Qed.

(** A key pressed before a consumer is set calls a null pointer; releases of
    keys other than shift do not. *)
Theorem Isr1Handler_no_consumer {C} (info : KeyInfo) byte :
  0 ≤ byte < 256 →
  (heard byte = true ↔ Isr1Handler (Keyboard info (@None C)) byte = Undefined).
Proof.
  intros Hb. unfold Isr1Handler, GetKeystrokeConsumer. cbn [KEYSTROKE_CONSUMER KEY_INFO].
  destruct (key_event_flags info byte) as (_ & _ & _ & _ & ->). unfold heard.
  destruct (bool_decide_reflect (byte ∈ shift_codes)) as [Hin|]; [by rewrite orb_true_r|].
  rewrite orb_false_r. by destruct (byte <? 0x80).
Qed.

(** ** Witnesses *)

(** Shift down, A down, A up, both shifts up in turn: the flag is off, and the
    consumer has been told of two scancodes 0. *)
Lemma keyboard_run_spec_witness : ∃ calls k',
  keyboard_run (Keyboard no_keys (Some tt)) [0x2A; 0x36; 0x1E; 0x9E; 0xAA; 0xB6] = Done (calls, k') ∧
  shift (KEY_INFO k') = false ∧ map (scancode ∘ snd) calls = [0x2A; 0x36; 0x1E; 0; 0].
Proof.
  destruct (keyboard_run_spec tt [0x2A; 0x36; 0x1E; 0x9E; 0xAA; 0xB6] (Keyboard no_keys (Some tt)) eq_refl)
    as (calls & k' & H1 & H2 & _ & _ & _ & _ & H3); [repeat constructor; lia|].
  exists calls, k'. split; [exact H1|]. split; [rewrite H2; vm_compute; reflexivity|].
  rewrite H3. vm_compute. reflexivity.
Defined.

Lemma Isr1Handler_no_consumer_witness :
  heard 0x10 = true ∧ Isr1Handler (Keyboard no_keys (@None unit)) 0x10 = Undefined.
Proof. split; [reflexivity|]. apply (Isr1Handler_no_consumer no_keys 0x10); [lia|reflexivity]. Defined.
