(* ===== verification/Syscall.v ===== *)
(** * System calls

    [src/src/kernel/interrupts/syscall.c] and the entry stub [isr80] of
    [idt_asm.asm]: the registers are pushed on the stack, and the handlers read
    them through the structure [registers_t]. *)
From Stdlib Require Import String.
From stdpp Require Import base list gmap.
From S2P Require Import Prelude Memory Printf Gdt.
Open Scope Z_scope.

(** ** Registers and the stack *)

Inductive reg := RAX | RBX | RCX | RDX | RDI | RSI | RBP | R8 | R9 | R10 | R11 | R12 | R13 | R14 | R15.

#[export] Instance reg_dec : EqDecision reg.
Proof. solve_decision. Defined.

Definition regfile := reg → Z.

(** The operands of [PUSHALL], in order. *)
Definition pushall_order : list reg :=
  [RAX; RBX; RCX; RDX; RDI; RSI; RBP; R8; R9; R10; R11; R12; R13; R14; R15].

(** The stack as a list of 64-bit words, the top first. *)
Definition PUSHALL (f : regfile) (stack : list Z) : list Z :=
  fold_left (λ stack r, f r :: stack) pushall_order stack.

Definition set_reg (f : regfile) (r : reg) (v : Z) : regfile := λ r', if decide (r' = r) then v else f r'.

(** [POPALL]; popping an empty stack is undefined. *)
Fixpoint pops (order : list reg) (f : regfile) (stack : list Z) : outcome (regfile * list Z) :=
  match order, stack with
  | [], _ => Done (f, stack)
  | r :: order, v :: stack => pops order (set_reg f r v) stack
  | _ :: _, [] => Undefined
  end.
Definition POPALL (f : regfile) (stack : list Z) : outcome (regfile * list Z) := pops (rev pushall_order) f stack.

(** The fields of [registers_t], from the lowest address up. *)
Definition registers_t : list reg :=
  [R15; R14; R13; R12; R11; RSI; RBP; R10; R9; R8; RDI; RDX; RCX; RBX; RAX].

(** The field [r] of the structure at the top of the stack. *)
Fixpoint field_at (fields : list reg) (stack : list Z) (r : reg) : Z :=
  match fields, stack with
  | r' :: fields, v :: stack => if decide (r' = r) then v else field_at fields stack r
  | _, _ => 0
  end.
Definition regs_at (stack : list Z) : regfile := field_at registers_t stack.

(** ** Handlers *)

(** A handler maps the registers it reads to what it prints. *)
Notation syscall_handler_t := (regfile → outcome (list Z)).

(** [SYSCALLS]; [None] is [NULL]. *)
Notation syscalls := (list (option syscall_handler_t)).
Definition no_syscalls : syscalls := repeat None 256.

(** An index past the end of the table is undefined. *)
Definition register_syscall (t : syscalls) (rax : Z) (handler : syscall_handler_t) : outcome syscalls :=
  _ ← check (rax <? 256); Done (<[Z.to_nat rax := Some handler]> t).

(** The characters of a string in memory. *)
Fixpoint read_string (fuel : nat) (m : mem) (a : Z) : outcome (list Z) :=
  match fuel with
  | O => OutOfFuel
  | S fuel =>
      if ld8 m a =? 0 then Done []
      else s ← read_string fuel m (a + 1); Done (ld8 m a :: s)
  end.

(** [PrintK] with the string as its format and no argument; [junk] is what the
    variable arguments would read. *)
Definition syscall_1 (fuel : nat) (m : mem) (IN_USE : bool) (junk : list printk_arg) : syscall_handler_t :=
  λ regs,
    str ← read_string fuel m (regs R8);
    '(out, _) ← PrintK IN_USE str junk;
    Done (concat out).

(** [for(;;);] *)
Definition syscall_3c : syscall_handler_t := λ _, OutOfFuel.

Definition Isr80Handler (t : syscalls) (regs : regfile) : outcome (list Z) :=
  match t !! Z.to_nat (regs RAX) with
  | Some (Some handler) => handler regs
  | Some None | None => Undefined
  end.

(** The stub: what is printed, and the registers, the segment registers and the
    stack at [iretq].  The handler runs with the kernel's data segments, and
    nothing saves or restores the caller's. *)
Definition isr80 (t : syscalls) (f : regfile) (g : segregs) (stack : list Z)
    : outcome (list Z * regfile * segregs * list Z) :=
  let saved := PUSHALL f stack in
  let g := load_data_segments 0x30 g in
  out ← Isr80Handler t (regs_at saved);
  '(f, stack) ← POPALL f saved;
  Done (out, f, g, stack).

(** The registrations of [InitializeIdt]. *)
Definition init_syscalls (t : syscalls) (h1 : syscall_handler_t) : outcome syscalls :=
  t ← register_syscall t 0x01 h1; register_syscall t 0x3c syscall_3c.

(** ** Properties *)

(** What a field of [registers_t] really holds after [PUSHALL]: five fields are
    exchanged. *)
Definition holds (r : reg) : reg :=
  match r with RSI => R10 | RBP => R9 | R10 => R8 | R9 => RBP | R8 => RSI | _ => r end.

Lemma regs_at_pushall f stack r : regs_at (PUSHALL f stack) r = f (holds r).
Proof. by destruct r. Qed.

(** The structure the system calls read does not have the order of the
    pushes: the fields [rsi], [rbp], [r10], [r9] and [r8] hold the caller's
    [r10], [r9], [r8], [rbp] and [rsi]; all others hold what they are named
    after.  Popping restores every register and the stack. *)
Theorem pushall_layout f stack :
  (∀ r, regs_at (PUSHALL f stack) r = f (holds r)) ∧
  (∀ r, holds r = r ↔ r ∉ [RSI; RBP; R10; R9; R8]) ∧
  ∀ g, ∃ g', POPALL g (PUSHALL f stack) = Done (g', stack) ∧ ∀ r, g' r = f r.
Proof.
  split; [apply regs_at_pushall|]. split.
  - intros r. rewrite !not_elem_of_cons. split; [|intros (?&?&?&?&?&_); by destruct r].
    intros Hh. split_and!; try (by intros ->). apply not_elem_of_nil.
  - intros g. eexists. split; [reflexivity|]. by intros [].
Qed.

Lemma read_string_cstring fuel m a l :
  cstring m a l → (length l < fuel)%nat → read_string fuel m a = Done l.
Proof.
  revert a l. induction fuel as [|fuel IH]; intros a l Hs Hf; [lia|]. cbn [read_string].
  destruct l as [|c l]; cbn [cstring length] in *; [by rewrite Hs|].
  destruct Hs as (Hc & Hnz & Hl). rewrite Hc, (proj2 (Z.eqb_neq _ _) Hnz).
  rewrite (IH (a + 1) l) by (done || lia). done.
Qed.

Lemma init_syscalls_lookup h1 t :
  init_syscalls no_syscalls h1 = Done t →
  t !! 1%nat = Some (Some h1) ∧ t !! 60%nat = Some (Some syscall_3c) ∧
  ∀ i, i ≠ 1%nat → i ≠ 60%nat → t !! i = Some None ∨ t !! i = None.
Proof.
  assert (Heq : init_syscalls no_syscalls h1 =
    Done (<[60%nat := Some syscall_3c]> (<[1%nat := Some h1]> no_syscalls))) by reflexivity.
  rewrite Heq. intros Ht. assert (t = <[60%nat := Some syscall_3c]> (<[1%nat := Some h1]> no_syscalls)) as ->
    by congruence.
  split; [done|]. split; [done|]. intros i H1 H60.
  rewrite (list_lookup_insert_ne _ 60 i), (list_lookup_insert_ne _ 1 i) by done.
  change no_syscalls with (replicate 256 (@None syscall_handler_t)).
  destruct (replicate 256 (@None syscall_handler_t) !! i) as [h|] eqn:Hi; [|by right]. left.
  by apply lookup_replicate in Hi as [-> _].
Qed.

(** C35: With the system calls registered, [int 0x80] with 1 in [rax] prints the
    string at the caller's [rsi], up to its end if it has no percent sign, and
    reaches [iretq] with every general register and the stack as they were, but
    with the caller's data segments lost: [ds], [es], [fs], [gs] and [ss] hold
    the kernel's selector 0x30.  ([iretq] itself reloads [ss]; the other four
    are cleared on the return to a user program, [returned_data_segments].) *)
Theorem syscall_1_prints fuel m junk t f g stack l :
  init_syscalls no_syscalls (syscall_1 fuel m false junk) = Done t →
  f RAX = 1 → cstring m (f RSI) l → (length l < fuel)%nat → Forall (λ c, c ≠ PERCENT) l →
  ∃ f' g', isr80 t f g stack = Done (l, f', g', stack) ∧ (∀ r, f' r = f r) ∧
    g' SEG_CS = g SEG_CS ∧ ∀ r, r ≠ SEG_CS → g' r = KERN_DS_SEGSEL.
Proof.
  intros (H1 & _)%init_syscalls_lookup Hrax Hs Hf Hpct.
  unfold isr80, Isr80Handler. rewrite regs_at_pushall. cbn [holds]. rewrite Hrax.
  change (Z.to_nat 1) with 1%nat. rewrite H1. unfold syscall_1. rewrite regs_at_pushall. cbn [holds].
  rewrite (read_string_cstring fuel m (f RSI) l) by done. do_bind.
  assert (Hp : printed (PrintK false l junk) = Done (l, false)).
  { rewrite PrintK_printed. destruct l as [|c l]; [done|].
    pose proof (printk_text (c :: l) [] true junk ltac:(done) Hpct) as Hpt. rewrite app_nil_r in Hpt.
    rewrite Hpt. cbn [printk_loop]. do_bind. cbn [fmap outcome_fmap]. rewrite app_nil_r, concat_singletons. done. }
  unfold printed in Hp. destruct (PrintK false l junk) as [[out lock]| |]; [|done..].
  cbn [mbind outcome_bind] in Hp |- *. injection Hp as -> _. eexists _, _. split; [reflexivity|].
  split; [by intros []|]. split; [done|by intros []].
Qed.

(** A system call that is not registered jumps through a null pointer, a
    number of 256 or more reads past the table, and 0x3c never returns. *)
Theorem isr80_errors h1 t f g stack :
  init_syscalls no_syscalls h1 = Done t → 0 ≤ f RAX →
  (f RAX ≠ 1 → f RAX ≠ 0x3c → isr80 t f g stack = Undefined) ∧
  (f RAX = 0x3c → isr80 t f g stack = OutOfFuel).
Proof.
  intros (_ & H60 & Hnone)%init_syscalls_lookup Hr.
  unfold isr80, Isr80Handler. rewrite regs_at_pushall. cbn [holds]. split.
  - intros H1 H2. by destruct (Hnone (Z.to_nat (f RAX))) as [-> | ->]; [lia|lia|..].
  - intros ->. change (Z.to_nat 0x3c) with 60%nat. by rewrite H60.
Qed.

(** ** Witnesses *)

(** A user program that prints "Hi": the string is at 0x1000. *)
Definition ex_hi : mem := st8 (st8 ∅ 0x1000 72) 0x1001 105.
Definition ex_regs : regfile := λ r, match r with RAX => 1 | RSI => 0x1000 | _ => 7 end.

(** The segment registers of a user program. *)
Definition ex_segs : segregs := λ r, match r with SEG_CS => USER_CS_SEGSEL | _ => USER_DS_SEGSEL end.

Lemma syscall_1_prints_witness : ∃ t f' g',
  init_syscalls no_syscalls (syscall_1 10 ex_hi false []) = Done t ∧
  isr80 t ex_regs ex_segs [42] = Done (chars "Hi", f', g', [42]) ∧ f' R8 = 7 ∧ g' SEG_DS ≠ ex_segs SEG_DS.
Proof.
  eexists. destruct (syscall_1_prints 10 ex_hi [] _ ex_regs ex_segs [42] (chars "Hi") eq_refl)
    as (f' & g' & H1 & H2 & _ & H3);
    [reflexivity|vm_compute; intuition discriminate|cbn; lia|repeat constructor; discriminate|].
  exists f', g'. split; [reflexivity|]. split; [exact H1|]. split; [rewrite H2; reflexivity|].
  rewrite H3 by discriminate. discriminate.
Defined.

Lemma isr80_errors_witness : ∃ t,
  init_syscalls no_syscalls syscall_3c = Done t ∧
  isr80 t (λ _, 2) ex_segs [] = Undefined ∧ isr80 t (λ _, 0x3c) ex_segs [] = OutOfFuel.
Proof.
  eexists. split; [reflexivity|]. split.
  - apply (isr80_errors syscall_3c _ (λ _, 2) ex_segs [] eq_refl); lia.
  - apply (isr80_errors syscall_3c _ (λ _, 0x3c) ex_segs [] eq_refl); lia.
Defined.
