(* ===== verification/Proc.v ===== *)
(** * Entering a user process

    [src/src/kernel/proc/proc.c] and [proc.h]: the process control block and the
    switch to user mode.  The operands of the assembly are values: that none of
    them is addressed relative to the stack pointer, which the pushes move, is
    up to the compiler. *)
From stdpp Require Import base list gmap.
From S2P Require Import Prelude Memory Stivale FrameAlloc PageTable Vmm Gdt Syscall.
Open Scope Z_scope.

(** ** Data *)

Definition DEFAULT_STACK_BASE : Z := 0xFFFFFFFF.

(** The registers of a process: [regs] holds all but the two below. *)
Record pcb_t := Pcb {
  pagemap : Z;
  pid : Z;
  ppid : Z;
  regs : regfile;
  rsp : Z;
  rip : Z;
}.

Definition set_pagemap (p : pcb_t) (root : Z) : pcb_t := Pcb root (pid p) (ppid p) (regs p) (rsp p) (rip p).
Definition set_rip (p : pcb_t) (a : Z) : pcb_t := Pcb (pagemap p) (pid p) (ppid p) (regs p) (rsp p) a.
Definition set_stack (p : pcb_t) (a : Z) : pcb_t :=
  Pcb (pagemap p) (pid p) (ppid p) (set_reg (regs p) RBP a) a (rip p).

(** The processor after [iretq]. *)
Record cpu := Cpu {
  cpu_regs : regfile;
  cpu_rip : Z;
  cpu_cs : Z;
  cpu_rflags : Z;
  cpu_rsp : Z;
  cpu_ss : Z;
}.

(** ** Operations *)

(** [iretq] pops these five in turn. *)
Definition iretq (f : regfile) (stack : list Z) : outcome (cpu * list Z) :=
  match stack with
  | ip :: cs :: fl :: sp :: ss :: stack => Done (Cpu f ip cs fl sp ss, stack)
  | _ => Undefined
  end.

(** Operands 0 to 13 of the assembly. *)
Definition push_operands : list reg :=
  [RAX; RBX; RCX; RDX; RDI; RSI; R8; R9; R10; R11; R12; R13; R14; R15].

(** The registers popped, in the order of the assembly. *)
Definition pop_order : list reg :=
  [RAX; RBX; RCX; RDX; RDI; RSI; R8; R9; R10; R11; R12; R13; R14; R15].

(** [f] and [rflags] are the registers and flags before; the two translations
    of instruction addresses before the switch have no effect. *)
Definition run_proc {W} `{FrameAllocator W} (s : vmm W) (f : regfile) (rflags : Z) (stack : list Z)
    (pcb : pcb_t) : outcome (cpu * list Z * vmm W) :=
  let pt_paddr := KernelVAddrToPAddr s (pagemap pcb) in
  let s := Vmm (vm s) (KERNEL_PAGE_TABLE_ROOT s) (BASE_ADDR s) (PMRs s) (MMAP s) pt_paddr (console s) in
  let stack := rip pcb :: USER_CS_SEGSEL :: rflags :: rsp pcb :: USER_DS_SEGSEL :: stack in
  let stack := fold_left (λ stack r, regs pcb r :: stack) push_operands stack in
  '(f, stack) ← pops pop_order f stack;
  let f := set_reg f RBP (regs pcb RBP) in
  '(c, stack) ← iretq f stack;
  Done (c, stack, s).

(** ** Properties *)

(** The register whose saved value a register receives: the pops are in the
    order of the pushes, where they would have to be in the reverse order. *)
Definition received (r : reg) : reg :=
  match r with
  | RAX => R15 | RBX => R14 | RCX => R13 | RDX => R12 | RDI => R11 | RSI => R10 | R8 => R9 | R9 => R8
  | R10 => RSI | R11 => RDI | R12 => RDX | R13 => RCX | R14 => RBX | R15 => RAX | RBP => RBP
  end.

(** C33: [run_proc] enters the process at its [rip] and [rsp] with the selectors
    and flags for user mode and its page table, with the stack as it was; but
    all its general registers except [rbp] are exchanged: [rax] gets the saved
    [r15], and so on.  A second exchange would undo the first, so a process
    gets its own registers only if they are symmetric. *)
Theorem run_proc_spec {W} `{FrameAllocator W} (s : vmm W) f rflags stack pcb :
  ∃ c s', run_proc s f rflags stack pcb = Done (c, stack, s') ∧
    cpu_rip c = rip pcb ∧ cpu_rsp c = rsp pcb ∧ cpu_rflags c = rflags ∧
    selector_rpl (cpu_cs c) = 3 ∧ selector_rpl (cpu_ss c) = 3 ∧
    cr3 s' = KernelVAddrToPAddr s (pagemap pcb) ∧ world s' = world s ∧
    (∀ r, cpu_regs c r = regs pcb (received r)) ∧
    (∀ r, received (received r) = r) ∧ (∀ r, received r = r ↔ r = RBP).
Proof.
  eexists _, _. split; [reflexivity|]. cbn [cpu_rip cpu_rsp cpu_rflags cpu_cs cpu_ss cr3].
  split_and!; try done; by intros [].
Qed.

(** The descriptors the processor finds for the selectors [run_proc] loads,
    in the table [initialize_gdt] installs, are a 64-bit code and a writable
    data segment of privilege 3. *)
Theorem run_proc_user_mode {W} `{FrameAllocator W} (s : vmm W) f rflags stack pcb c st s' g gdt_addr tss_addr id
    kstack g' :
  run_proc s f rflags stack pcb = Done (c, st, s') →
  initialize_gdt g gdt_addr tss_addr id kstack = Done g' →
  ∃ code data,
    segments (GDT g') !! selector_index (cpu_cs c) = Some code ∧
    segments (GDT g') !! selector_index (cpu_ss c) = Some data ∧
    seg_present (descriptor code) = true ∧ seg_executable (descriptor code) = true ∧
    seg_long (descriptor code) = true ∧ seg_dpl (descriptor code) = 3 ∧
    seg_present (descriptor data) = true ∧ seg_executable (descriptor data) = false ∧
    seg_writable (descriptor data) = true ∧ seg_dpl (descriptor data) = 3.
Proof.
  intros Hr Hg. assert (Hsel : cpu_cs c = USER_CS_SEGSEL ∧ cpu_ss c = USER_DS_SEGSEL).
  { unfold run_proc in Hr. cbn in Hr. by injection Hr as <- _ _. }
  destruct Hsel as [-> ->].
  assert (Hs : segments (GDT g') = gdt_segments).
  { unfold initialize_gdt, init_tss, load_tss in Hg. cbn [LTR_LOCK] in Hg.
    destruct (LTR_LOCK g); [discriminate Hg|]. cbn in Hg. by injection Hg as <-. }
  rewrite Hs. eexists _, _. split; [reflexivity|]. split; [reflexivity|]. vm_compute. done.
Qed.

(** ** Witnesses *)

Definition ex_proc_vmm : vmm Pmm.pmm :=
  Vmm (Machine blank_pmm []) 0x2000 (KernelBaseAddress 0x200000 0xffffffff80200000) [] [] 0x2000 [].
Definition ex_pcb : pcb_t := Pcb 0x3000 1 0 (λ r, match r with RAX => 7 | _ => 0 end) 0xFFFFFFFF 0x400000.

Lemma run_proc_user_mode_witness : ∃ c s' g',
  run_proc ex_proc_vmm (λ _, 0) 0x202 [] ex_pcb = Done (c, [], s') ∧
  initialize_gdt ex_gdt 0xFFFFFFFF80010000 0xFFFFFFFF80020000 0 0x8000 = Done g' ∧
  ∃ e, segments (GDT g') !! selector_index (cpu_cs c) = Some e ∧ seg_dpl (descriptor e) = 3.
Proof.
  eexists _, _, _. split; [reflexivity|]. split; [reflexivity|].
  destruct (run_proc_user_mode ex_proc_vmm (λ _, 0) 0x202 [] ex_pcb _ _ _ ex_gdt 0xFFFFFFFF80010000
    0xFFFFFFFF80020000 0 0x8000 _ eq_refl eq_refl) as (code & data & H1 & _ & _ & _ & _ & H2 & _).
  exists code. split; [exact H1|exact H2].
Defined.
