(* ===== verification/Elf.v ===== *)
(** * Loading programs

    [src/src/kernel/proc/elf.c] and [elf.h]: the layout of ELF files and
    [parse_elf], which copies the segments of a program into new frames and
    maps them, a stack and the kernel in a new page table. *)
From Stdlib Require Import String.
From stdpp Require Import base list gmap.
From S2P Require Import Prelude Memory Printf Stivale Pmm FrameAlloc PageTable Vmm Kheap Ustar Syscall Proc.
Open Scope Z_scope.

(** ** Layout *)

(** A decoder reads a field of [n] bytes and moves on: the structures are
    packed. *)
Record elf_hdr_t := ElfHdr {
  magic : Z;
  bits : Z;
  endianness : Z;
  version : Z;
  abi : Z;
  reserved : Z;
  file_type : Z;
  arch : Z;
  version_con : Z;
  entry_pt : Z;
  phdr_offset : Z;
  shdr_offset : Z;
  hdr_flags : Z;
  hdr_size : Z;
  phdr_entry_size : Z;
  phdr_num_entries : Z;
  shdr_entry_size : Z;
  shdr_num_entries : Z;
  shdr_index : Z;
}.
Definition sizeof_elf_hdr : Z := 64.

(** The header at [a]; [magic] is the address of the four characters. *)
Definition read_elf_hdr (m : mem) (a : Z) : elf_hdr_t := {|
  magic := a; bits := ld8 m (a + 4); endianness := ld8 m (a + 5); version := ld8 m (a + 6);
  abi := ld8 m (a + 7); reserved := ld64 m (a + 8); file_type := ld 2 m (a + 16); arch := ld 2 m (a + 18);
  version_con := ld32 m (a + 20); entry_pt := ld64 m (a + 24); phdr_offset := ld64 m (a + 32);
  shdr_offset := ld64 m (a + 40); hdr_flags := ld32 m (a + 48); hdr_size := ld 2 m (a + 52);
  phdr_entry_size := ld 2 m (a + 54); phdr_num_entries := ld 2 m (a + 56);
  shdr_entry_size := ld 2 m (a + 58); shdr_num_entries := ld 2 m (a + 60); shdr_index := ld 2 m (a + 62);
|}.

Record elf_phdr_t := ElfPhdr {
  ph_type : Z;
  ph_flags : Z;
  ph_offset : Z;
  ph_vaddr : Z;
  ph_paddr : Z;
  ph_file_size : Z;
  ph_mem_size : Z;
  ph_alignment : Z;
}.
Definition sizeof_elf_phdr : Z := 56.

Definition read_elf_phdr (m : mem) (a : Z) : elf_phdr_t := {|
  ph_type := ld32 m a; ph_flags := ld32 m (a + 4); ph_offset := ld64 m (a + 8); ph_vaddr := ld64 m (a + 16);
  ph_paddr := ld64 m (a + 24); ph_file_size := ld64 m (a + 32); ph_mem_size := ld64 m (a + 40);
  ph_alignment := ld64 m (a + 48);
|}.

Record elf_shdr_t := ElfShdr {
  sh_name_offset : Z;
  sh_type : Z;
  sh_flags : Z;
  sh_vaddr : Z;
  sh_offset : Z;
  sh_size : Z;
  sh_link : Z;
  sh_info : Z;
  sh_aligment : Z;
  sh_ent_size : Z;
}.
Definition sizeof_elf_shdr : Z := 64.

Definition read_elf_shdr (m : mem) (a : Z) : elf_shdr_t := {|
  sh_name_offset := ld32 m a; sh_type := ld32 m (a + 4); sh_flags := ld64 m (a + 8); sh_vaddr := ld64 m (a + 16);
  sh_offset := ld64 m (a + 24); sh_size := ld64 m (a + 32); sh_link := ld32 m (a + 40);
  sh_info := ld32 m (a + 44); sh_aligment := ld64 m (a + 48); sh_ent_size := ld64 m (a + 56);
|}.

(** ** Constants *)

Inductive elf_bit_mode_t := ELF_32_BITS | ELF_64_BITS.
Definition elf_bit_mode (x : elf_bit_mode_t) : Z := match x with ELF_32_BITS => 1 | ELF_64_BITS => 2 end.

Inductive elf_endianness_t := ELF_LITTLE_ENDIAN | ELF_BIG_ENDIAN.
Definition elf_endianness (x : elf_endianness_t) : Z :=
  match x with ELF_LITTLE_ENDIAN => 1 | ELF_BIG_ENDIAN => 2 end.

Inductive elf_os_abi_t :=
| ELF_SYSV_ABI | ELF_HP_UX_ABI | ELF_NETBSD_ABI | ELF_LINUX_ABI | ELF_HURD_ABI | ELF_SOLARIS_ABI
| ELF_AIX_ABI | ELF_IRIX_ABI | ELF_FREEBSD_ABI | ELF_TRU64_ABI | ELF_NOVELL_MOD_ABI | ELF_OPENBSD_ABI
| ELF_OPENVMS_ABI | ELF_NS_KERNEL_ABI | ELF_AROS_ABI | ELF_FENIX_ABI | ELF_NUXI_ABI | ELF_STRATUS_ABI.

#[export] Instance elf_os_abi_dec : EqDecision elf_os_abi_t.
Proof. solve_decision. Defined.

Definition elf_os_abi (x : elf_os_abi_t) : Z :=
  match x with
  | ELF_SYSV_ABI => 0x0 | ELF_HP_UX_ABI => 0x1 | ELF_NETBSD_ABI => 0x2 | ELF_LINUX_ABI => 0x3
  | ELF_HURD_ABI => 0x4 | ELF_SOLARIS_ABI => 0x6 | ELF_AIX_ABI => 0x7 | ELF_IRIX_ABI => 0x8
  | ELF_FREEBSD_ABI => 0x9 | ELF_TRU64_ABI => 0xA | ELF_NOVELL_MOD_ABI => 0xB | ELF_OPENBSD_ABI => 0xC
  | ELF_OPENVMS_ABI => 0xD | ELF_NS_KERNEL_ABI => 0xE | ELF_AROS_ABI => 0xF | ELF_FENIX_ABI => 0x1
  | ELF_NUXI_ABI => 0x11 | ELF_STRATUS_ABI => 0x12
  end.

(** Fenix has the code of HP-UX, where the numbering leaves 0x10 out. *)
Example fenix_is_hp_ux : elf_os_abi ELF_FENIX_ABI = elf_os_abi ELF_HP_UX_ABI.
Proof. reflexivity. Qed.

Inductive elf_file_type_t :=
| ELF_NONE | ELF_REL | ELF_EXEC | ELF_DYN | ELF_CORE | ELF_LOOS | ELF_HIOS | ELF_LOPROC | ELF_HIPROC.
Definition elf_file_type (x : elf_file_type_t) : Z :=
  match x with
  | ELF_NONE => 0 | ELF_REL => 1 | ELF_EXEC => 2 | ELF_DYN => 3 | ELF_CORE => 4
  | ELF_LOOS => 0xFE00 | ELF_HIOS => 0xFEFF | ELF_LOPROC => 0xFF00 | ELF_HIPROC => 0xFFFF
  end.

Inductive elf_arch_t := ELF_AMD64.
Definition elf_arch (x : elf_arch_t) : Z := match x with ELF_AMD64 => 0x3E end.

Inductive elf_phdr_seg_t :=
| ELF_PHDR_NULL | ELF_PHDR_LOAD | ELF_PHDR_DYNAMIC | ELF_PHDR_INTERP | ELF_PHDR_NOTE | ELF_PHDR_SHLIB
| ELF_PHDR_PHDR | ELF_PHDR_TLS | ELF_PHDR_LOOS | ELF_PHDR_HIO | ELF_PHDR_LOPROC | ELF_PHDR_HIPRO.
Definition elf_phdr_seg (x : elf_phdr_seg_t) : Z :=
  match x with
  | ELF_PHDR_NULL => 0 | ELF_PHDR_LOAD => 1 | ELF_PHDR_DYNAMIC => 2 | ELF_PHDR_INTERP => 3
  | ELF_PHDR_NOTE => 4 | ELF_PHDR_SHLIB => 5 | ELF_PHDR_PHDR => 6 | ELF_PHDR_TLS => 7
  | ELF_PHDR_LOOS => 0x60000000 | ELF_PHDR_HIO => 0x6FFFFFFF | ELF_PHDR_LOPROC => 0x70000000
  | ELF_PHDR_HIPRO => 0x7FFFFFFF
  end.

Inductive shdr_sec_t :=
| ELF_SHDR_NULL | ELF_SHDR_PROGBITS | ELF_SHDR_SYMTAB | ELF_SHDR_STRTAB | ELF_SHDR_RELA | ELF_SHDR_HASH
| ELF_SHDR_DYNAMIC | ELF_SHDR_NOTE | ELF_SHDR_NOBITS | ELF_SHDR_REL | ELF_SHDR_SHLIB | ELF_SHDR_DYNSYM
| ELF_SHDR_INIT_ARRAY | ELF_SHDR_FINI_ARRAY | ELF_SHDR_PREINIT_ARRAY | ELF_SHDR_GROUP
| ELF_SHDR_SYMTAB_SHNDX | ELF_SHDR_NUM | ELF_SHDR_LOOS.
Definition shdr_sec (x : shdr_sec_t) : Z :=
  match x with
  | ELF_SHDR_NULL => 0x0 | ELF_SHDR_PROGBITS => 0x1 | ELF_SHDR_SYMTAB => 0x2 | ELF_SHDR_STRTAB => 0x3
  | ELF_SHDR_RELA => 0x4 | ELF_SHDR_HASH => 0x5 | ELF_SHDR_DYNAMIC => 0x6 | ELF_SHDR_NOTE => 0x7
  | ELF_SHDR_NOBITS => 0x8 | ELF_SHDR_REL => 0x9 | ELF_SHDR_SHLIB => 0x0A | ELF_SHDR_DYNSYM => 0x0B
  | ELF_SHDR_INIT_ARRAY => 0x0E | ELF_SHDR_FINI_ARRAY => 0x0F | ELF_SHDR_PREINIT_ARRAY => 0x10
  | ELF_SHDR_GROUP => 0x11 | ELF_SHDR_SYMTAB_SHNDX => 0x12 | ELF_SHDR_NUM => 0x13
  | ELF_SHDR_LOOS => 0x60000000
  end.

Inductive shdr_flags_t :=
| ELF_SHF_WRITE | ELF_SHF_ALLOC | ELF_SHF_EXECINSTR | ELF_SHF_MERGE | ELF_SHF_STRINGS | ELF_SHF_INFO_LINK
| ELF_SHF_LINK_ORDER | ELF_SHF_OS_NONCONF | ELF_SHF_GROUP | ELF_SHF_TLS | ELF_SHF_MASKOS
| ELF_SHF_MASKPROC | ELF_SHF_ORDERED | ELF_SHF_EXCLUDE.
Definition shdr_flags (x : shdr_flags_t) : Z :=
  match x with
  | ELF_SHF_WRITE => 0x1 | ELF_SHF_ALLOC => 0x2 | ELF_SHF_EXECINSTR => 0x4 | ELF_SHF_MERGE => 0x10
  | ELF_SHF_STRINGS => 0x20 | ELF_SHF_INFO_LINK => 0x40 | ELF_SHF_LINK_ORDER => 0x80
  | ELF_SHF_OS_NONCONF => 0x100 | ELF_SHF_GROUP => 0x200 | ELF_SHF_TLS => 0x400
  | ELF_SHF_MASKOS => 0x0FF00000 | ELF_SHF_MASKPROC => 0xF0000000 | ELF_SHF_ORDERED => 0x4000000
  | ELF_SHF_EXCLUDE => 0x8000000
  end.

Definition ELF_MAGIC : list Z := 0x7F :: chars "ELF".
Definition USER_PROC_PAGE : Z := Z.lor (Z.lor PRESENT READ_WRITABLE) USER_ACCESSIBLE.
Definition PAGE : nat := Z.to_nat 0x1000.

(** ** Operations *)

(** The offset in the file of the first string table, looking at [n] section
    headers; 0 is [NULL]. *)
Fixpoint find_shdr_strtab (m : mem) (raw_elf : Z) (n : nat) (shdrs : Z) : Z :=
  match n with
  | O => 0
  | S n =>
      let shdr := read_elf_shdr m shdrs in
      if sh_type shdr =? shdr_sec ELF_SHDR_STRTAB then raw_elf + sh_offset shdr
      else find_shdr_strtab m raw_elf n (shdrs + sizeof_elf_shdr)
  end.

(** The end of a segment, rounded up to a page. *)
Definition segment_bound (p : elf_phdr_t) : Z :=
  u64 (Z.shiftl (Z.shiftr (u64 (u64 (ph_vaddr p + ph_mem_size p) + Z.shiftl 1 LOG2_FRAME_SIZE - 1))
                          LOG2_FRAME_SIZE) LOG2_FRAME_SIZE).

Section operations.
Context {W : Type} `{FrameAllocator W}.
Implicit Types (s : vmm W).

(** The body of the loop over the pages of a segment. *)
Definition load_page s (root segment seg_base off : Z) : outcome (vmm W) :=
  '(frame, w) ← fa_alloc (world s);
  let w := fa_write (memmove (fa_mem w) frame (segment + off) PAGE) w in
  '(_, w) ← MapPage w root (u64 (seg_base + off)) frame USER_PROC_PAGE;
  Done (set_world s w).

(** [for (off = 0; off < seg_bound; off += 0x1000)]; [seg_bound] is a multiple
    of the step. *)
Fixpoint load_pages (fuel : nat) s (root segment seg_base seg_bound off : Z) : outcome (vmm W) :=
  match fuel with
  | O => OutOfFuel
  | S fuel =>
      if off <? seg_bound then
        s ← load_page s root segment seg_base off;
        load_pages fuel s root segment seg_base seg_bound (u64 (off + 0x1000))
      else Done s
  end.

Definition load_segment s (root raw_elf : Z) (p : elf_phdr_t) : outcome (vmm W) :=
  if ph_type p =? elf_phdr_seg ELF_PHDR_LOAD then
    load_pages (S (Z.to_nat (segment_bound p / 0x1000))) s root (raw_elf + ph_offset p) (ph_vaddr p)
      (segment_bound p) 0
  else Done s.

(** The loop over the program headers; the headers are read anew each time. *)
Fixpoint load_segments (fuel : nat) s (root raw_elf phdrs i : Z) : outcome (vmm W) :=
  match fuel with
  | O => OutOfFuel
  | S fuel =>
      if i <? phdr_num_entries (read_elf_hdr (fa_mem (world s)) raw_elf) then
        s ← load_segment s root raw_elf (read_elf_phdr (fa_mem (world s)) (phdrs + i * sizeof_elf_phdr));
        load_segments fuel s root raw_elf phdrs (i + 1)
      else Done s
  end.

Definition parse_elf (h : heap) s (raw_elf : Z) (pcb : pcb_t) : outcome (Z * pcb_t * vmm W) :=
  '(root, w) ← fa_alloc (world s);
  let s := set_world s w in
  let pcb := set_pagemap pcb root in
  let header := read_elf_hdr (fa_mem (world s)) raw_elf in
  if negb (strncmp_lit (fa_mem (world s)) (magic header) ELF_MAGIC 4 =? 0) then
    Done (-1, pcb, print s NoElfMagic)
  else
    let pcb := set_rip pcb (entry_pt header) in
    s ← load_segments (Z.to_nat (2 ^ 16)) s root raw_elf (raw_elf + phdr_offset header) 0;
    '(stack, w) ← fa_alloc (world s);
    '(_, w) ← MapPage w root DEFAULT_STACK_BASE stack USER_PROC_PAGE;
    '(_, s) ← MapKernelPmrs (set_world s w) root;
    s ← map_heap h s root;
    Done (0, set_stack pcb DEFAULT_STACK_BASE, s).

End operations.

(** ** Specification *)

(** Where a page of the process comes from: its address, its frame, and the
    address its contents were copied from, or nothing if it starts zeroed. *)
Record user_page := UserPage { up_vaddr : Z; up_frame : Z; up_source : option Z }.

(** What the loader puts in the page table. *)
Definition user_map (l : list user_page) (n : Z) : Z :=
  fold_left (λ e p, if n =? page_no (up_vaddr p) then Z.lor (up_frame p) USER_PROC_PAGE else e) l 0.

(** The pages [load_pages] maps for a segment: as many as the whole address
    space below the segment's end has, from the segment's start on. *)
Definition pages_of_segment (raw_elf : Z) (p : elf_phdr_t) : list (Z * option Z) :=
  if ph_type p =? elf_phdr_seg ELF_PHDR_LOAD then
    map (λ k, (u64 (ph_vaddr p + 0x1000 * k), Some (raw_elf + ph_offset p + 0x1000 * k)))
      (seqZ 0 (segment_bound p / 0x1000))
  else [].

Definition program_headers (m : mem) (raw_elf : Z) : list elf_phdr_t :=
  let header := read_elf_hdr m raw_elf in
  map (λ i, read_elf_phdr m (raw_elf + phdr_offset header + i * sizeof_elf_phdr))
    (seqZ 0 (phdr_num_entries header)).

Definition pages_of_program (m : mem) (raw_elf : Z) : list (Z * option Z) :=
  concat (map (pages_of_segment raw_elf) (program_headers m raw_elf)) ++ [(DEFAULT_STACK_BASE, None)].

Section specification.
Context {W : Type} `{FrameAllocator W}.

(** An address in a frame that has been handed out. *)
Definition owned (w : W) (a : Z) : Prop := ∃ g, fa_client w g ∧ g ≤ a < g + 4096.

(** The headers lie in memory that is not free. *)
Definition headers_owned (w : W) (raw_elf : Z) : Prop :=
  let header := read_elf_hdr (fa_mem w) raw_elf in
  (∀ a, raw_elf ≤ a < raw_elf + sizeof_elf_hdr → owned w a) ∧
  (∀ a, raw_elf + phdr_offset header ≤ a <
        raw_elf + phdr_offset header + phdr_num_entries header * sizeof_elf_phdr → owned w a).

(** The contents of the frame of a page, relative to the memory at the start. *)
Definition page_filled (w0 w : W) (p : user_page) : Prop :=
  ∀ i, 0 ≤ i < 4096 →
    match up_source p with
    | Some a => owned w0 (a + i) → ld8 (fa_mem w) (up_frame p + i) = ld8 (fa_mem w0) (a + i)
    | None => ld8 (fa_mem w) (up_frame p + i) = 0
    end.

(** The state of the process's memory between two pages: from [w0], the pages
    [l] have been loaded in the page table at [root]. *)
Record loaded (w0 : W) (root : Z) (l : list user_page) (w : W) : Prop := {
  l_pt : pt_ok w root;
  l_kept : ∀ g, fa_client w0 g → fa_client w g;
  l_mem : keeps_clients w0 w;
  l_tables : ∀ g, is_table w root g → ¬ fa_client w0 g;
  l_frames : ∀ p, p ∈ l →
    fa_client w (up_frame p) ∧ ¬ fa_client w0 (up_frame p) ∧ ¬ is_table w root (up_frame p);
  l_distinct : NoDup (map up_frame l);
  l_filled : ∀ p, p ∈ l → page_filled w0 w p;
}.

End specification.

(** ** Correctness *)

Lemma user_map_snoc l p n :
  user_map (l ++ [p]) n = if n =? page_no (up_vaddr p) then Z.lor (up_frame p) USER_PROC_PAGE else user_map l n.
Proof. unfold user_map. by rewrite fold_left_app. Qed.

Lemma user_page_flags : flags_ok USER_PROC_PAGE.
Proof. split; [vm_compute; by split|done]. Qed.

Section correctness.
Context {W : Type} `{FrameAllocatorLaws W}.
Implicit Types (w : W) (s : vmm W).

Lemma owned_kept w0 w a : keeps_clients w0 w → owned w0 a → ld8 (fa_mem w) a = ld8 (fa_mem w0) a.
Proof. intros Hk (g & Hg & Ha). by apply (Hk g). Qed.

(** A new frame that has been filled and belongs to nobody else. *)
Record filled_frame w f w' : Prop := {
  fl_ok : fa_ok w';
  fl_range : 0 ≤ f < 2 ^ 64;
  fl_new : ¬ fa_client w f;
  fl_client : fa_client w' f;
  fl_kept : ∀ g, fa_client w g → fa_client w' g;
  fl_mem : keeps_clients w w';
}.

Lemma fresh_filled w f w1 : fresh_frame w f w1 → filled_frame w f w1.
Proof.
  intros Hf. split; try apply Hf.
  - pose proof (ff_range w f w1 Hf). lia.
  - intros g a Hg Ha. by apply (ff_frame w f w1 Hf g).
Qed.

(** Filling a fresh frame from [src]. *)
Lemma fresh_write w f w1 src k :
  fa_ok w → fresh_frame w f w1 → fa_avail w1 k →
  let w2 := fa_write (memmove (fa_mem w1) f src PAGE) w1 in
  filled_frame w f w2 ∧ fa_avail w2 k ∧
  ∀ i, 0 ≤ i < 4096 → owned w (src + i) → ld8 (fa_mem w2) (f + i) = ld8 (fa_mem w) (src + i).
Proof.
  intros Hok Hf Ha w2.
  assert (HP : Z.of_nat PAGE = 4096) by done.
  destruct (fa_write_ok (memmove (fa_mem w1) f src PAGE) w1 f) as (Hok2 & Hc2 & Ha2);
    [apply Hf|apply Hf|rewrite <-HP; apply memmove_outside|].
  assert (Hm : fa_mem w2 = memmove (fa_mem w1) f src PAGE) by apply fa_mem_write.
  assert (Hout : ∀ g a, fa_client w g → g ≤ a < g + 4096 → ld8 (fa_mem w2) a = ld8 (fa_mem w) a).
  { intros g a Hg Hag. rewrite <-(ff_frame w f w1 Hf g a Hg Hag), Hm. apply memmove_outside. rewrite HP.
    destruct (client_disjoint w1 f g); [apply Hf|apply Hf|by apply Hf|intros ->; by apply (ff_new w g w1)|lia..]. }
  split_and!; [split|by apply Ha2|].
  - exact Hok2.
  - pose proof (ff_range w f w1 Hf). lia.
  - apply Hf.
  - by apply Hc2, Hf.
  - intros g Hg. by apply Hc2, Hf.
  - exact Hout.
  - intros i Hi (g & Hg & Hag). rewrite Hm, ld8_memmove, HP.
    rewrite (proj2 (Z.leb_le _ _)), (proj2 (Z.ltb_lt _ _)) by lia. cbn [andb].
    replace (src + (f + i - f)) with (src + i) by lia. by apply (ff_frame w f w1 Hf g).
Qed.

(** Handing out and filling a frame loses nothing that is loaded. *)
Lemma loaded_filled w0 root l w f w1 :
  loaded w0 root l w → filled_frame w f w1 →
  loaded w0 root l w1 ∧ same_pages root w w1 ∧ fa_client w1 f ∧ ¬ fa_client w0 f ∧
  ¬ is_table w1 root f ∧ f ∉ map up_frame l.
Proof.
  intros L F.
  destruct (tables_kept root w w1) as (Hok1 & Hp1 & Ht1); [apply L|apply F|apply F| |].
  { intros g a Hg. apply (fl_mem w f w1 F). eapply is_table_client; [apply L|done]. }
  split_and!; [split|done|apply F| | |].
  - done.
  - intros g Hg. by apply (fl_kept w f w1 F), (l_kept w0 root l w L).
  - intros g a Hg Hag. rewrite (fl_mem w f w1 F g) by (done || by apply (l_kept w0 root l w L)).
    by apply (l_mem w0 root l w L g).
  - intros g Hg%Ht1. by apply (l_tables w0 root l w L).
  - intros p Hpl. destruct (l_frames w0 root l w L p Hpl) as (Hc & Hn & Ht).
    split_and!; [by apply (fl_kept w f w1 F)|done|by intros Hx%Ht1].
  - apply L.
  - intros p Hpl i Hi. pose proof (l_filled w0 root l w L p Hpl i Hi) as Hold.
    rewrite (fl_mem w f w1 F (up_frame p)); [done| |lia]. by apply (l_frames w0 root l w L p).
  - intros Hc. by apply (fl_new w f w1 F), (l_kept w0 root l w L).
  - intros Hx%Ht1. apply (fl_new w f w1 F). eapply is_table_client; [apply L|done].
  - intros (p & -> & Hpl)%list_elem_of_fmap. apply (fl_new w _ w1 F). by apply (l_frames w0 root l w L p).
Qed.

(** Nor does a change of the page table. *)
Lemma loaded_step w0 root l w w' :
  loaded w0 root l w → pt_ok w' root → pt_step root w w' → loaded w0 root l w'.
Proof.
  intros L Hok Hs.
  assert (Hold : ∀ g a, fa_client w g → ¬ is_table w root g → g ≤ a < g + 4096 →
    ld8 (fa_mem w') a = ld8 (fa_mem w) a) by apply Hs.
  split.
  - done.
  - intros g Hg. by apply Hs, (l_kept w0 root l w L).
  - intros g a Hg Hag. rewrite (Hold g); [by apply (l_mem w0 root l w L g)| | |done].
    + by apply (l_kept w0 root l w L).
    + intros Hx. by apply (l_tables w0 root l w L g).
  - intros g Hg Hc. destruct (ps_new root w w' Hs g Hg) as [Hx|Hx].
    + by apply (l_tables w0 root l w L g).
    + by apply Hx, (l_kept w0 root l w L).
  - intros p Hpl. destruct (l_frames w0 root l w L p Hpl) as (Hc & Hn & Ht).
    split_and!; [by apply Hs|done|]. intros Hx. by destruct (ps_new root w w' Hs _ Hx).
  - apply L.
  - intros p Hpl i Hi. destruct (l_frames w0 root l w L p Hpl) as (Hc & _ & Ht).
    rewrite (Hold (up_frame p)) by (done || lia). by apply (l_filled w0 root l w L p Hpl).
Qed.

(** A frame that is nobody's table can join the pages that are loaded. *)
Lemma loaded_snoc w0 root l w p :
  loaded w0 root l w → fa_client w (up_frame p) → ¬ fa_client w0 (up_frame p) →
  ¬ is_table w root (up_frame p) → up_frame p ∉ map up_frame l → page_filled w0 w p →
  loaded w0 root (l ++ [p]) w.
Proof.
  intros L Hc Hn Ht Hd Hf. split; try apply L.
  - intros q [Hq|Hq]%elem_of_app; [by apply (l_frames w0 root l w L q)|].
    by apply list_elem_of_singleton in Hq as ->.
  - rewrite map_app. apply NoDup_app. split_and!; [apply L| |apply NoDup_singleton].
    intros g Hg Hin. apply list_elem_of_singleton in Hin. by subst g.
  - intros q [Hq|Hq]%elem_of_app; [by apply (l_filled w0 root l w L q)|].
    by apply list_elem_of_singleton in Hq as ->.
Qed.

(** One more page: any new frame with the right contents is mapped. *)
Lemma loaded_map w0 root l w f w1 v src n :
  loaded w0 root l w → filled_frame w f w1 → fa_avail w1 (3 + n) →
  (∀ m, 0 ≤ m < 2 ^ 36 → pages (fa_mem w) root m = user_map l m) →
  page_filled w0 w1 (UserPage v f src) →
  ∃ w2, MapPage w1 root v f USER_PROC_PAGE = Done (true, w2) ∧ fa_avail w2 n ∧
    loaded w0 root (l ++ [UserPage v f src]) w2 ∧
    ∀ m, 0 ≤ m < 2 ^ 36 → pages (fa_mem w2) root m = user_map (l ++ [UserPage v f src]) m.
Proof.
  intros L F Ha Hp Hfill. pose proof user_page_flags as Hfl.
  destruct (loaded_filled w0 root l w f w1 L F) as (L1 & Hp1 & Hc & Hn & Ht & Hd).
  destruct (MapPage_avail w1 root v f USER_PROC_PAGE n) as (w2 & Hmap & Ha2); [apply L1|done..|].
  destruct (MapPage_result w1 root v f _ true w2 (l_pt _ _ _ _ L1) Hfl (fl_range w f w1 F) Hmap)
    as (Hok2 & Hs & Hp2).
  exists w2. split_and!; [done|done| |].
  - apply (loaded_step w0 root _ w1); [|done..]. by apply loaded_snoc.
  - intros m Hm. rewrite Hp2, user_map_snoc by done. cbn [andb up_vaddr up_frame].
    destruct (m =? page_no v); [done|]. by rewrite Hp1, Hp.
Qed.

(** *** The loops *)

Definition origin (p : user_page) : Z * option Z := (up_vaddr p, up_source p).

(** From [w0], the pages [l] are in memory and in the page table, and [n] more
    frames are left. *)
Definition loading w0 root l n s : Prop :=
  loaded w0 root l (world s) ∧ fa_avail (world s) n ∧
  ∀ m, 0 ≤ m < 2 ^ 36 → pages (fa_mem (world s)) root m = user_map l m.

(** [s'] continues [s] with pages of the origins [os]. *)
Definition loads w0 root l os n s s' : Prop :=
  ∃ l' w, s' = set_world s w ∧ map origin l' = os ∧ loading w0 root (l ++ l') n s'.

Lemma loads_nil w0 root l n s : loading w0 root l n s → loads w0 root l [] n s s.
Proof.
  intros L. exists [], (world s). split_and!; [|done|by rewrite app_nil_r].
  by destruct s as [[]].
Qed.

Lemma load_page_spec w0 root l segment seg_base off n s :
  (∀ g, fa_client w0 g → fa_client (world s) g) →
  loading w0 root l (4 + n) s →
  ∃ f w, load_page s root segment seg_base off = Done (set_world s w) ∧
    loading w0 root (l ++ [UserPage (u64 (seg_base + off)) f (Some (segment + off))]) n (set_world s w).
Proof.
  intros Hkept (L & Ha & Hp). unfold load_page.
  assert (Hok : fa_ok (world s)) by (eapply pt_world, L).
  destruct (alloc_step (world s) (3 + n) Hok Ha) as (f & w1 & Hal & Hf & Ha1). rewrite Hal. do_bind.
  destruct (fresh_write (world s) f w1 (segment + off) (3 + n) Hok Hf Ha1) as (F & Ha2 & Hcopy).
  destruct (loaded_map w0 root l (world s) f _ (u64 (seg_base + off)) (Some (segment + off)) n L F Ha2 Hp)
    as (w3 & Hmap & Ha3 & L3 & Hp3).
  { intros i Hi (g & Hg & Hag). cbn [up_frame]. rewrite Hcopy by (done || (exists g; split; [by apply Hkept|done])).
    by apply (l_mem w0 root l _ L g). }
  rewrite Hmap. do_bind. by exists f, w3.
Qed.

Lemma load_pages_spec w0 root segment seg_base bound n k : ∀ l s off,
  0 ≤ off → off mod 4096 = 0 → bound ≤ 2 ^ 64 - 4096 → bound = off + 4096 * Z.of_nat k →
  loading w0 root l (4 * k + n) s →
  ∃ s', load_pages (S k) s root segment seg_base bound off = Done s' ∧
    loads w0 root l
      (map (λ j, (u64 (seg_base + 0x1000 * j), Some (segment + 0x1000 * j))) (seqZ (off / 4096) (Z.of_nat k)))
      n s s'.
Proof.
  induction k as [|k IH]; intros l s off Hoff Hal Hb Heq L.
  - cbn [load_pages]. rewrite (proj2 (Z.ltb_ge _ _)) by lia. exists s. split; [done|]. by apply loads_nil.
  - remember (S k) as fuel eqn:Hfuel. cbn [load_pages]. rewrite (proj2 (Z.ltb_lt _ _)) by lia.
    replace (4 * fuel + n)%nat with (4 + (4 * k + n))%nat in L by lia.
    destruct (load_page_spec w0 root l segment seg_base off (4 * k + n) s) as (f & w & Hload & L');
      [apply L|done|].
    rewrite Hload. do_bind. rewrite u64_small by lia. subst fuel.
    destruct (IH _ (set_world s w) (off + 0x1000) ltac:(lia) ltac:(dlia) Hb ltac:(lia) L')
      as (s' & Hs' & l' & w' & -> & Hor & L2).
    exists (set_world s w'). split; [done|].
    exists (UserPage (u64 (seg_base + off)) f (Some (segment + off)) :: l'), w'.
    split_and!; [done| |by rewrite <-app_assoc in L2].
    rewrite seqZ_cons by lia. cbn [map]. rewrite Hor. unfold origin at 1. cbn [up_vaddr up_source].
    f_equal; [|f_equal; f_equal; dlia].
    replace (0x1000 * (off / 4096)) with off by dlia. done.
Qed.

Lemma segment_bound_range p :
  0 ≤ segment_bound p ≤ 2 ^ 64 - 4096 ∧ segment_bound p = 0x1000 * (segment_bound p / 0x1000).
Proof.
  unfold segment_bound. change (Z.shiftl 1 LOG2_FRAME_SIZE) with 4096. unfold LOG2_FRAME_SIZE.
  set (x := u64 (_ - 1)). assert (Hx : 0 ≤ x < 2 ^ 64) by apply u64_range.
  rewrite Z.shiftl_mul_pow2, Z.shiftr_div_pow2 by lia. change (2 ^ 12) with 4096.
  rewrite u64_small by dlia. split; [dlia|]. rewrite Z.div_mul by lia. lia.
Qed.

(** Frames that are enough for a segment: four a page. *)
Definition segment_cost (raw_elf : Z) (p : elf_phdr_t) : nat := 4 * length (pages_of_segment raw_elf p).

Lemma load_segment_spec w0 root raw_elf p l n s :
  loading w0 root l (segment_cost raw_elf p + n) s →
  ∃ s', load_segment s root raw_elf p = Done s' ∧ loads w0 root l (pages_of_segment raw_elf p) n s s'.
Proof.
  unfold load_segment, segment_cost, pages_of_segment. intros L.
  destruct (ph_type p =? _); [|exists s; split; [done|by apply loads_nil]].
  destruct (segment_bound_range p) as [Hb He]. rewrite length_map, length_seqZ in L.
  set (k := Z.to_nat (segment_bound p / 0x1000)) in *.
  assert (Hk : segment_bound p / 0x1000 = Z.of_nat k) by dlia.
  destruct (load_pages_spec w0 root (raw_elf + ph_offset p) (ph_vaddr p) (segment_bound p) n k l s 0)
    as (s' & Hs' & Hl); [lia|done|lia|lia|done|].
  exists s'. split; [done|]. by rewrite Hk.
Qed.

Lemma read_elf_hdr_ext m1 m2 a :
  (∀ b, a ≤ b < a + sizeof_elf_hdr → ld8 m1 b = ld8 m2 b) → read_elf_hdr m1 a = read_elf_hdr m2 a.
Proof.
  unfold sizeof_elf_hdr. intros He. unfold read_elf_hdr.
  f_equal; first [apply He; lia | apply ld_ext; intros; apply He; lia].
Qed.

Lemma read_elf_phdr_ext m1 m2 a :
  (∀ b, a ≤ b < a + sizeof_elf_phdr → ld8 m1 b = ld8 m2 b) → read_elf_phdr m1 a = read_elf_phdr m2 a.
Proof.
  unfold sizeof_elf_phdr. intros He. unfold read_elf_phdr. f_equal; apply ld_ext; intros; apply He; lia.
Qed.

Lemma load_segments_spec w0 root raw_elf n k : ∀ l s i fuel,
  headers_owned w0 raw_elf → 0 ≤ i → (k < fuel)%nat →
  let header := read_elf_hdr (fa_mem w0) raw_elf in
  let todo := map (λ i, read_elf_phdr (fa_mem w0) (raw_elf + phdr_offset header + i * sizeof_elf_phdr))
                (seqZ i (Z.of_nat k)) in
  phdr_num_entries header = i + Z.of_nat k →
  loading w0 root l (sum_list (map (segment_cost raw_elf) todo) + n) s →
  ∃ s', load_segments fuel s root raw_elf (raw_elf + phdr_offset header) i = Done s' ∧
    loads w0 root l (concat (map (pages_of_segment raw_elf) todo)) n s s'.
Proof.
  induction k as [|k IH]; intros l s i fuel Hown Hi Hfuel header todo Hnum L;
    pose proof Hown as [Hown1 Hown2]; fold header in Hown2; (destruct fuel as [|fuel]; [lia|]); cbn [load_segments].
  all: rewrite (read_elf_hdr_ext _ (fa_mem w0)) by
    (intros b Hb; apply owned_kept; [apply L|by apply Hown1]); fold header; rewrite Hnum.
  - rewrite (proj2 (Z.ltb_ge _ _)) by lia. exists s. split; [done|]. by apply loads_nil.
  - rewrite (proj2 (Z.ltb_lt _ _)) by lia.
    rewrite (read_elf_phdr_ext _ (fa_mem w0)) by
      (intros b Hb; apply owned_kept; [apply L|apply Hown2; unfold sizeof_elf_phdr in *; lia]).
    assert (Htodo : todo = read_elf_phdr (fa_mem w0) (raw_elf + phdr_offset header + i * sizeof_elf_phdr) ::
      map (λ i, read_elf_phdr (fa_mem w0) (raw_elf + phdr_offset header + i * sizeof_elf_phdr))
        (seqZ (i + 1) (Z.of_nat k))).
    { unfold todo. rewrite seqZ_cons by lia. cbn [map]. f_equal. f_equal. f_equal; lia. }
    rewrite Htodo in L |- *. cbn [map sum_list concat] in L |- *. rewrite <-Nat.add_assoc in L.
    destruct (load_segment_spec w0 root raw_elf _ l _ s L) as (s1 & Hs1 & l1 & w1 & -> & Hor1 & L1).
    rewrite Hs1. do_bind.
    destruct (IH _ (set_world s w1) (i + 1) fuel Hown ltac:(lia) ltac:(lia) ltac:(fold header; lia) L1)
      as (s2 & Hs2 & l2 & w2 & -> & Hor2 & L2).
    exists (set_world s w2). split; [done|]. exists (l1 ++ l2), w2. rewrite map_app, Hor1, app_assoc.
    split_and!; [done| |done]. f_equal. done.
Qed.

(** *** The magic number *)

Lemma strncmp_lit_iff m a lit :
  Forall (λ c, c ≠ 0) lit →
  (strncmp_lit m a lit (length lit) = 0 ↔ ∀ i c, lit !! i = Some c → ld8 m (a + Z.of_nat i) = c).
Proof.
  revert a. induction lit as [|c lit IH]; intros a Hnz; [by split|].
  apply Forall_cons in Hnz as [Hc Hnz]. cbn [length strncmp_lit head default tail from_option]. change (id c) with c.
  destruct (Z.eqb_spec (ld8 m a) 0) as [Hz|Hz], (Z.eqb_spec (ld8 m a) c) as [He|He]; cbn [negb andb]; try congruence.
  2: { rewrite IH by done. split.
    - intros Hrest [|i] c' Hl; [injection Hl as <-; by rewrite Z.add_0_r|].
      replace (a + Z.of_nat (S i)) with (a + 1 + Z.of_nat i) by lia. by apply Hrest.
    - intros Hall i c' Hl. replace (a + 1 + Z.of_nat i) with (a + Z.of_nat (S i)) by lia. by apply Hall. }
  all: split; [lia|]; intros Hall; specialize (Hall O c eq_refl); rewrite Z.add_0_r in Hall; lia.
Qed.

Definition has_magic (m : mem) (a : Z) : Prop := ∀ i c, ELF_MAGIC !! i = Some c → ld8 m (a + Z.of_nat i) = c.

Lemma magic_checked m m0 a :
  (∀ b, a ≤ b < a + sizeof_elf_hdr → ld8 m b = ld8 m0 b) →
  strncmp_lit m a ELF_MAGIC 4 = 0 ↔ has_magic m0 a.
Proof.
  intros Hm. change 4%nat with (length ELF_MAGIC).
  rewrite strncmp_lit_iff by (repeat constructor; discriminate). unfold has_magic, sizeof_elf_hdr in *.
  split; intros Hall i c Hl; rewrite <-(Hall i c Hl); pose proof (lookup_lt_Some _ _ _ Hl) as Hlen;
    cbn in Hlen; [symmetry|]; apply Hm; lia.
Qed.

(** *** Copies of a file *)

(** The program headers lie within the first [len] bytes of the file. *)
Definition headers_within (m : mem) (file len : Z) : Prop :=
  let header := read_elf_hdr m file in
  sizeof_elf_hdr ≤ len ∧ phdr_offset header + phdr_num_entries header * sizeof_elf_phdr ≤ len.

Lemma read_elf_phdr_copied m a m' a' :
  copied m a m' a' sizeof_elf_phdr → read_elf_phdr m' a' = read_elf_phdr m a.
Proof.
  unfold sizeof_elf_phdr. intros Hc. unfold read_elf_phdr.
  rewrite (ld_copied 4 m a m' a') by (intros i Hi; apply Hc; lia).
  f_equal; apply ld_copied; intros i Hi; rewrite <-!Z.add_assoc; apply Hc; lia.
Qed.

Lemma elf_copied m file m' raw len :
  copied m file m' raw len → headers_within m file len →
  entry_pt (read_elf_hdr m' raw) = entry_pt (read_elf_hdr m file) ∧
  phdr_offset (read_elf_hdr m' raw) = phdr_offset (read_elf_hdr m file) ∧
  phdr_num_entries (read_elf_hdr m' raw) = phdr_num_entries (read_elf_hdr m file) ∧
  program_headers m' raw = program_headers m file ∧ (has_magic m file → has_magic m' raw).
Proof.
  intros Hc [Hlen Hph]. unfold sizeof_elf_hdr in Hlen.
  assert (Hsub : ∀ o n, 0 ≤ o → o + n ≤ len → copied m (file + o) m' (raw + o) n).
  { intros o n Ho Hn. by eapply copied_sub. }
  assert (He : entry_pt (read_elf_hdr m' raw) = entry_pt (read_elf_hdr m file)) by (apply ld_copied, Hsub; lia).
  assert (Ho : phdr_offset (read_elf_hdr m' raw) = phdr_offset (read_elf_hdr m file)) by (apply ld_copied, Hsub; lia).
  assert (Hn : phdr_num_entries (read_elf_hdr m' raw) = phdr_num_entries (read_elf_hdr m file))
    by (apply ld_copied, Hsub; lia).
  split_and!; [done..| |].
  - unfold program_headers. rewrite Ho, Hn. apply map_ext_in. intros i [? ?]%list_elem_of_In%elem_of_seqZ.
    apply read_elf_phdr_copied. pose proof (ld_range 8 m (file + 32)) as Hr.
    change (ld64 m (file + 32)) with (phdr_offset (read_elf_hdr m file)) in Hr.
    rewrite <-!Z.add_assoc. apply Hsub; unfold sizeof_elf_phdr in *; lia.
  - intros Hm i c Hi. rewrite <-(Hm i c Hi). pose proof (lookup_lt_Some _ _ _ Hi) as Hl. cbn in Hl.
    apply Hc. lia.
Qed.

(** *** The whole loader *)

(** The pages of the heap in the new page table. *)
Definition heap_range h s : Z * Z :=
  let a := KernelVAddrToPAddr s (HEAP_START h) in (a, u64 (a + num_heap_pages h)).
Definition heap_map h s (n e : Z) : Z :=
  map_range (heap_range h s).1 (heap_range h s).2 KERNEL_DATA KERNEL_PAGE n e.

(** The number of frames that is enough. *)
Definition elf_cost h s (raw_elf : Z) : nat :=
  S (sum_list (map (segment_cost raw_elf) (program_headers (fa_mem (world s)) raw_elf)) +
     (4 + kernel_cost (BASE_ADDR s) (PMRs s) (MMAP s)
            (range_cost (heap_range h s).1 (heap_range h s).2 + 0))).

(** What the loader needs of the kernel: a page table of its own, and ranges
    that do not wrap around. *)
Record kernel_ready h s : Prop := {
  kr_table : pt_ok (world s) (KERNEL_PAGE_TABLE_ROOT s);
  kr_pmrs : Forall (pmr_ok (BASE_ADDR s)) (PMRs s);
  kr_mmap : Forall entry_ok (MMAP s);
  kr_heap : range_ok (heap_range h s).1 (heap_range h s).2;
}.

Lemma loading_root w root w1 n s :
  fresh_frame w root w1 → fa_avail w1 n → world s = w1 → loading w root [] n s.
Proof.
  intros Hf Ha Hw. unfold loading. rewrite Hw. destruct (pt_ok_fresh w root w1 Hf) as (Hok & Hz & Ht). split_and!; [split|done|].
  - done.
  - apply Hf.
  - intros g a Hg Hag. by apply (ff_frame w root w1 Hf g).
  - intros g ->%Ht. apply Hf.
  - by intros p ?%elem_of_nil.
  - constructor.
  - by intros p ?%elem_of_nil.
  - intros m _. apply Hz.
Qed.

(** The kernel's own page table, and so where the heap is, stays as it was. *)
Lemma kernel_translation w0 root l s s' v :
  world s = w0 → pt_ok w0 (KERNEL_PAGE_TABLE_ROOT s) → loaded w0 root l (world s') →
  KERNEL_PAGE_TABLE_ROOT s' = KERNEL_PAGE_TABLE_ROOT s → KernelVAddrToPAddr s' v = KernelVAddrToPAddr s v.
Proof.
  intros <- Hk L Hr. unfold KernelVAddrToPAddr. rewrite Hr.
  destruct (tables_kept (KERNEL_PAGE_TABLE_ROOT s) (world s) (world s')) as (_ & Hp & _);
    [done|eapply pt_world, L|apply L| |].
  { intros g a Hg. apply (l_mem _ _ _ _ L g). by eapply is_table_client. }
  by rewrite !VAddrToPAddr_pages, (Hp (page_no v)) by apply page_no_range.
Qed.

(** The last part of the loader: the stack, the kernel and the heap. *)
Lemma load_rest_spec h s0 root l s n :
  kernel_ready h s0 →
  KERNEL_PAGE_TABLE_ROOT s = KERNEL_PAGE_TABLE_ROOT s0 → BASE_ADDR s = BASE_ADDR s0 →
  PMRs s = PMRs s0 → MMAP s = MMAP s0 →
  loading (world s0) root l
    (4 + kernel_cost (BASE_ADDR s0) (PMRs s0) (MMAP s0)
           (range_cost (heap_range h s0).1 (heap_range h s0).2 + n)) s →
  ∃ stack w1 w2 s1 s2,
    fa_alloc (world s) = Done (stack, w1) ∧
    MapPage w1 root DEFAULT_STACK_BASE stack USER_PROC_PAGE = Done (true, w2) ∧
    MapKernelPmrs (set_world s w2) root = Done (true, s1) ∧ map_heap h s1 root = Done s2 ∧
    loaded (world s0) root (l ++ [UserPage DEFAULT_STACK_BASE stack None]) (world s2) ∧
    KERNEL_PAGE_TABLE_ROOT s2 = KERNEL_PAGE_TABLE_ROOT s ∧ cr3 s2 = cr3 s ∧
    ∀ m, 0 ≤ m < 2 ^ 36 → pages (fa_mem (world s2)) root m =
      heap_map h s0 m (kernel_map (BASE_ADDR s0) (PMRs s0) (MMAP s0) m
        (user_map (l ++ [UserPage DEFAULT_STACK_BASE stack None]) m)).
Proof.
  intros Hk Hroot Hbase Hpmrs Hmmap (L & Ha & Hp). set (kc := kernel_cost _ _ _ _) in Ha.
  assert (Hok : fa_ok (world s)) by (eapply pt_world, L).
  destruct (alloc_step (world s) (3 + kc) Hok Ha) as (stack & w1 & Hal & Hf & Ha1).
  destruct (loaded_map (world s0) root l (world s) stack w1 DEFAULT_STACK_BASE None kc L
    (fresh_filled _ _ _ Hf) Ha1 Hp) as (w2 & Hmap & Ha2 & L2 & Hp2).
  { intros i Hi. apply Hf. cbn [up_frame]. lia. }
  destruct (MapKernelPmrs_maps (set_world s w2) root (range_cost (heap_range h s0).1 (heap_range h s0).2 + n))
    as (s1 & Hs1 & M1); [apply L2|cbn; rewrite Hbase, Hpmrs; apply Hk|cbn; rewrite Hmmap; apply Hk|cbn; by rewrite Hbase, Hpmrs, Hmmap|].
  pose proof (loaded_step _ _ _ _ _ L2 (maps_ok _ _ _ _ _ M1) (maps_step _ _ _ _ _ M1)) as L3.
  assert (Hheap : KernelVAddrToPAddr s1 (HEAP_START h) = (heap_range h s0).1).
  { apply (kernel_translation (world s0) root _ s0 s1 _ eq_refl (kr_table h s0 Hk) L3).
    by rewrite (maps_root _ _ _ _ _ M1). }
  destruct (MapMultiple_maps s1 root (heap_range h s0).1 (heap_range h s0).2 KERNEL_DATA KERNEL_PAGE n)
    as (s2 & Hs2 & M2); [apply M1|apply kernel_flags|apply Hk|apply M1|].
  exists stack, w1, w2, s1, s2. split_and!; [done..| | | | |].
  - unfold map_heap. rewrite Hheap. change (u64 (_ + _)) with (heap_range h s0).2. by rewrite Hs2.
  - exact (loaded_step _ _ _ _ _ L3 (maps_ok _ _ _ _ _ M2) (maps_step _ _ _ _ _ M2)).
  - by rewrite (maps_root _ _ _ _ _ M2), (maps_root _ _ _ _ _ M1).
  - by rewrite (maps_cr3 _ _ _ _ _ M2), (maps_cr3 _ _ _ _ _ M1).
  - intros m Hm. rewrite (maps_pages _ _ _ _ _ M2), (maps_pages _ _ _ _ _ M1) by done.
    cbn [world set_world set_vm vm set_frames frames BASE_ADDR PMRs MMAP].
    by rewrite Hbase, Hpmrs, Hmmap, Hp2.
Qed.

End correctness.

(** ** Properties *)

Section properties.
Context {W : Type} `{FrameAllocatorLaws W}.
Implicit Types (w : W) (s : vmm W).

Lemma parse_elf_loads h s raw_elf pcb :
  let m := fa_mem (world s) in
  kernel_ready h s → headers_owned (world s) raw_elf → has_magic m raw_elf →
  fa_avail (world s) (elf_cost h s raw_elf) →
  ∃ pcb' s' l, parse_elf h s raw_elf pcb = Done (0, pcb', s') ∧
    rip pcb' = entry_pt (read_elf_hdr m raw_elf) ∧ rsp pcb' = DEFAULT_STACK_BASE ∧
    regs pcb' RBP = DEFAULT_STACK_BASE ∧ (∀ r, r ≠ RBP → regs pcb' r = regs pcb r) ∧
    map origin l = pages_of_program m raw_elf ∧ loaded (world s) (pagemap pcb') l (world s') ∧
    KERNEL_PAGE_TABLE_ROOT s' = KERNEL_PAGE_TABLE_ROOT s ∧ cr3 s' = cr3 s ∧
    ∀ n, 0 ≤ n < 2 ^ 36 → pages (fa_mem (world s')) (pagemap pcb') n =
      heap_map h s n (kernel_map (BASE_ADDR s) (PMRs s) (MMAP s) n (user_map l n)).
Proof.
  intros m Hk Hown Hmagic Ha. pose proof Hown as [Hown1 _]. set (header := read_elf_hdr m raw_elf).
  assert (Hok : fa_ok (world s)) by (eapply pt_world, Hk).
  destruct (alloc_step (world s) _ Hok Ha) as (root & w1 & Hal & Hf & Ha1).
  assert (L0 := loading_root _ root w1 _ (set_world s w1) Hf Ha1 eq_refl).
  assert (Hsame : ∀ b, raw_elf ≤ b < raw_elf + sizeof_elf_hdr → ld8 (fa_mem w1) b = ld8 m b).
  { intros b Hb. apply owned_kept; [apply L0|by apply Hown1]. }
  unfold parse_elf. rewrite Hal. do_bind. change (world (set_world s w1)) with w1.
  rewrite (read_elf_hdr_ext (fa_mem w1) m) by done. fold header. change (magic header) with raw_elf.
  rewrite (proj2 (magic_checked _ _ raw_elf Hsame) Hmagic). cbn [negb Z.eqb].
  destruct (load_segments_spec (world s) root raw_elf
    (4 + kernel_cost (BASE_ADDR s) (PMRs s) (MMAP s) (range_cost (heap_range h s).1 (heap_range h s).2 + 0))
    (Z.to_nat (phdr_num_entries header)) [] (set_world s w1) 0 (Z.to_nat (2 ^ 16)) Hown)
    as (s2 & Hs2 & l & w2 & -> & Hor & L2);
    [lia| |fold m; fold header| |].
  { pose proof (ld_range 2 m (raw_elf + 56)). cbn in *. lia. }
  { pose proof (ld_range 2 m (raw_elf + 56)). cbn in *. lia. }
  { fold m. fold header. unfold program_headers in L0. fold m header in L0.
    rewrite Z2Nat.id; [exact L0|]. apply (ld_range 2 m (raw_elf + 56)). }
  fold m in Hs2, Hor. fold header in Hs2, Hor. rewrite Hs2. do_bind. cbn [app] in L2.
  rewrite Z2Nat.id in Hor by apply (ld_range 2 m (raw_elf + 56)).
  destruct (load_rest_spec h s root l (set_world (set_world s w1) w2) 0 Hk eq_refl eq_refl eq_refl eq_refl L2)
    as (stack & w3 & w4 & s3 & s4 & Hal3 & Hmap & Hs3 & Hs4 & L4 & Hr4 & Hc4 & Hp4).
  rewrite Hal3. do_bind. rewrite Hmap. do_bind.
  change (set_world (set_world (set_world s w1) w2) w4) with (set_world (set_world s w2) w4) in *.
  rewrite Hs3. do_bind. rewrite Hs4. do_bind.
  eexists _, s4, _. split; [reflexivity|]. split_and!; [done..| | |exact L4|exact Hr4|exact Hc4|exact Hp4].
  - intros r Hr. cbn. unfold set_reg. by rewrite decide_False.
  - rewrite map_app, Hor. done.
Qed.

(** C3: Loading a program: given the magic number, headers in memory that is
    not free and enough frames, [parse_elf] returns 0, sets the entry point and
    the stack, and builds in a new frame a well-formed page table that has the
    pages of all loadable segments and of the stack, and over them the kernel
    and the heap.  The frames of the pages are new and distinct, are no tables
    and hold the bytes of the file; no memory that was in use has changed. *)
Theorem parse_elf_spec h s raw_elf pcb :
  let m := fa_mem (world s) in
  kernel_ready h s → headers_owned (world s) raw_elf → has_magic m raw_elf →
  fa_avail (world s) (elf_cost h s raw_elf) →
  ∃ pcb' s' l, parse_elf h s raw_elf pcb = Done (0, pcb', s') ∧
    rip pcb' = entry_pt (read_elf_hdr m raw_elf) ∧ rsp pcb' = DEFAULT_STACK_BASE ∧
    regs pcb' RBP = DEFAULT_STACK_BASE ∧ (∀ r, r ≠ RBP → regs pcb' r = regs pcb r) ∧
    map origin l = pages_of_program m raw_elf ∧ loaded (world s) (pagemap pcb') l (world s') ∧
    KERNEL_PAGE_TABLE_ROOT s' = KERNEL_PAGE_TABLE_ROOT s ∧ cr3 s' = cr3 s ∧
    ∀ n, 0 ≤ n < 2 ^ 36 → pages (fa_mem (world s')) (pagemap pcb') n =
      heap_map h s n (kernel_map (BASE_ADDR s) (PMRs s) (MMAP s) n (user_map l n)).
Proof. apply parse_elf_loads. Qed.

(** A file without the magic number is refused with -1, but only after the
    page table of the process has been replaced by a fresh frame, which stays
    allocated. *)
Theorem parse_elf_no_magic h s raw_elf pcb :
  fa_ok (world s) → fa_avail (world s) 1 → headers_owned (world s) raw_elf →
  ¬ has_magic (fa_mem (world s)) raw_elf →
  ∃ root w, parse_elf h s raw_elf pcb = Done (-1, set_pagemap pcb root, print (set_world s w) NoElfMagic) ∧
    fresh_frame (world s) root w.
Proof.
  intros Hok Ha [Hown _] Hmagic. destruct (alloc_step (world s) 0 Hok Ha) as (root & w1 & Hal & Hf & Ha1).
  exists root, w1. split; [|done]. unfold parse_elf. rewrite Hal. do_bind.
  change (world (set_world s w1)) with w1. change (magic _) with raw_elf.
  destruct (Z.eqb_spec (strncmp_lit (fa_mem w1) raw_elf ELF_MAGIC 4) 0) as [He|]; [|done].
  destruct Hmagic. apply (magic_checked (fa_mem w1)); [|done]. intros b Hb.
  destruct (Hown b Hb) as (g & Hg & Hbg). by apply (ff_frame _ _ _ Hf g).
Qed.

End properties.

(** The number of pages does not depend on the size of the segment alone: one
    page of a program at 0xfd000000 is loaded as a million pages. *)
Example pages_of_one_page :
  let p := ElfPhdr 1 5 0x1000 0xfd000000 0 0x1000 0x1000 0x1000 in
  length (pages_of_segment 0 p) = Z.to_nat 0xfd001.
Proof. cbv zeta. unfold pages_of_segment. change (ph_type _ =? _) with true. cbv iota.
  rewrite length_map, length_seqZ. reflexivity. Qed.

(** ** Witnesses *)

(** An image in the frame at 4096, with the header of one segment, a page of
    bytes for address 0x1000; the kernel's page table is in the next frame. *)
Definition ex_image (m : mem) (ok : bool) : mem :=
  let m := st8 (st8 (st8 (st8 m 4096 (if ok then 0x7F else 0)) 4097 69) 4098 76) 4099 70 in
  let m := st64 (st64 (st 2 m 4152 1) 4120 0x1000) 4128 64 in
  st64 (st64 (st64 (st32 m 4160 1) 4168 0) 4176 0x1000) 4200 0x1000.

Definition ex_elf_pmm (ok : bool) : pmm :=
  let w := take_frame blank_pmm 1 in fa_write (ex_image (fa_mem w) ok) w.
Definition ex_heap : heap := Heap 0xffff900000000000 0x20000 ∅.

Lemma ex_image_outside m ok : same_outside 4096 8192 m (ex_image m ok).
Proof.
  unfold ex_image. repeat (eapply same_outside_trans; [|apply st_outside_sub; lia]).
  intros b Hb. by rewrite !ld8_st8_ne by lia.
Qed.

Lemma ex_elf_ok ok :
  fa_ok (ex_elf_pmm ok) ∧ fa_client (ex_elf_pmm ok) 4096 ∧
  fa_avail (ex_elf_pmm ok) (Z.to_nat (2 ^ 26 - 5)).
Proof.
  pose proof blank_ok as Hb. change (pmm_ok blank_pmm) in Hb.
  assert (Hu : used blank_pmm 1 = false) by (apply blank_used; lia).
  assert (Hf : fresh_frame blank_pmm 4096 (take_frame blank_pmm 1)).
  { apply (pmm_fresh_frame blank_pmm 1 Hb); [cbn; lia|done]. }
  destruct (fa_write_ok (ex_image (fa_mem (take_frame blank_pmm 1)) ok) (take_frame blank_pmm 1) 4096)
    as (Hok & Hc & Ha); [apply Hf|apply Hf|apply ex_image_outside|].
  split_and!; [exact Hok|apply Hc, Hf|]. apply Ha.
  change (Z.of_nat (Z.to_nat (2 ^ 26 - 5)) + 1 ≤ count_free (take_frame blank_pmm 1)).
  pose proof (count_free_take_frame blank_pmm 1 Hb ltac:(cbn; lia) Hu) as Hcf.
  pose proof (blank_avail (Z.to_nat (2 ^ 26 - 4)) ltac:(lia)) as Hba.
  change (Z.of_nat (Z.to_nat (2 ^ 26 - 4)) + 1 ≤ count_free blank_pmm) in Hba.
  change (1 <? num_entries (PHYS_MEMORY_MAP blank_pmm)) with true in Hcf. cbn [Z.b2z] in Hcf. lia.
Qed.

Lemma ex_image_headers ok :
  let m := fa_mem (ex_elf_pmm ok) in
  phdr_offset (read_elf_hdr m 4096) = 64 ∧ phdr_num_entries (read_elf_hdr m 4096) = 1 ∧
  entry_pt (read_elf_hdr m 4096) = 0x1000 ∧
  read_elf_phdr m 4160 = ElfPhdr 1 0 0 0x1000 0 0 0x1000 0 ∧
  ld8 m 4096 = (if ok then 0x7F else 0) ∧ ld8 m 4097 = 69 ∧ ld8 m 4098 = 76 ∧ ld8 m 4099 = 70.
Proof. cbv zeta. destruct ok; split_and!; vm_compute; reflexivity. Qed.

Lemma ex_owned ok w a :
  (∀ g, fa_client (ex_elf_pmm ok) g → fa_client w g) → 4096 ≤ a < 8192 → owned w a.
Proof. intros Hk Ha. exists 4096. split; [by apply Hk, ex_elf_ok|lia]. Qed.

(** Whatever happens to other frames, the image stays what it is. *)
Lemma ex_image_kept ok w :
  (∀ g, fa_client (ex_elf_pmm ok) g → fa_client w g) → keeps_clients (ex_elf_pmm ok) w →
  headers_owned w 4096 ∧ (has_magic (fa_mem w) 4096 ↔ ok = true) ∧
  entry_pt (read_elf_hdr (fa_mem w) 4096) = 0x1000 ∧
  program_headers (fa_mem w) 4096 = [ElfPhdr 1 0 0 0x1000 0 0 0x1000 0].
Proof.
  intros Hk Hm. destruct (ex_image_headers ok) as (Ho & Hn & He & Hp & H0 & H1 & H2 & H3).
  assert (Hs : ∀ b, 4096 ≤ b < 8192 → ld8 (fa_mem w) b = ld8 (fa_mem (ex_elf_pmm ok)) b).
  { intros b Hb. apply (Hm 4096); [apply ex_elf_ok|lia]. }
  assert (Hh : read_elf_hdr (fa_mem w) 4096 = read_elf_hdr (fa_mem (ex_elf_pmm ok)) 4096).
  { apply read_elf_hdr_ext. intros b Hb. apply Hs. unfold sizeof_elf_hdr in Hb. lia. }
  rewrite <-Hs in H0, H1, H2, H3 by lia.
  split_and!.
  - split; rewrite ?Hh, ?Ho, ?Hn; intros a Ha; apply (ex_owned ok); [done| |done|];
      unfold sizeof_elf_hdr, sizeof_elf_phdr in Ha; lia.
  - split; [intros Hmag; specialize (Hmag 0%nat 0x7F eq_refl); rewrite Z.add_0_r, H0 in Hmag; by destruct ok|].
    intros -> i c Hi. do 4 (destruct i as [|i]; [injection Hi as <-; assumption|]). done.
  - by rewrite Hh.
  - unfold program_headers. rewrite Hh, Ho, Hn. change (seqZ 0 1) with [0]. cbn [map].
    change (4096 + 64 + 0 * sizeof_elf_phdr) with 4160. rewrite (read_elf_phdr_ext _ (fa_mem (ex_elf_pmm ok))).
    + by rewrite Hp.
    + intros b Hb. apply Hs. unfold sizeof_elf_phdr in Hb. lia.
Qed.

Definition ex_elf_vmm (w : pmm) (root : Z) : vmm pmm :=
  Vmm (Machine w []) root (KernelBaseAddress 0x200000 0xffffffff80200000) [] [] root [].

Lemma ex_elf_ready : ∃ root w,
  let s := ex_elf_vmm w root in
  kernel_ready ex_heap s ∧ headers_owned w 4096 ∧ has_magic (fa_mem w) 4096 ∧
  entry_pt (read_elf_hdr (fa_mem w) 4096) = 0x1000 ∧
  program_headers (fa_mem w) 4096 = [ElfPhdr 1 0 0 0x1000 0 0 0x1000 0] ∧
  fa_avail w (elf_cost ex_heap s 4096).
Proof.
  destruct (ex_elf_ok true) as (Hok & Hc & Ha).
  replace (Z.to_nat (2 ^ 26 - 5)) with (S (Z.to_nat (2 ^ 26 - 6))) in Ha by lia.
  destruct (alloc_step _ _ Hok Ha) as (root & w & _ & Hf & Ha1).
  destruct (ex_image_kept true w) as (Hown & Hmag & He & Hp);
    [apply Hf|intros g a Hg Hga; by apply (ff_frame _ _ _ Hf g)|].
  destruct (pt_ok_fresh _ _ _ Hf) as (Hpt & Hz & _).
  assert (Hr : heap_range ex_heap (ex_elf_vmm w root) = (0, 0x20000)).
  { unfold heap_range, KernelVAddrToPAddr. rewrite VAddrToPAddr_pages.
    change (fa_mem (world (ex_elf_vmm w root))) with (fa_mem w).
    change (KERNEL_PAGE_TABLE_ROOT (ex_elf_vmm w root)) with root. by rewrite Hz. }
  exists root, w. split_and!; [split|done|by apply Hmag|done|done|].
  - done.
  - constructor.
  - constructor.
  - rewrite Hr. unfold range_ok. cbn. lia.
  - unfold elf_cost. rewrite Hr. change (fa_mem (world (ex_elf_vmm w root))) with (fa_mem w). rewrite Hp.
    change (PMRs (ex_elf_vmm w root)) with (@nil stivale2_pmr).
    change (MMAP (ex_elf_vmm w root)) with (@nil stivale2_mmap_entry).
    set (c := S _). assert (Z.of_nat c ≤ 2 ^ 26 - 6) by (vm_compute; discriminate).
    replace (Z.to_nat (2 ^ 26 - 6)) with ((Z.to_nat (2 ^ 26 - 6) - c) + c)%nat in Ha1 by lia.
    by apply avail_less in Ha1.
Qed.

Lemma parse_elf_spec_witness : ∃ (s s' : vmm pmm) pcb' l,
  parse_elf ex_heap s 4096 ex_pcb = Done (0, pcb', s') ∧ rip pcb' = 0x1000 ∧ length l = 3%nat ∧
  loaded (world s) (pagemap pcb') l (world s').
Proof.
  destruct ex_elf_ready as (root & w & Hk & Hown & Hmag & He & Hp & Ha).
  destruct (parse_elf_spec ex_heap (ex_elf_vmm w root) 4096 ex_pcb Hk Hown Hmag Ha)
    as (pcb' & s' & l & H1 & H2 & _ & _ & _ & H3 & H4 & _).
  exists (ex_elf_vmm w root), s', pcb', l. split; [exact H1|]. split; [exact (eq_trans H2 He)|].
  split; [|exact H4]. rewrite <-(length_map origin l), H3. unfold pages_of_program.
  change (fa_mem (world (ex_elf_vmm w root))) with (fa_mem w). rewrite Hp. reflexivity.
Defined.

Lemma parse_elf_no_magic_witness : ∃ root (w : pmm),
  parse_elf ex_heap (ex_elf_vmm (ex_elf_pmm false) 0x3000) 4096 ex_pcb =
    Done (-1, set_pagemap ex_pcb root, print (ex_elf_vmm w 0x3000) NoElfMagic).
Proof.
  destruct (ex_elf_ok false) as (Hok & _ & Ha).
  destruct (ex_image_kept false (ex_elf_pmm false)) as (Hown & Hmag & _); [done|by intros g a|].
  replace (Z.to_nat (2 ^ 26 - 5)) with ((Z.to_nat (2 ^ 26 - 5) - 1) + 1)%nat in Ha by lia.
  destruct (parse_elf_no_magic ex_heap (ex_elf_vmm (ex_elf_pmm false) 0x3000) 4096 ex_pcb)
    as (root & w & H1 & _); [exact Hok|exact (avail_less _ _ _ Ha)|exact Hown|by intros ?%Hmag|].
  exists root, w. exact H1.
Defined.
