(* ===== verification/Tables.v ===== *)
(** * The layouts of tables and file headers

    The packed structures of [src/src/kernel/acpi/acpi.h], [acpi/sdt.h],
    [acpi/madt.h], [vfs/ustar.h] and [proc/elf.h], member by member, and that the
    other files read each member where the compiler puts it. *)
From Stdlib Require Import String.
From stdpp Require Import base list gmap strings.
From S2P Require Import Prelude Memory Layout Ustar Acpi Madt MadtParse Elf.
Open Scope Z_scope.

(** ** Packed structures *)

Definition packed := list (string * ctype * Z).
Definition packed_offset (s : packed) (name : string) : Z := default (-1) (assoc name (packed_offsets 0 s).1).
Definition packed_size (s : packed) : Z := (packed_offsets 0 s).2.
Definition packed_member (s : packed) (m : mem) (a : Z) (name : string) : Z :=
  ld (Z.to_nat (member_size (Struct s) name)) m (a + packed_offset s name).

(** ** ACPI *)

Definition RsdpDescriptor_fields : packed := [
  ("signature", U8, 8); ("checksum", U8, 1); ("oemid", U8, 6); ("revision", U8, 1); ("rsdt_addr", U32, 1);
  ("length", U32, 1); ("xsdt_addr", U64, 1); ("extended_checksum", U8, 1); ("reserved", U8, 3)]%string.

Definition SdtHeader_fields : packed := [
  ("signature", U8, 4); ("length", U32, 1); ("revision", U8, 1); ("checksum", U8, 1); ("oemid", U8, 6);
  ("oem_table", U8, 8); ("oem_revision", U32, 1); ("creator_id", U32, 1); ("creator_revision", U32, 1)]%string.

(** [struct SdtHeader] of [acpi.h], which nothing uses. *)
Definition struct_SdtHeader_fields : packed := [
  ("signature", U8, 4); ("length", U32, 1); ("revision", U8, 1); ("checksum", U8, 1); ("oemid", U8, 6);
  ("oem_table", U8, 8); ("creator_id", U32, 1); ("creator_revision", U32, 1)]%string.

Definition Rsdt_fields : packed := [("header", Struct SdtHeader_fields, 1); ("next", U32, 0)]%string.
Definition Xsdt_fields : packed := [("header", Struct SdtHeader_fields, 1); ("next", U64, 0)]%string.

(** ** Records of the multiple APIC description table *)

Definition Madt_fields : packed := [
  ("header", Struct SdtHeader_fields, 1); ("local_apic_addr", U32, 1); ("local_apic_flags", U32, 1)]%string.
Definition MadtRecordHeader_fields : packed := [("record_type", U8, 1); ("record_len", U8, 1)]%string.
Definition record (l : packed) : packed := ("header", Struct MadtRecordHeader_fields, 1)%string :: l.

Definition ProcessorLocalApic_fields : packed := record [
  ("acpi_processor_id", U8, 1); ("apic_id", U8, 1); ("flags", U32, 1)]%string.
Definition IoApicRecord_fields : packed := record [
  ("io_apic_id", U8, 1); ("reserved", U8, 1); ("io_apic_addr", U32, 1); ("gsib", U32, 1)]%string.
Definition IntSourceOverrideRecord_fields : packed := record [
  ("bus_source", U8, 1); ("irq_source", U8, 1); ("gsi", U32, 1); ("flags", U16, 1)]%string.
Definition NmiSourceRecord_fields : packed := record [
  ("nmi_source", U8, 1); ("reserved", U8, 1); ("flags", U16, 1); ("gsi", U32, 1)]%string.
Definition NmiRecord_fields : packed := record [
  ("acpi_processor_id", U8, 1); ("flags", U16, 1); ("lint", U8, 1)]%string.
Definition LApicAddrOverrideRecord_fields : packed := record [("reserved", U16, 1); ("local_apic_addr", U64, 1)]%string.
Definition LocalX2ApicRecord_fields : packed := record [
  ("reserved", U16, 1); ("local_x2_apic_id", U32, 1); ("flags", U32, 1); ("acpi_id", U32, 1)]%string.

(** ** Archives and programs *)

Definition ustar_entry_fields : packed := [
  ("name", U8, 100); ("mode", U8, 8); ("uid", U8, 8); ("gid", U8, 8); ("size", U8, 12); ("mtime", U8, 12);
  ("checksum", U8, 8); ("filetype", U8, 1); ("link_name", U8, 100); ("signature", U8, 6); ("version", U16, 1);
  ("owner", U8, 32); ("group", U8, 32); ("device_major", U64, 1); ("deivce_minor", U64, 1); ("prefix", U8, 155)]%string.

Definition elf_hdr_fields : packed := [
  ("magic", U8, 4); ("bits", U8, 1); ("endianness", U8, 1); ("version", U8, 1); ("abi", U8, 1); ("reserved", U64, 1);
  ("file_type", U16, 1); ("arch", U16, 1); ("version_con", U32, 1); ("entry_pt", U64, 1); ("phdr_offset", U64, 1);
  ("shdr_offset", U64, 1); ("flags", U32, 1); ("hdr_size", U16, 1); ("phdr_entry_size", U16, 1);
  ("phdr_num_entries", U16, 1); ("shdr_entry_size", U16, 1); ("shdr_num_entries", U16, 1); ("shdr_index", U16, 1)]%string.

Definition elf_phdr_fields : packed := [
  ("type", U32, 1); ("flags", U32, 1); ("offset", U64, 1); ("vaddr", U64, 1); ("paddr", U64, 1); ("file_size", U64, 1);
  ("mem_size", U64, 1); ("alignment", U64, 1)]%string.

Definition elf_shdr_fields : packed := [
  ("name_offset", U32, 1); ("type", U32, 1); ("flags", U64, 1); ("vaddr", U64, 1); ("offset", U64, 1); ("size", U64, 1);
  ("link", U32, 1); ("info", U32, 1); ("aligment", U64, 1); ("ent_size", U64, 1)]%string.

(** ** What is read of them *)

Lemma packed_member_at s m a name n o :
  Z.to_nat (member_size (Struct s) name) = n → packed_offset s name = o → packed_member s m a name = ld n m (a + o).
Proof. by intros <- <-. Qed.

Lemma packed_member_first s m a name n :
  Z.to_nat (member_size (Struct s) name) = n → packed_offset s name = 0 → packed_member s m a name = ld n m a.
Proof. intros Hn Ho. rewrite (packed_member_at _ _ _ _ n 0) by done. by rewrite Z.add_0_r. Qed.

(** Each reader takes the member it is named after. *)
Ltac reads :=
  repeat match goal with |- _ ∧ _ => split end; symmetry;
  first [apply packed_member_at; vm_compute; reflexivity | apply packed_member_first; vm_compute; reflexivity].

Definition rsdp_offsets (l : rsdp_layout) : list Z := [
  rsdp_signature l; rsdp_checksum l; rsdp_oemid l; rsdp_revision l; rsdp_rsdt_addr l; rsdp_length l; rsdp_xsdt_addr l;
  rsdp_extended_checksum l; rsdp_reserved l].
Definition sdt_offsets (l : sdt_layout) : list Z := [
  sdt_signature l; sdt_length l; sdt_revision l; sdt_checksum l; sdt_oemid l; sdt_oem_table l; sdt_oem_revision l;
  sdt_creator_id l; sdt_creator_revision l].
Definition ustar_offsets (l : ustar_fields) : list Z := [
  off_name l; off_mode l; off_uid l; off_gid l; off_size l; off_mtime l; off_checksum l; off_filetype l; off_link_name l;
  off_signature l; off_version l; off_owner l; off_group l; off_device_major l; off_device_minor l; off_prefix l].

(** The offsets of the root pointer, the header of a table and an archive's
    entry; the header in [acpi.h] lacks a member and is four bytes short. *)
Theorem packed_layouts :
  map snd (packed_offsets 0 RsdpDescriptor_fields).1 = rsdp_offsets RsdpDescriptor ∧
  packed_size RsdpDescriptor_fields = RSDP_V2_DESC_SIZE ∧
  packed_offset RsdpDescriptor_fields "length" = RSDP_V1_DESC_SIZE ∧
  map snd (packed_offsets 0 SdtHeader_fields).1 = sdt_offsets SdtHeader ∧
  packed_size SdtHeader_fields = sizeof_SdtHeader SdtHeader ∧
  packed_size struct_SdtHeader_fields = sizeof_SdtHeader SdtHeader - 4 ∧
  packed_offset Rsdt_fields "next" = sizeof_SdtHeader SdtHeader ∧
  packed_offset Xsdt_fields "next" = sizeof_SdtHeader SdtHeader ∧
  packed_size Madt_fields = MADT_RECORDS_OFFSET ∧
  map snd (packed_offsets 0 ustar_entry_fields).1 = ustar_offsets ustar_entry_t ∧
  packed_size ustar_entry_fields ≤ BLOCK_SIZE.
Proof. vm_compute. repeat split; discriminate. Qed.

(** The records of the table of APICs. *)
Theorem madt_readers (m : mem) (a : Z) :
  io_apic_addr m a = packed_member IoApicRecord_fields m a "io_apic_addr" ∧
  io_apic_gsib m a = packed_member IoApicRecord_fields m a "gsib" ∧
  iso_gsi m a = packed_member IntSourceOverrideRecord_fields m a "gsi" ∧
  iso_flags m a = packed_member IntSourceOverrideRecord_fields m a "flags" ∧
  nmi_source_flags m a = packed_member NmiSourceRecord_fields m a "flags" ∧
  nmi_source_gsi m a = packed_member NmiSourceRecord_fields m a "gsi" ∧
  nmi_flags m a = packed_member NmiRecord_fields m a "flags" ∧
  override_lapic_addr m a = packed_member LApicAddrOverrideRecord_fields m a "local_apic_addr".
Proof. reads. Qed.

Definition kind_fields (t : record_type) : packed :=
  match t with
  | PROCESSOR_LOCAL_APIC => ProcessorLocalApic_fields
  | IO_APIC => IoApicRecord_fields
  | INTERRUPT_SOURCE_OVERRIDE => IntSourceOverrideRecord_fields
  | NON_MASKABLE_INTERRUPT_SOURCE => NmiSourceRecord_fields
  | LOCAL_NON_MASKABLE_INTERRUPT => NmiRecord_fields
  | LOCAL_APIC_ADDRESS_OVERRIDE => LApicAddrOverrideRecord_fields
  | PROCESSOR_LOCAL_X2_APIC => LocalX2ApicRecord_fields
  end.

(** The records that are copied are copied whole. *)
Theorem madt_record_sizes t : t ∈ array_kinds → Z.of_nat (record_size t) = packed_size (kind_fields t).
Proof. destruct t; intros Ht%(bool_decide_pack _); first [reflexivity | destruct Ht]. Qed.

(** The headers of a program. *)
Theorem elf_readers (m : mem) (a : Z) :
  (entry_pt (read_elf_hdr m a) = packed_member elf_hdr_fields m a "entry_pt" ∧
   phdr_offset (read_elf_hdr m a) = packed_member elf_hdr_fields m a "phdr_offset" ∧
   shdr_offset (read_elf_hdr m a) = packed_member elf_hdr_fields m a "shdr_offset" ∧
   hdr_size (read_elf_hdr m a) = packed_member elf_hdr_fields m a "hdr_size" ∧
   phdr_num_entries (read_elf_hdr m a) = packed_member elf_hdr_fields m a "phdr_num_entries" ∧
   shdr_num_entries (read_elf_hdr m a) = packed_member elf_hdr_fields m a "shdr_num_entries" ∧
   shdr_index (read_elf_hdr m a) = packed_member elf_hdr_fields m a "shdr_index") ∧
  (ph_type (read_elf_phdr m a) = packed_member elf_phdr_fields m a "type" ∧
   ph_flags (read_elf_phdr m a) = packed_member elf_phdr_fields m a "flags" ∧
   ph_offset (read_elf_phdr m a) = packed_member elf_phdr_fields m a "offset" ∧
   ph_vaddr (read_elf_phdr m a) = packed_member elf_phdr_fields m a "vaddr" ∧
   ph_file_size (read_elf_phdr m a) = packed_member elf_phdr_fields m a "file_size" ∧
   ph_mem_size (read_elf_phdr m a) = packed_member elf_phdr_fields m a "mem_size") ∧
  (sh_name_offset (read_elf_shdr m a) = packed_member elf_shdr_fields m a "name_offset" ∧
   sh_type (read_elf_shdr m a) = packed_member elf_shdr_fields m a "type" ∧
   sh_offset (read_elf_shdr m a) = packed_member elf_shdr_fields m a "offset" ∧
   sh_size (read_elf_shdr m a) = packed_member elf_shdr_fields m a "size").
Proof. reads. Qed.
