(* ===== verification/Program.v ===== *)
(** * From the RAM disk to a process

    The part of [_start] ([src/src/kernel/kernel.c]) that finds the RAM disk
    among the boot loader's modules, copies a program out of it to the heap and
    loads it.  The archive, the heap and the frames of the process are in one
    physical memory: pointers to the first two lead to the higher half, and
    [parse_elf] is given the copy's place in physical memory. *)
From stdpp Require Import base list gmap.
From S2P Require Import Prelude Memory Stivale Pmm FrameAlloc PageTable Vmm Kheap Ustar Syscall Proc Elf.
Open Scope Z_scope.

(** ** Operation *)

(** The heap as it is in physical memory now, and back. *)
Definition see (s : vmm pmm) (h : heap) : heap := set_heap_mem h (higher_half (pmm_mem (world s))).
Definition write_heap (s : vmm pmm) (h : heap) : vmm pmm :=
  set_world s (set_pmm_mem (world s) (lower_half (heap_mem h))).

(** Where a pointer to the higher half leads. *)
Definition physical (v : Z) : Z := v - KERNEL_DATA.

(** [fuel] bounds the headers visited and the strings read.  Without a RAM disk
    the pointer to the program is not initialised, and without the program it
    is null. *)
Definition load_program (fuel : nat) (s : vmm pmm) (h : heap) (mods initrd_name program_name : Z) (pcb : pcb_t) :
    outcome (Z * pcb_t * heap * vmm pmm) :=
  let h := see s h in
  initrd ← ustar_from_module fuel (heap_mem h) mods initrd_name;
  _ ← check (negb (initrd =? NULL));
  '(fetch, h) ← ustar_read fuel h initrd program_name;
  _ ← check (negb (fetch =? NULL));
  '(r, pcb, s) ← parse_elf h (write_heap s h) (physical fetch) pcb;
  Done (r, pcb, h, s).

(** ** The RAM disk *)

(** The boot loader's modules, of which the first called like the string at
    [initrd_name] begins at [ptr]. *)
Record modules_at (m : mem) (mods initrd_name ptr : Z) (strings : list (list Z)) : Prop := {
  ma_count : ld64 m (mods + 16) = Z.of_nat (length strings);
  ma_strings : ∀ i s, strings !! i = Some s →
    cstring m (mods + 24 + 144 * Z.of_nat i + 16) s ∧ (length s < 128)%nat;
  ma_found : ∃ name i, cstring m initrd_name name ∧ (length name < 128)%nat ∧
    list_find (λ s, s = name) strings = Some (i, name) ∧ ld64 m (mods + 24 + 144 * Z.of_nat i) = ptr;
}.

(** The archive at [ustar]: empty entries, and then the program. *)
Record archive_at (m : mem) (ustar program_name : Z) (names : list (list Z)) (name : list Z) (len : Z) : Prop := {
  ar_empty : empty_entries m ustar names;
  ar_entry : entry_at m (ustar + 512 * Z.of_nat (length names)) name len;
  ar_name : cstring m program_name name;
  ar_new : name ∉ names;
  ar_short : Forall (λ n, length n < 512)%nat (name :: names);
}.

(** Where the program begins. *)
Definition program_at (ustar : Z) (names : list (list Z)) : Z := ustar + 512 * Z.of_nat (length names) + 512.

Lemma modules_at_copied m m' d mods initrd_name ptr strings :
  copied m mods m' (mods + d) (24 + 144 * Z.of_nat (length strings)) →
  copied m initrd_name m' (initrd_name + d) 128 →
  modules_at m mods initrd_name ptr strings → modules_at m' (mods + d) (initrd_name + d) ptr strings.
Proof.
  intros Hm Hn [Hc Hs (name & i & Hname & Hlen & Hfind & Hptr)].
  assert (Hsub : ∀ o n, 0 ≤ o → o + n ≤ 24 + 144 * Z.of_nat (length strings) →
    copied m (mods + o) m' (mods + d + o) n) by (intros; by eapply copied_sub).
  split.
  - rewrite <-Hc. apply ld_copied, Hsub; lia.
  - intros j s Hj. destruct (Hs j s Hj) as [Hs1 Hs2]. split; [|done].
    pose proof (lookup_lt_Some _ _ _ Hj). eapply cstring_copied; [|exact Hs1].
    rewrite <-!Z.add_assoc, (Z.add_assoc mods d). apply Hsub; lia.
  - exists name, i. split_and!; [|done|done|].
    + eapply cstring_copied; [|exact Hname]. intros k Hk. apply Hn. lia.
    + rewrite <-Hptr. apply list_find_Some in Hfind as (Hi & _ & _). pose proof (lookup_lt_Some _ _ _ Hi).
      apply ld_copied. rewrite <-!Z.add_assoc, (Z.add_assoc mods d). apply Hsub; lia.
Qed.

Lemma archive_at_copied m m' d ustar program_name names name len :
  copied m ustar m' (ustar + d) (512 * Z.of_nat (length names) + 512) →
  copied m program_name m' (program_name + d) 512 →
  archive_at m ustar program_name names name len → archive_at m' (ustar + d) (program_name + d) names name len.
Proof.
  intros Hu Hn [He Hent Hname Hnew Hshort]. pose proof Hshort as [Hs Hss]%Forall_cons. split; [| | |done|done].
  - apply (empty_entries_copied m m' names ustar); [|done|done]. intros i Hi. apply Hu. lia.
  - replace (ustar + d + 512 * Z.of_nat (length names)) with (ustar + 512 * Z.of_nat (length names) + d) by lia.
    apply (entry_at_copied m (ustar + 512 * Z.of_nat (length names))); [|done|done].
    replace (ustar + 512 * Z.of_nat (length names) + d) with (ustar + d + 512 * Z.of_nat (length names)) by lia.
    eapply copied_sub; [exact Hu|lia|lia].
  - eapply cstring_copied; [|exact Hname]. intros i Hi. apply Hn. lia.
Qed.

(** Physical memory is a copy of itself in the higher half. *)
Lemma higher_half_copied m a n : copied m a (higher_half m) (a + KERNEL_DATA) n.
Proof. intros i Hi. replace (a + KERNEL_DATA + i) with (a + i + KERNEL_DATA) by lia. apply ld8_higher_half. Qed.

Lemma modules_found fuel m mods initrd_name ptr strings :
  modules_at m mods initrd_name ptr strings → (128 ≤ fuel)%nat →
  ustar_from_module fuel m mods initrd_name = Done ptr.
Proof.
  intros [Hc Hs (name & i & Hname & _ & Hfind & Hptr)] Hf.
  rewrite (ustar_from_module_spec fuel m mods initrd_name name strings); [by rewrite Hfind, Hptr|done| |done].
  intros j s Hj. destruct (Hs j s Hj). split; [done|lia].
Qed.

(** ** The heap in physical memory *)

(** The heap the kernel asks for, before the first allocation: 32 frames from
    frame [b] on that belong to it, are no tables of the kernel's and are seen
    in the higher half. *)
Record heap_backed (s : vmm pmm) (h : heap) (b : Z) : Prop := {
  hb_start : HEAP_START h = b * 4096 + KERNEL_DATA;
  hb_size : HEAP_SIZE h = 0x20000;
  hb_range : 0 < b ∧ b + 32 < 2 ^ 20;
  hb_frames : ∀ i, b ≤ i < b + 32 →
    pmm_client (world s) (i * 4096) ∧ ¬ is_table (world s) (KERNEL_PAGE_TABLE_ROOT s) (i * 4096);
  hb_seen : KernelVAddrToPAddr s (HEAP_START h) = b * 4096;
  hb_header : ld32 (pmm_mem (world s)) (b * 4096) = 0x20000 - 8;
}.

Definition in_heap (b a : Z) : Prop := b * 4096 ≤ a < (b + 32) * 4096.

(** ** Memory from one step to the next *)

(** The tables at [root] and the frames handed out stay as they are, but for
    what lies at the addresses [P]; frames may be handed out. *)
Record extended (P : Z → Prop) (root : Z) (w w' : pmm) : Prop := {
  ex_table : pt_ok w' root;
  ex_pages : same_pages root w w';
  ex_tables : ∀ f, is_table w' root f → is_table w root f;
  ex_clients : ∀ g, pmm_client w g → pmm_client w' g;
  ex_kept : ∀ g a, pmm_client w g → g ≤ a < g + 4096 → ¬ P a → ld8 (pmm_mem w') a = ld8 (pmm_mem w) a;
}.

Lemma extended_new P root w w' :
  pt_ok w root → pmm_ok w' → (∀ g, pmm_client w g → pmm_client w' g) → keeps_clients w w' → extended P root w w'.
Proof.
  intros Hpt Hok Hcl Hk. destruct (tables_kept root w w' Hpt) as (H1 & H2 & H3); [exact Hok|exact Hcl| |].
  - intros g a Hg. apply (Hk g). by eapply is_table_client.
  - split; [done..|]. intros g a Hg Ha _. by apply (Hk g).
Qed.

Lemma extended_mono (P Q : Z → Prop) root w w' : (∀ a, P a → Q a) → extended P root w w' → extended Q root w w'.
Proof. intros HPQ [? ? ? ? Hk]. split; [done..|]. intros g a Hg Ha Hno. apply (Hk g); auto. Qed.

Lemma extended_trans P root w1 w2 w3 : extended P root w1 w2 → extended P root w2 w3 → extended P root w1 w3.
Proof.
  intros [_ Hp1 Ht1 Hc1 Hk1] [Hpt Hp2 Ht2 Hc2 Hk2]. split; [done| |by auto|by auto|].
  - intros n Hn. etrans; [exact (Hp2 n Hn)|exact (Hp1 n Hn)].
  - intros g a Hg Ha Hno. etrans; [apply (Hk2 g)|apply (Hk1 g)]; auto.
Qed.

(** A heap in frames handed out since can be left out. *)
Lemma extended_apart P b root w w' :
  extended (λ a, P a ∨ in_heap b a) root w w' → (∀ i, b ≤ i < b + 32 → ¬ pmm_client w (i * 4096)) →
  extended P root w w'.
Proof.
  intros [? ? ? ? Hk] Hnew. split; [done..|]. intros g a Hg Ha Hno. apply (Hk g); [done|done|].
  intros [|Hin]; [done|]. unfold in_heap in Hin. apply (Hnew (a / 4096)); [dlia|].
  destruct Hg as (j & -> & Hj). unfold FRAME_SIZE in *. replace (a / 4096) with j by dlia. by exists j.
Qed.

(** Addresses in frames handed out that are no tables, and writing there. *)
Definition writable (w : pmm) (root : Z) (P : Z → Prop) : Prop :=
  ∀ a, P a → ∃ g, pmm_client w g ∧ ¬ is_table w root g ∧ g ≤ a < g + 4096.

Lemma writable_extended P Q w w' root : writable w root P → extended Q root w w' → writable w' root P.
Proof.
  intros Hw Hex a Ha. destruct (Hw a Ha) as (g & H1 & H2 & H3). exists g. split_and!; [by apply Hex| |lia..].
  intros Hist. by apply H2, (ex_tables _ _ _ _ Hex).
Qed.

Lemma writable_written w root m (P : Z → Prop) :
  pt_ok w root → writable w root P → (∀ a, ¬ P a → ld8 m a = ld8 (pmm_mem w) a) →
  let w' := set_pmm_mem w m in
  extended P root w w' ∧ (∀ g, pmm_client w' g ↔ pmm_client w g) ∧ (∀ k, fa_avail w k → fa_avail w' k).
Proof.
  intros Hpt Hfr Hm w'. pose proof (pt_world w root Hpt) as Hok. change (pmm_ok w) in Hok.
  assert (Hbk : bitmap_kept w m).
  { intros a Ha. apply Hm. intros Hr. destruct (Hfr a Hr) as (g & (j & -> & _ & _ & Hnb) & _ & Hin).
    apply Hnb. unfold in_bitmap, FRAME_SIZE in *. lia. }
  assert (Hcl : ∀ g, pmm_client w' g ↔ pmm_client w g) by (intros g; by apply client_kept).
  destruct (tables_kept root w w' Hpt) as (Hpt' & Hpg & Htab).
  - by apply pmm_ok_kept.
  - intros g Hg. by apply Hcl.
  - intros g a Hg Ha. apply Hm. intros Hr. destruct (Hfr a Hr) as (f & (i & -> & _) & Hn & Hin).
    destruct (is_table_client w root g Hpt Hg) as (j & -> & _). unfold FRAME_SIZE in *. apply Hn.
    by replace i with j by lia.
  - split_and!; [|done|].
    + split; [done..|by intros g Hg; apply Hcl|]. intros g a _ _. apply Hm.
    + intros k Hk. change (Z.of_nat k + 1 ≤ count_free w'). unfold w'. by rewrite count_free_kept.
Qed.

(** The first file copied to the heap: physical memory changes in the heap
    alone, and the copy is five bytes into it. *)
Lemma first_copy fuel s h b ustar program_name names name len :
  heap_backed s h b → let m := pmm_mem (world s) in
  archive_at m ustar program_name names name len → (length names + 512 ≤ fuel)%nat →
  let file := program_at ustar names in
  file + len ≤ b * 4096 ∨ (b + 32) * 4096 ≤ file → 0 ≤ len < 0x20000 - 8 →
  ∃ h', ustar_read fuel (see s h) (ustar + KERNEL_DATA) (program_name + KERNEL_DATA) =
      Done (HEAP_START h + 5, h') ∧ HEAP_START h' = HEAP_START h ∧ HEAP_SIZE h' = HEAP_SIZE h ∧
    same_outside (b * 4096) ((b + 32) * 4096) m (lower_half (heap_mem h')) ∧
    copied m file (lower_half (heap_mem h')) (b * 4096 + 5) len.
Proof.
  intros [Hst Hsz Hr _ _ Hhd] m Har Hfuel file Hapart Hlen.
  pose proof (archive_at_copied m (higher_half m) KERNEL_DATA ustar program_name names name len
    (higher_half_copied _ _ _) (higher_half_copied _ _ _) Har) as [He Hent Hname Hnew Hshort].
  apply Forall_cons in Hshort as [Hs Hss].
  destruct (kalloc_fresh (see s h) len) as (m1 & Hk & Hm1).
  - cbn. rewrite Hst. unfold KERNEL_DATA. lia.
  - exact Hsz.
  - cbn. rewrite Hst. rewrite <-Hhd. apply (ld_copied 4), higher_half_copied.
  - done.
  - assert (Hf : fuel = (length names + S (fuel - length names - 1))%nat) by lia. rewrite Hf.
    rewrite (ustar_read_copies (see s h) (ustar + KERNEL_DATA) names name len (program_name + KERNEL_DATA)
      (fuel - length names - 1) (HEAP_START (see s h) + 4) (set_heap_mem (see s h) m1) He Hent Hname Hnew);
      [|eapply Forall_impl; [exact Hss|]; cbn; lia|lia|exact Hk].
    eexists. split; [f_equal; f_equal; cbn; lia|]. split_and!; [done|done| |].
    + replace (b * 4096) with (HEAP_START h - KERNEL_DATA) by lia.
      replace ((b + 32) * 4096) with (HEAP_START h + 0x20000 - KERNEL_DATA) by lia. apply lower_half_outside.
      eapply same_outside_trans; [exact Hm1|]. cbn [heap_mem heap_memmove set_heap_mem see HEAP_START].
      eapply same_outside_mono; [apply memmove_outside|lia|lia].
    + intros i Hi. unfold lower_half. rewrite ld8_shift_mem. cbn [heap_mem heap_memmove set_heap_mem see HEAP_START].
      rewrite ld8_memmove. rewrite (proj2 (Z.leb_le _ _)), (proj2 (Z.ltb_lt _ _)) by lia. cbn [andb].
      rewrite Hm1 by (cbn; unfold file, program_at in Hapart; lia). cbn [heap_mem set_heap_mem see].
      rewrite <-(ld8_higher_half m). f_equal. unfold file, program_at. lia.
Qed.

(** ** Loading the program *)

(** Frames that are enough for the program at [file], in the address space of
    the kernel and the heap. *)
Definition program_cost kern (pmrs : list stivale2_pmr) (memmap : list stivale2_mmap_entry) (m : mem) (file : Z) : nat :=
  S (sum_list (map (segment_cost 0) (program_headers m file)) +
     (4 + kernel_cost kern pmrs memmap (range_cost 0 0x20000 + 0))).

Lemma segment_cost_raw raw p : segment_cost raw p = segment_cost 0 p.
Proof. unfold segment_cost, pages_of_segment. case_match; [|done]. by rewrite !length_map. Qed.

(** The pages of the process and where their contents come from, when the file
    has been copied to [raw]. *)
Definition program_pages (raw : Z) (headers : list elf_phdr_t) : list (Z * option Z) :=
  concat (map (pages_of_segment raw) headers) ++ [(DEFAULT_STACK_BASE, None)].

(** What the program at [file] in [m] becomes, with the pages [l] of its own. *)
Record program_loaded kern (pmrs : list stivale2_pmr) (memmap : list stivale2_mmap_entry) (m : mem) (b file len : Z)
    (pcb pcb' : pcb_t) (s' : vmm pmm) (l : list user_page) : Prop := {
  pl_entry : rip pcb' = entry_pt (read_elf_hdr m file);
  pl_stack : rsp pcb' = DEFAULT_STACK_BASE ∧ regs pcb' RBP = DEFAULT_STACK_BASE;
  pl_regs : ∀ r, r ≠ RBP → regs pcb' r = regs pcb r;
  pl_table : pt_ok (world s') (pagemap pcb');
  pl_pages : ∀ n, 0 ≤ n < 2 ^ 36 → pages (pmm_mem (world s')) (pagemap pcb') n =
    map_range (b * 4096) (b * 4096 + 0x20000) KERNEL_DATA KERNEL_PAGE n
      (kernel_map kern pmrs memmap n (user_map l n));
  pl_origin : map origin l = program_pages (b * 4096 + 5) (program_headers m file);
  pl_contents : ∀ p a i, p ∈ l → up_source p = Some a → 0 ≤ i < 4096 →
    b * 4096 + 5 ≤ a + i < b * 4096 + 5 + len →
    ld8 (pmm_mem (world s')) (up_frame p + i) = ld8 m (file + (a + i - (b * 4096 + 5)));
  pl_stack_zero : ∀ p i, p ∈ l → up_source p = None → 0 ≤ i < 4096 → ld8 (pmm_mem (world s')) (up_frame p + i) = 0;
  pl_frames : NoDup (map up_frame l);
  pl_own : ∀ p, p ∈ l → pmm_client (world s') (up_frame p) ∧ ¬ is_table (world s') (pagemap pcb') (up_frame p);
}.

(** What loading it into those pages leaves alone: all but the heap. *)
Record others_kept (s : vmm pmm) (b : Z) (s' : vmm pmm) (l : list user_page) : Prop := {
  ok_frames : ∀ p, p ∈ l → ¬ pmm_client (world s) (up_frame p);
  ok_root : KERNEL_PAGE_TABLE_ROOT s' = KERNEL_PAGE_TABLE_ROOT s ∧ cr3 s' = cr3 s;
  ok_extended : extended (in_heap b) (KERNEL_PAGE_TABLE_ROOT s) (world s) (world s');
}.

(** The same program in another memory. *)
Lemma program_loaded_copied kern pmrs memmap m0 m b file len pcb pcb' s' l :
  copied m0 file m file len → headers_within m0 file len →
  program_loaded kern pmrs memmap m b file len pcb pcb' s' l →
  program_loaded kern pmrs memmap m0 b file len pcb pcb' s' l.
Proof.
  intros Hc Hw. destruct (elf_copied m0 file m file len Hc Hw) as (He & _ & _ & Hp & _).
  intros [Hent Hst Hr Ht Hpg Hor Hcon Hz Hf Hown].
  split; [by rewrite Hent|done..|by rewrite Hor, Hp| |done|done|done].
  intros p a i Hin Ha Hi Hlen. rewrite (Hcon p a i Hin Ha Hi Hlen). apply Hc. lia.
Qed.

(** What the copy of [len] bytes from [file] in the heap makes of memory. *)
Record file_copied (s : vmm pmm) (h : heap) (b file len : Z) (h' : heap) : Prop := {
  fc_heap : HEAP_START h' = HEAP_START h ∧ HEAP_SIZE h' = HEAP_SIZE h;
  fc_extended : extended (in_heap b) (KERNEL_PAGE_TABLE_ROOT s) (world s) (world (write_heap s h'));
  fc_clients : ∀ g, pmm_client (world (write_heap s h')) g ↔ pmm_client (world s) g;
  fc_avail : ∀ k, fa_avail (world s) k → fa_avail (world (write_heap s h')) k;
  fc_copied : copied (pmm_mem (world s)) file (pmm_mem (world (write_heap s h'))) (b * 4096 + 5) len;
  fc_range : heap_range h' (write_heap s h') = (b * 4096, b * 4096 + 0x20000);
}.

Lemma heap_writable s h b : heap_backed s h b → writable (world s) (KERNEL_PAGE_TABLE_ROOT s) (in_heap b).
Proof.
  intros Hb a Ha. unfold in_heap in Ha. exists (a / 4096 * 4096).
  destruct (hb_frames _ _ _ Hb (a / 4096) ltac:(dlia)). split_and!; [done|done|dlia..].
Qed.

(** [_start] up to [parse_elf]. *)
Lemma load_program_copies fuel s h b mods initrd_name program_name strings ustar names name len pcb :
  let m := pmm_mem (world s) in let file := program_at ustar names in
  heap_backed s h b → pt_ok (world s) (KERNEL_PAGE_TABLE_ROOT s) →
  modules_at m mods initrd_name (ustar + KERNEL_DATA) strings → 0 ≤ ustar →
  archive_at m ustar program_name names name len → (length names + 512 ≤ fuel)%nat →
  file + len ≤ b * 4096 ∨ (b + 32) * 4096 ≤ file → 0 ≤ len < 0x20000 - 8 →
  ∃ h', load_program fuel s h (mods + KERNEL_DATA) (initrd_name + KERNEL_DATA) (program_name + KERNEL_DATA) pcb =
      ('(r, pcb, s) ← parse_elf h' (write_heap s h') (b * 4096 + 5) pcb; Done (r, pcb, h', s)) ∧
    file_copied s h b file len h'.
Proof.
  intros m file Hb Hpt Hmods Hu Har Hfuel Hapart Hlen. pose proof Hb as [Hst Hsz Hr Hfr Hseen _].
  destruct (first_copy fuel s h b ustar program_name names name len Hb Har Hfuel Hapart Hlen)
    as (h' & Hread & Hst' & Hsz' & Hout & Hcopy).
  exists h'. split.
  - unfold load_program. cbn [heap_mem see set_heap_mem].
    rewrite (modules_found fuel (higher_half (pmm_mem (world s))) _ _ (ustar + KERNEL_DATA) strings); [| |lia].
    2: { apply modules_at_copied with (m := m); [apply higher_half_copied..|done]. }
    do_bind. rewrite check_true by (apply negb_true_iff, Z.eqb_neq; unfold NULL, KERNEL_DATA; lia). do_bind.
    change (set_heap_mem h (higher_half (pmm_mem (world s)))) with (see s h). rewrite Hread. do_bind.
    rewrite check_true by (apply negb_true_iff, Z.eqb_neq; unfold NULL, KERNEL_DATA in *; lia). do_bind.
    by replace (physical (HEAP_START h + 5)) with (b * 4096 + 5) by (unfold physical; lia).
  - destruct (writable_written (world s) (KERNEL_PAGE_TABLE_ROOT s) (lower_half (heap_mem h')) (in_heap b) Hpt)
      as (Hex & Hcl & Hav); [by eapply heap_writable|exact Hout|].
    change (set_pmm_mem (world s) (lower_half (heap_mem h'))) with (world (write_heap s h')) in Hex, Hcl, Hav.
    split; [done|exact Hex|exact Hcl|exact Hav|exact Hcopy|].
    unfold heap_range. rewrite Hst'. unfold num_heap_pages. rewrite Hsz', Hsz.
    assert (KernelVAddrToPAddr (write_heap s h') (HEAP_START h) = b * 4096) as ->.
    { rewrite <-Hseen. unfold KernelVAddrToPAddr.
      change (KERNEL_PAGE_TABLE_ROOT (write_heap s h')) with (KERNEL_PAGE_TABLE_ROOT s).
      by rewrite !VAddrToPAddr_pages, (ex_pages _ _ _ _ Hex (page_no (HEAP_START h))) by apply page_no_range. }
    change (Z.shiftl _ _) with 0x20000. by rewrite u64_small by lia.
Qed.

(** The copy is ready for [parse_elf]. *)
Lemma file_copied_ready s h b file len h' :
  let m := pmm_mem (world s) in let s1 := write_heap s h' in let raw := b * 4096 + 5 in
  heap_backed s h b → file_copied s h b file len h' → len < 0x20000 - 8 → headers_within m file len →
  Forall (pmr_ok (BASE_ADDR s)) (PMRs s) → Forall entry_ok (MMAP s) →
  fa_avail (world s) (program_cost (BASE_ADDR s) (PMRs s) (MMAP s) m file) →
  kernel_ready h' s1 ∧ headers_owned (world s1) raw ∧ fa_avail (world s1) (elf_cost h' s1 raw).
Proof.
  intros m s1 raw Hb [_ Hex Hcl Hav1 Hcopy Hrange] Hlen Hwithin Hpm Hen Hav. fold s1 in Hex, Hcl, Hav1, Hcopy, Hrange.
  pose proof (hb_range _ _ _ Hb) as Hr. pose proof Hwithin as [Hl64 Hph]. unfold sizeof_elf_hdr in Hl64.
  destruct (elf_copied m file (pmm_mem (world s1)) raw len Hcopy Hwithin) as (_ & Hoff & Hnum & Hhdrs & _).
  assert (Hown : ∀ a, in_heap b a → owned (world s1) a).
  { intros a Ha. destruct (heap_writable _ _ _ Hb a Ha) as (g & Hg & _ & Hga). exists g. split; [by apply Hcl|lia]. }
  unfold in_heap in Hown. split_and!.
  - split; [apply Hex|exact Hpm|exact Hen|]. rewrite Hrange. unfold range_ok. cbn [fst snd]. lia.
  - split; [intros a Ha; apply Hown; unfold sizeof_elf_hdr, raw in Ha; lia|].
    change (fa_mem (world s1)) with (pmm_mem (world s1)). rewrite Hoff, Hnum.
    pose proof (ld_range 8 m (file + 32)) as Hpo.
    change (ld64 m (file + 32)) with (phdr_offset (read_elf_hdr m file)) in Hpo.
    intros a Ha. apply Hown. unfold raw in Ha. lia.
  - apply Hav1. unfold elf_cost. change (fa_mem (world s1)) with (pmm_mem (world s1)).
    rewrite Hhdrs, Hrange. cbn [fst snd].
    change (BASE_ADDR s1) with (BASE_ADDR s). change (PMRs s1) with (PMRs s). change (MMAP s1) with (MMAP s).
    rewrite (map_ext (segment_cost raw) (segment_cost 0)) by apply segment_cost_raw.
    assert (range_cost (b * 4096) (b * 4096 + 0x20000) = range_cost 0 0x20000) as ->; [|exact Hav].
    unfold range_cost, range_pages.
    by replace (b * 4096 + 0x20000 - b * 4096 + 4095) with (0x20000 - 0 + 4095) by lia.
Qed.

Lemma load_program_loads fuel s h b mods initrd_name program_name strings ustar names name len pcb :
  let m := pmm_mem (world s) in let file := program_at ustar names in
  heap_backed s h b → pt_ok (world s) (KERNEL_PAGE_TABLE_ROOT s) →
  Forall (pmr_ok (BASE_ADDR s)) (PMRs s) → Forall entry_ok (MMAP s) →
  modules_at m mods initrd_name (ustar + KERNEL_DATA) strings → 0 ≤ ustar →
  archive_at m ustar program_name names name len → (length names + 512 ≤ fuel)%nat →
  file + len ≤ b * 4096 ∨ (b + 32) * 4096 ≤ file → len < 0x20000 - 8 →
  headers_within m file len → has_magic m file →
  fa_avail (world s) (program_cost (BASE_ADDR s) (PMRs s) (MMAP s) m file) →
  ∃ pcb' h' s' l, load_program fuel s h (mods + KERNEL_DATA) (initrd_name + KERNEL_DATA)
      (program_name + KERNEL_DATA) pcb = Done (0, pcb', h', s') ∧
    HEAP_START h' = HEAP_START h ∧ HEAP_SIZE h' = HEAP_SIZE h ∧
    program_loaded (BASE_ADDR s) (PMRs s) (MMAP s) m b file len pcb pcb' s' l ∧ others_kept s b s' l.
Proof.
  intros m file Hb Hpt Hpm Hen Hmods Hu Har Hfuel Hapart Hlen Hwithin Hmagic Hav.
  pose proof Hwithin as [Hl64 _]. unfold sizeof_elf_hdr in Hl64.
  destruct (load_program_copies fuel s h b mods initrd_name program_name strings ustar names name len pcb
    Hb Hpt Hmods Hu Har Hfuel Hapart ltac:(lia)) as (h' & Hrun0 & Hfc). rewrite Hrun0.
  destruct (file_copied_ready s h b file len h' Hb Hfc Hlen Hwithin Hpm Hen Hav) as (Hready & Hown & Hav1).
  destruct Hfc as [[Hst' Hsz'] Hex Hcl _ Hcopy Hrange]. set (s1 := write_heap s h') in *. set (raw := b * 4096 + 5) in *.
  destruct (elf_copied m file (pmm_mem (world s1)) raw len Hcopy Hwithin) as (Hent & _ & _ & Hhdrs & Hmag).
  destruct (parse_elf_loads h' s1 raw pcb) as (pcb' & s' & l & Hrun & Hrip & Hrsp & Hrbp & Hregs & Hor & HL & Hkroot & Hkcr3 & Hpages);
    [exact Hready|exact Hown|by apply Hmag|exact Hav1|].
  rewrite Hrun. do_bind. exists pcb', h', s', l. split_and!; [done|done|done| |];
  destruct HL as [Hpt' Hkeep HmemL Htab Hframes Hdist Hfill].
  - split; [by rewrite Hrip|done|exact Hregs|exact Hpt'| | | | |done|].
    + intros n Hn. etrans; [exact (Hpages n Hn)|]. unfold heap_map. by rewrite Hrange.
    + rewrite Hor. unfold pages_of_program, program_pages.
      change (fa_mem (world s1)) with (pmm_mem (world s1)). by rewrite Hhdrs.
    + intros p a i Hp Ha Hi Har'. pose proof (Hfill p Hp i Hi) as Hf. rewrite Ha in Hf.
      destruct (heap_writable _ _ _ Hb (a + i)) as (g & Hg & _ & Hga); [unfold in_heap, raw in *; lia|].
      change (fa_mem (world s')) with (pmm_mem (world s')) in Hf. rewrite Hf by (exists g; split; [by apply Hcl|lia]).
      change (fa_mem (world s1)) with (pmm_mem (world s1)).
      replace (a + i) with (raw + (a + i - raw)) at 1 by lia. apply Hcopy. lia.
    + intros p i Hp Ha Hi. pose proof (Hfill p Hp i Hi) as Hf. by rewrite Ha in Hf.
    + intros p Hp. by destruct (Hframes p Hp) as (? & _ & ?).
  - split; [|done|].
    + intros p Hp Hc. destruct (Hframes p Hp) as (_ & Hn & _). by apply Hn, Hcl.
    + eapply extended_trans; [exact Hex|]. apply extended_new; [apply Hex|exact (pt_world _ _ Hpt')|exact Hkeep|exact HmemL].
Qed.

(** Without a RAM disk [parse_elf] is given whatever [fetch] held. *)
Lemma load_program_no_disk fuel s h mods initrd_name program_name pcb name strings :
  let m := higher_half (pmm_mem (world s)) in
  cstring m initrd_name name →
  (∀ i str, strings !! i = Some str →
    cstring m (mods + 24 + 144 * Z.of_nat i + 16) str ∧ (length str < fuel)%nat) →
  ld64 m (mods + 16) = Z.of_nat (length strings) → name ∉ strings →
  load_program fuel s h mods initrd_name program_name pcb = Undefined.
Proof.
  intros m Hname Hstr Hcount Hnot. unfold load_program. cbn [heap_mem see set_heap_mem]. fold m.
  rewrite (ustar_from_module_spec fuel m mods initrd_name name strings) by done.
  rewrite (proj2 (list_find_None _ _)); [done|].
  apply Forall_forall. intros str Hin ->. done.
Qed.

(** ** What the program can reach

    The processor lets a user program at a page whose entry has the bit of
    [USER_ACCESSIBLE]. *)
Definition user_page_at (m : mem) (root n : Z) : bool := Z.testbit (pages m root n) 2.

(** Ranges that begin at page boundaries. *)
Record ranges_aligned kern (pmrs : list stivale2_pmr) (memmap : list stivale2_mmap_entry) : Prop := {
  ra_physical : physical_base_address kern mod 4096 = 0;
  ra_virtual : virtual_base_address kern mod 4096 = 0;
  ra_pmrs : Forall (λ p, pmr_base p mod 4096 = 0) pmrs;
  ra_entries : Forall (λ e, mm_base e mod 4096 = 0) memmap;
}.

(** A step of a map that gives no page to users. *)
Definition no_user_page (f : Z → Z) : Prop := ∀ e, Z.testbit (f e) 2 = true → f e = e.

Lemma map_range_no_user base bound offset n :
  base mod 4096 = 0 → no_user_page (map_range base bound offset KERNEL_PAGE n).
Proof.
  intros Hb e. unfold map_range. cbv zeta. set (k := _ mod _). case_match; [|done].
  rewrite Z.lor_spec. change (Z.testbit KERNEL_PAGE 2) with false. rewrite orb_false_r. intros Ht. exfalso.
  assert (Hm : (base + 4096 * k) mod 2 ^ 12 = 0) by dlia.
  pose proof (Z.mod_pow2_bits_low (base + 4096 * k) 12 2 ltac:(lia)) as Hl. by rewrite Hm, Z.bits_0, Ht in Hl.
Qed.

Lemma no_user_fold {A} (f : Z → A → Z) (l : list A) :
  (∀ x, x ∈ l → no_user_page (λ e, f e x)) → no_user_page (λ e, fold_left f l e).
Proof.
  induction l as [|x l IH]; intros Hf e; [done|]. cbn [fold_left]. intros Ht.
  assert (Heq : fold_left f l (f e x) = f e x) by (apply IH; [intros y Hy; apply Hf; by right|done]).
  rewrite Heq in Ht |- *. by apply (Hf x); [left|].
Qed.

Lemma no_user_comp f g : no_user_page f → no_user_page g → no_user_page (λ e, f (g e)).
Proof. intros Hf Hg e Ht. rewrite (Hf _ Ht) in Ht |- *. by apply Hg. Qed.

Lemma entry_map_no_user n ent : mm_base ent mod 4096 = 0 → no_user_page (λ e, entry_map n e ent).
Proof.
  intros Ha. pose proof (λ o, map_range_no_user (mm_base ent) (mm_bound ent) o n Ha) as Hr.
  intros e. unfold entry_map. cbv zeta. repeat case_match; intros Ht; unfold no_user_page in Hr;
    repeat match goal with
    | Ht : Z.testbit (map_range _ _ ?o _ _ ?x) 2 = true |- _ => rewrite (Hr o x Ht) in Ht |- *
    end; done.
Qed.

Lemma kernel_map_no_user kern pmrs memmap n :
  ranges_aligned kern pmrs memmap → no_user_page (kernel_map kern pmrs memmap n).
Proof.
  intros [Hp Hv Hpm He] e. unfold kernel_map. revert e.
  apply (no_user_comp (λ e, fold_left (entry_map n) memmap e)).
  - apply no_user_fold. intros x Hx. apply entry_map_no_user. rewrite Forall_forall in He. by apply He.
  - apply (no_user_comp (λ e, fold_left (pmr_map kern n) pmrs e)); [|by apply map_range_no_user].
    apply no_user_fold. intros x Hx e. rewrite Forall_forall in Hpm. specialize (Hpm x Hx). apply map_range_no_user.
    unfold pmr_phys, u64. dlia.
Qed.

Lemma user_map_own l n :
  user_map l n = 0 ∨ ∃ p, p ∈ l ∧ n = page_no (up_vaddr p) ∧ user_map l n = Z.lor (up_frame p) USER_PROC_PAGE.
Proof.
  induction l as [|p l IH] using rev_ind; [by left|]. rewrite user_map_snoc.
  destruct (Z.eqb_spec n (page_no (up_vaddr p))) as [Hn|].
  - right. exists p. split; [apply elem_of_app; right; by apply elem_of_cons; left|done].
  - destruct IH as [|(q & Hq & ?)]; [by left|]. right. exists q. split; [apply elem_of_app; by left|done].
Qed.

(** Every page open to the program is one of its own. *)
Lemma program_pages_own kern pmrs memmap m b file len pcb pcb' s' l n :
  program_loaded kern pmrs memmap m b file len pcb pcb' s' l → ranges_aligned kern pmrs memmap → 0 ≤ n < 2 ^ 36 →
  user_page_at (pmm_mem (world s')) (pagemap pcb') n = true →
  ∃ p, p ∈ l ∧ n = page_no (up_vaddr p) ∧
    pages (pmm_mem (world s')) (pagemap pcb') n = Z.lor (up_frame p) USER_PROC_PAGE.
Proof.
  intros Hpl Hal Hn. unfold user_page_at. rewrite (pl_pages _ _ _ _ _ _ _ _ _ _ _ Hpl n Hn). intros Ht.
  rewrite (map_range_no_user (b * 4096) _ _ n ltac:(dlia) _ Ht) in Ht |- *.
  rewrite (kernel_map_no_user kern pmrs memmap n Hal _ Ht) in Ht |- *.
  destruct (user_map_own l n) as [H0|Hp]; [by rewrite H0, Z.bits_0 in Ht|exact Hp].
Qed.
