(* ===== verification/Font.v ===== *)
(** * Fonts

    [src/src/kernel/graphics/font.c]: the bitmap of the GNU font, a row of
    sixteen bytes for each ASCII code, and the constructors of fonts.  The
    lowest bit of a byte is the leftmost column. *)
From stdpp Require Import base list.
From S2P Require Import Prelude.

(** ** Data *)

(** [RGB], [Coordinate] and [Dimensions] of [graphics_types.h]. *)
Record RGB := Rgb { red : Z; green : Z; blue : Z }.
Record Coordinate := Coord { cx : Z; cy : Z }.
Record Dimensions := Dims { width : Z; height : Z }.

Record Font := FontOf { matrix : list (list Z); font_rgb : RGB; font_height : Z; font_width : Z }.

(** The initialisers give fifteen bytes of each row; the last one is 0. *)
Definition GnuFontRows : list (list Z) := [
  [0x00; 0x00; 0x00; 0x00; 0x00; 0x00; 0x00; 0x00; 0x00; 0x00; 0x00; 0x00; 0x00; 0x00; 0x00];
  [0x00; 0x00; 0x00; 0x00; 0x00; 0x00; 0x00; 0x00; 0x00; 0x00; 0x00; 0x00; 0x00; 0x00; 0x00];
  [0x00; 0x00; 0x00; 0x00; 0x00; 0x00; 0x00; 0x00; 0x00; 0x00; 0x00; 0x00; 0x00; 0x00; 0x00];
  [0x00; 0x00; 0x00; 0x00; 0x00; 0x00; 0x00; 0x00; 0x00; 0x00; 0x00; 0x00; 0x00; 0x00; 0x00];
  [0x00; 0x00; 0x00; 0x00; 0x00; 0x00; 0x00; 0x00; 0x00; 0x00; 0x00; 0x00; 0x00; 0x00; 0x00];
  [0x00; 0x00; 0x00; 0x00; 0x00; 0x00; 0x00; 0x00; 0x00; 0x00; 0x00; 0x00; 0x00; 0x00; 0x00];
  [0x00; 0x00; 0x00; 0x00; 0x00; 0x00; 0x00; 0x00; 0x00; 0x00; 0x00; 0x00; 0x00; 0x00; 0x00];
  [0x00; 0x00; 0x00; 0x00; 0x00; 0x00; 0x00; 0x00; 0x00; 0x00; 0x00; 0x00; 0x00; 0x00; 0x00];
  [0x00; 0x00; 0x00; 0x00; 0x00; 0x00; 0x00; 0x00; 0x00; 0x00; 0x00; 0x00; 0x00; 0x00; 0x00];
  [0x00; 0x00; 0x00; 0x00; 0x00; 0x00; 0x00; 0x00; 0x00; 0x00; 0x00; 0x00; 0x00; 0x00; 0x00];
  [0x00; 0x00; 0x00; 0x00; 0x00; 0x00; 0x00; 0x00; 0x00; 0x00; 0x00; 0x00; 0x00; 0x00; 0x00];
  [0x00; 0x00; 0x00; 0x00; 0x00; 0x00; 0x00; 0x00; 0x00; 0x00; 0x00; 0x00; 0x00; 0x00; 0x00];
  [0x00; 0x00; 0x00; 0x00; 0x00; 0x00; 0x00; 0x00; 0x00; 0x00; 0x00; 0x00; 0x00; 0x00; 0x00];
  [0x00; 0x00; 0x00; 0x00; 0x00; 0x00; 0x00; 0x00; 0x00; 0x00; 0x00; 0x00; 0x00; 0x00; 0x00];
  [0x00; 0x00; 0x00; 0x00; 0x00; 0x00; 0x00; 0x00; 0x00; 0x00; 0x00; 0x00; 0x00; 0x00; 0x00];
  [0x00; 0x00; 0x00; 0x00; 0x00; 0x00; 0x00; 0x00; 0x00; 0x00; 0x00; 0x00; 0x00; 0x00; 0x00];
  [0x00; 0x00; 0x00; 0x00; 0x00; 0x00; 0x00; 0x00; 0x00; 0x00; 0x00; 0x00; 0x00; 0x00; 0x00];
  [0x00; 0x00; 0x00; 0x00; 0x00; 0x00; 0x00; 0x00; 0x00; 0x00; 0x00; 0x00; 0x00; 0x00; 0x00];
  [0x00; 0x00; 0x00; 0x00; 0x00; 0x00; 0x00; 0x00; 0x00; 0x00; 0x00; 0x00; 0x00; 0x00; 0x00];
  [0x00; 0x00; 0x00; 0x00; 0x00; 0x00; 0x00; 0x00; 0x00; 0x00; 0x00; 0x00; 0x00; 0x00; 0x00];
  [0x00; 0x00; 0x00; 0x00; 0x00; 0x00; 0x00; 0x00; 0x00; 0x00; 0x00; 0x00; 0x00; 0x00; 0x00];
  [0x00; 0x00; 0x00; 0x00; 0x00; 0x00; 0x00; 0x00; 0x00; 0x00; 0x00; 0x00; 0x00; 0x00; 0x00];
  [0x00; 0x00; 0x00; 0x00; 0x00; 0x00; 0x00; 0x00; 0x00; 0x00; 0x00; 0x00; 0x00; 0x00; 0x00];
  [0x00; 0x00; 0x00; 0x00; 0x00; 0x00; 0x00; 0x00; 0x00; 0x00; 0x00; 0x00; 0x00; 0x00; 0x00];
  [0x00; 0x00; 0x00; 0x00; 0x00; 0x00; 0x00; 0x00; 0x00; 0x00; 0x00; 0x00; 0x00; 0x00; 0x00];
  [0x00; 0x00; 0x00; 0x00; 0x00; 0x00; 0x00; 0x00; 0x00; 0x00; 0x00; 0x00; 0x00; 0x00; 0x00];
  [0x00; 0x00; 0x00; 0x00; 0x00; 0x00; 0x00; 0x00; 0x00; 0x00; 0x00; 0x00; 0x00; 0x00; 0x00];
  [0x00; 0x00; 0x00; 0x00; 0x00; 0x00; 0x00; 0x00; 0x00; 0x00; 0x00; 0x00; 0x00; 0x00; 0x00];
  [0x00; 0x00; 0x00; 0x00; 0x00; 0x00; 0x00; 0x00; 0x00; 0x00; 0x00; 0x00; 0x00; 0x00; 0x00];
  [0x00; 0x00; 0x00; 0x00; 0x00; 0x00; 0x00; 0x00; 0x00; 0x00; 0x00; 0x00; 0x00; 0x00; 0x00];
  [0x00; 0x00; 0x00; 0x00; 0x00; 0x00; 0x00; 0x00; 0x00; 0x00; 0x00; 0x00; 0x00; 0x00; 0x00];
  [0x00; 0x00; 0x00; 0x00; 0x00; 0x00; 0x00; 0x00; 0x00; 0x00; 0x00; 0x00; 0x00; 0x00; 0x00];
  [0x00; 0x00; 0x00; 0x00; 0x00; 0x00; 0x00; 0x00; 0x00; 0x00; 0x00; 0x00; 0x00; 0x00; 0x00];
  [0x00; 0x10; 0x10; 0x10; 0x10; 0x10; 0x10; 0x10; 0x00; 0x00; 0x10; 0x10; 0x00; 0x00; 0x00];
  [0x00; 0x00; 0x48; 0x48; 0x48; 0x00; 0x00; 0x00; 0x00; 0x00; 0x00; 0x00; 0x00; 0x00; 0x00];
  [0x00; 0x00; 0x00; 0x24; 0x24; 0x7e; 0x24; 0x24; 0x7e; 0x24; 0x24; 0x00; 0x00; 0x00; 0x00];
  [0x00; 0x00; 0x10; 0x7c; 0x92; 0x12; 0x14; 0x38; 0x50; 0x90; 0x92; 0x7c; 0x10; 0x00; 0x00];
  [0x00; 0x00; 0x84; 0x4a; 0x4a; 0x24; 0x10; 0x10; 0x48; 0xa4; 0xa4; 0x42; 0x00; 0x00; 0x00];
  [0x00; 0x00; 0x0c; 0x12; 0x12; 0x12; 0x0c; 0x8c; 0x52; 0x22; 0x52; 0x8c; 0x00; 0x00; 0x00];
  [0x00; 0x00; 0x10; 0x10; 0x10; 0x00; 0x00; 0x00; 0x00; 0x00; 0x00; 0x00; 0x00; 0x00; 0x00];
  [0x00; 0x20; 0x10; 0x10; 0x08; 0x08; 0x08; 0x08; 0x08; 0x08; 0x10; 0x10; 0x20; 0x00; 0x00];
  [0x00; 0x08; 0x10; 0x10; 0x20; 0x20; 0x20; 0x20; 0x20; 0x20; 0x10; 0x10; 0x08; 0x00; 0x00];
  [0x00; 0x00; 0x10; 0x92; 0x54; 0x38; 0x54; 0x92; 0x10; 0x00; 0x00; 0x00; 0x00; 0x00; 0x00];
  [0x00; 0x00; 0x00; 0x00; 0x10; 0x10; 0x10; 0xfe; 0x10; 0x10; 0x10; 0x00; 0x00; 0x00; 0x00];
  [0x00; 0x00; 0x00; 0x00; 0x00; 0x00; 0x00; 0x00; 0x00; 0x00; 0x30; 0x30; 0x20; 0x20; 0x10];
  [0x00; 0x00; 0x00; 0x00; 0x00; 0x00; 0x00; 0xfe; 0x00; 0x00; 0x00; 0x00; 0x00; 0x00; 0x00];
  [0x00; 0x00; 0x00; 0x00; 0x00; 0x00; 0x00; 0x00; 0x00; 0x00; 0x30; 0x30; 0x00; 0x00; 0x00];
  [0x00; 0x00; 0x80; 0x40; 0x40; 0x20; 0x10; 0x10; 0x08; 0x04; 0x04; 0x02; 0x00; 0x00; 0x00];
  [0x00; 0x00; 0x38; 0x44; 0x82; 0x82; 0x82; 0x82; 0x82; 0x82; 0x44; 0x38; 0x00; 0x00; 0x00];
  [0x00; 0x00; 0x10; 0x18; 0x14; 0x12; 0x10; 0x10; 0x10; 0x10; 0x10; 0xfe; 0x00; 0x00; 0x00];
  [0x00; 0x00; 0x7c; 0x82; 0x82; 0x40; 0x20; 0x10; 0x08; 0x04; 0x02; 0xfe; 0x00; 0x00; 0x00];
  [0x00; 0x00; 0xfe; 0x80; 0x40; 0x20; 0x70; 0x80; 0x80; 0x80; 0x82; 0x7c; 0x00; 0x00; 0x00];
  [0x00; 0x00; 0x40; 0x60; 0x50; 0x48; 0x44; 0x42; 0xfe; 0x40; 0x40; 0x40; 0x00; 0x00; 0x00];
  [0x00; 0x00; 0xfe; 0x02; 0x02; 0x7a; 0x86; 0x80; 0x80; 0x80; 0x82; 0x7c; 0x00; 0x00; 0x00];
  [0x00; 0x00; 0x78; 0x04; 0x02; 0x02; 0x7a; 0x86; 0x82; 0x82; 0x82; 0x7c; 0x00; 0x00; 0x00];
  [0x00; 0x00; 0xfe; 0x80; 0x40; 0x40; 0x20; 0x20; 0x10; 0x10; 0x08; 0x08; 0x00; 0x00; 0x00];
  [0x00; 0x00; 0x38; 0x44; 0x82; 0x44; 0x38; 0x44; 0x82; 0x82; 0x44; 0x38; 0x00; 0x00; 0x00];
  [0x00; 0x00; 0x7c; 0x82; 0x82; 0x82; 0xc2; 0xbc; 0x80; 0x80; 0x40; 0x3c; 0x00; 0x00; 0x00];
  [0x00; 0x00; 0x00; 0x00; 0x00; 0x30; 0x30; 0x00; 0x00; 0x00; 0x30; 0x30; 0x00; 0x00; 0x00];
  [0x00; 0x00; 0x00; 0x00; 0x00; 0x30; 0x30; 0x00; 0x00; 0x00; 0x30; 0x30; 0x20; 0x20; 0x10];
  [0x00; 0x00; 0x40; 0x20; 0x10; 0x08; 0x04; 0x04; 0x08; 0x10; 0x20; 0x40; 0x00; 0x00; 0x00];
  [0x00; 0x00; 0x00; 0x00; 0x00; 0x00; 0xfe; 0x00; 0x00; 0xfe; 0x00; 0x00; 0x00; 0x00; 0x00];
  [0x00; 0x00; 0x04; 0x08; 0x10; 0x20; 0x40; 0x40; 0x20; 0x10; 0x08; 0x04; 0x00; 0x00; 0x00];
  [0x00; 0x00; 0x7c; 0x82; 0x82; 0x80; 0x40; 0x20; 0x10; 0x10; 0x00; 0x10; 0x00; 0x00; 0x00];
  [0x00; 0x00; 0x7c; 0x82; 0x82; 0xf2; 0x8a; 0xca; 0xb2; 0x02; 0x02; 0x7c; 0x00; 0x00; 0x00];
  [0x00; 0x00; 0x10; 0x28; 0x44; 0x82; 0x82; 0x82; 0xfe; 0x82; 0x82; 0x82; 0x00; 0x00; 0x00];
  [0x00; 0x00; 0x3e; 0x42; 0x82; 0x42; 0x3e; 0x42; 0x82; 0x82; 0x42; 0x3e; 0x00; 0x00; 0x00];
  [0x00; 0x00; 0x7c; 0x82; 0x02; 0x02; 0x02; 0x02; 0x02; 0x02; 0x82; 0x7c; 0x00; 0x00; 0x00];
  [0x00; 0x00; 0x3e; 0x42; 0x82; 0x82; 0x82; 0x82; 0x82; 0x82; 0x42; 0x3e; 0x00; 0x00; 0x00];
  [0x00; 0x00; 0xfe; 0x02; 0x02; 0x02; 0x3e; 0x02; 0x02; 0x02; 0x02; 0xfe; 0x00; 0x00; 0x00];
  [0x00; 0x00; 0xfe; 0x02; 0x02; 0x02; 0x3e; 0x02; 0x02; 0x02; 0x02; 0x02; 0x00; 0x00; 0x00];
  [0x00; 0x00; 0x7c; 0x82; 0x02; 0x02; 0x02; 0xe2; 0x82; 0x82; 0x82; 0x7c; 0x00; 0x00; 0x00];
  [0x00; 0x00; 0x82; 0x82; 0x82; 0x82; 0xfe; 0x82; 0x82; 0x82; 0x82; 0x82; 0x00; 0x00; 0x00];
  [0x00; 0x00; 0x7c; 0x10; 0x10; 0x10; 0x10; 0x10; 0x10; 0x10; 0x10; 0x7c; 0x00; 0x00; 0x00];
  [0x00; 0x00; 0xf1; 0x40; 0x40; 0x40; 0x40; 0x40; 0x40; 0x40; 0x42; 0x3c; 0x00; 0x00; 0x00];
  [0x00; 0x00; 0x82; 0x42; 0x22; 0x12; 0x0e; 0x0a; 0x12; 0x22; 0x42; 0x82; 0x00; 0x00; 0x00];
  [0x00; 0x00; 0x02; 0x02; 0x02; 0x02; 0x02; 0x02; 0x02; 0x02; 0x02; 0xfe; 0x00; 0x00; 0x00];
  [0x00; 0x00; 0x82; 0x82; 0xc6; 0xaa; 0xaa; 0x92; 0x92; 0x82; 0x82; 0x82; 0x00; 0x00; 0x00];
  [0x00; 0x00; 0x82; 0x82; 0x86; 0x8a; 0x92; 0xa2; 0xc2; 0x82; 0x82; 0x82; 0x00; 0x00; 0x00];
  [0x00; 0x00; 0x7c; 0x82; 0x82; 0x82; 0x82; 0x82; 0x82; 0x82; 0x82; 0x7c; 0x00; 0x00; 0x00];
  [0x00; 0x00; 0x7e; 0x82; 0x82; 0x82; 0x7e; 0x02; 0x02; 0x02; 0x02; 0x02; 0x00; 0x00; 0x00];
  [0x00; 0x00; 0x7c; 0x82; 0x82; 0x82; 0x82; 0x82; 0x82; 0x8a; 0x92; 0x7c; 0x20; 0xc0; 0x00];
  [0x00; 0x00; 0x7e; 0x82; 0x82; 0x82; 0x7e; 0x12; 0x22; 0x42; 0x82; 0x82; 0x00; 0x00; 0x00];
  [0x00; 0x00; 0x7c; 0x82; 0x82; 0x02; 0x1c; 0x60; 0x80; 0x82; 0x82; 0x7c; 0x00; 0x00; 0x00];
  [0x00; 0x00; 0xfe; 0x10; 0x10; 0x10; 0x10; 0x10; 0x10; 0x10; 0x10; 0x10; 0x00; 0x00; 0x00];
  [0x00; 0x00; 0x82; 0x82; 0x82; 0x82; 0x82; 0x82; 0x82; 0x82; 0x82; 0x7c; 0x00; 0x00; 0x00];
  [0x00; 0x00; 0x82; 0x82; 0x82; 0x44; 0x44; 0x44; 0x28; 0x28; 0x28; 0x10; 0x00; 0x00; 0x00];
  [0x00; 0x00; 0x82; 0x82; 0x82; 0x82; 0x92; 0x92; 0x92; 0x92; 0xaa; 0x44; 0x00; 0x00; 0x00];
  [0x00; 0x00; 0x82; 0x82; 0x44; 0x28; 0x10; 0x10; 0x28; 0x44; 0x82; 0x82; 0x00; 0x00; 0x00];
  [0x00; 0x00; 0x82; 0x82; 0x44; 0x28; 0x10; 0x10; 0x10; 0x10; 0x10; 0x10; 0x00; 0x00; 0x00];
  [0x00; 0x00; 0xfe; 0x80; 0x40; 0x20; 0x10; 0x08; 0x04; 0x02; 0x02; 0xfe; 0x00; 0x00; 0x00];
  [0x00; 0x78; 0x08; 0x08; 0x08; 0x08; 0x08; 0x08; 0x08; 0x08; 0x08; 0x08; 0x78; 0x00; 0x00];
  [0x00; 0x00; 0x02; 0x04; 0x04; 0x08; 0x10; 0x10; 0x20; 0x40; 0x40; 0x80; 0x00; 0x00; 0x00];
  [0x00; 0x3c; 0x20; 0x20; 0x20; 0x20; 0x20; 0x20; 0x20; 0x20; 0x20; 0x20; 0x3c; 0x00; 0x00];
  [0x00; 0x00; 0x10; 0x28; 0x44; 0x82; 0x00; 0x00; 0x00; 0x00; 0x00; 0x00; 0x00; 0x00; 0x00];
  [0x00; 0x00; 0x00; 0x00; 0x00; 0x00; 0x00; 0x00; 0x00; 0x00; 0x00; 0x00; 0xff; 0x00; 0x00];
  [0x00; 0x08; 0x10; 0x20; 0x00; 0x00; 0x00; 0x00; 0x00; 0x00; 0x00; 0x00; 0x00; 0x00; 0x00];
  [0x00; 0x00; 0x00; 0x00; 0x00; 0x7c; 0x80; 0x80; 0xfc; 0x82; 0xc2; 0xbc; 0x00; 0x00; 0x00];
  [0x00; 0x00; 0x02; 0x02; 0x02; 0x7a; 0x86; 0x82; 0x82; 0x82; 0x86; 0x7a; 0x00; 0x00; 0x00];
  [0x00; 0x00; 0x00; 0x00; 0x00; 0x7c; 0x82; 0x02; 0x02; 0x02; 0x82; 0x7c; 0x00; 0x00; 0x00];
  [0x00; 0x00; 0x80; 0x80; 0x80; 0xbc; 0xc2; 0x82; 0x82; 0x82; 0xc2; 0xbc; 0x00; 0x00; 0x00];
  [0x00; 0x00; 0x00; 0x00; 0x00; 0x7c; 0x82; 0x82; 0xfe; 0x02; 0x02; 0x7c; 0x00; 0x00; 0x00];
  [0x00; 0x00; 0x70; 0x88; 0x88; 0x08; 0x08; 0x3e; 0x08; 0x08; 0x08; 0x08; 0x00; 0x00; 0x00];
  [0x00; 0x00; 0x00; 0x00; 0x00; 0xbc; 0x42; 0x42; 0x42; 0x3c; 0x02; 0x7c; 0x82; 0x82; 0x7c];
  [0x00; 0x00; 0x02; 0x02; 0x02; 0x7a; 0x86; 0x82; 0x82; 0x82; 0x82; 0x82; 0x00; 0x00; 0x00];
  [0x00; 0x00; 0x18; 0x00; 0x00; 0x1c; 0x10; 0x10; 0x10; 0x10; 0x10; 0x7c; 0x00; 0x00; 0x00];
  [0x00; 0x00; 0x60; 0x00; 0x00; 0x70; 0x40; 0x40; 0x40; 0x40; 0x40; 0x42; 0x42; 0x42; 0x3c];
  [0x00; 0x00; 0x02; 0x02; 0x02; 0x82; 0x62; 0x1a; 0x06; 0x1a; 0x62; 0x82; 0x00; 0x00; 0x00];
  [0x00; 0x00; 0x1c; 0x10; 0x10; 0x10; 0x10; 0x10; 0x10; 0x10; 0x10; 0x7c; 0x00; 0x00; 0x00];
  [0x00; 0x00; 0x00; 0x00; 0x00; 0x6e; 0x92; 0x92; 0x92; 0x92; 0x92; 0x82; 0x00; 0x00; 0x00];
  [0x00; 0x00; 0x00; 0x00; 0x00; 0x7a; 0x86; 0x82; 0x82; 0x82; 0x82; 0x82; 0x00; 0x00; 0x00];
  [0x00; 0x00; 0x00; 0x00; 0x00; 0x7c; 0x82; 0x82; 0x82; 0x82; 0x82; 0x7c; 0x00; 0x00; 0x00];
  [0x00; 0x00; 0x00; 0x00; 0x00; 0x7a; 0x86; 0x82; 0x82; 0x82; 0x86; 0x7a; 0x02; 0x02; 0x02];
  [0x00; 0x00; 0x00; 0x00; 0x00; 0xbc; 0xc2; 0x82; 0x82; 0x82; 0xc2; 0xbc; 0x80; 0x80; 0x80];
  [0x00; 0x00; 0x00; 0x00; 0x00; 0x72; 0x8c; 0x84; 0x04; 0x04; 0x04; 0x04; 0x00; 0x00; 0x00];
  [0x00; 0x00; 0x00; 0x00; 0x00; 0x7c; 0x82; 0x02; 0x7c; 0x80; 0x82; 0x7c; 0x00; 0x00; 0x00];
  [0x00; 0x00; 0x00; 0x08; 0x08; 0x7e; 0x08; 0x08; 0x08; 0x08; 0x88; 0x70; 0x00; 0x00; 0x00];
  [0x00; 0x00; 0x00; 0x00; 0x00; 0x42; 0x42; 0x42; 0x42; 0x42; 0x42; 0xbc; 0x00; 0x00; 0x00];
  [0x00; 0x00; 0x00; 0x00; 0x00; 0x82; 0x82; 0x44; 0x44; 0x28; 0x28; 0x10; 0x00; 0x00; 0x00];
  [0x00; 0x00; 0x00; 0x00; 0x00; 0x82; 0x82; 0x92; 0x92; 0x92; 0xaa; 0x44; 0x00; 0x00; 0x00];
  [0x00; 0x00; 0x00; 0x00; 0x00; 0x82; 0x44; 0x28; 0x10; 0x28; 0x44; 0x82; 0x00; 0x00; 0x00];
  [0x00; 0x00; 0x00; 0x00; 0x00; 0x42; 0x42; 0x42; 0x42; 0x42; 0x62; 0x5c; 0x40; 0x42; 0x3c];
  [0x00; 0x00; 0x00; 0x00; 0x00; 0xfe; 0x40; 0x20; 0x10; 0x08; 0x04; 0xfe; 0x00; 0x00; 0x00];
  [0x00; 0xe0; 0x10; 0x10; 0x10; 0x20; 0x18; 0x18; 0x20; 0x10; 0x10; 0x10; 0xe0; 0x00; 0x00];
  [0x00; 0x10; 0x10; 0x10; 0x10; 0x10; 0x10; 0x10; 0x10; 0x10; 0x10; 0x10; 0x10; 0x00; 0x00];
  [0x00; 0x0e; 0x10; 0x10; 0x10; 0x08; 0x30; 0x30; 0x08; 0x10; 0x10; 0x10; 0x0e; 0x00; 0x00];
  [0x00; 0x00; 0x8c; 0x92; 0x62; 0x00; 0x00; 0x00; 0x00; 0x00; 0x00; 0x00; 0x00; 0x00; 0x00];
  [0x00; 0x00; 0x00; 0x00; 0x00; 0x00; 0x00; 0x00; 0x00; 0x00; 0x00; 0x00; 0x00; 0x00; 0x00]
].
Definition GnuFontBitmap : list (list Z) := map (λ r, r ++ [0]) GnuFontRows.

(** ** Operations *)

(** The dimensions are 16-bit numbers, the fields of a font bytes. *)
Definition InitFont (matrix : list (list Z)) (rgb : RGB) (dims : Dimensions) : Font :=
  FontOf matrix rgb (u8 (height dims)) (u8 (width dims)).
Definition InitGnuFont (rgb : RGB) (dims : Dimensions) : Font := InitFont GnuFontBitmap rgb dims.

(** ** Properties *)

(** Byte [j] of the row of character [c]. *)
Definition glyph_row (font : Font) (c j : Z) : option Z :=
  row ← matrix font !! Z.to_nat c; row !! Z.to_nat j.

Definition blank (row : list Z) : bool := forallb (Z.eqb 0) row.
Definition printable (c : nat) : bool := (32 <? c)%nat && (c <? 127)%nat.

(** Every pair of codes is checked. *)
Definition glyphs_ok : bool :=
  forallb (λ c, Nat.eqb (length (default [] (GnuFontBitmap !! c))) 16 &&
                Bool.eqb (blank (default [] (GnuFontBitmap !! c))) (negb (printable c)) &&
                forallb (λ d, Nat.eqb c d || negb (printable c) || negb (printable d) ||
                              negb (bool_decide (GnuFontBitmap !! c = GnuFontBitmap !! d))) (seq 0 128))
    (seq 0 128).

Lemma glyphs_checked : glyphs_ok = true.
Proof. vm_compute. reflexivity. Qed.

(** What [glyphs_ok] says of one code. *)
Lemma glyph_checked c r :
  GnuFontBitmap !! c = Some r →
  (c < 128)%nat ∧ length r = 16%nat ∧ blank r = negb (printable c) ∧
  ∀ d, (d < 128)%nat → Nat.eqb c d || negb (printable c) || negb (printable d) ||
         negb (bool_decide (GnuFontBitmap !! c = GnuFontBitmap !! d)) = true.
Proof.
  intros Hr. pose proof (lookup_lt_Some _ _ _ Hr) as Hc. change (length GnuFontBitmap) with 128%nat in Hc.
  pose proof glyphs_checked as Hall. unfold glyphs_ok in Hall. rewrite forallb_forall in Hall.
  specialize (Hall c). rewrite in_seq, Hr in Hall. specialize (Hall ltac:(lia)). cbn [default from_option] in Hall.
  apply andb_prop in Hall as [[Hlen%Nat.eqb_eq Hb%Bool.eqb_prop]%andb_prop Hd].
  split_and!; [done|done|done|]. intros d Hdl. rewrite forallb_forall in Hd. rewrite Hr.
  apply Hd. rewrite in_seq. lia.
Qed.

Lemma GnuFontBitmap_rows c r : GnuFontBitmap !! c = Some r → length r = 16%nat.
Proof. intros Hr. by apply glyph_checked in Hr as (_ & ? & _). Qed.

(** Every ASCII code has a bitmap of sixteen rows; it is blank exactly for
    the space and the control characters, and two different printable
    characters look different. *)
Theorem GnuFontBitmap_distinct c d r :
  GnuFontBitmap !! c = Some r →
  length r = 16%nat ∧ (blank r = negb (printable c)) ∧
  (printable c = true → printable d = true → GnuFontBitmap !! d = Some r → c = d).
Proof.
  intros Hr. destruct (glyph_checked c r Hr) as (Hc & Hlen & Hb & Hd). split_and!; [done|done|].
  intros Hpc Hpd Hrd. pose proof (lookup_lt_Some _ _ _ Hrd) as Hdl. change (length GnuFontBitmap) with 128%nat in Hdl.
  specialize (Hd d Hdl). rewrite Hpc, Hpd, Hr, Hrd, bool_decide_eq_true_2 in Hd by done.
  rewrite !orb_false_r in Hd. by apply Nat.eqb_eq.
Qed.

Lemma GnuFontBitmap_distinct_witness :
  length (default [] (GnuFontBitmap !! 65%nat)) = 16%nat ∧ blank (default [] (GnuFontBitmap !! 65%nat)) = false.
Proof.
  destruct (GnuFontBitmap_distinct 65 66 _ eq_refl) as (H1 & H2 & _). split; [exact H1|exact H2].
Defined.
