(* ===== verification/Graphics.v ===== *)
(** * Drawing

    [src/src/kernel/graphics/graphics_types.c] and [graphics_ctx.c]: packing of
    colours, and drawing to a back buffer of which the rows of cells that have
    changed are copied to the screen. *)
From stdpp Require Import base list gmap.
From S2P Require Import Prelude Memory Bits Bitfields Font.

(** ** State *)

(** [struct stivale2_struct_tag_framebuffer] *)
Record framebuffer := Framebuffer {
  framebuffer_addr : Z;
  framebuffer_width : Z;
  framebuffer_height : Z;
  framebuffer_pitch : Z;
  framebuffer_bpp : Z;
  memory_model : Z;
  red_mask_size : Z;
  red_mask_shift : Z;
  green_mask_size : Z;
  green_mask_shift : Z;
  blue_mask_size : Z;
  blue_mask_shift : Z;
}.

(** [GraphicsCtx], and the memory of the back buffer and of the screen. *)
Record gfx := Gfx {
  fb : framebuffer;
  dirty_block_str : Z;
  buffer : Z;
  num_rows : Z;
  row_height : Z;
  gmem : mem;
}.
Definition set_gmem (g : gfx) (m : mem) : gfx := Gfx (fb g) (dirty_block_str g) (buffer g) (num_rows g) (row_height g) m.
Definition set_dirty (g : gfx) (d : Z) : gfx := Gfx (fb g) d (buffer g) (num_rows g) (row_height g) (gmem g).

(** The pixels of [BACK_BUFFER]. *)
Definition BUFFER_PIXELS : Z := 4147200.

(** ** Colours *)

(** [ABS_RIGHT_SHIFT] of an [int] by a [uint32_t]: as an unsigned number the
    shift is never negative, but both shifts are evaluated, and a shift by 32
    or more is undefined. *)
Definition ABS_RIGHT_SHIFT (num shift : Z) : outcome Z :=
  _ ← check (shift <? 32);
  _ ← check (u32 (shift * -1) <? 32);
  Done (u32 (Z.shiftr num shift * Z.b2z (0 <=? shift) + Z.shiftl num (u32 (shift * -1)) * Z.b2z (shift <? 0))).

(** One component of a packed colour. *)
Definition pack_component (v size shift : Z) : outcome Z :=
  shifted ← ABS_RIGHT_SHIFT v (u32 (8 - size));
  _ ← check (size <? 30);
  let mask := Z.shiftl 2 size - 1 in
  _ ← check (shift <? 32);
  Done (u32 (Z.shiftl (Z.land shifted mask) shift)).

Definition PackRgb (rgb : RGB) (f : framebuffer) : outcome Z :=
  if negb (framebuffer_bpp f =? 32) then Done 0
  else
    r ← pack_component (red rgb) (red_mask_size f) (red_mask_shift f);
    b ← pack_component (blue rgb) (blue_mask_size f) (blue_mask_shift f);
    g ← pack_component (green rgb) (green_mask_size f) (green_mask_shift f);
    Done (Z.lor (Z.lor r g) b).

(** ** Pixels *)

(** An [int] that does not overflow. *)
Definition int (z : Z) : outcome Z := _ ← check ((INT_MIN <=? z) && (z <=? INT_MAX)); Done z.

Definition PixelIndex (g : gfx) (coords : Coordinate) : outcome Z :=
  p ← int (cy coords * framebuffer_width (fb g)); int (cx coords + p).

(** [*(GLOBAL_CTX.buffer + i) = v]: outside the array is undefined. *)
Definition put_pixel (g : gfx) (i v : Z) : outcome gfx :=
  _ ← check ((0 <=? i) && (i <? BUFFER_PIXELS));
  Done (set_gmem g (st32 (gmem g) (buffer g + 4 * i) v)).

(** [memmove] of [n] bytes from pixel [src] to pixel [dst] of the back
    buffer. *)
Definition move_pixels (g : gfx) (dst src n : Z) : outcome gfx :=
  _ ← check ((0 <=? dst) && (4 * dst + n <=? 4 * BUFFER_PIXELS) &&
             ((0 <=? src) && (4 * src + n <=? 4 * BUFFER_PIXELS)));
  Done (set_gmem g (memmove (gmem g) (buffer g + 4 * dst) (buffer g + 4 * src) (Z.to_nat n))).

(** [SetNthBit(&dirty_block_str, i)] *)
Definition mark_row (i : Z) (g : gfx) : outcome gfx :=
  d ← SetNthBit (dirty_block_str g) (u16 i); Done (set_dirty g d).

(** [for(i = first; i < last; ++i) SetNthBit(...)] *)
Definition mark_rows (g : gfx) (first last : Z) : outcome gfx :=
  for_range (Z.to_nat (last - first)) first mark_row g.

(** An [int] division, which truncates. *)
Definition int_div (a b : Z) : outcome Z := _ ← check (negb (b =? 0)); Done (Z.quot a b).
Definition int_rem (a b : Z) : outcome Z := _ ← check (negb (b =? 0)); Done (Z.rem a b).

(** ** Operations *)

(** [BACK] is the address of [BACK_BUFFER]. *)
Definition InitGraphicsCtx (f : framebuffer) (BACK : Z) (m : mem) : gfx :=
  Gfx f 0 BACK 64 (u8 (framebuffer_height f / 64)) m.

Definition ClearScreen (g : gfx) (rgb : RGB) : outcome gfx :=
  num_pixels ← int (framebuffer_height (fb g) * framebuffer_width (fb g));
  packed_rgb ← PackRgb rgb (fb g);
  g ← for_range (Z.to_nat num_pixels) 0 (λ i g, put_pixel g i packed_rgb) g;
  Done (set_dirty g 0xFFFFFFFFFFFFFFFF).

(** One turn of the loop of [WriteBackCell]: a row of pixels. *)
Definition copy_row (buff_index screen_index : Z) (g : gfx) : outcome gfx :=
  size ← int (framebuffer_width (fb g) * framebuffer_bpp (fb g));
  _ ← check ((0 <=? buff_index) && (4 * buff_index + size / 8 <=? 4 * BUFFER_PIXELS));
  Done (set_gmem g (memmove (gmem g) (framebuffer_addr (fb g) + screen_index) (buffer g + 4 * buff_index)
                      (Z.to_nat (size / 8)))).

Definition WriteBackCell (cell_ind : Z) (g : gfx) : outcome gfx :=
  buff_index ← int (cell_ind * row_height g * framebuffer_width (fb g));
  screen_index ← int (cell_ind * row_height g * framebuffer_pitch (fb g));
  g ← for_range (Z.to_nat (row_height g)) 0 (λ pixel_row g,
        screen ← int (screen_index + pixel_row * framebuffer_pitch (fb g));
        copy_row (buff_index + pixel_row * framebuffer_width (fb g)) screen g) g;
  d ← ClearNthBit (dirty_block_str g) cell_ind;
  Done (set_dirty g d).

Definition WriteBack (g : gfx) : outcome gfx :=
  for_range (Z.to_nat (num_rows g)) 0 (λ x g,
    dirty ← GetNthBit (dirty_block_str g) x;
    if negb (dirty =? 0) then WriteBackCell x g else Done g) g.

Definition DrawRect (g : gfx) (coords : Coordinate) (dims : Dimensions) (rgb : RGB) : outcome gfx :=
  packed_rgb ← PackRgb rgb (fb g);
  dest ← PixelIndex g coords;
  g ← for_range (Z.to_nat (width dims)) 0 (λ pixel g, put_pixel g (dest + pixel) packed_rgb) g;
  size ← int (width dims * framebuffer_bpp (fb g));
  g ← for_range (Z.to_nat (height dims - 1)) 1 (λ row g,
        move_pixels g (dest + row * framebuffer_width (fb g)) dest (size / 8)) g;
  starting_row ← int_div (cy coords) (row_height g);
  ending_row ← int_div (cy coords + height dims) (row_height g);
  r ← int_rem (cy coords) (row_height g);
  mark_rows g starting_row (ending_row + Z.b2z (r =? 0) + 1).

(** [char] is signed: a negative character is out of range. *)
Definition DrawChar (g : gfx) (font : Font) (coords : Coordinate) (c : Z) : outcome gfx :=
  _ ← check ((0 <=? c) && (c <? 128));
  packed_rgb ← PackRgb (font_rgb font) (fb g);
  g ← for_range (Z.to_nat (font_height font)) 0 (λ j g,
        row ← match glyph_row font c j with Some row => Done row | None => Undefined end;
        for_range (Z.to_nat (font_width font)) 0 (λ i g,
          b ← GetNthBit row i;
          if negb (b =? 0) then
            line ← int ((cy coords + j) * framebuffer_width (fb g));
            index ← int (cx coords + i + line);
            put_pixel g index packed_rgb
          else Done g) g) g;
  starting_row ← int_div (cy coords) (row_height g);
  ending_row ← int_div (cy coords + font_height font) (row_height g);
  r ← int_rem (cy coords + font_height font) (row_height g);
  mark_rows g starting_row (ending_row + 1 * Z.b2z (0 <? r)).

(** The characters of the string, up to its end. *)
Fixpoint PrintStr_loop (g : gfx) (font : Font) (coords : Coordinate) (x y : Z) (str : list Z) : outcome gfx :=
  match str with
  | [] => Done g
  | c :: str =>
      if (c =? 10) || (framebuffer_width (fb g) <? cx coords + x) then
        PrintStr_loop g font coords (cx coords) (y + font_height font) str
      else
        let x := x + font_width font in
        g ← DrawChar g font (Coord (u16 (cx coords + x)) (u16 (cy coords + y))) c;
        PrintStr_loop g font coords x y str
  end.
Definition PrintStr (g : gfx) (font : Font) (coords : Coordinate) (str : list Z) : outcome gfx :=
  PrintStr_loop g font coords (cx coords) (cy coords) str.

(** One row of [Transpose]. *)
Definition transpose_row (top_left : Coordinate) (dims : Dimensions) (down left y : Z) (g : gfx) : outcome gfx :=
  src ← PixelIndex g (Coord (cx top_left) (u16 y));
  dest_x ← int (cx top_left + left);
  dest_y ← int (y + down);
  dest ← PixelIndex g (Coord (u16 dest_x) (u16 dest_y));
  size ← int (width dims * framebuffer_bpp (fb g));
  move_pixels g dest src (size / 8).

Definition Transpose (g : gfx) (top_left : Coordinate) (dims : Dimensions) (down left : Z) : outcome gfx :=
  g ← for_range (Z.to_nat (height dims)) (cy top_left) (transpose_row top_left dims down left) g;
  top_row ← int (if 0 <? down then cy top_left else cy top_left + down);
  bottom_row ← int (if 0 <? down then cy top_left + height dims + down else cy top_left + height dims);
  top_invalid_row ← int_div top_row (row_height g);
  bottom_invalid_row ← int_div bottom_row (row_height g);
  r ← int_rem bottom_row (row_height g);
  mark_rows g top_invalid_row (bottom_invalid_row + Z.b2z (negb (r =? 0))).

(** ** Colours are packed without loss *)

Lemma ABS_RIGHT_SHIFT_0 num : 0 ≤ num < 2 ^ 32 → ABS_RIGHT_SHIFT num 0 = Done num.
Proof.
  intros Hn. unfold ABS_RIGHT_SHIFT. change (u32 (0 * -1)) with 0. cbn [Z.ltb Z.leb Z.b2z Z.compare].
  do_check. rewrite Z.shiftr_0_r, Z.mul_1_r, Z.mul_0_r, Z.add_0_r, u32_small by lia. done.
Qed.

Lemma ABS_RIGHT_SHIFT_other num shift : 0 < shift < 2 ^ 32 - 31 → ABS_RIGHT_SHIFT num shift = Undefined.
Proof.
  intros Hs. unfold ABS_RIGHT_SHIFT, check. destruct (shift <? 32); [|done]. cbn [mbind outcome_bind].
  replace (u32 (shift * -1)) with (2 ^ 32 - shift) by (unfold u32; dlia).
  by rewrite (proj2 (Z.ltb_ge (2 ^ 32 - shift) 32)) by lia.
Qed.

Lemma pack_component_8 v shift :
  0 ≤ v < 256 → 0 ≤ shift ≤ 24 → pack_component v 8 shift = Done (Z.shiftl v shift).
Proof.
  intros Hv Hs. unfold pack_component. change (u32 (8 - 8)) with 0. rewrite ABS_RIGHT_SHIFT_0 by lia.
  do_bind. do_check. do_check. change (Z.shiftl 2 8 - 1) with (Z.ones 9).
  rewrite Z.land_ones, Z.mod_small by lia. f_equal. apply u32_small.
  rewrite Z.shiftl_mul_pow2 by lia. pose proof (Z.pow_le_mono_r 2 shift 24). nia.
Qed.

Lemma pack_component_other v size shift :
  0 ≤ size < 256 → size ≠ 8 → pack_component v size shift = Undefined.
Proof.
  intros Hs Hne. unfold pack_component. destruct (decide (size < 8)) as [Hlt|Hge].
  - rewrite (u32_small (8 - size)), ABS_RIGHT_SHIFT_other by lia. done.
  - destruct (decide (size ≤ 39)) as [Hle|Hgt].
    + unfold ABS_RIGHT_SHIFT, check. replace (u32 (8 - size)) with (2 ^ 32 + 8 - size) by (unfold u32; dlia).
      by rewrite (proj2 (Z.ltb_ge (2 ^ 32 + 8 - size) 32)) by lia.
    + rewrite ABS_RIGHT_SHIFT_other; [done|]. unfold u32. dlia.
Qed.

Definition rgb_ok (c : RGB) : Prop := 0 ≤ red c < 256 ∧ 0 ≤ green c < 256 ∧ 0 ≤ blue c < 256.

(** Eight bits for each component, at places that do not overlap. *)
Definition apart (s1 s2 : Z) : Prop := s1 + 8 ≤ s2 ∨ s2 + 8 ≤ s1.
Record colours_ok (f : framebuffer) : Prop := {
  co_bpp : framebuffer_bpp f = 32;
  co_size : red_mask_size f = 8 ∧ green_mask_size f = 8 ∧ blue_mask_size f = 8;
  co_shift : 0 ≤ red_mask_shift f ≤ 24 ∧ 0 ≤ green_mask_shift f ≤ 24 ∧ 0 ≤ blue_mask_shift f ≤ 24;
  co_apart : apart (red_mask_shift f) (green_mask_shift f) ∧ apart (red_mask_shift f) (blue_mask_shift f) ∧
    apart (green_mask_shift f) (blue_mask_shift f);
}.

(** The packed colour. *)
Definition packed (rgb : RGB) (f : framebuffer) : Z :=
  Z.lor (Z.lor (Z.shiftl (red rgb) (red_mask_shift f)) (Z.shiftl (green rgb) (green_mask_shift f)))
    (Z.shiftl (blue rgb) (blue_mask_shift f)).

Lemma PackRgb_packed rgb f : rgb_ok rgb → colours_ok f → PackRgb rgb f = Done (packed rgb f).
Proof.
  intros (Hr & Hg & Hb) [Hbpp (H1 & H2 & H3) (? & ? & ?) _]. unfold PackRgb. rewrite Hbpp, H1, H2, H3.
  change (negb (32 =? 32)) with false. cbv iota.
  do 3 (rewrite pack_component_8 by lia; do_bind). done.
Qed.

Lemma shiftl_8_range v s : 0 ≤ v < 256 → 0 ≤ s ≤ 24 → 0 ≤ Z.shiftl v s < 2 ^ 32.
Proof.
  intros Hv Hs. rewrite Z.shiftl_mul_pow2 by lia. pose proof (Z.pow_le_mono_r 2 s 24). nia.
Qed.

Lemma packed_range rgb f : rgb_ok rgb → colours_ok f → 0 ≤ packed rgb f < 2 ^ 32.
Proof.
  intros (Hr & Hg & Hb) [_ _ (? & ? & ?) _].
  apply lor_range; [lia|apply lor_range; [lia|..]|]; by apply shiftl_8_range.
Qed.

Lemma testbit_component v s s' j :
  0 ≤ v < 256 → 0 ≤ s → 0 ≤ s' → 0 ≤ j < 8 →
  s = s' ∨ apart s s' → Z.testbit (Z.shiftl v s) (j + s') = bool_decide (s = s') && Z.testbit v j.
Proof.
  intros Hv Hs Hs' Hj Ha. rewrite Z.shiftl_spec by lia. unfold apart in Ha.
  case_bool_decide as Hd; [by replace (j + s' - s) with j by lia|]. cbn [andb].
  destruct (decide (j + s' - s < 0)); [by apply Z.testbit_neg_r|].
  apply (testbit_above v 8); lia.
Qed.

Lemma packed_fields rgb f :
  rgb_ok rgb → colours_ok f →
  get_bits (packed rgb f) (red_mask_shift f) 8 = red rgb ∧
  get_bits (packed rgb f) (green_mask_shift f) 8 = green rgb ∧
  get_bits (packed rgb f) (blue_mask_shift f) 8 = blue rgb.
Proof.
  intros (Hr & Hg & Hb) [_ _ (? & ? & ?) (Hrg & Hrb & Hgb)].
  assert (Hsym : ∀ a b, apart a b → apart b a) by (unfold apart; lia).
  assert (Hne : ∀ a b, apart a b → a ≠ b) by (unfold apart; lia).
  pose proof (Hne _ _ Hrg). pose proof (Hne _ _ Hrb). pose proof (Hne _ _ Hgb).
  split_and!; apply Z.bits_inj'; intros j Hj; rewrite get_bits_testbit by lia;
    (destruct (Z.ltb_spec j 8); cbn [andb]; [|symmetry; apply (testbit_above _ 8); lia]);
    unfold packed; rewrite !Z.lor_spec, !testbit_component by (first [lia | by auto]);
    repeat case_bool_decide; try congruence; cbn [andb orb]; by rewrite ?orb_false_r.
Qed.

(** On a frame buffer of 32 bits a pixel with eight bits for each component
    [PackRgb] places the components where the frame buffer says, and they can
    be read back; with 16 bits a pixel, which the kernel asks the boot loader
    for, every colour is 0; and a component of another size makes it shift by
    too much. *)
Theorem PackRgb_spec rgb f :
  rgb_ok rgb → 0 ≤ red_mask_size f < 256 → 0 ≤ blue_mask_size f < 256 → 0 ≤ green_mask_size f < 256 →
  (colours_ok f → ∃ p, PackRgb rgb f = Done p ∧ 0 ≤ p < 2 ^ 32 ∧
     get_bits p (red_mask_shift f) 8 = red rgb ∧ get_bits p (green_mask_shift f) 8 = green rgb ∧
     get_bits p (blue_mask_shift f) 8 = blue rgb) ∧
  (framebuffer_bpp f ≠ 32 → PackRgb rgb f = Done 0) ∧
  (framebuffer_bpp f = 32 → red_mask_size f ≠ 8 → PackRgb rgb f = Undefined).
Proof.
  intros Hc Hr Hb Hg. split_and!.
  - intros Hf. exists (packed rgb f). split; [by apply PackRgb_packed|]. split; [by apply packed_range|].
    by apply packed_fields.
  - intros Hne. unfold PackRgb. by rewrite (proj2 (Z.eqb_neq _ _) Hne).
  - intros He Hne. unfold PackRgb. rewrite He. change (negb (32 =? 32)) with false. cbv iota. by rewrite (pack_component_other (red rgb) (red_mask_size f)) by lia.
Qed.

(** ** Pixels of the back buffer and of the screen *)

(** The pixel at index [i] of the back buffer. *)
Definition pix (g : gfx) (i : Z) : Z := ld32 (gmem g) (buffer g + 4 * i).

(** The pixel in column [x] of line [y], in the back buffer and on the
    screen. *)
Definition back (g : gfx) (x y : Z) : Z := pix g (x + y * framebuffer_width (fb g)).
Definition screen (g : gfx) (x y : Z) : Z :=
  ld32 (gmem g) (framebuffer_addr (fb g) + y * framebuffer_pitch (fb g) + 4 * x).

Definition on_screen (g : gfx) (x y : Z) : Prop :=
  0 ≤ x < framebuffer_width (fb g) ∧ 0 ≤ y < framebuffer_height (fb g).

(** A frame buffer that fits the back buffer and does not overlap it, with 32
    bits a pixel. *)
Record gfx_ok (g : gfx) : Prop := {
  go_colours : colours_ok (fb g);
  go_width : 0 < framebuffer_width (fb g) < 2 ^ 16;
  go_height : 0 < framebuffer_height (fb g) < 2 ^ 16;
  go_fits : framebuffer_width (fb g) * framebuffer_height (fb g) ≤ BUFFER_PIXELS;
  go_pitch : 4 * framebuffer_width (fb g) ≤ framebuffer_pitch (fb g) < 2 ^ 16;
  go_rows : num_rows g = 64;
  go_row_height : row_height g = framebuffer_height (fb g) / 64;
  go_row_bound : 0 < row_height g < 256;
  go_dirty : 0 ≤ dirty_block_str g < 2 ^ 64;
  go_apart : buffer g + 4 * BUFFER_PIXELS ≤ framebuffer_addr (fb g) ∨
    framebuffer_addr (fb g) + framebuffer_height (fb g) * framebuffer_pitch (fb g) ≤ buffer g;
}.

(** What drawing never changes. *)
Record same_frame (g g' : gfx) : Prop := {
  sf_fb : fb g' = fb g;
  sf_buffer : buffer g' = buffer g;
  sf_rows : num_rows g' = num_rows g;
  sf_row_height : row_height g' = row_height g;
}.

Lemma same_frame_refl g : same_frame g g.
Proof. done. Qed.
Lemma same_frame_trans g1 g2 g3 : same_frame g1 g2 → same_frame g2 g3 → same_frame g1 g3.
Proof. intros [] []. split; congruence. Qed.
#[export] Hint Resolve same_frame_refl : cmem.

Lemma gfx_ok_frame g g' : gfx_ok g → same_frame g g' → 0 ≤ dirty_block_str g' < 2 ^ 64 → gfx_ok g'.
Proof. intros [] [Hf Hb Hr Hh] Hd. split; rewrite ?Hf, ?Hb, ?Hr, ?Hh; done. Qed.

(** An index is a column and a line. *)
Lemma index_bound g x y :
  gfx_ok g → on_screen g x y → 0 ≤ x + y * framebuffer_width (fb g) < BUFFER_PIXELS.
Proof. intros [] [? ?]. nia. Qed.

Lemma int_done z : INT_MIN ≤ z ≤ INT_MAX → int z = Done z.
Proof. intros Hz. unfold int. rewrite check_true; [done|]. apply andb_true_intro. split; lia. Qed.

Lemma PixelIndex_spec g c :
  gfx_ok g → on_screen g (cx c) (cy c) → PixelIndex g c = Done (cx c + cy c * framebuffer_width (fb g)).
Proof.
  intros Hok Hon. pose proof (index_bound g _ _ Hok Hon). destruct Hok, Hon. unfold PixelIndex.
  unfold BUFFER_PIXELS in *. rewrite int_done by (unfold INT_MIN, INT_MAX; nia). do_bind.
  apply int_done. unfold INT_MIN, INT_MAX. lia.
Qed.

(** *** Single pixels *)

Lemma put_pixel_spec g i v :
  0 ≤ i < BUFFER_PIXELS → 0 ≤ v < 2 ^ 32 →
  ∃ g', put_pixel g i v = Done g' ∧ same_frame g g' ∧ dirty_block_str g' = dirty_block_str g ∧
    (∀ k, pix g' k = if k =? i then v else pix g k) ∧
    same_outside (buffer g) (buffer g + 4 * BUFFER_PIXELS) (gmem g) (gmem g').
Proof.
  intros Hi Hv. unfold put_pixel. rewrite check_true by lia. do_bind. eexists. split; [done|].
  split_and!; try done.
  - intros k. unfold pix. cbn [gmem set_gmem buffer]. destruct (Z.eqb_spec k i) as [->|Hne].
    + by apply ld32_st32_same.
    + apply ld_st_disjoint. lia.
  - cbn [gmem set_gmem]. apply st_outside_sub; lia.
Qed.

(** *** Rows of pixels *)

Lemma ld_shift n m1 m2 a1 a2 :
  (∀ i, 0 ≤ i < Z.of_nat n → ld8 m1 (a1 + i) = ld8 m2 (a2 + i)) → ld n m1 a1 = ld n m2 a2.
Proof.
  revert a1 a2. induction n as [|n IH]; intros a1 a2 Heq; [done|].
  change (ld8 m1 a1 + 2 ^ 8 * ld n m1 (a1 + 1) = ld8 m2 a2 + 2 ^ 8 * ld n m2 (a2 + 1)).
  specialize (Heq 0) as H0. rewrite !Z.add_0_r in H0. rewrite H0 by lia. rewrite (IH (a1 + 1) (a2 + 1)); [done|].
  intros i Hi. rewrite <-!Z.add_assoc. apply Heq. lia.
Qed.

(** A word inside or outside the range a [memmove] writes. *)
Lemma ld_memmove_in n m dst src size a :
  dst ≤ a → a + Z.of_nat n ≤ dst + Z.of_nat size → ld n (memmove m dst src size) a = ld n m (src + (a - dst)).
Proof.
  intros H1 H2. apply ld_shift. intros i Hi. rewrite ld8_memmove.
  rewrite (proj2 (Z.leb_le _ _)), (proj2 (Z.ltb_lt _ _)) by lia. cbn [andb]. f_equal. lia.
Qed.

Lemma ld_memmove_out n m dst src size a :
  a + Z.of_nat n ≤ dst ∨ dst + Z.of_nat size ≤ a → ld n (memmove m dst src size) a = ld n m a.
Proof.
  intros Ha. eapply ld_same_outside; [apply memmove_outside|lia].
Qed.

Lemma move_pixels_spec g dst src w :
  0 ≤ w → 0 ≤ dst → dst + w ≤ BUFFER_PIXELS → 0 ≤ src → src + w ≤ BUFFER_PIXELS →
  ∃ g', move_pixels g dst src (4 * w) = Done g' ∧ same_frame g g' ∧ dirty_block_str g' = dirty_block_str g ∧
    (∀ k, pix g' k = if (dst <=? k) && (k <? dst + w) then pix g (src + (k - dst)) else pix g k) ∧
    same_outside (buffer g) (buffer g + 4 * BUFFER_PIXELS) (gmem g) (gmem g').
Proof.
  intros Hw Hd Hdw Hs Hsw. unfold move_pixels. rewrite check_true by lia. do_bind. eexists. split; [done|].
  split_and!; try done.
  - intros k. unfold pix. cbn [gmem set_gmem buffer].
    destruct (Z.leb_spec dst k), (Z.ltb_spec k (dst + w)); cbn [andb].
    + rewrite ld_memmove_in by lia. f_equal. lia.
    + apply ld_memmove_out. lia.
    + apply ld_memmove_out. lia.
    + apply ld_memmove_out. lia.
  - cbn [gmem set_gmem]. eapply same_outside_mono; [apply memmove_outside|lia|lia].
Qed.

(** *** Dirty rows *)

Definition rows_between (first last r : Z) : bool := (first <=? r) && (r <? last).

Lemma mark_rows_spec g first last :
  0 ≤ dirty_block_str g < 2 ^ 64 → 0 ≤ first → last ≤ 31 →
  ∃ d, mark_rows g first last = Done (set_dirty g d) ∧ 0 ≤ d < 2 ^ 64 ∧
    ∀ r, 0 ≤ r → Z.testbit d r = Z.testbit (dirty_block_str g) r || rows_between first last r.
Proof.
  intros Hd Hf Hl. unfold mark_rows.
  destruct (for_range_rule (λ i g', ∃ d, g' = set_dirty g d ∧ 0 ≤ d < 2 ^ 64 ∧
      ∀ r, 0 ≤ r → Z.testbit d r = Z.testbit (dirty_block_str g) r || rows_between first i r)
    (Z.to_nat (last - first)) first mark_row g) as (g' & Hg' & d & -> & Hd' & Hr).
  - exists (dirty_block_str g). split_and!; [by destruct g|lia|lia|]. intros r Hr. unfold rows_between.
    destruct (Z.leb_spec first r), (Z.ltb_spec r first); try lia; by rewrite orb_false_r.
  - intros j ? Hj (d & -> & Hd' & Hr). unfold mark_row. cbn [dirty_block_str set_dirty].
    rewrite u16_small by lia.
    destruct (SetNthBit_spec d j 0) as (d2 & Hs & Hd2 & _); [lia..|]. rewrite Hs. do_bind.
    exists (set_dirty g d2). split; [done|]. exists d2. split_and!; [done|lia|lia|]. intros r Hr0.
    destruct (SetNthBit_spec d j r) as (d3 & Hs3 & _ & Hb); [lia..|]. rewrite Hs in Hs3. injection Hs3 as <-.
    rewrite Hb, Hr by lia. unfold rows_between.
    destruct (Z.eqb_spec r j), (Z.leb_spec first r), (Z.ltb_spec r j), (Z.ltb_spec r (j + 1)); try lia;
      cbn [andb orb]; by rewrite ?orb_true_r, ?orb_false_r.
  - exists d. split_and!; [done|lia|lia|]. intros r Hr0. rewrite Hr by done. f_equal. unfold rows_between.
    destruct (Z.leb_spec first r), (Z.ltb_spec r (first + Z.of_nat (Z.to_nat (last - first)))),
      (Z.ltb_spec r last); (done || lia).
Qed.

(** *** Pictures

    [canvas g g' F]: from [g] to [g'] only the back buffer has changed, and
    [g'] shows the picture [F]. *)
Record canvas (g g' : gfx) (F : Z → Z → Z) : Prop := {
  cv_frame : same_frame g g';
  cv_dirty : dirty_block_str g' = dirty_block_str g;
  cv_pixels : ∀ x y, on_screen g x y → back g' x y = F x y;
  cv_outside : same_outside (buffer g) (buffer g + 4 * BUFFER_PIXELS) (gmem g) (gmem g');
}.

Lemma canvas_refl g : canvas g g (back g).
Proof. split; auto with cmem. Qed.

Lemma canvas_ext g g' F G : (∀ x y, on_screen g x y → F x y = G x y) → canvas g g' F → canvas g g' G.
Proof. intros HFG [? ? Hp ?]. split; try done. intros x y Hon. by rewrite Hp, HFG. Qed.

Lemma index_inj W x y X Y : 0 ≤ x < W → 0 ≤ X < W → x + y * W = X + Y * W → x = X ∧ y = Y.
Proof. intros Hx HX He. assert (y = Y) by nia. subst. split; [lia|done]. Qed.

Lemma index_eqb W x y X Y : 0 ≤ x < W → 0 ≤ X < W → (x =? X) && (y =? Y) = (x + y * W =? X + Y * W).
Proof.
  intros Hx HX. destruct (Z.eqb_spec (x + y * W) (X + Y * W)) as [He|Hne].
  - destruct (index_inj W x y X Y Hx HX He) as [-> ->]. by rewrite !Z.eqb_refl.
  - destruct (Z.eqb_spec x X), (Z.eqb_spec y Y); (done || congruence).
Qed.

Lemma canvas_put g g1 F X Y v :
  gfx_ok g → canvas g g1 F → on_screen g X Y → 0 ≤ v < 2 ^ 32 →
  ∃ g2, put_pixel g1 (X + Y * framebuffer_width (fb g)) v = Done g2 ∧
    canvas g g2 (λ x y, if (x =? X) && (y =? Y) then v else F x y).
Proof.
  intros Hok [Hfr Hd Hp Ho] Hon Hv.
  destruct (put_pixel_spec g1 (X + Y * framebuffer_width (fb g)) v) as (g2 & Hg2 & Hfr2 & Hd2 & Hp2 & Ho2);
    [by apply index_bound|done|].
  exists g2. split; [done|]. split.
  - by eapply same_frame_trans.
  - congruence.
  - intros x y Hxy. specialize (Hp x y Hxy). unfold back in *.
    rewrite (sf_fb _ _ Hfr2), (sf_fb _ _ Hfr) in *. rewrite Hp2.
    destruct (Z.eqb_spec (x + y * framebuffer_width (fb g)) (X + Y * framebuffer_width (fb g))) as [He|Hne].
    + destruct Hxy as [Hx _], Hon as [HX _]. destruct (index_inj _ _ _ _ _ Hx HX He) as [-> ->].
      by rewrite !Z.eqb_refl.
    + rewrite Hp. destruct (Z.eqb_spec x X), (Z.eqb_spec y Y); [congruence|done..].
  - rewrite (sf_buffer _ _ Hfr) in Ho2. by eapply same_outside_trans.
Qed.

(** A span of [w] pixels from column [X] of line [Y0] is copied to column [X1]
    of line [Y]. *)
Lemma canvas_move g g1 F X X1 Y0 Y w :
  gfx_ok g → canvas g g1 F → 0 ≤ X → 0 ≤ X1 → 0 ≤ w → X + w ≤ framebuffer_width (fb g) →
  X1 + w ≤ framebuffer_width (fb g) → 0 ≤ Y0 < framebuffer_height (fb g) → 0 ≤ Y < framebuffer_height (fb g) →
  ∃ g2, move_pixels g1 (X1 + Y * framebuffer_width (fb g)) (X + Y0 * framebuffer_width (fb g)) (4 * w) = Done g2 ∧
    canvas g g2 (λ x y, if (X1 <=? x) && (x <? X1 + w) && (y =? Y) then F (x - X1 + X) Y0 else F x y).
Proof.
  intros Hok [Hfr Hd Hp Ho] HX HX1 Hw HXw HX1w HY0 HY. pose proof Hok as [_ HW HH Hfit _ _ _ _ _ _].
  set (W := framebuffer_width (fb g)) in *.
  destruct (move_pixels_spec g1 (X1 + Y * W) (X + Y0 * W) w) as (g2 & Hg2 & Hfr2 & Hd2 & Hp2 & Ho2); [nia..|].
  exists g2. split; [done|]. split.
  - by eapply same_frame_trans.
  - congruence.
  - intros x y Hxy. pose proof Hxy as [Hx Hy]. fold W in Hx. unfold back.
    rewrite (sf_fb _ _ Hfr2), (sf_fb _ _ Hfr). fold W. rewrite Hp2.
    assert (Hpix : ∀ x y, on_screen g x y → pix g1 (x + y * W) = F x y).
    { intros x' y' Hon. rewrite <-(Hp x' y' Hon). unfold back. by rewrite (sf_fb _ _ Hfr). }
    destruct (Z.eqb_spec y Y) as [->|Hne].
    + destruct (Z.leb_spec X1 x), (Z.ltb_spec x (X1 + w)), (Z.leb_spec (X1 + Y * W) (x + Y * W)),
        (Z.ltb_spec (x + Y * W) (X1 + Y * W + w)); try lia; cbn [andb]; try by apply Hpix.
      rewrite <-Hpix by (split; [fold W; lia|done]). f_equal. lia.
    + rewrite andb_false_r, <-Hpix by done.
      destruct (Z.leb_spec (X1 + Y * W) (x + y * W)), (Z.ltb_spec (x + y * W) (X1 + Y * W + w)); try done.
      exfalso. assert (y = Y) by nia. done.
  - rewrite (sf_buffer _ _ Hfr) in Ho2. by eapply same_outside_trans.
Qed.

(** [paints F D g g']: [g'] shows the picture [F], the rows of cells in [D] have
    become dirty, and the screen has not changed. *)
Record paints (F : Z → Z → Z) (D : Z → bool) (g g' : gfx) : Prop := {
  pa_ok : gfx_ok g';
  pa_frame : same_frame g g';
  pa_pixels : ∀ x y, on_screen g x y → back g' x y = F x y;
  pa_dirty : ∀ r, 0 ≤ r → Z.testbit (dirty_block_str g') r = Z.testbit (dirty_block_str g) r || D r;
  pa_screen : ∀ x y, on_screen g x y → screen g' x y = screen g x y;
}.

Lemma screen_outside g g' x y :
  gfx_ok g → same_frame g g' → same_outside (buffer g) (buffer g + 4 * BUFFER_PIXELS) (gmem g) (gmem g') →
  on_screen g x y → screen g' x y = screen g x y.
Proof.
  intros [_ HW HH _ Hp _ _ _ _ Ha] Hfr Ho [Hx Hy]. unfold screen. rewrite (sf_fb _ _ Hfr).
  eapply ld_same_outside; [apply Ho|]. unfold on_screen in *. destruct Ha as [Ha|Ha]; [right|left]; nia.
Qed.

(** Drawing ends with marking rows. *)
Lemma canvas_mark g g1 F first last :
  gfx_ok g → canvas g g1 F → 0 ≤ first → last ≤ 31 →
  ∃ g2, mark_rows g1 first last = Done g2 ∧ paints F (rows_between first last) g g2.
Proof.
  intros Hok [Hfr Hd Hp Ho] Hf Hl. pose proof (go_dirty g Hok) as Hdg.
  destruct (mark_rows_spec g1 first last) as (d & Hm & Hdr & Hb); [congruence|done..|].
  exists (set_dirty g1 d). split; [done|].
  assert (Hfr2 : same_frame g (set_dirty g1 d)) by (by destruct Hfr).
  split; [by eapply gfx_ok_frame|done|exact Hp| |].
  - intros r Hr. cbn [dirty_block_str set_dirty]. rewrite Hb by done. by rewrite Hd.
  - intros x y Hon. by apply (screen_outside g (set_dirty g1 d)).
Qed.

Definition inside (c : Coordinate) (w h x y : Z) : bool :=
  (cx c <=? x) && (x <? cx c + w) && ((cy c <=? y) && (y <? cy c + h)).

Definition rect (g : gfx) (c : Coordinate) (w h : Z) : Prop :=
  0 ≤ cx c ∧ 0 ≤ cy c ∧ 0 < w ∧ 0 < h ∧ cx c + w ≤ framebuffer_width (fb g) ∧
  cy c + h ≤ framebuffer_height (fb g).

Lemma int_div_done a b : b ≠ 0 → int_div a b = Done (Z.quot a b).
Proof. intros Hb. unfold int_div. by rewrite (proj2 (Z.eqb_neq b 0) Hb). Qed.
Lemma int_rem_done a b : b ≠ 0 → int_rem a b = Done (Z.rem a b).
Proof. intros Hb. unfold int_rem. by rewrite (proj2 (Z.eqb_neq b 0) Hb). Qed.

Lemma screen_bits g w :
  gfx_ok g → 0 ≤ w ≤ framebuffer_width (fb g) →
  int (w * framebuffer_bpp (fb g)) = Done (w * 32) ∧ w * 32 / 8 = 4 * w.
Proof.
  intros Hok Hw. rewrite (co_bpp _ (go_colours g Hok)). pose proof (go_width g Hok).
  split; [apply int_done; unfold INT_MIN, INT_MAX; lia|dlia].
Qed.

(** The first line of a rectangle, pixel by pixel. *)
Lemma first_row_spec g c w v :
  gfx_ok g → rect g c w 1 → 0 ≤ v < 2 ^ 32 →
  ∃ g1, for_range (Z.to_nat w) 0
      (λ pixel g', put_pixel g' (cx c + cy c * framebuffer_width (fb g) + pixel) v) g = Done g1 ∧
    canvas g g1 (λ x y, if inside c w 1 x y then v else back g x y).
Proof.
  intros Hok (Hx & Hy & Hw & _ & HxW & HyH) Hv.
  destruct (for_range_rule (λ k g1, canvas g g1 (λ x y, if inside c k 1 x y then v else back g x y))
    (Z.to_nat w) 0 (λ pixel g', put_pixel g' (cx c + cy c * framebuffer_width (fb g) + pixel) v) g) as (g1 & Hg1 & C1).
  - eapply canvas_ext; [|apply canvas_refl]. intros x y Hon. unfold inside.
    destruct (Z.leb_spec (cx c) x), (Z.ltb_spec x (cx c + 0)); cbn [andb]; (done || lia).
  - intros k g1 Hk C.
    destruct (canvas_put g g1 _ (cx c + k) (cy c) v Hok C) as (g2 & Hg2 & C2); [split; lia|done|].
    exists g2. split; [rewrite <-Hg2; f_equal; lia|]. eapply canvas_ext; [|exact C2].
    intros x y _. unfold inside.
    destruct (Z.eqb_spec x (cx c + k)), (Z.eqb_spec y (cy c)), (Z.leb_spec (cx c) x),
      (Z.ltb_spec x (cx c + k)), (Z.ltb_spec x (cx c + (k + 1))), (Z.leb_spec (cy c) y),
      (Z.ltb_spec y (cy c + 1)); cbn [andb]; (done || lia).
  - exists g1. split; [done|]. by rewrite Z2Nat.id, Z.add_0_l in C1 by lia.
Qed.

(** The other lines are copies of it. *)
Lemma other_rows_spec g g1 c w h v :
  gfx_ok g → rect g c w h → canvas g g1 (λ x y, if inside c w 1 x y then v else back g x y) →
  ∃ g2, for_range (Z.to_nat (h - 1)) 1 (λ row g',
      move_pixels g' (cx c + cy c * framebuffer_width (fb g) + row * framebuffer_width (fb g'))
        (cx c + cy c * framebuffer_width (fb g)) (4 * w)) g1 = Done g2 ∧
    canvas g g2 (λ x y, if inside c w h x y then v else back g x y).
Proof.
  intros Hok (Hx & Hy & Hw & Hh & HxW & HyH) C1.
  set (W := framebuffer_width (fb g)) in *.
  destruct (for_range_rule (λ k g2, canvas g g2 (λ x y, if inside c w k x y then v else back g x y))
    (Z.to_nat (h - 1)) 1 (λ row g, move_pixels g (cx c + cy c * W + row * framebuffer_width (fb g))
                                     (cx c + cy c * W) (4 * w)) g1 C1) as (g2 & Hg2 & C2).
  - intros k g2 Hk C. rewrite (sf_fb _ _ (cv_frame _ _ _ C)). fold W.
    destruct (canvas_move g g2 _ (cx c) (cx c) (cy c) (cy c + k) w Hok C) as (g3 & Hg3 & C3); [fold W; lia..|].
    fold W in Hg3. exists g3. split; [rewrite <-Hg3; f_equal; lia|]. eapply canvas_ext; [|exact C3].
    intros x y _. cbv beta. unfold inside. replace (x - cx c + cx c) with x by lia.
    destruct (Z.leb_spec (cx c) x), (Z.ltb_spec x (cx c + w)), (Z.eqb_spec y (cy c + k)),
      (Z.leb_spec (cy c) y), (Z.ltb_spec y (cy c + k)), (Z.ltb_spec y (cy c + (k + 1))); cbn [andb]; try (done || lia).
    by rewrite (proj2 (Z.leb_le (cy c) (cy c))), (proj2 (Z.ltb_lt (cy c) (cy c + k))) by lia.
  - exists g2. split; [done|]. by replace (1 + Z.of_nat (Z.to_nat (h - 1))) with h in C2 by lia.
Qed.

(** The picture after a rectangle has been filled. *)
Lemma DrawRect_canvas g c d rgb :
  gfx_ok g → rgb_ok rgb → rect g c (width d) (height d) →
  ∃ g2, DrawRect g c d rgb = mark_rows g2 (cy c / row_height g)
      ((cy c + height d) / row_height g + Z.b2z (cy c mod row_height g =? 0) + 1) ∧
    canvas g g2 (λ x y, if inside c (width d) (height d) x y then packed rgb (fb g) else back g x y).
Proof.
  intros Hok Hrgb Hrect. pose proof Hrect as (Hx & Hy & Hw & Hh & HxW & HyH). unfold DrawRect.
  pose proof (go_row_bound g Hok) as Hrh.
  assert (Hv : 0 ≤ packed rgb (fb g) < 2 ^ 32) by (apply packed_range; [done|apply Hok]).
  rewrite (PackRgb_packed rgb (fb g)) by (done || apply Hok). do_bind.
  rewrite PixelIndex_spec by (done || (split; lia)). do_bind.
  destruct (first_row_spec g c (width d) _ Hok ltac:(unfold rect; lia) Hv) as (g1 & Hg1 & C1).
  destruct (other_rows_spec g g1 c (width d) (height d) _ Hok Hrect C1) as (g2 & Hg2 & C2).
  rewrite Hg1. do_bind.
  destruct (screen_bits g (width d) Hok) as [Hsz Hsz8]; [lia|].
  rewrite (sf_fb _ _ (cv_frame _ _ _ C1)), Hsz. do_bind. rewrite Hsz8, Hg2. do_bind.
  rewrite (sf_row_height _ _ (cv_frame _ _ _ C2)).
  rewrite !int_div_done, int_rem_done by lia. do_bind.
  rewrite !Z.quot_div_nonneg, Z.rem_mod_nonneg by lia. by exists g2.
Qed.

Lemma DrawRect_paints g c d rgb :
  gfx_ok g → rgb_ok rgb → rect g c (width d) (height d) → (cy c + height d) / row_height g + 2 ≤ 31 →
  ∃ g', DrawRect g c d rgb = Done g' ∧
    paints (λ x y, if inside c (width d) (height d) x y then packed rgb (fb g) else back g x y)
      (rows_between (cy c / row_height g)
         ((cy c + height d) / row_height g + Z.b2z (cy c mod row_height g =? 0) + 1)) g g'.
Proof.
  intros Hok Hrgb Hrect Hrows. pose proof (go_row_bound g Hok) as Hrh. pose proof Hrect as (_ & Hy & _).
  destruct (DrawRect_canvas g c d rgb Hok Hrgb Hrect) as (g2 & -> & C2).
  apply canvas_mark; [done|done|apply Z.div_pos; lia|destruct (_ =? 0); cbn [Z.b2z]; lia].
Qed.

(** *** Clearing *)

Lemma index_split W H i : 0 < W → 0 ≤ i < W * H → 0 ≤ i mod W < W ∧ 0 ≤ i / W < H ∧ i = i mod W + i / W * W.
Proof.
  intros HW Hi. pose proof (Z.div_mod i W ltac:(lia)). pose proof (Z.mod_pos_bound i W HW).
  assert (0 ≤ i / W) by (apply Z.div_pos; lia).
  assert (i / W < H) by (apply Z.div_lt_upper_bound; lia). lia.
Qed.

Lemma ClearScreen_paints g rgb :
  gfx_ok g → rgb_ok rgb →
  ∃ g', ClearScreen g rgb = Done g' ∧ paints (λ _ _, packed rgb (fb g)) (λ r, r <? 64) g g'.
Proof.
  intros Hok Hrgb. pose proof Hok as [Hcol HW HH Hfit _ _ _ _ Hd _]. unfold ClearScreen.
  unfold BUFFER_PIXELS in Hfit. rewrite int_done by (unfold INT_MIN, INT_MAX; nia). do_bind.
  rewrite (PackRgb_packed rgb (fb g)) by done. do_bind. set (W := framebuffer_width (fb g)) in *.
  set (n := framebuffer_height (fb g) * W) in *.
  destruct (for_range_rule (λ i g1, canvas g g1 (λ x y, if x + y * W <? i then packed rgb (fb g) else back g x y))
    (Z.to_nat n) 0 (λ i g', put_pixel g' i (packed rgb (fb g))) g) as (g1 & Hg1 & C1).
  - eapply canvas_ext; [|apply canvas_refl]. intros x y [Hx Hy]. fold W in Hx.
    by rewrite (proj2 (Z.ltb_ge (x + y * W) 0)) by nia.
  - intros i g1 Hi C. destruct (index_split W (framebuffer_height (fb g)) i) as (Hx & Hy & He); [lia|lia|].
    destruct (canvas_put g g1 _ (i mod W) (i / W) (packed rgb (fb g)) Hok C) as (g2 & Hg2 & C2);
      [by split|by apply packed_range|].
    fold W in Hg2. rewrite <-He in Hg2. exists g2. split; [done|]. eapply canvas_ext; [|exact C2].
    intros x y [Hxw _]. cbv beta. fold W in Hxw.
    rewrite (index_eqb W x y (i mod W) (i / W)), <-He by done.
    destruct (Z.eqb_spec (x + y * W) i), (Z.ltb_spec (x + y * W) i), (Z.ltb_spec (x + y * W) (i + 1)); (done || lia).
  - rewrite Hg1. do_bind. eexists. split; [done|]. destruct C1 as [Hfr1 Hd1 Hp1 Ho1].
    assert (Hfr : same_frame g (set_dirty g1 0xFFFFFFFFFFFFFFFF)) by (by destruct Hfr1).
    split; [eapply gfx_ok_frame; [done|done|cbn; lia]|done| | |].
    + intros x y Hon. change (back (set_dirty g1 _) x y) with (back g1 x y). rewrite (Hp1 x y Hon).
      destruct Hon as [Hx Hy]. fold W in Hx. by rewrite (proj2 (Z.ltb_lt (x + y * W) (0 + Z.of_nat (Z.to_nat n)))) by nia.
    + intros r Hr. cbn [dirty_block_str set_dirty]. change 0xFFFFFFFFFFFFFFFF with (Z.ones 64).
      rewrite testbit_ones by lia. rewrite (proj2 (Z.leb_le 0 r)) by lia. cbn [andb].
      destruct (Z.ltb_spec r 64); [by rewrite orb_true_r|]. by rewrite (testbit_above _ 64).
    + intros x y Hon. by apply (screen_outside g (set_dirty g1 0xFFFFFFFFFFFFFFFF)).
Qed.

(** *** Writing back *)

(** From [g] to [g'] only the screen has changed, to the picture [G]. *)
Record written (g g' : gfx) (G : Z → Z → Z) : Prop := {
  wr_frame : same_frame g g';
  wr_back : ∀ x y, on_screen g x y → back g' x y = back g x y;
  wr_screen : ∀ x y, on_screen g x y → screen g' x y = G x y;
}.

Lemma copy_row_spec g g1 G Y :
  gfx_ok g → written g g1 G → 0 ≤ Y < framebuffer_height (fb g) →
  ∃ g2, copy_row (Y * framebuffer_width (fb g)) (Y * framebuffer_pitch (fb g)) g1 = Done g2 ∧
    dirty_block_str g2 = dirty_block_str g1 ∧
    written g g2 (λ x y, if y =? Y then back g x y else G x y).
Proof.
  intros Hok [Hfr Hb Hs] HY. pose proof Hok as [Hcol HW HH Hfit Hpitch _ _ _ _ Ha]. unfold copy_row.
  destruct (screen_bits g (framebuffer_width (fb g)) Hok) as [Hsz Hsz8]; [lia|].
  rewrite (sf_fb _ _ Hfr), Hsz. do_bind. rewrite Hsz8. set (W := framebuffer_width (fb g)) in *.
  set (P := framebuffer_pitch (fb g)) in *. rewrite check_true by nia. do_bind.
  eexists. split; [done|]. split; [done|]. rewrite (sf_buffer _ _ Hfr).
  split; [by destruct Hfr| |].
  - intros x y Hon. rewrite <-(Hb x y Hon). unfold back, pix. cbn [gmem set_gmem buffer fb].
    rewrite (sf_fb _ _ Hfr), (sf_buffer _ _ Hfr). pose proof (index_bound g x y Hok Hon) as Hi. fold W in Hi |- *.
    apply ld_memmove_out. destruct Ha as [Ha|Ha]; [left|right]; nia.
  - intros x y Hon. pose proof Hon as [Hx Hy]. fold W in Hx. unfold screen. cbn [gmem set_gmem fb].
    rewrite (sf_fb _ _ Hfr). fold P. destruct (Z.eqb_spec y Y) as [->|Hne].
    + rewrite ld_memmove_in by lia. rewrite <-(Hb x Y Hon). unfold back, pix.
      rewrite (sf_fb _ _ Hfr), (sf_buffer _ _ Hfr). fold W. f_equal. lia.
    + rewrite <-(Hs x y Hon). unfold screen. rewrite (sf_fb _ _ Hfr). fold P. apply ld_memmove_out.
      destruct (decide (y < Y)); [left|right]; nia.
Qed.

Lemma written_ext g g' G1 G2 : (∀ x y, on_screen g x y → G1 x y = G2 x y) → written g g' G1 → written g g' G2.
Proof. intros HG [? ? Hs]. split; [done..|]. intros x y Hon. by rewrite Hs, HG. Qed.

(** The lines of cell [c] are those from [c * row_height] on. *)
Lemma cell_lines rh c y : 0 < rh → (y / rh =? c) = (c * rh <=? y) && (y <? c * rh + rh).
Proof.
  intros Hrh. pose proof (Z.div_mod y rh ltac:(lia)). pose proof (Z.mod_pos_bound y rh Hrh).
  destruct (Z.eqb_spec (y / rh) c), (Z.leb_spec (c * rh) y), (Z.ltb_spec y (c * rh + rh)); cbn [andb]; try done; nia.
Qed.

Lemma WriteBackCell_spec g g1 G c :
  gfx_ok g → written g g1 G → 0 ≤ dirty_block_str g1 < 2 ^ 64 → 0 ≤ c < 64 →
  ∃ g2, WriteBackCell c g1 = Done g2 ∧ 0 ≤ dirty_block_str g2 < 2 ^ 64 ∧
    (∀ r, 0 ≤ r → Z.testbit (dirty_block_str g2) r = negb (r =? c) && Z.testbit (dirty_block_str g1) r) ∧
    written g g2 (λ x y, if y / row_height g =? c then back g x y else G x y).
Proof.
  intros Hok Hwr Hd Hc. pose proof Hok as [Hcol HW HH Hfit Hpitch _ Hrh Hrhb _ _]. unfold WriteBackCell.
  pose proof (wr_frame _ _ _ Hwr) as Hfr. rewrite (sf_fb _ _ Hfr), (sf_row_height _ _ Hfr).
  set (W := framebuffer_width (fb g)) in *. set (P := framebuffer_pitch (fb g)) in *. set (rh := row_height g) in *.
  assert (Hfit64 : 64 * rh ≤ framebuffer_height (fb g)) by (rewrite Hrh; dlia).
  assert (Hch : 0 ≤ c * rh ≤ 63 * 255) by nia.
  do 2 (rewrite int_done by (unfold INT_MIN, INT_MAX; nia); do_bind).
  destruct (for_range_rule (λ k g2, dirty_block_str g2 = dirty_block_str g1 ∧
      written g g2 (λ x y, if (c * rh <=? y) && (y <? c * rh + k) then back g x y else G x y))
    (Z.to_nat rh) 0 (λ pixel_row g', screen ← int (c * rh * P + pixel_row * framebuffer_pitch (fb g'));
       copy_row (c * rh * W + pixel_row * framebuffer_width (fb g')) screen g') g1) as (g2 & Hg2 & Hd2 & Hw2).
  - split; [done|]. eapply written_ext; [|exact Hwr]. intros x y _. cbv beta.
    destruct (Z.leb_spec (c * rh) y), (Z.ltb_spec y (c * rh + 0)); cbn [andb]; (done || lia).
  - intros k g2 Hk [Hd2 Hw2]. rewrite (sf_fb _ _ (wr_frame _ _ _ Hw2)). fold W P.
    rewrite int_done by (unfold INT_MIN, INT_MAX; nia). do_bind.
    destruct (copy_row_spec g g2 _ (c * rh + k) Hok Hw2) as (g3 & Hg3 & Hd3 & Hw3); [nia|].
    fold W P in Hg3. exists g3. split; [rewrite <-Hg3; f_equal; lia|]. split; [congruence|].
    eapply written_ext; [|exact Hw3]. intros x y _. cbv beta.
    destruct (Z.eqb_spec y (c * rh + k)), (Z.leb_spec (c * rh) y), (Z.ltb_spec y (c * rh + k)),
      (Z.ltb_spec y (c * rh + (k + 1))); cbn [andb]; (done || lia).
  - rewrite Hg2. do_bind. rewrite Hd2.
    destruct (ClearNthBit_spec (dirty_block_str g1) c 0) as (d & Hcl & _); [lia..|]. rewrite Hcl. do_bind.
    assert (Hbit : ∀ r, 0 ≤ r → Z.testbit d r = negb (r =? c) && Z.testbit (dirty_block_str g1) r).
    { intros r Hr. destruct (ClearNthBit_spec (dirty_block_str g1) c r) as (d' & Hcl' & Hb); [lia..|]. congruence. }
    exists (set_dirty g2 d). split; [done|]. cbn [dirty_block_str set_dirty]. split_and!; try done.
    + unfold ClearNthBit in Hcl. rewrite check_true in Hcl by lia. injection Hcl as <-.
      apply (land_range _ _ 64); lia.
    + unfold ClearNthBit in Hcl. rewrite check_true in Hcl by lia. injection Hcl as <-.
      apply (land_range _ _ 64); lia.
    + rewrite Z2Nat.id in Hw2 by lia.
      assert (Hw3 : written g (set_dirty g2 d)
        (λ x y, if (c * rh <=? y) && (y <? c * rh + (0 + rh)) then back g x y else G x y))
        by (destruct Hw2 as [[] ? ?]; done).
      eapply written_ext; [|exact Hw3]. intros x y _. cbv beta. by rewrite cell_lines, Z.add_0_l by lia.
Qed.

Lemma WriteBack_written g :
  gfx_ok g →
  ∃ g', WriteBack g = Done g' ∧ gfx_ok g' ∧ dirty_block_str g' = 0 ∧
    written g g' (λ x y, if (y / row_height g <? 64) && Z.testbit (dirty_block_str g) (y / row_height g)
                         then back g x y else screen g x y).
Proof.
  intros Hok. unfold WriteBack. rewrite (go_rows g Hok). set (rh := row_height g). set (d0 := dirty_block_str g).
  pose proof (go_row_bound g Hok) as Hrh. fold rh in Hrh.
  destruct (for_range_rule (λ k g1, 0 ≤ dirty_block_str g1 < 2 ^ 64 ∧
      (∀ r, 0 ≤ r → Z.testbit (dirty_block_str g1) r = (k <=? r) && Z.testbit d0 r) ∧
      written g g1 (λ x y, if (y / rh <? k) && Z.testbit d0 (y / rh) then back g x y else screen g x y))
    (Z.to_nat 64) 0 (λ x g, dirty ← GetNthBit (dirty_block_str g) x;
       if negb (dirty =? 0) then WriteBackCell x g else Done g) g) as (g' & Hg' & Hd & Hb & Hw).
  - split_and!; [apply (go_dirty g Hok)|apply (go_dirty g Hok)| |].
    + intros r Hr. by rewrite (proj2 (Z.leb_le 0 r)) by lia.
    + split; auto with cmem. intros x y [_ Hy]. cbv beta. assert (0 ≤ y / rh) by (apply Z.div_pos; lia).
      by rewrite (proj2 (Z.ltb_ge (y / rh) 0)) by lia.
  - intros k g1 Hk (Hd & Hb & Hw). rewrite GetNthBit_spec by lia. do_bind.
    assert (Hbk : Z.testbit (dirty_block_str g1) k = Z.testbit d0 k).
    { rewrite Hb by lia. by rewrite (proj2 (Z.leb_le k k)) by lia. }
    destruct (Z.testbit (dirty_block_str g1) k) eqn:Hbit; cbn [Z.b2z Z.eqb negb].
    + destruct (WriteBackCell_spec g g1 _ k Hok Hw Hd) as (g2 & Hg2 & Hd2 & Hb2 & Hw2); [lia|].
      exists g2. split; [done|]. split_and!; [apply Hd2|apply Hd2| |].
      * intros r Hr. rewrite Hb2, Hb by done.
        destruct (Z.eqb_spec r k), (Z.leb_spec k r), (Z.leb_spec (k + 1) r); (done || lia).
      * eapply written_ext; [|exact Hw2]. intros x y [_ Hy]. cbv beta. fold rh.
        destruct (Z.eqb_spec (y / rh) k) as [->|Hne].
        -- rewrite <-Hbk, (proj2 (Z.ltb_lt k (k + 1))) by lia. done.
        -- destruct (Z.ltb_spec (y / rh) k), (Z.ltb_spec (y / rh) (k + 1)); (done || lia).
    + exists g1. split; [done|]. split_and!; [lia|lia| |].
      * intros r Hr. rewrite Hb by done.
        destruct (Z.leb_spec k r), (Z.leb_spec (k + 1) r); try (done || lia).
        replace r with k by lia. by rewrite <-Hbk.
      * eapply written_ext; [|exact Hw]. intros x y [_ Hy]. cbv beta.
        destruct (Z.ltb_spec (y / rh) k), (Z.ltb_spec (y / rh) (k + 1)); try (done || lia).
        replace (y / rh) with k by lia. by rewrite <-Hbk.
  - exists g'. split; [exact Hg'|]. split; [by eapply gfx_ok_frame, Hd; [apply Hok|apply Hw]|]. split.
    + apply Z.bits_inj_0. intros r. destruct (decide (r < 0)); [by apply Z.testbit_neg_r|].
      rewrite Hb by lia. destruct (Z.leb_spec (0 + Z.of_nat (Z.to_nat 64)) r); [|done].
      by rewrite (testbit_above d0 64 r) by (apply (go_dirty g Hok) || lia).
    + by replace (0 + Z.of_nat (Z.to_nat 64)) with 64 in Hw by lia.
Qed.

(** *** Characters *)

(** Fonts with a byte for every line of every character. *)
Record font_ok (f : Font) : Prop := {
  fo_rgb : rgb_ok (font_rgb f);
  fo_width : 0 < font_width f ≤ 64;
  fo_height : 0 < font_height f;
  fo_rows : ∀ c j, 0 ≤ c < 128 → 0 ≤ j < font_height f → is_Some (glyph_row f c j);
}.

(** The bit of character [c] in column [i] of line [j]. *)
Definition glyph (f : Font) (c i j : Z) : bool :=
  match glyph_row f c j with Some row => Z.testbit row i | None => false end.

(** The pixels of the first [j] lines of a character, and the first [i] of the
    next line. *)
Definition lit (f : Font) (co : Coordinate) (c j i x y : Z) : bool :=
  (inside co (font_width f) j x y || inside (Coord (cx co) (cy co + j)) i 1 x y) &&
  glyph f c (x - cx co) (y - cy co).

Lemma strip_step X Y i x y :
  0 ≤ i → inside (Coord X Y) (i + 1) 1 x y = inside (Coord X Y) i 1 x y || (x =? X + i) && (y =? Y).
Proof.
  intros Hi. unfold inside. cbn [cx cy].
  destruct (Z.eqb_spec x (X + i)), (Z.eqb_spec y Y), (Z.leb_spec X x), (Z.ltb_spec x (X + (i + 1))),
    (Z.ltb_spec x (X + i)), (Z.leb_spec Y y), (Z.ltb_spec y (Y + 1)); cbn [andb orb]; (done || lia).
Qed.

Lemma lit_step f co c j i row :
  glyph_row f c j = Some row → 0 ≤ i →
  ∀ x y, lit f co c j (i + 1) x y =
    lit f co c j i x y || (x =? cx co + i) && (y =? cy co + j) && Z.testbit row i.
Proof.
  intros Hrow Hi x y. unfold lit. rewrite strip_step by done.
  destruct ((x =? cx co + i) && (y =? cy co + j)) eqn:He; [|by rewrite !orb_false_r].
  apply andb_prop in He as [->%Z.eqb_eq ->%Z.eqb_eq].
  replace (cx co + i - cx co) with i by lia. replace (cy co + j - cy co) with j by lia.
  unfold glyph. rewrite Hrow. rewrite !orb_true_r. cbn [andb].
  destruct (Z.testbit row i); [by rewrite orb_true_r|by rewrite andb_false_r].
Qed.

Lemma lit_next f co c j x y : 0 < font_width f → 0 ≤ j → lit f co c j (font_width f) x y = lit f co c (j + 1) 0 x y.
Proof.
  intros Hw Hj. unfold lit, inside. cbn [cx cy]. f_equal.
  destruct (Z.leb_spec (cx co) x), (Z.ltb_spec x (cx co + font_width f)), (Z.ltb_spec x (cx co + 0)),
    (Z.leb_spec (cy co) y), (Z.ltb_spec y (cy co + j)), (Z.leb_spec (cy co + j) y),
    (Z.ltb_spec y (cy co + j + 1)), (Z.ltb_spec y (cy co + (j + 1))); cbn [andb orb]; (done || lia).
Qed.

Lemma draw_line_spec g g1 f co c j row v :
  gfx_ok g → font_ok f → rect g co (font_width f) (font_height f) → 0 ≤ j < font_height f →
  glyph_row f c j = Some row → 0 ≤ v < 2 ^ 32 →
  canvas g g1 (λ x y, if lit f co c j 0 x y then v else back g x y) →
  ∃ g2, for_range (Z.to_nat (font_width f)) 0 (λ i g,
      b ← GetNthBit row i;
      if negb (b =? 0) then
        line ← int ((cy co + j) * framebuffer_width (fb g));
        index ← int (cx co + i + line);
        put_pixel g index v
      else Done g) g1 = Done g2 ∧
    canvas g g2 (λ x y, if lit f co c (j + 1) 0 x y then v else back g x y).
Proof.
  intros Hok Hfont (Hx & Hy & Hw & Hh & HxW & HyH) Hj Hrow Hv C1.
  pose proof Hok as [_ HW HH Hfit _ _ _ _ _ _]. pose proof (fo_width f Hfont) as Hfw.
  unfold BUFFER_PIXELS in Hfit.
  destruct (for_range_rule (λ i g2, canvas g g2 (λ x y, if lit f co c j i x y then v else back g x y))
    (Z.to_nat (font_width f)) 0 (λ i g, b ← GetNthBit row i;
      if negb (b =? 0) then line ← int ((cy co + j) * framebuffer_width (fb g));
        index ← int (cx co + i + line); put_pixel g index v else Done g) g1 C1) as (g2 & Hg2 & C2).
  - intros i g2 Hi C. rewrite GetNthBit_spec by lia. do_bind.
    pose proof (lit_step f co c j i row Hrow ltac:(lia)) as Hstep.
    destruct (Z.testbit row i); cbn [Z.b2z Z.eqb negb].
    + rewrite (sf_fb _ _ (cv_frame _ _ _ C)).
      rewrite int_done by (unfold INT_MIN, INT_MAX; nia). do_bind.
      rewrite int_done by (unfold INT_MIN, INT_MAX; nia). do_bind.
      destruct (canvas_put g g2 _ (cx co + i) (cy co + j) v Hok C) as (g3 & Hg3 & C3); [split; lia|done|].
      exists g3. split; [done|]. eapply canvas_ext; [|exact C3]. intros x y _. cbv beta. rewrite Hstep, andb_true_r.
      by destruct (lit f co c j i x y), ((x =? cx co + i) && (y =? cy co + j)).
    + exists g2. split; [done|]. eapply canvas_ext; [|exact C]. intros x y _. cbv beta.
      by rewrite Hstep, andb_false_r, orb_false_r.
  - exists g2. split; [done|]. eapply canvas_ext; [|exact C2]. intros x y _. cbv beta.
    by rewrite Z2Nat.id, Z.add_0_l, lit_next by lia.
Qed.

Lemma DrawChar_paints g f co c :
  gfx_ok g → font_ok f → 0 ≤ c < 128 → rect g co (font_width f) (font_height f) →
  (cy co + font_height f) / row_height g + 1 ≤ 31 →
  ∃ g', DrawChar g f co c = Done g' ∧
    paints (λ x y, if inside co (font_width f) (font_height f) x y && glyph f c (x - cx co) (y - cy co)
                   then packed (font_rgb f) (fb g) else back g x y)
      (rows_between (cy co / row_height g)
         ((cy co + font_height f) / row_height g
          + Z.b2z (0 <? (cy co + font_height f) mod row_height g))) g g'.
Proof.
  intros Hok Hfont Hc Hrect Hrows. pose proof Hrect as (Hx & Hy & Hw & Hh & HxW & HyH). unfold DrawChar.
  pose proof (go_row_bound g Hok) as Hrh. pose proof (fo_rgb f Hfont) as Hrgb.
  assert (Hv : 0 ≤ packed (font_rgb f) (fb g) < 2 ^ 32) by (apply packed_range; [done|apply Hok]).
  rewrite check_true by lia. do_bind. rewrite (PackRgb_packed (font_rgb f) (fb g)) by (done || apply Hok). do_bind.
  set (v := packed (font_rgb f) (fb g)) in *.
  match goal with |- context [for_range (Z.to_nat (font_height f)) 0 ?body g] =>
    destruct (for_range_rule (λ j g1, canvas g g1 (λ x y, if lit f co c j 0 x y then v else back g x y))
      (Z.to_nat (font_height f)) 0 body g) as (g1 & Hg1 & C1) end.
  - eapply canvas_ext; [|apply canvas_refl]. intros x y _. unfold lit, inside. cbn [cx cy].
    destruct (Z.leb_spec (cy co) y), (Z.ltb_spec y (cy co + 0)), (Z.leb_spec (cx co) x), (Z.ltb_spec x (cx co + 0));
      rewrite ?andb_false_r; cbn [andb orb]; (done || lia).
  - intros j g1 Hj C. destruct (fo_rows f Hfont c j Hc ltac:(lia)) as [row Hrow]. cbv beta. rewrite Hrow. do_bind.
    by apply (draw_line_spec g g1 f co c j row v Hok Hfont Hrect ltac:(lia) Hrow Hv).
  - rewrite Hg1. do_bind. rewrite (sf_row_height _ _ (cv_frame _ _ _ C1)).
    rewrite !int_div_done, int_rem_done by lia. do_bind.
    rewrite !Z.quot_div_nonneg, Z.rem_mod_nonneg, Z.mul_1_l by lia.
    apply canvas_mark; [done| |apply Z.div_pos; lia|destruct (0 <? _); cbn [Z.b2z]; lia].
    eapply canvas_ext; [|exact C1]. intros x y _. cbv beta. rewrite Z2Nat.id, Z.add_0_l by lia.
    enough (lit f co c (font_height f) 0 x y =
      inside co (font_width f) (font_height f) x y && glyph f c (x - cx co) (y - cy co)) as -> by done.
    unfold lit. f_equal. unfold inside at 2. cbn [cx cy].
    destruct (Z.leb_spec (cx co) x), (Z.ltb_spec x (cx co + 0)); cbn [andb]; try lia; by rewrite orb_false_r.
Qed.

(** *** Moving up *)

(** The lines of a rectangle moved up by [d]. *)
Definition moved_up (c : Coordinate) (w h d : Z) (F : Z → Z → Z) (x y : Z) : Z :=
  if inside (Coord (cx c) (cy c - d)) w h x y then F x (y + d) else F x y.

Lemma Transpose_up g c dm d :
  gfx_ok g → rect g c (width dm) (height dm) → 0 < d ≤ cy c →
  (cy c + height dm) / row_height g + 1 ≤ 31 →
  ∃ g', Transpose g c dm (-d) 0 = Done g' ∧
    paints (moved_up c (width dm) (height dm) d (back g))
      (rows_between ((cy c - d) / row_height g)
         ((cy c + height dm) / row_height g + Z.b2z (0 <? (cy c + height dm) mod row_height g))) g g'.
Proof.
  intros Hok (Hx & Hy & Hw & Hh & HxW & HyH) Hd Hrows. pose proof Hok as [_ HW HH _ _ _ _ Hrh _ _]. unfold Transpose.
  destruct (for_range_rule (λ y g1, canvas g g1 (moved_up c (width dm) (y - cy c) d (back g)))
    (Z.to_nat (height dm)) (cy c) (transpose_row c dm (-d) 0) g) as (g1 & Hg1 & C1).
  - eapply canvas_ext; [|apply canvas_refl]. intros x y _. unfold moved_up, inside. cbn [cx cy].
    destruct (Z.leb_spec (cy c - d) y), (Z.ltb_spec y (cy c - d + (cy c - cy c))); rewrite ?andb_false_r; (done || lia).
  - intros y g1 Hyr C. pose proof (cv_frame _ _ _ C) as Hfr. unfold transpose_row.
    assert (Hok1 : gfx_ok g1) by (eapply gfx_ok_frame; [done..|]; rewrite (cv_dirty _ _ _ C); apply Hok).
    rewrite u16_small by lia.
    rewrite PixelIndex_spec by (done || (unfold on_screen; rewrite (sf_fb _ _ Hfr); cbn; lia)). do_bind. cbn [cx cy].
    rewrite (int_done (cx c + 0)), (int_done (y + -d)) by (unfold INT_MIN, INT_MAX; lia). do_bind.
    rewrite !u16_small by lia.
    rewrite PixelIndex_spec by (done || (unfold on_screen; rewrite (sf_fb _ _ Hfr); cbn; lia)). do_bind. cbn [cx cy].
    rewrite (sf_fb _ _ Hfr). destruct (screen_bits g (width dm) Hok) as [Hsz Hsz8]; [lia|]. rewrite Hsz. do_bind.
    rewrite Hsz8, Z.add_0_r.
    destruct (canvas_move g g1 _ (cx c) (cx c) y (y + -d) (width dm) Hok C) as (g2 & Hg2 & C2); [lia..|].
    exists g2. split; [done|]. eapply canvas_ext; [|exact C2]. intros x y' _. cbv beta. unfold moved_up, inside. cbn [cx cy].
    replace (x - cx c + cx c) with x by lia.
    destruct (Z.leb_spec (cx c) x), (Z.ltb_spec x (cx c + width dm)); cbn [andb]; try done.
    destruct (Z.leb_spec (cy c - d) y), (Z.ltb_spec y (cy c - d + (y - cy c))); cbn [andb]; try lia.
    destruct (Z.eqb_spec y' (y + -d)) as [->|].
    + rewrite (proj2 (Z.leb_le (cy c - d) (y + -d))), (proj2 (Z.ltb_lt (y + -d) (cy c - d + (y + 1 - cy c)))) by lia.
      cbn [andb]. f_equal. lia.
    + destruct (Z.leb_spec (cy c - d) y'), (Z.ltb_spec y' (cy c - d + (y - cy c))),
        (Z.ltb_spec y' (cy c - d + (y + 1 - cy c))); cbn [andb]; (done || lia).
  - rewrite Hg1. do_bind. rewrite (proj2 (Z.ltb_ge 0 (- d))) by lia.
    do 2 (rewrite int_done by (unfold INT_MIN, INT_MAX; lia); do_bind).
    rewrite (sf_row_height _ _ (cv_frame _ _ _ C1)). rewrite !int_div_done, int_rem_done by lia. do_bind.
    rewrite !Z.quot_div_nonneg, Z.rem_mod_nonneg by lia.
    replace (cy c + - d) with (cy c - d) by lia. pose proof (Z.mod_pos_bound (cy c + height dm) (row_height g) ltac:(lia)).
    replace (negb ((cy c + height dm) mod row_height g =? 0)) with (0 <? (cy c + height dm) mod row_height g)
      by (destruct (Z.ltb_spec 0 ((cy c + height dm) mod row_height g)), (Z.eqb_spec ((cy c + height dm) mod row_height g) 0); (done || lia)).
    apply canvas_mark; [done| |apply Z.div_pos; lia|destruct (0 <? _); cbn [Z.b2z]; lia].
    eapply canvas_ext; [|exact C1]. intros x y _. cbv beta. f_equal. lia.
Qed.

(** ** Drawing in general

    Whatever the shape and the screen, a call is defined or not: there is
    nothing it waits for. *)

Definition same_rows (g g' : gfx) : Prop := fb g' = fb g ∧ row_height g' = row_height g.

Lemma int_ends z : ends (λ r, r = z) (int z).
Proof. unfold int. eapply ends_bind; [apply ends_check|done]. Qed.

Lemma PixelIndex_ends g c : ends (λ i, i = cx c + cy c * framebuffer_width (fb g)) (PixelIndex g c).
Proof. unfold PixelIndex. eapply ends_bind; [apply int_ends|]. intros p ->. apply int_ends. Qed.

Lemma ABS_RIGHT_SHIFT_ends num shift : ends (λ _, True) (ABS_RIGHT_SHIFT num shift).
Proof.
  unfold ABS_RIGHT_SHIFT. eapply ends_bind; [apply ends_check|intros _ _]. by eapply ends_bind; [apply ends_check|].
Qed.

Lemma pack_component_ends v size shift : ends (λ _, True) (pack_component v size shift).
Proof.
  unfold pack_component. eapply ends_bind; [apply ABS_RIGHT_SHIFT_ends|intros w _].
  eapply ends_bind; [apply ends_check|intros _ _]. by eapply ends_bind; [apply ends_check|].
Qed.

Lemma PackRgb_ends rgb f : ends (λ _, True) (PackRgb rgb f).
Proof.
  unfold PackRgb. destruct (negb _); [done|].
  do 3 (eapply ends_bind; [apply pack_component_ends|intros ? _]). done.
Qed.

Lemma put_pixel_ends g g1 i v : same_rows g g1 → ends (same_rows g) (put_pixel g1 i v).
Proof. intros Hs. unfold put_pixel. eapply ends_bind; [apply ends_check|by intros]. Qed.

Lemma move_pixels_ends g g1 dst src n : same_rows g g1 → ends (same_rows g) (move_pixels g1 dst src n).
Proof. intros Hs. unfold move_pixels. eapply ends_bind; [apply ends_check|by intros]. Qed.

Lemma ClearScreen_ends g rgb : ends (same_rows g) (ClearScreen g rgb).
Proof.
  unfold ClearScreen. eapply ends_bind; [apply int_ends|intros n _].
  eapply ends_bind; [apply PackRgb_ends|intros v _].
  eapply ends_bind; [apply (for_range_keeps (same_rows g)); [done|intros; by apply put_pixel_ends]|by intros].
Qed.

(** [touches P g g']: of the lines of the back buffer only those in [P] have
    changed, and nothing else. *)
Record touches (P : Z → bool) (g g' : gfx) : Prop := {
  tc_frame : same_frame g g';
  tc_dirty : dirty_block_str g' = dirty_block_str g;
  tc_pixels : ∀ x y, on_screen g x y → P y = false → back g' x y = back g x y;
  tc_outside : same_outside (buffer g) (buffer g + 4 * BUFFER_PIXELS) (gmem g) (gmem g');
}.

Lemma touches_refl P g : touches P g g.
Proof. split; auto with cmem. Qed.

Lemma touches_mono P Q g g' : (∀ y, Q y = false → P y = false) → touches P g g' → touches Q g g'.
Proof. intros HPQ []. split; auto. Qed.

(** Only the pixels with an index in a range are written. *)
Lemma touches_range P g g1 g2 i w :
  touches P g g1 → same_frame g1 g2 → dirty_block_str g2 = dirty_block_str g1 →
  (∀ k, k < i ∨ i + w ≤ k → pix g2 k = pix g1 k) →
  same_outside (buffer g1) (buffer g1 + 4 * BUFFER_PIXELS) (gmem g1) (gmem g2) →
  (∀ x y, on_screen g x y → P y = false →
     x + y * framebuffer_width (fb g) < i ∨ i + w ≤ x + y * framebuffer_width (fb g)) →
  touches P g g2.
Proof.
  intros [Hfr Hd Hp Ho] Hfr2 Hd2 Hk Ho2 Hout. split.
  - by eapply same_frame_trans.
  - congruence.
  - intros x y Hon Hy. rewrite <-(Hp x y Hon Hy). unfold back. rewrite (sf_fb _ _ Hfr2), (sf_fb _ _ Hfr). by apply Hk, Hout.
  - rewrite (sf_buffer _ _ Hfr) in Ho2. by eapply same_outside_trans.
Qed.

Lemma touches_put P g g1 i v :
  touches P g g1 →
  (∀ x y, on_screen g x y → P y = false →
     x + y * framebuffer_width (fb g) < i ∨ i + 1 ≤ x + y * framebuffer_width (fb g)) →
  ends (touches P g) (put_pixel g1 i v).
Proof.
  intros Ht Hout. unfold put_pixel. destruct (_ && _) eqn:Hi; [|done]. cbn.
  eapply (touches_range P g g1 _ i 1); [done|done|done| | |done].
  - intros k Hk. unfold pix. cbn [gmem set_gmem buffer]. apply ld_st_disjoint. lia.
  - cbn [gmem set_gmem]. apply st_outside_sub; lia.
Qed.

Lemma touches_move P g g1 dst src w :
  0 ≤ w → touches P g g1 →
  (∀ x y, on_screen g x y → P y = false →
     x + y * framebuffer_width (fb g) < dst ∨ dst + w ≤ x + y * framebuffer_width (fb g)) →
  ends (touches P g) (move_pixels g1 dst src (4 * w)).
Proof.
  intros Hw Ht Hout. unfold move_pixels. destruct (_ && _) eqn:Hi; [|done]. cbn.
  eapply (touches_range P g g1 _ dst w); [done|done|done| | |done].
  - intros k Hk. unfold pix. cbn [gmem set_gmem buffer]. apply ld_memmove_out. lia.
  - cbn [gmem set_gmem]. eapply same_outside_mono; [apply memmove_outside|lia|lia].
Qed.

Lemma GetNthBit_ends d n : ends (λ _, True) (GetNthBit d n).
Proof. unfold GetNthBit. by eapply ends_bind; [apply ends_check|]. Qed.

Lemma SetNthBit_ends d n :
  0 ≤ d < 2 ^ 64 → 0 ≤ n →
  ends (λ r, 0 ≤ r < 2 ^ 64 ∧ Z.testbit r n = true ∧ ∀ j, 0 ≤ j → Z.testbit d j = true → Z.testbit r j = true)
    (SetNthBit d n).
Proof.
  intros Hd Hn. unfold SetNthBit. destruct (Z.ltb_spec n 32); [|done]. cbn.
  assert (Hu : 0 ≤ u64 (i32 (Z.shiftl 1 n)) < 2 ^ 64) by apply u64_range. split_and!.
  - apply Z.lor_nonneg. lia.
  - apply lor_range; lia.
  - rewrite Z.lor_spec. apply orb_true_intro. right. assert (n < 31 ∨ n = 31) as [Hlt| ->] by lia; [|done].
    assert (0 ≤ Z.shiftl 1 n < 2 ^ 31).
    { rewrite Z.shiftl_1_l. split; [apply Z.pow_nonneg; lia|apply Z.pow_lt_mono_r; lia]. }
    rewrite i32_small, u64_small, testbit_shiftl_1 by lia. apply Z.eqb_refl.
  - intros j Hj Hb. by rewrite Z.lor_spec, Hb.
Qed.

(** Marking sets the bits of the rows, and perhaps others. *)
Lemma mark_rows_ends g first last :
  0 ≤ dirty_block_str g < 2 ^ 64 → 0 ≤ first →
  ends (λ g', ∃ d, g' = set_dirty g d ∧ 0 ≤ d < 2 ^ 64 ∧
    ∀ r, 0 ≤ r < 64 → Z.testbit (dirty_block_str g) r = true ∨ rows_between first last r = true → Z.testbit d r = true)
    (mark_rows g first last).
Proof.
  intros Hd Hf. unfold mark_rows. set (n := Z.to_nat (last - first)).
  eapply ends_mono; [|apply (for_range_ends (λ i g', ∃ d, g' = set_dirty g d ∧ 0 ≤ d < 2 ^ 64 ∧
    ∀ r, 0 ≤ r < 64 → Z.testbit (dirty_block_str g) r = true ∨ rows_between first i r = true → Z.testbit d r = true))].
  - intros g' (d & Hg & Hdr & Hb). exists d. split_and!; [done|lia|lia|]. intros r Hr [|Hbt]; apply Hb; [done|auto|done|].
    right. unfold rows_between in *. lia.
  - exists (dirty_block_str g). split_and!; [by destruct g|lia|lia|]. intros r Hr [|Hbt]; [done|].
    unfold rows_between in Hbt. lia.
  - intros j g' Hj (d & -> & Hdr & Hb). unfold mark_row. cbn [dirty_block_str set_dirty].
    assert (0 ≤ u16 j < 2 ^ 16) by (unfold u16; apply Z.mod_pos_bound; lia). eapply ends_bind; [apply SetNthBit_ends; lia|].
    intros d2 (Hd2 & Hbit & Hmono). cbn. exists d2. split_and!; [done|lia|lia|]. intros r Hr Hor.
    destruct (decide (r = j)) as [->|Hne]; [by rewrite u16_small in Hbit by lia|].
    apply Hmono; [lia|]. apply Hb; [done|]. destruct Hor as [|Hbt]; [by left|right]. unfold rows_between in *. lia.
Qed.

(** ** Double buffering *)

(** What is not dirty is on the screen. *)
Definition shown (g : gfx) : Prop :=
  ∀ x y, on_screen g x y → y / row_height g < 64 →
    Z.testbit (dirty_block_str g) (y / row_height g) = false → screen g x y = back g x y.

Lemma paints_shown F D g g' :
  gfx_ok g → paints F D g g' → shown g →
  (∀ x y, on_screen g x y → y / row_height g < 64 → D (y / row_height g) = false → F x y = back g x y) → shown g'.
Proof.
  intros Hok [_ [Hfb _ _ Hrh] Hp Hd Hs] Hsh HF x y. unfold on_screen. rewrite Hfb, Hrh. intros Hon Hlt Hbit.
  pose proof (go_row_bound g Hok). destruct Hon as [Hx Hy]. assert (0 ≤ y / row_height g) by (apply Z.div_pos; lia).
  rewrite Hd in Hbit by done. apply orb_false_elim in Hbit as [Hb1 Hb2].
  rewrite Hs, Hp, HF by done. by apply Hsh.
Qed.

Lemma inside_rows c w h rh last x y :
  0 < rh → (cy c + h - 1) / rh < last → rows_between (cy c / rh) last (y / rh) = false → inside c w h x y = false.
Proof.
  intros Hrh Hlast Hr. destruct (inside c w h x y) eqn:Hin; [|done]. exfalso.
  apply andb_prop in Hin as [_ [Hy1%Z.leb_le Hy2%Z.ltb_lt]%andb_prop].
  pose proof (Z.div_le_mono (cy c) y rh Hrh Hy1). pose proof (Z.div_le_mono y (cy c + h - 1) rh Hrh ltac:(lia)).
  unfold rows_between in Hr. rewrite (proj2 (Z.leb_le _ _)), (proj2 (Z.ltb_lt _ _)) in Hr by lia. done.
Qed.

(** A rectangle, perhaps empty, that lies on the screen. *)
Definition fits (g : gfx) (c : Coordinate) (w h : Z) : Prop :=
  0 ≤ cx c ∧ 0 ≤ cy c ∧ 0 ≤ w ∧ 0 ≤ h ∧ cx c + w ≤ framebuffer_width (fb g) ∧
  cy c + h ≤ framebuffer_height (fb g).

Lemma rect_fits g c w h : rect g c w h → fits g c w h.
Proof. unfold rect, fits. lia. Qed.

(** A step of a program that draws: any call of the drawing functions for a
    shape that lies on the screen.  The functions do not clip: see
    [unclipped_stale]. *)
Inductive draw_step : gfx → gfx → Prop :=
| step_clear g rgb g' : rgb_ok rgb → ClearScreen g rgb = Done g' → draw_step g g'
| step_rect g c d rgb g' : fits g c (width d) (height d) → DrawRect g c d rgb = Done g' → draw_step g g'
| step_char g f co c g' :
    fits g co (font_width f) (font_height f) → DrawChar g f co c = Done g' → draw_step g g'
| step_move g c dm down left g' :
    fits g c (width dm) (height dm) → fits g (Coord (cx c + left) (cy c + down)) (width dm) (height dm) →
    Transpose g c dm down left = Done g' → draw_step g g'
| step_write g g' : WriteBack g = Done g' → draw_step g g'.

(** The last lines of the screen belong to no cell: nothing is ever written
    there. *)
Definition bottom_kept (g g' : gfx) : Prop :=
  ∀ x y, on_screen g x y → 64 ≤ y / row_height g → screen g' x y = screen g x y.

Lemma written_shown g g' :
  gfx_ok g → shown g → dirty_block_str g' = 0 →
  written g g' (λ x y, if (y / row_height g <? 64) && Z.testbit (dirty_block_str g) (y / row_height g)
                       then back g x y else screen g x y) →
  shown g' ∧ bottom_kept g g'.
Proof.
  intros Hok Hsh Hd [[Hfb _ _ Hrh] Hb Hs]. split.
  - intros x y. unfold on_screen. rewrite Hfb, Hrh. intros Hon Hlt _. rewrite Hs, Hb by done.
    rewrite (proj2 (Z.ltb_lt _ _) Hlt). cbn [andb]. destruct (Z.testbit _ _) eqn:Hbit; [done|]. by apply Hsh.
  - intros x y Hon Hge. rewrite Hs by done. by rewrite (proj2 (Z.ltb_ge _ _) Hge).
Qed.

(** After a [ClearScreen] everything is dirty, whatever was on the screen. *)
Lemma clear_shown g rgb g' :
  gfx_ok g → rgb_ok rgb → ClearScreen g rgb = Done g' →
  gfx_ok g' ∧ same_frame g g' ∧ shown g' ∧ bottom_kept g g'.
Proof.
  intros Hok Hc Hr. destruct (ClearScreen_paints g rgb Hok Hc) as (g2 & Hg2 & P). rewrite Hr in Hg2.
  injection Hg2 as <-. split_and!; [apply P|apply P| |intros x y Hon _; by apply P].
  intros x y [_ Hy] Hlt Hbit. exfalso. pose proof (go_row_bound g' (pa_ok _ _ _ _ P)).
  assert (0 ≤ y / row_height g') by (apply Z.div_pos; lia).
  rewrite (pa_dirty _ _ _ _ P), (proj2 (Z.ltb_lt _ _) Hlt), orb_true_r in Hbit by done. done.
Qed.

Lemma last_line_row a rh : 0 < rh → (a - 1) / rh < a / rh + Z.b2z (0 <? a mod rh).
Proof.
  intros Hrh. pose proof (Z.div_mod a rh ltac:(lia)). pose proof (Z.mod_pos_bound a rh Hrh).
  apply Z.div_lt_upper_bound; [done|]. destruct (Z.ltb_spec 0 (a mod rh)); cbn [Z.b2z]; nia.
Qed.

(** What drawing does to the invariant. *)
Definition drawn (g g' : gfx) : Prop :=
  gfx_ok g' ∧ same_frame g g' ∧ (shown g → shown g') ∧ ∀ x y, on_screen g x y → screen g' x y = screen g x y.

Lemma touches_marked P g g1 first last :
  gfx_ok g → touches P g g1 → 0 ≤ first →
  (∀ y, 0 ≤ y → P y = true → rows_between first last (y / row_height g) = true) →
  ends (drawn g) (mark_rows g1 first last).
Proof.
  intros Hok [Hfr Hd Hp Ho] Hf HP. pose proof (go_row_bound g Hok).
  eapply ends_mono; [|apply mark_rows_ends; [rewrite Hd; apply Hok|done]].
  intros g2 (d & -> & Hdr & Hb). assert (Hfr2 : same_frame g (set_dirty g1 d)) by (by destruct Hfr).
  assert (Hsc : ∀ x y, on_screen g x y → screen (set_dirty g1 d) x y = screen g x y)
    by (intros x y Hon; by apply (screen_outside g (set_dirty g1 d))).
  split_and!; [by eapply gfx_ok_frame|done| |done].
  intros Hsh x y. unfold on_screen. rewrite (sf_fb _ _ Hfr2), (sf_row_height _ _ Hfr2). intros Hon Hlt Hbit.
  assert (Hr : 0 ≤ y / row_height g < 64) by (destruct Hon; split; [apply Z.div_pos; lia|done]).
  cbn [dirty_block_str set_dirty] in Hbit. specialize (Hb _ Hr). rewrite Hd, Hbit in Hb.
  rewrite (Hsc x y Hon). change (back (set_dirty g1 d) x y) with (back g1 x y). rewrite Hp; [|done|].
  - apply Hsh; [done|done|]. destruct (Z.testbit (dirty_block_str g) _); [|done]. by discriminate Hb; left.
  - destruct (P y) eqn:Hy; [|done]. discriminate Hb. right. apply HP; [apply Hon|done].
Qed.

(** The lines from [Y] to before [Y + h]. *)
Definition lines_of (Y h y : Z) : bool := (Y <=? y) && (y <? Y + h).

(** A pixel of another line is outside a span of one line. *)
Lemma other_line W x y X Y w Y0 h :
  0 ≤ x < W → lines_of Y0 h y = false → Y0 ≤ Y < Y0 + h → 0 ≤ X → 0 ≤ w → X + w ≤ W →
  x + y * W < X + Y * W ∨ X + Y * W + w ≤ x + y * W.
Proof. unfold lines_of. intros Hx Hy HY HX Hw HXw. assert (y < Y ∨ Y < y) as [?|?] by lia; [left|right]; nia. Qed.

Lemma lines_rows Y h rh last y :
  0 < rh → (Y + h - 1) / rh < last → lines_of Y h y = true → rows_between (Y / rh) last (y / rh) = true.
Proof.
  intros Hrh Hlast Hy. unfold lines_of in Hy. unfold rows_between.
  pose proof (Z.div_le_mono Y y rh Hrh ltac:(lia)). pose proof (Z.div_le_mono y (Y + h - 1) rh Hrh ltac:(lia)). lia.
Qed.

Lemma DrawRect_drawn g c d rgb :
  gfx_ok g → fits g c (width d) (height d) → ends (drawn g) (DrawRect g c d rgb).
Proof.
  intros Hok (Hx & Hy & Hw & Hh & HxW & HyH). pose proof (go_row_bound g Hok) as Hrh.
  unfold DrawRect. eapply ends_bind; [apply PackRgb_ends|intros v _].
  eapply ends_bind; [apply PixelIndex_ends|intros ? ->]. set (P := lines_of (cy c) (Z.max 1 (height d))).
  eapply ends_bind; [apply (for_range_keeps (touches P g)); [apply touches_refl|]|intros g1 H1].
  { intros k g1 Hk H1. apply touches_put; [done|]. intros x y [Hxs _] Hl.
    destruct (other_line _ x y (cx c + k) (cy c) 1 _ _ Hxs Hl) as [?|?]; [lia..|left|right]; lia. }
  rewrite (sf_fb _ _ (tc_frame _ _ _ H1)). destruct (screen_bits g (width d) Hok) as [-> Hsz]; [lia|]. do_bind.
  rewrite Hsz. eapply ends_bind; [apply (for_range_keeps (touches P g)); [done|]|intros g2 H2].
  { intros k g2 Hk H2. apply touches_move; [lia|done|]. rewrite (sf_fb _ _ (tc_frame _ _ _ H2)). intros x y [Hxs _] Hl.
    destruct (other_line _ x y (cx c) (cy c + k) (width d) _ _ Hxs Hl) as [?|?]; [lia..|left|right]; lia. }
  rewrite (sf_row_height _ _ (tc_frame _ _ _ H2)), !int_div_done, int_rem_done by lia. do_bind.
  rewrite !Z.quot_div_nonneg by lia. apply (touches_marked P); [done|done|apply Z.div_pos; lia|].
  intros y _ Hl. apply (lines_rows _ (Z.max 1 (height d))); [lia| |done].
  pose proof (Z.div_le_mono (cy c + Z.max 1 (height d) - 1) (cy c + height d) (row_height g) ltac:(lia) ltac:(lia)).
  destruct (_ =? 0); cbn [Z.b2z]; lia.
Qed.

Lemma DrawChar_drawn g f co c :
  gfx_ok g → fits g co (font_width f) (font_height f) → ends (drawn g) (DrawChar g f co c).
Proof.
  intros Hok (Hx & Hy & Hw & Hh & HxW & HyH). pose proof (go_row_bound g Hok) as Hrh.
  unfold DrawChar. eapply ends_bind; [apply ends_check|intros _ _].
  eapply ends_bind; [apply PackRgb_ends|intros v _]. set (P := lines_of (cy co) (font_height f)).
  eapply ends_bind; [apply (for_range_keeps (touches P g)); [apply touches_refl|]|intros g1 H1].
  { intros j g1 Hj H1. destruct (glyph_row f c j) as [row|]; [|done]. do_bind.
    apply (for_range_keeps (touches P g)); [done|]. intros i g2 Hi H2.
    eapply ends_bind; [apply GetNthBit_ends|intros b _].
    destruct (negb _); [|done]. rewrite (sf_fb _ _ (tc_frame _ _ _ H2)).
    eapply ends_bind; [apply int_ends|intros ? ->]. eapply ends_bind; [apply int_ends|intros ? ->].
    apply touches_put; [done|]. intros x y [Hxs _] Hl.
    destruct (other_line _ x y (cx co + i) (cy co + j) 1 _ _ Hxs Hl) as [?|?]; [lia..|left|right]; lia. }
  rewrite (sf_row_height _ _ (tc_frame _ _ _ H1)), !int_div_done, int_rem_done by lia. do_bind.
  rewrite !Z.quot_div_nonneg, Z.rem_mod_nonneg, Z.mul_1_l by lia.
  apply (touches_marked P); [done|done|apply Z.div_pos; lia|].
  intros y _ Hl. apply (lines_rows _ (font_height f)); [lia|apply last_line_row; lia|done].
Qed.

Lemma Transpose_drawn g c dm down left :
  gfx_ok g → fits g c (width dm) (height dm) →
  fits g (Coord (cx c + left) (cy c + down)) (width dm) (height dm) → ends (drawn g) (Transpose g c dm down left).
Proof.
  intros Hok (Hx & Hy & Hw & Hh & HxW & HyH) (Hx' & Hy' & _ & _ & HxW' & HyH'). cbn [cx cy] in *.
  pose proof (go_row_bound g Hok) as Hrh. pose proof (go_width g Hok) as HW. pose proof (go_height g Hok) as HH.
  unfold Transpose. set (P := lines_of (cy c + down) (height dm)).
  eapply ends_bind; [apply (for_range_keeps (touches P g)); [apply touches_refl|]|intros g1 H1].
  { intros y g1 Hyr H1. unfold transpose_row. eapply ends_bind; [apply PixelIndex_ends|intros src _].
    do 2 (eapply ends_bind; [apply int_ends|intros ? ->]). eapply ends_bind; [apply PixelIndex_ends|intros ? ->].
    rewrite (sf_fb _ _ (tc_frame _ _ _ H1)). cbn [cx cy].
    destruct (screen_bits g (width dm) Hok) as [-> Hsz]; [lia|]. do_bind. rewrite Hsz.
    destruct (decide (width dm = 0)) as [Hw0|Hw0].
    { apply touches_move; [lia|done|]. intros. lia. }
    rewrite (u16_small (cx c + left)), (u16_small (y + down)) by lia.
    apply touches_move; [lia|done|]. intros x y' [Hxs _] Hl.
    destruct (other_line _ x y' (cx c + left) (y + down) (width dm) _ _ Hxs Hl) as [?|?]; [lia..|left|right]; lia. }
  do 2 (eapply ends_bind; [apply int_ends|intros ? ->]).
  rewrite (sf_row_height _ _ (tc_frame _ _ _ H1)), !int_div_done, int_rem_done by lia. do_bind.
  set (bot := if 0 <? down then cy c + height dm + down else cy c + height dm).
  set (top := if 0 <? down then cy c else cy c + down).
  assert (Hb : 0 ≤ bot ∧ cy c + down + height dm ≤ bot) by (subst bot; destruct (Z.ltb_spec 0 down); lia).
  assert (Ht : 0 ≤ top ∧ top ≤ cy c + down) by (subst top; destruct (Z.ltb_spec 0 down); lia).
  rewrite !Z.quot_div_nonneg, Z.rem_mod_nonneg by lia. apply (touches_marked P); [done|done|apply Z.div_pos; lia|].
  intros y _ Hl. apply (lines_rows top (bot - top)); [lia| |unfold P, lines_of in *; lia].
  pose proof (last_line_row bot (row_height g) ltac:(lia)). pose proof (Z.mod_pos_bound bot (row_height g) ltac:(lia)).
  replace (top + (bot - top) - 1) with (bot - 1) by lia.
  destruct (Z.ltb_spec 0 (bot mod row_height g)), (Z.eqb_spec (bot mod row_height g) 0); cbn [Z.b2z negb] in *; lia.
Qed.

(** The invariant of double buffering is kept by every step. *)
Lemma draw_step_inv g g' :
  gfx_ok g → shown g → draw_step g g' → gfx_ok g' ∧ same_frame g g' ∧ shown g' ∧ bottom_kept g g'.
Proof.
  intros Hok Hsh Hstep.
  assert (Hdrawn : ∀ o, o = Done g' → ends (drawn g) o → gfx_ok g' ∧ same_frame g g' ∧ shown g' ∧ bottom_kept g g').
  { intros o -> (H1 & H2 & H3 & H4). split_and!; [done|done|by apply H3|]. intros x y Hon _. by apply H4. }
  destruct Hstep as [g rgb g' Hc Hr|g c d rgb g' Hrect Hr|g f co c g' Hrect Hr|g c dm down left g' H1 H2 Hr|g g' Hr].
  - by apply (clear_shown g rgb).
  - eapply Hdrawn; [exact Hr|by apply DrawRect_drawn].
  - eapply Hdrawn; [exact Hr|by apply DrawChar_drawn].
  - eapply Hdrawn; [exact Hr|by apply Transpose_drawn].
  - destruct (WriteBack_written g Hok) as (g2 & Hg2 & Hok2 & Hd2 & Hw). rewrite Hr in Hg2. injection Hg2 as <-.
    destruct (written_shown g g' Hok Hsh Hd2 Hw) as [? ?]. split_and!; [done|apply Hw|done|done].
Qed.

Lemma draw_steps_inv g g' :
  gfx_ok g → shown g → rtc draw_step g g' → gfx_ok g' ∧ same_frame g g' ∧ shown g' ∧ bottom_kept g g'.
Proof.
  intros Hok Hsh Hs. revert Hok Hsh. induction Hs as [g|g1 g2 g3 H12 _ IH]; intros Hok Hsh.
  - split_and!; [done|done|done|by intros x y].
  - destruct (draw_step_inv g1 g2 Hok Hsh H12) as (Hok2 & Hf2 & Hsh2 & Hb2).
    destruct (IH Hok2 Hsh2) as (Hok3 & Hf3 & Hsh3 & Hb3). split_and!; [done|by eapply same_frame_trans|done|].
    intros x y Hon Hge. rewrite <-(Hb2 x y Hon Hge). apply Hb3.
    + unfold on_screen. by rewrite (sf_fb _ _ Hf2).
    + by rewrite (sf_row_height _ _ Hf2).
Qed.

(** Row 32 of cells cannot be marked. *)
Lemma mark_rows_undefined g first last :
  0 ≤ first ≤ 32 → 32 < last → mark_rows g first last = Undefined.
Proof.
  intros Hf Hl. unfold mark_rows. remember (Z.to_nat (32 - first)) as k eqn:Hk.
  assert (Hn : Z.to_nat (last - first) = (k + S (Z.to_nat (last - 33)))%nat) by lia. rewrite Hn. clear Hn.
  revert first g Hk Hf. induction k as [|k IH]; intros first g Hk Hf.
  - replace first with 32 by lia. done.
  - cbn [Nat.add for_range]. assert (∃ g', mark_row first g = Done g') as [g' ->].
    { unfold mark_row, SetNthBit. rewrite u16_small, check_true by lia. do_bind. by eexists. }
    do_bind.
    apply IH; lia.
Qed.

(** *** Rectangles that cannot be marked *)

(** Cells without lines, or the row of cells with the number 32 among those to
    be marked. *)
Lemma DrawRect_too_low g c d rgb :
  row_height g = 0 ∨ (0 ≤ Z.quot (cy c) (row_height g) ≤ 32 ∧ 32 ≤ Z.quot (cy c + height d) (row_height g)) →
  DrawRect g c d rgb = Undefined.
Proof.
  intros Hrows. apply ends_undefined. unfold DrawRect. eapply ends_bind; [apply PackRgb_ends|intros v _].
  eapply ends_bind; [apply PixelIndex_ends|intros dest _].
  eapply ends_bind; [apply (for_range_keeps (same_rows g)); [done|intros; by apply put_pixel_ends]|intros g1 Hg1].
  eapply ends_bind; [apply int_ends|intros size _].
  eapply ends_bind; [apply (for_range_keeps (same_rows g)); [done|intros; by apply move_pixels_ends]|intros g2 [_ Hg2]].
  rewrite Hg2. destruct Hrows as [->|[H1 H2]]; [done|].
  destruct (decide (row_height g = 0)) as [->|Hne]; [done|].
  unfold int_div, int_rem. rewrite !check_true by (apply negb_true_iff; by apply Z.eqb_neq). do_bind.
  rewrite mark_rows_undefined; [done|lia|]. destruct (_ =? 0); cbn [Z.b2z]; lia.
Qed.

(** ** Properties *)

(** C15: Double buffering: on a screen cleared once and then drawn to by any
    calls of [DrawRect], [DrawChar] and [Transpose] that are defined and whose
    shapes - source and destination - lie on the screen, in any order, with
    further [ClearScreen]s and [WriteBack]s between them, a [WriteBack] makes
    every line of the 64 rows of cells show the back buffer, and leaves nothing
    dirty; the lines below them, as many as are left when the height is divided
    by 64, are never written to the screen.  The functions do not clip: for a
    shape that sticks out of the screen the statement is false. *)
Theorem double_buffering g0 rgb g1 g2 :
  gfx_ok g0 → rgb_ok rgb → ClearScreen g0 rgb = Done g1 → rtc draw_step g1 g2 →
  ∃ g3, WriteBack g2 = Done g3 ∧ dirty_block_str g3 = 0 ∧
    (∀ x y, on_screen g0 x y → back g3 x y = back g2 x y) ∧
    (∀ x y, on_screen g0 x y → y < 64 * row_height g0 → screen g3 x y = back g2 x y) ∧
    (∀ x y, on_screen g0 x y → 64 * row_height g0 ≤ y → screen g3 x y = screen g0 x y).
Proof.
  intros Hok Hrgb Hcl Hsteps. destruct (clear_shown g0 rgb g1 Hok Hrgb Hcl) as (Hok1 & Hf1 & Hsh1 & Hb1).
  destruct (draw_steps_inv g1 g2 Hok1 Hsh1 Hsteps) as (Hok2 & Hf2 & Hsh2 & Hb2).
  destruct (WriteBack_written g2 Hok2) as (g3 & Hg3 & Hok3 & Hd3 & Hw).
  destruct (written_shown g2 g3 Hok2 Hsh2 Hd3 Hw) as [Hsh3 Hb3].
  pose proof (same_frame_trans _ _ _ Hf1 Hf2) as Hf02. pose proof (wr_frame _ _ _ Hw) as Hf23.
  pose proof (go_row_bound g0 Hok) as Hrh.
  assert (Hon : ∀ x y, on_screen g0 x y → on_screen g2 x y ∧ on_screen g1 x y ∧ on_screen g3 x y).
  { intros x y. unfold on_screen. by rewrite (sf_fb _ _ Hf23), (sf_fb _ _ Hf02), (sf_fb _ _ Hf1). }
  exists g3. split_and!; [done|done| | |].
  - intros x y (Ho2 & _)%Hon. by apply Hw.
  - intros x y Ho Hlt. destruct (Hon x y Ho) as (Ho2 & _ & Ho3). rewrite <-(wr_back _ _ _ Hw x y Ho2).
    apply (Hsh3 x y Ho3).
    + rewrite (sf_row_height _ _ Hf23), (sf_row_height _ _ Hf02). apply Z.div_lt_upper_bound; lia.
    + rewrite Hd3. apply Z.bits_0.
  - intros x y Ho Hge. destruct (Hon x y Ho) as (Ho2 & Ho1 & _).
    assert (Hrow : 64 ≤ y / row_height g0) by (apply Z.div_le_lower_bound; lia).
    rewrite (Hb3 x y Ho2) by by rewrite (sf_row_height _ _ Hf02).
    rewrite (Hb2 x y Ho1) by by rewrite (sf_row_height _ _ Hf1). by apply Hb1.
Qed.

(** A rectangle ten times as wide as the screen is drawn over its first ten
    lines, but only the rows of its height are marked: after a [WriteBack], with
    nothing dirty, the screen still shows the old sixth line. *)
Definition narrow_fb : framebuffer := Framebuffer 0x4000000 64 64 256 32 1 8 16 8 8 8 0.
Definition narrow_gfx : gfx := InitGraphicsCtx narrow_fb 0x1000000 ∅.

Lemma narrow_gfx_ok : gfx_ok narrow_gfx.
Proof.
  split; [split; vm_compute; intuition (discriminate || done)|vm_compute; intuition (discriminate || done)..].
Qed.

Theorem unclipped_stale :
  (g ← ClearScreen narrow_gfx (Rgb 0 0 0);
   g ← WriteBack g;
   g ← DrawRect g (Coord 0 0) (Dims 640 1) (Rgb 255 255 255);
   g ← WriteBack g;
   Done (dirty_block_str g, back g 0 5, screen g 0 5)) = Done (0, packed (Rgb 255 255 255) narrow_fb, 0).
Proof. vm_compute. reflexivity. Qed.

(** [DrawRect] fills its rectangle and nothing else, and marks the rows it
    has changed; but a rectangle that begins in the upper half of the screen
    and reaches the 33rd of the 64 rows of cells makes it shift by too much. *)
Theorem DrawRect_spec g c d rgb :
  gfx_ok g → rgb_ok rgb → rect g c (width d) (height d) →
  ((cy c + height d) / row_height g + 2 ≤ 31 →
    ∃ g', DrawRect g c d rgb = Done g' ∧ same_frame g g' ∧
      (∀ x y, on_screen g x y →
        back g' x y = if inside c (width d) (height d) x y then packed rgb (fb g) else back g x y) ∧
      (∀ x y, on_screen g x y → screen g' x y = screen g x y) ∧
      (∀ y, cy c ≤ y < cy c + height d → Z.testbit (dirty_block_str g') (y / row_height g) = true)) ∧
  (cy c / row_height g ≤ 32 → 32 ≤ (cy c + height d) / row_height g → DrawRect g c d rgb = Undefined).
Proof.
  intros Hok Hrgb Hrect. pose proof (go_row_bound g Hok) as Hrh. pose proof Hrect as (_ & Hy & _). split.
  - intros Hrows. destruct (DrawRect_paints g c d rgb Hok Hrgb Hrect Hrows) as (g' & Hg' & P).
    exists g'. split_and!; [done|apply P|apply P|apply P|]. intros y Hyc.
    pose proof (Z.div_le_mono (cy c) y (row_height g) ltac:(lia) ltac:(lia)).
    pose proof (Z.div_le_mono y (cy c + height d) (row_height g) ltac:(lia) ltac:(lia)).
    rewrite (pa_dirty _ _ _ _ P) by (apply Z.div_pos; lia). unfold rows_between.
    rewrite (proj2 (Z.leb_le _ _)), (proj2 (Z.ltb_lt _ _)) by (done || destruct (_ =? 0); cbn [Z.b2z]; lia).
    apply orb_true_r.
  - intros H1 H2. destruct (DrawRect_canvas g c d rgb Hok Hrgb Hrect) as (g2 & -> & _).
    apply mark_rows_undefined; [split; [apply Z.div_pos; lia|done]|destruct (_ =? 0); cbn [Z.b2z]; lia].
Qed.

(** [DrawChar] draws exactly the bits of the character's bitmap, in the
    colour of the font; the other pixels of its box keep what they showed. *)
Theorem DrawChar_spec g f co c :
  gfx_ok g → font_ok f → 0 ≤ c < 128 → rect g co (font_width f) (font_height f) →
  (cy co + font_height f) / row_height g + 1 ≤ 31 →
  ∃ g', DrawChar g f co c = Done g' ∧ same_frame g g' ∧
    (∀ i j, 0 ≤ i < font_width f → 0 ≤ j < font_height f →
      back g' (cx co + i) (cy co + j) =
        if glyph f c i j then packed (font_rgb f) (fb g) else back g (cx co + i) (cy co + j)) ∧
    (∀ x y, on_screen g x y → inside co (font_width f) (font_height f) x y = false → back g' x y = back g x y) ∧
    (∀ x y, on_screen g x y → screen g' x y = screen g x y).
Proof.
  intros Hok Hf Hc Hrect Hrows. destruct (DrawChar_paints g f co c Hok Hf Hc Hrect Hrows) as (g' & Hg' & P).
  destruct Hrect as (Hx & Hy & Hw & Hh & HxW & HyH).
  exists g'. split_and!; [done|apply P| | |apply P].
  - intros i j Hi Hj. rewrite (pa_pixels _ _ _ _ P) by (split; lia). unfold inside.
    rewrite (proj2 (Z.leb_le (cx co) (cx co + i))), (proj2 (Z.ltb_lt (cx co + i) (cx co + font_width f))),
      (proj2 (Z.leb_le (cy co) (cy co + j))), (proj2 (Z.ltb_lt (cy co + j) (cy co + font_height f))) by lia.
    cbn [andb].
    by replace (cx co + i - cx co) with i by lia; replace (cy co + j - cy co) with j by lia.
  - intros x y Hon Hin. by rewrite (pa_pixels _ _ _ _ P x y Hon), Hin.
Qed.

(** The kernel's font is one. *)
Lemma GnuFont_ok rgb : rgb_ok rgb → font_ok (InitGnuFont rgb (Dims 9 16)).
Proof.
  intros Hrgb. split; [done|vm_compute; split; [reflexivity|discriminate]|reflexivity|]. intros c j Hc Hj. unfold glyph_row.
  change (font_height _) with 16 in Hj. change (matrix _) with GnuFontBitmap.
  destruct (lookup_lt_is_Some_2 GnuFontBitmap (Z.to_nat c)) as [row Hrow];
    [change (length GnuFontBitmap) with 128%nat; lia|].
  rewrite Hrow. cbn [mbind option_bind]. apply lookup_lt_is_Some_2. rewrite (GnuFontBitmap_rows _ _ Hrow). lia.
Qed.

(** ** Witnesses *)

(** A screen of 1024 by 768 pixels, with the back buffer below it. *)
Definition ex_fb : framebuffer := Framebuffer 0x4000000 1024 768 4096 32 1 8 16 8 8 8 0.
Definition ex_gfx : gfx := InitGraphicsCtx ex_fb 0x1000000 ∅.

Lemma ex_gfx_ok : gfx_ok ex_gfx.
Proof.
  split; [split; vm_compute; intuition (discriminate || done)|vm_compute; intuition (discriminate || done)..].
Qed.

Definition white : RGB := Rgb 255 255 255.
Lemma white_ok : rgb_ok white.
Proof. unfold rgb_ok. cbn. lia. Qed.

Lemma PackRgb_spec_witness : ∃ p, PackRgb (Rgb 1 2 3) ex_fb = Done p ∧ get_bits p 16 8 = 1.
Proof.
  destruct (PackRgb_spec (Rgb 1 2 3) ex_fb) as (H & _); [unfold rgb_ok; cbn; lia|cbn; lia..|].
  destruct (H (go_colours _ ex_gfx_ok)) as (p & H1 & _ & H2 & _). exists p. split; [exact H1|exact H2].
Defined.

Lemma DrawRect_spec_witness : ∃ g,
  DrawRect ex_gfx (Coord 10 20) (Dims 30 40) white = Done g ∧ back g 12 25 = packed white ex_fb ∧
  DrawRect ex_gfx (Coord 0 0) (Dims 1024 384) white = Undefined.
Proof.
  destruct (DrawRect_spec ex_gfx (Coord 10 20) (Dims 30 40) white ex_gfx_ok white_ok) as (H & _);
    [unfold rect; cbn; lia|].
  destruct H as (g & H1 & _ & H2 & _); [vm_compute; discriminate|]. exists g. split; [exact H1|].
  split; [apply (H2 12 25); split; cbn; lia|].
  apply (DrawRect_spec ex_gfx (Coord 0 0) (Dims 1024 384) white ex_gfx_ok white_ok);
    [unfold rect; cbn; lia|vm_compute; discriminate..].
Defined.

Lemma DrawChar_spec_witness : ∃ g,
  DrawChar ex_gfx (InitGnuFont white (Dims 9 16)) (Coord 0 0) 70 = Done g ∧
  back g 1 2 = packed white ex_fb.
Proof.
  destruct (DrawChar_spec ex_gfx (InitGnuFont white (Dims 9 16)) (Coord 0 0) 70 ex_gfx_ok (GnuFont_ok _ white_ok))
    as (g & H1 & _ & H2 & _); [lia|vm_compute; intuition discriminate|vm_compute; discriminate|].
  exists g. split; [exact H1|].
  apply (H2 1 2); (vm_compute; split; [discriminate|reflexivity]).
Defined.

Lemma double_buffering_witness : ∃ g1 g2 g3,
  ClearScreen ex_gfx (Rgb 0 0 0) = Done g1 ∧ DrawRect g1 (Coord 10 20) (Dims 30 40) white = Done g2 ∧
  WriteBack g2 = Done g3 ∧ screen g3 12 25 = back g2 12 25.
Proof.
  assert (Hb : rgb_ok (Rgb 0 0 0)) by (unfold rgb_ok; cbn; lia).
  destruct (ClearScreen_paints ex_gfx _ ex_gfx_ok Hb) as (g1 & H1 & P1). pose proof (pa_frame _ _ _ _ P1) as Hf.
  assert (Hrect : rect g1 (Coord 10 20) 30 40) by (unfold rect; rewrite (sf_fb _ _ Hf); cbn; lia).
  assert (Hrows : (20 + 40) / row_height g1 + 2 ≤ 31) by (rewrite (sf_row_height _ _ Hf); vm_compute; discriminate).
  destruct (DrawRect_paints g1 (Coord 10 20) (Dims 30 40) white (pa_ok _ _ _ _ P1) white_ok Hrect Hrows)
    as (g2 & H2 & _).
  destruct (double_buffering ex_gfx (Rgb 0 0 0) g1 g2 ex_gfx_ok Hb H1) as (g3 & H3 & _ & _ & H4 & _).
  { eapply rtc_l; [exact (step_rect g1 (Coord 10 20) (Dims 30 40) white g2 (rect_fits _ _ _ _ Hrect) H2)|apply rtc_refl]. }
  exists g1, g2, g3. split; [exact H1|]. split; [exact H2|]. split; [exact H3|].
  apply H4; [split; cbn; lia|vm_compute; reflexivity].
Defined.
