(* ===== verification/Terminal.v ===== *)
(** * The terminal

    [src/src/kernel/graphics/terminal.c]: a window that prints characters at a
    cursor, wraps and scrolls, and answers keystrokes. *)
From stdpp Require Import base list gmap.
From S2P Require Import Prelude Memory Bitfields Font Graphics Keyboard.
Open Scope Z_scope.

(** ** State *)

Record Terminal := Term {
  dims : Dimensions;
  font : Font;
  chars_per_line : Z;
  num_lines : Z;
  top_left : Coordinate;
  cursor : Coordinate;
  bg_color : RGB;
  border_color : RGB;
  border_thickness : Z;
  prompt : list Z;
}.
Definition set_cursor (t : Terminal) (x y : Z) : Terminal :=
  Term (dims t) (font t) (chars_per_line t) (num_lines t) (top_left t) (Coord x y)
    (bg_color t) (border_color t) (border_thickness t) (prompt t).

(** Every function that takes a pointer is given that of the static
    [main_term], which is part of the state with the graphics context. *)
Record tstate := Tstate { main_term : Terminal; gctx : gfx }.
Definition set_gctx (s : tstate) (g : gfx) : tstate := Tstate (main_term s) g.
Definition set_term (s : tstate) (t : Terminal) : tstate := Tstate t (gctx s).

(** ** Operations *)

(** One turn of the loop of [Scroll]. *)
Definition scroll_line (i : Z) (s : tstate) : outcome tstate :=
  let t := main_term s in
  let row_top_left := Coord (cx (top_left t)) (u16 (i * font_height (font t) + cy (top_left t))) in
  let row_dims := Dims (width (dims t)) (font_height (font t)) in
  g ← Transpose (gctx s) row_top_left row_dims (- font_height (font t)) 0;
  g ← WriteBack g;
  Done (set_gctx s g).

Definition Scroll (s : tstate) : outcome tstate :=
  s ← for_range (Z.to_nat (num_lines (main_term s))) 1 scroll_line s;
  let t := main_term s in
  let final_rect_top_left :=
    Coord (cx (top_left t)) (u16 (cy (top_left t) + font_height (font t) * (num_lines t - 1))) in
  let final_rect_dims := Dims (width (dims t)) (font_height (font t)) in
  g ← DrawRect (gctx s) final_rect_top_left final_rect_dims (bg_color t);
  g ← WriteBack g;
  Done (set_gctx s g).

Definition TermNewLine (s : tstate) : outcome tstate :=
  let t := main_term s in
  let s := set_term s (set_cursor t 0 (cy (cursor t))) in
  if height (dims t) <? cy (cursor t) + font_height (font t) * 2 then Scroll s
  else Done (set_term s (set_cursor t 0 (u16 (cy (cursor t) + font_height (font t))))).

(** The body of the loop of [TermPrint]. *)
Definition put_char (s : tstate) (c : Z) : outcome tstate :=
  let t := main_term s in
  let max_y := width (dims t) - border_thickness t * 6 in
  s ← (if (c =? 10) || (max_y <? cx (cursor t)) then TermNewLine s
       else Done (set_term s (set_cursor t (u16 (cx (cursor t) + font_width (font t))) (cy (cursor t)))));
  let t := main_term s in
  let char_coords := Coord (u16 (cx (top_left t) + cx (cursor t))) (u16 (cy (top_left t) + cy (cursor t))) in
  g ← DrawChar (gctx s) (font t) char_coords c;
  Done (set_gctx s g).

Fixpoint TermPrint (s : tstate) (str : list Z) : outcome tstate :=
  match str with
  | [] => Done s
  | c :: str => s ← put_char s c; TermPrint s str
  end.
Definition TermPrintMain (s : tstate) (str : list Z) : outcome tstate := TermPrint s str.

Definition RenderBorders (s : tstate) : outcome tstate :=
  let t := main_term s in
  let tl := Coord (u16 (cx (top_left t) - border_thickness t)) (u16 (cy (top_left t) - border_thickness t)) in
  let d := Dims (u16 (width (dims t) + border_thickness t * 2)) (u16 (height (dims t) + border_thickness t * 2)) in
  g ← DrawRect (gctx s) tl d (border_color t);
  Done (set_gctx s g).

Definition Render (s : tstate) : outcome tstate :=
  s ← RenderBorders s;
  g ← DrawRect (gctx s) (top_left (main_term s)) (dims (main_term s)) (bg_color (main_term s));
  TermPrint (set_gctx s g) (prompt (main_term s)).
Definition RenderMain (s : tstate) : outcome tstate := Render s.

(** The terminal that is returned is the one before the prompt was printed. *)
Definition InitTerminal (g : gfx) (d : Dimensions) (tl : Coordinate) (f : Font) (bg border : RGB) (thickness : Z)
    (p : list Z) : outcome (Terminal * tstate) :=
  cpl ← int_div (width d) (font_width f);
  lines ← int_div (height d) (font_height f);
  let term := Term (Dims (u16 (width d - thickness * 2)) (u16 (height d - thickness * 2))) f (u16 cpl) (u16 lines)
    (Coord (u16 (cx tl + thickness)) (u16 (cy tl + thickness))) (Coord 0 0) bg border thickness p in
  s ← Render (Tstate term g);
  Done (term, s).

Definition RemoveChar (s : tstate) : outcome tstate :=
  let t := main_term s in
  if (cx (cursor t) =? 0) && (cy (cursor t) =? 0) then Done s
  else
    let char_width := font_width (font t) in
    let char_height := font_height (font t) in
    let char_coords := Coord (u16 (cx (top_left t) + cx (cursor t))) (u16 (cy (top_left t) + cy (cursor t))) in
    g ← DrawRect (gctx s) char_coords (Dims char_width char_height) (bg_color t);
    Done (Tstate
      (if cx (cursor t) =? 0 then
         set_cursor t (u16 ((chars_per_line t - 1) * char_width)) (u16 (cy (cursor t) - char_height))
       else set_cursor t (u16 (cx (cursor t) - char_width)) (cy (cursor t))) g).

(** The string of one character; the character 0 ends it. *)
Definition HandleKeyStroke (s : tstate) (key_info : KeyInfo) : outcome tstate :=
  c ← CharFromScancode key_info;
  s ← (if backspace key_info then RemoveChar s
       else if enter key_info then
         s ← TermNewLine s; TermPrint s (prompt (main_term s))
       else TermPrint s (if c =? 0 then [] else [c]));
  g ← WriteBack (gctx s);
  Done (set_gctx s g).

(** ** Invariant *)

(** How far right the cursor can be, and the size of the window the terminal
    draws in. *)
Definition cursor_max (t : Terminal) : Z :=
  Z.max (width (dims t) - border_thickness t * 6 + font_width (font t))
        ((chars_per_line t - 1) * font_width (font t)).
Definition window_width (t : Terminal) : Z := Z.max (width (dims t)) (cursor_max t + font_width (font t)).
Definition window_height (t : Terminal) : Z :=
  Z.max (height (dims t)) (num_lines t * font_height (font t)).

Definition ascii (c : Z) : Prop := 0 ≤ c < 128.

(** The window, and one more line, lie on the upper half of the screen. *)
Record term_ok (g : gfx) (t : Terminal) : Prop := {
  t_font : font_ok (font t);
  t_colour : rgb_ok (bg_color t);
  t_prompt : Forall ascii (prompt t);
  t_thickness : 0 ≤ border_thickness t;
  t_width : 0 < width (dims t);
  t_lines : 1 ≤ num_lines t;
  t_chars : 1 ≤ chars_per_line t;
  t_origin : 0 ≤ cx (top_left t) ∧ 0 ≤ cy (top_left t);
  t_right : cx (top_left t) + window_width t ≤ framebuffer_width (fb g);
  t_height : height (dims t) ≤ (num_lines t + 1) * font_height (font t);
  t_bottom : cy (top_left t) + (num_lines t + 1) * font_height (font t) ≤ framebuffer_height (fb g);
  t_rows : (cy (top_left t) + (num_lines t + 1) * font_height (font t)) / row_height g + 2 ≤ 31;
  t_cursor_x : 0 ≤ cx (cursor t) ≤ cursor_max t ∧ cx (cursor t) mod font_width (font t) = 0;
  t_cursor_y : 0 ≤ cy (cursor t) ∧ cy (cursor t) + font_height (font t) ≤ height (dims t) ∧
    cy (cursor t) mod font_height (font t) = 0;
}.

Record tstate_ok (s : tstate) : Prop := {
  ts_gfx : gfx_ok (gctx s);
  ts_term : term_ok (gctx s) (main_term s);
}.

(** What every operation guarantees: it draws in steps that are defined, only
    inside the window, and leaves the terminal as it is but for the cursor. *)
Record kept (s s' : tstate) : Prop := {
  k_ok : tstate_ok s';
  k_steps : rtc draw_step (gctx s) (gctx s');
  k_frame : same_frame (gctx s) (gctx s');
  k_static : ∃ x y, main_term s' = set_cursor (main_term s) x y;
  k_outside : ∀ x y, on_screen (gctx s) x y →
    inside (top_left (main_term s)) (window_width (main_term s)) (window_height (main_term s)) x y = false →
    back (gctx s') x y = back (gctx s) x y;
}.

(** ** Lemmas *)

Lemma set_cursor_same t : set_cursor t (cx (cursor t)) (cy (cursor t)) = t.
Proof. by destruct t as [? ? ? ? ? []]. Qed.

Lemma kept_refl s : tstate_ok s → kept s s.
Proof.
  intros Hok. split; [done|apply rtc_refl|done| |done].
  exists (cx (cursor (main_term s))), (cy (cursor (main_term s))). by rewrite set_cursor_same.
Qed.

Lemma kept_trans s1 s2 s3 : kept s1 s2 → kept s2 s3 → kept s1 s3.
Proof.
  intros [Hok2 Hs12 Hf12 (x & y & Ht2) Ho12] [Hok3 Hs23 Hf23 (x' & y' & Ht3) Ho23]. split.
  - done.
  - by trans (gctx s2).
  - by eapply same_frame_trans.
  - exists x', y'. by rewrite Ht3, Ht2.
  - intros x0 y0 Hon Hin. rewrite Ht2 in Ho23. rewrite Ho23; [by apply Ho12| |exact Hin].
    unfold on_screen. by rewrite (sf_fb _ _ Hf12).
Qed.

Lemma term_ok_frame g g' t : term_ok g t → same_frame g g' → term_ok g' t.
Proof. intros [] [Hf _ _ Hr]. split; rewrite ?Hf, ?Hr; done. Qed.

(** Moving the cursor to a position the invariant allows. *)
Lemma term_ok_cursor g t x y :
  term_ok g t → 0 ≤ x ≤ cursor_max t → x mod font_width (font t) = 0 → 0 ≤ y →
  y + font_height (font t) ≤ height (dims t) → y mod font_height (font t) = 0 → term_ok g (set_cursor t x y).
Proof. intros [] ? ? ? ? ?. by split. Qed.

Lemma kept_cursor s x y :
  tstate_ok s → term_ok (gctx s) (set_cursor (main_term s) x y) →
  kept s (set_term s (set_cursor (main_term s) x y)).
Proof.
  intros [Hg Ht] Hc. split; [by split|apply rtc_refl|done|by exists x, y|done].
Qed.

(** One drawing step of which the picture only differs inside the window. *)
Lemma kept_paints s F D g' :
  tstate_ok s → draw_step (gctx s) g' → paints F D (gctx s) g' →
  (∀ x y, on_screen (gctx s) x y →
    inside (top_left (main_term s)) (window_width (main_term s)) (window_height (main_term s)) x y = false →
    F x y = back (gctx s) x y) →
  kept s (set_gctx s g').
Proof.
  intros [Hg Ht] Hstep P HF. split.
  - split; [apply P|]. eapply term_ok_frame; [done|apply P].
  - by eapply rtc_l; [|apply rtc_refl].
  - apply P.
  - exists (cx (cursor (main_term s))), (cy (cursor (main_term s))). cbn. by rewrite set_cursor_same.
  - intros x y Hon Hin. cbn [gctx set_gctx]. by rewrite (pa_pixels _ _ _ _ P) by done; apply HF.
Qed.

Lemma kept_write s :
  tstate_ok s → ∃ g', WriteBack (gctx s) = Done g' ∧ dirty_block_str g' = 0 ∧ kept s (set_gctx s g').
Proof.
  intros [Hg Ht]. destruct (WriteBack_written _ Hg) as (g' & Hg' & Hok' & Hd & Hw). exists g'.
  split; [done|]. split; [done|]. split.
  - split; [done|]. eapply term_ok_frame; [done|apply Hw].
  - eapply rtc_l; [by apply step_write|apply rtc_refl].
  - apply Hw.
  - exists (cx (cursor (main_term s))), (cy (cursor (main_term s))). cbn. by rewrite set_cursor_same.
  - intros x y Hon _. by apply Hw.
Qed.

(** A box inside the window. *)
Lemma inside_window t c w h x y :
  cx (top_left t) ≤ cx c → cx c + w ≤ cx (top_left t) + window_width t →
  cy (top_left t) ≤ cy c → cy c + h ≤ cy (top_left t) + window_height t →
  inside (top_left t) (window_width t) (window_height t) x y = false → inside c w h x y = false.
Proof.
  intros Hx1 Hx2 Hy1 Hy2. unfold inside.
  destruct (Z.leb_spec (cx c) x), (Z.ltb_spec x (cx c + w)), (Z.leb_spec (cy c) y), (Z.ltb_spec y (cy c + h));
    cbn [andb]; try done.
  rewrite (proj2 (Z.leb_le (cx (top_left t)) x)), (proj2 (Z.ltb_lt x (cx (top_left t) + window_width t))),
    (proj2 (Z.leb_le (cy (top_left t)) y)), (proj2 (Z.ltb_lt y (cy (top_left t) + window_height t))) by lia.
  done.
Qed.

(** A box above the end of the line after the last one. *)
Lemma box_rows g t y h :
  gfx_ok g → term_ok g t → y + h ≤ cy (top_left t) + (num_lines t + 1) * font_height (font t) →
  (y + h) / row_height g + 2 ≤ 31 ∧ y + h ≤ framebuffer_height (fb g).
Proof.
  intros Hg Ht Hy. pose proof (t_rows g t Ht). pose proof (t_bottom g t Ht). pose proof (go_row_bound g Hg).
  pose proof (Z.div_le_mono _ _ (row_height g) ltac:(lia) Hy). lia.
Qed.

Lemma font_bounds g t :
  term_ok g t → 0 < font_width (font t) ∧ 0 < font_height (font t) ∧
  (num_lines t + 1) * font_height (font t) = num_lines t * font_height (font t) + font_height (font t).
Proof.
  intros Ht. pose proof (fo_width _ (t_font g t Ht)). pose proof (fo_height _ (t_font g t Ht)). lia.
Qed.

(** ** The operations *)

Lemma scroll_line_kept s i :
  tstate_ok s → 1 ≤ i ≤ num_lines (main_term s) → ∃ s', scroll_line i s = Done s' ∧ kept s s'.
Proof.
  intros Hok Hi. pose proof Hok as [Hg Ht]. set (t := main_term s) in *.
  destruct (font_bounds _ t Ht) as (Hfw & Hfh & Hmul). pose proof (t_width _ _ Ht). pose proof (t_bottom _ _ Ht).
  pose proof (t_origin _ _ Ht). pose proof (t_right _ _ Ht). pose proof (go_height _ Hg). unfold scroll_line. fold t.
  assert (Hbox : i * font_height (font t) + cy (top_left t) + font_height (font t)
    ≤ cy (top_left t) + (num_lines t + 1) * font_height (font t)) by nia.
  destruct (box_rows _ t _ _ Hg Ht Hbox) as [Hrows Hbot].
  assert (Hpos : font_height (font t) ≤ i * font_height (font t)) by nia.
  rewrite u16_small by lia.
  set (c := Coord _ _). set (dm := Dims _ _).
  assert (Hrect : rect (gctx s) c (width dm) (height dm)).
  { unfold rect, c, dm. cbn [cx cy width height]. unfold window_width in *. lia. }
  destruct (Transpose_up (gctx s) c dm (font_height (font t)) Hg Hrect) as (g1 & Hg1 & P);
    [unfold c; cbn [cy]; lia|unfold c, dm; cbn [cy height]; lia|].
  rewrite Hg1. do_bind.
  assert (K1 : kept s (set_gctx s g1)).
  { eapply kept_paints; [done| |exact P|].
    - apply (step_move _ c dm (- font_height (font t)) 0); [by apply rect_fits| |exact Hg1].
      destruct Hrect as (?&?&?&?&?&?). unfold fits. unfold c, dm in *. cbn [cx cy width height] in *. lia.
    - intros x y _ Hin. unfold moved_up.
      rewrite (inside_window t _ (width dm) (height dm) x y); [done|..|exact Hin];
        unfold c, dm, window_width, window_height; cbn [cx cy width height]; nia. }
  destruct (kept_write _ (k_ok _ _ K1)) as (g2 & Hg2 & _ & K2). cbn [gctx set_gctx] in Hg2. rewrite Hg2. do_bind.
  eexists. split; [done|]. exact (kept_trans _ _ _ K1 K2).
Qed.

Lemma Scroll_kept s : tstate_ok s → ∃ s', Scroll s = Done s' ∧ kept s s'.
Proof.
  intros Hok. unfold Scroll.
  destruct (for_range_rule (λ _ s', kept s s') (Z.to_nat (num_lines (main_term s))) 1 scroll_line s)
    as (s1 & Hs1 & K1); [by apply kept_refl| |].
  { intros i s1 Hi K. destruct (k_static _ _ K) as (x & y & Ht).
    destruct (scroll_line_kept s1 i (k_ok _ _ K)) as (s2 & Hs2 & K2); [rewrite Ht; cbn [num_lines set_cursor]; lia|].
    exists s2. split; [done|]. by eapply kept_trans. }
  rewrite Hs1. do_bind. pose proof (k_ok _ _ K1) as Hok1. pose proof Hok1 as [Hg Ht].
  set (t := main_term s1) in *. destruct (font_bounds _ t Ht) as (Hfw & Hfh & Hmul).
  pose proof (t_width _ _ Ht). pose proof (t_bottom _ _ Ht). pose proof (t_lines _ _ Ht).
  pose proof (t_origin _ _ Ht). pose proof (t_right _ _ Ht). pose proof (go_height _ Hg).
  set (y := cy (top_left t) + font_height (font t) * (num_lines t - 1)).
  assert (Hy : cy (top_left t) ≤ y ∧ y + font_height (font t) = cy (top_left t) + num_lines t * font_height (font t))
    by (unfold y; nia).
  destruct (box_rows _ t y (font_height (font t)) Hg Ht ltac:(lia)) as [Hrows Hbot].
  rewrite (u16_small y) by lia. set (c := Coord _ y). set (dm := Dims _ _).
  assert (Hrect : rect (gctx s1) c (width dm) (height dm)).
  { unfold rect, c, dm. cbn [cx cy width height]. unfold window_width in *. lia. }
  destruct (DrawRect_paints (gctx s1) c dm (bg_color t) Hg (t_colour _ _ Ht) Hrect Hrows) as (g1 & Hg1 & P).
  rewrite Hg1. do_bind.
  assert (K2 : kept s1 (set_gctx s1 g1)).
  { eapply kept_paints; [done| |exact P|].
    - exact (step_rect _ c dm _ _ (rect_fits _ _ _ _ Hrect) Hg1).
    - intros x' y' _ Hin. cbv beta. fold t in Hin.
      rewrite (inside_window t c (width dm) (height dm) x' y'); [done|..|exact Hin];
        unfold c, dm, window_width, window_height; cbn [cx cy width height]; lia. }
  destruct (kept_write _ (k_ok _ _ K2)) as (g2 & Hg2 & _ & K3). cbn [gctx set_gctx] in Hg2. rewrite Hg2. do_bind.
  eexists. split; [done|]. exact (kept_trans _ _ _ K1 (kept_trans _ _ _ K2 K3)).
Qed.

Lemma add_mod_same a b : 0 < b → a mod b = 0 → (a + b) mod b = 0.
Proof. intros Hb Ha. rewrite <-(Z.mul_1_l b) at 1. by rewrite Z.mod_add by lia. Qed.

Lemma mod_0_ge a b : 0 < b → 0 < a → a mod b = 0 → b ≤ a.
Proof. intros Hb Ha Hm. destruct (decide (a < b)); [|lia]. rewrite Z.mod_small in Hm by lia. lia. Qed.

Lemma TermNewLine_kept s : tstate_ok s → ∃ s', TermNewLine s = Done s' ∧ kept s s'.
Proof.
  intros Hok. pose proof Hok as [Hg Ht]. unfold TermNewLine. set (t := main_term s) in *.
  destruct (font_bounds _ t Ht) as (Hfw & Hfh & Hmul). pose proof (t_cursor_y _ _ Ht) as (Hy0 & Hy1 & Hym).
  pose proof (t_cursor_x _ _ Ht) as [Hx0 _]. pose proof (t_height _ _ Ht). pose proof (t_bottom _ _ Ht).
  pose proof (t_origin _ _ Ht). pose proof (go_height _ Hg).
  destruct (Z.ltb_spec (height (dims t)) (cy (cursor t) + font_height (font t) * 2)) as [Hlt|Hge].
  - assert (K1 : kept s (set_term s (set_cursor t 0 (cy (cursor t))))).
    { apply kept_cursor; [done|]. fold t. apply term_ok_cursor; [done|lia|apply Z.mod_0_l; lia|done..]. }
    destruct (Scroll_kept _ (k_ok _ _ K1)) as (s' & Hs' & K2). exists s'. split; [done|]. by eapply kept_trans.
  - rewrite u16_small by lia. exists (set_term s (set_cursor t 0 (cy (cursor t) + font_height (font t)))).
    split; [done|]. apply kept_cursor; [done|]. fold t.
    apply term_ok_cursor; [done|lia|apply Z.mod_0_l; lia|lia|lia|]. by apply add_mod_same.
Qed.

(** The box of the character at the cursor. *)
Lemma cursor_box g t :
  gfx_ok g → term_ok g t →
  let co := Coord (u16 (cx (top_left t) + cx (cursor t))) (u16 (cy (top_left t) + cy (cursor t))) in
  rect g co (font_width (font t)) (font_height (font t)) ∧
  (cy co + font_height (font t)) / row_height g + 2 ≤ 31 ∧
  ∀ x y, inside (top_left t) (window_width t) (window_height t) x y = false →
    inside co (font_width (font t)) (font_height (font t)) x y = false.
Proof.
  intros Hg Ht. destruct (font_bounds _ t Ht) as (Hfw & Hfh & Hmul).
  pose proof (t_cursor_y _ _ Ht) as (Hy0 & Hy1 & _). pose proof (t_cursor_x _ _ Ht) as [Hx0 _].
  pose proof (t_height _ _ Ht). pose proof (t_bottom _ _ Ht). pose proof (t_right _ _ Ht).
  pose proof (t_origin _ _ Ht). pose proof (go_height _ Hg). pose proof (go_width _ Hg).
  assert (Hw : cx (cursor t) + font_width (font t) ≤ window_width t) by (unfold window_width; lia).
  rewrite !u16_small by lia. cbv zeta. cbn [cx cy].
  destruct (box_rows _ t (cy (top_left t) + cy (cursor t)) (font_height (font t)) Hg Ht ltac:(lia)) as [Hrows Hbot].
  split_and!; [unfold rect; cbn [cx cy]; lia|lia|].
  intros x y. apply inside_window; cbn [cx cy]; unfold window_height; lia.
Qed.

Lemma put_char_kept s c : tstate_ok s → ascii c → ∃ s', put_char s c = Done s' ∧ kept s s'.
Proof.
  intros Hok Hc. pose proof Hok as [Hg Ht]. unfold put_char. set (t := main_term s) in *.
  destruct (font_bounds _ t Ht) as (Hfw & Hfh & Hmul). pose proof (t_cursor_x _ _ Ht) as [Hx0 Hxm].
  pose proof (t_right _ _ Ht). pose proof (t_origin _ _ Ht). pose proof (go_width _ Hg).
  assert (Hmove : ∃ s1, (if (c =? 10) || (width (dims t) - border_thickness t * 6 <? cx (cursor t)) then TermNewLine s
      else Done (set_term s (set_cursor t (u16 (cx (cursor t) + font_width (font t))) (cy (cursor t))))) = Done s1 ∧
    kept s s1).
  { destruct (c =? 10); cbn [orb]; [by apply TermNewLine_kept|].
    destruct (Z.ltb_spec (width (dims t) - border_thickness t * 6) (cx (cursor t))); [by apply TermNewLine_kept|].
    eexists. split; [done|].
    assert (cursor_max t + font_width (font t) ≤ window_width t) by (unfold window_width; lia).
    assert (cx (cursor t) + font_width (font t) ≤ cursor_max t) by (unfold cursor_max; lia).
    rewrite u16_small by lia. apply kept_cursor; [done|]. fold t.
    apply term_ok_cursor; [done|lia|by apply add_mod_same|apply Ht..]. }
  destruct Hmove as (s1 & Hs1 & K1). rewrite Hs1. do_bind.
  pose proof (k_ok _ _ K1) as Hok1. pose proof Hok1 as [Hg1 Ht1]. set (t1 := main_term s1) in *.
  destruct (cursor_box _ t1 Hg1 Ht1) as (Hrect & Hrows & Hout). set (co := Coord (u16 _) (u16 _)) in *.
  destruct (DrawChar_paints (gctx s1) (font t1) co c Hg1 (t_font _ _ Ht1) Hc Hrect ltac:(lia)) as (g1 & Hd & P).
  rewrite Hd. do_bind. eexists. split; [done|]. apply (kept_trans _ _ _ K1).
  eapply kept_paints; [done| |exact P|].
  - exact (step_char _ (font t1) co c g1 (rect_fits _ _ _ _ Hrect) Hd).
  - intros x y _ Hin. cbv beta. fold t1 in Hin. by rewrite (Hout x y Hin).
Qed.

Lemma TermPrint_kept str : ∀ s, tstate_ok s → Forall ascii str → ∃ s', TermPrint s str = Done s' ∧ kept s s'.
Proof.
  induction str as [|c str IH]; intros s Hok Hstr; [exists s; split; [done|by apply kept_refl]|].
  apply Forall_cons in Hstr as [Hc Hstr]. cbn [TermPrint].
  destruct (put_char_kept s c Hok Hc) as (s1 & Hs1 & K1). rewrite Hs1. do_bind.
  destruct (IH s1 (k_ok _ _ K1) Hstr) as (s2 & Hs2 & K2). exists s2. split; [done|]. by eapply kept_trans.
Qed.

Lemma RemoveChar_kept s : tstate_ok s → ∃ s', RemoveChar s = Done s' ∧ kept s s'.
Proof.
  intros Hok. pose proof Hok as [Hg Ht]. unfold RemoveChar. set (t := main_term s) in *.
  destruct ((cx (cursor t) =? 0) && (cy (cursor t) =? 0)) eqn:Hz; [exists s; split; [done|by apply kept_refl]|].
  destruct (cursor_box _ t Hg Ht) as (Hrect & Hrows & Hout). set (co := Coord (u16 _) (u16 _)) in *.
  destruct (DrawRect_paints (gctx s) co (Dims (font_width (font t)) (font_height (font t))) (bg_color t) Hg
    (t_colour _ _ Ht) Hrect Hrows) as (g1 & Hd & P).
  rewrite Hd. do_bind. eexists. split; [done|].
  assert (K1 : kept s (set_gctx s g1)).
  { eapply kept_paints; [done| |exact P|].
    - exact (step_rect _ co (Dims _ _) _ _ (rect_fits _ _ _ _ Hrect) Hd).
    - intros x y _ Hin. cbv beta. cbn [width height]. fold t in Hin. by rewrite (Hout x y Hin). }
  apply (kept_trans _ _ _ K1). destruct (font_bounds _ t Ht) as (Hfw & Hfh & Hmul).
  pose proof (t_cursor_x _ _ Ht) as [Hx0 Hxm]. pose proof (t_cursor_y _ _ Ht) as (Hy0 & Hy1 & Hym).
  pose proof (t_right _ _ Ht). pose proof (t_origin _ _ Ht). pose proof (go_width _ Hg). pose proof (go_height _ Hg).
  pose proof (t_height _ _ Ht). pose proof (t_bottom _ _ Ht). pose proof (t_chars _ _ Ht).
  assert (cursor_max t + font_width (font t) ≤ window_width t) by (unfold window_width; lia).
  pose proof (ts_term _ (k_ok _ _ K1)) as Ht1.
  assert (Hcur : ∀ x y, term_ok (gctx (set_gctx s g1)) (set_cursor t x y) →
    kept (set_gctx s g1) (Tstate (set_cursor t x y) g1)) by (intros x y; apply kept_cursor, K1).
  destruct (Z.eqb_spec (cx (cursor t)) 0) as [Hx|Hx].
  - destruct (Z.eqb_spec (cy (cursor t)) 0) as [Hy|Hy]; [done|].
    assert (Hfhy : font_height (font t) ≤ cy (cursor t)).
    { apply mod_0_ge; [lia|lia|done]. }
    assert (0 ≤ (chars_per_line t - 1) * font_width (font t)) by nia.
    assert (Hxmax : (chars_per_line t - 1) * font_width (font t) ≤ cursor_max t) by (unfold cursor_max; lia).
    rewrite !u16_small by lia. apply Hcur. apply term_ok_cursor; [exact Ht1|lia|apply Z.mod_mul; lia|lia|lia|].
    rewrite <-(Z.mod_add _ 1) by lia. by replace (cy (cursor t) - font_height (font t) + 1 * font_height (font t)) with (cy (cursor t)) by lia.
  - assert (Hfwx : font_width (font t) ≤ cx (cursor t)).
    { apply mod_0_ge; [lia|lia|done]. }
    rewrite u16_small by lia. apply Hcur. apply term_ok_cursor; [exact Ht1|lia| |done..].
    rewrite <-(Z.mod_add _ 1) by lia. by replace (cx (cursor t) - font_width (font t) + 1 * font_width (font t)) with (cx (cursor t)) by lia.
Qed.

Lemma CharFromScancode_ascii k :
  0 ≤ scancode k < 128 → ∃ c, CharFromScancode k = Done c ∧ ascii c.
Proof.
  intros Hk. unfold CharFromScancode.
  assert (Ht : ∀ l : list Z, length l = 128%nat → forallb (λ c, (0 <=? c) && (c <? 128)) l = true →
    ∃ c, l !! Z.to_nat (scancode k) = Some c ∧ ascii c).
  { intros l Hl Hall. destruct (lookup_lt_is_Some_2 l (Z.to_nat (scancode k))) as [c Hc]; [lia|].
    exists c. split; [done|]. rewrite forallb_forall in Hall. specialize (Hall c). unfold ascii.
    apply list_elem_of_lookup_2, list_elem_of_In, Hall in Hc. lia. }
  destruct (Ht (if shift k then UPPERCASE_CHARS_BY_SCANCODE else LOWERCASE_CHARS_BY_SCANCODE)) as (c & Hc & Ha);
    [by destruct (shift k)|by destruct (shift k)|].
  exists c. by rewrite Hc.
Qed.

(** The part of [HandleKeyStroke] before the screen is written. *)
Lemma key_kept s k c :
  tstate_ok s → ascii c →
  ∃ s', (if backspace k then RemoveChar s
         else if enter k then s ← TermNewLine s; TermPrint s (prompt (main_term s))
         else TermPrint s (if c =? 0 then [] else [c])) = Done s' ∧ kept s s'.
Proof.
  intros Hok Hc. destruct (backspace k); [by apply RemoveChar_kept|]. destruct (enter k).
  - destruct (TermNewLine_kept s Hok) as (s1 & Hs1 & K1). rewrite Hs1. do_bind.
    destruct (TermPrint_kept (prompt (main_term s1)) s1 (k_ok _ _ K1)) as (s2 & Hs2 & K2);
      [apply (ts_term _ (k_ok _ _ K1))|].
    exists s2. split; [done|]. by eapply kept_trans.
  - apply TermPrint_kept; [done|]. destruct (c =? 0); [by apply Forall_nil|by apply Forall_singleton].
Qed.

(** Every visible line shows the back buffer. *)
Definition up_to_date (g : gfx) : Prop :=
  ∀ x y, on_screen g x y → y < 64 * row_height g → screen g x y = back g x y.

Lemma shown_up_to_date g : gfx_ok g → shown g → dirty_block_str g = 0 → up_to_date g.
Proof.
  intros Hok Hsh Hd x y Hon Hy. pose proof (go_row_bound g Hok). apply Hsh; [done|apply Z.div_lt_upper_bound; lia|].
  rewrite Hd. apply Z.bits_0.
Qed.

Lemma HandleKeyStroke_kept s k :
  tstate_ok s → 0 ≤ scancode k < 128 →
  ∃ s', HandleKeyStroke s k = Done s' ∧ kept s s' ∧ dirty_block_str (gctx s') = 0.
Proof.
  intros Hok Hk. unfold HandleKeyStroke. destruct (CharFromScancode_ascii k Hk) as (c & Hc & Ha). rewrite Hc. do_bind.
  destruct (key_kept s k c Hok Ha) as (s1 & Hs1 & K1). rewrite Hs1. do_bind.
  destruct (kept_write s1 (k_ok _ _ K1)) as (g2 & Hg2 & Hd & K2). rewrite Hg2. do_bind.
  eexists. split; [done|]. split; [by eapply kept_trans|done].
Qed.

(** A sequence of keystrokes. *)
Fixpoint keystrokes (s : tstate) (keys : list KeyInfo) : outcome tstate :=
  match keys with
  | [] => Done s
  | k :: keys => s ← HandleKeyStroke s k; keystrokes s keys
  end.

Lemma keystrokes_kept keys : ∀ s,
  tstate_ok s → Forall (λ k, 0 ≤ scancode k < 128) keys →
  ∃ s', keystrokes s keys = Done s' ∧ kept s s' ∧ (keys = [] → s' = s) ∧
    (keys ≠ [] → dirty_block_str (gctx s') = 0).
Proof.
  induction keys as [|k keys IH]; intros s Hok Hall.
  - exists s. split_and!; [done|by apply kept_refl|done|done].
  - apply Forall_cons in Hall as [Hk Hall]. cbn [keystrokes].
    destruct (HandleKeyStroke_kept s k Hok Hk) as (s1 & Hs1 & K1 & Hd1). rewrite Hs1. do_bind.
    destruct (IH s1 (k_ok _ _ K1) Hall) as (s2 & Hs2 & K2 & Hnil & Hd2). exists s2.
    split_and!; [done|by eapply kept_trans|done|]. intros _.
    destruct keys as [|k' keys]; [by rewrite Hnil|by apply Hd2].
Qed.

(** ** Setting up *)

(** Where [InitTerminal] may put a terminal: on the screen, with room for one
    line and for the characters at the right, in the upper half. *)
Record placed (g : gfx) (d : Dimensions) (tl : Coordinate) (f : Font) (th : Z) : Prop := {
  pl_origin : 0 ≤ cx tl ∧ 0 ≤ cy tl;
  pl_thickness : 0 < font_width f ≤ 3 * th;
  pl_width : font_width f + 2 * th ≤ width d;
  pl_height : font_height f + 2 * th ≤ height d;
  pl_right : cx tl + width d ≤ framebuffer_width (fb g);
  pl_last : cx tl + th + width d / font_width f * font_width f ≤ framebuffer_width (fb g);
  pl_bottom : cy tl + th + (height d / font_height f + 1) * font_height f ≤ framebuffer_height (fb g);
  pl_rows : (cy tl + th + (height d / font_height f + 1) * font_height f) / row_height g + 2 ≤ 31;
}.

Lemma placed_frame g g' d tl f th : placed g d tl f th → same_frame g g' → placed g' d tl f th.
Proof. intros [] [Hf _ _ Hr]. split; rewrite ?Hf, ?Hr; done. Qed.

(** The terminal [InitTerminal] starts with. *)
Definition new_terminal (d : Dimensions) (tl : Coordinate) (f : Font) (bg border : RGB) (th : Z) (p : list Z) : Terminal :=
  Term (Dims (width d - th * 2) (height d - th * 2)) f (width d / font_width f) (height d / font_height f)
    (Coord (cx tl + th) (cy tl + th)) (Coord 0 0) bg border th p.

Lemma div_bounds a b : 0 < b → b ≤ a → 1 ≤ a / b ≤ a ∧ a / b * b ≤ a < (a / b + 1) * b.
Proof.
  intros Hb Ha. pose proof (Z.div_mod a b ltac:(lia)). pose proof (Z.mod_pos_bound a b Hb).
  assert (1 ≤ a / b) by (apply Z.div_le_lower_bound; lia). split; [|nia]. split; [done|]. nia.
Qed.

Lemma new_terminal_ok g d tl f bg border th p :
  font_ok f → rgb_ok bg → Forall ascii p → placed g d tl f th →
  term_ok g (new_terminal d tl f bg border th p).
Proof.
  intros Hf Hbg Hp [Ho Hth Hw Hh Hr Hl Hb Hrows]. pose proof (fo_height f Hf).
  destruct (div_bounds (width d) (font_width f)) as [Hcw Hcw2]; [lia|lia|].
  destruct (div_bounds (height d) (font_height f)) as [Hch Hch2]; [lia|lia|].
  assert (Hmul : (width d / font_width f - 1) * font_width f + font_width f = width d / font_width f * font_width f)
    by lia.
  assert (0 ≤ (width d / font_width f - 1) * font_width f) by nia.
  split; unfold new_terminal, window_width, cursor_max;
    cbn [font bg_color prompt border_thickness dims num_lines chars_per_line top_left cursor width height cx cy];
    try done; try lia.
  - split; [lia|]. apply Z.mod_0_l. lia.
  - split_and!; [lia|lia|]. apply Z.mod_0_l. lia.
Qed.

Lemma InitTerminal_kept g d tl f bg border th p :
  gfx_ok g → font_ok f → rgb_ok bg → rgb_ok border → Forall ascii p → placed g d tl f th →
  ∃ t s, InitTerminal g d tl f bg border th p = Done (t, s) ∧ tstate_ok s ∧ rtc draw_step g (gctx s) ∧
    same_frame g (gctx s).
Proof.
  intros Hg Hf Hbg Hbd Hp Hpl. pose proof (new_terminal_ok g d tl f bg border th p Hf Hbg Hp Hpl) as Ht.
  pose proof Hpl as [Ho Hth Hw Hh Hr Hl Hb Hrows]. pose proof (fo_height f Hf) as Hfh.
  pose proof (go_width g Hg). pose proof (go_height g Hg). pose proof (go_row_bound g Hg).
  destruct (div_bounds (width d) (font_width f)) as [Hcw Hcw2]; [lia|lia|].
  destruct (div_bounds (height d) (font_height f)) as [Hch Hch2]; [lia|lia|].
  unfold InitTerminal. rewrite !int_div_done by lia. do_bind. rewrite !Z.quot_div_nonneg by lia.
  set (t := new_terminal d tl f bg border th p) in *.
  match goal with |- context [Tstate ?t0 g] => assert (Heq : t0 = t)
    by (unfold t, new_terminal; repeat f_equal; apply u16_small; lia); rewrite Heq; clear Heq end.
  unfold Render, RenderBorders. cbn [main_term gctx].
  assert (Hrow : ∀ y, y ≤ cy tl + th + (height d / font_height f + 1) * font_height f → y / row_height g + 2 ≤ 31).
  { intros y Hy. pose proof (Z.div_le_mono _ _ (row_height g) ltac:(lia) Hy). lia. }
  assert (Hctl : Coord (u16 (cx (top_left t) - border_thickness t)) (u16 (cy (top_left t) - border_thickness t)) = tl).
  { destruct tl as [x y]. unfold t, new_terminal. cbn [top_left border_thickness cx cy] in *.
    f_equal; rewrite u16_small; lia. }
  assert (Hdim : Dims (u16 (width (dims t) + border_thickness t * 2)) (u16 (height (dims t) + border_thickness t * 2)) = d).
  { destruct d as [w h]. unfold t, new_terminal. cbn [dims border_thickness width height] in *.
    f_equal; rewrite u16_small; lia. }
  rewrite Hctl, Hdim. change (border_color t) with border.
  assert (Hrect : rect g tl (width d) (height d)) by (unfold rect; lia).
  assert (Hrect2 : ∀ g', same_frame g g' → rect g' (top_left t) (width (dims t)) (height (dims t))).
  { intros g' Hfr. unfold rect, t, new_terminal. cbn [top_left dims cx cy width height]. rewrite (sf_fb _ _ Hfr). lia. }
  assert (Hrow1 : (cy tl + height d) / row_height g + 2 ≤ 31) by (apply Hrow; lia).
  assert (Hrow2 : ∀ g', same_frame g g' → (cy (top_left t) + height (dims t)) / row_height g' + 2 ≤ 31).
  { intros g' Hfr. unfold t, new_terminal. cbn [top_left dims cy height]. rewrite (sf_row_height _ _ Hfr).
    apply Hrow. lia. }
  clearbody t.
  destruct (DrawRect_paints g tl d border Hg Hbd Hrect Hrow1) as (g1 & Hg1 & P1).
  pose proof (pa_ok _ _ _ _ P1) as Hok1. pose proof (pa_frame _ _ _ _ P1) as Hf1. rewrite Hg1. do_bind.
  cbn [main_term set_gctx gctx].
  destruct (DrawRect_paints g1 (top_left t) (dims t) (bg_color t) Hok1 (t_colour _ _ Ht) (Hrect2 g1 Hf1)
    (Hrow2 g1 Hf1)) as (g2 & Hg2 & P2).
  pose proof (same_frame_trans _ _ _ Hf1 (pa_frame _ _ _ _ P2)) as Hf2. rewrite Hg2. do_bind.
  assert (Hok2 : tstate_ok (Tstate t g2)) by (split; [apply P2|by eapply term_ok_frame]).
  destruct (TermPrint_kept (prompt t) (Tstate t g2) Hok2 (t_prompt _ _ Ht)) as (s & Hs & K).
  change (set_gctx (set_gctx (Tstate t g) g1) g2) with (Tstate t g2). rewrite Hs. do_bind.
  exists t, s. split_and!; [done|apply K| |eapply same_frame_trans; [exact Hf2|apply K]].
  eapply rtc_l; [exact (step_rect _ _ _ _ _ (rect_fits _ _ _ _ Hrect) Hg1)|].
  eapply rtc_l; [exact (step_rect _ _ _ _ _ (rect_fits _ _ _ _ (Hrect2 g1 Hf1)) Hg2)|].
  apply K.
Qed.

(** ** Properties *)

(** The terminal never leaves its window: on a screen that is set up, any
    sequence of keystrokes is handled without undefined behaviour; the cursor
    stays within the bounds of [term_ok], nothing outside the window is drawn,
    and after each keystroke the screen shows the back buffer. *)
Theorem keystrokes_spec s keys :
  tstate_ok s → shown (gctx s) → Forall (λ k, 0 ≤ scancode k < 128) keys →
  ∃ s', keystrokes s keys = Done s' ∧ tstate_ok s' ∧ shown (gctx s') ∧
    (∃ x y, main_term s' = set_cursor (main_term s) x y) ∧
    (∀ x y, on_screen (gctx s) x y →
      inside (top_left (main_term s)) (window_width (main_term s)) (window_height (main_term s)) x y = false →
      back (gctx s') x y = back (gctx s) x y) ∧
    (keys ≠ [] → up_to_date (gctx s')).
Proof.
  intros Hok Hsh Hk. destruct (keystrokes_kept keys s Hok Hk) as (s' & Hs' & K & _ & Hd).
  destruct (draw_steps_inv _ _ (ts_gfx _ Hok) Hsh (k_steps _ _ K)) as (Hg' & _ & Hsh' & _).
  exists s'. split_and!; [done|apply K|done|apply K|apply K|].
  intros Hne. by apply shown_up_to_date, Hd.
Qed.

(** C16: A terminal on the screen: clearing the screen and starting a terminal
    that is [placed] - on the screen, with room for a line and its last
    column, and ending in the first 31 of the 64 rows of cells - leaves a
    well-formed terminal; after any keystrokes what the user sees is what the
    back buffer holds, on all lines but those that belong to no cell.  The
    terminal the kernel itself starts, half of the screen high, is never so
    placed: [half_screen_undefined]. *)
Theorem terminal_session g0 rgb d tl f bg border th p keys :
  gfx_ok g0 → rgb_ok rgb → font_ok f → rgb_ok bg → rgb_ok border → Forall ascii p → placed g0 d tl f th →
  keys ≠ [] → Forall (λ k, 0 ≤ scancode k < 128) keys →
  ∃ g1 t s1 s2, ClearScreen g0 rgb = Done g1 ∧ InitTerminal g1 d tl f bg border th p = Done (t, s1) ∧
    keystrokes s1 keys = Done s2 ∧ tstate_ok s2 ∧ up_to_date (gctx s2).
Proof.
  intros Hg Hrgb Hf Hbg Hbd Hp Hpl Hne Hk.
  destruct (ClearScreen_paints g0 rgb Hg Hrgb) as (g1 & Hg1 & P1).
  destruct (clear_shown g0 rgb g1 Hg Hrgb Hg1) as (Hok1 & Hf1 & Hsh1 & _).
  pose proof (placed_frame _ _ _ _ _ _ Hpl Hf1) as Hpl1.
  destruct (InitTerminal_kept g1 d tl f bg border th p Hok1 Hf Hbg Hbd Hp Hpl1) as (t & s1 & Hs1 & Hok & Hsteps & _).
  destruct (draw_steps_inv _ _ Hok1 Hsh1 Hsteps) as (_ & _ & Hsh & _).
  destruct (keystrokes_kept keys s1 Hok Hk) as (s2 & Hs2 & K & _ & Hd).
  destruct (draw_steps_inv _ _ (ts_gfx _ Hok) Hsh (k_steps _ _ K)) as (Hg2 & _ & Hsh2 & _).
  exists g1, t, s1, s2. split_and!; [done..|apply K|]. by apply shown_up_to_date, Hd.
Qed.

(** One printable character on a line with room is drawn right of the last
    one, in the colour of the font. *)
Theorem put_char_draws s c :
  tstate_ok s → ascii c → c ≠ 10 →
  cx (cursor (main_term s)) ≤ width (dims (main_term s)) - border_thickness (main_term s) * 6 →
  let t := main_term s in
  let x := cx (cursor t) + font_width (font t) in
  ∃ s', put_char s c = Done s' ∧ main_term s' = set_cursor t x (cy (cursor t)) ∧
    ∀ i j, 0 ≤ i < font_width (font t) → 0 ≤ j < font_height (font t) → glyph (font t) c i j = true →
      back (gctx s') (cx (top_left t) + x + i) (cy (top_left t) + cy (cursor t) + j) =
        packed (font_rgb (font t)) (fb (gctx s)).
Proof.
  intros Hok Hc H10 Hroom t x. pose proof Hok as [Hg Ht]. unfold put_char. fold t in Hroom, Ht |- *.
  destruct (font_bounds _ t Ht) as (Hfw & Hfh & _). pose proof (t_cursor_x _ _ Ht) as [Hx0 Hxm].
  pose proof (t_right _ _ Ht). pose proof (t_origin _ _ Ht). pose proof (go_width _ Hg). pose proof (go_height _ Hg).
  pose proof (t_cursor_y _ _ Ht) as (Hy0 & Hy1 & _). pose proof (t_height _ _ Ht). pose proof (t_bottom _ _ Ht).
  assert (Hxmax : x ≤ cursor_max t) by (unfold cursor_max; lia).
  assert (cursor_max t + font_width (font t) ≤ window_width t) by (unfold window_width; lia).
  rewrite (proj2 (Z.eqb_neq c 10) H10), (proj2 (Z.ltb_ge _ _) Hroom). cbn [orb]. do_bind.
  rewrite (u16_small (cx (cursor t) + _)) by lia. fold x. cbn [main_term set_term].
  assert (Ht1 : term_ok (gctx s) (set_cursor t x (cy (cursor t)))).
  { apply term_ok_cursor; [done|lia|by apply add_mod_same|apply Ht..]. }
  destruct (cursor_box _ _ Hg Ht1) as (Hrect & Hrows & _).
  cbn [cx cy cursor set_cursor top_left font] in Hrect, Hrows |- *.
  destruct (DrawChar_paints (gctx s) (font t) _ c Hg (t_font _ _ Ht) Hc Hrect ltac:(cbn [cy] in *; lia))
    as (g1 & Hd & P).
  cbn [gctx set_term]. rewrite Hd. do_bind. eexists. split; [done|]. split; [done|]. intros i j Hi Hj Hbit.
  change (gctx (set_gctx _ g1)) with g1.
  destruct Hrect as (_ & _ & _ & _ & HxW & HyH). rewrite !u16_small in * by lia. cbn [cx cy] in *.
  rewrite (pa_pixels _ _ _ _ P) by (split; lia). unfold inside. cbn [cx cy].
  replace (cx (top_left t) + x + i - (cx (top_left t) + x)) with i by lia.
  replace (cy (top_left t) + cy (cursor t) + j - (cy (top_left t) + cy (cursor t))) with j by lia. rewrite Hbit.
  rewrite (proj2 (Z.leb_le (cx (top_left t) + x) (cx (top_left t) + x + i))),
    (proj2 (Z.ltb_lt (cx (top_left t) + x + i) (cx (top_left t) + x + font_width (font t)))),
    (proj2 (Z.leb_le (cy (top_left t) + cy (cursor t)) (cy (top_left t) + cy (cursor t) + j))),
    (proj2 (Z.ltb_lt (cy (top_left t) + cy (cursor t) + j) (cy (top_left t) + cy (cursor t) + font_height (font t))))
    by lia.
  done.
Qed.

(** The terminal the kernel starts, the upper half of the screen, is too high
    on every screen: either the rows of cells have no lines, and the kernel
    divides by zero, or half of the height is at least 32 rows of cells, and
    marking the row with the number 32 shifts an [int] by 32. *)
Lemma half_screen_undefined g f bg border p :
  0 ≤ framebuffer_height (fb g) < 2 ^ 16 → row_height g = u8 (framebuffer_height (fb g) / 64) →
  font_width f ≠ 0 → font_height f ≠ 0 →
  InitTerminal g (Dims (framebuffer_width (fb g)) (framebuffer_height (fb g) / 2)) (Coord 0 0) f bg border 3 p =
    Undefined.
Proof.
  intros HH Hrow Hfw Hfh. set (H := framebuffer_height (fb g)) in *.
  assert (0 ≤ H / 64) by dlia. pose proof (u8_range (H / 64)) as Hr.
  assert (Hle : u8 (H / 64) ≤ H / 64) by (unfold u8; apply Z.mod_le; lia).
  unfold InitTerminal. rewrite !int_div_done by done. do_bind. unfold Render, RenderBorders.
  cbn [main_term gctx top_left border_thickness dims border_color cx cy width height].
  change (u16 (u16 (0 + 3) - 3)) with 0.
  assert (Hu : ∀ z, 0 ≤ z < 2 ^ 16 → u16 (u16 (z - 3 * 2) + 3 * 2) = z).
  { intros z Hz. unfold u16. rewrite Zplus_mod_idemp_l. rewrite Z.mod_small; lia. }
  rewrite (Hu (H / 2)) by dlia. rewrite DrawRect_too_low; [done|]. cbn [cy height].
  destruct (decide (row_height g = 0)) as [|Hne]; [by left|right]. rewrite Z.quot_0_l by done.
  split; [lia|]. rewrite Z.quot_div_nonneg by (rewrite ?Hrow; dlia).
  apply Z.div_le_lower_bound; [lia|]. rewrite Hrow. dlia.
Qed.

(** ** Witnesses *)

Definition ex_prompt : list Z := [36; 32].
Definition ex_font : Font := InitGnuFont white (Dims 9 16).

Lemma ex_placed : placed ex_gfx (Dims 1024 320) (Coord 0 0) ex_font 3.
Proof. split; vm_compute; intuition discriminate. Qed.

Lemma ex_prompt_ascii : Forall ascii ex_prompt.
Proof. repeat constructor; cbn; lia. Qed.

Lemma ex_session : ∃ t s g1,
  ClearScreen ex_gfx white = Done g1 ∧
  InitTerminal g1 (Dims 1024 320) (Coord 0 0) ex_font white white 3 ex_prompt = Done (t, s) ∧
  tstate_ok s ∧ shown (gctx s).
Proof.
  destruct (ClearScreen_paints ex_gfx white ex_gfx_ok white_ok) as (g1 & Hg1 & P1).
  destruct (clear_shown ex_gfx white g1 ex_gfx_ok white_ok Hg1) as (Hok1 & Hf1 & Hsh1 & _).
  pose proof (placed_frame _ _ _ _ _ _ ex_placed Hf1) as Hpl.
  destruct (InitTerminal_kept g1 _ _ ex_font white white 3 ex_prompt Hok1 (GnuFont_ok _ white_ok) white_ok white_ok
    ex_prompt_ascii Hpl) as (t & s & Hs & Hok & Hsteps & _).
  destruct (draw_steps_inv _ _ Hok1 Hsh1 Hsteps) as (_ & _ & Hsh & _). exists t, s, g1.
  split; [exact Hg1|]. split; [exact Hs|]. split; [exact Hok|exact Hsh].
Qed.

Definition ex_key (c : Z) : KeyInfo := KeyState false false false false c.
Definition ex_backspace : KeyInfo := KeyState false true false false 0x0E.

Lemma keystrokes_spec_witness : ∃ s s',
  keystrokes s [ex_key 0x10; ex_key 0x11; ex_backspace] = Done s' ∧ tstate_ok s' ∧ up_to_date (gctx s').
Proof.
  destruct ex_session as (t & s & g1 & _ & _ & Hok & Hsh).
  destruct (keystrokes_spec s [ex_key 0x10; ex_key 0x11; ex_backspace] Hok Hsh) as (s' & H1 & H2 & _ & _ & _ & H3).
  - repeat constructor; cbn; lia.
  - exists s, s'. split; [exact H1|]. split; [exact H2|]. apply H3. discriminate.
Defined.

Lemma terminal_session_witness : ∃ g1 t s1 s2,
  ClearScreen ex_gfx (Rgb 0 0 0) = Done g1 ∧
  InitTerminal g1 (Dims 1024 320) (Coord 0 0) ex_font white white 3 ex_prompt = Done (t, s1) ∧
  keystrokes s1 [ex_key 0x10] = Done s2 ∧ tstate_ok s2 ∧ up_to_date (gctx s2).
Proof.
  apply (terminal_session ex_gfx (Rgb 0 0 0) (Dims 1024 320) (Coord 0 0) ex_font white white 3 ex_prompt
    [ex_key 0x10] ex_gfx_ok).
  - unfold rgb_ok. cbn. lia.
  - exact (GnuFont_ok _ white_ok).
  - exact white_ok.
  - exact white_ok.
  - exact ex_prompt_ascii.
  - exact ex_placed.
  - discriminate.
  - repeat constructor; cbn; lia.
Defined.

Lemma put_char_draws_witness :
  let s := Tstate (new_terminal (Dims 1024 320) (Coord 0 0) ex_font white white 3 ex_prompt) ex_gfx in
  ∃ s', put_char s 70 = Done s' ∧ cx (cursor (main_term s')) = 9 ∧ back (gctx s') 13 5 = packed white ex_fb.
Proof.
  assert (Hok : tstate_ok (Tstate (new_terminal (Dims 1024 320) (Coord 0 0) ex_font white white 3 ex_prompt) ex_gfx)).
  { split; [exact ex_gfx_ok|]. exact (new_terminal_ok _ _ _ _ _ _ _ _ (GnuFont_ok _ white_ok) white_ok
      ex_prompt_ascii ex_placed). }
  destruct (put_char_draws _ 70 Hok) as (s' & H1 & H2 & H3); [split; lia|discriminate|vm_compute; discriminate|].
  exists s'. split; [exact H1|]. split; [rewrite H2; reflexivity|].
  refine (H3 1 2 _ _ _); [vm_compute; split; [discriminate|reflexivity]..|reflexivity].
Defined.

