(* ===== verification/Boot.v ===== *)
(** * What the boot loader is asked for and hands over

    [src/src/kernel/stivale2.h]: the layouts of the structures, and of
    [kernel.c] the tags the kernel asks the boot loader with,
    [stivale2_get_tag], the tags [_start] looks up and the keystroke printer. *)
From Stdlib Require Import String.
From stdpp Require Import base list gmap strings.
From S2P Require Import Prelude Memory Layout Stivale Printf Font Graphics Keyboard.
Open Scope Z_scope.

(** ** Layouts *)

Definition stivale2_anchor_fields : ctype := Struct [
  ("anchor", U8, 15); ("bits", U8, 1); ("phys_load_addr", U64, 1); ("phys_bss_start", U64, 1);
  ("phys_bss_end", U64, 1); ("phys_stivale2hdr", U64, 1)].
Definition stivale2_tag_fields : ctype := Struct [
  ("identifier", U64, 1); ("next", U64, 1)].
Definition stivale2_header_fields : ctype := Struct [
  ("entry_point", U64, 1); ("stack", U64, 1); ("flags", U64, 1); ("tags", U64, 1)].
Definition stivale2_header_tag_any_video_fields : ctype := Struct [
  ("tag", stivale2_tag_fields, 1); ("preference", U64, 1)].
Definition stivale2_header_tag_framebuffer_fields : ctype := Struct [
  ("tag", stivale2_tag_fields, 1); ("framebuffer_width", U16, 1); ("framebuffer_height", U16, 1);
  ("framebuffer_bpp", U16, 1); ("unused", U16, 1)].
Definition stivale2_header_tag_slide_hhdm_fields : ctype := Struct [
  ("tag", stivale2_tag_fields, 1); ("flags", U64, 1); ("alignment", U64, 1)].
Definition stivale2_header_tag_terminal_fields : ctype := Struct [
  ("tag", stivale2_tag_fields, 1); ("flags", U64, 1); ("callback", U64, 1)].
Definition stivale2_header_tag_smp_fields : ctype := Struct [
  ("tag", stivale2_tag_fields, 1); ("flags", U64, 1)].
Definition stivale2_struct_fields : ctype := Struct [
  ("bootloader_brand", U8, 64); ("bootloader_version", U8, 64); ("tags", U64, 1)].
Definition stivale2_pmr_fields : ctype := Struct [
  ("base", U64, 1); ("length", U64, 1); ("permissions", U64, 1)].
Definition stivale2_struct_tag_pmrs_fields : ctype := Struct [
  ("tag", stivale2_tag_fields, 1); ("entries", U64, 1); ("pmrs", stivale2_pmr_fields, 0)].
Definition stivale2_struct_tag_kernel_base_address_fields : ctype := Struct [
  ("tag", stivale2_tag_fields, 1); ("physical_base_address", U64, 1); ("virtual_base_address", U64, 1)].
Definition stivale2_struct_tag_cmdline_fields : ctype := Struct [
  ("tag", stivale2_tag_fields, 1); ("cmdline", U64, 1)].
Definition stivale2_mmap_entry_fields : ctype := Struct [
  ("base", U64, 1); ("length", U64, 1); ("type", U32, 1); ("unused", U32, 1)].
Definition stivale2_struct_tag_memmap_fields : ctype := Struct [
  ("tag", stivale2_tag_fields, 1); ("entries", U64, 1); ("memmap", stivale2_mmap_entry_fields, 0)].
Definition stivale2_struct_tag_framebuffer_fields : ctype := Struct [
  ("tag", stivale2_tag_fields, 1); ("framebuffer_addr", U64, 1); ("framebuffer_width", U16, 1);
  ("framebuffer_height", U16, 1); ("framebuffer_pitch", U16, 1); ("framebuffer_bpp", U16, 1);
  ("memory_model", U8, 1); ("red_mask_size", U8, 1); ("red_mask_shift", U8, 1); ("green_mask_size", U8, 1);
  ("green_mask_shift", U8, 1); ("blue_mask_size", U8, 1); ("blue_mask_shift", U8, 1); ("unused", U8, 1)].
Definition stivale2_struct_tag_edid_fields : ctype := Struct [
  ("tag", stivale2_tag_fields, 1); ("edid_size", U64, 1); ("edid_information", U8, 0)].
Definition stivale2_struct_tag_textmode_fields : ctype := Struct [
  ("tag", stivale2_tag_fields, 1); ("address", U64, 1); ("unused", U16, 1); ("rows", U16, 1); ("cols", U16, 1);
  ("bytes_per_char", U16, 1)].
Definition stivale2_struct_tag_terminal_fields : ctype := Struct [
  ("tag", stivale2_tag_fields, 1); ("flags", U32, 1); ("cols", U16, 1); ("rows", U16, 1);
  ("term_write", U64, 1); ("max_length", U64, 1)].
Definition stivale2_module_fields : ctype := Struct [
  ("begin", U64, 1); ("end", U64, 1); ("string", U8, 128)].
Definition stivale2_struct_tag_modules_fields : ctype := Struct [
  ("tag", stivale2_tag_fields, 1); ("module_count", U64, 1); ("modules", stivale2_module_fields, 0)].
Definition stivale2_struct_tag_rsdp_fields : ctype := Struct [
  ("tag", stivale2_tag_fields, 1); ("rsdp", U64, 1)].
Definition stivale2_struct_tag_epoch_fields : ctype := Struct [
  ("tag", stivale2_tag_fields, 1); ("epoch", U64, 1)].
Definition stivale2_struct_tag_firmware_fields : ctype := Struct [
  ("tag", stivale2_tag_fields, 1); ("flags", U64, 1)].
Definition stivale2_struct_tag_efi_system_table_fields : ctype := Struct [
  ("tag", stivale2_tag_fields, 1); ("system_table", U64, 1)].
Definition stivale2_struct_tag_kernel_file_fields : ctype := Struct [
  ("tag", stivale2_tag_fields, 1); ("kernel_file", U64, 1)].
Definition stivale2_struct_tag_kernel_file_v2_fields : ctype := Struct [
  ("tag", stivale2_tag_fields, 1); ("kernel_file", U64, 1); ("kernel_size", U64, 1)].
Definition stivale2_guid_fields : ctype := Struct [
  ("a", U32, 1); ("b", U16, 1); ("c", U16, 1); ("d", U8, 8)].
Definition stivale2_struct_tag_boot_volume_fields : ctype := Struct [
  ("tag", stivale2_tag_fields, 1); ("flags", U64, 1); ("guid", stivale2_guid_fields, 1);
  ("part_guid", stivale2_guid_fields, 1)].
Definition stivale2_struct_tag_kernel_slide_fields : ctype := Struct [
  ("tag", stivale2_tag_fields, 1); ("kernel_slide", U64, 1)].
Definition stivale2_struct_tag_smbios_fields : ctype := Struct [
  ("tag", stivale2_tag_fields, 1); ("flags", U64, 1); ("smbios_entry_32", U64, 1); ("smbios_entry_64", U64, 1)].
Definition stivale2_smp_info_fields : ctype := Struct [
  ("processor_id", U32, 1); ("lapic_id", U32, 1); ("target_stack", U64, 1); ("goto_address", U64, 1);
  ("extra_argument", U64, 1)].
Definition stivale2_struct_tag_smp_fields : ctype := Struct [
  ("tag", stivale2_tag_fields, 1); ("flags", U64, 1); ("bsp_lapic_id", U32, 1); ("unused", U32, 1);
  ("cpu_count", U64, 1); ("smp_info", stivale2_smp_info_fields, 0)].
Definition stivale2_struct_tag_pxe_server_info_fields : ctype := Struct [
  ("tag", stivale2_tag_fields, 1); ("server_ip", U32, 1)].
Definition stivale2_struct_tag_mmio32_uart_fields : ctype := Struct [
  ("tag", stivale2_tag_fields, 1); ("addr", U64, 1)].
Definition stivale2_struct_tag_dtb_fields : ctype := Struct [
  ("tag", stivale2_tag_fields, 1); ("addr", U64, 1); ("size", U64, 1)].
Definition stivale2_struct_tag_hhdm_fields : ctype := Struct [
  ("tag", stivale2_tag_fields, 1); ("addr", U64, 1)].

Definition stivale2_structures : list ctype := [
  stivale2_anchor_fields;
  stivale2_tag_fields;
  stivale2_header_fields;
  stivale2_header_tag_any_video_fields;
  stivale2_header_tag_framebuffer_fields;
  stivale2_header_tag_slide_hhdm_fields;
  stivale2_header_tag_terminal_fields;
  stivale2_header_tag_smp_fields;
  stivale2_struct_fields;
  stivale2_pmr_fields;
  stivale2_struct_tag_pmrs_fields;
  stivale2_struct_tag_kernel_base_address_fields;
  stivale2_struct_tag_cmdline_fields;
  stivale2_mmap_entry_fields;
  stivale2_struct_tag_memmap_fields;
  stivale2_struct_tag_framebuffer_fields;
  stivale2_struct_tag_edid_fields;
  stivale2_struct_tag_textmode_fields;
  stivale2_struct_tag_terminal_fields;
  stivale2_module_fields;
  stivale2_struct_tag_modules_fields;
  stivale2_struct_tag_rsdp_fields;
  stivale2_struct_tag_epoch_fields;
  stivale2_struct_tag_firmware_fields;
  stivale2_struct_tag_efi_system_table_fields;
  stivale2_struct_tag_kernel_file_fields;
  stivale2_struct_tag_kernel_file_v2_fields;
  stivale2_guid_fields;
  stivale2_struct_tag_boot_volume_fields;
  stivale2_struct_tag_kernel_slide_fields;
  stivale2_struct_tag_smbios_fields;
  stivale2_smp_info_fields;
  stivale2_struct_tag_smp_fields;
  stivale2_struct_tag_pxe_server_info_fields;
  stivale2_struct_tag_mmio32_uart_fields;
  stivale2_struct_tag_dtb_fields;
  stivale2_struct_tag_hhdm_fields].

(** ** Constants *)

Definition STIVALE2_HEADER_TAG_ANY_VIDEO_ID : Z := 0xc75c9fa92a44c4db.
Definition STIVALE2_HEADER_TAG_FRAMEBUFFER_ID : Z := 0x3ecc1bc43d0f7971.
Definition STIVALE2_HEADER_TAG_FB_MTRR_ID : Z := 0x4c7bb07731282e00.
Definition STIVALE2_HEADER_TAG_SLIDE_HHDM_ID : Z := 0xdc29269c2af53d1d.
Definition STIVALE2_HEADER_TAG_TERMINAL_ID : Z := 0xa85d499b1823be72.
Definition STIVALE2_HEADER_TAG_SMP_ID : Z := 0x1ab015085f3273df.
Definition STIVALE2_HEADER_TAG_5LV_PAGING_ID : Z := 0x932f477032007e8f.
Definition STIVALE2_HEADER_TAG_UNMAP_NULL_ID : Z := 0x92919432b16fe7e7.
Definition STIVALE2_STRUCT_TAG_PMRS_ID : Z := 0x5df266a64047b6bd.
Definition STIVALE2_STRUCT_TAG_KERNEL_BASE_ADDRESS_ID : Z := 0x060d78874a2a8af0.
Definition STIVALE2_STRUCT_TAG_CMDLINE_ID : Z := 0xe5e76a1b4597a781.
Definition STIVALE2_STRUCT_TAG_MEMMAP_ID : Z := 0x2187f79e8612de07.
Definition STIVALE2_STRUCT_TAG_FRAMEBUFFER_ID : Z := 0x506461d2950408fa.
Definition STIVALE2_STRUCT_TAG_EDID_ID : Z := 0x968609d7af96b845.
Definition STIVALE2_STRUCT_TAG_TEXTMODE_ID : Z := 0x38d74c23e0dca893.
Definition STIVALE2_STRUCT_TAG_FB_MTRR_ID : Z := 0x6bc1a78ebe871172.
Definition STIVALE2_STRUCT_TAG_TERMINAL_ID : Z := 0xc2b3f4c3233b0974.
Definition STIVALE2_STRUCT_TAG_MODULES_ID : Z := 0x4b6fe466aade04ce.
Definition STIVALE2_STRUCT_TAG_RSDP_ID : Z := 0x9e1786930a375e78.
Definition STIVALE2_STRUCT_TAG_EPOCH_ID : Z := 0x566a7bed888e1407.
Definition STIVALE2_STRUCT_TAG_FIRMWARE_ID : Z := 0x359d837855e3858c.
Definition STIVALE2_STRUCT_TAG_EFI_SYSTEM_TABLE_ID : Z := 0x4bc5ec15845b558e.
Definition STIVALE2_STRUCT_TAG_KERNEL_FILE_ID : Z := 0xe599d90c2975584a.
Definition STIVALE2_STRUCT_TAG_KERNEL_FILE_V2_ID : Z := 0x37c13018a02c6ea2.
Definition STIVALE2_STRUCT_TAG_BOOT_VOLUME_ID : Z := 0x9b4358364c19ee62.
Definition STIVALE2_STRUCT_TAG_KERNEL_SLIDE_ID : Z := 0xee80847d01506c57.
Definition STIVALE2_STRUCT_TAG_SMBIOS_ID : Z := 0x274bd246c62bf7d1.
Definition STIVALE2_STRUCT_TAG_SMP_ID : Z := 0x34d1d96339647025.
Definition STIVALE2_STRUCT_TAG_PXE_SERVER_INFO : Z := 0x29d1e96239247032.
Definition STIVALE2_STRUCT_TAG_MMIO32_UART : Z := 0xb813f9b8dbc78797.
Definition STIVALE2_STRUCT_TAG_DTB : Z := 0xabb29bd49a2833fa.
Definition STIVALE2_STRUCT_TAG_HHDM_ID : Z := 0xb0ed257db18cb58f.

(** ** Reading the structures *)

Definition read_framebuffer (m : mem) (a : Z) : framebuffer :=
  let f := member stivale2_struct_tag_framebuffer_fields m a in
  Framebuffer (f "framebuffer_addr"%string) (f "framebuffer_width"%string) (f "framebuffer_height"%string)
    (f "framebuffer_pitch"%string) (f "framebuffer_bpp"%string) (f "memory_model"%string)
    (f "red_mask_size"%string) (f "red_mask_shift"%string) (f "green_mask_size"%string)
    (f "green_mask_shift"%string) (f "blue_mask_size"%string) (f "blue_mask_shift"%string).

(** The elements of the array at the end of a structure. *)
Definition elements {A} (t elt : ctype) (count array : string) (read : Z → A) (m : mem) (a : Z) : list A :=
  map (λ i, read (a + offset_of t array + i * sizeof elt)) (seqZ 0 (member t m a count)).

Definition read_memmap (m : mem) : Z → list stivale2_mmap_entry :=
  elements stivale2_struct_tag_memmap_fields stivale2_mmap_entry_fields "entries" "memmap"
    (λ e, let f := member stivale2_mmap_entry_fields m e in
          MmapEntry (f "base"%string) (f "length"%string) (f "type"%string)) m.

Definition read_pmrs (m : mem) : Z → list stivale2_pmr :=
  elements stivale2_struct_tag_pmrs_fields stivale2_pmr_fields "entries" "pmrs"
    (λ e, let f := member stivale2_pmr_fields m e in
          Pmr (f "base"%string) (f "length"%string) (f "permissions"%string)) m.

Definition read_base_address (m : mem) (a : Z) : stivale2_struct_tag_kernel_base_address :=
  let f := member stivale2_struct_tag_kernel_base_address_fields m a in
  KernelBaseAddress (f "physical_base_address"%string) (f "virtual_base_address"%string).

(** ** Looking up tags *)

Definition identifier (m : mem) (a : Z) : Z := member stivale2_tag_fields m a "identifier".
Definition next (m : mem) (a : Z) : Z := member stivale2_tag_fields m a "next".

(** The loop over the linked list. *)
Fixpoint get_tag_from (fuel : nat) (m : mem) (current_tag id : Z) : outcome Z :=
  match fuel with
  | O => OutOfFuel
  | S fuel =>
      if current_tag =? 0 then Done 0
      else if identifier m current_tag =? id then Done current_tag
      else get_tag_from fuel m (next m current_tag) id
  end.
Definition stivale2_get_tag (fuel : nat) (m : mem) (stivale2_struct id : Z) : outcome Z :=
  get_tag_from fuel m (member stivale2_struct_fields m stivale2_struct "tags") id.

(** What [_start] looks up, in its order; a missing terminal is a null pointer
    it reads through. *)
Record boot_tags := BootTags {
  mods : Z; fb_tag : Z; memmap : Z; kern_base_addr : Z; pmrs : Z; term_str_tag : Z; rsdp_addr_tag : Z;
  term_write : Z; smp_info : Z;
}.
Definition start_tags (fuel : nat) (m : mem) (s : Z) : outcome boot_tags :=
  mods ← stivale2_get_tag fuel m s STIVALE2_STRUCT_TAG_MODULES_ID;
  fb ← stivale2_get_tag fuel m s STIVALE2_STRUCT_TAG_FRAMEBUFFER_ID;
  memmap ← stivale2_get_tag fuel m s STIVALE2_STRUCT_TAG_MEMMAP_ID;
  kern_base_addr ← stivale2_get_tag fuel m s STIVALE2_STRUCT_TAG_KERNEL_BASE_ADDRESS_ID;
  pmrs ← stivale2_get_tag fuel m s STIVALE2_STRUCT_TAG_PMRS_ID;
  term_str_tag ← stivale2_get_tag fuel m s STIVALE2_STRUCT_TAG_TERMINAL_ID;
  rsdp_addr_tag ← stivale2_get_tag fuel m s STIVALE2_STRUCT_TAG_RSDP_ID;
  _ ← check (negb (term_str_tag =? 0));
  let term_write := member stivale2_struct_tag_terminal_fields m term_str_tag "term_write" in
  smp_info ← stivale2_get_tag fuel m s STIVALE2_STRUCT_TAG_SMP_ID;
  Done (BootTags mods fb memmap kern_base_addr pmrs term_str_tag rsdp_addr_tag term_write smp_info).

(** ** What the kernel asks for

    The static tags of [kernel.c]; those from the frame buffer structure on
    carry the identifiers of structures, which ask for nothing. *)
Inductive static_tag :=
| terminal_hdr_tag | smp_hdr_tag | framebuffer_hdr_tag | framebuffer_struct | base_addr_tag | pmr_tag
| modules_tag | rsdp_tag.

Definition static_identifier (x : static_tag) : Z :=
  match x with
  | terminal_hdr_tag => STIVALE2_HEADER_TAG_TERMINAL_ID
  | smp_hdr_tag => STIVALE2_HEADER_TAG_SMP_ID
  | framebuffer_hdr_tag => STIVALE2_HEADER_TAG_FRAMEBUFFER_ID
  | framebuffer_struct => STIVALE2_STRUCT_TAG_FRAMEBUFFER_ID
  | base_addr_tag => STIVALE2_STRUCT_TAG_KERNEL_BASE_ADDRESS_ID
  | pmr_tag => STIVALE2_STRUCT_TAG_PMRS_ID
  | modules_tag => STIVALE2_STRUCT_TAG_MODULES_ID
  | rsdp_tag => STIVALE2_STRUCT_TAG_RSDP_ID
  end.

Definition static_next (x : static_tag) : option static_tag :=
  match x with
  | terminal_hdr_tag => None
  | smp_hdr_tag => Some terminal_hdr_tag
  | framebuffer_hdr_tag => Some smp_hdr_tag
  | framebuffer_struct => Some framebuffer_hdr_tag
  | base_addr_tag => Some framebuffer_struct
  | pmr_tag => Some base_addr_tag
  | modules_tag => Some pmr_tag
  | rsdp_tag => Some modules_tag
  end.

(** The members of [framebuffer_hdr_tag]. *)
Definition asked_width : Z := 1920.
Definition asked_height : Z := 1080.
Definition asked_bpp : Z := 16.

(** The initial memory of the kernel: [addr] gives the addresses of the tags,
    [hdr] that of [stivale_hdr] and [stack] that of the stack. *)
Record statics (m : mem) (addr : static_tag → Z) (hdr stack : Z) : Prop := {
  st_identifier : ∀ x, identifier m (addr x) = static_identifier x;
  st_next : ∀ x, next m (addr x) = match static_next x with Some y => addr y | None => 0 end;
  st_width : member stivale2_header_tag_framebuffer_fields m (addr framebuffer_hdr_tag) "framebuffer_width" = asked_width;
  st_height : member stivale2_header_tag_framebuffer_fields m (addr framebuffer_hdr_tag) "framebuffer_height" = asked_height;
  st_bpp : member stivale2_header_tag_framebuffer_fields m (addr framebuffer_hdr_tag) "framebuffer_bpp" = asked_bpp;
  st_entry : member stivale2_header_fields m hdr "entry_point" = 0;
  st_stack : member stivale2_header_fields m hdr "stack" = stack + 8192;
  st_flags : member stivale2_header_fields m hdr "flags" =
    Z.lor (Z.lor (Z.lor (Z.shiftl 1 1) (Z.shiftl 1 2)) (Z.shiftl 1 3)) (Z.shiftl 1 4);
  st_tags : member stivale2_header_fields m hdr "tags" = addr rsdp_tag;
}.

(** ** The keystroke printer *)

(** The character and the end of the string are the format. *)
Definition print_key (IN_USE : bool) (key_info : KeyInfo) (junk : list printk_arg) : outcome (list (list Z) * bool) :=
  c ← CharFromScancode key_info;
  PrintK IN_USE (if c =? 0 then [] else [c]) junk.

(** ** Properties *)

(** The structures of the boot protocol have no padding between members, as
    the protocol lays them out, although none is declared packed; only that of
    the PXE server has padding at its end. *)
Theorem stivale2_no_padding :
  Forall (λ t, offsets t = (packed_offsets 0 (members t)).1 ∧
    (sizeof t = (packed_offsets 0 (members t)).2 ∨ t = stivale2_struct_tag_pxe_server_info_fields))
    stivale2_structures.
Proof.
  repeat (apply Forall_cons; split; [split; [vm_compute; reflexivity|]|]); try apply Forall_nil_2;
    first [left; vm_compute; reflexivity | right; reflexivity].
Qed.

(** A list of tags in memory, with their identifiers. *)
Inductive tags_at (m : mem) : Z → list (Z * Z) → Prop :=
| tags_nil : tags_at m 0 []
| tags_cons a l : a ≠ 0 → tags_at m (next m a) l → tags_at m a ((a, identifier m a) :: l).

Lemma get_tag_from_spec m id fuel : ∀ a l,
  tags_at m a l → (length l < fuel)%nat →
  get_tag_from fuel m a id = Done (default 0 (fst <$> List.find (λ t, t.2 =? id) l)).
Proof.
  induction fuel as [|fuel IH]; intros a l Hl Hf; [lia|]. cbn [get_tag_from].
  destruct Hl as [|a l Hnz Hl]; [done|]. rewrite (proj2 (Z.eqb_neq a 0) Hnz). cbn [List.find snd].
  destruct (identifier m a =? id); [done|]. apply IH; [done|]. cbn in Hf. lia.
Qed.

(** A list that has the identifier, or closes without it. *)
Lemma get_tag_from_cycle m id (ring : list Z) fuel : ∀ a,
  (∀ a, a ∈ ring → a ≠ 0 ∧ identifier m a ≠ id ∧ next m a ∈ ring) → a ∈ ring →
  get_tag_from fuel m a id = OutOfFuel.
Proof.
  induction fuel as [|fuel IH]; intros a Hr Ha; [done|]. cbn [get_tag_from].
  destruct (Hr a Ha) as (Hnz & Hid & Hn).
  rewrite (proj2 (Z.eqb_neq a 0) Hnz), (proj2 (Z.eqb_neq _ _) Hid). by apply IH.
Qed.

(** C38: [stivale2_get_tag] finds the first tag with the identifier, or answers
    [NULL], in as many steps as the list has tags; on a list that closes in a
    ring without the identifier it never ends. *)
Theorem stivale2_get_tag_spec m s id :
  (∀ l fuel, tags_at m (member stivale2_struct_fields m s "tags") l → (length l < fuel)%nat →
    stivale2_get_tag fuel m s id = Done (default 0 (fst <$> List.find (λ t, t.2 =? id) l))) ∧
  (∀ (ring : list Z) fuel, (∀ a, a ∈ ring → a ≠ 0 ∧ identifier m a ≠ id ∧ next m a ∈ ring) →
    member stivale2_struct_fields m s "tags" ∈ ring → stivale2_get_tag fuel m s id = OutOfFuel).
Proof.
  split; intros; [by apply get_tag_from_spec|by eapply get_tag_from_cycle].
Qed.

(** The chain of the kernel's tags. *)
Lemma kernel_chain m addr hdr stack :
  statics m addr hdr stack → (∀ x, addr x ≠ 0) →
  tags_at m (member stivale2_header_fields m hdr "tags")
    (map (λ x, (addr x, static_identifier x))
       [rsdp_tag; modules_tag; pmr_tag; base_addr_tag; framebuffer_struct; framebuffer_hdr_tag; smp_hdr_tag;
        terminal_hdr_tag]).
Proof.
  intros S Hnz. rewrite (st_tags _ _ _ _ S). cbn [map].
  do 8 (rewrite <-(st_identifier _ _ _ _ S); constructor; [apply Hnz|]; rewrite (st_next _ _ _ _ S); cbn [static_next]).
  constructor.
Qed.

(** The requests of the kernel: following the list in its header the boot
    loader finds the three header tags, and the frame buffer it is asked for
    has 16 bits a pixel; for every frame buffer it then provides as asked,
    [PackRgb] packs every colour as 0, so all that is drawn is black. *)
Theorem kernel_requests m addr hdr stack fuel id :
  statics m addr hdr stack → (∀ x, addr x ≠ 0) → (8 < fuel)%nat →
  get_tag_from fuel m (member stivale2_header_fields m hdr "tags") id =
    Done (if id =? STIVALE2_HEADER_TAG_FRAMEBUFFER_ID then addr framebuffer_hdr_tag
          else if id =? STIVALE2_HEADER_TAG_SMP_ID then addr smp_hdr_tag
          else if id =? STIVALE2_HEADER_TAG_TERMINAL_ID then addr terminal_hdr_tag
          else if id =? STIVALE2_STRUCT_TAG_RSDP_ID then addr rsdp_tag
          else if id =? STIVALE2_STRUCT_TAG_MODULES_ID then addr modules_tag
          else if id =? STIVALE2_STRUCT_TAG_PMRS_ID then addr pmr_tag
          else if id =? STIVALE2_STRUCT_TAG_KERNEL_BASE_ADDRESS_ID then addr base_addr_tag
          else if id =? STIVALE2_STRUCT_TAG_FRAMEBUFFER_ID then addr framebuffer_struct
          else 0) ∧
  ∀ f rgb, framebuffer_bpp f =
      member stivale2_header_tag_framebuffer_fields m (addr framebuffer_hdr_tag) "framebuffer_bpp" →
    PackRgb rgb f = Done 0.
Proof.
  intros S Hnz Hf. split.
  - rewrite (get_tag_from_spec m id fuel _ _ (kernel_chain _ _ _ _ S Hnz)) by (cbn; lia). f_equal.
    cbn [map List.find snd static_identifier]. rewrite !(Z.eqb_sym _ id).
    destruct (Z.eqb_spec id STIVALE2_HEADER_TAG_FRAMEBUFFER_ID) as [->|]; [reflexivity|].
    destruct (Z.eqb_spec id STIVALE2_HEADER_TAG_SMP_ID) as [->|]; [reflexivity|].
    destruct (Z.eqb_spec id STIVALE2_HEADER_TAG_TERMINAL_ID) as [->|]; [reflexivity|].
    destruct (id =? STIVALE2_STRUCT_TAG_RSDP_ID); [reflexivity|].
    destruct (id =? STIVALE2_STRUCT_TAG_MODULES_ID); [reflexivity|].
    destruct (id =? STIVALE2_STRUCT_TAG_PMRS_ID); [reflexivity|].
    destruct (id =? STIVALE2_STRUCT_TAG_KERNEL_BASE_ADDRESS_ID); [reflexivity|].
    destruct (id =? STIVALE2_STRUCT_TAG_FRAMEBUFFER_ID); reflexivity.
  - intros f rgb Hb. unfold PackRgb. rewrite Hb, (st_bpp _ _ _ _ S). reflexivity.
Qed.

(** The keystroke printer prints the character of every key that has one,
    and nothing for the others. *)
Theorem print_key_spec k junk c :
  CharFromScancode k = Done c →
  printed (print_key false k junk) = Done (if c =? 0 then [] else [c], false).
Proof.
  intros Hc. unfold print_key. rewrite Hc. do_bind. rewrite PrintK_printed.
  destruct (c =? 0); [done|]. cbn [printk_loop]. rewrite andb_false_r. done.
Qed.

(** ** Witnesses *)

(** The list of a boot loader: an unknown tag at 0x1000, a frame buffer at
    0x2000; in the second memory the list closes. *)
Definition ex_boot (last : Z) : mem :=
  st64 (st64 (st64 (st64 (st64 ∅ (0x800 + 128) 0x1000) 0x1000 7) 0x1008 0x2000)
    0x2000 STIVALE2_STRUCT_TAG_FRAMEBUFFER_ID) 0x2008 last.

Lemma stivale2_get_tag_spec_witness :
  stivale2_get_tag 5 (ex_boot 0) 0x800 STIVALE2_STRUCT_TAG_FRAMEBUFFER_ID = Done 0x2000 ∧
  stivale2_get_tag 1000 (ex_boot 0x1000) 0x800 STIVALE2_STRUCT_TAG_RSDP_ID = OutOfFuel.
Proof.
  split.
  - destruct (stivale2_get_tag_spec (ex_boot 0) 0x800 STIVALE2_STRUCT_TAG_FRAMEBUFFER_ID) as [H _].
    refine (eq_trans (H [(0x1000, 7); (0x2000, STIVALE2_STRUCT_TAG_FRAMEBUFFER_ID)] 5%nat _ _) eq_refl);
      [|cbn; lia].
    apply (tags_cons (ex_boot 0) 0x1000); [lia|]. apply (tags_cons (ex_boot 0) 0x2000); [lia|]. apply tags_nil.
  - destruct (stivale2_get_tag_spec (ex_boot 0x1000) 0x800 STIVALE2_STRUCT_TAG_RSDP_ID) as [_ H].
    apply (H [0x1000; 0x2000]); [|left].
    intros a. rewrite !elem_of_cons, elem_of_nil. intros [->|[->|[]]]; (split; [lia|]);
      (split; [vm_compute; discriminate|]); [right; left; vm_compute; reflexivity|left; vm_compute; reflexivity].
Defined.

(** The static tags, a page each. *)
Definition ex_addr (x : static_tag) : Z :=
  match x with
  | terminal_hdr_tag => 0x1000 | smp_hdr_tag => 0x2000 | framebuffer_hdr_tag => 0x3000 | framebuffer_struct => 0x4000
  | base_addr_tag => 0x5000 | pmr_tag => 0x6000 | modules_tag => 0x7000 | rsdp_tag => 0x8000
  end.
Definition ex_static (m : mem) (x : static_tag) : mem :=
  st64 (st64 m (ex_addr x) (static_identifier x)) (ex_addr x + 8)
    (match static_next x with Some y => ex_addr y | None => 0 end).
Definition ex_statics : mem :=
  let m := fold_left ex_static [terminal_hdr_tag; smp_hdr_tag; framebuffer_hdr_tag; framebuffer_struct; base_addr_tag;
                                pmr_tag; modules_tag; rsdp_tag] ∅ in
  let m := st16 (st16 (st16 m 0x3010 1920) 0x3012 1080) 0x3014 16 in
  st64 (st64 (st64 m 0x9008 (0xa000 + 8192)) 0x9010 30) 0x9018 0x8000.

Lemma kernel_requests_witness :
  statics ex_statics ex_addr 0x9000 0xa000 ∧
  get_tag_from 9 ex_statics (member stivale2_header_fields ex_statics 0x9000 "tags")
    STIVALE2_HEADER_TAG_FRAMEBUFFER_ID = Done 0x3000.
Proof.
  assert (S : statics ex_statics ex_addr 0x9000 0xa000).
  { split; first [intros []; vm_compute; reflexivity | vm_compute; reflexivity]. }
  split; [exact S|].
  destruct (kernel_requests ex_statics ex_addr 0x9000 0xa000 9 STIVALE2_HEADER_TAG_FRAMEBUFFER_ID S) as [H _];
    [intros []; discriminate|lia|]. exact H.
Defined.

Lemma print_key_spec_witness :
  printed (print_key false (KeyState true false false false 0x10) []) = Done (chars "Q", false).
Proof. apply (print_key_spec (KeyState true false false false 0x10) [] 81). reflexivity. Defined.
