(* ===== verification/Start.v ===== *)
(** * The start of the kernel: memory

    The part of [_start] ([src/src/kernel/kernel.c]) that sets up memory: the
    frame allocator, the firmware's tables and the kernel's address space, each
    built with what the one before has left.  The firmware's tables are read
    after the allocator has written its bitmap, the arrays made of them have to
    outlive the page tables, and the frames must suffice for all of it. *)
From stdpp Require Import base list gmap.
From S2P Require Import Prelude Memory Stivale Pmm FrameAlloc PageTable Region Vmm Kheap Acpi Devices Madt IoApic MadtParse.

(** ** State and operation *)

(** The static state of the four components; physical memory and the frame
    allocator are those of the virtual memory manager's state. *)
Record kernel (D : Type) := Kernel {
  k_vmm : vmm pmm;
  k_acpi : acpi;
  k_smp : smp_info_t;
  k_chips : apics D;
}.
Arguments Kernel {D}.
Arguments k_vmm {D}.
Arguments k_acpi {D}.
Arguments k_smp {D}.
Arguments k_chips {D}.

Section start.
Context {D : Type} `{Mmio D} (bsp_lapic_id : Z) (junk : Z → Z).

(** The four calls; each result is ignored.  [fuel] bounds the records of the
    table [ParseMadt] reads, [apic] is the address of the string ["APIC"]. *)
Definition start_memory (fuel : nat) (k : kernel D) (memmap : list stivale2_mmap_entry)
    (kern_base_addr : stivale2_struct_tag_kernel_base_address) (pmrs : list stivale2_pmr)
    (rsdp apic : Z) : outcome (kernel D) :=
  '(_, w) ← InitPmm (world (k_vmm k)) memmap;
  '(_, a) ← InitAcpi (pmm_mem w) (k_acpi k) rsdp;
  st ← ParseMadt bsp_lapic_id junk fuel a apic (MadtParse.Machine w (k_smp k) (k_chips k));
  '(_, s) ← InitPageTable (set_world (k_vmm k) (MadtParse.frames st)) memmap kern_base_addr pmrs;
  Done (Kernel s a (smp st) (chips st)).

End start.

(** The call of [init_heap], with the size the kernel asks for. *)
Definition START_HEAP_SIZE : Z := 0x20000.
Definition start_heap {D} (k : kernel D) : outcome (heap * kernel D) :=
  '(h, w) ← init_heap (world (k_vmm k)) START_HEAP_SIZE;
  Done (h, Kernel (set_world (k_vmm k) w) (k_acpi k) (k_smp k) (k_chips k)).

(** ** Specification *)

(** An address no usable entry of the memory map covers. *)
Definition reserved (memmap : list stivale2_mmap_entry) (a : Z) : Prop :=
  ∀ e, e ∈ memmap → is_usable e = true → ¬ (mm_base e ≤ a < mm_base e + mm_length e).

(** The firmware's description of the machine, in reserved memory: the tables,
    and the records [rs] of the one named by [apic]. *)
Record firmware_ok memmap (m : mem) (rsdp apic madt : Z) (rs : list Z) : Prop := {
  fw_tables : tables_ok (reserved memmap) m rsdp apic madt;
  fw_nonnull : madt ≠ 0;
  fw_records : madt_records m madt (table_length m madt) MADT_RECORDS_OFFSET rs;
  fw_reserved : Forall (λ r, spans (reserved memmap) r 12) rs;
  fw_range : Forall (λ r, 4096 ≤ r ∧ r + 12 ≤ 2 ^ 52) rs;
  fw_fits : ∀ t, t ∈ array_kinds → Z.of_nat (record_size t) * Z.of_nat (length (of_kind m t rs)) ≤ 4096;
}.

(** A memory map the frame allocator can work with, and ranges the address
    space can hold. *)
Record memory_ok memmap kern (pmrs : list stivale2_pmr) : Prop := {
  me_map : memmap_ok memmap;
  me_entries : 3 ≤ UppermostUsableAddr memmap / FRAME_SIZE < 2 ^ 30;
  me_rounding : 8 ≤ UppermostUsableAddr memmap / FRAME_SIZE mod 32768 ≤ 32766;
  me_bitmap : FindMemEntryBySize memmap (bitmap_bytes (UppermostUsableAddr memmap)) ≠ -1;
  me_pmrs : Forall (Vmm.pmr_ok kern) pmrs;
  me_ranges : Forall entry_ok memmap;
}.

(** A usable entry of [need] frames and two more, other than the one that takes
    the bitmap. *)
Definition room memmap (need : nat) : Prop :=
  ∃ k e, memmap !! k = Some e ∧ is_usable e = true ∧
    FindMemEntryBySize memmap (bitmap_bytes (UppermostUsableAddr memmap)) ≠ Z.of_nat k ∧
    Z.of_nat need + 2 ≤ mm_length e / FRAME_SIZE.

(** The same above the first page, with the frames below 4 GiB. *)
Definition low_room memmap (need : nat) : Prop :=
  ∃ k e, freed_above_first memmap k e ∧
    FindMemEntryBySize memmap (bitmap_bytes (UppermostUsableAddr memmap)) ≠ Z.of_nat k ∧
    Z.of_nat need + 1 ≤ mm_length e / FRAME_SIZE ∧
    mm_base e + Z.of_nat need * FRAME_SIZE ≤ 2 ^ 32.

(** The frames the four steps take: five for the arrays, those of the page
    tables, and [spare]. *)
Definition memory_cost kern (pmrs : list stivale2_pmr) memmap (spare : nat) : nat :=
  5 + boot_cost_and kern pmrs memmap spare.

(** ** The allocator after [InitPmm] *)

(** What [InitPmm] leaves: reserved memory as it was and nobody's to hand out,
    and frames available in the sense of [P]. *)
Record pmm_started (P : pmm → nat → Prop) memmap (m0 : mem) (need : nat) (w : pmm) : Prop := {
  st_ok : pmm_ok w;
  st_reserved : ∀ a, reserved memmap a → ld8 (pmm_mem w) a = ld8 m0 a;
  st_client : ∀ a, reserved memmap a → 4096 ≤ a < 2 ^ 52 → pmm_client w (a - a mod 4096);
  st_avail : P w need;
}.

(** The frames of an entry that was freed. *)
Definition freed_frames memmap (w : pmm) : Prop :=
  ∀ k e, memmap !! k = Some e → is_usable e = true →
    FindMemEntryBySize memmap (bitmap_bytes (UppermostUsableAddr memmap)) ≠ Z.of_nat k →
    let a := mm_base e / FRAME_SIZE in
    0 ≤ a ∧ a + mm_length e / FRAME_SIZE ≤ num_entries (PHYS_MEMORY_MAP w) + 1 ∧
    (∀ j, a ≤ j < a + mm_length e / FRAME_SIZE → used w j = false) ∧
    (FRAME_SIZE < mm_base e → last_used (PHYS_MEMORY_MAP w) < a).

Lemma InitPmm_started w memmap kern pmrs :
  memory_ok memmap kern pmrs → last_used (PHYS_MEMORY_MAP w) = 0 →
  ∃ w', InitPmm w memmap = Done (true, w') ∧ freed_frames memmap w' ∧
    ∀ P need, P w' need → pmm_started P memmap (pmm_mem w) need w'.
Proof.
  intros Hme Hlast. destruct Hme as [Hmap Hn Hm Hb _ _].
  destruct (InitPmm_establishes w memmap Hmap Hlast Hn Hm Hb)
    as (w' & b & eb & Hrun & Hok & Hne & Hbi & Heb & Husb & Hsz & Hbase & Hout & Hchar & Habove).
  set (top := UppermostUsableAddr memmap) in *. set (n := top / FRAME_SIZE) in *.
  assert (Hin : ∀ i x, memmap !! i = Some x → x ∈ memmap) by (intros; by eapply list_elem_of_lookup_2).
  destruct (mo_usable _ Hmap eb (Hin _ _ Heb) Husb) as (Hb1 & Hb2 & Hb3 & Hb4 & Hb5).
  exists w'. split; [done|]. split.
  - intros k e Hk Hus Hkb. fold top in Hkb. destruct (mo_usable _ Hmap e (Hin _ _ Hk) Hus) as (He1 & He2 & He3 & He4 & He5).
    pose proof (uppermost_top memmap e Hmap (Hin _ _ Hk) Hus) as Htop. fold top in Htop. cbv zeta. rewrite Hne.
    assert (Hkne : k ≠ b) by (intros ->; congruence).
    split_and!; [unfold FRAME_SIZE in *; dlia|subst n; unfold FRAME_SIZE in *; dlia| |].
    + intros j Hj. apply Hchar; [subst n; unfold FRAME_SIZE in *; dlia|].
      exists k, e. split_and!; [done|done|done|unfold FRAME_SIZE in *; dlia..].
    + intros Hlow. by apply (Habove k e).
  - intros P need HP. split; [exact Hok| | |exact HP].
    + intros a Ha. apply Hout. specialize (Ha eb (Hin _ _ Heb) Husb). lia.
    + intros a Ha Hr. exists (a / 4096). unfold FRAME_SIZE in *. split_and!; [dlia|dlia|dlia| |].
      * intros Hle. destruct (used w' (a / 4096)) eqn:Hu; [done|exfalso].
        apply Hchar in Hu as (j & x & Hj & Hxu & _ & Hx); [|dlia].
        destruct (mo_usable _ Hmap x (Hin _ _ Hj) Hxu) as (_ & _ & ? & ? & _).
        unfold FRAME_SIZE in *. apply (Ha x (Hin _ _ Hj) Hxu). dlia.
      * intros [H1 H2]. rewrite Hbase in H1, H2. unfold FRAME_SIZE in H1, H2.
        apply (Ha eb (Hin _ _ Heb) Husb). dlia.
Qed.

Lemma room_avail memmap w need : freed_frames memmap w → room memmap need → count_avail w need.
Proof.
  intros Hf (k & e & Hk & Hus & Hb & Hneed). destruct (Hf k e Hk Hus Hb) as (Ha & Hn & Hu & _).
  pose proof (count_free_run w (mm_base e / FRAME_SIZE) (mm_length e / FRAME_SIZE - 1)) as Hc.
  enough (mm_length e / FRAME_SIZE - 1 ≤ count_free w) by (unfold count_avail; lia).
  apply Hc; [lia..|]. intros j Hj. apply Hu. lia.
Qed.

Lemma low_room_avail memmap w need : freed_frames memmap w → low_room memmap need → free_above (2 ^ 20) w need.
Proof.
  intros Hf (k & e & (Hk & Hus & Hlow) & Hb & Hneed & H32). destruct (Hf k e Hk Hus Hb) as (Ha & Hn & Hu & Hl).
  exists (mm_base e / FRAME_SIZE). split_and!; [by apply Hl|unfold FRAME_SIZE in *; dlia|lia|].
  intros j Hj. apply Hu. lia.
Qed.

(** ** The four steps *)

Section start_lemmas.
Context {D : Type} `{Mmio D} (bsp_lapic_id : Z) (junk : Z → Z).
Context (P : pmm → nat → Prop) (HP : availability P).

(** What is proved against the interface of the frame allocator, for the
    availability [P]. *)
#[local] Instance P_laws : @FrameAllocatorLaws pmm (with_avail P) := with_avail_laws P HP.

(** What the kernel has when the four steps are done. *)
Record memory_started memmap kern pmrs (m0 : mem) (rs : list Z) (spare : nat) (k : kernel D) : Prop := {
  ms_table : pt_ok (world (k_vmm k)) (cr3 (k_vmm k));
  ms_root : KERNEL_PAGE_TABLE_ROOT (k_vmm k) = cr3 (k_vmm k);
  ms_avail : P (world (k_vmm k)) spare;
  ms_pages : ∀ n, 0 ≤ n < 2 ^ 36 →
    pages (pmm_mem (world (k_vmm k))) (cr3 (k_vmm k)) n = boot_map kern pmrs memmap n;
  ms_records : holds_records m0 (pmm_mem (world (k_vmm k))) (k_smp k) rs;
  ms_lapic : lapic_addr (k_smp k) = last_lapic_addr m0 DEFAULT_LAPIC_ADDR rs;
  ms_arrays : ∀ t, t ∈ array_kinds → pmm_client (world (k_vmm k)) (array_base (k_smp k) t);
  ms_reserved : ∀ a, reserved memmap a → 4096 ≤ a < 2 ^ 52 →
    pmm_client (world (k_vmm k)) (a - a mod 4096) ∧ ld8 (pmm_mem (world (k_vmm k))) a = ld8 m0 a;
  ms_apart : ∀ f, is_table (world (k_vmm k)) (cr3 (k_vmm k)) f ∨ (∃ t, t ∈ array_kinds ∧ f = array_base (k_smp k) t) →
    ∀ a, reserved memmap a → 4096 ≤ a < 2 ^ 52 → ¬ (f ≤ a < f + 4096);
  ms_statics : PMRs (k_vmm k) = pmrs ∧ BASE_ADDR (k_vmm k) = kern ∧ MMAP (k_vmm k) = memmap;
}.

(** Physical addresses below 4 GiB are seen at themselves and from
    [KERNEL_DATA] up. *)
Definition sees_low (s : vmm pmm) : Prop :=
  ∀ a, 0x1000 ≤ a < 0x100000000 →
    KernelVAddrToPAddr s a = a - a mod 4096 ∧ KernelVAddrToPAddr s (a + KERNEL_DATA) = a - a mod 4096.

Lemma start_memory_builds fuel (k : kernel D) memmap kern pmrs rsdp apic madt rs spare :
  let w0 := world (k_vmm k) in
  let m0 := pmm_mem w0 in
  memory_ok memmap kern pmrs → firmware_ok memmap m0 rsdp apic madt rs →
  last_used (PHYS_MEMORY_MAP w0) = 0 → k_smp k = SMP_INFO_initial → (length rs < fuel)%nat →
  (∀ w, freed_frames memmap w → P w (memory_cost kern pmrs memmap spare)) →
  ∃ k', start_memory bsp_lapic_id junk fuel k memmap kern pmrs rsdp apic = Done k' ∧
    memory_started memmap kern pmrs m0 rs spare k'.
Proof.
  intros w0 m0 Hme Hfw Hlast Hsmp Hfuel Hroom. unfold start_memory. fold w0.
  destruct (InitPmm_started w0 memmap kern pmrs Hme Hlast) as (w1 & -> & Hfreed & Hst).
  destruct (Hst P _ (Hroom w1 Hfreed)) as [Hok Hres Hcl Hav]. clear Hst.
  do_bind. fold m0 in Hres. set (A := reserved memmap) in *.
  pose proof (tables_ok_agree A m0 (pmm_mem w1) Hres _ _ _ (fw_tables _ _ _ _ _ _ Hfw)) as Htab.
  destruct (InitAcpi_FindTable A (pmm_mem w1) (k_acpi k) rsdp apic madt Htab) as (a & -> & Hfind).
  do_bind. pose proof (fw_reserved _ _ _ _ _ _ Hfw) as Hrs. fold A in Hrs.
  pose proof (found_table_at A m0 rsdp apic madt (fw_tables _ _ _ _ _ _ Hfw)) as Hat.
  pose proof (table_length_agree A m0 (pmm_mem w1) Hres madt Hat) as Hlen.
  destruct (@ParseMadt_parses pmm (with_avail P) P_laws D _ bsp_lapic_id junk fuel a apic
    (MadtParse.Machine w1 (k_smp k) (k_chips k)) madt rs (boot_cost_and kern pmrs memmap spare))
    as (st & Hrun & [Hholds Hlapic Harr Hok2 Hav2 Hcl2 Hk2]); try done.
  { apply Hfw. }
  { change (table_length (pmm_mem w1) madt < 2 ^ 31). rewrite Hlen. destruct Hat as [? _]. lia. }
  { change (madt_records (pmm_mem w1) madt (table_length (pmm_mem w1) madt) MADT_RECORDS_OFFSET rs).
    rewrite Hlen. eapply madt_records_agree; [exact Hres|exact Hrs|apply Hfw]. }
  { apply Forall_forall. intros r Hr b Hb. pose proof (fw_range _ _ _ _ _ _ Hfw) as Hrange.
    rewrite Forall_forall in Hrs, Hrange. specialize (Hrange r Hr).
    exists (b - b mod 4096). split; [|dlia]. apply Hcl; [apply (Hrs r Hr); lia|lia]. }
  { intros t Ht. change (pmm_mem (frames (MadtParse.Machine w1 (k_smp k) (k_chips k)))) with (pmm_mem w1).
    change (@fa_mem pmm (with_avail P) w1) with (pmm_mem w1).
    rewrite (of_kind_agree A m0 (pmm_mem w1) Hres rs Hrs). by apply Hfw. }
  change (@ParseMadt pmm (with_avail P) D _ bsp_lapic_id junk fuel a apic) with
    (@ParseMadt pmm pmm_FrameAllocator D _ bsp_lapic_id junk fuel a apic) in Hrun.
  rewrite Hrun. do_bind.
  destruct (@InitPageTable_builds pmm (with_avail P) P_laws (set_world (k_vmm k) (MadtParse.frames st))
    memmap kern pmrs spare) as (s & Hinit & Hpt & Hroot & Htabs & Hpages & Hav3 & Hcl3 & Hk3 & Hp & Hb & Hm);
    [exact Hok2|apply Hme|apply Hme|exact Hav2|].
  change (InitPageTable (set_world (k_vmm k) (MadtParse.frames st)) memmap kern pmrs = Done (true, s)) in Hinit.
  rewrite Hinit. do_bind. eexists. split; [done|]. split; cbn [k_vmm k_smp]; try done.
  - by apply pt_ok_avail in Hpt.
  - apply (holds_records_kept m0 (pmm_mem (MadtParse.frames st))).
    + by apply (holds_records_agree A m0 (pmm_mem w1) Hres rs Hrs).
    + intros t Ht. destruct (Harr t Ht) as (Hc & _ & Hf). split; [done|]. intros x Hx. by apply (Hk3 (array_base (smp st) t)).
  - rewrite Hlapic. by apply (last_lapic_agree A m0 (pmm_mem w1) Hres rs Hrs).
  - intros t Ht. apply Hcl3. by apply (Harr t).
  - intros x Hx Hr. specialize (Hcl x Hx Hr).
    assert (Hcl' : pmm_client (MadtParse.frames st) (x - x mod 4096)) by by apply Hcl2.
    split; [by apply Hcl3|]. rewrite <-(Hres x Hx).
    transitivity (ld8 (pmm_mem (MadtParse.frames st)) x).
    + apply (Hk3 (x - x mod 4096)); [done|dlia].
    + apply (Hk2 (x - x mod 4096)); [done|dlia].
  - intros f Hf x Hx Hr Hin. specialize (Hcl x Hx Hr). assert (Hnew : ¬ pmm_client w1 f ∧ pmm_client (world s) f).
    { destruct Hf as [Hf|(t & Ht & ->)].
      - split; [intros Hc; by apply (Htabs f Hf), Hcl2|]. apply pt_ok_avail in Hpt. by apply (is_table_client _ _ _ Hpt).
      - destruct (Harr t Ht) as (H1 & H2 & _). split; [done|by apply Hcl3]. }
    destruct Hnew as [Hn (j & Hj & _)]. apply Hn. unfold FRAME_SIZE in Hj.
    by replace f with (x - x mod 4096) by dlia.
Qed.

End start_lemmas.

Lemma memory_started_low {D} P memmap kern pmrs m0 rs spare (k : kernel D) :
  memory_started P memmap kern pmrs m0 rs spare k → sees_low (k_vmm k).
Proof.
  intros [Hpt Hroot _ Hpages _ _ _ _ _] x Hx. unfold KernelVAddrToPAddr. rewrite Hroot.
  rewrite !VAddrToPAddr_pages by apply page_no_range.
  change (fa_mem (world (k_vmm k))) with (pmm_mem (world (k_vmm k))). rewrite !Hpages by apply page_no_range.
  destruct (boot_map_low kern pmrs memmap x Hx) as [-> ->]. split; apply kernel_entry_paddr; dlia.
Qed.

(** ** Properties *)

Section start_properties.
Context {D : Type} `{Mmio D} (bsp_lapic_id : Z) (junk : Z → Z).

(** C5: On a machine whose memory map and firmware tables keep the promises of
    their specifications, with a usable entry large enough, the four steps
    terminate and succeed together: the page table loaded into CR3 is
    well formed and is the initial address space, the first 4 GiB (but for the
    first page) translate to themselves, and the arrays made of the firmware's
    table hold exactly its records, as they were in memory before the kernel
    started, although the allocator's bitmap and the page tables have been
    written since.  In particular [FindTable] finds the table "APIC"; the
    comment above it says that it fails. *)
Theorem start_memory_spec fuel (k : kernel D) memmap kern pmrs rsdp apic madt rs spare :
  let w0 := world (k_vmm k) in
  let m0 := pmm_mem w0 in
  memory_ok memmap kern pmrs → room memmap (memory_cost kern pmrs memmap spare) →
  firmware_ok memmap m0 rsdp apic madt rs →
  last_used (PHYS_MEMORY_MAP w0) = 0 → k_smp k = SMP_INFO_initial → (length rs < fuel)%nat →
  ∃ k', start_memory bsp_lapic_id junk fuel k memmap kern pmrs rsdp apic = Done k' ∧
    (let s := k_vmm k' in
     pt_ok (world s) (cr3 s) ∧ KERNEL_PAGE_TABLE_ROOT s = cr3 s ∧ fa_avail (world s) spare ∧
     (∀ n, 0 ≤ n < 2 ^ 36 →
        pages (pmm_mem (world s)) (cr3 s) n = boot_map kern pmrs memmap n) ∧
     sees_low s ∧
     holds_records m0 (pmm_mem (world s)) (k_smp k') rs ∧
     lapic_addr (k_smp k') = last_lapic_addr m0 DEFAULT_LAPIC_ADDR rs).
Proof.
  intros w0 m0 Hme Hroom Hfw Hlast Hsmp Hfuel.
  destruct (start_memory_builds bsp_lapic_id junk count_avail count_availability fuel k memmap kern pmrs rsdp
    apic madt rs spare) as (k' & Hk & Hst); [done..| |].
  { intros w Hf. by apply (room_avail memmap). }
  exists k'. split; [done|]. split_and!; try apply Hst. by eapply memory_started_low.
Qed.

End start_properties.

Section heap_properties.
Context {D : Type}.

(** A frame that is nobody's lies in none of another's. *)
Lemma region_disjoint w b np g a :
  pmm_client w g → (∀ i, b ≤ i < b + np → ¬ pmm_client w (i * FRAME_SIZE)) → g ≤ a < g + 4096 →
  ¬ (b * FRAME_SIZE ≤ a < (b + np) * FRAME_SIZE).
Proof.
  intros Hg Hnew Ha Hr. pose proof Hg as (j & -> & _). unfold FRAME_SIZE in *. apply (Hnew j); [lia|done].
Qed.

(** What [start_heap] leaves: 32 frames nobody had been given, all the memory of
    a heap that ends exactly where they do, and everything else as it was. *)
Record heap_started (k : kernel D) (spare : nat) (b : Z) (h : heap) (k' : kernel D) : Prop := {
  hs_start : HEAP_START h = b * 4096 + KERNEL_DATA;
  hs_size : HEAP_SIZE h = 32 * 4096;
  hs_header : load h (HEAP_START h) = START_HEAP_SIZE - 8;
  hs_range : 0 < b ∧ b + 32 < 2 ^ 20;
  hs_table : pt_ok (world (k_vmm k')) (cr3 (k_vmm k));
  hs_pages : same_pages (cr3 (k_vmm k)) (world (k_vmm k)) (world (k_vmm k'));
  hs_mem : heap_mem h = higher_half (pmm_mem (world (k_vmm k')));
  hs_seen : ∀ v, HEAP_START h ≤ v < HEAP_START h + HEAP_SIZE h →
    KernelVAddrToPAddr (k_vmm k') v = v - KERNEL_DATA - v mod 4096;
  hs_frames : ∀ i, b ≤ i < b + 32 →
    pmm_client (world (k_vmm k')) (i * 4096) ∧ ¬ pmm_client (world (k_vmm k)) (i * 4096);
  hs_clients : ∀ g, pmm_client (world (k_vmm k)) g → pmm_client (world (k_vmm k')) g;
  hs_kept : keeps_clients (world (k_vmm k)) (world (k_vmm k'));
  hs_avail : free_above (2 ^ 20) (world (k_vmm k')) spare;
  hs_rest : k' = Kernel (set_world (k_vmm k) (world (k_vmm k'))) (k_acpi k) (k_smp k) (k_chips k);
}.

(** Of the address space the heap is backed in. *)
Lemma heap_seen (s : vmm pmm) w' b v :
  KERNEL_PAGE_TABLE_ROOT s = cr3 s → sees_low s → same_pages (cr3 s) (world s) w' → 0 < b → b + 32 < 2 ^ 20 →
  b * 4096 + KERNEL_DATA ≤ v < b * 4096 + KERNEL_DATA + 32 * 4096 →
  KernelVAddrToPAddr (set_world s w') v = v - KERNEL_DATA - v mod 4096.
Proof.
  intros Hroot Hlow Hpg Hb1 Hb2 Hv. destruct (Hlow (v - KERNEL_DATA)) as [_ Hl]; [lia|].
  unfold KernelVAddrToPAddr in *. rewrite Z.sub_add in Hl. rewrite Hroot, VAddrToPAddr_pages in Hl.
  cbn [KERNEL_PAGE_TABLE_ROOT set_world set_vm world vm set_frames PageTable.frames].
  rewrite Hroot, VAddrToPAddr_pages, Hpg by apply page_no_range.
  etrans; [apply Hl|]; unfold KERNEL_DATA in *; dlia.
Qed.

Lemma start_heap_places (k : kernel D) spare :
  let s := k_vmm k in
  pt_ok (world s) (cr3 s) → KERNEL_PAGE_TABLE_ROOT s = cr3 s → sees_low s →
  free_above (2 ^ 20) (world s) (34 + spare) →
  ∃ b h k', start_heap k = Done (h, k') ∧ heap_started k spare b h k'.
Proof.
  intros s Hpt Hroot Hlow Hav. set (w := world s) in *.
  pose proof (pt_world w (cr3 s) Hpt) as Hok. change (Pmm.pmm_ok w) in Hok.
  pose proof (ok_last w Hok). pose proof (ok_entries w Hok).
  destruct (free_above_run (2 ^ 20) w 32 spare Hok ltac:(lia) Hav) as (b & Hrun & Hb1 & Hb2 & Hav').
  destruct (AllocContiguous_finds w START_HEAP_SIZE b Hok ltac:(done) Hrun) as (w1 & Ha & Ht).
  change (pages_for START_HEAP_SIZE) with 32 in Ht.
  pose proof (first_run_range w 32 b Hok ltac:(lia) Hrun) as Hbr.
  destruct (contiguous_clients w b 32 w1 Hok ltac:(lia) ltac:(lia) ltac:(lia) Ht) as (Hcl & Hkeep & Hnew).
  destruct (init_heap_places w START_HEAP_SIZE (b * FRAME_SIZE) w1 Ha) as (h & w2 & Hinit & Hp);
    [unfold FRAME_SIZE; lia|done|].
  destruct Hp as [Hst Hsz Hh _ Hw2 Hmem].
  assert (Hbk : bitmap_kept w1 (lower_half (heap_mem h))).
  { apply (frames_not_bitmap w1 _ b 32).
    - intros j Hj. destruct (Hnew j Hj) as [(j' & Heq & _ & _ & Hnb) _].
      by replace j with j' by (unfold FRAME_SIZE in Heq; lia).
    - rewrite Hw2 in Hmem. by replace ((b + 32) * FRAME_SIZE) with (b * FRAME_SIZE + START_HEAP_SIZE)
        by (unfold START_HEAP_SIZE, FRAME_SIZE; lia). }
  pose proof (ct_ok _ _ _ _ Ht) as Hok1.
  assert (Hcl2 : ∀ g, pmm_client w2 g ↔ pmm_client w1 g) by (intros g; rewrite Hw2; by apply client_kept).
  assert (Hkeep2 : keeps_clients w w2).
  { intros g a Hg Ha'. rewrite <-(Hkeep g a Hg Ha'). apply Hmem. intros Hr.
    apply (region_disjoint w b 32 g a Hg); [by intros i Hi; apply Hnew|done|].
    unfold START_HEAP_SIZE, FRAME_SIZE in *. lia. }
  destruct (tables_kept (cr3 s) w w2 Hpt) as (Hpt' & Hpg & _).
  { rewrite Hw2. by apply pmm_ok_kept. }
  { intros g Hg. by apply Hcl2, Hcl. }
  { intros g a Hg. apply (Hkeep2 g). by eapply is_table_client. }
  exists b, h, (Kernel (set_world s w2) (k_acpi k) (k_smp k) (k_chips k)).
  unfold start_heap. fold s w. rewrite Hinit. do_bind. split; [done|].
  split; cbn [k_vmm]; change (world (set_world s w2)) with w2;
    try first [exact Hst|exact Hsz|exact Hh|done|lia|exact Hpt'|exact Hpg|exact Hkeep2].
  - rewrite Hw2. cbn [pmm_mem set_pmm_mem]. by rewrite higher_lower.
  - intros v Hv. rewrite Hst, Hsz in Hv. unfold FRAME_SIZE, START_HEAP_SIZE in Hv. apply (heap_seen s w2 b); [done|done|exact Hpg|lia..].
  - intros i Hi. destruct (Hnew i Hi) as [H1 H2]. split; [by apply Hcl2|done].
  - intros g Hg. by apply Hcl2, Hcl.
  - rewrite Hw2. apply (av_write _ (free_above_availability (2 ^ 20))); [done|done|by apply Hav'].
Qed.

(** C14: The heap is backed by memory of its own.  With 34 free frames in a row
    above [last_used] and below 4 GiB, [init_heap] terminates, takes 32 frames
    nobody had been given and leaves the page table what it was: every
    address of the heap translates to its frame of the region, the heap ends
    exactly where the frames do, its memory as the kernel sees it is physical
    memory, and memory in frames handed out before is as it was. *)
Theorem start_heap_spec (k : kernel D) spare :
  let s := k_vmm k in
  pt_ok (world s) (cr3 s) → KERNEL_PAGE_TABLE_ROOT s = cr3 s → sees_low s →
  free_above (2 ^ 20) (world s) (34 + spare) →
  ∃ b h k', start_heap k = Done (h, k') ∧ heap_started k spare b h k'.
Proof. apply start_heap_places. Qed.

End heap_properties.

(** ** A concrete machine *)

(** A page for the bitmap, 48 MiB of memory and, above both, the page with the
    firmware's tables. *)
Definition ex_start_memmap : list stivale2_mmap_entry :=
  [MmapEntry 0x1000 0x1000 1; MmapEntry 0x100000 0x3000000 1; MmapEntry 0x5000000 0x10000 3].

(** A version 2 root pointer, the XSDT, the table of [ex_madt_bytes] and its
    identifier. *)
Definition ex_start_mem : mem :=
  let m := write_bytes ∅ 0x5000000
    (repeat 0 8 ++ [254; 0; 0; 0; 0; 0; 0; 2] ++ repeat 0 8 ++ [0; 1; 0; 5; 0; 0; 0; 0; 250]) in
  let m := write_bytes m 0x5000100 ([0; 0; 0; 0; 44] ++ repeat 0 31 ++ [0; 2; 0; 5]) in
  let m := write_bytes m 0x5000200 ex_madt_bytes in
  write_bytes m 0x5000300 [65; 80; 73; 67; 0].

Definition ex_start_kernel : kernel IoApic.chips :=
  Kernel
    (ex_vmm (Pmm {| num_entries := 0; last_used := 0; bitmap_size := 0; bitmap := 0; mem_size := 0;
                    max_blocks := 0; uppermost_addr := 0; used_blocks := 0 |} ex_start_mem) 0)
    (Acpi [] 0 0 false) SMP_INFO_initial example_apics.

Lemma ex_start_reserved a n :
  0x5000000 ≤ a → a + n ≤ 0x5010000 → spans (reserved ex_start_memmap) a n.
Proof.
  intros Ha Hn b Hb e He. unfold ex_start_memmap in He.
  repeat (apply elem_of_cons in He as [->|He]; [cbn; intros Hu; try discriminate Hu; lia|]).
  by apply elem_of_nil in He.
Qed.

Lemma ex_start_memory_ok : memory_ok ex_start_memmap ex_kern ex_pmrs.
Proof.
  split.
  - split.
    + repeat constructor; cbn; lia.
    + intros e He. repeat (apply elem_of_cons in He as [->|He]; [cbn; lia|]). by apply elem_of_nil in He.
    + intros e He. repeat (apply elem_of_cons in He as [->|He];
        [cbn; intros Hu; try discriminate Hu; unfold FRAME_SIZE; repeat split; lia|]).
      by apply elem_of_nil in He.
  - vm_compute. intuition discriminate.
  - vm_compute. intuition discriminate.
  - vm_compute. discriminate.
  - repeat constructor; vm_compute; discriminate.
  - repeat constructor; vm_compute; discriminate.
Qed.

Lemma ex_start_low_room : low_room ex_start_memmap (memory_cost ex_kern ex_pmrs ex_start_memmap 1000).
Proof.
  exists 1%nat, (MmapEntry 0x100000 0x3000000 1). split_and!; [split_and!; done|vm_compute; discriminate..].
Qed.

(** The firmware's description, evaluated on a concrete memory. *)
Ltac firmware_by_computation :=
  split;
  [ split;
    [ apply ex_start_reserved; lia
    | vm_compute; reflexivity
    | split; [vm_compute; intuition discriminate|]; apply ex_start_reserved; vm_compute; discriminate
    | lazymatch goal with |- Forall _ ?l => let l' := eval vm_compute in l in
        replace l with l' by (vm_compute; reflexivity) end;
      repeat constructor; [vm_compute; discriminate..|apply ex_start_reserved; vm_compute; discriminate]
    | apply ex_start_reserved; lia
    | vm_compute; reflexivity ]
  | discriminate
  | repeat (econstructor; [vm_compute; reflexivity|vm_compute; reflexivity|]); constructor; vm_compute; discriminate
  | repeat constructor; apply ex_start_reserved; lia
  | repeat constructor; lia
  | let t := fresh in let Ht := fresh in intros t Ht; unfold array_kinds in Ht;
    destruct t; try (exfalso; set_solver +Ht); vm_compute; discriminate ].

Lemma ex_start_firmware_ok :
  firmware_ok ex_start_memmap ex_start_mem 0x5000000 0x5000300 0x5000200
    [0x500022C; 0x5000234; 0x5000240].
Proof. firmware_by_computation. Qed.

Lemma start_memory_spec_witness : ∃ k',
  start_memory 0 (λ _, 0) 4 ex_start_kernel ex_start_memmap ex_kern ex_pmrs 0x5000000 0x5000300 = Done k' ∧
  KernelVAddrToPAddr (k_vmm k') 0xb8123 = 0xb8000 ∧ num_lapics (k_smp k') = 1.
Proof.
  destruct (start_memory_spec 0 (λ _, 0) 4 ex_start_kernel ex_start_memmap ex_kern ex_pmrs
    0x5000000 0x5000300 0x5000200 [0x500022C; 0x5000234; 0x5000240] 1000)
    as (k' & Hk & _ & _ & _ & _ & Hlow & Hh & _).
  - exact ex_start_memory_ok.
  - exists 1%nat, (MmapEntry 0x100000 0x3000000 1). split_and!; [done|done|vm_compute; discriminate..].
  - exact ex_start_firmware_ok.
  - reflexivity.
  - reflexivity.
  - cbn; lia.
  - exists k'. split; [exact Hk|]. split; [exact (proj1 (Hlow 0xb8123 ltac:(lia)))|].
    destruct (Hh PROCESSOR_LOCAL_APIC) as [H1 _]; [unfold array_kinds; set_solver +|].
    cbn [array_count] in H1. rewrite H1. vm_compute. reflexivity.
Defined.

(** The heap of the kernel that has set up its memory. *)
Lemma start_heap_spec_witness : ∃ h (k' : kernel IoApic.chips),
  HEAP_SIZE h = 0x20000 ∧ KernelVAddrToPAddr (k_vmm k') (HEAP_START h + 0x1fff8) =
    HEAP_START h + 0x1f000 - KERNEL_DATA.
Proof.
  destruct (start_memory_builds 0 (λ _, 0) (free_above (2 ^ 20)) (free_above_availability _) 4 ex_start_kernel
    ex_start_memmap ex_kern ex_pmrs 0x5000000 0x5000300 0x5000200 [0x500022C; 0x5000234; 0x5000240] 1000)
    as (k & _ & Hst).
  - exact ex_start_memory_ok.
  - exact ex_start_firmware_ok.
  - reflexivity.
  - reflexivity.
  - cbn; lia.
  - intros w Hw. exact (low_room_avail _ _ _ Hw ex_start_low_room).
  - destruct (start_heap_spec k 966)
      as (b & h & k' & _ & [H1 H2 _ _ _ _ _ H3 _ _ _ _ _]);
      [by eapply ms_table|by eapply ms_root|by eapply memory_started_low|by eapply ms_avail|].
    exists h, k'. split; [exact H2|]. rewrite (H3 (HEAP_START h + 0x1fff8)) by lia.
    rewrite H1. unfold KERNEL_DATA. dlia.
Defined.
