(* ===== verification/Kernel.v ===== *)
(** * The kernel from its entry to the keyboard

    [_start] of [src/src/kernel/kernel.c] as a whole: what it finds of the boot
    loader's, the components in the order it starts them, with one physical
    memory and one set of devices, and the screen; and the keyboard interrupt
    that drives the kernel afterwards. *)
From Stdlib Require Import String.
From stdpp Require Import base list gmap.
From S2P Require Import Prelude Memory Stivale Pmm FrameAlloc PageTable Region Vmm Kheap Acpi Devices Madt IoApic.
From S2P Require Import MadtParse Pit SpinLock Lapic Gdt Idt Printf Syscall Ustar Proc Elf Program.
From S2P Require Import Font Graphics Keyboard Terminal Layout Boot Start.
Open Scope Z_scope.

(** ** State *)

(** Addresses the linker chose: of functions and statics, and of three strings
    where they are in physical memory. *)
Record image := Image {
  isr1 : Z; isr2 : Z; isr80 : Z; ap_entry : Z;
  IDT_addr : Z; GDT_addr : Z; TSS_addr : Z; stack : Z; BACK_BUFFER : Z;
  apic_string : Z; initrd_string : Z; program_string : Z;
}.

(** A function the keyboard handler calls with the state of the keys. *)
Notation keystroke_consumer := (tstate → KeyInfo → outcome tstate).

(** The statics of all components, physical memory (in [memory]), the screen
    with the graphics memory, and [fetch_pcb].  The devices are those of
    [memory]; the local APIC is given them when it is used. *)
Record system (D : Type) := System {
  memory : kernel D;
  idt : idt_state;
  SYSCALLS : syscalls;
  local_apic : lapic D;
  gdt : gdt_state;
  kheap : heap;
  bsp_lapic_id : Z;
  processors : list stivale2_smp_info;
  fetch_pcb : pcb_t;
  display : tstate;
  keys : keyboard keystroke_consumer;
}.
Arguments System {D}.
Arguments memory {D}.
Arguments idt {D}.
Arguments SYSCALLS {D}.
Arguments local_apic {D}.
Arguments gdt {D}.
Arguments kheap {D}.
Arguments bsp_lapic_id {D}.
Arguments processors {D}.
Arguments fetch_pcb {D}.
Arguments display {D}.
Arguments keys {D}.

Definition device {D} (s : system D) : D := dev (k_chips (memory s)).
Definition set_memory {D} (s : system D) (k : kernel D) : system D :=
  System k (idt s) (SYSCALLS s) (local_apic s) (gdt s) (kheap s) (bsp_lapic_id s) (processors s) (fetch_pcb s)
    (display s) (keys s).
Definition set_display {D} (s : system D) (t : tstate) : system D :=
  System (memory s) (idt s) (SYSCALLS s) (local_apic s) (gdt s) (kheap s) (bsp_lapic_id s) (processors s) (fetch_pcb s)
    t (keys s).
Definition set_chips {D} (k : kernel D) (c : apics D) : kernel D := Kernel (k_vmm k) (k_acpi k) (k_smp k) c.
Definition set_device {D} (k : kernel D) (d : D) : kernel D := set_chips k (set_dev (k_chips k) d).

(** Physical memory as the boot loader's page tables show it. *)
Definition boot_view {D} (s : system D) : mem := higher_half (pmm_mem (world (k_vmm (memory s)))).

(** ** What the boot loader hands over *)

Record handover := Handover {
  h_mods : Z;
  h_fb : framebuffer;
  h_memmap : list stivale2_mmap_entry;
  h_kern : stivale2_struct_tag_kernel_base_address;
  h_pmrs : list stivale2_pmr;
  h_rsdp : Z;
  h_smp : Z;
  h_bsp : Z;
  h_cpus : list stivale2_smp_info;
}.

Definition read_cpus (m : mem) : Z → list stivale2_smp_info :=
  elements stivale2_struct_tag_smp_fields stivale2_smp_info_fields "cpu_count" "smp_info"
    (λ e, let f := member stivale2_smp_info_fields m e in
          Smp (f "processor_id"%string) (f "lapic_id"%string) (f "target_stack"%string) (f "goto_address"%string)
            (f "extra_argument"%string)) m.

(** The structures behind the tags, none of which the kernel tests for
    [NULL].  They are in memory no component hands out. *)
Definition read_handover (m : mem) (t : boot_tags) : outcome handover :=
  _ ← check (forallb (λ a, negb (a =? 0)) [mods t; fb_tag t; memmap t; kern_base_addr t; pmrs t; rsdp_addr_tag t;
                                           smp_info t]);
  Done (Handover (mods t) (read_framebuffer m (fb_tag t)) (read_memmap m (memmap t))
          (read_base_address m (kern_base_addr t)) (read_pmrs m (pmrs t))
          (physical (member stivale2_struct_tag_rsdp_fields m (rsdp_addr_tag t) "rsdp")) (physical (smp_info t))
          (member stivale2_struct_tag_smp_fields m (smp_info t) "bsp_lapic_id") (read_cpus m (smp_info t))).

(** Where the entries of the processors are. *)
Definition cpus_at (h : handover) : Z := h_smp h + offset_of stivale2_struct_tag_smp_fields "smp_info".

(** ** Operations *)

(** The assignments of [startup_aps] to the entries, which are the boot
    loader's. *)
Fixpoint write_cpus (m : mem) (a bsp : Z) (cpus : list stivale2_smp_info) : mem :=
  match cpus with
  | [] => m
  | c :: cpus =>
      let field := offset_of stivale2_smp_info_fields in
      let m := if is_ap bsp c
               then st64 (st64 m (a + field "target_stack"%string) (target_stack c)) (a + field "goto_address"%string)
                      (goto_address c)
               else m in
      write_cpus m (a + sizeof stivale2_smp_info_fields) bsp cpus
  end.

Section kernel.
Context {D : Type} `{Mmio D, !Ports D}.
(** [junk] and [junk_nmi] are what uninitialised entries hold, [ticks] the timer
    interrupts during calibration, [print_call] the handler [syscall_1] on the
    memory there is when it is called. *)
Context (img : image) (junk : Z → Z) (junk_nmi : Z) (ticks : nat → nat * (D → D)).
Context (print_call : regfile → outcome (list Z)).

(** [InitPmm] to [InitPageTable]. *)
Definition start_tables (fuel : nat) (s : system D) (h : handover) : outcome (system D) :=
  k ← start_memory (bsp_lapic_id s) junk fuel (memory s) (h_memmap h) (h_kern h) (h_pmrs h) (h_rsdp h) (apic_string img);
  Done (set_memory s k).

(** [InitializeIdt] to [mask_irq(0x2)]. *)
Definition start_interrupts (fuel : nat) (s : system D) (h : handover) : outcome (system D) :=
  let '(i, d) := InitializeIdt (idt s) (device s) (isr1 img) (isr2 img) (isr80 img) (IDT_addr img) in
  calls ← init_syscalls (SYSCALLS s) print_call;
  '(hp, k) ← start_heap (set_device (memory s) d);
  let m := pmm_mem (world (k_vmm k)) in
  l ← enable_lapic fuel (set_lapic_dev (local_apic s) d) m (k_smp k) junk_nmi;
  let '(lapic_id, l) := get_lapic_id l in
  g ← initialize_gdt (gdt s) (GDT_addr img) (TSS_addr img) lapic_id (stack img + 8192);
  let c := unmask_irq (set_dev (k_chips k) (lapic_dev l)) m (k_smp k) 0x2 in
  '(l, bsp, cpus, w) ← startup_aps fuel (set_lapic_dev l (dev c)) (world (k_vmm k)) m (k_smp k) junk_nmi ticks
    (h_bsp h) (h_cpus h) (ap_entry img);
  let w := set_pmm_mem w (write_cpus (pmm_mem w) (cpus_at h) (h_bsp h) cpus) in
  let c := mask_irq (set_dev c (lapic_dev l)) (pmm_mem w) (k_smp k) 0x2 in
  Done (System (Kernel (set_world (k_vmm k) w) (k_acpi k) (k_smp k) c) i calls l g hp bsp cpus (fetch_pcb s)
          (display s) (keys s)).

(** [ustar_from_module] to [parse_elf]. *)
Definition start_program (fuel : nat) (s : system D) (h : handover) : outcome (system D) :=
  let k := memory s in
  '(_, pcb, hp, v) ← load_program fuel (k_vmm k) (kheap s) (h_mods h) (initrd_string img + KERNEL_DATA)
    (program_string img + KERNEL_DATA) (fetch_pcb s);
  Done (System (Kernel v (k_acpi k) (k_smp k) (k_chips k)) (idt s) (SYSCALLS s) (local_apic s) (gdt s) hp
          (bsp_lapic_id s) (processors s) pcb (display s) (keys s)).



(** Up to the program; [stivale2_struct] is the argument of [_start]. *)
Definition start_components (fuel : nat) (s : system D) (stivale2_struct : Z) : outcome (system D * handover * Font) :=
  tags ← start_tags fuel (boot_view s) stivale2_struct;
  h ← read_handover (boot_view s) tags;
  let s := set_display s (set_gctx (display s) (InitGraphicsCtx (h_fb h) (BACK_BUFFER img) (gmem (gctx (display s))))) in
  let font_obj := InitGnuFont (Rgb 255 255 255) (Dims 9 16) in
  s ← start_tables fuel s h;
  s ← start_interrupts fuel s h;
  s ← start_program fuel s h;
  Done (s, h, font_obj).


(** The keyboard interrupt: [isr1] calls [Isr1Handler], which reads the byte,
    calls the consumer and ends the interrupt. *)
Definition keyboard_interrupt (s : system D) : outcome (system D) :=
  let '(byte, d) := inportb 0x60 (device s) in
  '(call, ks) ← Isr1Handler (keys s) (u8 byte);
  t ← match call with
      | Some (ks_consumer, info) => ks_consumer (display s) info
      | None => Done (display s)
      end;
  let l := end_of_interrupt (set_lapic_dev (local_apic s) d) false 0x21 in
  Done (System (set_device (memory s) (lapic_dev l)) (idt s) (SYSCALLS s) l (gdt s) (kheap s) (bsp_lapic_id s)
          (processors s) (fetch_pcb s) t ks).

(** [hlt] until the next interrupt, [n] times. *)
Fixpoint keyboard_session (n : nat) (s : system D) : outcome (system D) :=
  match n with
  | O => Done s
  | S n => s ← keyboard_interrupt s; keyboard_session n s
  end.

End kernel.

(** ** Memory nobody hands out *)

Section untouched.
(** The addresses in question. *)
Context (A : Z → Prop).

Definition span_of (a n : Z) : Prop := ∀ x, a ≤ x < a + n → A x ∧ 4096 ≤ x < 2 ^ 52.

(** They hold what they held in [m0]. *)
Definition span_kept (m0 : mem) (w : pmm) : Prop :=
  ∀ a, A a → 4096 ≤ a < 2 ^ 52 → pmm_client w (a - a mod 4096) ∧ ld8 (pmm_mem w) a = ld8 m0 a.

Lemma span_kept_trans m0 w w' :
  span_kept m0 w → (∀ g, pmm_client w g → pmm_client w' g) →
  (∀ g a, pmm_client w g → g ≤ a < g + 4096 → A a → ld8 (pmm_mem w') a = ld8 (pmm_mem w) a) → span_kept m0 w'.
Proof.
  intros Hr Hc Hk a Ha Hb. destruct (Hr a Ha Hb) as [Hcl Hm]. split; [by apply Hc|].
  rewrite <-Hm. apply (Hk (a - a mod 4096)); [done|dlia|done].
Qed.

Lemma span_kept_extended P root m0 w w' :
  span_kept m0 w → extended P root w w' → (∀ a, A a → ¬ P a) → span_kept m0 w'.
Proof.
  intros Hr [_ _ _ Hcl Hk] HP. eapply span_kept_trans; [exact Hr|exact Hcl|]. intros g a Hg Ha HA. apply (Hk g); auto.
Qed.

Lemma span_copied m0 w a n : span_kept m0 w → span_of a n → copied m0 a (pmm_mem w) a n.
Proof. intros Hr Hs i Hi. apply Hr; apply Hs; lia. Qed.

(** Frames handed out later lie elsewhere. *)
Lemma span_apart m0 w b np a n :
  span_kept m0 w → span_of a n → 0 < n → (∀ i, b ≤ i < b + np → ¬ pmm_client w (i * 4096)) → 0 < np →
  a + n ≤ b * 4096 ∨ (b + np) * 4096 ≤ a.
Proof.
  intros Hr Hs Hn Hnew Hnp.
  destruct (Z.le_gt_cases (a + n) (b * 4096)) as [|H1]; [by left|].
  destruct (Z.le_gt_cases ((b + np) * 4096) a) as [|H2]; [by right|]. exfalso.
  set (x := Z.max a (b * 4096)). destruct (Hs x) as [Hx Hb]; [lia|]. destruct (Hr x Hx Hb) as [Hc _].
  apply (Hnew (x / 4096)); [dlia|]. replace (x / 4096 * 4096) with (x - x mod 4096) by dlia. done.
Qed.

End untouched.

(** The entries of the processors, and the reserved memory outside them. *)
Definition in_cpus (h : handover) (a : Z) : Prop :=
  cpus_at h ≤ a < cpus_at h + sizeof stivale2_smp_info_fields * Z.of_nat (length (h_cpus h)).
Definition untouched (h : handover) (a : Z) : Prop := reserved (h_memmap h) a ∧ ¬ in_cpus h a.

Lemma write_cpus_outside bsp cpus : ∀ m a,
  same_outside a (a + sizeof stivale2_smp_info_fields * Z.of_nat (length cpus)) m (write_cpus m a bsp cpus).
Proof.
  change (sizeof _) with 32. induction cpus as [|c cpus IH]; intros m a; [by intros x|].
  cbn [write_cpus length]. change (sizeof _) with 32. change (offset_of _ "target_stack"%string) with 8.
  change (offset_of _ "goto_address"%string) with 16.
  eapply same_outside_trans; [|eapply same_outside_mono; [apply IH|lia|lia]].
  destruct (is_ap bsp c); [|by intros x].
  eapply same_outside_trans; apply st_outside_sub; lia.
Qed.

(** Afterwards each entry that was to be changed holds what it should. *)
Lemma write_cpus_entries bsp cpus : ∀ m a i c,
  cpus !! i = Some c → is_ap bsp c = true →
  let e := a + sizeof stivale2_smp_info_fields * Z.of_nat i in
  ld64 (write_cpus m a bsp cpus) (e + 8) = u64 (target_stack c) ∧
  ld64 (write_cpus m a bsp cpus) (e + 16) = u64 (goto_address c).
Proof.
  change (sizeof _) with 32. induction cpus as [|c0 cpus IH]; intros m a i c Hi Hap; [done|]. cbn [write_cpus].
  change (sizeof _) with 32. change (offset_of _ "target_stack"%string) with 8.
  change (offset_of _ "goto_address"%string) with 16. destruct i as [|i].
  - injection Hi as ->. rewrite Hap, Z.mul_0_r, Z.add_0_r.
    set (m1 := st64 (st64 m (a + 8) (target_stack c)) (a + 16) (goto_address c)).
    pose proof (write_cpus_outside bsp cpus m1 (a + 32)) as Ho. change (sizeof _) with 32 in Ho.
    cbv zeta. rewrite !(ld_ext 8 (write_cpus m1 _ _ _) m1) by (intros x Hx; apply Ho; lia).
    unfold m1. split; [|apply (ld_st_same 8)]. rewrite (ld_st_disjoint 8 8) by lia. apply (ld_st_same 8).
  - specialize (IH (if is_ap bsp c0 then st64 (st64 m (a + 8) (target_stack c0)) (a + 16) (goto_address c0) else m)
      (a + 32) i c Hi Hap). cbv zeta in IH |- *.
    by replace (a + 32 * Z.of_nat (S i)) with (a + 32 + 32 * Z.of_nat i) by lia.
Qed.

(** The new entries of the processors, in frames handed out that are no tables. *)
Lemma extended_cpus h root w cpus :
  pt_ok w root → length cpus = length (h_cpus h) → writable w root (in_cpus h) →
  let w' := set_pmm_mem w (write_cpus (pmm_mem w) (cpus_at h) (h_bsp h) cpus) in
  extended (in_cpus h) root w w' ∧ (∀ g, pmm_client w' g ↔ pmm_client w g) ∧ (∀ k, fa_avail w k → fa_avail w' k).
Proof.
  intros Hpt Hlen Hown. pose proof (write_cpus_outside (h_bsp h) cpus (pmm_mem w) (cpus_at h)) as Hout.
  rewrite Hlen in Hout. by apply writable_written.
Qed.

(** ** The heap the program is copied to *)

Lemma heap_started_backed {D} (k : kernel D) spare b h k' :
  pt_ok (world (k_vmm k)) (cr3 (k_vmm k)) → KERNEL_PAGE_TABLE_ROOT (k_vmm k) = cr3 (k_vmm k) →
  heap_started k spare b h k' → heap_backed (k_vmm k') h b.
Proof.
  intros Hpt Hroot [Hst Hsz Hhd Hr Ht Hpg Hm Hseen Hfr Hcl Hk Hav Hrest].
  assert (Hr' : KERNEL_PAGE_TABLE_ROOT (k_vmm k') = cr3 (k_vmm k)) by by rewrite Hrest.
  split; [done|by rewrite Hsz|done| | |].
  - intros i Hi. destruct (Hfr i Hi) as [H1 H2]. split; [done|]. rewrite Hr'. intros Hist. apply H2.
    destruct (tables_kept _ _ (world (k_vmm k')) Hpt) as (_ & _ & Htab); [by eapply pt_world|exact Hcl| |].
    + intros g a Hg. apply (Hk g). by eapply is_table_client.
    + apply (is_table_client _ _ _ Hpt). by apply Htab.
  - rewrite Hseen by lia. unfold KERNEL_DATA in *. dlia.
  - unfold load in Hhd. rewrite Hm in Hhd. change (ld32 (pmm_mem (world (k_vmm k'))) (b * 4096) = 0x20000 - 8).
    etrans; [|exact Hhd]. symmetry. rewrite Hst. apply (ld_copied 4), higher_half_copied.
Qed.

(** It stays so when the tables and the heap stay as they are. *)
Lemma heap_backed_extended P (s : vmm pmm) h b w' :
  heap_backed s h b → extended P (KERNEL_PAGE_TABLE_ROOT s) (world s) w' →
  (∀ a, in_heap b a → ¬ P a) → heap_backed (set_world s w') h b.
Proof.
  intros [Hst Hsz Hr Hfr Hseen Hhd] [_ Hpg Htab Hcl Hk] HP. split; [done|done|done| | |].
  - intros i Hi. destruct (Hfr i Hi) as [H1 H2]. split; [by apply Hcl|]. intros Hist. by apply H2, Htab.
  - rewrite <-Hseen. unfold KernelVAddrToPAddr.
    change (KERNEL_PAGE_TABLE_ROOT (set_world s w')) with (KERNEL_PAGE_TABLE_ROOT s).
    change (world (set_world s w')) with w'.
    by rewrite !VAddrToPAddr_pages, (Hpg (page_no (HEAP_START h))) by apply page_no_range.
  - rewrite <-Hhd. apply ld_ext. intros x Hx. apply (Hk (x / 4096 * 4096)); [apply Hfr; dlia|dlia|apply HP; unfold in_heap; lia].
Qed.

(** ** From the interrupt table to the other processors *)

Section interrupts.
Context `{Mmio D, !Ports D}.
Context (img : image) (junk_nmi : Z) (ticks : nat → nat * (D → D)).
Context (print_call : regfile → outcome (list Z)).

(** Addresses of 64 bits. *)
Record image_ok : Prop := {
  im_isr1 : 0 ≤ isr1 img < 2 ^ 64;
  im_isr2 : 0 ≤ isr2 img < 2 ^ 64;
  im_isr80 : 0 ≤ isr80 img < 2 ^ 64;
  im_entry : 0 ≤ ap_entry img < 2 ^ 64;
  im_tss : 0 ≤ TSS_addr img ∧ TSS_addr img + sizeof_tss_t * 256 ≤ 2 ^ 64;
}.

(** The drivers' statics as the compiler initialises them. *)
Record drivers_initial (s : system D) : Prop := {
  di_idt : length (IDT (idt s)) = 256%nat;
  di_calls : SYSCALLS s = no_syscalls;
  di_pit : PIT_COUNT_LOCK (local_apic s) = false;
  di_ltr : LTR_LOCK (gdt s) = false;
  di_tss : length (TSS (gdt s)) = 256%nat;
}.

(** The addresses the other processors are told to start their stacks at. *)
Definition ap_stacks (h : handover) (s : system D) : list Z :=
  map target_stack (filter (is_ap (h_bsp h)) (processors s)).

(** The boot loader's entries send the other processors to [ap_entry]. *)
Definition entries_written (h : handover) (s : system D) : Prop :=
  ∀ i c, processors s !! i = Some c → is_ap (h_bsp h) c = true →
    let e := cpus_at h + sizeof stivale2_smp_info_fields * Z.of_nat i in
    ld64 (pmm_mem (world (k_vmm (memory s)))) (e + 8) = target_stack c ∧
    ld64 (pmm_mem (world (k_vmm (memory s)))) (e + 16) = ap_entry img.

Lemma entries_written_kept (h : handover) (s s' : system D) :
  entries_written h s → processors s' = processors s → length (h_cpus h) = length (processors s) →
  (∀ a, in_cpus h a →
     ld8 (pmm_mem (world (k_vmm (memory s')))) a = ld8 (pmm_mem (world (k_vmm (memory s)))) a) →
  entries_written h s'.
Proof.
  intros Hent Hp Hlen Hk i c Hi Hap. rewrite Hp in Hi. destruct (Hent i c Hi Hap) as [H1 H2].
  apply lookup_lt_Some in Hi. unfold in_cpus in Hk. change (sizeof _) with 32 in *.
  cbv zeta. rewrite <-H1, <-H2. split; apply ld_ext; intros a Ha; apply Hk; lia.
Qed.

(** What [start_interrupts] makes of [s]: the heap in 32 frames from [b] on. *)
Record interrupts_started (s : system D) (h : handover) (c : nat) (b : Z) (s' : system D) : Prop := {
  it_vmm : k_vmm (memory s') = set_world (k_vmm (memory s)) (world (k_vmm (memory s')));
  it_smp : k_smp (memory s') = k_smp (memory s);
  it_heap : heap_backed (k_vmm (memory s')) (kheap s') b;
  it_new : ∀ i, b ≤ i < b + 32 → ¬ pmm_client (world (k_vmm (memory s))) (i * 4096);
  it_avail : fa_avail (world (k_vmm (memory s'))) c;
  it_extended : extended (in_cpus h) (cr3 (k_vmm (memory s)))
    (world (k_vmm (memory s))) (world (k_vmm (memory s')));
  it_idt : gates_installed (idt s) (isr1 img) (isr2 img) (isr80 img) (IDT_addr img) (idt s');
  it_calls : init_syscalls (SYSCALLS s) print_call = Done (SYSCALLS s');
  it_gdt : ∃ id, 0 ≤ id < 256 ∧ segments_loaded (GDT_addr img) (TSS_addr img) id (stack img + 8192) (gdt s');
  it_lapic : LAPIC_BASE (local_apic s') = lapic_addr (k_smp (memory s)) ∧ PIT_COUNT_LOCK (local_apic s') = false;
  it_bsp : bsp_lapic_id s' = u8 (h_bsp h);
  it_cpus : Forall2 (started (h_bsp h) (ap_entry img)) (h_cpus h) (processors s');
  it_entries : entries_written h s';
  it_stacks : NoDup (ap_stacks h s') ∧ ∀ f, f ∈ ap_stacks h s' →
    pmm_client (world (k_vmm (memory s'))) f ∧ ¬ pmm_client (world (k_vmm (memory s))) f ∧
    ¬ (b * 4096 ≤ f < (b + 32) * 4096);
  it_rest : fetch_pcb s' = fetch_pcb s ∧ display s' = display s ∧ keys s' = keys s;
}.

(** A new frame is none of those handed out before. *)
Lemma new_not_among w f b np :
  (∀ i, b ≤ i < b + np → pmm_client w (i * 4096)) → (∃ w', pmm_client w' f) → ¬ pmm_client w f →
  ¬ (b * 4096 ≤ f < (b + np) * 4096).
Proof.
  intros Hall (w' & j & -> & _) Hn Hf. unfold FRAME_SIZE in *. apply Hn, Hall. lia.
Qed.

(** What the entries hold once those addresses are page frames. *)
Lemma entries_of_aps w m a bsp l cpus i c :
  Forall2 (started bsp (ap_entry img)) l cpus → 0 ≤ ap_entry img < 2 ^ 64 →
  (∀ f, f ∈ map target_stack (filter (is_ap bsp) cpus) → pmm_client w f) →
  cpus !! i = Some c → is_ap bsp c = true →
  let e := a + sizeof stivale2_smp_info_fields * Z.of_nat i in
  ld64 (write_cpus m a bsp cpus) (e + 8) = target_stack c ∧
  ld64 (write_cpus m a bsp cpus) (e + 16) = ap_entry img.
Proof.
  intros Hcpus Hentry Hstk Hi Hap. destruct (write_cpus_entries bsp cpus m a i c Hi Hap) as [H1 H2].
  destruct (Forall2_lookup_r _ _ _ _ _ Hcpus Hi) as (c1 & _ & (_ & Hid & _ & Hs)).
  assert (Hap1 : is_ap bsp c1 = true) by (unfold is_ap in *; by rewrite <-Hid). rewrite Hap1 in Hs.
  destruct Hs as [Hgo _]. rewrite Hgo in H2.
  split; [etrans; [exact H1|]|etrans; [exact H2|]]; apply u64_small; [|done].
  destruct (Hstk (target_stack c)) as (j & -> & Hj & _); [|unfold FRAME_SIZE; lia].
  apply list_elem_of_fmap. exists c. split; [done|]. apply list_elem_of_filter. split; [by rewrite Hap|].
  by eapply list_elem_of_lookup_2.
Qed.

(** What can be written lies outside the frames handed out later. *)
Lemma writable_outside_heap w root P b :
  writable w root P → (∀ i, b ≤ i < b + 32 → ¬ pmm_client w (i * 4096)) → ∀ a, in_heap b a → ¬ P a.
Proof.
  intros Hown Hnew a Ha Hin. unfold in_heap in Ha. destruct (Hown a Hin) as (f & Hf & _ & Hfa).
  apply (Hnew (a / 4096)); [dlia|].
  destruct Hf as (j & -> & Hj). unfold FRAME_SIZE in *. replace (a / 4096) with j by dlia. by exists j.
Qed.

(** The memory after the heap, the stacks and the entries. *)
Lemma interrupts_memory h (k : kernel D) spare b hp k' smp (ls' : lapic D) cpus w :
  let w0 := world (k_vmm k) in let root := cr3 (k_vmm k) in
  pt_ok w0 root → KERNEL_PAGE_TABLE_ROOT (k_vmm k) = root → heap_started k spare b hp k' →
  aps_started (world (k_vmm k')) smp (h_bsp h) (ap_entry img) (h_cpus h) cpus ls' w → writable w0 root (in_cpus h) →
  let w' := set_pmm_mem w (write_cpus (pmm_mem w) (cpus_at h) (h_bsp h) cpus) in
  extended (in_cpus h) root w0 w' ∧ (∀ n, fa_avail w n → fa_avail w' n) ∧
  heap_backed (set_world (k_vmm k') w') hp b ∧ (∀ g, pmm_client w g → pmm_client w' g).
Proof.
  intros w0 root Hpt Hroot Hst [_ _ _ Hcpus _ _ Hok2 Hcl2 Hkeep2] Hown w'.
  pose proof (heap_started_backed k spare b hp k' Hpt Hroot Hst) as Hback.
  destruct Hst as [_ _ _ _ Htab _ _ _ Hnew Hcl Hkeep _ Hrest].
  assert (H1 : extended (in_cpus h) root w0 (world (k_vmm k'))).
  { apply extended_new; [done|exact (pt_world _ _ Htab)|exact Hcl|exact Hkeep]. }
  assert (H2 : extended (in_cpus h) root (world (k_vmm k')) w) by by apply extended_new.
  assert (Hown' : writable w root (in_cpus h)) by (eapply writable_extended, H2; eapply writable_extended, H1; exact Hown).
  destruct (extended_cpus h root w cpus) as (H3 & Hcl3 & Hav); [apply H2|symmetry; by eapply Forall2_length|exact Hown'|].
  fold w' in H3, Hcl3, Hav. pose proof (extended_trans _ _ _ _ _ H2 H3) as H23.
  split_and!; [by eapply extended_trans|exact Hav| |by intros g Hg; apply Hcl3].
  assert (Hr : KERNEL_PAGE_TABLE_ROOT (k_vmm k') = root) by by rewrite Hrest.
  apply (heap_backed_extended (in_cpus h)); [exact Hback|by rewrite Hr|].
  apply (writable_outside_heap w0 root); [exact Hown|]. intros i Hi. by apply Hnew.
Qed.

Lemma start_interrupts_runs fuel (s : system D) h c :
  let v := k_vmm (memory s) in let smp := k_smp (memory s) in
  image_ok → drivers_initial s → pt_ok (world v) (cr3 v) → KERNEL_PAGE_TABLE_ROOT v = cr3 v → sees_low v →
  0 < nmis smp → 1 ≤ num_nmis smp ≤ 255 → (255 < fuel)%nat → ticking ticks →
  writable (world v) (cr3 v) (in_cpus h) →
  free_above (2 ^ 20) (world v) (34 + S (length (filter (is_ap (h_bsp h)) (h_cpus h)) + c)) →
  ∃ b s', start_interrupts img junk_nmi ticks print_call fuel s h = Done s' ∧ interrupts_started s h c b s'.
Proof.
  intros v smp Him Hdi Hpt Hroot Hlow Hn Hnum Hfuel Hticks Hown Hav. unfold start_interrupts.
  pose proof (InitializeIdt_installs (idt s) (device s) (isr1 img) (isr2 img) (isr80 img) (IDT_addr img)
    (di_idt s Hdi) (im_isr1 Him) (im_isr2 Him) (im_isr80 Him)) as Hidt.
  destruct (InitializeIdt _ _ _ _ _ _) as [i d]. cbn [fst] in Hidt.
  destruct (init_syscalls (SYSCALLS s) print_call) as [calls| |] eqn:Hcalls; [|by rewrite (di_calls s Hdi) in Hcalls..].
  do_bind.
  destruct (start_heap_places (set_device (memory s) d) _ Hpt Hroot Hlow Hav) as (b & hp & k & Hheap & Hst).
  rewrite Hheap. do_bind.
  pose proof (hs_rest _ _ _ _ _ Hst) as Hrest. cbn [k_vmm k_smp set_device set_chips] in Hrest. fold v smp in Hrest.
  replace (k_smp k) with smp by by rewrite Hrest.
  destruct (enable_lapic_ends fuel (set_lapic_dev (local_apic s) d) (pmm_mem (world (k_vmm k))) smp junk_nmi)
    as (l & He & Hsame); [done..|lia|].
  rewrite He. do_bind. destruct Hsame as (_ & _ & _ & Hl). cbn in Hl. rewrite (di_pit s Hdi) in Hl.
  unfold get_lapic_id, lapic_read. destruct (mmio_read _ (lapic_dev l)) as [reg d1].
  destruct (initialize_gdt_loads (gdt s) (GDT_addr img) (TSS_addr img) (u8 (Z.shiftr reg 24)) (stack img + 8192))
    as (g & Hg & Hsl); [apply Hdi|apply Him|apply Him|apply u8_range|apply Hdi|].
  rewrite Hg. do_bind. set (ch := unmask_irq _ _ _ _).
  pose proof (pt_world _ _ (hs_table _ _ _ _ _ Hst)) as Hok. change (pmm_ok (world (k_vmm k))) in Hok.
  pose proof (free_above_avail _ _ _ Hok (hs_avail _ _ _ _ _ Hst)) as Hfree.
  destruct (startup_aps_runs c fuel (set_lapic_dev (set_lapic_dev l d1) (dev ch)) (world (k_vmm k))
    (pmm_mem (world (k_vmm k))) smp junk_nmi ticks (h_bsp h) (h_cpus h) (ap_entry img))
    as (l2 & cpus & w & Haps & Has & Hc); try done.
  rewrite Haps. do_bind. eexists b, _. split; [done|].
  destruct (interrupts_memory h (set_device (memory s) d) _ b hp k smp l2 cpus w Hpt Hroot Hst Has Hown) as (Hex & Hav3 & Hback & Hcl3).
  set (w3 := set_pmm_mem w _) in *. cbn [k_vmm set_device set_chips] in Hex. fold v in Hex.
  destruct Has as [Hbase Hlock _ Hcpus Hnd Hstk _ _ _]. pose proof (hs_frames _ _ _ _ _ Hst) as Hnew.
  cbn [k_vmm set_device set_chips] in Hnew. fold v in Hnew.
  split; cbn [memory idt SYSCALLS local_apic gdt kheap bsp_lapic_id processors fetch_pcb display keys k_vmm k_smp];
    change (world (set_world (k_vmm k) w3)) with w3; try done.
  - by rewrite Hrest.
  - intros i0 Hi. by apply Hnew.
  - by apply Hav3.
  - eexists. split; [|exact Hsl]. apply u8_range.
  - intros i0 c0 Hi Hap. apply (entries_of_aps w _ _ _ (h_cpus h)); [exact Hcpus|apply Him|by intros f Hf; apply Hstk|done|done].
  - split; [exact Hnd|]. intros f Hf. destruct (Hstk f Hf) as [H1 H2]. split_and!; [by apply Hcl3| |].
    + intros Hf'. by apply H2, (hs_clients _ _ _ _ _ Hst).
    + eapply new_not_among; [|by exists w|exact H2]. intros j Hj. by apply Hnew.
Qed.

End interrupts.

(** ** From the memory map to the program *)

Section components.
Context `{Mmio D, !Ports D}.
Context (img : image) (junk : Z → Z) (junk_nmi : Z) (ticks : nat → nat * (D → D)).
Context (print_call : regfile → outcome (list Z)).

(** What the boot loader left in memory: the firmware's table of the machine
    with its records, the list of modules with their names, and the archive
    with the empty entries before the program, its name and its length. *)
Record contents := Contents {
  c_madt : Z; c_records : list Z;
  c_mods : Z; c_strings : list (list Z);
  c_ustar : Z; c_names : list (list Z); c_name : list Z; c_len : Z;
}.
Definition c_file (x : contents) : Z := program_at (c_ustar x) (c_names x).

(** Frames for all of it. *)
Definition machine_cost (m : mem) (h : handover) (x : contents) : nat :=
  memory_cost (h_kern h) (h_pmrs h) (h_memmap h)
    (34 + S (length (filter (is_ap (h_bsp h)) (h_cpus h)) +
             program_cost (h_kern h) (h_pmrs h) (h_memmap h) m (c_file x))).

Record machine_ok (s : system D) (h : handover) (x : contents) : Prop := {
  mo_drivers : drivers_initial s;
  mo_last : last_used (PHYS_MEMORY_MAP (world (k_vmm (memory s)))) = 0;
  mo_smp : k_smp (memory s) = SMP_INFO_initial;
  mo_memory : memory_ok (h_memmap h) (h_kern h) (h_pmrs h);
  mo_room : low_room (h_memmap h) (machine_cost (pmm_mem (world (k_vmm (memory s)))) h x);
  mo_firmware : firmware_ok (h_memmap h) (pmm_mem (world (k_vmm (memory s)))) (h_rsdp h) (apic_string img) (c_madt x)
    (c_records x);
  mo_nmis : 1 ≤ Z.of_nat (length (of_kind (pmm_mem (world (k_vmm (memory s)))) LOCAL_NON_MASKABLE_INTERRUPT
                                    (c_records x))) ≤ 255;
  mo_mods : h_mods h = c_mods x + KERNEL_DATA;
  mo_modules : modules_at (pmm_mem (world (k_vmm (memory s)))) (c_mods x) (initrd_string img)
    (c_ustar x + KERNEL_DATA) (c_strings x);
  mo_archive : archive_at (pmm_mem (world (k_vmm (memory s)))) (c_ustar x) (program_string img) (c_names x) (c_name x)
    (c_len x);
  mo_headers : headers_within (pmm_mem (world (k_vmm (memory s)))) (c_file x) (c_len x);
  mo_magic : has_magic (pmm_mem (world (k_vmm (memory s)))) (c_file x);
  mo_length : c_len x < 0x20000 - 8;
  mo_cpus_reserved : span_of (reserved (h_memmap h)) (cpus_at h)
    (sizeof stivale2_smp_info_fields * Z.of_nat (length (h_cpus h)));
  mo_mods_reserved : span_of (untouched h) (c_mods x) (24 + 144 * Z.of_nat (length (c_strings x)));
  mo_strings_reserved : span_of (untouched h) (initrd_string img) 128 ∧
    span_of (untouched h) (program_string img) 512;
  mo_archive_reserved : span_of (untouched h) (c_ustar x) (c_file x - c_ustar x + c_len x);
}.

(** What the parts up to the program make of [s], with the heap in the frames
    from [b] on and the pages [l] for the process. *)
Record components_started (s : system D) (h : handover) (x : contents) (b : Z) (l : list user_page) (s' : system D)
    : Prop := {
  cs_table : pt_ok (world (k_vmm (memory s'))) (cr3 (k_vmm (memory s')));
  cs_root : KERNEL_PAGE_TABLE_ROOT (k_vmm (memory s')) = cr3 (k_vmm (memory s'));
  cs_pages : ∀ n, 0 ≤ n < 2 ^ 36 →
    pages (pmm_mem (world (k_vmm (memory s')))) (cr3 (k_vmm (memory s'))) n = boot_map (h_kern h) (h_pmrs h) (h_memmap h) n;
  cs_records : holds_records (pmm_mem (world (k_vmm (memory s)))) (pmm_mem (world (k_vmm (memory s'))))
    (k_smp (memory s')) (c_records x);
  cs_heap : HEAP_START (kheap s') = b * 4096 + KERNEL_DATA ∧ HEAP_SIZE (kheap s') = 32 * 4096 ∧
    ∀ i, b ≤ i < b + 32 → pmm_client (world (k_vmm (memory s'))) (i * 4096);
  cs_idt : gates_installed (idt s) (isr1 img) (isr2 img) (isr80 img) (IDT_addr img) (idt s');
  cs_calls : init_syscalls no_syscalls print_call = Done (SYSCALLS s');
  cs_gdt : ∃ id, 0 ≤ id < 256 ∧ segments_loaded (GDT_addr img) (TSS_addr img) id (stack img + 8192) (gdt s');
  cs_lapic : LAPIC_BASE (local_apic s') =
    last_lapic_addr (pmm_mem (world (k_vmm (memory s)))) DEFAULT_LAPIC_ADDR (c_records x);
  cs_cpus : bsp_lapic_id s' = u8 (h_bsp h) ∧ Forall2 (started (h_bsp h) (ap_entry img)) (h_cpus h) (processors s');
  cs_program : program_loaded (h_kern h) (h_pmrs h) (h_memmap h) (pmm_mem (world (k_vmm (memory s)))) b (c_file x)
    (c_len x) (fetch_pcb s) (fetch_pcb s') (k_vmm (memory s')) l;
  cs_apart : NoDup (map up_frame l ++ ap_stacks h s' ++ map (λ i, i * 4096) (seqZ b 32));
  cs_own : ∀ p, p ∈ l → ¬ is_table (world (k_vmm (memory s'))) (cr3 (k_vmm (memory s'))) (up_frame p) ∧
    ∀ a, reserved (h_memmap h) a → 4096 ≤ a < 2 ^ 52 → ¬ (up_frame p ≤ a < up_frame p + 4096);
  cs_entries : entries_written img h s';
  cs_reserved : span_kept (untouched h) (pmm_mem (world (k_vmm (memory s)))) (world (k_vmm (memory s')));
  cs_screen : display s' = display s ∧ keys s' = keys s;
}.

(** The program is still in memory, and lies outside the heap. *)
Lemma start_program_runs fuel (s0 s : system D) h x b w1 :
  let v := k_vmm (memory s) in let m0 := pmm_mem (world (k_vmm (memory s0))) in
  machine_ok s0 h x → (length (c_names x) + 512 ≤ fuel)%nat →
  heap_backed v (kheap s) b → pt_ok (world v) (KERNEL_PAGE_TABLE_ROOT v) →
  PMRs v = h_pmrs h → BASE_ADDR v = h_kern h → MMAP v = h_memmap h →
  span_kept (untouched h) m0 w1 → (∀ i, b ≤ i < b + 32 → ¬ pmm_client w1 (i * 4096)) →
  span_kept (untouched h) m0 (world v) →
  fa_avail (world v) (program_cost (h_kern h) (h_pmrs h) (h_memmap h) m0 (c_file x)) →
  ∃ pcb hp v' l,
    start_program img fuel s h =
      Done (System (Kernel v' (k_acpi (memory s)) (k_smp (memory s)) (k_chips (memory s))) (idt s) (SYSCALLS s)
              (local_apic s) (gdt s) hp (bsp_lapic_id s) (processors s) pcb (display s) (keys s)) ∧
    HEAP_START hp = HEAP_START (kheap s) ∧ HEAP_SIZE hp = HEAP_SIZE (kheap s) ∧
    program_loaded (h_kern h) (h_pmrs h) (h_memmap h) m0 b (c_file x) (c_len x) (fetch_pcb s) pcb v' l ∧
    others_kept v b v' l.
Proof.
  intros v m0 Hmo Hfuel Hback Hpt Hp Hb Hm Hr1 Hnew Hr Hav. pose proof Hmo as [].
  fold m0 in mo_modules0, mo_archive0, mo_headers0, mo_magic0.
  destruct mo_strings_reserved0 as [Hs1 Hs2].
  assert (Hfile : c_file x - c_ustar x = 512 * Z.of_nat (length (c_names x)) + 512) by (unfold c_file, program_at; lia).
  pose proof mo_headers0 as [Hl64 _]. unfold sizeof_elf_hdr in Hl64.
  assert (Hcopy : ∀ a n, span_of (untouched h) a n → copied m0 a (pmm_mem (world v)) (a + 0) n).
  { intros a n Ha. rewrite Z.add_0_r. by eapply span_copied. }
  assert (Hsub : ∀ a n k, span_of (untouched h) (c_ustar x) (c_file x - c_ustar x + c_len x) →
    a = c_ustar x + k → 0 ≤ k → k + n ≤ c_file x - c_ustar x + c_len x → span_of (untouched h) a n).
  { intros a n k Ha -> Hk Hn y Hy. apply Ha. lia. }
  assert (Hfr : span_of (untouched h) (c_file x) (c_len x))
    by (apply (Hsub _ _ (c_file x - c_ustar x)); [done|lia..]).
  pose proof (Hcopy _ _ Hfr) as Hcf. rewrite Z.add_0_r in Hcf.
  destruct (elf_copied m0 (c_file x) (pmm_mem (world v)) (c_file x) (c_len x) Hcf mo_headers0)
    as (_ & Ho & Hn & Hph & Hmag).
  assert (Hu : 0 ≤ c_ustar x) by (destruct (mo_archive_reserved0 (c_ustar x)) as [_ ?]; lia).
  destruct (load_program_loads fuel v (kheap s) b (c_mods x) (initrd_string img) (program_string img) (c_strings x)
    (c_ustar x) (c_names x) (c_name x) (c_len x) (fetch_pcb s))
    as (pcb & hp & v' & l & Hrun & Hst & Hsz & Hpl & Hok); fold (c_file x);
    [exact Hback|exact Hpt| | | |exact Hu| |exact Hfuel| |exact mo_length0| | | |].
  - rewrite Hp, Hb. apply mo_memory0.
  - rewrite Hm. apply mo_memory0.
  - rewrite <-(Z.add_0_r (c_mods x)), <-(Z.add_0_r (initrd_string img)).
    apply (modules_at_copied m0); [by apply Hcopy..|done].
  - rewrite <-(Z.add_0_r (c_ustar x)), <-(Z.add_0_r (program_string img)).
    apply (archive_at_copied m0); [|by apply Hcopy|done]. apply Hcopy, (Hsub _ _ 0); [done|lia..].
  - eapply span_apart; [exact Hr1|exact Hfr|lia|exact Hnew|lia].
  - split; [exact (proj1 mo_headers0)|]. rewrite Ho, Hn. exact (proj2 mo_headers0).
  - by apply Hmag.
  - rewrite Hp, Hb, Hm. unfold program_cost. rewrite Hph. exact Hav.
  - exists pcb, hp, v', l. unfold start_program. fold v. rewrite mo_mods0, Hrun. do_bind.
    split_and!; [done|done|done| |done]. rewrite Hp, Hb, Hm in Hpl.
    eapply program_loaded_copied; [exact Hcf|done|exact Hpl].
Qed.

(** After [start_tables]. *)
Lemma start_tables_runs fuel (s : system D) h x :
  let m0 := pmm_mem (world (k_vmm (memory s))) in
  machine_ok s h x → (length (c_records x) < fuel)%nat →
  ∃ k, start_tables img junk fuel s h = Done (set_memory s k) ∧
    memory_started (free_above (2 ^ 20)) (h_memmap h) (h_kern h) (h_pmrs h) m0 (c_records x)
      (34 + S (length (filter (is_ap (h_bsp h)) (h_cpus h)) +
               program_cost (h_kern h) (h_pmrs h) (h_memmap h) m0 (c_file x))) k ∧
    span_kept (reserved (h_memmap h)) m0 (world (k_vmm k)) ∧ 0 < nmis (k_smp k) ∧ 1 ≤ num_nmis (k_smp k) ≤ 255.
Proof.
  intros m0 Hmo Hfuel. unfold start_tables.
  destruct (start_memory_builds (bsp_lapic_id s) junk (free_above (2 ^ 20)) (free_above_availability _) fuel (memory s)
    (h_memmap h) (h_kern h) (h_pmrs h) (h_rsdp h) (apic_string img) (c_madt x) (c_records x)
    (34 + S (length (filter (is_ap (h_bsp h)) (h_cpus h)) +
             program_cost (h_kern h) (h_pmrs h) (h_memmap h) m0 (c_file x)))) as (k & Hk & Hst); [apply Hmo..|done| |].
  { intros w Hw. apply (low_room_avail (h_memmap h)); [done|apply Hmo]. }
  destruct (ms_records _ _ _ _ _ _ _ _ Hst LOCAL_NON_MASKABLE_INTERRUPT) as [Hj _];
    [unfold array_kinds; set_solver +|]. cbn [array_count] in Hj.
  rewrite Hk. do_bind. exists k. split_and!; [done|exact Hst|exact (ms_reserved _ _ _ _ _ _ _ _ Hst)| | |].
  - destruct (ms_arrays _ _ _ _ _ _ _ _ Hst LOCAL_NON_MASKABLE_INTERRUPT) as (j & Hb & Hr & _);
      [unfold array_kinds; set_solver +|]. cbn [array_base] in Hb. unfold FRAME_SIZE in Hb. lia.
  - rewrite Hj. apply (mo_nmis s h x Hmo).
  - rewrite Hj. apply (mo_nmis s h x Hmo).
Qed.

(** The program's frames, the addresses handed out as stacks and the heap's
    frames are all different. *)
Lemma frames_apart (w : pmm) (frames stacks : list Z) b :
  NoDup frames → (∀ f, f ∈ frames → ¬ pmm_client w f) → NoDup stacks → (∀ f, f ∈ stacks → pmm_client w f) →
  (∀ f, f ∈ stacks → ¬ (b * 4096 ≤ f < (b + 32) * 4096)) →
  (∀ i, b ≤ i < b + 32 → pmm_client w (i * 4096)) →
  NoDup (frames ++ stacks ++ map (λ i, i * 4096) (seqZ b 32)).
Proof.
  intros Hf Hfn Hs Hsc Hsh Hh. apply NoDup_app. split_and!; [done| |apply NoDup_app; split_and!; [done| |]].
  - intros f Hin [Hst|Hhp]%elem_of_app; [by apply (Hfn f Hin), Hsc|].
    apply list_elem_of_fmap in Hhp as (i & -> & Hi%elem_of_seqZ). apply (Hfn _ Hin), Hh. lia.
  - intros f Hst (i & -> & Hi%elem_of_seqZ)%list_elem_of_fmap. apply (Hsh _ Hst). lia.
  - assert (Inj (=) (=) (λ i, i * 4096)) by (intros i j Hij; lia). by apply NoDup_fmap_2, NoDup_seqZ.
Qed.

Lemma start_parts_run fuel (s : system D) h x :
  image_ok img → machine_ok s h x → ticking ticks →
  (length (c_records x) < fuel)%nat → (255 < fuel)%nat → (length (c_names x) + 512 ≤ fuel)%nat →
  ∃ s1 s2 s3 b l, start_tables img junk fuel s h = Done s1 ∧
    start_interrupts img junk_nmi ticks print_call fuel s1 h = Done s2 ∧
    start_program img fuel s2 h = Done s3 ∧ components_started s h x b l s3.
Proof.
  intros Him Hmo Hticks Hf1 Hf2 Hf3. set (m0 := pmm_mem (world (k_vmm (memory s)))).
  destruct (start_tables_runs fuel s h x Hmo Hf1) as (k & Hrun1 & Hms & Hr1 & Hn1 & Hn2). fold m0 in Hms, Hr1.
  assert (Hlow : sees_low (k_vmm k)) by by eapply memory_started_low.
  pose proof Hms as [Hpt1 Hroot1 Hav1 Hpages1 Hrec1 Hlap1 Harr1 _ Hap1 (Hp & Hb & Hm)].
  pose proof (mo_cpus_reserved s h x Hmo) as Hcpu.
  destruct (start_interrupts_runs img junk_nmi ticks print_call fuel (set_memory s k) h
    (program_cost (h_kern h) (h_pmrs h) (h_memmap h) m0 (c_file x))) as (b & s2 & Hrun2 & Hit);
    [exact Him|by destruct (mo_drivers s h x Hmo)|exact Hpt1|exact Hroot1|exact Hlow|exact Hn1|exact Hn2|exact Hf2
    |exact Hticks| |exact Hav1|].
  { intros a Ha. destruct (Hcpu a Ha) as [H1 H2]. exists (a - a mod 4096). split_and!; [by apply Hr1| |dlia..].
    intros Hist. apply (Hap1 _ (or_introl Hist) a H1 H2). dlia. }
  destruct Hit as [Hv2 Hsmp2 Hback Hnew Hav2 Hex2 Hidt Hcalls Hgdt [Hlapic _] Hbsp Hcpus Hent [Hnd Hstk] (Hpcb & Hdisp & Hkeys)].
  cbn [memory set_memory fetch_pcb display keys idt SYSCALLS] in *. set (v2 := k_vmm (memory s2)) in *.
  assert (Hroot2 : KERNEL_PAGE_TABLE_ROOT v2 = cr3 (k_vmm k)) by by rewrite Hv2.
  assert (Hr1' : span_kept (untouched h) m0 (world (k_vmm k))) by (intros a [Ha _]; by apply Hr1).
  assert (Hcl2 := ex_clients _ _ _ _ Hex2).
  destruct (start_program_runs fuel s s2 h x b (world (k_vmm k)) Hmo Hf3 Hback) as
    (pcb & hp & v3 & l & Hrun3 & Hst & Hsz & Hpl & [Hfr3 [Hroot3 Hcr3] Hex3]);
    [fold v2; rewrite Hroot2; apply Hex2|fold v2; by rewrite Hv2..|exact Hr1'|exact Hnew
    |eapply span_kept_extended; [exact Hr1'|exact Hex2|by intros a []]|exact Hav2|].
  fold v2 in Hfr3, Hroot3, Hcr3, Hex3. rewrite Hroot2 in Hroot3, Hex3.
  assert (Hcr2 : cr3 v2 = cr3 (k_vmm k)) by by rewrite Hv2. rewrite Hcr2 in Hcr3.
  assert (Hex : extended (in_cpus h) (cr3 (k_vmm k)) (world (k_vmm k)) (world v3)).
  { apply (extended_apart _ b); [|exact Hnew]. apply (extended_trans _ _ _ (world v2)).
    - eapply extended_mono; [|exact Hex2]. by left.
    - eapply extended_mono; [|exact Hex3]. by right. }
  assert (Hown : ∀ a, reserved (h_memmap h) a → 4096 ≤ a < 2 ^ 52 → pmm_client (world (k_vmm k)) (a - a mod 4096)).
  { intros a H1 H2. by apply Hr1. }
  eexists _, s2, _, b, l. split_and!; [exact Hrun1|exact Hrun2|exact Hrun3|].
  split; cbn [memory idt SYSCALLS local_apic gdt kheap bsp_lapic_id processors fetch_pcb display keys k_vmm k_smp];
    rewrite ?Hcr3; try done.
  - apply Hex.
  - intros n Hn. etrans; [exact (ex_pages _ _ _ _ Hex n Hn)|exact (Hpages1 n Hn)].
  - rewrite Hsmp2. apply (holds_records_kept m0 (pmm_mem (world (k_vmm k)))); [exact Hrec1|]. intros t Ht. split.
    + destruct (Hrec1 t Ht) as [-> _]. apply (mo_firmware s h x Hmo). done.
    + intros a Ha. apply (ex_kept _ _ _ _ Hex (array_base (k_smp k) t)); [by apply Harr1|done|].
      intros Hin. destruct (Hcpu a Hin) as [H1 H2]. by apply (Hap1 (array_base (k_smp k) t) (or_intror (ex_intro _ t (conj Ht eq_refl))) a).
  - rewrite Hst, Hsz. split_and!; [apply Hback|by rewrite (hb_size _ _ _ Hback)|]. intros i Hi.
    apply Hex3. by apply (hb_frames _ _ _ Hback).
  - by rewrite <-(di_calls s (mo_drivers s h x Hmo)).
  - by rewrite Hlapic.
  - by rewrite <-Hpcb.
  - apply (frames_apart (world v2)); [apply Hpl| |exact Hnd|intros f Hf; apply Hstk, Hf|intros f Hf; apply Hstk, Hf|].
    + intros f (p & -> & Hin)%list_elem_of_fmap. by apply Hfr3.
    + intros i Hi. by apply (hb_frames _ _ _ Hback).
  - intros p Hin. split.
    + intros Hist. apply (Hfr3 p Hin). apply (is_table_client _ _ _ (ex_table _ _ _ _ Hex2)).
      by apply (ex_tables _ _ _ _ Hex3).
    + intros a Ha Hrange Hat. apply (Hfr3 p Hin). destruct (pl_own _ _ _ _ _ _ _ _ _ _ _ Hpl p Hin) as [(j & Hj & _) _].
      pose proof (Hcl2 _ (Hown a Ha Hrange)) as Hc. unfold FRAME_SIZE in Hj. by replace (up_frame p) with (a - a mod 4096) by dlia.
  - apply (entries_written_kept img h s2); [exact Hent|done|by apply Forall2_length in Hcpus|]. intros a Ha.
    destruct (Hcpu a Ha) as [H1 H2]. pose proof (Hown a H1 H2) as Hc.
    apply (ex_kept _ _ _ _ Hex3 (a - a mod 4096)); [by apply Hcl2|dlia|].
    apply (region_disjoint (world (k_vmm k)) b 32 (a - a mod 4096) a); [done|exact Hnew|dlia].
  - eapply span_kept_extended; [exact Hr1'|exact Hex|by intros a []].
Qed.

End components.

(** ** What the boot loader hands over *)

(** The first tag with the identifier, or [NULL]. *)
Definition tag_address (l : list (Z * Z)) (id : Z) : Z := default 0 (fst <$> List.find (λ t, t.2 =? id) l).

(** The tags [_start] reads through. *)
Definition required_tags : list Z :=
  [STIVALE2_STRUCT_TAG_MODULES_ID; STIVALE2_STRUCT_TAG_FRAMEBUFFER_ID; STIVALE2_STRUCT_TAG_MEMMAP_ID;
   STIVALE2_STRUCT_TAG_KERNEL_BASE_ADDRESS_ID; STIVALE2_STRUCT_TAG_PMRS_ID; STIVALE2_STRUCT_TAG_TERMINAL_ID;
   STIVALE2_STRUCT_TAG_RSDP_ID; STIVALE2_STRUCT_TAG_SMP_ID].

Definition tags_present (l : list (Z * Z)) : Prop := Forall (λ id, tag_address l id ≠ 0) required_tags.

Definition handover_of (m : mem) (l : list (Z * Z)) : handover :=
  Handover (tag_address l STIVALE2_STRUCT_TAG_MODULES_ID)
    (read_framebuffer m (tag_address l STIVALE2_STRUCT_TAG_FRAMEBUFFER_ID))
    (read_memmap m (tag_address l STIVALE2_STRUCT_TAG_MEMMAP_ID))
    (read_base_address m (tag_address l STIVALE2_STRUCT_TAG_KERNEL_BASE_ADDRESS_ID))
    (read_pmrs m (tag_address l STIVALE2_STRUCT_TAG_PMRS_ID))
    (physical (member stivale2_struct_tag_rsdp_fields m (tag_address l STIVALE2_STRUCT_TAG_RSDP_ID) "rsdp"))
    (physical (tag_address l STIVALE2_STRUCT_TAG_SMP_ID))
    (member stivale2_struct_tag_smp_fields m (tag_address l STIVALE2_STRUCT_TAG_SMP_ID) "bsp_lapic_id")
    (read_cpus m (tag_address l STIVALE2_STRUCT_TAG_SMP_ID)).

Lemma handover_read m stivale2_struct l fuel :
  tags_at m (member stivale2_struct_fields m stivale2_struct "tags") l → tags_present l → (length l < fuel)%nat →
  ∃ t, start_tags fuel m stivale2_struct = Done t ∧ read_handover m t = Done (handover_of m l).
Proof.
  intros Hl Hp Hf. unfold tags_present, required_tags in Hp. rewrite !Forall_cons in Hp.
  destruct Hp as (H1 & H2 & H3 & H4 & H5 & H6 & H7 & H8 & _).
  assert (Hget : ∀ id, stivale2_get_tag fuel m stivale2_struct id = Done (tag_address l id))
    by (intros id; by apply get_tag_from_spec).
  unfold start_tags. rewrite !Hget. do_bind. rewrite check_true by by apply negb_true_iff, Z.eqb_neq. do_bind.
  eexists. split; [done|]. unfold read_handover.
  cbn [mods fb_tag memmap kern_base_addr pmrs rsdp_addr_tag smp_info forallb].
  rewrite !(proj2 (Z.eqb_neq _ 0)) by done. cbn [negb andb]. rewrite check_true by done. by do_bind.
Qed.

(** ** Properties *)

Section properties.
Context `{Mmio D, !Ports D}.
Context (img : image) (junk : Z → Z) (junk_nmi : Z) (ticks : nat → nat * (D → D)).
Context (print_call : regfile → outcome (list Z)).

(** The state once [InitGraphicsCtx] has been called. *)
Definition with_graphics (s : system D) (h : handover) : system D :=
  set_display s (set_gctx (display s) (InitGraphicsCtx (h_fb h) (BACK_BUFFER img) (gmem (gctx (display s))))).

Lemma machine_ok_graphics s h x : machine_ok img s h x → machine_ok img (with_graphics s h) h x.
Proof. intros [[] ]. split; try assumption. by split. Qed.

Lemma start_components_run fuel (s : system D) stivale2_struct l x :
  let h := handover_of (boot_view s) l in
  tags_at (boot_view s) (member stivale2_struct_fields (boot_view s) stivale2_struct "tags") l → tags_present l →
  image_ok img → machine_ok img s h x → ticking ticks →
  (length l < fuel)%nat → (length (c_records x) < fuel)%nat → (255 < fuel)%nat → (length (c_names x) + 512 ≤ fuel)%nat →
  ∃ s' b pages, start_components img junk junk_nmi ticks print_call fuel s stivale2_struct =
      Done (s', h, InitGnuFont (Rgb 255 255 255) (Dims 9 16)) ∧
    components_started img print_call (with_graphics s h) h x b pages s'.
Proof.
  intros h Hl Hp Him Hmo Ht Hf0 Hf1 Hf2 Hf3.
  destruct (handover_read (boot_view s) stivale2_struct l fuel Hl Hp Hf0) as (t & Htags & Hread).
  destruct (start_parts_run img junk junk_nmi ticks print_call fuel (with_graphics s h) h x Him
    (machine_ok_graphics s h x Hmo) Ht Hf1 Hf2 Hf3) as (s1 & s2 & s3 & b & pages & H1 & H2 & H3 & Hcs).
  exists s3, b, pages. split; [|exact Hcs]. unfold start_components. rewrite Htags. do_bind. rewrite Hread. do_bind.
  fold h. fold (with_graphics s h). rewrite H1. do_bind. rewrite H2. do_bind. rewrite H3. by do_bind.
Qed.



(** C2: The program is confined to frames of its own.  On the same machine, with
    ranges that begin at page boundaries, every page of the program's address
    space that is open to user mode leads to a frame that was allocated for the
    program: none of the kernel's page tables, none of the program's own, none
    of the heap, none whose address another processor was given as its
    [target_stack], and nowhere in reserved memory.  (The stacks themselves
    begin below those addresses, in the frames before, of which nothing is
    said: one of them may well be the program's.) *)
Theorem program_confined fuel (s : system D) stivale2_struct l x :
  let h := handover_of (boot_view s) l in
  tags_at (boot_view s) (member stivale2_struct_fields (boot_view s) stivale2_struct "tags") l → tags_present l →
  image_ok img → machine_ok img s h x → ranges_aligned (h_kern h) (h_pmrs h) (h_memmap h) → ticking ticks →
  (length l < fuel)%nat → (length (c_records x) < fuel)%nat → (255 < fuel)%nat → (length (c_names x) + 512 ≤ fuel)%nat →
  ∃ s' font, start_components img junk junk_nmi ticks print_call fuel s stivale2_struct = Done (s', h, font) ∧
    let v := k_vmm (memory s') in let root := pagemap (fetch_pcb s') in
    ∀ n, 0 ≤ n < 2 ^ 36 → user_page_at (pmm_mem (world v)) root n = true →
    ∃ f, pages (pmm_mem (world v)) root n = Z.lor f USER_PROC_PAGE ∧ pmm_client (world v) f ∧
      ¬ is_table (world v) (cr3 v) f ∧ ¬ is_table (world v) root f ∧ f ∉ ap_stacks h s' ∧
      ¬ (HEAP_START (kheap s') ≤ f + KERNEL_DATA < HEAP_START (kheap s') + HEAP_SIZE (kheap s')) ∧
      ∀ a, reserved (h_memmap h) a → 4096 ≤ a < 2 ^ 52 → ¬ (f ≤ a < f + 4096).
Proof.
  intros h Hl Hp Him Hmo Hal Ht Hf0 Hf1 Hf2 Hf3.
  destruct (start_components_run fuel s stivale2_struct l x Hl Hp Him Hmo Ht Hf0 Hf1 Hf2 Hf3)
    as (s' & b & us & Hrun & Hcs).
  exists s', (InitGnuFont (Rgb 255 255 255) (Dims 9 16)). split; [exact Hrun|]. cbv zeta. intros n Hn Hu.
  pose proof (cs_program _ _ _ _ _ _ _ _ Hcs) as Hpl.
  destruct (program_pages_own _ _ _ _ _ _ _ _ _ _ _ n Hpl Hal Hn Hu) as (p & Hin & _ & Hpage).
  destruct (pl_own _ _ _ _ _ _ _ _ _ _ _ Hpl p Hin) as [Hc Hroot].
  destruct (cs_own _ _ _ _ _ _ _ _ Hcs p Hin) as [Hk Hres]. destruct (cs_heap _ _ _ _ _ _ _ _ Hcs) as (Hst & Hsz & _).
  pose proof (cs_apart _ _ _ _ _ _ _ _ Hcs) as (_ & Hap & _)%NoDup_app.
  assert (Hfr : up_frame p ∈ map up_frame us) by by apply (list_elem_of_fmap_2 up_frame).
  specialize (Hap _ Hfr). rewrite elem_of_app in Hap.
  exists (up_frame p). split_and!; [exact Hpage|exact Hc|exact Hk|exact Hroot| | |exact Hres].
  - intros Hin'. apply Hap. by left.
  - intros Hheap. apply Hap. right. destruct Hc as (j & Hj & _). unfold FRAME_SIZE in Hj.
    apply list_elem_of_fmap. exists j. split; [done|]. apply elem_of_seqZ. lia.
Qed.

End properties.

(** ** After the start: the keyboard *)

Section session.
Context {D : Type} `{Mmio D, !Ports D}.
Implicit Types s : system D.

(** The bytes the keyboard gives when it is read [n] times, with an end of
    interrupt at [base] after each. *)
Fixpoint scan_codes (n : nat) (base : Z) (d : D) : list Z :=
  match n with
  | O => []
  | S n => let '(byte, d) := inportb 0x60 d in u8 byte :: scan_codes n base (mmio_write (base + LAPIC_EOI_REG) 0 d)
  end.

(** The state but for the devices, the keys and the screen. *)
Definition same_system s s' : Prop :=
  k_vmm (memory s') = k_vmm (memory s) ∧ k_smp (memory s') = k_smp (memory s) ∧ idt s' = idt s ∧
  SYSCALLS s' = SYSCALLS s ∧ gdt s' = gdt s ∧ kheap s' = kheap s ∧ fetch_pcb s' = fetch_pcb s ∧
  LAPIC_BASE (local_apic s') = LAPIC_BASE (local_apic s).

Lemma heard_scancode info byte :
  0 ≤ byte < 256 → heard byte = true → 0 ≤ scancode (key_event info byte) < 128.
Proof.
  intros Hb Hh. destruct (key_event_flags info byte) as (_ & _ & _ & _ & ->). unfold heard in Hh.
  destruct (bool_decide (byte ∈ shift_codes)); [lia|]. rewrite orb_false_r in Hh. lia.
Qed.

(** One interrupt. *)
Lemma keyboard_interrupt_runs s :
  KEYSTROKE_CONSUMER (keys s) = Some HandleKeyStroke → tstate_ok (display s) →
  let '(byte, d) := inportb 0x60 (device s) in
  ∃ s' calls, keyboard_interrupt s = Done s' ∧ same_system s s' ∧
    device s' = mmio_write (LAPIC_BASE (local_apic s) + LAPIC_EOI_REG) 0 d ∧
    Isr1Handler (keys s) (u8 byte) = Done (calls, keys s') ∧ KEYSTROKE_CONSUMER (keys s') = Some HandleKeyStroke ∧
    keystrokes (display s) (map snd (option_list calls)) = Done (display s') ∧ tstate_ok (display s') ∧
    Forall (λ k, 0 ≤ scancode k < 128) (map snd (option_list calls)).
Proof.
  intros Hk Hok. unfold keyboard_interrupt. destruct (inportb 0x60 (device s)) as [byte d].
  pose proof (u8_range byte) as Hb. rewrite (Isr1Handler_spec (keys s) HandleKeyStroke (u8 byte) Hk Hb). do_bind.
  destruct (heard (u8 byte)) eqn:Hh.
  - pose proof (heard_scancode (KEY_INFO (keys s)) (u8 byte) Hb Hh) as Hsc.
    destruct (HandleKeyStroke_kept (display s) _ Hok Hsc) as (t & Ht & K & _). rewrite Ht. do_bind.
    eexists _, _. split; [done|]. split_and!; try done.
    + change (keystrokes (display s) [key_event (KEY_INFO (keys s)) (u8 byte)] = Done t).
      cbn [keystrokes]. rewrite Ht. by do_bind.
    + apply K.
    + by apply Forall_singleton.
  - do_bind. eexists _, _. split; [done|]. split_and!; try done.
Qed.

Lemma keystrokes_app t1 l1 l2 t2 : keystrokes t1 l1 = Done t2 → keystrokes t1 (l1 ++ l2) = keystrokes t2 l2.
Proof.
  revert t1. induction l1 as [|k l1 IH]; intros t1; cbn [keystrokes app]; [by intros [= ->]|].
  destruct (HandleKeyStroke t1 k) as [t| |]; [|done..]. do_bind. by apply IH.
Qed.

Lemma keyboard_session_runs n : ∀ s,
  KEYSTROKE_CONSUMER (keys s) = Some HandleKeyStroke → tstate_ok (display s) →
  ∃ s' calls, keyboard_session n s = Done s' ∧ same_system s s' ∧
    keyboard_run (keys s) (scan_codes n (LAPIC_BASE (local_apic s)) (device s)) = Done (calls, keys s') ∧
    keystrokes (display s) (map snd calls) = Done (display s') ∧
    Forall (λ k, 0 ≤ scancode k < 128) (map snd calls).
Proof.
  induction n as [|n IH]; intros s Hk Hok.
  { exists s, []. split_and!; try done. }
  pose proof (keyboard_interrupt_runs s Hk Hok) as H1. cbn [keyboard_session scan_codes].
  destruct (inportb 0x60 (device s)) as [byte d]. destruct H1 as (s1 & calls1 & -> & Hs & Hd & Hi & Hk1 & Hd1 & Hok1 & Hf1).
  do_bind. destruct (IH s1 Hk1 Hok1) as (s2 & calls2 & -> & Hs2 & Hr2 & Hd2 & Hf2).
  exists s2, (option_list calls1 ++ calls2). pose proof Hs as (?&?&?&?&?&?&?&Hbase). pose proof Hs2 as (?&?&?&?&?&?&?&?).
  split_and!; [done|unfold same_system; split_and!; congruence| | |].
  - cbn [keyboard_run]. rewrite Hi. do_bind. rewrite <-Hd, <-Hbase, Hr2. by do_bind.
  - rewrite map_app. by rewrite (keystrokes_app _ _ _ _ Hd1).
  - rewrite map_app. by apply Forall_app.
Qed.

(** C17: Typing.  With a terminal on the screen and its handler registered, any
    number of keyboard interrupts is handled without undefined behaviour,
    whatever bytes the keyboard gives: the calls of the handlers are those of
    [keyboard_run] on the bytes, the terminal is what those keystrokes make of
    it, it stays well formed and within its window, the screen shows the back
    buffer once a key was heard, and the rest of the kernel is as it was. *)
Theorem keyboard_session_spec n s :
  KEYSTROKE_CONSUMER (keys s) = Some HandleKeyStroke → tstate_ok (display s) → shown (gctx (display s)) →
  ∃ s' calls, keyboard_session n s = Done s' ∧ same_system s s' ∧
    keyboard_run (keys s) (scan_codes n (LAPIC_BASE (local_apic s)) (device s)) = Done (calls, keys s') ∧
    keystrokes (display s) (map snd calls) = Done (display s') ∧
    kept (display s) (display s') ∧ (calls ≠ [] → up_to_date (gctx (display s'))).
Proof.
  intros Hk Hok Hsh. destruct (keyboard_session_runs n s Hk Hok) as (s' & calls & H1 & H2 & H3 & H4 & H5).
  exists s', calls. destruct (keystrokes_kept _ _ Hok H5) as (t & Ht & K & _ & Hd).
  assert (t = display s') as -> by congruence. split_and!; try done. intros Hne.
  destruct (draw_steps_inv _ _ (ts_gfx _ Hok) Hsh (k_steps _ _ K)) as (Hg & _ & Hsh' & _).
  apply shown_up_to_date; [done|done|]. apply Hd. by destruct calls.
Qed.

(** A key pressed between [unmask_irq(1)] and [SetKeystrokeConsumer] is one
    too early: the handler calls a null pointer. *)
Theorem keyboard_too_early s :
  KEYSTROKE_CONSUMER (keys s) = None →
  (keyboard_interrupt s = Undefined ↔ heard (u8 (inportb 0x60 (device s)).1) = true).
Proof.
  intros Hk. unfold keyboard_interrupt. destruct (inportb 0x60 (device s)) as [byte d]. cbn [fst].
  pose proof (u8_range byte) as Hb. unfold Isr1Handler, GetKeystrokeConsumer. cbn [KEYSTROKE_CONSUMER]. rewrite Hk.
  destruct (key_event_flags (KEY_INFO (keys s)) (u8 byte)) as (_ & _ & _ & _ & ->). unfold heard.
  destruct (bool_decide_reflect (u8 byte ∈ shift_codes)) as [Hin|]; [by rewrite orb_true_r|].
  rewrite orb_false_r. destruct (u8 byte <? 0x80); [done|]. do_bind. done.
Qed.

End session.

(** ** A concrete machine

    The one of [Start], with a RAM disk of one program and the tags of the boot
    loader in its reserved memory, two processors and devices that keep every
    register as it is written. *)
Definition ex_name : list Z := [102].
Definition ex_program (m : mem) : mem :=
  let m := write_entry m 0x5002000 "f" 120 in
  let m := write_bytes m 0x5002200 [0x7F; 69; 76; 70] in
  let m := st64 (st64 (st 2 m 0x5002238 1) 0x5002218 0x1000) 0x5002220 64 in
  let m := st64 (st64 (st64 (st32 m 0x5002240 1) 0x5002248 0) 0x5002250 0x1000) 0x5002268 0x1000 in
  write_bytes (write_bytes m 0x5003000 ex_name) 0x5003200 [114].

Definition ex_tag (m : mem) (a id next : Z) : mem := st64 (st64 m (a + 8) next) a id.
Definition ex_tags : list (Z * Z) :=
  map (λ '(a, id), (a + KERNEL_DATA, id))
    [(0x5001100, STIVALE2_STRUCT_TAG_MODULES_ID); (0x5001200, STIVALE2_STRUCT_TAG_FRAMEBUFFER_ID);
     (0x5001300, STIVALE2_STRUCT_TAG_MEMMAP_ID); (0x5001400, STIVALE2_STRUCT_TAG_KERNEL_BASE_ADDRESS_ID);
     (0x5001500, STIVALE2_STRUCT_TAG_PMRS_ID); (0x5001600, STIVALE2_STRUCT_TAG_TERMINAL_ID);
     (0x5001700, STIVALE2_STRUCT_TAG_RSDP_ID); (0x5001800, STIVALE2_STRUCT_TAG_SMP_ID)].
Fixpoint ex_chain (m : mem) (l : list (Z * Z)) : mem :=
  match l with
  | [] => m
  | (a, id) :: l => ex_chain (ex_tag m (physical a) id (match l with (b, _) :: _ => b | [] => 0 end)) l
  end.

Definition words (m : mem) (a : Z) (l : list Z) : mem := foldr (λ '(i, v) m, st64 m (a + 8 * i) v) m (zip (seqZ 0 (Z.of_nat (length l))) l).
Definition ex_boot_mem : mem :=
  let m := ex_chain (ex_program ex_start_mem) ex_tags in
  let m := st64 m 0x5001080 (0x5001100 + KERNEL_DATA) in
  let m := write_bytes (words m 0x5001110 [1; 0x5002000 + KERNEL_DATA; 0]) 0x5001128 [114] in
  let m := st64 m 0x5001210 0x4000000 in
  let m := st 2 (st 2 (st 2 (st 2 m 0x5001218 1024) 0x500121A 768) 0x500121C 4096) 0x500121E 32 in
  let m := write_bytes m 0x5001220 [1; 8; 16; 8; 8; 8; 0] in
  let m := words m 0x5001310 [3; 0x1000; 0x1000; 1; 0x100000; 0x3000000; 1; 0x5000000; 0x10000; 3] in
  let m := words m 0x5001410 [0x200000; 0xffffffff80000000] in
  let m := words m 0x5001510 [2; 0xffffffff80000000; 0x5000; 5; 0xffffffff80005000; 0x2000; 6] in
  let m := words m 0x5001710 [0x5000000 + KERNEL_DATA] in
  words m 0x5001810 [0; 0; 2; 0; 0; 0; 0; 0x100000001; 0; 0; 0].

Definition ex_handover : handover :=
  Handover (0x5001100 + KERNEL_DATA) ex_fb ex_start_memmap ex_kern ex_pmrs 0x5000000 0x5001800 0
    [Smp 0 0 0 0 0; Smp 1 1 0 0 0].

Example ex_handed : handover_of (higher_half ex_boot_mem) ex_tags = ex_handover.
Proof. vm_compute. reflexivity. Qed.

Definition ex_system : system (Z → Z) :=
  System
    (Kernel (ex_vmm (Pmm {| num_entries := 0; last_used := 0; bitmap_size := 0; bitmap := 0; mem_size := 0;
                            max_blocks := 0; uppermost_addr := 0; used_blocks := 0 |} ex_boot_mem) 0)
       (Acpi [] 0 0 false) SMP_INFO_initial
       (Apics (repeat (Ioapic false 0 0 0 0 false 0) MAX_IOAPICS) (repeat default_attr 256) (λ _, 0)))
    ex_idt no_syscalls (Lapic 0 (repeat 0 256) 0 false (λ _, 0)) ex_gdt (Heap 0 0 ∅) 0 [] ex_pcb
    (Tstate (Term (Dims 0 0) (FontOf [] (Rgb 0 0 0) 0 0) 0 0 (Coord 0 0) (Coord 0 0) (Rgb 0 0 0) (Rgb 0 0 0) 0 [])
       (Gfx ex_fb 0 0 0 0 ∅))
    (Keyboard no_keys None).

Definition ex_img : image :=
  Image 0xffffffff80001000 0xffffffff80002000 0xffffffff80003000 0xffffffff80004000 0xffffffff80005000
    0xffffffff80006000 0xffffffff80007000 0xffffffff8000f000 0x1000000 0x5000300 0x5003200 0x5003000.

Definition ex_contents : contents :=
  Contents 0x5000200 [0x500022C; 0x5000234; 0x5000240] 0x5001100 [[114]] 0x5002000 [] ex_name 120.

Lemma ex_reserved_span a n : 0x5000000 ≤ a → a + n ≤ 0x5010000 → span_of (reserved ex_start_memmap) a n.
Proof. intros Ha Hn x Hx. split; [by apply (ex_start_reserved a n)|lia]. Qed.

Lemma ex_untouched_span a n :
  0x5000000 ≤ a → a + n ≤ 0x5010000 → a + n ≤ 0x5001828 ∨ 0x5001868 ≤ a → span_of (untouched ex_handover) a n.
Proof.
  intros Ha Hn Ho x Hx. split; [|lia]. split; [by apply (ex_start_reserved a n)|].
  unfold in_cpus. change (cpus_at ex_handover) with 0x5001828. change (_ * Z.of_nat _) with 64. lia.
Qed.

Lemma ex_machine_ok : machine_ok ex_img ex_system ex_handover ex_contents.
Proof.
  split.
  - by split.
  - done.
  - done.
  - exact ex_start_memory_ok.
  - exists 1%nat, (MmapEntry 0x100000 0x3000000 1). split_and!; [split_and!; done|vm_compute; discriminate..].
  - change (firmware_ok ex_start_memmap ex_boot_mem 0x5000000 0x5000300 0x5000200 [0x500022C; 0x5000234; 0x5000240]).
    firmware_by_computation.
  - vm_compute. intuition discriminate.
  - reflexivity.
  - split.
    + vm_compute. reflexivity.
    + intros [|i] str Hi; [|done]. injection Hi as <-. split; [vm_compute; intuition discriminate|cbn; lia].
    + exists [114], 0%nat. split_and!; [vm_compute; intuition discriminate|cbn; lia|reflexivity|vm_compute; reflexivity].
  - split.
    + exact I.
    + split; vm_compute; try reflexivity; repeat split; discriminate.
    + vm_compute. intuition discriminate.
    + by intros ?%elem_of_nil.
    + apply Forall_singleton. cbn. lia.
  - split; vm_compute; discriminate.
  - intros i c Hi. do 4 (destruct i as [|i]; [injection Hi as <-; vm_compute; reflexivity|]). done.
  - vm_compute. reflexivity.
  - apply ex_reserved_span; vm_compute; discriminate.
  - apply ex_untouched_span; first [by left|vm_compute; discriminate].
  - split; apply ex_untouched_span; first [by right|vm_compute; discriminate].
  - apply ex_untouched_span; first [by right|vm_compute; discriminate].
Qed.

Lemma ex_tags_at :
  tags_at (boot_view ex_system) (member stivale2_struct_fields (boot_view ex_system) (0x5001000 + KERNEL_DATA) "tags")
    ex_tags.
Proof.
  change (boot_view ex_system) with (higher_half ex_boot_mem).
  assert (Hchain : ∀ a l, tags_at (higher_half ex_boot_mem) (next (higher_half ex_boot_mem) a) l →
    a ≠ 0 → ∀ t, t = (a, identifier (higher_half ex_boot_mem) a) → tags_at (higher_half ex_boot_mem) a (t :: l))
    by (intros a l Hl Ha t ->; by constructor).
  replace (member _ _ _ _) with (0x5001100 + KERNEL_DATA) by (vm_compute; reflexivity).
  unfold ex_tags. cbn [map].
  do 8 (apply Hchain; [|discriminate|vm_compute; reflexivity];
        match goal with |- tags_at _ ?a _ => let b := eval vm_compute in a in replace a with b by (vm_compute; reflexivity) end).
  constructor.
Qed.

Lemma ex_tags_present : tags_present ex_tags.
Proof. unfold tags_present, required_tags. repeat constructor; vm_compute; discriminate. Qed.

Lemma ex_image_ok : image_ok ex_img.
Proof. split; vm_compute; intuition discriminate. Qed.

Lemma ex_handover_of : handover_of (boot_view ex_system) ex_tags = ex_handover.
Proof. exact ex_handed. Qed.



(** A keyboard that gives the byte 0 whenever it is read, and the terminal of
    [ex_session]. *)
Definition ex_desktop (t : tstate) : system (Z → Z) :=
  let s := ex_system in
  System (memory s) (idt s) (SYSCALLS s) (local_apic s) (gdt s) (kheap s) 0 [] (fetch_pcb s) t
    (Keyboard no_keys (Some HandleKeyStroke)).

Lemma ex_zeros (c : keystroke_consumer) calls k' :
  keyboard_run (Keyboard no_keys (Some c)) [0; 0; 0] = Done (calls, k') → map (scancode ∘ snd) calls = [0; 0; 0].
Proof. intros Hr. vm_compute in Hr. by injection Hr as <- _. Qed.

Lemma keyboard_session_spec_witness : ∃ t s' (calls : list (keystroke_consumer * KeyInfo)),
  keyboard_session 3 (ex_desktop t) = Done s' ∧
  keystrokes t (map snd calls) = Done (display s') ∧ map (scancode ∘ snd) calls = [0; 0; 0] ∧
  up_to_date (gctx (display s')).
Proof.
  destruct ex_session as (_ & t & _ & _ & _ & Hok & Hsh).
  destruct (keyboard_session_spec 3 (ex_desktop t) eq_refl Hok Hsh) as (s' & calls & H1 & _ & H2 & H3 & _ & H4).
  assert (Hc : map (scancode ∘ snd) calls = [0; 0; 0]).
  { apply (ex_zeros HandleKeyStroke calls (keys s')). exact H2. }
  exists t, s', calls. split; [exact H1|]. split; [exact H3|]. split; [exact Hc|].
  apply H4. by intros ->.
Defined.

Lemma keyboard_too_early_witness : keyboard_interrupt ex_system = Undefined.
Proof. apply (keyboard_too_early ex_system eq_refl). reflexivity. Defined.

Lemma program_confined_witness : ∃ (s' : system (Z → Z)) font,
  start_components ex_img (λ _, 0) 0 (λ _, (50%nat, id)) (λ _, Done []) 600 ex_system (0x5001000 + KERNEL_DATA) =
    Done (s', ex_handover, font) ∧
  let v := k_vmm (memory s') in
  ∀ n, 0 ≤ n < 2 ^ 36 → user_page_at (pmm_mem (world v)) (pagemap (fetch_pcb s')) n = true →
  ∃ f, pages (pmm_mem (world v)) (pagemap (fetch_pcb s')) n = Z.lor f USER_PROC_PAGE ∧ ¬ is_table (world v) (cr3 v) f.
Proof.
  destruct (program_confined ex_img (λ _, 0) 0 (λ _, (50%nat, id)) (λ _, Done []) 600 ex_system
    (0x5001000 + KERNEL_DATA) ex_tags ex_contents) as (s' & font & H1 & H2).
  - exact ex_tags_at.
  - exact ex_tags_present.
  - exact ex_image_ok.
  - rewrite ex_handover_of. exact ex_machine_ok.
  - rewrite ex_handover_of. split; [reflexivity|reflexivity|repeat constructor..].
  - intros k. cbn. lia.
  - cbn. lia.
  - cbn. lia.
  - lia.
  - cbn. lia.
  - rewrite ex_handover_of in H1. exists s', font. split; [exact H1|]. intros v n Hn Hu.
    destruct (H2 n Hn Hu) as (f & H3 & _ & H4 & _). exists f. split; [exact H3|exact H4].
Defined.
